(* ===== verification/_CoqProject ===== *)
-Q . S2P
Prelude.v
Perthings.v
Buffers.v
ComputeTypes.v
ComputePools.v
Rewards.v
Staking.v
Delegation.v
ComputeMetrics.v
ComputeCalls.v
Reference.v
Frames.v
StakeLedger.v
StakingSim.v
StakingSpecs.v
Exits.v
RewardSpecs.v
AccrualSpecs.v
PoolSpecs.v
PoolInvariant.v
EpochSpecs.v
CallSpecs.v
ClaimSpecs.v
Schedules.v
ScheduleSpecs.v
Attestations.v
JobTypes.v
Reputation.v
Jobs.v
Payments.v
Reporting.v
Matching.v
Marketplace.v
JobFrames.v
JobInvariant.v
JobSolvency.v
JobReference.v
MatchSpecs.v
ReportSpecs.v
MarketSpecs.v
BridgeTypes.v
Ibc.v
HyperdriveToken.v
Hyperdrive.v
Bridge.v
BridgeReference.v
SignatureSpecs.v
WorldSteps.v
FeeSpecs.v
TransferSpecs.v
CodecSpecs.v
IsolationSpecs.v
WorldSolvency.v
Balances.v
TokenClaim.v
BalancesReference.v
TokenClaimSpecs.v
TokenConversion.v
TokenConversionSpecs.v
ManagerTypes.v
Managers.v
ManagerSpecs.v
Transactions.v
TransactionSpecs.v
AttestationParsing.v
Certificates.v
AttestationSpecs.v
Treasury.v
MultiSignatures.v
Contracts.v
InkIbc.v
InkProxy.v
InkChain.v
InkSpecs.v
InkJobs.v
InkReference.v
Gear.v
VaraIbc.v
VaraProxy.v
VaraSpecs.v
