(* ===== verification/Prelude.v ===== *)
(** * A verification of the Acurast parachain

    The program is the runtime of the Acurast parachain under [src/]: a set of
    FRAME pallets written in Rust, composed by [src/runtime/].  A pallet keeps its
    state in typed storage items; it changes them in extrinsics (signed calls,
    each inside a transaction), in hooks that run with every block and in calls
    from other pallets.

    ** The compute pallet ([src/pallets/compute/src/])

    Processors report benchmark metrics with every heartbeat; committers stake
    tokens on the compute of a manager and accept delegations; every epoch the
    inflation is divided among metric pools, collators and commitments, and
    commitments that miss their metrics are slashed.  The model follows the
    files of the pallet:

    - [Buffers.v]: [datastructures/memory_buffer.rs], [provisional_buffer.rs] and
      [sliding_buffer.rs], a Module each;
    - [ComputeTypes.v]: [types.rs] and, from [lib.rs], the storage items (record
      [State], one field per item), the constants (class [Config]), the errors
      and the events, with [try_mutate] and the getters of FRAME's storage API;
    - [ComputePools.v]: metric pools, the epoch clock, inflation, the
      [on_initialize] hook and the genesis build;
    - [Rewards.v]: the part of [staking.rs] on committed metrics, scores and the
      distribution of the pools' budgets;
    - [Staking.v], [Delegation.v]: the rest of [staking.rs]: locks, totals,
      committers, delegators, accrual, cooldowns, slashing;
    - [ComputeMetrics.v]: heartbeats, [functions.rs] and [hooks.rs];
    - [ComputeCalls.v]: the dispatchable calls of [lib.rs] and [dispatch].

    ** The job pallets ([src/pallets/acurast/], [src/pallets/marketplace/])

    Consumers register jobs: a script, a schedule of executions and a reward,
    which is locked.  Matchers propose processors for a job; the processors
    acknowledge, run the executions and report, for which they are paid;
    consumers remove jobs and get back what is left.  The registry of jobs
    ([pallet_acurast]) calls the marketplace through the hooks of the trait
    [JobHooks], the marketplace pays through the trait [RewardManager]; both
    traits are type classes here, so that the registry and the marketplace are
    verified against the interface.

    - [Schedules.v]: [Schedule] and [ScheduleIter] of
      [acurast/common/src/types.rs];
    - [Attestations.v]: the stored attestations of
      [acurast/common/src/types/bounded_attestation.rs] and the checks of
      [src/runtime/common/src/utils.rs] and [barrier.rs];
    - [JobTypes.v]: the data of both pallets, their storage items in one record
      [State], constants (class [JobConfig]), errors and events;
    - [Reputation.v]: [marketplace/reputation/src/lib.rs];
    - [Jobs.v]: [acurast/src/lib.rs], [functions.rs] and [utils.rs];
    - [Payments.v]: [marketplace/src/payments.rs] and the budgets of [lib.rs];
    - [Reporting.v]: [marketplace/src/functions.rs];
    - [Matching.v]: [marketplace/src/match_checker.rs] and [utils.rs];
    - [Marketplace.v]: [marketplace/src/hooks.rs], the calls of
      [marketplace/src/lib.rs], and one [dispatch] for the calls of both pallets.

    ** The bridge ([src/pallets/hyperdrive/], [hyperdrive-ibc/], [hyperdrive-token/])

    Consumers on other chains register jobs and move tokens by messages.  A
    message is signed by oracles, stored, delivered to a recipient inside the
    runtime and confirmed to its sender; sending costs a fee that is put on hold
    and, in the end, is either paid to the relayer or returned.

    - [BridgeTypes.v]: chains, subjects, messages, actions, the wire records of
      the proxies and the storage items of the three pallets (record
      [BridgeState]), constants (class [BridgeConfig]), errors and events;
    - [Ibc.v]: [hyperdrive-ibc/src/lib.rs], generic in the state of the
      recipients, which it reaches through the trait [MessageProcessor];
    - [HyperdriveToken.v]: [hyperdrive-token/src/lib.rs] and the binary format of
      [hyperdrive-token/src/chain/];
    - [Hyperdrive.v]: [hyperdrive/src/lib.rs] and [chain/substrate.rs], generic
      in the trait [ActionExecutor];
    - [Bridge.v]: what the runtimes compose.  The state of the bridge is the
      foreign state [JExt] of the job pallets (instance [bridge_market] of
      [JobExternals]), so that the hooks of the marketplace send messages; a
      message that arrives registers, finalizes or removes jobs; [World] is the
      state of the job pallets over that of the bridge, [dispatch_bridge] and
      [world_step] are its transitions.

    ** The tokens ([src/pallets/token-claim/], [token-conversion/], [rewards-treasury/])

    Holders of a signed claim are paid tokens that vest over time; tokens of one
    network are burned and paid, partly locked, on the other; the income of the
    treasury is burned some time later.

    - [Balances.v]: what the pallets of FRAME offer (currency with holds, unique
      items, accounts, clock), a class over the state that carries it;
    - [TokenClaim.v]: [token-claim/src/lib.rs] and [types.rs];
    - [TokenConversion.v]: [token-conversion/src/lib.rs] and [types.rs], generic in
      the trait [MessageSender] of the bridge;
    - [Treasury.v]: [rewards-treasury/src/lib.rs] and
      [candidate-preselection/src/lib.rs].

    ** Processors and transactions ([src/pallets/processor-manager/], [src/runtime/])

    A processor is paired with a manager, who signs the pairing; managers pay for
    transactions of their processors, and new processors are onboarded with funds.

    - [ManagerTypes.v], [Managers.v]: [processor-manager/src/types.rs],
      [functions.rs] and [lib.rs], and the provider of manager ids of the runtimes;
    - [Transactions.v]: [processor-manager/src/onboarding.rs],
      [runtime/common/src/check_nonce.rs] and [types/transaction_charger.rs], and a
      transaction as the runtimes validate, charge, apply and settle it;
    - [MultiSignatures.v]: the signatures of accounts, [src/p256-crypto/src/].

    ** Attestations ([src/pallets/acurast/common/src/attestation*])

    A processor proves with a chain of certificates that its key lives in the
    secure hardware of a phone.

    - [AttestationParsing.v]: the structures and hand-written parsers of
      [attestation/asn.rs] (Module [Asn]) and the conversions of
      [types/bounded_attestation.rs];
    - [Certificates.v]: [attestation.rs], and the submission of an attestation, in
      [acurast/src/lib.rs], [functions.rs] and [utils.rs].

    ** The contracts on Aleph Zero ([src/hyperdrive/ink/])

    The other end of the bridge: a contract that sends and receives the messages,
    and one that stands for the job pallets there and takes the payments.

    - [Contracts.v]: what ink's environment gives a contract (caller, value,
      transfers, blocks; class [Host]) and how a call of another contract ends;
    - [InkIbc.v]: [ibc-ink/lib.rs] (Module [Ink]); [InkProxy.v]: [proxy/lib.rs]
      (Module [Proxy]);
    - [InkChain.v]: a chain that runs both.  The state of the chain carries the
      two storages, a call of one contract by the other is its [dispatch] there,
      a call of a contract that is already running is denied, and [ink_step] is
      one call, block or action of someone else.

    ** The programs on Vara ([src/hyperdrive/vara/])

    The same two parts once more, for a chain on which programs talk to each other by
    messages and await replies, so that their calls interleave.

    - [Gear.v]: computations with awaits, the slices they run in, and a network of
      programs with every interleaving of slices, replies and timeouts;
    - [VaraIbc.v]: [vara-ibc/src/] (Module [VIbc]); [VaraProxy.v]:
      [vara-proxy/src/] (Module [VProxy]);
    - [VaraSpecs.v]: the network of both, its theorems and a concrete run.

    ** The style of the definitions

    There is one definition per Rust function, with the function's name; a
    closure or a loop body that is long has a definition of its own.  A function
    that touches the storage is a computation of the monad [M] of this file: a
    function from the state to an outcome (a value, an error, a panic) and the
    new state.  An error keeps the writes made before it, as in Rust;
    [with_transaction], which FRAME puts around every extrinsic, undoes them.

    ** What is a parameter

    The pallets that the compute pallet calls (currency with locks and
    imbalances, NFT register behind the id providers, token conversion behind
    [T::Slashable], inflation handler, block author) are the class [Externals]
    of [ComputeTypes.v]; those that the job pallets call (currency, clock,
    hashing, base58, prices, versions and metrics of processors, hooks of
    foreign chains) are the class [JobExternals] of [JobTypes.v]; those that the
    bridge calls (currency with holds, hashing, signature recovery, the derived
    SCALE codecs) are the class [BridgeExternals] of [BridgeTypes.v].  The pallets
    of FRAME below the token pallets and the processor manager are the class
    [Balances] of [Balances.v]; signatures of accounts, the encoding of account
    ids and what a processor's calls reach are [Signatures], [AccountCodec],
    [ProcessorHandlers] and [RuntimeCalls]; the parsers that the asn1 crate
    derives, the cryptography of certificates, the trusted keys and the calendar
    are [Asn1], [Crypto], [TrustedKeys] and [Chrono].  The contracts use [Host],
    [Ink.Crypto], [Ink.Invoke], [Ink.Upgrade] and, for the SCALE codec of their
    payloads, [Proxy.Codec]; [InkChain] is what else the chain does.  The programs
    on Vara use [MsgSend], [VIbc.Crypto], [VProxy.Encoding] and [VaraChain]; a
    value that is sent along becomes the program's with the first slice.  Signatures
    use [P256Crypto.Primitives].  The fixed-point types of [sp_arithmetic] are the classes [Perthings] of
    [Perthings.v] and [FixedOps] of [Reputation.v] with their documented laws.
    Where a theorem needs more of them than their types it says so in a named
    hypothesis ([credit_laws] in [EpochSpecs.v], [currency_laws] and
    [config_ok] in [JobSolvency.v], [payout_laws] in [MarketSpecs.v],
    [hold_laws] in [FeeSpecs.v], [bridge_currency_laws] in [WorldSolvency.v],
    [transfer_law] in [TokenClaimSpecs.v], [conversion_laws], [unlock_laws] and
    [sender_laws] in [TokenConversionSpecs.v], [manager_world_laws] and
    [account_codec_laws] in [ManagerSpecs.v], [fee_laws] in [TransactionSpecs.v],
    [burn_law] in [Treasury.v], [ibc_laws] and [chain_laws] in
    [InkSpecs.v], [wire_laws] in [InkJobs.v], [base64_laws] in [MultiSignatures.v]).
    [Reference.v], [JobReference.v], [BridgeReference.v], [BalancesReference.v],
    [InkReference.v] and the beginnings of [ManagerSpecs.v] and
    [AttestationSpecs.v] instantiate all of them with executable definitions and
    the constants of the mainnet runtime, and hold a run of the chain, at whose
    states every theorem with a hypothesis is applied.

    ** Integers, bounds, iteration

    Unsigned integers are [Z] with their width in the operations: checked,
    saturating, wrapping and panicking arithmetic are separate definitions, and
    [+] on integers wraps, as in the release profile.  Loops of the code run
    over lists ([mfor], [mfold]) or over storage maps: over keys of type [u8],
    which FRAME iterates in ascending order because they are hashed with
    [Identity] ([iter_u8], [iter_prefix]), or over the entries under a first
    key, in the order of the storage keys of the second ([prefix_entries]),
    whose hashes are parameters ([job_key], [account_key]).  Only the iterator
    of a schedule needs fuel ([collect]); [iter_fuel], one more than the
    executions there are, is enough ([schedule_iter_lists_starts]).

    ** The theorems

    - Staking ([StakeLedger.v], [StakingSim.v], [StakingSpecs.v]): an abstract ledger of positions with deposits,
      withdrawals and slashes; every extrinsic, heartbeat and block refines it
      ([staking_refines_ledger]), so the stored totals are the sums of the
      positions.  [Exits.v]: a delegation ends after its
      cooldown, with its commitment, or by a move in which the amount stays locked.
    - Rewards ([RewardSpecs.v], [AccrualSpecs.v]): splits conserve the reward,
      the rewards of an epoch stay within the budget, scores are bounded,
      delegators accrue no more than was set aside for them, accruing twice is
      accruing once.
    - Pools and epochs ([PoolSpecs.v], [PoolInvariant.v], [EpochSpecs.v]): the
      validation of the pools' shares is complete and makes the pools consistent
      in every reachable state; the block hook never fails and epochs follow the
      block numbers; inflation is split without loss and the pools' budgets stay
      within it.
    - Heartbeats and calls of the compute pallet ([ClaimSpecs.v],
      [CallSpecs.v]): claims on metric rewards stay within the reward, failed
      calls change nothing, a commitment is slashed at most once per epoch,
      metrics can be kept as promised, commissions rise slowly, the warmup earns
      nothing.  [Buffers.v]: the epoch buffers against their histories.
    - Schedules ([ScheduleSpecs.v]): the iterator, the current execution, the
      overlap test where it is exact (and examples where it is not), expiry.
    - Jobs ([JobInvariant.v], [JobSolvency.v], [MarketSpecs.v]): the tables of
      the marketplace agree in every reachable state, the account of the pallet
      covers all budgets, a removed job leaves nothing behind, a job that nobody
      has acknowledged can be taken back and is refunded, only the editor changes a script.  [MatchSpecs.v]: executions of one
      processor do not collide.  [ReportSpecs.v]: when a report counts, and for
      which execution.
      [Reputation.v]: reputation stays in its range.
    - The bridge ([SignatureSpecs.v], [FeeSpecs.v], [TransferSpecs.v],
      [CodecSpecs.v]): a message is accepted exactly if enough distinct, active
      oracles signed it; the fees of all pending messages are on hold, and each
      leaves the hold by a confirmed delivery in time or, afterwards, by a removal; a transfer that comes in is paid at
      most once; the format of transfers is read back as written.
    - The bridge and the job pallets together ([WorldSteps.v], [IsolationSpecs.v],
      [WorldSolvency.v]): a foreign chain
      touches only its own jobs, by messages that enough oracles have signed; every step of the composed system is a step of
      the job pallets' interface, so that the account of the pallet covers the
      budgets of all jobs, the bridged ones included, with the currency's laws
      proved of the instance rather than assumed.
    - Tokens ([TokenClaimSpecs.v], [TokenConversionSpecs.v], [Treasury.v]): vesting
      pays what is due, however often it is called, and nobody more than granted;
      what the conversion pallet has recorded as locked is on hold, and unlocking
      takes the penalty that the time requires.
    - Processors ([ManagerSpecs.v]): the two tables of pairings agree, only the
      owner ends a pairing, a signature pairs once.  [TransactionSpecs.v]: a
      transaction is applied once, its fee is settled exactly, by who agreed to
      pay it, and onboarding funds are capped.  [MultiSignatures.v]: which messages, and which
      pairs of a prefix and a message, a signature that verifies can share.
    - Attestations ([AttestationSpecs.v]): what is stored was signed from a trusted
      root on, for the key of its account, and fresh; what is stored of it is what the
      certificate says, if that fits; and what the validation of chains does not exclude.
    - The contracts ([InkSpecs.v]): a message is received once,
      relayers find every pending message.  [InkJobs.v] puts them together with
      the pallets of the bridge: what a user of the proxy asks for is what the
      pallet decodes, for that user and within the proxy's jobs; the payment
      covers what the marketplace will take; and no setting of the pallet lets
      messages go both ways.
    - The programs on Vara ([VaraSpecs.v]), in every interleaving: each message that is
      received is passed on exactly once and in order, the terms of a job stay, and
      two calls that wait at the same time get in each other's way.
    - [Frames.v] and [JobFrames.v] hold what functions leave alone and the rules
      for their successful runs, used by all of these.

    ** Not modelled

    Weights (FRAME's cost accounting) and benchmarks; storage migrations, which run
    once on layouts that the modelled storage no longer has; the node, mocks and
    tests; vendored cryptography; the wiring of the runtimes apart from their
    constants and the composition of [Bridge.v] and [Transactions.v]; the
    extensions of a transaction that belong to FRAME; the readers and writers that
    the asn1 and SCALE crates derive; the light client that the contract for messages
    on Aleph Zero has replaced, and the consumers, which demonstrate a call. *)
From Stdlib Require Import ZArith Lia.
From stdpp Require Export base gmap list numbers sorting relations.
#[global] Open Scope Z_scope.

(** * Machine integers

    Every integer of the runtime is an unsigned integer of a fixed width; it is
    modelled by its value in [Z], and the arithmetic that the Rust code selects
    (checked, saturating, wrapping, panicking) is written out per operation. *)
Definition u8_max : Z := 2 ^ 8 - 1.
Definition u32_max : Z := 2 ^ 32 - 1.
Definition u64_max : Z := 2 ^ 64 - 1.
Definition u128_max : Z := 2 ^ 128 - 1.
Definition u256_max : Z := 2 ^ 256 - 1.

Definition checked_add (mx a b : Z) : option Z :=
  if a + b <=? mx then Some (a + b) else None.
Definition checked_mul (mx a b : Z) : option Z :=
  if a * b <=? mx then Some (a * b) else None.
Definition checked_sub (a b : Z) : option Z :=
  if b <=? a then Some (a - b) else None.
Definition checked_div (a b : Z) : option Z :=
  if b =? 0 then None else Some (a / b).
Definition saturating_add (mx a b : Z) : Z := Z.min (a + b) mx.
Definition saturating_mul (mx a b : Z) : Z := Z.min (a * b) mx.
Definition saturating_sub (a b : Z) : Z := Z.max 0 (a - b).
(** a saturating conversion into an unsigned type: clamped at both ends *)
Definition saturated_into (mx a : Z) : Z := Z.max 0 (Z.min a mx).
Definition wrapping_add (mx a b : Z) : Z := (a + b) mod (mx + 1).
Definition wrap_as (mx a : Z) : Z := a mod (mx + 1).

(** * Outcomes and the storage monad

    A call returns a value, returns an error, or panics.  An error does not by
    itself undo the storage writes made before it: only [with_transaction],
    which FRAME wraps around every extrinsic, does. *)
Inductive outcome (E A : Type) : Type :=
| Ok (a : A)
| Err (e : E)
| Panic.
Arguments Ok {E A} a.
Arguments Err {E A} e.
Arguments Panic {E A}.

Definition M (S E A : Type) : Type := S -> outcome E A * S.

Section monad.
Context {S E : Type}.

Definition ret {A} (a : A) : M S E A := fun s => (Ok a, s).
Definition throw {A} (e : E) : M S E A := fun s => (Err e, s).
Definition panic {A} : M S E A := fun s => (Panic, s).
Definition bind {A B} (m : M S E A) (f : A -> M S E B) : M S E B :=
  fun s => match m s with
           | (Ok a, s') => f a s'
           | (Err e, s') => (Err e, s')
           | (Panic, s') => (Panic, s')
           end.
Definition gets {A} (f : S -> A) : M S E A := fun s => (Ok (f s), s).
Definition modify (f : S -> S) : M S E unit := fun s => (Ok tt, f s).
(** [ensure!(b, e)] *)
Definition ensure (b : bool) (e : E) : M S E unit :=
  if b then ret tt else throw e.
(** [o.ok_or(e)?] *)
Definition ok_or {A} (o : option A) (e : E) : M S E A :=
  match o with Some a => ret a | None => throw e end.
(** A conversion or operator that panics on [None]. *)
Definition or_panic {A} (o : option A) : M S E A :=
  match o with Some a => ret a | None => panic end.
(** [.map_err(|_| e)] *)
Definition map_err {A} (e : E) (m : M S E A) : M S E A :=
  fun s => match m s with (Err _, s') => (Err e, s') | r => r end.
(** [.unwrap_or_default()] on a result: the error is dropped, the writes stay. *)
Definition unwrap_or {A} (d : A) (m : M S E A) : M S E A :=
  fun s => match m s with (Err _, s') => (Ok d, s') | r => r end.
(** [for x in l { f(x)?; }] *)
Fixpoint mfor {A} (l : list A) (f : A -> M S E unit) : M S E unit :=
  match l with
  | [] => ret tt
  | x :: l' => bind (f x) (fun _ => mfor l' f)
  end.
(** A loop that also threads the mutable locals of the function. *)
Fixpoint mfold {A B} (l : list A) (b : B) (f : B -> A -> M S E B) : M S E B :=
  match l with
  | [] => ret b
  | x :: l' => bind (f b x) (fun b' => mfold l' b' f)
  end.
(** The storage layer around an extrinsic: an error rolls every write back. *)
Definition with_transaction {A} (m : M S E A) : M S E A :=
  fun s => match m s with
           | (Ok a, s') => (Ok a, s')
           | (Err e, _) => (Err e, s)
           | (Panic, _) => (Panic, s)
           end.

(** The two halves of a run. *)
Definition result {A} (m : M S E A) (s : S) : outcome E A := (m s).1.
Definition exec {A} (m : M S E A) (s : S) : S := (m s).2.

Lemma result_exec {A} (m : M S E A) s o : result m s = o -> m s = (o, exec m s).
Proof. unfold result, exec. intros <-. apply surjective_pairing. Qed.
End monad.

(** Writing an optional map entry: [None] removes the key. *)
Definition put_opt {K A} `{Countable K} (k : K) (o : option A) (m : gmap K A) : gmap K A :=
  match o with Some a => <[k:=a]> m | None => delete k m end.

(** Runs a computation on a part of a larger state. *)
Definition zoom {S T E A} (prj : T -> S) (upd : S -> T -> T) (m : M S E A) : M T E A :=
  fun t => let '(r, s') := m (prj t) in (r, upd s' t).

Declare Scope monad_scope.
Notation "'let*' x := m 'in' k" := (bind m (fun x => k))
  (at level 10, x pattern, m at level 200, k at level 200, only parsing) : monad_scope.
Notation "m ';;' k" := (bind m (fun _ => k))
  (at level 100, k at level 200, right associativity) : monad_scope.
#[global] Open Scope monad_scope.

Section monad_laws.
Context {S E : Type}.
Implicit Types s : S.

Lemma ret_ok {A} (a b : A) s s' :
  ret (E:=E) a s = (Ok b, s') <-> a = b /\ s = s'.
Proof. unfold ret. naive_solver. Qed.

Lemma throw_ok {A} (e : E) (b : A) s s' : throw e s = (Ok b, s') <-> False.
Proof. unfold throw. naive_solver. Qed.

Lemma panic_ok {A} (b : A) s s' : panic (E:=E) s = (Ok b, s') <-> False.
Proof. unfold panic. naive_solver. Qed.

Lemma bind_ok {A B} (m : M S E A) (f : A -> M S E B) b s s' :
  bind m f s = (Ok b, s') <-> exists a s1, m s = (Ok a, s1) /\ f a s1 = (Ok b, s').
Proof. unfold bind. destruct (m s) as [[] ?]; naive_solver. Qed.

Lemma gets_ok {A} (f : S -> A) b s s' :
  gets (E:=E) f s = (Ok b, s') <-> f s = b /\ s = s'.
Proof. unfold gets. naive_solver. Qed.

Lemma modify_ok (f : S -> S) (b : unit) s s' :
  modify (E:=E) f s = (Ok b, s') <-> f s = s'.
Proof. unfold modify. destruct b. naive_solver. Qed.

Lemma ensure_ok (c : bool) (e : E) (b : unit) s s' :
  ensure c e s = (Ok b, s') <-> c = true /\ s = s'.
Proof. unfold ensure, ret, throw. destruct c, b; naive_solver. Qed.

Lemma ok_or_ok {A} (o : option A) (e : E) a s s' :
  ok_or o e s = (Ok a, s') <-> o = Some a /\ s = s'.
Proof. unfold ok_or, ret, throw. destruct o; naive_solver. Qed.

Lemma or_panic_ok {A} (o : option A) a s s' :
  or_panic (E:=E) o s = (Ok a, s') <-> o = Some a /\ s = s'.
Proof. unfold or_panic, ret, panic. destruct o; naive_solver. Qed.

Lemma map_err_ok {A} (e : E) (m : M S E A) a s s' :
  map_err e m s = (Ok a, s') <-> m s = (Ok a, s').
Proof. unfold map_err. destruct (m s) as [[] ?]; naive_solver. Qed.

Lemma with_transaction_ok {A} (m : M S E A) a s s' :
  with_transaction m s = (Ok a, s') <-> m s = (Ok a, s').
Proof. unfold with_transaction. destruct (m s) as [[] ?]; naive_solver. Qed.

(** What a transaction guarantees: without success nothing is written. *)
Lemma with_transaction_rollback {A} (m : M S E A) o s s' :
  with_transaction m s = (o, s') -> (exists a, o = Ok a) \/ s' = s.
Proof. unfold with_transaction. destruct (m s) as [[] ?]; naive_solver. Qed.
End monad_laws.

Create Rewrite HintDb m_ok.
#[export] Hint Rewrite @ret_ok @throw_ok @panic_ok @bind_ok @gets_ok @modify_ok @ensure_ok
  @ok_or_ok @or_panic_ok @map_err_ok @with_transaction_ok : m_ok.

(** [inv_ok H] turns a successful run into the successful runs of its steps, as
    far as the steps have a rule in [m_ok]. *)
Ltac inv_ok_rec H :=
  lazymatch type of H with
  | False => destruct H
  | _ /\ _ => let H' := fresh "Hok" in destruct H as [H' H]; inv_ok_rec H'; inv_ok_rec H
  | exists x, _ => let y := fresh x in destruct H as [y H]; inv_ok_rec H
  | _ = (Ok _, _) => tryif progress autorewrite with m_ok in H then inv_ok_rec H else idtac
  | _ = Some _ => tryif progress autorewrite with m_ok in H then inv_ok_rec H else idtac
  | _ => idtac
  end.
Ltac inv_ok H := inv_ok_rec H; simplify_eq/=.

(** * Bounds of the integer operations *)
Lemma checked_add_Some mx a b c : checked_add mx a b = Some c <-> c = a + b /\ c <= mx.
Proof. unfold checked_add. destruct (Z.leb_spec (a + b) mx); naive_solver lia. Qed.
Lemma checked_mul_Some mx a b c : checked_mul mx a b = Some c <-> c = a * b /\ c <= mx.
Proof. unfold checked_mul. destruct (Z.leb_spec (a * b) mx); naive_solver lia. Qed.
Lemma checked_sub_Some a b c : checked_sub a b = Some c <-> c = a - b /\ b <= a.
Proof. unfold checked_sub. destruct (Z.leb_spec b a); naive_solver lia. Qed.
Lemma checked_div_Some a b c : checked_div a b = Some c <-> c = a / b /\ b <> 0.
Proof. unfold checked_div. destruct (Z.eqb_spec b 0); naive_solver lia. Qed.
#[export] Hint Rewrite checked_add_Some checked_mul_Some checked_sub_Some checked_div_Some : m_ok.

Lemma div_mul_le a b : 0 < b -> a / b * b <= a.
Proof. intros. pose proof (Z.mul_div_le a b). lia. Qed.

(** A proportional share [w * r / t] of [r] never exceeds [r]. *)
Lemma share_le w r t : 0 <= r -> 0 <= w <= t -> w * r / t <= r.
Proof.
  intros Hr Hw. destruct (decide (t = 0)) as [->|].
  - rewrite Zdiv_0_r. lia.
  - apply Z.div_le_upper_bound; nia.
Qed.

(** * Sums over finite maps

    The totals that the storage keeps are stated as sums over the maps they
    summarise. *)
Section gsum.
Context {K A : Type} `{Countable K}.
Implicit Types (m : gmap K A) (f g : K -> A -> Z).

Definition gsum f m : Z := map_fold (fun k a acc => f k a + acc) 0 m.

Lemma gsum_empty f : gsum f ∅ = 0.
Proof. unfold gsum. by rewrite map_fold_empty. Qed.

Lemma gsum_insert_new f m k a : m !! k = None -> gsum f (<[k:=a]> m) = f k a + gsum f m.
Proof. intros Hk. unfold gsum. rewrite map_fold_insert_L; [done| |done]. intros. lia. Qed.

Lemma gsum_delete f m k : gsum f (delete k m) = gsum f m - from_option (f k) 0 (m !! k).
Proof.
  destruct (m !! k) as [a|] eqn:Hk; simpl.
  - rewrite <-(insert_delete_id m k a Hk) at 2.
    rewrite gsum_insert_new by apply lookup_delete_eq. lia.
  - rewrite delete_id by done. lia.
Qed.

Lemma gsum_insert f m k a :
  gsum f (<[k:=a]> m) = gsum f m - from_option (f k) 0 (m !! k) + f k a.
Proof.
  rewrite <-insert_delete_eq, gsum_insert_new, gsum_delete by apply lookup_delete_eq. lia.
Qed.

Lemma gsum_ext f g m : (forall k a, m !! k = Some a -> f k a = g k a) -> gsum f m = gsum g m.
Proof.
  induction m as [|k a m Hk IH] using map_ind; intros Hfg; [by rewrite !gsum_empty|].
  rewrite !gsum_insert_new by done. rewrite IH.
  - rewrite (Hfg k a); [done|]. by rewrite lookup_insert_eq.
  - intros k' a' Hk'. apply Hfg. rewrite lookup_insert_ne; [done|]. intros ->. congruence.
Qed.

Lemma gsum_le f g m : (forall k a, m !! k = Some a -> f k a <= g k a) -> gsum f m <= gsum g m.
Proof.
  induction m as [|k a m Hk IH] using map_ind; intros Hfg; [by rewrite !gsum_empty|].
  rewrite !gsum_insert_new by done.
  assert (f k a <= g k a) by (apply Hfg; by rewrite lookup_insert_eq).
  assert (gsum f m <= gsum g m); [|lia]. apply IH.
  intros k' a' Hk'. apply Hfg. rewrite lookup_insert_ne; [done|]. intros ->. congruence.
Qed.

Lemma gsum_zero m : gsum (fun _ _ => 0) m = 0.
Proof.
  induction m as [|k a m Hk IH] using map_ind; [done|]. by rewrite gsum_insert_new.
Qed.

Lemma gsum_nonneg f m : (forall k a, m !! k = Some a -> 0 <= f k a) -> 0 <= gsum f m.
Proof. intros. rewrite <-(gsum_zero m). by apply gsum_le. Qed.

Lemma gsum_elem_le f m k a :
  (forall k a, m !! k = Some a -> 0 <= f k a) -> m !! k = Some a -> f k a <= gsum f m.
Proof.
  intros Hf Hk. pose proof (gsum_delete f m k) as Hd. rewrite Hk in Hd. simpl in Hd.
  assert (0 <= gsum f (delete k m)); [|lia].
  apply gsum_nonneg. intros k' a' [_ ?]%lookup_delete_Some. by apply Hf.
Qed.
End gsum.

Lemma gsum_fmap {K A B} `{Countable K} (g : A -> B) (f : K -> B -> Z) (m : gmap K A) :
  gsum f (g <$> m) = gsum (fun k a => f k (g a)) m.
Proof.
  induction m as [|k a m Hk IH] using map_ind; [by rewrite fmap_empty, !gsum_empty|].
  rewrite fmap_insert, !gsum_insert_new; [by rewrite IH|done|by rewrite lookup_fmap, Hk].
Qed.

(** * Iteration over storage maps keyed by [PoolId]

    [PoolId] is a [u8] hashed with [Identity], so iteration visits the present
    keys in ascending order. *)
Definition all_pool_ids : list Z := seqZ 0 256.
Definition iter_u8 {A} (m : gmap Z A) : list (Z * A) :=
  omap (fun i => (fun a => (i, a)) <$> m !! i) all_pool_ids.
Definition iter_prefix {K A} `{Countable K} (k : K) (m : gmap (K * Z) A) : list (Z * A) :=
  omap (fun i => (fun a => (i, a)) <$> m !! (k, i)) all_pool_ids.

Lemma elem_of_iter_u8 {A} (m : gmap Z A) i a :
  (i, a) ∈ iter_u8 m <-> 0 <= i <= u8_max /\ m !! i = Some a.
Proof.
  unfold iter_u8. rewrite list_elem_of_omap. setoid_rewrite elem_of_seqZ.
  unfold u8_max. split.
  - intros (j & Hj & Hs). destruct (m !! j) eqn:Hm; naive_solver lia.
  - intros [Hi Hm]. exists i. rewrite Hm. split; [lia|done].
Qed.

Lemma elem_of_iter_prefix {K A} `{Countable K} (k : K) (m : gmap (K * Z) A) i a :
  (i, a) ∈ iter_prefix k m <-> 0 <= i <= u8_max /\ m !! (k, i) = Some a.
Proof.
  unfold iter_prefix. rewrite list_elem_of_omap. setoid_rewrite elem_of_seqZ.
  unfold u8_max. split.
  - intros (j & Hj & Hs). destruct (m !! (k, j)) eqn:Hm; naive_solver lia.
  - intros [Hi Hm]. exists i. rewrite Hm. split; [lia|done].
Qed.

Lemma NoDup_iter_u8 {A} (m : gmap Z A) : NoDup (iter_u8 m).*1.
Proof.
  unfold iter_u8. assert (NoDup all_pool_ids) as Hnd by apply NoDup_seqZ. revert Hnd.
  generalize all_pool_ids. induction l as [|i l IH]; [constructor|].
  intros [Hi Hl]%NoDup_cons. simpl. destruct (m !! i) as [a|] eqn:E; simpl; [|by apply IH].
  constructor; [|by apply IH]. intros ([j b] & -> & Hj)%list_elem_of_fmap. simpl in *.
  apply list_elem_of_omap in Hj as (k & Hk & Hs). destruct (m !! k); naive_solver.
Qed.

(** Iterating over all the keys is folding over the map. *)
Lemma iter_u8_gsum {A} (f : A -> Z) (m : gmap Z A) :
  (forall i a, m !! i = Some a -> 0 <= i <= u8_max) ->
  foldr (fun a acc => f a + acc) 0 (iter_u8 m).*2 = gsum (fun _ a => f a) m.
Proof.
  intros Hk. unfold gsum. rewrite map_fold_foldr.
  assert (iter_u8 m ≡ₚ map_to_list m) as HP.
  { apply NoDup_Permutation.
    - apply (NoDup_fmap_1 fst), NoDup_iter_u8.
    - apply NoDup_map_to_list.
    - intros [i a]. rewrite elem_of_iter_u8, elem_of_map_to_list. naive_solver. }
  rewrite foldr_fmap. transitivity (foldr (fun x acc => f x.2 + acc) 0 (map_to_list m)).
  - apply (foldr_permutation_proper (=)); [apply _|intros ? ? ?; lia|exact HP].
  - apply foldr_ext; [|done|done]. by intros [i a] b.
Qed.

(** Conversion never needs the 256 candidate keys. *)
#[global] Opaque iter_u8 iter_prefix.

(** * Frames

    [framed f m]: whatever the outcome of [m], it leaves the observation [f] of
    the state unchanged.  The rules are a hint database, so that the frame of a
    whole function is found by [solve_framed]. *)
Section frames.
Context {S E T : Type} (f : S -> T).

Definition framed {A} (m : M S E A) : Prop := forall s r s', m s = (r, s') -> f s' = f s.

Lemma framed_ret {A} (a : A) : framed (ret a).
Proof. intros s r s' Hm. unfold ret in Hm. by simplify_eq. Qed.
Lemma framed_throw {A} (e : E) : framed (throw (A:=A) e).
Proof. intros s r s' Hm. unfold throw in Hm. by simplify_eq. Qed.
Lemma framed_panic {A} : framed (panic (A:=A)).
Proof. intros s r s' Hm. unfold panic in Hm. by simplify_eq. Qed.
Lemma framed_gets {A} (g : S -> A) : framed (gets g).
Proof. intros s r s' Hm. unfold gets in Hm. by simplify_eq. Qed.
Lemma framed_modify (g : S -> S) : (forall s, f (g s) = f s) -> framed (modify g).
Proof. intros Hg s r s' Hm. unfold modify in Hm. by simplify_eq. Qed.
Lemma framed_ensure b (e : E) : framed (ensure b e).
Proof. unfold ensure. destruct b; auto using framed_ret, framed_throw. Qed.
Lemma framed_ok_or {A} (o : option A) (e : E) : framed (ok_or o e).
Proof. unfold ok_or. destruct o; auto using framed_ret, framed_throw. Qed.
Lemma framed_or_panic {A} (o : option A) : framed (or_panic o).
Proof. unfold or_panic. destruct o; auto using framed_ret, framed_panic. Qed.
Lemma framed_bind {A B} (m : M S E A) (k : A -> M S E B) :
  framed m -> (forall a, framed (k a)) -> framed (bind m k).
Proof.
  intros Hm Hk s r s' Hb. unfold bind in Hb. destruct (m s) as [[a|e|] s1] eqn:E1.
  - rewrite (Hk a s1 r s' Hb). by apply (Hm s (Ok a)).
  - simplify_eq. by apply (Hm s (Err e)).
  - simplify_eq. by apply (Hm s Panic).
Qed.
Lemma framed_map_err {A} (e : E) (m : M S E A) : framed m -> framed (map_err e m).
Proof.
  intros Hm s r s' Hb. unfold map_err in Hb.
  destruct (m s) as [[] s1] eqn:E1; simplify_eq; eapply Hm; exact E1.
Qed.
Lemma framed_unwrap_or {A} (d : A) (m : M S E A) : framed m -> framed (unwrap_or d m).
Proof.
  intros Hm s r s' Hb. unfold unwrap_or in Hb.
  destruct (m s) as [[] s1] eqn:E1; simplify_eq; eapply Hm; exact E1.
Qed.
Lemma framed_transaction {A} (m : M S E A) : framed m -> framed (with_transaction m).
Proof.
  intros Hm s r s' Hb. unfold with_transaction in Hb.
  destruct (m s) as [[] s1] eqn:E1; simplify_eq; try done; eapply Hm; exact E1.
Qed.
Lemma framed_mfor {A} (l : list A) (k : A -> M S E unit) :
  (forall a, framed (k a)) -> framed (mfor l k).
Proof.
  intros Hk. induction l as [|a l IH]; simpl; [apply framed_ret|]. by apply framed_bind.
Qed.
Lemma framed_mfold {A B} (l : list A) (b : B) (k : B -> A -> M S E B) :
  (forall b a, framed (k b a)) -> framed (mfold l b k).
Proof.
  intros Hk. revert b. induction l as [|a l IH]; intros b; simpl; [apply framed_ret|].
  by apply framed_bind.
Qed.
End frames.

Lemma framed_weaken {S E T T' A} (f : S -> T) (g : T -> T') (m : M S E A) :
  framed f m -> framed (fun s => g (f s)) m.
Proof. intros Hm s r s' Hr. by rewrite (Hm s r s' Hr). Qed.

Create HintDb framed.
#[export] Hint Resolve framed_ret framed_throw framed_panic framed_gets framed_ensure framed_ok_or
  framed_or_panic framed_map_err framed_unwrap_or framed_transaction : framed.

(** Walks through binds, loops and case distinctions; leaves what it cannot do. *)
Ltac framed_step :=
  match goal with
  | |- framed _ (bind _ _) => apply framed_bind; [|intros ?]
  | |- framed _ (mfor _ _) => apply framed_mfor; intros ?
  | |- framed _ (mfold _ _ _) => apply framed_mfold; intros ? ?
  | |- framed _ (modify _) => apply framed_modify; intros ?; reflexivity
  | |- framed _ (match ?x with _ => _ end) => destruct x
  | |- framed _ (let _ := _ in _) => cbv zeta
  end.
Ltac solve_framed := repeat (first [solve [eauto 3 with framed] | framed_step]).

(** * Invariants that survive errors

    [pres I Q m]: every outcome of [m] keeps [I], and a returned value is in [Q].
    Used for the code that goes on after an error. *)
Section pres.
Context {S E : Type} (I : S -> Prop).

Definition pres {A} (Q : A -> Prop) (m : M S E A) : Prop :=
  forall s r s', I s -> m s = (r, s') -> I s' /\ match r with Ok a => Q a | _ => True end.

Lemma pres_ret {A} (Q : A -> Prop) a : Q a -> pres Q (ret a).
Proof. intros Ha s r s' Hs Hm. unfold ret in Hm. by simplify_eq. Qed.
Lemma pres_gets {A} (Q : A -> Prop) g : (forall s, I s -> Q (g s)) -> pres Q (gets g).
Proof. intros Hg s r s' Hs Hm. unfold gets in Hm. simplify_eq. auto. Qed.
Lemma pres_modify (Q : unit -> Prop) g : (forall s, I s -> I (g s)) -> Q tt -> pres Q (modify g).
Proof. intros Hg ? s r s' Hs Hm. unfold modify in Hm. simplify_eq. auto. Qed.
Lemma pres_ok_or {A} (Q : A -> Prop) (o : option A) e : from_option Q True o -> pres Q (ok_or o e).
Proof. intros Ho s r s' Hs Hm. destruct o; unfold ok_or, ret, throw in Hm; by simplify_eq. Qed.
Lemma pres_bind {A B} (Q : A -> Prop) (R : B -> Prop) (m : M S E A) (k : A -> M S E B) :
  pres Q m -> (forall a, Q a -> pres R (k a)) -> pres R (bind m k).
Proof.
  intros Hm Hk s r s' Hs Hb. unfold bind in Hb. destruct (m s) as [o s1] eqn:E1.
  destruct (Hm _ _ _ Hs E1) as [Hs1 Hq]. destruct o as [a|e|]; [|by simplify_eq..].
  exact (Hk a Hq s1 r s' Hs1 Hb).
Qed.
Lemma pres_mfor {A} (l : list A) (k : A -> M S E unit) :
  (forall a, pres (fun _ => True) (k a)) -> pres (fun _ => True) (mfor l k).
Proof.
  intros Hk. induction l as [|a l IH]; simpl; [by apply pres_ret|].
  eapply pres_bind; [apply Hk|]. done.
Qed.
End pres.

(** * Properties kept by successful runs

    [kept I m]: a successful run of [m] keeps [I].  Unlike [pres] it says nothing of
    failed runs, which transactions undo, so that [m] may break [I] in between. *)
Section rules.
Context {S E : Type} (I : S -> Prop).

Definition kept {A} (m : M S E A) : Prop := forall s a s', I s -> m s = (Ok a, s') -> I s'.

Lemma kept_ret {A} (a : A) : kept (ret a).
Proof. by intros s b s' Hs [_ <-]%ret_ok. Qed.
Lemma kept_throw {A} (e : E) : kept (throw (A:=A) e).
Proof. by intros s b s' Hs []%throw_ok. Qed.
Lemma kept_panic {A} : kept (panic (A:=A)).
Proof. by intros s b s' Hs []%panic_ok. Qed.
Lemma kept_gets {A} (g : S -> A) : kept (gets g).
Proof. by intros s b s' Hs [_ <-]%gets_ok. Qed.
Lemma kept_ensure b e : kept (ensure b e).
Proof. by intros s ? s' Hs [_ <-]%ensure_ok. Qed.
Lemma kept_ok_or {A} (o : option A) e : kept (ok_or o e).
Proof. by intros s ? s' Hs [_ <-]%ok_or_ok. Qed.
Lemma kept_modify g : (forall s, I s -> I (g s)) -> kept (modify g).
Proof. intros Hg s ? s' Hs <-%modify_ok. auto. Qed.
Lemma kept_bind {A B} (m : M S E A) (k : A -> M S E B) :
  kept m -> (forall a, kept (k a)) -> kept (bind m k).
Proof. intros Hm Hk s b s2 Hs (a & s1 & H1 & H2)%bind_ok. exact (Hk a _ _ _ (Hm _ _ _ Hs H1) H2). Qed.
(** with what is known of the result *)
Lemma kept_bind_res {A B} (Q : A -> Prop) (m : M S E A) (k : A -> M S E B) :
  kept m -> (forall s a s', m s = (Ok a, s') -> Q a) -> (forall a, Q a -> kept (k a)) ->
  kept (bind m k).
Proof.
  intros Hm Hq Hk s b s2 Hs (a & s1 & H1 & H2)%bind_ok.
  exact (Hk a (Hq _ _ _ H1) _ _ _ (Hm _ _ _ Hs H1) H2).
Qed.
Lemma kept_mfor {A} (l : list A) (k : A -> M S E unit) : (forall a, kept (k a)) -> kept (mfor l k).
Proof. intros Hk. induction l; simpl; auto using kept_ret, kept_bind. Qed.
Lemma kept_mfold {A B} (l : list A) (b : B) (k : B -> A -> M S E B) :
  (forall b a, kept (k b a)) -> kept (mfold l b k).
Proof. intros Hk. revert b. induction l; intros b; simpl; auto using kept_ret, kept_bind. Qed.
Lemma kept_pres {A} (m : M S E A) : kept m -> pres I (fun _ => True) (with_transaction m).
Proof.
  intros Hm s r s' Hs Hr. unfold with_transaction in Hr.
  destruct (m s) as [[a|e|] s1] eqn:E1; simplify_eq; try done. split; [by eapply Hm|done].
Qed.
End rules.

Create HintDb kept.
#[export] Hint Resolve kept_ret kept_throw kept_panic kept_gets kept_ensure kept_ok_or : kept.

Ltac kept_step :=
  match goal with
  | |- kept _ (bind _ _) => apply kept_bind; [|intros ?]
  | |- kept _ (mfor _ _) => apply kept_mfor; intros ?
  | |- kept _ (mfold _ _ _) => apply kept_mfold; intros ? ?
  | |- kept _ (modify _) => apply kept_modify; intros ? Hkept; repeat case_match; exact Hkept
  | |- kept _ (match ?x with _ => _ end) => destruct x
  | |- kept _ (let _ := _ in _) => cbv zeta
  end.
Ltac kept_head t := match t with ?f _ => kept_head f | _ => t end.
Ltac unfold_kept := match goal with |- kept _ ?m => let h := kept_head m in unfold h end.
Ltac solve_kept := repeat first [solve [auto 3 with kept nocore] | kept_step | unfold_kept].

(** * Loops that succeed: an invariant that every successful iteration keeps *)
Section loops.
Context {S E : Type}.

Lemma mfor_ok {A} (I : S -> Prop) (l : list A) (k : A -> M S E unit) :
  (forall x s u s', x ∈ l -> I s -> k x s = (Ok u, s') -> I s') ->
  forall s u s', I s -> mfor l k s = (Ok u, s') -> I s'.
Proof.
  induction l as [|x l IH]; intros Hk s u s' Hs Hm; simpl in Hm.
  - apply ret_ok in Hm as [_ <-]. done.
  - apply bind_ok in Hm as (u1 & s1 & H1 & H2).
    eapply IH; [|exact (Hk _ _ _ _ (list_elem_of_here _ _) Hs H1)|exact H2].
    intros y t v t' Hy. apply Hk. by apply list_elem_of_further.
Qed.

Lemma mfold_ok {A B} (I : B -> S -> Prop) (l : list A) (k : B -> A -> M S E B) :
  (forall b x s b' s', x ∈ l -> I b s -> k b x s = (Ok b', s') -> I b' s') ->
  forall b s b' s', I b s -> mfold l b k s = (Ok b', s') -> I b' s'.
Proof.
  induction l as [|x l IH]; intros Hk b s b' s' Hs Hm; simpl in Hm.
  - apply ret_ok in Hm as [<- <-]. done.
  - apply bind_ok in Hm as (b1 & s1 & H1 & H2).
    eapply IH; [|exact (Hk _ _ _ _ _ (list_elem_of_here _ _) Hs H1)|exact H2].
    intros c y t c' t' Hy. apply Hk. by apply list_elem_of_further.
Qed.
Lemma mfor_total {A} (l : list A) (f : A -> M S E unit) s :
  (forall x s, exists s', f x s = (Ok tt, s')) -> exists s', mfor l f s = (Ok tt, s').
Proof.
  intros Hf. revert s. induction l as [|x l IH]; intros s; simpl; [by exists s|].
  unfold bind. destruct (Hf x s) as [s1 ->]. apply IH.
Qed.
Lemma bind_run {B D} (m : M S E B) (k : B -> M S E D) b s s1 :
  m s = (Ok b, s1) -> bind m k s = k b s1.
Proof. unfold bind. by intros ->. Qed.
End loops.

(** Decides a closed comparison or equation by evaluation. *)
Ltac by_compute :=
  clear; vm_compute; solve [reflexivity | repeat split; first [reflexivity | discriminate]].

(** * Totality: code that neither fails nor panics *)
Section total.
Context {S E : Type}.

Definition total_run {A} (m : M S E A) : Prop := forall s, exists a s', m s = (Ok a, s').

Lemma total_ret {A} (a : A) : total_run (ret a).
Proof. intros s. by exists a, s. Qed.
Lemma total_gets {A} (f : S -> A) : total_run (gets f).
Proof. intros s. by exists (f s), s. Qed.
Lemma total_modify (f : S -> S) : total_run (modify f).
Proof. intros s. by exists tt, (f s). Qed.
Lemma total_bind {A B} (m : M S E A) (k : A -> M S E B) :
  total_run m -> (forall a, total_run (k a)) -> total_run (bind m k).
Proof.
  intros Hm Hk s. destruct (Hm s) as (a & s1 & H1). destruct (Hk a s1) as (b & s2 & H2).
  exists b, s2. unfold bind. by rewrite H1.
Qed.
Lemma total_mfor {A} (l : list A) (k : A -> M S E unit) :
  (forall a, total_run (k a)) -> total_run (mfor l k).
Proof.
  intros Hk. induction l as [|a l IH]; simpl; [apply total_ret|]. by apply total_bind.
Qed.
Lemma total_or_panic {A} (o : option A) : is_Some o -> total_run (or_panic o).
Proof. intros [a ->] s. by exists a, s. Qed.
End total.

Create HintDb total.
#[export] Hint Resolve total_ret total_gets total_modify : total.
Ltac total_step :=
  match goal with
  | |- total_run (bind _ _) => apply total_bind; [|intros ?]
  | |- total_run (mfor _ _) => apply total_mfor; intros ?
  | |- total_run (match ?x with _ => _ end) => destruct x
  | |- total_run (let _ := _ in _) => cbv zeta
  end.
Ltac solve_total := repeat (first [solve [eauto 3 with total] | total_step]).
