(* ===== verification/Perthings.v ===== *)
(** The fixed-point arithmetic of [sp_arithmetic], as an interface.

    [Perbill], [Perquintill] and [FixedU128] come from a crate that is not part
    of the repository.  [Perthings] lists the operations the pallets call, each
    on the inner representation of the type (parts out of 10^9 or 10^18, inner
    [u128] of the fixed-point number); [PerthingsLaws] states what their
    documentation promises and what the pallets rely on.  [reference_perthings]
    is a concrete arithmetic that satisfies the laws, used to run the model. *)
From S2P Require Import Prelude.

Definition PERBILL : Z := 10 ^ 9.
Definition PERQUINTILL : Z := 10 ^ 18.
Definition FIXED_DIV : Z := 10 ^ 18.

Class Perthings := {
  (** [Perquintill::mul_floor], on [u128] and on [U256] arguments *)
  pq_mul_floor : Z -> Z -> Z;
  (** [Perbill::mul_floor] *)
  pb_mul_floor : Z -> Z -> Z;
  (** [Perquintill::from_rational] *)
  pq_from_rational : Z -> Z -> Z;
  (** [Perquintill::from_parts] *)
  pq_from_parts : Z -> Z;
  pq_saturating_mul : Z -> Z -> Z;
  pq_saturating_add : Z -> Z -> Z;
  pq_checked_add : Z -> Z -> option Z;
  pb_saturating_sub : Z -> Z -> Z;
  (** [FixedU128::checked_from_rational] *)
  fx_checked_from_rational : Z -> Z -> option Z;
  (** [FixedU128::checked_div] *)
  fx_checked_div : Z -> Z -> option Z;
}.

Definition is_perquintill (p : Z) : Prop := 0 <= p <= PERQUINTILL.
Definition is_perbill (p : Z) : Prop := 0 <= p <= PERBILL.

Class PerthingsLaws (P : Perthings) : Prop := {
  pq_mul_floor_spec p n : is_perquintill p -> 0 <= n -> pq_mul_floor p n = p * n / PERQUINTILL;
  pb_mul_floor_spec p n : is_perbill p -> 0 <= n -> pb_mul_floor p n = p * n / PERBILL;
  pq_from_rational_range n d : 0 <= n -> 0 < d -> is_perquintill (pq_from_rational n d);
  pq_from_rational_floor n d : 0 <= n -> 0 < d -> pq_from_rational n d * d <= n * PERQUINTILL;
  pq_from_rational_one d : 0 < d -> pq_from_rational d d = PERQUINTILL;
  pq_from_parts_spec p : 0 <= p -> pq_from_parts p = Z.min p PERQUINTILL;
  pq_saturating_mul_le p q :
    is_perquintill p -> is_perquintill q ->
    0 <= pq_saturating_mul p q <= p;
  pq_saturating_mul_floor p q :
    is_perquintill p -> is_perquintill q -> pq_saturating_mul p q * PERQUINTILL <= p * q;
  pq_saturating_add_spec p q :
    is_perquintill p -> is_perquintill q -> pq_saturating_add p q = Z.min (p + q) PERQUINTILL;
  pq_checked_add_spec p q :
    is_perquintill p -> is_perquintill q -> pq_checked_add p q = checked_add PERQUINTILL p q;
  pb_saturating_sub_spec p q :
    is_perbill p -> is_perbill q -> pb_saturating_sub p q = Z.max 0 (p - q);
  fx_checked_from_rational_spec n d x :
    0 <= n -> 0 < d -> fx_checked_from_rational n d = Some x -> 0 <= x <= u128_max;
  fx_checked_div_spec a b x :
    0 <= a -> 0 < b -> fx_checked_div a b = Some x -> x = a * FIXED_DIV / b /\ x <= u128_max;
}.

#[export] Instance reference_perthings : Perthings := {|
  pq_mul_floor p n := p * n / PERQUINTILL;
  pb_mul_floor p n := p * n / PERBILL;
  pq_from_rational n d := Z.min n d * PERQUINTILL / d;
  pq_from_parts p := Z.min p PERQUINTILL;
  pq_saturating_mul p q := p * q / PERQUINTILL;
  pq_saturating_add p q := Z.min (p + q) PERQUINTILL;
  pq_checked_add p q := checked_add PERQUINTILL p q;
  pb_saturating_sub p q := Z.max 0 (p - q);
  fx_checked_from_rational n d :=
    if d =? 0 then None else
    if n * FIXED_DIV / d <=? u128_max then Some (n * FIXED_DIV / d) else None;
  fx_checked_div a b :=
    if b =? 0 then None else
    if a * FIXED_DIV / b <=? u128_max then Some (a * FIXED_DIV / b) else None;
|}.

#[export] Instance reference_perthings_laws : PerthingsLaws reference_perthings.
Proof.
  split; simpl; unfold is_perquintill, is_perbill; intros; try done.
  - split; [apply Z.div_pos; unfold PERQUINTILL; lia|].
    apply Z.div_le_upper_bound; unfold PERQUINTILL; nia.
  - etransitivity; [by apply div_mul_le|]. unfold PERQUINTILL. nia.
  - rewrite Z.min_id, Z.mul_comm. apply Z.div_mul. lia.
  - split; [apply Z.div_pos; unfold PERQUINTILL; nia|].
    apply Z.div_le_upper_bound; unfold PERQUINTILL in *; nia.
  - by apply div_mul_le.
  - destruct (Z.eqb_spec d 0); [done|].
    destruct (Z.leb_spec (n * FIXED_DIV / d) u128_max); simplify_eq. split; [|done].
    apply Z.div_pos; unfold FIXED_DIV; lia.
  - destruct (Z.eqb_spec b 0); [done|].
    destruct (Z.leb_spec (a * FIXED_DIV / b) u128_max); by simplify_eq.
Qed.

Section facts.
Context `{PL : PerthingsLaws}.

Lemma pq_mul_floor_range p n :
  is_perquintill p -> 0 <= n -> 0 <= pq_mul_floor p n <= n.
Proof.
  intros Hp Hn. rewrite pq_mul_floor_spec by done. unfold is_perquintill in Hp. split.
  - apply Z.div_pos; unfold PERQUINTILL; nia.
  - apply share_le; lia.
Qed.

Lemma pb_mul_floor_range p n : is_perbill p -> 0 <= n -> 0 <= pb_mul_floor p n <= n.
Proof.
  intros Hp Hn. rewrite pb_mul_floor_spec by done. unfold is_perbill in Hp. split.
  - apply Z.div_pos; unfold PERBILL; nia.
  - apply share_le; lia.
Qed.

(** Floors of parts of one amount add up to at most the floor of the sum. *)
Lemma pq_mul_floor_add p q n :
  is_perquintill p -> is_perquintill q -> is_perquintill (p + q) -> 0 <= n ->
  pq_mul_floor p n + pq_mul_floor q n <= pq_mul_floor (p + q) n.
Proof.
  intros. rewrite !pq_mul_floor_spec by done. rewrite Z.mul_add_distr_r.
  apply Z.div_le_lower_bound; [unfold PERQUINTILL; lia|].
  pose proof (Z.mul_div_le (p * n) PERQUINTILL). pose proof (Z.mul_div_le (q * n) PERQUINTILL).
  unfold PERQUINTILL in *. lia.
Qed.
End facts.
