(* ===== verification/Buffers.v ===== *)
(** The time-indexed buffers of the compute pallet
    ([pallets/compute/src/datastructures/]).

    [MemoryBuffer] remembers the current value and the one before it;
    [ProvisionalBuffer] holds a current value and one scheduled for a future
    epoch; [SlidingBuffer] holds the values of two adjacent epochs.  Each module
    has the operations of its source file and their complete description; for
    [MemoryBuffer] the description is a refinement of an unbounded history. *)
From S2P Require Import Prelude.

Module MemoryBuffer.
Section defs.
Context {V : Type}.

Record t := mk { past : option (Z * V); current : Z * V }.

Definition new_with (timestamp : Z) (value : V) : t :=
  {| past := None; current := (timestamp, value) |}.

Definition set (b : t) (current_timestamp : Z) (value : V) : option t :=
  match Z.compare current_timestamp b.(current).1 with
  | Lt => None
  | Eq => Some {| past := b.(past); current := (b.(current).1, value) |}
  | Gt => Some {| past := Some (b.(current).1, b.(current).2);
                  current := (current_timestamp, value) |}
  end.

Definition mutate (b : t) (ts : Z) (f : V -> V) : option t :=
  match Z.compare ts b.(current).1 with
  | Lt => None
  | Eq => Some {| past := b.(past); current := (b.(current).1, f b.(current).2) |}
  | Gt => Some {| past := Some (b.(current).1, b.(current).2);
                  current := (ts, f b.(current).2) |}
  end.

Definition get (b : t) (ts : Z) : option V :=
  if ts =? b.(current).1 then Some b.(current).2 else
  match b.(past) with
  | Some (past_start, past_value) => if ts =? past_start then Some past_value else None
  | None => None
  end.

Definition get_latest (b : t) (ts : Z) : option V :=
  if b.(current).1 <=? ts then Some b.(current).2 else
  match b.(past) with
  | Some (past_start, past_value) =>
      if (past_start <=? ts) && (ts <? b.(current).1) then Some past_value else None
  | None => None
  end.

Definition get_current (b : t) : Z * V := b.(current).

Definition get_past (b : t) : option (Z * Z * V) :=
  (fun p => (p.1, b.(current).1, p.2)) <$> b.(past).
End defs.
Arguments t : clear implicits.
Arguments mk {V}.

(** The abstract object: the whole history of writes, newest first. *)
Section history.
Context {V : Type}.
Implicit Types b : t V.

Definition hist_set (h : list (Z * V)) (ts : Z) (v : V) : option (list (Z * V)) :=
  match h with
  | [] => None
  | (t0, _) :: h' =>
      if ts <? t0 then None else if ts =? t0 then Some ((ts, v) :: h') else Some ((ts, v) :: h)
  end.

Fixpoint hist_latest (h : list (Z * V)) (ts : Z) : option V :=
  match h with
  | [] => None
  | (t0, v) :: h' => if t0 <=? ts then Some v else hist_latest h' ts
  end.

(** The oldest time the buffer still answers for. *)
Definition horizon (h : list (Z * V)) : option Z :=
  match h with
  | _ :: (t1, _) :: _ => Some t1
  | [(t0, _)] => Some t0
  | [] => None
  end.

Fixpoint writes (b : t V) (l : list (Z * V)) : option (t V) :=
  match l with [] => Some b | (ts, v) :: l' => set b ts v ≫= fun b' => writes b' l' end.
Fixpoint hist_writes (h : list (Z * V)) (l : list (Z * V)) : option (list (Z * V)) :=
  match l with [] => Some h | (ts, v) :: l' => hist_set h ts v ≫= fun h' => hist_writes h' l' end.

(** [repr b h]: [b] holds the two newest entries of the sorted history [h]. *)
Definition repr (b : t V) (h : list (Z * V)) : Prop :=
  exists h', h = b.(current) :: h' /\ head h' = b.(past) /\
    Sorted (fun p q => q.1 < p.1) h.

Lemma repr_new ts v : repr (new_with ts v) [(ts, v)].
Proof. exists []. repeat constructor. Qed.

Lemma repr_set b h ts v :
  repr b h ->
  match set b ts v, hist_set h ts v with
  | Some b', Some h' => repr b' h'
  | None, None => True
  | _, _ => False
  end.
Proof.
  intros (h' & -> & Hp & Hs). destruct b as [p [t0 v0]]; simpl in *.
  unfold set, hist_set; simpl. destruct (Z.compare_spec ts t0) as [->|Hlt|Hgt].
  - rewrite Z.ltb_irrefl, Z.eqb_refl. exists h'. repeat split; [done|].
    inversion Hs as [|? ? Hs' Hh]; subst. constructor; [done|]. destruct Hh; by constructor.
  - by apply Z.ltb_lt in Hlt as ->.
  - destruct (Z.ltb_spec ts t0); [lia|]. destruct (Z.eqb_spec ts t0); [lia|].
    exists ((t0, v0) :: h'). repeat split; simpl; try done.
    constructor; [done|]. constructor. simpl. lia.
Qed.

Lemma repr_writes b h l :
  repr b h ->
  match writes b l, hist_writes h l with
  | Some b', Some h' => repr b' h'
  | None, None => True
  | _, _ => False
  end.
Proof.
  revert b h. induction l as [|[ts v] l IH]; intros b h Hr; simpl; [done|].
  pose proof (repr_set b h ts v Hr) as Hst.
  destruct (set b ts v), (hist_set h ts v); simpl; try done. by apply IH.
Qed.

Lemma repr_get_latest b h ts :
  repr b h ->
  get_latest b ts =
  match horizon h with
  | Some t1 => if ts <? t1 then None else hist_latest h ts
  | None => None
  end.
Proof.
  intros (h' & -> & Hp & Hs). destruct b as [p [t0 v0]]; simpl in *.
  unfold get_latest; simpl. destruct h' as [|[t1 v1] h']; simpl in *; subst p.
  - destruct (Z.leb_spec t0 ts), (Z.ltb_spec ts t0); done || lia.
  - inversion Hs as [|? ? _ Hh]; subst. inversion Hh; subst; simpl in *.
    destruct (Z.leb_spec t0 ts), (Z.ltb_spec ts t0), (Z.leb_spec t1 ts), (Z.ltb_spec ts t1);
      simpl; done || lia.
Qed.

(** [mutate] is [set] of the mutated current value. *)
Lemma mutate_set b ts f : mutate b ts f = set b ts (f b.(current).2).
Proof. unfold mutate, set. by destruct (ts ?= _). Qed.

Lemma get_latest_set b b' ts v : set b ts v = Some b' -> get_latest b' ts = Some v.
Proof.
  unfold set, get_latest. destruct (Z.compare_spec ts b.(current).1); intros; simplify_eq/=.
  - by rewrite Z.leb_refl.
  - by rewrite Z.leb_refl.
Qed.

Lemma get_set b b' ts v : set b ts v = Some b' -> get b' ts = Some v.
Proof.
  unfold set, get. destruct (Z.compare_spec ts b.(current).1); intros; simplify_eq/=;
    by rewrite Z.eqb_refl.
Qed.

Lemma set_current b b' ts v : set b ts v = Some b' -> b'.(current) = (ts, v).
Proof. unfold set. destruct (Z.compare_spec ts b.(current).1); intros; simplify_eq/=; done. Qed.
End history.
End MemoryBuffer.

Module ProvisionalBuffer.
Section defs.
Context {V : Type}.

Record t := mk { current : V; next_ : option (Z * V) }.

Definition new (value : V) : t := {| current := value; next_ := None |}.

Definition set (b : t) (current_epoch epoch : Z) (value : V) : option t :=
  if epoch <=? current_epoch then Some {| current := value; next_ := None |} else
  match b.(next_) with
  | Some (next_epoch, next_value) =>
      match Z.compare epoch next_epoch with
      | Lt => Some {| current := b.(current); next_ := Some (epoch, value) |}
      | Eq => Some {| current := b.(current); next_ := Some (epoch, value) |}
      | Gt =>
          if current_epoch <? next_epoch then None else
          Some {| current := next_value; next_ := Some (epoch, value) |}
      end
  | None => Some {| current := b.(current); next_ := Some (epoch, value) |}
  end.

Definition get (b : t) (epoch : Z) : V :=
  match b.(next_) with
  | Some (e, v) => if e <=? epoch then v else b.(current)
  | None => b.(current)
  end.

Definition next (b : t) (epoch : Z) : option V :=
  match b.(next_) with
  | Some (e, v) => if epoch <? e then Some v else None
  | None => None
  end.

Definition next_epoch (b : t) (epoch : Z) : option Z :=
  match b.(next_) with
  | Some (e, _) => if epoch <? e then Some e else None
  | None => None
  end.
End defs.
Arguments t : clear implicits.

Section facts.
Context {V : Type}.
Implicit Types b : t V.

Lemma set_get b b' cur e v x :
  set b cur e v = Some b' -> cur <= x -> get b' x = if e <=? x then v else get b x.
Proof.
  unfold set, get. intros Hs Hx. destruct (Z.leb_spec e cur).
  { simplify_eq/=. by destruct (Z.leb_spec e x); [|lia]. }
  destruct b as [c [[ne nv]|]]; simpl in *; [|by simplify_eq/=].
  destruct (Z.compare_spec e ne) as [->|?|?]; simplify_eq/=.
  - by destruct (Z.leb_spec ne x).
  - destruct (Z.leb_spec e x); [done|]. by destruct (Z.leb_spec ne x); [lia|].
  - destruct (Z.ltb_spec cur ne); simplify_eq/=.
    destruct (Z.leb_spec e x); [done|]. by destruct (Z.leb_spec ne x); [|lia].
Qed.

Lemma set_None b cur e v :
  set b cur e v = None <-> exists ne nv, b.(next_) = Some (ne, nv) /\ cur < ne < e.
Proof.
  unfold set. destruct (Z.leb_spec e cur).
  { split; [done|]. intros (?&?&?&?). lia. }
  destruct b as [c [[ne nv]|]]; simpl in *; [|naive_solver].
  destruct (Z.compare_spec e ne) as [->|?|?].
  - split; [done|]. intros (?&?&?&?). simplify_eq. lia.
  - split; [done|]. intros (?&?&?&?). simplify_eq. lia.
  - destruct (Z.ltb_spec cur ne); split; try done; [naive_solver|].
    intros (?&?&?&?). simplify_eq. lia.
Qed.

(** The value is constant between two consecutive change points. *)
Lemma get_stable b cur e :
  cur <= e ->
  get b e = get b cur \/ exists ne, next_epoch b cur = Some ne /\ ne <= e /\ get b e = get b ne.
Proof.
  unfold get, next_epoch. destruct b as [c [[ne nv]|]]; simpl; [|auto].
  intros Hle. destruct (Z.leb_spec ne e); [|destruct (Z.leb_spec ne cur); [lia|auto]].
  destruct (Z.leb_spec ne cur); [auto|]. right. exists ne.
  destruct (Z.ltb_spec cur ne); [|lia]. by rewrite Z.leb_refl.
Qed.

(** A change point past [e] leaves the value at [e] as it was. *)
Lemma get_before_next b cur e :
  cur <= e -> (forall ne, next_epoch b cur = Some ne -> e < ne) -> get b e = get b cur.
Proof.
  intros Hle Hn. destruct (get_stable b cur e Hle) as [?|(ne & Hne & ? & _)]; [done|].
  specialize (Hn ne Hne). lia.
Qed.

Lemma next_epoch_gt b cur ne : next_epoch b cur = Some ne -> cur < ne.
Proof.
  unfold next_epoch. destruct b.(next_) as [[e ?]|]; [|done].
  destruct (Z.ltb_spec cur e); naive_solver.
Qed.
End facts.
End ProvisionalBuffer.

Module SlidingBuffer.
Section defs.
Context {V : Type} (dflt : V).

Record t := mk { epoch : Z; prev : V; cur : V }.

(** [epoch + One::one()] on a [u32] block number *)
Definition succ_epoch (e : Z) : Z := wrapping_add u32_max e 1.

Definition new (e : Z) : t := {| epoch := e; prev := dflt; cur := dflt |}.
Definition new_with (e : Z) (v : V) : t := {| epoch := e; prev := dflt; cur := v |}.

Definition set (b : t) (e : Z) (value : V) : t :=
  if succ_epoch e =? b.(epoch) then {| epoch := b.(epoch); prev := value; cur := b.(cur) |}
  else if e =? b.(epoch) then {| epoch := b.(epoch); prev := b.(prev); cur := value |}
  else if succ_epoch b.(epoch) =? e then {| epoch := e; prev := b.(cur); cur := value |}
  else {| epoch := e; prev := dflt; cur := value |}.

Definition mutate (b : t) (e : Z) (f : V -> V) (retain : bool) : t :=
  if succ_epoch e =? b.(epoch) then {| epoch := b.(epoch); prev := f b.(prev); cur := b.(cur) |}
  else if e =? b.(epoch) then {| epoch := b.(epoch); prev := b.(prev); cur := f b.(cur) |}
  else if succ_epoch b.(epoch) =? e then
    {| epoch := e; prev := b.(cur); cur := f (if retain then b.(cur) else dflt) |}
  else {| epoch := e; prev := dflt; cur := f dflt |}.

Definition get (b : t) (e : Z) : V :=
  if succ_epoch e =? b.(epoch) then b.(prev)
  else if e =? b.(epoch) then b.(cur)
  else dflt.

Definition get_latest (b : t) (e : Z) : V :=
  if succ_epoch e =? b.(epoch) then b.(prev)
  else if b.(epoch) <=? e then b.(cur)
  else dflt.
End defs.
Arguments t : clear implicits.

Section facts.
Context {V : Type} (dflt : V).
Implicit Types b : t V.

(** Epoch numbers for which [epoch + 1] does not wrap. *)
Definition no_wrap (e : Z) : Prop := 0 <= e < u32_max.

Lemma succ_epoch_small e : no_wrap e -> succ_epoch e = e + 1.
Proof.
  unfold no_wrap, succ_epoch, wrapping_add, u32_max. intros. apply Z.mod_small. lia.
Qed.

(** The epochs whose value survives a write at [e]: the written epoch, and of
    the window [(epoch - 1, epoch)] what is still adjacent to it. *)
Definition survives b (e x : Z) : bool :=
  if e =? b.(epoch) - 1 then (x =? b.(epoch))
  else if e =? b.(epoch) then (x =? b.(epoch) - 1)
  else (e =? b.(epoch) + 1) && (x =? b.(epoch)).

Lemma get_mutate b e f x :
  no_wrap b.(epoch) -> no_wrap e -> no_wrap x ->
  get dflt (mutate dflt b e f false) x =
  if x =? e then f (get dflt b e) else if survives b e x then get dflt b x else dflt.
Proof.
  intros Hb He Hx. destruct b as [eb p c]; simpl in *.
  unfold get, mutate, survives; simpl. rewrite !(succ_epoch_small e), !(succ_epoch_small eb) by done.
  destruct (Z.eqb_spec (e + 1) eb), (Z.eqb_spec e eb), (Z.eqb_spec (eb + 1) e); simpl; try lia;
    rewrite (succ_epoch_small x) by done;
    repeat case_match; repeat match goal with
    | H : (_ =? _) = true |- _ => apply Z.eqb_eq in H
    | H : (_ =? _) = false |- _ => apply Z.eqb_neq in H
    | H : (_ && _) = true |- _ => apply andb_true_iff in H as [? ?]
    | H : (_ && _) = false |- _ => apply andb_false_iff in H
    end; try done; try lia; exfalso; naive_solver lia.
Qed.

Lemma get_mutate_same b e f :
  no_wrap b.(epoch) -> no_wrap e ->
  get dflt (mutate dflt b e f false) e = f (get dflt b e).
Proof. intros. rewrite get_mutate by done. by rewrite Z.eqb_refl. Qed.

Lemma set_mutate b e v : set dflt b e v = mutate dflt b e (fun _ => v) false.
Proof. done. Qed.
End facts.
End SlidingBuffer.

Section memory.
Context {V : Type}.
Implicit Types b : MemoryBuffer.t V.

(** a memory buffer implements the history of its writes: started with one value
    and written at any times, it accepts exactly the writes that are not before the
    newest one, and asked for a time it answers with the value that was in force
    then - or with nothing, when that time is before the last two changes. *)
Theorem memory_buffer_is_history t0 (v0 : V) l ts :
  match MemoryBuffer.writes (MemoryBuffer.new_with t0 v0) l, MemoryBuffer.hist_writes [(t0, v0)] l with
  | Some b, Some h =>
      MemoryBuffer.get_latest b ts =
        match MemoryBuffer.horizon h with
        | Some t1 => if ts <? t1 then None else MemoryBuffer.hist_latest h ts
        | None => None
        end /\
      MemoryBuffer.get_current b = hd (t0, v0) h
  | None, None => True
  | _, _ => False
  end.
Proof.
  pose proof (MemoryBuffer.repr_writes _ _ l (MemoryBuffer.repr_new t0 v0)) as Hr.
  destruct (MemoryBuffer.writes _ l) as [b|], (MemoryBuffer.hist_writes _ l) as [h|]; try done.
  split; [by apply MemoryBuffer.repr_get_latest|]. by destruct Hr as (h' & -> & _).
Qed.
End memory.

Section provisional.
Context {V : Type}.
Implicit Types b : ProvisionalBuffer.t V.

(** Scheduling a value does exactly what it says: from the given epoch on the
    buffer reads as the new value, in every epoch from now until then as before; and it
    is refused only when another change is pending in between, which it would
    otherwise overwrite. *)
Theorem provisional_set_schedules b cur e v :
  (forall b', ProvisionalBuffer.set b cur e v = Some b' ->
     forall x, cur <= x -> ProvisionalBuffer.get b' x = if e <=? x then v else ProvisionalBuffer.get b x) /\
  (ProvisionalBuffer.set b cur e v = None <->
     exists ne, ProvisionalBuffer.next_epoch b cur = Some ne /\ ne < e).
Proof.
  split; [intros b' Hs x Hx; by eapply ProvisionalBuffer.set_get|].
  rewrite ProvisionalBuffer.set_None. unfold ProvisionalBuffer.next_epoch.
  destruct (ProvisionalBuffer.next_ b) as [[ne nv]|]; [|naive_solver].
  destruct (Z.ltb_spec cur ne); naive_solver lia.
Qed.
End provisional.

Section sliding.
Context {V : Type} (dflt : V).
Implicit Types b : SlidingBuffer.t V.

(** A log of updates, each of the value of one epoch. *)
Definition log := list (Z * (V -> V)).
Definition apply_log (b : SlidingBuffer.t V) (l : log) : SlidingBuffer.t V :=
  fold_left (fun b u => SlidingBuffer.mutate dflt b u.1 u.2 false) l b.

(** The value of epoch [x] after the log, when nothing is forgotten. *)
Definition replay (l : log) (x : Z) : V :=
  fold_left (fun v u => if u.1 =? x then u.2 v else v) l dflt.

(** Updates go to the newest epoch, to the one before it or to a later one. *)
Fixpoint timely (newest : Z) (l : log) : Prop :=
  match l with
  | [] => True
  | (e, _) :: l' => newest - 1 <= e /\ SlidingBuffer.no_wrap e /\ timely (Z.max newest e) l'
  end.

Definition last_epoch (e0 : Z) (l : log) : Z := fold_left (fun m u => Z.max m u.1) l e0.

Lemma replay_snoc l e f x :
  replay (l ++ [(e, f)]) x = if e =? x then f (replay l x) else replay l x.
Proof. unfold replay. by rewrite fold_left_app. Qed.

Lemma timely_snoc e0 l e f :
  timely e0 (l ++ [(e, f)]) ->
  timely e0 l /\ last_epoch e0 l - 1 <= e /\ SlidingBuffer.no_wrap e.
Proof.
  revert e0. induction l as [|[e' f'] l IH]; intros e0; simpl; [tauto|].
  intros (? & ? & [? [? ?]]%IH). done.
Qed.

Lemma sliding_repr e0 l :
  SlidingBuffer.no_wrap e0 -> timely e0 l ->
  let b := apply_log (SlidingBuffer.new dflt e0) l in
  let E := last_epoch e0 l in
  b.(SlidingBuffer.epoch) = E /\ SlidingBuffer.no_wrap E /\
  b.(SlidingBuffer.cur) = replay l E /\ b.(SlidingBuffer.prev) = replay l (E - 1) /\
  (forall x, E < x -> replay l x = dflt).
Proof.
  intros H0. induction l as [|[e f] l IH] using rev_ind; intros Ht; [by simpl|].
  apply timely_snoc in Ht as (Ht & He & Hnw). specialize (IH Ht) as (Hep & HE & Hc & Hp & Hf).
  unfold apply_log, last_epoch. rewrite !fold_left_app. simpl.
  change (fold_left _ l e0) with (last_epoch e0 l).
  change (fold_left _ l (SlidingBuffer.new dflt e0)) with (apply_log (SlidingBuffer.new dflt e0) l).
  set (b := apply_log _ l) in *. set (E := last_epoch e0 l) in *.
  unfold SlidingBuffer.mutate. rewrite Hep, !SlidingBuffer.succ_epoch_small by done.
  rewrite !replay_snoc.
  destruct (Z.eqb_spec (e + 1) E) as [H1|H1]; [|destruct (Z.eqb_spec e E) as [H2|H2];
    [|destruct (Z.eqb_spec (E + 1) e) as [H3|H3]]]; simpl.
  - rewrite !Z.max_l by lia. rewrite (proj2 (Z.eqb_neq e E)), (proj2 (Z.eqb_eq e (E - 1))) by lia.
    split_and!; [done|done|done|by rewrite Hp|]. intros x Hx. rewrite replay_snoc.
    rewrite (proj2 (Z.eqb_neq e x)) by lia. by apply Hf.
  - rewrite !Z.max_l by lia. rewrite (proj2 (Z.eqb_eq e E)), (proj2 (Z.eqb_neq e (E - 1))) by lia.
    split_and!; [done|done|by rewrite Hc|done|]. intros x Hx. rewrite replay_snoc.
    rewrite (proj2 (Z.eqb_neq e x)) by lia. by apply Hf.
  - rewrite !Z.max_r by lia. rewrite Z.eqb_refl, (proj2 (Z.eqb_neq e (e - 1))) by lia.
    split_and!; [done|done|by rewrite Hf by lia|rewrite Hc; f_equal; lia|].
    intros x Hx. rewrite replay_snoc. rewrite (proj2 (Z.eqb_neq e x)) by lia. apply Hf. lia.
  - rewrite !Z.max_r by lia. rewrite Z.eqb_refl, (proj2 (Z.eqb_neq e (e - 1))) by lia.
    split_and!; [done|done|by rewrite Hf by lia|by rewrite Hf by lia|].
    intros x Hx. rewrite replay_snoc. rewrite (proj2 (Z.eqb_neq e x)) by lia. apply Hf. lia.
Qed.

(** a sliding buffer forgets nothing of the last two epochs: after any updates that
    come in the newest epoch, the one before or a later one, the value of each of these
    two epochs is the result of all updates of that epoch, and every other epoch
    reads as the default. *)
Theorem sliding_buffer_window e0 l x :
  SlidingBuffer.no_wrap e0 -> timely e0 l -> SlidingBuffer.no_wrap x ->
  SlidingBuffer.get dflt (apply_log (SlidingBuffer.new dflt e0) l) x =
    if (last_epoch e0 l - 1 <=? x) && (x <=? last_epoch e0 l) then replay l x else dflt.
Proof.
  intros H0 Ht Hx. destruct (sliding_repr e0 l H0 Ht) as (He & HE & Hc & Hp & Hf).
  unfold SlidingBuffer.get. rewrite He, SlidingBuffer.succ_epoch_small by done.
  set (E := last_epoch e0 l) in *.
  destruct (Z.eqb_spec (x + 1) E).
  { rewrite (proj2 (Z.leb_le (E - 1) x)), (proj2 (Z.leb_le x E)) by lia. simpl. rewrite Hp. f_equal. lia. }
  destruct (Z.eqb_spec x E) as [->|].
  { by rewrite (proj2 (Z.leb_le (E - 1) E)), Z.leb_refl by lia. }
  by destruct (Z.leb_spec (E - 1) x), (Z.leb_spec x E); simpl; try lia.
Qed.
End sliding.

(** Three updates: two in epoch 4, one late one of epoch 3, then epoch 5. *)
Definition log_example : log := [(4, Z.add 10); (3, Z.add 7); (4, Z.add 1); (5, Z.add 2)].

Lemma sliding_buffer_window_witness :
  timely 2 log_example /\
  SlidingBuffer.get 0 (apply_log 0 (SlidingBuffer.new 0 2) log_example) 4 = 11.
Proof.
  assert (timely 2 log_example) as Ht by (unfold log_example, SlidingBuffer.no_wrap; simpl; by_compute).
  assert (SlidingBuffer.no_wrap 2) as H2 by by_compute.
  assert (SlidingBuffer.no_wrap 4) as H4 by by_compute.
  split; [exact Ht|]. exact (sliding_buffer_window 0 2 log_example 4 H2 Ht H4).
Defined.
