(* ===== verification/ComputeTypes.v ===== *)
(** The data of the compute pallet: [pallets/compute/src/types.rs], the storage,
    the constants, the errors and the events of [pallets/compute/src/lib.rs], and
    the interface to the pallets it calls.

    Amounts are [u128], weights [U256], block numbers, epochs and eras [u32],
    pool ids [u8]; all are [Z] with the operations of the prelude.  Accounts,
    manager ids and commitment ids are only compared, so they are [Z] too. *)
From S2P Require Import Prelude Perthings Buffers.

(** Identifiers and the fixed-size byte names, as the values the code compares. *)
Notation AccountId := Z (only parsing).
Notation ManagerId := Z (only parsing).
Notation CommitmentId := Z (only parsing).
Notation PoolId := Z (only parsing).
Notation Balance := Z (only parsing).
Notation BlockNumber := Z (only parsing).
Notation Epoch_ := Z (only parsing).
Notation Metric := Z (only parsing).
Notation MetricPoolName := (list Z) (only parsing).
Notation MetricPoolConfigName := (list Z) (only parsing).
Notation MetricPoolConfigValue := (list Z * Z * Z)%type (only parsing).

Definition CONFIG_VALUES_MAX_LENGTH : Z := 20.
Definition PER_TOKEN_DECIMALS : Z := 10 ^ 30.
Definition FIXEDU128_DECIMALS : Z := 10 ^ 18.

(** [RewardBudget]: what a pool distributes in an epoch, and the score it is divided by *)
Record RewardBudget := mkRewardBudget {
  rb_total : Balance;
  rb_distributed : Balance;
  rb_target_weight_per_compute : Z;
  rb_total_score : Z;
}.
Definition set_rb_distributed (v : Balance) (x : RewardBudget) : RewardBudget :=
  {| rb_total := x.(rb_total); rb_distributed := v; rb_target_weight_per_compute := x.(rb_target_weight_per_compute); rb_total_score := x.(rb_total_score) |}.
Definition set_rb_total_score (v : Z) (x : RewardBudget) : RewardBudget :=
  {| rb_total := x.(rb_total); rb_distributed := x.(rb_distributed); rb_target_weight_per_compute := x.(rb_target_weight_per_compute); rb_total_score := v |}.

Definition RewardBudget_new (total target_weight_per_compute : Z) : RewardBudget :=
  {| rb_total := total; rb_distributed := 0;
     rb_target_weight_per_compute := target_weight_per_compute; rb_total_score := 0 |}.
Definition RewardBudget_default : RewardBudget := RewardBudget_new 0 0.

(** [Cycle] *)
Record Cycle := mkCycle {
  cy_epoch : Epoch_;
  cy_epoch_start : BlockNumber;
}.

Record MetricPoolUpdateOperations := {
  ops_add : list MetricPoolConfigValue;
  ops_remove : list MetricPoolConfigName;
}.

Inductive ModifyMetricPoolConfig :=
| Replace (c : list MetricPoolConfigValue)
| Update (ops : MetricPoolUpdateOperations).

Inductive ProcessorStatus :=
| WarmupUntil (b : BlockNumber)
| Active.

(** [MetricPool]: the rolling totals of a pool and its share of the rewards *)
Record MetricPool := mkMetricPool {
  mp_config : list MetricPoolConfigValue;
  mp_name : MetricPoolName;
  mp_reward : ProvisionalBuffer.t Z;
  mp_total : SlidingBuffer.t Metric;
  mp_total_with_bonus : SlidingBuffer.t Metric;
}.
Definition set_mp_config (v : list MetricPoolConfigValue) (x : MetricPool) : MetricPool :=
  {| mp_config := v; mp_name := x.(mp_name); mp_reward := x.(mp_reward); mp_total := x.(mp_total); mp_total_with_bonus := x.(mp_total_with_bonus) |}.
Definition set_mp_name (v : MetricPoolName) (x : MetricPool) : MetricPool :=
  {| mp_config := x.(mp_config); mp_name := v; mp_reward := x.(mp_reward); mp_total := x.(mp_total); mp_total_with_bonus := x.(mp_total_with_bonus) |}.
Definition set_mp_reward (v : ProvisionalBuffer.t Z) (x : MetricPool) : MetricPool :=
  {| mp_config := x.(mp_config); mp_name := x.(mp_name); mp_reward := v; mp_total := x.(mp_total); mp_total_with_bonus := x.(mp_total_with_bonus) |}.
Definition set_mp_total (v : SlidingBuffer.t Metric) (x : MetricPool) : MetricPool :=
  {| mp_config := x.(mp_config); mp_name := x.(mp_name); mp_reward := x.(mp_reward); mp_total := v; mp_total_with_bonus := x.(mp_total_with_bonus) |}.
Definition set_mp_total_with_bonus (v : SlidingBuffer.t Metric) (x : MetricPool) : MetricPool :=
  {| mp_config := x.(mp_config); mp_name := x.(mp_name); mp_reward := x.(mp_reward); mp_total := x.(mp_total); mp_total_with_bonus := v |}.

Definition MetricPool_add (p : MetricPool) (epoch summand : Z) : MetricPool :=
  set_mp_total
    (SlidingBuffer.mutate 0 p.(mp_total) epoch (fun v => saturating_add u128_max v summand) false) p.
Definition MetricPool_add_bonus (p : MetricPool) (epoch summand : Z) : MetricPool :=
  set_mp_total_with_bonus
    (SlidingBuffer.mutate 0 p.(mp_total_with_bonus) epoch
       (fun v => saturating_add u128_max v summand) false) p.

(** [MetricCommit] *)
Record MetricCommit := mkMetricCommit {
  mc_epoch : Epoch_;
  mc_metric : Metric;
}.

(** [ProcessorState] *)
Record ProcessorState := mkProcessorState {
  ps_epoch_offset : BlockNumber;
  ps_committed : Epoch_;
  ps_claimed : Epoch_;
  ps_status : ProcessorStatus;
  ps_reward_contribution : Balance;
  ps_paid : Balance;
}.
Definition set_ps_committed (v : Epoch_) (x : ProcessorState) : ProcessorState :=
  {| ps_epoch_offset := x.(ps_epoch_offset); ps_committed := v; ps_claimed := x.(ps_claimed); ps_status := x.(ps_status); ps_reward_contribution := x.(ps_reward_contribution); ps_paid := x.(ps_paid) |}.
Definition set_ps_status (v : ProcessorStatus) (x : ProcessorState) : ProcessorState :=
  {| ps_epoch_offset := x.(ps_epoch_offset); ps_committed := x.(ps_committed); ps_claimed := x.(ps_claimed); ps_status := v; ps_reward_contribution := x.(ps_reward_contribution); ps_paid := x.(ps_paid) |}.
Definition set_ps_reward_contribution (v : Balance) (x : ProcessorState) : ProcessorState :=
  {| ps_epoch_offset := x.(ps_epoch_offset); ps_committed := x.(ps_committed); ps_claimed := x.(ps_claimed); ps_status := x.(ps_status); ps_reward_contribution := v; ps_paid := x.(ps_paid) |}.

Definition ProcessorState_initial (epoch_offset warmup_end : BlockNumber) : ProcessorState :=
  {| ps_epoch_offset := epoch_offset; ps_committed := 0; ps_claimed := 0;
     ps_status := WarmupUntil warmup_end; ps_reward_contribution := 0; ps_paid := 0 |}.

(** [MetricsRewardState] *)
Record MetricsRewardState := mkMetricsRewardState {
  mr_paid : Balance;
  mr_claimed : Epoch_;
}.

(** [ComputeCommitment] *)
Record ComputeCommitment := mkComputeCommitment {
  cc_pool_id : PoolId;
  cc_metric : Metric;
}.

(** [Stake]: the position of a committer or of a delegator *)
Record Stake := mkStake {
  st_amount : Balance;
  st_rewardable_amount : Balance;
  st_created : BlockNumber;
  st_cooldown_period : BlockNumber;
  st_cooldown_started : option BlockNumber;
  st_accrued_reward : Balance;
  st_accrued_slash : Balance;
  st_allow_auto_compound : bool;
  st_paid : Balance;
  st_applied_slash : Balance;
}.
Definition set_st_amount (v : Balance) (x : Stake) : Stake :=
  {| st_amount := v; st_rewardable_amount := x.(st_rewardable_amount); st_created := x.(st_created); st_cooldown_period := x.(st_cooldown_period); st_cooldown_started := x.(st_cooldown_started); st_accrued_reward := x.(st_accrued_reward); st_accrued_slash := x.(st_accrued_slash); st_allow_auto_compound := x.(st_allow_auto_compound); st_paid := x.(st_paid); st_applied_slash := x.(st_applied_slash) |}.
Definition set_st_rewardable_amount (v : Balance) (x : Stake) : Stake :=
  {| st_amount := x.(st_amount); st_rewardable_amount := v; st_created := x.(st_created); st_cooldown_period := x.(st_cooldown_period); st_cooldown_started := x.(st_cooldown_started); st_accrued_reward := x.(st_accrued_reward); st_accrued_slash := x.(st_accrued_slash); st_allow_auto_compound := x.(st_allow_auto_compound); st_paid := x.(st_paid); st_applied_slash := x.(st_applied_slash) |}.
Definition set_st_cooldown_period (v : BlockNumber) (x : Stake) : Stake :=
  {| st_amount := x.(st_amount); st_rewardable_amount := x.(st_rewardable_amount); st_created := x.(st_created); st_cooldown_period := v; st_cooldown_started := x.(st_cooldown_started); st_accrued_reward := x.(st_accrued_reward); st_accrued_slash := x.(st_accrued_slash); st_allow_auto_compound := x.(st_allow_auto_compound); st_paid := x.(st_paid); st_applied_slash := x.(st_applied_slash) |}.
Definition set_st_cooldown_started (v : option BlockNumber) (x : Stake) : Stake :=
  {| st_amount := x.(st_amount); st_rewardable_amount := x.(st_rewardable_amount); st_created := x.(st_created); st_cooldown_period := x.(st_cooldown_period); st_cooldown_started := v; st_accrued_reward := x.(st_accrued_reward); st_accrued_slash := x.(st_accrued_slash); st_allow_auto_compound := x.(st_allow_auto_compound); st_paid := x.(st_paid); st_applied_slash := x.(st_applied_slash) |}.
Definition set_st_accrued_reward (v : Balance) (x : Stake) : Stake :=
  {| st_amount := x.(st_amount); st_rewardable_amount := x.(st_rewardable_amount); st_created := x.(st_created); st_cooldown_period := x.(st_cooldown_period); st_cooldown_started := x.(st_cooldown_started); st_accrued_reward := v; st_accrued_slash := x.(st_accrued_slash); st_allow_auto_compound := x.(st_allow_auto_compound); st_paid := x.(st_paid); st_applied_slash := x.(st_applied_slash) |}.
Definition set_st_accrued_slash (v : Balance) (x : Stake) : Stake :=
  {| st_amount := x.(st_amount); st_rewardable_amount := x.(st_rewardable_amount); st_created := x.(st_created); st_cooldown_period := x.(st_cooldown_period); st_cooldown_started := x.(st_cooldown_started); st_accrued_reward := x.(st_accrued_reward); st_accrued_slash := v; st_allow_auto_compound := x.(st_allow_auto_compound); st_paid := x.(st_paid); st_applied_slash := x.(st_applied_slash) |}.
Definition set_st_allow_auto_compound (v : bool) (x : Stake) : Stake :=
  {| st_amount := x.(st_amount); st_rewardable_amount := x.(st_rewardable_amount); st_created := x.(st_created); st_cooldown_period := x.(st_cooldown_period); st_cooldown_started := x.(st_cooldown_started); st_accrued_reward := x.(st_accrued_reward); st_accrued_slash := x.(st_accrued_slash); st_allow_auto_compound := v; st_paid := x.(st_paid); st_applied_slash := x.(st_applied_slash) |}.
Definition set_st_paid (v : Balance) (x : Stake) : Stake :=
  {| st_amount := x.(st_amount); st_rewardable_amount := x.(st_rewardable_amount); st_created := x.(st_created); st_cooldown_period := x.(st_cooldown_period); st_cooldown_started := x.(st_cooldown_started); st_accrued_reward := x.(st_accrued_reward); st_accrued_slash := x.(st_accrued_slash); st_allow_auto_compound := x.(st_allow_auto_compound); st_paid := v; st_applied_slash := x.(st_applied_slash) |}.

Definition Stake_new (amount created cooldown_period : Z) (allow_auto_compound : bool) : Stake :=
  {| st_amount := amount; st_rewardable_amount := amount; st_created := created;
     st_cooldown_period := cooldown_period; st_cooldown_started := None;
     st_accrued_reward := 0; st_accrued_slash := 0;
     st_allow_auto_compound := allow_auto_compound; st_paid := 0; st_applied_slash := 0 |}.

(** [CommitmentWeights] *)
Record CommitmentWeights := mkCommitmentWeights {
  self_reward_weight : Z;
  self_slash_weight : Z;
  delegations_reward_weight : Z;
  delegations_slash_weight : Z;
}.
Definition set_self_reward_weight (v : Z) (x : CommitmentWeights) : CommitmentWeights :=
  {| self_reward_weight := v; self_slash_weight := x.(self_slash_weight); delegations_reward_weight := x.(delegations_reward_weight); delegations_slash_weight := x.(delegations_slash_weight) |}.
Definition set_self_slash_weight (v : Z) (x : CommitmentWeights) : CommitmentWeights :=
  {| self_reward_weight := x.(self_reward_weight); self_slash_weight := v; delegations_reward_weight := x.(delegations_reward_weight); delegations_slash_weight := x.(delegations_slash_weight) |}.
Definition set_delegations_reward_weight (v : Z) (x : CommitmentWeights) : CommitmentWeights :=
  {| self_reward_weight := x.(self_reward_weight); self_slash_weight := x.(self_slash_weight); delegations_reward_weight := v; delegations_slash_weight := x.(delegations_slash_weight) |}.
Definition set_delegations_slash_weight (v : Z) (x : CommitmentWeights) : CommitmentWeights :=
  {| self_reward_weight := x.(self_reward_weight); self_slash_weight := x.(self_slash_weight); delegations_reward_weight := x.(delegations_reward_weight); delegations_slash_weight := v |}.

Definition CommitmentWeights_default : CommitmentWeights :=
  {| self_reward_weight := 0; self_slash_weight := 0;
     delegations_reward_weight := 0; delegations_slash_weight := 0 |}.
Definition total_reward_weight (w : CommitmentWeights) : Z :=
  saturating_add u256_max w.(self_reward_weight) w.(delegations_reward_weight).
Definition total_slash_weight (w : CommitmentWeights) : Z :=
  saturating_add u256_max w.(self_slash_weight) w.(delegations_slash_weight).

(** [PoolReward]: the running reward and slash per unit of delegation weight *)
Record PoolReward := mkPoolReward {
  reward_per_weight : Z;
  slash_per_weight : Z;
}.
Definition set_reward_per_weight (v : Z) (x : PoolReward) : PoolReward :=
  {| reward_per_weight := v; slash_per_weight := x.(slash_per_weight) |}.
Definition set_slash_per_weight (v : Z) (x : PoolReward) : PoolReward :=
  {| reward_per_weight := x.(reward_per_weight); slash_per_weight := v |}.

Definition PoolReward_default : PoolReward := {| reward_per_weight := 0; slash_per_weight := 0 |}.

(** [Commitment] *)
Record Commitment := mkCommitment {
  cm_stake : option Stake;
  cm_commission : Z;
  cm_delegations_total_amount : Balance;
  cm_delegations_total_rewardable_amount : Balance;
  cm_weights : MemoryBuffer.t CommitmentWeights;
  cm_pool_rewards : MemoryBuffer.t PoolReward;
  cm_last_scoring_epoch : Epoch_;
  cm_last_slashing_epoch : Epoch_;
}.
Definition set_cm_stake (v : option Stake) (x : Commitment) : Commitment :=
  {| cm_stake := v; cm_commission := x.(cm_commission); cm_delegations_total_amount := x.(cm_delegations_total_amount); cm_delegations_total_rewardable_amount := x.(cm_delegations_total_rewardable_amount); cm_weights := x.(cm_weights); cm_pool_rewards := x.(cm_pool_rewards); cm_last_scoring_epoch := x.(cm_last_scoring_epoch); cm_last_slashing_epoch := x.(cm_last_slashing_epoch) |}.
Definition set_cm_commission (v : Z) (x : Commitment) : Commitment :=
  {| cm_stake := x.(cm_stake); cm_commission := v; cm_delegations_total_amount := x.(cm_delegations_total_amount); cm_delegations_total_rewardable_amount := x.(cm_delegations_total_rewardable_amount); cm_weights := x.(cm_weights); cm_pool_rewards := x.(cm_pool_rewards); cm_last_scoring_epoch := x.(cm_last_scoring_epoch); cm_last_slashing_epoch := x.(cm_last_slashing_epoch) |}.
Definition set_cm_delegations_total_amount (v : Balance) (x : Commitment) : Commitment :=
  {| cm_stake := x.(cm_stake); cm_commission := x.(cm_commission); cm_delegations_total_amount := v; cm_delegations_total_rewardable_amount := x.(cm_delegations_total_rewardable_amount); cm_weights := x.(cm_weights); cm_pool_rewards := x.(cm_pool_rewards); cm_last_scoring_epoch := x.(cm_last_scoring_epoch); cm_last_slashing_epoch := x.(cm_last_slashing_epoch) |}.
Definition set_cm_delegations_total_rewardable_amount (v : Balance) (x : Commitment) : Commitment :=
  {| cm_stake := x.(cm_stake); cm_commission := x.(cm_commission); cm_delegations_total_amount := x.(cm_delegations_total_amount); cm_delegations_total_rewardable_amount := v; cm_weights := x.(cm_weights); cm_pool_rewards := x.(cm_pool_rewards); cm_last_scoring_epoch := x.(cm_last_scoring_epoch); cm_last_slashing_epoch := x.(cm_last_slashing_epoch) |}.
Definition set_cm_weights (v : MemoryBuffer.t CommitmentWeights) (x : Commitment) : Commitment :=
  {| cm_stake := x.(cm_stake); cm_commission := x.(cm_commission); cm_delegations_total_amount := x.(cm_delegations_total_amount); cm_delegations_total_rewardable_amount := x.(cm_delegations_total_rewardable_amount); cm_weights := v; cm_pool_rewards := x.(cm_pool_rewards); cm_last_scoring_epoch := x.(cm_last_scoring_epoch); cm_last_slashing_epoch := x.(cm_last_slashing_epoch) |}.
Definition set_cm_pool_rewards (v : MemoryBuffer.t PoolReward) (x : Commitment) : Commitment :=
  {| cm_stake := x.(cm_stake); cm_commission := x.(cm_commission); cm_delegations_total_amount := x.(cm_delegations_total_amount); cm_delegations_total_rewardable_amount := x.(cm_delegations_total_rewardable_amount); cm_weights := x.(cm_weights); cm_pool_rewards := v; cm_last_scoring_epoch := x.(cm_last_scoring_epoch); cm_last_slashing_epoch := x.(cm_last_slashing_epoch) |}.
Definition set_cm_last_scoring_epoch (v : Epoch_) (x : Commitment) : Commitment :=
  {| cm_stake := x.(cm_stake); cm_commission := x.(cm_commission); cm_delegations_total_amount := x.(cm_delegations_total_amount); cm_delegations_total_rewardable_amount := x.(cm_delegations_total_rewardable_amount); cm_weights := x.(cm_weights); cm_pool_rewards := x.(cm_pool_rewards); cm_last_scoring_epoch := v; cm_last_slashing_epoch := x.(cm_last_slashing_epoch) |}.
Definition set_cm_last_slashing_epoch (v : Epoch_) (x : Commitment) : Commitment :=
  {| cm_stake := x.(cm_stake); cm_commission := x.(cm_commission); cm_delegations_total_amount := x.(cm_delegations_total_amount); cm_delegations_total_rewardable_amount := x.(cm_delegations_total_rewardable_amount); cm_weights := x.(cm_weights); cm_pool_rewards := x.(cm_pool_rewards); cm_last_scoring_epoch := x.(cm_last_scoring_epoch); cm_last_slashing_epoch := v |}.

(** [Delegation] *)
Record Delegation := mkDelegation {
  dl_stake : Stake;
  dl_reward_weight : Z;
  dl_slash_weight : Z;
  dl_reward_debt : Balance;
  dl_slash_debt : Balance;
}.
Definition set_dl_stake (v : Stake) (x : Delegation) : Delegation :=
  {| dl_stake := v; dl_reward_weight := x.(dl_reward_weight); dl_slash_weight := x.(dl_slash_weight); dl_reward_debt := x.(dl_reward_debt); dl_slash_debt := x.(dl_slash_debt) |}.
Definition set_dl_reward_weight (v : Z) (x : Delegation) : Delegation :=
  {| dl_stake := x.(dl_stake); dl_reward_weight := v; dl_slash_weight := x.(dl_slash_weight); dl_reward_debt := x.(dl_reward_debt); dl_slash_debt := x.(dl_slash_debt) |}.
Definition set_dl_slash_weight (v : Z) (x : Delegation) : Delegation :=
  {| dl_stake := x.(dl_stake); dl_reward_weight := x.(dl_reward_weight); dl_slash_weight := v; dl_reward_debt := x.(dl_reward_debt); dl_slash_debt := x.(dl_slash_debt) |}.
Definition set_dl_reward_debt (v : Balance) (x : Delegation) : Delegation :=
  {| dl_stake := x.(dl_stake); dl_reward_weight := x.(dl_reward_weight); dl_slash_weight := x.(dl_slash_weight); dl_reward_debt := v; dl_slash_debt := x.(dl_slash_debt) |}.
Definition set_dl_slash_debt (v : Balance) (x : Delegation) : Delegation :=
  {| dl_stake := x.(dl_stake); dl_reward_weight := x.(dl_reward_weight); dl_slash_weight := x.(dl_slash_weight); dl_reward_debt := x.(dl_reward_debt); dl_slash_debt := v |}.

Inductive LockReason :=
| Staking
| DelegationTo (commitment_id : CommitmentId).

Inductive StakeChange :=
| Add (amount : Balance)
| Sub (amount : Balance).

(** A credit is an imbalance of the currency, represented by its value. *)
Record InflationInfo := {
  ii_metrics_reward : Balance;
  ii_staked_compute_reward : Balance;
  ii_collators_reward : Balance;
  ii_credit : option Balance;
}.
Definition InflationInfo_default : InflationInfo :=
  {| ii_metrics_reward := 0; ii_staked_compute_reward := 0; ii_collators_reward := 0;
     ii_credit := None |}.

Record MetricPoolUpdateInfo := {
  mu_pool_id : PoolId;
  mu_epoch_sum : option (Metric * Metric);
  mu_pool_total : option (Metric * Z);
}.

Record CommitMetricsInfo := {
  previous_metrics : option (list (PoolId * Metric));
  previous_pool_totals : option (list (PoolId * (Metric * Z)));
  previous_sums : option (list (PoolId * (Metric * Metric)));
}.

Record RewardInfo := {
  ri_reward : Balance;
  ri_metrics_reward_claimed : bool;
  ri_staked_compute_reward_claimed : bool;
}.
Definition RewardInfo_default : RewardInfo :=
  {| ri_reward := 0; ri_metrics_reward_claimed := false;
     ri_staked_compute_reward_claimed := false |}.

(** [find_map] over the pool totals: the first entry with this id *)
Fixpoint find_pool {A} (pool_id : PoolId) (l : list (PoolId * A)) : option A :=
  match l with
  | [] => None
  | (id, a) :: l' => if id =? pool_id then Some a else find_pool pool_id l'
  end.

Section reward_contribution.
Context `{P : Perthings}.

(** The ratio of a pool's reward that is due for [metric] out of [pool_total]. *)
Definition compute_weighted_reward_ratio (reward_ratio metric pool_total : Z) : Z :=
  if pool_total =? 0 then 0
  else pq_saturating_mul reward_ratio (pq_from_rational metric pool_total).

Definition compute_reward_contribution (i : CommitMetricsInfo) (total_reward : Balance)
  : option Balance :=
  match i.(previous_metrics), i.(previous_pool_totals) with
  | Some previous_metrics, Some previous_pool_totals =>
      let total_reward_ratio :=
        fold_left (fun acc '(pool_id, metric) =>
          match find_pool pool_id previous_pool_totals with
          | Some (pool_total, reward_ratio) =>
              pq_saturating_add acc (compute_weighted_reward_ratio reward_ratio metric pool_total)
          | None => acc
          end) previous_metrics 0 in
      Some (pq_mul_floor total_reward_ratio total_reward)
  | _, _ => None
  end.
End reward_contribution.

(** The errors of the pallet; [Other] stands for an error that another pallet
    returned, [BadOrigin] for a rejected origin. *)
Inductive Error :=
| PoolNameMustBeUnique
| MissingMetricTotal
| ProcessorNeverCommitted
| InvalidMetric
| CalculationOverflow
| PoolNotFound
| RewardUpdateInvalid
| AlreadyOfferedBacking
| AlreadyBacking
| NoBackingOfferFound
| AlreadyDelegating
| CooldownAlreadyStarted
| BelowMinCooldownPeriod
| AboveMaxCooldownPeriod
| CooldownPeriodCannotDecrease
| CommissionCannotIncrease
| CommittedMetricCannotDecrease
| BelowMinDelegation
| DelegationCooldownMustBeShorterThanCommitment
| MaxDelegationRatioExceeded
| MaxMetricCommitmentExceeded
| ZeroMetricsForValidPools
| MinStakeUnmet
| InsufficientBalance
| CooldownNotStarted
| CooldownNotEnded
| NotDelegating
| CommitmentNotFound
| CommitmentScoreNotFound
| NewCommitmentNotFound
| AlreadyCommitted
| NoManagerBackingCommitment
| NoOwnerOfCommitmentId
| InternalError
| InternalErrorReadingOutdated
| MaxStakeMetricRatioExceeded
| CommitmentInCooldown
| RedelegateBlocked
| AlreadyDelegatingToRedelegationCommitter
| RedelegationCommitterCooldownCannotBeShorter
| RedelegationCommitmentMetricsCannotBeLess
| AutoCompoundNotAllowed
| CannotCommit
| StaleDelegationMustBeEnded
| EndStaleDelegationsFirst
| CannotKickout
| AlreadySlashed
| NotSlashable
| DelegationInCooldown
| CommissionIncreaseTooLarge
| CommissionIncreaseTooSoon
| CannotCreatePool
| InvalidTotalPoolRewards
| CannotEndBacking
| Other
| BadOrigin.

#[export] Instance Error_eq_dec : EqDecision Error.
Proof. solve_decision. Defined.

Inductive Event :=
| PoolCreated (pool_id : PoolId) (pool_state : MetricPool)
| BackingOffered (who : AccountId) (manager_id : ManagerId)
| BackingOfferWithdrew (who : AccountId) (manager_id : ManagerId)
| BackingAccepted (commitment_id : CommitmentId) (manager_id : ManagerId)
| CommitmentCreated (who : AccountId) (commitment_id : CommitmentId)
| Delegated (who : AccountId) (commitment_id : CommitmentId)
| DelegatedMore (who : AccountId) (commitment_id : CommitmentId)
| DelegationCooldownStarted (who : AccountId) (commitment_id : CommitmentId)
| DelegationEnded (who : AccountId) (commitment_id : CommitmentId) (reward_amount : Balance)
| ComputeCommitted (commitment_id : CommitmentId)
| StakedMore (commitment_id : CommitmentId)
| ComputeCommitmentCooldownStarted (commitment_id : CommitmentId)
| ComputeCommitmentEnded (commitment_id : CommitmentId) (reward_amount : Balance)
| KickedOut (who : AccountId) (commitment_id : CommitmentId) (reward_amount : Balance)
| Slashed (commitment_id : CommitmentId)
| Redelegated (who : AccountId) (old_commitment_id new_commitment_id : CommitmentId)
| DelegatorWithdrew (who : AccountId) (commitment_id : CommitmentId) (reward_amount : Balance)
| CommitterWithdrew (who : AccountId) (commitment_id : CommitmentId) (reward_amount : Balance)
| DelegatorCompounded (who : AccountId) (commitment_id : CommitmentId) (amount : Balance)
| CommitterCompounded (who : AccountId) (commitment_id : CommitmentId) (amount : Balance)
| BackingEnded (commitment_id : CommitmentId) (manager_id : ManagerId)
| InflationEnabledEvent.

Inductive Origin :=
| Root
| Signed (who : AccountId)
| Unsigned.

(** The constants of the pallet's [Config] and the privileged origins. *)
Class Config := {
  account_id : AccountId;
  Epoch : BlockNumber;
  BusyWeightBonus : Z;
  MetricValidity : Epoch_;
  MaxPools : Z;
  MaxMetricCommitmentRatio : Z;
  MinCooldownPeriod : BlockNumber;
  MaxCooldownPeriod : BlockNumber;
  TargetWeightPerComputeMultiplier : Z;
  TargetStakedTokenSupply : Z;
  MinDelegation : Balance;
  MaxDelegationRatio : Z;
  CooldownRewardRatio : Z;
  RedelegationBlockingPeriod : Epoch_;
  MinStake : Balance;
  BaseSlashRation : Z;
  SlashRewardRatio : Z;
  MaxCommissionIncreasePerDay : Z;
  BlocksPerDay : BlockNumber;
  WarmupPeriod : BlockNumber;
  InflationPerEpoch : Balance;
  InflationStakedComputeRatio : Z;
  InflationMetricsRatio : Z;
  InflationCollatorsRatio : Z;
  CreateModifyPoolOrigin : Origin -> bool;
  OperatorOrigin : Origin -> bool;
}.

(** The pallets that the compute pallet calls: the currency with its locks and
    imbalances, the token conversion pallet behind [T::Slashable], the NFT
    pallet behind the id providers, the inflation handler and the author of the
    block.  [Ext] is their joint state. *)
Class Externals := {
  Ext : Type;
  total_issuance : Ext -> Balance;
  total_balance : Ext -> AccountId -> Balance;
  free_balance : Ext -> AccountId -> Balance;
  (** the amount locked under [T::LockIdentifier] *)
  balance_locked : Ext -> AccountId -> Balance;
  set_lock : AccountId -> Balance -> Ext -> Ext;
  remove_lock : AccountId -> Ext -> Ext;
  (** [transfer(from, to, amount, KeepAlive)]; [None] is an error *)
  transfer : AccountId -> AccountId -> Balance -> Ext -> option Ext;
  (** [withdraw(who, amount, BestEffort, Expendable, Force)] with the credit *)
  withdraw : AccountId -> Balance -> Ext -> option (Balance * Ext);
  (** [T::Slashable::slash(who, amount)] with the credit *)
  slashable_slash : AccountId -> Balance -> Ext -> option (Balance * Ext);
  (** [issue(amount)] with the credit, [resolve(who, credit)] and dropping a credit *)
  issue : Balance -> Ext -> Balance * Ext;
  resolve : AccountId -> Balance -> Ext -> option Ext;
  drop_credit : Balance -> Ext -> Ext;
  (** [Imbalance::extract] and [Imbalance::merge] *)
  extract : Balance -> Balance -> Balance * Balance;
  merge : Balance -> Balance -> Balance;
  on_unbalanced : Balance -> Ext -> Ext;
  author : Ext -> option AccountId;
  manager_id_for : Ext -> AccountId -> option ManagerId;
  commitment_id_for : Ext -> AccountId -> option CommitmentId;
  owner_for : Ext -> CommitmentId -> option AccountId;
  create_commitment_id : CommitmentId -> AccountId -> Ext -> option Ext;
}.

Section storage.
Context {X : Externals}.

(** The storage items of the pallet under their getter names, the block number of
    [frame_system], the deposited events and the state of the other pallets *)
Record State := mkState {
  last_metric_pool_id : PoolId;
  processors : gmap AccountId ProcessorState;
  manager_metrics_rewards : gmap ManagerId MetricsRewardState;
  metric_pools : gmap PoolId MetricPool;
  metrics : gmap (AccountId * PoolId) MetricCommit;
  metric_pool_lookup : gmap MetricPoolName PoolId;
  compute_commitments : gmap (CommitmentId * PoolId) Metric;
  last_commission_increase : gmap CommitmentId (BlockNumber * Z);
  scores : gmap (CommitmentId * PoolId) (SlidingBuffer.t (Z * Z));
  metrics_epoch_sum : gmap (ManagerId * PoolId) (SlidingBuffer.t (Metric * Metric));
  backing_offers : gmap AccountId ManagerId;
  backings : gmap CommitmentId ManagerId;
  backing_lookup : gmap ManagerId CommitmentId;
  next_commitment_id : CommitmentId;
  commitments : gmap CommitmentId Commitment;
  total_stake : Balance;
  delegations : gmap (AccountId * CommitmentId) Delegation;
  delegator_total : gmap AccountId Balance;
  current_cycle : Cycle;
  compute_based_rewards : SlidingBuffer.t Balance;
  stake_based_rewards : gmap PoolId (SlidingBuffer.t RewardBudget);
  collator_rewards : Balance;
  inflation_enabled : bool;
  block_number : BlockNumber;
  events : list Event;
  ext : Ext;
}.
Definition set_last_metric_pool_id (v : PoolId) (x : State) : State :=
  {| last_metric_pool_id := v; processors := x.(processors); manager_metrics_rewards := x.(manager_metrics_rewards); metric_pools := x.(metric_pools); metrics := x.(metrics); metric_pool_lookup := x.(metric_pool_lookup); compute_commitments := x.(compute_commitments); last_commission_increase := x.(last_commission_increase); scores := x.(scores); metrics_epoch_sum := x.(metrics_epoch_sum); backing_offers := x.(backing_offers); backings := x.(backings); backing_lookup := x.(backing_lookup); next_commitment_id := x.(next_commitment_id); commitments := x.(commitments); total_stake := x.(total_stake); delegations := x.(delegations); delegator_total := x.(delegator_total); current_cycle := x.(current_cycle); compute_based_rewards := x.(compute_based_rewards); stake_based_rewards := x.(stake_based_rewards); collator_rewards := x.(collator_rewards); inflation_enabled := x.(inflation_enabled); block_number := x.(block_number); events := x.(events); ext := x.(ext) |}.
Definition set_processors (v : gmap AccountId ProcessorState) (x : State) : State :=
  {| last_metric_pool_id := x.(last_metric_pool_id); processors := v; manager_metrics_rewards := x.(manager_metrics_rewards); metric_pools := x.(metric_pools); metrics := x.(metrics); metric_pool_lookup := x.(metric_pool_lookup); compute_commitments := x.(compute_commitments); last_commission_increase := x.(last_commission_increase); scores := x.(scores); metrics_epoch_sum := x.(metrics_epoch_sum); backing_offers := x.(backing_offers); backings := x.(backings); backing_lookup := x.(backing_lookup); next_commitment_id := x.(next_commitment_id); commitments := x.(commitments); total_stake := x.(total_stake); delegations := x.(delegations); delegator_total := x.(delegator_total); current_cycle := x.(current_cycle); compute_based_rewards := x.(compute_based_rewards); stake_based_rewards := x.(stake_based_rewards); collator_rewards := x.(collator_rewards); inflation_enabled := x.(inflation_enabled); block_number := x.(block_number); events := x.(events); ext := x.(ext) |}.
Definition set_manager_metrics_rewards (v : gmap ManagerId MetricsRewardState) (x : State) : State :=
  {| last_metric_pool_id := x.(last_metric_pool_id); processors := x.(processors); manager_metrics_rewards := v; metric_pools := x.(metric_pools); metrics := x.(metrics); metric_pool_lookup := x.(metric_pool_lookup); compute_commitments := x.(compute_commitments); last_commission_increase := x.(last_commission_increase); scores := x.(scores); metrics_epoch_sum := x.(metrics_epoch_sum); backing_offers := x.(backing_offers); backings := x.(backings); backing_lookup := x.(backing_lookup); next_commitment_id := x.(next_commitment_id); commitments := x.(commitments); total_stake := x.(total_stake); delegations := x.(delegations); delegator_total := x.(delegator_total); current_cycle := x.(current_cycle); compute_based_rewards := x.(compute_based_rewards); stake_based_rewards := x.(stake_based_rewards); collator_rewards := x.(collator_rewards); inflation_enabled := x.(inflation_enabled); block_number := x.(block_number); events := x.(events); ext := x.(ext) |}.
Definition set_metric_pools (v : gmap PoolId MetricPool) (x : State) : State :=
  {| last_metric_pool_id := x.(last_metric_pool_id); processors := x.(processors); manager_metrics_rewards := x.(manager_metrics_rewards); metric_pools := v; metrics := x.(metrics); metric_pool_lookup := x.(metric_pool_lookup); compute_commitments := x.(compute_commitments); last_commission_increase := x.(last_commission_increase); scores := x.(scores); metrics_epoch_sum := x.(metrics_epoch_sum); backing_offers := x.(backing_offers); backings := x.(backings); backing_lookup := x.(backing_lookup); next_commitment_id := x.(next_commitment_id); commitments := x.(commitments); total_stake := x.(total_stake); delegations := x.(delegations); delegator_total := x.(delegator_total); current_cycle := x.(current_cycle); compute_based_rewards := x.(compute_based_rewards); stake_based_rewards := x.(stake_based_rewards); collator_rewards := x.(collator_rewards); inflation_enabled := x.(inflation_enabled); block_number := x.(block_number); events := x.(events); ext := x.(ext) |}.
Definition set_metrics (v : gmap (AccountId * PoolId) MetricCommit) (x : State) : State :=
  {| last_metric_pool_id := x.(last_metric_pool_id); processors := x.(processors); manager_metrics_rewards := x.(manager_metrics_rewards); metric_pools := x.(metric_pools); metrics := v; metric_pool_lookup := x.(metric_pool_lookup); compute_commitments := x.(compute_commitments); last_commission_increase := x.(last_commission_increase); scores := x.(scores); metrics_epoch_sum := x.(metrics_epoch_sum); backing_offers := x.(backing_offers); backings := x.(backings); backing_lookup := x.(backing_lookup); next_commitment_id := x.(next_commitment_id); commitments := x.(commitments); total_stake := x.(total_stake); delegations := x.(delegations); delegator_total := x.(delegator_total); current_cycle := x.(current_cycle); compute_based_rewards := x.(compute_based_rewards); stake_based_rewards := x.(stake_based_rewards); collator_rewards := x.(collator_rewards); inflation_enabled := x.(inflation_enabled); block_number := x.(block_number); events := x.(events); ext := x.(ext) |}.
Definition set_metric_pool_lookup (v : gmap MetricPoolName PoolId) (x : State) : State :=
  {| last_metric_pool_id := x.(last_metric_pool_id); processors := x.(processors); manager_metrics_rewards := x.(manager_metrics_rewards); metric_pools := x.(metric_pools); metrics := x.(metrics); metric_pool_lookup := v; compute_commitments := x.(compute_commitments); last_commission_increase := x.(last_commission_increase); scores := x.(scores); metrics_epoch_sum := x.(metrics_epoch_sum); backing_offers := x.(backing_offers); backings := x.(backings); backing_lookup := x.(backing_lookup); next_commitment_id := x.(next_commitment_id); commitments := x.(commitments); total_stake := x.(total_stake); delegations := x.(delegations); delegator_total := x.(delegator_total); current_cycle := x.(current_cycle); compute_based_rewards := x.(compute_based_rewards); stake_based_rewards := x.(stake_based_rewards); collator_rewards := x.(collator_rewards); inflation_enabled := x.(inflation_enabled); block_number := x.(block_number); events := x.(events); ext := x.(ext) |}.
Definition set_compute_commitments (v : gmap (CommitmentId * PoolId) Metric) (x : State) : State :=
  {| last_metric_pool_id := x.(last_metric_pool_id); processors := x.(processors); manager_metrics_rewards := x.(manager_metrics_rewards); metric_pools := x.(metric_pools); metrics := x.(metrics); metric_pool_lookup := x.(metric_pool_lookup); compute_commitments := v; last_commission_increase := x.(last_commission_increase); scores := x.(scores); metrics_epoch_sum := x.(metrics_epoch_sum); backing_offers := x.(backing_offers); backings := x.(backings); backing_lookup := x.(backing_lookup); next_commitment_id := x.(next_commitment_id); commitments := x.(commitments); total_stake := x.(total_stake); delegations := x.(delegations); delegator_total := x.(delegator_total); current_cycle := x.(current_cycle); compute_based_rewards := x.(compute_based_rewards); stake_based_rewards := x.(stake_based_rewards); collator_rewards := x.(collator_rewards); inflation_enabled := x.(inflation_enabled); block_number := x.(block_number); events := x.(events); ext := x.(ext) |}.
Definition set_last_commission_increase (v : gmap CommitmentId (BlockNumber * Z)) (x : State) : State :=
  {| last_metric_pool_id := x.(last_metric_pool_id); processors := x.(processors); manager_metrics_rewards := x.(manager_metrics_rewards); metric_pools := x.(metric_pools); metrics := x.(metrics); metric_pool_lookup := x.(metric_pool_lookup); compute_commitments := x.(compute_commitments); last_commission_increase := v; scores := x.(scores); metrics_epoch_sum := x.(metrics_epoch_sum); backing_offers := x.(backing_offers); backings := x.(backings); backing_lookup := x.(backing_lookup); next_commitment_id := x.(next_commitment_id); commitments := x.(commitments); total_stake := x.(total_stake); delegations := x.(delegations); delegator_total := x.(delegator_total); current_cycle := x.(current_cycle); compute_based_rewards := x.(compute_based_rewards); stake_based_rewards := x.(stake_based_rewards); collator_rewards := x.(collator_rewards); inflation_enabled := x.(inflation_enabled); block_number := x.(block_number); events := x.(events); ext := x.(ext) |}.
Definition set_scores (v : gmap (CommitmentId * PoolId) (SlidingBuffer.t (Z * Z))) (x : State) : State :=
  {| last_metric_pool_id := x.(last_metric_pool_id); processors := x.(processors); manager_metrics_rewards := x.(manager_metrics_rewards); metric_pools := x.(metric_pools); metrics := x.(metrics); metric_pool_lookup := x.(metric_pool_lookup); compute_commitments := x.(compute_commitments); last_commission_increase := x.(last_commission_increase); scores := v; metrics_epoch_sum := x.(metrics_epoch_sum); backing_offers := x.(backing_offers); backings := x.(backings); backing_lookup := x.(backing_lookup); next_commitment_id := x.(next_commitment_id); commitments := x.(commitments); total_stake := x.(total_stake); delegations := x.(delegations); delegator_total := x.(delegator_total); current_cycle := x.(current_cycle); compute_based_rewards := x.(compute_based_rewards); stake_based_rewards := x.(stake_based_rewards); collator_rewards := x.(collator_rewards); inflation_enabled := x.(inflation_enabled); block_number := x.(block_number); events := x.(events); ext := x.(ext) |}.
Definition set_metrics_epoch_sum (v : gmap (ManagerId * PoolId) (SlidingBuffer.t (Metric * Metric))) (x : State) : State :=
  {| last_metric_pool_id := x.(last_metric_pool_id); processors := x.(processors); manager_metrics_rewards := x.(manager_metrics_rewards); metric_pools := x.(metric_pools); metrics := x.(metrics); metric_pool_lookup := x.(metric_pool_lookup); compute_commitments := x.(compute_commitments); last_commission_increase := x.(last_commission_increase); scores := x.(scores); metrics_epoch_sum := v; backing_offers := x.(backing_offers); backings := x.(backings); backing_lookup := x.(backing_lookup); next_commitment_id := x.(next_commitment_id); commitments := x.(commitments); total_stake := x.(total_stake); delegations := x.(delegations); delegator_total := x.(delegator_total); current_cycle := x.(current_cycle); compute_based_rewards := x.(compute_based_rewards); stake_based_rewards := x.(stake_based_rewards); collator_rewards := x.(collator_rewards); inflation_enabled := x.(inflation_enabled); block_number := x.(block_number); events := x.(events); ext := x.(ext) |}.
Definition set_backing_offers (v : gmap AccountId ManagerId) (x : State) : State :=
  {| last_metric_pool_id := x.(last_metric_pool_id); processors := x.(processors); manager_metrics_rewards := x.(manager_metrics_rewards); metric_pools := x.(metric_pools); metrics := x.(metrics); metric_pool_lookup := x.(metric_pool_lookup); compute_commitments := x.(compute_commitments); last_commission_increase := x.(last_commission_increase); scores := x.(scores); metrics_epoch_sum := x.(metrics_epoch_sum); backing_offers := v; backings := x.(backings); backing_lookup := x.(backing_lookup); next_commitment_id := x.(next_commitment_id); commitments := x.(commitments); total_stake := x.(total_stake); delegations := x.(delegations); delegator_total := x.(delegator_total); current_cycle := x.(current_cycle); compute_based_rewards := x.(compute_based_rewards); stake_based_rewards := x.(stake_based_rewards); collator_rewards := x.(collator_rewards); inflation_enabled := x.(inflation_enabled); block_number := x.(block_number); events := x.(events); ext := x.(ext) |}.
Definition set_backings (v : gmap CommitmentId ManagerId) (x : State) : State :=
  {| last_metric_pool_id := x.(last_metric_pool_id); processors := x.(processors); manager_metrics_rewards := x.(manager_metrics_rewards); metric_pools := x.(metric_pools); metrics := x.(metrics); metric_pool_lookup := x.(metric_pool_lookup); compute_commitments := x.(compute_commitments); last_commission_increase := x.(last_commission_increase); scores := x.(scores); metrics_epoch_sum := x.(metrics_epoch_sum); backing_offers := x.(backing_offers); backings := v; backing_lookup := x.(backing_lookup); next_commitment_id := x.(next_commitment_id); commitments := x.(commitments); total_stake := x.(total_stake); delegations := x.(delegations); delegator_total := x.(delegator_total); current_cycle := x.(current_cycle); compute_based_rewards := x.(compute_based_rewards); stake_based_rewards := x.(stake_based_rewards); collator_rewards := x.(collator_rewards); inflation_enabled := x.(inflation_enabled); block_number := x.(block_number); events := x.(events); ext := x.(ext) |}.
Definition set_backing_lookup (v : gmap ManagerId CommitmentId) (x : State) : State :=
  {| last_metric_pool_id := x.(last_metric_pool_id); processors := x.(processors); manager_metrics_rewards := x.(manager_metrics_rewards); metric_pools := x.(metric_pools); metrics := x.(metrics); metric_pool_lookup := x.(metric_pool_lookup); compute_commitments := x.(compute_commitments); last_commission_increase := x.(last_commission_increase); scores := x.(scores); metrics_epoch_sum := x.(metrics_epoch_sum); backing_offers := x.(backing_offers); backings := x.(backings); backing_lookup := v; next_commitment_id := x.(next_commitment_id); commitments := x.(commitments); total_stake := x.(total_stake); delegations := x.(delegations); delegator_total := x.(delegator_total); current_cycle := x.(current_cycle); compute_based_rewards := x.(compute_based_rewards); stake_based_rewards := x.(stake_based_rewards); collator_rewards := x.(collator_rewards); inflation_enabled := x.(inflation_enabled); block_number := x.(block_number); events := x.(events); ext := x.(ext) |}.
Definition set_next_commitment_id (v : CommitmentId) (x : State) : State :=
  {| last_metric_pool_id := x.(last_metric_pool_id); processors := x.(processors); manager_metrics_rewards := x.(manager_metrics_rewards); metric_pools := x.(metric_pools); metrics := x.(metrics); metric_pool_lookup := x.(metric_pool_lookup); compute_commitments := x.(compute_commitments); last_commission_increase := x.(last_commission_increase); scores := x.(scores); metrics_epoch_sum := x.(metrics_epoch_sum); backing_offers := x.(backing_offers); backings := x.(backings); backing_lookup := x.(backing_lookup); next_commitment_id := v; commitments := x.(commitments); total_stake := x.(total_stake); delegations := x.(delegations); delegator_total := x.(delegator_total); current_cycle := x.(current_cycle); compute_based_rewards := x.(compute_based_rewards); stake_based_rewards := x.(stake_based_rewards); collator_rewards := x.(collator_rewards); inflation_enabled := x.(inflation_enabled); block_number := x.(block_number); events := x.(events); ext := x.(ext) |}.
Definition set_commitments (v : gmap CommitmentId Commitment) (x : State) : State :=
  {| last_metric_pool_id := x.(last_metric_pool_id); processors := x.(processors); manager_metrics_rewards := x.(manager_metrics_rewards); metric_pools := x.(metric_pools); metrics := x.(metrics); metric_pool_lookup := x.(metric_pool_lookup); compute_commitments := x.(compute_commitments); last_commission_increase := x.(last_commission_increase); scores := x.(scores); metrics_epoch_sum := x.(metrics_epoch_sum); backing_offers := x.(backing_offers); backings := x.(backings); backing_lookup := x.(backing_lookup); next_commitment_id := x.(next_commitment_id); commitments := v; total_stake := x.(total_stake); delegations := x.(delegations); delegator_total := x.(delegator_total); current_cycle := x.(current_cycle); compute_based_rewards := x.(compute_based_rewards); stake_based_rewards := x.(stake_based_rewards); collator_rewards := x.(collator_rewards); inflation_enabled := x.(inflation_enabled); block_number := x.(block_number); events := x.(events); ext := x.(ext) |}.
Definition set_total_stake (v : Balance) (x : State) : State :=
  {| last_metric_pool_id := x.(last_metric_pool_id); processors := x.(processors); manager_metrics_rewards := x.(manager_metrics_rewards); metric_pools := x.(metric_pools); metrics := x.(metrics); metric_pool_lookup := x.(metric_pool_lookup); compute_commitments := x.(compute_commitments); last_commission_increase := x.(last_commission_increase); scores := x.(scores); metrics_epoch_sum := x.(metrics_epoch_sum); backing_offers := x.(backing_offers); backings := x.(backings); backing_lookup := x.(backing_lookup); next_commitment_id := x.(next_commitment_id); commitments := x.(commitments); total_stake := v; delegations := x.(delegations); delegator_total := x.(delegator_total); current_cycle := x.(current_cycle); compute_based_rewards := x.(compute_based_rewards); stake_based_rewards := x.(stake_based_rewards); collator_rewards := x.(collator_rewards); inflation_enabled := x.(inflation_enabled); block_number := x.(block_number); events := x.(events); ext := x.(ext) |}.
Definition set_delegations (v : gmap (AccountId * CommitmentId) Delegation) (x : State) : State :=
  {| last_metric_pool_id := x.(last_metric_pool_id); processors := x.(processors); manager_metrics_rewards := x.(manager_metrics_rewards); metric_pools := x.(metric_pools); metrics := x.(metrics); metric_pool_lookup := x.(metric_pool_lookup); compute_commitments := x.(compute_commitments); last_commission_increase := x.(last_commission_increase); scores := x.(scores); metrics_epoch_sum := x.(metrics_epoch_sum); backing_offers := x.(backing_offers); backings := x.(backings); backing_lookup := x.(backing_lookup); next_commitment_id := x.(next_commitment_id); commitments := x.(commitments); total_stake := x.(total_stake); delegations := v; delegator_total := x.(delegator_total); current_cycle := x.(current_cycle); compute_based_rewards := x.(compute_based_rewards); stake_based_rewards := x.(stake_based_rewards); collator_rewards := x.(collator_rewards); inflation_enabled := x.(inflation_enabled); block_number := x.(block_number); events := x.(events); ext := x.(ext) |}.
Definition set_delegator_total (v : gmap AccountId Balance) (x : State) : State :=
  {| last_metric_pool_id := x.(last_metric_pool_id); processors := x.(processors); manager_metrics_rewards := x.(manager_metrics_rewards); metric_pools := x.(metric_pools); metrics := x.(metrics); metric_pool_lookup := x.(metric_pool_lookup); compute_commitments := x.(compute_commitments); last_commission_increase := x.(last_commission_increase); scores := x.(scores); metrics_epoch_sum := x.(metrics_epoch_sum); backing_offers := x.(backing_offers); backings := x.(backings); backing_lookup := x.(backing_lookup); next_commitment_id := x.(next_commitment_id); commitments := x.(commitments); total_stake := x.(total_stake); delegations := x.(delegations); delegator_total := v; current_cycle := x.(current_cycle); compute_based_rewards := x.(compute_based_rewards); stake_based_rewards := x.(stake_based_rewards); collator_rewards := x.(collator_rewards); inflation_enabled := x.(inflation_enabled); block_number := x.(block_number); events := x.(events); ext := x.(ext) |}.
Definition set_current_cycle (v : Cycle) (x : State) : State :=
  {| last_metric_pool_id := x.(last_metric_pool_id); processors := x.(processors); manager_metrics_rewards := x.(manager_metrics_rewards); metric_pools := x.(metric_pools); metrics := x.(metrics); metric_pool_lookup := x.(metric_pool_lookup); compute_commitments := x.(compute_commitments); last_commission_increase := x.(last_commission_increase); scores := x.(scores); metrics_epoch_sum := x.(metrics_epoch_sum); backing_offers := x.(backing_offers); backings := x.(backings); backing_lookup := x.(backing_lookup); next_commitment_id := x.(next_commitment_id); commitments := x.(commitments); total_stake := x.(total_stake); delegations := x.(delegations); delegator_total := x.(delegator_total); current_cycle := v; compute_based_rewards := x.(compute_based_rewards); stake_based_rewards := x.(stake_based_rewards); collator_rewards := x.(collator_rewards); inflation_enabled := x.(inflation_enabled); block_number := x.(block_number); events := x.(events); ext := x.(ext) |}.
Definition set_compute_based_rewards (v : SlidingBuffer.t Balance) (x : State) : State :=
  {| last_metric_pool_id := x.(last_metric_pool_id); processors := x.(processors); manager_metrics_rewards := x.(manager_metrics_rewards); metric_pools := x.(metric_pools); metrics := x.(metrics); metric_pool_lookup := x.(metric_pool_lookup); compute_commitments := x.(compute_commitments); last_commission_increase := x.(last_commission_increase); scores := x.(scores); metrics_epoch_sum := x.(metrics_epoch_sum); backing_offers := x.(backing_offers); backings := x.(backings); backing_lookup := x.(backing_lookup); next_commitment_id := x.(next_commitment_id); commitments := x.(commitments); total_stake := x.(total_stake); delegations := x.(delegations); delegator_total := x.(delegator_total); current_cycle := x.(current_cycle); compute_based_rewards := v; stake_based_rewards := x.(stake_based_rewards); collator_rewards := x.(collator_rewards); inflation_enabled := x.(inflation_enabled); block_number := x.(block_number); events := x.(events); ext := x.(ext) |}.
Definition set_stake_based_rewards (v : gmap PoolId (SlidingBuffer.t RewardBudget)) (x : State) : State :=
  {| last_metric_pool_id := x.(last_metric_pool_id); processors := x.(processors); manager_metrics_rewards := x.(manager_metrics_rewards); metric_pools := x.(metric_pools); metrics := x.(metrics); metric_pool_lookup := x.(metric_pool_lookup); compute_commitments := x.(compute_commitments); last_commission_increase := x.(last_commission_increase); scores := x.(scores); metrics_epoch_sum := x.(metrics_epoch_sum); backing_offers := x.(backing_offers); backings := x.(backings); backing_lookup := x.(backing_lookup); next_commitment_id := x.(next_commitment_id); commitments := x.(commitments); total_stake := x.(total_stake); delegations := x.(delegations); delegator_total := x.(delegator_total); current_cycle := x.(current_cycle); compute_based_rewards := x.(compute_based_rewards); stake_based_rewards := v; collator_rewards := x.(collator_rewards); inflation_enabled := x.(inflation_enabled); block_number := x.(block_number); events := x.(events); ext := x.(ext) |}.
Definition set_collator_rewards (v : Balance) (x : State) : State :=
  {| last_metric_pool_id := x.(last_metric_pool_id); processors := x.(processors); manager_metrics_rewards := x.(manager_metrics_rewards); metric_pools := x.(metric_pools); metrics := x.(metrics); metric_pool_lookup := x.(metric_pool_lookup); compute_commitments := x.(compute_commitments); last_commission_increase := x.(last_commission_increase); scores := x.(scores); metrics_epoch_sum := x.(metrics_epoch_sum); backing_offers := x.(backing_offers); backings := x.(backings); backing_lookup := x.(backing_lookup); next_commitment_id := x.(next_commitment_id); commitments := x.(commitments); total_stake := x.(total_stake); delegations := x.(delegations); delegator_total := x.(delegator_total); current_cycle := x.(current_cycle); compute_based_rewards := x.(compute_based_rewards); stake_based_rewards := x.(stake_based_rewards); collator_rewards := v; inflation_enabled := x.(inflation_enabled); block_number := x.(block_number); events := x.(events); ext := x.(ext) |}.
Definition set_inflation_enabled (v : bool) (x : State) : State :=
  {| last_metric_pool_id := x.(last_metric_pool_id); processors := x.(processors); manager_metrics_rewards := x.(manager_metrics_rewards); metric_pools := x.(metric_pools); metrics := x.(metrics); metric_pool_lookup := x.(metric_pool_lookup); compute_commitments := x.(compute_commitments); last_commission_increase := x.(last_commission_increase); scores := x.(scores); metrics_epoch_sum := x.(metrics_epoch_sum); backing_offers := x.(backing_offers); backings := x.(backings); backing_lookup := x.(backing_lookup); next_commitment_id := x.(next_commitment_id); commitments := x.(commitments); total_stake := x.(total_stake); delegations := x.(delegations); delegator_total := x.(delegator_total); current_cycle := x.(current_cycle); compute_based_rewards := x.(compute_based_rewards); stake_based_rewards := x.(stake_based_rewards); collator_rewards := x.(collator_rewards); inflation_enabled := v; block_number := x.(block_number); events := x.(events); ext := x.(ext) |}.
Definition set_block_number (v : BlockNumber) (x : State) : State :=
  {| last_metric_pool_id := x.(last_metric_pool_id); processors := x.(processors); manager_metrics_rewards := x.(manager_metrics_rewards); metric_pools := x.(metric_pools); metrics := x.(metrics); metric_pool_lookup := x.(metric_pool_lookup); compute_commitments := x.(compute_commitments); last_commission_increase := x.(last_commission_increase); scores := x.(scores); metrics_epoch_sum := x.(metrics_epoch_sum); backing_offers := x.(backing_offers); backings := x.(backings); backing_lookup := x.(backing_lookup); next_commitment_id := x.(next_commitment_id); commitments := x.(commitments); total_stake := x.(total_stake); delegations := x.(delegations); delegator_total := x.(delegator_total); current_cycle := x.(current_cycle); compute_based_rewards := x.(compute_based_rewards); stake_based_rewards := x.(stake_based_rewards); collator_rewards := x.(collator_rewards); inflation_enabled := x.(inflation_enabled); block_number := v; events := x.(events); ext := x.(ext) |}.
Definition set_events (v : list Event) (x : State) : State :=
  {| last_metric_pool_id := x.(last_metric_pool_id); processors := x.(processors); manager_metrics_rewards := x.(manager_metrics_rewards); metric_pools := x.(metric_pools); metrics := x.(metrics); metric_pool_lookup := x.(metric_pool_lookup); compute_commitments := x.(compute_commitments); last_commission_increase := x.(last_commission_increase); scores := x.(scores); metrics_epoch_sum := x.(metrics_epoch_sum); backing_offers := x.(backing_offers); backings := x.(backings); backing_lookup := x.(backing_lookup); next_commitment_id := x.(next_commitment_id); commitments := x.(commitments); total_stake := x.(total_stake); delegations := x.(delegations); delegator_total := x.(delegator_total); current_cycle := x.(current_cycle); compute_based_rewards := x.(compute_based_rewards); stake_based_rewards := x.(stake_based_rewards); collator_rewards := x.(collator_rewards); inflation_enabled := x.(inflation_enabled); block_number := x.(block_number); events := v; ext := x.(ext) |}.
Definition set_ext (v : Ext) (x : State) : State :=
  {| last_metric_pool_id := x.(last_metric_pool_id); processors := x.(processors); manager_metrics_rewards := x.(manager_metrics_rewards); metric_pools := x.(metric_pools); metrics := x.(metrics); metric_pool_lookup := x.(metric_pool_lookup); compute_commitments := x.(compute_commitments); last_commission_increase := x.(last_commission_increase); scores := x.(scores); metrics_epoch_sum := x.(metrics_epoch_sum); backing_offers := x.(backing_offers); backings := x.(backings); backing_lookup := x.(backing_lookup); next_commitment_id := x.(next_commitment_id); commitments := x.(commitments); total_stake := x.(total_stake); delegations := x.(delegations); delegator_total := x.(delegator_total); current_cycle := x.(current_cycle); compute_based_rewards := x.(compute_based_rewards); stake_based_rewards := x.(stake_based_rewards); collator_rewards := x.(collator_rewards); inflation_enabled := x.(inflation_enabled); block_number := x.(block_number); events := x.(events); ext := v |}.

(** ** Access to the storage

    [try_mutate rd wr f] is the FRAME pattern: read the item, run the closure,
    and write the closure's value back only if it succeeds.  Writes the closure
    makes to other items stay in either case.  [mutate] is the same with a
    closure that does not fail. *)
Definition try_mutate {A B} (rd : State -> A) (wr : A -> State -> State)
  (f : A -> M State Error (A * B)) : M State Error B :=
  let* a := gets rd in
  let* r := f a in
  modify (wr r.1);; ret r.2.

Definition deposit_event (e : Event) : M State Error unit :=
  modify (fun s => set_events (s.(events) ++ [e]) s).

Definition write_commitment (id : CommitmentId) (o : option Commitment) (s : State) : State :=
  set_commitments (put_opt id o s.(commitments)) s.
Definition write_delegation (who : AccountId) (id : CommitmentId) (o : option Delegation)
  (s : State) : State :=
  set_delegations (put_opt (who, id) o s.(delegations)) s.

(** [<Commitments<T, I>>::try_mutate] and [<Delegations<T, I>>::try_mutate] *)
Definition try_mutate_commitment {B} (id : CommitmentId)
  (f : option Commitment -> M State Error (option Commitment * B)) : M State Error B :=
  try_mutate (fun s => s.(commitments) !! id) (write_commitment id) f.
Definition try_mutate_delegation {B} (who : AccountId) (id : CommitmentId)
  (f : option Delegation -> M State Error (option Delegation * B)) : M State Error B :=
  try_mutate (fun s => s.(delegations) !! (who, id)) (write_delegation who id) f.

(** The getters of items with a default value ([ValueQuery]). *)
Definition get_delegator_total (s : State) (who : AccountId) : Balance :=
  default 0 (s.(delegator_total) !! who).
Definition get_metrics_epoch_sum (s : State) (m : ManagerId) (p : PoolId) :=
  default (SlidingBuffer.new (0, 0) 0) (s.(metrics_epoch_sum) !! (m, p)).
Definition get_stake_based_rewards (s : State) (p : PoolId) :=
  default (SlidingBuffer.new RewardBudget_default 0) (s.(stake_based_rewards) !! p).
Definition get_scores (s : State) (c : CommitmentId) (p : PoolId) :=
  default (SlidingBuffer.new (0, 0) 0) (s.(scores) !! (c, p)).

Lemma try_mutate_ok {A B} (rd : State -> A) wr (f : A -> M State Error (A * B)) b s s' :
  try_mutate rd wr f s = (Ok b, s') <->
  exists r s1, f (rd s) s = (Ok r, s1) /\ r.2 = b /\ s' = wr r.1 s1.
Proof.
  unfold try_mutate. repeat setoid_rewrite bind_ok. setoid_rewrite gets_ok.
  setoid_rewrite modify_ok. setoid_rewrite ret_ok. naive_solver.
Qed.
End storage.

(** Calls to the other pallets, on the external part of the state. *)
Section external_calls.
Context {X : Externals}.
Notation MC := (M State Error).

Definition ext_modify (f : Ext -> Ext) : MC unit := modify (fun s => set_ext (f s.(ext)) s).
Definition ext_try (f : Ext -> option Ext) (e : Error) : MC unit :=
  let* x := gets ext in
  let* x' := ok_or (f x) e in
  modify (set_ext x').
Definition ext_take {A} (f : Ext -> option (A * Ext)) (e : Error) : MC A :=
  let* x := gets ext in
  let* r := ok_or (f x) e in
  modify (set_ext r.2);; ret r.1.
End external_calls.
