(* ===== verification/ComputePools.v ===== *)
(** Metric pools, epochs and inflation of the compute pallet: the pool and
    reward-budget part of [pallets/compute/src/functions.rs], the [on_initialize]
    hook, the genesis build and the pool extrinsics of
    [pallets/compute/src/lib.rs]. *)
From S2P Require Import Prelude Perthings Buffers ComputeTypes.

Section pools.
Context {P : Perthings} {C : Config} {X : Externals}.
Notation MC := (M State Error).

Definition ensure_signed (origin : Origin) : MC AccountId :=
  match origin with Signed who => ret who | _ => throw BadOrigin end.

Definition ensure_origin (allowed : Origin -> bool) (origin : Origin) : MC unit :=
  ensure (allowed origin) BadOrigin.

(** Division and remainder on block numbers panic on a zero divisor. *)
Definition div_or_panic (a b : Z) : MC Z := or_panic (checked_div a b).
Definition mod_or_panic (a b : Z) : MC Z := if b =? 0 then panic else ret (a mod b).

Definition advance_epoch (block_number : BlockNumber) : MC (Epoch_ * Epoch_) :=
  let* cycle := gets current_cycle in
  let last_epoch := cycle.(cy_epoch) in
  let cycle' := {| cy_epoch := saturating_add u32_max cycle.(cy_epoch) 1;
                   cy_epoch_start := block_number |} in
  modify (set_current_cycle cycle');;
  ret (last_epoch, cycle'.(cy_epoch)).

Definition issue_credit (amount : Balance) : MC Balance :=
  let* x := gets ext in
  let r := issue amount x in
  modify (set_ext r.2);; ret r.1.

(** [resolve]: [None] when credited, the credit when it could not be. *)
Definition try_resolve (who : AccountId) (credit : Balance) : MC (option Balance) :=
  let* x := gets ext in
  match resolve who credit x with
  | Some x' => modify (set_ext x');; ret None
  | None => ret (Some credit)
  end.

Definition inflate : MC InflationInfo :=
  let* enabled := gets inflation_enabled in
  if negb enabled then ret InflationInfo_default else
  if InflationPerEpoch =? 0 then ret InflationInfo_default else
  let* imbalance := issue_credit InflationPerEpoch in
  let stake_backed_amount := pq_mul_floor InflationStakedComputeRatio InflationPerEpoch in
  let compute_based_amount := pq_mul_floor InflationMetricsRatio InflationPerEpoch in
  let collators_amount := pq_mul_floor InflationCollatorsRatio InflationPerEpoch in
  let '(compute_imbalance, imbalance) :=
    extract imbalance
      (saturating_add u128_max (saturating_add u128_max stake_backed_amount compute_based_amount)
         collators_amount) in
  let* resolve_result := try_resolve account_id compute_imbalance in
  let imbalance := match resolve_result with
                   | Some credit => merge imbalance credit
                   | None => imbalance
                   end in
  ret {| ii_metrics_reward := compute_based_amount;
         ii_staked_compute_reward := stake_backed_amount;
         ii_collators_reward := collators_amount;
         ii_credit := Some imbalance |}.

Definition store_metrics_reward (amount : Balance) (current_epoch : Epoch_) : MC unit :=
  if amount =? 0 then ret tt else
  modify (fun s => set_compute_based_rewards
    (SlidingBuffer.mutate 0 s.(compute_based_rewards) current_epoch (fun _ => amount) false) s).

Definition store_collators_reward (amount : Balance) : MC unit :=
  modify (set_collator_rewards amount).

(** [sort_unstable] followed by [dedup] *)
Fixpoint dedup (l : list Z) : list Z :=
  match l with
  | x :: ((y :: _) as l') => if x =? y then dedup l' else x :: dedup l'
  | _ => l
  end.

Definition epochs_to_test (pools : list MetricPool) (current_epoch : Epoch_) : list Epoch_ :=
  dedup (merge_sort Z.le
    (current_epoch ::
     omap (fun pool => ProvisionalBuffer.next_epoch pool.(mp_reward) current_epoch) pools)).

Definition validate_metric_pools (pools : list MetricPool) (current_epoch : Epoch_) : MC unit :=
  mfor (epochs_to_test pools current_epoch) (fun epoch =>
    let* _ := mfold pools 0 (fun reward_sum metric_pool =>
      ok_or (pq_checked_add reward_sum (ProvisionalBuffer.get metric_pool.(mp_reward) epoch))
        InvalidTotalPoolRewards) in
    ret tt).

Definition target_weight_per_compute (target_token_supply pool_total : Z) : Z :=
  saturating_mul u256_max
    (default 0 (checked_div (saturating_mul u256_max target_token_supply PER_TOKEN_DECIMALS)
                  pool_total))
    TargetWeightPerComputeMultiplier.

Definition store_staked_compute_reward (amount : Balance) (current_epoch last_epoch : Epoch_)
  (target_token_supply : Z) : MC unit :=
  let* pools := gets (fun s => iter_u8 s.(metric_pools)) in
  mfor pools (fun '(pool_id, pool) =>
    modify (fun s => set_stake_based_rewards
      (<[pool_id :=
         SlidingBuffer.mutate RewardBudget_default (get_stake_based_rewards s pool_id) current_epoch
           (fun _ => RewardBudget_new
              (pq_mul_floor (ProvisionalBuffer.get pool.(mp_reward) last_epoch) amount)
              (target_weight_per_compute target_token_supply
                 (SlidingBuffer.get 0 pool.(mp_total) last_epoch))) false]>
       s.(stake_based_rewards)) s)).

Definition reward_collator (maybe_amount : option Balance) : MC unit :=
  let* stored := gets collator_rewards in
  let collators_reward := default stored maybe_amount in
  if collators_reward =? 0 then ret tt else
  let* collators_reward_per_block := div_or_panic collators_reward Epoch in
  let* x := gets ext in
  match author x with
  | Some a =>
      (* the result of the transfer is ignored *)
      match transfer account_id a collators_reward_per_block x with
      | Some x' => modify (set_ext x')
      | None => ret tt
      end
  | None => ret tt
  end.

Definition do_create_pool (name : MetricPoolName) (reward_ratio : Z)
  (config : list MetricPoolConfigValue) : MC (PoolId * MetricPool) :=
  let* current_pools := gets (fun s => (iter_u8 s.(metric_pools)).*2) in
  ensure (saturated_into u32_max (Z.of_nat (length current_pools)) <? MaxPools) CannotCreatePool;;
  let* taken := gets (fun s => s.(metric_pool_lookup) !! name) in
  ensure (bool_decide (taken = None)) PoolNameMustBeUnique;;
  let* last := gets last_metric_pool_id in
  let* pool_id := ok_or (checked_add u8_max last 1) CalculationOverflow in
  modify (set_last_metric_pool_id pool_id);;
  let pool := {| mp_config := config; mp_name := name;
                 mp_reward := ProvisionalBuffer.new reward_ratio;
                 mp_total := SlidingBuffer.new 0 0;
                 mp_total_with_bonus := SlidingBuffer.new 0 0 |} in
  modify (fun s => set_metric_pools (<[pool_id := pool]> s.(metric_pools)) s);;
  modify (fun s => set_metric_pool_lookup (<[name := pool_id]> s.(metric_pool_lookup)) s);;
  let* cycle := gets current_cycle in
  validate_metric_pools (current_pools ++ [pool]) cycle.(cy_epoch);;
  ret (pool_id, pool).

(** [BuildGenesisConfig::build]: an error is only logged. *)
Definition genesis_build (pools : list (MetricPoolName * Z * list MetricPoolConfigValue)) : MC unit :=
  mfor pools (fun '(name, reward_ratio, config) =>
    unwrap_or tt (do_create_pool name reward_ratio config;; ret tt)).

(** The epoch part of [on_initialize], up to the reward of the collator; the
    result is the collators' reward of a new epoch. *)
Definition on_new_epoch (block_number : BlockNumber) : MC (option Balance) :=
  let* epochs := advance_epoch block_number in
  let '(last_epoch, current_epoch) := epochs in
  let* issuance := gets (fun s => total_issuance s.(ext)) in
  let target_token_supply := pq_mul_floor TargetStakedTokenSupply issuance in
  let* inflation_info := inflate in
  store_metrics_reward inflation_info.(ii_metrics_reward) current_epoch;;
  store_staked_compute_reward inflation_info.(ii_staked_compute_reward) current_epoch last_epoch
    target_token_supply;;
  store_collators_reward inflation_info.(ii_collators_reward);;
  match inflation_info.(ii_credit) with
  | Some credit => ext_modify (on_unbalanced credit)
  | None => ret tt
  end;;
  ret (Some inflation_info.(ii_collators_reward)).

Definition on_initialize (block_number : BlockNumber) : MC unit :=
  let* current_cycle := gets current_cycle in
  let epoch_start := current_cycle.(cy_epoch_start) in
  let diff := saturating_sub block_number epoch_start in
  let* collators_reward :=
    if epoch_start =? 0 then
      let* initial_epoch := div_or_panic diff Epoch in
      modify (set_current_cycle {| cy_epoch := initial_epoch; cy_epoch_start := block_number |});;
      ret None
    else
      let* r := mod_or_panic diff Epoch in
      if r =? 0 then on_new_epoch block_number else ret None in
  reward_collator collators_reward.

Definition create_pool (origin : Origin) (name : MetricPoolName) (reward : Z)
  (config : list MetricPoolConfigValue) : MC unit :=
  with_transaction (
    ensure_origin CreateModifyPoolOrigin origin;;
    let* r := do_create_pool name reward config in
    deposit_event (PoolCreated r.1 r.2)).

(** The configuration of a pool after the requested change. *)
Definition apply_config (new_config : option ModifyMetricPoolConfig)
  (config : list MetricPoolConfigValue) : list MetricPoolConfigValue :=
  match new_config with
  | Some (Replace config') => config'
  | Some (Update ops) =>
      let add_keys := (fun c => c.1.1) <$> ops.(ops_add) in
      take (Z.to_nat CONFIG_VALUES_MAX_LENGTH)
        (filter (fun c => c.1.1 ∉ add_keys /\ c.1.1 ∉ ops.(ops_remove)) config ++ ops.(ops_add))
  | None => config
  end.

Definition modify_pool_entry (pool_id : PoolId) (new_name : option MetricPoolName)
  (new_reward_from_epoch : option (Epoch_ * Z)) (new_config : option ModifyMetricPoolConfig)
  (current_epoch : Epoch_) (pool : option MetricPool) : MC (option MetricPool * unit) :=
  let* p := ok_or pool PoolNotFound in
  let* p := match new_name with
    | Some name =>
        let* maybe_conflicting_pool_id := gets (fun s => s.(metric_pool_lookup) !! name) in
        match maybe_conflicting_pool_id with
        | Some id => ensure (id =? pool_id) PoolNameMustBeUnique
        | None => ret tt
        end;;
        modify (fun s => set_metric_pool_lookup
          (<[name := pool_id]> (delete p.(mp_name) s.(metric_pool_lookup))) s);;
        ret (set_mp_name name p)
    | None => ret p
    end in
  let previous_epoch := saturating_sub current_epoch 1 in
  let* p := match new_reward_from_epoch with
    | Some (epoch, reward) =>
        let* r := ok_or (ProvisionalBuffer.set p.(mp_reward) previous_epoch epoch reward)
                    RewardUpdateInvalid in
        ret (set_mp_reward r p)
    | None => ret p
    end in
  ret (Some (set_mp_config (apply_config new_config p.(mp_config)) p), tt).

Definition modify_pool (origin : Origin) (pool_id : PoolId) (new_name : option MetricPoolName)
  (new_reward_from_epoch : option (Epoch_ * Z)) (new_config : option ModifyMetricPoolConfig)
  : MC unit :=
  with_transaction (
    ensure_origin CreateModifyPoolOrigin origin;;
    let* cycle := gets current_cycle in
    let current_epoch := cycle.(cy_epoch) in
    try_mutate (fun s => s.(metric_pools) !! pool_id)
      (fun o s => set_metric_pools (put_opt pool_id o s.(metric_pools)) s)
      (modify_pool_entry pool_id new_name new_reward_from_epoch new_config current_epoch);;
    let* current_pools := gets (fun s => (iter_u8 s.(metric_pools)).*2) in
    validate_metric_pools current_pools current_epoch).

Definition enable_inflation (origin : Origin) : MC unit :=
  with_transaction (
    ensure_origin OperatorOrigin origin;;
    modify (set_inflation_enabled true);;
    deposit_event InflationEnabledEvent).
End pools.
