(* ===== verification/Rewards.v ===== *)
(** Commitment limits, scoring and reward distribution of the compute pallet: the
    first part of [pallets/compute/src/staking.rs], one definition per function.

    A closure passed to [try_mutate] is written as a function of the value it
    receives that returns the value to write; a mutable reference captured by an
    inner closure is returned by it. *)
From S2P Require Import Prelude Perthings Buffers ComputeTypes ComputePools.

Definition checked_div_ceil (a divisor : Z) : option Z :=
  if divisor =? 0 then None else
  checked_add u256_max a divisor ≫= fun x =>
  checked_sub x 1 ≫= fun numerator_adjusted =>
  checked_div numerator_adjusted divisor.

(** [U256::as_u128], which panics above [u128::MAX] *)
Definition as_u128 (a : Z) : option Z := if a <=? u128_max then Some a else None.

Section rewards.
Context {P : Perthings} {C : Config} {X : Externals}.
Notation MC := (M State Error).

Definition get_epoch : MC Epoch_ := gets (fun s => s.(current_cycle).(cy_epoch)).

(** Checked [U256] steps whose failure is [CalculationOverflow]. *)
Definition mul_c (a b : Z) : MC Z := ok_or (checked_mul u256_max a b) CalculationOverflow.
Definition div_c (a b : Z) : MC Z := ok_or (checked_div a b) CalculationOverflow.
Definition div_ceil_c (a b : Z) : MC Z := ok_or (checked_div_ceil a b) CalculationOverflow.
Definition sub_c (a b : Z) : MC Z := ok_or (checked_sub a b) CalculationOverflow.
Definition add128_c (a b : Z) : MC Z := ok_or (checked_add u128_max a b) CalculationOverflow.

(** The weight of an amount: [amount * cooldown_period / MaxCooldownPeriod] *)
Definition cooldown_weight (amount : Balance) (cooldown_period : BlockNumber) : MC Z :=
  let* x := mul_c amount cooldown_period in div_c x MaxCooldownPeriod.

(** [weight * per_weight / PER_TOKEN_DECIMALS], rounded down or up *)
Definition per_weight_floor (weight per_weight : Z) : MC Z :=
  let* x := mul_c weight per_weight in div_c x PER_TOKEN_DECIMALS.
Definition per_weight_ceil (weight per_weight : Z) : MC Z :=
  let* x := mul_c weight per_weight in div_ceil_c x PER_TOKEN_DECIMALS.

Definition validate_metric_commitment (commitment_id : CommitmentId) (manager_id : ManagerId)
  (epoch : Epoch_) (count : Z) (c : ComputeCommitment) : MC Z :=
  let* pool := gets (fun s => s.(metric_pools) !! c.(cc_pool_id)) in
  let* _ := ok_or pool PoolNotFound in
  let* last := ok_or (checked_sub epoch 1) CannotCommit in
  let* sums := gets (fun s => get_metrics_epoch_sum s manager_id c.(cc_pool_id)) in
  let metric_sum := (SlidingBuffer.get (0, 0) sums last).1 in
  ensure (c.(cc_metric) <=? metric_sum) MaxMetricCommitmentExceeded;;
  if c.(cc_metric) =? 0 then ret count else
  let* q := ok_or (fx_checked_div c.(cc_metric) metric_sum) MaxMetricCommitmentExceeded in
  let ratio := pq_from_parts (wrap_as u64_max q) in
  ensure (ratio <=? MaxMetricCommitmentRatio) MaxMetricCommitmentExceeded;;
  let* old_metric := gets (fun s => s.(compute_commitments) !! (commitment_id, c.(cc_pool_id))) in
  match old_metric with
  | Some old => ensure (old <=? c.(cc_metric)) CommittedMetricCannotDecrease
  | None => ret tt
  end;;
  modify (fun s => set_compute_commitments
    (<[(commitment_id, c.(cc_pool_id)) := c.(cc_metric)]> s.(compute_commitments)) s);;
  ret (count + 1).

Definition validate_max_metric_store_commitments (commitment_id : CommitmentId)
  (commitment : list ComputeCommitment) : MC unit :=
  let* backing := gets (fun s => s.(backings) !! commitment_id) in
  let* manager_id := ok_or backing NoManagerBackingCommitment in
  let* epoch := get_epoch in
  let* count := mfold commitment 0 (validate_metric_commitment commitment_id manager_id epoch) in
  ensure (0 <? count) ZeroMetricsForValidPools.

Definition validate_max_stake_metric_ratio (commitment_id : CommitmentId) : MC unit :=
  let* epoch := get_epoch in
  let* c := gets (fun s => s.(commitments) !! commitment_id) in
  let* c := ok_or c CommitmentNotFound in
  let reward_weight :=
    total_reward_weight (default CommitmentWeights_default (MemoryBuffer.get c.(cm_weights) epoch)) in
  let* existing := gets (fun s => iter_prefix commitment_id s.(compute_commitments)) in
  mfor existing (fun '(pool_id, metric) =>
    let* pool := gets (fun s => s.(metric_pools) !! pool_id) in
    match pool with
    | None => ret tt
    | Some _ =>
        ensure (negb (metric =? 0)) MaxStakeMetricRatioExceeded;;
        let* r := gets (fun s => get_stake_based_rewards s pool_id) in
        let target := rb_target_weight_per_compute (SlidingBuffer.get RewardBudget_default r epoch) in
        if target =? 0 then ret tt else
        let* x := mul_c reward_weight PER_TOKEN_DECIMALS in
        let* x := mul_c x FIXEDU128_DECIMALS in
        let* actual_weight_per_compute := div_c x metric in
        ensure (actual_weight_per_compute <=? target) MaxStakeMetricRatioExceeded
    end).

Definition score_limit (target metric : Z) : MC Z :=
  let* x := mul_c target metric in
  let* x := div_c x FIXEDU128_DECIMALS in
  div_c x PER_TOKEN_DECIMALS.

Fixpoint overstaked_in (epoch last_epoch : Epoch_) (manager_id : ManagerId)
  (commitment_total_weight : Z) (l : list (PoolId * Metric)) : MC bool :=
  match l with
  | [] => ret false
  | (pool_id, committed_metric_sum) :: l' =>
      let* r := gets (fun s => get_stake_based_rewards s pool_id) in
      let target := rb_target_weight_per_compute (SlidingBuffer.get RewardBudget_default r epoch) in
      if target =? 0 then overstaked_in epoch last_epoch manager_id commitment_total_weight l' else
      let* sums := gets (fun s => get_metrics_epoch_sum s manager_id pool_id) in
      let metric_sum := (SlidingBuffer.get (0, 0) sums last_epoch).1 in
      let commitment_bounded_metric_sum :=
        if metric_sum <? committed_metric_sum then metric_sum else committed_metric_sum in
      let* limit := score_limit target commitment_bounded_metric_sum in
      if limit <? commitment_total_weight then ret true
      else overstaked_in epoch last_epoch manager_id commitment_total_weight l'
  end.

Definition is_commitment_overstaked (commitment_id : CommitmentId) (commitment : Commitment)
  : MC bool :=
  let* epoch := get_epoch in
  let* last_epoch := ok_or (checked_sub epoch 1) InternalError in
  let* backing := gets (fun s => s.(backings) !! commitment_id) in
  let* manager_id := ok_or backing NoManagerBackingCommitment in
  let weights := default CommitmentWeights_default
                   (MemoryBuffer.get_latest commitment.(cm_weights) epoch) in
  let commitment_total_weight := total_reward_weight weights in
  let* existing := gets (fun s => iter_prefix commitment_id s.(compute_commitments)) in
  overstaked_in epoch last_epoch manager_id commitment_total_weight existing.

(** ** Scores *)

(** The metric a commitment is scored with and its bonus: the committed metric
    when it was delivered, what was measured and no bonus otherwise. *)
Definition bounded_metric_sums (metric_sum bonus_sum committed_metric_sum : Metric)
  : Metric * Metric :=
  if metric_sum <? committed_metric_sum then (metric_sum, 0) else
  let max_bonus := pq_mul_floor BusyWeightBonus committed_metric_sum in
  if max_bonus <? bonus_sum then (committed_metric_sum, max_bonus)
  else (committed_metric_sum, bonus_sum).

(** The pair [(score, score_with_bonus)] *)
Definition pool_score (weights : CommitmentWeights) (target : Z) (bounded bonus : Metric)
  : MC (Z * Z) :=
  let commitment_total_weight := total_reward_weight weights in
  let* limit := score_limit target bounded in
  let score := if limit <? commitment_total_weight then limit else commitment_total_weight in
  let score_without_delegations :=
    if limit <? weights.(self_reward_weight) then limit else weights.(self_reward_weight) in
  let* x := mul_c bonus score_without_delegations in
  let* bonus_score := div_c x bounded in
  let bonus_score_limit := pq_mul_floor BusyWeightBonus score_without_delegations in
  let bonus_score := if bonus_score_limit <? bonus_score then bonus_score_limit else bonus_score in
  let* score_with_bonus := ok_or (checked_add u256_max score bonus_score) CalculationOverflow in
  ret (score, score_with_bonus).

Definition score (last_epoch epoch : Epoch_) (commitment_id : CommitmentId)
  (commitment : Commitment) (previous_epoch_metric_sums : list (PoolId * (Metric * Metric)))
  : MC unit :=
  let weights := default CommitmentWeights_default
                   (MemoryBuffer.get_latest commitment.(cm_weights) last_epoch) in
  mfor previous_epoch_metric_sums (fun '(pool_id, (metric_sum, metric_with_bonus_sum)) =>
    let* r := gets (fun s => get_stake_based_rewards s pool_id) in
    let target := rb_target_weight_per_compute (SlidingBuffer.get RewardBudget_default r epoch) in
    let* bonus_sum := sub_c metric_with_bonus_sum metric_sum in
    let* committed := gets (fun s => s.(compute_commitments) !! (commitment_id, pool_id)) in
    match committed with
    | None => ret tt
    | Some committed_metric_sum =>
        let '(bounded, bonus) := bounded_metric_sums metric_sum bonus_sum committed_metric_sum in
        let* sc := pool_score weights target bounded bonus in
        modify (fun s => set_scores
          (<[(commitment_id, pool_id) :=
             SlidingBuffer.set (0, 0) (get_scores s commitment_id pool_id) epoch sc]> s.(scores)) s);;
        modify (fun s => set_stake_based_rewards
          (<[pool_id :=
             SlidingBuffer.mutate RewardBudget_default (get_stake_based_rewards s pool_id) epoch
               (fun budget => set_rb_total_score
                  (saturating_add u256_max budget.(rb_total_score) sc.2) budget) false]>
           s.(stake_based_rewards)) s)
    end).

(** ** Distribution

    [distribute] works on a commitment that its caller is mutating: what it has
    written to the commitment stays when it fails half way.  Its state is the
    storage with that commitment; inside the loop over the pools it is the
    storage, the stake and the two running totals. *)
Record DistState := mkDist {
  ds_state : State;
  ds_stake : Stake;
  ds_total_delegations_reward : Balance;
  ds_total_committer_bonus : Balance;
}.
Notation MD := (M DistState Error).

Definition mul_d (a b : Z) : MD Z := ok_or (checked_mul u256_max a b) CalculationOverflow.
Definition div_d (a b : Z) : MD Z := ok_or (checked_div a b) CalculationOverflow.

(** The split of a pool's reward: the committer's share with the commission, and
    the delegators' share without it. *)
Definition split_reward (weights : CommitmentWeights) (commission reward : Z)
  : MD (Balance * Balance) :=
  let* x := mul_d weights.(self_reward_weight) reward in
  let* self_share := div_d x (total_reward_weight weights) in
  let* delegations_share := ok_or (checked_sub reward self_share) CalculationOverflow in
  let self_share_amount := saturated_into u128_max self_share in
  let delegations_share_amount := saturated_into u128_max delegations_share in
  let commission_amount := pb_mul_floor commission delegations_share_amount in
  let* self_amount :=
    ok_or (checked_add u128_max self_share_amount commission_amount) CalculationOverflow in
  let* delegations_amount :=
    ok_or (checked_sub delegations_share_amount commission_amount) CalculationOverflow in
  ret (self_amount, delegations_amount).

Definition distribute_pool (epoch : Epoch_) (commitment_id : CommitmentId)
  (weights : CommitmentWeights) (commission : Z) (pool_id : PoolId) : MD unit :=
  let* r := gets (fun d => get_stake_based_rewards d.(ds_state) pool_id) in
  let write r := modify (fun d =>
    mkDist (set_stake_based_rewards (<[pool_id := r]> d.(ds_state).(stake_based_rewards)) d.(ds_state))
      d.(ds_stake) d.(ds_total_delegations_reward) d.(ds_total_committer_bonus)) in
  let budget := SlidingBuffer.get RewardBudget_default r epoch in
  if (budget.(rb_total_score) =? 0) || (budget.(rb_total) =? 0) then write r else
  let* sc := gets (fun d => SlidingBuffer.get (0, 0)
                              (get_scores d.(ds_state) commitment_id pool_id) epoch) in
  let '(score, score_with_bonus) := sc in
  let* x := mul_d score budget.(rb_total) in
  let* reward := div_d x budget.(rb_total_score) in
  let* y := mul_d (saturating_sub score_with_bonus score) budget.(rb_total) in
  let* bonus_reward := div_d y budget.(rb_total_score) in
  let bonus_reward := saturated_into u128_max bonus_reward in
  let* bonus := gets ds_total_committer_bonus in
  let* bonus := ok_or (checked_add u128_max bonus bonus_reward) CalculationOverflow in
  modify (fun d => mkDist d.(ds_state) d.(ds_stake) d.(ds_total_delegations_reward) bonus);;
  let* shares := split_reward weights commission reward in
  let '(self_amount, delegations_amount) := shares in
  let* stake := gets ds_stake in
  let* accrued :=
    ok_or (checked_add u128_max stake.(st_accrued_reward) self_amount) CalculationOverflow in
  modify (fun d => mkDist d.(ds_state) (set_st_accrued_reward accrued d.(ds_stake))
                     d.(ds_total_delegations_reward) d.(ds_total_committer_bonus));;
  let* total := gets ds_total_delegations_reward in
  let* total := ok_or (checked_add u128_max total delegations_amount) CalculationOverflow in
  modify (fun d => mkDist d.(ds_state) d.(ds_stake) total d.(ds_total_committer_bonus));;
  let epoch_reward_amount := saturating_add u128_max self_amount delegations_amount in
  write (SlidingBuffer.mutate RewardBudget_default r epoch
           (fun v => set_rb_distributed
              (saturating_add u128_max v.(rb_distributed) epoch_reward_amount) v) false).

Notation MDC := (M (State * Commitment) Error).

Definition distribute_pools (epoch : Epoch_) (commitment_id : CommitmentId)
  (weights : CommitmentWeights) (committer_stake : Stake) (pool_ids : list PoolId)
  : MDC (Stake * (Balance * Balance)) :=
  fun '(s, c) =>
    let '(r, d) := mfor pool_ids
                     (distribute_pool epoch commitment_id weights c.(cm_commission))
                     (mkDist s committer_stake 0 0) in
    (match r with
     | Ok _ => Ok (d.(ds_stake), (d.(ds_total_delegations_reward), d.(ds_total_committer_bonus)))
     | Err e => Err e
     | Panic => Panic
     end, (d.(ds_state), set_cm_stake (Some d.(ds_stake)) c)).

Definition distribute (epoch : Epoch_) (commitment_id : CommitmentId) (pool_ids : list PoolId)
  : MDC Balance :=
  let* c := gets snd in
  let* committer_stake := ok_or c.(cm_stake) CommitmentNotFound in
  let weights := default CommitmentWeights_default
                   (MemoryBuffer.get_latest c.(cm_weights) epoch) in
  let* totals := distribute_pools epoch commitment_id weights committer_stake pool_ids in
  let '(committer_stake, (total_delegations_reward, total_committer_bonus)) := totals in
  (if negb (weights.(delegations_reward_weight) =? 0) && negb (total_delegations_reward =? 0) then
    let* x := ok_or (checked_mul u256_max total_delegations_reward PER_TOKEN_DECIMALS)
                CalculationOverflow in
    let* extra := ok_or (checked_div x weights.(delegations_reward_weight)) CalculationOverflow in
    let* c := gets snd in
    let* pool_rewards := ok_or (MemoryBuffer.mutate c.(cm_pool_rewards) committer_stake.(st_created)
        (fun r => set_reward_per_weight (saturating_add u256_max r.(reward_per_weight) extra) r))
      InternalError in
    modify (fun sc => (sc.1, set_cm_pool_rewards pool_rewards sc.2))
   else ret tt);;
  ret total_committer_bonus.
End rewards.
