(* ===== verification/Staking.v ===== *)
(** Staking, delegation and slashing of the compute pallet: the second part of
    [pallets/compute/src/staking.rs], one definition per function. *)
From S2P Require Import Prelude Perthings Buffers ComputeTypes ComputePools Rewards.

Section staking.
Context {P : Perthings} {C : Config} {X : Externals}.
Notation MC := (M State Error).

Definition is_none {A} (o : option A) : bool := match o with None => true | Some _ => false end.

(** ** Locks, totals and slashing of balances *)
Definition own_stake (s : State) (who : AccountId) : Balance :=
  match commitment_id_for s.(ext) who with
  | Some delegator_commitment_id =>
      match s.(commitments) !! delegator_commitment_id with
      | Some c => default 0 (st_amount <$> c.(cm_stake))
      | None => 0
      end
  | None => 0
  end.

Definition new_lock_total (s : State) (who : AccountId) (amount : Balance) (reason : LockReason)
  : Balance :=
  match reason with
  | Staking => saturating_add u128_max (get_delegator_total s who) amount
  | DelegationTo commitment_id =>
      let delegated :=
        default 0 ((fun d => d.(dl_stake).(st_amount)) <$> s.(delegations) !! (who, commitment_id)) in
      saturating_add u128_max
        (saturating_add u128_max (saturating_sub (get_delegator_total s who) delegated)
           (own_stake s who))
        amount
  end.

Definition lock_funds (who : AccountId) (amount : Balance) (reason : LockReason) : MC unit :=
  let* total := gets (fun s => new_lock_total s who amount reason) in
  let* balance := gets (fun s => total_balance s.(ext) who) in
  ensure (total <=? balance) InsufficientBalance;;
  ext_modify (set_lock who total).

Definition unlock_funds (who : AccountId) (amount : Balance) : MC unit :=
  let* locked := gets (fun s => balance_locked s.(ext) who) in
  let new_total_stake := saturating_sub locked amount in
  if new_total_stake =? 0 then ext_modify (remove_lock who)
  else ext_modify (set_lock who new_total_stake).

Definition update_total_stake (change : StakeChange) : MC unit :=
  let* total := gets total_stake in
  let* total' := match change with
    | Add amount => ok_or (checked_add u128_max total amount) CalculationOverflow
    | Sub amount => ok_or (checked_sub total amount) CalculationOverflow
    end in
  modify (set_total_stake total').

(** [DelegatorTotal::try_mutate] with a checked addition or subtraction *)
Definition update_delegator_total (who : AccountId) (change : StakeChange) : MC unit :=
  let* total := gets (fun s => get_delegator_total s who) in
  let* total' := match change with
    | Add amount => ok_or (checked_add u128_max total amount) CalculationOverflow
    | Sub amount => ok_or (checked_sub total amount) CalculationOverflow
    end in
  modify (fun s => set_delegator_total (<[who := total']> s.(delegator_total)) s).

Definition slash_for (who : AccountId) (to_slash : Balance) : MC Balance :=
  if to_slash =? 0 then ret 0 else
  let* slash_credit := ext_take (withdraw who to_slash) InternalError in
  if to_slash <=? slash_credit then ret slash_credit else
  let remaining := to_slash - slash_credit in
  let* slash_credit_external := ext_take (slashable_slash who remaining) InternalError in
  ensure (remaining <=? slash_credit_external) InternalError;;
  ret (merge slash_credit slash_credit_external).

Definition unlock_and_slash (who : AccountId) (stake : Stake) : MC unit :=
  unlock_funds who stake.(st_amount);;
  if stake.(st_accrued_slash) =? 0 then ret tt else
  let* balance := gets (fun s => free_balance s.(ext) who) in
  let maximum_slashable :=
    if stake.(st_amount) <? stake.(st_accrued_slash) then stake.(st_amount)
    else if balance <? stake.(st_accrued_slash) then balance
    else stake.(st_accrued_slash) in
  let* credit := slash_for who maximum_slashable in
  ext_modify (drop_credit credit).

(** [T::Currency::transfer] of a non-zero reward from the pallet's account *)
Definition pay_reward (who : AccountId) (reward : Balance) : MC unit :=
  if reward =? 0 then ret tt else ext_try (transfer account_id who reward) InternalError.

Definition delegation_weight_ratio (epoch : Epoch_) (c : Commitment) : MC Z :=
  let w := default CommitmentWeights_default (MemoryBuffer.get_latest c.(cm_weights) epoch) in
  let* commitment_total_weight :=
    ok_or (checked_add u256_max w.(self_slash_weight) w.(delegations_reward_weight))
      CalculationOverflow in
  let nominator := saturated_into u128_max w.(delegations_reward_weight) in
  let denominator := saturated_into u128_max commitment_total_weight in
  ensure (nominator <=? denominator) MaxDelegationRatioExceeded;;
  ret (if 0 <? denominator then pq_from_rational nominator denominator else 0).

(** The mutation of the weights of the current epoch. *)
Definition mutate_weights (c : Commitment) (epoch : Epoch_)
  (f : CommitmentWeights -> CommitmentWeights) : MC Commitment :=
  let* weights := ok_or (MemoryBuffer.mutate c.(cm_weights) epoch f) InternalErrorReadingOutdated in
  ret (set_cm_weights weights c).

Definition set_self_weights (w : Z) (x : CommitmentWeights) : CommitmentWeights :=
  set_self_slash_weight w (set_self_reward_weight w x).

Definition add_delegation_weights (rw sw : Z) (w : CommitmentWeights) : CommitmentWeights :=
  set_delegations_slash_weight (saturating_add u256_max w.(delegations_slash_weight) sw)
    (set_delegations_reward_weight (saturating_add u256_max w.(delegations_reward_weight) rw) w).

Definition sub_delegation_weights (rw sw : Z) (w : CommitmentWeights) : CommitmentWeights :=
  set_delegations_slash_weight (saturating_sub w.(delegations_slash_weight) sw)
    (set_delegations_reward_weight (saturating_sub w.(delegations_reward_weight) rw) w).

(** ** Committers *)
Definition stake_for (who : AccountId) (amount : Balance) (cooldown_period : BlockNumber)
  (commission : Z) (allow_auto_compound : bool) : MC unit :=
  ensure (negb (amount =? 0) && (MinStake <=? amount)) MinStakeUnmet;;
  ensure (MinCooldownPeriod <=? cooldown_period) BelowMinCooldownPeriod;;
  ensure (cooldown_period <=? MaxCooldownPeriod) AboveMaxCooldownPeriod;;
  lock_funds who amount Staking;;
  let* id := gets (fun s => commitment_id_for s.(ext) who) in
  let* commitment_id := ok_or id NoOwnerOfCommitmentId in
  let* epoch := get_epoch in
  try_mutate_commitment commitment_id (fun c_ =>
    match c_ with
    | Some c => ensure (is_none c.(cm_stake)) AlreadyCommitted
    | None => ret tt
    end;;
    let* created := gets block_number in
    let stake := Stake_new amount created cooldown_period allow_auto_compound in
    let* self_weight := cooldown_weight stake.(st_rewardable_amount) stake.(st_cooldown_period) in
    update_total_stake (Add stake.(st_amount));;
    let weights := MemoryBuffer.new_with epoch
      {| self_reward_weight := self_weight; self_slash_weight := self_weight;
         delegations_reward_weight := 0; delegations_slash_weight := 0 |} in
    match c_ with
    | Some c =>
        ensure (is_none c.(cm_stake)) AlreadyCommitted;;
        let* pool_rewards := ok_or (MemoryBuffer.set c.(cm_pool_rewards) created PoolReward_default)
                               InternalErrorReadingOutdated in
        ret (Some {| cm_stake := Some stake; cm_commission := commission;
                     cm_delegations_total_amount := 0;
                     cm_delegations_total_rewardable_amount := 0;
                     cm_weights := weights; cm_pool_rewards := pool_rewards;
                     cm_last_scoring_epoch := c.(cm_last_scoring_epoch);
                     cm_last_slashing_epoch := c.(cm_last_slashing_epoch) |}, tt)
    | None =>
        ret (Some {| cm_stake := Some stake; cm_commission := commission;
                     cm_delegations_total_amount := 0;
                     cm_delegations_total_rewardable_amount := 0;
                     cm_weights := weights;
                     cm_pool_rewards := MemoryBuffer.new_with created PoolReward_default;
                     cm_last_scoring_epoch := 0; cm_last_slashing_epoch := 0 |}, tt)
    end).

(** The commission part of [stake_more_for]: decreases are free, an increase
    needs an overstaked commitment, a day since the last one and a bounded step. *)
Definition change_commission (commitment_id : CommitmentId) (c : Commitment) (commission : Z)
  : MC Commitment :=
  let current_commission := c.(cm_commission) in
  (if current_commission <? commission then
    let* overstaked := is_commitment_overstaked commitment_id c in
    ensure overstaked CommissionCannotIncrease;;
    let* current_block := gets block_number in
    let stake_created_block := default current_block (st_created <$> c.(cm_stake)) in
    let* last := gets (fun s => s.(last_commission_increase) !! commitment_id) in
    let last_increase_block := default stake_created_block (fst <$> last) in
    let blocks_passed := saturating_sub current_block last_increase_block in
    ensure (BlocksPerDay <=? blocks_passed) CommissionIncreaseTooSoon;;
    let commission_increase := pb_saturating_sub commission current_commission in
    ensure (commission_increase <=? MaxCommissionIncreasePerDay) CommissionIncreaseTooLarge;;
    modify (fun s => set_last_commission_increase
      (<[commitment_id := (current_block, current_commission)]> s.(last_commission_increase)) s)
   else ret tt);;
  ret (set_cm_commission commission c).

Definition stake_more_for (who : AccountId) (extra_amount : Balance)
  (cooldown_period : option BlockNumber) (commission : option Z)
  (allow_auto_compound : option bool) : MC unit :=
  let* id := gets (fun s => commitment_id_for s.(ext) who) in
  let* commitment_id := ok_or id NoOwnerOfCommitmentId in
  let* epoch := get_epoch in
  try_mutate_commitment commitment_id (fun c_ =>
    let* c := ok_or c_ CommitmentNotFound in
    let* c := match commission with
      | Some commission => change_commission commitment_id c commission
      | None => ret c
      end in
    let* stake := ok_or c.(cm_stake) CommitmentNotFound in
    ensure (is_none stake.(st_cooldown_started)) CommitmentInCooldown;;
    let* stake :=
      if extra_amount =? 0 then ret stake else
      let* amount := add128_c stake.(st_amount) extra_amount in
      lock_funds who amount Staking;;
      ret (set_st_rewardable_amount amount (set_st_amount amount stake)) in
    let* stake := match cooldown_period with
      | Some cooldown_period =>
          ensure (stake.(st_cooldown_period) <=? cooldown_period) CooldownPeriodCannotDecrease;;
          ret (set_st_cooldown_period cooldown_period stake)
      | None => ret stake
      end in
    let stake := match allow_auto_compound with
      | Some b => set_st_allow_auto_compound b stake
      | None => stake
      end in
    let* self_weight := cooldown_weight stake.(st_rewardable_amount) stake.(st_cooldown_period) in
    let* c := mutate_weights (set_cm_stake (Some stake) c) epoch (set_self_weights self_weight) in
    update_total_stake (Add extra_amount);;
    (if negb (extra_amount =? 0)
        || match cooldown_period with
           | Some p => stake.(st_cooldown_period) <? p
           | None => false
           end
     then let* overstaked := is_commitment_overstaked commitment_id c in
          ensure (negb overstaked) MaxStakeMetricRatioExceeded
     else ret tt);;
    ret (Some c, tt)).

Definition decrease_committer_stake (committer : AccountId) (commitment_id : CommitmentId)
  (decrease_amount : Balance) : MC unit :=
  let* epoch := get_epoch in
  try_mutate_commitment commitment_id (fun c_ =>
    let* c := ok_or c_ CommitmentNotFound in
    let* stake := ok_or c.(cm_stake) CommitmentNotFound in
    let amount := saturating_sub stake.(st_amount) decrease_amount in
    let rewardable_amount :=
      if is_none stake.(st_cooldown_started) then amount
      else pq_mul_floor CooldownRewardRatio amount in
    let stake := set_st_rewardable_amount rewardable_amount (set_st_amount amount stake) in
    lock_funds committer stake.(st_amount) Staking;;
    let* self_weight := cooldown_weight stake.(st_rewardable_amount) stake.(st_cooldown_period) in
    let* c := mutate_weights (set_cm_stake (Some stake) c) epoch (set_self_weights self_weight) in
    update_total_stake (Sub decrease_amount);;
    ret (Some c, tt)).

Definition withdraw_committer_accrued (commitment_id : CommitmentId) : MC Balance :=
  try_mutate_commitment commitment_id (fun c_ =>
    let* c := ok_or c_ CommitmentNotFound in
    let* stake := ok_or c.(cm_stake) CommitmentNotFound in
    let r := stake.(st_accrued_reward) in
    let stake := set_st_paid (saturating_add u128_max stake.(st_paid) r)
                   (set_st_accrued_reward 0 stake) in
    ret (Some (set_cm_stake (Some stake) c), r)).

Definition withdraw_committer_for (who : AccountId) (commitment_id : CommitmentId) : MC Balance :=
  let* reward := withdraw_committer_accrued commitment_id in
  pay_reward who reward;;
  ret reward.

Definition compound_committer (committer : AccountId) (commitment_id : CommitmentId) : MC Balance :=
  let* compound_amount := withdraw_committer_for committer commitment_id in
  stake_more_for committer compound_amount None None None;;
  ret compound_amount.

Definition cooldown_commitment_for (commitment_id : CommitmentId) : MC unit :=
  let* current_block := gets block_number in
  let* epoch := get_epoch in
  try_mutate_commitment commitment_id (fun c_ =>
    let* c := ok_or c_ CommitmentNotFound in
    let* stake := ok_or c.(cm_stake) CommitmentNotFound in
    ensure (is_none stake.(st_cooldown_started)) CooldownAlreadyStarted;;
    let stake := set_st_rewardable_amount (pq_mul_floor CooldownRewardRatio stake.(st_amount))
                   (set_st_cooldown_started (Some current_block) stake) in
    let* self_weight := cooldown_weight stake.(st_rewardable_amount) stake.(st_cooldown_period) in
    let* c := mutate_weights (set_cm_stake (Some stake) c) epoch
                (set_self_reward_weight self_weight) in
    ret (Some c, tt)).

(** [ComputeCommitments::clear_prefix] *)
Definition clear_compute_commitments (commitment_id : CommitmentId) : MC unit :=
  modify (fun s => set_compute_commitments
    (filter (fun kv => kv.1.1 <> commitment_id) s.(compute_commitments)) s).

Definition end_commitment_for (who : AccountId) (commitment_id : CommitmentId)
  (check_cooldown : bool) : MC Balance :=
  let* current_block := gets block_number in
  let* epoch := get_epoch in
  let* reward := withdraw_committer_for who commitment_id in
  let* stake := try_mutate_commitment commitment_id (fun c_ =>
    let* c := ok_or c_ CommitmentNotFound in
    let* committer_stake := ok_or c.(cm_stake) CommitmentNotFound in
    (if check_cooldown then
      let* cooldown_start := ok_or committer_stake.(st_cooldown_started) CooldownNotStarted in
      ensure (saturating_add u32_max cooldown_start committer_stake.(st_cooldown_period)
                <=? current_block) CooldownNotEnded
     else ret tt);;
    clear_compute_commitments commitment_id;;
    ret (Some {| cm_stake := None; cm_commission := c.(cm_commission);
                 cm_delegations_total_amount := 0;
                 cm_delegations_total_rewardable_amount := 0;
                 cm_weights := MemoryBuffer.new_with epoch CommitmentWeights_default;
                 cm_pool_rewards := c.(cm_pool_rewards);
                 cm_last_scoring_epoch := c.(cm_last_scoring_epoch);
                 cm_last_slashing_epoch := c.(cm_last_slashing_epoch) |}, committer_stake)) in
  update_total_stake (Sub stake.(st_amount));;
  unlock_and_slash who stake;;
  ret reward.
End staking.
