(* ===== verification/Delegation.v ===== *)
(** Delegation and slashing of commitments in the compute pallet: the remaining
    functions of [pallets/compute/src/staking.rs]. *)
From S2P Require Import Prelude Perthings Buffers ComputeTypes ComputePools Rewards Staking.

Section delegation.
Context {P : Perthings} {C : Config} {X : Externals}.
Notation MC := (M State Error).

Definition as_u128_p (a : Z) : MC Balance := or_panic (as_u128 a).

(** The body of the [Commitments::try_mutate] closure of [delegate_for]. *)
Definition delegate_in (who : AccountId) (commitment_id : CommitmentId) (amount : Balance)
  (cooldown_period : BlockNumber) (allow_auto_compound : bool) (epoch : Epoch_)
  (created : BlockNumber) (c_ : option Commitment) : MC (option Commitment * unit) :=
  let* commitment := ok_or c_ CommitmentNotFound in
  let* committer_stake := ok_or commitment.(cm_stake) CommitmentNotFound in
  ensure (cooldown_period <=? committer_stake.(st_cooldown_period))
    DelegationCooldownMustBeShorterThanCommitment;;
  ensure (is_none committer_stake.(st_cooldown_started)) CommitmentInCooldown;;
  lock_funds who amount (DelegationTo commitment_id);;
  let* reward_weight := cooldown_weight amount cooldown_period in
  let slash_weight := reward_weight in
  let pool_rewards :=
    default PoolReward_default (MemoryBuffer.get_latest commitment.(cm_pool_rewards) created) in
  let* reward_debt := per_weight_ceil reward_weight pool_rewards.(reward_per_weight) in
  let* slash_debt := per_weight_floor slash_weight pool_rewards.(slash_per_weight) in
  let* existing := gets (fun s => s.(delegations) !! (who, commitment_id)) in
  ensure (is_none existing) AlreadyDelegating;;
  let* reward_debt := as_u128_p reward_debt in
  let* slash_debt := as_u128_p slash_debt in
  modify (write_delegation who commitment_id (Some
    {| dl_stake := Stake_new amount created cooldown_period allow_auto_compound;
       dl_reward_weight := reward_weight; dl_slash_weight := slash_weight;
       dl_reward_debt := reward_debt; dl_slash_debt := slash_debt |}));;
  let commitment := set_cm_delegations_total_amount
    (saturating_add u128_max commitment.(cm_delegations_total_amount) amount) commitment in
  let commitment := set_cm_delegations_total_rewardable_amount
    (saturating_add u128_max commitment.(cm_delegations_total_rewardable_amount) amount) commitment in
  let* commitment := mutate_weights commitment epoch
    (add_delegation_weights reward_weight slash_weight) in
  update_total_stake (Add amount);;
  update_delegator_total who (Add amount);;
  let* ratio := delegation_weight_ratio epoch commitment in
  ensure (ratio <=? MaxDelegationRatio) MaxDelegationRatioExceeded;;
  let* overstaked := is_commitment_overstaked commitment_id commitment in
  ensure (negb overstaked) MaxStakeMetricRatioExceeded;;
  ret (Some commitment, tt).

Definition delegate_for (who : AccountId) (commitment_id : CommitmentId) (amount : Balance)
  (cooldown_period : BlockNumber) (allow_auto_compound : bool) : MC unit :=
  ensure (negb (amount =? 0) && (MinDelegation <=? amount)) BelowMinDelegation;;
  ensure (MinCooldownPeriod <=? cooldown_period) BelowMinCooldownPeriod;;
  ensure (cooldown_period <=? MaxCooldownPeriod) AboveMaxCooldownPeriod;;
  let* epoch := get_epoch in
  let* created := gets block_number in
  try_mutate_commitment commitment_id
    (delegate_in who commitment_id amount cooldown_period allow_auto_compound epoch created).

(** ** Accrual of rewards and slashes *)
Definition cooldown_rewardable (stake : Stake) (amount : Balance) : Balance :=
  if is_none stake.(st_cooldown_started) then amount else pq_mul_floor CooldownRewardRatio amount.

Definition sanitize_delegation (commitment_id : CommitmentId) (d : Delegation)
  : MC (Delegation * bool) :=
  let* epoch := get_epoch in
  if d.(dl_stake).(st_rewardable_amount) <=? d.(dl_stake).(st_amount) then ret (d, false) else
  let corrected_rewardable_amount := cooldown_rewardable d.(dl_stake) d.(dl_stake).(st_amount) in
  let rewardable_amount_diff :=
    saturating_sub d.(dl_stake).(st_rewardable_amount) corrected_rewardable_amount in
  let* new_reward_weight :=
    cooldown_weight corrected_rewardable_amount d.(dl_stake).(st_cooldown_period) in
  let reward_weight_diff := default 0 (checked_sub d.(dl_reward_weight) new_reward_weight) in
  let d := set_dl_reward_weight new_reward_weight
    (set_dl_stake (set_st_rewardable_amount corrected_rewardable_amount d.(dl_stake)) d) in
  try_mutate_commitment commitment_id (fun c_ =>
    let* c := ok_or c_ CommitmentNotFound in
    let c := set_cm_delegations_total_rewardable_amount
      (saturating_sub c.(cm_delegations_total_rewardable_amount) rewardable_amount_diff) c in
    let* c := mutate_weights c epoch (fun w => set_delegations_reward_weight
      (saturating_sub w.(delegations_reward_weight) reward_weight_diff) w) in
    ret (Some c, tt));;
  ret (d, true).

(** The closure of [accrue_delegator] on a delegation whose pool rewards are
    still remembered. *)
Definition accrue_with (commitment_id : CommitmentId) (pool_rewards : PoolReward) (d : Delegation)
  : MC Delegation :=
  let* reward_u256 := per_weight_floor d.(dl_reward_weight) pool_rewards.(reward_per_weight) in
  let* reward := as_u128_p reward_u256 in
  let reward := saturating_sub reward d.(dl_reward_debt) in
  let* slash_u256 := per_weight_floor d.(dl_slash_weight) pool_rewards.(slash_per_weight) in
  let* slash := as_u128_p slash_u256 in
  let* slash := sub_c slash d.(dl_slash_debt) in
  let* accrued_reward := add128_c d.(dl_stake).(st_accrued_reward) reward in
  let* accrued_slash := add128_c d.(dl_stake).(st_accrued_slash) slash in
  let d := set_dl_stake (set_st_accrued_slash accrued_slash
                           (set_st_accrued_reward accrued_reward d.(dl_stake))) d in
  let* sanitized := sanitize_delegation commitment_id d in
  let d := sanitized.1 in
  let* debt := per_weight_ceil d.(dl_reward_weight) pool_rewards.(reward_per_weight) in
  let* reward_debt := as_u128_p debt in
  let* debt := per_weight_floor d.(dl_slash_weight) pool_rewards.(slash_per_weight) in
  let* slash_debt := as_u128_p debt in
  ret (set_dl_slash_debt slash_debt (set_dl_reward_debt reward_debt d)).

Definition accrue_delegator (who : AccountId) (commitment_id : CommitmentId) : MC unit :=
  let* c := gets (fun s => s.(commitments) !! commitment_id) in
  let* commitment := ok_or c CommitmentNotFound in
  try_mutate_delegation who commitment_id (fun d_ =>
    let* d := ok_or d_ NotDelegating in
    match MemoryBuffer.get_latest commitment.(cm_pool_rewards) d.(dl_stake).(st_created) with
    | None => ret (Some d, tt)
    | Some pool_rewards =>
        let* d := accrue_with commitment_id pool_rewards d in
        ret (Some d, tt)
    end).

(** The new weights and debts of a delegation whose amount was decreased, with
    the differences to the old weights. *)
Definition reweigh_delegation (pool_rewards : PoolReward) (d : Delegation)
  : MC (Delegation * (Z * Z)) :=
  let* reward_weight :=
    cooldown_weight d.(dl_stake).(st_rewardable_amount) d.(dl_stake).(st_cooldown_period) in
  let* slash_weight := cooldown_weight d.(dl_stake).(st_amount) d.(dl_stake).(st_cooldown_period) in
  let* reward_weight_diff := sub_c d.(dl_reward_weight) reward_weight in
  let* slash_weight_diff := sub_c d.(dl_slash_weight) slash_weight in
  let* debt := per_weight_ceil reward_weight pool_rewards.(reward_per_weight) in
  let* reward_debt := as_u128_p debt in
  let* debt := per_weight_floor slash_weight pool_rewards.(slash_per_weight) in
  let* slash_debt := as_u128_p debt in
  ret ({| dl_stake := d.(dl_stake); dl_reward_weight := reward_weight;
          dl_slash_weight := slash_weight; dl_reward_debt := reward_debt;
          dl_slash_debt := slash_debt |}, (reward_weight_diff, slash_weight_diff)).

(** The inner closure of [decrease_delegator_stake], on the delegation and the
    commitment that the outer closure is mutating. *)
Definition decrease_delegation (who : AccountId) (commitment_id : CommitmentId)
  (target_decrease_amount : Balance) (epoch : Epoch_) (commitment : Commitment)
  (d_ : option Delegation) : MC (option Delegation * (Commitment * (Balance * Balance))) :=
  let* d := ok_or d_ NotDelegating in
  let decrease_amount :=
    if d.(dl_stake).(st_amount) <? target_decrease_amount then d.(dl_stake).(st_amount)
    else target_decrease_amount in
  let decreased_amount := saturating_sub d.(dl_stake).(st_amount) decrease_amount in
  let decreased_rewardable_amount := cooldown_rewardable d.(dl_stake) decreased_amount in
  let amount_diff := saturating_sub d.(dl_stake).(st_amount) decreased_amount in
  let rewardable_amount_diff :=
    saturating_sub d.(dl_stake).(st_rewardable_amount) decreased_rewardable_amount in
  let d := set_dl_stake (set_st_rewardable_amount decreased_rewardable_amount
                           (set_st_amount decreased_amount d.(dl_stake))) d in
  lock_funds who d.(dl_stake).(st_amount) (DelegationTo commitment_id);;
  let* dc := match commitment.(cm_stake) with
    | None => ret (d, commitment)
    | Some committer_stake =>
        let* dw :=
          if committer_stake.(st_created) <=? d.(dl_stake).(st_created) then
            match MemoryBuffer.get_latest commitment.(cm_pool_rewards) d.(dl_stake).(st_created) with
            | Some pool_rewards => reweigh_delegation pool_rewards d
            | None => ret (d, (0, 0))
            end
          else ret (d, (0, 0)) in
        let '(d, (reward_weight_diff, slash_weight_diff)) := dw in
        let commitment := set_cm_delegations_total_amount
          (saturating_sub commitment.(cm_delegations_total_amount) amount_diff) commitment in
        let commitment := set_cm_delegations_total_rewardable_amount
          (saturating_sub commitment.(cm_delegations_total_rewardable_amount)
             rewardable_amount_diff) commitment in
        let* commitment := mutate_weights commitment epoch
          (sub_delegation_weights reward_weight_diff slash_weight_diff) in
        ret (d, commitment)
    end in
  let '(d, commitment) := dc in
  update_total_stake (Sub decrease_amount);;
  update_delegator_total who (Sub decrease_amount);;
  ret (Some d, (commitment, (decrease_amount, saturating_sub target_decrease_amount decrease_amount))).

Definition decrease_delegator_stake (who : AccountId) (commitment_id : CommitmentId)
  (target_decrease_amount : Balance) : MC (Balance * Balance) :=
  let* epoch := get_epoch in
  try_mutate_commitment commitment_id (fun c_ =>
    let* commitment := ok_or c_ CommitmentNotFound in
    let* r := try_mutate_delegation who commitment_id
      (decrease_delegation who commitment_id target_decrease_amount epoch commitment) in
    ret (Some r.1, r.2)).

Definition apply_delegator_slash (who : AccountId) (commitment_id : CommitmentId) : MC Balance :=
  accrue_delegator who commitment_id;;
  let* d := gets (fun s => s.(delegations) !! (who, commitment_id)) in
  let* d := ok_or d NotDelegating in
  let accrued_slash := d.(dl_stake).(st_accrued_slash) in
  if accrued_slash =? 0 then ret 0 else
  let* r := decrease_delegator_stake who commitment_id accrued_slash in
  let '(slashed, remaining_unslashed) := r in
  let* credit := slash_for who slashed in
  ext_modify (drop_credit credit);;
  try_mutate_delegation who commitment_id (fun d_ =>
    let* d := ok_or d_ NotDelegating in
    ret (Some (set_dl_stake (set_st_accrued_slash remaining_unslashed d.(dl_stake)) d), tt));;
  ret slashed.

Definition withdraw_delegator_accrued (who : AccountId) (commitment_id : CommitmentId) : MC Balance :=
  apply_delegator_slash who commitment_id;;
  try_mutate_delegation who commitment_id (fun d_ =>
    let* d := ok_or d_ CommitmentNotFound in
    let r := d.(dl_stake).(st_accrued_reward) in
    let stake := set_st_paid (saturating_add u128_max d.(dl_stake).(st_paid) r)
                   (set_st_accrued_reward 0 d.(dl_stake)) in
    ret (Some (set_dl_stake stake d), r)).

Definition withdraw_delegation_for (who : AccountId) (commitment_id : CommitmentId) : MC Balance :=
  let* reward := withdraw_delegator_accrued who commitment_id in
  pay_reward who reward;;
  ret reward.

(** ** Cooldown and end of a delegation *)
Definition cooldown_delegation_in (epoch : Epoch_) (commitment : Commitment)
  (committer_stake : Stake) (cooldown_start : BlockNumber) (d_ : option Delegation)
  : MC (option Delegation * Commitment) :=
  let* d := ok_or d_ NotDelegating in
  ensure (is_none d.(dl_stake).(st_cooldown_started)) CooldownAlreadyStarted;;
  ensure (committer_stake.(st_created) <=? d.(dl_stake).(st_created)) StaleDelegationMustBeEnded;;
  let* pool_rewards :=
    ok_or (MemoryBuffer.get_latest commitment.(cm_pool_rewards) d.(dl_stake).(st_created))
      StaleDelegationMustBeEnded in
  let rewardable_amount := pq_mul_floor CooldownRewardRatio d.(dl_stake).(st_amount) in
  let stake := set_st_rewardable_amount rewardable_amount
                 (set_st_cooldown_started (Some cooldown_start) d.(dl_stake)) in
  let* reward_weight := cooldown_weight rewardable_amount stake.(st_cooldown_period) in
  let* reward_weight_diff := sub_c d.(dl_reward_weight) reward_weight in
  let commitment := set_cm_delegations_total_rewardable_amount
    (saturating_sub commitment.(cm_delegations_total_rewardable_amount)
       (saturating_sub stake.(st_amount) stake.(st_rewardable_amount))) commitment in
  let* commitment := mutate_weights commitment epoch (fun w => set_delegations_reward_weight
    (saturating_sub w.(delegations_reward_weight) reward_weight_diff) w) in
  let* debt := per_weight_ceil reward_weight pool_rewards.(reward_per_weight) in
  let* reward_debt := as_u128_p debt in
  ret (Some {| dl_stake := stake; dl_reward_weight := reward_weight;
               dl_slash_weight := d.(dl_slash_weight); dl_reward_debt := reward_debt;
               dl_slash_debt := d.(dl_slash_debt) |}, commitment).

Definition cooldown_delegation_for (who : AccountId) (commitment_id : CommitmentId) : MC unit :=
  apply_delegator_slash who commitment_id;;
  let* epoch := get_epoch in
  try_mutate_commitment commitment_id (fun c_ =>
    let* commitment := ok_or c_ CommitmentNotFound in
    let* committer_stake := ok_or commitment.(cm_stake) StaleDelegationMustBeEnded in
    let* current_block := gets block_number in
    let cooldown_start := default current_block committer_stake.(st_cooldown_started) in
    let* commitment := try_mutate_delegation who commitment_id
      (cooldown_delegation_in epoch commitment committer_stake cooldown_start) in
    ret (Some commitment, tt)).

(** The cooldown that [end_delegation_for] enforces on a delegation to the
    current commitment: the earlier of the two cooldown starts counts. *)
Definition check_delegation_cooldown (commitment : Commitment) (d : Delegation)
  (current_block : BlockNumber) : MC unit :=
  match commitment.(cm_stake) with
  | None => ret tt
  | Some committer_stake =>
      if committer_stake.(st_created) <=? d.(dl_stake).(st_created) then
        match committer_stake.(st_cooldown_started), d.(dl_stake).(st_cooldown_started) with
        | Some committer_cooldown_start, Some delegator_cooldown_start =>
            let first := if committer_cooldown_start <? delegator_cooldown_start
                         then committer_cooldown_start else delegator_cooldown_start in
            ensure (saturating_add u32_max first d.(dl_stake).(st_cooldown_period)
                      <=? current_block) CooldownNotEnded
        | Some committer_cooldown_start, None =>
            ensure (saturating_add u32_max committer_cooldown_start d.(dl_stake).(st_cooldown_period)
                      <=? current_block) CooldownNotEnded
        | None, Some delegator_cooldown_start =>
            ensure (saturating_add u32_max delegator_cooldown_start d.(dl_stake).(st_cooldown_period)
                      <=? current_block) CooldownNotEnded
        | None, None => throw CooldownNotStarted
        end
      else ret tt
  end.

(** The closure of [end_delegation_for] on the commitment. *)
Definition end_delegation_in (who : AccountId) (commitment_id : CommitmentId)
  (check_cooldown attempt_kickout : bool) (current_block : BlockNumber) (epoch : Epoch_)
  (c_ : option Commitment) : MC (option Commitment * unit) :=
  let* commitment := ok_or c_ CommitmentNotFound in
  let* delegation := try_mutate_delegation who commitment_id (fun d_ =>
    let* d := ok_or d_ NotDelegating in
    (if check_cooldown then check_delegation_cooldown commitment d current_block else ret tt);;
    ret (None, d)) in
  let* commitment := match commitment.(cm_stake) with
    | Some committer_stake =>
        if committer_stake.(st_created) <=? delegation.(dl_stake).(st_created) then
          ensure (negb attempt_kickout) CannotKickout;;
          let commitment := set_cm_delegations_total_amount
            (saturating_sub commitment.(cm_delegations_total_amount)
               delegation.(dl_stake).(st_amount)) commitment in
          let commitment := set_cm_delegations_total_rewardable_amount
            (saturating_sub commitment.(cm_delegations_total_rewardable_amount)
               delegation.(dl_stake).(st_rewardable_amount)) commitment in
          mutate_weights commitment epoch
            (sub_delegation_weights delegation.(dl_reward_weight) delegation.(dl_slash_weight))
        else ret commitment
    | None => ret commitment
    end in
  update_total_stake (Sub delegation.(dl_stake).(st_amount));;
  update_delegator_total who (Sub delegation.(dl_stake).(st_amount));;
  unlock_and_slash who delegation.(dl_stake);;
  ret (Some commitment, tt).

Definition end_delegation_for (who : AccountId) (commitment_id : CommitmentId)
  (check_cooldown attempt_kickout : bool) : MC Balance :=
  let* current_block := gets block_number in
  let* epoch := get_epoch in
  let* reward := withdraw_delegation_for who commitment_id in
  try_mutate_commitment commitment_id
    (end_delegation_in who commitment_id check_cooldown attempt_kickout current_block epoch);;
  ret reward.

Definition kickout_delegation (delegator : AccountId) (commitment_id : CommitmentId) : MC Balance :=
  let* reward := end_delegation_for delegator commitment_id false true in
  pay_reward delegator reward;;
  ret reward.

Definition delegate_more_for (who : AccountId) (commitment_id : CommitmentId)
  (extra_amount : Balance) (cooldown_period : option BlockNumber)
  (allow_auto_compound : option bool) : MC unit :=
  let* d := gets (fun s => s.(delegations) !! (who, commitment_id)) in
  let* old_delegation := ok_or d NotDelegating in
  ensure (is_none old_delegation.(dl_stake).(st_cooldown_started)) DelegationInCooldown;;
  let* c := gets (fun s => s.(commitments) !! commitment_id) in
  let* commitment := ok_or c CommitmentNotFound in
  let* committer_stake := ok_or commitment.(cm_stake) CommitmentNotFound in
  ensure (committer_stake.(st_created) <=? old_delegation.(dl_stake).(st_created))
    StaleDelegationMustBeEnded;;
  let* amount := add128_c old_delegation.(dl_stake).(st_amount) extra_amount in
  let* cooldown_period := match cooldown_period with
    | Some cooldown_period =>
        ensure (old_delegation.(dl_stake).(st_cooldown_period) <=? cooldown_period)
          CooldownPeriodCannotDecrease;;
        ret cooldown_period
    | None => ret old_delegation.(dl_stake).(st_cooldown_period)
    end in
  let allow_auto_compound :=
    default old_delegation.(dl_stake).(st_allow_auto_compound) allow_auto_compound in
  let* reward := end_delegation_for who commitment_id false false in
  pay_reward who reward;;
  delegate_for who commitment_id amount cooldown_period allow_auto_compound.

Definition compound_delegator (who : AccountId) (commitment_id : CommitmentId) : MC Balance :=
  let* compound_amount := withdraw_delegation_for who commitment_id in
  delegate_more_for who commitment_id compound_amount None None;;
  ret compound_amount.

Definition redelegate_for (who : AccountId) (old_commitment_id new_commitment_id : CommitmentId)
  : MC unit :=
  let* d := gets (fun s => s.(delegations) !! (who, old_commitment_id)) in
  let* old_delegation := ok_or d NotDelegating in
  let* d' := gets (fun s => s.(delegations) !! (who, new_commitment_id)) in
  ensure (is_none d') AlreadyDelegatingToRedelegationCommitter;;
  let* c := gets (fun s => s.(commitments) !! old_commitment_id) in
  let* c := ok_or c CommitmentNotFound in
  let* old_commitment_stake := ok_or c.(cm_stake) StaleDelegationMustBeEnded in
  ensure (old_commitment_stake.(st_created) <=? old_delegation.(dl_stake).(st_created))
    StaleDelegationMustBeEnded;;
  (if is_none old_commitment_stake.(st_cooldown_started) then
    let* current_block := gets block_number in
    let blocks_since_created :=
      saturating_sub current_block old_delegation.(dl_stake).(st_created) in
    ensure (saturating_mul u32_max RedelegationBlockingPeriod Epoch <=? blocks_since_created)
      RedelegateBlocked
   else ret tt);;
  let* reward := end_delegation_for who old_commitment_id false false in
  pay_reward who reward;;
  delegate_for who new_commitment_id old_delegation.(dl_stake).(st_amount)
    old_delegation.(dl_stake).(st_cooldown_period)
    old_delegation.(dl_stake).(st_allow_auto_compound).

(** ** Slashing a commitment *)
Definition missed_epochs (actual_metric_sum : Metric) (sum_epoch last_epoch last_slashing : Epoch_)
  : Z :=
  if (actual_metric_sum =? 0) && (sum_epoch <? last_epoch) then
    saturating_sub last_epoch (if last_slashing <? sum_epoch then sum_epoch else last_slashing)
  else 1.

Definition pool_slash_amount (pool_reward_ratio total_stake committed_metric actual_metric_sum missed
  : Z) : Balance :=
  match checked_sub committed_metric actual_metric_sum with
  | Some unfulfilled =>
      let unfulfilled_ratio := pq_from_rational unfulfilled committed_metric in
      let pool_max_slash :=
        pq_mul_floor pool_reward_ratio (pq_mul_floor BaseSlashRation total_stake) in
      saturating_mul u128_max (pq_mul_floor unfulfilled_ratio pool_max_slash) missed
  | None => 0
  end.

(** The sum over the pools the commitment has committed to. *)
Definition total_slash (commitment_id : CommitmentId) (commitment : Commitment)
  (manager_id : ManagerId) (last_epoch : Epoch_) (total_stake : Balance) : MC Balance :=
  let* committed := gets (fun s => iter_prefix commitment_id s.(compute_commitments)) in
  mfold committed 0 (fun total '(pool_id, committed_metric) =>
    let* pool := gets (fun s => s.(metric_pools) !! pool_id) in
    let* pool := ok_or pool PoolNotFound in
    let pool_reward_ratio := ProvisionalBuffer.get pool.(mp_reward) last_epoch in
    let* sums := gets (fun s => get_metrics_epoch_sum s manager_id pool_id) in
    let actual_metric_sum := (SlidingBuffer.get (0, 0) sums last_epoch).1 in
    let missed := missed_epochs actual_metric_sum sums.(SlidingBuffer.epoch) last_epoch
                    commitment.(cm_last_slashing_epoch) in
    add128_c total
      (pool_slash_amount pool_reward_ratio total_stake committed_metric actual_metric_sum missed)).

(** What [do_slash] takes from the committer and adds to the delegators' pool. *)
Definition split_slash (weights : CommitmentWeights) (total_slash_amount : Balance)
  : MC (Balance * option Z) :=
  let* x := mul_c weights.(self_slash_weight) total_slash_amount in
  let* self_share := div_c x (total_slash_weight weights) in
  let* delegations_share := sub_c total_slash_amount self_share in
  let self_slash_amount := saturated_into u128_max self_share in
  let delegations_slash_amount := saturated_into u128_max delegations_share in
  let* slash_per_weight_increase :=
    if negb (weights.(delegations_slash_weight) =? 0) && negb (delegations_slash_amount =? 0) then
      let* y := mul_c delegations_share PER_TOKEN_DECIMALS in
      let* increase := div_c y weights.(delegations_slash_weight) in
      ret (Some increase)
    else ret None in
  ret (self_slash_amount, slash_per_weight_increase).

(** The committer's slash: withdrawn, the slasher's part credited, the rest burned. *)
Definition slash_committer (committer slasher : AccountId) (self_slash_amount slasher_reward : Balance)
  : MC unit :=
  let* slashed_imbalance := slash_for committer self_slash_amount in
  let* slashed_imbalance :=
    if slasher_reward =? 0 then ret slashed_imbalance else
    let '(slasher_credit, slashed_imbalance) := extract slashed_imbalance slasher_reward in
    let* remaining := try_resolve slasher slasher_credit in
    ret (match remaining with
         | Some remaining => merge slashed_imbalance remaining
         | None => slashed_imbalance
         end) in
  ext_modify (drop_credit slashed_imbalance).

Definition do_slash (commitment_id : CommitmentId) (slasher : AccountId) : MC unit :=
  let* epoch := get_epoch in
  let* last_epoch := ok_or (checked_sub epoch 1) CalculationOverflow in
  let* c := gets (fun s => s.(commitments) !! commitment_id) in
  let* commitment := ok_or c CommitmentNotFound in
  let* committer_stake := ok_or commitment.(cm_stake) CommitmentNotFound in
  ensure (commitment.(cm_last_slashing_epoch) <? last_epoch) AlreadySlashed;;
  let* backing := gets (fun s => s.(backings) !! commitment_id) in
  let* manager_id := ok_or backing NoManagerBackingCommitment in
  let* total_stake :=
    add128_c committer_stake.(st_amount) commitment.(cm_delegations_total_amount) in
  let* total_slash_amount := total_slash commitment_id commitment manager_id last_epoch total_stake in
  ensure (negb (total_slash_amount =? 0)) NotSlashable;;
  let weights := default CommitmentWeights_default
                   (MemoryBuffer.get_latest commitment.(cm_weights) last_epoch) in
  if total_slash_weight weights =? 0 then ret tt else
  let* shares := split_slash weights total_slash_amount in
  let '(self_slash_amount, slash_per_weight_increase) := shares in
  let* owner := gets (fun s => owner_for s.(ext) commitment_id) in
  let* committer := ok_or owner NoOwnerOfCommitmentId in
  (if self_slash_amount =? 0 then ret tt
   else decrease_committer_stake committer commitment_id self_slash_amount);;
  let slasher_reward :=
    let r := pq_mul_floor SlashRewardRatio total_slash_amount in
    if self_slash_amount <? r then self_slash_amount else r in
  slash_committer committer slasher self_slash_amount slasher_reward;;
  try_mutate_commitment commitment_id (fun c_ =>
    let* c := ok_or c_ CommitmentNotFound in
    let* stake := ok_or c.(cm_stake) CommitmentNotFound in
    let* c := match slash_per_weight_increase with
      | Some increase =>
          let* pool_rewards := ok_or (MemoryBuffer.mutate c.(cm_pool_rewards) stake.(st_created)
            (fun r => set_slash_per_weight (saturating_add u256_max r.(slash_per_weight) increase) r))
            InternalError in
          ret (set_cm_pool_rewards pool_rewards c)
      | None => ret c
      end in
    ret (Some (set_cm_last_slashing_epoch last_epoch c), tt)).
End delegation.
