(* ===== verification/ComputeMetrics.v ===== *)
(** Metric commits and their rewards in the compute pallet: the commit and claim
    part of [pallets/compute/src/functions.rs] and the [ComputeHooks] entry point
    of [pallets/compute/src/hooks.rs].

    These functions run inside a processor's heartbeat and never fail: an error
    of a claim, a distribution or a scoring is dropped and what it had already
    written stays. *)
From S2P Require Import Prelude Perthings Buffers ComputeTypes ComputePools Rewards.

Section metrics.
Context {P : Perthings} {C : Config} {X : Externals}.
Notation MC := (M State Error).

Definition do_claim (claim_epoch : Epoch_)
  (claim_epoch_metric_sums : list (PoolId * (Metric * Metric))) (total_reward : Balance)
  : MC Balance :=
  if total_reward =? 0 then ret 0 else
  let* total_reward_ratio := mfold claim_epoch_metric_sums 0
    (fun total_reward_ratio '(pool_id, (_, metric_with_bonus_sum)) =>
      let* pool := gets (fun s => s.(metric_pools) !! pool_id) in
      let* pool := ok_or pool PoolNotFound in
      let reward_ratio := ProvisionalBuffer.get pool.(mp_reward) claim_epoch in
      let pool_total := SlidingBuffer.get 0 pool.(mp_total_with_bonus) claim_epoch in
      ret (pq_saturating_add total_reward_ratio
             (compute_weighted_reward_ratio reward_ratio metric_with_bonus_sum pool_total))) in
  ret (pq_mul_floor total_reward_ratio total_reward).

(** A mutation of a buffer of pairs: both sums grow by their metric. *)
Definition add_to_sums (metric metric_with_bonus : Metric) (v : Metric * Metric) : Metric * Metric :=
  (saturating_add u128_max v.1 metric, saturating_add u128_max v.2 metric_with_bonus).

Definition update_metrics_epoch_sum (manager_id : ManagerId) (pool_id : PoolId) (metric : Metric)
  (epoch : Epoch_) (bonus : bool) : MC MetricPoolUpdateInfo :=
  let metric_with_bonus :=
    if bonus then saturating_add u128_max metric (pq_mul_floor BusyWeightBonus metric) else metric in
  let prev_epoch := saturating_sub epoch 1 in
  let* pool := gets (fun s => s.(metric_pools) !! pool_id) in
  let* prev_total := match pool with
    | None => ret None
    | Some pool =>
        let pool := MetricPool_add_bonus (MetricPool_add pool epoch metric) epoch metric_with_bonus in
        modify (fun s => set_metric_pools (<[pool_id := pool]> s.(metric_pools)) s);;
        ret (Some (SlidingBuffer.get 0 pool.(mp_total) prev_epoch,
                   ProvisionalBuffer.get pool.(mp_reward) prev_epoch))
    end in
  let* sum := gets (fun s => get_metrics_epoch_sum s manager_id pool_id) in
  let sum_epoch := sum.(SlidingBuffer.epoch) in
  let sum' := SlidingBuffer.mutate (0, 0) sum epoch (add_to_sums metric metric_with_bonus) false in
  modify (fun s => set_metrics_epoch_sum
    (<[(manager_id, pool_id) := sum']> s.(metrics_epoch_sum)) s);;
  ret {| mu_pool_id := pool_id;
         mu_epoch_sum :=
           if (sum_epoch <? epoch) && (epoch - sum_epoch =? 1)
           then Some (SlidingBuffer.get (0, 0) sum' sum_epoch) else None;
         mu_pool_total := prev_total |}.

(** The three vectors that a commit collects. *)
Record CommitLog := {
  cl_metrics : list (PoolId * Metric);
  cl_sums : list (PoolId * (Metric * Metric));
  cl_totals : list (PoolId * (Metric * Z));
}.
Definition empty_log : CommitLog := {| cl_metrics := []; cl_sums := []; cl_totals := [] |}.

Definition push_opt {A} (l : list (PoolId * A)) (p : PoolId) (o : option A) : list (PoolId * A) :=
  match o with Some a => l ++ [(p, a)] | None => l end.
Definition non_empty {A} (l : list A) : option (list A) :=
  match l with [] => None | _ => Some l end.
Definition commit_info (l : CommitLog) : CommitMetricsInfo :=
  {| previous_metrics := non_empty l.(cl_metrics);
     previous_pool_totals := non_empty l.(cl_totals);
     previous_sums := non_empty l.(cl_sums) |}.

Definition log_update (l : CommitLog) (prev_metric : option (PoolId * Metric))
  (u : MetricPoolUpdateInfo) : CommitLog :=
  {| cl_metrics := match prev_metric with Some m => l.(cl_metrics) ++ [m] | None => l.(cl_metrics) end;
     cl_sums := push_opt l.(cl_sums) u.(mu_pool_id) u.(mu_epoch_sum);
     cl_totals := push_opt l.(cl_totals) u.(mu_pool_id) u.(mu_pool_total) |}.

Definition insert_metric (processor : AccountId) (pool_id : PoolId) (m : MetricCommit) : MC unit :=
  modify (fun s => set_metrics (<[(processor, pool_id) := m]> s.(metrics)) s).

(** One element of the loop of [commit_new_metrics]. *)
Definition commit_new_metric (processor : AccountId) (manager_id : ManagerId) (active : bool)
  (epoch : Epoch_) (l : CommitLog) (input : PoolId * Z * Z) : MC CommitLog :=
  let '(pool_id, numerator, denominator) := input in
  match fx_checked_from_rational numerator (if denominator =? 0 then 1 else denominator) with
  | None => ret l
  | Some metric =>
      let* maybe_current_metric := gets (fun s => s.(metrics) !! (processor, pool_id)) in
      let first_in_epoch :=
        match maybe_current_metric with Some m => m.(mc_epoch) <? epoch | None => true end in
      if first_in_epoch then
        insert_metric processor pool_id {| mc_epoch := epoch; mc_metric := metric |};;
        if active then
          let* u := update_metrics_epoch_sum manager_id pool_id metric epoch false in
          ret (log_update l ((fun m => (pool_id, m.(mc_metric))) <$> maybe_current_metric) u)
        else ret l
      else ret l
  end.

Definition commit_new_metrics (processor : AccountId) (manager_id : ManagerId)
  (metrics : list (PoolId * Z * Z)) (active : bool) (cycle : Cycle) : MC CommitMetricsInfo :=
  let* l := mfold metrics empty_log
              (commit_new_metric processor manager_id active cycle.(cy_epoch)) in
  ret (commit_info l).

Definition reuse_metric (processor : AccountId) (manager_id : ManagerId) (active : bool)
  (epoch : Epoch_) (l : CommitLog) (entry : PoolId * MetricCommit) : MC CommitLog :=
  let '(pool_id, commit) := entry in
  insert_metric processor pool_id {| mc_epoch := epoch; mc_metric := commit.(mc_metric) |};;
  if active then
    let* u := update_metrics_epoch_sum manager_id pool_id commit.(mc_metric) epoch true in
    ret (log_update l (Some (pool_id, commit.(mc_metric))) u)
  else ret l.

Definition reuse_metrics (processor : AccountId) (manager_id : ManagerId) (active : bool)
  (cycle : Cycle) : MC CommitMetricsInfo :=
  let epoch := cycle.(cy_epoch) in
  let* committed := gets (fun s => iter_prefix processor s.(metrics)) in
  let to_update := filter (fun e => Is_true
    ((e.2.(mc_epoch) <? epoch) && (epoch - e.2.(mc_epoch) <? MetricValidity))) committed in
  let* l := mfold to_update empty_log (reuse_metric processor manager_id active epoch) in
  ret (commit_info l).

(** [distribute] on the commitment that [reward] is mutating; an error becomes a
    zero bonus, the commitment keeps what was written. *)
Definition run_distribute (epoch : Epoch_) (commitment_id : CommitmentId) (pool_ids : list PoolId)
  (c : Commitment) : MC (Commitment * Balance) :=
  fun s =>
    let '(r, (s', c')) := distribute epoch commitment_id pool_ids (s, c) in
    (match r with Ok b => Ok (c', b) | Err _ => Ok (c', 0) | Panic => Panic end, s').

Definition reward (previous_epoch_metric_sums : list (PoolId * (Metric * Metric))) (cycle : Cycle)
  (manager_id : ManagerId) (pool_ids : list PoolId) (total_metric_reward : Balance)
  : MC RewardInfo :=
  let last_epoch := saturating_sub cycle.(cy_epoch) 1 in
  let* metric_rewards :=
    unwrap_or 0 (do_claim last_epoch previous_epoch_metric_sums total_metric_reward) in
  let reward := saturating_add u128_max 0 metric_rewards in
  let* backing := gets (fun s => s.(backing_lookup) !! manager_id) in
  match backing with
  | None => ret {| ri_reward := reward; ri_metrics_reward_claimed := true;
                   ri_staked_compute_reward_claimed := false |}
  | Some commitment_id =>
      let* bonus := try_mutate_commitment commitment_id (fun c_ =>
        match c_ with
        | None => ret (None, 0)
        | Some commitment =>
            if cycle.(cy_epoch) <=? commitment.(cm_last_scoring_epoch)
            then ret (Some commitment, 0) else
            let commitment := set_cm_last_scoring_epoch cycle.(cy_epoch) commitment in
            let* d := run_distribute last_epoch commitment_id pool_ids commitment in
            let '(commitment, bonus) := d in
            unwrap_or tt (score last_epoch cycle.(cy_epoch) commitment_id commitment
                            previous_epoch_metric_sums);;
            ret (Some commitment, bonus)
        end) in
      ret {| ri_reward := saturating_add u128_max reward bonus; ri_metrics_reward_claimed := true;
             ri_staked_compute_reward_claimed := true |}
  end.

(** The state of a processor at a heartbeat: created on the first one, active
    once the warmup has passed. *)
Definition processor_at (p_ : option ProcessorState) (current_block : BlockNumber) (cycle : Cycle)
  : MC ProcessorState :=
  let* p := match p_ with
    | Some p => ret p
    | None =>
        let* epoch_offset :=
          mod_or_panic (saturating_sub current_block cycle.(cy_epoch_start)) Epoch in
        ret (ProcessorState_initial epoch_offset
               (saturating_add u32_max current_block WarmupPeriod))
    end in
  let p := match p.(ps_status) with
    | WarmupUntil b => if b <=? current_block then set_ps_status Active p else p
    | Active => p
    end in
  ret (set_ps_committed cycle.(cy_epoch) p).

Definition is_active (p : ProcessorState) : bool :=
  match p.(ps_status) with Active => true | WarmupUntil _ => false end.

Definition do_commit (processor : AccountId) (manager : AccountId * ManagerId)
  (metrics : list (PoolId * Z * Z)) (pool_ids : list PoolId) (cycle : Cycle) : MC RewardInfo :=
  let* current_block := gets block_number in
  try_mutate (fun s => s.(processors) !! processor)
    (fun o s => set_processors (put_opt processor o s.(processors)) s) (fun p_ =>
    let* p := processor_at p_ current_block cycle in
    let active := is_active p in
    let manager_id := manager.2 in
    let* commit_metrics_info :=
      match metrics with
      | [] => reuse_metrics processor manager_id active cycle
      | _ => commit_new_metrics processor manager_id metrics active cycle
      end in
    if negb active then ret (Some p, RewardInfo_default) else
    let* rewards := gets compute_based_rewards in
    let total_metric_reward := SlidingBuffer.get 0 rewards (saturating_sub cycle.(cy_epoch) 1) in
    let p := match compute_reward_contribution commit_metrics_info total_metric_reward with
      | Some reward_contribution => set_ps_reward_contribution reward_contribution p
      | None => p
      end in
    match commit_metrics_info.(previous_sums) with
    | None => ret (Some p, RewardInfo_default)
    | Some previous_epoch_metric_sums =>
        let* info := reward previous_epoch_metric_sums cycle manager_id pool_ids
                       total_metric_reward in
        ret (Some p, info)
    end).

(** [ComputeHooks::commit] *)
Definition commit (processor : AccountId) (manager : AccountId * ManagerId)
  (metrics : list (PoolId * Z * Z)) : MC (Balance * bool * bool) :=
  let* last := gets last_metric_pool_id in
  let pool_ids := seqZ 1 last in
  let* cycle := gets current_cycle in
  let* info := do_commit processor manager metrics pool_ids cycle in
  let reward := info.(ri_reward) in
  (if reward =? 0 then ret tt else
    let* st := gets (fun s => s.(manager_metrics_rewards) !! manager.2) in
    let st := default {| mr_paid := 0; mr_claimed := 0 |} st in
    let* x := gets ext in
    let* paid := match transfer account_id manager.1 reward x with
      | Some x' => modify (set_ext x');; ret (saturating_add u128_max st.(mr_paid) reward)
      | None => ret st.(mr_paid)
      end in
    modify (fun s => set_manager_metrics_rewards
      (<[manager.2 := {| mr_paid := paid; mr_claimed := saturating_sub cycle.(cy_epoch) 1 |}]>
       s.(manager_metrics_rewards)) s));;
  ret (reward, info.(ri_metrics_reward_claimed), info.(ri_staked_compute_reward_claimed)).

(** [RewardContributionProvider::reward_contribution_per_block_for] *)
Definition reward_contribution_per_block_for (processor : AccountId) : MC (option Balance) :=
  let* p := gets (fun s => s.(processors) !! processor) in
  match p with
  | None => ret None
  | Some p => let* r := div_or_panic p.(ps_reward_contribution) Epoch in ret (Some r)
  end.

Definition do_get_or_create_commitment_id (committer : AccountId) : MC (CommitmentId * bool) :=
  let* existing := gets (fun s => commitment_id_for s.(ext) committer) in
  match existing with
  | Some id => ret (id, false)
  | None =>
      let* id := gets next_commitment_id in
      let* next := ok_or (checked_add u128_max id 1) CalculationOverflow in
      modify (set_next_commitment_id next);;
      ext_try (create_commitment_id id committer) Other;;
      ret (id, true)
  end.
End metrics.
