(* ===== verification/ComputeCalls.v ===== *)
(** The staking extrinsics of the compute pallet
    ([pallets/compute/src/lib.rs], [#[pallet::call]]).  FRAME runs each of them in a
    transaction: an error undoes every write. *)
From S2P Require Import Prelude Perthings Buffers ComputeTypes ComputePools Rewards Staking.
From S2P Require Import Delegation ComputeMetrics.

Section calls.
Context {P : Perthings} {C : Config} {X : Externals}.
Notation MC := (M State Error).

(** [T::CommitmentIdProvider::commitment_id_for(&who)?] *)
Definition commitment_id_of (who : AccountId) : MC CommitmentId :=
  let* id := gets (fun s => commitment_id_for s.(ext) who) in ok_or id Other.
Definition manager_id_of (who : AccountId) : MC ManagerId :=
  let* id := gets (fun s => manager_id_for s.(ext) who) in ok_or id Other.

Definition offer_backing (origin : Origin) (manager : AccountId) : MC unit :=
  with_transaction (
    let* who := ensure_signed origin in
    let* id := gets (fun s => commitment_id_for s.(ext) who) in
    ensure (is_none id) AlreadyBacking;;
    let* manager_id := manager_id_of manager in
    modify (fun s => set_backing_offers (<[who := manager_id]> s.(backing_offers)) s);;
    deposit_event (BackingOffered who manager_id)).

(** [BackingOffers::take(who).ok_or(NoBackingOfferFound)] *)
Definition take_backing_offer (who : AccountId) : MC ManagerId :=
  let* offer := gets (fun s => s.(backing_offers) !! who) in
  modify (fun s => set_backing_offers (delete who s.(backing_offers)) s);;
  ok_or offer NoBackingOfferFound.

Definition withdraw_backing_offer (origin : Origin) : MC unit :=
  with_transaction (
    let* who := ensure_signed origin in
    let* manager_id := take_backing_offer who in
    deposit_event (BackingOfferWithdrew who manager_id)).

(** The release of a manager whose committer has no commitment. *)
Definition release_backing (manager_id : ManagerId) : MC unit :=
  let* existing := gets (fun s => s.(backing_lookup) !! manager_id) in
  match existing with
  | None => ret tt
  | Some commitment_id =>
      let* c := gets (fun s => s.(commitments) !! commitment_id) in
      ensure (is_none c) AlreadyBacking;;
      modify (fun s => set_backings (delete commitment_id s.(backings)) s);;
      deposit_event (BackingEnded commitment_id manager_id)
  end.

Definition accept_backing_offer (origin : Origin) (committer : AccountId) : MC unit :=
  with_transaction (
    let* who := ensure_signed origin in
    let* manager_id := manager_id_of who in
    release_backing manager_id;;
    let* offer_manager_id := take_backing_offer committer in
    ensure (manager_id =? offer_manager_id) NoBackingOfferFound;;
    let* r := do_get_or_create_commitment_id committer in
    let '(commitment_id, created) := r in
    (if created then deposit_event (CommitmentCreated committer commitment_id) else ret tt);;
    modify (fun s => set_backings (<[commitment_id := manager_id]> s.(backings)) s);;
    modify (fun s => set_backing_lookup (<[manager_id := commitment_id]> s.(backing_lookup)) s);;
    deposit_event (BackingAccepted commitment_id manager_id)).

Definition commit_compute (origin : Origin) (amount : Balance) (cooldown_period : BlockNumber)
  (commitment : list ComputeCommitment) (commission : Z) (allow_auto_compound : bool) : MC unit :=
  with_transaction (
    let* who := ensure_signed origin in
    let* commitment_id := commitment_id_of who in
    validate_max_metric_store_commitments commitment_id commitment;;
    stake_for who amount cooldown_period commission allow_auto_compound;;
    validate_max_stake_metric_ratio commitment_id;;
    deposit_event (ComputeCommitted commitment_id)).

Definition stake_more (origin : Origin) (extra_amount : Balance)
  (cooldown_period : option BlockNumber) (commitment : option (list ComputeCommitment))
  (commission : option Z) (allow_auto_compound : option bool) : MC unit :=
  with_transaction (
    let* who := ensure_signed origin in
    let* commitment_id := commitment_id_of who in
    match commitment with
    | Some commitment => validate_max_metric_store_commitments commitment_id commitment
    | None => ret tt
    end;;
    stake_more_for who extra_amount cooldown_period commission allow_auto_compound;;
    validate_max_stake_metric_ratio commitment_id;;
    deposit_event (StakedMore commitment_id)).

Definition cooldown_compute_commitment (origin : Origin) : MC unit :=
  with_transaction (
    let* who := ensure_signed origin in
    let* commitment_id := commitment_id_of who in
    cooldown_commitment_for commitment_id;;
    deposit_event (ComputeCommitmentCooldownStarted commitment_id)).

Definition end_compute_commitment (origin : Origin) : MC unit :=
  with_transaction (
    let* who := ensure_signed origin in
    let* commitment_id := commitment_id_of who in
    let* compound_amount := end_commitment_for who commitment_id true in
    deposit_event (ComputeCommitmentEnded commitment_id compound_amount)).

Definition delegate (origin : Origin) (committer : AccountId) (amount : Balance)
  (cooldown_period : BlockNumber) (allow_auto_compound : bool) : MC unit :=
  with_transaction (
    let* who := ensure_signed origin in
    let* commitment_id := commitment_id_of committer in
    delegate_for who commitment_id amount cooldown_period allow_auto_compound;;
    validate_max_stake_metric_ratio commitment_id;;
    deposit_event (Delegated who commitment_id)).

Definition cooldown_delegation (origin : Origin) (committer : AccountId) : MC unit :=
  with_transaction (
    let* who := ensure_signed origin in
    let* commitment_id := commitment_id_of committer in
    cooldown_delegation_for who commitment_id;;
    deposit_event (DelegationCooldownStarted who commitment_id)).

Definition redelegate (origin : Origin) (old_committer new_committer : AccountId) : MC unit :=
  with_transaction (
    let* who := ensure_signed origin in
    let* old_commitment_id := commitment_id_of old_committer in
    let* new_commitment_id := commitment_id_of new_committer in
    redelegate_for who old_commitment_id new_commitment_id;;
    deposit_event (Redelegated who old_commitment_id new_commitment_id)).

Definition end_delegation (origin : Origin) (committer : AccountId) : MC unit :=
  with_transaction (
    let* who := ensure_signed origin in
    let* commitment_id := commitment_id_of committer in
    let* reward_amount := end_delegation_for who commitment_id true false in
    deposit_event (DelegationEnded who commitment_id reward_amount)).

Definition kick_out (origin : Origin) (delegator committer : AccountId) : MC unit :=
  with_transaction (
    let* _ := ensure_signed origin in
    let* commitment_id := commitment_id_of committer in
    let* reward_amount := end_delegation_for delegator commitment_id true true in
    deposit_event (KickedOut delegator commitment_id reward_amount)).

Definition slash (origin : Origin) (committer : AccountId) : MC unit :=
  with_transaction (
    let* who := ensure_signed origin in
    let* commitment_id := commitment_id_of committer in
    do_slash commitment_id who;;
    deposit_event (Slashed commitment_id)).

Definition withdraw_delegation (origin : Origin) (committer : AccountId) : MC unit :=
  with_transaction (
    let* who := ensure_signed origin in
    let* commitment_id := commitment_id_of committer in
    let* reward_amount := withdraw_delegation_for who commitment_id in
    deposit_event (DelegatorWithdrew who commitment_id reward_amount)).

Definition withdraw_commitment (origin : Origin) : MC unit :=
  with_transaction (
    let* who := ensure_signed origin in
    let* commitment_id := commitment_id_of who in
    let* reward_amount := withdraw_committer_for who commitment_id in
    deposit_event (CommitterWithdrew who commitment_id reward_amount)).

Definition delegate_more (origin : Origin) (committer : AccountId) (extra_amount : Balance)
  (cooldown_period : option BlockNumber) (allow_auto_compound : option bool) : MC unit :=
  with_transaction (
    let* who := ensure_signed origin in
    let* commitment_id := commitment_id_of committer in
    delegate_more_for who commitment_id extra_amount cooldown_period allow_auto_compound;;
    validate_max_stake_metric_ratio commitment_id;;
    deposit_event (DelegatedMore who commitment_id)).

Definition compound_delegation (origin : Origin) (committer : AccountId)
  (delegator : option AccountId) : MC unit :=
  with_transaction (
    let* who := ensure_signed origin in
    let* commitment_id := commitment_id_of committer in
    let delegator := default who delegator in
    let* d := gets (fun s => s.(delegations) !! (delegator, commitment_id)) in
    let* delegation := ok_or d NotDelegating in
    ensure ((who =? delegator) || delegation.(dl_stake).(st_allow_auto_compound))
      AutoCompoundNotAllowed;;
    let* compound_amount := compound_delegator delegator commitment_id in
    deposit_event (DelegatorCompounded delegator commitment_id compound_amount)).

Definition compound_stake (origin : Origin) (committer : option AccountId) : MC unit :=
  with_transaction (
    let* who := ensure_signed origin in
    let committer := default who committer in
    let* id := gets (fun s => commitment_id_for s.(ext) committer) in
    let* commitment_id := ok_or id NoOwnerOfCommitmentId in
    let* c := gets (fun s => s.(commitments) !! commitment_id) in
    let* c := ok_or c CommitmentNotFound in
    let* stake := ok_or c.(cm_stake) CommitmentNotFound in
    ensure ((who =? committer) || stake.(st_allow_auto_compound)) AutoCompoundNotAllowed;;
    let* compound_amount := compound_committer committer commitment_id in
    deposit_event (CommitterCompounded committer commitment_id compound_amount)).

(** ** The transitions of the pallet

    Everything that changes the pallet's storage: the extrinsics, the heartbeat
    hook and the start of a block. *)
Inductive Call :=
| create_pool_ (name : MetricPoolName) (reward : Z) (config : list MetricPoolConfigValue)
| modify_pool_ (pool_id : PoolId) (new_name : option MetricPoolName)
    (new_reward_from_epoch : option (Epoch_ * Z)) (new_config : option ModifyMetricPoolConfig)
| offer_backing_ (manager : AccountId)
| withdraw_backing_offer_
| accept_backing_offer_ (committer : AccountId)
| commit_compute_ (amount : Balance) (cooldown_period : BlockNumber)
    (commitment : list ComputeCommitment) (commission : Z) (allow_auto_compound : bool)
| stake_more_ (extra_amount : Balance) (cooldown_period : option BlockNumber)
    (commitment : option (list ComputeCommitment)) (commission : option Z)
    (allow_auto_compound : option bool)
| cooldown_compute_commitment_
| end_compute_commitment_
| delegate_ (committer : AccountId) (amount : Balance) (cooldown_period : BlockNumber)
    (allow_auto_compound : bool)
| cooldown_delegation_ (committer : AccountId)
| redelegate_ (old_committer new_committer : AccountId)
| end_delegation_ (committer : AccountId)
| kick_out_ (delegator committer : AccountId)
| slash_ (committer : AccountId)
| withdraw_delegation_ (committer : AccountId)
| withdraw_commitment_
| delegate_more_ (committer : AccountId) (extra_amount : Balance)
    (cooldown_period : option BlockNumber) (allow_auto_compound : option bool)
| compound_delegation_ (committer : AccountId) (delegator : option AccountId)
| compound_stake_ (committer : option AccountId)
| enable_inflation_.

Definition dispatch (origin : Origin) (call : Call) : MC unit :=
  match call with
  | create_pool_ name reward config => create_pool origin name reward config
  | modify_pool_ id name reward config => modify_pool origin id name reward config
  | offer_backing_ manager => offer_backing origin manager
  | withdraw_backing_offer_ => withdraw_backing_offer origin
  | accept_backing_offer_ committer => accept_backing_offer origin committer
  | commit_compute_ amount period commitment commission auto =>
      commit_compute origin amount period commitment commission auto
  | stake_more_ extra period commitment commission auto =>
      stake_more origin extra period commitment commission auto
  | cooldown_compute_commitment_ => cooldown_compute_commitment origin
  | end_compute_commitment_ => end_compute_commitment origin
  | delegate_ committer amount period auto => delegate origin committer amount period auto
  | cooldown_delegation_ committer => cooldown_delegation origin committer
  | redelegate_ old new => redelegate origin old new
  | end_delegation_ committer => end_delegation origin committer
  | kick_out_ delegator committer => kick_out origin delegator committer
  | slash_ committer => slash origin committer
  | withdraw_delegation_ committer => withdraw_delegation origin committer
  | withdraw_commitment_ => withdraw_commitment origin
  | delegate_more_ committer extra period auto => delegate_more origin committer extra period auto
  | compound_delegation_ committer delegator => compound_delegation origin committer delegator
  | compound_stake_ committer => compound_stake origin committer
  | enable_inflation_ => enable_inflation origin
  end.

(** The start of a block: the system moves to the block, then the hook runs. *)
Definition initialize_block (b : BlockNumber) : MC unit :=
  modify (set_block_number b);; on_initialize b.
End calls.
