(* ===== verification/Reference.v ===== *)
(** A concrete instance of the parameters of the compute pallet, and a run of it.

    [reference_externals] is a small currency with locks and imbalances and a
    register of ids that behaves as the documentation of [pallet_balances] and
    [pallet_uniques] says; [mainnet] holds the constants of
    [runtime/acurast-mainnet] and [small] constants with which a whole life cycle
    fits in a few blocks.  The states of the run are the concrete inputs at which
    the theorems of the development are instantiated. *)
From S2P Require Import Prelude Perthings Buffers ComputeTypes ComputePools Rewards Staking.
From S2P Require Import Delegation ComputeMetrics ComputeCalls.

Record RefExt := mkRefExt {
  x_balances : gmap Z Z;
  x_locks : gmap Z Z;
  x_issuance : Z;
  x_commitment_ids : gmap Z Z;
  x_owners : gmap Z Z;
  x_manager_ids : gmap Z Z;
  x_author : option Z;
}.
Definition set_x_balances v x :=
  mkRefExt v x.(x_locks) x.(x_issuance) x.(x_commitment_ids) x.(x_owners) x.(x_manager_ids) x.(x_author).
Definition set_x_locks v x :=
  mkRefExt x.(x_balances) v x.(x_issuance) x.(x_commitment_ids) x.(x_owners) x.(x_manager_ids) x.(x_author).
Definition set_x_issuance v x :=
  mkRefExt x.(x_balances) x.(x_locks) v x.(x_commitment_ids) x.(x_owners) x.(x_manager_ids) x.(x_author).
Definition give_id (id who : Z) (x : RefExt) : RefExt :=
  mkRefExt x.(x_balances) x.(x_locks) x.(x_issuance) (<[who := id]> x.(x_commitment_ids))
    (<[id := who]> x.(x_owners)) x.(x_manager_ids) x.(x_author).

Definition x_balance (x : RefExt) (who : Z) : Z := default 0 (x.(x_balances) !! who).
Definition x_locked (x : RefExt) (who : Z) : Z := default 0 (x.(x_locks) !! who).
Definition x_credit_to (who amount : Z) (x : RefExt) : RefExt :=
  set_x_balances (<[who := x_balance x who + amount]> x.(x_balances)) x.

#[export] Instance reference_externals : Externals := {|
  Ext := RefExt;
  total_issuance := x_issuance;
  total_balance := x_balance;
  free_balance := x_balance;
  balance_locked := x_locked;
  set_lock who amount x := set_x_locks (<[who := amount]> x.(x_locks)) x;
  remove_lock who x := set_x_locks (delete who x.(x_locks)) x;
  transfer from to amount x :=
    if amount <=? x_balance x from - x_locked x from then
      Some (x_credit_to to amount
              (set_x_balances (<[from := x_balance x from - amount]> x.(x_balances)) x))
    else None;
  withdraw who amount x :=
    let taken := Z.min amount (x_balance x who) in
    Some (taken, set_x_balances (<[who := x_balance x who - taken]> x.(x_balances)) x);
  slashable_slash who amount x := Some (0, x);
  issue amount x := (amount, set_x_issuance (x.(x_issuance) + amount) x);
  resolve who credit x := Some (x_credit_to who credit x);
  drop_credit credit x := set_x_issuance (x.(x_issuance) - credit) x;
  extract credit amount := (Z.min amount credit, credit - Z.min amount credit);
  merge a b := a + b;
  on_unbalanced credit x := set_x_issuance (x.(x_issuance) - credit) x;
  author := x_author;
  manager_id_for x who := x.(x_manager_ids) !! who;
  commitment_id_for x who := x.(x_commitment_ids) !! who;
  owner_for x id := x.(x_owners) !! id;
  create_commitment_id id who x := Some (give_id id who x);
|}.

Definition percent (n : Z) : Z := n * 10 ^ 16.
Definition is_root (o : Origin) : bool := match o with Root => true | _ => false end.

(** The constants of [runtime/acurast-mainnet]; blocks of six seconds. *)
Definition DAYS : Z := 14400.
Definition UNIT : Z := 10 ^ 12.
Definition mainnet : Config := {|
  account_id := 0;
  Epoch := 900;
  BusyWeightBonus := percent 10;
  MetricValidity := 16 * 2;
  MaxPools := 30;
  MaxMetricCommitmentRatio := percent 80;
  MinCooldownPeriod := 28 * DAYS;
  MaxCooldownPeriod := 48 * 28 * DAYS;
  TargetWeightPerComputeMultiplier := 5 * 10 ^ 18;
  TargetStakedTokenSupply := percent 80;
  MinDelegation := UNIT;
  MaxDelegationRatio := percent 90;
  CooldownRewardRatio := percent 50;
  RedelegationBlockingPeriod := 112;
  MinStake := 10 * UNIT;
  BaseSlashRation := 34246575340000;
  SlashRewardRatio := percent 10;
  MaxCommissionIncreasePerDay := 2500000;
  BlocksPerDay := DAYS;
  WarmupPeriod := 1800;
  InflationPerEpoch := 8561643835616439;
  InflationStakedComputeRatio := percent 70;
  InflationMetricsRatio := percent 10;
  InflationCollatorsRatio := percent 5;
  CreateModifyPoolOrigin := is_root;
  OperatorOrigin := is_root;
|}.

(** Short epochs, no warmup and small amounts. *)
Definition small : Config := {|
  account_id := 0;
  Epoch := 10;
  BusyWeightBonus := percent 10;
  MetricValidity := 32;
  MaxPools := 30;
  MaxMetricCommitmentRatio := percent 80;
  MinCooldownPeriod := 5;
  MaxCooldownPeriod := 100;
  TargetWeightPerComputeMultiplier := 5 * 10 ^ 18;
  TargetStakedTokenSupply := percent 80;
  MinDelegation := 1;
  MaxDelegationRatio := percent 90;
  CooldownRewardRatio := percent 50;
  RedelegationBlockingPeriod := 1;
  MinStake := 10;
  BaseSlashRation := percent 10;
  SlashRewardRatio := percent 10;
  MaxCommissionIncreasePerDay := 2500000;
  BlocksPerDay := 20;
  WarmupPeriod := 0;
  InflationPerEpoch := 10000;
  InflationStakedComputeRatio := percent 70;
  InflationMetricsRatio := percent 10;
  InflationCollatorsRatio := percent 5;
  CreateModifyPoolOrigin := is_root;
  OperatorOrigin := is_root;
|}.

(** ** A run

    Accounts: 0 is the pallet, 1 the committer, 2 the manager, 3 a delegator, 4
    a bystander, 5 the processor of the manager. *)
Section run.
#[local] Existing Instance small.

Definition genesis : State := {|
  last_metric_pool_id := 0; processors := ∅; manager_metrics_rewards := ∅; metric_pools := ∅;
  metrics := ∅; metric_pool_lookup := ∅; compute_commitments := ∅;
  last_commission_increase := ∅; scores := ∅; metrics_epoch_sum := ∅; backing_offers := ∅;
  backings := ∅; backing_lookup := ∅; next_commitment_id := 0; commitments := ∅;
  total_stake := 0; delegations := ∅; delegator_total := ∅;
  current_cycle := {| cy_epoch := 0; cy_epoch_start := 0 |};
  compute_based_rewards := SlidingBuffer.new 0 0; stake_based_rewards := ∅;
  collator_rewards := 0; inflation_enabled := false; block_number := 0; events := [];
  ext := {| x_balances := {[0 := 1000; 1 := 100000; 2 := 1000; 3 := 100000]}; x_locks := ∅;
            x_issuance := 202000; x_commitment_ids := ∅; x_owners := ∅;
            x_manager_ids := {[2 := 77]}; x_author := Some 4 |};
|}.

Fixpoint blocks (n : nat) (s : State) : State :=
  match n with
  | O => s
  | S n' => blocks n' (exec (initialize_block (s.(block_number) + 1)) s)
  end.

Definition heartbeat : M State Error (Balance * bool * bool) := commit 5 (2, 77) [(1, 1000, 1)].

(** A pool, the committer backed by the manager, and one epoch of metrics. *)
Definition s_backed : State :=
  blocks 10 (exec heartbeat
    (exec (dispatch (Signed 2) (accept_backing_offer_ 1))
      (exec (dispatch (Signed 1) (offer_backing_ 2))
        (exec (dispatch Root (create_pool_ [112] (percent 60) []))
          (exec (dispatch Root enable_inflation_) (blocks 1 genesis)))))).

(** The committer stakes 1000, then account 3 delegates 500. *)
Definition s_committed : State :=
  exec (dispatch (Signed 1)
          (commit_compute_ 1000 50 [{| cc_pool_id := 1; cc_metric := 700 * 10 ^ 18 |}] (10 ^ 8) true))
    (exec heartbeat s_backed).
Definition s_delegated : State :=
  exec (dispatch (Signed 3) (delegate_ 1 500 20 true)) s_committed.

(** Three epochs of heartbeats later there are rewards. *)
Definition next_epoch (s : State) : State := exec heartbeat (blocks 10 s).
Definition s_rewarded : State := next_epoch (next_epoch (next_epoch s_delegated)).
End run.
