(* ===== verification/Frames.v ===== *)
(** Frames of the compute pallet's functions: which of them only read the
    storage, which only call the other pallets, and the exact effect of the
    small writers.  The larger proofs use these instead of unfolding. *)
From S2P Require Import Prelude Perthings Buffers ComputeTypes ComputePools Rewards Staking.
From S2P Require Import Delegation ComputeMetrics ComputeCalls.

Section frames.
Context {P : Perthings} {C : Config} {X : Externals}.
Notation MC := (M State Error).
Implicit Types s : State.

(** Functions that only read. *)
Notation read_only := (framed (fun s : State => s)).
(** Functions that change at most the state of the other pallets. *)
Definition but_ext (s : State) : Ext -> State := fun x => set_ext x s.

Lemma set_ext_id s : set_ext s.(ext) s = s.
Proof. by destruct s. Qed.

Lemma but_ext_eq s s' : but_ext s' = but_ext s -> s' = set_ext s'.(ext) s.
Proof.
  unfold but_ext. intros Hf. rewrite <-(set_ext_id s') at 1. exact (f_equal (fun f => f s'.(ext)) Hf).
Qed.

Lemma read_only_framed {T A} (f : State -> T) (m : MC A) : read_only m -> framed f m.
Proof. apply framed_weaken with (g := f). Qed.

Lemma read_only_eq {A} (m : MC A) s r s' : read_only m -> m s = (r, s') -> s' = s.
Proof. intros Hm Hr. by apply (Hm s r s'). Qed.

Lemma ext_framed {T A} (f : State -> T) (m : MC A) :
  (forall x s, f (set_ext x s) = f s) -> framed but_ext m -> framed f m.
Proof. intros Hf Hm s r s' Hr. rewrite (but_ext_eq s s' (Hm _ _ _ Hr)). apply Hf. Qed.

Lemma ext_eq {A} (m : MC A) s r s' :
  framed but_ext m -> m s = (r, s') -> exists x, s' = set_ext x s.
Proof. intros Hm Hr. exists s'.(ext). apply but_ext_eq. by apply (Hm s r s'). Qed.

Lemma framed_try_mutate {T A B} (g : State -> T) (rd : State -> A) wr (f : A -> MC (A * B)) :
  (forall a s, g (wr a s) = g s) -> (forall a, framed g (f a)) -> framed g (try_mutate rd wr f).
Proof.
  intros Hwr Hf s r s' Hr.
  unfold try_mutate, bind, gets, modify, ret in Hr. destruct (f (rd s) s) as [[] ?] eqn:E;
    simplify_eq; rewrite ?Hwr; exact (Hf _ _ _ _ E).
Qed.

Lemma ro_get_epoch : read_only get_epoch.
Proof. unfold get_epoch. solve_framed. Qed.
Lemma ro_mul_c a b : read_only (mul_c a b).
Proof. unfold mul_c. solve_framed. Qed.
Lemma ro_div_c a b : read_only (div_c a b).
Proof. unfold div_c. solve_framed. Qed.
Lemma ro_div_ceil_c a b : read_only (div_ceil_c a b).
Proof. unfold div_ceil_c. solve_framed. Qed.
Lemma ro_sub_c a b : read_only (sub_c a b).
Proof. unfold sub_c. solve_framed. Qed.
Lemma ro_add128_c a b : read_only (add128_c a b).
Proof. unfold add128_c. solve_framed. Qed.
Lemma ro_as_u128_p a : read_only (as_u128_p a).
Proof. unfold as_u128_p. solve_framed. Qed.
Hint Resolve ro_get_epoch ro_mul_c ro_div_c ro_div_ceil_c ro_sub_c ro_add128_c ro_as_u128_p : framed.

Lemma ro_cooldown_weight a b : read_only (cooldown_weight a b).
Proof. unfold cooldown_weight. solve_framed. Qed.
Lemma ro_per_weight_floor a b : read_only (per_weight_floor a b).
Proof. unfold per_weight_floor. solve_framed. Qed.
Lemma ro_per_weight_ceil a b : read_only (per_weight_ceil a b).
Proof. unfold per_weight_ceil. solve_framed. Qed.
Lemma ro_mutate_weights c e f : read_only (mutate_weights c e f).
Proof. unfold mutate_weights. solve_framed. Qed.
Lemma ro_delegation_weight_ratio e c : read_only (delegation_weight_ratio e c).
Proof. unfold delegation_weight_ratio. solve_framed. Qed.
Lemma ro_score_limit a b : read_only (score_limit a b).
Proof. unfold score_limit. solve_framed. Qed.
Hint Resolve ro_cooldown_weight ro_per_weight_floor ro_per_weight_ceil ro_mutate_weights
  ro_delegation_weight_ratio ro_score_limit : framed.

Lemma ro_overstaked_in e l m w ps : read_only (overstaked_in e l m w ps).
Proof. induction ps as [|[p x] ps IH]; simpl; solve_framed. Qed.
Hint Resolve ro_overstaked_in : framed.
Lemma ro_is_commitment_overstaked id c : read_only (is_commitment_overstaked id c).
Proof. unfold is_commitment_overstaked. solve_framed. Qed.
Lemma ro_validate_max_stake_metric_ratio id : read_only (validate_max_stake_metric_ratio id).
Proof. unfold validate_max_stake_metric_ratio. solve_framed. Qed.
Lemma ro_reweigh_delegation p d : read_only (reweigh_delegation p d).
Proof. unfold reweigh_delegation. solve_framed. Qed.
Lemma ro_check_delegation_cooldown c d b : read_only (check_delegation_cooldown c d b).
Proof. unfold check_delegation_cooldown. solve_framed. Qed.
Lemma ro_cooldown_delegation_in e c st cs d : read_only (cooldown_delegation_in e c st cs d).
Proof. unfold cooldown_delegation_in. solve_framed. Qed.
Lemma ro_total_slash id c m l t : read_only (total_slash id c m l t).
Proof. unfold total_slash. solve_framed. Qed.
Lemma ro_split_slash w t : read_only (split_slash w t).
Proof. unfold split_slash. solve_framed. Qed.
Lemma ro_ensure_signed o : read_only (ensure_signed o).
Proof. unfold ensure_signed. solve_framed. Qed.
Lemma ro_ensure_origin f o : read_only (ensure_origin f o).
Proof. unfold ensure_origin. solve_framed. Qed.
Lemma ro_commitment_id_of w : read_only (commitment_id_of w).
Proof. unfold commitment_id_of. solve_framed. Qed.
Lemma ro_manager_id_of w : read_only (manager_id_of w).
Proof. unfold manager_id_of. solve_framed. Qed.
Lemma ro_validate_metric_pools l e : read_only (validate_metric_pools l e).
Proof. unfold validate_metric_pools. solve_framed. Qed.
Lemma ro_do_claim e l t : read_only (do_claim e l t).
Proof. unfold do_claim. solve_framed. Qed.
Lemma ro_processor_at p b c : read_only (processor_at p b c).
Proof. unfold processor_at, mod_or_panic. solve_framed. Qed.

Lemma ext_ext_modify f : framed but_ext (ext_modify f).
Proof. unfold ext_modify. solve_framed. Qed.
Lemma ext_ext_try f e : framed but_ext (ext_try f e).
Proof. unfold ext_try. solve_framed. Qed.
Lemma ext_ext_take {A} (f : Ext -> option (A * Ext)) e : framed but_ext (ext_take f e).
Proof. unfold ext_take. solve_framed. Qed.
Lemma ext_try_resolve w c : framed but_ext (try_resolve w c).
Proof. unfold try_resolve. solve_framed. Qed.
Lemma ext_issue_credit a : framed but_ext (issue_credit a).
Proof. unfold issue_credit. solve_framed. Qed.
Hint Resolve ext_ext_modify ext_ext_try ext_ext_take ext_try_resolve ext_issue_credit : framed.
Lemma ext_lock_funds w a r : framed but_ext (lock_funds w a r).
Proof. unfold lock_funds. solve_framed. Qed.
Lemma ext_unlock_funds w a : framed but_ext (unlock_funds w a).
Proof. unfold unlock_funds. solve_framed. Qed.
Lemma ext_slash_for w a : framed but_ext (slash_for w a).
Proof. unfold slash_for. solve_framed. Qed.
Lemma ext_pay_reward w a : framed but_ext (pay_reward w a).
Proof. unfold pay_reward. solve_framed. Qed.
Lemma ext_reward_collator o : framed but_ext (reward_collator o).
Proof. unfold reward_collator, div_or_panic. solve_framed. Qed.
Lemma ext_inflate : framed but_ext inflate.
Proof. unfold inflate. solve_framed. Qed.
Hint Resolve ext_unlock_funds ext_slash_for : framed.
Lemma ext_unlock_and_slash w st : framed but_ext (unlock_and_slash w st).
Proof. unfold unlock_and_slash. solve_framed. Qed.
Lemma ext_slash_committer a b c d : framed but_ext (slash_committer a b c d).
Proof. unfold slash_committer. solve_framed. Qed.

(** ** The exact effect of the small writers *)
Lemma get_epoch_ok s e s' :
  get_epoch s = (Ok e, s') <-> s.(current_cycle).(cy_epoch) = e /\ s = s'.
Proof. unfold get_epoch. by rewrite gets_ok. Qed.

Lemma update_total_stake_ok ch s u s' :
  update_total_stake ch s = (Ok u, s') <->
  match ch with
  | Add a => s.(total_stake) + a <= u128_max /\ s' = set_total_stake (s.(total_stake) + a) s
  | Sub a => a <= s.(total_stake) /\ s' = set_total_stake (s.(total_stake) - a) s
  end.
Proof.
  unfold update_total_stake. destruct u, ch; repeat setoid_rewrite bind_ok;
    setoid_rewrite gets_ok; setoid_rewrite ok_or_ok; setoid_rewrite modify_ok;
    setoid_rewrite checked_add_Some || setoid_rewrite checked_sub_Some; naive_solver.
Qed.

Lemma update_delegator_total_ok who ch s u s' :
  update_delegator_total who ch s = (Ok u, s') <->
  match ch with
  | Add a => get_delegator_total s who + a <= u128_max /\
      s' = set_delegator_total (<[who := get_delegator_total s who + a]> s.(delegator_total)) s
  | Sub a => a <= get_delegator_total s who /\
      s' = set_delegator_total (<[who := get_delegator_total s who - a]> s.(delegator_total)) s
  end.
Proof.
  unfold update_delegator_total. destruct u, ch; repeat setoid_rewrite bind_ok;
    setoid_rewrite gets_ok; setoid_rewrite ok_or_ok; setoid_rewrite modify_ok;
    setoid_rewrite checked_add_Some || setoid_rewrite checked_sub_Some; naive_solver.
Qed.

Lemma lock_funds_ok who a r s u s' :
  lock_funds who a r s = (Ok u, s') <->
  new_lock_total s who a r <= total_balance s.(ext) who /\
  s' = set_ext (set_lock who (new_lock_total s who a r) s.(ext)) s.
Proof.
  unfold lock_funds, ext_modify. destruct u. repeat setoid_rewrite bind_ok.
  setoid_rewrite gets_ok. setoid_rewrite ensure_ok. setoid_rewrite modify_ok.
  setoid_rewrite Z.leb_le. naive_solver.
Qed.

(** ** The checked arithmetic steps *)
Lemma mul_c_ok a b s c s' :
  mul_c a b s = (Ok c, s') <-> (c = a * b /\ c <= u256_max) /\ s = s'.
Proof. unfold mul_c. by rewrite ok_or_ok, checked_mul_Some. Qed.
Lemma div_c_ok a b s c s' : div_c a b s = (Ok c, s') <-> (c = a / b /\ b <> 0) /\ s = s'.
Proof. unfold div_c. by rewrite ok_or_ok, checked_div_Some. Qed.
Lemma sub_c_ok a b s c s' : sub_c a b s = (Ok c, s') <-> (c = a - b /\ b <= a) /\ s = s'.
Proof. unfold sub_c. by rewrite ok_or_ok, checked_sub_Some. Qed.
Lemma add128_c_ok a b s c s' :
  add128_c a b s = (Ok c, s') <-> (c = a + b /\ c <= u128_max) /\ s = s'.
Proof. unfold add128_c. by rewrite ok_or_ok, checked_add_Some. Qed.
Lemma as_u128_p_ok a s c s' : as_u128_p a s = (Ok c, s') <-> (c = a /\ a <= u128_max) /\ s = s'.
Proof.
  unfold as_u128_p, as_u128. rewrite or_panic_ok.
  destruct (Z.leb_spec a u128_max); naive_solver lia.
Qed.
Lemma cooldown_weight_ok a p s w s' :
  cooldown_weight a p s = (Ok w, s') <->
  (w = a * p / MaxCooldownPeriod /\ a * p <= u256_max /\ MaxCooldownPeriod <> 0) /\ s = s'.
Proof.
  unfold cooldown_weight. setoid_rewrite bind_ok. setoid_rewrite mul_c_ok. setoid_rewrite div_c_ok.
  naive_solver.
Qed.
Lemma per_weight_floor_ok w r s v s' :
  per_weight_floor w r s = (Ok v, s') <->
  (v = w * r / PER_TOKEN_DECIMALS /\ w * r <= u256_max) /\ s = s'.
Proof.
  unfold per_weight_floor. setoid_rewrite bind_ok. setoid_rewrite mul_c_ok.
  setoid_rewrite div_c_ok. assert (PER_TOKEN_DECIMALS <> 0) by done. naive_solver.
Qed.
Lemma checked_div_ceil_Some a b c :
  checked_div_ceil a b = Some c <->
  b <> 0 /\ c = (a + b - 1) / b /\ a + b <= u256_max /\ 1 <= a + b.
Proof.
  unfold checked_div_ceil. destruct (Z.eqb_spec b 0); [naive_solver|].
  unfold checked_add. destruct (Z.leb_spec (a + b) u256_max); simpl; [|naive_solver lia].
  unfold checked_sub. destruct (Z.leb_spec 1 (a + b)); simpl; [|naive_solver lia].
  rewrite checked_div_Some. naive_solver.
Qed.
Lemma per_weight_ceil_ok w r s v s' :
  0 <= w * r ->
  per_weight_ceil w r s = (Ok v, s') <->
  (v = (w * r + PER_TOKEN_DECIMALS - 1) / PER_TOKEN_DECIMALS /\
   w * r + PER_TOKEN_DECIMALS <= u256_max) /\ s = s'.
Proof.
  intros Hwr. unfold per_weight_ceil, div_ceil_c. setoid_rewrite bind_ok. setoid_rewrite mul_c_ok.
  setoid_rewrite ok_or_ok. setoid_rewrite checked_div_ceil_Some.
  assert (PER_TOKEN_DECIMALS <> 0 /\ 1 <= PER_TOKEN_DECIMALS) by done. split.
  - intros (a & s1 & ((-> & ?) & ->) & (?&?&?&?) & ->). auto.
  - intros ((-> & ?) & ->). exists (w * r), s'. split_and!; try done; lia.
Qed.
End frames.

Notation read_only := (framed (fun s : State => s)).

#[export] Hint Resolve ro_get_epoch ro_mul_c ro_div_c ro_div_ceil_c ro_sub_c ro_add128_c ro_as_u128_p
  ro_cooldown_weight ro_per_weight_floor ro_per_weight_ceil ro_mutate_weights
  ro_delegation_weight_ratio ro_score_limit ro_overstaked_in ro_is_commitment_overstaked
  ro_validate_max_stake_metric_ratio ro_reweigh_delegation ro_check_delegation_cooldown
  ro_cooldown_delegation_in ro_total_slash ro_split_slash ro_ensure_signed ro_ensure_origin
  ro_commitment_id_of ro_manager_id_of ro_validate_metric_pools ro_do_claim ro_processor_at
  ext_ext_modify ext_ext_try ext_ext_take ext_try_resolve ext_issue_credit ext_lock_funds
  ext_unlock_funds ext_slash_for ext_pay_reward ext_reward_collator ext_inflate
  ext_unlock_and_slash ext_slash_committer : framed.
#[export] Hint Resolve read_only_framed | 5 : framed.
#[export] Hint Extern 6 (framed _ _) => apply ext_framed; [intros; reflexivity|] : framed.

(** Replaces the post-state of a reading or external call by the pre-state. *)
Ltac frame_eqs :=
  repeat match goal with
  | H : ?m ?s = (_, ?s') |- _ =>
      is_var s';
      let E := fresh "E" in
      assert (E : s' = s) by (refine (read_only_eq _ _ _ _ _ H); solve [eauto 3 with framed]);
      subst s'
  end.

(** The same for calls to the other pallets: only the external state changes. *)
Ltac ext_eqs :=
  repeat match goal with
  | H : ?m ?s = (_, ?s') |- _ =>
      is_var s'; assert_fails (constr_eq s s');
      let E := fresh "E" in let x := fresh "x" in
      assert (E : framed but_ext m) by solve [eauto 3 with framed];
      destruct (ext_eq m s _ s' E H) as [x ->]; clear E
  end.

#[export] Hint Rewrite @try_mutate_ok @get_epoch_ok @update_total_stake_ok @update_delegator_total_ok
  @lock_funds_ok @mul_c_ok @div_c_ok @sub_c_ok @add128_c_ok @as_u128_p_ok @cooldown_weight_ok
  @per_weight_floor_ok : m_ok.

(** [run_ok H]: [inv_ok] with frames, through the case distinctions of the code. *)
Ltac run_ok_cases :=
  repeat (frame_eqs;
    match goal with
    | H : (match ?x with _ => _ end) _ = (Ok _, _) |- _ => destruct x eqn:?; inv_ok H
    end).
Ltac run_ok H :=
  inv_ok H; run_ok_cases; frame_eqs; simplify_eq/=; try discriminate.

Lemma is_none_None {A} (o : option A) : is_none o = true <-> o = None.
Proof. by destruct o. Qed.

(** Uses what the guards of the code established about optional values. *)
Ltac somes :=
  repeat match goal with
  | H : ?x = Some _, H' : context [?x] |- _ => rewrite H in H'
  | H : ?x = Some _ |- context [?x] => rewrite H
  | H : is_none _ = true |- _ => apply is_none_None in H
  end; simplify_eq/=.
