(* ===== verification/StakeLedger.v ===== *)
(** The abstract staking ledger, and the compute pallet as a refinement of it.

    The abstract object knows only amounts: the stake per commitment, the
    delegated amount per delegator and commitment, the grand total and the total
    per delegator.  [astep] lists the seven ways in which amounts may move.
    [abs] reads the ledger off the storage, and every function of the pallet is
    shown to perform a sequence of abstract steps. *)
From S2P Require Import Prelude Perthings Buffers ComputeTypes ComputePools Rewards Staking.
From S2P Require Import Delegation ComputeMetrics ComputeCalls Frames.

Record Ledger := mkLedger {
  stakes : gmap CommitmentId Balance;
  delegs : gmap (AccountId * CommitmentId) Balance;
  total : Balance;
  dtotal : gmap AccountId Balance;
}.

Definition dtot (l : Ledger) (who : AccountId) : Balance := default 0 (l.(dtotal) !! who).

(** [astep exact]: with [exact] a slash of a commitment is covered by its stake;
    without, the stake is cut at zero while the total is reduced by the whole
    amount, as [decrease_committer_stake] does. *)
Inductive astep (exact : bool) : Ledger -> Ledger -> Prop :=
| a_open_stake l id amount :
    default 0 (l.(stakes) !! id) = 0 -> 0 <= amount -> l.(total) + amount <= u128_max ->
    astep exact l (mkLedger (<[id := amount]> l.(stakes)) l.(delegs) (l.(total) + amount) l.(dtotal))
| a_raise_stake l id old extra :
    l.(stakes) !! id = Some old -> 0 <= extra -> l.(total) + extra <= u128_max ->
    astep exact l (mkLedger (<[id := old + extra]> l.(stakes)) l.(delegs) (l.(total) + extra)
                     l.(dtotal))
| a_slash_stake l id old amount :
    l.(stakes) !! id = Some old -> 0 <= amount <= l.(total) -> (exact = true -> amount <= old) ->
    astep exact l (mkLedger (<[id := Z.max 0 (old - amount)]> l.(stakes)) l.(delegs)
                     (l.(total) - amount) l.(dtotal))
| a_close_stake l id old :
    l.(stakes) !! id = Some old -> old <= l.(total) ->
    astep exact l (mkLedger (<[id := 0]> l.(stakes)) l.(delegs) (l.(total) - old) l.(dtotal))
| a_open_deleg l who id amount :
    l.(delegs) !! (who, id) = None -> 0 <= amount -> l.(total) + amount <= u128_max ->
    dtot l who + amount <= u128_max ->
    astep exact l (mkLedger l.(stakes) (<[(who, id) := amount]> l.(delegs)) (l.(total) + amount)
                     (<[who := dtot l who + amount]> l.(dtotal)))
| a_slash_deleg l who id old amount :
    l.(delegs) !! (who, id) = Some old -> 0 <= amount <= old -> amount <= l.(total) ->
    amount <= dtot l who ->
    astep exact l (mkLedger l.(stakes) (<[(who, id) := old - amount]> l.(delegs))
                     (l.(total) - amount) (<[who := dtot l who - amount]> l.(dtotal)))
| a_close_deleg l who id old :
    l.(delegs) !! (who, id) = Some old -> old <= l.(total) -> old <= dtot l who ->
    astep exact l (mkLedger l.(stakes) (delete (who, id) l.(delegs)) (l.(total) - old)
                     (<[who := dtot l who - old]> l.(dtotal))).

Notation asteps exact := (rtc (astep exact)).

(** ** The invariant of the abstract ledger *)
Definition sum_stakes (l : Ledger) : Z := gsum (fun _ a => a) l.(stakes).
Definition sum_delegs (l : Ledger) : Z := gsum (fun _ a => a) l.(delegs).
Definition sum_delegs_of (l : Ledger) (who : AccountId) : Z :=
  gsum (fun k a => if k.1 =? who then a else 0) l.(delegs).

Record ledger_inv (exact : bool) (l : Ledger) : Prop := {
  inv_stakes_pos : forall id a, l.(stakes) !! id = Some a -> 0 <= a;
  inv_delegs_pos : forall k a, l.(delegs) !! k = Some a -> 0 <= a;
  inv_total_le : l.(total) <= sum_stakes l + sum_delegs l;
  inv_total_eq : exact = true -> l.(total) = sum_stakes l + sum_delegs l;
  inv_total_range : 0 <= l.(total) <= u128_max;
  inv_dtotal : forall who, dtot l who = sum_delegs_of l who;
}.

Lemma dtot_insert l l' who who' v :
  l'.(dtotal) = <[who := v]> l.(dtotal) -> dtot l' who' = if who =? who' then v else dtot l who'.
Proof.
  unfold dtot. intros ->. rewrite lookup_insert.
  destruct (Z.eqb_spec who who'); [by rewrite decide_True|by rewrite decide_False].
Qed.

Lemma insert_pos {K} `{Countable K} (m : gmap K Z) k v :
  0 <= v -> (forall k a, m !! k = Some a -> 0 <= a) ->
  forall k' a, <[k := v]> m !! k' = Some a -> 0 <= a.
Proof. intros Hv Hm k' a [[_ <-]|[_ ?]]%lookup_insert_Some; [done|by eapply Hm]. Qed.

Lemma delete_pos {K} `{Countable K} (m : gmap K Z) k :
  (forall k a, m !! k = Some a -> 0 <= a) ->
  forall k' a, delete k m !! k' = Some a -> 0 <= a.
Proof. intros Hm k' a [_ ?]%lookup_delete_Some. by eapply Hm. Qed.

Lemma sum_delegs_of_insert (m : gmap (Z * Z) Z) who id v who' :
  gsum (fun k a => if k.1 =? who' then a else 0) (<[(who, id) := v]> m) =
  gsum (fun k a => if k.1 =? who' then a else 0) m
  + (if who =? who' then v - default 0 (m !! (who, id)) else 0).
Proof.
  rewrite gsum_insert. simpl. destruct (m !! (who, id)); simpl; destruct (who =? who'); lia.
Qed.

Lemma sum_delegs_of_delete (m : gmap (Z * Z) Z) who id who' :
  gsum (fun k a => if k.1 =? who' then a else 0) (delete (who, id) m) =
  gsum (fun k a => if k.1 =? who' then a else 0) m
  - (if who =? who' then default 0 (m !! (who, id)) else 0).
Proof. rewrite gsum_delete. destruct (m !! (who, id)); simpl; destruct (who =? who'); lia. Qed.

Lemma from_option_id (o : option Z) : from_option (fun a => a) 0 o = default 0 o.
Proof. by destruct o. Qed.

Lemma astep_inv exact l l' : astep exact l l' -> ledger_inv exact l -> ledger_inv exact l'.
Proof.
  intros Hs [Hsp Hdp Hle Heq Hrg Hdt]. unfold sum_stakes, sum_delegs, sum_delegs_of in *.
  destruct Hs; simplify_eq/=; try (assert (0 <= old) by eauto); constructor; simpl;
    try (by apply insert_pos; [lia|]); try (by apply delete_pos); try done;
    try (intros who'; erewrite dtot_insert by done; unfold sum_delegs_of; simpl;
         rewrite ?sum_delegs_of_insert, ?sum_delegs_of_delete;
         specialize (Hdt who'); simplify_map_eq; case_match;
         rewrite ?Z.eqb_eq, ?Z.eqb_neq in *; simplify_eq/=;
         repeat match goal with H : _ !! _ = _ |- _ => rewrite H end; simpl; lia);
    unfold sum_stakes, sum_delegs; simpl; rewrite ?gsum_insert, ?gsum_delete, ?from_option_id;
    repeat match goal with H : _ !! _ = _ |- _ => rewrite H end; simpl; try lia;
    try (intros Hex; specialize (Heq Hex); try (assert (amount <= old) by auto); lia); eauto.
Qed.

Lemma asteps_inv exact l l' : asteps exact l l' -> ledger_inv exact l -> ledger_inv exact l'.
Proof. induction 1; eauto using astep_inv. Qed.

Lemma astep_weaken exact l l' : astep true l l' -> astep exact l l'.
Proof. destruct 1; econstructor; eauto. Qed.

Lemma asteps_weaken exact l l' : asteps true l l' -> asteps exact l l'.
Proof. induction 1; eauto using rtc_l, rtc_refl, astep_weaken. Qed.

(** ** Reading the ledger off the storage *)
Section refinement.
Context {P : Perthings} {PL : PerthingsLaws P} {C : Config} {X : Externals}.
Notation MC := (M State Error).
Implicit Types s : State.

Definition stake_amount (c : Commitment) : Balance := default 0 (st_amount <$> c.(cm_stake)).
Definition deleg_amount (d : Delegation) : Balance := d.(dl_stake).(st_amount).

Definition abs (s : State) : Ledger :=
  mkLedger (stake_amount <$> s.(commitments)) (deleg_amount <$> s.(delegations))
    s.(total_stake) s.(delegator_total).

(** The part of the typing of the storage that the refinement relies on. *)
Definition stake_ok (st : Stake) : Prop :=
  0 <= st.(st_amount) /\ 0 <= st.(st_accrued_reward) /\ 0 <= st.(st_accrued_slash).
Definition commitment_ok (c : Commitment) : Prop :=
  is_perbill c.(cm_commission) /\ from_option stake_ok True c.(cm_stake).
Definition stakes_ok (s : State) : Prop :=
  map_Forall (fun _ c => commitment_ok c) s.(commitments) /\
  map_Forall (fun _ d => stake_ok d.(dl_stake)) s.(delegations).

(** [sim exact Q m]: a successful run of [m] is a sequence of abstract steps,
    keeps the storage well typed and returns a value in [Q]. *)
Definition sim (exact : bool) {A} (Q : A -> Prop) (m : MC A) : Prop :=
  forall s a s', stakes_ok s -> m s = (Ok a, s') ->
    asteps exact (abs s) (abs s') /\ stakes_ok s' /\ Q a.

Definition any {A} (_ : A) : Prop := True.

Lemma sim_bind b {A B} (Q : A -> Prop) (R : B -> Prop) (m : MC A) (k : A -> MC B) :
  sim b Q m -> (forall a, Q a -> sim b R (k a)) -> sim b R (bind m k).
Proof.
  intros Hm Hk s r s' Hok (a & s1 & H1 & H2)%bind_ok.
  destruct (Hm s a s1 Hok H1) as (Hs1 & Hok1 & Ha).
  destruct (Hk a Ha s1 r s' Hok1 H2) as (Hs2 & Hok2 & Hr). split_and!; [by etrans|done|done].
Qed.

Lemma sim_conseq b {A} (Q R : A -> Prop) (m : MC A) :
  sim b Q m -> (forall a, Q a -> R a) -> sim b R m.
Proof. intros Hm HQR s a s' Hok H1. destruct (Hm s a s' Hok H1) as (?&?&?). eauto. Qed.

(** What the refinement can see of a state. *)
Definition core (s : State) :=
  (s.(commitments), s.(delegations), s.(total_stake), s.(delegator_total)).

Lemma core_abs s s' : core s' = core s -> abs s' = abs s.
Proof.
  unfold core, abs. intros Hc. injection Hc as H1 H2 H3 H4. by rewrite H1, H2, H3, H4.
Qed.
Lemma core_ok s s' : core s' = core s -> stakes_ok s -> stakes_ok s'.
Proof.
  unfold core, stakes_ok. intros Hc. injection Hc as Hc1 Hd _ _. by rewrite Hc1, Hd.
Qed.

Lemma sim_framed b {A} (m : MC A) : framed core m -> sim b any m.
Proof.
  intros Hf s a s' Hok H1. pose proof (Hf _ _ _ H1) as Hc.
  rewrite (core_abs _ _ Hc). split_and!; [done|by eapply core_ok|done].
Qed.

Lemma sim_ret b {A} (Q : A -> Prop) (a : A) : Q a -> sim b Q (ret a).
Proof. intros Ha s r s' Hok H1. apply ret_ok in H1 as [-> ->]. done. Qed.

Lemma sim_gets b {A} (f : State -> A) (Q : A -> Prop) :
  (forall s, stakes_ok s -> Q (f s)) -> sim b Q (gets f).
Proof. intros Hf s r s' Hok H1. apply gets_ok in H1 as [<- ->]. by split_and!; auto. Qed.

Lemma sim_ok_or b {A} (o : option A) (e : Error) (Q : A -> Prop) :
  from_option Q True o -> sim b Q (ok_or o e).
Proof. intros Ho s r s' Hok H1. apply ok_or_ok in H1 as [-> ->]. done. Qed.

Lemma sim_transaction b {A} (Q : A -> Prop) (m : MC A) : sim b Q m -> sim b Q (with_transaction m).
Proof. intros Hm s a s' Hok H1. rewrite with_transaction_ok in H1. exact (Hm s a s' Hok H1). Qed.

(** ** Writes of map entries *)
Lemma abs_write_commitment id c s :
  abs (write_commitment id (Some c) s) =
  mkLedger (<[id := stake_amount c]> (abs s).(stakes)) (abs s).(delegs) (abs s).(total)
    (abs s).(dtotal).
Proof. unfold abs, write_commitment; simpl. by rewrite fmap_insert. Qed.

Lemma abs_write_delegation who id d s :
  abs (write_delegation who id (Some d) s) =
  mkLedger (abs s).(stakes) (<[(who, id) := deleg_amount d]> (abs s).(delegs)) (abs s).(total)
    (abs s).(dtotal).
Proof. unfold abs, write_delegation; simpl. by rewrite fmap_insert. Qed.

Lemma abs_delete_delegation who id s :
  abs (write_delegation who id None s) =
  mkLedger (abs s).(stakes) (delete (who, id) (abs s).(delegs)) (abs s).(total) (abs s).(dtotal).
Proof. unfold abs, write_delegation; simpl. by rewrite fmap_delete. Qed.

Lemma abs_same_commitment id c c' s :
  s.(commitments) !! id = Some c -> stake_amount c' = stake_amount c ->
  abs (write_commitment id (Some c') s) = abs s.
Proof.
  intros Hc Ha. rewrite abs_write_commitment. unfold abs; simpl. f_equal.
  rewrite insert_id; [done|]. by rewrite lookup_fmap, Hc, Ha.
Qed.

Lemma abs_same_delegation who id d d' s :
  s.(delegations) !! (who, id) = Some d -> deleg_amount d' = deleg_amount d ->
  abs (write_delegation who id (Some d') s) = abs s.
Proof.
  intros Hd Ha. rewrite abs_write_delegation. unfold abs; simpl. f_equal.
  rewrite insert_id; [done|]. by rewrite lookup_fmap, Hd, Ha.
Qed.

Lemma stakes_ok_commitment id c s :
  stakes_ok s -> commitment_ok c -> stakes_ok (write_commitment id (Some c) s).
Proof. intros [? ?] ?. split; simpl; [by apply map_Forall_insert_2|done]. Qed.

Lemma stakes_ok_delegation who id d s :
  stakes_ok s -> stake_ok d.(dl_stake) -> stakes_ok (write_delegation who id (Some d) s).
Proof. intros [? ?] ?. split; simpl; [done|by apply map_Forall_insert_2]. Qed.

Lemma stakes_ok_delete who id s : stakes_ok s -> stakes_ok (write_delegation who id None s).
Proof. intros [? ?]. split; simpl; [done|by apply map_Forall_delete]. Qed.

Lemma stakes_ok_lookup_c s id c : stakes_ok s -> s.(commitments) !! id = Some c -> commitment_ok c.
Proof. intros [Hc _] ?. by eapply Hc. Qed.
Lemma stakes_ok_lookup_d s k d : stakes_ok s -> s.(delegations) !! k = Some d -> stake_ok d.(dl_stake).
Proof. intros [_ Hd] ?. by eapply Hd. Qed.
End refinement.
