(* ===== verification/StakingSim.v ===== *)
(** The staking functions of the compute pallet refine the abstract ledger: a
    simulation lemma per function of [pallets/compute/src/staking.rs], composed
    along the calls. *)
From S2P Require Import Prelude Perthings Buffers ComputeTypes ComputePools Rewards Staking.
From S2P Require Import Delegation ComputeMetrics ComputeCalls Frames StakeLedger.

Section simulation.
Context {P : Perthings} {PL : PerthingsLaws P} {C : Config} {X : Externals}.
Notation MC := (M State Error).
Implicit Types s : State.

Lemma and3 (A B Q : Prop) : A /\ B -> Q -> A /\ B /\ Q.
Proof. tauto. Qed.

Lemma stake_lookup s id c : s.(commitments) !! id = Some c ->
  (abs s).(stakes) !! id = Some (stake_amount c).
Proof. intros Hc. simpl. by rewrite lookup_fmap, Hc. Qed.
Lemma deleg_lookup s k d : s.(delegations) !! k = Some d ->
  (abs s).(delegs) !! k = Some (deleg_amount d).
Proof. intros Hd. simpl. by rewrite lookup_fmap, Hd. Qed.

Ltac solve_ok :=
  unfold commitment_ok, stake_ok in *; simpl in *; destruct_and?; simpl in *; split_and?; simpl;
  first [done | lia | by eauto].

(** ** Functions that move no amount *)
Definition keeps {A} (Q : A -> Prop) (m : MC A) : Prop :=
  forall s a s', stakes_ok s -> m s = (Ok a, s') -> abs s' = abs s /\ stakes_ok s' /\ Q a.

Lemma keeps_sim b {A} (Q : A -> Prop) (m : MC A) : keeps Q m -> sim b Q m.
Proof. intros Hm s a s' Hok Hr. destruct (Hm _ _ _ Hok Hr) as (-> & ? & ?). done. Qed.

Lemma keeps_framed {A} (m : MC A) : framed core m -> keeps any m.
Proof.
  intros Hf s a s' Hok H1. pose proof (Hf _ _ _ H1) as Hc.
  rewrite (core_abs _ _ Hc). split_and!; [done|by eapply core_ok|done].
Qed.

Lemma keeps_bind {A B} (Q : A -> Prop) (R : B -> Prop) (m : MC A) (k : A -> MC B) :
  keeps Q m -> (forall a, Q a -> keeps R (k a)) -> keeps R (bind m k).
Proof.
  intros Hm Hk s r s' Hok (a & s1 & H1 & H2)%bind_ok.
  destruct (Hm s a s1 Hok H1) as (<- & Hok1 & Ha). exact (Hk a Ha s1 r s' Hok1 H2).
Qed.

Lemma keeps_ret {A} (Q : A -> Prop) (a : A) : Q a -> keeps Q (ret a).
Proof. intros Ha s r s' Hok H1. apply ret_ok in H1 as [-> ->]. done. Qed.

Lemma keeps_conseq {A} (Q R : A -> Prop) (m : MC A) :
  keeps Q m -> (forall a, Q a -> R a) -> keeps R m.
Proof. intros Hm HQR s a s' Hok H1. destruct (Hm s a s' Hok H1) as (?&?&?). eauto. Qed.

(** The value a closure writes back moves no amount. *)
Definition same_c (c_ r : option Commitment) : Prop :=
  match c_, r with
  | Some c, Some c' => stake_amount c' = stake_amount c /\ commitment_ok c'
  | None, None => True
  | _, _ => False
  end.
Definition same_d (d_ r : option Delegation) : Prop :=
  match d_, r with
  | Some d, Some d' => deleg_amount d' = deleg_amount d /\ stake_ok d'.(dl_stake)
  | None, None => True
  | _, _ => False
  end.

Lemma keeps_mutate_commitment {A} (Q : A -> Prop) id f :
  (forall c_, from_option commitment_ok True c_ -> keeps (fun r => same_c c_ r.1 /\ Q r.2) (f c_)) ->
  keeps Q (try_mutate_commitment id f).
Proof.
  intros Hf s a s' Hok (r & s1 & H1 & <- & ->)%try_mutate_ok.
  assert (from_option commitment_ok True (s.(commitments) !! id)) as Hc.
  { destruct (s.(commitments) !! id) eqn:E; [|done]. by eapply stakes_ok_lookup_c. }
  destruct (Hf _ Hc _ _ _ Hok H1) as (Ha & Hok1 & Hs & HQ).
  pose proof (f_equal (fun l => l.(stakes) !! id) Ha) as Hl. simpl in Hl.
  rewrite !lookup_fmap in Hl. unfold same_c in Hs.
  destruct (s.(commitments) !! id) as [c|], r.1 as [c'|]; try done; simpl in Hl.
  - destruct Hs as [Hs Hs']. destruct (s1.(commitments) !! id) as [c1|] eqn:E1; [|done].
    injection Hl as Hl. rewrite (abs_same_commitment id c1 c' s1 E1 (eq_trans Hs (eq_sym Hl))).
    split_and!; [done|by apply stakes_ok_commitment|done].
  - destruct (s1.(commitments) !! id) eqn:E1; [done|].
    assert (write_commitment id None s1 = s1) as ->; [|done].
    unfold write_commitment; simpl. rewrite delete_id by done. by destruct s1.
Qed.

Lemma keeps_mutate_delegation {A} (Q : A -> Prop) who id f :
  (forall d_, from_option (fun d => stake_ok d.(dl_stake)) True d_ ->
     keeps (fun r => same_d d_ r.1 /\ Q r.2) (f d_)) ->
  keeps Q (try_mutate_delegation who id f).
Proof.
  intros Hf s a s' Hok (r & s1 & H1 & <- & ->)%try_mutate_ok.
  assert (from_option (fun d => stake_ok d.(dl_stake)) True (s.(delegations) !! (who, id))) as Hd.
  { destruct (s.(delegations) !! (who, id)) eqn:E; [|done]. by eapply stakes_ok_lookup_d. }
  destruct (Hf _ Hd _ _ _ Hok H1) as (Ha & Hok1 & Hs & HQ).
  pose proof (f_equal (fun l => l.(delegs) !! (who, id)) Ha) as Hl. simpl in Hl.
  rewrite !lookup_fmap in Hl. unfold same_d in Hs.
  destruct (s.(delegations) !! (who, id)) as [d|], r.1 as [d'|]; try done; simpl in Hl.
  - destruct Hs as [Hs Hs']. destruct (s1.(delegations) !! (who, id)) as [d1|] eqn:E1; [|done].
    injection Hl as Hl. rewrite (abs_same_delegation who id d1 d' s1 E1 (eq_trans Hs (eq_sym Hl))).
    split_and!; [done|by apply stakes_ok_delegation|done].
  - destruct (s1.(delegations) !! (who, id)) eqn:E1; [done|].
    assert (write_delegation who id None s1 = s1) as ->; [|done].
    unfold write_delegation; simpl. rewrite delete_id by done. by destruct s1.
Qed.

(** A closure that only reads, judged by its result. *)
Lemma keeps_read {A} (Q : A -> Prop) (m : MC A) :
  framed core m -> (forall s a s', stakes_ok s -> m s = (Ok a, s') -> Q a) -> keeps Q m.
Proof.
  intros Hf HQ s a s' Hok Hr. destruct (keeps_framed m Hf s a s' Hok Hr) as (? & ? & _). eauto.
Qed.

Lemma keeps_withdraw_committer_accrued id : keeps (fun r => 0 <= r) (withdraw_committer_accrued id).
Proof.
  apply keeps_mutate_commitment. intros c_ Hc. apply keeps_read; [solve_framed|].
  intros s a s' Hok Hr. run_ok Hr. destruct Hc as [? Hst]. unfold stake_amount; simpl. somes. solve_ok.
Qed.

Lemma keeps_cooldown_commitment_for id : keeps any (cooldown_commitment_for id).
Proof.
  unfold cooldown_commitment_for.
  eapply keeps_bind; [by apply keeps_framed; solve_framed|intros cb _].
  eapply keeps_bind; [by apply keeps_framed; solve_framed|intros e _].
  apply keeps_mutate_commitment. intros c_ Hc. apply keeps_read; [solve_framed|].
  intros s a s' Hok Hr. unfold mutate_weights in Hr. run_ok Hr. destruct Hc as [? Hst].
  unfold stake_amount; simpl. somes. solve_ok.
Qed.

Lemma keeps_pay_reward who r : keeps any (pay_reward who r).
Proof. apply keeps_framed. solve_framed. Qed.

Lemma keeps_withdraw_committer_for who id : keeps (fun r => 0 <= r) (withdraw_committer_for who id).
Proof.
  unfold withdraw_committer_for. eapply keeps_bind; [apply keeps_withdraw_committer_accrued|].
  intros r Hr. eapply keeps_bind; [apply keeps_pay_reward|]. intros _ _. by apply keeps_ret.
Qed.

(** ** Accrual *)
Lemma keeps_sanitize id d :
  stake_ok d.(dl_stake) ->
  keeps (fun r => deleg_amount r.1 = deleg_amount d /\ stake_ok r.1.(dl_stake))
    (sanitize_delegation id d).
Proof.
  intros Hd. unfold sanitize_delegation.
  eapply keeps_bind; [by apply keeps_framed; solve_framed|intros e _].
  case_match; [by apply keeps_ret|].
  eapply keeps_bind; [by apply keeps_framed; solve_framed|intros w _].
  eapply keeps_bind with (Q := any); [|intros _ _; by apply keeps_ret].
  apply keeps_mutate_commitment. intros c_ Hc. apply keeps_read; [solve_framed|].
  intros s a s' Hok Hr. unfold mutate_weights in Hr. run_ok Hr. done.
Qed.

Lemma keeps_accrue_with id pr d :
  stake_ok d.(dl_stake) ->
  keeps (fun d' => deleg_amount d' = deleg_amount d /\ stake_ok d'.(dl_stake)) (accrue_with id pr d).
Proof.
  intros Hd s a s' Hok Hr. unfold accrue_with in Hr. run_ok Hr.
  match goal with H : sanitize_delegation _ ?d' _ = _ |- _ =>
    destruct (fun H' => keeps_sanitize id d' H' _ _ _ Hok H) as (? & ? & ? & ?) end; [|done].
  unfold saturating_sub. solve_ok.
Qed.

Lemma keeps_accrue_delegator who id : keeps any (accrue_delegator who id).
Proof.
  unfold accrue_delegator.
  eapply keeps_bind; [by apply keeps_framed; solve_framed|intros c_ _].
  eapply keeps_bind; [by apply keeps_framed; solve_framed|intros c _].
  apply keeps_mutate_delegation. intros d_ Hd.
  destruct d_ as [d|]; [|intros s a s' _ Hr; inv_ok Hr]. simpl in Hd.
  eapply keeps_bind with (Q := fun d' => d' = d); [by intros s a s' ? Hr; inv_ok Hr|].
  intros ? ->. case_match; [|by apply keeps_ret].
  eapply keeps_bind; [by apply keeps_accrue_with|]. intros d' ?. by apply keeps_ret.
Qed.

(** ** Slashes of a delegation *)
(** A step on one delegation, whose commitment is rewritten on the way. *)
Lemma delegation_step b who id s s' c c' o t dt :
  core s' = (<[id := c']> s.(commitments), put_opt (who, id) o s.(delegations), t, dt) ->
  stakes_ok s -> s.(commitments) !! id = Some c -> same_c (Some c) (Some c') ->
  from_option (fun d => stake_ok d.(dl_stake)) True o ->
  astep b (abs s) (mkLedger (abs s).(stakes) (put_opt (who, id) (deleg_amount <$> o) (abs s).(delegs))
                     t dt) ->
  asteps b (abs s) (abs s') /\ stakes_ok s'.
Proof.
  intros Hcore [Hoc Hod] Hc [Hcs Hcok] Ho Hst. injection Hcore as H1 H2 H3 H4.
  unfold abs at 2, stakes_ok. rewrite H1, H2, H3, H4. split.
  - rewrite fmap_insert, insert_id by (by rewrite lookup_fmap, Hc, Hcs). apply rtc_once.
    destruct o; simpl in *; by rewrite ?fmap_insert, ?fmap_delete.
  - split; [by apply map_Forall_insert_2|].
    destruct o; simpl; [by apply map_Forall_insert_2|by apply map_Forall_delete].
Qed.

Lemma reweigh_stake p d s r s' :
  reweigh_delegation p d s = (Ok r, s') -> r.1.(dl_stake) = d.(dl_stake).
Proof. unfold reweigh_delegation. intros Hr. by run_ok Hr. Qed.

Lemma sim_decrease_delegator_stake b who id amount :
  0 <= amount ->
  sim b (fun r => 0 <= r.1 /\ 0 <= r.2) (decrease_delegator_stake who id amount).
Proof.
  intros Ha s a s' Hok Hr. unfold decrease_delegator_stake, try_mutate_commitment,
    try_mutate_delegation, decrease_delegation, mutate_weights in Hr. run_ok Hr.
  all: match goal with
       | H1 : delegations ?s !! _ = Some ?d, H2 : commitments ?s !! _ = Some ?c |- _ =>
           pose proof (stakes_ok_lookup_d _ _ _ Hok H1) as (? & ? & ?);
           pose proof (stakes_ok_lookup_c _ _ _ Hok H2) as Hcok
       end.
  all: set (x := if _ <? amount then _ else amount) in *.
  all: assert (0 <= x <= st_amount (dl_stake a3)) by (unfold x; case_match; lia).
  all: apply and3; [|simpl; unfold saturating_sub; lia].
  all: eapply (delegation_step b who id s5); [reflexivity|done|done|by split| |].
  all: try match goal with H : reweigh_delegation _ _ _ = _ |- _ => apply reweigh_stake in H; simpl in H end.
  all: simpl; unfold deleg_amount, stake_ok;
    try match goal with H : dl_stake _ = _ |- _ => rewrite H end; simpl;
    unfold saturating_sub; rewrite ?Z.max_r by lia; try lia.
  all: refine (a_slash_deleg b (abs s5) who id _ x _ _ _ _); [by apply deleg_lookup|done|done|done].
Qed.

Lemma sim_apply_delegator_slash b who id : sim b (fun r => 0 <= r) (apply_delegator_slash who id).
Proof.
  unfold apply_delegator_slash.
  eapply sim_bind; [apply keeps_sim, keeps_accrue_delegator|intros _ _].
  eapply sim_bind with (Q := from_option (fun d => stake_ok d.(dl_stake)) True).
  { apply sim_gets. intros s Hok. destruct (s.(delegations) !! (who, id)) eqn:E; [|done].
    by eapply stakes_ok_lookup_d. }
  intros d_ Hd. eapply sim_bind; [by apply sim_ok_or|]. simpl. intros d (? & ? & ?).
  case_match; [by apply sim_ret|].
  eapply sim_bind; [by apply sim_decrease_delegator_stake|]. intros [slashed rest] [? ?]; simpl in *.
  eapply sim_bind; [by apply sim_framed; solve_framed|intros credit _].
  eapply sim_bind; [by apply sim_framed; solve_framed|intros _ _].
  eapply sim_bind with (Q := any); [|intros _ _; by apply sim_ret].
  apply keeps_sim, keeps_mutate_delegation. intros d_' Hd'. apply keeps_read; [solve_framed|].
  intros s a s' Hok Hr. run_ok Hr. solve_ok.
Qed.

Lemma sim_withdraw_delegator_accrued b who id :
  sim b (fun r => 0 <= r) (withdraw_delegator_accrued who id).
Proof.
  unfold withdraw_delegator_accrued.
  eapply sim_bind; [apply sim_apply_delegator_slash|intros _ _].
  apply keeps_sim, keeps_mutate_delegation. intros d_ Hd. apply keeps_read; [solve_framed|].
  intros s a s' Hok Hr. run_ok Hr. solve_ok.
Qed.

Lemma sim_withdraw_delegation_for b who id :
  sim b (fun r => 0 <= r) (withdraw_delegation_for who id).
Proof.
  unfold withdraw_delegation_for. eapply sim_bind; [apply sim_withdraw_delegator_accrued|].
  intros r Hr. eapply sim_bind; [apply keeps_sim, keeps_pay_reward|]. intros _ _. by apply sim_ret.
Qed.

Lemma sim_cooldown_delegation_for b who id : sim b any (cooldown_delegation_for who id).
Proof.
  unfold cooldown_delegation_for.
  eapply sim_bind; [apply sim_apply_delegator_slash|intros _ _].
  eapply sim_bind; [by apply sim_framed; solve_framed|intros e _].
  apply keeps_sim, keeps_mutate_commitment. intros [c|] Hc; [|intros s a s' _ Hr; inv_ok Hr].
  eapply keeps_bind with (Q := fun c' => c' = c); [by intros s a s' ? Hr; inv_ok Hr|intros ? ->].
  eapply keeps_bind; [by apply keeps_framed; solve_framed|intros cs _].
  eapply keeps_bind; [by apply keeps_framed; solve_framed|intros cb _].
  eapply keeps_bind with (Q := fun c' => same_c (Some c) (Some c'));
    [|intros c' Hc'; by apply keeps_ret].
  apply keeps_mutate_delegation. intros d_ Hd. apply keeps_read; [solve_framed|].
  intros s a s' Hok Hr. unfold cooldown_delegation_in, mutate_weights in Hr. run_ok Hr.
  solve_ok.
Qed.

(** ** Committers *)
Lemma sim_stake_for b who amount period commission auto_ :
  is_perbill commission -> 0 <= amount ->
  sim b any (stake_for who amount period commission auto_).
Proof.
  intros Hcm Ha s u s' Hok Hr. unfold stake_for, try_mutate_commitment in Hr. run_ok Hr.
  all: rewrite abs_write_commitment; split_and!;
    [apply rtc_once; refine (a_open_stake b (abs _) _ amount _ _ _); [|done|done]
    |apply stakes_ok_commitment; [done|]; split; [done|]; repeat split; simpl; done
    |done].
  all: unfold abs; simpl; rewrite lookup_fmap; somes; simpl; try done.
  all: repeat match goal with H : commitments _ !! _ = _ |- _ => rewrite H end; simpl; try done.
  unfold stake_amount. by repeat match goal with H : cm_stake _ = _ |- _ => rewrite H end.
Qed.

(** Both steps on the stake of a commitment: the write of the commitment and of
    the total stake. *)
Lemma commitment_step b id s s1 c c' t :
  stakes_ok s -> s.(commitments) !! id = Some c -> commitment_ok c' ->
  astep b (abs s) (mkLedger (<[id := stake_amount c']> (abs s).(stakes)) (abs s).(delegs) t
                     (abs s).(dtotal)) ->
  core s1 = (s.(commitments), s.(delegations), t, s.(delegator_total)) ->
  asteps b (abs s) (abs (write_commitment id (Some c') s1)) /\
  stakes_ok (write_commitment id (Some c') s1).
Proof.
  intros Hok Hc Hcok Hst Hcore. injection Hcore as H1 H2 H3 H4. split.
  - rewrite abs_write_commitment. unfold abs at 2 3 4 5; simpl. rewrite H1, H2, H3, H4.
    by apply rtc_once.
  - apply stakes_ok_commitment; [|done]. unfold stakes_ok. by rewrite H1, H2.
Qed.

Lemma core_step b s s1 s' :
  core s' = core s1 -> asteps b (abs s) (abs s1) /\ stakes_ok s1 ->
  asteps b (abs s) (abs s') /\ stakes_ok s'.
Proof. intros Hc [? ?]. rewrite (core_abs _ _ Hc). split; [done|by eapply core_ok]. Qed.

Lemma change_commission_ok id c com s c' s' :
  change_commission id c com s = (Ok c', s') -> core s' = core s /\ c' = set_cm_commission com c.
Proof. unfold change_commission. intros Hr. by run_ok Hr. Qed.

Lemma mutate_weights_ok c e f s c' s' :
  mutate_weights c e f s = (Ok c', s') ->
  s' = s /\ exists w, MemoryBuffer.mutate c.(cm_weights) e f = Some w /\ c' = set_cm_weights w c.
Proof. unfold mutate_weights. intros Hr. run_ok Hr. eauto. Qed.

Definition same_accrued (st st' : Stake) : Prop :=
  st'.(st_accrued_reward) = st.(st_accrued_reward) /\ st'.(st_accrued_slash) = st.(st_accrued_slash).

Lemma sim_stake_more_for b who extra period commission auto_ :
  from_option is_perbill True commission -> 0 <= extra ->
  sim b any (stake_more_for who extra period commission auto_).
Proof.
  intros Hcm He s u s' Hok Hr. unfold stake_more_for, try_mutate_commitment in Hr. inv_ok Hr.
  match goal with
  | H1' : (match commission with _ => _ end) _ = _, H2' : (if extra =? 0 then _ else _) _ = _,
    H3' : (match period with _ => _ end) _ = (Ok _, ?s), H4' : mutate_weights _ _ _ ?s = _,
    H5' : (if _ || _ then _ else _) _ = _ |- _ =>
      rename H1' into H1, H2' into H2, H3' into H3, H4' into H4, H5' into H5
  end.
  rename select (commitments _ !! _ = Some _) into Hc. rename select (cm_stake _ = Some _) into Hst.
  destruct (stakes_ok_lookup_c _ _ _ Hok Hc) as [Hp Hs].
  assert (core s7 = core s4 /\ cm_stake a3 = cm_stake a2 /\ is_perbill (cm_commission a3))
    as (Hc1 & Hst1 & Hp1).
  { destruct commission; [|by inv_ok H1]. by apply change_commission_ok in H1 as [? ->]. }
  rewrite <-Hst1, Hst in Hs. destruct Hs as (? & ? & ?).
  assert (core s8 = core s7 /\ st_amount a6 = st_amount a4 + extra /\ same_accrued a4 a6)
    as (Hc2 & Ha2 & Hr2 & Hl2).
  { destruct (Z.eqb_spec extra 0); inv_ok H2; split_and!; done || lia. }
  assert (s10 = s8 /\ st_amount a7 = st_amount a6 /\ same_accrued a6 a7) as (-> & Ha3 & Hr3 & Hl3).
  { destruct period; by inv_ok H3. }
  apply mutate_weights_ok in H4 as (-> & w & _ & ->).
  assert (s3 = set_total_stake (total_stake s8 + extra) s8) as ->.
  { refine (read_only_eq _ _ _ _ _ H5). solve_framed. }
  rewrite Hc1 in Hc2. pose proof Hc2 as [= E1 E2 E3 E4].
  apply and3; [|done]. eapply commitment_step; [done|done| | |].
  - split; [done|]. simpl. destruct auto_; split_and!; simpl; lia.
  - assert (forall st, stake_amount (set_cm_weights w (set_cm_stake (Some st) a3)) = st_amount st)
      as -> by done.
    assert (forall st : option bool, st_amount (match st with Some b => set_st_allow_auto_compound b a7
                                        | None => a7 end) = st_amount a7) as -> by (by intros []).
    rewrite Ha3, Ha2. refine (a_raise_stake b (abs _) _ _ extra _ He _).
    + erewrite stake_lookup by done. unfold stake_amount. by rewrite <-Hst1, Hst.
    + simpl. congruence.
  - unfold core; simpl. congruence.
Qed.

(** A committer's stake is cut at zero, so this is a step of the weak ledger only. *)
Lemma sim_decrease_committer_stake who id amount :
  0 <= amount -> sim false any (decrease_committer_stake who id amount).
Proof.
  intros Ha s a s' Hok Hr.
  unfold decrease_committer_stake, try_mutate_commitment, mutate_weights in Hr. run_ok Hr.
  rename select (commitments _ !! _ = Some _) into Hc. rename select (cm_stake _ = Some _) into Hst.
  destruct (stakes_ok_lookup_c _ _ _ Hok Hc) as [Hp Hs]. rewrite Hst in Hs. destruct Hs as (?&?&?).
  apply and3; [|done]. eapply commitment_step; [done|done| | |done].
  - split; [done|]. unfold saturating_sub. split_and!; simpl; lia.
  - refine (a_slash_stake false (abs _) _ _ amount _ _ _); [|done|done].
    erewrite stake_lookup by done. unfold stake_amount. by rewrite Hst.
Qed.

Lemma sim_compound_committer b who id : sim b any (compound_committer who id).
Proof.
  unfold compound_committer. eapply sim_bind; [apply keeps_sim, keeps_withdraw_committer_for|].
  intros r Hr. eapply sim_bind; [by apply sim_stake_more_for|]. intros _ _. by apply sim_ret.
Qed.

(** Closing writes the commitment first and the total afterwards. *)
Lemma sim_end_commitment_for b who id check : sim b any (end_commitment_for who id check).
Proof.
  unfold end_commitment_for.
  eapply sim_bind; [by apply sim_framed; solve_framed|intros cb _].
  eapply sim_bind; [by apply sim_framed; solve_framed|intros e _].
  eapply sim_bind; [apply keeps_sim, keeps_withdraw_committer_for|intros r _].
  intros s a s' Hok Hr. unfold try_mutate_commitment, clear_compute_commitments in Hr. run_ok Hr.
  all: rename select (commitments _ !! _ = Some _) into Hc; rename select (cm_stake _ = Some _) into Hst.
  all: ext_eqs; apply and3; [|done].
  all: destruct (stakes_ok_lookup_c _ _ _ Hok Hc) as [Hp _].
  all: eapply core_step; [|eapply (commitment_step b id s4 (set_total_stake (total_stake s4 - st_amount a2) s4));
         [done|done| | |done]]; [reflexivity|split; [exact Hp|done]|].
  all: refine (a_close_stake b (abs _) _ _ _ _); [|done].
  all: erewrite stake_lookup by done; unfold stake_amount; by rewrite Hst.
Qed.

(** ** Delegations *)
Lemma sim_delegate_for b who id amount period auto_ :
  0 <= amount -> sim b any (delegate_for who id amount period auto_).
Proof.
  intros Ha s a s' Hok Hr.
  unfold delegate_for, try_mutate_commitment, delegate_in, mutate_weights in Hr. run_ok Hr.
  rename select (commitments _ !! _ = Some _) into Hc. rename select (cm_stake _ = Some _) into Hst.
  pose proof (stakes_ok_lookup_c _ _ _ Hok Hc) as Hcok. apply and3; [|done].
  eapply (delegation_step b who id s9); [reflexivity|done|done|by split| |]; [by repeat split|].
  refine (a_open_deleg b (abs s9) who id amount _ Ha _ _); [|done|done].
  simpl. rewrite lookup_fmap. rename select (is_none (delegations _ !! _) = true) into Hd.
  apply is_none_None in Hd. by rewrite Hd.
Qed.

Lemma sim_end_delegation_in b who id check kick cb e :
  sim b any (try_mutate_commitment id (end_delegation_in who id check kick cb e)).
Proof.
  intros s a s' Hok Hr. unfold try_mutate_commitment, end_delegation_in, try_mutate_delegation,
    mutate_weights in Hr. run_ok Hr.
  all: ext_eqs; rename select (commitments _ !! _ = Some _) into Hc;
    rename select (delegations _ !! _ = Some _) into Hd.
  all: pose proof (stakes_ok_lookup_c _ _ _ Hok Hc) as Hcok; apply and3; [|done].
  all: eapply (delegation_step b who id); [reflexivity|exact Hok|exact Hc|by split|done|].
  all: refine (a_close_deleg b (abs _) who id _ _ _ _); [by apply deleg_lookup|done|done].
Qed.

Lemma sim_end_delegation_for b who id check kick :
  sim b (fun r => 0 <= r) (end_delegation_for who id check kick).
Proof.
  unfold end_delegation_for.
  eapply sim_bind; [by apply sim_framed; solve_framed|intros cb _].
  eapply sim_bind; [by apply sim_framed; solve_framed|intros e _].
  eapply sim_bind; [apply sim_withdraw_delegation_for|intros r Hr].
  eapply sim_bind; [apply sim_end_delegation_in|intros _ _]. by apply sim_ret.
Qed.

Lemma sim_get_delegation b who id :
  sim b (from_option (fun d => stake_ok d.(dl_stake)) True)
    (gets (fun s => s.(delegations) !! (who, id))).
Proof.
  apply sim_gets. intros s Hok. destruct (s.(delegations) !! (who, id)) eqn:E; [|done].
  by eapply stakes_ok_lookup_d.
Qed.

(** A step that changes nothing the ledger can see. *)
Ltac sim_skip := eapply sim_bind; [by apply sim_framed; solve_framed|intros ? _].

Lemma sim_delegate_more_for b who id extra period auto_ :
  0 <= extra -> sim b any (delegate_more_for who id extra period auto_).
Proof.
  intros He. unfold delegate_more_for.
  eapply sim_bind; [apply sim_get_delegation|intros d_ Hd].
  eapply sim_bind; [by apply sim_ok_or|intros d (Ha & _ & _); simpl in Ha].
  do 5 sim_skip.
  eapply sim_bind with (Q := fun a => 0 <= a).
  { intros s x s' Hok Hr. run_ok Hr. split_and!; [done|done|lia]. }
  intros amount Hamount. sim_skip.
  eapply sim_bind; [apply sim_end_delegation_for|intros r Hr].
  sim_skip. by apply sim_delegate_for.
Qed.

Lemma sim_compound_delegator b who id : sim b any (compound_delegator who id).
Proof.
  unfold compound_delegator. eapply sim_bind; [apply sim_withdraw_delegation_for|intros r Hr].
  eapply sim_bind; [by apply sim_delegate_more_for|intros _ _]. by apply sim_ret.
Qed.

Lemma sim_redelegate_for b who old new : sim b any (redelegate_for who old new).
Proof.
  unfold redelegate_for.
  eapply sim_bind; [apply sim_get_delegation|intros d_ Hd].
  eapply sim_bind; [by apply sim_ok_or|intros d (Ha & _ & _); simpl in Ha].
  do 7 sim_skip.
  eapply sim_bind; [apply sim_end_delegation_for|intros r Hr].
  sim_skip. by apply sim_delegate_for.
Qed.

Lemma split_slash_nonneg w t s r s' : split_slash w t s = (Ok r, s') -> 0 <= r.1.
Proof. unfold split_slash. intros Hr. run_ok Hr; unfold saturated_into; lia. Qed.

Lemma sim_do_slash id who : sim false any (do_slash id who).
Proof.
  unfold do_slash. do 11 sim_skip. case_match; [by apply sim_ret|].
  eapply sim_bind with (Q := fun r => 0 <= r.1).
  { intros s r s' Hok Hr. frame_eqs. split_and!; [done|done|by eapply split_slash_nonneg]. }
  intros [self inc] Hself; simpl in Hself. do 2 sim_skip.
  eapply sim_bind with (Q := any).
  { case_match; [by apply sim_ret|by apply sim_decrease_committer_stake]. }
  intros _ _. sim_skip.
  apply keeps_sim, keeps_mutate_commitment. intros c_ Hc. apply keeps_read; [solve_framed|].
  intros s x s' Hok Hr. run_ok Hr. all: destruct Hc; split; [split; [done|by split]|done].
Qed.
End simulation.
