(* ===== verification/StakingSpecs.v ===== *)
(** What staking guarantees: the storage refines the abstract ledger along every
    run of the chain, its totals are the sums of the positions, and funds leave
    only after their cooldown.  The first part is the simulation of the functions of
    the pallet that [StakingSim.v] does not have. *)
From S2P Require Import Prelude Perthings Buffers ComputeTypes ComputePools Rewards Staking.
From S2P Require Import Delegation ComputeMetrics ComputeCalls Reference Frames StakeLedger StakingSim.

Section invariant.
Context {P : Perthings} {PL : PerthingsLaws P} {C : Config} {X : Externals}.
Notation MC := (M State Error).
Implicit Types s : State.

(** ** The functions that never touch a stake *)
Lemma fr_deposit_event e : framed core (deposit_event e).
Proof. unfold deposit_event. solve_framed. Qed.
Hint Resolve fr_deposit_event : framed.

Lemma fr_validate_metrics id l : framed core (validate_max_metric_store_commitments id l).
Proof. unfold validate_max_metric_store_commitments, validate_metric_commitment. solve_framed. Qed.
Lemma fr_on_initialize b : framed core (on_initialize b).
Proof.
  unfold on_initialize, on_new_epoch, advance_epoch, store_metrics_reward,
    store_staked_compute_reward, store_collators_reward, div_or_panic, mod_or_panic. solve_framed.
Qed.
Lemma fr_initialize_block b : framed core (initialize_block b).
Proof. unfold initialize_block. solve_framed. apply fr_on_initialize. Qed.
Lemma fr_do_create_pool n r c : framed core (do_create_pool n r c).
Proof. unfold do_create_pool. solve_framed. Qed.
Lemma fr_update_sums m p x e b : framed core (update_metrics_epoch_sum m p x e b).
Proof. unfold update_metrics_epoch_sum. solve_framed. Qed.
Hint Resolve fr_validate_metrics fr_do_create_pool fr_update_sums : framed.
Lemma fr_commit_new_metrics p m l a c : framed core (commit_new_metrics p m l a c).
Proof. unfold commit_new_metrics, commit_new_metric, insert_metric. solve_framed. Qed.
Lemma fr_reuse_metrics p m a c : framed core (reuse_metrics p m a c).
Proof. unfold reuse_metrics, reuse_metric, insert_metric. solve_framed. Qed.
Lemma fr_score l e id c x : framed core (score l e id c x).
Proof. unfold score, pool_score. solve_framed. Qed.
Lemma fr_modify_pool_entry i n r c e p : framed core (modify_pool_entry i n r c e p).
Proof. unfold modify_pool_entry. solve_framed. Qed.
Lemma fr_take_offer w : framed core (take_backing_offer w).
Proof. unfold take_backing_offer. solve_framed. Qed.
Lemma fr_release m : framed core (release_backing m).
Proof. unfold release_backing. solve_framed. Qed.
Lemma fr_get_or_create w : framed core (do_get_or_create_commitment_id w).
Proof. unfold do_get_or_create_commitment_id. solve_framed. Qed.
Hint Resolve fr_commit_new_metrics fr_reuse_metrics fr_score fr_modify_pool_entry fr_take_offer
  fr_release fr_get_or_create : framed.

(** ** The heartbeat

    [distribute] keeps what it has written when it fails, so its frame is stated
    for every outcome. *)
Definition dist_inv (k : gmap Z Commitment * gmap (Z * Z) Delegation * Z * gmap Z Z) (a : Z)
  (d : DistState) : Prop :=
  core d.(ds_state) = k /\ d.(ds_stake).(st_amount) = a /\ stake_ok d.(ds_stake).

Lemma pres_split_reward k a w commission r :
  is_perbill commission ->
  pres (dist_inv k a) (fun x => 0 <= x.1) (split_reward w commission r).
Proof.
  intros Hc s o s' Hi Hr.
  assert (framed (fun d : DistState => d) (split_reward w commission r)) as Hf.
  { unfold split_reward, mul_d, div_d. solve_framed. }
  pose proof (Hf _ _ _ Hr) as ->. split; [done|].
  destruct o as [x|e|]; [|done..]. unfold split_reward, mul_d, div_d in Hr. inv_ok Hr.
  match goal with |- context [pb_mul_floor commission ?x] =>
    pose proof (pb_mul_floor_range commission x Hc) end.
  unfold saturated_into in *. lia.
Qed.

Lemma pres_ok_or_any {S A} (I : S -> Prop) (o : option A) (e : Error) :
  pres I (fun _ => True) (ok_or o e).
Proof. apply pres_ok_or. by destruct o. Qed.

(** A step that reads, or that changes what the invariant does not mention. *)
Ltac pres_skip :=
  eapply (pres_bind _ (fun _ => True));
    [by first [apply pres_ok_or_any | apply pres_gets | apply pres_modify] | intros ? _].

Lemma pres_distribute_pool k a e id w commission pool :
  is_perbill commission ->
  pres (dist_inv k a) (fun _ => True) (distribute_pool e id w commission pool).
Proof.
  intros Hc. unfold distribute_pool, mul_d, div_d.
  pres_skip. case_match; [by apply pres_modify|].
  pres_skip. destruct a1 as [sc scb]. do 7 pres_skip.
  eapply pres_bind; [by apply pres_split_reward|]. intros [self dele] Hself; simpl in Hself.
  eapply pres_bind with (Q := fun st => 0 <= st.(st_accrued_reward)).
  { by apply pres_gets; intros s (_ & _ & _ & ? & _). }
  intros st Hst. eapply pres_bind with (Q := fun x => 0 <= x).
  { apply pres_ok_or. unfold checked_add. case_match; simpl; lia. }
  intros acc Hacc. eapply pres_bind with (Q := fun _ => True).
  { apply pres_modify; [|done]. intros d (? & ? & ? & ? & ?). by repeat split. }
  intros _ _. do 3 pres_skip. by apply pres_modify.
Qed.

(** The commitment that the heartbeat hands to [distribute], before and after. *)
Definition dist_outer k (a : Z) (sc : State * Commitment) : Prop :=
  core sc.1 = k /\ stake_amount sc.2 = a /\ commitment_ok sc.2.

Lemma pres_distribute_pools k a e id w st pools :
  st.(st_amount) = a -> stake_ok st ->
  pres (dist_outer k a) (fun _ => True) (distribute_pools e id w st pools).
Proof.
  intros Ha Hst [s c] r [s' c'] (Hk & Hc & Hp & Hs) Hr. simpl in *. unfold distribute_pools in Hr.
  destruct (mfor _ _ _) as [o d] eqn:Em.
  assert (pres (dist_inv k a) (fun _ => True)
            (mfor pools (distribute_pool e id w (cm_commission c)))) as Hd.
  { apply pres_mfor. intros p. by apply pres_distribute_pool. }
  destruct (Hd (mkDist s st 0 0) o d) as [(Hk' & Ha' & Hst') _]; [by split_and!|done|]. injection Hr as <- <- <-.
  split; [|by destruct o]. split; [exact Hk'|]. split; [exact Ha'|by split].
Qed.

Lemma pres_distribute k a e id pools :
  pres (dist_outer k a) (fun _ => True) (distribute e id pools).
Proof.
  unfold distribute. eapply pres_bind with (Q := fun c => stake_amount c = a /\ commitment_ok c).
  { apply pres_gets. intros sc (_ & H1 & H2). exact (conj H1 H2). }
  intros c [Ha [Hp Hs]]. eapply pres_bind with (Q := fun st => st_amount st = a /\ stake_ok st).
  { apply pres_ok_or. unfold stake_amount in Ha. destruct (cm_stake c); by simplify_eq/=. }
  intros st [Hst Hst']. eapply pres_bind; [by apply pres_distribute_pools|].
  intros [st1 [tot bonus]] _. eapply pres_bind with (Q := fun _ => True); [|by intros; apply pres_ret].
  case_match; [|by apply pres_ret]. do 4 pres_skip.
  apply pres_modify; [|done]. intros sc (? & ? & ? & ?). split; [done|split; [done|by split]].
Qed.

Lemma keeps_run_distribute e id pools c :
  commitment_ok c ->
  keeps (fun r => stake_amount r.1 = stake_amount c /\ commitment_ok r.1) (run_distribute e id pools c).
Proof.
  intros Hc s r s' Hok Hr. unfold run_distribute in Hr.
  destruct (distribute _ _ _ _) as [o [s1 c1]] eqn:Ed.
  destruct (pres_distribute (core s) (stake_amount c) e id pools (s, c) o (s1, c1))
    as [(Hk & Ha & Hc1) _]; [by split_and!|done|]. simpl in *.
  assert (s' = s1 /\ r.1 = c1) as [-> ->] by (destruct o; by simplify_eq/=).
  rewrite (core_abs _ _ Hk). split_and!; [done|by eapply core_ok|done|done].
Qed.

Ltac keeps_skip := eapply keeps_bind; [by apply keeps_framed; solve_framed|intros ? _].

Lemma keeps_reward sums cy m pools t : keeps any (reward sums cy m pools t).
Proof.
  unfold reward. do 2 keeps_skip. case_match; [|by apply keeps_ret].
  eapply keeps_bind with (Q := any); [|intros; by apply keeps_ret].
  apply keeps_mutate_commitment. intros [c|] Hc; [|by apply keeps_ret].
  case_match; [by apply keeps_ret|]. eapply keeps_bind; [by apply keeps_run_distribute|].
  intros [c' bonus] [Ha Hok]. simpl in *. keeps_skip. by apply keeps_ret.
Qed.

(** The write of an item that is no part of the ledger. *)
Lemma keeps_try_mutate {A B} (Q : B -> Prop) (rd : State -> A) wr (f : A -> MC (A * B)) :
  (forall a s, core (wr a s) = core s) -> (forall a, keeps (fun r => Q r.2) (f a)) ->
  keeps Q (try_mutate rd wr f).
Proof.
  intros Hwr Hf s b s' Hok (r & s1 & H1 & <- & ->)%try_mutate_ok.
  destruct (Hf _ _ _ _ Hok H1) as (<- & Hok1 & HQ).
  rewrite (core_abs _ _ (Hwr r.1 s1)). split_and!; [done|exact (core_ok _ _ (Hwr r.1 s1) Hok1)|done].
Qed.

Lemma keeps_commit p m l : keeps any (commit p m l).
Proof.
  unfold commit. do 2 keeps_skip. eapply keeps_bind with (Q := any).
  { unfold do_commit. keeps_skip. apply keeps_try_mutate; [done|]. intros p_.
    do 2 keeps_skip. case_match; [by apply keeps_ret|]. keeps_skip. destruct (previous_sums _); [|by apply keeps_ret].
    eapply keeps_bind; [apply keeps_reward|intros; by apply keeps_ret]. }
  intros info _. keeps_skip. by apply keeps_ret.
Qed.

(** ** Extrinsics *)

(** Decoded arguments are in the range of their types. *)
Definition call_wf (call : Call) : Prop :=
  match call with
  | commit_compute_ amount _ _ commission _ => 0 <= amount /\ is_perbill commission
  | stake_more_ extra _ _ commission _ => 0 <= extra /\ from_option is_perbill True commission
  | delegate_ _ amount _ _ => 0 <= amount
  | delegate_more_ _ extra _ _ => 0 <= extra
  | create_pool_ _ reward _ => is_perquintill reward
  | modify_pool_ _ _ reward _ => from_option (fun x => is_perquintill x.2) True reward
  | _ => True
  end.

Definition is_slash (call : Call) : bool :=
  match call with slash_ _ => true | _ => false end.

Lemma sim_any b {A} (Q : A -> Prop) (m : MC A) : sim b Q m -> sim b any m.
Proof. intros Hm. by eapply sim_conseq. Qed.

(** Composes the simulations of the functions an extrinsic calls. *)
Create HintDb sim.
Hint Resolve sim_stake_for sim_stake_more_for sim_compound_committer sim_end_commitment_for
  sim_delegate_for sim_cooldown_delegation_for sim_end_delegation_for sim_withdraw_delegation_for
  sim_delegate_more_for sim_compound_delegator sim_redelegate_for sim_do_slash keeps_sim
  keeps_cooldown_commitment_for keeps_withdraw_committer_for : sim.
Ltac sim_calls :=
  repeat first
    [ by apply sim_framed; solve_framed
    | eapply sim_bind;
        [first [by apply sim_framed; solve_framed | by eapply sim_any; eauto with sim] | intros ? _]].

Lemma sim_dispatch origin call :
  call_wf call -> sim (negb (is_slash call)) any (dispatch origin call).
Proof.
  intros Hwf. destruct call; simpl in Hwf; simpl; apply sim_transaction; destruct_and?.
  all: try (by sim_calls).
  apply sim_framed. solve_framed. apply framed_try_mutate; [done|solve_framed].
Qed.

(** An extrinsic that does not succeed leaves the storage as it was. *)
Lemma dispatch_rollback origin call s r s' :
  dispatch origin call s = (r, s') -> r = Ok tt \/ s' = s.
Proof.
  intros Hr. assert ((exists u, r = Ok u) \/ s' = s) as [[[] ->]| ->]; [|by left|by right].
  destruct call; by eapply with_transaction_rollback.
Qed.

(** ** Runs of the chain

    A step is an extrinsic with its outcome, a heartbeat of a processor, the
    start of the next block, or any change of the other pallets.  [exact] leaves the
    slash extrinsic out. *)
Inductive step (exact : bool) (s s' : State) : Prop :=
| step_call origin call r :
    call_wf call -> (exact = true -> is_slash call = false) -> dispatch origin call s = (r, s') ->
    step exact s s'
| step_commit processor manager metrics v :
    commit processor manager metrics s = (Ok v, s') -> step exact s s'
| step_block : s.(block_number) < u32_max -> initialize_block (s.(block_number) + 1) s = (Ok tt, s') -> step exact s s'
| step_other x : s' = set_ext x s -> step exact s s'.

(** The storage before any stake was placed. *)
Definition no_stakes (s : State) : Prop := core s = (∅, ∅, 0, ∅).

Lemma step_refines exact s s' :
  stakes_ok s -> step exact s s' -> asteps exact (abs s) (abs s') /\ stakes_ok s'.
Proof.
  intros Hok [origin call r Hwf Hns Hr|processor manager metrics v Hr|_ Hr|x ->].
  - destruct (dispatch_rollback _ _ _ _ _ Hr) as [->| ->]; [|done].
    destruct (sim_dispatch _ _ Hwf _ _ _ Hok Hr) as (Hs & Hok' & _). split; [|done].
    destruct exact; [by rewrite (Hns eq_refl) in Hs|].
    destruct (is_slash call); [done|by apply asteps_weaken].
  - destruct (keeps_commit _ _ _ _ _ _ Hok Hr) as (-> & ? & _). done.
  - pose proof (fr_initialize_block _ _ _ _ Hr) as Hc. rewrite (core_abs _ _ Hc).
    split; [done|by eapply core_ok].
  - done.
Qed.

Lemma steps_refine exact s s' :
  rtc (step exact) s s' -> stakes_ok s -> asteps exact (abs s) (abs s') /\ stakes_ok s'.
Proof.
  induction 1 as [s|s s1 s' H1 _ IH]; intros Hok; [done|].
  destruct (step_refines _ _ _ Hok H1) as [? Hok1]. destruct (IH Hok1) as [? ?].
  split; [by etrans|done].
Qed.

Lemma no_stakes_inv exact s : no_stakes s -> stakes_ok s /\ ledger_inv exact (abs s).
Proof.
  unfold no_stakes, stakes_ok, abs. intros [= -> -> -> ->]. rewrite !fmap_empty.
  split; [split; apply map_Forall_empty|]. split; simpl.
  - by intros id a Hl.
  - by intros k a Hl.
  - unfold sum_stakes, sum_delegs; simpl. by rewrite !gsum_empty.
  - unfold sum_stakes, sum_delegs; simpl. by rewrite !gsum_empty.
  - unfold u128_max. lia.
  - intros who. unfold dtot, sum_delegs_of; simpl. by rewrite gsum_empty.
Qed.

Lemma reachable_inv exact s0 s :
  no_stakes s0 -> rtc (step exact) s0 s -> ledger_inv exact (abs s) /\ stakes_ok s.
Proof.
  intros H0 Hs. destruct (no_stakes_inv exact s0 H0) as [Hok Hinv].
  destruct (steps_refine _ _ _ Hs Hok) as [Ha Hok']. split; [by eapply asteps_inv|done].
Qed.
End invariant.

Section specs.
Context {P : Perthings} {PL : PerthingsLaws P} {C : Config} {X : Externals}.
Implicit Types s : State.

(** The positions that the totals summarise. *)
Definition staked (s : State) : Z := gsum (fun _ c => stake_amount c) s.(commitments).
Definition delegated (s : State) : Z := gsum (fun _ d => deleg_amount d) s.(delegations).
Definition delegated_by (s : State) (who : AccountId) : Z :=
  gsum (fun k d => if k.1 =? who then deleg_amount d else 0) s.(delegations).

(** C1: every run of the chain - extrinsics with any outcome, heartbeats, block
    hooks and arbitrary changes of the other pallets in any order - performs a
    sequence of the seven moves of the abstract ledger: amounts enter through
    staking and delegating, leave through ending and slashing, and the totals
    move with them. *)
Theorem staking_refines_ledger exact s s' :
  stakes_ok s -> rtc (step exact) s s' -> asteps exact (abs s) (abs s') /\ stakes_ok s'.
Proof. intros Hok Hs. by apply steps_refine. Qed.

(** C30: as long as nobody was slashed, the stored total stake is exactly the sum
    of all committer stakes and all delegations. *)
Theorem total_stake_is_sum s0 s :
  no_stakes s0 -> rtc (step true) s0 s -> s.(total_stake) = staked s + delegated s.
Proof.
  intros H0 Hs. destruct (reachable_inv _ _ _ H0 Hs) as [Hinv _].
  unfold staked, delegated. rewrite <-(gsum_fmap stake_amount (fun _ a => a)).
  rewrite <-(gsum_fmap deleg_amount (fun _ a => a)). by apply (inv_total_eq _ _ Hinv).
Qed.

(** with slashes too, the stored total of each delegator is exactly the sum of
    its delegations, no position is negative and the total stake never exceeds
    the sum of the positions. *)
Theorem delegator_totals_are_sums s0 s :
  no_stakes s0 -> rtc (step false) s0 s ->
  (forall who, get_delegator_total s who = delegated_by s who) /\
  (forall id c, s.(commitments) !! id = Some c -> 0 <= stake_amount c) /\
  (forall k d, s.(delegations) !! k = Some d -> 0 <= deleg_amount d) /\
  0 <= s.(total_stake) <= staked s + delegated s.
Proof.
  intros H0 Hs. destruct (reachable_inv _ _ _ H0 Hs) as [[Hsp Hdp Hle _ Hrg Hdt] _]. simpl in *.
  unfold staked, delegated, delegated_by. split_and!.
  - intros who. rewrite <-(gsum_fmap deleg_amount (fun k a => if k.1 =? who then a else 0)).
    apply Hdt.
  - intros id c Hc. apply (Hsp id). by rewrite lookup_fmap, Hc.
  - intros k d Hd. apply (Hdp k). by rewrite lookup_fmap, Hd.
  - lia.
  - rewrite <-(gsum_fmap stake_amount (fun _ a => a)), <-(gsum_fmap deleg_amount (fun _ a => a)).
    exact Hle.
Qed.
End specs.

(** ** The run of [Reference] is a run of the chain *)
#[local] Existing Instance small.

Definition is_ok {A} (o : outcome Error A) : bool := match o with Ok _ => true | _ => false end.

Fixpoint blocks_ok (n : nat) (s : State) : bool :=
  match n with
  | O => true
  | S n' => (s.(block_number) <? u32_max) && is_ok (result (initialize_block (s.(block_number) + 1)) s) &&
            blocks_ok n' (exec (initialize_block (s.(block_number) + 1)) s)
  end.

Lemma reach_blocks exact n s0 s :
  rtc (step exact) s0 s -> blocks_ok n s = true -> rtc (step exact) s0 (blocks n s).
Proof.
  revert s. induction n as [|n IH]; intros s Hs Hb; simpl in *; [done|].
  apply andb_true_iff in Hb as [[H0 H1]%andb_true_iff H2]. apply IH; [|done].
  eapply rtc_r; [exact Hs|]. apply step_block; [by apply Z.ltb_lt|]. unfold result, exec in *. destruct (initialize_block _ _) as [[[]| |] ?]; done.
Qed.

Lemma reach_call exact origin call s0 s :
  rtc (step exact) s0 s -> call_wf call -> is_slash call = false ->
  rtc (step exact) s0 (exec (dispatch origin call) s).
Proof.
  intros Hs Hwf Hns. eapply rtc_r; [exact Hs|]. eapply (step_call _ _ _ origin call); try done.
  apply surjective_pairing.
Qed.

Lemma reach_heartbeat exact s0 s :
  rtc (step exact) s0 s -> is_ok (result heartbeat s) = true ->
  rtc (step exact) s0 (exec heartbeat s).
Proof.
  intros Hs Hok. eapply rtc_r; [exact Hs|]. unfold result, exec in *.
  destruct (heartbeat s) as [[v| |] s'] eqn:E; [|done..]. by eapply step_commit.
Qed.

Lemma reach_delegated exact : rtc (step exact) genesis s_delegated.
Proof.
  unfold s_delegated, s_committed, s_backed.
  do 2 (apply reach_call; [|done|done]).
  apply reach_heartbeat; [|by_compute]. apply reach_blocks; [|by_compute].
  apply reach_heartbeat; [|by_compute]. do 2 (apply reach_call; [|done|done]).
  apply reach_call; [|by_compute|done]. apply reach_call; [|done|done].
  apply reach_blocks; [by apply rtc_refl|by_compute].
Qed.

Lemma staking_refines_ledger_witness :
  asteps true (abs genesis) (abs s_delegated) /\ stakes_ok s_delegated.
Proof.
  apply (staking_refines_ledger true genesis s_delegated); [|apply reach_delegated].
  split; apply map_Forall_empty.
Defined.

Lemma total_stake_is_sum_witness :
  s_delegated.(total_stake) = staked s_delegated + delegated s_delegated /\
  s_delegated.(total_stake) = 1500.
Proof.
  split; [|by_compute].
  apply (total_stake_is_sum genesis s_delegated); [done|apply reach_delegated].
Defined.

Lemma delegator_totals_are_sums_witness :
  (forall who, get_delegator_total s_delegated who = delegated_by s_delegated who) /\
  get_delegator_total s_delegated 3 = 500.
Proof.
  split; [|by_compute].
  apply (delegator_totals_are_sums genesis s_delegated); [done|apply reach_delegated].
Defined.
