(* ===== verification/Exits.v ===== *)
(** Exits from staking: what a position must have waited for before its funds
    are unlocked, and the ways in which a delegation can end. *)
From S2P Require Import Prelude Perthings Buffers ComputeTypes ComputePools Rewards Staking.
From S2P Require Import Delegation ComputeMetrics ComputeCalls Reference Frames StakeLedger StakingSim StakingSpecs.

Section exits.
Context {P : Perthings} {PL : PerthingsLaws P} {C : Config} {X : Externals}.
Notation MC := (M State Error).
Implicit Types s : State.

(** The part of the storage that decides about an exit: when positions were
    created and cooled down, and the time. *)
Definition stake_times (st : Stake) : BlockNumber * BlockNumber * option BlockNumber :=
  (st.(st_created), st.(st_cooldown_period), st.(st_cooldown_started)).
Definition commitment_times (c : Commitment) := stake_times <$> c.(cm_stake).
Definition delegation_times (d : Delegation) := stake_times d.(dl_stake).
Definition times (s : State) :=
  (commitment_times <$> s.(commitments), delegation_times <$> s.(delegations), s.(block_number)).

(** A successful run of [m] leaves the times alone. *)
Definition timeless {A} (Q : A -> Prop) (m : MC A) : Prop :=
  forall s a s', m s = (Ok a, s') -> times s' = times s /\ Q a.

Lemma timeless_framed {A} (m : MC A) : framed times m -> timeless any m.
Proof. intros Hf s a s' Hr. split; [by eapply Hf|done]. Qed.
Lemma timeless_ret {A} (Q : A -> Prop) a : Q a -> timeless Q (ret a).
Proof. intros Ha s r s' Hr. apply ret_ok in Hr as [<- ->]. done. Qed.
Lemma timeless_bind {A B} (Q : A -> Prop) (R : B -> Prop) (m : MC A) (k : A -> MC B) :
  timeless Q m -> (forall a, Q a -> timeless R (k a)) -> timeless R (bind m k).
Proof.
  intros Hm Hk s r s' (a & s1 & H1 & H2)%bind_ok. destruct (Hm _ _ _ H1) as [<- Ha]. by apply (Hk a).
Qed.
Lemma timeless_read {A} (Q : A -> Prop) (m : MC A) :
  framed times m -> (forall s a s', m s = (Ok a, s') -> Q a) -> timeless Q m.
Proof. intros Hf HQ s a s' Hr. split; [by eapply Hf|by eapply HQ]. Qed.

Lemma put_opt_fmap {K A B} `{Countable K} (g : A -> B) (m : gmap K A) k o :
  g <$> put_opt k o m = put_opt k (g <$> o) (g <$> m).
Proof. destruct o; simpl; [apply fmap_insert|apply fmap_delete]. Qed.
Lemma put_opt_same {K A} `{Countable K} (m : gmap K A) k : put_opt k (m !! k) m = m.
Proof. destruct (m !! k) eqn:E; simpl; [by apply insert_id|by apply delete_id]. Qed.

Lemma timeless_mutate_commitment {A} (Q : A -> Prop) id f :
  (forall c_, timeless (fun r => commitment_times <$> r.1 = commitment_times <$> c_ /\ Q r.2) (f c_)) ->
  timeless Q (try_mutate_commitment id f).
Proof.
  intros Hf s a s' (r & s1 & H1 & <- & ->)%try_mutate_ok. destruct (Hf _ _ _ _ H1) as (Ht & Hr & HQ).
  split; [|done]. rewrite <-Ht. unfold times, write_commitment; simpl.
  rewrite put_opt_fmap, Hr, <-lookup_fmap. injection Ht as <- _ _. by rewrite put_opt_same.
Qed.
Lemma timeless_mutate_delegation {A} (Q : A -> Prop) who id f :
  (forall d_, timeless (fun r => delegation_times <$> r.1 = delegation_times <$> d_ /\ Q r.2) (f d_)) ->
  timeless Q (try_mutate_delegation who id f).
Proof.
  intros Hf s a s' (r & s1 & H1 & <- & ->)%try_mutate_ok. destruct (Hf _ _ _ _ H1) as (Ht & Hr & HQ).
  split; [|done]. rewrite <-Ht. unfold times, write_delegation; simpl.
  rewrite put_opt_fmap, Hr, <-lookup_fmap. injection Ht as _ <- _. by rewrite put_opt_same.
Qed.

Ltac timeless_skip := eapply timeless_bind; [by apply timeless_framed; solve_framed|intros ? _].

Lemma timeless_sanitize id d :
  timeless (fun r => delegation_times r.1 = delegation_times d) (sanitize_delegation id d).
Proof.
  unfold sanitize_delegation. timeless_skip. case_match; [by apply timeless_ret|].
  timeless_skip. eapply timeless_bind with (Q := any); [|intros; by apply timeless_ret].
  apply timeless_mutate_commitment. intros c_. apply timeless_read; [solve_framed|].
  intros s r s' Hr. unfold mutate_weights in Hr. by run_ok Hr.
Qed.

Lemma timeless_accrue_delegator who id : timeless any (accrue_delegator who id).
Proof.
  unfold accrue_delegator. do 2 timeless_skip. apply timeless_mutate_delegation. intros d_.
  eapply timeless_bind with (Q := fun d => d_ = Some d); [by intros s r s' Hr; inv_ok Hr|].
  intros d ->. case_match; [|by apply timeless_ret].
  eapply timeless_bind with (Q := fun d' => delegation_times d' = delegation_times d).
  - unfold accrue_with. do 7 timeless_skip. eapply timeless_bind; [apply timeless_sanitize|].
    intros [d' b] Hd; simpl in *. do 4 timeless_skip. by apply timeless_ret.
  - intros d' Hd. apply timeless_ret. simpl. by rewrite Hd.
Qed.

Lemma timeless_decrease who id amount : timeless any (decrease_delegator_stake who id amount).
Proof.
  unfold decrease_delegator_stake. timeless_skip. apply timeless_mutate_commitment. intros c_.
  eapply timeless_bind with (Q := fun c => c_ = Some c); [by intros s r s' Hr; inv_ok Hr|].
  intros c ->. eapply timeless_bind with (Q := fun r => commitment_times r.1 = commitment_times c);
    [|intros r Hr; apply timeless_ret; simpl; by rewrite Hr].
  apply timeless_mutate_delegation. intros d_. apply timeless_read.
  - unfold decrease_delegation, update_total_stake, update_delegator_total. solve_framed.
  - intros s r s' Hr. unfold decrease_delegation, mutate_weights in Hr. run_ok Hr; try done.
    all: match goal with H : reweigh_delegation _ _ _ = _ |- _ => apply reweigh_stake in H; simpl in H end.
    all: unfold delegation_times; match goal with H : dl_stake _ = _ |- _ => by rewrite H end.
Qed.

Lemma timeless_apply_slash who id : timeless any (apply_delegator_slash who id).
Proof.
  unfold apply_delegator_slash. eapply timeless_bind; [apply timeless_accrue_delegator|intros _ _].
  do 2 timeless_skip. case_match; [by apply timeless_ret|].
  eapply timeless_bind; [apply timeless_decrease|]. intros [x y] _. do 2 timeless_skip.
  eapply timeless_bind with (Q := any); [|intros; by apply timeless_ret].
  apply timeless_mutate_delegation. intros d_. apply timeless_read; [solve_framed|].
  intros s r s' Hr. by run_ok Hr.
Qed.

Lemma timeless_withdraw_delegation who id : timeless any (withdraw_delegation_for who id).
Proof.
  unfold withdraw_delegation_for, withdraw_delegator_accrued.
  eapply timeless_bind with (Q := any);
    [|intros r _; timeless_skip; by apply timeless_ret].
  eapply timeless_bind; [apply timeless_apply_slash|intros _ _].
  apply timeless_mutate_delegation. intros d_. apply timeless_read; [solve_framed|].
  intros s r s' Hr. by run_ok Hr.
Qed.

(** The whole effect of a committer's withdrawal. *)
Lemma withdraw_committer_for_ok who id s r s' :
  withdraw_committer_for who id s = (Ok r, s') ->
  exists c st x, s.(commitments) !! id = Some c /\ c.(cm_stake) = Some st /\
    r = st.(st_accrued_reward) /\
    s' = set_ext x (write_commitment id (Some (set_cm_stake (Some
           (set_st_paid (saturating_add u128_max st.(st_paid) r) (set_st_accrued_reward 0 st))) c)) s).
Proof.
  unfold withdraw_committer_for, withdraw_committer_accrued, try_mutate_commitment. intros Hr.
  run_ok Hr. ext_eqs. eauto 10.
Qed.

Lemma times_commitment s s1 id c :
  times s1 = times s -> s1.(commitments) !! id = Some c ->
  exists c0, s.(commitments) !! id = Some c0 /\ commitment_times c = commitment_times c0.
Proof.
  intros [= Ht _ _] Hc. pose proof (f_equal (fun m => m !! id) Ht) as Hl. simpl in Hl.
  rewrite !lookup_fmap, Hc in Hl. destruct (s.(commitments) !! id) as [c0|]; [|done].
  apply (inj Some) in Hl. eauto.
Qed.
Lemma times_delegation s s1 k d :
  times s1 = times s -> s1.(delegations) !! k = Some d ->
  exists d0, s.(delegations) !! k = Some d0 /\ delegation_times d = delegation_times d0.
Proof.
  intros [= _ Ht _] Hd. pose proof (f_equal (fun m => m !! k) Ht) as Hl. simpl in Hl.
  rewrite !lookup_fmap, Hd in Hl. destruct (s.(delegations) !! k) as [d0|]; [|done].
  apply (inj Some) in Hl. eauto.
Qed.

Lemma times_present s s1 k :
  times s1 = times s -> is_Some (s.(delegations) !! k) -> is_Some (s1.(delegations) !! k).
Proof.
  intros [= _ Ht _] Hs. pose proof (f_equal (fun m => m !! k) Ht) as Hl. simpl in Hl.
  rewrite !lookup_fmap in Hl. destruct (s1.(delegations) !! k); [by eexists|].
  by destruct Hs as [d Hd]; rewrite Hd in Hl.
Qed.

(** The cooldown start of a delegation, its own or that of the commitment. *)
Definition cooling_since (st : Stake) (d : Delegation) (start : BlockNumber) : Prop :=
  st.(st_cooldown_started) = Some start \/ d.(dl_stake).(st_cooldown_started) = Some start.

(** What the check of [end_delegation_for] establishes, stated on the times. *)
Definition delegation_cooled (c : Commitment) (d : Delegation) (now : BlockNumber) : Prop :=
  forall st, c.(cm_stake) = Some st -> st.(st_created) <= d.(dl_stake).(st_created) ->
  exists start, cooling_since st d start /\
    Z.min (start + d.(dl_stake).(st_cooldown_period)) u32_max <= now.

Lemma check_delegation_cooldown_ok c d now s u s' :
  check_delegation_cooldown c d now s = (Ok u, s') -> delegation_cooled c d now.
Proof.
  intros Hr st Hst Hcr. unfold check_delegation_cooldown in Hr. rewrite Hst in Hr.
  apply Z.leb_le in Hcr. rewrite Hcr in Hr. clear Hcr. unfold cooling_since, saturating_add in *.
  destruct (st_cooldown_started st) as [cst|], (st_cooldown_started (dl_stake d)) as [dst|];
    inv_ok Hr; rename select (_ <=? _ = true) into Hle; apply Z.leb_le in Hle; try (by eauto).
  destruct (cst <? dst); eauto.
Qed.

Lemma delegation_cooled_times c c0 d d0 now :
  commitment_times c = commitment_times c0 -> delegation_times d = delegation_times d0 ->
  delegation_cooled c d now -> delegation_cooled c0 d0 now.
Proof.
  unfold delegation_cooled, cooling_since, commitment_times, delegation_times, stake_times.
  intros Hc [= H1 H2 H3] Hcool st0 Hst0 Hcr. rewrite Hst0 in Hc.
  destruct (cm_stake c) as [st|] eqn:Hst; simplify_eq/=.
  destruct (Hcool st eq_refl) as (start & Hs & Hle); [lia|]. exists start.
  rewrite <-H2, <-H3. split; [|done]. destruct Hs as [Hs|Hs]; [left|right]; congruence.
Qed.

Lemma end_delegation_in_ok who id check kick now e s u s' :
  try_mutate_commitment id (end_delegation_in who id check kick now e) s = (Ok u, s') ->
  exists c d, s.(commitments) !! id = Some c /\ s.(delegations) !! (who, id) = Some d /\
    (check = true -> delegation_cooled c d now) /\
    (kick = true -> forall st, c.(cm_stake) = Some st -> d.(dl_stake).(st_created) < st.(st_created)) /\
    s'.(delegations) = delete (who, id) s.(delegations) /\ s'.(block_number) = s.(block_number).
Proof.
  intros Hr. unfold try_mutate_commitment, end_delegation_in, try_mutate_delegation,
    mutate_weights in Hr. run_ok Hr.
  all: ext_eqs; eexists _, _; split; [done|split; [done|split; [|split; [|done]]]]; intros Hb; try done.
  all: try by eapply check_delegation_cooldown_ok.
  all: intros st' Hst'; simplify_eq/=; repeat match goal with
       | H : negb ?k = true |- _ => destruct k; simplify_eq/=
       | H : (_ <=? _) = false |- _ => apply Z.leb_gt in H
       end; try done.
Qed.

(** What the check establishes when it is made, and what any end of a delegation does. *)
Lemma end_delegation_for_ok who id check kick s r s' :
  end_delegation_for who id check kick s = (Ok r, s') ->
  exists c d, s.(commitments) !! id = Some c /\ s.(delegations) !! (who, id) = Some d /\
    (check = true -> delegation_cooled c d s.(block_number)) /\
    (kick = true -> forall st, c.(cm_stake) = Some st -> d.(dl_stake).(st_created) < st.(st_created)) /\
    s'.(delegations) !! (who, id) = None /\ s'.(block_number) = s.(block_number) /\
    (forall k, k <> (who, id) -> is_Some (s.(delegations) !! k) -> is_Some (s'.(delegations) !! k)).
Proof.
  unfold end_delegation_for. intros Hr. inv_ok Hr.
  rename select (withdraw_delegation_for _ _ _ = _) into Hw.
  rename select (try_mutate_commitment _ _ _ = _) into He.
  destruct (timeless_withdraw_delegation _ _ _ _ _ Hw) as [Ht _].
  destruct (end_delegation_in_ok _ _ _ _ _ _ _ _ _ He) as (c & d & Hc & Hd & Hcool & Hk & Hdel & Hnow).
  destruct (times_commitment _ _ _ _ Ht Hc) as (c0 & Hc0 & Htc).
  destruct (times_delegation _ _ _ _ Ht Hd) as (d0 & Hd0 & Htd).
  exists c0, d0. split_and!; [done|done| | | | |].
  - intros Hch. eapply delegation_cooled_times; [done|done|]. by apply Hcool.
  - intros Hkick st0 Hst0. unfold commitment_times, delegation_times, stake_times in *.
    rewrite Hst0 in Htc. destruct (cm_stake c) as [st|]; simplify_eq/=.
    specialize (Hk eq_refl st eq_refl). congruence.
  - rewrite Hdel. by rewrite lookup_delete_eq.
  - rewrite Hnow. by injection Ht.
  - intros k Hk' Hs. rewrite Hdel, lookup_delete_ne by done. by eapply times_present.
Qed.

(** ** Delegations that stay *)
(** A successful run of [m] keeps the delegation at [k]. *)
Definition stays {A} (k : AccountId * CommitmentId) (m : MC A) : Prop :=
  forall s a s', m s = (Ok a, s') -> is_Some (s.(delegations) !! k) -> is_Some (s'.(delegations) !! k).

Lemma stays_framed {A} k (m : MC A) : framed delegations m -> stays k m.
Proof. intros Hf s a s' Hr Hs. by rewrite (Hf _ _ _ Hr). Qed.
Lemma stays_bind {A B} k (m : MC A) (f : A -> MC B) :
  stays k m -> (forall a, stays k (f a)) -> stays k (bind m f).
Proof. intros Hm Hf s r s' (a & s1 & H1 & H2)%bind_ok Hs. eapply Hf; [done|]. by eapply Hm. Qed.
Lemma stays_timeless {A} k (m : MC A) : timeless any m -> stays k m.
Proof. intros Hm s a s' Hr Hs. destruct (Hm _ _ _ Hr) as [Ht _]. by eapply times_present. Qed.
Lemma stays_transaction {A} k (m : MC A) s :
  stays k m -> is_Some (s.(delegations) !! k) -> is_Some ((exec (with_transaction m) s).(delegations) !! k).
Proof.
  intros Hm Hs. unfold exec, with_transaction. destruct (m s) as [[a|e|] s'] eqn:E; simpl; [|done..].
  by eapply Hm.
Qed.
Lemma stays_case {A} k (b : bool) (m m' : MC A) : stays k m -> stays k m' -> stays k (if b then m else m').
Proof. by destruct b. Qed.

Ltac solve_delegs :=
  repeat first
    [ solve [eauto 3 with framed]
    | framed_step
    | progress unfold try_mutate_commitment
    | apply framed_try_mutate; [reflexivity|intros ?] ].
Ltac stays_skip := apply stays_bind; [apply stays_framed; solve [solve_delegs]|intros ?].

(** The delegation that [delegate_for] opens *)
Lemma delegate_for_ok who id amount period auto_ s u s' :
  delegate_for who id amount period auto_ s = (Ok u, s') ->
  s.(delegations) !! (who, id) = None /\
  exists d, s'.(delegations) = <[(who, id) := d]> s.(delegations) /\
    d.(dl_stake) = Stake_new amount s.(block_number) period auto_.
Proof.
  unfold delegate_for, try_mutate_commitment, delegate_in, mutate_weights. intros Hr. run_ok Hr.
  rename select (is_none (delegations _ !! _) = true) into Hd. apply is_none_None in Hd.
  split; [done|]. eauto.
Qed.
Lemma stays_delegate_for k who id amount period auto_ : stays k (delegate_for who id amount period auto_).
Proof.
  intros s u s' (_ & d & -> & _)%delegate_for_ok Hs.
  destruct (decide (k = (who, id))) as [->|]; [by rewrite lookup_insert_eq|by rewrite lookup_insert_ne].
Qed.

(** Whoever delegates more ends his delegation and makes a new one. *)
Lemma stays_delegate_more_for k who id extra period auto_ :
  stays k (delegate_more_for who id extra period auto_).
Proof.
  intros s u s' Hr Hs. unfold delegate_more_for in Hr. inv_ok Hr. frame_eqs.
  rename select (end_delegation_for _ _ _ _ _ = _) into He.
  rename select (delegate_for _ _ _ _ _ _ = _) into Hd.
  rename select (pay_reward _ _ _ = _) into Hp. apply (ext_eq _ _ _ _ (ext_pay_reward _ _)) in Hp as [x ->].
  apply end_delegation_for_ok in He as (c & d & _ & _ & _ & _ & _ & _ & Hk).
  apply delegate_for_ok in Hd as (_ & d' & -> & _). simpl.
  destruct (decide (k = (who, id))) as [->|]; [by rewrite lookup_insert_eq|].
  rewrite lookup_insert_ne by done. apply Hk; [done|].
  rename select ((match period with _ => _ end) _ = _) into Hp. destruct period; by inv_ok Hp.
Qed.

Lemma stays_cooldown k who id : stays k (cooldown_delegation_for who id).
Proof.
  unfold cooldown_delegation_for. apply stays_bind; [apply stays_timeless, timeless_apply_slash|intros ?].
  stays_skip. intros s u s' Hr Hs. unfold try_mutate_commitment, try_mutate_delegation,
    cooldown_delegation_in, mutate_weights in Hr. run_ok Hr. simpl.
  destruct (decide (k = (who, id))) as [->|]; [by rewrite lookup_insert_eq|by rewrite lookup_insert_ne].
Qed.

(** A delegation that is moved stays locked: the new one has its terms and starts now. *)
Definition moved (d : Delegation) (now : BlockNumber) (s : State) (who : AccountId) (id : CommitmentId) :=
  exists d', s.(delegations) !! (who, id) = Some d' /\
    d'.(dl_stake) = Stake_new d.(dl_stake).(st_amount) now d.(dl_stake).(st_cooldown_period)
                      d.(dl_stake).(st_allow_auto_compound).
(** It may be moved from a commitment that ends, or after the blocking period. *)
Definition may_move (c : Commitment) (d : Delegation) (now : BlockNumber) : Prop :=
  exists st, c.(cm_stake) = Some st /\ st.(st_created) <= d.(dl_stake).(st_created) /\
    (st.(st_cooldown_started) = None ->
     saturating_mul u32_max RedelegationBlockingPeriod Epoch
       <= saturating_sub now d.(dl_stake).(st_created)).

Lemma redelegate_for_ok who old new s u s' :
  redelegate_for who old new s = (Ok u, s') ->
  exists c d, s.(commitments) !! old = Some c /\ s.(delegations) !! (who, old) = Some d /\
    may_move c d s.(block_number) /\ moved d s.(block_number) s' who new /\
    (forall k, k <> (who, old) -> is_Some (s.(delegations) !! k) -> is_Some (s'.(delegations) !! k)).
Proof.
  intros Hr. unfold redelegate_for in Hr. inv_ok Hr. frame_eqs.
  rename select (end_delegation_for _ _ _ _ _ = _) into He.
  rename select (delegate_for _ _ _ _ _ _ = _) into Hd.
  rename select (pay_reward _ _ _ = _) into Hp. apply (ext_eq _ _ _ _ (ext_pay_reward _ _)) in Hp as [x ->].
  assert (s8 = s7 /\ (st_cooldown_started a5 = None ->
    saturating_mul u32_max RedelegationBlockingPeriod Epoch
      <= saturating_sub s7.(block_number) a0.(dl_stake).(st_created))) as [-> Hblock].
  { match goal with H : (if is_none _ then _ else _) _ = _ |- _ => rename H into Hb end.
    destruct (st_cooldown_started a5); simpl in Hb; inv_ok Hb; [done|].
    split; [done|]. intros _. by apply Z.leb_le. }
  apply end_delegation_for_ok in He as (c & d & Hc & Hd0 & _ & _ & _ & Hnow & Hk).
  apply delegate_for_ok in Hd as (Hnone & d' & Hdel & Hst). simpl in *.
  exists a4, a0. split_and!; [done|done| | |].
  - exists a5. split_and!; [done|by apply Z.leb_le|done].
  - exists d'. rewrite Hdel, lookup_insert_eq, Hst, Hnow. done.
  - intros k Hne Hs. rewrite Hdel. destruct (decide (k = (who, new))) as [->|].
    + by rewrite lookup_insert_eq.
    + rewrite lookup_insert_ne by done. by apply Hk.
Qed.

(** The calls that can end a delegation *)
Definition ends_delegation (call : Call) : bool :=
  match call with redelegate_ _ _ | end_delegation_ _ | kick_out_ _ _ => true | _ => false end.

Lemma delegs_deposit_event e : framed delegations (deposit_event e).
Proof. unfold deposit_event. solve_delegs. Qed.
Lemma delegs_update_total_stake c : framed delegations (update_total_stake c).
Proof. unfold update_total_stake. solve_delegs. Qed.
Lemma delegs_validate_metrics id l : framed delegations (validate_max_metric_store_commitments id l).
Proof. unfold validate_max_metric_store_commitments, validate_metric_commitment. solve_delegs. Qed.
Hint Resolve delegs_deposit_event delegs_update_total_stake delegs_validate_metrics : framed.
Lemma delegs_stake_for w a p c b : framed delegations (stake_for w a p c b).
Proof. unfold stake_for. solve_delegs. Qed.
Lemma delegs_stake_more_for w a p c b : framed delegations (stake_more_for w a p c b).
Proof. unfold stake_more_for, change_commission. solve_delegs. Qed.
Lemma delegs_withdraw_committer_for w id : framed delegations (withdraw_committer_for w id).
Proof. unfold withdraw_committer_for, withdraw_committer_accrued. solve_delegs. Qed.
Hint Resolve delegs_stake_for delegs_stake_more_for delegs_withdraw_committer_for : framed.
Lemma delegs_compound_committer w id : framed delegations (compound_committer w id).
Proof. unfold compound_committer. solve_delegs. Qed.
Lemma delegs_cooldown_commitment_for id : framed delegations (cooldown_commitment_for id).
Proof. unfold cooldown_commitment_for. solve_delegs. Qed.
Lemma delegs_end_commitment_for w id b : framed delegations (end_commitment_for w id b).
Proof. unfold end_commitment_for, clear_compute_commitments. solve_delegs. Qed.
Lemma delegs_do_slash id w : framed delegations (do_slash id w).
Proof. unfold do_slash, decrease_committer_stake. solve_delegs. Qed.
Lemma delegs_create_pool n r c : framed delegations (do_create_pool n r c).
Proof. unfold do_create_pool. solve_delegs. Qed.
Lemma delegs_modify_pool i n r c e p : framed delegations (modify_pool_entry i n r c e p).
Proof. unfold modify_pool_entry. solve_delegs. Qed.
Hint Resolve delegs_compound_committer delegs_cooldown_commitment_for delegs_end_commitment_for
  delegs_do_slash delegs_create_pool delegs_modify_pool : framed.

Lemma other_calls_keep_delegations origin call s k :
  ends_delegation call = false -> is_Some (s.(delegations) !! k) ->
  is_Some ((exec (dispatch origin call) s).(delegations) !! k).
Proof.
  intros Hc Hs. destruct call; try discriminate; simpl; apply stays_transaction; try done.
  all: try (apply stays_framed; unfold take_backing_offer, release_backing,
    do_get_or_create_commitment_id; solve [solve_delegs]).
  all: repeat stays_skip.
  - apply stays_bind; [apply stays_delegate_for|intros _]. apply stays_framed. solve_delegs.
  - apply stays_bind; [apply stays_cooldown|intros _]. apply stays_framed. solve_delegs.
  - apply stays_bind; [apply stays_timeless, timeless_withdraw_delegation|intros ?].
    apply stays_framed. solve_delegs.
  - apply stays_bind; [apply stays_delegate_more_for|intros _]. apply stays_framed. solve_delegs.
  - apply stays_bind; [|intros ?; apply stays_framed; solve_delegs].
    apply stays_bind; [apply stays_timeless, timeless_withdraw_delegation|intros ?].
    apply stays_bind; [apply stays_delegate_more_for|intros _]. apply stays_framed. solve_delegs.
Qed.

(** How a delegation [d] to a commitment [c] can end: its owner ends it, anyone kicks it
    out, or its owner moves it. *)
Inductive delegation_ending (s s' : State) (who : AccountId) (id : CommitmentId) (c : Commitment)
  (d : Delegation) : Origin -> Call -> Prop :=
| ended committer :
    commitment_id_for s.(ext) committer = Some id -> delegation_cooled c d s.(block_number) ->
    delegation_ending s s' who id c d (Signed who) (end_delegation_ committer)
| kicked_out signer committer :
    commitment_id_for s.(ext) committer = Some id ->
    (forall st, c.(cm_stake) = Some st -> d.(dl_stake).(st_created) < st.(st_created)) ->
    delegation_ending s s' who id c d (Signed signer) (kick_out_ who committer)
| redelegated old new new_id :
    commitment_id_for s.(ext) old = Some id -> commitment_id_for s.(ext) new = Some new_id ->
    may_move c d s.(block_number) -> moved d s.(block_number) s' who new_id ->
    delegation_ending s s' who id c d (Signed who) (redelegate_ old new).

Lemma commitment_id_of_ok who s id s' :
  commitment_id_of who s = (Ok id, s') <-> commitment_id_for s.(ext) who = Some id /\ s = s'.
Proof.
  unfold commitment_id_of. rewrite bind_ok. setoid_rewrite gets_ok. setoid_rewrite ok_or_ok. naive_solver.
Qed.
Lemma signed_origin_ok o s who s' : ensure_signed o s = (Ok who, s') -> o = Signed who /\ s' = s.
Proof. unfold ensure_signed. destruct o; intros Hr; by inv_ok Hr. Qed.
Lemma deposit_delegations e s u s' : deposit_event e s = (Ok u, s') -> s'.(delegations) = s.(delegations).
Proof. apply delegs_deposit_event. Qed.

Lemma dispatch_ending origin call s s' u who id d :
  dispatch origin call s = (Ok u, s') -> s.(delegations) !! (who, id) = Some d ->
  s'.(delegations) !! (who, id) = None ->
  exists c, s.(commitments) !! id = Some c /\ delegation_ending s s' who id c d origin call.
Proof.
  intros Hr Hd Hn. destruct (ends_delegation call) eqn:Hc.
  2:{ pose proof (other_calls_keep_delegations origin call s (who, id) Hc) as Hs.
      unfold exec in Hs. rewrite Hr, Hd in Hs. simpl in Hs. rewrite Hn in Hs. by destruct Hs; [eexists|]. }
  destruct call; try discriminate; unfold dispatch, redelegate, end_delegation, kick_out in Hr; rewrite with_transaction_ok in Hr;
    apply bind_ok in Hr as (signer & s1 & [-> ->]%signed_origin_ok & Hr);
    apply bind_ok in Hr as (id1 & s1 & [Hid <-]%commitment_id_of_ok & Hr).
  - apply bind_ok in Hr as (id2 & s1 & [Hid2 <-]%commitment_id_of_ok & Hr).
    apply bind_ok in Hr as (v & s1 & He & Hdep). pose proof (deposit_delegations _ _ _ _ Hdep) as Hdd.
    apply redelegate_for_ok in He as (c & d1 & Hcm & Hd1 & Hm & Hmv & Hk).
    destruct (decide ((who, id) = (signer, id1))) as [[= -> ->]|Hne].
    + simplify_eq. exists c. split; [done|]. econstructor; try done. unfold moved in *. by rewrite Hdd.
    + destruct (Hk (who, id)) as [? Hx]; [done|by eexists|]. rewrite Hdd in Hn. by rewrite Hn in Hx.
  - apply bind_ok in Hr as (v & s1 & He & Hdep). apply deposit_delegations in Hdep as Hdd.
    apply end_delegation_for_ok in He as (c & d1 & Hcm & Hd1 & Hcool & _ & _ & _ & Hk).
    destruct (decide ((who, id) = (signer, id1))) as [[= -> ->]|Hne].
    + simplify_eq. exists c. split; [done|]. econstructor; [done|by apply Hcool].
    + destruct (Hk (who, id)) as [? Hx]; [done|by eexists|]. rewrite Hdd in Hn. by rewrite Hn in Hx.
  - apply bind_ok in Hr as (v & s1 & He & Hdep). apply deposit_delegations in Hdep as Hdd.
    apply end_delegation_for_ok in He as (c & d1 & Hcm & Hd1 & _ & Hkick & _ & _ & Hk).
    destruct (decide ((who, id) = (delegator, id1))) as [[= -> ->]|Hne].
    + simplify_eq. exists c. split; [done|]. econstructor; [done|by apply Hkick].
    + destruct (Hk (who, id)) as [? Hx]; [done|by eexists|]. rewrite Hdd in Hn. by rewrite Hn in Hx.
Qed.

(** C32: Delegated funds cannot leave a commitment early.  A delegation disappears
    from the storage in three ways only: its owner ends it, and if its commitment still
    lives, its cooldown period has passed since the start of a cooldown - its own or that
    of the commitment; someone kicks it out, and the commitment it was made to has ended;
    or its owner moves it to another committer, which a commitment in cooldown allows at
    once and another one after the blocking period, and the whole amount stays locked
    there for the same cooldown period. *)
Theorem end_delegation_after_cooldown exact s s' who id d :
  stakes_ok s -> step exact s s' ->
  s.(delegations) !! (who, id) = Some d -> s'.(delegations) !! (who, id) = None ->
  exists origin call c, dispatch origin call s = (Ok tt, s') /\
    s.(commitments) !! id = Some c /\ delegation_ending s s' who id c d origin call.
Proof.
  intros Hok Hstep Hd Hn. destruct Hstep as [origin call r _ _ Hr|p m l v Hr|_ Hr|x ->].
  - destruct (dispatch_rollback _ _ _ _ _ Hr) as [->| ->]; [|by rewrite Hd in Hn].
    destruct (dispatch_ending _ _ _ _ _ _ _ _ Hr Hd Hn) as (c & Hc & He). by exists origin, call, c.
  - apply keeps_commit in Hr as (Habs & _); [|done].
    apply (f_equal (fun a => delegs a !! (who, id))) in Habs. unfold abs in Habs. simpl in Habs.
    by rewrite !lookup_fmap, Hd, Hn in Habs.
  - apply fr_initialize_block in Hr. unfold core in Hr. injection Hr as _ E _ _. by rewrite E, Hd in Hn.
  - simpl in Hn. by rewrite Hd in Hn.
Qed.


(** a commitment can be ended only once its whole cooldown period has passed
    since the committer started the cooldown; the stake, the committed metrics and
    the weights are then gone and the total stake is lower by the stake. *)
Theorem end_commitment_after_cooldown who id s r s' :
  end_commitment_for who id true s = (Ok r, s') ->
  exists c st start, s.(commitments) !! id = Some c /\ c.(cm_stake) = Some st /\
    st.(st_cooldown_started) = Some start /\
    Z.min (start + st.(st_cooldown_period)) u32_max <= s.(block_number) /\
    (cm_stake <$> s'.(commitments) !! id) = Some None /\
    (forall p, s'.(compute_commitments) !! (id, p) = None) /\
    s'.(total_stake) = s.(total_stake) - st.(st_amount).
Proof.
  unfold end_commitment_for. intros Hr. inv_ok Hr.
  rename select (withdraw_committer_for _ _ _ = _) into Hw.
  apply withdraw_committer_for_ok in Hw as (c & st & x & Hc & Hst & -> & ->).
  rename select (try_mutate_commitment _ _ _ = _) into He.
  unfold try_mutate_commitment, clear_compute_commitments in He. run_ok He. ext_eqs.
  rewrite lookup_insert_eq in *. simplify_eq/=. eexists _, _, _. split_and!; try done.
  - by apply Z.leb_le.
  - by rewrite lookup_insert_eq.
  - intros p. apply map_lookup_filter_None. right. intros v _ Hn. by apply Hn.
Qed.
End exits.

(** ** Exits in the run of [Reference] *)
#[local] Existing Instance small.

Definition s_cooling : State :=
  blocks 50 (exec (dispatch (Signed 1) cooldown_compute_commitment_)
    (exec (dispatch (Signed 3) (cooldown_delegation_ 1)) s_rewarded)).

Lemma reach_cooling : rtc (step true) genesis s_cooling.
Proof.
  unfold s_cooling. apply reach_blocks; [|by_compute]. do 2 (apply reach_call; [|done|done]).
  unfold s_rewarded, next_epoch.
  do 3 (apply reach_heartbeat; [apply reach_blocks; [|by_compute]|by_compute]). apply reach_delegated.
Qed.

Lemma end_delegation_after_cooldown_witness :
  let s' := exec (dispatch (Signed 3) (end_delegation_ 1)) s_cooling in
  exists d, s_cooling.(delegations) !! (3, 0) = Some d /\
  exists origin call c, dispatch origin call s_cooling = (Ok tt, s') /\
    s_cooling.(commitments) !! 0 = Some c /\ delegation_ending s_cooling s' 3 0 c d origin call.
Proof.
  intros s'.
  assert (is_Some (s_cooling.(delegations) !! (3, 0))) as [d Hd].
  { apply (bool_decide_eq_true (is_Some (s_cooling.(delegations) !! (3, 0)))). by_compute. }
  exists d. split; [exact Hd|].
  apply (end_delegation_after_cooldown true s_cooling s' 3 0 d).
  - apply (reachable_inv true genesis s_cooling); [done|]. apply reach_cooling.
  - eapply (step_call _ _ _ (Signed 3) (end_delegation_ 1)); [done|done|apply surjective_pairing].
  - exact Hd.
  - unfold s'. by_compute.
Defined.

Lemma end_commitment_after_cooldown_witness :
  exists c, s_cooling.(commitments) !! 0 = Some c /\
    (cm_stake <$> (exec (end_commitment_for 1 0 true) s_cooling).(commitments) !! 0) = Some None.
Proof.
  destruct (end_commitment_after_cooldown 1 0 s_cooling 7140
              (exec (end_commitment_for 1 0 true) s_cooling))
    as (c & st & start & Hc & _ & _ & _ & Hn & _).
  - apply result_exec. by_compute.
  - exact (ex_intro _ c (conj Hc Hn)).
Defined.
