(* ===== verification/RewardSpecs.v ===== *)
(** Rewards: what the score of a commitment can be, how a pool's budget is split
    between commitments, committers and delegators, and what a delegator accrues. *)
From S2P Require Import Prelude Perthings Buffers ComputeTypes ComputePools Rewards Staking.
From S2P Require Import Delegation ComputeMetrics ComputeCalls Reference Frames.

Section specs.
Context {P : Perthings} {PL : PerthingsLaws P} {C : Config} {X : Externals}.
Notation MC := (M State Error).
Notation MD := (M DistState Error).
Implicit Types s : State.

(** Weights are [U256] values. *)
Definition weights_ok (w : CommitmentWeights) : Prop :=
  0 <= w.(self_reward_weight) <= u256_max /\ 0 <= w.(delegations_reward_weight) <= u256_max.

Lemma total_reward_weight_ge w : weights_ok w -> w.(self_reward_weight) <= total_reward_weight w.
Proof. unfold weights_ok, total_reward_weight, saturating_add. lia. Qed.

Lemma mul_d_ok a b d c d' : mul_d a b d = (Ok c, d') <-> (c = a * b /\ c <= u256_max) /\ d = d'.
Proof. unfold mul_d. by rewrite ok_or_ok, checked_mul_Some. Qed.
Lemma div_d_ok a b d c d' : div_d a b d = (Ok c, d') <-> (c = a / b /\ b <> 0) /\ d = d'.
Proof. unfold div_d. by rewrite ok_or_ok, checked_div_Some. Qed.
Hint Rewrite mul_d_ok div_d_ok : m_ok.

Lemma saturated_into_id mx a : 0 <= a <= mx -> saturated_into mx a = a.
Proof. unfold saturated_into. lia. Qed.

Lemma split_reward_exact w commission reward d r d' :
  weights_ok w -> is_perbill commission -> 0 <= reward <= u128_max ->
  split_reward w commission reward d = (Ok r, d') ->
  let own := w.(self_reward_weight) * reward / total_reward_weight w in
  r.1 = own + commission * (reward - own) / PERBILL /\ r.1 + r.2 = reward /\
  0 <= own <= r.1 /\ 0 <= r.2 /\ d' = d.
Proof.
  intros Hw Hc Hr Hs. unfold split_reward in Hs. inv_ok Hs.
  pose proof (total_reward_weight_ge w Hw). destruct Hw as [Hsw Hdw].
  assert (0 <= self_reward_weight w * reward / total_reward_weight w <= reward) as Hown.
  { split; [apply Z.div_pos; [nia|lia]|apply share_le; lia]. }
  rewrite !saturated_into_id in * by lia.
  pose proof (pb_mul_floor_range commission
    (reward - self_reward_weight w * reward / total_reward_weight w) Hc) as Hcr.
  rewrite pb_mul_floor_spec in * by (done || lia). split_and!; done || lia.
Qed.

(** a pool's reward for a commitment is split without loss: the committer gets
    the floor of its weight's share plus the commission on the rest, the
    delegators get what remains, and neither is negative. *)
Theorem split_reward_conserves w commission reward d self dele d' :
  weights_ok w -> is_perbill commission -> 0 <= reward <= u128_max ->
  split_reward w commission reward d = (Ok (self, dele), d') ->
  let own := w.(self_reward_weight) * reward / total_reward_weight w in
  self = own + commission * (reward - own) / PERBILL /\ self + dele = reward /\
  0 <= own <= self /\ 0 <= dele /\ d' = d.
Proof. intros Hw Hc Hr Hs. exact (split_reward_exact w commission reward d _ d' Hw Hc Hr Hs). Qed.

(** ** The budget of a pool *)
Definition budget_at (s : State) (pool : PoolId) (e : Epoch_) : RewardBudget :=
  SlidingBuffer.get RewardBudget_default (get_stake_based_rewards s pool) e.
Definition score_at (s : State) (id : CommitmentId) (pool : PoolId) (e : Epoch_) : Z * Z :=
  SlidingBuffer.get (0, 0) (get_scores s id pool) e.

(** Everything a distribution hands out: to the committer, to the delegators and
    as the bonus that is paid out at once. *)
Definition handed_out (d d' : DistState) : Z :=
  (d'.(ds_stake).(st_accrued_reward) - d.(ds_stake).(st_accrued_reward)) +
  (d'.(ds_total_delegations_reward) - d.(ds_total_delegations_reward)) +
  (d'.(ds_total_committer_bonus) - d.(ds_total_committer_bonus)).

(** The state of the buffers that a distribution for [(pool, e)] relies on. *)
Definition budget_ok (s : State) (pool : PoolId) (e : Epoch_) (T TS : Z) : Prop :=
  SlidingBuffer.no_wrap e /\ SlidingBuffer.no_wrap (get_stake_based_rewards s pool).(SlidingBuffer.epoch) /\
  rb_total (budget_at s pool e) = T /\ rb_total_score (budget_at s pool e) = TS.

Lemma get_stake_based_rewards_insert s m pool b :
  get_stake_based_rewards (set_stake_based_rewards (<[pool := b]> m) s) pool = b.
Proof. unfold get_stake_based_rewards. simpl. by rewrite lookup_insert_eq. Qed.

Lemma mutate_epoch {V} (dflt : V) b e f r :
  SlidingBuffer.no_wrap e -> SlidingBuffer.no_wrap (SlidingBuffer.epoch b) ->
  SlidingBuffer.no_wrap (SlidingBuffer.epoch (SlidingBuffer.mutate dflt b e f r)).
Proof. intros. unfold SlidingBuffer.mutate. repeat case_match; done. Qed.

Lemma div_nonneg a t : 0 <= a -> 0 <= t -> 0 <= a / t.
Proof.
  intros. destruct (decide (t = 0)) as [->|]; [by rewrite Zdiv_0_r|]. apply Z.div_pos; lia.
Qed.

Lemma floor_add a b t : 0 < t -> a / t + b / t <= (a + b) / t.
Proof.
  intros. apply Z.div_le_lower_bound; [done|].
  pose proof (Z.mul_div_le a t). pose proof (Z.mul_div_le b t). lia.
Qed.

Lemma distribute_pool_pays e id w commission pool d u d' T TS sc swb :
  weights_ok w -> is_perbill commission -> budget_ok d.(ds_state) pool e T TS ->
  score_at d.(ds_state) id pool e = (sc, swb) -> 0 <= sc <= swb -> swb <= TS -> 0 <= T <= u128_max ->
  distribute_pool e id w commission pool d = (Ok u, d') ->
  handed_out d d' <= swb * T / TS /\ budget_ok d'.(ds_state) pool e T TS /\
  (forall id', score_at d'.(ds_state) id' pool e = score_at d.(ds_state) id' pool e).
Proof.
  intros Hw Hc (Hne & Hnb & HT & HTS) Hscore Hsc Hswb HTr Hr. unfold budget_at, score_at in *.
  unfold distribute_pool in Hr. inv_ok Hr. case_match; inv_ok Hr.
  - unfold handed_out, budget_ok, budget_at; simpl. rewrite get_stake_based_rewards_insert.
    split_and!; try done. rewrite !Z.sub_diag. apply div_nonneg; nia.
  - rewrite Hscore in Hr. inv_ok Hr. rename select (split_reward _ _ _ _ = _) into Hs.
    set (T := rb_total _) in *. set (TS := rb_total_score _) in *.
    apply orb_false_iff in H as [HTS0%Z.eqb_neq HT0%Z.eqb_neq].
    assert (0 < TS) by lia. unfold saturating_sub in *. rewrite Z.max_r in * by lia.
    assert (0 <= sc * T / TS <= u128_max) as Hrw.
    { split; [apply div_nonneg; nia|]. pose proof (share_le sc T TS). lia. }
    assert (0 <= (swb - sc) * T / TS <= u128_max) as Hbw.
    { split; [apply div_nonneg; nia|]. pose proof (share_le (swb - sc) T TS). lia. }
    rewrite saturated_into_id in * by lia.
    destruct (split_reward_exact _ _ _ _ _ _ Hw Hc Hrw Hs) as (_ & Hsum & ? & ? & ->).
    destruct a6 as [self dele]; simpl in *. inv_ok Hr. split_and!.
    + unfold handed_out; simpl. pose proof (floor_add (sc * T) ((swb - sc) * T) TS).
      replace (sc * T + (swb - sc) * T) with (swb * T) in * by lia. lia.
    + unfold budget_ok, budget_at; simpl. rewrite get_stake_based_rewards_insert.
      rewrite SlidingBuffer.get_mutate_same by done. split_and!; try done. by apply mutate_epoch.
    + done.
Qed.

(** ** Scores *)
Lemma score_limit_ok target m s l s' :
  score_limit target m s = (Ok l, s') ->
  l = target * m / FIXEDU128_DECIMALS / PER_TOKEN_DECIMALS /\ s' = s.
Proof. unfold score_limit. intros Hr. by run_ok Hr. Qed.

Lemma min_if a b : (if a <? b then a else b) = Z.min a b.
Proof. destruct (Z.ltb_spec a b); lia. Qed.

Lemma pool_score_exact w target bounded bonus s r s' :
  weights_ok w -> is_perquintill BusyWeightBonus -> 0 <= target -> 0 <= bounded -> 0 <= bonus ->
  pool_score w target bounded bonus s = (Ok r, s') ->
  let limit := target * bounded / FIXEDU128_DECIMALS / PER_TOKEN_DECIMALS in
  r.1 = Z.min limit (total_reward_weight w) /\ 0 <= r.1 <= r.2 /\ r.2 <= u256_max /\
  r.2 - r.1 <= BusyWeightBonus * Z.min limit w.(self_reward_weight) / PERQUINTILL /\ s' = s.
Proof.
  intros Hw Hb Ht Hbd Hbo Hr. cbv zeta. pose proof Hw as [? ?]. unfold pool_score in Hr. run_ok Hr.
  rename select (score_limit _ _ _ = _) into Hl. apply score_limit_ok in Hl as [-> _].
  rewrite !min_if in *. set (limit := target * bounded / _ / _) in *.
  assert (0 <= limit) by (unfold limit; apply Z.div_pos; [apply Z.div_pos; [nia|done]|done]).
  assert (0 <= total_reward_weight w) by (pose proof (total_reward_weight_ge w Hw); lia).
  set (own := limit `min` self_reward_weight w) in *.
  assert (0 <= own) by lia. rewrite pq_mul_floor_spec in * by done.
  assert (0 <= bonus * own / bounded) by (apply div_nonneg; nia).
  assert (0 <= BusyWeightBonus * own / PERQUINTILL).
  { apply div_nonneg; [unfold is_perquintill in Hb; nia|done]. }
  split_and!; done || lia.
Qed.

(** the score of a commitment in a pool is the smaller of its weight and of the
    limit that its bounded metric buys; the bonus comes on top, is never negative
    and at most the bonus ratio of the committer's own bounded weight. *)
Theorem pool_score_bounds w target bounded bonus s sc swb s' :
  weights_ok w -> is_perquintill BusyWeightBonus -> 0 <= target -> 0 <= bounded -> 0 <= bonus ->
  pool_score w target bounded bonus s = (Ok (sc, swb), s') ->
  let limit := target * bounded / FIXEDU128_DECIMALS / PER_TOKEN_DECIMALS in
  sc = Z.min limit (total_reward_weight w) /\ sc <= swb /\
  swb - sc <= BusyWeightBonus * Z.min limit w.(self_reward_weight) / PERQUINTILL /\ s' = s.
Proof.
  intros Hw Hb Ht Hbd Hbo Hr limit.
  destruct (pool_score_exact _ _ _ _ _ _ _ Hw Hb Ht Hbd Hbo Hr) as (?&?&?&?&?). simpl in *.
  split_and!; done || lia.
Qed.

(** ** An epoch of a pool

    The commitments of an epoch, each with its stake and its measured metrics, first score one after the other and are paid
    one after the other when the epoch is over. *)
Record Claimant := mkClaimant {
  cl_id : CommitmentId;
  cl_commitment : Commitment;
  cl_stake : Stake;
  cl_metric : Metric * Metric;
}.

Definition weights_at (c : Commitment) (e : Epoch_) : CommitmentWeights :=
  default CommitmentWeights_default (MemoryBuffer.get_latest c.(cm_weights) e).

Definition claimant_ok (c : Claimant) : Prop :=
  (forall e, weights_ok (weights_at c.(cl_commitment) e)) /\ is_perbill c.(cl_commitment).(cm_commission) /\
  0 <= c.(cl_metric).1 <= c.(cl_metric).2.

Definition score_all (last e : Epoch_) (pool : PoolId) (l : list Claimant) : MC unit :=
  mfor l (fun c => score last e c.(cl_id) c.(cl_commitment) [(pool, c.(cl_metric))]).

Definition pay_one (e : Epoch_) (pool : PoolId) (c : Claimant) : MC Z :=
  fun s =>
    let d := mkDist s c.(cl_stake) 0 0 in
    let '(r, d') := distribute_pool e c.(cl_id) (weights_at c.(cl_commitment) e)
                      c.(cl_commitment).(cm_commission) pool d in
    (match r with Ok _ => Ok (handed_out d d') | Err err => Err err | Panic => Panic end,
     d'.(ds_state)).
Definition pay_all (e : Epoch_) (pool : PoolId) (l : list Claimant) : MC Z :=
  mfold l 0 (fun total c => let* paid := pay_one e pool c in ret (total + paid)).

Definition sum_scores (s : State) (pool : PoolId) (e : Epoch_) (l : list Claimant) : Z :=
  foldr (fun c acc => (score_at s c.(cl_id) pool e).2 + acc) 0 l.

Lemma pay_all_bound e pool l s total paid s' T TS :
  Forall claimant_ok l -> budget_ok s pool e T TS -> 0 <= T <= u128_max ->
  Forall (fun c => 0 <= (score_at s c.(cl_id) pool e).1 <= (score_at s c.(cl_id) pool e).2) l ->
  sum_scores s pool e l <= TS ->
  mfold l total (fun total c => let* p := pay_one e pool c in ret (total + p)) s = (Ok paid, s') ->
  paid <= total + sum_scores s pool e l * T / TS.
Proof.
  revert s total. induction l as [|c l IH]; intros s total Hl Hb HT Hsc Hsum Hr; simpl in *.
  { inv_ok Hr. rewrite Zdiv_0_l. lia. }
  inversion Hl as [|? ? (Hw & Hc & _) Hl']; subst. inversion Hsc as [|? ? Hs1 Hsc']; subst.
  inv_ok Hr. rename select (pay_one _ _ _ _ = _) into Hp. unfold pay_one in Hp.
  destruct (distribute_pool _ _ _ _ _ _) as [[u| |] d'] eqn:Ed; simplify_eq/=.
  destruct (score_at s (cl_id c) pool e) as [sc swb] eqn:Esc; simpl in *.
  assert (0 <= sum_scores s pool e l) as Hrest.
  { clear -Hsc'. induction Hsc' as [|x l Hx _ IHl]; simpl; lia. }
  assert (0 <= TS) by lia.
  destruct (distribute_pool_pays e (cl_id c) _ _ pool (mkDist s (cl_stake c) 0 0) u d'
              T TS sc swb (Hw e) Hc Hb Esc Hs1 ltac:(lia) HT Ed) as (Hpay & Hb' & Hsame).
  assert (sum_scores (ds_state d') pool e l = sum_scores s pool e l) as Heq.
  { clear -Hsame. induction l as [|x l IHl]; simpl; [done|]. by rewrite Hsame, IHl. }
  eapply IH in Hr; [|done|done|done| |lia].
  2: { eapply Forall_impl; [exact Hsc'|]. intros x. by rewrite Hsame. }
  rewrite Heq in Hr. destruct (decide (TS = 0)) as [->|].
  { rewrite !Zdiv_0_r in *. lia. }
  pose proof (floor_add (swb * T) (sum_scores s pool e l * T) TS).
  rewrite Z.mul_add_distr_r. lia.
Qed.

(** What scoring in [(pool, e)] relies on. *)
Record scoring_ok (s : State) (pool : PoolId) (e : Epoch_) : Prop := {
  so_epoch : SlidingBuffer.no_wrap e;
  so_budget : SlidingBuffer.no_wrap (get_stake_based_rewards s pool).(SlidingBuffer.epoch);
  so_scores : forall id, SlidingBuffer.no_wrap (get_scores s id pool).(SlidingBuffer.epoch);
  so_committed : forall id m, s.(compute_commitments) !! (id, pool) = Some m -> 0 <= m;
  so_target : 0 <= rb_target_weight_per_compute (budget_at s pool e);
}.

Lemma get_set_same {V} (dflt : V) b e v :
  SlidingBuffer.no_wrap (SlidingBuffer.epoch b) -> SlidingBuffer.no_wrap e ->
  SlidingBuffer.get dflt (SlidingBuffer.set dflt b e v) e = v.
Proof. intros. by rewrite SlidingBuffer.set_mutate, SlidingBuffer.get_mutate_same. Qed.

Lemma bounded_metric_sums_nonneg m b c :
  is_perquintill BusyWeightBonus -> 0 <= m -> 0 <= b -> 0 <= c ->
  0 <= (bounded_metric_sums m b c).1 /\ 0 <= (bounded_metric_sums m b c).2.
Proof.
  intros Hb ? ? ?. pose proof (pq_mul_floor_range BusyWeightBonus c Hb).
  unfold bounded_metric_sums. repeat case_match; simpl; lia.
Qed.

Lemma get_scores_insert s s' id pool b :
  s'.(scores) = <[(id, pool) := b]> s.(scores) ->
  get_scores s' id pool = b /\ forall id', id' <> id -> get_scores s' id' pool = get_scores s id' pool.
Proof.
  unfold get_scores. intros ->. rewrite lookup_insert_eq. split; [done|]. intros id' Hne.
  rewrite lookup_insert_ne; [done|]. congruence.
Qed.

Lemma score_one last e c pool s u s' :
  claimant_ok c -> is_perquintill BusyWeightBonus -> scoring_ok s pool e ->
  score_at s c.(cl_id) pool e = (0, 0) -> 0 <= rb_total_score (budget_at s pool e) <= u256_max ->
  score last e c.(cl_id) c.(cl_commitment) [(pool, c.(cl_metric))] s = (Ok u, s') ->
  let sc := score_at s' c.(cl_id) pool e in
  0 <= sc.1 <= sc.2 /\ scoring_ok s' pool e /\
  rb_total (budget_at s' pool e) = rb_total (budget_at s pool e) /\
  rb_total_score (budget_at s' pool e) =
    Z.min u256_max (rb_total_score (budget_at s pool e) + sc.2) /\
  (forall id, id <> c.(cl_id) -> score_at s' id pool e = score_at s id pool e).
Proof.
  intros (Hw & _ & Hm) Hb [He Hbu Hsc Hco Hta] Hz HTS Hr. destruct (cl_metric c) as [m mb].
  unfold score in Hr. simpl in Hr, Hm. inv_ok Hr.
  match goal with H : (match _ !! _ with _ => _ end) _ = _ |- _ => rename H into Hr end.
  destruct (compute_commitments _ !! (cl_id c, pool)) as [com|] eqn:Ecom.
  2: { inv_ok Hr. rewrite Hz. simpl. split_and!; done || lia. }
  destruct (bounded_metric_sums m (mb - m) com) as [bd bo] eqn:Ebd.
  destruct (bounded_metric_sums_nonneg m (mb - m) com Hb) as [Hbd Hbo];
    [lia|lia|by eapply Hco|]. rewrite Ebd in Hbd, Hbo; simpl in *.
  inv_ok Hr. rename select (pool_score _ _ _ _ _ = _) into Hp.
  destruct (pool_score_exact _ _ _ _ _ _ _ (Hw last) Hb Hta Hbd Hbo Hp) as (_ & Hr12 & _ & _ & ->).
  unfold score_at, budget_at, saturating_add in *.
  rewrite get_stake_based_rewards_insert, SlidingBuffer.get_mutate_same by done.
  match goal with |- context [get_scores ?s1 _ pool] =>
    destruct (get_scores_insert _ s1 (cl_id c) pool _ eq_refl) as [Hg1 Hg2] end.
  rewrite Hg1, get_set_same by done. split_and!; try done; try lia.
  - constructor; simpl; [done| | |done|].
    + rewrite get_stake_based_rewards_insert. by apply mutate_epoch.
    + intros id. destruct (decide (id = cl_id c)) as [->|Hne].
      * rewrite Hg1, SlidingBuffer.set_mutate. by apply mutate_epoch.
      * by rewrite Hg2.
    + unfold budget_at. by rewrite get_stake_based_rewards_insert, SlidingBuffer.get_mutate_same.
  - simpl. rewrite Z.min_comm. done.
  - intros id Hne. by rewrite Hg2.
Qed.

Lemma score_all_sum last e pool l s u s' :
  NoDup (cl_id <$> l) -> Forall claimant_ok l -> is_perquintill BusyWeightBonus ->
  scoring_ok s pool e -> Forall (fun c => score_at s c.(cl_id) pool e = (0, 0)) l ->
  0 <= rb_total_score (budget_at s pool e) <= u256_max ->
  score_all last e pool l s = (Ok u, s') ->
  scoring_ok s' pool e /\ rb_total (budget_at s' pool e) = rb_total (budget_at s pool e) /\
  rb_total_score (budget_at s' pool e) =
    Z.min u256_max (rb_total_score (budget_at s pool e) + sum_scores s' pool e l) /\
  Forall (fun c => 0 <= (score_at s' c.(cl_id) pool e).1 <= (score_at s' c.(cl_id) pool e).2) l /\
  (forall id, id ∉ (cl_id <$> l) -> score_at s' id pool e = score_at s id pool e).
Proof.
  unfold score_all. intros Hnd Hok Hb. revert s. induction l as [|c l IH]; intros s Hs Hz Hts Hr; simpl in *.
  { inv_ok Hr. split_and!; [done|done|lia|by constructor|done]. }
  apply NoDup_cons in Hnd as [Hni Hnd]. inversion Hok as [|? ? Hc Hok']; subst.
  inversion Hz as [|? ? Hz1 Hz']; subst. inv_ok Hr.
  rename select (score _ _ _ _ _ _ = _) into H1.
  destruct (score_one _ _ _ _ _ _ _ Hc Hb Hs Hz1 Hts H1) as (Hsc & Hs1 & HT & HTS & Hne).
  assert (forall x, x ∈ l -> cl_id x <> cl_id c) as Hdiff.
  { intros x Hx Heq. apply Hni. rewrite <-Heq. by apply list_elem_of_fmap_2. }
  eapply (IH Hnd Hok') in Hr; [|done| |lia].
  2: { rewrite Forall_forall in *. intros x Hx. rewrite Hne by auto. by apply Hz'. }
  destruct Hr as (Hs2 & HT2 & HTS2 & Hall & Hne2).
  assert (score_at s' (cl_id c) pool e = score_at s1 (cl_id c) pool e) as Hkeep by (by apply Hne2).
  assert (0 <= sum_scores s' pool e l) as Hpos.
  { clear -Hall. induction Hall as [|x l Hx _ IHl]; simpl; lia. }
  split_and!.
  - done.
  - congruence.
  - rewrite HTS2, HTS, Hkeep. lia.
  - constructor; [by rewrite Hkeep|done].
  - intros id [Hid Hid']%not_elem_of_cons. rewrite Hne2 by done. by apply Hne.
Qed.

(** C36: the rewards of an epoch of a pool never exceed its budget.  The commitments
    of an epoch score one after the other, starting from an epoch without scores,
    and are paid one after the other; whatever is handed out in total - to
    committers, to delegators and as bonuses - is at most the pool's budget. *)
Theorem epoch_rewards_within_budget last e pool l s0 u s1 paid s2 :
  NoDup (cl_id <$> l) -> Forall claimant_ok l -> is_perquintill BusyWeightBonus ->
  scoring_ok s0 pool e -> Forall (fun c => score_at s0 c.(cl_id) pool e = (0, 0)) l ->
  rb_total_score (budget_at s0 pool e) = 0 -> 0 <= rb_total (budget_at s0 pool e) <= u128_max ->
  score_all last e pool l s0 = (Ok u, s1) ->
  sum_scores s1 pool e l <= u256_max ->
  pay_all e pool l s1 = (Ok paid, s2) ->
  paid <= rb_total (budget_at s0 pool e).
Proof.
  intros Hnd Hok Hb Hs Hz HTS HT Hsc Hsum Hpay.
  destruct (score_all_sum _ _ _ _ _ _ _ Hnd Hok Hb Hs Hz ltac:(rewrite HTS; done) Hsc)
    as (Hs1 & HT1 & HTS1 & Hall & _).
  rewrite HTS in HTS1. set (TS := sum_scores s1 pool e l) in *.
  assert (0 <= TS) as Hpos.
  { unfold TS. clear -Hall. induction Hall as [|x l Hx _ IHl]; simpl; lia. }
  rewrite Z.add_0_l, Z.min_r in HTS1 by lia.
  assert (budget_ok s1 pool e (rb_total (budget_at s0 pool e)) TS) as Hbok.
  { split_and!; [apply Hs|apply Hs1|done|done]. }
  pose proof (pay_all_bound e pool l s1 0 paid s2 _ _ Hok Hbok HT Hall ltac:(done) Hpay) as Hle.
  fold TS in Hle. pose proof (share_le TS (rb_total (budget_at s0 pool e)) TS). lia.
Qed.
End specs.

(** ** The run of [Reference] *)
#[local] Existing Instance small.

Definition w_example : CommitmentWeights :=
  {| self_reward_weight := 500; self_slash_weight := 500;
     delegations_reward_weight := 100; delegations_slash_weight := 100 |}.

Lemma w_example_ok : weights_ok w_example.
Proof. by_compute. Qed.
Lemma small_bonus_ok : is_perquintill (BusyWeightBonus (Config := small)).
Proof. by_compute. Qed.

Definition d_example : DistState := mkDist genesis (Stake_new 1000 1 50 false) 0 0.

Lemma split_reward_conserves_witness :
  result (split_reward w_example (10 ^ 8) 2400) d_example = Ok (2040, 360) /\ 2040 + 360 = 2400.
Proof.
  assert (result (split_reward w_example (10 ^ 8) 2400) d_example = Ok (2040, 360)) as Hrun
    by by_compute.
  assert (is_perbill (10 ^ 8)) as Hp by by_compute.
  assert (0 <= 2400 <= u128_max) as Hr by by_compute.
  split; [exact Hrun|].
  apply (split_reward_conserves w_example (10 ^ 8) 2400 d_example 2040 360 _ w_example_ok Hp Hr
           (result_exec _ _ _ Hrun)).
Defined.

Lemma pool_score_bounds_witness :
  600 = Z.min (876 * 10 ^ 30 * (700 * 10 ^ 18) / FIXEDU128_DECIMALS / PER_TOKEN_DECIMALS)
          (total_reward_weight w_example) /\ 600 <= 605.
Proof.
  assert (result (pool_score w_example (876 * 10 ^ 30) (700 * 10 ^ 18) (7 * 10 ^ 18)) genesis =
            Ok (600, 605)) as Hrun by by_compute.
  assert (0 <= 876 * 10 ^ 30) as H1 by by_compute.
  assert (0 <= 700 * 10 ^ 18) as H2 by by_compute.
  assert (0 <= 7 * 10 ^ 18) as H3 by by_compute.
  destruct (pool_score_bounds w_example (876 * 10 ^ 30) (700 * 10 ^ 18) (7 * 10 ^ 18) genesis
              600 605 _ w_example_ok small_bonus_ok H1 H2 H3 (result_exec _ _ _ Hrun))
    as (Hsc & Hswb & _).
  exact (conj Hsc Hswb).
Defined.

(** The second epoch of the run: the committer scores and is paid. *)
Definition s_epoch2 : State := blocks 10 s_delegated.
Definition the_claimant : Claimant := {|
  cl_id := 0;
  cl_commitment := default (mkCommitment None 0 0 0 (MemoryBuffer.new_with 0 CommitmentWeights_default)
                      (MemoryBuffer.new_with 0 PoolReward_default) 0 0) (s_epoch2.(commitments) !! 0);
  cl_stake := Stake_new 1000 11 50 true;
  cl_metric := (1000 * 10 ^ 18, 1050 * 10 ^ 18);
|}.

Lemma claimant_example_ok : claimant_ok the_claimant.
Proof.
  assert (cl_commitment the_claimant =
    {| cm_stake := Some (Stake_new 1000 11 50 true); cm_commission := 10 ^ 8;
       cm_delegations_total_amount := 500; cm_delegations_total_rewardable_amount := 500;
       cm_weights := MemoryBuffer.new_with 1 w_example;
       cm_pool_rewards := MemoryBuffer.new_with 11 PoolReward_default;
       cm_last_scoring_epoch := 0; cm_last_slashing_epoch := 0 |}) as Hc by by_compute.
  split; [|split; [by_compute|by_compute]].
  intros e. rewrite Hc. unfold weights_at, MemoryBuffer.get_latest. simpl.
  destruct (1 <=? e); by_compute.
Qed.

Lemma scoring_example_ok : scoring_ok s_epoch2 1 2.
Proof.
  assert (s_epoch2.(scores) = ∅) as Hs by by_compute.
  assert (bool_decide (map_Forall (fun _ m => 0 <= m) s_epoch2.(compute_commitments)) = true) as Hc
    by by_compute.
  apply bool_decide_eq_true_1 in Hc.
  split; [by_compute|by_compute| | |by_compute].
  - intros id. unfold get_scores. rewrite Hs, lookup_empty. by_compute.
  - intros id m Hm. exact (Hc (id, 1) m Hm).
Qed.

Lemma epoch_rewards_within_budget_witness :
  result (pay_all 2 1 [the_claimant]) (exec (score_all 1 2 1 [the_claimant]) s_epoch2) = Ok 4199 /\
  4199 <= rb_total (budget_at s_epoch2 1 2).
Proof.
  split; [by_compute|].
  eapply (epoch_rewards_within_budget 1 2 1 [the_claimant] s_epoch2 tt
            (exec (score_all 1 2 1 [the_claimant]) s_epoch2)).
  - apply NoDup_singleton.
  - apply Forall_singleton, claimant_example_ok.
  - by_compute.
  - apply scoring_example_ok.
  - apply Forall_singleton. by_compute.
  - by_compute.
  - by_compute.
  - apply result_exec. by_compute.
  - by_compute.
  - apply result_exec. by_compute.
Defined.
