(* ===== verification/AccrualSpecs.v ===== *)
(** What delegators accrue: a distribution never promises more than the delegators'
    part of it, and accruing is idempotent. *)
From S2P Require Import Prelude Perthings Buffers ComputeTypes ComputePools Rewards Staking.
From S2P Require Import Delegation ComputeMetrics ComputeCalls Reference Frames RewardSpecs.

Notation PTD := PER_TOKEN_DECIMALS.

Lemma ptd_pos : 0 < PTD.
Proof. done. Qed.

(** [floor((x + y) / t) - ceil(x / t) <= floor(y / t)] *)
Lemma floor_minus_ceil x y t : 0 < t -> (x + y) / t - (x + t - 1) / t <= y / t.
Proof.
  intros Ht. apply Z.le_sub_le_add_r. apply Z.lt_succ_r. apply Z.div_lt_upper_bound; [done|].
  pose proof (Z.mul_succ_div_gt y t Ht). pose proof (Z.mul_succ_div_gt (x + t - 1) t Ht). nia.
Qed.

Section specs.
Context {P : Perthings} {PL : PerthingsLaws P} {C : Config} {X : Externals}.
Notation MC := (M State Error).
Implicit Types s : State.

(** A delegation whose debt covers everything up to [r] reward per weight. *)
Definition settled (r : Z) (d : Delegation) : Prop :=
  0 <= d.(dl_reward_weight) /\ (d.(dl_reward_weight) * r + PTD - 1) / PTD <= d.(dl_reward_debt).

Definition stake_range (st : Stake) : Prop :=
  0 <= st.(st_amount) /\ 0 <= st.(st_cooldown_period) /\ 0 <= st.(st_accrued_reward) /\
  0 <= st.(st_accrued_slash).

(** The reward one accrual adds to a delegation. *)
Definition gain (d d' : Delegation) : Z :=
  d'.(dl_stake).(st_accrued_reward) - d.(dl_stake).(st_accrued_reward).

Lemma sanitize_accrued id d s r s' :
  sanitize_delegation id d s = (Ok r, s') ->
  r.1.(dl_stake).(st_accrued_reward) = d.(dl_stake).(st_accrued_reward) /\
  r.1.(dl_stake).(st_accrued_slash) = d.(dl_stake).(st_accrued_slash).
Proof.
  unfold sanitize_delegation. intros Hr. inv_ok Hr. frame_eqs. case_match; inv_ok Hr; auto.
Qed.

(** After sanitizing the rewardable amount is within the amount. *)
Lemma sanitize_bounds id d s r s' :
  is_perquintill CooldownRewardRatio -> 0 < MaxCooldownPeriod -> stake_range d.(dl_stake) ->
  0 <= d.(dl_reward_weight) -> sanitize_delegation id d s = (Ok r, s') ->
  r.1.(dl_stake).(st_rewardable_amount) <= r.1.(dl_stake).(st_amount) /\ 0 <= r.1.(dl_reward_weight).
Proof.
  intros Hcr HM (Ham & Hp & _) Hw Hr. unfold sanitize_delegation in Hr. inv_ok Hr. frame_eqs.
  destruct (Z.leb_spec (st_rewardable_amount (dl_stake d)) (st_amount (dl_stake d))); inv_ok Hr; [done|].
  pose proof (pq_mul_floor_range _ _ Hcr Ham). unfold cooldown_rewardable.
  split; [case_match; lia|]. apply Z.div_pos; [|done]. case_match; nia.
Qed.

Lemma accrue_gain id pr d s d' s' :
  accrue_with id pr d s = (Ok d', s') ->
  gain d d' = saturating_sub (d.(dl_reward_weight) * pr.(reward_per_weight) / PTD) d.(dl_reward_debt).
Proof.
  unfold accrue_with. intros Hr. run_ok Hr.
  rename select (sanitize_delegation _ _ _ = _) into Hs.
  apply sanitize_accrued in Hs as (Ha & _). unfold gain; simpl. rewrite Ha. simpl. lia.
Qed.

(** The delegations of a commitment accrue one after the other. *)
Definition accrue_all (id : CommitmentId) (pr : PoolReward) (l : list Delegation) : MC Z :=
  mfold l 0 (fun total d => let* d' := accrue_with id pr d in ret (total + gain d d')).

Definition sum_weights (l : list Delegation) : Z :=
  foldr (fun d acc => d.(dl_reward_weight) + acc) 0 l.

Lemma accrue_all_bound id r extra pr l s total gains s' :
  Forall (settled r) l -> 0 <= extra -> pr.(reward_per_weight) <= r + extra ->
  mfold l total (fun total d => let* d' := accrue_with id pr d in ret (total + gain d d')) s =
    (Ok gains, s') ->
  gains <= total + sum_weights l * extra / PTD /\ 0 <= sum_weights l.
Proof.
  intros Hl He Hpr. revert s total. induction Hl as [|d l [Hw Hd] Hl IH]; intros s total Hr; simpl in *.
  { inv_ok Hr. split; [|done]. rewrite Z.mul_0_l. unfold PTD. rewrite Zdiv_0_l. lia. }
  inv_ok Hr. rename select (accrue_with _ _ _ _ = _) into Ha. apply accrue_gain in Ha.
  apply IH in Hr as [Hr Hpos]. split; [|lia].
  set (w := dl_reward_weight d) in *. pose proof ptd_pos as HP.
  assert (w * reward_per_weight pr / PTD <= (w * r + w * extra) / PTD) as H1.
  { apply Z.div_le_mono; [done|]. nia. }
  pose proof (floor_minus_ceil (w * r) (w * extra) PTD HP) as H2.
  assert (0 <= w * extra / PTD) as H3 by (apply Z.div_pos; nia).
  pose proof (floor_add (w * extra) (sum_weights l * extra) PTD HP) as H4.
  rewrite Z.mul_add_distr_r. unfold saturating_sub in Ha. lia.
Qed.

Lemma distribute_pools_commitment e id w st0 pools s c o sc1 :
  distribute_pools e id w st0 pools (s, c) = (o, sc1) ->
  exists st, sc1.2 = set_cm_stake (Some st) c.
Proof.
  unfold distribute_pools. destruct (mfor _ _ _) as [o' d]. intros [= _ <-]. eexists. reflexivity.
Qed.

(** What [distribute] does to the commitment it works on. *)
Lemma distribute_effect e id pools s c bonus s' c' :
  distribute e id pools (s, c) = (Ok bonus, (s', c')) ->
  exists st0 st tot sc1,
    let w := (weights_at c e).(delegations_reward_weight) in
    c.(cm_stake) = Some st0 /\
    distribute_pools e id (weights_at c e) st0 pools (s, c) = (Ok (st, (tot, bonus)), sc1) /\
    if negb (w =? 0) && negb (tot =? 0) then
      MemoryBuffer.mutate c.(cm_pool_rewards) st.(st_created) (fun r =>
          set_reward_per_weight (saturating_add u256_max r.(reward_per_weight) (tot * PTD / w)) r) =
        Some c'.(cm_pool_rewards)
    else c'.(cm_pool_rewards) = c.(cm_pool_rewards).
Proof.
  unfold distribute. intros (? & ? & [<- <-]%gets_ok & Hr)%bind_ok.
  apply bind_ok in Hr as (st0 & ? & [Hst0 <-]%ok_or_ok & Hr).
  apply bind_ok in Hr as ([st [tot bonus']] & sc1 & Hd & Hr).
  destruct (distribute_pools_commitment _ _ _ _ _ _ _ _ _ Hd) as [st' Hc1].
  destruct sc1 as [sx c1]; simpl in Hc1; subst c1.
  apply bind_ok in Hr as (? & sc2 & Hr & [-> ->]%ret_ok).
  eexists st0, st, tot, _. split; [exact Hst0|]. split; [exact Hd|]. unfold weights_at in *. simpl in Hr.
  destruct (negb _ && negb _); inv_ok Hr; done.
Qed.

(** the delegators of a commitment never accrue more from a distribution than
    their part of the pools' rewards: whatever the delegations that were settled
    before accrue afterwards, all together, is at most the delegators' total that
    the distribution computed. *)
Theorem delegators_share_covered e id pools s c bonus s' c' l gains s1 s2 :
  distribute e id pools (s, c) = (Ok bonus, (s', c')) ->
  Forall (settled (reward_per_weight c.(cm_pool_rewards).(MemoryBuffer.current).2)) l ->
  sum_weights l <= (weights_at c e).(delegations_reward_weight) ->
  accrue_all id c'.(cm_pool_rewards).(MemoryBuffer.current).2 l s1 = (Ok gains, s2) ->
  exists st0 st tot sc1,
    c.(cm_stake) = Some st0 /\
    distribute_pools e id (weights_at c e) st0 pools (s, c) = (Ok (st, (tot, bonus)), sc1) /\
    (0 <= tot -> gains <= tot).
Proof.
  intros Hdist Hl Hw Hacc.
  destruct (distribute_effect _ _ _ _ _ _ _ _ Hdist) as (st0 & st & tot & sc1 & Hst0 & Hd & Heff).
  exists st0, st, tot, sc1. split; [exact Hst0|]. split; [exact Hd|]. intros Htot. unfold accrue_all in Hacc.
  set (W := delegations_reward_weight (weights_at c e)) in *. set (r := reward_per_weight _) in Hl.
  destruct (negb (W =? 0) && negb (tot =? 0)) eqn:Eb.
  - apply andb_true_iff in Eb as [HW%negb_true_iff%Z.eqb_neq _].
    rewrite MemoryBuffer.mutate_set in Heff. apply MemoryBuffer.set_current in Heff.
    rewrite Heff in Hacc. simpl in Hacc. pose proof ptd_pos.
    assert (0 <= sum_weights l) as Hpos.
    { clear -Hl. induction Hl as [|d l [? _] _ IH]; simpl; lia. }
    assert (0 <= tot * PTD / W) as Hextra by (apply Z.div_pos; nia).
    eapply (accrue_all_bound id r (tot * PTD / W)) in Hacc as [Hle _];
      [|done|done|simpl; unfold saturating_add; fold r; lia].
    assert (sum_weights l * (tot * PTD / W) / PTD <= tot) as Hfin; [|lia].
    apply Z.div_le_upper_bound; [done|].
    pose proof (div_mul_le (tot * PTD) W). nia.
  - rewrite Heff in Hacc.
    eapply (accrue_all_bound id r 0) in Hacc as [Hle _]; [|done|done|fold r; lia].
    rewrite Z.mul_0_r in Hle. change (0 / PTD) with 0 in Hle. lia.
Qed.

(** A delegation that has just accrued on [pr]. *)
Record just_accrued (pr : PoolReward) (d : Delegation) : Prop := {
  ja_pos : 0 <= d.(dl_reward_weight) * pr.(reward_per_weight);
  ja_ceil : d.(dl_reward_weight) * pr.(reward_per_weight) + PTD <= u256_max;
  ja_debt : d.(dl_reward_debt) = (d.(dl_reward_weight) * pr.(reward_per_weight) + PTD - 1) / PTD;
  ja_debt_max : d.(dl_reward_debt) <= u128_max;
  ja_floor : d.(dl_slash_weight) * pr.(slash_per_weight) <= u256_max;
  ja_slash : d.(dl_slash_debt) = d.(dl_slash_weight) * pr.(slash_per_weight) / PTD;
  ja_slash_max : d.(dl_slash_debt) <= u128_max;
  ja_reward : d.(dl_stake).(st_accrued_reward) <= u128_max;
  ja_accrued : d.(dl_stake).(st_accrued_slash) <= u128_max;
  ja_rewardable : d.(dl_stake).(st_rewardable_amount) <= d.(dl_stake).(st_amount);
}.

Lemma sanitize_sane id d s :
  d.(dl_stake).(st_rewardable_amount) <= d.(dl_stake).(st_amount) ->
  sanitize_delegation id d s = (Ok (d, false), s).
Proof.
  intros Hle. apply Z.leb_le in Hle. unfold sanitize_delegation. apply bind_ok.
  eexists _, s. split; [by apply get_epoch_ok|]. by rewrite Hle.
Qed.

Lemma set_accrued_id d a r :
  a = d.(dl_stake).(st_accrued_slash) -> r = d.(dl_stake).(st_accrued_reward) ->
  set_dl_stake (set_st_accrued_slash a (set_st_accrued_reward r d.(dl_stake))) d = d.
Proof. intros -> ->. by destruct d as [[] ? ? ? ?]. Qed.

(** One step of a run whose result is known, by its rule. *)
Ltac run_step rule :=
  apply bind_ok; eexists _, _; split; [apply rule; repeat split; try reflexivity; try lia|].

Lemma just_accrued_stable id pr d s : just_accrued pr d -> accrue_with id pr d s = (Ok d, s).
Proof.
  intros [Hp Hc Hd Hdm Hf Hs Hsm Hr Ha Hrw]. pose proof ptd_pos as HP.
  assert (dl_reward_weight d * reward_per_weight pr / PTD <= dl_reward_debt d) as Hle.
  { rewrite Hd. apply Z.div_le_mono; lia. }
  unfold accrue_with. run_step per_weight_floor_ok. run_step as_u128_p_ok.
  run_step per_weight_floor_ok. run_step as_u128_p_ok. run_step sub_c_ok.
  run_step add128_c_ok; try (unfold saturating_sub; lia). run_step add128_c_ok.
  rewrite set_accrued_id by (unfold saturating_sub; lia).
  apply bind_ok. eexists _, s. split; [by apply sanitize_sane|]. simpl.
  apply bind_ok. eexists _, s. split; [by apply per_weight_ceil_ok|].
  run_step as_u128_p_ok. run_step per_weight_floor_ok. run_step as_u128_p_ok.
  apply ret_ok. split; [|done]. rewrite <-Hs. by destruct d.
Qed.

(** accruing twice is accruing once: a second accrual on the same pool rewards
    succeeds and changes neither the delegation nor the storage. *)
Theorem accrue_with_idempotent id pr d s d' s' :
  0 <= d.(dl_reward_weight) -> stake_range d.(dl_stake) -> 0 < MaxCooldownPeriod ->
  0 <= pr.(reward_per_weight) -> is_perquintill CooldownRewardRatio ->
  accrue_with id pr d s = (Ok d', s') ->
  accrue_with id pr d' s' = (Ok d', s').
Proof.
  intros Hrw Hst HM Hr Hcr Ha. apply just_accrued_stable. unfold accrue_with in Ha. inv_ok Ha.
  frame_eqs. rename select (sanitize_delegation _ _ _ = _) into Hs.
  destruct (sanitize_accrued _ _ _ _ _ Hs) as [Ha1 Ha2].
  apply sanitize_bounds in Hs as [Hb1 Hb2]; try done.
  2: { destruct Hst as (? & ? & ? & ?). unfold stake_range, saturating_sub in *; simpl. lia. }
  rename select (per_weight_ceil _ _ _ = _) into Hc. apply per_weight_ceil_ok in Hc as [[-> Hcm] _]; [|nia].
  constructor; simpl; rewrite ?Ha1, ?Ha2; simpl; lia.
Qed.
End specs.

(** ** The run of [Reference] *)
#[local] Existing Instance small.

Definition d_rewarded : Delegation :=
  {| dl_stake := Stake_new 500 11 20 true; dl_reward_weight := 100; dl_slash_weight := 100;
     dl_reward_debt := 0; dl_slash_debt := 0 |}.
Definition pr_rewarded : PoolReward :=
  {| reward_per_weight := 126 * 10 ^ 29; slash_per_weight := 10 ^ 29 |}.

Definition d_accrued : Delegation :=
  {| dl_stake := set_st_accrued_slash 10 (set_st_accrued_reward 1260 (Stake_new 500 11 20 true));
     dl_reward_weight := 100; dl_slash_weight := 100; dl_reward_debt := 1260; dl_slash_debt := 10 |}.

Lemma accrue_with_idempotent_witness :
  result (accrue_with 0 pr_rewarded d_rewarded) s_rewarded = Ok d_accrued /\
  exists s', accrue_with 0 pr_rewarded d_accrued s' = (Ok d_accrued, s').
Proof.
  assert (0 <= dl_reward_weight d_rewarded) as H1 by by_compute.
  assert (stake_range (dl_stake d_rewarded)) as H2 by by_compute.
  assert (0 < MaxCooldownPeriod (Config := small)) as H3 by by_compute.
  assert (0 <= reward_per_weight pr_rewarded) as H4 by by_compute.
  assert (is_perquintill (CooldownRewardRatio (Config := small))) as H5 by by_compute.
  assert (result (accrue_with 0 pr_rewarded d_rewarded) s_rewarded = Ok d_accrued) as Hrun by by_compute.
  split; [exact Hrun|]. eexists.
  exact (accrue_with_idempotent 0 pr_rewarded d_rewarded s_rewarded d_accrued _ H1 H2 H3 H4 H5
           (result_exec _ _ _ Hrun)).
Defined.

(** The heartbeat of the third epoch distributes the second one to the committer
    and to the delegator, who then accrues all of the 630 that are due. *)
Definition s_epoch3 : State := blocks 10 (exec heartbeat (blocks 10 s_delegated)).
Definition c_epoch3 : Commitment :=
  {| cm_stake := Some (Stake_new 1000 11 50 true); cm_commission := 10 ^ 8;
     cm_delegations_total_amount := 500; cm_delegations_total_rewardable_amount := 500;
     cm_weights := MemoryBuffer.new_with 1
       {| self_reward_weight := 500; self_slash_weight := 500;
          delegations_reward_weight := 100; delegations_slash_weight := 100 |};
     cm_pool_rewards := MemoryBuffer.new_with 11 PoolReward_default;
     cm_last_scoring_epoch := 2; cm_last_slashing_epoch := 0 |}.

Definition sc_epoch3 : State * Commitment := exec (distribute 2 0 [1]) (s_epoch3, c_epoch3).

Lemma delegators_share_covered_witness :
  result (accrue_all 0 sc_epoch3.2.(cm_pool_rewards).(MemoryBuffer.current).2 [d_rewarded]) sc_epoch3.1 =
    Ok 630 /\
  exists st0 st tot sc1, c_epoch3.(cm_stake) = Some st0 /\
    distribute_pools 2 0 (weights_at c_epoch3 2) st0 [1] (s_epoch3, c_epoch3) = (Ok (st, (tot, 0)), sc1) /\
    (0 <= tot -> 630 <= tot).
Proof.
  assert (result (distribute 2 0 [1]) (s_epoch3, c_epoch3) = Ok 0) as Hd by by_compute.
  assert (result (accrue_all 0 sc_epoch3.2.(cm_pool_rewards).(MemoryBuffer.current).2 [d_rewarded])
            sc_epoch3.1 = Ok 630) as Ha by by_compute.
  assert (settled (reward_per_weight (MemoryBuffer.current (cm_pool_rewards c_epoch3)).2) d_rewarded) as Hs
    by by_compute.
  assert (sum_weights [d_rewarded] <= delegations_reward_weight (weights_at c_epoch3 2)) as Hw by by_compute.
  assert (distribute 2 0 [1] (s_epoch3, c_epoch3) = (Ok 0, (sc_epoch3.1, sc_epoch3.2))) as Hd'.
  { rewrite <-surjective_pairing. unfold sc_epoch3. apply result_exec, Hd. }
  apply result_exec in Ha as Ha'. split; [exact Ha|].
  refine (delegators_share_covered 2 0 [1] s_epoch3 c_epoch3 0 sc_epoch3.1 sc_epoch3.2 [d_rewarded] 630
           sc_epoch3.1 _ Hd' _ Hw Ha').
  constructor; [exact Hs|constructor].
Defined.
