(* ===== verification/PoolSpecs.v ===== *)
(** Metric pools, epochs and inflation: the rewards of the pools never exceed the
    whole, the names and ids of the pools agree, the epochs follow the blocks and
    an epoch's inflation is what it distributes. *)
From S2P Require Import Prelude Perthings Buffers ComputeTypes ComputePools Rewards Staking.
From S2P Require Import Delegation ComputeMetrics ComputeCalls Reference Frames RewardSpecs.

Lemma elem_of_dedup x l : x ∈ dedup l <-> x ∈ l.
Proof.
  induction l as [|y l IH]; [done|]. destruct l as [|z l]; [done|].
  change (dedup (y :: z :: l)) with (if y =? z then dedup (z :: l) else y :: dedup (z :: l)).
  destruct (Z.eqb_spec y z) as [->|].
  - rewrite IH. rewrite !elem_of_cons. tauto.
  - rewrite !elem_of_cons, IH, !elem_of_cons. tauto.
Qed.

Lemma elem_of_epochs_to_test pools cur e :
  e ∈ epochs_to_test pools cur <->
  e = cur \/ exists p, p ∈ pools /\ ProvisionalBuffer.next_epoch p.(mp_reward) cur = Some e.
Proof.
  unfold epochs_to_test. rewrite elem_of_dedup, merge_sort_Permutation, elem_of_cons, list_elem_of_omap.
  naive_solver.
Qed.

(** The largest element of a list that is at most a bound. *)
Lemma last_before (l : list Z) c e :
  c ∈ l -> c <= e -> exists m, m ∈ l /\ c <= m <= e /\ forall x, x ∈ l -> x <= e -> x <= m.
Proof.
  intros Hc He.
  assert (forall l' : list Z, (forall x, x ∈ l' -> x ∈ l) ->
    exists m : Z, m ∈ l /\ c <= m <= e /\ forall x : Z, x ∈ l' -> x <= e -> x <= m) as Hgen.
  { induction l' as [|y l' IH]; intros Hsub.
    - exists c. split_and!; [done|lia|lia|]. intros x Hx. by apply elem_of_nil in Hx.
    - destruct IH as (m & Hm & ? & Hmax); [intros x Hx; apply Hsub; by right|].
      destruct (decide (m < y <= e)).
      + exists y. split_and!; [apply Hsub; by left|lia|lia|].
        intros x [->|Hx]%elem_of_cons Hxe; [lia|]. specialize (Hmax x Hx Hxe). lia.
      + exists m. split_and!; [done|lia|lia|].
        intros x [->|Hx]%elem_of_cons Hxe; [lia|]. by apply Hmax. }
  by apply Hgen.
Qed.

Definition pools_sum (pools : list MetricPool) (e : Epoch_) : Z :=
  foldr (fun p acc => ProvisionalBuffer.get p.(mp_reward) e + acc) 0 pools.

(** The rewards of a pool, now and scheduled, are ratios. *)
Definition reward_ok (p : MetricPool) : Prop := forall e, is_perquintill (ProvisionalBuffer.get p.(mp_reward) e).

Lemma pools_sum_ext pools e e' :
  (forall p, p ∈ pools -> ProvisionalBuffer.get p.(mp_reward) e = ProvisionalBuffer.get p.(mp_reward) e') ->
  pools_sum pools e = pools_sum pools e'.
Proof.
  induction pools as [|p pools IH]; intros Hp; [done|]. simpl. rewrite (Hp p) by (by left).
  rewrite IH; [done|]. intros q Hq. apply Hp. by right.
Qed.

(** Between two change points the rewards of all pools stand still. *)
Lemma pools_sum_tested pools cur e :
  cur <= e -> exists t, t ∈ epochs_to_test pools cur /\ cur <= t /\ pools_sum pools e = pools_sum pools t.
Proof.
  intros Hle. destruct (last_before (epochs_to_test pools cur) cur e) as (m & Hm & Hcm & Hmax); [|done|].
  { apply elem_of_epochs_to_test. by left. }
  exists m. split_and!; [done|lia|]. apply pools_sum_ext. intros p Hp.
  assert (forall ne, ProvisionalBuffer.next_epoch (mp_reward p) cur = Some ne -> ne <= e -> ne <= m) as Hn.
  { intros ne Hne. apply Hmax. apply elem_of_epochs_to_test. eauto. }
  unfold ProvisionalBuffer.get, ProvisionalBuffer.next_epoch in *.
  destruct (ProvisionalBuffer.next_ (mp_reward p)) as [[ne v]|]; [|done].
  destruct (Z.ltb_spec cur ne) as [Hlt|Hge].
  - specialize (Hn ne eq_refl). destruct (Z.leb_spec ne e), (Z.leb_spec ne m); lia || done.
  - destruct (Z.leb_spec ne e), (Z.leb_spec ne m); lia || done.
Qed.

Lemma foldr_init_add {A} (f : A -> Z) (l : list A) z :
  foldr (fun a acc => f a + acc) z l = foldr (fun a acc => f a + acc) 0 l + z.
Proof. induction l as [|a l IH]; simpl; lia. Qed.

Lemma pools_sum_snoc pools p e :
  pools_sum (pools ++ [p]) e = pools_sum pools e + ProvisionalBuffer.get p.(mp_reward) e.
Proof. unfold pools_sum. rewrite foldr_app. rewrite foldr_init_add. simpl. lia. Qed.

Section specs.
Context {P : Perthings} {PL : PerthingsLaws P} {C : Config} {X : Externals}.
Notation MC := (M State Error).
Implicit Types s : State.

Lemma pools_sum_nonneg pools e : Forall reward_ok pools -> 0 <= pools_sum pools e.
Proof.
  induction 1 as [|p pools Hp _ IH]; simpl; [done|]. pose proof (Hp e) as [? _]. lia.
Qed.

Lemma sum_rewards_run pools e acc s :
  Forall reward_ok pools -> is_perquintill acc ->
  mfold pools acc (fun reward_sum p =>
    ok_or (pq_checked_add reward_sum (ProvisionalBuffer.get p.(mp_reward) e)) InvalidTotalPoolRewards) s =
  (if acc + pools_sum pools e <=? PERQUINTILL then Ok (acc + pools_sum pools e)
   else Err InvalidTotalPoolRewards, s).
Proof.
  intros Hp. revert acc. induction Hp as [|p pools Hp Hps IH]; intros acc Ha; simpl.
  - unfold ret. rewrite Z.add_0_r. destruct Ha as [? Ha]. apply Z.leb_le in Ha. by rewrite Ha.
  - pose proof (pools_sum_nonneg pools e Hps). pose proof (Hp e) as Hpe.
    unfold bind. rewrite pq_checked_add_spec by done. unfold checked_add, ok_or, ret, throw.
    destruct (Z.leb_spec (acc + ProvisionalBuffer.get (mp_reward p) e) PERQUINTILL) as [Hle|Hgt].
    + rewrite IH by (unfold is_perquintill in *; lia). by rewrite <-Z.add_assoc.
    + by destruct (Z.leb_spec (acc + (ProvisionalBuffer.get (mp_reward p) e + pools_sum pools e)) PERQUINTILL);
        [lia|].
Qed.

Lemma validate_run pools cur s :
  Forall reward_ok pools ->
  validate_metric_pools pools cur s =
  (if forallb (fun e => pools_sum pools e <=? PERQUINTILL) (epochs_to_test pools cur) then Ok tt
   else Err InvalidTotalPoolRewards, s).
Proof.
  intros Hp. unfold validate_metric_pools. induction (epochs_to_test pools cur) as [|e l IH]; [done|].
  simpl. unfold bind at 1 2. rewrite sum_rewards_run by (done || by vm_compute).
  rewrite Z.add_0_l. by destruct (pools_sum pools e <=? PERQUINTILL).
Qed.

Lemma validate_iff pools cur s u s' :
  Forall reward_ok pools ->
  validate_metric_pools pools cur s = (Ok u, s') <->
  s' = s /\ forall e, cur <= e -> pools_sum pools e <= PERQUINTILL.
Proof.
  intros Hp. rewrite validate_run by done. destruct u. split.
  - case_match eqn:Hall; intros Hr; simplify_eq. split; [done|]. intros e He.
    destruct (pools_sum_tested pools cur e He) as (t & Ht & _ & ->).
    rewrite forallb_forall in Hall. apply Z.leb_le, Hall. by apply list_elem_of_In.
  - intros [-> Hall]. assert (forallb (fun e => pools_sum pools e <=? PERQUINTILL)
      (epochs_to_test pools cur) = true) as ->; [|done].
    apply forallb_forall. intros e He%list_elem_of_In. apply Z.leb_le, Hall.
    apply elem_of_epochs_to_test in He as [->|(p & _ & Hn)]; [done|].
    apply ProvisionalBuffer.next_epoch_gt in Hn. lia.
Qed.

(** checking the rewards at the current epoch and at the scheduled changes is
    enough: the validation of a list of pools succeeds exactly when the rewards add
    up to at most 100% in every epoch from the current one on; otherwise it fails
    with the pallet's error and it never writes. *)
Theorem validate_metric_pools_complete pools cur s :
  Forall reward_ok pools ->
  (validate_metric_pools pools cur s = (Ok tt, s) <->
   forall e, cur <= e -> pools_sum pools e <= PERQUINTILL) /\
  (validate_metric_pools pools cur s <> (Ok tt, s) ->
   validate_metric_pools pools cur s = (Err InvalidTotalPoolRewards, s)).
Proof.
  intros Hp. split; [rewrite validate_iff by done; naive_solver|].
  rewrite validate_run by done. by case_match.
Qed.

(** ** The pools of the storage *)
Record pools_inv (s : State) : Prop := {
  pi_last : 0 <= s.(last_metric_pool_id) <= u8_max;
  pi_ids : forall id p, s.(metric_pools) !! id = Some p -> 1 <= id <= s.(last_metric_pool_id);
  pi_rewards : forall id p, s.(metric_pools) !! id = Some p -> reward_ok p;
  pi_lookup : forall name id, s.(metric_pool_lookup) !! name = Some id <->
    exists p, s.(metric_pools) !! id = Some p /\ p.(mp_name) = name;
  pi_sum : forall e, s.(current_cycle).(cy_epoch) <= e ->
    gsum (fun _ p => ProvisionalBuffer.get p.(mp_reward) e) s.(metric_pools) <= PERQUINTILL;
}.

Lemma pools_sum_gsum s e :
  (forall id p, s.(metric_pools) !! id = Some p -> 0 <= id <= u8_max) ->
  pools_sum (iter_u8 s.(metric_pools)).*2 e =
  gsum (fun _ p => ProvisionalBuffer.get p.(mp_reward) e) s.(metric_pools).
Proof. intros Hid. exact (iter_u8_gsum (fun p => ProvisionalBuffer.get p.(mp_reward) e) _ Hid). Qed.

Lemma rewards_ok_iter (m : gmap Z MetricPool) :
  (forall id p, m !! id = Some p -> reward_ok p) -> Forall reward_ok (iter_u8 m).*2.
Proof.
  intros Hp. apply Forall_forall. intros p Hin. apply list_elem_of_fmap in Hin as ([id q] & -> & Hq).
  apply elem_of_iter_u8 in Hq as [_ Hq]. by eapply Hp.
Qed.

Lemma reward_ok_new p r :
  is_perquintill r -> p.(mp_reward) = ProvisionalBuffer.new r -> reward_ok p.
Proof. intros Hr Hp e. by rewrite Hp. Qed.

Lemma reward_ok_set p b cur e v :
  reward_ok p -> is_perquintill v -> ProvisionalBuffer.set p.(mp_reward) cur e v = Some b ->
  reward_ok (set_mp_reward b p).
Proof.
  intros Hp Hv Hs x. unfold reward_ok, ProvisionalBuffer.get, ProvisionalBuffer.set in *. simpl.
  destruct (mp_reward p) as [c [[ne nv]|]]; simpl in *.
  - pose proof (Hp ne) as Hn. rewrite Z.leb_refl in Hn.
    pose proof (Hp (ne - 1)) as Hc. destruct (Z.leb_spec ne (ne - 1)); [lia|].
    repeat case_match; simplify_eq/=; done.
  - repeat case_match; simplify_eq/=; try done; by apply (Hp 0).
Qed.

(** Creating a pool. *)
Lemma pools_inv_create s s' name pool id :
  pools_inv s -> id = s.(last_metric_pool_id) + 1 -> id <= u8_max ->
  s.(metric_pool_lookup) !! name = None -> pool.(mp_name) = name -> reward_ok pool ->
  s'.(last_metric_pool_id) = id -> s'.(metric_pools) = <[id := pool]> s.(metric_pools) ->
  s'.(metric_pool_lookup) = <[name := id]> s.(metric_pool_lookup) ->
  s'.(current_cycle) = s.(current_cycle) ->
  (forall e, s.(current_cycle).(cy_epoch) <= e ->
     pools_sum ((iter_u8 s.(metric_pools)).*2 ++ [pool]) e <= PERQUINTILL) ->
  pools_inv s' /\ s.(metric_pools) !! id = None.
Proof.
  intros [Hl Hid Hrw Hlk Hsum] Hidn Hmax Hname Hpn Hpool Hl' Hp' Hlk' Hcy Hv.
  assert (s.(metric_pools) !! id = None) as Hfresh.
  { destruct (metric_pools s !! id) as [q|] eqn:E; [|done]. specialize (Hid _ _ E). lia. }
  split; [|done]. constructor; rewrite ?Hl', ?Hp', ?Hlk', ?Hcy.
  - lia.
  - intros id' q [[<- <-]|[_ Hq]]%lookup_insert_Some; [lia|]. specialize (Hid _ _ Hq). lia.
  - intros id' q [[_ <-]|[_ Hq]]%lookup_insert_Some; [done|by eapply Hrw].
  - intros n id'. rewrite lookup_insert_Some, Hlk. split.
    + intros [[<- <-]|(Hne & q & Hq & <-)]; [exists pool; by rewrite lookup_insert_eq|].
      exists q. rewrite lookup_insert_ne; [done|]. intros ->. congruence.
    + intros (q & Hq & <-). apply lookup_insert_Some in Hq as [[<- <-]|[Hne Hq]]; [by left|].
      right. split; [|by exists q]. intros Heq.
      assert (metric_pool_lookup s !! name = Some id') as Hl1 by (apply Hlk; exists q; by rewrite Heq).
      congruence.
  - intros e He. specialize (Hv e He). rewrite gsum_insert_new by done. rewrite pools_sum_snoc in Hv.
    rewrite pools_sum_gsum in Hv; [lia|]. intros i q Hq. specialize (Hid _ _ Hq). lia.
Qed.

Lemma do_create_pool_inv name ratio config s r s' :
  pools_inv s -> is_perquintill ratio ->
  do_create_pool name ratio config s = (Ok r, s') ->
  pools_inv s' /\ s.(metric_pools) !! r.1 = None /\ s'.(metric_pools) = <[r.1 := r.2]> s.(metric_pools) /\
  s'.(metric_pool_lookup) = <[name := r.1]> s.(metric_pool_lookup) /\
  r.1 = s.(last_metric_pool_id) + 1.
Proof.
  intros Hinv Hrt Hr. unfold do_create_pool in Hr. inv_ok Hr.
  rename select (validate_metric_pools _ _ _ = _) into Hv.
  rename select (bool_decide _ = true) into Hname. apply bool_decide_eq_true_1 in Hname.
  set (pool := {| mp_config := config |}) in *.
  assert (reward_ok pool) as Hpool by (by eapply reward_ok_new).
  apply validate_iff in Hv as [-> Hv];
    [|apply Forall_app; split; [eapply rewards_ok_iter, pi_rewards, Hinv|by constructor]].
  match goal with H : last_metric_pool_id ?s0 + 1 <= _ |- context [set_metric_pool_lookup ?m ?s1] =>
    destruct (pools_inv_create s0 (set_metric_pool_lookup m s1) name pool _ Hinv eq_refl H Hname
                eq_refl Hpool eq_refl eq_refl eq_refl eq_refl Hv) as [Hinv' Hfresh] end.
  split; [exact Hinv'|]. split; [exact Hfresh|]. repeat split.
Qed.

(** Modifying a pool. *)
Definition modified_lookup (id : PoolId) (p p' : MetricPool) (lk lk' : gmap MetricPoolName PoolId) : Prop :=
  (lk' = lk /\ p'.(mp_name) = p.(mp_name)) \/
  (lk' = <[p'.(mp_name) := id]> (delete p.(mp_name) lk) /\
   forall id', lk !! p'.(mp_name) = Some id' -> id' = id).

Lemma pools_inv_modify s s' id p p' :
  pools_inv s -> s.(metric_pools) !! id = Some p -> reward_ok p' ->
  s'.(metric_pools) = <[id := p']> s.(metric_pools) ->
  modified_lookup id p p' s.(metric_pool_lookup) s'.(metric_pool_lookup) ->
  s'.(last_metric_pool_id) = s.(last_metric_pool_id) -> s'.(current_cycle) = s.(current_cycle) ->
  (forall e, s.(current_cycle).(cy_epoch) <= e ->
     pools_sum (iter_u8 s'.(metric_pools)).*2 e <= PERQUINTILL) ->
  pools_inv s'.
Proof.
  intros [Hl Hid Hrw Hlk Hsum] Hp Hrp Hp' Hlk' Hl' Hcy Hv.
  assert (forall id' q, s'.(metric_pools) !! id' = Some q -> 1 <= id' <= s'.(last_metric_pool_id)) as Hid'.
  { intros id' q. rewrite Hp', Hl'. intros [[<- <-]|[_ Hq]]%lookup_insert_Some; by eapply Hid. }
  constructor; [by rewrite Hl'|done| | |].
  - intros id' q. rewrite Hp'. intros [[_ <-]|[_ Hq]]%lookup_insert_Some; [done|by eapply Hrw].
  - intros n id'. rewrite Hp'. destruct Hlk' as [[-> Hn]|[-> Hfree]].
    + rewrite Hlk. split; intros (q & Hq & <-).
      * destruct (decide (id = id')) as [<-|Hne]; [|exists q; by rewrite lookup_insert_ne].
        exists p'. rewrite lookup_insert_eq. split; [done|]. congruence.
      * apply lookup_insert_Some in Hq as [[<- <-]|[Hne Hq]]; [|by exists q]. by exists p.
    + rewrite lookup_insert_Some, lookup_delete_Some, Hlk. split.
      * intros [[<- <-]|(Hne & Hne' & q & Hq & <-)]; [exists p'; by rewrite lookup_insert_eq|].
        exists q. rewrite lookup_insert_ne; [done|]. intros ->. congruence.
      * intros (q & Hq & <-). apply lookup_insert_Some in Hq as [[<- <-]|[Hne Hq]]; [by left|].
        right. split_and!; [| |by exists q].
        -- intros Heq. apply Hne. symmetry. apply Hfree. apply Hlk. by exists q.
        -- intros Heq. apply Hne. assert (metric_pool_lookup s !! mp_name p = Some id) by (apply Hlk; eauto).
           assert (metric_pool_lookup s !! mp_name p = Some id') by (apply Hlk; exists q; by rewrite Heq).
           congruence.
  - intros e He. rewrite Hcy in He. rewrite <-pools_sum_gsum; [by apply Hv|].
    intros i q Hq. specialize (Hid' i q Hq). rewrite Hl' in Hid'. lia.
Qed.

Lemma modify_pool_entry_ok id name rw config e o s r s' :
  from_option (fun x => is_perquintill x.2) True rw ->
  modify_pool_entry id name rw config e o s = (Ok r, s') ->
  exists p p', o = Some p /\ r.1 = Some p' /\ (reward_ok p -> reward_ok p') /\
    s' = set_metric_pool_lookup s'.(metric_pool_lookup) s /\
    modified_lookup id p p' s.(metric_pool_lookup) s'.(metric_pool_lookup).
Proof.
  intros Hrw Hr. unfold modify_pool_entry in Hr. inv_ok Hr.
  match goal with H1 : (match name with _ => _ end) _ = (Ok ?x, ?y), H2 : (match rw with _ => _ end) _ = _ |- _ =>
    rename H1 into Hn, H2 into Hw, x into p1, y into sn end.
  eexists _, _. split; [reflexivity|]. split; [reflexivity|].
  assert (mp_reward p1 = mp_reward a /\ s' = sn) as [Hp1 ->].
  { split; [destruct name; inv_ok Hn; done|]. destruct rw as [[? ?]|]; by inv_ok Hw. }
  assert (mp_name a1 = mp_name p1 /\ (reward_ok p1 -> reward_ok a1)) as [Hp2 Hok].
  { destruct rw as [[? ?]|]; inv_ok Hw; [|done]. split; [done|]. intros Hok. by eapply reward_ok_set. }
  split_and!.
  - intros Ha. apply Hok. intros x. rewrite Hp1. apply Ha.
  - destruct name; run_ok Hn; try reflexivity; by destruct sn.
  - unfold modified_lookup; simpl. rewrite Hp2. destruct name as [n|]; [|inv_ok Hn; by left].
    right. run_ok Hn; (split; [reflexivity|]); intros id' Hid'; simpl in *; simplify_eq/=.
    all: repeat match goal with H : (_ =? _) = true |- _ => apply Z.eqb_eq in H end; congruence.
Qed.
End specs.

(** ** The run of [Reference] *)
#[local] Existing Instance small.

Definition pool_of (name ratio : Z) : MetricPool :=
  {| mp_config := []; mp_name := [name]; mp_reward := ProvisionalBuffer.new ratio;
     mp_total := SlidingBuffer.new 0 0; mp_total_with_bonus := SlidingBuffer.new 0 0 |}.

(** Sixty and thirty percent, and the second one is to become forty-one percent. *)
Definition pool_60 : MetricPool := pool_of 112 (percent 60).
Definition pool_30 : MetricPool := pool_of 113 (percent 30).
Definition pool_41 : MetricPool :=
  set_mp_reward {| ProvisionalBuffer.current := percent 30;
                   ProvisionalBuffer.next_ := Some (9, percent 41) |} pool_30.

Lemma reward_ok_pool_of name ratio : is_perquintill ratio -> reward_ok (pool_of name ratio).
Proof. intros Hr. by eapply reward_ok_new. Qed.

Lemma validate_metric_pools_complete_witness :
  result (validate_metric_pools [pool_60; pool_41] 7) genesis = Err InvalidTotalPoolRewards /\
  (forall e, 7 <= e -> pools_sum [pool_60; pool_30] e <= PERQUINTILL).
Proof.
  assert (reward_ok pool_60) as H6 by (apply reward_ok_pool_of; by_compute).
  assert (reward_ok pool_30) as H3 by (apply reward_ok_pool_of; by_compute).
  assert (reward_ok pool_41) as H4.
  { intros e. unfold ProvisionalBuffer.get; simpl. case_match; by_compute. }
  assert (result (validate_metric_pools [pool_60; pool_30] 7) genesis = Ok tt) as Hv by by_compute.
  split.
  - assert (Forall reward_ok [pool_60; pool_41]) as HF
      by exact (Forall_cons_2 _ _ _ H6 (Forall_cons_2 _ _ _ H4 (Forall_nil_2 _))).
    refine (f_equal fst (proj2 (validate_metric_pools_complete [pool_60; pool_41] 7 genesis HF) _)).
    intros Heq. apply (f_equal fst) in Heq. revert Heq. clear. vm_compute. discriminate.
  - assert (Forall reward_ok [pool_60; pool_30]) as HF
      by exact (Forall_cons_2 _ _ _ H6 (Forall_cons_2 _ _ _ H3 (Forall_nil_2 _))).
    apply (validate_metric_pools_complete [pool_60; pool_30] 7 genesis HF).
    apply result_exec in Hv. apply (validate_iff _ _ _ _ _ HF) in Hv as Hs. destruct Hs as [Hs _].
    rewrite Hs in Hv. exact Hv.
Defined.
