(* ===== verification/PoolInvariant.v ===== *)
(** The invariant of the metric pools along every run of the chain. *)
From S2P Require Import Prelude Perthings Buffers ComputeTypes ComputePools Rewards Staking.
From S2P Require Import Delegation ComputeMetrics ComputeCalls Reference Frames StakeLedger StakingSim.
From S2P Require Import StakingSpecs RewardSpecs PoolSpecs.

Section invariant.
Context {P : Perthings} {PL : PerthingsLaws P} {C : Config} {X : Externals}.
Notation MC := (M State Error).
Implicit Types s : State.

(** What the invariant of the pools is about. *)
Definition pool_view (p : MetricPool) := (p.(mp_name), p.(mp_reward)).
Definition pools_view (s : State) :=
  (s.(last_metric_pool_id), pool_view <$> s.(metric_pools), s.(metric_pool_lookup)).
Definition pools_clock (s : State) := (pools_view s, s.(current_cycle), s.(block_number)).

Ltac solve_clock :=
  repeat first
    [ solve [eauto 3 with framed]
    | framed_step
    | progress unfold try_mutate_commitment, try_mutate_delegation
    | apply framed_try_mutate; [reflexivity|intros ?] ].

Lemma pf_deposit_event e : framed pools_clock (deposit_event e).
Proof. unfold deposit_event. solve_framed. Qed.
Lemma pf_update_total_stake c : framed pools_clock (update_total_stake c).
Proof. unfold update_total_stake. solve_framed. Qed.
Lemma pf_update_delegator_total w c : framed pools_clock (update_delegator_total w c).
Proof. unfold update_delegator_total. solve_framed. Qed.
Hint Resolve pf_deposit_event pf_update_total_stake pf_update_delegator_total : framed.

Lemma pf_validate_metrics id l : framed pools_clock (validate_max_metric_store_commitments id l).
Proof. unfold validate_max_metric_store_commitments, validate_metric_commitment. solve_framed. Qed.
Lemma pf_stake_for w a p c b : framed pools_clock (stake_for w a p c b).
Proof. unfold stake_for. solve_clock. Qed.
Lemma pf_change_commission id c x : framed pools_clock (change_commission id c x).
Proof. unfold change_commission. solve_clock. Qed.
Hint Resolve pf_validate_metrics pf_stake_for pf_change_commission : framed.
Lemma pf_stake_more_for w a p c b : framed pools_clock (stake_more_for w a p c b).
Proof. unfold stake_more_for. solve_clock. Qed.
Lemma pf_decrease_committer_stake w id a : framed pools_clock (decrease_committer_stake w id a).
Proof. unfold decrease_committer_stake. solve_clock. Qed.
Lemma pf_withdraw_committer_for w id : framed pools_clock (withdraw_committer_for w id).
Proof. unfold withdraw_committer_for, withdraw_committer_accrued. solve_clock. Qed.
Hint Resolve pf_stake_more_for pf_decrease_committer_stake pf_withdraw_committer_for : framed.
Lemma pf_compound_committer w id : framed pools_clock (compound_committer w id).
Proof. unfold compound_committer. solve_clock. Qed.
Lemma pf_cooldown_commitment_for id : framed pools_clock (cooldown_commitment_for id).
Proof. unfold cooldown_commitment_for. solve_clock. Qed.
Lemma pf_end_commitment_for w id b : framed pools_clock (end_commitment_for w id b).
Proof. unfold end_commitment_for, clear_compute_commitments. solve_clock. Qed.
Lemma pf_delegate_for w id a p b : framed pools_clock (delegate_for w id a p b).
Proof. unfold delegate_for, delegate_in, write_delegation. solve_clock. Qed.
Lemma pf_sanitize id d : framed pools_clock (sanitize_delegation id d).
Proof. unfold sanitize_delegation. solve_clock. Qed.
Hint Resolve pf_compound_committer pf_cooldown_commitment_for pf_end_commitment_for pf_delegate_for
  pf_sanitize : framed.
Lemma pf_accrue_delegator w id : framed pools_clock (accrue_delegator w id).
Proof. unfold accrue_delegator, accrue_with. solve_clock. Qed.
Lemma pf_decrease_delegator_stake w id a : framed pools_clock (decrease_delegator_stake w id a).
Proof. unfold decrease_delegator_stake, decrease_delegation. solve_clock. Qed.
Hint Resolve pf_accrue_delegator pf_decrease_delegator_stake : framed.
Lemma pf_apply_delegator_slash w id : framed pools_clock (apply_delegator_slash w id).
Proof. unfold apply_delegator_slash. solve_clock. Qed.
Hint Resolve pf_apply_delegator_slash : framed.
Lemma pf_withdraw_delegation_for w id : framed pools_clock (withdraw_delegation_for w id).
Proof. unfold withdraw_delegation_for, withdraw_delegator_accrued. solve_clock. Qed.
Lemma pf_cooldown_delegation_for w id : framed pools_clock (cooldown_delegation_for w id).
Proof. unfold cooldown_delegation_for. solve_clock. Qed.
Hint Resolve pf_withdraw_delegation_for pf_cooldown_delegation_for : framed.
Lemma pf_end_delegation_for w id b k : framed pools_clock (end_delegation_for w id b k).
Proof. unfold end_delegation_for, end_delegation_in. solve_clock. Qed.
Hint Resolve pf_end_delegation_for : framed.
Lemma pf_delegate_more_for w id a p b : framed pools_clock (delegate_more_for w id a p b).
Proof. unfold delegate_more_for. solve_clock. Qed.
Hint Resolve pf_delegate_more_for : framed.
Lemma pf_compound_delegator w id : framed pools_clock (compound_delegator w id).
Proof. unfold compound_delegator. solve_clock. Qed.
Lemma pf_redelegate_for w o n : framed pools_clock (redelegate_for w o n).
Proof. unfold redelegate_for. solve_clock. Qed.
Lemma pf_do_slash id w : framed pools_clock (do_slash id w).
Proof. unfold do_slash. solve_clock. Qed.
Hint Resolve pf_compound_delegator pf_redelegate_for pf_do_slash : framed.

(** ** The heartbeat *)
Lemma pf_update_sums m p x e b : framed pools_clock (update_metrics_epoch_sum m p x e b).
Proof.
  intros s r s' Hr. unfold update_metrics_epoch_sum, bind, gets in Hr.
  destruct (metric_pools s !! p) as [pool|] eqn:E; unfold bind, modify, ret in Hr; simplify_eq/=; [|done].
  unfold pools_clock, pools_view; simpl. rewrite fmap_insert, insert_id; [done|].
  by rewrite lookup_fmap, E.
Qed.
Hint Resolve pf_update_sums : framed.
Lemma pf_commit_new_metrics p m l a c : framed pools_clock (commit_new_metrics p m l a c).
Proof. unfold commit_new_metrics, commit_new_metric, insert_metric. solve_clock. Qed.
Lemma pf_reuse_metrics p m a c : framed pools_clock (reuse_metrics p m a c).
Proof. unfold reuse_metrics, reuse_metric, insert_metric. solve_clock. Qed.
Lemma pf_score l e id c x : framed pools_clock (score l e id c x).
Proof. unfold score, pool_score. solve_clock. Qed.
Hint Resolve pf_commit_new_metrics pf_reuse_metrics pf_score : framed.

Lemma pf_distribute_pool e id w c p :
  framed (fun d => pools_clock d.(ds_state)) (distribute_pool e id w c p).
Proof. unfold distribute_pool, split_reward, mul_d, div_d. solve_clock. Qed.
Lemma pf_distribute e id pools : framed (fun sc => pools_clock sc.1) (distribute e id pools).
Proof.
  unfold distribute. apply framed_bind; [apply framed_gets|intros c]. apply framed_bind; [solve_clock|].
  intros st. apply framed_bind; [|intros ?; solve_clock].
  intros [s c0] r [s' c'] Hr. unfold distribute_pools in Hr. destruct (mfor _ _ _) as [o d] eqn:Em.
  injection Hr as _ <- _. simpl.
  refine (framed_mfor (fun d => pools_clock (ds_state d)) _ _ _ _ _ _ Em).
  intros p. apply pf_distribute_pool.
Qed.
Lemma pf_run_distribute e id pools c : framed pools_clock (run_distribute e id pools c).
Proof.
  intros s r s' Hr. unfold run_distribute in Hr. destruct (distribute _ _ _ _) as [o [s1 c1]] eqn:Ed.
  injection Hr as _ <-. exact (pf_distribute _ _ _ _ _ _ Ed).
Qed.
Hint Resolve pf_run_distribute : framed.
Lemma pf_reward x c m pools t : framed pools_clock (reward x c m pools t).
Proof. unfold reward. solve_clock. Qed.
Hint Resolve pf_reward : framed.
Lemma pf_commit p m l : framed pools_clock (commit p m l).
Proof. unfold commit, do_commit. solve_clock. Qed.

(** ** The other extrinsics *)
Definition changes_pools (call : Call) : bool :=
  match call with create_pool_ _ _ _ | modify_pool_ _ _ _ _ => true | _ => false end.

Lemma pf_dispatch origin call :
  changes_pools call = false -> framed pools_clock (dispatch origin call).
Proof.
  intros Hc. destruct call; try discriminate; simpl; apply framed_transaction;
    unfold take_backing_offer, release_backing, do_get_or_create_commitment_id; solve_clock.
Qed.

(** ** The start of a block *)
Lemma pf_initialize_block b : framed pools_view (initialize_block b).
Proof.
  unfold initialize_block, on_initialize, on_new_epoch, advance_epoch, store_metrics_reward,
    store_staked_compute_reward, store_collators_reward, div_or_panic, mod_or_panic. solve_clock.
Qed.

Lemma view_lookup s s' id p :
  pools_view s' = pools_view s -> s'.(metric_pools) !! id = Some p ->
  exists q, s.(metric_pools) !! id = Some q /\ p.(mp_name) = q.(mp_name) /\ p.(mp_reward) = q.(mp_reward).
Proof.
  intros Hv Hp. assert (pool_view <$> metric_pools s' = pool_view <$> metric_pools s) as Hm
    by (injection Hv; auto).
  pose proof (f_equal (fun m => m !! id) Hm) as Hl. simpl in Hl. rewrite !lookup_fmap, Hp in Hl.
  destruct (metric_pools s !! id) as [q|]; [|done]. injection Hl as ? ?. eauto.
Qed.

(** The invariant only speaks of the view, and only of epochs to come. *)
Lemma pools_inv_view s s' :
  pools_view s' = pools_view s -> s.(current_cycle).(cy_epoch) <= s'.(current_cycle).(cy_epoch) ->
  pools_inv s -> pools_inv s'.
Proof.
  intros Hv He [Hl Hid Hrw Hlk Hsum].
  assert (last_metric_pool_id s' = last_metric_pool_id s) as Hl1 by (injection Hv; auto).
  assert (metric_pool_lookup s' = metric_pool_lookup s) as Hl2 by (injection Hv; auto).
  assert (pool_view <$> metric_pools s' = pool_view <$> metric_pools s) as Hm by (injection Hv; auto).
  constructor; rewrite ?Hl1, ?Hl2; [done| | | |].
  - intros id p Hp. destruct (view_lookup _ _ _ _ Hv Hp) as (q & Hq & _). by eapply Hid.
  - intros id p Hp. destruct (view_lookup _ _ _ _ Hv Hp) as (q & Hq & _ & Hrq). intros e. rewrite Hrq.
    by eapply Hrw.
  - intros n id. rewrite Hlk. split; intros (p & Hp & <-).
    + destruct (view_lookup s' s id p (eq_sym Hv) Hp) as (q & Hq & Hn & _). by exists q.
    + destruct (view_lookup _ _ _ _ Hv Hp) as (q & Hq & Hn & _). by exists q.
  - intros e Hse. set (f := fun v : MetricPoolName * ProvisionalBuffer.t Z => ProvisionalBuffer.get v.2 e).
    change (gsum (fun _ p => f (pool_view p)) (metric_pools s') <= PERQUINTILL).
    rewrite <-(gsum_fmap pool_view (fun _ => f)), Hm, (gsum_fmap pool_view (fun _ => f)).
    apply Hsum. lia.
Qed.

(** ** Runs *)
Definition clock_ok (s : State) : Prop :=
  0 <= s.(block_number) /\ 0 <= s.(current_cycle).(cy_epoch) <= u32_max /\
  (s.(current_cycle).(cy_epoch_start) = 0 -> s.(current_cycle).(cy_epoch) = 0).

Lemma pools_inv_create_pool origin name ratio config s u s' :
  is_perquintill ratio -> pools_inv s -> create_pool origin name ratio config s = (Ok u, s') ->
  pools_inv s' /\ s'.(current_cycle) = s.(current_cycle) /\ s'.(block_number) = s.(block_number).
Proof.
  intros Hrt Hinv Hr. unfold create_pool in Hr. inv_ok Hr. frame_eqs.
  rename select (do_create_pool _ _ _ _ = _) into Hd.
  destruct (do_create_pool_inv _ _ _ _ _ _ Hinv Hrt Hd) as [Hinv' _].
  assert (framed (fun s => (current_cycle s, block_number s)) (do_create_pool name ratio config)) as Hf.
  { unfold do_create_pool. solve_clock. }
  pose proof (Hf _ _ _ Hd) as [= Hcy Hbn]. unfold deposit_event in Hr. inv_ok Hr.
  split_and!; [|done|done]. eapply pools_inv_view; [| |exact Hinv']; simpl; [done|lia].
Qed.

Lemma pools_inv_modify_pool origin id name rw config s u s' :
  from_option (fun x => is_perquintill x.2) True rw -> pools_inv s ->
  modify_pool origin id name rw config s = (Ok u, s') ->
  pools_inv s' /\ s'.(current_cycle) = s.(current_cycle) /\ s'.(block_number) = s.(block_number).
Proof.
  intros Hrw Hinv Hr. unfold modify_pool in Hr. inv_ok Hr. frame_eqs.
  rename select (modify_pool_entry _ _ _ _ _ _ _ = _) into Hm.
  destruct (modify_pool_entry_ok _ _ _ _ _ _ _ _ _ Hrw Hm) as (p & p' & Hp & Hr1 & Hpok & Hs3 & Hlk).
  rewrite Hr1 in *. simpl in Hr. revert Hr Hlk. rewrite Hs3. clear Hs3 Hm.
  generalize (metric_pool_lookup s3). intros lk Hr Hlk. simpl in *.
  assert (reward_ok p') as Hp' by (eapply Hpok, pi_rewards; eauto).
  apply validate_iff in Hr as [_ Hsum].
  2: { apply rewards_ok_iter. intros i q [[_ <-]|[_ Hq]]%lookup_insert_Some; [done|].
       by eapply pi_rewards. }
  split_and!; [|done|done].
  by eapply (pools_inv_modify s _ id p p').
Qed.

(** The cycle after the block hook ran at [b]. *)
Definition next_cycle (c : Cycle) (b : BlockNumber) : Cycle :=
  let diff := saturating_sub b c.(cy_epoch_start) in
  if c.(cy_epoch_start) =? 0 then {| cy_epoch := diff / Epoch; cy_epoch_start := b |}
  else if diff mod Epoch =? 0 then
    {| cy_epoch := saturating_add u32_max c.(cy_epoch) 1; cy_epoch_start := b |}
  else c.

Definition clock (s : State) := (s.(current_cycle), s.(block_number)).

Lemma on_new_epoch_clock b s r s' :
  on_new_epoch b s = (Ok r, s') ->
  clock s' = ({| cy_epoch := saturating_add u32_max s.(current_cycle).(cy_epoch) 1;
                 cy_epoch_start := b |}, s.(block_number)).
Proof.
  unfold on_new_epoch. intros Hr. unfold bind at 1 in Hr. destruct (advance_epoch b s) as [o s1] eqn:Ea.
  unfold advance_epoch, bind, gets, modify, ret in Ea. injection Ea as <- <-.
  match type of Hr with ?m _ = _ => assert (framed clock m) as Hf end.
  { unfold store_metrics_reward, store_staked_compute_reward, store_collators_reward. solve_clock. }
  by rewrite (Hf _ _ _ Hr).
Qed.

Lemma initialize_block_cycle b s u s' :
  initialize_block b s = (Ok u, s') -> clock s' = (next_cycle s.(current_cycle) b, b).
Proof.
  unfold initialize_block, on_initialize. intros Hr. inv_ok Hr.
  rename select (reward_collator _ _ = _) into Hc.
  match goal with H : (if cy_epoch_start _ =? 0 then _ else _) _ = _ |- _ => rename H into Hi end.
  assert (framed clock (reward_collator a1)) as Hf by eauto with framed.
  rewrite (Hf _ _ _ Hc). unfold next_cycle. simpl in Hi.
  destruct (cy_epoch_start (current_cycle s) =? 0).
  { unfold div_or_panic in Hi. by inv_ok Hi. }
  unfold mod_or_panic in Hi. apply bind_ok in Hi as (r & s1 & Hm & Hi).
  destruct (Epoch =? 0); inv_ok Hm. destruct (saturating_sub _ _ mod Epoch =? 0); [|by inv_ok Hi].
  by apply on_new_epoch_clock in Hi.
Qed.

Lemma initialize_block_clock s u s' :
  0 < Epoch -> clock_ok s -> s.(block_number) + 1 <= u32_max ->
  initialize_block (s.(block_number) + 1) s = (Ok u, s') ->
  clock_ok s' /\ s.(current_cycle).(cy_epoch) <= s'.(current_cycle).(cy_epoch).
Proof.
  intros HE (Hb & He & Hz) Hmax Hr. apply initialize_block_cycle in Hr as [= Hc Hbn].
  unfold clock_ok. rewrite Hc, Hbn. unfold next_cycle, saturating_sub, saturating_add.
  destruct (Z.eqb_spec (cy_epoch_start (current_cycle s)) 0) as [Hs|Hs]; simpl.
  - specialize (Hz Hs). rewrite Hs, Hz.
    assert (0 <= Z.max 0 (block_number s + 1 - 0) / Epoch <= u32_max); [|lia].
    split; [apply Z.div_pos; lia|]. apply Z.div_le_upper_bound; [done|nia].
  - case_match; simpl; lia.
Qed.

Lemma pools_inv_step exact s s' :
  0 < Epoch -> pools_inv s -> clock_ok s -> step exact s s' -> pools_inv s' /\ clock_ok s'.
Proof.
  intros HE Hinv Hck [origin call r Hwf _ Hr|processor manager metrics v Hr|Hmax Hr|x ->].
  - destruct (dispatch_rollback _ _ _ _ _ Hr) as [->| ->]; [|done]. unfold clock_ok.
    destruct (changes_pools call) eqn:Ecp.
    + destruct call; try done; simpl in Hr.
      * by apply pools_inv_create_pool in Hr as (? & -> & ->).
      * by apply pools_inv_modify_pool in Hr as (? & -> & ->).
    + pose proof (pf_dispatch origin call Ecp _ _ _ Hr) as Hf. unfold pools_clock in Hf.
      assert (pools_view s' = pools_view s) as Hv by congruence.
      assert (current_cycle s' = current_cycle s) as Hcy by congruence.
      assert (block_number s' = block_number s) as -> by congruence.
      rewrite Hcy. split; [|done]. eapply pools_inv_view; [done| |done]. by rewrite Hcy.
  - pose proof (pf_commit _ _ _ _ _ _ Hr) as Hf. unfold pools_clock, clock_ok in *.
    assert (pools_view s' = pools_view s) as Hv by congruence.
    assert (current_cycle s' = current_cycle s) as Hcy by congruence.
    assert (block_number s' = block_number s) as -> by congruence.
    rewrite Hcy. split; [|done]. eapply pools_inv_view; [done| |done]. by rewrite Hcy.
  - destruct (initialize_block_clock _ _ _ HE Hck ltac:(lia) Hr) as [Hck' Hle].
    split; [|done]. by eapply pools_inv_view; [eapply pf_initialize_block| |].
  - split; [|exact Hck]. by apply (pools_inv_view s).
Qed.

Lemma pools_inv_reach exact s0 s :
  0 < Epoch -> pools_inv s0 -> clock_ok s0 -> rtc (step exact) s0 s -> pools_inv s /\ clock_ok s.
Proof.
  intros HE Hinv Hck Hs. revert Hinv Hck.
  induction Hs as [s|s s1 s' H1 _ IH]; intros Hinv Hck; [done|].
  destruct (pools_inv_step _ _ _ HE Hinv Hck H1) as [? ?]. by apply IH.
Qed.

(** C37: creating and modifying pools, in any order and interleaved with every other
    call, heartbeat and block, keeps the pools consistent: the name lookup is
    exactly the inverse of the pools' names, ids stay within the counter, and in
    the current and every future epoch the rewards of the pools add up to at most
    100% - also after scheduled changes take effect. *)
Theorem pools_stay_consistent exact s0 s :
  0 < Epoch -> pools_inv s0 -> clock_ok s0 -> rtc (step exact) s0 s -> pools_inv s /\ clock_ok s.
Proof. apply pools_inv_reach. Qed.
End invariant.

(** ** The run of [Reference] *)
#[local] Existing Instance small.

Lemma pools_inv_genesis : pools_inv genesis.
Proof.
  constructor; [by_compute| | | |].
  - intros id p. unfold genesis; simpl. by rewrite lookup_empty.
  - intros id p. unfold genesis; simpl. by rewrite lookup_empty.
  - intros n id. unfold genesis; simpl. rewrite lookup_empty. split; [done|]. intros (p & Hp & _).
    by rewrite lookup_empty in Hp.
  - intros e _. unfold genesis; simpl. by rewrite gsum_empty.
Qed.

Lemma clock_ok_genesis : clock_ok genesis.
Proof. split; [by_compute|split; [by_compute|done]]. Qed.

Lemma pools_inv_delegated : pools_inv s_delegated.
Proof.
  assert (0 < Epoch (Config := small)) as HE by by_compute.
  apply (pools_inv_reach true genesis s_delegated HE pools_inv_genesis clock_ok_genesis).
  apply reach_delegated.
Qed.

Lemma pools_stay_consistent_witness :
  pools_inv s_delegated /\ bool_decide (s_delegated.(metric_pool_lookup) !! [112] = Some 1) = true.
Proof.
  assert (0 < Epoch (Config := small)) as HE by by_compute.
  split; [|by_compute].
  apply (pools_stay_consistent true genesis s_delegated HE pools_inv_genesis clock_ok_genesis).
  apply reach_delegated.
Defined.
