(* ===== verification/EpochSpecs.v ===== *)
(** Epochs and inflation: the block hook never fails, epochs follow the block
    numbers, and an epoch hands out no more than its inflation. *)
From S2P Require Import Prelude Perthings Buffers ComputeTypes ComputePools Rewards Staking.
From S2P Require Import Delegation ComputeMetrics ComputeCalls Reference Frames RewardSpecs PoolSpecs.
From S2P Require Import PoolInvariant.

Section specs.
Context {P : Perthings} {PL : PerthingsLaws P} {C : Config} {X : Externals}.
Notation MC := (M State Error).
Implicit Types s : State.

Lemma total_inflate : total_run inflate.
Proof. unfold inflate, issue_credit, try_resolve. solve_total. Qed.
Lemma total_initialize_block b : 0 < Epoch -> total_run (initialize_block b).
Proof.
  intros HE. assert (forall a, total_run (div_or_panic a Epoch)) as Hdiv.
  { intros a. apply total_or_panic. unfold checked_div. destruct (Z.eqb_spec Epoch 0); [lia|eauto]. }
  assert (forall a, total_run (mod_or_panic a Epoch)) as Hmod.
  { intros a. unfold mod_or_panic. destruct (Z.eqb_spec Epoch 0); [lia|]. apply total_ret. }
  pose proof total_inflate.
  unfold initialize_block, on_initialize, on_new_epoch, advance_epoch, store_metrics_reward,
    store_staked_compute_reward, store_collators_reward, reward_collator, ext_modify. solve_total.
Qed.

(** [n] blocks in a row. *)
Fixpoint run_blocks (n : nat) : MC unit :=
  match n with
  | O => ret tt
  | S n' => run_blocks n';; let* b := gets block_number in initialize_block (b + 1)
  end.

Lemma div_mod_succ d E : 0 < E -> 0 <= d ->
  (d + 1) / E = d / E + (if (d mod E + 1) mod E =? 0 then 1 else 0) /\
  ((d mod E + 1) mod E = 0 <-> d mod E + 1 = E).
Proof.
  intros HE Hd. pose proof (Z.mod_pos_bound d E HE). pose proof (Z.div_mod d E ltac:(lia)) as Hdm.
  destruct (decide (d mod E + 1 = E)) as [He|Hne].
  - rewrite He, Z.mod_same by lia. simpl. split; [|tauto]. symmetry.
    apply Z.div_unique with 0; lia.
  - rewrite Z.mod_small by lia. destruct (Z.eqb_spec (d mod E + 1) 0); [lia|]. split; [|lia].
    symmetry. apply Z.div_unique with (d mod E + 1); lia.
Qed.

(** C38: the block hook never fails, whatever the rest of the chain looks like, and
    epochs follow the block numbers exactly: [n] blocks after a block at distance
    [d] from the start of its epoch, [(d + n) / Epoch] more epochs have started, the
    last one at the block where it was due. *)
Theorem epoch_clock n s :
  let c := s.(current_cycle) in
  let d := s.(block_number) - c.(cy_epoch_start) in
  0 < Epoch -> 0 < c.(cy_epoch_start) -> 0 <= d < Epoch ->
  s.(block_number) + Z.of_nat n <= u32_max -> c.(cy_epoch) + Z.of_nat n <= u32_max ->
  exists s', run_blocks n s = (Ok tt, s') /\
    s'.(block_number) = s.(block_number) + Z.of_nat n /\
    s'.(current_cycle) =
      {| cy_epoch := c.(cy_epoch) + (d + Z.of_nat n) / Epoch;
         cy_epoch_start := c.(cy_epoch_start) + (d + Z.of_nat n) / Epoch * Epoch |}.
Proof.
  intros c d HE Hst Hd. assert (Epoch <> 0) as HE0 by lia. induction n as [|n IH]; intros Hb He.
  - exists s. split_and!; [done|lia|]. rewrite Z.add_0_r, Z.div_small by lia.
    unfold c. destruct (current_cycle s); simpl; f_equal; lia.
  - destruct IH as (s1 & Hr1 & Hb1 & Hc1); [lia|lia|].
    destruct (total_initialize_block (block_number s1 + 1) HE s1) as ([] & s2 & Hr2).
    exists s2. simpl. unfold bind at 1. rewrite Hr1. unfold bind, gets. rewrite Hr2.
    apply initialize_block_cycle in Hr2 as [= Hc2 Hb2]. rewrite Hc2, Hb2, Hc1, Hb1.
    split_and!; [done|lia|]. unfold next_cycle; simpl.
    set (k := d + Z.of_nat n) in *. assert (0 <= k) as Hk by lia.
    destruct (div_mod_succ k Epoch HE Hk) as [Hdiv Hmod].
    replace (d + Z.of_nat (S n)) with (k + 1) by lia. rewrite Hdiv.
    assert (0 <= k / Epoch) as Hq by (apply Z.div_pos; lia).
    destruct (Z.eqb_spec (cy_epoch_start c + k / Epoch * Epoch) 0); [nia|].
    assert (k / Epoch <= k) as Hqk by (apply Z.div_le_upper_bound; nia).
    pose proof (Z.div_mod k Epoch HE0) as Hdm.
    pose proof (Z.mod_pos_bound k Epoch HE) as Hmb.
    assert (block_number s + Z.of_nat n = cy_epoch_start c + k) as -> by (unfold k, d; lia).
    assert (k <= u32_max - cy_epoch_start c) as Hku by (unfold k, d in *; lia).
    generalize dependent (k / Epoch). generalize dependent (k mod Epoch). intros r Hmod Hmb q Hc1 Hdiv Hq Hnz Hqk Hdm.
    assert (saturating_sub (cy_epoch_start c + k + 1) (cy_epoch_start c + q * Epoch) = r + 1) as ->.
    { unfold saturating_sub. lia. }
    destruct (Z.eqb_spec ((r + 1) mod Epoch) 0) as [H0|H0]; f_equal; try lia.
    apply Hmod in H0. unfold saturating_add.
    assert (q <= Z.of_nat n) by (unfold k in Hdm; nia). lia.
Qed.
(** ** Inflation *)
Lemma perquintill_pos : 0 < PERQUINTILL.
Proof. done. Qed.

Definition ratios_ok : Prop :=
  is_perquintill InflationStakedComputeRatio /\ is_perquintill InflationMetricsRatio /\
  is_perquintill InflationCollatorsRatio /\
  InflationStakedComputeRatio + InflationMetricsRatio + InflationCollatorsRatio <= PERQUINTILL.

(** What the currency promises about credits. *)
Record credit_laws : Prop := {
  extract_spec c a : 0 <= a -> 0 <= c -> extract c a = (Z.min a c, c - Z.min a c);
  merge_spec a b : merge a b = a + b;
  issue_spec a x : (issue a x).1 = a;
}.

(** an epoch's inflation is split without creating anything: the three shares are
    the floors of their ratios, together they are at most the issued amount, and
    the credit that is left for the inflation handler is what was issued less what
    the pallet's account received - everything, when that account could not be
    credited. *)
Theorem inflate_splits s i s' :
  ratios_ok -> credit_laws -> 0 < InflationPerEpoch <= u128_max -> s.(inflation_enabled) = true ->
  inflate s = (Ok i, s') ->
  let shares := i.(ii_staked_compute_reward) + i.(ii_metrics_reward) + i.(ii_collators_reward) in
  i.(ii_staked_compute_reward) = InflationStakedComputeRatio * InflationPerEpoch / PERQUINTILL /\
  i.(ii_metrics_reward) = InflationMetricsRatio * InflationPerEpoch / PERQUINTILL /\
  i.(ii_collators_reward) = InflationCollatorsRatio * InflationPerEpoch / PERQUINTILL /\
  0 <= shares <= InflationPerEpoch /\
  (i.(ii_credit) = Some (InflationPerEpoch - shares) \/ i.(ii_credit) = Some InflationPerEpoch).
Proof.
  intros (Hs & Hm & Hc & Hsum) [Hex Hme Hi] HI Hen Hr. unfold inflate, issue_credit, try_resolve in Hr.
  inv_ok Hr. rewrite Hen in Hr. simpl in Hr. destruct (Z.eqb_spec InflationPerEpoch 0); [lia|].
  inv_ok Hr. rewrite Hi in Hr.
  assert (0 <= InflationPerEpoch) as HI0 by lia. rewrite !pq_mul_floor_spec in * by done.
  set (a := InflationStakedComputeRatio * InflationPerEpoch / PERQUINTILL) in *.
  set (b := InflationMetricsRatio * InflationPerEpoch / PERQUINTILL) in *.
  set (c := InflationCollatorsRatio * InflationPerEpoch / PERQUINTILL) in *.
  unfold is_perquintill in *.
  assert (0 <= a /\ 0 <= b /\ 0 <= c) as (Ha & Hb & Hcc) by (split_and!; apply div_nonneg; (nia || done)).
  assert (a + b + c <= InflationPerEpoch) as Habc.
  { assert (0 <= InflationStakedComputeRatio + InflationMetricsRatio + InflationCollatorsRatio
              <= PERQUINTILL) as Hr3 by lia.
    pose proof (floor_add (InflationStakedComputeRatio * InflationPerEpoch)
                  (InflationMetricsRatio * InflationPerEpoch) PERQUINTILL perquintill_pos).
    pose proof (floor_add ((InflationStakedComputeRatio + InflationMetricsRatio) * InflationPerEpoch)
                  (InflationCollatorsRatio * InflationPerEpoch) PERQUINTILL perquintill_pos).
    pose proof (share_le (InflationStakedComputeRatio + InflationMetricsRatio + InflationCollatorsRatio)
                  InflationPerEpoch PERQUINTILL HI0 Hr3).
    rewrite !Z.mul_add_distr_r in *. unfold a, b, c in *. lia. }
  assert (saturating_add u128_max (saturating_add u128_max a b) c = a + b + c) as Hsat
    by (unfold saturating_add; lia).
  rewrite Hsat, Hex, Z.min_l in Hr by lia. inv_ok Hr.
  match goal with H : (match ?o with _ => _ end) _ = _ |- _ => destruct o; inv_ok H end.
  - split_and!; [done|done|done|lia|lia|left; f_equal; lia].
  - split_and!; [done|done|done|lia|lia|right; f_equal; rewrite Hme; lia].
Qed.

(** ** The budgets of an epoch *)

(** The loop body of [store_staked_compute_reward]. *)
Definition store_pool (amount cur last tts : Z) (x : PoolId * MetricPool) : MC unit :=
  let '(pool_id, pool) := x in
  modify (fun s : State => set_stake_based_rewards
    (<[pool_id :=
       SlidingBuffer.mutate RewardBudget_default (get_stake_based_rewards s pool_id) cur
         (fun _ => RewardBudget_new
            (pq_mul_floor (ProvisionalBuffer.get pool.(mp_reward) last) amount)
            (target_weight_per_compute tts (SlidingBuffer.get 0 pool.(mp_total) last))) false]>
     s.(stake_based_rewards)) s).

Lemma get_stake_based_rewards_insert_ne s m id id' b :
  id' <> id -> m = s.(stake_based_rewards) ->
  get_stake_based_rewards (set_stake_based_rewards (<[id := b]> m) s) id' = get_stake_based_rewards s id'.
Proof. intros Hne ->. unfold get_stake_based_rewards. simpl. by rewrite lookup_insert_ne. Qed.

Lemma store_pools (amount cur last tts : Z) (l : list (PoolId * MetricPool)) s u s' :
  NoDup l.*1 -> 0 <= amount -> Forall (fun x => reward_ok x.2) l -> SlidingBuffer.no_wrap cur ->
  Forall (fun x => SlidingBuffer.no_wrap (get_stake_based_rewards s x.1).(SlidingBuffer.epoch)) l ->
  mfor l (store_pool amount cur last tts) s = (Ok u, s') ->
  (forall id p, (id, p) ∈ l -> rb_total (budget_at s' id cur) =
     ProvisionalBuffer.get p.(mp_reward) last * amount / PERQUINTILL /\
     rb_total_score (budget_at s' id cur) = 0 /\ rb_distributed (budget_at s' id cur) = 0) /\
  (forall id, id ∉ l.*1 -> get_stake_based_rewards s' id = get_stake_based_rewards s id).
Proof.
  intros Hnd Ha Hrw Hc Hnw Hr. revert s Hnw Hr.
  induction l as [|[id p] l IH]; intros s Hnw Hr; simpl in *.
  { inv_ok Hr. split; [|done]. intros id p Hin. by apply elem_of_nil in Hin. }
  apply NoDup_cons in Hnd as [Hni Hnd]. inversion Hrw as [|? ? Hp Hrw']; subst.
  inversion Hnw as [|? ? Hn Hnw']; subst. simpl in *.
  apply bind_ok in Hr as (? & s1 & Hm%modify_ok & Hr).
  assert (forall id', id' <> id -> get_stake_based_rewards s1 id' = get_stake_based_rewards s id') as Hne.
  { intros id' Hid'. rewrite <-Hm. by apply get_stake_based_rewards_insert_ne. }
  assert (Forall (fun x => SlidingBuffer.no_wrap (SlidingBuffer.epoch (get_stake_based_rewards s1 x.1))) l)
    as Hnw1.
  { rewrite Forall_forall in *. intros y Hy. rewrite Hne; [by apply Hnw'|].
    intros Heq. apply Hni. rewrite <-Heq. by apply list_elem_of_fmap_2. }
  destruct (IH Hnd Hrw' s1 Hnw1 Hr) as [Hin Hout]. split.
  - intros id' q [Heq|Hq]%elem_of_cons; [|by apply Hin]. simplify_eq.
    unfold budget_at. rewrite Hout by done. rewrite get_stake_based_rewards_insert.
    rewrite SlidingBuffer.get_mutate_same by done. simpl. by rewrite pq_mul_floor_spec.
  - intros id' [Hid Hid']%not_elem_of_cons. rewrite Hout by done. by apply Hne.
Qed.

(** the pools' budgets of an epoch never exceed the inflation meant for them:
    each pool of a consistent storage gets the floor of its ratio with a fresh
    score, and all budgets together are at most the stored amount. *)
Theorem epoch_budgets_within_inflation amount cur last tts s u s' :
  pools_inv s -> 0 <= amount -> SlidingBuffer.no_wrap cur -> s.(current_cycle).(cy_epoch) <= last ->
  (forall id, SlidingBuffer.no_wrap (get_stake_based_rewards s id).(SlidingBuffer.epoch)) ->
  store_staked_compute_reward amount cur last tts s = (Ok u, s') ->
  (forall id p, s.(metric_pools) !! id = Some p ->
     rb_total (budget_at s' id cur) = ProvisionalBuffer.get p.(mp_reward) last * amount / PERQUINTILL /\
     rb_total_score (budget_at s' id cur) = 0 /\ rb_distributed (budget_at s' id cur) = 0) /\
  gsum (fun id _ => rb_total (budget_at s' id cur)) s.(metric_pools) <= amount.
Proof.
  intros Hinv Ha Hc Hlast Hnw Hr. unfold store_staked_compute_reward in Hr.
  apply bind_ok in Hr as (l & s1 & [<- <-]%gets_ok & Hr).
  change (mfor (iter_u8 (metric_pools s)) (store_pool amount cur last tts) s = (Ok u, s')) in Hr.
  destruct Hinv as [Hl Hid Hrw _ Hsum].
  apply store_pools in Hr as [Hin _]; [|apply NoDup_iter_u8|done| |done|by apply Forall_true].
  2: { apply Forall_forall. intros [i q] Hq. apply elem_of_iter_u8 in Hq as [_ Hq]. by eapply Hrw. }
  assert (forall id p, metric_pools s !! id = Some p -> (id, p) ∈ iter_u8 (metric_pools s)) as Hiter.
  { intros id p Hp. apply elem_of_iter_u8. split; [|done]. specialize (Hid _ _ Hp). lia. }
  split; [intros id p Hp; by apply Hin, Hiter|].
  rewrite (gsum_ext _ (fun _ p => ProvisionalBuffer.get (mp_reward p) last * amount / PERQUINTILL)).
  2: { intros id p Hp. by apply Hin, Hiter. }
  specialize (Hsum last Hlast).
  assert (forall m : gmap Z MetricPool, gsum (fun _ p => ProvisionalBuffer.get (mp_reward p) last * amount / PERQUINTILL) m
    <= gsum (fun _ p => ProvisionalBuffer.get (mp_reward p) last) m * amount / PERQUINTILL) as Hfl.
  { clear. induction m as [|k q m Hk IH] using map_ind; [done|]. rewrite !gsum_insert_new by done.
    rewrite Z.mul_add_distr_r.
    pose proof (floor_add (ProvisionalBuffer.get (mp_reward q) last * amount)
      (gsum (fun _ p => ProvisionalBuffer.get (mp_reward p) last) m * amount) PERQUINTILL perquintill_pos). lia. }
  etransitivity; [apply Hfl|]. apply Z.div_le_upper_bound; [apply perquintill_pos|].
  rewrite (Z.mul_comm PERQUINTILL). rewrite Z.mul_comm. by apply Z.mul_le_mono_nonneg_l.
Qed.
End specs.

(** ** The run of [Reference] *)
#[local] Existing Instance small.

(** Twenty-five blocks from the fourth one on, in which the first epoch is three
    blocks old: two more epochs. *)
Definition s_block4 : State := blocks 4 genesis.

Lemma epoch_clock_witness :
  exists s', run_blocks 25 s_block4 = (Ok tt, s') /\ s'.(block_number) = 29 /\
    s'.(current_cycle) = {| cy_epoch := 2; cy_epoch_start := 21 |}.
Proof.
  assert (block_number s_block4 = 4) as Hb by by_compute.
  assert (current_cycle s_block4 = {| cy_epoch := 0; cy_epoch_start := 1 |}) as Hc by by_compute.
  pose proof (epoch_clock 25 s_block4) as H. rewrite Hb, Hc in H. apply H; by_compute.
Defined.

Lemma credit_laws_reference : credit_laws.
Proof. constructor; intros; simpl; [f_equal; lia|done|done]. Qed.

Lemma ratios_ok_small : ratios_ok.
Proof. split; [|split; [|split]]; by_compute. Qed.

Definition s_enabled : State := exec (dispatch Root enable_inflation_) (blocks 1 genesis).
Definition info_enabled : InflationInfo :=
  {| ii_metrics_reward := 1000; ii_staked_compute_reward := 7000; ii_collators_reward := 500;
     ii_credit := Some 1500 |}.

Lemma inflate_splits_witness :
  result inflate s_enabled = Ok info_enabled /\
  7000 = percent 70 * 10000 / PERQUINTILL.
Proof.
  assert (result inflate s_enabled = Ok info_enabled) as Hr by by_compute.
  split; [exact Hr|].
  assert (0 < InflationPerEpoch (Config := small) <= u128_max) as HI by by_compute.
  assert (inflation_enabled s_enabled = true) as He by by_compute.
  exact (proj1 (inflate_splits s_enabled info_enabled _ ratios_ok_small credit_laws_reference HI He
                  (result_exec _ _ _ Hr))).
Defined.

Lemma epoch_budgets_within_inflation_witness :
  exists s', store_staked_compute_reward 7000 5 4 0 s_delegated = (Ok tt, s') /\
    gsum (fun id _ => rb_total (budget_at s' id 5)) s_delegated.(metric_pools) <= 7000.
Proof.
  assert (result (store_staked_compute_reward 7000 5 4 0) s_delegated = Ok tt) as Hr by by_compute.
  assert (0 <= 7000) as Ha by by_compute.
  assert (SlidingBuffer.no_wrap 5) as Hc by by_compute.
  assert (cy_epoch (current_cycle s_delegated) <= 4) as Hl by by_compute.
  assert (forall id, SlidingBuffer.no_wrap (SlidingBuffer.epoch (get_stake_based_rewards s_delegated id)))
    as Hw.
  { assert (bool_decide (map_Forall (fun _ b => 0 <= SlidingBuffer.epoch b < u32_max)
              (stake_based_rewards s_delegated)) = true) as Hf by by_compute.
    apply bool_decide_eq_true_1 in Hf.
    intros id. unfold get_stake_based_rewards.
    destruct (stake_based_rewards s_delegated !! id) as [b|] eqn:E; [exact (Hf id b E)|by_compute]. }
  apply result_exec in Hr.
  pose proof (epoch_budgets_within_inflation 7000 5 4 0 s_delegated tt _ pools_inv_delegated
                Ha Hc Hl Hw Hr) as [_ Hsum].
  exact (ex_intro _ _ (conj Hr Hsum)).
Defined.
