(* ===== verification/CallSpecs.v ===== *)
(** Single calls of the compute pallet: what a failing call leaves behind, how often a
    commitment can be slashed, how fast a commission can rise, which metrics can be
    committed, and what a heartbeat pays. *)
From S2P Require Import Prelude Perthings Buffers ComputeTypes ComputePools Rewards Staking.
From S2P Require Import Delegation ComputeMetrics ComputeCalls Reference Frames StakingSim StakingSpecs.
From S2P Require Import RewardSpecs PoolSpecs PoolInvariant.

Section specs.
Context {P : Perthings} {PL : PerthingsLaws P} {C : Config} {X : Externals}.
Notation MC := (M State Error).
Implicit Types s : State.

(** ** Origins and errors *)

(** The origins a call is open to. *)
Definition origin_allowed (call : Call) (origin : Origin) : bool :=
  match call with
  | create_pool_ _ _ _ | modify_pool_ _ _ _ _ => CreateModifyPoolOrigin origin
  | enable_inflation_ => OperatorOrigin origin
  | _ => match origin with Signed _ => true | _ => false end
  end.

Lemma bad_origin_signed {A} origin (k : AccountId -> MC A) s :
  match origin with Signed _ => false | _ => true end = true ->
  with_transaction (bind (ensure_signed origin) k) s = (Err BadOrigin, s).
Proof. by destruct origin. Qed.

Lemma bad_origin_ensure {A} f origin (k : unit -> MC A) s :
  f origin = false ->
  with_transaction (bind (ensure_origin f origin) k) s = (Err BadOrigin, s).
Proof. intros Hf. unfold with_transaction, bind, ensure_origin, ensure, throw. by rewrite Hf. Qed.

(** A call does everything or nothing: from an origin it is not open to it fails
    with BadOrigin, and whenever a call returns an error or panics, however far it had
    come, the storage and the balances are as they were before it. *)
Theorem failed_call_changes_nothing origin call s :
  match dispatch origin call s with
  | (Ok _, _) => origin_allowed call origin = true
  | (Err e, s') => s' = s /\ (origin_allowed call origin = false -> e = BadOrigin)
  | (Panic, s') => s' = s /\ origin_allowed call origin = true
  end.
Proof.
  assert (origin_allowed call origin = false -> dispatch origin call s = (Err BadOrigin, s)) as Hbad.
  { destruct call; simpl; intros Ho; try (by apply bad_origin_ensure);
      apply bad_origin_signed; by destruct origin. }
  pose proof (dispatch_rollback origin call s) as Hr.
  destruct (dispatch origin call s) as [r s'] eqn:E. specialize (Hr r s' eq_refl).
  destruct (origin_allowed call origin) eqn:Ho;
    [|specialize (Hbad eq_refl); by simplify_eq].
  destruct r; destruct Hr as [?| ->]; done.
Qed.

(** ** Slashing *)
Lemma do_slash_again id sl s c st e :
  s.(commitments) !! id = Some c -> c.(cm_stake) = Some st ->
  checked_sub s.(current_cycle).(cy_epoch) 1 = Some e -> e <= c.(cm_last_slashing_epoch) ->
  do_slash id sl s = (Err AlreadySlashed, s).
Proof.
  intros Hc Hst He Hle. unfold do_slash, get_epoch, bind, gets, ok_or, ensure, throw, ret.
  rewrite He, Hc, Hst. by rewrite (proj2 (Z.ltb_ge _ _) Hle).
Qed.

(** The total slash weight of a commitment in the epoch it is slashed for. *)
Definition slash_weight_in (c : Commitment) (last_epoch : Epoch_) : Z :=
  total_slash_weight (default CommitmentWeights_default
    (MemoryBuffer.get_latest c.(cm_weights) last_epoch)).

(** a commitment is slashed at most once per epoch: after a slash that took effect,
    every further attempt in the same epoch, by anyone, fails with AlreadySlashed
    and changes nothing. *)
Theorem slashed_once_per_epoch id slasher s u s' :
  do_slash id slasher s = (Ok u, s') ->
  (forall c, s.(commitments) !! id = Some c ->
     slash_weight_in c (s.(current_cycle).(cy_epoch) - 1) <> 0) ->
  forall slasher', do_slash id slasher' s' = (Err AlreadySlashed, s').
Proof.
  intros Hr Hw slasher'. pose proof (pf_do_slash _ _ _ _ _ Hr) as Hf.
  assert (current_cycle s' = current_cycle s) as Hcy by (unfold pools_clock in Hf; congruence). clear Hf.
  unfold do_slash, try_mutate_commitment in Hr. inv_ok Hr. frame_eqs.
  match goal with H : commitments ?s0 !! id = Some ?c |- _ => specialize (Hw c H) end.
  unfold slash_weight_in in Hw. apply Z.eqb_neq in Hw. rewrite Hw in Hr.
  apply bind_ok in Hr as ([self incr] & s1 & _ & Hr). unfold try_mutate in Hr. inv_ok Hr.
  match goal with H : cm_stake ?c = Some ?st, H' : (match incr with _ => _ end) _ = (Ok ?c', _) |- _ =>
    assert (cm_stake c' = Some st) as Hst by (destruct incr; by inv_ok H') end.
  eapply do_slash_again; simpl.
  - apply lookup_insert_eq.
  - exact Hst.
  - rewrite Hcy. apply checked_sub_Some. done.
  - simpl. lia.
Qed.

(** ** Commissions *)

(** a commission can be lowered at will, but raised only by a commitment that is
    overstaked, by at most the daily maximum, and only when a whole day has passed
    since the last raise (or since the stake was placed); the raise is recorded, so
    that the next one has to wait again. *)
Theorem commission_increase_limited id c commission s c' s' :
  0 < BlocksPerDay -> is_perbill commission -> is_perbill c.(cm_commission) ->
  change_commission id c commission s = (Ok c', s') ->
  c' = set_cm_commission commission c /\
  (commission <= c.(cm_commission) /\ s' = s \/
   c.(cm_commission) < commission <= c.(cm_commission) + MaxCommissionIncreasePerDay /\
   is_commitment_overstaked id c s = (Ok true, s) /\
   default (default s.(block_number) (st_created <$> c.(cm_stake)))
     (fst <$> s.(last_commission_increase) !! id) + BlocksPerDay <= s.(block_number) /\
   s' = set_last_commission_increase
          (<[id := (s.(block_number), c.(cm_commission))]> s.(last_commission_increase)) s).
Proof.
  intros Hd Hc Hc' Hr. unfold change_commission in Hr. destruct (Z.ltb_spec c.(cm_commission) commission).
  - apply bind_ok in Hr as ([] & s1 & Hr & Hret). inv_ok Hret. split; [done|]. right.
    inv_ok Hr. rename select (is_commitment_overstaked _ _ _ = _) into Ho.
    pose proof (ro_is_commitment_overstaked _ _ _ _ _ Ho) as Heq. simpl in Heq. simplify_eq/=.
    rewrite pb_saturating_sub_spec in * by done. unfold saturating_sub in *.
    split_and!; [lia|lia|by rewrite Ho|lia|done].
  - inv_ok Hr. split; [done|]. by left.
Qed.

(** ** Committed metrics *)

(** What the pallet measured for a manager in a pool in an epoch. *)
Definition measured s (m : ManagerId) (p : PoolId) (e : Epoch_) : Metric :=
  (SlidingBuffer.get (0, 0) (get_metrics_epoch_sum s m p) e).1.

(** A committed metric that may replace [old]: it does not decrease, and it stays
    within the allowed part of what was measured. *)
Definition committable s (m : ManagerId) (p : PoolId) (e : Epoch_) (old : option Metric) (v : Metric)
  : Prop :=
  from_option (fun o => o <= v) True old /\ 0 < v <= measured s m p e /\
  v * FIXED_DIV / measured s m p e <= MaxMetricCommitmentRatio.

(** The committed metrics of one commitment are replaced, all others stay. *)
Record commits_metrics (id m e : Z) s s' : Prop := {
  cmt_frame : exists cc, s' = set_compute_commitments cc s;
  cmt_changed k v : s'.(compute_commitments) !! k = Some v ->
    s.(compute_commitments) !! k = Some v \/
    exists p, k = (id, p) /\ committable s m p e (s.(compute_commitments) !! k) v;
  cmt_kept k : is_Some (s.(compute_commitments) !! k) -> is_Some (s'.(compute_commitments) !! k);
}.

Lemma commits_metrics_refl id m e s : commits_metrics id m e s s.
Proof. split; [exists (compute_commitments s); by destruct s|by left|done]. Qed.

Lemma commits_metrics_trans id m e s s1 s2 :
  commits_metrics id m e s s1 -> commits_metrics id m e s1 s2 -> commits_metrics id m e s s2.
Proof.
  intros [[cc Hf] Hc Hk] [[cc' Hf'] Hc' Hk']. split.
  - exists cc'. by rewrite Hf', Hf.
  - intros k v Hv. destruct (Hc' k v Hv) as [Hv1|(p & -> & Hle & Hm & Hr)]; [by apply Hc|].
    right. exists p. split; [done|]. unfold measured, get_metrics_epoch_sum in *. rewrite Hf in Hm, Hr.
    split_and!; [|apply Hm|apply Hm|exact Hr].
    destruct (compute_commitments s !! (id, p)) as [o|] eqn:Eo; simpl; [|done].
    destruct (Hk (id, p)) as [v1 Hv1]; [by eexists|]. rewrite Hv1 in Hle. simpl in Hle.
    destruct (Hc _ _ Hv1) as [Hsame|(p' & [= <-] & Hle' & _)]; [by simplify_eq|].
    rewrite Eo in Hle'. simpl in Hle'. lia.
  - intros k Hs. by apply Hk', Hk.
Qed.

Lemma commit_metric_step id m e n c s n' s' :
  0 <= c.(cc_metric) -> is_perquintill MaxMetricCommitmentRatio ->
  validate_metric_commitment id m e n c s = (Ok n', s') ->
  commits_metrics id m (e - 1) s s' /\
  (n' = n \/ exists v, s'.(compute_commitments) !! (id, c.(cc_pool_id)) = Some v /\ 0 < v).
Proof.
  intros Hc Hmax Hr. unfold validate_metric_commitment in Hr. inv_ok Hr.
  destruct (Z.eqb_spec c.(cc_metric) 0) as [|Hne].
  { inv_ok Hr. split; [apply commits_metrics_refl|by left]. }
  inv_ok Hr.
  match goal with
  | H : fx_checked_div _ _ = Some ?q, Hle : (cc_metric c <=? _) = true,
    Hra : (_ <=? MaxMetricCommitmentRatio) = true,
    Ho : (match ?old with _ => _ end) ?s2 = (Ok _, ?s3) |- _ =>
      change (fx_checked_div c.(cc_metric) (measured s2 m c.(cc_pool_id) (e - 1)) = Some q) in H;
      change ((cc_metric c <=? measured s2 m c.(cc_pool_id) (e - 1)) = true) in Hle;
      rename H into Hq, Hle into Hm, Hra into Hmr;
      assert (s3 = s2 /\ from_option (fun o => o <= c.(cc_metric)) True old) as [-> Hold]
        by (destruct old; inv_ok Ho; split; (done || simpl; lia))
  end.
  apply Z.leb_le in Hm, Hmr.
  apply fx_checked_div_spec in Hq as [-> _]; [|lia..].
  set (mx := measured _ _ _ _) in *.
  assert (0 <= c.(cc_metric) * FIXED_DIV / mx <= FIXED_DIV) as Hqr.
  { split; [apply Z.div_pos; unfold FIXED_DIV; lia|].
    apply Z.div_le_upper_bound; [lia|]. unfold FIXED_DIV. nia. }
  rewrite pq_from_parts_spec in Hmr by (unfold wrap_as; apply Z.mod_pos_bound; done).
  unfold wrap_as in Hmr. rewrite Z.mod_small in Hmr by (unfold FIXED_DIV, u64_max in *; lia).
  rewrite Z.min_l in Hmr by exact (proj2 Hqr).
  split.
  2: { right. exists c.(cc_metric). rewrite lookup_insert_eq. split; [done|lia]. }
  split; simpl.
  - by eexists.
  - intros k v [[<- <-]|[_ Hv]]%lookup_insert_Some; [|by left]. right. eexists. split; [done|].
    split_and!; [done|lia|done|done].
  - intros k Hs. destruct (decide (k = (id, cc_pool_id c))) as [->|].
    + rewrite lookup_insert_eq. by eexists.
    + by rewrite lookup_insert_ne.
Qed.

Lemma commit_metrics_loop id m e l n s n' s' :
  Forall (fun c => 0 <= c.(cc_metric)) l -> is_perquintill MaxMetricCommitmentRatio ->
  mfold l n (validate_metric_commitment id m e) s = (Ok n', s') ->
  commits_metrics id m (e - 1) s s' /\
  (n' = n \/ exists p v, s'.(compute_commitments) !! (id, p) = Some v).
Proof.
  intros Hl Hmax. revert n s. induction Hl as [|c l Hc Hl IH]; intros n s Hr; simpl in Hr.
  { inv_ok Hr. split; [apply commits_metrics_refl|by left]. }
  apply bind_ok in Hr as (n1 & s1 & H1 & Hr).
  apply commit_metric_step in H1 as [H1 Hn1]; [|done..].
  destruct (IH _ _ Hr) as [H2 Hn2]. split; [by eapply commits_metrics_trans|].
  destruct Hn2 as [->|?]; [|by right]. destruct Hn1 as [->|(v & Hv & _)]; [by left|]. right.
  destruct (cmt_kept _ _ _ _ _ H2 (id, c.(cc_pool_id))) as [v' Hv']; [by eexists|]. by eexists _, _.
Qed.

(** a committer can only commit what was delivered: committing metrics changes
    nothing but the committed metrics of this commitment, at least one of them is set,
    and each one that changes does not decrease and stays within what the backing
    manager measured in the pool in the last epoch, by the maximum commitment ratio. *)
Theorem committed_metrics_delivered id l s u s' :
  Forall (fun c => 0 <= c.(cc_metric)) l -> is_perquintill MaxMetricCommitmentRatio ->
  validate_max_metric_store_commitments id l s = (Ok u, s') ->
  exists m, s.(backings) !! id = Some m /\
    commits_metrics id m (s.(current_cycle).(cy_epoch) - 1) s s' /\
    exists p v, s'.(compute_commitments) !! (id, p) = Some v.
Proof.
  intros Hl Hmax Hr. unfold validate_max_metric_store_commitments in Hr. inv_ok Hr.
  match goal with H : mfold _ _ _ _ = _ |- _ => apply commit_metrics_loop in H as [Hcm Hn]; [|done..] end.
  eexists. split; [done|]. split; [done|].
  destruct Hn as [->|?]; [|done]. lia.
Qed.

(** ** Heartbeats *)

(** The processor has not finished its warmup at this block. *)
Definition warming_up s (processor : AccountId) : Prop :=
  match s.(processors) !! processor with
  | Some p => exists b, p.(ps_status) = WarmupUntil b /\ s.(block_number) < b
  | None => 0 < WarmupPeriod /\ s.(block_number) < u32_max
  end.

(** Everything but the processors and their last metrics. *)
Definition but_metrics s : State := set_processors ∅ (set_metrics ∅ s).

Lemma quiet_commit_new processor m l cycle :
  framed but_metrics (commit_new_metrics processor m l false cycle).
Proof. unfold commit_new_metrics, commit_new_metric, insert_metric. solve_framed. Qed.
Lemma quiet_reuse processor m cycle : framed but_metrics (reuse_metrics processor m false cycle).
Proof. unfold reuse_metrics, reuse_metric, insert_metric. solve_framed. Qed.

Lemma processor_at_warming s processor cycle p s' :
  warming_up s processor ->
  processor_at (s.(processors) !! processor) s.(block_number) cycle s = (Ok p, s') ->
  is_active p = false /\ s' = s.
Proof.
  unfold warming_up, processor_at, mod_or_panic. intros Hw Hr.
  destruct (processors s !! processor) as [q|]; inv_ok Hr.
  - destruct Hw as (b & Hb & Hlt). unfold is_active. rewrite Hb. simpl.
    rewrite (proj2 (Z.leb_gt _ _)) by done. simpl. by rewrite Hb.
  - match goal with H : (if _ =? 0 then _ else _) _ = _ |- _ =>
      destruct (Z.eqb_spec Epoch 0); [by inv_ok H|inv_ok H] end.
    unfold is_active, saturating_add; simpl.
    rewrite (proj2 (Z.leb_gt _ _)) by lia. done.
Qed.

(** a processor in its warmup earns nothing and counts for nothing: its heartbeat
    pays no reward and changes nothing but the processor's own entry and the record of
    its metrics - no pool total, no manager's sum, no score and no balance. *)
Theorem warmup_earns_nothing processor manager metrics s v s' :
  warming_up s processor -> commit processor manager metrics s = (Ok v, s') ->
  v = (0, false, false) /\
  s' = set_processors s'.(processors) (set_metrics s'.(ComputeTypes.metrics) s).
Proof.
  intros Hw Hr. unfold commit, do_commit, try_mutate in Hr.
  apply bind_ok in Hr as (last & s1 & [<- <-]%gets_ok & Hr).
  apply bind_ok in Hr as (cycle & s1 & [<- <-]%gets_ok & Hr).
  apply bind_ok in Hr as (info & s1 & Hd & Hr).
  apply bind_ok in Hd as (b & s2 & [<- <-]%gets_ok & Hd).
  apply bind_ok in Hd as (p_ & s2 & [<- <-]%gets_ok & Hd).
  apply bind_ok in Hd as (r & s2 & Hf & Hd).
  apply bind_ok in Hf as (p & s3 & Hp & Hf).
  apply processor_at_warming in Hp as [Ha ->]; [|done]. rewrite Ha in Hf.
  apply bind_ok in Hf as (ci & s3 & Hm & Hf). simpl in Hf. inv_ok Hf. inv_ok Hd. simpl in Hr. inv_ok Hr.
  split; [done|].
  assert (but_metrics s2 = but_metrics s) as Heq.
  { destruct metrics; [by eapply quiet_reuse|by eapply quiet_commit_new]. }
  unfold but_metrics in Heq. destruct s2, s; simpl in *. by simplify_eq/=.
Qed.
End specs.

(** ** The run of [Reference] *)
Section witnesses.
#[local] Existing Instance small.

(** Two epochs without a heartbeat: the commitment can be slashed. *)
Definition s_missed : State := blocks 20 s_delegated.

Lemma slashed_once_per_epoch_witness :
  result (do_slash 0 4) s_missed = Ok tt /\
  exists s', do_slash 0 5 s' = (Err AlreadySlashed, s').
Proof.
  assert (result (do_slash 0 4) s_missed = Ok tt) as Hr by by_compute.
  split; [exact Hr|].
  assert ((match s_missed.(commitments) !! 0 with
           | Some c => negb (slash_weight_in c (s_missed.(current_cycle).(cy_epoch) - 1) =? 0)
           | None => true end) = true) as Hw by by_compute.
  refine (ex_intro _ _ (slashed_once_per_epoch 0 4 s_missed tt _ (result_exec _ _ _ Hr) _ 5)).
  intros c Hc. rewrite Hc in Hw. apply negb_true_iff, Z.eqb_neq in Hw. exact Hw.
Defined.

(** A commitment of weight far beyond its metrics raises its commission by 0.2%. *)
Definition c_overstaked : Commitment :=
  {| cm_stake := Some (Stake_new 1000 11 50 true); cm_commission := 10 ^ 8;
     cm_delegations_total_amount := 0; cm_delegations_total_rewardable_amount := 0;
     cm_weights := MemoryBuffer.new_with 1
       {| self_reward_weight := 10 ^ 60; self_slash_weight := 10 ^ 60;
          delegations_reward_weight := 0; delegations_slash_weight := 0 |};
     cm_pool_rewards := MemoryBuffer.new_with 11 PoolReward_default;
     cm_last_scoring_epoch := 2; cm_last_slashing_epoch := 0 |}.
Definition raised : Z := 10 ^ 8 + 2 * 10 ^ 6.

Lemma commission_increase_limited_witness :
  result (change_commission 0 c_overstaked raised) s_rewarded = Ok (set_cm_commission raised c_overstaked) /\
  raised <= 10 ^ 8 + 2500000.
Proof.
  assert (result (change_commission 0 c_overstaked raised) s_rewarded
          = Ok (set_cm_commission raised c_overstaked)) as Hr by by_compute.
  split; [exact Hr|].
  assert (0 < BlocksPerDay (Config := small)) as Hd by by_compute.
  assert (is_perbill raised) as H1 by by_compute.
  assert (is_perbill (cm_commission c_overstaked)) as H2 by by_compute.
  destruct (commission_increase_limited 0 c_overstaked raised s_rewarded _ _ Hd H1 H2 (result_exec _ _ _ Hr))
    as [_ [[Hle _]|[[_ Hle] _]]]; [|exact Hle].
  exfalso. revert Hle. clear. vm_compute. intros Hle. exact (Hle eq_refl).
Defined.

(** The backed committer commits 700 of the measured 1000. *)
Definition s_measured : State := exec heartbeat s_backed.

Lemma committed_metrics_delivered_witness :
  result (validate_max_metric_store_commitments 0 [{| cc_pool_id := 1; cc_metric := 700 * 10 ^ 18 |}])
    s_measured = Ok tt /\
  exists m, s_measured.(backings) !! 0 = Some m.
Proof.
  assert (result (validate_max_metric_store_commitments 0
            [{| cc_pool_id := 1; cc_metric := 700 * 10 ^ 18 |}]) s_measured = Ok tt) as Hr by by_compute.
  split; [exact Hr|].
  assert (Forall (fun c => 0 <= c.(cc_metric)) [{| cc_pool_id := 1; cc_metric := 700 * 10 ^ 18 |}]) as Hl
    by (constructor; [by_compute|constructor]).
  assert (is_perquintill (MaxMetricCommitmentRatio (Config := small))) as Hm by by_compute.
  destruct (committed_metrics_delivered 0 _ s_measured tt _ Hl Hm (result_exec _ _ _ Hr)) as (m & Hb & _).
  exact (ex_intro _ m Hb).
Defined.
End witnesses.

(** The first heartbeat under the constants of the mainnet runtime. *)
Section mainnet_witness.
#[local] Existing Instance mainnet.

Lemma warmup_earns_nothing_witness :
  warming_up genesis 5 /\ result (commit 5 (2, 77) [(1, 1000, 1)]) genesis = Ok (0, false, false).
Proof.
  assert (warming_up genesis 5) as Hw by by_compute.
  split; [exact Hw|].
  assert (exists v, result (commit 5 (2, 77) [(1, 1000, 1)]) genesis = Ok v) as [v Hv].
  { eexists. clear. vm_compute. reflexivity. }
  rewrite Hv. f_equal.
  exact (proj1 (warmup_earns_nothing 5 (2, 77) [(1, 1000, 1)] genesis v _ Hw (result_exec _ _ _ Hv))).
Defined.
End mainnet_witness.
