(* ===== verification/ClaimSpecs.v ===== *)
(** Claims of the metrics reward: what all managers together can claim for an epoch. *)
From S2P Require Import Prelude Perthings Buffers ComputeTypes ComputePools Rewards Staking.
From S2P Require Import Delegation ComputeMetrics ComputeCalls Reference Frames RewardSpecs PoolSpecs.
From S2P Require Import PoolInvariant.

Section specs.
Context {P : Perthings} {PL : PerthingsLaws P} {C : Config} {X : Externals}.
Notation MC := (M State Error).
Implicit Types s : State.

(** What one manager claims with: its sums per pool. *)
Notation Claim := (list (PoolId * (Metric * Metric))).

Definition zsum {A} (f : A -> Z) (l : list A) : Z := foldr (fun a acc => f a + acc) 0 l.
Lemma zsum_app {A} (f : A -> Z) l l' : zsum f (l ++ l') = zsum f l + zsum f l'.
Proof. induction l as [|a l IH]; simpl; [done|]. rewrite IH. lia. Qed.

(** The metric that the claims have in a pool. *)
Definition claimed_in (p : PoolId) (l : Claim) : Z :=
  zsum (fun x => if x.1 =? p then x.2.2 else 0) l.

(** The ratio of the total reward that one entry of a claim is due. *)
Definition entry_ratio s (e : Epoch_) (x : PoolId * (Metric * Metric)) : Z :=
  match s.(metric_pools) !! x.1 with
  | Some pool => compute_weighted_reward_ratio (ProvisionalBuffer.get pool.(mp_reward) e) x.2.2
                   (SlidingBuffer.get 0 pool.(mp_total_with_bonus) e)
  | None => 0
  end.

(** The totals of the pools at the epoch cover the claims. *)
Record covered s (e : Epoch_) (l : Claim) : Prop := {
  cv_rewards : forall id p, s.(metric_pools) !! id = Some p -> reward_ok p;
  cv_entries : Forall (fun x => 0 <= x.2.2) l;
  cv_totals : forall id p, s.(metric_pools) !! id = Some p ->
    claimed_in id l <= SlidingBuffer.get 0 p.(mp_total_with_bonus) e;
}.

Lemma weighted_ratio_range w n d :
  is_perquintill w -> 0 <= n -> 0 <= d -> is_perquintill (compute_weighted_reward_ratio w n d).
Proof.
  intros Hw Hn Hd. unfold compute_weighted_reward_ratio.
  destruct (Z.eqb_spec d 0); [done|].
  assert (is_perquintill (pq_from_rational n d)) as Hf by (apply pq_from_rational_range; lia).
  pose proof (pq_saturating_mul_le w _ Hw Hf). unfold is_perquintill in *. lia.
Qed.

(** The loop of [do_claim]: the ratios add up, but never to more than the whole. *)
Lemma claim_loop e s l acc r s' :
  (forall x, x ∈ l -> is_perquintill (entry_ratio s e x)) -> is_perquintill acc ->
  mfold l acc (fun total_reward_ratio '(pool_id, (_, metric_with_bonus_sum)) =>
      let* pool := gets (fun s => s.(metric_pools) !! pool_id) in
      let* pool := ok_or pool PoolNotFound in
      let reward_ratio := ProvisionalBuffer.get pool.(mp_reward) e in
      let pool_total := SlidingBuffer.get 0 pool.(mp_total_with_bonus) e in
      ret (pq_saturating_add total_reward_ratio
             (compute_weighted_reward_ratio reward_ratio metric_with_bonus_sum pool_total)))
    s = (Ok r, s') ->
  s' = s /\ is_perquintill r /\ r <= acc + zsum (entry_ratio s e) l /\
  (forall x, x ∈ l -> exists p, s.(metric_pools) !! x.1 = Some p).
Proof.
  revert acc. induction l as [|[id [m n]] l IH]; intros acc Hx Ha Hr; simpl in Hr.
  { inv_ok Hr. split_and!; [done|done|simpl; lia|]. intros x Hin. by apply elem_of_nil in Hin. }
  apply bind_ok in Hr as (acc' & s1 & Hstep & Hr). inv_ok Hstep.
  assert (is_perquintill (entry_ratio s1 e (id, (m, n)))) as He by (apply Hx, list_elem_of_here).
  match goal with H : metric_pools s1 !! id = Some ?p |- _ => rename H into Hp, p into pool end.
  set (w := compute_weighted_reward_ratio _ _ _) in Hr.
  assert (entry_ratio s1 e (id, (m, n)) = w) as Hw by (unfold entry_ratio; simpl; by rewrite Hp).
  rewrite Hw in He. rewrite pq_saturating_add_spec in Hr by done.
  assert (is_perquintill ((acc + w) `min` PERQUINTILL)) as Hacc
    by (unfold is_perquintill, PERQUINTILL in *; lia).
  destruct (IH _ ltac:(intros x Hin; by apply Hx, list_elem_of_further) Hacc Hr)
    as (-> & Hrg & Hle & Hin).
  split_and!; [done|done| |].
  - simpl. rewrite Hw. lia.
  - intros x [->|Hx']%elem_of_cons; [by exists pool|by apply Hin].
Qed.

Lemma do_claim_ratio e l total s r s' :
  (forall x, x ∈ l -> is_perquintill (entry_ratio s e x)) -> 0 < total ->
  do_claim e l total s = (Ok r, s') ->
  exists ratio, r = ratio * total / PERQUINTILL /\ is_perquintill ratio /\
    ratio <= zsum (entry_ratio s e) l /\ forall x, x ∈ l -> exists p, s.(metric_pools) !! x.1 = Some p.
Proof.
  intros Hx Ht Hr. unfold do_claim in Hr. destruct (Z.eqb_spec total 0); [lia|].
  apply bind_ok in Hr as (ratio & s1 & Hl & Hr). inv_ok Hr.
  apply claim_loop in Hl as (-> & Hrg & Hle & Hin); [|done|done].
  exists ratio. rewrite pq_mul_floor_spec by (done || lia). split_and!; [done|done|lia|done].
Qed.

Lemma entries_nonneg p l :
  Forall (fun x : PoolId * (Metric * Metric) => 0 <= x.2.2) l -> 0 <= claimed_in p l.
Proof.
  induction 1 as [|x l' ? ? IH]; simpl; [done|]. unfold claimed_in in *; simpl. case_match; lia.
Qed.

(** Sums of floors of the entries of one pool stay below the pool's ratio. *)
Lemma entries_of_pool w d l p :
  is_perquintill w -> Forall (fun x => 0 <= x.2.2) l -> claimed_in p l <= d ->
  0 <= zsum (fun x => if x.1 =? p then compute_weighted_reward_ratio w x.2.2 d else 0) l <= w.
Proof.
  intros Hw Hl Hd.
  pose proof (entries_nonneg p l Hl) as Hn0. assert (0 <= d) as Hd0 by lia.
  assert (0 <= zsum (fun x => if x.1 =? p then compute_weighted_reward_ratio w x.2.2 d else 0) l /\
    zsum (fun x => if x.1 =? p then compute_weighted_reward_ratio w x.2.2 d else 0) l * d
      <= w * claimed_in p l) as [H0 H1].
  { clear Hd Hn0. induction Hl as [|x l Hx Hl IH]; unfold claimed_in in *; simpl; [lia|].
    destruct (x.1 =? p); [|lia].
    pose proof (weighted_ratio_range w x.2.2 d Hw Hx Hd0) as Hr.
    assert (compute_weighted_reward_ratio w x.2.2 d * d <= w * x.2.2) as Hstep.
    { unfold compute_weighted_reward_ratio. destruct (Z.eqb_spec d 0) as [->|]; [unfold is_perquintill in *; nia|].
      assert (is_perquintill (pq_from_rational x.2.2 d)) as Hf by (apply pq_from_rational_range; lia).
      pose proof (pq_saturating_mul_floor w _ Hw Hf) as Hm.
      pose proof (pq_from_rational_floor x.2.2 d Hx ltac:(lia)) as Hfl.
      unfold is_perquintill, PERQUINTILL in *. nia. }
    unfold is_perquintill in *. nia. }
  split; [done|]. destruct (decide (d = 0)) as [->|].
  - assert (zsum (fun x => if x.1 =? p then compute_weighted_reward_ratio w x.2.2 0 else 0) l = 0) as ->.
    { clear. induction l as [|x l IH]; simpl; [done|]. rewrite IH. unfold compute_weighted_reward_ratio; simpl.
      by case_match. }
    unfold is_perquintill in *. lia.
  - unfold is_perquintill in *. nia.
Qed.

(** Grouping the entries by their pool. *)
Lemma entries_by_pool s e l :
  (forall x, x ∈ l -> exists p, s.(metric_pools) !! x.1 = Some p) ->
  zsum (entry_ratio s e) l =
  gsum (fun id p => zsum (fun x => if x.1 =? id then compute_weighted_reward_ratio
          (ProvisionalBuffer.get p.(mp_reward) e) x.2.2 (SlidingBuffer.get 0 p.(mp_total_with_bonus) e)
        else 0) l) s.(metric_pools).
Proof.
  induction l as [|x l IH]; intros Hx; simpl.
  { by rewrite gsum_zero. }
  rewrite IH by (intros y Hy; by apply Hx, list_elem_of_further).
  destruct (Hx x ltac:(apply list_elem_of_here)) as [p Hp]. unfold entry_ratio. rewrite Hp.
  rewrite <-(insert_delete_id _ _ _ Hp), !gsum_insert_new by apply lookup_delete_eq.
  rewrite Z.eqb_refl. rewrite Z.add_assoc. f_equal.
  apply gsum_ext. intros k q Hk. destruct (Z.eqb_spec x.1 k) as [<-|]; [|lia].
  by rewrite lookup_delete_eq in Hk.
Qed.

Lemma claims_ratio s e l :
  covered s e l -> (forall x, x ∈ l -> exists p, s.(metric_pools) !! x.1 = Some p) ->
  zsum (entry_ratio s e) l <= gsum (fun _ p => ProvisionalBuffer.get p.(mp_reward) e) s.(metric_pools).
Proof.
  intros [Hrw Hent Htot] Hx. rewrite entries_by_pool by done. apply gsum_le. intros id p Hp.
  apply entries_of_pool; [by apply (Hrw _ _ Hp)|done|by apply Htot].
Qed.
(** Floors of parts of the total add up to at most the total. *)
Lemma claims_total total (rs ratios : list Z) :
  0 <= total -> Forall2 (fun r q => r = q * total / PERQUINTILL) rs ratios ->
  zsum (fun x => x) ratios <= PERQUINTILL -> zsum (fun x => x) rs <= total.
Proof.
  intros Ht Hf Hq. assert (zsum (fun x => x) rs <= zsum (fun x => x) ratios * total / PERQUINTILL) as Hle.
  { clear Hq. induction Hf as [|r q rs ratios -> Hf IH]; simpl; [done|]. rewrite Z.mul_add_distr_r.
    pose proof (floor_add (q * total) (zsum (fun x => x) ratios * total) PERQUINTILL ltac:(done)). lia. }
  etransitivity; [exact Hle|]. apply Z.div_le_upper_bound; [done|]. nia.
Qed.

(** C40: all metrics rewards claimed for an epoch, by however many managers, come out of
    the reward that was set aside for it: when the pools' totals of the epoch cover the
    claimed metrics and the pools' shares add up to at most 100%, the claims pay
    together at most the total reward. *)
Theorem metric_claims_within_reward e (claims : list Claim) total s rs :
  0 < total -> covered s e (mjoin claims) ->
  gsum (fun _ p => ProvisionalBuffer.get p.(mp_reward) e) s.(metric_pools) <= PERQUINTILL ->
  Forall2 (fun l r => do_claim e l total s = (Ok r, s)) claims rs ->
  zsum (fun x => x) rs <= total.
Proof.
  intros Ht Hcov Hsum Hcl.
  assert (forall x, x ∈ mjoin claims -> is_perquintill (entry_ratio s e x)) as Hx.
  { destruct Hcov as [Hrw Hent Htot]. intros x Hin. rewrite Forall_forall in Hent. unfold entry_ratio.
    destruct (metric_pools s !! x.1) as [p|] eqn:Hp; [|by vm_compute].
    apply weighted_ratio_range; [by apply (Hrw _ _ Hp)|by apply Hent|].
    etransitivity; [|by apply (Htot _ _ Hp)].
    apply (entries_nonneg x.1), Forall_forall, Hent. }
  assert (exists ratios, Forall2 (fun r q => r = q * total / PERQUINTILL) rs ratios /\
    zsum (fun x => x) ratios <= zsum (entry_ratio s e) (mjoin claims) /\
    forall x, x ∈ mjoin claims -> exists p, s.(metric_pools) !! x.1 = Some p) as (ratios & Hf & Hle & Hin).
  { clear Hcov Hsum. induction Hcl as [|l r claims rs Hr Hcl IH].
    { exists []. split_and!; [constructor|done|]. intros x Hin. by apply elem_of_nil in Hin. }
    destruct IH as (ratios & Hf & Hle & Hin); [intros x Hx'; apply Hx; simpl; apply elem_of_app; by right|].
    apply do_claim_ratio in Hr as (q & -> & Hq & Hql & Hqin); [| |done].
    2: { intros x Hx'. apply Hx. simpl. apply elem_of_app. by left. }
    exists (q :: ratios). split_and!; [by constructor| |].
    - change (mjoin (l :: claims)) with (l ++ mjoin claims). rewrite zsum_app. simpl. lia.
    - intros x. change (mjoin (l :: claims)) with (l ++ mjoin claims). rewrite elem_of_app.
      intros [Hx'|Hx']; [by apply Hqin|by apply Hin]. }
  apply (claims_total total rs ratios); [lia|done|].
  pose proof (claims_ratio s e _ Hcov Hin). lia.
Qed.
End specs.

(** ** The run of [Reference] *)
#[local] Existing Instance small.

(** The whole metric of the pool in epoch 1, claimed by two managers: 40% and 60%. *)
Definition claims_example : list (list (Z * (Z * Z))) :=
  [[(1, (400 * 10 ^ 18, 400 * 10 ^ 18))]; [(1, (600 * 10 ^ 18, 600 * 10 ^ 18))]].

Lemma do_claim_run l r :
  result (do_claim 1 l 1000) s_delegated = Ok r -> do_claim 1 l 1000 s_delegated = (Ok r, s_delegated).
Proof.
  intros Hr. apply result_exec in Hr as Hr'. rewrite Hr'. f_equal.
  exact (ro_do_claim 1 l 1000 _ _ _ Hr').
Qed.

Lemma metric_claims_within_reward_witness :
  Forall2 (fun l r => do_claim 1 l 1000 s_delegated = (Ok r, s_delegated)) claims_example [240; 360] /\
  zsum (fun x => x) [240; 360] <= 1000.
Proof.
  assert (Forall2 (fun l r => do_claim 1 l 1000 s_delegated = (Ok r, s_delegated))
            claims_example [240; 360]) as Hf.
  { constructor; [|constructor; [|constructor]]; apply do_claim_run; by_compute. }
  split; [exact Hf|].
  assert (0 < 1000) as Ht by by_compute.
  assert (gsum (fun _ p => ProvisionalBuffer.get p.(mp_reward) 1) s_delegated.(metric_pools)
            <= PERQUINTILL) as Hs by by_compute.
  assert (bool_decide (map_Forall (fun id p => claimed_in id (mjoin claims_example)
            <= SlidingBuffer.get 0 p.(mp_total_with_bonus) 1) s_delegated.(metric_pools)) = true) as Hc
    by by_compute.
  apply bool_decide_eq_true_1 in Hc.
  assert (Forall (fun x : Z * (Z * Z) => 0 <= x.2.2) (mjoin claims_example)) as He.
  { constructor; [by_compute|constructor; [by_compute|constructor]]. }
  refine (metric_claims_within_reward 1 claims_example 1000 s_delegated [240; 360] Ht _ Hs Hf).
  constructor; [exact (pi_rewards _ pools_inv_delegated)|exact He|exact Hc].
Defined.
