(* ===== verification/Schedules.v ===== *)
(** Job schedules: [Schedule] and [ScheduleIter] of
    [pallets/acurast/common/src/types.rs].

    All times are [u64] milliseconds.  A schedule starts an execution of
    [duration] every [interval], from [start_time] (shifted by the start delay
    that a match chose) until [end_time], exclusive. *)
From S2P Require Import Prelude.

Record Schedule := mkSchedule {
  duration : Z;
  start_time : Z;
  end_time : Z;
  interval : Z;
  max_start_delay : Z;
}.
#[export] Instance Schedule_eq_dec : EqDecision Schedule.
Proof. solve_decision. Defined.

(** [execution_count]: the closure with [?], then [unwrap_or(0)] *)
Definition execution_count (self : Schedule) : Z :=
  default 0
    (d ← checked_sub self.(end_time) self.(start_time);
     d1 ← checked_sub d 1;
     q ← checked_div d1 self.(interval);
     checked_add u64_max q 1).

Record ScheduleIter := mkScheduleIter {
  delayed_start_time : Z;
  delayed_end_time : Z;
  it_interval : Z;
  it_current : option Z;
}.
Definition set_it_current (v : option Z) (x : ScheduleIter) : ScheduleIter :=
  mkScheduleIter x.(delayed_start_time) x.(delayed_end_time) x.(it_interval) v.

(** [Schedule::iter] *)
Definition iter (self : Schedule) (start_delay : Z) : option ScheduleIter :=
  s ← checked_add u64_max self.(start_time) start_delay;
  e ← checked_add u64_max self.(end_time) start_delay;
  Some (mkScheduleIter s e self.(interval) None).

(** [ScheduleIter::next]: the item and the iterator after the call.  The [?] on an
    overflow returns before [current] is assigned. *)
Definition next (self : ScheduleIter) : option Z * ScheduleIter :=
  match self.(it_current) with
  | None =>
      if self.(delayed_start_time) <? self.(delayed_end_time)
      then (Some self.(delayed_start_time), set_it_current (Some self.(delayed_start_time)) self)
      else (None, set_it_current None self)
  | Some curr =>
      match checked_add u64_max curr self.(it_interval) with
      | None => (None, self)
      | Some nxt =>
          if nxt <? self.(delayed_end_time)
          then (Some nxt, set_it_current (Some nxt) self)
          else (None, set_it_current None self)
      end
  end.

(** The items up to the first [None], at most [fuel] of them. *)
Fixpoint collect (fuel : nat) (it : ScheduleIter) : list Z :=
  match fuel with
  | O => []
  | S fuel =>
      match next it with
      | (Some x, it') => x :: collect fuel it'
      | (None, _) => []
      end
  end.

(** One item more than there are executions is never needed ([collect_enough]). *)
Definition iter_fuel (self : Schedule) : nat := S (Z.to_nat (execution_count self)).

Definition nth_start_time (self : Schedule) (start_delay execution_index : Z) : option Z :=
  if execution_count self <=? execution_index then None
  else
    s ← checked_add u64_max self.(start_time) start_delay;
    o ← checked_mul u64_max self.(interval) execution_index;
    checked_add u64_max s o.

Definition actual_start (self : Schedule) (start_delay : Z) : Z :=
  saturating_add u64_max self.(start_time) start_delay.

Definition actual_end (self : Schedule) (actual_start : Z) : Z :=
  let count := execution_count self in
  if 0 <? count then
    saturating_add u64_max
      (saturating_add u64_max actual_start
         (saturating_mul u64_max (count - 1) self.(interval)))
      self.(duration)
  else actual_start.

(** The division panics on a zero interval; [execution_count() - 1] wraps. *)
Definition current_execution_index {S E} (self : Schedule) (start_delay now : Z)
  : M S E (option Z) :=
  let actual_start := saturating_add u64_max self.(start_time) start_delay in
  if now <? actual_start then ret None
  else
    let max_index := wrap_as u64_max (execution_count self - 1) in
    let* q := or_panic (checked_div (now - actual_start) self.(interval)) in
    ret (Some (Z.min q max_index)).

Definition next_execution_index {S E} (self : Schedule) (start_delay now : Z) : M S E Z :=
  let* i := current_execution_index self start_delay now in
  ret (match i with Some value => wrapping_add u64_max value 1 | None => 0 end).

Definition is_expired (self : Schedule) (now report_tolerance : Z) : bool :=
  let e :=
    saturating_add u64_max
      (actual_end self (actual_start self self.(max_start_delay))) report_tolerance in
  e <? now.

Definition range (self : Schedule) (start_delay : Z) : Z * Z :=
  let actual_start := actual_start self start_delay in
  (actual_start, actual_end self actual_start).

Definition overlaps (self : Schedule) (start_delay : Z) (bounds : Z * Z) : bool :=
  let '(a, b) := bounds in
  let '(start, e) := range self start_delay in
  if (b <=? a) || (start =? e) || (b <=? start) || (e <=? a) then false
  else
    let relative_a := default start (checked_sub a start) in
    match checked_sub b start with
    | Some relative_b =>
        let a := relative_a mod self.(interval) in
        let _b := relative_b mod self.(interval) in
        let b := if _b =? 0 then self.(interval) else _b in
        let l := saturating_sub b a in
        (b <? a) || (a <? self.(duration)) || (self.(interval) <=? l)
    | None => false
    end.

(** * What registration demands of a schedule

    [register_hook] only accepts schedules of this kind; all fields are [u64]. *)
Record registrable (self : Schedule) : Prop := {
  rg_duration : 0 < self.(duration);
  rg_interval : self.(duration) < self.(interval) <= u64_max;
  rg_start : 0 <= self.(start_time);
  rg_end : self.(end_time) <= u64_max;
  rg_delay : 0 <= self.(max_start_delay);
  rg_count : 0 < execution_count self;
}.

Lemma execution_count_pos self :
  0 < execution_count self ->
  self.(start_time) < self.(end_time) /\ self.(interval) <> 0 /\
  execution_count self = (self.(end_time) - self.(start_time) - 1) / self.(interval) + 1.
Proof.
  unfold execution_count. intros H.
  destruct (_ ≫= _) as [c|] eqn:E; simpl in *; [|lia].
  apply bind_Some in E as (d & [-> ?]%checked_sub_Some & E).
  apply bind_Some in E as (d1 & [-> ?]%checked_sub_Some & E).
  apply bind_Some in E as (q & [-> ?]%checked_div_Some & E).
  apply checked_add_Some in E as [-> ?]. lia.
Qed.

(** Execution [k] exists iff its undelayed start lies before the end. *)
Lemma execution_count_spec self k :
  registrable self -> 0 <= k ->
  k < execution_count self <-> self.(start_time) + self.(interval) * k < self.(end_time).
Proof.
  intros [] Hk. destruct (execution_count_pos self) as (? & ? & ->); [done|].
  split; intros Hc.
  - pose proof (Z.mul_div_le (end_time self - start_time self - 1) (interval self)). nia.
  - assert (k <= (end_time self - start_time self - 1) / interval self); [|lia].
    apply Z.div_le_lower_bound; lia.
Qed.

Lemma execution_count_range self : registrable self -> 1 <= execution_count self <= u64_max.
Proof.
  intros Hr. pose proof Hr as []. destruct (execution_count_pos self) as (? & ? & Hc); [done|].
  split; [lia|]. rewrite Hc.
  assert ((end_time self - start_time self - 1) / interval self
          <= end_time self - start_time self - 1); [|lia].
  apply Z.div_le_upper_bound; nia.
Qed.

Lemma nth_start_time_Some self delay k t :
  nth_start_time self delay k = Some t <->
  k < execution_count self /\ t = self.(start_time) + delay + self.(interval) * k
  /\ self.(start_time) + delay <= u64_max /\ self.(interval) * k <= u64_max
  /\ self.(start_time) + delay + self.(interval) * k <= u64_max.
Proof.
  unfold nth_start_time. destruct (Z.leb_spec (execution_count self) k); [naive_solver lia|].
  rewrite bind_Some. setoid_rewrite bind_Some.
  setoid_rewrite checked_add_Some. setoid_rewrite checked_mul_Some. naive_solver.
Qed.
