(* ===== verification/ScheduleSpecs.v ===== *)
(** What the schedules of [Schedules.v] promise: the iterator lists the start
    times, an execution is current from its start to the next start, and the
    overlap test decides whether a window meets an execution. *)
From S2P Require Import Prelude Schedules.

(** The start of execution [k], counted from the start of the first one. *)
Definition exec_start (self : Schedule) (delay k : Z) : Z :=
  self.(start_time) + delay + self.(interval) * k.

(** Execution [k] runs in [[exec_start k, exec_start k + duration)]; it meets the
    window [[a, b)]. *)
Definition meets (self : Schedule) (delay k a b : Z) : Prop :=
  exec_start self delay k < b /\ a < exec_start self delay k + self.(duration).

(** No time of the delayed schedule leaves [u64]. *)
Definition fits_u64 (self : Schedule) (delay : Z) : Prop :=
  0 <= delay /\ self.(end_time) + delay + self.(duration) + self.(interval) <= u64_max.

Lemma exec_start_bound self delay k :
  registrable self -> fits_u64 self delay -> 0 <= k < execution_count self ->
  self.(start_time) + delay <= exec_start self delay k < self.(end_time) + delay.
Proof.
  intros Hr [? _] [Hk Hc]. apply execution_count_spec in Hc; [|done..].
  unfold exec_start. pose proof Hr as []. nia.
Qed.

(** ** The iterator *)
Lemma collect_from self delay k fuel :
  registrable self -> fits_u64 self delay -> 0 <= k < execution_count self ->
  (Z.to_nat (execution_count self - k) <= fuel)%nat ->
  collect fuel (mkScheduleIter (self.(start_time) + delay) (self.(end_time) + delay)
                  self.(interval) (Some (exec_start self delay k)))
  = (exec_start self delay) <$> seqZ (k + 1) (execution_count self - k - 1).
Proof.
  intros Hr Hf. revert k. induction fuel as [|fuel IH]; intros k Hk Hfuel; [lia|].
  simpl. unfold next; simpl. pose proof (exec_start_bound self delay k Hr Hf Hk) as Hb.
  pose proof Hr as []. destruct Hf as [Hd Hmx].
  replace (checked_add u64_max (exec_start self delay k) (interval self))
    with (Some (exec_start self delay (k + 1))).
  2:{ symmetry. apply checked_add_Some. unfold exec_start in *. lia. }
  destruct (Z.ltb_spec (exec_start self delay (k + 1)) (end_time self + delay)) as [Hlt|Hge].
  - assert (k + 1 < execution_count self) as Hk1.
    { apply execution_count_spec; [done|lia|]. unfold exec_start in Hlt. lia. }
    unfold set_it_current; simpl. rewrite IH by lia.
    replace (execution_count self - (k + 1) - 1) with (Z.pred (execution_count self - k - 1)) by lia.
    rewrite (seqZ_cons (k + 1)) by lia. simpl. do 3 f_equal; lia.
  - assert (execution_count self <= k + 1) as Hk1.
    { apply Z.nlt_ge. intros Hlt. apply execution_count_spec in Hlt; [|done|lia].
      unfold exec_start in Hge. lia. }
    rewrite (seqZ_nil (k + 1)) by lia. done.
Qed.

Lemma collect_enough self delay it fuel :
  registrable self -> fits_u64 self delay -> iter self delay = Some it ->
  (iter_fuel self <= fuel)%nat ->
  collect fuel it = (exec_start self delay) <$> seqZ 0 (execution_count self).
Proof.
  intros Hr Hf Hit Hfuel. unfold iter in Hit.
  apply bind_Some in Hit as (s & [-> ?]%checked_add_Some & Hit).
  apply bind_Some in Hit as (e & [-> ?]%checked_add_Some & Hit). simplify_eq.
  unfold iter_fuel in Hfuel. destruct fuel as [|fuel]; [lia|].
  pose proof (execution_count_range self Hr).
  assert (0 <= 0 < execution_count self) as Hz by lia.
  pose proof (exec_start_bound self delay 0 Hr Hf Hz) as Hb.
  unfold exec_start in Hb. rewrite Z.mul_0_r, Z.add_0_r in Hb.
  simpl. unfold next; simpl. destruct (Z.ltb_spec (start_time self + delay) (end_time self + delay)); [|lia].
  unfold set_it_current; simpl.
  pose proof (collect_from self delay 0 fuel Hr Hf Hz ltac:(lia)) as Hc.
  unfold exec_start at 1 in Hc. rewrite Z.mul_0_r, Z.add_0_r in Hc. rewrite Hc.
  rewrite (seqZ_cons 0) by lia. simpl. f_equal; [unfold exec_start; lia|]. f_equal. f_equal; lia.
Qed.

Lemma nth_start_time_fits self delay k :
  registrable self -> fits_u64 self delay -> 0 <= k < execution_count self ->
  nth_start_time self delay k = Some (exec_start self delay k).
Proof.
  intros Hr Hf Hk. apply nth_start_time_Some.
  pose proof (exec_start_bound self delay k Hr Hf Hk). pose proof Hr as [].
  destruct Hf. unfold exec_start in *. nia.
Qed.

Lemma iter_fits self delay :
  registrable self -> fits_u64 self delay ->
  iter self delay
  = Some (mkScheduleIter (self.(start_time) + delay) (self.(end_time) + delay) self.(interval) None).
Proof.
  intros [] [? ?]. unfold iter.
  pose proof (execution_count_pos self) as (? & ? & _); [done|].
  rewrite (proj2 (checked_add_Some u64_max (start_time self) delay _)) by (split; [done|lia]).
  simpl.
  by rewrite (proj2 (checked_add_Some u64_max (end_time self) delay _)) by (split; [done|lia]).
Qed.

(** the iterator of a registered schedule stops, after exactly
    [execution_count] items, and its items are the start times
    [nth_start_time] of the executions 0, 1, ... in this order, each an interval
    after the one before; whatever fuel beyond [iter_fuel] is given. *)
Theorem schedule_iter_lists_starts (self : Schedule) (delay : Z) (fuel : nat) :
  registrable self -> fits_u64 self delay -> (iter_fuel self <= fuel)%nat ->
  exists it,
    iter self delay = Some it /\
    Some <$> collect fuel it = nth_start_time self delay <$> seqZ 0 (execution_count self) /\
    Z.of_nat (length (collect fuel it)) = execution_count self /\
    forall k x y,
      collect fuel it !! k = Some x -> collect fuel it !! S k = Some y -> y = x + self.(interval).
Proof.
  intros Hr Hf Hfuel. eexists. split; [by apply iter_fits|].
  pose proof (execution_count_range self Hr).
  rewrite (collect_enough self delay) by (done || by apply iter_fits). split_and!.
  - rewrite <-list_fmap_compose. apply list_fmap_ext. intros i k Hk.
    apply list_elem_of_lookup_2, elem_of_seqZ in Hk. symmetry. apply nth_start_time_fits; [done..|lia].
  - rewrite length_fmap, length_seqZ. lia.
  - intros k x y. rewrite !list_lookup_fmap, !fmap_Some.
    intros (i & Hi & ->) (j & Hj & ->). apply lookup_seqZ in Hi as [-> ?], Hj as [-> ?].
    unfold exec_start. lia.
Qed.

(** ** The current execution *)

Lemma current_execution_run {S E} (self : Schedule) (delay now : Z) (s : S) :
  registrable self -> fits_u64 self delay -> now <= u64_max ->
  (now < self.(start_time) + delay -> current_execution_index (E:=E) self delay now s = (Ok None, s)) /\
  (self.(start_time) + delay <= now ->
   exists k, current_execution_index (E:=E) self delay now s = (Ok (Some k), s) /\
     0 <= k < execution_count self /\
     exec_start self delay k <= now /\
     (now < exec_start self delay (k + 1) \/ k = execution_count self - 1)).
Proof.
  intros Hr [Hd Hf] Hn. pose proof (execution_count_range self Hr) as Hc.
  pose proof Hr as []. destruct (execution_count_pos self) as (? & ? & _); [done|].
  unfold current_execution_index, saturating_add.
  rewrite Z.min_l by lia. split; intros Hs; destruct (Z.ltb_spec now (start_time self + delay)); try lia.
  - done.
  - unfold wrap_as, checked_div. rewrite Z.mod_small by lia.
    destruct (Z.eqb_spec (interval self) 0); [lia|]. unfold bind, or_panic, ret.
    eexists. split; [done|].
    pose proof (Z.mul_div_le (now - (start_time self + delay)) (interval self)).
    pose proof (Z.mul_succ_div_gt (now - (start_time self + delay)) (interval self)).
    assert (0 <= (now - (start_time self + delay)) / interval self) by (apply Z.div_pos; lia).
    unfold exec_start. split; [lia|]. split; [nia|].
    destruct (Z.le_gt_cases ((now - (start_time self + delay)) / interval self) (execution_count self - 1));
      [left; rewrite Z.min_l by lia; nia|right; lia].
Qed.

(** once the delayed schedule has started, the current execution is the one
    whose period (from its start to the next start) contains [now], and the last
    execution forever after; before the start there is none. *)
Theorem current_execution_period {S E} (self : Schedule) (delay now : Z) (s : S) :
  registrable self -> fits_u64 self delay -> now <= u64_max ->
  (now < self.(start_time) + delay -> current_execution_index (E:=E) self delay now s = (Ok None, s)) /\
  (self.(start_time) + delay <= now ->
   exists k, current_execution_index (E:=E) self delay now s = (Ok (Some k), s) /\
     0 <= k < execution_count self /\
     exec_start self delay k <= now /\
     (now < exec_start self delay (k + 1) \/ k = execution_count self - 1)).
Proof. apply current_execution_run. Qed.

(** ** The overlap test *)
Lemma range_fits self delay :
  registrable self -> fits_u64 self delay ->
  range self delay
  = (self.(start_time) + delay,
     exec_start self delay (execution_count self - 1) + self.(duration)).
Proof.
  intros Hr Hf. pose proof Hr as []. pose proof Hf as [? ?].
  pose proof (execution_count_range self Hr).
  assert (0 <= execution_count self - 1 < execution_count self) as Hk by lia.
  pose proof (exec_start_bound self delay _ Hr Hf Hk) as Hb. unfold exec_start in *.
  unfold range, actual_end, actual_start, saturating_add, saturating_mul.
  destruct (Z.ltb_spec 0 (execution_count self)); [|lia]. f_equal; nia.
Qed.

(** Arithmetic of the test: times relative to the start, in periods of [i]. *)
Lemma window_mod i d n a b :
  0 < d < i -> 0 <= a < b -> b - a < i -> a < (n - 1) * i + d ->
  let b' := if b mod i =? 0 then i else b mod i in
  (b' < a mod i \/ a mod i < d \/ i <= Z.max 0 (b' - a mod i)) <->
  exists k, 0 <= k < n /\ i * k < b /\ a < i * k + d.
Proof.
  intros Hd Hab Hl Ha. simpl.
  pose proof (Z.div_mod a i ltac:(lia)) as Eq. pose proof (Z.mod_pos_bound a i ltac:(lia)) as Hr.
  pose proof (Z.div_mod b i ltac:(lia)) as Eqb. pose proof (Z.mod_pos_bound b i ltac:(lia)) as Hrb.
  set (q := a / i) in *. set (a' := a mod i) in *. set (p := b / i) in *. set (b0 := b mod i) in *.
  assert (0 <= q) by (apply Z.div_pos; lia).
  assert (p = q \/ p = q + 1) as Hp by nia.
  assert (q < n) by nia.
  split.
  - intros Hcase. destruct (Z.lt_ge_cases a' d).
    + exists q. nia.
    + exists (q + 1). destruct (Z.eqb_spec b0 0); nia.
  - intros (k & Hk & Hkb & Hka). assert (k = q \/ k = q + 1) as [->| ->] by nia.
    + right; left; nia.
    + destruct (Z.lt_ge_cases a' d); [by right; left|]. left.
      destruct (Z.eqb_spec b0 0); nia.
Qed.

Lemma overlaps_window (self : Schedule) (delay a b : Z) :
  registrable self -> fits_u64 self delay ->
  self.(start_time) + delay <= a < b -> b - a < self.(interval) ->
  overlaps self delay (a, b) = true <->
  exists k, 0 <= k < execution_count self /\ meets self delay k a b.
Proof.
  intros Hr Hf Ha Hl. pose proof Hr as []. pose proof (execution_count_range self Hr) as Hc.
  unfold overlaps. rewrite range_fits by done.
  set (s := start_time self + delay) in *. set (n := execution_count self) in *.
  set (i := interval self) in *. set (d := duration self) in *.
  replace (exec_start self delay (n - 1) + d) with (s + (i * (n - 1) + d)) by (unfold exec_start; lia).
  assert ((s =? s + (i * (n - 1) + d)) = false) as -> by (apply Z.eqb_neq; nia).
  assert ((b <=? a) = false) as -> by (apply Z.leb_gt; lia).
  assert ((b <=? s) = false) as -> by (apply Z.leb_gt; lia).
  rewrite !orb_false_l. destruct (Z.leb_spec (s + (i * (n - 1) + d)) a) as [Hge|Hlt].
  - split; [done|]. intros (k & Hk & Hm). unfold meets, exec_start in Hm.
    fold s i d in Hm. nia.
  - rewrite (proj2 (checked_sub_Some a s (a - s))), (proj2 (checked_sub_Some b s (b - s))) by lia.
    simpl. rewrite !orb_true_iff, Z.ltb_lt, Z.ltb_lt, Z.leb_le, Logic.or_assoc.
    unfold saturating_sub.
    rewrite (window_mod i d n (a - s) (b - s)) by lia.
    apply exist_proper. intros k. unfold meets, exec_start. fold s i d. naive_solver lia.
Qed.

(** the overlap test is exact for a window that does not begin before the
    schedule and is shorter than its interval: it answers yes iff some execution
    runs during the window. *)
Theorem overlaps_exact (self : Schedule) (delay a b : Z) :
  registrable self -> fits_u64 self delay ->
  self.(start_time) + delay <= a < b -> b - a < self.(interval) ->
  overlaps self delay (a, b) = true <->
  exists k, 0 <= k < execution_count self /\ meets self delay k a b.
Proof. apply overlaps_window. Qed.

(** A schedule only expires once every execution that any accepted start
    delay allows has ended, and the time to report it has passed too. *)
Theorem expired_after_all_executions (self : Schedule) (now tolerance delay k : Z) :
  registrable self -> fits_u64 self self.(max_start_delay) ->
  now <= u64_max -> 0 <= delay <= self.(max_start_delay) -> 0 <= k < execution_count self ->
  is_expired self now tolerance = true ->
  exec_start self delay k + self.(duration) + tolerance < now.
Proof.
  intros Hr Hf Hn Hd Hk. pose proof (range_fits self _ Hr Hf) as Hg.
  unfold range in Hg. injection Hg as _ He. unfold is_expired. rewrite He, Z.ltb_lt.
  pose proof Hr as []. unfold saturating_add, exec_start in *. nia.
Qed.

(** ** Outside these bounds the test misses overlaps

    An execution every ten milliseconds for two milliseconds, at 5 and at 15.  A
    window that begins before the schedule is measured from [start] twice
    ([unwrap_or(start)] where the offset 0 is meant), and only the offsets within
    one period are compared, so a window of more than a period can be missed. *)
Definition every_ten : Schedule :=
  {| duration := 2; start_time := 5; end_time := 25; interval := 10; max_start_delay := 0 |}.

Lemma overlaps_misses_early_window :
  overlaps every_ten 0 (0, 10) = false /\
  exists k, 0 <= k < execution_count every_ten /\ meets every_ten 0 k 0 10.
Proof.
  split; [reflexivity|]. exists 0. unfold meets, exec_start. simpl. split; [by_compute|lia].
Qed.

Lemma overlaps_misses_long_window :
  overlaps every_ten 0 (10, 22) = false /\
  exists k, 0 <= k < execution_count every_ten /\ meets every_ten 0 k 10 22.
Proof.
  split; [reflexivity|]. exists 1. unfold meets, exec_start. simpl. split; [by_compute|lia].
Qed.

(** ** Concrete inputs *)
Lemma every_ten_registrable : registrable every_ten.
Proof. split; by_compute. Qed.
Lemma every_ten_fits d : 0 <= d <= 1000 -> fits_u64 every_ten d.
Proof. intros Hd. unfold fits_u64. simpl. unfold u64_max. lia. Qed.

Lemma schedule_iter_lists_starts_witness :
  (exists it, iter every_ten 3 = Some it /\ collect 3 it = [8; 18]) /\
  exists it,
    iter every_ten 3 = Some it /\
    Some <$> collect 3 it = nth_start_time every_ten 3 <$> seqZ 0 (execution_count every_ten) /\
    Z.of_nat (length (collect 3 it)) = execution_count every_ten /\
    forall k x y, collect 3 it !! k = Some x -> collect 3 it !! S k = Some y -> y = x + 10.
Proof.
  split; [eexists; split; reflexivity|].
  apply (schedule_iter_lists_starts every_ten 3 3 every_ten_registrable).
  - apply every_ten_fits. lia.
  - vm_compute. lia.
Defined.

Lemma current_execution_period_witness :
  exists k, current_execution_index (E:=unit) every_ten 3 17 tt = (Ok (Some k), tt) /\
    0 <= k < execution_count every_ten /\ exec_start every_ten 3 k <= 17 /\
    (17 < exec_start every_ten 3 (k + 1) \/ k = execution_count every_ten - 1).
Proof.
  apply (current_execution_period every_ten 3 17 tt every_ten_registrable);
    [apply every_ten_fits; lia|unfold u64_max; lia|simpl; lia].
Defined.

Lemma overlaps_exact_witness :
  overlaps every_ten 3 (10, 19) = true /\
  (overlaps every_ten 3 (10, 19) = true <->
   exists k, 0 <= k < execution_count every_ten /\ meets every_ten 3 k 10 19).
Proof.
  split; [reflexivity|].
  apply (overlaps_exact every_ten 3 10 19 every_ten_registrable);
    [apply every_ten_fits; lia|simpl; lia|simpl; lia].
Defined.

Lemma expired_after_all_executions_witness :
  is_expired every_ten 30 10 = true /\ exec_start every_ten 0 1 + 2 + 10 < 30.
Proof.
  split; [reflexivity|].
  apply (expired_after_all_executions every_ten 30 10 0 1 every_ten_registrable);
    [apply every_ten_fits; simpl; lia|unfold u64_max; lia|simpl; lia|by_compute|reflexivity].
Defined.
