(* ===== verification/Attestations.v ===== *)
(** Key attestations: the stored form of [pallets/acurast/common/src/types/bounded_attestation.rs]
    and the checks of [runtime/common/src/utils.rs] and [runtime/common/src/barrier.rs]
    that decide which devices and which apps are accepted.

    Byte strings are lists of [Z]; the bounds of the [BoundedVec]s are enforced
    where the values are decoded and do not appear in the types. *)
From S2P Require Import Prelude.

Notation Bytes := (list Z) (only parsing).
Notation IssuerName := (list Z) (only parsing).
Notation SerialNumber := (list Z) (only parsing).

Inductive AttestationSecurityLevel :=
| Software
| TrustedEnvironemnt
| StrongBox
| UnknownLevel.
#[export] Instance AttestationSecurityLevel_eq_dec : EqDecision AttestationSecurityLevel.
Proof. solve_decision. Defined.

(** [From<asn::SecurityLevel>] *)
Definition security_level_from (value : Z) : AttestationSecurityLevel :=
  match value with
  | 0 => Software
  | 1 => TrustedEnvironemnt
  | 2 => StrongBox
  | _ => UnknownLevel
  end.

Inductive VerifiedBootState :=
| Verified
| SelfSigned
| Unverified
| FailedBoot.
#[export] Instance VerifiedBootState_eq_dec : EqDecision VerifiedBootState.
Proof. solve_decision. Defined.

(** [From<asn::VerifiedBootState>] *)
Definition verified_boot_state_from (value : Z) : VerifiedBootState :=
  match value with
  | 0 => Verified
  | 1 => SelfSigned
  | 2 => Unverified
  | _ => FailedBoot
  end.

Record BoundedRootOfTrust := {
  verified_boot_key : Bytes;
  device_locked : bool;
  verified_boot_state : VerifiedBootState;
  verified_boot_hash : option Bytes;
}.

Record BoundedAttestationPackageInfo := {
  package_name : Bytes;
  pkg_version : Z;
}.

Record BoundedAttestationApplicationId := {
  package_infos : list BoundedAttestationPackageInfo;
  signature_digests : list Bytes;
}.

Record BoundedAuthorizationList := {
  al_purpose : option Bytes;
  al_algorithm : option Z;
  al_key_size : option Z;
  al_digest : option Bytes;
  al_padding : option Bytes;
  al_ec_curve : option Z;
  al_rsa_public_exponent : option Z;
  al_mgf_digest : option Bytes;
  al_rollback_resistance : option bool;
  al_early_boot_only : option bool;
  al_active_date_time : option Z;
  al_origination_expire_date_time : option Z;
  al_usage_expire_date_time : option Z;
  al_usage_count_limit : option Z;
  al_no_auth_required : bool;
  al_user_auth_type : option Z;
  al_auth_timeout : option Z;
  al_allow_while_on_body : bool;
  al_trusted_user_presence_required : option bool;
  al_trusted_confirmation_required : option bool;
  al_unlocked_device_required : option bool;
  al_all_applications : option bool;
  al_application_id : option Bytes;
  al_creation_date_time : option Z;
  al_origin : option Z;
  al_root_of_trust : option BoundedRootOfTrust;
  al_os_version : option Z;
  al_os_patch_level : option Z;
  al_attestation_application_id : option BoundedAttestationApplicationId;
  al_attestation_id_brand : option Bytes;
  al_attestation_id_device : option Bytes;
  al_attestation_id_product : option Bytes;
  al_attestation_id_serial : option Bytes;
  al_attestation_id_imei : option Bytes;
  al_attestation_id_meid : option Bytes;
  al_attestation_id_manufacturer : option Bytes;
  al_attestation_id_model : option Bytes;
  al_vendor_patch_level : option Z;
  al_boot_patch_level : option Z;
  al_device_unique_attestation : option bool;
}.

Record BoundedKeyDescription := {
  attestation_security_level : AttestationSecurityLevel;
  key_mint_security_level : AttestationSecurityLevel;
  software_enforced : BoundedAuthorizationList;
  tee_enforced : BoundedAuthorizationList;
}.

Record BoundedDeviceAttestationKeyUsageProperties := {
  t4 : option Z;
  t1200 : option Z;
  t1201 : option Z;
  t1202 : option Z;
  t1203 : option Z;
  t1204 : option Bytes;
  t5 : option Bytes;
  t1206 : option Z;
  t1207 : option Z;
  t1209 : option Z;
  t1210 : option Z;
  t1211 : option Z;
}.

Record BoundedDeviceAttestationDeviceOSInformation := {
  t1400 : option Bytes;
  t1104 : option Z;
  t1403 : option Bytes;
  t1420 : option Bytes;
  t1026 : option Bytes;
  t1029 : option Bytes;
}.

Record BoundedDeviceAttestationNonce := {
  dn_nonce : option Bytes;
}.

Record BoundedDeviceAttestation := {
  key_usage_properties : BoundedDeviceAttestationKeyUsageProperties;
  device_os_information : BoundedDeviceAttestationDeviceOSInformation;
  da_nonce : BoundedDeviceAttestationNonce;
}.

Inductive BoundedAttestationContent :=
| KeyDescription (key_description : BoundedKeyDescription)
| DeviceAttestation (device_attestation : BoundedDeviceAttestation).

Record AttestationValidity := {
  not_before : Z;
  not_after : Z;
}.

Record Attestation := {
  cert_ids : list (IssuerName * SerialNumber);
  content : BoundedAttestationContent;
  validity : AttestationValidity;
}.

(** [slice.contains(x)] *)
Definition contains {A} `{EqDecision A} (l : list A) (x : A) : bool := bool_decide (x ∈ l).

(** [runtime/common/src/utils.rs] *)
Definition check_key_description (key_description : BoundedKeyDescription)
  (allowed_package_names allowed_signature_digests : list Bytes) : bool :=
  let go :=
    let attestation_application_id :=
      match key_description.(tee_enforced).(al_attestation_application_id) with
      | Some id => Some id
      | None => key_description.(software_enforced).(al_attestation_application_id)
      end in
    match attestation_application_id with
    | Some id =>
        let package_names := package_name <$> id.(package_infos) in
        if forallb (contains allowed_package_names) package_names then
          forallb (contains allowed_signature_digests) id.(signature_digests)
        else false
    | None => false
    end in
  match key_description.(tee_enforced).(al_root_of_trust) with
  | Some root_of_trust =>
      if decide (root_of_trust.(verified_boot_state) = Verified) then go else false
  | None => false
  end.

Definition check_device_attestation (device_attestation : BoundedDeviceAttestation)
  (allowed_bundle_ids : list Bytes) : bool :=
  match device_attestation.(key_usage_properties).(t1204) with
  | Some bundle_id => contains allowed_bundle_ids bundle_id
  | None => false
  end.

Definition check_attestation (attestation : Attestation)
  (allowed_package_names allowed_signature_digests allowed_bundle_ids : list Bytes) : bool :=
  match attestation.(content) with
  | KeyDescription key_description =>
      check_key_description key_description allowed_package_names allowed_signature_digests
  | DeviceAttestation device_attestation =>
      check_device_attestation device_attestation allowed_bundle_ids
  end.

Inductive ProcessorType :=
| Core
| Lite.

(** The constants of the runtime that [Barrier] is instantiated with. *)
Class AllowedApps := {
  PackageNames : list Bytes;
  SignatureDigests : list Bytes;
  CorePackageNames : list Bytes;
  LitePackageNames : list Bytes;
  CoreSignatureDigests : list Bytes;
  LiteSignatureDigests : list Bytes;
  BundleIds : list Bytes;
}.

Section barrier.
Context {A : AllowedApps}.

(** [Barrier]: the implementation of [KeyAttestationBarrier] *)
Definition accept_attestation_for_origin (attestation : Attestation) : bool :=
  check_attestation attestation PackageNames SignatureDigests BundleIds.

Definition check_attestation_is_of_type (attestation : Attestation)
  (processor_type : ProcessorType) : bool :=
  match processor_type with
  | Core =>
      match attestation.(content) with
      | KeyDescription key_description =>
          check_key_description key_description CorePackageNames CoreSignatureDigests
      | DeviceAttestation _ => false
      end
  | Lite =>
      match attestation.(content) with
      | KeyDescription key_description =>
          check_key_description key_description LitePackageNames LiteSignatureDigests
      | DeviceAttestation _ => true
      end
  end.
End barrier.
