(* ===== verification/JobTypes.v ===== *)
(** The data of the job pallets: [pallets/acurast/src/lib.rs],
    [pallets/acurast/common/src/types.rs], [pallets/marketplace/src/types.rs] and
    [pallets/marketplace/src/lib.rs].

    [State] holds the storage items of [pallet_acurast] (the registry of jobs)
    and of [pallet_acurast_marketplace] (matching, payment, reporting), which
    reads the registry.  Accounts, hashes and job numbers are only compared or
    counted, so they are [Z]; byte strings are lists of [Z]. *)
From S2P Require Import Prelude Schedules Attestations.

Notation AccountId := Z (only parsing).
Notation Balance := Z (only parsing).
Notation H256 := Z (only parsing).
Notation JobIdSequence := Z (only parsing).
Notation PoolId := Z (only parsing).
Notation Script := (list Z) (only parsing).
(** the inner value of a [FixedU128] *)
Notation FixedU128 := Z (only parsing).
Notation PubKeyBytes := (list Z) (only parsing).
Notation MetricInput := (Z * Z * Z)%type (only parsing).

(** * Jobs *)

Inductive MultiOrigin :=
| Acurast (who : AccountId)
| Tezos (address : list Z)
| Ethereum (address : list Z)
| AlephZero (who : AccountId)
| Vara (who : AccountId)
| Ethereum20 (address : Z)
| Solana (address : Z)
| AcurastCanary (who : AccountId).
#[export] Instance MultiOrigin_eq_dec : EqDecision MultiOrigin.
Proof. solve_decision. Defined.
(** The variant's index and its payload, as a number or as bytes. *)
#[export] Instance MultiOrigin_countable : Countable MultiOrigin.
Proof.
  refine (inj_countable'
    (fun o => match o with
     | Acurast w => (0, w, []) | Tezos a => (1, 0, a) | Ethereum a => (2, 0, a)
     | AlephZero w => (3, w, []) | Vara w => (4, w, []) | Ethereum20 a => (5, a, [])
     | Solana a => (6, a, []) | AcurastCanary w => (7, w, []) end)
    (fun '(i, w, a) => match i with
     | 0 => Acurast w | 1 => Tezos a | 2 => Ethereum a | 3 => AlephZero w | 4 => Vara w
     | 5 => Ethereum20 w | 6 => Solana w | _ => AcurastCanary w end) _).
  by intros [].
Defined.

Notation JobId := (MultiOrigin * Z)%type (only parsing).

Inductive ListUpdateOperation :=
| AddItem
| RemoveItem.

Record ListUpdate (T : Type) := {
  lu_operation : ListUpdateOperation;
  lu_item : T;
}.
Arguments lu_operation {T} _.
Arguments lu_item {T} _.

Inductive JobModule :=
| DataEncryption
| LLM
| ShellModule.
#[export] Instance JobModule_eq_dec : EqDecision JobModule.
Proof. solve_decision. Defined.

(** [TryFrom<u32> for JobModule] *)
Definition job_module_try_from (value : Z) : option JobModule :=
  match value with
  | 0 => Some DataEncryption
  | 1 => Some LLM
  | 2 => Some ShellModule
  | _ => None
  end.

Record Version := {
  platform : Z;
  build_number : Z;
}.

(** [PartialOrd for Version]: versions of different platforms do not compare. *)
Definition partial_cmp (self other : Version) : option comparison :=
  match Z.compare self.(platform) other.(platform) with
  | Eq => Some (Z.compare self.(build_number) other.(build_number))
  | _ => None
  end.
Definition version_ge (self other : Version) : bool :=
  match partial_cmp self other with
  | Some Gt | Some Eq => true
  | _ => false
  end.

Inductive ProcessorVersionRequirements :=
| Min (versions : list Version).

Inductive Runtime :=
| NodeJS
| NodeJSWithBundle
| Shell.

Record PlannedExecution := {
  pe_source : AccountId;
  pe_start_delay : Z;
}.

Inductive AssignmentStrategy :=
| Single (instant_match : option (list PlannedExecution))
| Competing.

(** [JobRequirements]; [RegistrationExtra] wraps exactly this *)
Record JobRequirements := {
  assignment_strategy : AssignmentStrategy;
  slots : Z;
  reward : Balance;
  min_reputation : option Z;
  processor_version : option ProcessorVersionRequirements;
  runtime : Runtime;
}.

Record JobRegistration := mkJobRegistration {
  script : Script;
  allowed_sources : option (list AccountId);
  allow_only_verified_sources : bool;
  schedule : Schedule;
  memory : Z;
  network_requests : Z;
  storage : Z;
  required_modules : list JobModule;
  extra : JobRequirements;
}.
Definition set_script (v : Script) (x : JobRegistration) : JobRegistration :=
  {| script := v; allowed_sources := x.(allowed_sources); allow_only_verified_sources := x.(allow_only_verified_sources); schedule := x.(schedule); memory := x.(memory); network_requests := x.(network_requests); storage := x.(storage); required_modules := x.(required_modules); extra := x.(extra) |}.
Definition set_allowed_sources (v : option (list AccountId)) (x : JobRegistration) : JobRegistration :=
  {| script := x.(script); allowed_sources := v; allow_only_verified_sources := x.(allow_only_verified_sources); schedule := x.(schedule); memory := x.(memory); network_requests := x.(network_requests); storage := x.(storage); required_modules := x.(required_modules); extra := x.(extra) |}.

Inductive ScriptMutability :=
| Immutable
| Mutable (editor : option AccountId).

(** [Environment]: encrypted variables for one processor *)
Record Environment := {
  public_key : PubKeyBytes;
  variables : list (list Z * list Z);
}.

Record MinMetric := {
  mm_pool_id : PoolId;
  mm_value : FixedU128;
}.
Definition METRICS_MAX_LENGTH : Z := 20.

(** * Matching *)

Inductive SchedulingWindow :=
| End (t : Z)
| Delta (d : Z).

Record Pricing := {
  fee_per_millisecond : Balance;
  fee_per_storage_byte : Balance;
  base_fee_per_execution : Balance;
  scheduling_window : SchedulingWindow;
}.

Record Advertisement := {
  ad_pricing : Pricing;
  ad_max_memory : Z;
  ad_network_request_quota : Z;
  ad_storage_capacity : Z;
  ad_allowed_consumers : option (list MultiOrigin);
  ad_available_modules : list JobModule;
}.

Record AdvertisementRestriction := {
  max_memory : Z;
  network_request_quota : Z;
  storage_capacity : Z;
  allowed_consumers : option (list MultiOrigin);
  available_modules : list JobModule;
}.

Inductive ExecutionSpecifier :=
| All
| Index (i : Z).
#[export] Instance ExecutionSpecifier_eq_dec : EqDecision ExecutionSpecifier.
Proof. solve_decision. Defined.

Record SLA := mkSLA {
  total : Z;
  met : Z;
}.

Inductive PubKey :=
| SECP256r1 (k : PubKeyBytes)
| SECP256k1 (k : PubKeyBytes)
| ED25519 (k : PubKeyBytes)
| SECP256r1Encryption (k : PubKeyBytes)
| SECP256k1Encryption (k : PubKeyBytes).

Record Assignment := mkAssignment {
  slot : Z;
  start_delay : Z;
  fee_per_execution : Balance;
  acknowledged : bool;
  sla : SLA;
  pub_keys : list PubKey;
  execution : ExecutionSpecifier;
}.
Definition set_acknowledged (v : bool) (x : Assignment) : Assignment :=
  {| slot := x.(slot); start_delay := x.(start_delay); fee_per_execution := x.(fee_per_execution); acknowledged := v; sla := x.(sla); pub_keys := x.(pub_keys); execution := x.(execution) |}.
Definition set_sla (v : SLA) (x : Assignment) : Assignment :=
  {| slot := x.(slot); start_delay := x.(start_delay); fee_per_execution := x.(fee_per_execution); acknowledged := x.(acknowledged); sla := v; pub_keys := x.(pub_keys); execution := x.(execution) |}.
Definition set_pub_keys (v : list PubKey) (x : Assignment) : Assignment :=
  {| slot := x.(slot); start_delay := x.(start_delay); fee_per_execution := x.(fee_per_execution); acknowledged := x.(acknowledged); sla := x.(sla); pub_keys := v; execution := x.(execution) |}.

Inductive JobStatus :=
| Open
| Matched
| Assigned (count : Z).
#[export] Instance JobStatus_eq_dec : EqDecision JobStatus.
Proof. solve_decision. Defined.

Record Match := {
  m_job_id : JobId;
  m_sources : list PlannedExecution;
}.
Record ExecutionMatch := {
  em_job_id : JobId;
  em_execution_index : Z;
  em_sources : list PlannedExecution;
}.

Inductive ExecutionResult :=
| Success (operation_hash : list Z)
| Failure (message : list Z).

Record PriceSettings := {
  min_price : Balance;
  multiplier : FixedU128;
}.

(** [BetaParameters<FixedU128>] of [pallets/marketplace/reputation/src/lib.rs] *)
Record BetaParameters := {
  bp_r : FixedU128;
  bp_s : FixedU128;
}.

Definition MAX_EXECUTIONS_PER_JOB : Z := 6308000.

(** [Assignment::is_invalid] *)
Definition is_invalid (self : Assignment) (schedule : Schedule) (now report_tolerance : Z) : bool :=
  let '(actual_start_time, actual_end_time) :=
    match self.(execution) with
    | All =>
        (saturating_add u64_max schedule.(start_time) self.(start_delay),
         saturating_add u64_max
           (saturating_add u64_max schedule.(end_time) self.(start_delay)) report_tolerance)
    | Index i =>
        let execution_start := default 0 (nth_start_time schedule self.(start_delay) i) in
        let execution_end :=
          saturating_add u64_max
            (saturating_add u64_max execution_start schedule.(duration)) report_tolerance in
        (execution_start, execution_end)
    end in
  if negb self.(acknowledged) then actual_start_time <? now else actual_end_time <? now.

(** * Errors *)

Inductive AcurastError :=
| JobRegistrationNotFound
| FulfillSourceNotAllowed
| FulfillSourceNotVerified
| TooManyAllowedSources
| TooFewAllowedSources
| InvalidScriptValue
| AttestationUsageExpired
| CertificateChainTooShort
| RootCertificateValidationFailed
| CertificateChainValidationFailed
| AttestationCertificateNotValid
| AttestationExtractionFailed
| CannotGetAttestationIssuerName
| CannotGetAttestationSerialNumber
| CannotGetCertificateId
| AttestationToBoundedTypeConversionFailed
| AttestationRejected
| FailedTimestampConversion
| RevokedCertificate
| CertificateRevocationListUpdateNotAllowed
| UnsupportedAttestationPublicKeyType
| AttestationPublicKeyDoesNotMatchSource
| JobHookFailed
| TooManyMinMetrics.

Inductive MarketError :=
| CalculationOverflow
| UnexpectedCheckedCalculation
| JobRegistrationZeroDuration
| JobRegistrationScheduleExceedsMaximumExecutions
| JobRegistrationScheduleContainsZeroExecutions
| JobRegistrationDurationExceedsInterval
| JobRegistrationStartInPast
| JobRegistrationEndBeforeStart
| JobRegistrationZeroSlots
| JobRegistrationIntervalBelowMinimum
| JobStatusNotFound
| JobRegistrationUnmodifiable
| CannotFinalizeJob (status : JobStatus)
| CannotAcknowledgeWhenNotMatched
| CannotAcknowledgeForOtherThanCurrentExecution
| CannotReportWhenNotAcknowledged
| AdvertisementNotFound
| AdvertisementPricingNotFound
| TooManyAllowedConsumers
| TooFewAllowedConsumers
| TooManySlots
| CannotDeleteAdvertisementWhileMatched
| FailedToPay
| AssetNotAllowedByBarrier
| CapacityNotFound
| OverdueMatch
| UnderdueMatch
| IncorrectSourceCountInMatch
| IncorrectExecutionIndex
| DuplicateSourceInMatch
| UnverifiedSourceInMatch
| SchedulingWindowExceededInMatch
| MaxMemoryExceededInMatch
| NetworkRequestQuotaExceededInMatch
| InsufficientStorageCapacityInMatch
| SourceNotAllowedInMatch
| ConsumerNotAllowedInMatch
| InsufficientRewardInMatch
| InsufficientReputationInMatch
| ScheduleOverlapInMatch
| ReportFromUnassignedSource
| MoreReportsThanExpected
| ReportOutsideSchedule
| ReputationNotFound
| ModuleNotAvailableInMatch
| JobNotAssigned
| JobCannotBeFinalized
| PalletAcurast (e : AcurastError)
| ProcessorVersionMismatch
| ProcessorCpuScoreMismatch
| ProcessorMinMetricsNotMet (pool_id : PoolId)
| CannotReuseKeysFrom
| JobNotFound
| InvalidScript
| JobForKeyReuseNotFound
| ImmutableJobCannotBeEdited
| MutableJobCannotBeMadeImmutable
| OnlyEditorCanEditScript
| OnlyEditorCanTransferEditor
| OnlyOwnerCanExtendJob
| ExecutionAlreadyReported
| CannotAcknowledgeAfterStartTime
| CannotGetProcessorPrice.

(** [DispatchError]: the error of a pallet, a rejected origin, [DispatchError::Other],
    or the error of the currency or of another pallet. *)
Inductive DispatchError :=
| AcurastErr (e : AcurastError)
| MarketErr (e : MarketError)
| BadOrigin
| UnexpectedMultiOrigin
| ReserveFailed
| UnreserveFailed
| CurrencyError
| HookError.

(** * Events: those that the code still emits *)
Inductive Event :=
| AdvertisementRemoved (who : AccountId)
| ExecutionSuccess (job_id : JobId) (operation_hash : list Z)
| ExecutionFailure (job_id : JobId) (message : list Z)
| JobFinalized (job_id : JobId)
| JobScriptEdited (job_id : JobId)
| EditorTransferred (job_id : JobId) (new_editor : AccountId)
| JobBecameImmutable (job_id : JobId)
| MinFeePerMillisecondUpdated (new_min_fee : Balance)
| JobRegistrationMatchedV2 (job_id : JobId)
| JobRegistrationAssignedV2 (job_id : JobId) (who : AccountId)
| ReportedV2 (job_id : JobId) (who : AccountId)
| AdvertisementStoredV2 (who : AccountId)
| JobExecutionMatchedV2 (job_id : JobId)
| ProcessorAssignmentsCleanedUp (processor : AccountId) (job_ids : list JobId)
| JobAssignmentsCleanedUp (job_id : JobId)
| PriceSettingsUpdated
| JobMatcherEntryCleanedUp (job_id : JobId)
| JobRegistrationStoredV2 (job_id : JobId)
| JobRegistrationRemoved (job_id : JobId)
| AllowedSourcesUpdatedV2 (job_id : JobId)
| AttestationStoredV2 (who : AccountId)
| CertificateRevocationListUpdated
| ExecutionEnvironmentsUpdatedV2 (job_id : JobId).

Inductive RuntimeOrigin :=
| Signed (who : AccountId)
| Root.

(** * Constants of the runtime *)
Class JobConfig := {
  MaxAllowedSources : Z;
  MaxSlots : Z;
  MaxAllowedConsumers : Z;
  MatchingCompetingMinInterval : Z;
  MatchingCompetingDueDelta : Z;
  ReportTolerance : Z;
  DefaultMinPrice : Balance;
  DefaultPriceMultiplier : FixedU128;
  (** the accounts of [PalletId], of [HyperdrivePalletId] and of the fee manager *)
  pallet_account : AccountId;
  hyperdrive_pallet_account : AccountId;
  fee_pallet_account : AccountId;
  (** [FeeManager], as parts of 100 *)
  get_fee_percentage : Z;
  get_matcher_percentage : Z;
  UpdateOrigin : RuntimeOrigin -> bool;
  OperatorOrigin : RuntimeOrigin -> bool;
}.

(** * What the pallets call

    The currency, the clock, hashing and storage iteration of FRAME, and the
    pallets behind [ProcessorInfoProvider], [ProcessorPriceProvider] and
    [MarketplaceHooks]; [JExt] is their state. *)
Class JobExternals := {
  JExt : Type;
  (** [Currency::transfer(from, to, amount, Preserve)] *)
  currency_transfer : AccountId -> AccountId -> Balance -> JExt -> option JExt;
  (** [Currency::withdraw(who, amount, Exact, Preserve, Polite)] and its credit *)
  currency_withdraw : AccountId -> Balance -> JExt -> option (Balance * JExt);
  ou_on_unbalanced : Balance -> JExt -> JExt;
  (** [UnixTime::now().as_millis()], a [u128] *)
  unix_now_millis : JExt -> Z;
  processor_version_of : JExt -> AccountId -> option Version;
  last_processor_metric : JExt -> AccountId -> PoolId -> option FixedU128;
  price_per_millisecond_for : JExt -> AccountId -> option Balance;
  (** [MarketplaceHooks] *)
  hook_assign_job : JobId -> list PubKey -> JExt -> option JExt;
  hook_finalize_job : JobId -> Balance -> JExt -> option JExt;
  (** [DeploymentHashing::hash((origin, script).encode())], [KeyIdHashing::hash(job_id.encode())] *)
  deployment_hash_of : MultiOrigin -> Script -> H256;
  key_id_hash_of : JobId -> H256;
  (** the crate [base58], on the characters of a string *)
  from_base58 : list Z -> option (list Z);
  (** the storage keys ([Blake2_128Concat]) that iteration is ordered by *)
  job_key : JobId -> Z;
  account_key : AccountId -> Z;
  (** which of the stored keys [clear_prefix] with a limit removes *)
  clear_prefix_keys : Z -> list Z -> list Z;
}.

Section storage.
Context {X : JobExternals}.

(** * The storage *)
Record State := mkState {
  local_job_id_sequence : JobIdSequence;
  stored_job_registration : gmap JobId JobRegistration;
  execution_environment : gmap (JobId * AccountId) Environment;
  stored_attestation : gmap AccountId Attestation;
  required_min_metrics : gmap JobId (list MinMetric);
  stored_revoked_certificate : gset SerialNumber;
  stored_job_status : gmap JobId JobStatus;
  stored_job_execution_status : gmap (JobId * Z) JobStatus;
  stored_advertisement_restriction : gmap AccountId AdvertisementRestriction;
  stored_advertisement_pricing : gmap AccountId Pricing;
  stored_reputation : gmap AccountId BetaParameters;
  stored_total_assigned : option Z;
  stored_average_reward : option Z;
  stored_matches : gmap (AccountId * JobId) Assignment;
  assigned_processors : gmap (JobId * AccountId) unit;
  job_budgets : gmap JobId Balance;
  next_report_index : gmap (JobId * AccountId) Z;
  editors : gmap JobId AccountId;
  job_key_ids : gmap JobId H256;
  deployment_hashes : gmap JobId H256;
  deployment_key_ids : gmap H256 H256;
  min_fee_per_millisecond : Balance;
  job_price_settings : option PriceSettings;
  job_matcher : gmap JobId AccountId;
  events : list Event;
  jext : JExt;
}.
Definition set_local_job_id_sequence (v : JobIdSequence) (x : State) : State :=
  {| local_job_id_sequence := v; stored_job_registration := x.(stored_job_registration); execution_environment := x.(execution_environment); stored_attestation := x.(stored_attestation); required_min_metrics := x.(required_min_metrics); stored_revoked_certificate := x.(stored_revoked_certificate); stored_job_status := x.(stored_job_status); stored_job_execution_status := x.(stored_job_execution_status); stored_advertisement_restriction := x.(stored_advertisement_restriction); stored_advertisement_pricing := x.(stored_advertisement_pricing); stored_reputation := x.(stored_reputation); stored_total_assigned := x.(stored_total_assigned); stored_average_reward := x.(stored_average_reward); stored_matches := x.(stored_matches); assigned_processors := x.(assigned_processors); job_budgets := x.(job_budgets); next_report_index := x.(next_report_index); editors := x.(editors); job_key_ids := x.(job_key_ids); deployment_hashes := x.(deployment_hashes); deployment_key_ids := x.(deployment_key_ids); min_fee_per_millisecond := x.(min_fee_per_millisecond); job_price_settings := x.(job_price_settings); job_matcher := x.(job_matcher); events := x.(events); jext := x.(jext) |}.
Definition set_stored_job_registration (v : gmap JobId JobRegistration) (x : State) : State :=
  {| local_job_id_sequence := x.(local_job_id_sequence); stored_job_registration := v; execution_environment := x.(execution_environment); stored_attestation := x.(stored_attestation); required_min_metrics := x.(required_min_metrics); stored_revoked_certificate := x.(stored_revoked_certificate); stored_job_status := x.(stored_job_status); stored_job_execution_status := x.(stored_job_execution_status); stored_advertisement_restriction := x.(stored_advertisement_restriction); stored_advertisement_pricing := x.(stored_advertisement_pricing); stored_reputation := x.(stored_reputation); stored_total_assigned := x.(stored_total_assigned); stored_average_reward := x.(stored_average_reward); stored_matches := x.(stored_matches); assigned_processors := x.(assigned_processors); job_budgets := x.(job_budgets); next_report_index := x.(next_report_index); editors := x.(editors); job_key_ids := x.(job_key_ids); deployment_hashes := x.(deployment_hashes); deployment_key_ids := x.(deployment_key_ids); min_fee_per_millisecond := x.(min_fee_per_millisecond); job_price_settings := x.(job_price_settings); job_matcher := x.(job_matcher); events := x.(events); jext := x.(jext) |}.
Definition set_execution_environment (v : gmap (JobId * AccountId) Environment) (x : State) : State :=
  {| local_job_id_sequence := x.(local_job_id_sequence); stored_job_registration := x.(stored_job_registration); execution_environment := v; stored_attestation := x.(stored_attestation); required_min_metrics := x.(required_min_metrics); stored_revoked_certificate := x.(stored_revoked_certificate); stored_job_status := x.(stored_job_status); stored_job_execution_status := x.(stored_job_execution_status); stored_advertisement_restriction := x.(stored_advertisement_restriction); stored_advertisement_pricing := x.(stored_advertisement_pricing); stored_reputation := x.(stored_reputation); stored_total_assigned := x.(stored_total_assigned); stored_average_reward := x.(stored_average_reward); stored_matches := x.(stored_matches); assigned_processors := x.(assigned_processors); job_budgets := x.(job_budgets); next_report_index := x.(next_report_index); editors := x.(editors); job_key_ids := x.(job_key_ids); deployment_hashes := x.(deployment_hashes); deployment_key_ids := x.(deployment_key_ids); min_fee_per_millisecond := x.(min_fee_per_millisecond); job_price_settings := x.(job_price_settings); job_matcher := x.(job_matcher); events := x.(events); jext := x.(jext) |}.
Definition set_stored_attestation (v : gmap AccountId Attestation) (x : State) : State :=
  {| local_job_id_sequence := x.(local_job_id_sequence); stored_job_registration := x.(stored_job_registration); execution_environment := x.(execution_environment); stored_attestation := v; required_min_metrics := x.(required_min_metrics); stored_revoked_certificate := x.(stored_revoked_certificate); stored_job_status := x.(stored_job_status); stored_job_execution_status := x.(stored_job_execution_status); stored_advertisement_restriction := x.(stored_advertisement_restriction); stored_advertisement_pricing := x.(stored_advertisement_pricing); stored_reputation := x.(stored_reputation); stored_total_assigned := x.(stored_total_assigned); stored_average_reward := x.(stored_average_reward); stored_matches := x.(stored_matches); assigned_processors := x.(assigned_processors); job_budgets := x.(job_budgets); next_report_index := x.(next_report_index); editors := x.(editors); job_key_ids := x.(job_key_ids); deployment_hashes := x.(deployment_hashes); deployment_key_ids := x.(deployment_key_ids); min_fee_per_millisecond := x.(min_fee_per_millisecond); job_price_settings := x.(job_price_settings); job_matcher := x.(job_matcher); events := x.(events); jext := x.(jext) |}.
Definition set_required_min_metrics (v : gmap JobId (list MinMetric)) (x : State) : State :=
  {| local_job_id_sequence := x.(local_job_id_sequence); stored_job_registration := x.(stored_job_registration); execution_environment := x.(execution_environment); stored_attestation := x.(stored_attestation); required_min_metrics := v; stored_revoked_certificate := x.(stored_revoked_certificate); stored_job_status := x.(stored_job_status); stored_job_execution_status := x.(stored_job_execution_status); stored_advertisement_restriction := x.(stored_advertisement_restriction); stored_advertisement_pricing := x.(stored_advertisement_pricing); stored_reputation := x.(stored_reputation); stored_total_assigned := x.(stored_total_assigned); stored_average_reward := x.(stored_average_reward); stored_matches := x.(stored_matches); assigned_processors := x.(assigned_processors); job_budgets := x.(job_budgets); next_report_index := x.(next_report_index); editors := x.(editors); job_key_ids := x.(job_key_ids); deployment_hashes := x.(deployment_hashes); deployment_key_ids := x.(deployment_key_ids); min_fee_per_millisecond := x.(min_fee_per_millisecond); job_price_settings := x.(job_price_settings); job_matcher := x.(job_matcher); events := x.(events); jext := x.(jext) |}.
Definition set_stored_revoked_certificate (v : gset SerialNumber) (x : State) : State :=
  {| local_job_id_sequence := x.(local_job_id_sequence); stored_job_registration := x.(stored_job_registration); execution_environment := x.(execution_environment); stored_attestation := x.(stored_attestation); required_min_metrics := x.(required_min_metrics); stored_revoked_certificate := v; stored_job_status := x.(stored_job_status); stored_job_execution_status := x.(stored_job_execution_status); stored_advertisement_restriction := x.(stored_advertisement_restriction); stored_advertisement_pricing := x.(stored_advertisement_pricing); stored_reputation := x.(stored_reputation); stored_total_assigned := x.(stored_total_assigned); stored_average_reward := x.(stored_average_reward); stored_matches := x.(stored_matches); assigned_processors := x.(assigned_processors); job_budgets := x.(job_budgets); next_report_index := x.(next_report_index); editors := x.(editors); job_key_ids := x.(job_key_ids); deployment_hashes := x.(deployment_hashes); deployment_key_ids := x.(deployment_key_ids); min_fee_per_millisecond := x.(min_fee_per_millisecond); job_price_settings := x.(job_price_settings); job_matcher := x.(job_matcher); events := x.(events); jext := x.(jext) |}.
Definition set_stored_job_status (v : gmap JobId JobStatus) (x : State) : State :=
  {| local_job_id_sequence := x.(local_job_id_sequence); stored_job_registration := x.(stored_job_registration); execution_environment := x.(execution_environment); stored_attestation := x.(stored_attestation); required_min_metrics := x.(required_min_metrics); stored_revoked_certificate := x.(stored_revoked_certificate); stored_job_status := v; stored_job_execution_status := x.(stored_job_execution_status); stored_advertisement_restriction := x.(stored_advertisement_restriction); stored_advertisement_pricing := x.(stored_advertisement_pricing); stored_reputation := x.(stored_reputation); stored_total_assigned := x.(stored_total_assigned); stored_average_reward := x.(stored_average_reward); stored_matches := x.(stored_matches); assigned_processors := x.(assigned_processors); job_budgets := x.(job_budgets); next_report_index := x.(next_report_index); editors := x.(editors); job_key_ids := x.(job_key_ids); deployment_hashes := x.(deployment_hashes); deployment_key_ids := x.(deployment_key_ids); min_fee_per_millisecond := x.(min_fee_per_millisecond); job_price_settings := x.(job_price_settings); job_matcher := x.(job_matcher); events := x.(events); jext := x.(jext) |}.
Definition set_stored_job_execution_status (v : gmap (JobId * Z) JobStatus) (x : State) : State :=
  {| local_job_id_sequence := x.(local_job_id_sequence); stored_job_registration := x.(stored_job_registration); execution_environment := x.(execution_environment); stored_attestation := x.(stored_attestation); required_min_metrics := x.(required_min_metrics); stored_revoked_certificate := x.(stored_revoked_certificate); stored_job_status := x.(stored_job_status); stored_job_execution_status := v; stored_advertisement_restriction := x.(stored_advertisement_restriction); stored_advertisement_pricing := x.(stored_advertisement_pricing); stored_reputation := x.(stored_reputation); stored_total_assigned := x.(stored_total_assigned); stored_average_reward := x.(stored_average_reward); stored_matches := x.(stored_matches); assigned_processors := x.(assigned_processors); job_budgets := x.(job_budgets); next_report_index := x.(next_report_index); editors := x.(editors); job_key_ids := x.(job_key_ids); deployment_hashes := x.(deployment_hashes); deployment_key_ids := x.(deployment_key_ids); min_fee_per_millisecond := x.(min_fee_per_millisecond); job_price_settings := x.(job_price_settings); job_matcher := x.(job_matcher); events := x.(events); jext := x.(jext) |}.
Definition set_stored_advertisement_restriction (v : gmap AccountId AdvertisementRestriction) (x : State) : State :=
  {| local_job_id_sequence := x.(local_job_id_sequence); stored_job_registration := x.(stored_job_registration); execution_environment := x.(execution_environment); stored_attestation := x.(stored_attestation); required_min_metrics := x.(required_min_metrics); stored_revoked_certificate := x.(stored_revoked_certificate); stored_job_status := x.(stored_job_status); stored_job_execution_status := x.(stored_job_execution_status); stored_advertisement_restriction := v; stored_advertisement_pricing := x.(stored_advertisement_pricing); stored_reputation := x.(stored_reputation); stored_total_assigned := x.(stored_total_assigned); stored_average_reward := x.(stored_average_reward); stored_matches := x.(stored_matches); assigned_processors := x.(assigned_processors); job_budgets := x.(job_budgets); next_report_index := x.(next_report_index); editors := x.(editors); job_key_ids := x.(job_key_ids); deployment_hashes := x.(deployment_hashes); deployment_key_ids := x.(deployment_key_ids); min_fee_per_millisecond := x.(min_fee_per_millisecond); job_price_settings := x.(job_price_settings); job_matcher := x.(job_matcher); events := x.(events); jext := x.(jext) |}.
Definition set_stored_advertisement_pricing (v : gmap AccountId Pricing) (x : State) : State :=
  {| local_job_id_sequence := x.(local_job_id_sequence); stored_job_registration := x.(stored_job_registration); execution_environment := x.(execution_environment); stored_attestation := x.(stored_attestation); required_min_metrics := x.(required_min_metrics); stored_revoked_certificate := x.(stored_revoked_certificate); stored_job_status := x.(stored_job_status); stored_job_execution_status := x.(stored_job_execution_status); stored_advertisement_restriction := x.(stored_advertisement_restriction); stored_advertisement_pricing := v; stored_reputation := x.(stored_reputation); stored_total_assigned := x.(stored_total_assigned); stored_average_reward := x.(stored_average_reward); stored_matches := x.(stored_matches); assigned_processors := x.(assigned_processors); job_budgets := x.(job_budgets); next_report_index := x.(next_report_index); editors := x.(editors); job_key_ids := x.(job_key_ids); deployment_hashes := x.(deployment_hashes); deployment_key_ids := x.(deployment_key_ids); min_fee_per_millisecond := x.(min_fee_per_millisecond); job_price_settings := x.(job_price_settings); job_matcher := x.(job_matcher); events := x.(events); jext := x.(jext) |}.
Definition set_stored_reputation (v : gmap AccountId BetaParameters) (x : State) : State :=
  {| local_job_id_sequence := x.(local_job_id_sequence); stored_job_registration := x.(stored_job_registration); execution_environment := x.(execution_environment); stored_attestation := x.(stored_attestation); required_min_metrics := x.(required_min_metrics); stored_revoked_certificate := x.(stored_revoked_certificate); stored_job_status := x.(stored_job_status); stored_job_execution_status := x.(stored_job_execution_status); stored_advertisement_restriction := x.(stored_advertisement_restriction); stored_advertisement_pricing := x.(stored_advertisement_pricing); stored_reputation := v; stored_total_assigned := x.(stored_total_assigned); stored_average_reward := x.(stored_average_reward); stored_matches := x.(stored_matches); assigned_processors := x.(assigned_processors); job_budgets := x.(job_budgets); next_report_index := x.(next_report_index); editors := x.(editors); job_key_ids := x.(job_key_ids); deployment_hashes := x.(deployment_hashes); deployment_key_ids := x.(deployment_key_ids); min_fee_per_millisecond := x.(min_fee_per_millisecond); job_price_settings := x.(job_price_settings); job_matcher := x.(job_matcher); events := x.(events); jext := x.(jext) |}.
Definition set_stored_total_assigned (v : option Z) (x : State) : State :=
  {| local_job_id_sequence := x.(local_job_id_sequence); stored_job_registration := x.(stored_job_registration); execution_environment := x.(execution_environment); stored_attestation := x.(stored_attestation); required_min_metrics := x.(required_min_metrics); stored_revoked_certificate := x.(stored_revoked_certificate); stored_job_status := x.(stored_job_status); stored_job_execution_status := x.(stored_job_execution_status); stored_advertisement_restriction := x.(stored_advertisement_restriction); stored_advertisement_pricing := x.(stored_advertisement_pricing); stored_reputation := x.(stored_reputation); stored_total_assigned := v; stored_average_reward := x.(stored_average_reward); stored_matches := x.(stored_matches); assigned_processors := x.(assigned_processors); job_budgets := x.(job_budgets); next_report_index := x.(next_report_index); editors := x.(editors); job_key_ids := x.(job_key_ids); deployment_hashes := x.(deployment_hashes); deployment_key_ids := x.(deployment_key_ids); min_fee_per_millisecond := x.(min_fee_per_millisecond); job_price_settings := x.(job_price_settings); job_matcher := x.(job_matcher); events := x.(events); jext := x.(jext) |}.
Definition set_stored_average_reward (v : option Z) (x : State) : State :=
  {| local_job_id_sequence := x.(local_job_id_sequence); stored_job_registration := x.(stored_job_registration); execution_environment := x.(execution_environment); stored_attestation := x.(stored_attestation); required_min_metrics := x.(required_min_metrics); stored_revoked_certificate := x.(stored_revoked_certificate); stored_job_status := x.(stored_job_status); stored_job_execution_status := x.(stored_job_execution_status); stored_advertisement_restriction := x.(stored_advertisement_restriction); stored_advertisement_pricing := x.(stored_advertisement_pricing); stored_reputation := x.(stored_reputation); stored_total_assigned := x.(stored_total_assigned); stored_average_reward := v; stored_matches := x.(stored_matches); assigned_processors := x.(assigned_processors); job_budgets := x.(job_budgets); next_report_index := x.(next_report_index); editors := x.(editors); job_key_ids := x.(job_key_ids); deployment_hashes := x.(deployment_hashes); deployment_key_ids := x.(deployment_key_ids); min_fee_per_millisecond := x.(min_fee_per_millisecond); job_price_settings := x.(job_price_settings); job_matcher := x.(job_matcher); events := x.(events); jext := x.(jext) |}.
Definition set_stored_matches (v : gmap (AccountId * JobId) Assignment) (x : State) : State :=
  {| local_job_id_sequence := x.(local_job_id_sequence); stored_job_registration := x.(stored_job_registration); execution_environment := x.(execution_environment); stored_attestation := x.(stored_attestation); required_min_metrics := x.(required_min_metrics); stored_revoked_certificate := x.(stored_revoked_certificate); stored_job_status := x.(stored_job_status); stored_job_execution_status := x.(stored_job_execution_status); stored_advertisement_restriction := x.(stored_advertisement_restriction); stored_advertisement_pricing := x.(stored_advertisement_pricing); stored_reputation := x.(stored_reputation); stored_total_assigned := x.(stored_total_assigned); stored_average_reward := x.(stored_average_reward); stored_matches := v; assigned_processors := x.(assigned_processors); job_budgets := x.(job_budgets); next_report_index := x.(next_report_index); editors := x.(editors); job_key_ids := x.(job_key_ids); deployment_hashes := x.(deployment_hashes); deployment_key_ids := x.(deployment_key_ids); min_fee_per_millisecond := x.(min_fee_per_millisecond); job_price_settings := x.(job_price_settings); job_matcher := x.(job_matcher); events := x.(events); jext := x.(jext) |}.
Definition set_assigned_processors (v : gmap (JobId * AccountId) unit) (x : State) : State :=
  {| local_job_id_sequence := x.(local_job_id_sequence); stored_job_registration := x.(stored_job_registration); execution_environment := x.(execution_environment); stored_attestation := x.(stored_attestation); required_min_metrics := x.(required_min_metrics); stored_revoked_certificate := x.(stored_revoked_certificate); stored_job_status := x.(stored_job_status); stored_job_execution_status := x.(stored_job_execution_status); stored_advertisement_restriction := x.(stored_advertisement_restriction); stored_advertisement_pricing := x.(stored_advertisement_pricing); stored_reputation := x.(stored_reputation); stored_total_assigned := x.(stored_total_assigned); stored_average_reward := x.(stored_average_reward); stored_matches := x.(stored_matches); assigned_processors := v; job_budgets := x.(job_budgets); next_report_index := x.(next_report_index); editors := x.(editors); job_key_ids := x.(job_key_ids); deployment_hashes := x.(deployment_hashes); deployment_key_ids := x.(deployment_key_ids); min_fee_per_millisecond := x.(min_fee_per_millisecond); job_price_settings := x.(job_price_settings); job_matcher := x.(job_matcher); events := x.(events); jext := x.(jext) |}.
Definition set_job_budgets (v : gmap JobId Balance) (x : State) : State :=
  {| local_job_id_sequence := x.(local_job_id_sequence); stored_job_registration := x.(stored_job_registration); execution_environment := x.(execution_environment); stored_attestation := x.(stored_attestation); required_min_metrics := x.(required_min_metrics); stored_revoked_certificate := x.(stored_revoked_certificate); stored_job_status := x.(stored_job_status); stored_job_execution_status := x.(stored_job_execution_status); stored_advertisement_restriction := x.(stored_advertisement_restriction); stored_advertisement_pricing := x.(stored_advertisement_pricing); stored_reputation := x.(stored_reputation); stored_total_assigned := x.(stored_total_assigned); stored_average_reward := x.(stored_average_reward); stored_matches := x.(stored_matches); assigned_processors := x.(assigned_processors); job_budgets := v; next_report_index := x.(next_report_index); editors := x.(editors); job_key_ids := x.(job_key_ids); deployment_hashes := x.(deployment_hashes); deployment_key_ids := x.(deployment_key_ids); min_fee_per_millisecond := x.(min_fee_per_millisecond); job_price_settings := x.(job_price_settings); job_matcher := x.(job_matcher); events := x.(events); jext := x.(jext) |}.
Definition set_next_report_index (v : gmap (JobId * AccountId) Z) (x : State) : State :=
  {| local_job_id_sequence := x.(local_job_id_sequence); stored_job_registration := x.(stored_job_registration); execution_environment := x.(execution_environment); stored_attestation := x.(stored_attestation); required_min_metrics := x.(required_min_metrics); stored_revoked_certificate := x.(stored_revoked_certificate); stored_job_status := x.(stored_job_status); stored_job_execution_status := x.(stored_job_execution_status); stored_advertisement_restriction := x.(stored_advertisement_restriction); stored_advertisement_pricing := x.(stored_advertisement_pricing); stored_reputation := x.(stored_reputation); stored_total_assigned := x.(stored_total_assigned); stored_average_reward := x.(stored_average_reward); stored_matches := x.(stored_matches); assigned_processors := x.(assigned_processors); job_budgets := x.(job_budgets); next_report_index := v; editors := x.(editors); job_key_ids := x.(job_key_ids); deployment_hashes := x.(deployment_hashes); deployment_key_ids := x.(deployment_key_ids); min_fee_per_millisecond := x.(min_fee_per_millisecond); job_price_settings := x.(job_price_settings); job_matcher := x.(job_matcher); events := x.(events); jext := x.(jext) |}.
Definition set_editors (v : gmap JobId AccountId) (x : State) : State :=
  {| local_job_id_sequence := x.(local_job_id_sequence); stored_job_registration := x.(stored_job_registration); execution_environment := x.(execution_environment); stored_attestation := x.(stored_attestation); required_min_metrics := x.(required_min_metrics); stored_revoked_certificate := x.(stored_revoked_certificate); stored_job_status := x.(stored_job_status); stored_job_execution_status := x.(stored_job_execution_status); stored_advertisement_restriction := x.(stored_advertisement_restriction); stored_advertisement_pricing := x.(stored_advertisement_pricing); stored_reputation := x.(stored_reputation); stored_total_assigned := x.(stored_total_assigned); stored_average_reward := x.(stored_average_reward); stored_matches := x.(stored_matches); assigned_processors := x.(assigned_processors); job_budgets := x.(job_budgets); next_report_index := x.(next_report_index); editors := v; job_key_ids := x.(job_key_ids); deployment_hashes := x.(deployment_hashes); deployment_key_ids := x.(deployment_key_ids); min_fee_per_millisecond := x.(min_fee_per_millisecond); job_price_settings := x.(job_price_settings); job_matcher := x.(job_matcher); events := x.(events); jext := x.(jext) |}.
Definition set_job_key_ids (v : gmap JobId H256) (x : State) : State :=
  {| local_job_id_sequence := x.(local_job_id_sequence); stored_job_registration := x.(stored_job_registration); execution_environment := x.(execution_environment); stored_attestation := x.(stored_attestation); required_min_metrics := x.(required_min_metrics); stored_revoked_certificate := x.(stored_revoked_certificate); stored_job_status := x.(stored_job_status); stored_job_execution_status := x.(stored_job_execution_status); stored_advertisement_restriction := x.(stored_advertisement_restriction); stored_advertisement_pricing := x.(stored_advertisement_pricing); stored_reputation := x.(stored_reputation); stored_total_assigned := x.(stored_total_assigned); stored_average_reward := x.(stored_average_reward); stored_matches := x.(stored_matches); assigned_processors := x.(assigned_processors); job_budgets := x.(job_budgets); next_report_index := x.(next_report_index); editors := x.(editors); job_key_ids := v; deployment_hashes := x.(deployment_hashes); deployment_key_ids := x.(deployment_key_ids); min_fee_per_millisecond := x.(min_fee_per_millisecond); job_price_settings := x.(job_price_settings); job_matcher := x.(job_matcher); events := x.(events); jext := x.(jext) |}.
Definition set_deployment_hashes (v : gmap JobId H256) (x : State) : State :=
  {| local_job_id_sequence := x.(local_job_id_sequence); stored_job_registration := x.(stored_job_registration); execution_environment := x.(execution_environment); stored_attestation := x.(stored_attestation); required_min_metrics := x.(required_min_metrics); stored_revoked_certificate := x.(stored_revoked_certificate); stored_job_status := x.(stored_job_status); stored_job_execution_status := x.(stored_job_execution_status); stored_advertisement_restriction := x.(stored_advertisement_restriction); stored_advertisement_pricing := x.(stored_advertisement_pricing); stored_reputation := x.(stored_reputation); stored_total_assigned := x.(stored_total_assigned); stored_average_reward := x.(stored_average_reward); stored_matches := x.(stored_matches); assigned_processors := x.(assigned_processors); job_budgets := x.(job_budgets); next_report_index := x.(next_report_index); editors := x.(editors); job_key_ids := x.(job_key_ids); deployment_hashes := v; deployment_key_ids := x.(deployment_key_ids); min_fee_per_millisecond := x.(min_fee_per_millisecond); job_price_settings := x.(job_price_settings); job_matcher := x.(job_matcher); events := x.(events); jext := x.(jext) |}.
Definition set_deployment_key_ids (v : gmap H256 H256) (x : State) : State :=
  {| local_job_id_sequence := x.(local_job_id_sequence); stored_job_registration := x.(stored_job_registration); execution_environment := x.(execution_environment); stored_attestation := x.(stored_attestation); required_min_metrics := x.(required_min_metrics); stored_revoked_certificate := x.(stored_revoked_certificate); stored_job_status := x.(stored_job_status); stored_job_execution_status := x.(stored_job_execution_status); stored_advertisement_restriction := x.(stored_advertisement_restriction); stored_advertisement_pricing := x.(stored_advertisement_pricing); stored_reputation := x.(stored_reputation); stored_total_assigned := x.(stored_total_assigned); stored_average_reward := x.(stored_average_reward); stored_matches := x.(stored_matches); assigned_processors := x.(assigned_processors); job_budgets := x.(job_budgets); next_report_index := x.(next_report_index); editors := x.(editors); job_key_ids := x.(job_key_ids); deployment_hashes := x.(deployment_hashes); deployment_key_ids := v; min_fee_per_millisecond := x.(min_fee_per_millisecond); job_price_settings := x.(job_price_settings); job_matcher := x.(job_matcher); events := x.(events); jext := x.(jext) |}.
Definition set_min_fee_per_millisecond (v : Balance) (x : State) : State :=
  {| local_job_id_sequence := x.(local_job_id_sequence); stored_job_registration := x.(stored_job_registration); execution_environment := x.(execution_environment); stored_attestation := x.(stored_attestation); required_min_metrics := x.(required_min_metrics); stored_revoked_certificate := x.(stored_revoked_certificate); stored_job_status := x.(stored_job_status); stored_job_execution_status := x.(stored_job_execution_status); stored_advertisement_restriction := x.(stored_advertisement_restriction); stored_advertisement_pricing := x.(stored_advertisement_pricing); stored_reputation := x.(stored_reputation); stored_total_assigned := x.(stored_total_assigned); stored_average_reward := x.(stored_average_reward); stored_matches := x.(stored_matches); assigned_processors := x.(assigned_processors); job_budgets := x.(job_budgets); next_report_index := x.(next_report_index); editors := x.(editors); job_key_ids := x.(job_key_ids); deployment_hashes := x.(deployment_hashes); deployment_key_ids := x.(deployment_key_ids); min_fee_per_millisecond := v; job_price_settings := x.(job_price_settings); job_matcher := x.(job_matcher); events := x.(events); jext := x.(jext) |}.
Definition set_job_price_settings (v : option PriceSettings) (x : State) : State :=
  {| local_job_id_sequence := x.(local_job_id_sequence); stored_job_registration := x.(stored_job_registration); execution_environment := x.(execution_environment); stored_attestation := x.(stored_attestation); required_min_metrics := x.(required_min_metrics); stored_revoked_certificate := x.(stored_revoked_certificate); stored_job_status := x.(stored_job_status); stored_job_execution_status := x.(stored_job_execution_status); stored_advertisement_restriction := x.(stored_advertisement_restriction); stored_advertisement_pricing := x.(stored_advertisement_pricing); stored_reputation := x.(stored_reputation); stored_total_assigned := x.(stored_total_assigned); stored_average_reward := x.(stored_average_reward); stored_matches := x.(stored_matches); assigned_processors := x.(assigned_processors); job_budgets := x.(job_budgets); next_report_index := x.(next_report_index); editors := x.(editors); job_key_ids := x.(job_key_ids); deployment_hashes := x.(deployment_hashes); deployment_key_ids := x.(deployment_key_ids); min_fee_per_millisecond := x.(min_fee_per_millisecond); job_price_settings := v; job_matcher := x.(job_matcher); events := x.(events); jext := x.(jext) |}.
Definition set_job_matcher (v : gmap JobId AccountId) (x : State) : State :=
  {| local_job_id_sequence := x.(local_job_id_sequence); stored_job_registration := x.(stored_job_registration); execution_environment := x.(execution_environment); stored_attestation := x.(stored_attestation); required_min_metrics := x.(required_min_metrics); stored_revoked_certificate := x.(stored_revoked_certificate); stored_job_status := x.(stored_job_status); stored_job_execution_status := x.(stored_job_execution_status); stored_advertisement_restriction := x.(stored_advertisement_restriction); stored_advertisement_pricing := x.(stored_advertisement_pricing); stored_reputation := x.(stored_reputation); stored_total_assigned := x.(stored_total_assigned); stored_average_reward := x.(stored_average_reward); stored_matches := x.(stored_matches); assigned_processors := x.(assigned_processors); job_budgets := x.(job_budgets); next_report_index := x.(next_report_index); editors := x.(editors); job_key_ids := x.(job_key_ids); deployment_hashes := x.(deployment_hashes); deployment_key_ids := x.(deployment_key_ids); min_fee_per_millisecond := x.(min_fee_per_millisecond); job_price_settings := x.(job_price_settings); job_matcher := v; events := x.(events); jext := x.(jext) |}.
Definition set_events (v : list Event) (x : State) : State :=
  {| local_job_id_sequence := x.(local_job_id_sequence); stored_job_registration := x.(stored_job_registration); execution_environment := x.(execution_environment); stored_attestation := x.(stored_attestation); required_min_metrics := x.(required_min_metrics); stored_revoked_certificate := x.(stored_revoked_certificate); stored_job_status := x.(stored_job_status); stored_job_execution_status := x.(stored_job_execution_status); stored_advertisement_restriction := x.(stored_advertisement_restriction); stored_advertisement_pricing := x.(stored_advertisement_pricing); stored_reputation := x.(stored_reputation); stored_total_assigned := x.(stored_total_assigned); stored_average_reward := x.(stored_average_reward); stored_matches := x.(stored_matches); assigned_processors := x.(assigned_processors); job_budgets := x.(job_budgets); next_report_index := x.(next_report_index); editors := x.(editors); job_key_ids := x.(job_key_ids); deployment_hashes := x.(deployment_hashes); deployment_key_ids := x.(deployment_key_ids); min_fee_per_millisecond := x.(min_fee_per_millisecond); job_price_settings := x.(job_price_settings); job_matcher := x.(job_matcher); events := v; jext := x.(jext) |}.
Definition set_jext (v : JExt) (x : State) : State :=
  {| local_job_id_sequence := x.(local_job_id_sequence); stored_job_registration := x.(stored_job_registration); execution_environment := x.(execution_environment); stored_attestation := x.(stored_attestation); required_min_metrics := x.(required_min_metrics); stored_revoked_certificate := x.(stored_revoked_certificate); stored_job_status := x.(stored_job_status); stored_job_execution_status := x.(stored_job_execution_status); stored_advertisement_restriction := x.(stored_advertisement_restriction); stored_advertisement_pricing := x.(stored_advertisement_pricing); stored_reputation := x.(stored_reputation); stored_total_assigned := x.(stored_total_assigned); stored_average_reward := x.(stored_average_reward); stored_matches := x.(stored_matches); assigned_processors := x.(assigned_processors); job_budgets := x.(job_budgets); next_report_index := x.(next_report_index); editors := x.(editors); job_key_ids := x.(job_key_ids); deployment_hashes := x.(deployment_hashes); deployment_key_ids := x.(deployment_key_ids); min_fee_per_millisecond := x.(min_fee_per_millisecond); job_price_settings := x.(job_price_settings); job_matcher := x.(job_matcher); events := x.(events); jext := v |}.

(** The storage of a new chain: nothing is stored. *)
Definition genesis (x : JExt) : State :=
  mkState 0 ∅ ∅ ∅ ∅ ∅ ∅ ∅ ∅ ∅ ∅ None None ∅ ∅ ∅ ∅ ∅ ∅ ∅ ∅ 0 None ∅ [] x.

Definition MJ (A : Type) : Type := M State DispatchError A.

Definition deposit_event (e : Event) : MJ unit := modify (fun s => set_events (s.(events) ++ [e]) s).

Definition key_le {K A} (key : K -> Z) (x y : K * A) : Prop := key x.1 <= key y.1.
#[global] Instance key_le_dec {K A} (key : K -> Z) (x y : K * A) : Decision (key_le key x y) :=
  Z.le_dec _ _.

(** [iter_prefix(k)] and [drain_prefix(k)]: the entries under the first key, in the
    order of the storage keys of the second. *)
Definition prefix_entries {K1 K2 A} `{Countable K1, Countable K2} (key : K2 -> Z) (k : K1)
  (m : gmap (K1 * K2) A) : list (K2 * A) :=
  merge_sort (key_le key)
    (omap (fun '((k1, k2), a) => if decide (k1 = k) then Some (k2, a) else None) (map_to_list m)).

Definition matches_of (s : State) (source : AccountId) : list (JobId * Assignment) :=
  prefix_entries job_key source s.(stored_matches).
Definition processors_of (s : State) (job_id : JobId) : list AccountId :=
  (prefix_entries account_key job_id s.(assigned_processors)).*1.

(** [clear_prefix(k, limit, None)] of a map whose second key is a number *)
Definition clear_prefix {K1 A} `{Countable K1} (k : K1) (limit : Z)
  (m : gmap (K1 * Z) A) : gmap (K1 * Z) A :=
  foldr (fun k2 => delete (k, k2)) m
    (clear_prefix_keys limit (prefix_entries id k m).*1).

(** Writes to [StoredMatches] and to its reverse index [AssignedProcessors]. *)
Definition put_match (source : AccountId) (job_id : JobId) (a : Assignment) (s : State) : State :=
  set_stored_matches (<[(source, job_id) := a]> s.(stored_matches)) s.
Definition remove_match (source : AccountId) (job_id : JobId) (s : State) : State :=
  set_stored_matches (delete (source, job_id) s.(stored_matches)) s.
Definition put_processor (job_id : JobId) (source : AccountId) (s : State) : State :=
  set_assigned_processors (<[(job_id, source) := tt]> s.(assigned_processors)) s.
Definition remove_processor (job_id : JobId) (source : AccountId) (s : State) : State :=
  set_assigned_processors (delete (job_id, source) s.(assigned_processors)) s.

(** The part of the state that other pallets and the environment own. *)
Definition jext_modify (f : JExt -> JExt) : MJ unit := modify (fun s => set_jext (f s.(jext)) s).
Definition jext_try (f : JExt -> option JExt) (e : DispatchError) : MJ unit :=
  let* x := gets jext in
  let* x' := ok_or (f x) e in
  modify (set_jext x').

Definition ensure_signed (origin : RuntimeOrigin) : MJ AccountId :=
  match origin with
  | Signed who => ret who
  | Root => throw BadOrigin
  end.
End storage.
