(* ===== verification/Reputation.v ===== *)
(** The reputation of processors: [pallets/marketplace/reputation/src/lib.rs].

    The arithmetic of [FixedU128], [Percent] and [Permill] is not part of the
    repository: [FixedOps] lists what the job pallets use of it, [FixedLaws] its
    documented results (on inner values, rounding towards zero), and
    [reference_fixed] is a concrete instance.  The end of the file shows that
    reputation stays in its range. *)
From S2P Require Import Prelude Perthings JobTypes.

Definition PERMILL : Z := 10 ^ 6.

Class FixedOps := {
  fu_from_rational : Z -> Z -> Z;
  fu_from_u32 : Z -> Z;
  (** the [const] operators [add], [sub] and [div] *)
  fu_add : Z -> Z -> Z;
  fu_sub : Z -> Z -> Z;
  fu_div : Z -> Z -> Z;
  fu_checked_add : Z -> Z -> option Z;
  fu_checked_sub : Z -> Z -> option Z;
  fu_checked_mul : Z -> Z -> option Z;
  fu_checked_div : Z -> Z -> option Z;
  fu_saturating_pow : Z -> Z -> Z;
  fu_saturating_from_integer : Z -> Z;
  fu_saturating_mul_int : Z -> Z -> Z;
  fu_checked_from_rational : Z -> Z -> option Z;
  (** [try_into_perthing::<Permill>().ok()] *)
  fu_try_into_permill : Z -> option Z;
  permill_from_parts : Z -> Z;
  percent_mul_floor : Z -> Z -> Z;
}.

Definition is_u128 (x : Z) : Prop := 0 <= x <= u128_max.

Class FixedLaws (F : FixedOps) : Prop := {
  fu_from_rational_spec n d :
    is_u128 n -> 0 < d <= u128_max -> n * FIXED_DIV / d <= u128_max ->
    fu_from_rational n d = n * FIXED_DIV / d;
  fu_from_u32_spec n : 0 <= n <= u32_max -> fu_from_u32 n = n * FIXED_DIV;
  fu_add_spec a b : is_u128 a -> is_u128 b -> a + b <= u128_max -> fu_add a b = a + b;
  fu_sub_spec a b : is_u128 a -> is_u128 b -> b <= a -> fu_sub a b = a - b;
  fu_div_spec a b :
    is_u128 a -> 0 < b <= u128_max -> a * FIXED_DIV / b <= u128_max ->
    fu_div a b = a * FIXED_DIV / b;
  fu_checked_add_spec a b : is_u128 a -> is_u128 b -> fu_checked_add a b = checked_add u128_max a b;
  fu_checked_sub_spec a b : is_u128 a -> is_u128 b -> fu_checked_sub a b = checked_sub a b;
  fu_checked_mul_spec a b :
    is_u128 a -> is_u128 b ->
    fu_checked_mul a b = if a * b / FIXED_DIV <=? u128_max then Some (a * b / FIXED_DIV) else None;
  fu_checked_div_spec a b :
    is_u128 a -> 0 < b <= u128_max ->
    fu_checked_div a b =
      if a * FIXED_DIV / b <=? u128_max then Some (a * FIXED_DIV / b) else None;
  fu_saturating_pow_range a n : 0 <= a <= FIXED_DIV -> 0 <= n -> 0 <= fu_saturating_pow a n <= FIXED_DIV;
  fu_saturating_from_integer_spec n :
    is_u128 n -> fu_saturating_from_integer n = saturating_mul u128_max n FIXED_DIV;
  fu_saturating_mul_int_spec x n :
    is_u128 x -> is_u128 n -> fu_saturating_mul_int x n = Z.min (x * n / FIXED_DIV) u128_max;
  fu_try_into_permill_spec x :
    0 <= x <= FIXED_DIV -> fu_try_into_permill x = Some (x * PERMILL / FIXED_DIV);
  permill_from_parts_spec p : 0 <= p <= u32_max -> permill_from_parts p = Z.min p PERMILL;
  percent_mul_floor_spec p n : 0 <= p <= 100 -> is_u128 n -> percent_mul_floor p n = p * n / 100;
}.

(** [a ^ n] by repeated rounded multiplication *)
Definition pow_loop (a : Z) (n : Z) : Z :=
  Pos.iter (fun acc => acc * a / FIXED_DIV) FIXED_DIV (Z.to_pos n).

#[export] Instance reference_fixed : FixedOps := {|
  fu_from_rational n d := n * FIXED_DIV / d;
  fu_from_u32 n := n * FIXED_DIV;
  fu_add a b := a + b;
  fu_sub a b := a - b;
  fu_div a b := a * FIXED_DIV / b;
  fu_checked_add a b := checked_add u128_max a b;
  fu_checked_sub a b := checked_sub a b;
  fu_checked_mul a b := if a * b / FIXED_DIV <=? u128_max then Some (a * b / FIXED_DIV) else None;
  fu_checked_div a b :=
    if b =? 0 then None
    else if a * FIXED_DIV / b <=? u128_max then Some (a * FIXED_DIV / b) else None;
  fu_saturating_pow a n := if n =? 0 then FIXED_DIV else pow_loop a n;
  fu_saturating_from_integer n := saturating_mul u128_max n FIXED_DIV;
  fu_saturating_mul_int x n := Z.min (x * n / FIXED_DIV) u128_max;
  fu_checked_from_rational n d :=
    if d =? 0 then None
    else if n * FIXED_DIV / d <=? u128_max then Some (n * FIXED_DIV / d) else None;
  fu_try_into_permill x := if x <=? FIXED_DIV then Some (x * PERMILL / FIXED_DIV) else None;
  permill_from_parts p := Z.min p PERMILL;
  percent_mul_floor p n := p * n / 100;
|}.

Section reputation.
Context {F : FixedOps}.

Definition LAMBDA : Z := fu_from_rational 98 100.
Definition LAMBDA_INV : Z := fu_sub (fu_from_u32 1) LAMBDA.
Definition LAMBDA_F : Z := fu_div (fu_from_u32 1) LAMBDA_INV.
Definition MAX_REPUTATION : Z :=
  fu_div (fu_add LAMBDA_F (fu_from_u32 1)) (fu_add LAMBDA_F (fu_from_u32 2)).

Definition BetaParameters_default : BetaParameters := {| bp_r := 0; bp_s := 0 |}.

(** [weight] *)
Definition weight (job_reward avg_reward : Z) : option Z :=
  let job_reward_ := fu_saturating_from_integer job_reward in
  d ← fu_checked_add avg_reward job_reward_;
  fu_checked_div job_reward_ d.

(** [BetaReputation::normalize] *)
Definition normalize (params : BetaParameters) : option Z :=
  n ← fu_checked_add params.(bp_r) (fu_from_u32 1);
  rs ← fu_checked_add params.(bp_r) params.(bp_s);
  d ← fu_checked_add rs (fu_from_u32 2);
  q ← fu_checked_div n d;
  q' ← fu_checked_div q MAX_REPUTATION;
  fu_try_into_permill q'.

(** [BetaReputation::update] *)
Definition update (params : BetaParameters) (successes failures job_reward avg_reward : Z)
  : option BetaParameters :=
  w ← weight job_reward (fu_saturating_from_integer avg_reward);
  let lambda_pow_successes := fu_saturating_pow LAMBDA successes in
  let lambda_pow_failures := fu_saturating_pow LAMBDA failures in
  b0 ← fu_checked_sub (fu_from_u32 1) lambda_pow_successes;
  b1 ← fu_checked_div b0 LAMBDA_INV;
  bonus ← fu_checked_mul w b1;
  r0 ← fu_checked_mul params.(bp_r) lambda_pow_successes;
  r1 ← fu_checked_add r0 bonus;
  r_ ← fu_checked_mul r1 lambda_pow_failures;
  m0 ← fu_checked_sub (fu_from_u32 1) lambda_pow_failures;
  m1 ← fu_checked_div m0 LAMBDA_INV;
  malus ← fu_checked_mul w m1;
  s0 ← fu_checked_mul params.(bp_s) lambda_pow_successes;
  s1 ← fu_checked_mul s0 lambda_pow_failures;
  s_ ← fu_checked_add s1 malus;
  Some {| bp_r := r_; bp_s := s_ |}.
End reputation.

#[export] Instance reference_fixed_laws : FixedLaws reference_fixed.
Proof.
  split; simpl; try done.
  - intros a b _ Hb. destruct (Z.eqb_spec b 0); [lia|done].
  - intros a n Ha Hn. destruct (Z.eqb_spec n 0); [unfold FIXED_DIV; lia|].
    unfold pow_loop. apply Pos.iter_invariant; [|unfold FIXED_DIV; lia].
    intros acc Hacc. split; [apply Z.div_pos; unfold FIXED_DIV; nia|].
    apply Z.div_le_upper_bound; unfold FIXED_DIV in *; nia.
  - intros x Hx. destruct (Z.leb_spec x FIXED_DIV); [done|lia].
Qed.

(** * Bounds *)
Section bounds.
Context {F : FixedOps} {FL : FixedLaws F}.

Lemma LAMBDA_eq : LAMBDA = 98 * 10 ^ 16.
Proof. unfold LAMBDA. rewrite fu_from_rational_spec; by_compute. Qed.
Lemma LAMBDA_INV_eq : LAMBDA_INV = 2 * 10 ^ 16.
Proof.
  unfold LAMBDA_INV. rewrite LAMBDA_eq, fu_from_u32_spec by by_compute.
  rewrite fu_sub_spec; by_compute.
Qed.
Lemma LAMBDA_F_eq : LAMBDA_F = 50 * FIXED_DIV.
Proof.
  unfold LAMBDA_F. rewrite LAMBDA_INV_eq, fu_from_u32_spec by by_compute.
  rewrite fu_div_spec; by_compute.
Qed.
Lemma MAX_REPUTATION_eq : MAX_REPUTATION = 51 * FIXED_DIV / 52.
Proof.
  unfold MAX_REPUTATION. rewrite LAMBDA_F_eq, !fu_from_u32_spec by by_compute.
  rewrite !fu_add_spec by by_compute. rewrite fu_div_spec; by_compute.
Qed.

(** Both parameters lie between 0 and [LAMBDA_F] = 1/(1-λ). *)
Definition sane_params (p : BetaParameters) : Prop :=
  0 <= p.(bp_r) <= LAMBDA_F /\ 0 <= p.(bp_s) <= LAMBDA_F.

(** [x * y] for fixed-point [x], [y], rounded down, lies between 0 and [x] when [y <= 1]. *)
Lemma fixed_mul_range x y :
  0 <= x -> 0 <= y <= FIXED_DIV -> 0 <= x * y / FIXED_DIV <= x.
Proof.
  intros Hx Hy. split; [apply Z.div_pos; unfold FIXED_DIV; nia|].
  apply Z.div_le_upper_bound; unfold FIXED_DIV in *; nia.
Qed.

Lemma checked_mul_run x y :
  is_u128 x -> 0 <= y <= FIXED_DIV -> fu_checked_mul x y = Some (x * y / FIXED_DIV).
Proof.
  intros Hx Hy. unfold is_u128 in *.
  assert (FIXED_DIV <= u128_max) as HD by by_compute.
  rewrite fu_checked_mul_spec by (unfold is_u128; lia).
  pose proof (fixed_mul_range x y ltac:(lia) Hy). destruct (Z.leb_spec (x * y / FIXED_DIV) u128_max); [done|lia].
Qed.
End bounds.

Section specs.
Context {F : FixedOps} {FL : FixedLaws F}.

(** One discounted step: the old value weighs [p], the new evidence [1 - p]. *)
Lemma discount_bound a w p :
  0 <= a <= 50 * FIXED_DIV -> 0 <= w <= FIXED_DIV -> 0 <= p <= FIXED_DIV ->
  0 <= a * p / FIXED_DIV + w * (50 * (FIXED_DIV - p)) / FIXED_DIV <= 50 * FIXED_DIV.
Proof.
  intros Ha Hw Hp.
  assert (0 <= a * p / FIXED_DIV <= 50 * p).
  { split; [apply Z.div_pos|apply Z.div_le_upper_bound]; unfold FIXED_DIV in *; nia. }
  assert (0 <= w * (50 * (FIXED_DIV - p)) / FIXED_DIV <= 50 * (FIXED_DIV - p)); [|lia].
  split; [apply Z.div_pos|apply Z.div_le_upper_bound]; unfold FIXED_DIV in *; nia.
Qed.

Lemma checked_add_run a b :
  0 <= a -> 0 <= b -> a + b <= u128_max -> fu_checked_add a b = Some (a + b).
Proof.
  intros Ha Hb Hab. rewrite fu_checked_add_spec by (unfold is_u128; lia).
  by apply checked_add_Some.
Qed.

Lemma weight_run job avg :
  0 < job -> 0 <= avg -> (job + avg) * FIXED_DIV <= u128_max ->
  exists w, weight job (fu_saturating_from_integer avg) = Some w /\ 0 <= w <= FIXED_DIV.
Proof.
  intros Hj Ha Hs. unfold weight.
  assert (0 < FIXED_DIV) by by_compute.
  rewrite !fu_saturating_from_integer_spec by (unfold is_u128; unfold FIXED_DIV in *; nia).
  unfold saturating_mul. rewrite !Z.min_l by nia.
  rewrite checked_add_run by nia. simpl.
  assert (job * FIXED_DIV * FIXED_DIV / (avg * FIXED_DIV + job * FIXED_DIV) <= FIXED_DIV) as Hle.
  { apply Z.div_le_upper_bound; nia. }
  rewrite fu_checked_div_spec by (unfold is_u128; nia).
  destruct (Z.leb_spec (job * FIXED_DIV * FIXED_DIV / (avg * FIXED_DIV + job * FIXED_DIV)) u128_max)
    as [|Hgt].
  - eexists. split; [done|]. split; [|done]. apply Z.div_pos; nia.
  - assert (FIXED_DIV <= u128_max) by by_compute. lia.
Qed.

(** The evidence of [n] reports whose discount is [p]: [(1 - p) / (1 - λ)]. *)
Lemma evidence_run p :
  0 <= p <= FIXED_DIV ->
  (b ← fu_checked_sub (fu_from_u32 1) p; fu_checked_div b LAMBDA_INV) = Some (50 * (FIXED_DIV - p)).
Proof.
  intros Hp. rewrite fu_from_u32_spec, Z.mul_1_l by by_compute.
  assert (50 * FIXED_DIV <= u128_max) by by_compute. assert (0 < FIXED_DIV) by by_compute.
  rewrite fu_checked_sub_spec by (unfold is_u128; lia).
  rewrite (proj2 (checked_sub_Some _ _ _)) by (split; [done|lia]). simpl.
  rewrite LAMBDA_INV_eq, fu_checked_div_spec by (unfold is_u128; lia || by_compute).
  replace ((FIXED_DIV - p) * FIXED_DIV / (2 * 10 ^ 16)) with (50 * (FIXED_DIV - p)).
  - destruct (Z.leb_spec (50 * (FIXED_DIV - p)) u128_max); [done|lia].
  - replace ((FIXED_DIV - p) * FIXED_DIV) with (50 * (FIXED_DIV - p) * (2 * 10 ^ 16))
      by (unfold FIXED_DIV; lia).
    by rewrite Z.div_mul.
Qed.

Lemma update_run p successes failures job avg :
  sane_params p -> 0 <= successes -> 0 <= failures ->
  0 < job -> 0 <= avg -> (job + avg) * FIXED_DIV <= u128_max ->
  exists p', update p successes failures job avg = Some p' /\ sane_params p'.
Proof.
  unfold sane_params. rewrite !LAMBDA_F_eq. intros [Hr Hs] Hsu Hfa Hj Ha Hsum.
  destruct (weight_run job avg Hj Ha Hsum) as (w & Hw & Hwr).
  assert (0 <= LAMBDA <= FIXED_DIV) as HL by (rewrite LAMBDA_eq; by_compute).
  pose proof (fu_saturating_pow_range LAMBDA successes HL Hsu) as Hps.
  pose proof (fu_saturating_pow_range LAMBDA failures HL Hfa) as Hpf.
  assert (50 * FIXED_DIV <= u128_max) as HD by by_compute.
  unfold update. rewrite Hw. simpl.
  set (ps := fu_saturating_pow LAMBDA successes) in *.
  set (pf := fu_saturating_pow LAMBDA failures) in *.
  pose proof (evidence_run ps Hps) as Es. pose proof (evidence_run pf Hpf) as Ef.
  destruct (fu_checked_sub (fu_from_u32 1) ps) as [b0|]; [|done]. simpl in Es |- *.
  destruct (fu_checked_sub (fu_from_u32 1) pf) as [m0|]; [|done]. simpl in Ef |- *.
  rewrite Es. simpl.
  pose proof (discount_bound (bp_r p) w ps Hr Hwr Hps) as Bs.
  pose proof (fixed_mul_range (bp_s p) ps ltac:(lia) Hps) as Bs0.
  pose proof (discount_bound (bp_s p * ps / FIXED_DIV) w pf ltac:(lia) Hwr Hpf) as Bf.
  pose proof (fixed_mul_range (bp_r p) ps ltac:(lia) Hps) as Br0.
  assert (forall q, 0 <= q <= FIXED_DIV ->
            fu_checked_mul w (50 * (FIXED_DIV - q)) = Some (w * (50 * (FIXED_DIV - q)) / FIXED_DIV) /\
            0 <= w * (50 * (FIXED_DIV - q)) / FIXED_DIV <= 50 * FIXED_DIV) as Hev.
  { intros q Hq. pose proof (discount_bound 0 w q ltac:(lia) Hwr Hq) as B.
    rewrite Z.mul_0_l, Zdiv_0_l, Z.add_0_l in B. split; [|done].
    rewrite fu_checked_mul_spec by (unfold is_u128; lia).
    destruct (Z.leb_spec (w * (50 * (FIXED_DIV - q)) / FIXED_DIV) u128_max); [done|lia]. }
  destruct (Hev ps Hps) as [E1 B1]. destruct (Hev pf Hpf) as [E2 B2]. rewrite E1. simpl.
  rewrite (checked_mul_run (bp_r p) ps) by (unfold is_u128; lia). simpl.
  rewrite (checked_add_run (bp_r p * ps / FIXED_DIV)) by lia. simpl.
  rewrite (checked_mul_run _ pf) by (unfold is_u128; lia). simpl.
  rewrite Ef. simpl. rewrite E2. simpl.
  rewrite (checked_mul_run (bp_s p) ps) by (unfold is_u128; lia). simpl.
  rewrite (checked_mul_run (bp_s p * ps / FIXED_DIV) pf) by (unfold is_u128; lia). simpl.
  pose proof (fixed_mul_range (bp_s p * ps / FIXED_DIV) pf ltac:(lia) Hpf) as Bs1.
  rewrite (checked_add_run (bp_s p * ps / FIXED_DIV * pf / FIXED_DIV)) by lia. simpl.
  eexists. split; [done|]. simpl. split; [|lia].
  pose proof (fixed_mul_range _ pf (proj1 Bs) Hpf). lia.
Qed.

Lemma normalize_run p :
  sane_params p -> exists q, normalize p = Some q /\ 0 <= q <= PERMILL.
Proof.
  unfold sane_params. rewrite !LAMBDA_F_eq. intros [Hr Hs]. unfold normalize.
  rewrite !fu_from_u32_spec by by_compute. rewrite MAX_REPUTATION_eq.
  assert (200 * FIXED_DIV <= u128_max) as HD by by_compute. assert (0 < FIXED_DIV) as HP by by_compute.
  set (r := bp_r p) in *. set (s := bp_s p) in *.
  rewrite (checked_add_run r (1 * FIXED_DIV)) by lia. simpl. rewrite (checked_add_run r s) by lia. simpl.
  rewrite (checked_add_run (r + s) (2 * FIXED_DIV)) by lia. simpl.
  assert (0 <= (r + 1 * FIXED_DIV) * FIXED_DIV / (r + s + 2 * FIXED_DIV) <= 51 * FIXED_DIV / 52) as Hq.
  { split; [apply Z.div_pos; nia|].
    apply Z.div_le_lower_bound; [lia|].
    pose proof (Z.mul_div_le ((r + 1 * FIXED_DIV) * FIXED_DIV) (r + s + 2 * FIXED_DIV) ltac:(lia)).
    assert ((r + 1 * FIXED_DIV) * 52 <= 51 * (r + s + 2 * FIXED_DIV)) by lia. nia. }
  assert (51 * FIXED_DIV / 52 <= FIXED_DIV) by (apply Z.div_le_upper_bound; lia).
  rewrite (fu_checked_div_spec (r + 1 * FIXED_DIV)) by (unfold is_u128; lia).
  destruct (Z.leb_spec ((r + 1 * FIXED_DIV) * FIXED_DIV / (r + s + 2 * FIXED_DIV)) u128_max); [|lia]. simpl.
  set (q := (r + 1 * FIXED_DIV) * FIXED_DIV / (r + s + 2 * FIXED_DIV)) in *.
  assert (0 < 51 * FIXED_DIV / 52) by by_compute.
  assert (0 <= q * FIXED_DIV / (51 * FIXED_DIV / 52) <= FIXED_DIV) as Hq'.
  { split; [apply Z.div_pos; nia|]. apply Z.div_le_upper_bound; nia. }
  rewrite (fu_checked_div_spec q) by (unfold is_u128; lia).
  destruct (Z.leb_spec (q * FIXED_DIV / (51 * FIXED_DIV / 52)) u128_max); [|lia]. simpl.
  rewrite fu_try_into_permill_spec by lia. eexists. split; [done|].
  split; [apply Z.div_pos; unfold PERMILL; nia|].
  apply Z.div_le_upper_bound; [lia|]. unfold PERMILL. nia.
Qed.

(** from the parameters of a new processor, every update with a positive
    reward succeeds and keeps both parameters between 0 and 1/(1-λ), and the
    normalized score always exists and is at most one. *)
Theorem reputation_stays_in_range (p : BetaParameters) (successes failures job avg : Z) :
  sane_params BetaParameters_default /\
  (sane_params p -> exists q, normalize p = Some q /\ 0 <= q <= PERMILL) /\
  (sane_params p -> 0 <= successes -> 0 <= failures ->
   0 < job -> 0 <= avg -> (job + avg) * FIXED_DIV <= u128_max ->
   exists p', update p successes failures job avg = Some p' /\ sane_params p').
Proof.
  split_and!.
  - unfold sane_params. rewrite !LAMBDA_F_eq. by_compute.
  - apply normalize_run.
  - apply update_run.
Qed.
End specs.

(** A processor with three good reports for an average reward. *)
Lemma reputation_stays_in_range_witness :
  let p := default BetaParameters_default (update BetaParameters_default 3 0 10 10) in
  (exists q, normalize p = Some q /\ 0 <= q <= PERMILL) /\
  exists p', update p 1 2 10 10 = Some p' /\ sane_params p'.
Proof.
  assert (sane_params (default BetaParameters_default (update BetaParameters_default 3 0 10 10))) as H
    by by_compute.
  split.
  - exact (proj1 (proj2 (reputation_stays_in_range _ 1 2 10 10)) H).
  - apply (proj2 (proj2 (reputation_stays_in_range _ 1 2 10 10)) H); by_compute.
Defined.
