(* ===== verification/Jobs.v ===== *)
(** The registry of jobs: [pallets/acurast/src/functions.rs], [lib.rs] and
    [utils.rs], with [is_valid_script] of [pallets/acurast/common/src/types.rs].

    [JobHooks] is the interface through which the registry tells the marketplace
    about jobs; the calls of the registry are defined for any hooks. *)
From S2P Require Import Prelude Schedules Attestations JobTypes Reputation.

(** * Scripts *)

(** [String::from_utf8_lossy]: the characters of a byte string; every maximal
    invalid part is one replacement character. *)
Definition REPLACEMENT_CHARACTER : Z := 0xFFFD.
Definition is_cont (b : Z) : bool := (0x80 <=? b) && (b <=? 0xBF).
Definition between (lo hi b : Z) : bool := (lo <=? b) && (b <=? hi).

(** How many continuation bytes a lead byte asks for, and the range of the first. *)
Definition utf8_lead (b : Z) : option (nat * Z * Z) :=
  if between 0xC2 0xDF b then Some (1%nat, 0x80, 0xBF)
  else if b =? 0xE0 then Some (2%nat, 0xA0, 0xBF)
  else if between 0xE1 0xEC b || between 0xEE 0xEF b then Some (2%nat, 0x80, 0xBF)
  else if b =? 0xED then Some (2%nat, 0x80, 0x9F)
  else if b =? 0xF0 then Some (3%nat, 0x90, 0xBF)
  else if between 0xF1 0xF3 b then Some (3%nat, 0x80, 0xBF)
  else if b =? 0xF4 then Some (3%nat, 0x80, 0x8F)
  else None.

Definition utf8_lead_bits (n : nat) (b : Z) : Z :=
  match n with
  | 1%nat => Z.land b 0x1F
  | 2%nat => Z.land b 0x0F
  | _ => Z.land b 0x07
  end.

(** Reads the bytes left to right; [pending] holds a character under construction:
    its value so far, how many bytes are missing and the range of the next one. *)
Fixpoint utf8_chars (pending : option (Z * nat * Z * Z)) (l : list Z) : list Z :=
  let start b :=
    if b <? 0x80 then ([b], None)
    else match utf8_lead b with
         | Some (n, lo, hi) => ([], Some (utf8_lead_bits n b, n, lo, hi))
         | None => ([REPLACEMENT_CHARACTER], None)
         end in
  match l with
  | [] => match pending with Some _ => [REPLACEMENT_CHARACTER] | None => [] end
  | b :: l' =>
      let '(out, pending') :=
        match pending with
        | None => start b
        | Some (acc, n, lo, hi) =>
            if between lo hi b then
              let acc' := Z.lor (Z.shiftl acc 6) (Z.land b 0x3F) in
              match n with
              | S (S n' as m) => ([], Some (acc', m, 0x80, 0xBF))
              | _ => ([acc'], None)
              end
            else
              let '(out, p) := start b in (REPLACEMENT_CHARACTER :: out, p)
        end in
      out ++ utf8_chars pending' l'
  end.
Definition from_utf8_lossy (l : list Z) : list Z := utf8_chars None l.

Fixpoint starts_with (l prefix : list Z) : bool :=
  match prefix, l with
  | [], _ => true
  | p :: prefix', x :: l' => (x =? p) && starts_with l' prefix'
  | _ :: _, [] => false
  end.

(** [b"ipfs://"], ["Qm"] *)
Definition SCRIPT_PREFIX : list Z := [105; 112; 102; 115; 58; 47; 47].
Definition SCRIPT_LENGTH : Z := 53.
Definition CIDV0_LENGHT : Z := 34.
Definition CIDV0_PREFIX : list Z := [0x12; 0x20].
Definition CIDV0_STR_PREFIX : list Z := [81; 109].

Section registry.
Context {X : JobExternals} {C : JobConfig} {A : AllowedApps} {F : FixedOps}.

Definition is_valid_script (script : Script) : bool :=
  let script_len := Z.of_nat (length script) in
  if negb (script_len =? SCRIPT_LENGTH) || negb (starts_with script SCRIPT_PREFIX) then false
  else
    let cid := from_utf8_lossy (drop (length SCRIPT_PREFIX) script) in
    if negb (starts_with cid CIDV0_STR_PREFIX) then false
    else
      match from_base58 cid with
      | None => false
      | Some decoded_cid =>
          if negb (Z.of_nat (length decoded_cid) =? CIDV0_LENGHT)
             || negb (starts_with decoded_cid CIDV0_PREFIX)
          then false else true
      end.

(** * Attestations of sources *)

Definition ensure_not_revoked (s : State) (attestation : Attestation) : outcome AcurastError unit :=
  if existsb (fun id : Bytes * Bytes => bool_decide (id.2 ∈ s.(stored_revoked_certificate)))
       attestation.(cert_ids)
  then Err RevokedCertificate else Ok tt.

Definition check_attestation_of (s : State) (account : AccountId) : outcome AcurastError Attestation :=
  match s.(stored_attestation) !! account with
  | None => Err FulfillSourceNotVerified
  | Some attestation =>
      match ensure_not_revoked s attestation with
      | Ok _ =>
          if negb (accept_attestation_for_origin attestation) then Err AttestationRejected
          else Ok attestation
      | Err e => Err e
      | Panic => Panic
      end
  end.

Definition ensure_source_verified (s : State) (source : AccountId) : outcome AcurastError unit :=
  match check_attestation_of s source with
  | Ok _ => Ok tt
  | Err e => Err e
  | Panic => Panic
  end.

Definition ensure_source_verified_and_of_type (s : State) (source : AccountId)
  (processor_type : ProcessorType) : outcome AcurastError unit :=
  match check_attestation_of s source with
  | Ok attestation =>
      if negb (check_attestation_is_of_type attestation processor_type)
      then Err AttestationRejected else Ok tt
  | Err e => Err e
  | Panic => Panic
  end.

Definition ensure_source_verified_and_security_level (s : State) (account : AccountId)
  (valid_security_levels : list AttestationSecurityLevel) : outcome AcurastError unit :=
  match check_attestation_of s account with
  | Ok attestation =>
      match attestation.(content) with
      | KeyDescription key_description =>
          if negb (contains valid_security_levels key_description.(attestation_security_level))
          then Err AttestationRejected else Ok tt
      | DeviceAttestation _ => Ok tt
      end
  | Err e => Err e
  | Panic => Panic
  end.

(** [EnsureAttested for Pallet<T>] *)
Definition ensure_attested (s : State) (account_id : AccountId) : outcome AcurastError unit :=
  ensure_source_verified_and_security_level s account_id [StrongBox; TrustedEnvironemnt].

Definition is_ok {E B} (o : outcome E B) : bool := match o with Ok _ => true | _ => false end.

(** * Jobs *)

Class JobHooks := {
  register_hook : JobId -> JobRegistration -> MJ unit;
  deregister_hook : JobId -> MJ unit;
  update_allowed_sources_hook : AccountId -> JobId -> list (ListUpdate AccountId) -> MJ unit;
}.

(** [JobHooks for ()] *)
Definition no_hooks : JobHooks := {|
  register_hook _ _ := ret tt;
  deregister_hook _ := ret tt;
  update_allowed_sources_hook _ _ _ := ret tt;
|}.

Context {H : JobHooks}.

Definition next_job_id : MJ JobIdSequence :=
  let* id := gets local_job_id_sequence in
  let id' := wrapping_add u128_max id 1 in
  modify (set_local_job_id_sequence id');;
  ret id'.

(** [MinMetric::checked_from] *)
Definition min_metric_checked_from (value : MetricInput) : option MinMetric :=
  let '(pool_id, numerator, denominator) := value in
  metric ← fu_checked_from_rational numerator (if denominator =? 0 then 1 else denominator);
  Some {| mm_pool_id := pool_id; mm_value := metric |}.

Definition register_for (job_id : JobId) (registration : JobRegistration)
  (min_metrics : option (list MetricInput)) : MJ unit :=
  ensure (is_valid_script registration.(script)) (AcurastErr InvalidScriptValue);;
  match registration.(allowed_sources) with
  | Some allowed_sources =>
      let len := Z.of_nat (length allowed_sources) in
      ensure (0 <? len) (AcurastErr TooFewAllowedSources);;
      ensure (len <=? MaxAllowedSources) (AcurastErr TooManyAllowedSources)
  | None => ret tt
  end;;
  modify (fun s => set_stored_job_registration
                     (<[job_id := registration]> s.(stored_job_registration)) s);;
  match min_metrics with
  | Some metrics =>
      let metrics := omap min_metric_checked_from metrics in
      ensure (Z.of_nat (length metrics) <=? METRICS_MAX_LENGTH) (AcurastErr TooManyMinMetrics);;
      modify (fun s => set_required_min_metrics (<[job_id := metrics]> s.(required_min_metrics)) s)
  | None => ret tt
  end;;
  register_hook job_id registration;;
  deposit_event (JobRegistrationStoredV2 job_id).

Definition clear_environment_for (job_id : JobId) : MJ unit :=
  modify (fun s => set_execution_environment
                     (clear_prefix job_id MaxSlots s.(execution_environment)) s).

Definition deregister_for (job_id : JobId) : MJ unit :=
  deregister_hook job_id;;
  clear_environment_for job_id;;
  modify (fun s => set_stored_job_registration (delete job_id s.(stored_job_registration)) s);;
  modify (fun s => set_required_min_metrics (delete job_id s.(required_min_metrics)) s);;
  deposit_event (JobRegistrationRemoved job_id).

Definition set_environment_for (job_id : JobId) (environments : list (AccountId * Environment))
  : MJ unit :=
  mfor environments (fun '(source, env) =>
    let* r := gets (fun s => s.(stored_job_registration) !! job_id) in
    let* _ := ok_or r (AcurastErr JobRegistrationNotFound) in
    modify (fun s => set_execution_environment
                       (<[(job_id, source) := env]> s.(execution_environment)) s));;
  deposit_event (ExecutionEnvironmentsUpdatedV2 job_id).

(** * The calls of the pallet *)

Definition register (origin : RuntimeOrigin) (registration : JobRegistration) : MJ unit :=
  let* who := ensure_signed origin in
  let* id := next_job_id in
  register_for (Acurast who, id) registration None.

Definition register_with_min_metrics (origin : RuntimeOrigin) (registration : JobRegistration)
  (min_metrics : list MetricInput) : MJ unit :=
  let* who := ensure_signed origin in
  let* id := next_job_id in
  register_for (Acurast who, id) registration (Some min_metrics).

Definition deregister (origin : RuntimeOrigin) (local_job_id : JobIdSequence) : MJ unit :=
  let* who := ensure_signed origin in
  deregister_for (Acurast who, local_job_id).

(** The loop of [update_allowed_sources]: one update of the list *)
Definition apply_update (current : list AccountId) (u : ListUpdate AccountId) : list AccountId :=
  match list_find (eq u.(lu_item)) current, u.(lu_operation) with
  | None, AddItem => current ++ [u.(lu_item)]
  | Some (pos, _), RemoveItem => list_delete pos current
  | _, _ => current
  end.

Definition update_allowed_sources (origin : RuntimeOrigin) (local_job_id : JobIdSequence)
  (updates : list (ListUpdate AccountId)) : MJ unit :=
  let* who := ensure_signed origin in
  let job_id := (Acurast who, local_job_id) in
  let* r := gets (fun s => s.(stored_job_registration) !! job_id) in
  let* registration := ok_or r (AcurastErr JobRegistrationNotFound) in
  let current_allowed_sources :=
    fold_left apply_update updates (default [] registration.(allowed_sources)) in
  let* allowed :=
    match current_allowed_sources with
    | [] => ret None
    | _ =>
        ensure (Z.of_nat (length current_allowed_sources) <=? MaxAllowedSources)
          (AcurastErr TooManyAllowedSources);;
        ret (Some current_allowed_sources)
    end in
  modify (fun s => set_stored_job_registration
    (<[job_id := set_allowed_sources allowed registration]> s.(stored_job_registration)) s);;
  update_allowed_sources_hook who job_id updates;;
  deposit_event (AllowedSourcesUpdatedV2 job_id).

Definition update_certificate_revocation_list (origin : RuntimeOrigin)
  (updates : list (ListUpdate SerialNumber)) : MJ unit :=
  ensure (UpdateOrigin origin) BadOrigin;;
  mfor updates (fun u =>
    match u.(lu_operation) with
    | AddItem =>
        modify (fun s => set_stored_revoked_certificate
                           ({[u.(lu_item)]} ∪ s.(stored_revoked_certificate)) s)
    | RemoveItem =>
        modify (fun s => set_stored_revoked_certificate
                           (s.(stored_revoked_certificate) ∖ {[u.(lu_item)]}) s)
    end);;
  deposit_event CertificateRevocationListUpdated.

Definition set_environment (origin : RuntimeOrigin) (job_id_seq : JobIdSequence)
  (source : AccountId) (environment : Environment) : MJ unit :=
  let* who := ensure_signed origin in
  set_environment_for (Acurast who, job_id_seq) (take (Z.to_nat MaxSlots) [(source, environment)]).

Definition set_environments (origin : RuntimeOrigin) (job_id_seq : JobIdSequence)
  (environments : list (AccountId * Environment)) : MJ unit :=
  let* who := ensure_signed origin in
  set_environment_for (Acurast who, job_id_seq) environments.
End registry.
