(* ===== verification/Payments.v ===== *)
(** Rewards of jobs: [pallets/marketplace/src/payments.rs] and the implementation
    of [JobBudget] in [pallets/marketplace/src/lib.rs].

    The reward of a job is locked on the account of the pallet when the job is
    registered, and [JobBudgets] records how much of that account belongs to
    which job.  [RewardManager] is the interface the marketplace uses. *)
From S2P Require Import Prelude JobTypes Reputation.

Section payments.
Context {X : JobExternals} {C : JobConfig} {F : FixedOps}.

(** * [JobBudget for Pallet<T>] *)

Definition reserved (s : State) (job_id : JobId) : Balance := default 0 (s.(job_budgets) !! job_id).
Definition write_budget (job_id : JobId) (amount : Balance) : MJ unit :=
  modify (fun s => set_job_budgets (<[job_id := amount]> s.(job_budgets)) s).

Definition reserve (job_id : JobId) (reward : Balance) : MJ unit :=
  let* amount := gets (fun s => reserved s job_id) in
  let* amount' := ok_or (checked_add u128_max amount reward) ReserveFailed in
  write_budget job_id amount'.

Definition unreserve (job_id : JobId) (reward : Balance) : MJ unit :=
  let* amount := gets (fun s => reserved s job_id) in
  ensure (reward <=? amount) UnreserveFailed;;
  let* amount' := ok_or (checked_sub amount reward) UnreserveFailed in
  write_budget job_id amount'.

Definition unreserve_remaining (job_id : JobId) : MJ Balance :=
  let* remaining := gets (fun s => reserved s job_id) in
  write_budget job_id 0;;
  ret remaining.

(** * [RewardManager] *)
Class RewardManager := {
  lock_reward : JobId -> Balance -> MJ unit;
  handle_reward : JobId -> Balance -> MJ unit;
  pay_matcher_reward : JobId -> Balance -> AccountId -> MJ unit;
  refund : JobId -> MJ Balance;
}.

(** [RewardManager for ()] *)
Definition no_rewards : RewardManager := {|
  lock_reward _ _ := ret tt;
  handle_reward _ _ := ret tt;
  pay_matcher_reward _ _ _ := ret tt;
  refund _ := ret 0;
|}.

Definition transfer_preserve (from to : AccountId) (amount : Balance) : MJ unit :=
  jext_try (currency_transfer from to amount) CurrencyError.

(** The account that pays for a job, and that gets back what remains: the consumer,
    or the account that collects the funds of a foreign chain. *)
Definition arm_lock_reward (job_id : JobId) (reward : Balance) : MJ unit :=
  match job_id.1 with
  | Acurast who => transfer_preserve who pallet_account reward
  | Tezos _ | Ethereum _ | AlephZero _ | Vara _ | Ethereum20 _ | Solana _ =>
      transfer_preserve hyperdrive_pallet_account pallet_account reward
  | AcurastCanary _ => throw UnexpectedMultiOrigin
  end;;
  reserve job_id reward.

Definition arm_handle_reward (job_id : JobId) (reward : Balance) : MJ unit :=
  unreserve job_id reward;;
  let* x := gets jext in
  let* (imbalance, x') := ok_or (currency_withdraw pallet_account reward x) CurrencyError in
  modify (set_jext x');;
  jext_modify (ou_on_unbalanced imbalance).

Definition arm_pay_matcher_reward (job_id : JobId) (price_difference : Balance)
  (matcher : AccountId) : MJ unit :=
  let matcher_fee := percent_mul_floor get_matcher_percentage price_difference in
  unreserve job_id matcher_fee;;
  let fee := percent_mul_floor get_fee_percentage matcher_fee in
  let reward_after_fee := wrap_as u128_max (matcher_fee - fee) in
  (if 0 <? fee then transfer_preserve pallet_account fee_pallet_account fee else ret tt);;
  (if 0 <? reward_after_fee then transfer_preserve pallet_account matcher reward_after_fee
   else ret tt).

Definition arm_refund (job_id : JobId) : MJ Balance :=
  let* remaining := unreserve_remaining job_id in
  match job_id.1 with
  | Acurast who => transfer_preserve pallet_account who remaining
  | Tezos _ | Ethereum _ | AlephZero _ | Vara _ | Ethereum20 _ | Solana _ =>
      transfer_preserve pallet_account hyperdrive_pallet_account remaining
  | AcurastCanary _ => throw UnexpectedMultiOrigin
  end;;
  ret remaining.

(** [AssetRewardManager<FeeManagement, Balances, Marketplace, ()>] *)
#[export] Instance AssetRewardManager : RewardManager := {|
  lock_reward := arm_lock_reward;
  handle_reward := arm_handle_reward;
  pay_matcher_reward := arm_pay_matcher_reward;
  refund := arm_refund;
|}.
End payments.
