(* ===== verification/Reporting.v ===== *)
(** Advertisements, reports and reputation: [pallets/marketplace/src/functions.rs]. *)
From S2P Require Import Prelude Schedules Attestations JobTypes Reputation Jobs.
From S2P Require Import Payments.

Section reporting.
Context {X : JobExternals} {C : JobConfig} {A : AllowedApps} {F : FixedOps} {R : RewardManager}.

(** [Pallet::now]: the clock in milliseconds, as a [u64] *)
Definition now : MJ Z :=
  let* x := gets jext in
  let t := unix_now_millis x in
  ensure (t <=? u64_max) (MarketErr (PalletAcurast FailedTimestampConversion));;
  ret t.

Definition get_registration (job_id : JobId) (e : DispatchError) : MJ JobRegistration :=
  let* r := gets (fun s => s.(stored_job_registration) !! job_id) in
  ok_or r e.

Definition do_advertise (processor : AccountId) (advertisement : Advertisement) : MJ unit :=
  match advertisement.(ad_allowed_consumers) with
  | Some allowed_consumers =>
      let len := Z.of_nat (length allowed_consumers) in
      ensure (0 <? len) (MarketErr TooFewAllowedConsumers);;
      ensure (len <=? MaxAllowedConsumers) (MarketErr TooManyAllowedConsumers)
  | None => ret tt
  end;;
  modify (fun s => set_stored_advertisement_restriction
    (<[processor := {| max_memory := advertisement.(ad_max_memory);
                       network_request_quota := advertisement.(ad_network_request_quota);
                       storage_capacity := advertisement.(ad_storage_capacity);
                       allowed_consumers := advertisement.(ad_allowed_consumers);
                       available_modules := advertisement.(ad_available_modules) |}]>
       s.(stored_advertisement_restriction)) s);;
  modify (fun s => set_stored_advertisement_pricing
    (<[processor := advertisement.(ad_pricing)]> s.(stored_advertisement_pricing)) s);;
  modify (fun s =>
    match s.(stored_reputation) !! processor with
    | None => set_stored_reputation (<[processor := BetaParameters_default]> s.(stored_reputation)) s
    | Some _ => s
    end).

Definition check_report_is_timely (registration : JobRegistration) (assignment : Assignment)
  (now execution_index : Z) : outcome DispatchError unit :=
  match nth_start_time registration.(schedule) assignment.(start_delay) execution_index with
  | None => Err (MarketErr ReportOutsideSchedule)
  | Some execution_start_time =>
      if negb (execution_start_time <=? now) then Err (MarketErr ReportOutsideSchedule)
      else
        let report_max_time :=
          saturating_add u64_max
            (saturating_add u64_max execution_start_time registration.(schedule).(duration))
            ReportTolerance in
        if negb (now <? report_max_time) then Err (MarketErr ReportOutsideSchedule) else Ok tt
  end.

(** [StoredMatches::try_mutate] of a report *)
Definition update_assignment (processor : AccountId) (job_id : JobId) : MJ Assignment :=
  let* a := gets (fun s => s.(stored_matches) !! (processor, job_id)) in
  match a with
  | Some assignment =>
      ensure assignment.(acknowledged) (MarketErr CannotReportWhenNotAcknowledged);;
      ensure (assignment.(sla).(met) <? assignment.(sla).(total)) (MarketErr MoreReportsThanExpected);;
      let assignment' :=
        set_sla (mkSLA assignment.(sla).(total) (wrapping_add u64_max assignment.(sla).(met) 1))
          assignment in
      modify (put_match processor job_id assignment');;
      ret assignment'
  | None => throw (MarketErr ReportFromUnassignedSource)
  end.

Definition do_update_reputation (processor : AccountId) (assignment : Assignment)
  (missing_reports : Z) : MJ unit :=
  let* verified := gets (fun s => is_ok (ensure_source_verified s processor)) in
  if verified && (0 <? assignment.(fee_per_execution)) then
    let* avg := gets stored_average_reward in
    let average_reward := default 0 avg in
    let* p := gets (fun s => s.(stored_reputation) !! processor) in
    let* beta_params := ok_or p (MarketErr ReputationNotFound) in
    let* beta_params' :=
      ok_or (update beta_params assignment.(sla).(met) missing_reports
               assignment.(fee_per_execution) average_reward) (MarketErr CalculationOverflow) in
    modify (fun s => set_stored_reputation (<[processor := beta_params']> s.(stored_reputation)) s)
  else ret tt.

(** Writing an optional entry of [NextReportIndex]. *)
Definition put_next_report_index (job_id : JobId) (processor : AccountId) (o : option Z) (s : State)
  : State :=
  set_next_report_index
    match o with
    | Some i => <[(job_id, processor) := i]> s.(next_report_index)
    | None => delete (job_id, processor) s.(next_report_index)
    end s.

Definition update_next_report_index_on_report (job_id : JobId) (processor : AccountId)
  (registration : JobRegistration) (assignment : Assignment) : MJ (Z * option Z) :=
  let* now := now in
  let* i := current_execution_index registration.(schedule) assignment.(start_delay) now in
  let execution_index := default 0 i in
  let* value := gets (fun s => s.(next_report_index) !! (job_id, processor)) in
  let expected_report_index := default execution_index value in
  ensure (expected_report_index <=? execution_index) (MarketErr ExecutionAlreadyReported);;
  let is_report_timely :=
    is_ok (check_report_is_timely registration assignment now expected_report_index) in
  let* (missing_reports, expected_report_index) :=
    if negb is_report_timely && negb (expected_report_index =? execution_index) then
      match check_report_is_timely registration assignment now execution_index with
      | Ok _ => ret (saturating_sub execution_index expected_report_index, execution_index)
      | Err e => throw e
      | Panic => panic
      end
    else ret (0, expected_report_index) in
  let value' :=
    match assignment.(execution) with
    | All =>
        let next_expected_report_index := wrapping_add u64_max expected_report_index 1 in
        if next_expected_report_index <? assignment.(sla).(total)
        then Some next_expected_report_index else None
    | Index index => if negb (expected_report_index =? index) then Some index else None
    end in
  modify (put_next_report_index job_id processor value');;
  ret (missing_reports, value').

Definition do_report (job_id : JobId) (processor : AccountId) : MJ Assignment :=
  let* assignment := update_assignment processor job_id in
  let* registration := get_registration job_id (AcurastErr JobRegistrationNotFound) in
  let* (missing_reports, next_expected_report_index) :=
    update_next_report_index_on_report job_id processor registration assignment in
  handle_reward job_id assignment.(fee_per_execution);;
  do_update_reputation processor assignment missing_reports;;
  match next_expected_report_index with
  | None =>
      modify (remove_match processor job_id);;
      modify (remove_processor job_id processor)
  | Some _ => ret tt
  end;;
  ret assignment.

Definition do_cleanup_assignment (processor : AccountId) (job_id : JobId) (now : Z) : MJ unit :=
  let* a := gets (fun s => s.(stored_matches) !! (processor, job_id)) in
  match a with
  | None => ret tt
  | Some assignment =>
      let* r := gets (fun s => s.(stored_job_registration) !! job_id) in
      match r with
      | None =>
          modify (remove_match processor job_id);;
          modify (remove_processor job_id processor)
      | Some job =>
          if is_invalid assignment job.(schedule) now ReportTolerance then
            modify (remove_match processor job_id);;
            modify (remove_processor job_id processor)
          else ret tt
      end
  end.

Definition do_cleanup_assignments (processor : AccountId) (job_ids : list JobId) : MJ unit :=
  let* now := now in
  mfor job_ids (fun job_id => do_cleanup_assignment processor job_id now).
End reporting.
