(* ===== verification/Matching.v ===== *)
(** Matching jobs with processors: [pallets/marketplace/src/match_checker.rs] and
    [pallets/marketplace/src/utils.rs]. *)
From S2P Require Import Prelude Schedules Attestations JobTypes Reputation Jobs.
From S2P Require Import Payments Reporting.

Section matching.
Context {X : JobExternals} {C : JobConfig} {A : AllowedApps} {F : FixedOps} {R : RewardManager}.

(** * [utils.rs] *)
Definition is_consumer_allowed (consumer : MultiOrigin) (allowed_consumers : option (list MultiOrigin))
  : bool :=
  match allowed_consumers with
  | Some l => existsb (fun c => bool_decide (c = consumer)) l
  | None => true
  end.
Definition is_processor_allowed (source : AccountId) (allowed_sources : option (list AccountId))
  : bool :=
  match allowed_sources with
  | Some l => existsb (fun a => bool_decide (a = source)) l
  | None => true
  end.

(** * The checks of a proposed source *)

Definition price_for (processor : AccountId) (schedule : Schedule) : MJ Balance :=
  let* settings := gets job_price_settings in
  let price_settings :=
    default {| min_price := DefaultMinPrice; multiplier := DefaultPriceMultiplier |} settings in
  let* x := gets jext in
  let price :=
    default 0 ((fun price => saturating_mul u128_max price schedule.(duration)) <$>
                 price_per_millisecond_for x processor) in
  ret (Z.max (fu_saturating_mul_int price_settings.(multiplier) price) price_settings.(min_price)).

Definition update_average_reward (fee_per_execution : Z) : MJ unit :=
  let* t := gets stored_total_assigned in
  let total_assigned := saturating_add u128_max (default 0 t) 1 in
  modify (set_stored_total_assigned (Some total_assigned));;
  let* a := gets stored_average_reward in
  let average_reward := default 0 a in
  let* total_reward :=
    ok_or (checked_mul u128_max average_reward (total_assigned - 1)) (MarketErr CalculationOverflow) in
  let* new_total_rewards :=
    ok_or (checked_add u128_max total_reward fee_per_execution) (MarketErr CalculationOverflow) in
  let* new_average_reward :=
    ok_or (checked_div new_total_rewards total_assigned) (MarketErr CalculationOverflow) in
  modify (set_stored_average_reward (Some new_average_reward)).

Definition check_network_request_quota_sufficient (ad : AdvertisementRestriction)
  (schedule : Schedule) (network_requests : Z) : MJ unit :=
  ensure (default u64_max (checked_mul u64_max network_requests 1000) <=?
          default 0 (checked_mul u64_max schedule.(duration) ad.(network_request_quota)))
    (MarketErr NetworkRequestQuotaExceededInMatch).

Definition check_min_reputation (min_reputation : option Z) (source : AccountId) : MJ unit :=
  match min_reputation with
  | Some min_reputation =>
      let* p := gets (fun s => s.(stored_reputation) !! source) in
      let* beta_params := ok_or p (MarketErr ReputationNotFound) in
      let* reputation := ok_or (normalize beta_params) (MarketErr CalculationOverflow) in
      ensure (permill_from_parts (wrap_as u32_max min_reputation) <=? reputation)
        (MarketErr InsufficientReputationInMatch)
  | None => ret tt
  end.

Definition check_processor_version (required : option ProcessorVersionRequirements)
  (source : AccountId) : MJ unit :=
  match required with
  | Some (Min versions) =>
      let* x := gets jext in
      match processor_version_of x source with
      | Some version =>
          ensure (existsb (version_ge version) versions) (MarketErr ProcessorVersionMismatch)
      | None => throw (MarketErr ProcessorVersionMismatch)
      end
  | None => ret tt
  end.

Definition check_min_metrics (job_id : JobId) (processor : AccountId) : MJ unit :=
  let* m := gets (fun s => s.(required_min_metrics) !! job_id) in
  match m with
  | None => ret tt
  | Some min_metrics =>
      mfor min_metrics (fun min_metric =>
        let* x := gets jext in
        match last_processor_metric x processor min_metric.(mm_pool_id) with
        | None => throw (MarketErr (ProcessorMinMetricsNotMet min_metric.(mm_pool_id)))
        | Some metric =>
            ensure (min_metric.(mm_value) <=? metric)
              (MarketErr (ProcessorMinMetricsNotMet min_metric.(mm_pool_id)))
        end)
  end.

(** [has_matches] *)
Definition has_matches (s : State) (source : AccountId) : bool :=
  match matches_of s source with [] => false | _ => true end.

(** * Schedules of one processor *)

(** The items the two iterators of [fits_schedule] are mapped to: start and end of
    every execution, [None] when the end overflows. *)
Definition executions (schedule : Schedule) (it : ScheduleIter) : list (option (Z * Z)) :=
  (fun start => e ← checked_add u64_max start schedule.(duration); Some (start, e))
    <$> collect (iter_fuel schedule) it.

(** [<=] on [Option<(u64, u64)>], by which [merge] chooses *)
Definition bounds_le (x y : option (Z * Z)) : Prop :=
  match x, y with
  | None, _ => True
  | Some _, None => False
  | Some (a, b), Some (c, d) => a < c \/ (a = c /\ b <= d)
  end.
#[export] Instance bounds_le_dec x y : Decision (bounds_le x y).
Proof. destruct x as [[]|], y as [[]|]; simpl; apply _. Defined.

(** The [try_fold] over the merged executions: [prev_end] runs along. *)
Definition no_collision (l : list (option (Z * Z))) : MJ Z :=
  mfold l 0 (fun prev_end bounds =>
    let* (start, e) := ok_or bounds (MarketErr CalculationOverflow) in
    if start <? prev_end then throw (MarketErr ScheduleOverlapInMatch) else ret e).

Definition overflow {B} (o : option B) : MJ B := ok_or o (MarketErr CalculationOverflow).

(** One execution of a schedule, as start and end. *)
Definition nth_execution (schedule : Schedule) (start_delay execution_index : Z) : MJ (Z * Z) :=
  let* start := overflow (nth_start_time schedule start_delay execution_index) in
  let* e := overflow (checked_add u64_max start schedule.(duration)) in
  ret (start, e).

(** The comparison with one other assignment of the processor. *)
Definition fits_assignment (execution_specifier : ExecutionSpecifier) (schedule : Schedule)
  (start_delay : Z) (other : Schedule) (assignment : Assignment) : MJ unit :=
  match execution_specifier, assignment.(execution) with
  | All, All =>
      let* it := overflow (iter schedule start_delay) in
      let* other_it := overflow (iter other assignment.(JobTypes.start_delay)) in
      no_collision (list_merge bounds_le (executions schedule it) (executions other other_it));;
      ret tt
  | All, Index other_execution_index =>
      let* (other_start, other_end) :=
        nth_execution other assignment.(JobTypes.start_delay) other_execution_index in
      if overlaps schedule start_delay (other_start, other_end)
      then throw (MarketErr ScheduleOverlapInMatch) else ret tt
  | Index execution_index, All =>
      let* (start, e) := nth_execution schedule start_delay execution_index in
      if overlaps other start_delay (start, e)
      then throw (MarketErr ScheduleOverlapInMatch) else ret tt
  | Index execution_index, Index other_execution_index =>
      let* (start, e) := nth_execution schedule start_delay execution_index in
      let* (other_start, other_end) :=
        nth_execution other assignment.(JobTypes.start_delay) other_execution_index in
      if (other_start <? e) && (start <? other_end)
      then throw (MarketErr ScheduleOverlapInMatch) else ret tt
  end.

Definition fits_schedule (source : AccountId) (execution_specifier : ExecutionSpecifier)
  (schedule : Schedule) (start_delay : Z) : MJ unit :=
  let* now := now in
  let* l := gets (fun s => matches_of s source) in
  mfor l (fun '(job_id, assignment) =>
    let* r := gets (fun s => s.(stored_job_registration) !! job_id) in
    match r with
    | Some other =>
        if is_invalid assignment other.(JobTypes.schedule) now ReportTolerance then ret tt
        else if negb (overlaps schedule start_delay
                        (range other.(JobTypes.schedule) assignment.(JobTypes.start_delay)))
        then ret tt
        else fits_assignment execution_specifier schedule start_delay
               other.(JobTypes.schedule) assignment
    | None => ret tt
    end).

(** The checks that both kinds of matching make for one planned execution, in this
    order; the result is the fee per execution.  [verified] is the attestation
    check, which differs. *)
Definition check_source (verified : State -> AccountId -> outcome AcurastError unit)
  (job_id : JobId) (registration : JobRegistration) (spec : ExecutionSpecifier)
  (planned_execution : PlannedExecution) : MJ Balance :=
  let source := planned_execution.(pe_source) in
  let requirements := registration.(extra) in
  let* v := gets (fun s => is_ok (verified s source)) in
  ensure (negb registration.(allow_only_verified_sources) || v) (MarketErr UnverifiedSourceInMatch);;
  let* a := gets (fun s => s.(stored_advertisement_restriction) !! source) in
  let* ad := ok_or a (MarketErr AdvertisementNotFound) in
  mfor registration.(required_modules) (fun required_module =>
    ensure (contains ad.(available_modules) required_module) (MarketErr ModuleNotAvailableInMatch));;
  check_network_request_quota_sufficient ad registration.(schedule) registration.(network_requests);;
  ensure (is_processor_allowed source registration.(allowed_sources))
    (MarketErr SourceNotAllowedInMatch);;
  ensure (is_consumer_allowed job_id.1 ad.(allowed_consumers)) (MarketErr ConsumerNotAllowedInMatch);;
  check_min_reputation requirements.(min_reputation) source;;
  check_processor_version requirements.(processor_version) source;;
  check_min_metrics job_id source;;
  fits_schedule source spec registration.(schedule) planned_execution.(pe_start_delay);;
  let* fee_per_execution := price_for source registration.(schedule) in
  ensure (fee_per_execution <=? requirements.(reward)) (MarketErr InsufficientRewardInMatch);;
  ret fee_per_execution.

(** [m.sources.len().try_into().unwrap_or(0)] *)
Definition source_count (sources : list PlannedExecution) : Z :=
  let n := Z.of_nat (length sources) in if n <=? u8_max then n else 0.

Definition enumerate {B} (l : list B) : list (nat * B) := imap pair l.

(** * Matching whole jobs *)

Definition put_matcher (job_id : JobId) (matcher : option AccountId) : MJ unit :=
  match matcher with
  | Some m => modify (fun s => set_job_matcher (<[job_id := m]> s.(job_matcher)) s)
  | None => ret tt
  end.

(** The loop body of [process_matching] for one slot *)
Definition match_slot (job_id : JobId) (registration : JobRegistration)
  (matcher : option AccountId) (acc : Balance * Balance) (x : nat * PlannedExecution)
  : MJ (Balance * Balance) :=
  let '(total_fee, total_reward_per_execution) := acc in
  let '(slot, planned_execution) := x in
  let source := planned_execution.(pe_source) in
  let* fee_per_execution :=
    check_source (fun s source => ensure_source_verified_and_of_type s source Core)
      job_id registration All planned_execution in
  let execution_count := execution_count registration.(schedule) in
  let* fees := overflow (checked_mul u128_max fee_per_execution execution_count) in
  let* total_fee := overflow (checked_add u128_max total_fee fees) in
  let* total_reward_per_execution :=
    overflow (checked_add u128_max total_reward_per_execution fee_per_execution) in
  let* prev := gets (fun s => s.(stored_matches) !! (source, job_id)) in
  match prev with
  | Some _ => throw (MarketErr DuplicateSourceInMatch)
  | None =>
      modify (put_match source job_id
        {| slot := wrap_as u8_max (Z.of_nat slot); execution := All;
           start_delay := planned_execution.(pe_start_delay);
           fee_per_execution := fee_per_execution; acknowledged := false;
           sla := mkSLA execution_count 0; pub_keys := [] |})
  end;;
  modify (put_processor job_id source);;
  put_matcher job_id matcher;;
  ret (total_fee, total_reward_per_execution).

(** The loop body of [process_matching] for one job *)
Definition process_match (matcher : option AccountId) (m : Match) : MJ unit :=
  let job_id := m.(m_job_id) in
  let* st := gets (fun s => s.(stored_job_status) !! job_id) in
  let* job_status := ok_or st (MarketErr JobStatusNotFound) in
  if negb (bool_decide (job_status = Open)) then ret tt
  else
    let* registration := get_registration job_id (AcurastErr JobRegistrationNotFound) in
    let requirements := registration.(extra) in
    let* now := now in
    ensure (now <? registration.(schedule).(start_time)) (MarketErr OverdueMatch);;
    ensure (source_count m.(m_sources) =? requirements.(slots))
      (MarketErr IncorrectSourceCountInMatch);;
    let* (_, total_reward_per_execution) :=
      mfold (enumerate m.(m_sources)) (0, 0) (match_slot job_id registration matcher) in
    (if 0 <? total_reward_per_execution then
       let* avarage_fee_per_execution :=
         or_panic (checked_div total_reward_per_execution (Z.of_nat (length m.(m_sources)))) in
       update_average_reward avarage_fee_per_execution
     else ret tt);;
    modify (fun s => set_stored_job_status (<[job_id := Matched]> s.(stored_job_status)) s);;
    deposit_event (JobRegistrationMatchedV2 job_id).

Definition process_matching (matching : list Match) (matcher : option AccountId) : MJ unit :=
  mfor matching (process_match matcher).

(** * Matching single executions *)

Definition execution_status (s : State) (job_id : JobId) (i : Z) : JobStatus :=
  default Open (s.(stored_job_execution_status) !! (job_id, i)).
Definition put_execution_status (job_id : JobId) (i : Z) (st : JobStatus) (s : State) : State :=
  set_stored_job_execution_status (<[(job_id, i) := st]> s.(stored_job_execution_status)) s.

(** The loop of [cleanup_previous_execution_matches]: the processors whose entries
    are to be removed. *)
Definition cleanup_one (job_id : JobId) (index_to_cleanup : Z) (to_remove : list AccountId)
  (processor : AccountId) : MJ (list AccountId) :=
  let* maybe_assignment := gets (fun s => s.(stored_matches) !! (processor, job_id)) in
  match maybe_assignment with
  | Some assignment =>
      match assignment.(execution) with
      | Index index =>
          if index <=? index_to_cleanup then
            modify (remove_match processor job_id);; ret (to_remove ++ [processor])
          else ret to_remove
      | All => ret to_remove
      end
  | None => ret (to_remove ++ [processor])
  end.

Definition cleanup_previous_execution_matches (current_match : ExecutionMatch) : MJ unit :=
  if current_match.(em_execution_index) <? 2 then ret tt
  else
    let job_id := current_match.(em_job_id) in
    let index_to_cleanup := current_match.(em_execution_index) - 2 in
    modify (fun s => set_stored_job_execution_status
      (delete (job_id, index_to_cleanup) s.(stored_job_execution_status)) s);;
    let* processors := gets (fun s => processors_of s job_id) in
    let* to_remove := mfold processors [] (cleanup_one job_id index_to_cleanup) in
    mfor to_remove (fun processor => modify (remove_processor job_id processor)).

(** The assignment that a competing match stores over a previous one. *)
Definition competing_assignment (slot : nat) (start_delay fee_per_execution execution_index : Z)
  (sla : SLA) : Assignment :=
  {| slot := wrap_as u8_max (Z.of_nat slot); execution := Index execution_index;
     start_delay := start_delay; fee_per_execution := fee_per_execution;
     acknowledged := false; sla := sla; pub_keys := [] |}.

(** The loop body of [process_execution_matching] for one slot *)
Definition match_execution_slot (m : ExecutionMatch) (registration : JobRegistration)
  (total_fee : Balance) (x : nat * PlannedExecution) : MJ Balance :=
  let job_id := m.(em_job_id) in
  let '(slot, planned_execution) := x in
  let source := planned_execution.(pe_source) in
  let* fee_per_execution :=
    check_source ensure_source_verified job_id registration (Index m.(em_execution_index))
      planned_execution in
  let* total_fee := overflow (checked_add u128_max total_fee fee_per_execution) in
  let* prev := gets (fun s => s.(stored_matches) !! (source, job_id)) in
  let put sla :=
    modify (put_match source job_id
      (competing_assignment slot planned_execution.(pe_start_delay) fee_per_execution
         m.(em_execution_index) sla)) in
  match prev with
  | Some prev_assignment =>
      ensure (negb (bool_decide (prev_assignment.(execution) = Index m.(em_execution_index))))
        (MarketErr DuplicateSourceInMatch);;
      put (mkSLA (saturating_add u64_max prev_assignment.(sla).(total) 1)
             prev_assignment.(sla).(met))
  | None => put (mkSLA 1 0)
  end;;
  modify (put_processor job_id source);;
  ret total_fee.

(** The loop body of [process_execution_matching] for one execution *)
Definition process_execution_match (matcher : option AccountId) (m : ExecutionMatch) : MJ unit :=
  let job_id := m.(em_job_id) in
  let* st := gets (fun s => execution_status s job_id m.(em_execution_index)) in
  if negb (bool_decide (st = Open)) then ret tt
  else
    let* registration := get_registration job_id (AcurastErr JobRegistrationNotFound) in
    let requirements := registration.(extra) in
    let* now := now in
    let* nth_start_time_lower_bound :=
      ok_or (nth_start_time registration.(schedule) 0 m.(em_execution_index))
        (MarketErr IncorrectExecutionIndex) in
    ensure (now <? nth_start_time_lower_bound) (MarketErr OverdueMatch);;
    ensure (saturating_sub nth_start_time_lower_bound MatchingCompetingDueDelta <=? now)
      (MarketErr UnderdueMatch);;
    ensure (source_count m.(em_sources) =? requirements.(slots))
      (MarketErr IncorrectSourceCountInMatch);;
    cleanup_previous_execution_matches m;;
    let* total_fee :=
      mfold (enumerate m.(em_sources)) 0 (match_execution_slot m registration) in
    (if (m.(em_execution_index) =? 0) && negb (total_fee =? 0) then
       let* avarage_fee_per_execution :=
         ok_or (checked_div total_fee (Z.of_nat (length m.(em_sources))))
           (MarketErr UnexpectedCheckedCalculation) in
       update_average_reward avarage_fee_per_execution
     else ret tt);;
    modify (fun s => set_stored_job_status (<[job_id := Matched]> s.(stored_job_status)) s);;
    modify (put_execution_status job_id m.(em_execution_index) Matched);;
    put_matcher job_id matcher;;
    deposit_event (JobExecutionMatchedV2 job_id).

Definition process_execution_matching (matching : list ExecutionMatch)
  (matcher : option AccountId) : MJ unit :=
  mfor matching (process_execution_match matcher).

(** [total_reward_amount] *)
Definition total_reward_amount (registration : JobRegistration) : MJ Balance :=
  let requirements := registration.(extra) in
  let* per_execution :=
    overflow (checked_mul u128_max requirements.(reward) requirements.(slots)) in
  overflow (checked_mul u128_max per_execution (execution_count registration.(schedule))).

(** * Acknowledging *)

Definition update_assignment_to_acknowledged (processor : AccountId) (job_id : JobId)
  (execution_ : ExecutionSpecifier) (keys : list PubKey) (schedule : Schedule)
  : MJ (bool * Assignment) :=
  let* m := gets (fun s => s.(stored_matches) !! (processor, job_id)) in
  let* assignment := ok_or m (MarketErr CannotAcknowledgeWhenNotMatched) in
  let* now := now in
  let actual_start_time :=
    match execution_ with
    | All => saturating_add u64_max schedule.(start_time) assignment.(start_delay)
    | Index i => default 0 (nth_start_time schedule assignment.(start_delay) i)
    end in
  ensure (negb (actual_start_time <? now)) (MarketErr CannotAcknowledgeAfterStartTime);;
  ensure (bool_decide (assignment.(execution) = execution_))
    (MarketErr CannotAcknowledgeForOtherThanCurrentExecution);;
  let changed := negb assignment.(acknowledged) in
  let assignment' := set_pub_keys keys (set_acknowledged true assignment) in
  modify (put_match processor job_id assignment');;
  ret (changed, assignment').

(** The status after one more acknowledgement. *)
Definition acknowledged_status (status : JobStatus) : MJ JobStatus :=
  match status with
  | Open => throw (MarketErr CannotAcknowledgeWhenNotMatched)
  | Matched => ret (Assigned 1)
  | Assigned count => ret (Assigned (wrapping_add u8_max count 1))
  end.

Definition update_job_status (job_id : JobId) (execution_ : ExecutionSpecifier) : MJ unit :=
  match execution_ with
  | All =>
      let* s := gets (fun s => s.(stored_job_status) !! job_id) in
      let* status := ok_or s (MarketErr JobStatusNotFound) in
      let* status' := acknowledged_status status in
      modify (fun s => set_stored_job_status (<[job_id := status']> s.(stored_job_status)) s)
  | Index execution_index =>
      let* status := gets (fun s => execution_status s job_id execution_index) in
      let* new_status := acknowledged_status status in
      modify (put_execution_status job_id execution_index new_status);;
      modify (fun s => set_stored_job_status (<[job_id := new_status]> s.(stored_job_status)) s)
  end.

Definition update_next_report_index_on_acknowledge (job_id : JobId) (processor : AccountId)
  (assignment : Assignment) (execution_ : ExecutionSpecifier) : MJ unit :=
  match execution_ with
  | All => modify (put_next_report_index job_id processor (Some 0))
  | Index execution_index =>
      let* value := gets (fun s => s.(next_report_index) !! (job_id, processor)) in
      match value with
      | None => modify (put_next_report_index job_id processor (Some execution_index))
      | Some old_value =>
          let* registration := get_registration job_id (AcurastErr JobRegistrationNotFound) in
          let* now := now in
          if negb (is_ok (check_report_is_timely registration assignment now old_value)) then
            do_update_reputation processor assignment 1;;
            modify (put_next_report_index job_id processor (Some execution_index))
          else ret tt
      end
  end.

Definition process_acknowledge_match (who : AccountId) (job_id : JobId)
  (execution_ : ExecutionSpecifier) (keys : list PubKey) : MJ unit :=
  let* job := get_registration job_id (MarketErr JobNotFound) in
  let* (changed, assignment) :=
    update_assignment_to_acknowledged who job_id execution_ keys job.(schedule) in
  if changed then
    update_job_status job_id execution_;;
    update_next_report_index_on_acknowledge job_id who assignment execution_;;
    jext_try (hook_assign_job job_id assignment.(pub_keys)) HookError;;
    let* matcher := gets (fun s => s.(job_matcher) !! job_id) in
    match matcher with
    | Some matcher_account =>
        let requirements := job.(extra) in
        let price_diff := saturating_sub requirements.(reward) assignment.(fee_per_execution) in
        let remaining :=
          match execution_ with
          | All => saturating_mul u128_max price_diff (execution_count job.(schedule))
          | Index _ => price_diff
          end in
        pay_matcher_reward job_id remaining matcher_account
    | None => ret tt
    end;;
    deposit_event (JobRegistrationAssignedV2 job_id who)
  else ret tt.
End matching.
