(* ===== verification/Marketplace.v ===== *)
(** The marketplace as seen from outside: its job hooks
    ([pallets/marketplace/src/hooks.rs]), its calls ([pallets/marketplace/src/lib.rs])
    and, with the calls of the registry, [dispatch]. *)
From S2P Require Import Prelude Schedules Attestations JobTypes Reputation Jobs.
From S2P Require Import Payments Reporting Matching.

Section marketplace.
Context {X : JobExternals} {C : JobConfig} {A : AllowedApps} {F : FixedOps} {R : RewardManager}.

(** * [JobHooks for Pallet<T>] *)

Definition as_u32 (n : Z) : Z := wrap_as u32_max n.

Definition market_register_hook (job_id : JobId) (registration : JobRegistration) : MJ unit :=
  let requirements := registration.(extra) in
  let schedule := registration.(JobTypes.schedule) in
  ensure (0 <? schedule.(duration)) (MarketErr JobRegistrationZeroDuration);;
  let execution_count := execution_count schedule in
  ensure (execution_count <=? MAX_EXECUTIONS_PER_JOB)
    (MarketErr JobRegistrationScheduleExceedsMaximumExecutions);;
  ensure (0 <? execution_count) (MarketErr JobRegistrationScheduleContainsZeroExecutions);;
  ensure (schedule.(duration) <? schedule.(interval))
    (MarketErr JobRegistrationDurationExceedsInterval);;
  let* now := now in
  ensure (now <=? schedule.(start_time)) (MarketErr JobRegistrationStartInPast);;
  ensure (schedule.(start_time) <=? schedule.(end_time)) (MarketErr JobRegistrationEndBeforeStart);;
  ensure (0 <? requirements.(slots)) (MarketErr JobRegistrationZeroSlots);;
  ensure (requirements.(slots) <=? MaxSlots) (MarketErr TooManySlots);;
  let* st := gets (fun s => s.(stored_job_status) !! job_id) in
  match st with
  | Some job_status =>
      ensure (bool_decide (job_status = Open)) (MarketErr JobRegistrationUnmodifiable)
  | None => modify (fun s => set_stored_job_status (<[job_id := Open]> s.(stored_job_status)) s)
  end;;
  match requirements.(assignment_strategy) with
  | Single instant_match =>
      match instant_match with
      | Some sources => process_matching [{| m_job_id := job_id; m_sources := sources |}] None
      | None => ret tt
      end
  | Competing =>
      ensure ((execution_count <=? 1) || (MatchingCompetingMinInterval <=? schedule.(interval)))
        (MarketErr JobRegistrationIntervalBelowMinimum)
  end;;
  let* total := total_reward_amount registration in
  lock_reward job_id total.

Definition remove_job_status (job_id : JobId) : MJ unit :=
  modify (fun s => set_stored_job_status (delete job_id s.(stored_job_status)) s).
Definition clear_execution_status (job_id : JobId) (limit : Z) : MJ unit :=
  modify (fun s => set_stored_job_execution_status
                     (clear_prefix job_id limit s.(stored_job_execution_status)) s).

(** [finalize_job(job_id, refund(job_id)?)?] *)
Definition finalize (job_id : JobId) : MJ unit :=
  let* r := refund job_id in
  jext_try (hook_finalize_job job_id r) HookError.

(** [for (p, _) in drain_prefix(job_id) { StoredMatches::remove(p, job_id) }] *)
Definition drain_matches (job_id : JobId) : MJ unit :=
  let* l := gets (fun s => processors_of s job_id) in
  mfor l (fun p =>
    modify (remove_processor job_id p);;
    modify (remove_match p job_id)).

(** The loop body of [deregister_hook] for an assigned job *)
Definition settle_processor (job_id : JobId) (registration : JobRegistration) (now : Z)
  (processor : AccountId) : MJ unit :=
  modify (remove_processor job_id processor);;
  let* assignment := gets (fun s => s.(stored_matches) !! (processor, job_id)) in
  modify (remove_match processor job_id);;
  match assignment with
  | Some assignment =>
      let pay :=
        if assignment.(acknowledged) then handle_reward job_id assignment.(fee_per_execution)
        else ret tt in
      match assignment.(execution) with
      | Index index =>
          let* next_execution_index :=
            next_execution_index registration.(schedule) assignment.(start_delay) now in
          if negb (index =? next_execution_index) then ret tt else pay
      | All => pay
      end
  | None => ret tt
  end.

Definition market_deregister_hook (job_id : JobId) : MJ unit :=
  let* st := gets (fun s => s.(stored_job_status) !! job_id) in
  let* job_status := ok_or st (MarketErr JobStatusNotFound) in
  let* registration := get_registration job_id (AcurastErr JobRegistrationNotFound) in
  modify (fun s => set_job_key_ids (delete job_id s.(job_key_ids)) s);;
  match job_status with
  | Open =>
      finalize job_id;;
      remove_job_status job_id;;
      clear_execution_status job_id (as_u32 (execution_count registration.(schedule)))
  | Matched =>
      finalize job_id;;
      drain_matches job_id;;
      remove_job_status job_id;;
      clear_execution_status job_id (as_u32 (execution_count registration.(schedule)))
  | Assigned _ =>
      let* now := now in
      let* l := gets (fun s => processors_of s job_id) in
      mfor l (settle_processor job_id registration now);;
      finalize job_id;;
      remove_job_status job_id;;
      clear_execution_status job_id 10;;
      modify (fun s => set_next_report_index (clear_prefix job_id MaxSlots s.(next_report_index)) s);;
      modify (fun s => set_job_matcher (delete job_id s.(job_matcher)) s)
  end.

Definition market_update_allowed_sources_hook (who : AccountId) (job_id : JobId)
  (updates : list (ListUpdate AccountId)) : MJ unit :=
  let* st := gets (fun s => s.(stored_job_status) !! job_id) in
  let* job_status := ok_or st (MarketErr JobStatusNotFound) in
  let* registration := get_registration job_id (AcurastErr JobRegistrationNotFound) in
  match registration.(extra).(assignment_strategy) with
  | Single _ => ensure (bool_decide (job_status = Open)) (MarketErr JobRegistrationUnmodifiable)
  | Competing => ret tt
  end.

#[export] Instance market_hooks : JobHooks := {|
  register_hook := market_register_hook;
  deregister_hook := market_deregister_hook;
  update_allowed_sources_hook := market_update_allowed_sources_hook;
|}.

(** * Calls *)

Definition advertise (origin : RuntimeOrigin) (advertisement : Advertisement) : MJ unit :=
  let* who := ensure_signed origin in
  do_advertise who advertisement;;
  deposit_event (AdvertisementStoredV2 who).

Definition delete_advertisement (origin : RuntimeOrigin) : MJ unit :=
  let* who := ensure_signed origin in
  let* a := gets (fun s => s.(stored_advertisement_restriction) !! who) in
  let* _ := ok_or a (MarketErr AdvertisementNotFound) in
  let* b := gets (fun s => has_matches s who) in
  ensure (negb b) (MarketErr CannotDeleteAdvertisementWhileMatched);;
  modify (fun s => set_stored_advertisement_pricing (delete who s.(stored_advertisement_pricing)) s);;
  modify (fun s => set_stored_advertisement_restriction
                     (delete who s.(stored_advertisement_restriction)) s);;
  deposit_event (AdvertisementRemoved who).

Definition propose_matching (origin : RuntimeOrigin) (matches : list Match) : MJ unit :=
  let* who := ensure_signed origin in
  process_matching matches (Some who).

Definition propose_execution_matching (origin : RuntimeOrigin) (matches : list ExecutionMatch)
  : MJ unit :=
  let* who := ensure_signed origin in
  process_execution_matching matches (Some who).

Definition acknowledge_match (origin : RuntimeOrigin) (job_id : JobId) (keys : list PubKey)
  : MJ unit :=
  let* who := ensure_signed origin in
  process_acknowledge_match who job_id All keys.

Definition acknowledge_execution_match (origin : RuntimeOrigin) (job_id : JobId)
  (execution_index : Z) (keys : list PubKey) : MJ unit :=
  let* who := ensure_signed origin in
  process_acknowledge_match who job_id (Index execution_index) keys.

Definition report (origin : RuntimeOrigin) (job_id : JobId) (execution_result : ExecutionResult)
  : MJ unit :=
  let* who := ensure_signed origin in
  let* _ := do_report job_id who in
  match execution_result with
  | Success operation_hash => deposit_event (ExecutionSuccess job_id operation_hash)
  | Failure message => deposit_event (ExecutionFailure job_id message)
  end;;
  deposit_event (ReportedV2 job_id who).

Definition finalize_job (origin : RuntimeOrigin) (job_id : JobId) : MJ unit :=
  let* who := ensure_signed origin in
  let* now := now in
  do_cleanup_assignment who job_id now;;
  deposit_event (JobFinalized job_id).

(** Deprecated: does nothing. *)
Definition finalize_jobs (origin : RuntimeOrigin) (job_ids : list JobIdSequence) : MJ unit :=
  let* _ := ensure_signed origin in
  ret tt.

Definition cleanup_storage (origin : RuntimeOrigin) (job_id : JobId) (max_iterations : Z) : MJ unit :=
  ensure (OperatorOrigin origin) BadOrigin;;
  let* maybe_job := gets (fun s => s.(stored_job_registration) !! job_id) in
  match maybe_job with
  | None =>
      if 0 <? max_iterations then
        let* l := gets (fun s => processors_of s job_id) in
        mfor (take (Z.to_nat max_iterations) l) (fun processor =>
          modify (remove_processor job_id processor);;
          modify (remove_match processor job_id))
      else ret tt
  | Some _ => ret tt
  end.

Definition cleanup_assignments (origin : RuntimeOrigin) (job_ids : list JobId) : MJ unit :=
  let* who := ensure_signed origin in
  do_cleanup_assignments who job_ids;;
  deposit_event (ProcessorAssignmentsCleanedUp who job_ids).

Definition cleanup_assignments_for (origin : RuntimeOrigin) (processor : AccountId)
  (job_ids : list JobId) : MJ unit :=
  let* _ := ensure_signed origin in
  do_cleanup_assignments processor job_ids;;
  deposit_event (ProcessorAssignmentsCleanedUp processor job_ids).

(** [.map(|job| job.schedule.is_expired(..)).unwrap_or(true)] *)
Definition job_is_expired (s : State) (job_id : JobId) (now : Z) : bool :=
  match s.(stored_job_registration) !! job_id with
  | Some job => is_expired job.(schedule) now ReportTolerance
  | None => true
  end.

Definition cleanup_job_assignments (origin : RuntimeOrigin) (job_id : JobId) : MJ unit :=
  let* _ := ensure_signed origin in
  let* now := now in
  let* expired := gets (fun s => job_is_expired s job_id now) in
  if expired then
    drain_matches job_id;;
    deposit_event (JobAssignmentsCleanedUp job_id)
  else ret tt.

Definition cleanup_job_matcher (origin : RuntimeOrigin) (job_id : JobId) : MJ unit :=
  let* _ := ensure_signed origin in
  let* now := now in
  let* expired := gets (fun s => job_is_expired s job_id now) in
  if expired then
    modify (fun s => set_job_matcher (delete job_id s.(job_matcher)) s);;
    deposit_event (JobMatcherEntryCleanedUp job_id)
  else ret tt.

Definition update_min_fee_per_millisecond (origin : RuntimeOrigin) (new_min_fee : Balance)
  : MJ unit :=
  ensure (UpdateOrigin origin) BadOrigin;;
  modify (set_min_fee_per_millisecond new_min_fee);;
  deposit_event (MinFeePerMillisecondUpdated new_min_fee).

Definition update_price_settings (origin : RuntimeOrigin) (price_settings : option PriceSettings)
  : MJ unit :=
  ensure (UpdateOrigin origin) BadOrigin;;
  modify (set_job_price_settings price_settings);;
  deposit_event PriceSettingsUpdated.

(** * Deployments: jobs that share a set of keys *)

Definition transfer_key_id (original_deployment_hash updated_deployment_hash : H256) : MJ H256 :=
  let* id_ := gets (fun s => s.(deployment_key_ids) !! original_deployment_hash) in
  match id_ with
  | Some key_id =>
      modify (fun s => set_deployment_key_ids
                         (delete original_deployment_hash s.(deployment_key_ids)) s);;
      modify (fun s => set_deployment_key_ids
                         (<[updated_deployment_hash := key_id]> s.(deployment_key_ids)) s);;
      ret key_id
  | None => throw (MarketErr CannotReuseKeysFrom)
  end.

(** The branch of [deploy] for an immutable script *)
Definition deploy_immutable (deployment_hash : H256) (reuse_keys_from : option JobId) : MJ unit :=
  match reuse_keys_from with
  | Some original_job_id =>
      let* h := gets (fun s => s.(deployment_hashes) !! original_job_id) in
      match h with
      | Some original_deployment_hash =>
          ensure (original_deployment_hash =? deployment_hash) (MarketErr ImmutableJobCannotBeEdited)
      | None => ret tt
      end;;
      let* e := gets (fun s => s.(editors) !! original_job_id) in
      ensure (bool_decide (e = None)) (MarketErr MutableJobCannotBeMadeImmutable)
  | None => ret tt
  end.

(** The editor and the key id of a mutable deployment *)
Definition derive_editor_and_key (who : AccountId) (job_id : JobId) (deployment_hash : H256)
  (editor_ : option AccountId) (reuse_keys_from : option JobId) : MJ (AccountId * H256) :=
  match reuse_keys_from with
  | Some original_job_id =>
      ensure (bool_decide (original_job_id.1 = job_id.1)) (MarketErr OnlyOwnerCanExtendJob);;
      let* e := gets (fun s => s.(editors) !! original_job_id) in
      let* original_job_editor := ok_or e (MarketErr ImmutableJobCannotBeEdited) in
      let* derived_editor :=
        match editor_ with
        | Some editor =>
            ensure (bool_decide (job_id.1 = Acurast original_job_editor)
                    || (original_job_editor =? editor))
              (MarketErr OnlyEditorCanTransferEditor);;
            ret editor
        | None => ret original_job_editor
        end in
      let* h := gets (fun s => s.(deployment_hashes) !! original_job_id) in
      let* original_deployment_hash := ok_or h (MarketErr JobForKeyReuseNotFound) in
      ensure (bool_decide (job_id.1 = Acurast original_job_editor)
              || (original_deployment_hash =? deployment_hash))
        (MarketErr OnlyEditorCanEditScript);;
      let* key_id := transfer_key_id original_deployment_hash deployment_hash in
      ret (derived_editor, key_id)
  | None => ret (default who editor_, key_id_hash_of job_id)
  end.

Definition deploy (origin : RuntimeOrigin) (registration : JobRegistration)
  (mutability : ScriptMutability) (reuse_keys_from : option JobId)
  (min_metrics : option (list MetricInput)) : MJ unit :=
  let* who := ensure_signed origin in
  let* id := next_job_id in
  let job_id := (Acurast who, id) in
  let deployment_hash := deployment_hash_of job_id.1 registration.(script) in
  match mutability with
  | Immutable => deploy_immutable deployment_hash reuse_keys_from
  | Mutable editor_ =>
      let* (derived_editor, key_id) :=
        derive_editor_and_key who job_id deployment_hash editor_ reuse_keys_from in
      modify (fun s => set_editors (<[job_id := derived_editor]> s.(editors)) s);;
      modify (fun s => set_deployment_key_ids
                         (<[deployment_hash := key_id]> s.(deployment_key_ids)) s);;
      modify (fun s => set_job_key_ids (<[job_id := key_id]> s.(job_key_ids)) s)
  end;;
  modify (fun s => set_deployment_hashes (<[job_id := deployment_hash]> s.(deployment_hashes)) s);;
  register_for job_id registration min_metrics.

Definition edit_script (origin : RuntimeOrigin) (job_id : JobId) (script_ : Script) : MJ unit :=
  let* who := ensure_signed origin in
  let* e := gets (fun s => s.(editors) !! job_id) in
  let* editor := ok_or e (MarketErr ImmutableJobCannotBeEdited) in
  ensure (editor =? who) (MarketErr OnlyEditorCanTransferEditor);;
  ensure (is_valid_script script_) (MarketErr InvalidScript);;
  let* registration := get_registration job_id (MarketErr JobNotFound) in
  modify (fun s => set_stored_job_registration
    (<[job_id := set_script script_ registration]> s.(stored_job_registration)) s);;
  let original_deployment_hash := deployment_hash_of job_id.1 registration.(script) in
  let updated_deployment_hash := deployment_hash_of job_id.1 script_ in
  let* _ := transfer_key_id original_deployment_hash updated_deployment_hash in
  modify (fun s => set_deployment_hashes
                     (<[job_id := updated_deployment_hash]> s.(deployment_hashes)) s);;
  deposit_event (JobScriptEdited job_id).

Definition transfer_editor (origin : RuntimeOrigin) (job_id : JobId) (new_editor : option AccountId)
  : MJ unit :=
  let* who := ensure_signed origin in
  let* e := gets (fun s => s.(editors) !! job_id) in
  let* editor := ok_or e (MarketErr ImmutableJobCannotBeEdited) in
  ensure (editor =? who) (MarketErr OnlyEditorCanEditScript);;
  match new_editor with
  | Some e =>
      modify (fun s => set_editors (<[job_id := e]> s.(editors)) s);;
      deposit_event (EditorTransferred job_id e)
  | None =>
      modify (fun s => set_editors (delete job_id s.(editors)) s);;
      deposit_event (JobBecameImmutable job_id)
  end.

(** * All the calls of the two pallets *)
Inductive Call :=
| Register (registration : JobRegistration)
| RegisterWithMinMetrics (registration : JobRegistration) (min_metrics : list MetricInput)
| Deregister (local_job_id : JobIdSequence)
| UpdateAllowedSources (local_job_id : JobIdSequence) (updates : list (ListUpdate AccountId))
| UpdateCertificateRevocationList (updates : list (ListUpdate SerialNumber))
| SetEnvironment (job_id_seq : JobIdSequence) (source : AccountId) (environment : Environment)
| SetEnvironments (job_id_seq : JobIdSequence) (environments : list (AccountId * Environment))
| Advertise (advertisement : Advertisement)
| DeleteAdvertisement
| ProposeMatching (matches : list Match)
| ProposeExecutionMatching (matches : list ExecutionMatch)
| AcknowledgeMatch (job_id : JobId) (keys : list PubKey)
| AcknowledgeExecutionMatch (job_id : JobId) (execution_index : Z) (keys : list PubKey)
| Report (job_id : JobId) (execution_result : ExecutionResult)
| FinalizeJob (job_id : JobId)
| FinalizeJobs (job_ids : list JobIdSequence)
| CleanupStorage (job_id : JobId) (max_iterations : Z)
| CleanupAssignments (job_ids : list JobId)
| CleanupAssignmentsFor (processor : AccountId) (job_ids : list JobId)
| CleanupJobAssignments (job_id : JobId)
| CleanupJobMatcher (job_id : JobId)
| UpdateMinFeePerMillisecond (new_min_fee : Balance)
| UpdatePriceSettings (price_settings : option PriceSettings)
| Deploy (registration : JobRegistration) (mutability : ScriptMutability)
    (reuse_keys_from : option JobId) (min_metrics : option (list MetricInput))
| EditScript (job_id : JobId) (script_ : Script)
| TransferEditor (job_id : JobId) (new_editor : option AccountId).

Definition run_call (origin : RuntimeOrigin) (c : Call) : MJ unit :=
  match c with
  | Register r => register origin r
  | RegisterWithMinMetrics r m => register_with_min_metrics origin r m
  | Deregister id => deregister origin id
  | UpdateAllowedSources id u => update_allowed_sources origin id u
  | UpdateCertificateRevocationList u => update_certificate_revocation_list origin u
  | SetEnvironment id a e => set_environment origin id a e
  | SetEnvironments id l => set_environments origin id l
  | Advertise a => advertise origin a
  | DeleteAdvertisement => delete_advertisement origin
  | ProposeMatching l => propose_matching origin l
  | ProposeExecutionMatching l => propose_execution_matching origin l
  | AcknowledgeMatch j k => acknowledge_match origin j k
  | AcknowledgeExecutionMatch j i k => acknowledge_execution_match origin j i k
  | Report j r => report origin j r
  | FinalizeJob j => finalize_job origin j
  | FinalizeJobs l => finalize_jobs origin l
  | CleanupStorage j n => cleanup_storage origin j n
  | CleanupAssignments l => cleanup_assignments origin l
  | CleanupAssignmentsFor p l => cleanup_assignments_for origin p l
  | CleanupJobAssignments j => cleanup_job_assignments origin j
  | CleanupJobMatcher j => cleanup_job_matcher origin j
  | UpdateMinFeePerMillisecond b => update_min_fee_per_millisecond origin b
  | UpdatePriceSettings p => update_price_settings origin p
  | Deploy r m k l => deploy origin r m k l
  | EditScript j sc => edit_script origin j sc
  | TransferEditor j e => transfer_editor origin j e
  end.

(** [IsFundableCall]: the calls whose fee the network may pay for *)
Definition is_fundable_call (c : Call) : bool :=
  match c with
  | Advertise _ | AcknowledgeMatch _ _ | AcknowledgeExecutionMatch _ _ _
  | Report _ _ | CleanupAssignments _ => true
  | _ => false
  end.

(** What other pallets call: jobs of a foreign chain, whose origin hyperdrive has
    authenticated. *)
Inductive JobMessage :=
| RegisterFor (job_id : JobId) (registration : JobRegistration)
    (min_metrics : option (list MetricInput))
| DeregisterFor (job_id : JobId)
| SetEnvironmentFor (job_id : JobId) (environments : list (AccountId * Environment)).

Definition run_message (m : JobMessage) : MJ unit :=
  match m with
  | RegisterFor j r l => register_for j r l
  | DeregisterFor j => deregister_for j
  | SetEnvironmentFor j l => set_environment_for j l
  end.

(** Every call and every message runs in a transaction. *)
Definition dispatch (origin : RuntimeOrigin) (c : Call) : MJ unit :=
  with_transaction (run_call origin c).
Definition dispatch_message (m : JobMessage) : MJ unit := with_transaction (run_message m).
End marketplace.
