(* ===== verification/JobFrames.v ===== *)
(** What the operations of the job pallets leave alone, and the laws that a
    [RewardManager] has to keep for the marketplace to work with it. *)
From S2P Require Import Prelude Schedules Attestations JobTypes Reputation Jobs.
From S2P Require Import Payments Reporting Matching Marketplace.

Section frames.
Context {X : JobExternals} {C : JobConfig} {A : AllowedApps} {F : FixedOps}.

(** The registry and the matches: what the invariants of [JobInvariant.v] are about. *)
Definition jview (s : State) :=
  (s.(stored_job_registration), s.(stored_job_status), s.(stored_matches),
   s.(assigned_processors), s.(job_price_settings)).

(** Identity of jobs: numbering, scripts, editors and keys. *)
Definition idview (s : State) :=
  (s.(stored_job_registration), s.(local_job_id_sequence), s.(editors), s.(job_key_ids)).

(** All of the storage but the budgets and the state of other pallets. *)
Definition storage_view (s : State) :=
  (jview s, idview s, s.(stored_job_execution_status), s.(next_report_index),
   s.(stored_reputation), s.(stored_attestation), s.(stored_revoked_certificate), s.(events)).

(** A reward manager touches the budgets and the currency, nothing else. *)
Class RewardFrames (R : RewardManager) : Prop := {
  rf_lock j b : framed storage_view (lock_reward j b);
  rf_handle j b : framed storage_view (handle_reward j b);
  rf_matcher j b m : framed storage_view (pay_matcher_reward j b m);
  rf_refund j : framed storage_view (refund j);
}.

Lemma sv_jext_try f e : framed storage_view (jext_try f e).
Proof. unfold jext_try. solve_framed. Qed.
Lemma sv_transfer a b n : framed storage_view (transfer_preserve a b n).
Proof. apply sv_jext_try. Qed.
Lemma sv_reserve j b : framed storage_view (reserve j b).
Proof. unfold reserve, write_budget. solve_framed. Qed.
Lemma sv_unreserve j b : framed storage_view (unreserve j b).
Proof. unfold unreserve, write_budget. solve_framed. Qed.
Lemma sv_unreserve_remaining j : framed storage_view (unreserve_remaining j).
Proof. unfold unreserve_remaining, write_budget. solve_framed. Qed.
Hint Resolve sv_jext_try sv_transfer sv_reserve sv_unreserve sv_unreserve_remaining : framed.

#[export] Instance asset_reward_frames : RewardFrames AssetRewardManager.
Proof.
  split; intros; simpl.
  - unfold arm_lock_reward. solve_framed.
  - unfold arm_handle_reward, jext_modify. solve_framed.
  - unfold arm_pay_matcher_reward. solve_framed.
  - unfold arm_refund. solve_framed.
Qed.
#[export] Instance no_reward_frames : RewardFrames no_rewards.
Proof. split; intros; simpl; solve_framed. Qed.
End frames.

#[export] Hint Resolve rf_lock rf_handle rf_matcher rf_refund sv_jext_try : framed.

(** Projections of a frame *)
Lemma framed_jview `{JobExternals} {B} (m : MJ B) : framed storage_view m -> framed jview m.
Proof. intros Hm. exact (framed_weaken storage_view (fun v => v.1.1.1.1.1.1.1) m Hm). Qed.
Lemma framed_idview `{JobExternals} {B} (m : MJ B) : framed storage_view m -> framed idview m.
Proof. intros Hm. exact (framed_weaken storage_view (fun v => v.1.1.1.1.1.1.2) m Hm). Qed.
#[export] Hint Extern 2 (framed jview (lock_reward _ _)) => apply framed_jview, rf_lock : framed.
#[export] Hint Extern 2 (framed jview (handle_reward _ _)) => apply framed_jview, rf_handle : framed.
#[export] Hint Extern 2 (framed jview (pay_matcher_reward _ _ _)) => apply framed_jview, rf_matcher : framed.
#[export] Hint Extern 2 (framed jview (refund _)) => apply framed_jview, rf_refund : framed.
#[export] Hint Extern 2 (framed jview (jext_try _ _)) => apply framed_jview, sv_jext_try : framed.
#[export] Hint Extern 2 (framed idview (lock_reward _ _)) => apply framed_idview, rf_lock : framed.
#[export] Hint Extern 2 (framed idview (handle_reward _ _)) => apply framed_idview, rf_handle : framed.
#[export] Hint Extern 2 (framed idview (pay_matcher_reward _ _ _)) => apply framed_idview, rf_matcher : framed.
#[export] Hint Extern 2 (framed idview (refund _)) => apply framed_idview, rf_refund : framed.
#[export] Hint Extern 2 (framed idview (jext_try _ _)) => apply framed_idview, sv_jext_try : framed.

(** ** Code that only reads

    The checks of a match and the clock leave the whole state as it is. *)
Section readonly.
Context {X : JobExternals} {C : JobConfig} {A : AllowedApps} {F : FixedOps}.

Notation readonly m := (framed (fun s : State => s) m).

Lemma framed_readonly {T B} (f : State -> T) (m : MJ B) : readonly m -> framed f m.
Proof. intros Hm. exact (framed_weaken (fun s => s) f m Hm). Qed.

Lemma readonly_ok {B} (m : MJ B) b s s' : readonly m -> m s = (Ok b, s') -> s' = s.
Proof. intros Hm. apply Hm. Qed.

Lemma bind_readonly_ok {B D} (m : MJ B) (k : B -> MJ D) d s s' :
  readonly m -> bind m k s = (Ok d, s') -> exists b, m s = (Ok b, s) /\ k b s = (Ok d, s').
Proof.
  intros Hm (b & s1 & Hb & Hk)%bind_ok. pose proof (readonly_ok _ _ _ _ Hm Hb) as ->. by exists b.
Qed.

Lemma ro_now : readonly now.
Proof. unfold now. solve_framed. Qed.
Lemma ro_get_registration j e : readonly (get_registration j e).
Proof. unfold get_registration. solve_framed. Qed.
Lemma ro_overflow {B} (o : option B) : readonly (overflow o).
Proof. unfold overflow. solve_framed. Qed.
Lemma ro_price_for p sch : readonly (price_for p sch).
Proof. unfold price_for. solve_framed. Qed.
Lemma ro_current_index sch d t : readonly (current_execution_index sch d t : MJ _).
Proof. unfold current_execution_index. solve_framed. Qed.
Hint Resolve ro_now ro_get_registration ro_overflow ro_price_for ro_current_index : framed.
Lemma ro_next_index sch d t : readonly (next_execution_index sch d t : MJ _).
Proof. unfold next_execution_index. solve_framed. Qed.
Lemma ro_nth_execution sch d i : readonly (nth_execution sch d i).
Proof. unfold nth_execution. solve_framed. Qed.
Lemma ro_no_collision l : readonly (no_collision l).
Proof. unfold no_collision. solve_framed. Qed.
Hint Resolve ro_next_index ro_nth_execution ro_no_collision : framed.
Lemma ro_fits_assignment e sch d o a : readonly (fits_assignment e sch d o a).
Proof. unfold fits_assignment. solve_framed. Qed.
Hint Resolve ro_fits_assignment : framed.
Lemma ro_fits_schedule src e sch d : readonly (fits_schedule src e sch d).
Proof. unfold fits_schedule. solve_framed. Qed.
Lemma ro_check_min_reputation r src : readonly (check_min_reputation r src).
Proof. unfold check_min_reputation. solve_framed. Qed.
Lemma ro_check_processor_version r src : readonly (check_processor_version r src).
Proof. unfold check_processor_version. solve_framed. Qed.
Lemma ro_check_min_metrics j p : readonly (check_min_metrics j p).
Proof. unfold check_min_metrics. solve_framed. Qed.
Lemma ro_check_quota ad sch n : readonly (check_network_request_quota_sufficient ad sch n).
Proof. unfold check_network_request_quota_sufficient. solve_framed. Qed.
Hint Resolve ro_fits_schedule ro_check_min_reputation ro_check_processor_version
  ro_check_min_metrics ro_check_quota : framed.
Lemma ro_check_source v j r e p : readonly (check_source v j r e p).
Proof. unfold check_source. solve_framed. Qed.
Lemma ro_total_reward_amount r : readonly (total_reward_amount r).
Proof. unfold total_reward_amount. solve_framed. Qed.
Lemma ro_acknowledged_status st : readonly (acknowledged_status st).
Proof. unfold acknowledged_status. solve_framed. Qed.
Lemma ro_job_origin o : readonly (ensure_signed o).
Proof. unfold ensure_signed. solve_framed. Qed.
End readonly.
#[export] Hint Resolve ro_now ro_get_registration ro_overflow ro_price_for ro_current_index
  ro_next_index ro_check_source ro_total_reward_amount ro_acknowledged_status ro_job_origin
  ro_fits_schedule ro_check_min_reputation ro_check_processor_version ro_check_min_metrics
  ro_check_quota : readonly.
#[export] Hint Extern 3 (framed _ _) => apply framed_readonly; solve [eauto 1 with readonly nocore] : framed.

(** Removes a read-only step from a successful run. *)
(** Go past a read at the head of a successful run [H], naming what it returned. *)
Tactic Notation "skip_read" hyp(H) "as" simple_intropattern(x) :=
  apply bind_readonly_ok in H as (x & _ & H); [|solve [eauto 1 with readonly nocore]].
Ltac readonly_in H :=
  let E := fresh in
  pose proof H as E; apply readonly_ok in E; [subst|solve [eauto 1 with readonly nocore]].

Section both.
Context {X : JobExternals} {C : JobConfig} {A : AllowedApps} {F : FixedOps}.
Context {R : RewardManager} {RF : RewardFrames R}.

Lemma jv_deposit e : framed jview (deposit_event e).
Proof. unfold deposit_event. solve_framed. Qed.
Lemma id_deposit e : framed idview (deposit_event e).
Proof. unfold deposit_event. solve_framed. Qed.
Hint Resolve jv_deposit id_deposit : framed.

Lemma jv_update_average_reward n : framed jview (update_average_reward n).
Proof. unfold update_average_reward. solve_framed. Qed.
Lemma jv_do_update_reputation p a n : framed jview (do_update_reputation p a n).
Proof. unfold do_update_reputation. solve_framed. Qed.
Lemma jv_put_matcher j m : framed jview (put_matcher j m).
Proof. unfold put_matcher. solve_framed. Qed.
Lemma jv_update_next_report_index j p r a :
  framed jview (update_next_report_index_on_report j p r a).
Proof. unfold update_next_report_index_on_report, put_next_report_index. solve_framed. Qed.
Lemma jv_clear_execution_status j n : framed jview (clear_execution_status j n).
Proof. unfold clear_execution_status. solve_framed. Qed.
Lemma jv_clear_environment j : framed jview (clear_environment_for j).
Proof. unfold clear_environment_for. solve_framed. Qed.
Lemma jv_do_advertise p a : framed jview (do_advertise p a).
Proof.
  unfold do_advertise. framed_step; [solve_framed|]. do 2 (framed_step; [solve_framed|]).
  apply framed_modify. intros s. by destruct (stored_reputation s !! p).
Qed.
Lemma jv_finalize j : framed jview (finalize j).
Proof. unfold finalize. solve_framed. Qed.
Lemma jv_next_job_id : framed jview next_job_id.
Proof. unfold next_job_id. solve_framed. Qed.
Lemma jv_transfer_key_id a b : framed jview (transfer_key_id a b).
Proof. unfold transfer_key_id. solve_framed. Qed.
Lemma jv_set_environment_for j l : framed jview (set_environment_for j l).
Proof. unfold set_environment_for. solve_framed. Qed.
End both.
#[export] Hint Resolve jv_deposit id_deposit jv_update_average_reward jv_do_update_reputation
  jv_put_matcher jv_update_next_report_index jv_clear_execution_status jv_clear_environment
  jv_do_advertise jv_finalize jv_next_job_id jv_transfer_key_id jv_set_environment_for : framed.

(** A transaction keeps what its body keeps when it succeeds. *)
Lemma transaction_pres `{JobExternals} (I : State -> Prop) (m : MJ unit) s :
  (forall s', m s = (Ok tt, s') -> I s') -> I s -> I (exec (with_transaction m) s).
Proof.
  intros Hm Hi. unfold exec, with_transaction. destruct (m s) as [[[]| |] s'] eqn:E; simpl; auto.
Qed.
