(* ===== verification/JobInvariant.v ===== *)
(** The storage of the marketplace stays consistent: the reverse index of the
    matches, the registry and the job statuses agree, and what is stored with a
    match (fee, SLA) is within what the job offers. *)
From S2P Require Import Prelude Schedules Attestations JobTypes Reputation Jobs.
From S2P Require Import Payments Reporting Matching Marketplace JobFrames.

(** * The invariant *)

(** A registration as [register_hook] accepts it; the bounds of the types included. *)
Record registration_ok (r : JobRegistration) : Prop := {
  ro_schedule : registrable r.(schedule);
  ro_reward : 0 <= r.(extra).(reward) <= u128_max;
  ro_slots : 0 < r.(extra).(slots);
}.

(** A match never costs more per execution than the consumer offers, and no more
    reports are counted than are expected. *)
Record match_ok (r : JobRegistration) (a : Assignment) : Prop := {
  mo_fee : 0 <= a.(fee_per_execution) <= r.(extra).(reward);
  mo_sla : 0 <= a.(sla).(met) <= a.(sla).(total) /\ a.(sla).(total) <= u64_max;
}.

Section invariant.
Context {X : JobExternals}.

(** [o] exempts the job that an operation is in the middle of changing. *)
Record jobs_inv (o : option JobId) (s : State) : Prop := {
  ji_index src j :
    is_Some (s.(stored_matches) !! (src, j)) <-> is_Some (s.(assigned_processors) !! (j, src));
  ji_match src j a :
    s.(stored_matches) !! (src, j) = Some a ->
    exists r, s.(stored_job_registration) !! j = Some r /\ match_ok r a;
  ji_open src j a :
    s.(stored_matches) !! (src, j) = Some a ->
    o = Some j \/ s.(stored_job_status) !! j <> Some Open;
  ji_status j :
    o = Some j \/
    (is_Some (s.(stored_job_status) !! j) <-> is_Some (s.(stored_job_registration) !! j));
  ji_registration j r :
    s.(stored_job_registration) !! j = Some r -> registration_ok r;
  ji_price p : s.(job_price_settings) = Some p -> 0 <= p.(min_price);
}.

Lemma jobs_inv_view o s s' : jview s' = jview s -> jobs_inv o s -> jobs_inv o s'.
Proof.
  unfold jview. intros Hv [I1 I2 I3 I4 I5 I6]. injection Hv as E1 E2 E3 E4 E5.
  split; intros *; rewrite ?E1, ?E2, ?E3, ?E4, ?E5; eauto.
Qed.

Lemma jobs_inv_framed {B} o (m : MJ B) b s s' :
  framed jview m -> m s = (Ok b, s') -> jobs_inv o s -> jobs_inv o s'.
Proof. intros Hf Hm. apply jobs_inv_view. exact (Hf _ _ _ Hm). Qed.

Lemma jobs_inv_weaken o s : jobs_inv None s -> jobs_inv o s.
Proof.
  intros [I1 I2 I3 I4 I5 I6]. split; eauto.
  - intros src j a Hm. destruct (I3 _ _ _ Hm); [done|by right].
  - intros j. destruct (I4 j); [done|by right].
Qed.

(** ** Adding and removing matches *)
Lemma jobs_inv_put o s src j a r :
  jobs_inv o s -> s.(stored_job_registration) !! j = Some r -> match_ok r a ->
  o = Some j \/ s.(stored_job_status) !! j <> Some Open ->
  jobs_inv o (put_processor j src (put_match src j a s)).
Proof.
  intros [I1 I2 I3 I4 I5 I6] Hr Hok Ho. split; simpl; eauto.
  - intros src' j'. destruct (decide ((src, j) = (src', j'))) as [[=<- <-]|Hne].
    + rewrite !lookup_insert_eq. done.
    + rewrite !lookup_insert_ne by congruence. apply I1.
  - intros src' j' a' [[[=<- <-] <-]|[Hne Hm]]%lookup_insert_Some; eauto.
  - intros src' j' a' [[[=<- <-] <-]|[Hne Hm]]%lookup_insert_Some; eauto.
Qed.

(** Replacing a stored match by one that is as good. *)
Lemma jobs_inv_update o s src j a a' :
  jobs_inv o s -> s.(stored_matches) !! (src, j) = Some a ->
  a'.(fee_per_execution) = a.(fee_per_execution) ->
  0 <= a'.(sla).(met) <= a'.(sla).(total) /\ a'.(sla).(total) <= u64_max ->
  jobs_inv o (put_match src j a' s).
Proof.
  intros [I1 I2 I3 I4 I5 I6] Hm Hfee Hsla. split; simpl; eauto.
  - intros src' j'. rewrite <-I1. destruct (decide ((src, j) = (src', j'))) as [[=<- <-]|Hne].
    + rewrite lookup_insert_eq, Hm. split; intros _; eexists; done.
    + by rewrite lookup_insert_ne.
  - intros src' j' b [[[=<- <-] <-]|[Hne Hb]]%lookup_insert_Some; [|by eauto].
    destruct (I2 _ _ _ Hm) as (r & Hr & [Hf Hs]). exists r. split; [done|].
    split; [by rewrite Hfee|done].
  - intros src' j' b [[[=<- <-] <-]|[Hne Hb]]%lookup_insert_Some; eauto.
Qed.

Lemma jobs_inv_remove o s src j :
  jobs_inv o s -> jobs_inv o (remove_processor j src (remove_match src j s)).
Proof.
  intros [I1 I2 I3 I4 I5 I6]. split; simpl; eauto.
  - intros src' j'. destruct (decide ((src, j) = (src', j'))) as [[=<- <-]|Hne].
    + rewrite !lookup_delete_eq. done.
    + rewrite !lookup_delete_ne by congruence. apply I1.
  - intros src' j' a [_ Hm]%lookup_delete_Some. eauto.
  - intros src' j' a [_ Hm]%lookup_delete_Some. eauto.
Qed.
Lemma jobs_inv_remove' o s src j :
  jobs_inv o s -> jobs_inv o (remove_match src j (remove_processor j src s)).
Proof. intros Hi. by apply (jobs_inv_remove o s src j) in Hi. Qed.

(** ** Statuses *)
Lemma jobs_inv_status o s j st :
  jobs_inv o s -> o = None \/ o = Some j ->
  is_Some (s.(stored_job_registration) !! j) ->
  (st = Open -> forall src, s.(stored_matches) !! (src, j) = None) ->
  jobs_inv None (set_stored_job_status (<[j := st]> s.(stored_job_status)) s).
Proof.
  intros [I1 I2 I3 I4 I5 I6] Ho Hr Hopen. split; simpl; eauto.
  - intros src j' a Hm. right. destruct (decide (j = j')) as [<-|Hne].
    + rewrite lookup_insert_eq. intros [=->]. by rewrite Hopen in Hm.
    + rewrite lookup_insert_ne by done. destruct (I3 _ _ _ Hm); [|done].
      destruct Ho; congruence.
  - intros j'. right. destruct (decide (j = j')) as [<-|Hne].
    + rewrite lookup_insert_eq. naive_solver.
    + rewrite lookup_insert_ne by done. destruct (I4 j'); [|done]. destruct Ho; congruence.
Qed.

(** A job without status has no registration, hence no match; nor has an open one. *)
Lemma no_matches_unless_matched s j src :
  jobs_inv None s ->
  s.(stored_job_status) !! j = None \/ s.(stored_job_status) !! j = Some Open ->
  s.(stored_matches) !! (src, j) = None.
Proof.
  intros [I1 I2 I3 I4 I5 I6] Hst. destruct (s.(stored_matches) !! (src, j)) as [a|] eqn:Hm; [|done].
  destruct (I2 _ _ _ Hm) as (r & Hr & _). destruct (I3 _ _ _ Hm) as [|Hno]; [done|].
  destruct (I4 j) as [|Hiff]; [done|]. destruct Hst as [Hst|Hst]; [|done].
  rewrite Hst, Hr in Hiff. destruct Hiff as [_ Hiff]. by destruct Hiff.
Qed.
End invariant.

(** * Operations *)
Section operations.
Context {X : JobExternals} {C : JobConfig} {A : AllowedApps} {F : FixedOps}.
Context {R : RewardManager} {RF : RewardFrames R}.
Context (min_price_u128 : 0 <= DefaultMinPrice).

Lemma price_nonneg o p sch s b s' :
  jobs_inv o s -> price_for p sch s = (Ok b, s') -> 0 <= b.
Proof.
  intros Hi Hp. pose proof (ji_price _ _ Hi) as Hs. unfold price_for in Hp.
  apply bind_ok in Hp as (st & s1 & [Hst _]%gets_ok & Hp). rewrite Hst in Hs.
  apply bind_ok in Hp as (x & s2 & _ & [<- _]%ret_ok).
  destruct st as [ps|]; simpl; [specialize (Hs ps eq_refl)|]; lia.
Qed.

Lemma pres_readonly {B} (I : State -> Prop) (m : MJ B) :
  framed (fun s => s) m -> pres I (fun _ => True) m.
Proof. intros Hf s r s' Hs Hm. rewrite (Hf _ _ _ Hm). by destruct r. Qed.

Lemma check_source_pres o v j r e p :
  pres (jobs_inv o) (fun b => 0 <= b <= r.(extra).(reward)) (check_source v j r e p).
Proof.
  unfold check_source.
  repeat match goal with
  | |- pres _ _ (bind (price_for _ _) _) => fail 1
  | |- pres _ _ (bind _ _) =>
      eapply pres_bind; [apply pres_readonly; solve_framed|intros ? _]
  end.
  intros s res s' Hs Hm.
  match type of Hm with ?m _ = _ => assert (readonly_m : framed (fun s => s) m) by solve_framed end.
  pose proof (readonly_m _ _ _ Hm) as ->. destruct res as [b| |].
  - apply bind_ok in Hm as (b' & s1 & Hp & Hm).
    pose proof (price_nonneg _ _ _ _ _ _ Hs Hp). apply readonly_ok in Hp as ->; [|apply ro_price_for].
    apply bind_ok in Hm as ([] & s2 & [Hle%Z.leb_le <-]%ensure_ok & [<- <-]%ret_ok).
    split; [done|lia].
  - by split.
  - by split.
Qed.

Lemma check_source_fee o v j r e p s b s' :
  jobs_inv o s -> check_source v j r e p s = (Ok b, s') ->
  s' = s /\ 0 <= b <= r.(extra).(reward).
Proof.
  intros Hi Hc. destruct (check_source_pres o v j r e p _ _ _ Hi Hc) as [_ Hb].
  split; [|done]. eapply readonly_ok; [|exact Hc]. apply ro_check_source.
Qed.

(** ** Matching whole jobs *)
Definition matching_inv (j : JobId) (r : JobRegistration) (s : State) : Prop :=
  jobs_inv (Some j) s /\ s.(stored_job_registration) !! j = Some r.

Lemma matching_inv_framed {B} j r (m : MJ B) b s s' :
  framed jview m -> m s = (Ok b, s') -> matching_inv j r s -> matching_inv j r s'.
Proof.
  intros Hf Hm [Hi Hr]. split; [by eapply jobs_inv_framed|].
  pose proof (Hf _ _ _ Hm) as Hv. unfold jview in Hv. injection Hv as E _ _ _ _. by rewrite E.
Qed.

Lemma matching_inv_put j r s src a :
  matching_inv j r s -> match_ok r a -> matching_inv j r (put_processor j src (put_match src j a s)).
Proof. intros [Hi Hr] Ha. split; [|done]. eapply jobs_inv_put; eauto. Qed.

Lemma match_slot_inv j r matcher acc x s acc' s' :
  matching_inv j r s -> match_slot j r matcher acc x s = (Ok acc', s') -> matching_inv j r s'.
Proof.
  intros Hi Hm. destruct acc as [tf tr], x as [slot pe]. unfold match_slot in Hm.
  apply bind_ok in Hm as (fee & s1 & Hc & Hm).
  destruct (check_source_fee _ _ _ _ _ _ _ _ _ (proj1 Hi) Hc) as [-> Hfee].
  apply bind_ok in Hm as (fees & s2 & Ho & Hm). apply readonly_ok in Ho as ->; [|apply ro_overflow].
  apply bind_ok in Hm as (tf' & s3 & Ho & Hm). apply readonly_ok in Ho as ->; [|apply ro_overflow].
  apply bind_ok in Hm as (tr' & s4 & Ho & Hm). apply readonly_ok in Ho as ->; [|apply ro_overflow].
  apply bind_ok in Hm as (prev & s5 & [Hp <-]%gets_ok & Hm).
  apply bind_ok in Hm as ([] & s6 & H6 & Hm).
  apply bind_ok in Hm as ([] & s7 & <-%modify_ok & Hm).
  apply bind_ok in Hm as ([] & s8 & Hpm & [_ <-]%ret_ok).
  destruct prev; [by apply throw_ok in H6|]. apply modify_ok in H6 as <-.
  eapply matching_inv_framed; [apply jv_put_matcher|exact Hpm|].
  apply matching_inv_put; [done|].
  pose proof (ji_registration _ _ (proj1 Hi) _ _ (proj2 Hi)) as [Hsc _ _].
  pose proof (execution_count_range _ Hsc). split; simpl; lia.
Qed.

Lemma process_match_inv matcher m s u s' :
  jobs_inv None s -> process_match matcher m s = (Ok u, s') -> jobs_inv None s'.
Proof.
  intros Hi Hm. unfold process_match in Hm.
  apply bind_ok in Hm as (st & s1 & [Hst <-]%gets_ok & Hm).
  apply bind_ok in Hm as (job_status & s1 & [-> <-]%ok_or_ok & Hm).
  destruct (negb _) eqn:Hopen; [by apply ret_ok in Hm as [_ <-]|].
  apply bind_ok in Hm as (r & s1 & Hr & Hm). unfold get_registration in Hr.
  apply bind_ok in Hr as (o & s2 & [Hreg <-]%gets_ok & [-> <-]%ok_or_ok).
  skip_read Hm as now.
  apply bind_ok in Hm as ([] & s1 & [_ <-]%ensure_ok & Hm).
  apply bind_ok in Hm as ([] & s1 & [_ <-]%ensure_ok & Hm).
  apply bind_ok in Hm as ([tf tr] & s1 & Hl & Hm).
  assert (matching_inv (m_job_id m) r s1) as H1.
  { eapply (mfold_ok (fun _ => matching_inv (m_job_id m) r)); [|by split; [apply jobs_inv_weaken|]|exact Hl].
    intros *. intros _. apply match_slot_inv. }
  apply bind_ok in Hm as ([] & s2 & Ha & Hm).
  assert (matching_inv (m_job_id m) r s2) as [H2 Hr2].
  { eapply matching_inv_framed; [|exact Ha|exact H1]. solve_framed. }
  apply bind_ok in Hm as ([] & s3 & <-%modify_ok & Hd).
  eapply jobs_inv_framed; [apply jv_deposit|exact Hd|].
  eapply jobs_inv_status; [exact H2|by right|by eexists|done].
Qed.

Lemma process_matching_inv l matcher s u s' :
  jobs_inv None s -> process_matching l matcher s = (Ok u, s') -> jobs_inv None s'.
Proof.
  intros Hi Hm. eapply (mfor_ok (jobs_inv None)); [|exact Hi|exact Hm].
  intros x t v t' _. apply process_match_inv.
Qed.

(** ** Matching executions *)
(** The matches of job [j] with the processors of [l] removed, then their entries in
    the reverse index: the two loops of the cleanup. *)
Definition drop_matches (j : JobId) (l : list AccountId) (s : State) : State :=
  fold_left (fun s p => remove_match p j s) l s.
Definition drop_processors (j : JobId) (l : list AccountId) (s : State) : State :=
  fold_left (fun s p => remove_processor j p s) l s.

Lemma drop_matches_lookup j l s src j' :
  (drop_matches j l s).(stored_matches) !! (src, j')
  = if bool_decide (j' = j /\ src ∈ l) then None else s.(stored_matches) !! (src, j').
Proof.
  revert s. induction l as [|p l IH]; intros s; simpl.
  - rewrite bool_decide_eq_false_2; [done|]. intros [_ ?%not_elem_of_nil]. done.
  - rewrite IH. simpl. destruct (decide ((src, j') = (p, j))) as [[= -> ->]|Hne].
    + rewrite lookup_delete_eq, (bool_decide_eq_true_2 (j = j /\ p ∈ p :: l)) by (split; [done|by left]).
      by case_bool_decide.
    + rewrite lookup_delete_ne by congruence.
      rewrite (bool_decide_ext (j' = j /\ src ∈ p :: l) (j' = j /\ src ∈ l)); [done|].
      rewrite elem_of_cons. naive_solver.
Qed.

Lemma drop_processors_lookup j l s src j' :
  (drop_processors j l s).(assigned_processors) !! (j', src)
  = if bool_decide (j' = j /\ src ∈ l) then None else s.(assigned_processors) !! (j', src).
Proof.
  revert s. induction l as [|p l IH]; intros s; simpl.
  - rewrite bool_decide_eq_false_2; [done|]. intros [_ ?%not_elem_of_nil]. done.
  - rewrite IH. simpl. destruct (decide ((src, j') = (p, j))) as [[= -> ->]|Hne].
    + rewrite lookup_delete_eq, (bool_decide_eq_true_2 (j = j /\ p ∈ p :: l)) by (split; [done|by left]).
      by case_bool_decide.
    + rewrite lookup_delete_ne by congruence.
      rewrite (bool_decide_ext (j' = j /\ src ∈ p :: l) (j' = j /\ src ∈ l)); [done|].
      rewrite elem_of_cons. naive_solver.
Qed.

(** Neither loop touches anything else of the view. *)
Lemma drop_matches_rest j l s :
  exists m, drop_matches j l s = set_stored_matches m s.
Proof.
  revert s. induction l as [|p l IH]; intros s; simpl.
  - exists (stored_matches s). by destruct s.
  - destruct (IH (remove_match p j s)) as [m ->]. by exists m.
Qed.
Lemma drop_processors_rest j l s :
  exists m, drop_processors j l s = set_assigned_processors m s.
Proof.
  revert s. induction l as [|p l IH]; intros s; simpl.
  - exists (assigned_processors s). by destruct s.
  - destruct (IH (remove_processor j p s)) as [m ->]. by exists m.
Qed.

Lemma jobs_inv_drop o j l s :
  jobs_inv o s -> jobs_inv o (drop_processors j l (drop_matches j l s)).
Proof.
  intros [I1 I2 I3 I4 I5 I6].
  pose proof (drop_matches_lookup j l s) as Hm.
  pose proof (drop_processors_lookup j l (drop_matches j l s)) as Hp.
  destruct (drop_processors_rest j l (drop_matches j l s)) as [mp Ep].
  destruct (drop_matches_rest j l s) as [mm Em]. rewrite Em in Ep, Hm, Hp. rewrite Em, Ep in *.
  simpl in *. clear Em Ep. split; simpl; eauto.
  - intros src j'. rewrite Hm, Hp. case_bool_decide; [done|apply I1].
  - intros src j' a. rewrite Hm. case_bool_decide; [done|apply I2].
  - intros src j' a. rewrite Hm. case_bool_decide; [done|apply I3].
Qed.

Lemma cleanup_one_ok j i l p s l' s' :
  cleanup_one j i l p s = (Ok l', s') ->
  (s' = s /\ l' = l) \/ (jview s' = jview (remove_match p j s) /\ l' = l ++ [p]).
Proof.
  unfold cleanup_one. intros Hm.
  apply bind_ok in Hm as (a & s1 & [<- <-]%gets_ok & Hm).
  destruct (stored_matches s !! (p, j)) as [a|] eqn:E.
  - destruct (execution a) as [|ix]; [apply ret_ok in Hm as [<- <-]; auto|].
    destruct (ix <=? i).
    + apply bind_ok in Hm as ([] & s1 & <-%modify_ok & [<- <-]%ret_ok). auto.
    + apply ret_ok in Hm as [<- <-]. auto.
  - apply ret_ok in Hm as [<- <-]. right. split; [|done].
    unfold jview, remove_match. simpl. by rewrite delete_id.
Qed.

Lemma mfor_modify {B} (f : B -> State -> State) l s u s' :
  mfor l (fun x => modify (f x) : MJ unit) s = (Ok u, s') -> s' = fold_left (fun s x => f x s) l s.
Proof.
  revert s. induction l as [|x l IH]; intros s Hm; simpl in *.
  - by apply ret_ok in Hm as [_ ->].
  - apply bind_ok in Hm as ([] & s1 & <-%modify_ok & Hm). by apply IH.
Qed.

Lemma jview_drop_processors j l s s' :
  jview s = jview s' -> jview (drop_processors j l s) = jview (drop_processors j l s').
Proof.
  revert s s'. induction l as [|p l IH]; intros s s' Hv; simpl; [done|]. apply IH.
  unfold jview in *. injection Hv as E1 E2 E3 E4 E5. simpl. congruence.
Qed.

Lemma cleanup_previous_inv j r m s u s' :
  matching_inv j r s -> cleanup_previous_execution_matches m s = (Ok u, s') -> matching_inv j r s'.
Proof.
  intros Hi Hm. unfold cleanup_previous_execution_matches in Hm.
  destruct (_ <? 2); [by apply ret_ok in Hm as [_ <-]|].
  apply bind_ok in Hm as ([] & s1 & Hd & Hm).
  assert (matching_inv j r s1) as H1.
  { eapply matching_inv_framed; [|exact Hd|exact Hi]. solve_framed. }
  apply bind_ok in Hm as (ps & s2 & [_ <-]%gets_ok & Hm).
  apply bind_ok in Hm as (l & s2 & Hl & Hm).
  assert (jview s2 = jview (drop_matches (em_job_id m) l s1)) as Hv.
  { eapply (mfold_ok (fun l s => jview s = jview (drop_matches (em_job_id m) l s1)));
      [|reflexivity|exact Hl].
    intros b x t b' t' _ Ht Hc.
    destruct (cleanup_one_ok _ _ _ _ _ _ _ Hc) as [[-> ->]|[Hv ->]]; [done|].
    unfold drop_matches. rewrite fold_left_app. simpl. fold (drop_matches (em_job_id m) b s1).
    rewrite Hv. unfold jview in *. injection Ht as E1 E2 E3 E4 E5. simpl. congruence. }
  apply mfor_modify in Hm. fold (drop_processors (em_job_id m) l s2) in Hm.
  assert (jview s' = jview (drop_processors (em_job_id m) l (drop_matches (em_job_id m) l s1))) as Hv'.
  { rewrite Hm. by apply jview_drop_processors. }
  destruct H1 as [H1 Hr]. split.
  - eapply jobs_inv_view; [exact Hv'|]. by apply jobs_inv_drop.
  - unfold jview in Hv'. injection Hv' as -> _ _ _ _.
    destruct (drop_processors_rest (em_job_id m) l (drop_matches (em_job_id m) l s1)) as [mp ->].
    destruct (drop_matches_rest (em_job_id m) l s1) as [mm ->]. done.
Qed.

Lemma match_execution_slot_inv m r acc x s acc' s' :
  matching_inv m.(em_job_id) r s -> match_execution_slot m r acc x s = (Ok acc', s') ->
  matching_inv m.(em_job_id) r s'.
Proof.
  intros Hi Hm. destruct x as [slot pe]. unfold match_execution_slot in Hm.
  apply bind_ok in Hm as (fee & s1 & Hc & Hm).
  destruct (check_source_fee _ _ _ _ _ _ _ _ _ (proj1 Hi) Hc) as [-> Hfee].
  apply bind_ok in Hm as (tf & s2 & Ho & Hm). apply readonly_ok in Ho as ->; [|apply ro_overflow].
  apply bind_ok in Hm as (prev & s5 & [Hp <-]%gets_ok & Hm).
  apply bind_ok in Hm as ([] & s6 & H6 & Hm).
  apply bind_ok in Hm as ([] & s7 & <-%modify_ok & [_ <-]%ret_ok).
  destruct prev as [pa|].
  - apply bind_ok in H6 as ([] & s7 & [_ <-]%ensure_ok & <-%modify_ok).
    apply matching_inv_put; [done|]. destruct (ji_match _ _ (proj1 Hi) _ _ _ Hp) as (r' & _ & [_ Hs]).
    split; simpl; [lia|]. unfold saturating_add. lia.
  - apply modify_ok in H6 as <-. apply matching_inv_put; [done|].
    split; simpl; [lia|]. unfold u64_max. lia.
Qed.

Lemma process_execution_match_inv matcher m s u s' :
  jobs_inv None s -> process_execution_match matcher m s = (Ok u, s') -> jobs_inv None s'.
Proof.
  intros Hi Hm. unfold process_execution_match in Hm.
  apply bind_ok in Hm as (st & s1 & [Hst <-]%gets_ok & Hm).
  destruct (negb _); [by apply ret_ok in Hm as [_ <-]|].
  apply bind_ok in Hm as (r & s1 & Hr & Hm). unfold get_registration in Hr.
  apply bind_ok in Hr as (o & s2 & [Hreg <-]%gets_ok & [-> <-]%ok_or_ok).
  skip_read Hm as now.
  apply bind_ok in Hm as (lb & s1 & [_ <-]%ok_or_ok & Hm).
  do 3 apply bind_ok in Hm as ([] & ? & [_ <-]%ensure_ok & Hm).
  apply bind_ok in Hm as ([] & s1 & Hcl & Hm).
  assert (matching_inv (em_job_id m) r s1) as H1.
  { eapply cleanup_previous_inv; [|exact Hcl]. by split; [apply jobs_inv_weaken|]. }
  apply bind_ok in Hm as (tf & s2 & Hl & Hm).
  assert (matching_inv (em_job_id m) r s2) as H2.
  { eapply (mfold_ok (fun _ => matching_inv (em_job_id m) r)); [|exact H1|exact Hl].
    intros *. intros _. apply match_execution_slot_inv. }
  apply bind_ok in Hm as ([] & s3 & Ha & Hm).
  assert (matching_inv (em_job_id m) r s3) as [H3 Hr3].
  { eapply matching_inv_framed; [|exact Ha|exact H2]. solve_framed. }
  apply bind_ok in Hm as ([] & s4 & <-%modify_ok & Hd).
  eapply jobs_inv_framed; [|exact Hd|].
  { unfold put_execution_status. solve_framed. }
  eapply jobs_inv_status; [exact H3|by right|by eexists|done].
Qed.

Lemma process_execution_matching_inv l matcher s u s' :
  jobs_inv None s -> process_execution_matching l matcher s = (Ok u, s') -> jobs_inv None s'.
Proof.
  intros Hi Hm. eapply (mfor_ok (jobs_inv None)); [|exact Hi|exact Hm].
  intros x t v t' _. apply process_execution_match_inv.
Qed.

(** ** Acknowledging and reporting *)
Lemma acknowledged_status_ok st s st' s' :
  acknowledged_status st s = (Ok st', s') -> s' = s /\ st' <> Open.
Proof.
  intros Hm. split; [eapply readonly_ok; [apply ro_acknowledged_status|exact Hm]|].
  destruct st; simpl in Hm; [by apply throw_ok in Hm|..]; by apply ret_ok in Hm as [<- _].
Qed.

Lemma update_assignment_to_acknowledged_inv p j e k sch s b a s' :
  jobs_inv None s -> update_assignment_to_acknowledged p j e k sch s = (Ok (b, a), s') ->
  jobs_inv None s' /\ s'.(stored_matches) !! (p, j) = Some a.
Proof.
  intros Hi Hm. unfold update_assignment_to_acknowledged in Hm.
  apply bind_ok in Hm as (o & s1 & [Ho <-]%gets_ok & Hm).
  apply bind_ok in Hm as (a0 & s1 & [-> <-]%ok_or_ok & Hm).
  skip_read Hm as now.
  do 2 apply bind_ok in Hm as ([] & ? & [_ <-]%ensure_ok & Hm).
  apply bind_ok in Hm as ([] & s1 & <-%modify_ok & [[= _ <-] <-]%ret_ok). split.
  - eapply jobs_inv_update; [done|exact Ho|done|].
    destruct (ji_match _ _ Hi _ _ _ Ho) as (r & _ & [_ Hs]). exact Hs.
  - simpl. by rewrite lookup_insert_eq.
Qed.

Lemma update_job_status_inv j e s u s' :
  jobs_inv None s -> is_Some (s.(stored_job_registration) !! j) ->
  update_job_status j e s = (Ok u, s') -> jobs_inv None s'.
Proof.
  intros Hi Hr Hm. unfold update_job_status in Hm. destruct e.
  - apply bind_ok in Hm as (o & s1 & [_ <-]%gets_ok & Hm).
    apply bind_ok in Hm as (st & s1 & [_ <-]%ok_or_ok & Hm).
    apply bind_ok in Hm as (st' & s1 & [-> Hst]%acknowledged_status_ok & <-%modify_ok).
    eapply jobs_inv_status; [done|by left|done|done].
  - apply bind_ok in Hm as (o & s1 & [_ <-]%gets_ok & Hm).
    apply bind_ok in Hm as (st' & s1 & [-> Hst]%acknowledged_status_ok & Hm).
    apply bind_ok in Hm as ([] & s1 & <-%modify_ok & <-%modify_ok).
    eapply jobs_inv_status; [|by left|done|done].
    eapply jobs_inv_view; [|exact Hi]. done.
Qed.

Lemma process_acknowledge_match_inv who j e k s u s' :
  jobs_inv None s -> process_acknowledge_match who j e k s = (Ok u, s') -> jobs_inv None s'.
Proof.
  intros Hi Hm. unfold process_acknowledge_match in Hm.
  apply bind_ok in Hm as (job & s1 & Hr & Hm). unfold get_registration in Hr.
  apply bind_ok in Hr as (o & s2 & [Hreg <-]%gets_ok & [-> <-]%ok_or_ok).
  apply bind_ok in Hm as ([ch a] & s1 & Hu & Hm).
  pose proof Hu as Hu'. apply update_assignment_to_acknowledged_inv in Hu' as [H1 Ha]; [|done].
  destruct ch; [|by apply ret_ok in Hm as [_ <-]].
  apply bind_ok in Hm as ([] & s2 & Hst & Hm).
  apply update_job_status_inv in Hst; [|done|].
  2:{ destruct (ji_match _ _ H1 _ _ _ Ha) as (r & Hr & _). by eexists. }
  eapply jobs_inv_framed; [|exact Hm|exact Hst].
  unfold update_next_report_index_on_acknowledge, put_next_report_index. solve_framed.
Qed.

Lemma update_assignment_inv p j s a s' :
  jobs_inv None s -> update_assignment p j s = (Ok a, s') -> jobs_inv None s'.
Proof.
  intros Hi Hm. unfold update_assignment in Hm.
  apply bind_ok in Hm as (o & s1 & [Ho <-]%gets_ok & Hm).
  destruct o as [a0|]; [|by apply throw_ok in Hm].
  apply bind_ok in Hm as ([] & s1 & [_ <-]%ensure_ok & Hm).
  apply bind_ok in Hm as ([] & s1 & [Hlt%Z.ltb_lt <-]%ensure_ok & Hm).
  apply bind_ok in Hm as ([] & s1 & <-%modify_ok & [_ <-]%ret_ok).
  eapply jobs_inv_update; [done|exact Ho|done|].
  destruct (ji_match _ _ Hi _ _ _ Ho) as (r & _ & [_ Hs]). simpl.
  unfold wrapping_add. rewrite Z.mod_small by lia. lia.
Qed.

Lemma do_report_inv j p s a s' :
  jobs_inv None s -> do_report j p s = (Ok a, s') -> jobs_inv None s'.
Proof.
  intros Hi Hm. unfold do_report in Hm.
  apply bind_ok in Hm as (a0 & s1 & Hu & Hm). apply update_assignment_inv in Hu; [|done].
  apply bind_ok in Hm as (r & s2 & Hr & Hm). apply readonly_ok in Hr as ->; [|apply ro_get_registration].
  apply bind_ok in Hm as ([missing nxt] & s2 & Hn & Hm).
  pose proof (jobs_inv_framed None _ _ _ _ (jv_update_next_report_index _ _ _ _) Hn Hu) as H2.
  apply bind_ok in Hm as ([] & s3 & Hh & Hm).
  pose proof (jobs_inv_framed None _ _ _ _ (framed_jview _ (rf_handle _ _)) Hh H2) as H3.
  apply bind_ok in Hm as ([] & s4 & Hp & Hm).
  pose proof (jobs_inv_framed None _ _ _ _ (jv_do_update_reputation _ _ _) Hp H3) as H4.
  apply bind_ok in Hm as ([] & s5 & Hc & [_ <-]%ret_ok).
  destruct nxt; [by apply ret_ok in Hc as [_ <-]|].
  apply bind_ok in Hc as ([] & s6 & <-%modify_ok & <-%modify_ok). by apply jobs_inv_remove.
Qed.

Lemma do_cleanup_assignment_inv p j t s u s' :
  jobs_inv None s -> do_cleanup_assignment p j t s = (Ok u, s') -> jobs_inv None s'.
Proof.
  intros Hi Hm. unfold do_cleanup_assignment in Hm.
  apply bind_ok in Hm as (o & s1 & [_ <-]%gets_ok & Hm).
  destruct o as [a|]; [|by apply ret_ok in Hm as [_ <-]].
  apply bind_ok in Hm as (r & s1 & [_ <-]%gets_ok & Hm).
  destruct r as [job|]; [destruct (is_invalid _ _ _ _)|].
  all: try by apply ret_ok in Hm as [_ <-].
  all: apply bind_ok in Hm as ([] & s2 & <-%modify_ok & <-%modify_ok); by apply jobs_inv_remove.
Qed.

Lemma do_cleanup_assignments_inv p l s u s' :
  jobs_inv None s -> do_cleanup_assignments p l s = (Ok u, s') -> jobs_inv None s'.
Proof.
  intros Hi Hm. unfold do_cleanup_assignments in Hm.
  skip_read Hm as t.
  eapply (mfor_ok (jobs_inv None)); [|exact Hi|exact Hm].
  intros x t1 v t' _ Ht Hk. exact (do_cleanup_assignment_inv _ _ _ _ _ _ Ht Hk).
Qed.

(** Loops that remove the entries of a list of processors *)
Lemma drain_loop_inv o j l s u s' :
  jobs_inv o s ->
  mfor l (fun p => modify (remove_processor j p);; modify (remove_match p j) : MJ unit) s = (Ok u, s') ->
  jobs_inv o s'.
Proof.
  intros Hi Hm. eapply (mfor_ok (jobs_inv o)); [|exact Hi|exact Hm].
  intros p t v t' _ Ht Hk. apply bind_ok in Hk as ([] & s2 & <-%modify_ok & <-%modify_ok).
  by apply jobs_inv_remove'.
Qed.

Lemma drain_matches_inv o j s u s' :
  jobs_inv o s -> drain_matches j s = (Ok u, s') -> jobs_inv o s'.
Proof.
  intros Hi Hm. unfold drain_matches in Hm.
  apply bind_ok in Hm as (l & s1 & [_ <-]%gets_ok & Hm). by eapply drain_loop_inv.
Qed.

(** ** Deregistering *)
Lemma elem_of_prefix_entries {K1 K2 B} `{Countable K1, Countable K2} (key : K2 -> Z) (k : K1)
  (m : gmap (K1 * K2) B) x b :
  (x, b) ∈ prefix_entries key k m <-> m !! (k, x) = Some b.
Proof.
  unfold prefix_entries. rewrite (merge_sort_Permutation _). rewrite list_elem_of_omap. split.
  - intros ([[k1 k2] c] & Hin & Hc). case_decide; simplify_eq. by apply elem_of_map_to_list in Hin.
  - intros Hm. exists ((k, x), b). rewrite decide_True by done. split; [|done].
    by apply elem_of_map_to_list.
Qed.

Lemma elem_of_processors_of s j p :
  p ∈ processors_of s j <-> is_Some (s.(assigned_processors) !! (j, p)).
Proof.
  unfold processors_of. rewrite list_elem_of_fmap. split.
  - intros ([p' u] & -> & Hin). simpl. apply elem_of_prefix_entries in Hin. by eexists.
  - intros [u Hu]. exists (p, u). split; [done|]. by apply elem_of_prefix_entries.
Qed.

(** What every pass of a loop over the processors of job [j] does: it removes the
    entries of one processor, and adds none. *)
Definition removes (j : JobId) (p : AccountId) (s s' : State) : Prop :=
  s'.(stored_job_status) = s.(stored_job_status) /\
  s'.(stored_job_registration) = s.(stored_job_registration) /\
  s'.(stored_matches) = delete (p, j) s.(stored_matches) /\
  (jobs_inv None s -> jobs_inv None s').

Lemma removes_loop j (k : AccountId -> MJ unit) l s u s' :
  (forall p t v t', k p t = (Ok v, t') -> removes j p t t') ->
  jobs_inv None s -> mfor l k s = (Ok u, s') ->
  jobs_inv None s' /\ s'.(stored_job_status) = s.(stored_job_status) /\
  s'.(stored_job_registration) = s.(stored_job_registration) /\
  forall src, src ∈ l \/ s.(stored_matches) !! (src, j) = None ->
              s'.(stored_matches) !! (src, j) = None.
Proof.
  intros Hk. revert s. induction l as [|p l IH]; intros s Hi Hm; simpl in Hm.
  - apply ret_ok in Hm as [_ <-]. split_and!; try done.
    intros src [Hin%not_elem_of_nil|Hn]; done.
  - apply bind_ok in Hm as (v & s1 & H1 & Hm).
    destruct (Hk _ _ _ _ H1) as (Est & Ereg & Em & Hinv).
    destruct (IH _ (Hinv Hi) Hm) as (Hi' & Est' & Ereg' & Hn).
    split_and!; [done|congruence|congruence|].
    intros src Hsrc. apply Hn. rewrite Em. destruct (decide (src = p)) as [->|Hne].
    + right. by rewrite lookup_delete_eq.
    + destruct Hsrc as [[->|Hin]%elem_of_cons|Hnone]; [done|by left|right].
      by rewrite lookup_delete_ne by congruence.
Qed.

Lemma drain_step_removes j p t v t' :
  (modify (remove_processor j p);; modify (remove_match p j) : MJ unit) t = (Ok v, t') ->
  removes j p t t'.
Proof.
  intros Hk. apply bind_ok in Hk as ([] & t1 & <-%modify_ok & <-%modify_ok).
  split_and!; [done..|]. apply jobs_inv_remove'.
Qed.

Lemma settle_processor_removes j r n p t v t' :
  settle_processor j r n p t = (Ok v, t') -> removes j p t t'.
Proof.
  intros Hk. unfold settle_processor in Hk.
  apply bind_ok in Hk as ([] & t1 & <-%modify_ok & Hk).
  apply bind_ok in Hk as (a & t2 & [_ <-]%gets_ok & Hk).
  apply bind_ok in Hk as ([] & t3 & <-%modify_ok & Hk).
  match type of Hk with ?m _ = _ => assert (framed jview m) as Hf by solve_framed end.
  pose proof (Hf _ _ _ Hk) as Hv. unfold removes.
  split_and!; [..|intros Hi; eapply jobs_inv_view; [exact Hv|by apply jobs_inv_remove']];
    unfold jview in Hv; injection Hv as E1 E2 E3 E4 E5; by rewrite ?E1, ?E2, ?E3.
Qed.

(** After a loop over all its processors, a job has no match left. *)
Lemma all_removed j (k : AccountId -> MJ unit) s u s' :
  (forall p t v t', k p t = (Ok v, t') -> removes j p t t') ->
  jobs_inv None s -> mfor (processors_of s j) k s = (Ok u, s') ->
  jobs_inv None s' /\ s'.(stored_job_status) = s.(stored_job_status) /\
  s'.(stored_job_registration) = s.(stored_job_registration) /\
  forall src, s'.(stored_matches) !! (src, j) = None.
Proof.
  intros Hk Hi Hm. destruct (removes_loop _ _ _ _ _ _ Hk Hi Hm) as (Hi' & E1 & E2 & Hn).
  split_and!; [done..|]. intros src. apply Hn. rewrite elem_of_processors_of.
  rewrite <-(ji_index _ _ Hi). destruct (stored_matches s !! (src, j)); [left; by eexists|by right].
Qed.

Lemma jobs_inv_no_status j s :
  jobs_inv None s -> (forall src, s.(stored_matches) !! (src, j) = None) ->
  jobs_inv (Some j) (set_stored_job_status (delete j s.(stored_job_status)) s).
Proof.
  intros [I1 I2 I3 I4 I5 I6] Hn. split; simpl; eauto.
  - intros src j' a Hm. destruct (decide (j = j')) as [<-|Hne]; [by left|right].
    rewrite lookup_delete_ne by done. by destruct (I3 _ _ _ Hm).
  - intros j'. destruct (decide (j = j')) as [<-|Hne]; [by left|right].
    rewrite lookup_delete_ne by done. by destruct (I4 j').
Qed.

Lemma jobs_inv_unregister j s :
  jobs_inv (Some j) s -> s.(stored_job_status) !! j = None ->
  (forall src, s.(stored_matches) !! (src, j) = None) ->
  jobs_inv None (set_stored_job_registration (delete j s.(stored_job_registration)) s).
Proof.
  intros [I1 I2 I3 I4 I5 I6] Hst Hn. split; simpl; eauto.
  - intros src j' a Hm. destruct (I2 _ _ _ Hm) as (r & Hr & Ha). exists r.
    destruct (decide (j = j')) as [<-|Hne]; [by rewrite Hn in Hm|].
    by rewrite lookup_delete_ne.
  - intros src j' a Hm. destruct (I3 _ _ _ Hm) as [[= <-]|]; [by rewrite Hn in Hm|by right].
  - intros j'. right. destruct (decide (j = j')) as [<-|Hne].
    + by rewrite Hst, lookup_delete_eq.
    + rewrite lookup_delete_ne by done. destruct (I4 j') as [[=]|]; done.
  - intros j' r [_ Hr]%lookup_delete_Some. eauto.
Qed.

(** What [deregister_hook] leaves of the job. *)
Definition unmatched_and_closed (j : JobId) (s : State) : Prop :=
  jobs_inv (Some j) s /\ s.(stored_job_status) !! j = None /\
  forall src, s.(stored_matches) !! (src, j) = None.

Lemma unmatched_and_closed_framed {B} j (m : MJ B) b s s' :
  framed jview m -> m s = (Ok b, s') -> unmatched_and_closed j s -> unmatched_and_closed j s'.
Proof.
  intros Hf Hm (Hi & Hst & Hn). pose proof (Hf _ _ _ Hm) as Hv.
  split; [by eapply jobs_inv_view|]. unfold jview in Hv. injection Hv as E1 E2 E3 E4 E5.
  by rewrite E2, E3.
Qed.

Lemma close_job j s :
  jobs_inv None s -> (forall src, s.(stored_matches) !! (src, j) = None) ->
  unmatched_and_closed j (set_stored_job_status (delete j s.(stored_job_status)) s).
Proof.
  intros Hi Hn. split; [by apply jobs_inv_no_status|]. simpl. by rewrite lookup_delete_eq.
Qed.

Lemma market_deregister_hook_ok j s u s' :
  jobs_inv None s -> market_deregister_hook j s = (Ok u, s') -> unmatched_and_closed j s'.
Proof.
  intros Hi Hm. unfold market_deregister_hook in Hm.
  apply bind_ok in Hm as (st & s1 & [Hst <-]%gets_ok & Hm).
  apply bind_ok in Hm as (job_status & s1 & [-> <-]%ok_or_ok & Hm).
  apply bind_ok in Hm as (r & s1 & Hr & Hm). apply readonly_ok in Hr as ->; [|apply ro_get_registration].
  apply bind_ok in Hm as ([] & s1 & <-%modify_ok & Hm).
  match type of Hm with _ ?t = _ => assert (jobs_inv None t) as H1 by exact (jobs_inv_view None s t eq_refl Hi) end.
  match type of Hm with _ ?t = _ => set (s1 := t) in * end.
  assert (stored_job_status s1 !! j = Some job_status) as Hst1 by done. clearbody s1.
  destruct job_status.
  - apply bind_ok in Hm as ([] & s2 & Hf & Hm).
    pose proof (jv_finalize j _ _ _ Hf) as Hv.
    pose proof (jobs_inv_view None _ _ Hv H1) as H2.
    apply bind_ok in Hm as ([] & s3 & <-%modify_ok & Hm).
    eapply unmatched_and_closed_framed; [apply jv_clear_execution_status|exact Hm|].
    apply close_job; [done|]. intros src. apply no_matches_unless_matched; [done|right].
    unfold jview in Hv. injection Hv as E1 E2 E3 E4 E5. by rewrite E2.
  - apply bind_ok in Hm as ([] & s2 & Hf & Hm).
    pose proof (jobs_inv_view None _ _ (jv_finalize j _ _ _ Hf) H1) as H2.
    apply bind_ok in Hm as ([] & s3 & Hd & Hm). unfold drain_matches in Hd.
    apply bind_ok in Hd as (l & s4 & [<- <-]%gets_ok & Hd).
    apply all_removed in Hd as (H3 & _ & _ & Hn); [|apply drain_step_removes|done].
    apply bind_ok in Hm as ([] & s4 & <-%modify_ok & Hm).
    eapply unmatched_and_closed_framed; [apply jv_clear_execution_status|exact Hm|].
    by apply close_job.
  - apply bind_ok in Hm as (t & s2 & Hno & Hm). apply readonly_ok in Hno as ->; [|apply ro_now].
    apply bind_ok in Hm as (l & s2 & [<- <-]%gets_ok & Hm).
    apply bind_ok in Hm as ([] & s2 & Hd & Hm).
    apply all_removed in Hd as (H3 & _ & _ & Hn); [|apply settle_processor_removes|done].
    apply bind_ok in Hm as ([] & s3 & Hf & Hm). pose proof (jv_finalize j _ _ _ Hf) as Hv.
    pose proof (jobs_inv_view None _ _ Hv H3) as H4.
    apply bind_ok in Hm as ([] & s4 & <-%modify_ok & Hm).
    eapply unmatched_and_closed_framed; [|exact Hm|].
    + solve_framed.
    + apply close_job; [done|]. unfold jview in Hv. injection Hv as E1 E2 E3 E4 E5. by rewrite E3.
Qed.

Lemma deregister_for_ok j s u s' :
  jobs_inv None s -> deregister_for j s = (Ok u, s') ->
  jobs_inv None s' /\ s'.(stored_job_registration) !! j = None /\
  s'.(stored_job_status) !! j = None /\ s'.(required_min_metrics) !! j = None /\
  (forall src, s'.(stored_matches) !! (src, j) = None) /\
  (forall src, s'.(assigned_processors) !! (j, src) = None).
Proof.
  intros Hi Hm. unfold deregister_for in Hm.
  apply bind_ok in Hm as ([] & s1 & Hh & Hm). apply market_deregister_hook_ok in Hh; [|done].
  apply bind_ok in Hm as ([] & s2 & Hc & Hm).
  pose proof (unmatched_and_closed_framed _ _ _ _ _ (jv_clear_environment j) Hc Hh) as (H2 & Hst & Hn).
  apply bind_ok in Hm as ([] & s3 & <-%modify_ok & Hm).
  apply bind_ok in Hm as ([] & s4 & <-%modify_ok & <-%modify_ok). simpl.
  pose proof (jobs_inv_unregister _ _ H2 Hst Hn) as H3. split_and!; try done.
  - eapply jobs_inv_view; [|exact H3]. done.
  - by rewrite lookup_delete_eq.
  - by rewrite lookup_delete_eq.
  - intros src. pose proof (ji_index _ _ H3 src j) as Hix. simpl in Hix. rewrite Hn in Hix.
    destruct (assigned_processors s2 !! (j, src)); [|done]. destruct Hix as [_ Hix].
    destruct Hix as [? Hx]; [by eexists|done].
Qed.

(** ** Registering *)

(** A registration whose numbers are in the ranges of their Rust types. *)
Record registration_typed (r : JobRegistration) : Prop := {
  rt_start : 0 <= r.(schedule).(start_time);
  rt_end : r.(schedule).(end_time) <= u64_max;
  rt_interval : r.(schedule).(interval) <= u64_max;
  rt_delay : 0 <= r.(schedule).(max_start_delay);
  rt_reward : 0 <= r.(extra).(reward) <= u128_max;
}.

Lemma jobs_inv_register j r s :
  jobs_inv None s -> registration_ok r ->
  s.(stored_job_status) !! j = None \/ s.(stored_job_status) !! j = Some Open ->
  jobs_inv (Some j) (set_stored_job_registration (<[j := r]> s.(stored_job_registration)) s).
Proof.
  intros Hi Hr Hst. pose proof (fun src => no_matches_unless_matched s j src Hi Hst) as Hn.
  destruct Hi as [I1 I2 I3 I4 I5 I6]. split; simpl; eauto.
  - intros src j' a Hm. destruct (I2 _ _ _ Hm) as (r' & Hr' & Ha). exists r'.
    destruct (decide (j = j')) as [<-|Hne]; [by rewrite Hn in Hm|].
    by rewrite lookup_insert_ne.
  - intros src j' a Hm. right. by destruct (I3 _ _ _ Hm).
  - intros j'. destruct (decide (j = j')) as [<-|Hne]; [by left|right].
    rewrite lookup_insert_ne by done. by destruct (I4 j').
  - intros j' r' [[<- <-]|[_ Hr']]%lookup_insert_Some; eauto.
Qed.

(** What [register_hook] has checked of the schedule when it goes on to the status. *)
Lemma market_register_hook_inv j r s u s' :
  registration_typed r ->
  market_register_hook j r s = (Ok u, s') ->
  (registration_ok r ->
   s.(stored_job_status) !! j = None \/ s.(stored_job_status) !! j = Some Open ->
   jobs_inv (Some j) s /\ s.(stored_job_registration) !! j = Some r /\
   forall src, s.(stored_matches) !! (src, j) = None) ->
  jobs_inv None s' /\ registration_ok r /\
  (s.(stored_job_status) !! j = None \/ s.(stored_job_status) !! j = Some Open).
Proof.
  intros [] Hm Hpre. unfold market_register_hook in Hm.
  apply bind_ok in Hm as ([] & ? & [Hd%Z.ltb_lt <-]%ensure_ok & Hm).
  apply bind_ok in Hm as ([] & ? & [Hmx <-]%ensure_ok & Hm).
  apply bind_ok in Hm as ([] & ? & [Hc%Z.ltb_lt <-]%ensure_ok & Hm).
  apply bind_ok in Hm as ([] & ? & [Hi%Z.ltb_lt <-]%ensure_ok & Hm).
  skip_read Hm as t.
  apply bind_ok in Hm as ([] & ? & [_ <-]%ensure_ok & Hm).
  apply bind_ok in Hm as ([] & ? & [_ <-]%ensure_ok & Hm).
  apply bind_ok in Hm as ([] & ? & [Hsl%Z.ltb_lt <-]%ensure_ok & Hm).
  apply bind_ok in Hm as ([] & ? & [_ <-]%ensure_ok & Hm).
  assert (registration_ok r) as Hok by (split; [split|..]; lia || done).
  apply bind_ok in Hm as (st & ? & [Hst <-]%gets_ok & Hm).
  apply bind_ok in Hm as ([] & s1 & H1 & Hm).
  assert (s.(stored_job_status) !! j = None \/ s.(stored_job_status) !! j = Some Open) as Hopen.
  { rewrite Hst. destruct st; [|by left]. apply ensure_ok in H1 as [->%bool_decide_eq_true _]. by right. }
  destruct (Hpre Hok Hopen) as (Hi0 & Hr & Hno). split; [|done].
  assert (jobs_inv None s1) as Hi1.
  { destruct st as [st|].
    - apply ensure_ok in H1 as [->%bool_decide_eq_true <-]. destruct Hi0 as [I1 I2 I3 I4 I5 I6].
      split; eauto.
      + intros src j' a Hma. destruct (I3 _ _ _ Hma) as [[= <-]|]; [|by right].
        by rewrite Hno in Hma.
      + intros j'. right. destruct (I4 j') as [[= <-]|]; [|done]. rewrite Hst, Hr. done.
    - apply modify_ok in H1 as <-.
      eapply jobs_inv_status; [exact Hi0|by right|by eexists|done]. }
  apply bind_ok in Hm as ([] & s2 & H2 & Hm).
  assert (jobs_inv None s2) as Hi2.
  { destruct (assignment_strategy (extra r)) as [[sources|]|].
    - by eapply process_matching_inv.
    - by apply ret_ok in H2 as [_ <-].
    - by apply ensure_ok in H2 as [_ <-]. }
  apply bind_ok in Hm as (tot & s3 & Ht & Hm).
  apply readonly_ok in Ht as ->; [|apply ro_total_reward_amount].
  exact (jobs_inv_framed None _ _ _ _ (framed_jview _ (rf_lock _ _)) Hm Hi2).
Qed.

Lemma register_for_inv j r mm s u s' :
  registration_typed r -> jobs_inv None s -> register_for j r mm s = (Ok u, s') ->
  jobs_inv None s'.
Proof.
  intros Ht Hi Hm. unfold register_for in Hm.
  apply bind_ok in Hm as ([] & ? & [_ <-]%ensure_ok & Hm).
  apply bind_ok in Hm as ([] & s1 & Ha & Hm).
  assert (s1 = s) as ->.
  { destruct (allowed_sources r); [|by apply ret_ok in Ha as [_ <-]].
    apply bind_ok in Ha as ([] & ? & [_ <-]%ensure_ok & [_ <-]%ensure_ok). done. }
  apply bind_ok in Hm as ([] & s1 & <-%modify_ok & Hm).
  apply bind_ok in Hm as ([] & s2 & Hmm & Hm).
  apply bind_ok in Hm as ([] & s3 & Hh & Hd).
  match type of Hmm with ?m _ = _ => assert (framed jview m) as Hf by solve_framed end.
  pose proof (Hf _ _ _ Hmm) as Hv. clear Hmm Hf.
  eapply jobs_inv_framed; [apply jv_deposit|exact Hd|].
  eapply (market_register_hook_inv _ _ _ _ _ Ht Hh). intros Hr Hst.
  unfold jview in Hv. simpl in Hv. pose proof Hv as Hv'. injection Hv as E1 E2 E3 E4 E5.
  rewrite E2 in Hst. split_and!.
  - apply (jobs_inv_view _ (set_stored_job_registration (<[j := r]> s.(stored_job_registration)) s));
      [exact Hv'|]. by apply jobs_inv_register.
  - by rewrite E1, lookup_insert_eq.
  - intros src. rewrite E3. by apply no_matches_unless_matched.
Qed.

Lemma jobs_inv_replace j r r' s :
  jobs_inv None s -> s.(stored_job_registration) !! j = Some r ->
  r'.(schedule) = r.(schedule) -> r'.(extra) = r.(extra) ->
  jobs_inv None (set_stored_job_registration (<[j := r']> s.(stored_job_registration)) s).
Proof.
  intros [I1 I2 I3 I4 I5 I6] Hr Es Ee. split; simpl; eauto.
  - intros src j' a Hm. destruct (I2 _ _ _ Hm) as (r0 & Hr0 & Ha).
    destruct (decide (j = j')) as [<-|Hne].
    + exists r'. rewrite lookup_insert_eq. split; [done|]. assert (r0 = r) as -> by congruence.
      destruct Ha as [Hf Hs]. split; [by rewrite Ee|done].
    + exists r0. by rewrite lookup_insert_ne.
  - intros j'. right. destruct (decide (j = j')) as [<-|Hne].
    + rewrite lookup_insert_eq. destruct (I4 j) as [[=]|Hiff]. rewrite Hr in Hiff. naive_solver.
    + rewrite lookup_insert_ne by done. destruct (I4 j') as [[=]|]; done.
  - intros j' r0 [[<- <-]|[_ Hr0]]%lookup_insert_Some; [|by eauto].
    destruct (I5 _ _ Hr) as [H1 H2 H3]. split; by rewrite ?Es, ?Ee.
Qed.

Lemma edit_script_inv o j sc s u s' :
  jobs_inv None s -> edit_script o j sc s = (Ok u, s') -> jobs_inv None s'.
Proof.
  intros Hi Hm. unfold edit_script in Hm.
  skip_read Hm as who.
  apply bind_ok in Hm as (e & s1 & [_ <-]%gets_ok & Hm).
  apply bind_ok in Hm as (ed & s1 & [_ <-]%ok_or_ok & Hm).
  do 2 apply bind_ok in Hm as ([] & ? & [_ <-]%ensure_ok & Hm).
  apply bind_ok in Hm as (r & s1 & Hr & Hm). unfold get_registration in Hr.
  apply bind_ok in Hr as (ro & s2 & [Hreg <-]%gets_ok & [-> <-]%ok_or_ok).
  apply bind_ok in Hm as ([] & s1 & <-%modify_ok & Hm).
  eapply jobs_inv_framed; [|exact Hm|by eapply jobs_inv_replace]. solve_framed.
Qed.

Lemma update_allowed_sources_inv o id l s u s' :
  jobs_inv None s -> update_allowed_sources o id l s = (Ok u, s') -> jobs_inv None s'.
Proof.
  intros Hi Hm. unfold update_allowed_sources in Hm.
  skip_read Hm as who.
  apply bind_ok in Hm as (ro & s1 & [Hreg <-]%gets_ok & Hm).
  apply bind_ok in Hm as (r & s1 & [-> <-]%ok_or_ok & Hm).
  apply bind_ok in Hm as (al & s1 & Ha & Hm).
  apply readonly_ok in Ha as ->; [|solve_framed].
  apply bind_ok in Hm as ([] & s1 & <-%modify_ok & Hm).
  eapply jobs_inv_framed; [|exact Hm|by eapply jobs_inv_replace].
  simpl. unfold market_update_allowed_sources_hook. solve_framed.
Qed.

(** ** All calls *)
Definition call_typed (c : Call) : Prop :=
  match c with
  | Register r | RegisterWithMinMetrics r _ | Deploy r _ _ _ => registration_typed r
  | UpdatePriceSettings (Some p) => 0 <= p.(min_price)
  | _ => True
  end.
Definition message_typed (m : JobMessage) : Prop :=
  match m with
  | RegisterFor _ r _ => registration_typed r
  | _ => True
  end.

Lemma deploy_inv o r m k l s u s' :
  registration_typed r -> jobs_inv None s -> deploy o r m k l s = (Ok u, s') -> jobs_inv None s'.
Proof.
  intros Ht Hi Hm. unfold deploy in Hm.
  skip_read Hm as who.
  apply bind_ok in Hm as (id & s1 & Hn & Hm).
  pose proof (jobs_inv_framed None _ _ _ _ jv_next_job_id Hn Hi) as H1.
  apply bind_ok in Hm as ([] & s2 & H2 & Hm).
  assert (jobs_inv None s2) as Hi2.
  { eapply jobs_inv_framed; [|exact H2|exact H1].
    unfold deploy_immutable, derive_editor_and_key. solve_framed. }
  apply bind_ok in Hm as ([] & s3 & <-%modify_ok & Hm).
  eapply register_for_inv; [exact Ht| |exact Hm]. by apply (jobs_inv_view None s2).
Qed.

Lemma run_call_inv o c s u s' :
  call_typed c -> jobs_inv None s -> run_call o c s = (Ok u, s') -> jobs_inv None s'.
Proof.
  intros Ht Hi Hm. destruct c; simpl in Hm, Ht.
  all: try (eapply jobs_inv_framed; [|exact Hm|exact Hi];
            solve [unfold set_environment, set_environments, update_certificate_revocation_list,
              advertise, delete_advertisement, finalize_jobs, cleanup_job_matcher,
              update_min_fee_per_millisecond, transfer_editor; solve_framed]).
  - unfold register in Hm.
    skip_read Hm as who.
    apply bind_ok in Hm as (id & s1 & Hn & Hm). eapply register_for_inv; [exact Ht| |exact Hm].
    exact (jobs_inv_framed None _ _ _ _ jv_next_job_id Hn Hi).
  - unfold register_with_min_metrics in Hm.
    skip_read Hm as who.
    apply bind_ok in Hm as (id & s1 & Hn & Hm). eapply register_for_inv; [exact Ht| |exact Hm].
    exact (jobs_inv_framed None _ _ _ _ jv_next_job_id Hn Hi).
  - unfold deregister in Hm.
    skip_read Hm as who.
    by eapply deregister_for_ok.
  - by eapply update_allowed_sources_inv.
  - unfold propose_matching in Hm.
    skip_read Hm as who.
    by eapply process_matching_inv.
  - unfold propose_execution_matching in Hm.
    skip_read Hm as who.
    by eapply process_execution_matching_inv.
  - unfold acknowledge_match in Hm.
    skip_read Hm as who.
    by eapply process_acknowledge_match_inv.
  - unfold acknowledge_execution_match in Hm.
    skip_read Hm as who.
    by eapply process_acknowledge_match_inv.
  - unfold report in Hm.
    skip_read Hm as who.
    apply bind_ok in Hm as (a & s1 & Hr & Hm). apply do_report_inv in Hr; [|done].
    eapply jobs_inv_framed; [|exact Hm|exact Hr]. solve_framed.
  - unfold finalize_job in Hm.
    skip_read Hm as who.
    skip_read Hm as t.
    apply bind_ok in Hm as ([] & s1 & Hc & Hm). apply do_cleanup_assignment_inv in Hc; [|done].
    by eapply jobs_inv_framed; [apply jv_deposit|..].
  - unfold cleanup_storage in Hm.
    apply bind_ok in Hm as ([] & ? & [_ <-]%ensure_ok & Hm).
    apply bind_ok in Hm as (r & s1 & [_ <-]%gets_ok & Hm). destruct r; [by apply ret_ok in Hm as [_ <-]|].
    destruct (0 <? _); [|by apply ret_ok in Hm as [_ <-]].
    apply bind_ok in Hm as (l & s1 & [_ <-]%gets_ok & Hm). by eapply drain_loop_inv.
  - unfold cleanup_assignments in Hm.
    skip_read Hm as who.
    apply bind_ok in Hm as ([] & s1 & Hc & Hm). apply do_cleanup_assignments_inv in Hc; [|done].
    by eapply jobs_inv_framed; [apply jv_deposit|..].
  - unfold cleanup_assignments_for in Hm.
    skip_read Hm as who.
    apply bind_ok in Hm as ([] & s1 & Hc & Hm). apply do_cleanup_assignments_inv in Hc; [|done].
    by eapply jobs_inv_framed; [apply jv_deposit|..].
  - unfold cleanup_job_assignments in Hm.
    skip_read Hm as who.
    skip_read Hm as t.
    apply bind_ok in Hm as (e & s1 & [_ <-]%gets_ok & Hm).
    destruct e; [|by apply ret_ok in Hm as [_ <-]].
    apply bind_ok in Hm as ([] & s1 & Hc & Hm). apply drain_matches_inv with (o := None) in Hc; [|done].
    by eapply jobs_inv_framed; [apply jv_deposit|..].
  - unfold update_price_settings in Hm.
    apply bind_ok in Hm as ([] & ? & [_ <-]%ensure_ok & Hm).
    apply bind_ok in Hm as ([] & s1 & <-%modify_ok & Hm).
    eapply jobs_inv_framed; [apply jv_deposit|exact Hm|]. destruct Hi as [I1 I2 I3 I4 I5 I6].
    split; simpl; eauto. intros p ->. exact Ht.
  - by eapply deploy_inv.
  - by eapply edit_script_inv.
Qed.

Lemma run_message_inv m s u s' :
  message_typed m -> jobs_inv None s -> run_message m s = (Ok u, s') -> jobs_inv None s'.
Proof.
  intros Ht Hi Hm. destruct m; simpl in Hm, Ht.
  - by eapply register_for_inv.
  - by eapply deregister_for_ok.
  - exact (jobs_inv_framed None _ _ _ _ (jv_set_environment_for _ _) Hm Hi).
Qed.

(** One step of the chain: a call, a message from another pallet, or what these
    pallets do not control (the clock, the currency, attestations). *)
Inductive job_step : State -> State -> Prop :=
| step_call origin c s : call_typed c -> job_step s (exec (dispatch origin c) s)
| step_message m s : message_typed m -> job_step s (exec (dispatch_message m) s)
| step_outside x att s : job_step s (set_jext x (set_stored_attestation att s)).

Lemma jobs_inv_step s s' : job_step s s' -> jobs_inv None s -> jobs_inv None s'.
Proof.
  intros [o c t Ht|m t Ht|x att t] Hi.
  - apply (transaction_pres (jobs_inv None)); [|done]. intros t'. by apply run_call_inv.
  - apply (transaction_pres (jobs_inv None)); [|done]. intros t'. by apply run_message_inv.
  - by apply (jobs_inv_view None t).
Qed.

Lemma jobs_inv_reach s s' : rtc job_step s s' -> jobs_inv None s -> jobs_inv None s'.
Proof. induction 1; eauto using jobs_inv_step. Qed.
End operations.
