(* ===== verification/JobSolvency.v ===== *)
(** The account of the marketplace always covers what it owes: the budgets of all
    jobs together are never more than the balance of the pallet's account. *)
From S2P Require Import Prelude Schedules Attestations JobTypes Reputation Jobs.
From S2P Require Import Payments Reporting Matching Marketplace JobFrames JobInvariant.

(** What is assumed of the currency and of the hooks: a transfer and a withdrawal
    change exactly the balances they name, handling an imbalance and the
    marketplace hooks do not take from the pallet's account. *)
Record currency_laws {X : JobExternals} {C : JobConfig} (bal : JExt -> AccountId -> Balance)
  : Prop := {
  cl_transfer from to n x x' who :
    0 <= n -> currency_transfer from to n x = Some x' ->
    bal x' who = bal x who - (if bool_decide (who = from) then n else 0)
                           + (if bool_decide (who = to) then n else 0);
  cl_withdraw from n x c x' who :
    0 <= n -> currency_withdraw from n x = Some (c, x') ->
    bal x' who = bal x who - (if bool_decide (who = from) then n else 0);
  cl_unbalanced c x : bal x pallet_account <= bal (ou_on_unbalanced c x) pallet_account;
  cl_assign j k x x' :
    hook_assign_job j k x = Some x' -> bal x pallet_account <= bal x' pallet_account;
  cl_finalize j n x x' :
    hook_finalize_job j n x = Some x' -> bal x pallet_account <= bal x' pallet_account;
}.

(** The configuration: the percentages are percentages, and the pallet does not pay
    itself for foreign jobs. *)
Record config_ok (C : JobConfig) : Prop := {
  co_fee : 0 <= get_fee_percentage <= 100;
  co_matcher : 0 <= get_matcher_percentage <= 100;
  co_hyperdrive : hyperdrive_pallet_account <> pallet_account;
  co_min_price : 0 <= DefaultMinPrice;
}.

Section solvency.
Context {X : JobExternals} {C : JobConfig} {A : AllowedApps} {F : FixedOps} {FL : FixedLaws F}.
Context (bal : JExt -> AccountId -> Balance) (laws : currency_laws bal) (cfg : config_ok C).

Definition budgets_total (s : State) : Balance := gsum (fun _ b => b) s.(job_budgets).

(** The balance of the pallet's account covers all the budgets. *)
Definition covered (s : State) : Prop :=
  budgets_total s <= bal s.(jext) pallet_account /\
  forall j b, s.(job_budgets) !! j = Some b -> 0 <= b <= u128_max.

Lemma reserved_range s j : covered s -> 0 <= reserved s j <= u128_max.
Proof.
  intros [_ Hb]. unfold reserved. destruct (job_budgets s !! j) eqn:E; simpl; [by eapply Hb|].
  unfold u128_max. lia.
Qed.

Lemma reserved_le_total s j : covered s -> 0 <= reserved s j <= budgets_total s.
Proof.
  intros Hc. split; [by apply reserved_range|]. destruct Hc as [_ Hb].
  assert (forall j' b, s.(job_budgets) !! j' = Some b -> 0 <= b) as Hn by (intros j' b [??]%Hb; done).
  unfold reserved. destruct (job_budgets s !! j) eqn:E; simpl.
  - by apply (gsum_elem_le (fun _ b => b) _ j z Hn).
  - by apply gsum_nonneg.
Qed.

Lemma budgets_total_insert s j b :
  budgets_total (set_job_budgets (<[j := b]> s.(job_budgets)) s) = budgets_total s - reserved s j + b.
Proof.
  unfold budgets_total, reserved. simpl. rewrite gsum_insert.
  by destruct (job_budgets s !! j).
Qed.

(** A payment [n] out of the budget of [j] that costs the account at most [n]. *)
Lemma covered_write s j b x :
  covered s -> 0 <= b <= u128_max ->
  bal s.(jext) pallet_account + (b - reserved s j) <= bal x pallet_account ->
  covered (set_jext x (set_job_budgets (<[j := b]> s.(job_budgets)) s)).
Proof.
  intros [Ht Hb] Hr Hx. split.
  - pose proof (budgets_total_insert s j b) as E. unfold budgets_total in *. simpl in *. lia.
  - simpl. intros j' b' [[_ <-]|[_ Hj]]%lookup_insert_Some; eauto.
Qed.

Definition bview (s : State) := (s.(job_budgets), s.(jext)).

Lemma covered_view s s' : bview s' = bview s -> covered s -> covered s'.
Proof. unfold bview, covered, budgets_total. intros [= -> ->]. done. Qed.
Lemma covered_framed {B} (m : MJ B) b s s' :
  framed bview m -> m s = (Ok b, s') -> covered s -> covered s'.
Proof. intros Hf Hm. apply covered_view. exact (Hf _ _ _ Hm). Qed.

(** ** The reward manager *)
Lemma jext_try_ok f e s u s' :
  jext_try f e s = (Ok u, s') -> exists x, f s.(jext) = Some x /\ s' = set_jext x s.
Proof.
  unfold jext_try. intros Hm. apply bind_ok in Hm as (x & s1 & [<- <-]%gets_ok & Hm).
  apply bind_ok in Hm as (x' & s2 & [E <-]%ok_or_ok & <-%modify_ok). by exists x'.
Qed.

Lemma reserve_ok j n s u s' :
  reserve j n s = (Ok u, s') ->
  reserved s j + n <= u128_max /\
  s' = set_job_budgets (<[j := reserved s j + n]> s.(job_budgets)) s.
Proof.
  unfold reserve, write_budget. intros Hm. apply bind_ok in Hm as (a & s1 & [<- <-]%gets_ok & Hm).
  apply bind_ok in Hm as (a' & s2 & [[-> Hle]%checked_add_Some <-]%ok_or_ok & <-%modify_ok).
  done.
Qed.
Lemma unreserve_ok j n s u s' :
  unreserve j n s = (Ok u, s') ->
  n <= reserved s j /\ s' = set_job_budgets (<[j := reserved s j - n]> s.(job_budgets)) s.
Proof.
  unfold unreserve, write_budget. intros Hm. apply bind_ok in Hm as (a & s1 & [<- <-]%gets_ok & Hm).
  apply bind_ok in Hm as ([] & s2 & [_ <-]%ensure_ok & Hm).
  apply bind_ok in Hm as (a' & s3 & [[-> Hle]%checked_sub_Some <-]%ok_or_ok & <-%modify_ok).
  done.
Qed.

Definition payer_is (who : AccountId) (j : JobId) : Prop := j.1 = Acurast who.

Lemma lock_reward_covered j n s u s' :
  covered s -> 0 <= n -> ~ payer_is pallet_account j ->
  arm_lock_reward j n s = (Ok u, s') -> covered s'.
Proof.
  intros Hc Hn Hp Hm. unfold arm_lock_reward in Hm.
  apply bind_ok in Hm as (v & s1 & Ht & [Hle ->]%reserve_ok).
  assert (exists x, s1 = set_jext x s /\ bal x pallet_account = bal (jext s) pallet_account + n)
    as (x & -> & Hx).
  { destruct j as [[] id]; simpl in Ht; try (by apply throw_ok in Ht);
      apply jext_try_ok in Ht as (x & Hx & ->); exists x; (split; [done|]);
      rewrite (cl_transfer _ laws _ _ _ _ _ pallet_account Hn Hx).
    all: rewrite (bool_decide_eq_true_2 (pallet_account = pallet_account)) by done.
    all: rewrite bool_decide_eq_false_2; [lia|].
    all: intros E; first [by apply (co_hyperdrive _ cfg)|apply Hp; by rewrite E]. }
  pose proof (reserved_range s j Hc). change (reserved (set_jext x s) j) with (reserved s j) in *.
  apply (covered_view (set_jext x (set_job_budgets (<[j := reserved s j + n]> s.(job_budgets)) s)));
    [reflexivity|].
  apply covered_write; [done|lia|]. lia.
Qed.

Lemma handle_reward_covered j n s u s' :
  covered s -> 0 <= n -> arm_handle_reward j n s = (Ok u, s') -> covered s'.
Proof.
  intros Hc Hn Hm. unfold arm_handle_reward in Hm.
  apply bind_ok in Hm as (v & s1 & [Hle ->]%unreserve_ok & Hm).
  apply bind_ok in Hm as (x & s2 & [<- <-]%gets_ok & Hm).
  apply bind_ok in Hm as ([c x'] & s3 & [Hw <-]%ok_or_ok & Hm). simpl in Hw.
  apply bind_ok in Hm as ([] & s4 & <-%modify_ok & Hm).
  unfold jext_modify in Hm. apply modify_ok in Hm as <-. simpl.
  pose proof (reserved_range s j Hc). pose proof (cl_unbalanced _ laws c x').
  pose proof (cl_withdraw _ laws _ _ _ _ _ pallet_account Hn Hw) as Hb.
  rewrite bool_decide_eq_true_2 in Hb by done.
  apply (covered_view (set_jext (ou_on_unbalanced c x')
    (set_job_budgets (<[j := reserved s j - n]> s.(job_budgets)) s))); [reflexivity|].
  apply covered_write; [done|lia|lia].
Qed.

(** A conditional payment out of the pallet's account *)
Lemma pay_out_ok (b : bool) to n s u s' :
  0 <= n ->
  (if b then transfer_preserve pallet_account to n else ret tt) s = (Ok u, s') ->
  exists x, s' = set_jext x s /\ bal s.(jext) pallet_account - n <= bal x pallet_account.
Proof.
  intros Hn Hm. destruct b.
  - apply jext_try_ok in Hm as (x & Hx & ->). exists x. split; [done|].
    rewrite (cl_transfer _ laws _ _ _ _ _ pallet_account Hn Hx).
    rewrite bool_decide_eq_true_2 by done. case_bool_decide; lia.
  - apply ret_ok in Hm as [_ <-]. exists (jext s). split; [by destruct s|lia].
Qed.

Lemma percent_range p n : 0 <= p <= 100 -> is_u128 n -> 0 <= percent_mul_floor p n <= n.
Proof.
  intros Hp Hn. rewrite percent_mul_floor_spec by done. unfold is_u128 in Hn. split.
  - apply Z.div_pos; nia.
  - apply share_le; lia.
Qed.

Lemma pay_matcher_covered j n matcher s u s' :
  covered s -> is_u128 n -> arm_pay_matcher_reward j n matcher s = (Ok u, s') -> covered s'.
Proof.
  intros Hc Hn Hm. unfold arm_pay_matcher_reward in Hm.
  pose proof (percent_range _ _ (co_matcher _ cfg) Hn) as Hmf.
  set (mf := percent_mul_floor get_matcher_percentage n) in *.
  assert (is_u128 mf) as Humf by (unfold is_u128 in *; lia).
  pose proof (percent_range _ _ (co_fee _ cfg) Humf) as Hfee.
  set (fee := percent_mul_floor get_fee_percentage mf) in *.
  assert (wrap_as u128_max (mf - fee) = mf - fee) as Hw.
  { unfold wrap_as. apply Z.mod_small. unfold is_u128 in *. lia. }
  cbv zeta in Hm. rewrite Hw in Hm.
  apply bind_ok in Hm as (v & s1 & [Hle ->]%unreserve_ok & Hm).
  apply bind_ok in Hm as (v1 & s2 & H1 & H2).
  apply pay_out_ok in H1 as (x1 & -> & Hx1); [|lia].
  apply pay_out_ok in H2 as (x2 & -> & Hx2); [|lia]. simpl in *.
  pose proof (reserved_range s j Hc).
  apply (covered_view (set_jext x2 (set_job_budgets (<[j := reserved s j - mf]> s.(job_budgets)) s)));
    [reflexivity|].
  apply covered_write; [done|lia|lia].
Qed.

Lemma refund_covered j s n s' :
  covered s -> arm_refund j s = (Ok n, s') -> covered s' /\ reserved s' j = 0 /\ n = reserved s j.
Proof.
  intros Hc Hm. unfold arm_refund in Hm.
  apply bind_ok in Hm as (r & s1 & Hr & Hm). unfold unreserve_remaining, write_budget in Hr.
  apply bind_ok in Hr as (r' & s2 & [Hr' <-]%gets_ok & Hr).
  apply bind_ok in Hr as ([] & s3 & <-%modify_ok & [-> <-]%ret_ok).
  apply bind_ok in Hm as (v & s2 & Ht & [-> <-]%ret_ok).
  pose proof (reserved_range s j Hc). rewrite <-Hr' in *.
  assert (exists to, transfer_preserve pallet_account to (reserved s j)
            (set_job_budgets (<[j := 0]> s.(job_budgets)) s) = (Ok v, s2)) as (to & Hto).
  { destruct (j.1); try (by apply throw_ok in Ht); by eexists. }
  apply (pay_out_ok true) in Hto as (x & -> & Hx); [|lia]. simpl in Hx. split_and!.
  - apply (covered_view (set_jext x (set_job_budgets (<[j := 0]> s.(job_budgets)) s))); [reflexivity|].
    apply covered_write; [done|unfold u128_max; lia|lia].
  - unfold reserved. simpl. by rewrite lookup_insert_eq.
  - done.
Qed.

Lemma hook_covered (f : JExt -> option JExt) e s u s' :
  (forall x x', f x = Some x' -> bal x pallet_account <= bal x' pallet_account) ->
  covered s -> jext_try f e s = (Ok u, s') -> covered s'.
Proof.
  intros Hf [Ht Hb] (x & Hx & ->)%jext_try_ok. specialize (Hf _ _ Hx).
  split; [unfold budgets_total in *; simpl; lia|done].
Qed.

(** ** What does not concern the budgets *)
Lemma bv_deposit e : framed bview (deposit_event e).
Proof. unfold deposit_event. solve_framed. Qed.
Hint Resolve bv_deposit : framed.
Lemma bv_do_update_reputation p a n : framed bview (do_update_reputation p a n).
Proof. unfold do_update_reputation. solve_framed. Qed.
Lemma bv_update_next_report_index j p r a :
  framed bview (update_next_report_index_on_report j p r a).
Proof. unfold update_next_report_index_on_report, put_next_report_index. solve_framed. Qed.
Lemma bv_clear_execution_status j n : framed bview (clear_execution_status j n).
Proof. unfold clear_execution_status. solve_framed. Qed.
Lemma bv_next_job_id : framed bview next_job_id.
Proof. unfold next_job_id. solve_framed. Qed.
Lemma bv_transfer_key_id a b : framed bview (transfer_key_id a b).
Proof. unfold transfer_key_id. solve_framed. Qed.
Lemma bv_set_environment_for j l : framed bview (set_environment_for j l).
Proof. unfold set_environment_for. solve_framed. Qed.
Lemma bv_do_advertise p a : framed bview (do_advertise p a).
Proof.
  unfold do_advertise. framed_step; [solve_framed|]. do 2 (framed_step; [solve_framed|]).
  apply framed_modify. intros s. by destruct (stored_reputation s !! p).
Qed.
Lemma bv_process_matching l m : framed bview (process_matching l m).
Proof.
  unfold process_matching, process_match, match_slot, put_matcher, update_average_reward. solve_framed.
Qed.
Lemma bv_process_execution_matching l m : framed bview (process_execution_matching l m).
Proof.
  unfold process_execution_matching, process_execution_match, cleanup_previous_execution_matches,
    cleanup_one, match_execution_slot, put_matcher, update_average_reward, put_execution_status.
  solve_framed.
Qed.
Lemma bv_update_assignment p j : framed bview (update_assignment p j).
Proof. unfold update_assignment. solve_framed. Qed.
Lemma bv_acknowledge p j e k sch : framed bview (update_assignment_to_acknowledged p j e k sch).
Proof. unfold update_assignment_to_acknowledged. solve_framed. Qed.
Lemma bv_update_job_status j e : framed bview (update_job_status j e).
Proof. unfold update_job_status, put_execution_status. solve_framed. Qed.
Hint Resolve bv_do_update_reputation : framed.
Lemma bv_update_next_on_acknowledge j p a e :
  framed bview (update_next_report_index_on_acknowledge j p a e).
Proof. unfold update_next_report_index_on_acknowledge, put_next_report_index. solve_framed. Qed.
Lemma bv_do_cleanup_assignments p l : framed bview (do_cleanup_assignments p l).
Proof. unfold do_cleanup_assignments, do_cleanup_assignment. solve_framed. Qed.
Lemma bv_do_cleanup_assignment p j t : framed bview (do_cleanup_assignment p j t).
Proof. unfold do_cleanup_assignment. solve_framed. Qed.
Lemma bv_drain_matches j : framed bview (drain_matches j).
Proof. unfold drain_matches. solve_framed. Qed.
Lemma bv_clear_environment j : framed bview (clear_environment_for j).
Proof. unfold clear_environment_for. solve_framed. Qed.
Hint Resolve bv_update_next_report_index bv_clear_execution_status bv_next_job_id
  bv_transfer_key_id bv_set_environment_for bv_do_advertise bv_process_matching
  bv_process_execution_matching bv_update_assignment bv_acknowledge bv_update_job_status
  bv_update_next_on_acknowledge bv_do_cleanup_assignments bv_do_cleanup_assignment
  bv_drain_matches bv_clear_environment : framed.

(** ** Operations that pay *)
Lemma do_report_covered j p s a s' :
  jobs_inv None s -> covered s -> do_report j p s = (Ok a, s') -> covered s'.
Proof.
  intros Hi Hc Hm. unfold do_report in Hm.
  apply bind_ok in Hm as (a0 & s1 & Hu & Hm).
  pose proof (update_assignment_inv _ _ _ _ _ Hi Hu) as H1.
  pose proof (covered_framed _ _ _ _ (bv_update_assignment _ _) Hu Hc) as Hc1.
  assert (0 <= fee_per_execution a0) as Hfee.
  { unfold update_assignment in Hu. apply bind_ok in Hu as (o & t & [Ho <-]%gets_ok & Hu).
    destruct o as [b|]; [|by apply throw_ok in Hu].
    do 2 apply bind_ok in Hu as ([] & ? & [_ <-]%ensure_ok & Hu).
    apply bind_ok in Hu as ([] & t & _ & [<- _]%ret_ok). simpl.
    destruct (ji_match _ _ Hi _ _ _ Ho) as (r & _ & [Hf _]). lia. }
  apply bind_ok in Hm as (r & s2 & Hr & Hm). apply readonly_ok in Hr as ->; [|apply ro_get_registration].
  apply bind_ok in Hm as ([missing nxt] & s2 & Hn & Hm).
  pose proof (covered_framed _ _ _ _ (bv_update_next_report_index _ _ _ _) Hn Hc1) as Hc2.
  apply bind_ok in Hm as ([] & s3 & Hh & Hm). apply handle_reward_covered in Hh; [|done..].
  eapply covered_framed; [|exact Hm|exact Hh]. solve_framed.
Qed.

Lemma process_acknowledge_match_covered who j e k s u s' :
  jobs_inv None s -> covered s -> process_acknowledge_match who j e k s = (Ok u, s') -> covered s'.
Proof.
  intros Hi Hc Hm. unfold process_acknowledge_match in Hm.
  apply bind_ok in Hm as (job & s1 & Hr & Hm). unfold get_registration in Hr.
  apply bind_ok in Hr as (o & s2 & [Hreg <-]%gets_ok & [-> <-]%ok_or_ok).
  apply bind_ok in Hm as ([ch a] & s1 & Hu & Hm).
  pose proof (covered_framed _ _ _ _ (bv_acknowledge _ _ _ _ _) Hu Hc) as Hc1.
  destruct (update_assignment_to_acknowledged_inv _ _ _ _ _ _ _ _ _ Hi Hu) as [H1 Ha].
  destruct (ji_match _ _ H1 _ _ _ Ha) as (r & Hr & [Hfee _]).
  pose proof (ji_registration _ _ Hi _ _ Hreg) as [Hsch Hrew _].
  destruct ch; [|by apply ret_ok in Hm as [_ <-]].
  apply bind_ok in Hm as ([] & s2 & Hst & Hm).
  pose proof (covered_framed _ _ _ _ (bv_update_job_status _ _) Hst Hc1) as Hc2.
  apply bind_ok in Hm as ([] & s3 & Hix & Hm).
  pose proof (covered_framed _ _ _ _ (bv_update_next_on_acknowledge _ _ _ _) Hix Hc2) as Hc3.
  apply bind_ok in Hm as ([] & s4 & Hk & Hm).
  apply hook_covered in Hk; [|apply (cl_assign _ laws)|done].
  apply bind_ok in Hm as (mt & s5 & [_ <-]%gets_ok & Hm).
  apply bind_ok in Hm as ([] & s5 & Hp & Hm). eapply covered_framed; [apply bv_deposit|exact Hm|].
  destruct mt as [matcher|]; [|by apply ret_ok in Hp as [_ <-]].
  eapply pay_matcher_covered; [exact Hk| |exact Hp].
  pose proof (execution_count_range _ Hsch). unfold is_u128, saturating_sub, saturating_mul.
  destruct e; [|lia]. split; [|lia]. apply Z.min_glb; [nia|unfold u128_max; lia].
Qed.

(** Both invariants through the loop that settles the processors of a job *)
Lemma settle_loop_covered j r t l s u s' :
  jobs_inv None s -> covered s -> mfor l (settle_processor j r t) s = (Ok u, s') -> covered s'.
Proof.
  intros Hi Hc Hm.
  eapply (mfor_ok (fun s => jobs_inv None s /\ covered s)) in Hm as [_ Hc']; [exact Hc'| |done].
  clear s u s' Hi Hc Hm. intros p s u s' _ [Hi Hc] Hm.
  pose proof (settle_processor_removes _ _ _ _ _ _ _ Hm) as (_ & _ & _ & Hi').
  split; [by apply Hi'|]. unfold settle_processor in Hm.
  apply bind_ok in Hm as ([] & s1 & <-%modify_ok & Hm).
  apply bind_ok in Hm as (a & s2 & [Ha <-]%gets_ok & Hm).
  apply bind_ok in Hm as ([] & s3 & <-%modify_ok & Hm).
  match type of Hm with _ ?t = _ => assert (covered t) as Hct by by apply (covered_view s) end.
  destruct a as [a|]; [|by apply ret_ok in Hm as [_ <-]].
  assert (0 <= fee_per_execution a) as Hfee.
  { destruct (ji_match _ _ Hi _ _ _ Ha) as (r' & _ & [Hf _]). lia. }
  assert (forall s s', (if acknowledged a then handle_reward j (fee_per_execution a) else ret tt) s
            = (Ok u, s') -> covered s -> covered s') as Hpay.
  { intros t1 t2 Hp Ht. destruct (acknowledged a); [|by apply ret_ok in Hp as [_ <-]].
    exact (handle_reward_covered _ _ _ _ _ Ht Hfee Hp). }
  destruct (execution a); [by eapply Hpay|].
  apply bind_ok in Hm as (nx & s4 & Hnx & Hm). apply readonly_ok in Hnx as ->; [|apply ro_next_index].
  destruct (negb _); [by apply ret_ok in Hm as [_ <-]|by eapply Hpay].
Qed.

Lemma finalize_covered j s u s' :
  covered s -> finalize j s = (Ok u, s') -> covered s' /\ reserved s' j = 0.
Proof.
  intros Hc Hm. unfold finalize in Hm. apply bind_ok in Hm as (n & s1 & Hr & Hm).
  apply refund_covered in Hr as (Hc1 & Hz & _); [|done]. split.
  - eapply hook_covered; [|exact Hc1|exact Hm]. intros x x'. apply (cl_finalize _ laws).
  - apply jext_try_ok in Hm as (x & _ & ->). exact Hz.
Qed.

Lemma market_deregister_covered j s u s' :
  jobs_inv None s -> covered s -> market_deregister_hook j s = (Ok u, s') ->
  covered s' /\ reserved s' j = 0.
Proof.
  intros Hi Hc Hm. unfold market_deregister_hook in Hm.
  apply bind_ok in Hm as (st & s1 & [Hst <-]%gets_ok & Hm).
  apply bind_ok in Hm as (job_status & s1 & [-> <-]%ok_or_ok & Hm).
  apply bind_ok in Hm as (r & s1 & Hr & Hm). apply readonly_ok in Hr as ->; [|apply ro_get_registration].
  apply bind_ok in Hm as ([] & s1 & <-%modify_ok & Hm).
  match type of Hm with _ ?t = _ => assert (jobs_inv None t /\ covered t) as [H1 Hc1]
    by (split; [by apply (jobs_inv_view None s)|by apply (covered_view s)]); set (s1 := t) in * end.
  clearbody s1.
  assert (forall (m : MJ unit) s s', framed bview m -> m s = (Ok u, s') ->
            covered s /\ reserved s j = 0 -> covered s' /\ reserved s' j = 0) as Hrest.
  { intros m t t' Hf Hr' [Ht Hz]. split; [by eapply covered_framed|].
    pose proof (Hf _ _ _ Hr') as Hv. unfold reserved. by injection Hv as -> _. }
  destruct job_status.
  - apply bind_ok in Hm as ([] & s2 & Hf & Hm). apply finalize_covered in Hf; [|done].
    eapply Hrest; [|exact Hm|exact Hf]. unfold remove_job_status. solve_framed.
  - apply bind_ok in Hm as ([] & s2 & Hf & Hm). apply finalize_covered in Hf; [|done].
    eapply Hrest; [|exact Hm|exact Hf]. unfold remove_job_status. solve_framed.
  - apply bind_ok in Hm as (t & s2 & Hno & Hm). apply readonly_ok in Hno as ->; [|apply ro_now].
    apply bind_ok in Hm as (l & s2 & [_ <-]%gets_ok & Hm).
    apply bind_ok in Hm as ([] & s2 & Hd & Hm). apply settle_loop_covered in Hd; [|done..].
    apply bind_ok in Hm as ([] & s3 & Hf & Hm). apply finalize_covered in Hf; [|done].
    eapply Hrest; [|exact Hm|exact Hf]. unfold remove_job_status. solve_framed.
Qed.

Lemma deregister_for_covered j s u s' :
  jobs_inv None s -> covered s -> deregister_for j s = (Ok u, s') -> covered s' /\ reserved s' j = 0.
Proof.
  intros Hi Hc Hm. unfold deregister_for in Hm. apply bind_ok in Hm as ([] & s1 & Hh & Hm).
  apply market_deregister_covered in Hh as [Hc1 Hz]; [|done..].
  match type of Hm with ?m _ = _ => assert (framed bview m) as Hf by solve_framed end.
  split; [by eapply covered_framed|].
  pose proof (Hf _ _ _ Hm) as Hv. unfold reserved. by injection Hv as -> _.
Qed.

(** ** Registering *)
Lemma register_hook_covered j r s u s' :
  registration_typed r -> covered s -> ~ payer_is pallet_account j ->
  market_register_hook j r s = (Ok u, s') -> covered s'.
Proof.
  intros [] Hc Hp Hm. unfold market_register_hook in Hm.
  do 2 apply bind_ok in Hm as ([] & ? & [_ <-]%ensure_ok & Hm).
  apply bind_ok in Hm as ([] & ? & [Hcount%Z.ltb_lt <-]%ensure_ok & Hm).
  apply bind_ok in Hm as ([] & ? & [_ <-]%ensure_ok & Hm).
  skip_read Hm as t. do 2 apply bind_ok in Hm as ([] & ? & [_ <-]%ensure_ok & Hm).
  apply bind_ok in Hm as ([] & ? & [Hs%Z.ltb_lt <-]%ensure_ok & Hm).
  apply bind_ok in Hm as ([] & ? & [_ <-]%ensure_ok & Hm).
  apply bind_ok in Hm as (st & s1 & [_ <-]%gets_ok & Hm).
  apply bind_ok in Hm as ([] & s1 & H1 & Hm).
  apply (covered_framed (match st with Some _ => _ | None => _ end)) in H1; [|solve_framed|done].
  apply bind_ok in Hm as ([] & s2 & H2 & Hm).
  eapply (covered_framed (match _ with Single _ => _ | Competing => _ end)) in H2;
    [|solve_framed|done].
  apply bind_ok in Hm as (tot & s3 & Ht & Hm).
  pose proof Ht as E. apply readonly_ok in E as ->; [|apply ro_total_reward_amount].
  assert (0 <= tot) as Htot.
  { unfold total_reward_amount in Ht.
    apply bind_ok in Ht as (p & s3 & [[-> _]%checked_mul_Some <-]%ok_or_ok & Ht).
    apply ok_or_ok in Ht as [[-> _]%checked_mul_Some _].
    nia. }
  exact (lock_reward_covered _ _ _ _ _ H2 Htot Hp Hm).
Qed.

Lemma register_for_covered j r mm s u s' :
  registration_typed r -> covered s -> ~ payer_is pallet_account j ->
  register_for j r mm s = (Ok u, s') -> covered s'.
Proof.
  intros Ht Hc Hp Hm. unfold register_for in Hm.
  apply bind_ok in Hm as ([] & ? & [_ <-]%ensure_ok & Hm).
  apply bind_ok in Hm as ([] & s1 & Ha & Hm).
  eapply covered_framed in Ha; [|solve_framed|done].
  apply bind_ok in Hm as ([] & s2 & <-%modify_ok & Hm).
  apply bind_ok in Hm as ([] & s3 & Hmm & Hm).
  eapply covered_framed in Hmm; [|solve_framed|by apply (covered_view s1)].
  apply bind_ok in Hm as ([] & s4 & Hh & Hd).
  eapply register_hook_covered in Hh; [|done..]. by eapply covered_framed; [apply bv_deposit|..].
Qed.

(** ** All calls

    Nobody holds the key of the pallet's account, so no call is signed by it and
    no foreign job is paid by it. *)
Definition origin_ok (o : RuntimeOrigin) : Prop := o <> Signed pallet_account.
Definition payer_ok (m : JobMessage) : Prop :=
  match m with
  | RegisterFor j _ _ => ~ payer_is pallet_account j
  | _ => True
  end.

Lemma ensure_signed_ok o s who s' : ensure_signed o s = (Ok who, s') -> o = Signed who /\ s' = s.
Proof. destruct o; simpl; [by intros [= -> ->]|by intros []%throw_ok]. Qed.

Lemma deploy_covered o r m k l s u s' :
  registration_typed r -> covered s -> origin_ok o -> deploy o r m k l s = (Ok u, s') -> covered s'.
Proof.
  intros Ht Hc Ho Hm. unfold deploy in Hm.
  apply bind_ok in Hm as (who & s1 & [-> ->]%ensure_signed_ok & Hm).
  apply bind_ok in Hm as (id & s1 & Hn & Hm).
  eapply covered_framed in Hn; [|apply bv_next_job_id|done].
  apply bind_ok in Hm as ([] & s2 & H2 & Hm).
  eapply covered_framed in H2; [|unfold deploy_immutable, derive_editor_and_key; solve_framed|done].
  apply bind_ok in Hm as ([] & s3 & <-%modify_ok & Hm).
  eapply register_for_covered; [exact Ht| | |exact Hm]; [by apply (covered_view s2)|].
  intros [= ->]. by apply Ho.
Qed.

Lemma register_call_covered o r mm s u s' :
  registration_typed r -> covered s -> origin_ok o ->
  (let* who := ensure_signed o in let* id := next_job_id in register_for (Acurast who, id) r mm) s
    = (Ok u, s') -> covered s'.
Proof.
  intros Ht Hc Ho Hm. apply bind_ok in Hm as (who & s1 & [-> ->]%ensure_signed_ok & Hm).
  apply bind_ok in Hm as (id & s1 & Hn & Hm).
  eapply covered_framed in Hn; [|apply bv_next_job_id|done].
  eapply register_for_covered; [exact Ht|exact Hn| |exact Hm]. intros [= ->]. by apply Ho.
Qed.

Lemma run_call_covered o c s u s' :
  call_typed c -> origin_ok o -> jobs_inv None s -> covered s ->
  run_call o c s = (Ok u, s') -> covered s'.
Proof.
  intros Ht Ho Hi Hc Hm. destruct c; simpl in Hm, Ht.
  all: try (eapply covered_framed; [|exact Hm|exact Hc];
            solve [unfold set_environment, set_environments, update_certificate_revocation_list,
              update_allowed_sources, update_allowed_sources_hook, market_hooks,
              market_update_allowed_sources_hook,
              advertise, delete_advertisement, propose_matching, propose_execution_matching,
              finalize_job, finalize_jobs, cleanup_storage, cleanup_assignments,
              cleanup_assignments_for, cleanup_job_assignments, cleanup_job_matcher,
              update_min_fee_per_millisecond, update_price_settings, edit_script, transfer_editor;
              solve_framed]).
  - exact (register_call_covered _ _ _ _ _ _ Ht Hc Ho Hm).
  - exact (register_call_covered _ _ _ _ _ _ Ht Hc Ho Hm).
  - unfold deregister in Hm. skip_read Hm as who. by eapply deregister_for_covered.
  - unfold acknowledge_match in Hm. skip_read Hm as who. by eapply process_acknowledge_match_covered.
  - unfold acknowledge_execution_match in Hm. skip_read Hm as who.
    by eapply process_acknowledge_match_covered.
  - unfold report in Hm. skip_read Hm as who. apply bind_ok in Hm as (a & s1 & Hr & Hm).
    eapply do_report_covered in Hr; [|done..]. eapply covered_framed; [|exact Hm|exact Hr]. solve_framed.
  - exact (deploy_covered _ _ _ _ _ _ _ _ Ht Hc Ho Hm).
Qed.

Lemma run_message_covered m s u s' :
  message_typed m -> payer_ok m -> jobs_inv None s -> covered s ->
  run_message m s = (Ok u, s') -> covered s'.
Proof.
  intros Ht Hp Hi Hc Hm. destruct m; simpl in Hm, Ht, Hp.
  - by eapply register_for_covered.
  - by eapply deregister_for_covered.
  - exact (covered_framed _ _ _ _ (bv_set_environment_for _ _) Hm Hc).
Qed.

(** A step of the chain: what happens outside of the pallets does not take from the
    pallet's account. *)
Inductive solvent_step : State -> State -> Prop :=
| solvent_call origin c s :
    call_typed c -> origin_ok origin -> solvent_step s (exec (dispatch origin c) s)
| solvent_message m s :
    message_typed m -> payer_ok m -> solvent_step s (exec (dispatch_message m) s)
| solvent_outside x att s :
    bal s.(jext) pallet_account <= bal x pallet_account ->
    solvent_step s (set_jext x (set_stored_attestation att s)).

Lemma solvent_step_inv s s' :
  solvent_step s s' -> jobs_inv None s /\ covered s -> jobs_inv None s' /\ covered s'.
Proof.
  intros [o c t Ht Ho|m t Ht Hp|x att t Hx] [Hi Hc].
  - split; [apply (jobs_inv_step (co_min_price _ cfg) t); [by constructor|done]|].
    apply (transaction_pres covered); [|done]. intros t'. by apply run_call_covered.
  - split; [apply (jobs_inv_step (co_min_price _ cfg) t); [by constructor|done]|].
    apply (transaction_pres covered); [|done]. intros t'. by apply run_message_covered.
  - split; [by apply (jobs_inv_view None t)|]. destruct Hc as [Ht Hb].
    split; [unfold budgets_total in *; simpl; lia|done].
Qed.

Lemma solvent_reach s s' :
  rtc solvent_step s s' -> jobs_inv None s /\ covered s -> jobs_inv None s' /\ covered s'.
Proof. induction 1; eauto using solvent_step_inv. Qed.
End solvency.
