(* ===== verification/JobReference.v ===== *)
(** A concrete instance of the parameters of the job pallets, and a run of them.

    [reference_market] is a currency that keeps balances, with an existential deposit of
    one, a clock and a table of prices; [market_constants] are the constants of [runtime/acurast-mainnet].  The
    states of the run (a deployment that is advertised for, matched, acknowledged,
    reported and deregistered) are the inputs at which the theorems are
    instantiated. *)
From S2P Require Import Prelude Schedules Attestations JobTypes Reputation Jobs.
From S2P Require Import Payments Reporting Matching Marketplace.

Record MarketExt := mkMarketExt {
  me_balances : gmap Z Z;
  me_clock : Z;
  me_prices : gmap Z Z;
}.
Definition me_balance (x : MarketExt) (who : Z) : Z := default 0 (x.(me_balances) !! who).
Definition me_set (who n : Z) (x : MarketExt) : MarketExt :=
  mkMarketExt (<[who := n]> x.(me_balances)) x.(me_clock) x.(me_prices).
(** The existential deposit: a payment leaves it on the account that pays, and no
    account is created with less. *)
Definition me_deposit : Z := 1.
Definition me_withdraw (from n : Z) (x : MarketExt) : option MarketExt :=
  if (n =? 0) || (n + me_deposit <=? me_balance x from)
  then Some (me_set from (me_balance x from - n) x) else None.
Definition me_put (to n : Z) (x : MarketExt) : option MarketExt :=
  if (n =? 0) || (me_deposit <=? me_balance x to + n) && (me_balance x to + n <=? u128_max)
  then Some (me_set to (me_balance x to + n) x) else None.

(** Base58 with the alphabet of Bitcoin, big endian, a leading [1] for a zero byte *)
Definition base58_digit (c : Z) : option Z :=
  if (49 <=? c) && (c <=? 57) then Some (c - 49)
  else if (65 <=? c) && (c <=? 72) then Some (c - 56)
  else if (74 <=? c) && (c <=? 78) then Some (c - 57)
  else if (80 <=? c) && (c <=? 90) then Some (c - 58)
  else if (97 <=? c) && (c <=? 107) then Some (c - 64)
  else if (109 <=? c) && (c <=? 122) then Some (c - 65)
  else None.
Definition base58_value (l : list Z) : option Z :=
  fold_left (fun acc c => n ← acc; d ← base58_digit c; Some (58 * n + d)) l (Some 0).
Fixpoint big_endian (fuel : nat) (n : Z) (acc : list Z) : list Z :=
  match fuel with
  | O => acc
  | S fuel' => if n =? 0 then acc else big_endian fuel' (n / 256) (n mod 256 :: acc)
  end.
Fixpoint leading_ones (l : list Z) : list Z :=
  match l with
  | 49 :: l' => 0 :: leading_ones l'
  | _ => []
  end.
Definition base58_decode (l : list Z) : option (list Z) :=
  n ← base58_value l; Some (leading_ones l ++ big_endian (length l) n []).

Definition account_of_origin (o : MultiOrigin) : Z :=
  match o with
  | Acurast who => 8 * who
  | AlephZero who => 8 * who + 1
  | Vara who => 8 * who + 2
  | Ethereum20 a => 8 * a + 3
  | Solana a => 8 * a + 4
  | AcurastCanary who => 8 * who + 5
  | Tezos l => 8 * fold_left (fun h b => 256 * h + b) l 1 + 6
  | Ethereum l => 8 * fold_left (fun h b => 256 * h + b) l 1 + 7
  end.

#[export] Instance reference_market : JobExternals := {|
  JExt := MarketExt;
  currency_transfer from to n x := x' ← me_withdraw from n x; me_put to n x';
  currency_withdraw from n x := x' ← me_withdraw from n x; Some (n, x');
  ou_on_unbalanced credit x := x;
  unix_now_millis := me_clock;
  processor_version_of x who := None;
  last_processor_metric x who pool := None;
  price_per_millisecond_for x who := x.(me_prices) !! who;
  hook_assign_job job_id keys x := Some x;
  hook_finalize_job job_id n x := Some x;
  deployment_hash_of o script := fold_left (fun h b => 256 * h + b) script (account_of_origin o);
  key_id_hash_of job_id := 2 ^ 64 * account_of_origin job_id.1 + job_id.2;
  from_base58 := base58_decode;
  job_key job_id := 2 ^ 64 * account_of_origin job_id.1 + job_id.2;
  account_key who := who;
  clear_prefix_keys limit keys := take (Z.to_nat limit) keys;
|}.

#[export] Instance market_constants : JobConfig := {|
  MaxAllowedSources := 1000;
  MaxSlots := 64;
  MaxAllowedConsumers := 100;
  MatchingCompetingMinInterval := 300000;
  MatchingCompetingDueDelta := 300000;
  ReportTolerance := 120000;
  DefaultMinPrice := 1;
  DefaultPriceMultiplier := 10 ^ 18;
  pallet_account := 1000;
  hyperdrive_pallet_account := 1001;
  fee_pallet_account := 1002;
  get_fee_percentage := 30;
  get_matcher_percentage := 10;
  UpdateOrigin o := match o with Root => true | Signed _ => false end;
  OperatorOrigin o := match o with Root => true | Signed _ => false end;
|}.

#[export] Instance reference_apps : AllowedApps := {|
  PackageNames := []; SignatureDigests := []; CorePackageNames := []; LitePackageNames := [];
  CoreSignatureDigests := []; LiteSignatureDigests := []; BundleIds := [];
|}.

(** * A run *)

Definition a_script : list Z :=
  [105; 112; 102; 115; 58; 47; 47; 81; 109; 78; 81; 97; 116; 119; 120; 89; 114; 118; 120; 52; 53; 74; 72; 122; 65; 76; 101; 53; 52; 98; 101; 51; 75; 84; 66; 86; 81; 114; 76; 116; 72; 100; 80; 102; 107; 109; 118; 78; 78; 104; 81; 107; 119].
Definition b_script : list Z := removelast a_script ++ [120].

(** Three executions of 5 ms, 20 s apart. *)
Definition a_schedule : Schedule :=
  mkSchedule 5 100000 160000 20000 0.
Definition a_job (strategy : AssignmentStrategy) : JobRegistration := {|
  script := a_script; allowed_sources := None; allow_only_verified_sources := false;
  schedule := a_schedule; memory := 1; network_requests := 0; storage := 1;
  required_modules := [];
  extra := {| assignment_strategy := strategy; slots := 1; reward := 50; min_reputation := None;
              processor_version := None; runtime := NodeJS |};
|}.
Definition an_ad : Advertisement := {|
  ad_pricing := {| fee_per_millisecond := 1; fee_per_storage_byte := 0;
                   base_fee_per_execution := 1; scheduling_window := Delta 10 |};
  ad_max_memory := 10; ad_network_request_quota := 1; ad_storage_capacity := 1;
  ad_allowed_consumers := None; ad_available_modules := [];
|}.

(** The consumer 1, the processor 7, the matcher 9. *)
Definition job_one : JobId := (Acurast 1, 1).
Definition at_time (t : Z) (s : State) : State :=
  set_jext (mkMarketExt s.(jext).(me_balances) t s.(jext).(me_prices)) s.

Definition market_genesis : State :=
  genesis (mkMarketExt (<[1 := 1000]> (<[1000 := 1]> (<[1002 := 1]> ∅))) 0 (<[7 := 2]> ∅)).
Definition run (origin : Z) (c : Call) (s : State) : State := exec (dispatch (Signed origin) c) s.

Definition m_advertised : State := run 7 (Advertise an_ad) market_genesis.
Definition m_deployed : State :=
  run 1 (Deploy (a_job (Single None)) (Mutable None) None None) m_advertised.
Definition m_matched : State :=
  run 9 (ProposeMatching [{| m_job_id := job_one; m_sources := [{| pe_source := 7; pe_start_delay := 0 |}] |}])
    m_deployed.
Definition m_acknowledged : State := run 7 (AcknowledgeMatch job_one []) m_matched.
Definition m_reported : State :=
  run 7 (Report job_one (Success [])) (at_time 100003 m_acknowledged).
Definition m_deregistered : State := run 1 (Deregister 1) m_reported.

Example run_balances :
  (fun s => (me_balance s.(jext) 1, me_balance s.(jext) 1000, me_balance s.(jext) 9,
             reserved s job_one))
    <$> [m_advertised; m_deployed; m_matched; m_acknowledged; m_reported; m_deregistered]
  = [(1000, 1, 0, 0); (850, 151, 0, 150); (850, 151, 0, 150); (850, 139, 9, 138);
     (850, 129, 9, 128); (968, 1, 9, 0)].
Proof. vm_compute. reflexivity. Qed.
