(* ===== verification/MatchSpecs.v ===== *)
(** What the matching of a processor with a job promises about its time: the
    executions it takes on never run at the same time as those it already has. *)
From S2P Require Import Prelude Schedules ScheduleSpecs Attestations JobTypes Reputation Jobs.
From S2P Require Import Payments Reporting Matching Marketplace JobFrames JobInvariant JobReference.

(** ** Pairwise relations on lists *)
Section pairwise.
Context {T : Type} (P : T -> T -> Prop).
Fixpoint pairwise (l : list T) : Prop :=
  match l with
  | [] => True
  | x :: l' => Forall (P x) l' /\ pairwise l'
  end.

Lemma pairwise_app l1 l2 :
  pairwise (l1 ++ l2) -> forall x y, x ∈ l1 -> y ∈ l2 -> P x y.
Proof.
  induction l1 as [|z l1 IH]; simpl; [by intros _ x y ?%not_elem_of_nil|].
  intros [Hz Hp] x y [->|Hx]%elem_of_cons Hy; [|by apply IH].
  rewrite Forall_forall in Hz. apply Hz. set_solver.
Qed.

Lemma pairwise_perm l1 l2 :
  (forall x y, P x y -> P y x) -> l1 ≡ₚ l2 -> pairwise l1 -> pairwise l2.
Proof.
  intros Hs. induction 1 as [|x l1 l2 Hp IH|x y l|l1 l2 l3 _ IH1 _ IH2]; simpl; [done| | |by auto].
  - intros [Hx Hl]. split; [by rewrite <-Hp|by apply IH].
  - intros [[Hyx Hy]%Forall_cons [Hx Hl]]. split; [|done].
    apply Forall_cons. split; [by apply Hs|done].
Qed.
End pairwise.

(** Two stretches of time that have no moment in common *)
Definition disjoint_times (x y : option (Z * Z)) : Prop :=
  match x, y with
  | Some (a, b), Some (c, d) => b <= c \/ d <= a
  | _, _ => False
  end.
Lemma disjoint_times_sym x y : disjoint_times x y -> disjoint_times y x.
Proof. destruct x as [[]|], y as [[]|]; simpl; tauto. Qed.

Section matching.
Context {X : JobExternals} {C : JobConfig} {A : AllowedApps} {F : FixedOps} {R : RewardManager}.

(** The loop over the merged executions only ends well when they follow each other. *)
Lemma no_collision_pairwise l s e s' :
  (forall a b, Some (a, b) ∈ l -> a < b) ->
  no_collision l s = (Ok e, s') -> pairwise disjoint_times l.
Proof.
  unfold no_collision. generalize 0 as prev. intros prev Hl Hm.
  enough (pairwise disjoint_times l /\ Forall (fun x => exists a b, x = Some (a, b) /\ prev <= a) l)
    by tauto.
  revert prev s Hm. induction l as [|x l IH]; intros prev s Hm; [done|]. simpl in Hm.
  apply bind_ok in Hm as (e1 & s1 & Hx & Hm).
  apply bind_ok in Hx as ([a b] & s2 & [-> <-]%ok_or_ok & Hx).
  destruct (Z.ltb_spec a prev) as [|Hle]; [by apply throw_ok in Hx|].
  apply ret_ok in Hx as [<- <-].
  assert (a < b) as Hab by (apply Hl; set_solver).
  destruct (IH ltac:(set_solver) _ _ Hm) as [Hp Hf]. split; [split; [|done]|].
  - eapply Forall_impl; [exact Hf|]. intros ? (c & d & -> & ?). by left.
  - apply Forall_cons. split; [by eexists _, _|].
    eapply Forall_impl; [exact Hf|]. intros ? (c & d & -> & ?). eexists _, _. split; [done|lia].
Qed.

(** Execution [k] as it is listed for the comparison *)
Definition nth_times (sch : Schedule) (delay k : Z) : option (Z * Z) :=
  Some (exec_start sch delay k, exec_start sch delay k + sch.(duration)).

Lemma executions_spec sch delay it :
  registrable sch -> fits_u64 sch delay -> iter sch delay = Some it ->
  executions sch it = nth_times sch delay <$> seqZ 0 (execution_count sch).
Proof.
  intros Hr Hf Hit. unfold executions. rewrite (collect_enough sch delay) by done.
  rewrite <-list_fmap_compose. apply list_fmap_ext. intros i k Hk.
  apply list_elem_of_lookup_2, elem_of_seqZ in Hk. simpl.
  pose proof (exec_start_bound sch delay k Hr Hf ltac:(lia)). pose proof Hr as []. destruct Hf.
  rewrite (proj2 (checked_add_Some _ _ _ _)) by (split; [reflexivity|lia]). done.
Qed.

Lemma executions_proper sch delay it :
  registrable sch -> fits_u64 sch delay -> iter sch delay = Some it ->
  forall a b, Some (a, b) ∈ executions sch it -> a < b.
Proof.
  intros Hr Hf Hit a b. rewrite (executions_spec sch delay) by done.
  intros (k & [= -> ->] & _)%list_elem_of_fmap. pose proof Hr as []. lia.
Qed.

Lemma elem_of_executions sch delay it k :
  registrable sch -> fits_u64 sch delay -> iter sch delay = Some it ->
  0 <= k < execution_count sch -> nth_times sch delay k ∈ executions sch it.
Proof.
  intros Hr Hf Hit Hk. rewrite (executions_spec sch delay) by done.
  apply list_elem_of_fmap. exists k. split; [done|]. apply elem_of_seqZ. lia.
Qed.

Lemma all_against_all sch delay other delay' it it' s e s' :
  registrable sch -> fits_u64 sch delay -> iter sch delay = Some it ->
  registrable other -> fits_u64 other delay' -> iter other delay' = Some it' ->
  no_collision (list_merge bounds_le (executions sch it) (executions other it')) s = (Ok e, s') ->
  forall k k', 0 <= k < execution_count sch -> 0 <= k' < execution_count other ->
  disjoint_times (nth_times sch delay k) (nth_times other delay' k').
Proof.
  intros Hr Hf Hit Hr' Hf' Hit' Hm k k' Hk Hk'.
  pose proof (merge_Permutation bounds_le (executions sch it) (executions other it')) as Hp.
  apply no_collision_pairwise in Hm.
  - apply (pairwise_perm _ _ _ disjoint_times_sym Hp) in Hm.
    eapply (pairwise_app _ _ _ Hm); by apply elem_of_executions.
  - intros a b. rewrite Hp, elem_of_app.
    intros [Hx|Hx]; [by eapply (executions_proper sch delay)|by eapply (executions_proper other delay')].
Qed.

Lemma nth_execution_ok sch delay k s a b s' :
  registrable sch -> fits_u64 sch delay -> 0 <= k ->
  nth_execution sch delay k s = (Ok (a, b), s') ->
  s' = s /\ nth_times sch delay k = Some (a, b) /\ k < execution_count sch.
Proof.
  intros Hr Hf Hk Hm. unfold nth_execution, overflow in Hm.
  apply bind_ok in Hm as (st & s1 & [Hn <-]%ok_or_ok & Hm).
  apply bind_ok in Hm as (e & s1 & [[-> _]%checked_add_Some <-]%ok_or_ok & [[= <- <-] <-]%ret_ok).
  assert (k < execution_count sch) as Hc.
  { unfold nth_start_time in Hn. destruct (Z.leb_spec (execution_count sch) k); [done|lia]. }
  rewrite nth_start_time_fits in Hn by done. injection Hn as <-. done.
Qed.

(** The executions that a specifier stands for *)
Definition specified (spec : ExecutionSpecifier) (sch : Schedule) (k : Z) : Prop :=
  match spec with
  | All => 0 <= k < execution_count sch
  | Index i => k = i
  end.
Definition valid_specifier (spec : ExecutionSpecifier) : Prop :=
  match spec with All => True | Index i => 0 <= i end.

(** A single execution is compared with a whole schedule by [overlaps], which is
    exact inside the bounds of [overlaps_exact] and when both sides are measured
    with the same delay (the code uses the delay of the new match for both). *)
Definition window_of (whole : Schedule) (whole_delay : Z) (single : Schedule) (delay i : Z) : Prop :=
  whole.(start_time) + whole_delay <= exec_start single delay i /\
  single.(duration) < whole.(interval).
Definition test_is_exact (spec : ExecutionSpecifier) (sch : Schedule) (delay : Z)
  (other : Schedule) (a : Assignment) : Prop :=
  match spec, a.(execution) with
  | All, Index i => window_of sch delay other a.(start_delay) i
  | Index i, All => a.(start_delay) = delay /\ window_of other delay sch delay i
  | _, _ => True
  end.

Lemma overlaps_false sch delay single delay' i k :
  registrable sch -> fits_u64 sch delay -> registrable single ->
  window_of sch delay single delay' i ->
  overlaps sch delay (exec_start single delay' i, exec_start single delay' i + single.(duration))
    = false ->
  0 <= k < execution_count sch ->
  disjoint_times (nth_times sch delay k) (nth_times single delay' i).
Proof.
  intros Hr Hf Hrs [Hst Hlen] Ho Hk. pose proof Hrs as [].
  destruct (overlaps_window sch delay (exec_start single delay' i)
    (exec_start single delay' i + single.(duration)) Hr Hf ltac:(lia) ltac:(lia)) as [_ Hex].
  simpl. destruct (Z.le_gt_cases (exec_start sch delay k + duration sch) (exec_start single delay' i));
    [by left|]. right.
  apply Z.le_ngt. intros Hlt. rewrite Hex in Ho; [done|]. exists k. split; [done|]. split; lia.
Qed.

Lemma fits_assignment_disjoint spec sch delay other a s u s' k k' :
  registrable sch -> fits_u64 sch delay -> registrable other -> fits_u64 other a.(start_delay) ->
  valid_specifier spec -> valid_specifier a.(execution) -> test_is_exact spec sch delay other a ->
  fits_assignment spec sch delay other a s = (Ok u, s') ->
  specified spec sch k -> specified a.(execution) other k' ->
  disjoint_times (nth_times sch delay k) (nth_times other a.(start_delay) k').
Proof.
  unfold test_is_exact, fits_assignment. intros Hr Hf Hr' Hf' Hv Hv' He Hm Hk Hk'.
  destruct spec as [|i], (execution a) as [|i'] eqn:Ea; cbn [specified valid_specifier] in *; subst.
  - apply bind_ok in Hm as (it & s1 & [Hit <-]%ok_or_ok & Hm).
    apply bind_ok in Hm as (it' & s1 & [Hit' <-]%ok_or_ok & Hm).
    apply bind_ok in Hm as (e & s1 & Hn & _).
    by eapply (all_against_all sch delay other (start_delay a) it it').
  - apply bind_ok in Hm as ([c d] & s1 & Hn & Hm).
    apply (nth_execution_ok other) in Hn as (-> & [= <- <-] & _); [|done..].
    destruct (overlaps sch delay _) eqn:Ho; [by apply throw_ok in Hm|].
    by apply overlaps_false.
  - apply bind_ok in Hm as ([c d] & s1 & Hn & Hm).
    apply (nth_execution_ok sch) in Hn as (-> & [= <- <-] & _); [|done..].
    destruct (overlaps other delay _) eqn:Ho; [by apply throw_ok in Hm|].
    destruct He as [Hd Hw]. rewrite Hd in *. apply disjoint_times_sym. by apply overlaps_false.
  - apply bind_ok in Hm as ([c d] & s1 & Hn & Hm).
    apply (nth_execution_ok sch) in Hn as (-> & [= <- <-] & _); [|done..].
    apply bind_ok in Hm as ([c d] & s1 & Hn & Hm).
    apply (nth_execution_ok other) in Hn as (-> & [= <- <-] & _); [|done..].
    destruct (_ && _) eqn:Ho; [by apply throw_ok in Hm|].
    apply andb_false_iff in Ho as [Ho%Z.ltb_ge|Ho%Z.ltb_ge]; simpl; [by left|by right].
Qed.

(** The test that lets [fits_schedule] skip an assignment, where it is exact *)
Lemma skipped_disjoint spec sch delay other a k k' :
  registrable sch -> fits_u64 sch delay -> registrable other -> fits_u64 other a.(start_delay) ->
  sch.(start_time) + delay <= other.(start_time) + a.(start_delay) ->
  exec_start other a.(start_delay) (execution_count other - 1) + other.(duration)
    - (other.(start_time) + a.(start_delay)) < sch.(interval) ->
  overlaps sch delay (range other a.(start_delay)) = false ->
  0 <= k < execution_count sch -> specified spec other k' -> 0 <= k' < execution_count other ->
  disjoint_times (nth_times sch delay k) (nth_times other a.(start_delay) k').
Proof.
  intros Hr Hf Hr' Hf' Hst Hlen Ho Hk _ Hk'. rewrite range_fits in Ho by done.
  pose proof Hr as []. pose proof Hr' as []. pose proof (exec_start_bound other (start_delay a) k' Hr' Hf' Hk') as Hb.
  pose proof (execution_count_range other Hr').
  assert (exec_start other (start_delay a) k' <= exec_start other (start_delay a) (execution_count other - 1))
    by (unfold exec_start; nia).
  destruct (overlaps_window sch delay (start_time other + start_delay a)
    (exec_start other (start_delay a) (execution_count other - 1) + duration other) Hr Hf
    ltac:(lia) ltac:(lia)) as [_ Hex].
  simpl. destruct (Z.le_gt_cases (exec_start sch delay k + duration sch) (exec_start other (start_delay a) k'));
    [by left|]. right.
  apply Z.le_ngt. intros Hlt. rewrite Hex in Ho; [done|]. exists k. split; [done|]. split; lia.
Qed.

Lemma mfor_readonly {T} (l : list T) (f : T -> MJ unit) s u s' x :
  (forall y, framed (fun s : State => s) (f y)) -> mfor l f s = (Ok u, s') -> x ∈ l ->
  f x s = (Ok tt, s).
Proof.
  intros Hf. induction l as [|y l IH]; simpl; [by intros _ ?%not_elem_of_nil|].
  intros ([] & Hy & Hm)%bind_readonly_ok; [|done]. intros [->|Hx]%elem_of_cons; [done|by apply IH].
Qed.

Lemma fits_schedule_each src spec sch delay s u s' j a r :
  fits_schedule src spec sch delay s = (Ok u, s') ->
  s.(stored_matches) !! (src, j) = Some a -> s.(stored_job_registration) !! j = Some r ->
  is_invalid a r.(schedule) (unix_now_millis s.(jext)) ReportTolerance = false ->
  overlaps sch delay (range r.(schedule) a.(start_delay)) = true ->
  fits_assignment spec sch delay r.(schedule) a s = (Ok tt, s).
Proof.
  intros Hm Ha Hr Hinv Ho. unfold fits_schedule in Hm.
  apply bind_ok in Hm as (t & s1 & Hn & Hm). unfold now in Hn.
  apply bind_ok in Hn as (x & s2 & [<- <-]%gets_ok & Hn).
  apply bind_ok in Hn as ([] & s2 & [_ <-]%ensure_ok & [<- <-]%ret_ok).
  apply bind_ok in Hm as (l & s1 & [<- <-]%gets_ok & Hm).
  apply (mfor_readonly _ _ _ _ _ (j, a)) in Hm.
  - cbv beta iota in Hm. rewrite (bind_run _ _ (Some r) s s) in Hm by (unfold gets; by rewrite Hr).
    rewrite Hinv, Ho in Hm. exact Hm.
  - clear Hm Hinv Ho. intros [j' a']. apply framed_bind; [solve_framed|]. intros [r'|]; [|solve_framed].
    destruct (is_invalid _ _ _ _); [solve_framed|]. destruct (negb _); [solve_framed|].
    apply ro_fits_assignment.
  - unfold matches_of. by apply elem_of_prefix_entries.
Qed.
End matching.

(** C34: when the schedule check of a match succeeds for a processor, no execution
    it would take on runs at the same time as an execution of any job it is
    already matched with (unless that match has lapsed), wherever the overlap test
    that the check starts from is exact. *)
Theorem matched_executions_are_disjoint {X : JobExternals} {C : JobConfig}
  (src : AccountId) (spec : ExecutionSpecifier) (sch : Schedule) (delay : Z) (s s' : State)
  (j : JobId) (a : Assignment) (r : JobRegistration) (k k' : Z) :
  fits_schedule src spec sch delay s = (Ok tt, s') ->
  s.(stored_matches) !! (src, j) = Some a -> s.(stored_job_registration) !! j = Some r ->
  is_invalid a r.(schedule) (unix_now_millis s.(jext)) ReportTolerance = false ->
  registrable sch -> fits_u64 sch delay ->
  registrable r.(schedule) -> fits_u64 r.(schedule) a.(start_delay) ->
  valid_specifier spec -> valid_specifier a.(execution) ->
  test_is_exact spec sch delay r.(schedule) a ->
  overlaps sch delay (range r.(schedule) a.(start_delay)) = true \/
  (sch.(start_time) + delay <= r.(schedule).(start_time) + a.(start_delay) /\
   exec_start r.(schedule) a.(start_delay) (execution_count r.(schedule) - 1)
     + r.(schedule).(duration) - (r.(schedule).(start_time) + a.(start_delay)) < sch.(interval)) ->
  0 <= k < execution_count sch -> specified spec sch k ->
  0 <= k' < execution_count r.(schedule) -> specified a.(execution) r.(schedule) k' ->
  disjoint_times (nth_times sch delay k) (nth_times r.(schedule) a.(start_delay) k').
Proof.
  intros Hm Ha Hr Hinv Hs Hf Hs' Hf' Hv Hv' He Hpre Hk Hsk Hk' Hsk'.
  destruct (overlaps sch delay (range (schedule r) (start_delay a))) eqn:Ho.
  - pose proof (fits_schedule_each _ _ _ _ _ _ _ _ _ _ Hm Ha Hr Hinv Ho) as Hfit.
    exact (fits_assignment_disjoint _ _ _ _ _ _ _ _ _ _ Hs Hf Hs' Hf' Hv Hv' He Hfit Hsk Hsk').
  - destruct Hpre as [[=]|[Hst Hlen]]. by eapply skipped_disjoint.
Qed.

(** The schedule of the next job that the processor 7 could take on after the run
    of [JobReference.v], every 7 s between the executions of the first. *)
Definition b_schedule : Schedule := mkSchedule 5 94000 140000 7000 0.

Lemma matched_executions_are_disjoint_witness :
  disjoint_times (nth_times b_schedule 0 1) (nth_times a_schedule 0 2).
Proof.
  assert (result (fits_schedule (C := market_constants) 7 All b_schedule 0) m_matched = Ok tt) as Hm by by_compute.
  destruct (m_matched.(stored_matches) !! (7, job_one)) as [a|] eqn:Ha; [|exfalso; revert Ha; by_compute].
  assert (bool_decide ((start_delay <$> m_matched.(stored_matches) !! (7, job_one)) = Some 0) = true) as Hd by by_compute.
  assert (bool_decide ((execution <$> m_matched.(stored_matches) !! (7, job_one)) = Some All) = true) as He by by_compute.
  assert (bool_decide ((schedule <$> m_matched.(stored_job_registration) !! job_one) = Some a_schedule) = true) as Hs by by_compute.
  apply bool_decide_eq_true in Hd, He, Hs. rewrite Ha in Hd, He. injection Hd as Hd. injection He as He.
  apply fmap_Some in Hs as (r & Hr & Hs).
  assert (is_invalid a r.(schedule) (unix_now_millis m_matched.(jext)) ReportTolerance = false) as Hi.
  { unfold is_invalid. rewrite <-Hs, Hd, He. destruct (acknowledged a); by_compute. }
  assert (registrable b_schedule) as Hb by (split; by_compute).
  assert (registrable a_schedule) as Har by (split; by_compute).
  assert (fits_u64 b_schedule 0) as Hbf by (split; by_compute).
  assert (fits_u64 a_schedule 0) as Haf by (split; by_compute).
  pose proof (matched_executions_are_disjoint 7 All b_schedule 0 m_matched _ job_one a r 1 2
    (result_exec _ _ _ Hm) Ha Hr Hi Hb Hbf) as Hx.
  unfold test_is_exact in Hx. rewrite <-Hs, Hd, He in Hx.
  assert (0 <= 1 < execution_count b_schedule) as Hk by by_compute.
  assert (0 <= 2 < execution_count a_schedule) as Hk' by by_compute.
  assert (overlaps b_schedule 0 (range a_schedule 0) = true) as Ho by by_compute.
  exact (Hx Har Haf I I I (or_introl Ho) Hk Hk Hk' Hk').
Defined.

(** ** Where the overlap test is not exact, double bookings pass

    The processor 7 is booked for 5 ms every 20 s from 100008 on.  A second job
    for 5 ms every 20 s from 120006 on collides with the second execution, but its
    schedule starts later than the first one, and the test then takes the start
    itself for the offset: the check succeeds. *)
Definition booked_schedule : Schedule := mkSchedule 5 100008 150000 20000 0.
Definition colliding_schedule : Schedule := mkSchedule 5 120006 150000 20000 0.
Definition booked : State :=
  put_match 7 job_one
    {| slot := 0; start_delay := 0; fee_per_execution := 10; acknowledged := true;
       sla := mkSLA 3 0; pub_keys := []; execution := All |}
    (set_stored_job_registration
       {[job_one := {| script := a_script; allowed_sources := None;
                       allow_only_verified_sources := false; schedule := booked_schedule;
                       memory := 1; network_requests := 0; storage := 1; required_modules := [];
                       extra := (a_job (Single None)).(extra) |}]} market_genesis).

Lemma double_booking_accepted :
  result (fits_schedule 7 All colliding_schedule 0) booked = Ok tt /\
  ~ disjoint_times (nth_times colliding_schedule 0 0) (nth_times booked_schedule 0 1).
Proof. split; [by_compute|]. vm_compute. intros [Hc|Hc]; by apply Hc. Qed.
