(* ===== verification/ReportSpecs.v ===== *)
(** When a report is accepted, and for which execution it counts. *)
From S2P Require Import Prelude Schedules ScheduleSpecs Attestations JobTypes Reputation Jobs.
From S2P Require Import Payments Reporting Matching Marketplace JobFrames JobReference.

Section reports.
Context {X : JobExternals} {C : JobConfig} {A : AllowedApps} {F : FixedOps} {R : RewardManager}.

(** Time [t] is in the reporting window of execution [k]: not before it starts, and
    before the tolerance after its end is over. *)
Definition in_time (sch : Schedule) (delay t k : Z) : Prop :=
  k < execution_count sch /\
  exec_start sch delay k <= t < exec_start sch delay k + sch.(duration) + ReportTolerance.

(** Execution [i] is the one that a report at time [t] is measured against: the
    current one, or the first before the schedule begins. *)
Definition measured_against (sch : Schedule) (delay t i : Z) : Prop :=
  (t < sch.(start_time) + delay /\ i = 0) \/
  (0 <= i < execution_count sch /\ exec_start sch delay i <= t /\
   (t < exec_start sch delay (i + 1) \/ i = execution_count sch - 1)).

Definition windows_fit (sch : Schedule) (delay : Z) : Prop :=
  fits_u64 sch delay /\ 0 <= ReportTolerance /\
  sch.(end_time) + delay + sch.(duration) + ReportTolerance <= u64_max.

Lemma timely_spec r a t k :
  registrable r.(schedule) -> windows_fit r.(schedule) a.(start_delay) -> 0 <= k ->
  is_ok (check_report_is_timely r a t k) = true <-> in_time r.(schedule) a.(start_delay) t k.
Proof.
  intros Hr (Hf & Ht & Hmx) Hk. unfold check_report_is_timely, in_time.
  destruct (Z.lt_ge_cases k (execution_count (schedule r))) as [Hc|Hc].
  - rewrite nth_start_time_fits by done.
    pose proof (exec_start_bound _ _ k Hr Hf ltac:(lia)). pose proof Hr as [].
    unfold saturating_add. rewrite (Z.min_l (exec_start _ _ _ + _)) by lia. rewrite Z.min_l by lia.
    destruct (Z.leb_spec (exec_start (schedule r) (start_delay a) k) t); simpl; [|naive_solver lia].
    destruct (Z.ltb_spec t (exec_start (schedule r) (start_delay a) k + duration (schedule r)
      + ReportTolerance)); simpl; naive_solver lia.
  - unfold nth_start_time. destruct (Z.leb_spec (execution_count (schedule r)) k); [|lia].
    simpl. naive_solver lia.
Qed.

Lemma measured_run sch delay t (s : State) :
  registrable sch -> fits_u64 sch delay -> t <= u64_max ->
  exists o, current_execution_index sch delay t s = (Ok o : outcome DispatchError _, s) /\
    measured_against sch delay t (default 0 o).
Proof.
  intros Hr Hf Ht. destruct (current_execution_run (E:=DispatchError) sch delay t s Hr Hf Ht) as [H1 H2].
  destruct (Z.lt_ge_cases t (start_time sch + delay)) as [Hlt|Hge].
  - exists None. split; [by apply H1|]. by left.
  - destruct (H2 Hge) as (k & Hk & ?). exists (Some k). split; [done|]. right. simpl. tauto.
Qed.

(** The entry of [NextReportIndex] after a report for execution [k]: the next one,
    or nothing if no further report is expected. *)
Definition index_after (a : Assignment) (k : Z) : option Z :=
  match a.(execution) with
  | All => if k + 1 <? a.(sla).(total) then Some (k + 1) else None
  | Index n => if k =? n then None else Some n
  end.

Lemma now_run (s : State) :
  unix_now_millis s.(jext) <= u64_max -> now s = (Ok (unix_now_millis s.(jext)), s).
Proof. intros Ht. unfold now, bind, gets, ensure, ret. by rewrite (proj2 (Z.leb_le _ _) Ht). Qed.

Lemma report_run j p r a s :
  registrable r.(schedule) -> windows_fit r.(schedule) a.(start_delay) ->
  unix_now_millis s.(jext) <= u64_max ->
  (forall k, s.(next_report_index) !! (j, p) = Some k -> 0 <= k < u64_max) ->
  exists i, measured_against r.(schedule) a.(start_delay) (unix_now_millis s.(jext)) i /\
  let e := default i (s.(next_report_index) !! (j, p)) in
  let t := unix_now_millis s.(jext) in
  let timely k := is_ok (check_report_is_timely r a t k) in
  let accept k :=
    (Ok (k - e, index_after a k), put_next_report_index j p (index_after a k) s) in
  update_next_report_index_on_report j p r a s =
    (if i <? e then (Err (MarketErr ExecutionAlreadyReported), s)
     else if timely e || (e =? i) then accept e
     else if timely i then accept i
     else (Err (MarketErr ReportOutsideSchedule), s)).
Proof.
  intros Hr (Hf & Ht & Hmx) Hnow Hidx.
  destruct (measured_run _ _ _ s Hr Hf Hnow) as (o & Ho & Hi). exists (default 0 o). split; [done|].
  pose proof (execution_count_range _ Hr) as Hcount.
  assert (0 <= default 0 o < u64_max) as Hio.
  { destruct Hi as [[_ ->]|[? _]]; [unfold u64_max|]; lia. }
  set (i := default 0 o) in *. cbv zeta. set (t := unix_now_millis (jext s)) in *.
  assert (0 <= default i (s.(next_report_index) !! (j, p)) < u64_max) as He.
  { destruct (s.(next_report_index) !! (j, p)) eqn:E; [by apply Hidx|done]. }
  set (e := default i (s.(next_report_index) !! (j, p))) in *.
  assert (forall k, 0 <= k < u64_max ->
    match execution a with
    | All => if wrapping_add u64_max k 1 <? total (sla a) then Some (wrapping_add u64_max k 1) else None
    | Index index => if negb (k =? index) then Some index else None
    end = index_after a k) as Hidx'.
  { intros k Hk. unfold index_after, wrapping_add, wrap_as. rewrite Z.mod_small by lia.
    destruct (execution a) as [|n]; [done|]. by destruct (k =? n). }
  unfold update_next_report_index_on_report.
  rewrite (bind_run _ _ t s s) by by apply now_run.
  rewrite (bind_run _ _ o s s) by done. fold i.
  rewrite (bind_run _ _ (s.(next_report_index) !! (j, p)) s s) by done. fold e.
  unfold bind at 1, ensure. rewrite Z.leb_antisym. destruct (i <? e) eqn:Hlt; [done|]. simpl.
  apply Z.ltb_ge in Hlt.
  destruct (is_ok (check_report_is_timely r a t e)) eqn:Te; simpl.
  - unfold bind, ret, modify. by rewrite Hidx', Z.sub_diag by done.
  - destruct (Z.eqb_spec e i) as [Heq|Hne]; simpl.
    + unfold bind, ret, modify. by rewrite Hidx', Z.sub_diag by done.
    + destruct (check_report_is_timely r a t i) as [[]|er|] eqn:Ti; simpl.
      * unfold bind, ret, modify. rewrite Hidx' by done. unfold saturating_sub. by rewrite Z.max_r by lia.
      * unfold check_report_is_timely in Ti. repeat case_match; simplify_eq; done.
      * unfold check_report_is_timely in Ti. repeat case_match; simplify_eq.
Qed.
End reports.

(** C33: a report counts for one execution [k], which is the one that is expected
    next or, if that one's reporting window has passed, the current one, and then
    all executions in between count as missed; the index only moves on from [k].
    It is accepted iff the expected execution does not lie in the future and its
    own window or the window of the current one is open, or, whatever the time,
    the expected execution is the one that time is measured against. *)
Theorem report_counts_for_one_execution {X : JobExternals} {C : JobConfig} {A : AllowedApps}
  {F : FixedOps} {R : RewardManager} (j : JobId) (p : AccountId) (r : JobRegistration)
  (a : Assignment) (s : State) :
  let t := unix_now_millis s.(jext) in
  let window := in_time r.(schedule) a.(start_delay) t in
  registrable r.(schedule) -> windows_fit r.(schedule) a.(start_delay) -> t <= u64_max ->
  (forall k, s.(next_report_index) !! (j, p) = Some k -> 0 <= k < u64_max) ->
  exists i, measured_against r.(schedule) a.(start_delay) t i /\
  let e := default i (s.(next_report_index) !! (j, p)) in
  (is_ok (result (update_next_report_index_on_report j p r a) s) = true <->
   e <= i /\ (e = i \/ window e \/ window i)) /\
  forall missing nxt s',
    update_next_report_index_on_report j p r a s = (Ok (missing, nxt), s') ->
    exists k, ((k = e /\ (e = i \/ window e)) \/ (k = i /\ ~ window e /\ window i)) /\
      missing = k - e /\ 0 <= missing /\ nxt = index_after a k /\
      s' = put_next_report_index j p nxt s.
Proof.
  intros t window Hr Hw Ht Hidx. destruct (report_run j p r a s Hr Hw Ht Hidx) as (i & Hi & Hrun).
  exists i. split; [done|]. cbv zeta in Hrun. fold t in Hrun, Hi.
  set (e := default i (s.(next_report_index) !! (j, p))) in *. cbv zeta.
  assert (0 <= i) as Hi0 by (destruct Hi as [[_ ->]|[? _]]; lia).
  assert (0 <= e) as He0.
  { unfold e. destruct (s.(next_report_index) !! (j, p)) eqn:E; [by apply Hidx|done]. }
  pose proof (timely_spec r a t e Hr Hw He0) as Te. pose proof (timely_spec r a t i Hr Hw Hi0) as Ti.
  fold (window e) in Te. fold (window i) in Ti. unfold result. rewrite Hrun.
  destruct (Z.ltb_spec i e) as [Hlt|Hle]; simpl; [split; [split; [done|lia]|by intros ? ? ? [=]]|].
  destruct (is_ok (check_report_is_timely r a t e)); simpl.
  { split; [tauto|]. intros ? ? ? [= <- <- <-]. exists e. split_and!; [|done|lia|done|done]. tauto. }
  assert (~ window e) as Hne by (intros Hx; by apply Te in Hx).
  destruct (Z.eqb_spec e i) as [Heq|Hneq]; simpl.
  { split; [tauto|]. intros ? ? ? [= <- <- <-]. exists e. split_and!; [|done|lia|done|done]. tauto. }
  destruct (is_ok (check_report_is_timely r a t i)); simpl.
  - split; [tauto|]. intros ? ? ? [= <- <- <-]. exists i. split_and!; [|done|lia|done|done]. tauto.
  - split; [split; [done|]|by intros ? ? ? [=]]. intros [_ [?|[?|Hx]]]; [done|done|by apply Ti].
Qed.

(** ** Concrete inputs *)
Definition a_assignment : Assignment :=
  {| slot := 0; start_delay := 0; fee_per_execution := 10; acknowledged := true;
     sla := mkSLA 3 1; pub_keys := []; execution := All |}.
Definition expecting (k t : Z) : State :=
  at_time t (set_next_report_index {[(job_one, 7) := k]} market_genesis).

(** At 141 s the third execution (number 2) runs; the first is still to be reported,
    and both its window and the window of the second are open, too. *)
Lemma report_counts_for_one_execution_witness :
  exists i, measured_against a_schedule 0 141000 i /\
    is_ok (result (update_next_report_index_on_report job_one 7 (a_job (Single None)) a_assignment)
             (expecting 0 141000)) = true.
Proof.
  assert (registrable a_schedule) as Hr by (split; by_compute).
  assert (windows_fit a_schedule 0) as Hw by (split; [split|split]; by_compute).
  assert (unix_now_millis (expecting 0 141000).(jext) <= u64_max) as Ht by by_compute.
  assert (forall k, (expecting 0 141000).(next_report_index) !! (job_one, 7) = Some k -> 0 <= k < u64_max) as Hk.
  { intros k. simpl. rewrite lookup_singleton_eq. intros [= <-]. by_compute. }
  destruct (report_counts_for_one_execution job_one 7 (a_job (Single None)) a_assignment
    (expecting 0 141000) Hr Hw Ht Hk) as (i & Hi & _ & _).
  exists i. split; [exact Hi|by_compute].
Defined.

(** The first report is accepted even before the schedule begins, although the
    documentation of [report] asks for a report during an execution. *)
Lemma early_report_accepted :
  result (update_next_report_index_on_report job_one 7 (a_job (Single None)) a_assignment)
    (expecting 0 1) = Ok (0, Some 1).
Proof. by_compute. Qed.
