(* ===== verification/MarketSpecs.v ===== *)
(** What the marketplace promises to those who use it: its tables stay consistent,
    its account covers what it owes, a job that is removed leaves nothing behind,
    and a consumer whose job nobody has acknowledged gets the budget back.  The second
    part: numbers of jobs are never given twice, and the script of a registered job
    only changes at the request of its editor. *)
From S2P Require Import Prelude Schedules Attestations JobTypes Reputation Jobs Payments.
From S2P Require Import Reporting Matching Marketplace JobFrames JobInvariant JobSolvency JobReference.

Section genesis.
Context {X : JobExternals}.
Lemma jobs_inv_genesis x : jobs_inv None (genesis x).
Proof.
  split; simpl.
  - intros src j. rewrite !lookup_empty. done.
  - intros src j a. by rewrite lookup_empty.
  - intros src j a. by rewrite lookup_empty.
  - intros j. right. rewrite !lookup_empty. done.
  - intros j r. by rewrite lookup_empty.
  - done.
Qed.
Lemma covered_genesis (bal : JExt -> AccountId -> Balance) {C : JobConfig} x :
  0 <= bal x pallet_account -> covered bal (genesis x).
Proof.
  intros Hx. split; [by unfold budgets_total; simpl; rewrite gsum_empty|].
  simpl. intros j b. by rewrite lookup_empty.
Qed.
End genesis.

(** C3: in every state that calls, messages from other pallets and the outside
    world can lead to, the tables of the marketplace agree: a match is in
    [StoredMatches] iff it is in the reverse index [AssignedProcessors]; a match
    belongs to a registered job that is not open any more, costs no more per
    execution than the consumer offers and counts no more reports than are
    expected; a job has a status iff it is registered; and every registered
    schedule is one whose executions exist and do not overlap each other.  This
    holds for every reward manager that keeps to its own storage. *)
Theorem jobs_stay_consistent {X : JobExternals} {C : JobConfig} {A : AllowedApps} {F : FixedOps}
  {R : RewardManager} {RF : RewardFrames R} (x : JExt) (s : State) :
  0 <= DefaultMinPrice -> rtc job_step (genesis x) s -> jobs_inv None s.
Proof. intros Hp Hs. eapply jobs_inv_reach; [done|exact Hs|apply jobs_inv_genesis]. Qed.

(** C2: the balance of the pallet's account is at least the sum of the budgets of
    all jobs in every reachable state (as long as nobody else signs for that
    account), so no payment, matcher fee or refund ever takes the money of another
    job. *)
Theorem account_covers_budgets {X : JobExternals} {C : JobConfig} {A : AllowedApps} {F : FixedOps}
  {FL : FixedLaws F} (bal : JExt -> AccountId -> Balance) (x : JExt) (s : State) :
  currency_laws bal -> config_ok C -> 0 <= bal x pallet_account ->
  rtc (solvent_step bal) (genesis x) s ->
  budgets_total s <= bal s.(jext) pallet_account /\
  forall j, 0 <= reserved s j <= budgets_total s.
Proof.
  intros Hl Hc Hx Hs.
  destruct (solvent_reach _ Hl Hc _ _ Hs) as [_ Hcov].
  { split; [apply jobs_inv_genesis|by apply covered_genesis]. }
  split; [by destruct Hcov|]. intros j. by apply (reserved_le_total bal).
Qed.

(** C31: after a successful [deregister] the job is gone: no registration, status,
    metric requirement, match or entry of the reverse index mentions it, nothing
    is reserved for it, and the consistency of all other jobs is untouched. *)
Theorem deregistered_job_leaves_nothing {X : JobExternals} {C : JobConfig} {A : AllowedApps}
  {F : FixedOps} {FL : FixedLaws F} (bal : JExt -> AccountId -> Balance) (x : JExt)
  (s s' : State) (who id : Z) :
  currency_laws bal -> config_ok C -> 0 <= bal x pallet_account ->
  rtc (solvent_step bal) (genesis x) s ->
  dispatch (Signed who) (Deregister id) s = (Ok tt, s') ->
  let j := (Acurast who, id) in
  s'.(stored_job_registration) !! j = None /\ s'.(stored_job_status) !! j = None /\
  s'.(required_min_metrics) !! j = None /\
  (forall src, s'.(stored_matches) !! (src, j) = None) /\
  (forall src, s'.(assigned_processors) !! (j, src) = None) /\
  reserved s' j = 0 /\ jobs_inv None s'.
Proof.
  intros Hl Hc Hx Hs Hm. destruct (solvent_reach _ Hl Hc _ _ Hs) as [Hi Hcov].
  { split; [apply jobs_inv_genesis|by apply covered_genesis]. }
  unfold dispatch in Hm. rewrite with_transaction_ok in Hm. simpl in Hm. unfold deregister in Hm.
  apply bind_ok in Hm as (w & s1 & [[= ->] ->]%ensure_signed_ok & Hm).
  destruct (deregister_for_ok _ _ _ _ Hi Hm) as (Hi' & H1 & H2 & H3 & H4 & H5).
  destruct (deregister_for_covered _ Hl _ _ _ _ Hi Hcov Hm) as [_ Hz].
  done.
Qed.

(** ** Taking a job back *)
(** What the currency documents of a transfer that preserves the account that pays, in
    terms of its existential deposit [ed]: nothing is needed to transfer nothing;
    otherwise the pallet's account, on which nothing is frozen, keeps the deposit, the
    recipient has at least the deposit afterwards, and its balance does not overflow.
    The hook ends a job of this chain without an error and without a payment. *)
Record payout_laws {X : JobExternals} {C : JobConfig} (bal : JExt -> AccountId -> Balance) (ed : Z)
  : Prop := {
  pl_transfer to n x :
    to <> pallet_account -> 0 <= n ->
    n = 0 \/ n + ed <= bal x pallet_account /\ ed <= bal x to + n <= u128_max ->
    is_Some (currency_transfer pallet_account to n x);
  pl_finalize who id n x :
    exists x', hook_finalize_job (Acurast who, id) n x = Some x' /\ forall a, bal x' a = bal x a;
}.

Section withdrawal.
Context {X : JobExternals} {C : JobConfig} {A : AllowedApps} {F : FixedOps}.
Context (bal : JExt -> AccountId -> Balance) (laws : currency_laws bal).
Context (ed : Z) (pays : payout_laws bal ed).

(** The account of the consumer can take the budget. *)
Definition can_receive (s : State) (who : AccountId) (n : Balance) : Prop :=
  n = 0 \/ ed <= bal s.(jext) who + n <= u128_max.

Lemma finalize_pays_back who id s :
  0 <= reserved s (Acurast who, id) -> reserved s (Acurast who, id) + ed <= bal s.(jext) pallet_account ->
  can_receive s who (reserved s (Acurast who, id)) -> who <> pallet_account ->
  exists s', finalize (Acurast who, id) s = (Ok tt, s') /\
    s'.(stored_job_status) = s.(stored_job_status) /\
    bal s'.(jext) who = bal s.(jext) who + reserved s (Acurast who, id).
Proof.
  intros H0 Hn Hrec Hw.
  assert (is_Some (currency_transfer pallet_account who (reserved s (Acurast who, id)) s.(jext))) as [x Hx].
  { apply (pl_transfer _ _ pays); [done..|]. destruct Hrec; [by left|by right]. }
  destruct (pl_finalize _ _ pays who id (reserved s (Acurast who, id)) x) as (x' & Hx' & Hb).
  pose proof (cl_transfer _ laws _ _ _ _ _ who H0 Hx) as Ht.
  rewrite bool_decide_eq_false_2, bool_decide_eq_true_2 in Ht by done.
  eexists. unfold finalize. cbn -[currency_transfer hook_finalize_job].
  unfold arm_refund, unreserve_remaining, write_budget, transfer_preserve, jext_try, bind, gets,
    modify, ok_or, ret. simpl. rewrite Hx. simpl. rewrite Hx'. simpl.
  split_and!; [done|done|]. rewrite Hb, Ht. lia.
Qed.

(** What the pallet's account has had from the start stays beside the budgets: the
    balances without it obey the same laws. *)
Definition beside (x : JExt) (a : AccountId) : Balance :=
  bal x a - (if bool_decide (a = pallet_account) then ed else 0).
Lemma beside_laws : currency_laws beside.
Proof.
  unfold beside. split; intros.
  - rewrite (cl_transfer _ laws _ _ _ _ _ who H H0). lia.
  - rewrite (cl_withdraw _ laws _ _ _ _ _ who H H0). lia.
  - pose proof (cl_unbalanced _ laws c x). lia.
  - pose proof (cl_assign _ laws _ _ _ _ H). lia.
  - pose proof (cl_finalize _ laws _ _ _ _ H). lia.
Qed.
Lemma beside_step s s' : solvent_step bal s s' -> solvent_step beside s s'.
Proof. intros []; constructor; try done. unfold beside. lia. Qed.

Lemma deposit_stays {FL : FixedLaws F} x s :
  config_ok C -> ed <= bal x pallet_account -> rtc (solvent_step bal) (genesis x) s ->
  jobs_inv None s /\ covered beside s /\ budgets_total s + ed <= bal s.(jext) pallet_account.
Proof.
  intros Hc Hx Hs.
  destruct (solvent_reach _ beside_laws Hc (genesis x) s) as [Hi Hcov].
  { eapply rtc_subrel; [exact beside_step|exact Hs]. }
  { split; [apply jobs_inv_genesis|]. apply covered_genesis. unfold beside.
    rewrite bool_decide_eq_true_2 by done. lia. }
  split_and!; [done|done|]. destruct Hcov as [Hcov _]. unfold beside in Hcov.
  rewrite bool_decide_eq_true_2 in Hcov by done. lia.
Qed.

Lemma drain_total j s :
  exists s', drain_matches j s = (Ok tt, s') /\ s'.(jext) = s.(jext).
Proof.
  destruct (mfor_total (processors_of s j) (fun p =>
    modify (remove_processor j p);; modify (remove_match p j) : MJ unit) s) as [s' Hs'].
  { intros p t. by eexists. }
  assert (drain_matches j s = (Ok tt, s')) as Hd by exact Hs'.
  exists s'. split; [done|].
  assert (framed jext (drain_matches j)) as Hf by (unfold drain_matches; solve_framed).
  exact (Hf _ _ _ Hd).
Qed.
End withdrawal.

(** C35: as long as no processor has acknowledged a job, its consumer can take it
    back at any time: [deregister] succeeds and pays back the whole budget of the
    job.  What it takes is that the pallet's account was given the existential deposit
    at the start - it then always has it beside the budgets -, that the consumer is not
    that account itself, and that the consumer's account exists or the budget is enough
    to create it (and its balance does not overflow). *)
Theorem unacknowledged_job_is_refunded {X : JobExternals} {C : JobConfig} {A : AllowedApps}
  {F : FixedOps} {FL : FixedLaws F} (bal : JExt -> AccountId -> Balance) (ed : Z) (x : JExt)
  (s : State) (who id : Z) :
  currency_laws bal -> config_ok C -> payout_laws bal ed -> ed <= bal x pallet_account ->
  rtc (solvent_step bal) (genesis x) s -> who <> pallet_account ->
  can_receive bal ed s who (reserved s (Acurast who, id)) ->
  s.(stored_job_status) !! (Acurast who, id) ∈ [Some Open; Some Matched] ->
  exists s', dispatch (Signed who) (Deregister id) s = (Ok tt, s') /\
    bal s'.(jext) who = bal s.(jext) who + reserved s (Acurast who, id).
Proof.
  intros Hl Hc Hp Hx Hs Hw Hrec Hst. set (j := (Acurast who, id)) in *.
  destruct (deposit_stays bal Hl ed x s Hc Hx Hs) as (Hi & Hcov & Hed).
  pose proof (reserved_le_total (beside bal ed) s j Hcov) as [H0 Hle].
  destruct (ji_status _ _ Hi j) as [[=]|[Hreg _]].
  set (s1 := set_job_key_ids (delete j s.(job_key_ids)) s).
  destruct (finalize_pays_back bal Hl ed Hp who id s1) as (s2 & Hf & _ & Hbal);
    [done| |done|done|].
  { change (reserved s j + ed <= bal (jext s) pallet_account). lia. }
  fold j in Hf, Hbal. change (reserved s1 j) with (reserved s j) in Hbal. change (jext s1) with (jext s) in Hbal.
  assert (exists st r, s.(stored_job_status) !! j = Some st /\ st ∈ [Open; Matched] /\
            s.(stored_job_registration) !! j = Some r) as (st & r & E1 & Hst' & E2).
  { assert (exists st, s.(stored_job_status) !! j = Some st /\ st ∈ [Open; Matched]) as (st & E & ?)
      by set_solver. destruct Hreg as [r Hr]; [by exists st|]. by exists st, r. }
  enough (exists s', deregister_for j s = (Ok tt, s') /\ s'.(jext) = s2.(jext)) as (s' & Hs' & Ej).
  { exists s'. split; [|by rewrite Ej]. rewrite <-with_transaction_ok in Hs'. exact Hs'. }
  unfold deregister_for. change deregister_hook with market_deregister_hook.
  assert (exists t, market_deregister_hook j s = (Ok tt, t) /\ t.(jext) = s2.(jext)) as (t & Ht & <-).
  { unfold market_deregister_hook.
    rewrite (bind_run _ _ (Some st) s s) by (unfold gets; by rewrite E1).
    rewrite (bind_run _ _ st s s) by done.
    rewrite (bind_run _ _ r s s) by (unfold get_registration, bind, gets; by rewrite E2).
    rewrite (bind_run _ _ tt s s1) by done.
    assert (st = Open \/ st = Matched) as [-> | ->] by set_solver.
    - rewrite (bind_run _ _ _ _ _ Hf). by eexists.
    - rewrite (bind_run _ _ _ _ _ Hf). destruct (drain_total j s2) as (s3 & Hd & <-).
      rewrite (bind_run _ _ _ _ _ Hd). by eexists. }
  rewrite (bind_run _ _ _ _ _ Ht). by eexists.
Qed.

(** ** Concrete inputs *)
Lemma me_balance_set k n x who :
  me_balance (me_set k n x) who = if bool_decide (who = k) then n else me_balance x who.
Proof.
  unfold me_set, me_balance. simpl.
  case_bool_decide; subst; [by rewrite lookup_insert_eq|by rewrite lookup_insert_ne].
Qed.
Lemma me_withdraw_ok from n x x' who :
  me_withdraw from n x = Some x' ->
  me_balance x' who = me_balance x who - (if bool_decide (who = from) then n else 0).
Proof.
  unfold me_withdraw. destruct (_ || _); [|done]. intros [= <-]. rewrite me_balance_set.
  case_bool_decide; subst; lia.
Qed.
Lemma me_put_ok to n x x' who :
  me_put to n x = Some x' ->
  me_balance x' who = me_balance x who + (if bool_decide (who = to) then n else 0).
Proof.
  unfold me_put. destruct (_ || _); [|done]. intros [= <-]. rewrite me_balance_set.
  case_bool_decide; subst; lia.
Qed.

Lemma reference_currency_laws : currency_laws (X := reference_market) me_balance.
Proof.
  split; simpl.
  - intros from to n x x' who Hn (x1 & Hw%(me_withdraw_ok _ _ _ _ who) & Hp%(me_put_ok _ _ _ _ who))%bind_Some.
    lia.
  - intros from n x c x' who Hn (x1 & Hw%(me_withdraw_ok _ _ _ _ who) & [= <- <-])%bind_Some.
    exact Hw.
  - done.
  - intros j k x x' [= <-]. done.
  - intros j n x x' [= <-]. done.
Qed.
Lemma reference_payout_laws : payout_laws (X := reference_market) me_balance me_deposit.
Proof.
  split; simpl.
  - intros to n x Ht Hn Hp. unfold me_withdraw.
    assert ((n =? 0) || (n + me_deposit <=? me_balance x 1000) = true) as ->.
    { apply orb_true_iff. rewrite Z.eqb_eq, Z.leb_le. lia. }
    simpl. unfold me_put. rewrite me_balance_set, bool_decide_eq_false_2 by done.
    assert ((n =? 0) || (me_deposit <=? me_balance x to + n) && (me_balance x to + n <=? u128_max) = true) as ->.
    { apply orb_true_iff. rewrite andb_true_iff, Z.eqb_eq, !Z.leb_le. lia. }
    by eexists.
  - intros who id n x. by exists x.
Qed.
Lemma market_constants_ok : config_ok market_constants.
Proof. by split. Qed.

Section reach.
Notation step := (solvent_step (X := reference_market) (F := reference_fixed) me_balance).

Lemma step_run origin c s :
  call_typed c -> origin <> 1000 -> step s (run origin c s).
Proof. intros Hc Ho. apply solvent_call; [done|]. by intros [= ->]. Qed.
Lemma step_at_time t s : step s (at_time t s).
Proof.
  assert (at_time t s = set_jext (mkMarketExt s.(jext).(me_balances) t s.(jext).(me_prices))
            (set_stored_attestation s.(stored_attestation) s)) as -> by (by destruct s).
  by apply solvent_outside.
Qed.
Lemma a_job_typed strategy : registration_typed (a_job strategy).
Proof. split; by_compute. Qed.

Lemma step_advertised : step market_genesis m_advertised.
Proof. unfold m_advertised. by apply step_run. Qed.
Lemma step_deployed : step m_advertised m_deployed.
Proof. unfold m_deployed. apply step_run; [apply a_job_typed|done]. Qed.
Lemma step_matched : step m_deployed m_matched.
Proof. unfold m_matched. by apply step_run. Qed.
Lemma step_acknowledged : step m_matched m_acknowledged.
Proof. unfold m_acknowledged. by apply step_run. Qed.
Lemma step_reported : step (at_time 100003 m_acknowledged) m_reported.
Proof. unfold m_reported. by apply step_run. Qed.

Lemma reach_matched : rtc step market_genesis m_matched.
Proof.
  exact (rtc_l _ _ _ _ step_advertised (rtc_l _ _ _ _ step_deployed (rtc_once _ _ step_matched))).
Qed.
Lemma reach_reported : rtc step market_genesis m_reported.
Proof.
  etrans; [exact reach_matched|].
  exact (rtc_l _ _ _ _ step_acknowledged
           (rtc_l _ _ _ _ (step_at_time 100003 _) (rtc_once _ _ step_reported))).
Qed.

Lemma solvent_is_job_step s s' : step s s' -> job_step s s'.
Proof. intros []; by constructor. Qed.
Lemma job_reach_reported : rtc (job_step (X := reference_market) (F := reference_fixed)) market_genesis m_reported.
Proof. eapply rtc_subrel; [apply solvent_is_job_step|apply reach_reported]. Qed.
End reach.

Lemma jobs_stay_consistent_witness :
  jobs_inv None m_reported /\
  bool_decide (is_Some (m_reported.(stored_matches) !! (7, job_one))) = true.
Proof.
  assert (0 <= DefaultMinPrice) as Hp by by_compute.
  split; [|by_compute].
  exact (jobs_stay_consistent _ m_reported Hp job_reach_reported).
Defined.

Lemma account_covers_budgets_witness :
  (budgets_total m_reported <= me_balance m_reported.(jext) 1000 /\
   forall j, 0 <= reserved m_reported j <= budgets_total m_reported) /\
  budgets_total m_reported = 128.
Proof.
  assert (0 <= me_balance (mkMarketExt (<[1 := 1000]> (<[1000 := 1]> (<[1002 := 1]> ∅))) 0 (<[7 := 2]> ∅)) 1000) as H0 by by_compute.
  split; [|by_compute].
  exact (account_covers_budgets me_balance _ m_reported reference_currency_laws
           market_constants_ok H0 reach_reported).
Defined.

Lemma deregistered_job_leaves_nothing_witness :
  m_deregistered.(stored_job_registration) !! job_one = None /\ reserved m_deregistered job_one = 0.
Proof.
  assert (0 <= me_balance (mkMarketExt (<[1 := 1000]> (<[1000 := 1]> (<[1002 := 1]> ∅))) 0 (<[7 := 2]> ∅)) 1000) as H0 by by_compute.
  assert (result (dispatch (Signed 1) (Deregister 1)) m_reported = Ok tt) as Hr by by_compute.
  pose proof (result_exec _ _ _ Hr) as Hm. unfold m_deregistered, run.
  pose proof (deregistered_job_leaves_nothing me_balance _ m_reported _ 1 1
    reference_currency_laws market_constants_ok H0 reach_reported Hm) as Hd.
  cbv zeta in Hd. destruct Hd as (H1 & _ & _ & _ & _ & H2 & _). exact (conj H1 H2).
Defined.

Lemma unacknowledged_job_is_refunded_witness :
  (exists s', dispatch (Signed 1) (Deregister 1) m_matched = (Ok tt, s') /\
    me_balance s'.(jext) 1 = me_balance m_matched.(jext) 1 + reserved m_matched (Acurast 1, 1)) /\
  reserved m_matched (Acurast 1, 1) = 150.
Proof.
  split; [|by_compute].
  assert (me_deposit <= me_balance (mkMarketExt (<[1 := 1000]> (<[1000 := 1]> (<[1002 := 1]> ∅))) 0
                                      (<[7 := 2]> ∅)) 1000) as H0 by by_compute.
  assert (me_deposit <= me_balance m_matched.(jext) 1 + reserved m_matched (Acurast 1, 1)) as H1 by by_compute.
  assert (me_balance m_matched.(jext) 1 + reserved m_matched (Acurast 1, 1) <= u128_max) as H2 by by_compute.
  assert (1 <> 1000) as Hw by lia.
  assert (m_matched.(stored_job_status) !! (Acurast 1, 1) = Some Matched) as Hst by by_compute.
  assert (m_matched.(stored_job_status) !! (Acurast 1, 1) ∈ [Some Open; Some Matched]) as Hin
    by (rewrite Hst; clear; set_solver).
  exact (unacknowledged_job_is_refunded me_balance me_deposit _ m_matched 1 1 reference_currency_laws
    market_constants_ok reference_payout_laws H0 reach_matched Hw (or_intror (conj H1 H2)) Hin).
Defined.

Section frames.
Context {X : JobExternals} {C : JobConfig} {A : AllowedApps} {F : FixedOps}.
Context {R : RewardManager} {RF : RewardFrames R}.

(** The registered jobs and the last number given *)
Definition regview (s : State) := (s.(stored_job_registration), s.(local_job_id_sequence)).

Lemma rv_storage {B} (m : MJ B) : framed storage_view m -> framed regview m.
Proof.
  intros Hm. exact (framed_weaken storage_view (fun v => (v.1.1.1.1.1.1.2.1.1.1, v.1.1.1.1.1.1.2.1.1.2)) m Hm).
Qed.
Lemma rv_lock j b : framed regview (lock_reward j b).
Proof. apply rv_storage, rf_lock. Qed.
Lemma rv_handle j b : framed regview (handle_reward j b).
Proof. apply rv_storage, rf_handle. Qed.
Lemma rv_matcher j b m : framed regview (pay_matcher_reward j b m).
Proof. apply rv_storage, rf_matcher. Qed.
Lemma rv_refund j : framed regview (refund j).
Proof. apply rv_storage, rf_refund. Qed.
Lemma rv_jext_try f e : framed regview (jext_try f e).
Proof. apply rv_storage, sv_jext_try. Qed.
Lemma rv_deposit e : framed regview (deposit_event e).
Proof. unfold deposit_event. solve_framed. Qed.
Hint Resolve rv_lock rv_handle rv_matcher rv_refund rv_jext_try rv_deposit : framed.

Lemma rv_do_update_reputation p a n : framed regview (do_update_reputation p a n).
Proof. unfold do_update_reputation. solve_framed. Qed.
Lemma rv_do_advertise p a : framed regview (do_advertise p a).
Proof.
  unfold do_advertise. framed_step; [solve_framed|]. do 2 (framed_step; [solve_framed|]).
  apply framed_modify. intros s. by destruct (stored_reputation s !! p).
Qed.
Lemma rv_process_matching l m : framed regview (process_matching l m).
Proof.
  unfold process_matching, process_match, match_slot, put_matcher, update_average_reward. solve_framed.
Qed.
Lemma rv_process_execution_matching l m : framed regview (process_execution_matching l m).
Proof.
  unfold process_execution_matching, process_execution_match, cleanup_previous_execution_matches,
    cleanup_one, match_execution_slot, put_matcher, update_average_reward, put_execution_status.
  solve_framed.
Qed.
Hint Resolve rv_do_update_reputation rv_do_advertise rv_process_matching
  rv_process_execution_matching : framed.
Lemma rv_acknowledge who j e k : framed regview (process_acknowledge_match who j e k).
Proof.
  unfold process_acknowledge_match, update_assignment_to_acknowledged, update_job_status,
    update_next_report_index_on_acknowledge, put_next_report_index, put_execution_status.
  solve_framed.
Qed.
Lemma rv_do_report j p : framed regview (do_report j p).
Proof.
  unfold do_report, update_assignment, update_next_report_index_on_report, put_next_report_index.
  solve_framed.
Qed.
Lemma rv_cleanup_assignment p j t : framed regview (do_cleanup_assignment p j t).
Proof. unfold do_cleanup_assignment. solve_framed. Qed.
Hint Resolve rv_cleanup_assignment : framed.
Lemma rv_cleanup_assignments p l : framed regview (do_cleanup_assignments p l).
Proof. unfold do_cleanup_assignments. solve_framed. Qed.
Lemma rv_drain j : framed regview (drain_matches j).
Proof. unfold drain_matches. solve_framed. Qed.
Lemma rv_set_environment_for j l : framed regview (set_environment_for j l).
Proof. unfold set_environment_for. solve_framed. Qed.
Hint Resolve rv_acknowledge rv_do_report rv_cleanup_assignments rv_drain rv_set_environment_for
  : framed.
Lemma rv_register_hook j r : framed regview (market_register_hook j r).
Proof. unfold market_register_hook. solve_framed. Qed.
Lemma rv_deregister_hook j : framed regview (market_deregister_hook j).
Proof.
  unfold market_deregister_hook, settle_processor, finalize, remove_job_status, clear_execution_status.
  solve_framed.
Qed.
Lemma rv_sources_hook who j u : framed regview (market_update_allowed_sources_hook who j u).
Proof. unfold market_update_allowed_sources_hook. solve_framed. Qed.
Lemma rv_transfer_key_id a b : framed regview (transfer_key_id a b).
Proof. unfold transfer_key_id. solve_framed. Qed.
Hint Resolve rv_transfer_key_id : framed.
(** What [deploy] does before it registers the job *)
Definition deploy_head (m : ScriptMutability) (k : option JobId) (h : MultiOrigin -> H256)
  (who : AccountId) (j : JobId) : MJ unit :=
  match m with
  | Immutable => deploy_immutable (h j.1) k
  | Mutable editor_ =>
      let* (derived_editor, key_id) := derive_editor_and_key who j (h j.1) editor_ k in
      modify (fun s => set_editors (<[j := derived_editor]> s.(editors)) s);;
      modify (fun s => set_deployment_key_ids (<[h j.1 := key_id]> s.(deployment_key_ids)) s);;
      modify (fun s => set_job_key_ids (<[j := key_id]> s.(job_key_ids)) s)
  end;;
  modify (fun s => set_deployment_hashes (<[j := h j.1]> s.(deployment_hashes)) s).
Lemma rv_deploy_head m k h who j : framed regview (deploy_head m k h who j).
Proof. unfold deploy_head, deploy_immutable, derive_editor_and_key. solve_framed. Qed.

Lemma regview_eq {B} (m : MJ B) b s s' :
  framed regview m -> m s = (Ok b, s') ->
  s'.(stored_job_registration) = s.(stored_job_registration) /\
  s'.(local_job_id_sequence) = s.(local_job_id_sequence).
Proof. intros Hf Hm. pose proof (Hf _ _ _ Hm) as Hv. by injection Hv. Qed.

(** ** What registration, removal and edits do to the registered jobs *)
Lemma register_for_registers j r mm s u s' :
  register_for j r mm s = (Ok u, s') ->
  s'.(stored_job_registration) = <[j := r]> s.(stored_job_registration) /\
  s'.(local_job_id_sequence) = s.(local_job_id_sequence).
Proof.
  intros Hm. unfold register_for in Hm.
  apply bind_ok in Hm as ([] & ? & [_ <-]%ensure_ok & Hm).
  apply bind_ok in Hm as ([] & s1 & Ha & Hm). apply regview_eq in Ha as [<- <-]; [|solve_framed].
  apply bind_ok in Hm as ([] & s2 & <-%modify_ok & Hm).
  match type of Hm with ?m _ = _ => assert (framed regview m) as Hf end.
  { framed_step; [solve_framed|]. framed_step; [apply rv_register_hook|solve_framed]. }
  by apply regview_eq in Hm.
Qed.

Lemma deregister_for_removes j s u s' :
  deregister_for j s = (Ok u, s') ->
  s'.(stored_job_registration) = delete j s.(stored_job_registration) /\
  s'.(local_job_id_sequence) = s.(local_job_id_sequence).
Proof.
  intros Hm. unfold deregister_for in Hm.
  apply bind_ok in Hm as ([] & s1 & Hh & Hm). apply regview_eq in Hh as [<- <-]; [|apply rv_deregister_hook].
  apply bind_ok in Hm as ([] & s2 & Hc & Hm).
  apply regview_eq in Hc as [<- <-]; [|unfold clear_environment_for; solve_framed].
  apply bind_ok in Hm as ([] & s3 & <-%modify_ok & Hm).
  by apply bind_ok in Hm as ([] & s4 & <-%modify_ok & <-%modify_ok).
Qed.

(** The outcome of a successful call for the registered jobs. *)
Definition call_effect (o : RuntimeOrigin) (c : Call) (s s' : State) : Prop :=
  (s'.(stored_job_registration) = s.(stored_job_registration) /\
   s'.(local_job_id_sequence) = s.(local_job_id_sequence)) \/
  (exists who r, o = Signed who /\
     s'.(local_job_id_sequence) = wrapping_add u128_max s.(local_job_id_sequence) 1 /\
     s'.(stored_job_registration)
       = <[(Acurast who, s'.(local_job_id_sequence)) := r]> s.(stored_job_registration)) \/
  (exists j, s'.(stored_job_registration) = delete j s.(stored_job_registration) /\
     s'.(local_job_id_sequence) = s.(local_job_id_sequence)) \/
  (exists j r l, s.(stored_job_registration) !! j = Some r /\
     s'.(stored_job_registration) = <[j := set_allowed_sources l r]> s.(stored_job_registration) /\
     s'.(local_job_id_sequence) = s.(local_job_id_sequence)) \/
  (exists who j r sc, o = Signed who /\ c = EditScript j sc /\ s.(editors) !! j = Some who /\
     is_valid_script sc = true /\ s.(stored_job_registration) !! j = Some r /\
     s'.(stored_job_registration) = <[j := set_script sc r]> s.(stored_job_registration) /\
     s'.(local_job_id_sequence) = s.(local_job_id_sequence)).

Lemma ensure_signed_inv o s who s' : ensure_signed o s = (Ok who, s') -> o = Signed who /\ s' = s.
Proof. destruct o; simpl; [by intros [= -> ->]|by intros []%throw_ok]. Qed.

Lemma registering_effect o c r (mm : option (list MetricInput)) (pre : AccountId -> JobId -> MJ unit) s u s' :
  (forall who j, framed regview (pre who j)) ->
  (let* who := ensure_signed o in
   let* id := next_job_id in
   pre who (Acurast who, id);; register_for (Acurast who, id) r mm) s = (Ok u, s') ->
  call_effect o c s s'.
Proof.
  intros Hpre Hm. right; left. apply bind_ok in Hm as (who & s1 & [-> ->]%ensure_signed_inv & Hm).
  apply bind_ok in Hm as (id & s1 & Hn & Hm). unfold next_job_id in Hn.
  apply bind_ok in Hn as (q & s2 & [<- <-]%gets_ok & Hn).
  apply bind_ok in Hn as ([] & s2 & <-%modify_ok & [-> <-]%ret_ok).
  apply bind_ok in Hm as ([] & s3 & Hp & Hm). apply regview_eq in Hp as [E1 E2]; [|apply Hpre].
  apply register_for_registers in Hm as [E3 E4]. exists who, r.
  rewrite E4, E2, E3, E1. done.
Qed.

Lemma run_call_effect o c s u s' : run_call o c s = (Ok u, s') -> call_effect o c s s'.
Proof.
  intros Hm. destruct c; simpl in Hm.
  all: try (left; eapply regview_eq; [|exact Hm];
            solve [unfold set_environment, set_environments, update_certificate_revocation_list,
              advertise, delete_advertisement, propose_matching, propose_execution_matching,
              acknowledge_match, acknowledge_execution_match, report,
              finalize_job, finalize_jobs, cleanup_storage, cleanup_assignments,
              cleanup_assignments_for, cleanup_job_assignments, cleanup_job_matcher,
              update_min_fee_per_millisecond, update_price_settings, transfer_editor;
              solve_framed]).
  - apply (registering_effect o _ registration None (fun _ _ => ret tt) s u s'); [intros; solve_framed|exact Hm].
  - apply (registering_effect o _ registration (Some min_metrics) (fun _ _ => ret tt) s u s'); [intros; solve_framed|exact Hm].
  - right; right; left. unfold deregister in Hm. skip_read Hm as who.
    exists (Acurast who, local_job_id). by eapply deregister_for_removes.
  - right; right; right; left. unfold update_allowed_sources in Hm. skip_read Hm as who.
    apply bind_ok in Hm as (ro & s1 & [Hreg <-]%gets_ok & Hm).
    apply bind_ok in Hm as (r & s1 & [-> <-]%ok_or_ok & Hm).
    apply bind_ok in Hm as (al & s1 & Ha & Hm). apply readonly_ok in Ha as ->; [|solve_framed].
    apply bind_ok in Hm as ([] & s1 & <-%modify_ok & Hm).
    apply regview_eq in Hm as [-> ->]; [|framed_step; [apply rv_sources_hook|solve_framed]].
    by eexists _, r, al.
  - apply (registering_effect o _ registration min_metrics (deploy_head mutability reuse_keys_from
      (fun owner => deployment_hash_of owner registration.(script))) s u s').
    + intros who j. apply rv_deploy_head.
    + unfold deploy in Hm. apply bind_ok in Hm as (who & s1 & Hw & Hm).
      apply bind_ok in Hm as (id & s2 & Hn & Hm). apply bind_ok. exists who, s1. split; [done|].
      apply bind_ok. exists id, s2. split; [done|]. cbv zeta in Hm.
      apply bind_ok in Hm as ([] & s3 & H1 & Hm). apply bind_ok in Hm as ([] & s4 & H2 & Hm).
      apply bind_ok. exists tt, s4. split; [|done]. apply bind_ok. by exists tt, s3.
  - right; right; right; right. unfold edit_script in Hm.
    apply bind_ok in Hm as (who & s1 & [-> ->]%ensure_signed_inv & Hm).
    apply bind_ok in Hm as (e & s1 & [He <-]%gets_ok & Hm).
    apply bind_ok in Hm as (ed & s1 & [-> <-]%ok_or_ok & Hm).
    apply bind_ok in Hm as ([] & ? & [->%Z.eqb_eq <-]%ensure_ok & Hm).
    apply bind_ok in Hm as ([] & ? & [Hv <-]%ensure_ok & Hm).
    apply bind_ok in Hm as (r & s1 & Hr & Hm). unfold get_registration in Hr.
    apply bind_ok in Hr as (ro & s2 & [Hreg <-]%gets_ok & [-> <-]%ok_or_ok).
    apply bind_ok in Hm as ([] & s1 & <-%modify_ok & Hm).
    apply regview_eq in Hm as [-> ->]; [|solve_framed].
    by exists who, job_id, r, script_.
Qed.

(** ** Numbers of jobs

    Jobs of other chains are registered under their own origin. *)
Definition foreign (m : JobMessage) : Prop :=
  match m with
  | RegisterFor (Acurast _, _) _ _ => False
  | _ => True
  end.
Inductive numbered_step : State -> State -> Prop :=
| numbered_call o c s :
    0 <= s.(local_job_id_sequence) < u128_max -> numbered_step s (exec (dispatch o c) s)
| numbered_message m s : foreign m -> numbered_step s (exec (dispatch_message m) s)
| numbered_outside x att s : numbered_step s (set_jext x (set_stored_attestation att s)).

(** No job has a number that has not been given yet. *)
Definition numbered (s : State) : Prop :=
  forall who id, is_Some (s.(stored_job_registration) !! (Acurast who, id)) ->
    id <= s.(local_job_id_sequence).

Lemma numbered_call_effect o c s s' :
  0 <= s.(local_job_id_sequence) < u128_max -> numbered s -> call_effect o c s s' -> numbered s'.
Proof.
  intros Hq Hn He who id [r Hr].
  destruct He as [[E1 E2]|[(w & r' & -> & E2 & E1)|[(j & E1 & E2)|[(j & r' & l & Hj & E1 & E2)|
    (w & j & r' & sc & -> & -> & _ & _ & Hj & E1 & E2)]]]]; rewrite E1 in Hr.
  - rewrite E2. by eapply Hn.
  - rewrite E2 in *. unfold wrapping_add, wrap_as in *. rewrite Z.mod_small in * by lia.
    apply lookup_insert_Some in Hr as [[[= <- <-] _]|[_ Hr]]; [lia|].
    pose proof (Hn who id ltac:(by eexists)). lia.
  - rewrite E2. apply lookup_delete_Some in Hr as [_ Hr]. by eapply Hn.
  - rewrite E2. apply lookup_insert_Some in Hr as [[-> _]|[_ Hr]]; by eapply Hn.
  - rewrite E2. apply lookup_insert_Some in Hr as [[-> _]|[_ Hr]]; by eapply Hn.
Qed.

Lemma numbered_message_run m s u s' :
  foreign m -> numbered s -> run_message m s = (Ok u, s') -> numbered s'.
Proof.
  intros Hf Hn Hm who id [r Hr]. destruct m as [j r' l|j|j l]; simpl in Hm, Hf.
  - apply register_for_registers in Hm as [E1 E2]. rewrite E1 in Hr. rewrite E2.
    apply lookup_insert_Some in Hr as [[-> _]|[_ Hr]]; [done|by eapply Hn].
  - apply deregister_for_removes in Hm as [E1 E2]. rewrite E1 in Hr. rewrite E2.
    apply lookup_delete_Some in Hr as [_ Hr]. by eapply Hn.
  - apply regview_eq in Hm as [E1 E2]; [|apply rv_set_environment_for].
    rewrite E1 in Hr. rewrite E2. by eapply Hn.
Qed.

Lemma numbered_step_pres s s' : numbered_step s s' -> numbered s -> numbered s'.
Proof.
  intros [o c t Hq|m t Hf|x att t] Hn.
  - apply (transaction_pres numbered); [|done]. intros t' Hm. apply run_call_effect in Hm.
    by eapply numbered_call_effect.
  - apply (transaction_pres numbered); [|done]. intros t' Hm. by eapply numbered_message_run.
  - done.
Qed.
Lemma numbered_reach x s : rtc numbered_step (genesis x) s -> numbered s.
Proof.
  intros Hs. assert (numbered (genesis x)) as H0.
  { intros who id [r Hr]. simpl in Hr. by rewrite lookup_empty in Hr. }
  induction Hs; eauto using numbered_step_pres.
Qed.
End frames.

(** a call never changes the script of a registered job, except for
    [edit_script], signed by the editor that is recorded for the job, which puts
    in the script of the call; in particular registering and deploying never
    overwrite a job that exists, because numbers are not given twice, and a job
    without an editor keeps its script for ever. *)
Theorem only_the_editor_changes_a_script {X : JobExternals} {C : JobConfig} {A : AllowedApps}
  {F : FixedOps} {R : RewardManager} {RF : RewardFrames R} (x : JExt) (s : State)
  (o : RuntimeOrigin) (c : Call) (j : JobId) (r r' : JobRegistration) :
  rtc numbered_step (genesis x) s -> 0 <= s.(local_job_id_sequence) < u128_max ->
  s.(stored_job_registration) !! j = Some r ->
  (exec (dispatch o c) s).(stored_job_registration) !! j = Some r' ->
  script r' <> script r ->
  exists who, o = Signed who /\ s.(editors) !! j = Some who /\ c = EditScript j (script r') /\
    is_valid_script (script r') = true /\ r' = set_script (script r') r.
Proof.
  intros Hs Hq Hr Hr' Hne. apply numbered_reach in Hs.
  destruct (dispatch o c s) as [[[]| |] s'] eqn:Hm; unfold exec in Hr'; rewrite Hm in Hr'; simpl in Hr'.
  2,3: unfold dispatch, with_transaction in Hm; destruct (run_call o c s) as [[] ?]; simplify_eq.
  unfold dispatch in Hm. rewrite with_transaction_ok in Hm. apply run_call_effect in Hm.
  destruct Hm as [[E1 E2]|[(w & r0 & -> & E2 & E1)|[(j0 & E1 & E2)|[(j0 & r0 & l & Hj & E1 & E2)|
    (w & j0 & r0 & sc & -> & -> & He & Hv & Hj & E1 & E2)]]]]; rewrite E1 in Hr'.
  - congruence.
  - apply lookup_insert_Some in Hr' as [[<- <-]|[_ Hr']]; [|congruence].
    pose proof (Hs w _ (ex_intro _ _ Hr)) as Hle. rewrite E2 in Hle.
    unfold wrapping_add, wrap_as in Hle. rewrite Z.mod_small in Hle by lia. lia.
  - apply lookup_delete_Some in Hr' as [_ Hr']. congruence.
  - apply lookup_insert_Some in Hr' as [[<- <-]|[_ Hr']]; [|congruence].
    assert (r0 = r) as -> by congruence. done.
  - apply lookup_insert_Some in Hr' as [[<- <-]|[_ Hr']]; [|congruence].
    assert (r0 = r) as -> by congruence. by exists w.
Qed.

(** ** Concrete inputs *)
Lemma only_the_editor_changes_a_script_witness :
  (exists who, Signed 1 = Signed who /\ m_deployed.(editors) !! job_one = Some who) /\
  bool_decide (script <$> (exec (dispatch (Signed 1) (EditScript job_one b_script)) m_deployed).(stored_job_registration) !! job_one = Some b_script) = true.
Proof.
  split; [|by_compute].
  assert (forall o c (s : State), 0 <= s.(local_job_id_sequence) < u128_max -> numbered_step s (exec (dispatch o c) s))
    as Hstep by (intros; by apply numbered_call).
  assert (numbered_step market_genesis m_advertised) as H1
    by (unfold m_advertised, run; apply Hstep; by_compute).
  assert (numbered_step m_advertised m_deployed) as H2
    by (unfold m_deployed, run; apply Hstep; by_compute).
  assert (0 <= m_deployed.(local_job_id_sequence) < u128_max) as Hq by by_compute.
  assert (bool_decide (script <$> m_deployed.(stored_job_registration) !! job_one = Some a_script) = true) as E1 by by_compute.
  assert (bool_decide (script <$> (exec (dispatch (Signed 1) (EditScript job_one b_script)) m_deployed).(stored_job_registration) !! job_one = Some b_script) = true) as E2 by by_compute.
  apply bool_decide_eq_true, fmap_Some in E1 as (r & Hr & Er).
  apply bool_decide_eq_true, fmap_Some in E2 as (r' & Hr' & Er').
  assert (script r' <> script r) as Hne by (rewrite <-Er, <-Er'; clear; vm_compute; congruence).
  destruct (only_the_editor_changes_a_script _ m_deployed (Signed 1) (EditScript job_one b_script)
    job_one r r' (rtc_l _ _ _ _ H1 (rtc_once _ _ H2)) Hq Hr Hr' Hne) as (who & Ho & He & _).
  exists who. exact (conj Ho He).
Defined.
