(* ===== verification/BridgeTypes.v ===== *)
(** The data of the bridge to other chains: [pallets/hyperdrive-ibc/src/types.rs],
    [pallets/acurast/common/src/ibc_message.rs], [pallets/hyperdrive-token/src/types.rs],
    [pallets/hyperdrive/src/types.rs], [hyperdrive/substrate-core/types.rs] and the
    storage of the three pallets.

    [BridgeState] ends with [bext], the state of the currency and of the other
    pallets that are called.  It is the [JExt] of the job pallets ([Bridge.v]),
    which register the jobs of other chains and send messages to these chains. *)
From S2P Require Import Prelude Schedules Attestations JobTypes.

Notation Public := Z (only parsing).
Notation Signature := Z (only parsing).
Notation MessageId := Z (only parsing).
Notation MessageNonce := Z (only parsing).
Notation BlockNumber := Z (only parsing).
Notation TransferNonce := Z (only parsing).
Notation EnableNonce := Z (only parsing).
Notation Payload := (list Z) (only parsing).

(** * Chains, senders and recipients *)

(** [ProxyChain] of [acurast/common/src/types.rs] *)
Inductive ProxyChain :=
| PAcurast
| PTezos
| PAlephZero
| PVara
| PEthereum
| PSolana
| PAcurastCanary.
#[export] Instance ProxyChain_eq_dec : EqDecision ProxyChain.
Proof. solve_decision. Defined.
(** The index of a variant, which is also its SCALE encoding (one byte). *)
Definition proxy_index (p : ProxyChain) : Z :=
  match p with
  | PAcurast => 0 | PTezos => 1 | PAlephZero => 2 | PVara => 3 | PEthereum => 4
  | PSolana => 5 | PAcurastCanary => 6
  end.
#[export] Instance ProxyChain_countable : Countable ProxyChain.
Proof.
  refine (inj_countable' proxy_index
    (fun i => match i with 0 => PAcurast | 1 => PTezos | 2 => PAlephZero | 3 => PVara
                      | 4 => PEthereum | 5 => PSolana | _ => PAcurastCanary end) _).
  by intros [].
Defined.

Inductive ProxyAcurastChain :=
| SelfAcurast
| SelfAcurastCanary.

(** [From<&ProxyAcurastChain> for ProxyChain] *)
Definition proxy_of_self (c : ProxyAcurastChain) : ProxyChain :=
  match c with SelfAcurast => PAcurast | SelfAcurastCanary => PAcurastCanary end.

(** [From<&MultiOrigin<_>> for ProxyChain] *)
Definition proxy_of_origin (origin : MultiOrigin) : ProxyChain :=
  match origin with
  | Acurast _ => PAcurast
  | Tezos _ => PTezos
  | AlephZero _ => PAlephZero
  | Vara _ => PVara
  | Ethereum _ | Ethereum20 _ => PEthereum
  | Solana _ => PSolana
  | AcurastCanary _ => PAcurastCanary
  end.

Record ContractCall := mkContractCall {
  contract : Z;
  selector : option (list Z);
}.
#[export] Instance ContractCall_eq_dec : EqDecision ContractCall.
Proof. solve_decision. Defined.

Inductive Layer :=
| Extrinsic (who : AccountId)
| Contract (c : ContractCall).
#[export] Instance Layer_eq_dec : EqDecision Layer.
Proof. solve_decision. Defined.

Inductive Subject :=
| SAcurast (l : Layer)
| SAlephZero (l : Layer)
| SVara (l : Layer)
| SEthereum (l : Layer)
| SSolana (l : Layer)
| SAcurastCanary (l : Layer).
#[export] Instance Subject_eq_dec : EqDecision Subject.
Proof. solve_decision. Defined.
#[export] Instance Layer_countable : Countable Layer.
Proof.
  refine (inj_countable'
    (fun l => match l with
       | Extrinsic w => inl w
       | Contract c => inr (c.(contract), c.(selector)) end)
    (fun x => match x with
       | inl w => Extrinsic w
       | inr (c, s) => Contract (mkContractCall c s) end) _).
  by intros [|[]].
Defined.
#[export] Instance Subject_countable : Countable Subject.
Proof.
  refine (inj_countable'
    (fun s => match s with
       | SAcurast l => (0, l) | SAlephZero l => (1, l) | SVara l => (2, l) | SEthereum l => (3, l)
       | SSolana l => (4, l) | SAcurastCanary l => (5, l) end)
    (fun '(i, l) => match i with
       | 0 => SAcurast l | 1 => SAlephZero l | 2 => SVara l | 3 => SEthereum l
       | 4 => SSolana l | _ => SAcurastCanary l end) _).
  by intros [].
Defined.

(** [From<&Subject<_, _>> for ProxyChain] *)
Definition proxy_of_subject (s : Subject) : ProxyChain :=
  match s with
  | SAcurast _ => PAcurast
  | SAlephZero _ => PAlephZero
  | SVara _ => PVara
  | SEthereum _ => PEthereum
  | SSolana _ => PSolana
  | SAcurastCanary _ => PAcurastCanary
  end.

(** * Messages *)
Definition SIGNATURES_MAX_LENGTH : Z := 32.
Definition PAYLOAD_MAX_LENGTH : Z := 1024.

Record ActivityWindow := mkActivityWindow {
  start_block : BlockNumber;
  end_block : option BlockNumber;
}.

Inductive OracleUpdate :=
| OracleAdd (public : Public) (w : ActivityWindow)
| OracleRemove (public : Public)
| OracleChange (public : Public) (w : ActivityWindow).

Record Message := mkMessage {
  msg_id : MessageId;
  msg_sender : Subject;
  msg_nonce : MessageNonce;
  msg_recipient : Subject;
  msg_payload : Payload;
}.

Record OutgoingMessageWithMeta := mkOutgoing {
  om_message : Message;
  om_current_block : BlockNumber;
  om_ttl_block : BlockNumber;
  om_fee : Balance;
  om_payer : AccountId;
}.
(** [MessageFeeProvider::get_fee] *)
Definition get_fee (self : OutgoingMessageWithMeta) : Balance := self.(om_fee).

Record IncomingMessageWithMeta := mkIncoming {
  im_message : Message;
  im_current_block : BlockNumber;
  im_relayer : MultiOrigin;
}.

Record MessageBody := mkMessageBody {
  mb_sender : Subject;
  mb_recipient : Subject;
  mb_payload : Payload;
}.
(** [From<Message<_, _>> for MessageBody<_, _>] *)
Definition body_of (m : Message) : MessageBody :=
  {| mb_sender := m.(msg_sender); mb_recipient := m.(msg_recipient); mb_payload := m.(msg_payload) |}.

(** * Token transfers *)
Inductive Action :=
| TransferToken (amount : Z) (asset_id : option Z) (transfer_nonce : TransferNonce) (dest : MultiOrigin)
| Noop
| SetEnabled (on : bool).

Inductive RawAction :=
| RawTransferToken
| RawSetEnabled
| RawNoop.

(** [From<&Action<_>> for RawAction], [From<RawAction> for u32] *)
Definition raw_of_action (action : Action) : RawAction :=
  match action with
  | TransferToken _ _ _ _ => RawTransferToken
  | Noop => RawNoop
  | SetEnabled _ => RawSetEnabled
  end.
Definition raw_action_index (a : RawAction) : Z :=
  match a with RawTransferToken => 0 | RawSetEnabled => 1 | RawNoop => 255 end.
(** [TryFrom<u32> for RawAction] *)
Definition raw_action_try_from (value : Z) : option RawAction :=
  if value =? raw_action_index RawTransferToken then Some RawTransferToken else None.

(** * Jobs of other chains *)

(** [ParsedAction] of [hyperdrive/src/types.rs] *)
Inductive ParsedAction :=
| RegisterJob (job_id : JobId) (registration : JobRegistration)
| DeregisterJob (job_id : JobId)
| FinalizeJobAction (job_ids : list JobId)
| SetJobEnvironment (job_id : JobId) (environments : list (AccountId * Environment))
| ParsedNoop.

(** The messages to the proxies: [IncomingAction] and [Message] of
    [hyperdrive/src/types.rs] *)
Inductive ProxyAction :=
| AssignJob (job_id : JobIdSequence) (key : PubKey)
| FinalizeProxyJob (job_id : JobIdSequence) (refund : Balance)
| ProxyNoop.
Record ProxyMessage := mkProxyMessage {
  pm_id : Z;
  pm_action : ProxyAction;
}.
(** [ProxyChain] of [hyperdrive/src/types.rs] *)
Inductive SubstrateChain :=
| ChainAlephZero
| ChainVara.

(** The wire format of [hyperdrive/substrate-core/types.rs] *)
Record ScheduleV1 := {
  v1_duration : Z;
  v1_start_time : Z;
  v1_end_time : Z;
  v1_interval : Z;
  v1_max_start_delay : Z;
}.
Record PlannedExecutionV1 := {
  v1_source : list Z;
  v1_start_delay : Z;
}.
Inductive AssignmentStrategyV1 :=
| SingleV1 (executions : option (list PlannedExecutionV1))
| CompetingV1.
Record JobRequirementsV1 := {
  v1_assignment_strategy : AssignmentStrategyV1;
  v1_slots : Z;
  v1_reward : Z;
  v1_min_reputation : option Z;
}.
Record JobRegistrationV1 := {
  v1_script : list Z;
  v1_allowed_sources : option (list (list Z));
  v1_allow_only_verified_sources : bool;
  v1_schedule : ScheduleV1;
  v1_memory : Z;
  v1_network_requests : Z;
  v1_storage : Z;
  v1_required_modules : list Z;
  v1_extra : JobRequirementsV1;
}.
Record RegisterJobPayloadV1 := {
  v1_job_id : Z;
  v1_job_registration : JobRegistrationV1;
}.
Record SetProcessorJobEnvironmentV1 := {
  v1_address : list Z;
  v1_variables : list (list Z * list Z);
}.
Record SetJobEnvironmentPayloadV1 := {
  v1_env_job_id : Z;
  v1_public_key : list Z;
  v1_processors : list SetProcessorJobEnvironmentV1;
}.
Inductive OutgoingActionPayloadV1 :=
| RegisterJobV1 (p : RegisterJobPayloadV1)
| DeregisterJobV1 (job_id : Z)
| FinalizeJobV1 (job_ids : list Z)
| SetJobEnvironmentV1 (p : SetJobEnvironmentPayloadV1)
| NoopV1.
Record RawOutgoingAction := {
  raw_id : Z;
  raw_origin : list Z;
  raw_payload_version : Z;
  raw_payload : list Z;
}.
Record OutgoingAction := {
  oa_id : Z;
  oa_origin : list Z;
  oa_payload : OutgoingActionPayloadV1;
}.
(** What the proxies receive *)
Inductive IncomingActionPayloadV1 :=
| AssignJobProcessorV1 (job_id : Z) (processor : list Z)
| FinalizeIncomingV1 (job_id : Z) (unused_reward : Z)
| IncomingNoopV1.

(** * Errors and events *)
Inductive IbcError :=
| TTLSmallerThanMinimum
| MessageWithSameNoncePending
| CouldNotHoldFee
| CouldNotReleaseHoldFee
| MessageNotFound
| CannotRemovePendingMessage
| DeliveryConfirmationOverdue
| NotEnoughSignaturesProvided
| NotEnoughSignaturesValid
| SignatureInvalid
| MessageAlreadyReceived
| IncorrectRecipient
| PayloadLengthExceeded
| FeeTooLow
| SelfMessagingNotAllowed.

Inductive ActionDecoderError :=
| InvalidAction
| UnsupportedRawAction
| InvalidActionPayload
| CouldNotConvertActionAccountId.
Inductive ActionEncoderError :=
| UnsupportedProxy.

Inductive TokenError :=
| EthereumActionDecoderError (e : ActionDecoderError)
| EthereumMessageEncoderError (e : ActionEncoderError)
| InvalidTokenSender
| InvalidRecipient
| UnsupportedAssetId
| TransferAlreadyReceived
| TransferToVaultFailed
| TransferToFeeVaultFailed
| UnknownTransferRetry
| InvalidTransferRetry
| MissingContractConfiguration
| NotEnabled
| UnsupportedAction
| TransferAmountTooLow
| FeeRefundFailed.

Inductive SubstrateMessageDecoderError :=
| CouldNotDecodeAction
| TooManyPlannedExecutions
| TooManyDecodedSources
| InvalidJobModule
| TooManyJobModules
| CouldNotConvertAccountId.
Inductive SubstrateMessageEncoderError :=
| UnexpectedPublicKey.
Inductive HyperdriveError :=
| DecoderError (e : SubstrateMessageDecoderError)
| EncoderError (e : SubstrateMessageEncoderError)
| InvalidSender.

Inductive BridgeError :=
| IbcErr (e : IbcError)
| TokenErr (e : TokenError)
| HyperdriveErr (e : HyperdriveError)
| JobErr (e : DispatchError)
| BridgeBadOrigin
| BridgeCurrencyError
| OtherProcessorError.

Inductive BridgeEvent :=
| OracleUpdated (added updated : list (Public * ActivityWindow)) (removed : list Public)
| MessageReadyToSend (message : OutgoingMessageWithMeta)
| MessageDelivered (id : MessageId)
| MessageRemoved (id : MessageId)
| MessageProcessed (message : IncomingMessageWithMeta)
| MessageProcessedWithErrors (message : IncomingMessageWithMeta)
| TransferToProxy (source : AccountId) (dest : MultiOrigin) (amount : Balance)
| TransferFromProxy (source : ProxyChain) (dest : AccountId) (amount : Balance)
| EthereumContractUpdated (c : Z)
| SolanaContractUpdated (c : Z)
| PalletEnabled (on : bool)
| DefaultOutgoingTransferTTLUpdated (proxy_chain : ProxyChain) (ttl : option BlockNumber)
| AlephZeroContractUpdated (c : ContractCall)
| VaraContractUpdated (c : AccountId)
| SentToProxyV2 (nonce : MessageNonce).

(** * Constants of the runtime *)
Class BridgeConfig := {
  MinTTL : BlockNumber;
  IncomingTTL : BlockNumber;
  MinDeliveryConfirmationSignatures : Z;
  MinReceiptConfirmationSignatures : Z;
  MinFee : Balance;
  SelfChain : ProxyAcurastChain;
  IbcUpdateOrigin : RuntimeOrigin -> bool;
  (** the token pallet *)
  PalletAccount : AccountId;
  EthereumVault : AccountId;
  EthereumFeeVault : AccountId;
  SolanaVault : AccountId;
  OperationalFeeAccount : AccountId;
  MinTransferAmount : Balance;
  DefaultOutgoingTransferTTL : BlockNumber;
  TokenOperatorOrigin : RuntimeOrigin -> bool;
  (** the proxy pallet: [T::Sender] (the account that messages are sent to and from) *)
  AcurastPalletAccount : AccountId;
  MessageFee : Balance;
  (** [HyperdriveIbcFeePalletAccount], which pays for messages to the proxies *)
  HyperdriveIbcFeePalletAccount : AccountId;
  (** the initial contracts *)
  AlephZeroContract : AccountId;
  AlephZeroContractSelector : list Z;
  VaraContract : AccountId;
  (** the recipient of messages for [pallet_acurast_token_conversion] *)
  TokenConversionAccount : AccountId;
  EnvKeyMaxSize : Z;
  EnvValueMaxSize : Z;
  MaxEnvVars : Z;
}.

(** * What the pallets call

    The currency with its holds, hashing, signatures and the SCALE codec, and what
    the job pallets call apart from the hooks, which the bridge implements
    ([Bridge.v]); [BExt] is the state of all these. *)
Class BridgeExternals := {
  BExt : Type;
  (** [Currency::transfer(from, to, amount, Preserve)] and [Protect] *)
  bx_transfer : AccountId -> AccountId -> Balance -> BExt -> option BExt;
  bx_transfer_protect : AccountId -> AccountId -> Balance -> BExt -> option BExt;
  (** [Currency::hold(OutgoingMessageFee, who, amount)] *)
  bx_hold : AccountId -> Balance -> BExt -> option BExt;
  (** [Currency::release(OutgoingMessageFee, who, amount, precision)]; the flag is
      [Precision::Exact] *)
  bx_release : bool -> AccountId -> Balance -> BExt -> option BExt;
  (** [Currency::transfer_on_hold(OutgoingMessageFee, from, to, amount, Exact, Free, Polite)] *)
  bx_transfer_on_hold : AccountId -> AccountId -> Balance -> BExt -> option BExt;
  (** [Currency::mint_into(who, amount)] *)
  bx_mint_into : AccountId -> Balance -> BExt -> option BExt;
  (** [MessageIdHashing::hash_of(&(sender, nonce))] *)
  message_id_of : Subject -> MessageNonce -> MessageId;
  (** [MessageIdHasher::hash_of] of a byte string and of a [u64] *)
  hash_of_bytes : list Z -> H256;
  hash_of_u64 : Z -> H256;
  (** [signature.verify(encoding of (ParachainId, message[, relayer]), public)] *)
  verify_signature : Message -> option AccountId -> Signature -> Public -> bool;
  (** [AccountId::encode], and [TryFrom<Vec<u8>>] of [ParsableAccountId] *)
  account_bytes : AccountId -> list Z;
  parse_account_id : list Z -> option AccountId;
  (** the bytes of an [AccountId20] *)
  account20_bytes : Z -> list Z;
  blake2_256 : list Z -> list Z;
  (** the derived SCALE codecs *)
  scale_decode_raw_outgoing : list Z -> option RawOutgoingAction;
  scale_decode_payload_v1 : list Z -> option OutgoingActionPayloadV1;
  scale_encode_incoming : Z -> IncomingActionPayloadV1 -> list Z;
  (** [AcurastTokenConversion::process] *)
  token_conversion_process : MessageBody -> BExt -> option BExt;
  (** what the job pallets call, as in [JobExternals] *)
  bx_withdraw : AccountId -> Balance -> BExt -> option (Balance * BExt);
  bx_on_unbalanced : Balance -> BExt -> BExt;
  bx_now_millis : BExt -> Z;
  bx_processor_version : BExt -> AccountId -> option Version;
  bx_last_metric : BExt -> AccountId -> PoolId -> option FixedU128;
  bx_price : BExt -> AccountId -> option Balance;
  bx_deployment_hash : MultiOrigin -> Script -> H256;
  bx_key_id_hash : JobId -> H256;
  bx_from_base58 : list Z -> option (list Z);
  bx_job_key : JobId -> Z;
  bx_account_key : AccountId -> Z;
  bx_clear_prefix_keys : Z -> list Z -> list Z;
}.

Section storage.
Context {B : BridgeExternals}.

(** * The storage *)
Record BridgeState := mkBridgeState {
  (** [pallet_acurast_hyperdrive_ibc] *)
  oracle_public_keys : gmap Public ActivityWindow;
  message_counter : Z;
  outgoing_messages : gmap MessageId OutgoingMessageWithMeta;
  outgoing_messages_lookup : gmap (Subject * MessageNonce) MessageId;
  incoming_messages : gmap MessageId IncomingMessageWithMeta;
  incoming_messages_lookup : gmap (Subject * MessageId) unit;
  (** [pallet_acurast_hyperdrive_token] *)
  enabled : option bool;
  ethereum_contract : option Z;
  solana_contract : option Z;
  outgoing_transfers : gmap (ProxyChain * TransferNonce) (AccountId * MultiOrigin * Balance);
  next_transfer_nonce : gmap ProxyChain TransferNonce;
  incoming_transfer_nonces : gmap (ProxyChain * TransferNonce) unit;
  next_enable_nonce : option EnableNonce;
  outgoing_transfer_ttl : gmap ProxyChain BlockNumber;
  (** [pallet_acurast_hyperdrive] *)
  aleph_zero_contract : ContractCall;
  vara_contract : AccountId;
  next_message_number : Z;
  (** the system pallet, the events, and the state of what the pallets call *)
  block_number : BlockNumber;
  bridge_events : list BridgeEvent;
  bext : BExt;
}.
Definition set_oracle_public_keys (v : gmap Public ActivityWindow) (x : BridgeState) : BridgeState :=
  mkBridgeState v x.(message_counter) x.(outgoing_messages) x.(outgoing_messages_lookup) x.(incoming_messages) x.(incoming_messages_lookup) x.(enabled) x.(ethereum_contract) x.(solana_contract) x.(outgoing_transfers) x.(next_transfer_nonce) x.(incoming_transfer_nonces) x.(next_enable_nonce) x.(outgoing_transfer_ttl) x.(aleph_zero_contract) x.(vara_contract) x.(next_message_number) x.(block_number) x.(bridge_events) x.(bext).
Definition set_message_counter (v : Z) (x : BridgeState) : BridgeState :=
  mkBridgeState x.(oracle_public_keys) v x.(outgoing_messages) x.(outgoing_messages_lookup) x.(incoming_messages) x.(incoming_messages_lookup) x.(enabled) x.(ethereum_contract) x.(solana_contract) x.(outgoing_transfers) x.(next_transfer_nonce) x.(incoming_transfer_nonces) x.(next_enable_nonce) x.(outgoing_transfer_ttl) x.(aleph_zero_contract) x.(vara_contract) x.(next_message_number) x.(block_number) x.(bridge_events) x.(bext).
Definition set_outgoing_messages (v : gmap MessageId OutgoingMessageWithMeta) (x : BridgeState) : BridgeState :=
  mkBridgeState x.(oracle_public_keys) x.(message_counter) v x.(outgoing_messages_lookup) x.(incoming_messages) x.(incoming_messages_lookup) x.(enabled) x.(ethereum_contract) x.(solana_contract) x.(outgoing_transfers) x.(next_transfer_nonce) x.(incoming_transfer_nonces) x.(next_enable_nonce) x.(outgoing_transfer_ttl) x.(aleph_zero_contract) x.(vara_contract) x.(next_message_number) x.(block_number) x.(bridge_events) x.(bext).
Definition set_outgoing_messages_lookup (v : gmap (Subject * MessageNonce) MessageId) (x : BridgeState) : BridgeState :=
  mkBridgeState x.(oracle_public_keys) x.(message_counter) x.(outgoing_messages) v x.(incoming_messages) x.(incoming_messages_lookup) x.(enabled) x.(ethereum_contract) x.(solana_contract) x.(outgoing_transfers) x.(next_transfer_nonce) x.(incoming_transfer_nonces) x.(next_enable_nonce) x.(outgoing_transfer_ttl) x.(aleph_zero_contract) x.(vara_contract) x.(next_message_number) x.(block_number) x.(bridge_events) x.(bext).
Definition set_incoming_messages (v : gmap MessageId IncomingMessageWithMeta) (x : BridgeState) : BridgeState :=
  mkBridgeState x.(oracle_public_keys) x.(message_counter) x.(outgoing_messages) x.(outgoing_messages_lookup) v x.(incoming_messages_lookup) x.(enabled) x.(ethereum_contract) x.(solana_contract) x.(outgoing_transfers) x.(next_transfer_nonce) x.(incoming_transfer_nonces) x.(next_enable_nonce) x.(outgoing_transfer_ttl) x.(aleph_zero_contract) x.(vara_contract) x.(next_message_number) x.(block_number) x.(bridge_events) x.(bext).
Definition set_incoming_messages_lookup (v : gmap (Subject * MessageId) unit) (x : BridgeState) : BridgeState :=
  mkBridgeState x.(oracle_public_keys) x.(message_counter) x.(outgoing_messages) x.(outgoing_messages_lookup) x.(incoming_messages) v x.(enabled) x.(ethereum_contract) x.(solana_contract) x.(outgoing_transfers) x.(next_transfer_nonce) x.(incoming_transfer_nonces) x.(next_enable_nonce) x.(outgoing_transfer_ttl) x.(aleph_zero_contract) x.(vara_contract) x.(next_message_number) x.(block_number) x.(bridge_events) x.(bext).
Definition set_enabled (v : option bool) (x : BridgeState) : BridgeState :=
  mkBridgeState x.(oracle_public_keys) x.(message_counter) x.(outgoing_messages) x.(outgoing_messages_lookup) x.(incoming_messages) x.(incoming_messages_lookup) v x.(ethereum_contract) x.(solana_contract) x.(outgoing_transfers) x.(next_transfer_nonce) x.(incoming_transfer_nonces) x.(next_enable_nonce) x.(outgoing_transfer_ttl) x.(aleph_zero_contract) x.(vara_contract) x.(next_message_number) x.(block_number) x.(bridge_events) x.(bext).
Definition set_ethereum_contract (v : option Z) (x : BridgeState) : BridgeState :=
  mkBridgeState x.(oracle_public_keys) x.(message_counter) x.(outgoing_messages) x.(outgoing_messages_lookup) x.(incoming_messages) x.(incoming_messages_lookup) x.(enabled) v x.(solana_contract) x.(outgoing_transfers) x.(next_transfer_nonce) x.(incoming_transfer_nonces) x.(next_enable_nonce) x.(outgoing_transfer_ttl) x.(aleph_zero_contract) x.(vara_contract) x.(next_message_number) x.(block_number) x.(bridge_events) x.(bext).
Definition set_solana_contract (v : option Z) (x : BridgeState) : BridgeState :=
  mkBridgeState x.(oracle_public_keys) x.(message_counter) x.(outgoing_messages) x.(outgoing_messages_lookup) x.(incoming_messages) x.(incoming_messages_lookup) x.(enabled) x.(ethereum_contract) v x.(outgoing_transfers) x.(next_transfer_nonce) x.(incoming_transfer_nonces) x.(next_enable_nonce) x.(outgoing_transfer_ttl) x.(aleph_zero_contract) x.(vara_contract) x.(next_message_number) x.(block_number) x.(bridge_events) x.(bext).
Definition set_outgoing_transfers (v : gmap (ProxyChain * TransferNonce) (AccountId * MultiOrigin * Balance)) (x : BridgeState) : BridgeState :=
  mkBridgeState x.(oracle_public_keys) x.(message_counter) x.(outgoing_messages) x.(outgoing_messages_lookup) x.(incoming_messages) x.(incoming_messages_lookup) x.(enabled) x.(ethereum_contract) x.(solana_contract) v x.(next_transfer_nonce) x.(incoming_transfer_nonces) x.(next_enable_nonce) x.(outgoing_transfer_ttl) x.(aleph_zero_contract) x.(vara_contract) x.(next_message_number) x.(block_number) x.(bridge_events) x.(bext).
Definition set_next_transfer_nonce (v : gmap ProxyChain TransferNonce) (x : BridgeState) : BridgeState :=
  mkBridgeState x.(oracle_public_keys) x.(message_counter) x.(outgoing_messages) x.(outgoing_messages_lookup) x.(incoming_messages) x.(incoming_messages_lookup) x.(enabled) x.(ethereum_contract) x.(solana_contract) x.(outgoing_transfers) v x.(incoming_transfer_nonces) x.(next_enable_nonce) x.(outgoing_transfer_ttl) x.(aleph_zero_contract) x.(vara_contract) x.(next_message_number) x.(block_number) x.(bridge_events) x.(bext).
Definition set_incoming_transfer_nonces (v : gmap (ProxyChain * TransferNonce) unit) (x : BridgeState) : BridgeState :=
  mkBridgeState x.(oracle_public_keys) x.(message_counter) x.(outgoing_messages) x.(outgoing_messages_lookup) x.(incoming_messages) x.(incoming_messages_lookup) x.(enabled) x.(ethereum_contract) x.(solana_contract) x.(outgoing_transfers) x.(next_transfer_nonce) v x.(next_enable_nonce) x.(outgoing_transfer_ttl) x.(aleph_zero_contract) x.(vara_contract) x.(next_message_number) x.(block_number) x.(bridge_events) x.(bext).
Definition set_next_enable_nonce (v : option EnableNonce) (x : BridgeState) : BridgeState :=
  mkBridgeState x.(oracle_public_keys) x.(message_counter) x.(outgoing_messages) x.(outgoing_messages_lookup) x.(incoming_messages) x.(incoming_messages_lookup) x.(enabled) x.(ethereum_contract) x.(solana_contract) x.(outgoing_transfers) x.(next_transfer_nonce) x.(incoming_transfer_nonces) v x.(outgoing_transfer_ttl) x.(aleph_zero_contract) x.(vara_contract) x.(next_message_number) x.(block_number) x.(bridge_events) x.(bext).
Definition set_outgoing_transfer_ttl (v : gmap ProxyChain BlockNumber) (x : BridgeState) : BridgeState :=
  mkBridgeState x.(oracle_public_keys) x.(message_counter) x.(outgoing_messages) x.(outgoing_messages_lookup) x.(incoming_messages) x.(incoming_messages_lookup) x.(enabled) x.(ethereum_contract) x.(solana_contract) x.(outgoing_transfers) x.(next_transfer_nonce) x.(incoming_transfer_nonces) x.(next_enable_nonce) v x.(aleph_zero_contract) x.(vara_contract) x.(next_message_number) x.(block_number) x.(bridge_events) x.(bext).
Definition set_aleph_zero_contract (v : ContractCall) (x : BridgeState) : BridgeState :=
  mkBridgeState x.(oracle_public_keys) x.(message_counter) x.(outgoing_messages) x.(outgoing_messages_lookup) x.(incoming_messages) x.(incoming_messages_lookup) x.(enabled) x.(ethereum_contract) x.(solana_contract) x.(outgoing_transfers) x.(next_transfer_nonce) x.(incoming_transfer_nonces) x.(next_enable_nonce) x.(outgoing_transfer_ttl) v x.(vara_contract) x.(next_message_number) x.(block_number) x.(bridge_events) x.(bext).
Definition set_vara_contract (v : AccountId) (x : BridgeState) : BridgeState :=
  mkBridgeState x.(oracle_public_keys) x.(message_counter) x.(outgoing_messages) x.(outgoing_messages_lookup) x.(incoming_messages) x.(incoming_messages_lookup) x.(enabled) x.(ethereum_contract) x.(solana_contract) x.(outgoing_transfers) x.(next_transfer_nonce) x.(incoming_transfer_nonces) x.(next_enable_nonce) x.(outgoing_transfer_ttl) x.(aleph_zero_contract) v x.(next_message_number) x.(block_number) x.(bridge_events) x.(bext).
Definition set_next_message_number (v : Z) (x : BridgeState) : BridgeState :=
  mkBridgeState x.(oracle_public_keys) x.(message_counter) x.(outgoing_messages) x.(outgoing_messages_lookup) x.(incoming_messages) x.(incoming_messages_lookup) x.(enabled) x.(ethereum_contract) x.(solana_contract) x.(outgoing_transfers) x.(next_transfer_nonce) x.(incoming_transfer_nonces) x.(next_enable_nonce) x.(outgoing_transfer_ttl) x.(aleph_zero_contract) x.(vara_contract) v x.(block_number) x.(bridge_events) x.(bext).
Definition set_block_number (v : BlockNumber) (x : BridgeState) : BridgeState :=
  mkBridgeState x.(oracle_public_keys) x.(message_counter) x.(outgoing_messages) x.(outgoing_messages_lookup) x.(incoming_messages) x.(incoming_messages_lookup) x.(enabled) x.(ethereum_contract) x.(solana_contract) x.(outgoing_transfers) x.(next_transfer_nonce) x.(incoming_transfer_nonces) x.(next_enable_nonce) x.(outgoing_transfer_ttl) x.(aleph_zero_contract) x.(vara_contract) x.(next_message_number) v x.(bridge_events) x.(bext).
Definition set_bridge_events (v : list BridgeEvent) (x : BridgeState) : BridgeState :=
  mkBridgeState x.(oracle_public_keys) x.(message_counter) x.(outgoing_messages) x.(outgoing_messages_lookup) x.(incoming_messages) x.(incoming_messages_lookup) x.(enabled) x.(ethereum_contract) x.(solana_contract) x.(outgoing_transfers) x.(next_transfer_nonce) x.(incoming_transfer_nonces) x.(next_enable_nonce) x.(outgoing_transfer_ttl) x.(aleph_zero_contract) x.(vara_contract) x.(next_message_number) x.(block_number) v x.(bext).
Definition set_bext (v : BExt) (x : BridgeState) : BridgeState :=
  mkBridgeState x.(oracle_public_keys) x.(message_counter) x.(outgoing_messages) x.(outgoing_messages_lookup) x.(incoming_messages) x.(incoming_messages_lookup) x.(enabled) x.(ethereum_contract) x.(solana_contract) x.(outgoing_transfers) x.(next_transfer_nonce) x.(incoming_transfer_nonces) x.(next_enable_nonce) x.(outgoing_transfer_ttl) x.(aleph_zero_contract) x.(vara_contract) x.(next_message_number) x.(block_number) x.(bridge_events) v.

(** The storage of a new chain, before the genesis build of the token pallet *)
Definition bridge_genesis {C : BridgeConfig} (x : BExt) : BridgeState :=
  mkBridgeState ∅ 0 ∅ ∅ ∅ ∅ None None None ∅ ∅ ∅ None ∅
    (mkContractCall AlephZeroContract (Some AlephZeroContractSelector)) VaraContract 0 0 [] x.

Definition MB (A : Type) : Type := M BridgeState BridgeError A.

Definition bridge_event (e : BridgeEvent) : MB unit :=
  modify (fun s => set_bridge_events (s.(bridge_events) ++ [e]) s).

(** An operation of the currency *)
Definition currency (f : BExt -> option BExt) (e : BridgeError) : MB unit :=
  let* x := gets bext in
  let* x' := ok_or (f x) e in
  modify (set_bext x').

Definition ensure_signed_by (origin : RuntimeOrigin) : MB AccountId :=
  match origin with
  | Signed who => ret who
  | Root => throw BridgeBadOrigin
  end.
End storage.
