(* ===== verification/Ibc.v ===== *)
(** Messages between chains: [pallets/hyperdrive-ibc/src/lib.rs].

    The pallet holds a fee for every outgoing message until a relayer proves the
    delivery or the message times out, and accepts incoming messages that enough
    oracles have signed.  [MessageProcessor] is what it does with a message it has
    accepted, [MessageSender] what it offers to the pallets that send messages. *)
From S2P Require Import Prelude JobTypes BridgeTypes.

Section ibc.
Context {B : BridgeExternals} {C : BridgeConfig}.

Class MessageSender := {
  send_message : AccountId -> AccountId -> MessageNonce -> Subject -> list Z -> BlockNumber ->
    Balance -> MB (OutgoingMessageWithMeta * option OutgoingMessageWithMeta);
}.

(** * Signatures *)
Definition is_active (w : ActivityWindow) (current_block : BlockNumber) : bool :=
  (w.(start_block) <=? current_block) &&
  match w.(end_block) with Some e => current_block <? e | None => true end.

(** The loop body of [check_signatures]: how many signatures are valid, and which
    keys have been seen. *)
Definition check_signature (message : Message) (relayer : option AccountId)
  (acc : Z * gset Public) (x : Signature * Public) : MB (Z * gset Public) :=
  let '(valid, checked) := acc in
  let '(signature, public) := x in
  let* o := gets (fun s => s.(oracle_public_keys) !! public) in
  match o with
  | None => ret acc
  | Some activity_window =>
      if bool_decide (public ∈ checked) then ret acc
      else
        let* current_block := gets block_number in
        if is_active activity_window current_block then
          ensure (verify_signature message relayer signature public) (IbcErr SignatureInvalid);;
          ret (valid + 1, {[public]} ∪ checked)
        else ret acc
  end.

Definition check_signatures (message : Message) (relayer : option AccountId)
  (signatures : list (Signature * Public)) (min_signatures : Z) : MB unit :=
  ensure (min_signatures <=? Z.of_nat (length signatures)) (IbcErr NotEnoughSignaturesProvided);;
  let* (valid, _) := mfold signatures (0, ∅) (check_signature message relayer) in
  ensure (min_signatures <=? valid) (IbcErr NotEnoughSignaturesValid).

(** * Sending *)
Definition self_subject (l : Layer) : Subject :=
  match SelfChain with
  | SelfAcurast => SAcurast l
  | SelfAcurastCanary => SAcurastCanary l
  end.

(** An expired message of the same id is replaced, and its fee released. *)
Definition release_replaced (id : MessageId) : MB (option OutgoingMessageWithMeta) :=
  let* m := gets (fun s => s.(outgoing_messages) !! id) in
  match m with
  | Some message =>
      let* current_block := gets block_number in
      ensure (message.(om_ttl_block) <? current_block) (IbcErr MessageWithSameNoncePending);;
      currency (bx_release true message.(om_payer) message.(om_fee))
        (IbcErr CouldNotReleaseHoldFee);;
      ret (Some message)
  | None => ret None
  end.

Definition do_send_message (sender payer : AccountId) (nonce : MessageNonce) (recipient : Subject)
  (payload : list Z) (ttl : BlockNumber) (fee : Balance)
  : MB (OutgoingMessageWithMeta * option OutgoingMessageWithMeta) :=
  ensure (MinFee <=? fee) (IbcErr FeeTooLow);;
  let* current_block := gets block_number in
  let sender := self_subject (Extrinsic sender) in
  ensure (negb (bool_decide (proxy_of_subject sender = proxy_of_subject recipient)))
    (IbcErr SelfMessagingNotAllowed);;
  let id := message_id_of sender nonce in
  let* replaced_message := release_replaced id in
  ensure (MinTTL <=? ttl) (IbcErr TTLSmallerThanMinimum);;
  ensure (Z.of_nat (length payload) <=? PAYLOAD_MAX_LENGTH) (IbcErr PayloadLengthExceeded);;
  let message := mkMessage id sender nonce recipient payload in
  let message_with_meta :=
    mkOutgoing message current_block (saturating_add u32_max current_block ttl) fee payer in
  modify (fun s => set_outgoing_messages (<[id := message_with_meta]> s.(outgoing_messages)) s);;
  modify (fun s => set_outgoing_messages_lookup
                     (<[(sender, nonce) := id]> s.(outgoing_messages_lookup)) s);;
  currency (bx_hold payer fee) (IbcErr CouldNotHoldFee);;
  bridge_event (MessageReadyToSend message_with_meta);;
  ret (message_with_meta, replaced_message).

(** [MessageSender for Pallet<T, I>] *)
#[export] Instance ibc_sender : MessageSender := {| send_message := do_send_message |}.

(** * Calls *)
Definition update_oracle (acc : list (Public * ActivityWindow) * list (Public * ActivityWindow) * list Public)
  (action : OracleUpdate)
  : MB (list (Public * ActivityWindow) * list (Public * ActivityWindow) * list Public) :=
  let '(added, updated, removed) := acc in
  match action with
  | OracleAdd public w =>
      modify (fun s => set_oracle_public_keys (<[public := w]> s.(oracle_public_keys)) s);;
      ret (added ++ [(public, w)], updated, removed)
  | OracleChange public w =>
      modify (fun s => set_oracle_public_keys (<[public := w]> s.(oracle_public_keys)) s);;
      ret (added, updated ++ [(public, w)], removed)
  | OracleRemove public =>
      modify (fun s => set_oracle_public_keys (delete public s.(oracle_public_keys)) s);;
      ret (added, updated, removed ++ [public])
  end.

Definition update_oracles (origin : RuntimeOrigin) (updates : list OracleUpdate) : MB unit :=
  ensure (IbcUpdateOrigin origin) BridgeBadOrigin;;
  let* (added_updated, removed) := mfold updates ([], [], []) update_oracle in
  bridge_event (OracleUpdated added_updated.1 added_updated.2 removed).

Definition send_test_message (origin : RuntimeOrigin) (recipient : Subject) (ttl : BlockNumber)
  (fee : Balance) : MB unit :=
  let* who := ensure_signed_by origin in
  let* count := gets message_counter in
  modify (set_message_counter (wrapping_add u64_max count 1));;
  let* _ := do_send_message who who (hash_of_u64 count) recipient (account_bytes who) ttl fee in
  ret tt.

Definition clear_outgoing (id : MessageId) (message : OutgoingMessageWithMeta) : MB unit :=
  modify (fun s => set_outgoing_messages (delete id s.(outgoing_messages)) s);;
  modify (fun s => set_outgoing_messages_lookup
    (delete (message.(om_message).(msg_sender), message.(om_message).(msg_nonce))
       s.(outgoing_messages_lookup)) s).

Definition confirm_message_delivery (origin : RuntimeOrigin) (id : MessageId)
  (signatures : list (Signature * Public)) : MB unit :=
  let* who := ensure_signed_by origin in
  let* m := gets (fun s => s.(outgoing_messages) !! id) in
  let* message := ok_or m (IbcErr MessageNotFound) in
  let* current_block := gets block_number in
  ensure (current_block <=? message.(om_ttl_block)) (IbcErr DeliveryConfirmationOverdue);;
  check_signatures message.(om_message) (Some who) signatures MinDeliveryConfirmationSignatures;;
  currency (bx_transfer_on_hold message.(om_payer) who message.(om_fee))
    (IbcErr CouldNotReleaseHoldFee);;
  bridge_event (MessageDelivered id);;
  clear_outgoing id message.

Definition remove_message (origin : RuntimeOrigin) (id : MessageId) : MB unit :=
  let* _ := ensure_signed_by origin in
  let* m := gets (fun s => s.(outgoing_messages) !! id) in
  let* message := ok_or m (IbcErr MessageNotFound) in
  let* current_block := gets block_number in
  ensure (message.(om_ttl_block) <? current_block) (IbcErr CannotRemovePendingMessage);;
  currency (bx_release false message.(om_payer) message.(om_fee)) (IbcErr CouldNotHoldFee);;
  bridge_event (MessageRemoved id);;
  clear_outgoing id message.

(** The loop body of [clean_incoming] *)
Definition clean_message (current_block : BlockNumber) (id : MessageId) : MB unit :=
  let* m := gets (fun s => s.(incoming_messages) !! id) in
  match m with
  | None => ret tt
  | Some message =>
      if saturating_add u32_max message.(im_current_block) IncomingTTL <? current_block then
        modify (fun s => set_incoming_messages (delete id s.(incoming_messages)) s);;
        modify (fun s => set_incoming_messages_lookup
          (delete (message.(im_message).(msg_recipient), id) s.(incoming_messages_lookup)) s)
      else ret tt
  end.
Definition clean_incoming (origin : RuntimeOrigin) (ids : list MessageId) : MB unit :=
  let* _ := ensure_signed_by origin in
  let* current_block := gets block_number in
  mfor ids (clean_message current_block).
End ibc.

(** * Receiving

    What a message does is up to the other pallets, so that it may change more than
    the storage of the bridge: [W] is the whole state, and [BridgeIn] says where the
    storage of the bridge is in it. *)
Class BridgeIn {B : BridgeExternals} (W : Type) := {
  bridge_of : W -> BridgeState;
  put_bridge : BridgeState -> W -> W;
}.
Class MessageProcessor (W : Type) := {
  process_body : MessageBody -> M W BridgeError unit;
}.

Section receive.
Context {B : BridgeExternals} {C : BridgeConfig} {W : Type} {L : BridgeIn W} {P : MessageProcessor W}.

Definition on_bridge {A} (m : MB A) : M W BridgeError A := zoom bridge_of put_bridge m.

(** A failed message leaves no trace, and the call goes on. *)
Definition attempt (m : M W BridgeError unit) : M W BridgeError bool :=
  fun s =>
    match with_transaction m s with
    | (Ok _, s') => (Ok true, s')
    | (Err _, s') => (Ok false, s')
    | (Panic, s') => (Panic, s')
    end.

Definition process_message (message : Message) : M W BridgeError unit :=
  process_body (body_of message).

(** The part of [receive_message] that may reject the message *)
Definition accept_message (origin : RuntimeOrigin) (sender : Subject) (nonce : MessageNonce)
  (recipient : Subject) (payload : Payload) (relayer : MultiOrigin)
  (signatures : list (Signature * Public)) : MB IncomingMessageWithMeta :=
  let* _ := ensure_signed_by origin in
  ensure (bool_decide (proxy_of_subject recipient = proxy_of_self SelfChain))
    (IbcErr IncorrectRecipient);;
  let id := message_id_of sender nonce in
  let* known := gets (fun s => s.(incoming_messages) !! id) in
  ensure (match known with None => true | Some _ => false end) (IbcErr MessageAlreadyReceived);;
  let* current_block := gets block_number in
  let message := mkMessage id sender nonce recipient payload in
  check_signatures message None signatures MinReceiptConfirmationSignatures;;
  let message_with_meta := mkIncoming message current_block relayer in
  modify (fun s => set_incoming_messages (<[id := message_with_meta]> s.(incoming_messages)) s);;
  modify (fun s => set_incoming_messages_lookup
                     (<[(recipient, id) := tt]> s.(incoming_messages_lookup)) s);;
  ret message_with_meta.

Definition receive_message (origin : RuntimeOrigin) (sender : Subject) (nonce : MessageNonce)
  (recipient : Subject) (payload : Payload) (relayer : MultiOrigin)
  (signatures : list (Signature * Public)) : M W BridgeError unit :=
  let* message_with_meta :=
    on_bridge (accept_message origin sender nonce recipient payload relayer signatures) in
  let* processed := attempt (process_message message_with_meta.(im_message)) in
  on_bridge
    (if processed then bridge_event (MessageProcessed message_with_meta)
     else bridge_event (MessageProcessedWithErrors message_with_meta)).
End receive.
