(* ===== verification/HyperdriveToken.v ===== *)
(** Token transfers to and from other chains: [pallets/hyperdrive-token/src/lib.rs].

    Tokens that leave are locked on a vault account, tokens that come back are paid
    from it; every transfer has a nonce per chain, and the nonces of incoming
    transfers are remembered so that none is paid twice.  The first part is the
    binary format of the messages, [chain/ethereum.rs]. *)
From S2P Require Import Prelude JobTypes BridgeTypes Ibc.

(** * Big-endian integers *)
Fixpoint to_be_bytes (width : nat) (n : Z) : list Z :=
  match width with
  | O => []
  | S w => n / 256 ^ Z.of_nat w mod 256 :: to_be_bytes w n
  end.
Definition from_be_bytes (l : list Z) : Z := fold_left (fun n b => 256 * n + b) l 0.

(** [buffer[a..b]], and [buffer[a..b].copy_from_slice(src)] for a [src] of that length *)
Definition slice (range : nat * nat) (buffer : list Z) : list Z :=
  take (range.2 - range.1) (drop range.1 buffer).
Definition write_slice (range : nat * nat) (src buffer : list Z) : list Z :=
  take range.1 buffer ++ src ++ drop range.2 buffer.
Definition write_byte (i : nat) (b : Z) (buffer : list Z) : list Z := <[i := b]> buffer.

Definition action_id_range : nat * nat := (0, 4)%nat.
Definition amount_range : nat * nat := (4, 20)%nat.
Definition enabled_index : nat := 4%nat.
Definition asset_id_range : nat * nat := (20, 24)%nat.
Definition transfer_nonce_range : nat * nat := (24, 32)%nat.
Definition ethereum_dest_range : nat * nat := (32, 52)%nat.
Definition acurast_dest_range : nat * nat := (32, 64)%nat.

Section codec.
Context {B : BridgeExternals}.

(** [EthereumActionDecoder::decode] *)
Definition decode_action (encoded : list Z) : outcome ActionDecoderError Action :=
  if (length encoded <? 4)%nat then Err InvalidAction
  else
    match raw_action_try_from (from_be_bytes (slice action_id_range encoded)) with
    | None => Err UnsupportedRawAction
    | Some RawTransferToken =>
        if negb (length encoded =? 64)%nat then Err InvalidActionPayload
        else
          let amount := from_be_bytes (slice amount_range encoded) in
          let asset_id := from_be_bytes (slice asset_id_range encoded) in
          let transfer_nonce := from_be_bytes (slice transfer_nonce_range encoded) in
          match parse_account_id (slice acurast_dest_range encoded) with
          | None => Err CouldNotConvertActionAccountId
          | Some dest =>
              Ok (TransferToken amount (if negb (asset_id =? 0) then Some asset_id else None)
                    transfer_nonce (Acurast dest))
          end
    | Some RawNoop => Ok Noop
    | Some RawSetEnabled =>
        if negb (length encoded =? 5)%nat then Err InvalidActionPayload
        else Ok (SetEnabled (negb (default 0 (encoded !! enabled_index) =? 0)))
    end.

(** [EthereumActionEncoder::encode] *)
Definition encode_action (action : Action) : outcome ActionEncoderError (list Z) :=
  let raw_action_encoded := to_be_bytes 4 (raw_action_index (raw_of_action action)) in
  match action with
  | TransferToken amount asset_id transfer_nonce dest =>
      match dest with
      | Ethereum20 account_id =>
          Ok (write_slice ethereum_dest_range (account20_bytes account_id)
               (write_slice transfer_nonce_range (to_be_bytes 8 transfer_nonce)
                 (write_slice asset_id_range (to_be_bytes 4 (default 0 asset_id))
                   (write_slice amount_range (to_be_bytes 16 amount)
                     (write_slice action_id_range raw_action_encoded (repeat 0 52))))))
      | _ => Err UnsupportedProxy
      end
  | Noop => Ok []
  | SetEnabled on =>
      Ok (write_byte enabled_index (if on then 1 else 0)
           (write_slice action_id_range raw_action_encoded (repeat 0 5)))
  end.
End codec.

Section token.
Context {B : BridgeExternals} {C : BridgeConfig} {S : MessageSender}.

(** The recipient of messages to a chain, its vault and its fee vault *)
Definition proxy_params (proxy : ProxyChain) : MB (Subject * AccountId * AccountId) :=
  match proxy with
  | PEthereum =>
      let* c := gets ethereum_contract in
      let* contract := ok_or c (TokenErr MissingContractConfiguration) in
      ret (SEthereum (Contract (mkContractCall contract None)), EthereumVault, EthereumFeeVault)
  | _ => throw (TokenErr InvalidRecipient)
  end.

Definition ensure_enabled : MB unit :=
  let* e := gets enabled in
  ensure (default false e) (TokenErr NotEnabled).

Definition outgoing_transfer_ttl_or_default (s : BridgeState) (proxy : ProxyChain) : BlockNumber :=
  default DefaultOutgoingTransferTTL (s.(outgoing_transfer_ttl) !! proxy).

(** [Currency::transfer] of an amount, unless it is zero *)
Definition transfer_nonzero (from to : AccountId) (amount : Balance) (e : BridgeError) : MB unit :=
  if amount =? 0 then ret tt else currency (bx_transfer from to amount) e.

Definition encoded_action (action : Action) : MB (list Z) :=
  match encode_action action with
  | Ok l => ret l
  | Err e => throw (TokenErr (EthereumMessageEncoderError e))
  | Panic => panic
  end.

(** [transfer_nonce.unwrap_or_else(..)]: the next nonce of the chain for a new transfer *)
Definition take_transfer_nonce (proxy : ProxyChain) (transfer_nonce : option TransferNonce)
  : MB TransferNonce :=
  match transfer_nonce with
  | Some n => ret n
  | None =>
      let* n := gets (fun s => default 0 (s.(next_transfer_nonce) !! proxy)) in
      modify (fun s => set_next_transfer_nonce
                         (<[proxy := wrapping_add u64_max n 1]> s.(next_transfer_nonce)) s);;
      ret n
  end.

(** The fee of a message that was replaced goes back to who pays for the new one. *)
Definition refund_replaced (fee_vault source : AccountId) (replaced : option OutgoingMessageWithMeta)
  : MB unit :=
  match replaced with
  | Some replaced_message =>
      transfer_nonzero fee_vault source (get_fee replaced_message) BridgeCurrencyError
  | None => ret tt
  end.

Definition do_transfer_native (source : AccountId) (dest : MultiOrigin) (amount fee : Balance)
  (transfer_nonce : option TransferNonce) : MB TransferNonce :=
  ensure (MinTransferAmount <=? amount) (TokenErr TransferAmountTooLow);;
  let proxy := proxy_of_origin dest in
  let* (recipient_vault, fee_vault) := proxy_params proxy in
  match transfer_nonce with
  | None => transfer_nonzero source recipient_vault.2 amount (TokenErr TransferToVaultFailed)
  | Some _ => ret tt
  end;;
  let* transfer_nonce := take_transfer_nonce proxy transfer_nonce in
  transfer_nonzero source fee_vault fee (TokenErr TransferToVaultFailed);;
  let* encoded := encoded_action (TransferToken amount None transfer_nonce dest) in
  let complete_nonce := [proxy_index proxy] ++ to_be_bytes 8 transfer_nonce in
  let* ttl := gets (fun s => outgoing_transfer_ttl_or_default s proxy) in
  let* (_, maybe_replaced_message) :=
    send_message PalletAccount fee_vault (hash_of_bytes complete_nonce) recipient_vault.1 encoded
      ttl fee in
  refund_replaced fee_vault source maybe_replaced_message;;
  bridge_event (TransferToProxy source dest amount);;
  ret transfer_nonce.

(** [b"enable"] *)
Definition enable_prefix : list Z := [101; 110; 97; 98; 108; 101].

Definition do_enable (source : AccountId) (proxy : ProxyChain) (on : bool) (fee : Balance) : MB unit :=
  let* (recipient_vault, fee_vault) := proxy_params proxy in
  transfer_nonzero source fee_vault fee (TokenErr TransferToVaultFailed);;
  let* encoded := encoded_action (SetEnabled on) in
  let* n := gets next_enable_nonce in
  let nonce := default 0 n in
  modify (set_next_enable_nonce (Some (wrapping_add u32_max nonce 1)));;
  let complete_nonce := enable_prefix ++ [proxy_index proxy] ++ to_be_bytes 4 nonce in
  let* ttl := gets (fun s => outgoing_transfer_ttl_or_default s proxy) in
  let* (_, maybe_replaced_message) :=
    send_message PalletAccount fee_vault (hash_of_bytes complete_nonce) recipient_vault.1 encoded
      ttl fee in
  refund_replaced fee_vault source maybe_replaced_message.

(** An action of the contract on the other chain *)
Definition execute_action (proxy : ProxyChain) (action : Action) : MB unit :=
  match action with
  | TransferToken amount asset_id transfer_nonce dest =>
      ensure (match asset_id with None => true | Some _ => false end) (TokenErr UnsupportedAssetId);;
      let* known := gets (fun s => s.(incoming_transfer_nonces) !! (proxy, transfer_nonce)) in
      ensure (match known with None => true | Some _ => false end) (TokenErr TransferAlreadyReceived);;
      modify (fun s => set_incoming_transfer_nonces
                         (<[(proxy, transfer_nonce) := tt]> s.(incoming_transfer_nonces)) s);;
      match dest with
      | Acurast dest_account_id =>
          (if amount =? 0 then ret tt
           else currency (bx_transfer_protect EthereumVault dest_account_id amount)
                  (TokenErr TransferToVaultFailed));;
          bridge_event (TransferFromProxy proxy dest_account_id amount)
      | _ => throw (TokenErr InvalidRecipient)
      end
  | Noop => ret tt
  | SetEnabled _ => throw (TokenErr UnsupportedAction)
  end.

(** [MessageProcessor::process] *)
Definition process_token_message (message : MessageBody) : MB unit :=
  let* proxy_action :=
    match message.(mb_sender) with
    | SEthereum (Contract contract_call) =>
        let* c := gets ethereum_contract in
        let* known := ok_or c (TokenErr MissingContractConfiguration) in
        ensure (contract_call.(contract) =? known) (TokenErr InvalidTokenSender);;
        match decode_action message.(mb_payload) with
        | Ok action => ret (PEthereum, action)
        | Err e => throw (TokenErr (EthereumActionDecoderError e))
        | Panic => panic
        end
    | SSolana (Contract contract_call) =>
        let* c := gets solana_contract in
        let* known := ok_or c (TokenErr MissingContractConfiguration) in
        ensure (contract_call.(contract) =? known) (TokenErr InvalidTokenSender);;
        throw (TokenErr InvalidTokenSender)
    | _ => throw (TokenErr InvalidTokenSender)
    end in
  execute_action proxy_action.1 proxy_action.2.

(** * Calls *)
Definition transfer_native (origin : RuntimeOrigin) (dest : MultiOrigin) (amount fee : Balance)
  : MB unit :=
  ensure_enabled;;
  let* source := ensure_signed_by origin in
  let proxy := proxy_of_origin dest in
  let* transfer_nonce := do_transfer_native source dest amount fee None in
  modify (fun s => set_outgoing_transfers
    (<[(proxy, transfer_nonce) := (source, dest, amount)]> s.(outgoing_transfers)) s).

Definition retry_transfer_native (origin : RuntimeOrigin) (proxy : ProxyChain)
  (transfer_nonce : TransferNonce) (fee : Balance) : MB unit :=
  ensure_enabled;;
  let* source := ensure_signed_by origin in
  let* t := gets (fun s => s.(outgoing_transfers) !! (proxy, transfer_nonce)) in
  let* (prev, prev_amount) := ok_or t (TokenErr UnknownTransferRetry) in
  ensure (prev.1 =? source) (TokenErr InvalidTransferRetry);;
  let* _ := do_transfer_native source prev.2 prev_amount fee (Some transfer_nonce) in
  ret tt.

Definition update_ethereum_contract (origin : RuntimeOrigin) (c : Z) : MB unit :=
  ensure (IbcUpdateOrigin origin) BridgeBadOrigin;;
  modify (set_ethereum_contract (Some c));;
  bridge_event (EthereumContractUpdated c).
Definition update_solana_contract (origin : RuntimeOrigin) (c : Z) : MB unit :=
  ensure (IbcUpdateOrigin origin) BridgeBadOrigin;;
  modify (set_solana_contract (Some c));;
  bridge_event (SolanaContractUpdated c).
Definition set_pallet_enabled (origin : RuntimeOrigin) (on : bool) : MB unit :=
  ensure (TokenOperatorOrigin origin) BridgeBadOrigin;;
  modify (set_enabled (Some on));;
  bridge_event (PalletEnabled on).
Definition enable_proxy_chain (origin : RuntimeOrigin) (proxy_chain : ProxyChain) (on : bool)
  (fee : Balance) : MB unit :=
  ensure (TokenOperatorOrigin origin) BridgeBadOrigin;;
  do_enable OperationalFeeAccount proxy_chain on fee.
Definition update_outgoing_transfer_ttl (origin : RuntimeOrigin) (proxy_chain : ProxyChain)
  (ttl : option BlockNumber) : MB unit :=
  ensure (IbcUpdateOrigin origin) BridgeBadOrigin;;
  modify (fun s => set_outgoing_transfer_ttl
    match ttl with
    | Some value => <[proxy_chain := value]> s.(outgoing_transfer_ttl)
    | None => delete proxy_chain s.(outgoing_transfer_ttl)
    end s);;
  bridge_event (DefaultOutgoingTransferTTLUpdated proxy_chain ttl).

(** The genesis build: the vaults start with the tokens that exist on the other
    chains. *)
Definition mint_initial (vault : AccountId) (allocation : option Balance) (s : BridgeState)
  : BridgeState :=
  match allocation with
  | Some init_allocation =>
      match bx_mint_into vault init_allocation s.(bext) with
      | Some x => set_bext x s
      | None => s
      end
  | None => s
  end.
Definition token_genesis_build (initial_eth_token_allocation initial_sol_token_allocation : option Balance)
  (s : BridgeState) : BridgeState :=
  mint_initial SolanaVault initial_sol_token_allocation
    (mint_initial EthereumVault initial_eth_token_allocation s).
End token.
