(* ===== verification/Hyperdrive.v ===== *)
(** The bridge to the proxy contracts: [pallets/hyperdrive/src/lib.rs], the messages
    of [pallets/hyperdrive/src/chain/substrate.rs] and the wire format of
    [hyperdrive/substrate-core/types.rs].

    A proxy contract on another chain sends jobs of its users, which are decoded
    and executed by the [ActionExecutor]; it is told who is assigned to a job and
    when a job ends. *)
From S2P Require Import Prelude Schedules JobTypes BridgeTypes Ibc.

(** * Results: [?] and [collect::<Result<Vec<_>, _>>()] *)
Section results.
Context {E : Type}.

Definition and_then {A B} (o : outcome E A) (k : A -> outcome E B) : outcome E B :=
  match o with Ok a => k a | Err e => Err e | Panic => Panic end.
Definition check (b : bool) (e : E) : outcome E unit := if b then Ok tt else Err e.
Definition ok_or_else {A} (o : option A) (e : E) : outcome E A :=
  match o with Some a => Ok a | None => Err e end.
Fixpoint collect_results {A B} (f : A -> outcome E B) (l : list A) : outcome E (list B) :=
  match l with
  | [] => Ok []
  | x :: l' => and_then (f x) (fun y => and_then (collect_results f l') (fun ys => Ok (y :: ys)))
  end.
End results.
Notation "'let?' x := m 'in' k" := (and_then m (fun x => k))
  (at level 10, x pattern, m at level 200, k at level 200, only parsing) : monad_scope.

Section codec.
Context {B : BridgeExternals} {C : BridgeConfig} {JC : JobConfig}.

Notation Decoded := (outcome SubstrateMessageDecoderError).

(** [Version::V1 as u16] *)
Definition VERSION_V1 : Z := 1.

(** [OutgoingAction::decode]; [None] is an error of the codec. *)
Definition decode_outgoing (payload : list Z) : option OutgoingAction :=
  action ← scale_decode_raw_outgoing payload;
  p ← (if action.(raw_payload_version) =? VERSION_V1 then scale_decode_payload_v1 action.(raw_payload)
       else None);
  Some {| oa_id := action.(raw_id); oa_origin := action.(raw_origin); oa_payload := p |}.

Definition convert_account_id (bytes : list Z) : Decoded AccountId :=
  ok_or_else (parse_account_id bytes) CouldNotConvertAccountId.

(** [BoundedVec::truncate_from] *)
Definition truncate_from {A} (bound : Z) (l : list A) : list A := take (Z.to_nat bound) l.

Definition MAX_JOB_MODULES : Z := 3.
Definition PUB_KEYS_MAX_LENGTH : Z := 33.
Definition SCRIPT_MAX_LENGTH : Z := 53.

Definition decode_execution (m : PlannedExecutionV1) : Decoded PlannedExecution :=
  let? source := convert_account_id m.(v1_source) in
  Ok {| pe_source := source; pe_start_delay := m.(v1_start_delay) |}.

Definition decode_strategy (s : AssignmentStrategyV1) : Decoded AssignmentStrategy :=
  match s with
  | SingleV1 (Some e) =>
      let? executions := collect_results decode_execution e in
      let? _ := check (Z.of_nat (length executions) <=? MaxSlots) TooManyPlannedExecutions in
      Ok (Single (Some executions))
  | SingleV1 None => Ok (Single None)
  | CompetingV1 => Ok Competing
  end.

Definition decode_sources (sources : option (list (list Z))) : Decoded (option (list AccountId)) :=
  match sources with
  | Some a =>
      let? l := collect_results convert_account_id a in
      let? _ := check (Z.of_nat (length l) <=? MaxAllowedSources) TooManyDecodedSources in
      Ok (Some l)
  | None => Ok None
  end.

Definition decode_modules (modules : list Z) : Decoded (list JobModule) :=
  let? l := collect_results (fun item => ok_or_else (job_module_try_from item) InvalidJobModule)
              modules in
  let? _ := check (Z.of_nat (length l) <=? MAX_JOB_MODULES) TooManyJobModules in
  Ok l.

Definition decode_registration (j : JobRegistrationV1) : Decoded JobRegistration :=
  let? strategy := decode_strategy j.(v1_extra).(v1_assignment_strategy) in
  let? sources := decode_sources j.(v1_allowed_sources) in
  let? modules := decode_modules j.(v1_required_modules) in
  Ok {|
    script := truncate_from SCRIPT_MAX_LENGTH j.(v1_script);
    allowed_sources := sources;
    allow_only_verified_sources := j.(v1_allow_only_verified_sources);
    schedule := {|
      duration := j.(v1_schedule).(v1_duration);
      start_time := j.(v1_schedule).(v1_start_time);
      end_time := j.(v1_schedule).(v1_end_time);
      interval := j.(v1_schedule).(v1_interval);
      max_start_delay := j.(v1_schedule).(v1_max_start_delay) |};
    memory := j.(v1_memory);
    network_requests := j.(v1_network_requests);
    storage := j.(v1_storage);
    required_modules := modules;
    extra := {|
      assignment_strategy := strategy;
      slots := j.(v1_extra).(v1_slots);
      reward := j.(v1_extra).(v1_reward);
      min_reputation := j.(v1_extra).(v1_min_reputation);
      processor_version := None;
      runtime := NodeJS |} |}.

Definition decode_environment (public_key_ : list Z) (p : SetProcessorJobEnvironmentV1)
  : Decoded (AccountId * Environment) :=
  let? processor_address := convert_account_id p.(v1_address) in
  Ok (processor_address,
      {| public_key := truncate_from PUB_KEYS_MAX_LENGTH public_key_;
         variables := truncate_from MaxEnvVars
           ((fun '(key, value) => (truncate_from EnvKeyMaxSize key, truncate_from EnvValueMaxSize value))
              <$> p.(v1_variables)) |}).

(** [SubstrateMessageDecoder::decode] *)
Definition decode_message (encoded : list Z) (chain : SubstrateChain) : Decoded ParsedAction :=
  let? action := ok_or_else (decode_outgoing encoded) CouldNotDecodeAction in
  let? account := convert_account_id action.(oa_origin) in
  let origin :=
    match chain with ChainAlephZero => AlephZero account | ChainVara => Vara account end in
  match action.(oa_payload) with
  | RegisterJobV1 p =>
      let? registration := decode_registration p.(v1_job_registration) in
      Ok (RegisterJob (origin, p.(v1_job_id)) registration)
  | DeregisterJobV1 job_id => Ok (DeregisterJob (origin, job_id))
  | FinalizeJobV1 ids => Ok (FinalizeJobAction ((fun id => (origin, id)) <$> ids))
  | SetJobEnvironmentV1 p =>
      let? environments := collect_results (decode_environment p.(v1_public_key)) p.(v1_processors) in
      Ok (SetJobEnvironment (origin, p.(v1_env_job_id)) (truncate_from MaxSlots environments))
  | NoopV1 => Ok ParsedNoop
  end.

(** [public_key_to_address_bytes] *)
Definition public_key_to_address_bytes (pub_key : PubKeyBytes) : list Z := blake2_256 pub_key.

(** [SubstrateMessageEncoder::encode] *)
Definition encode_message (message : ProxyMessage) : outcome SubstrateMessageEncoderError (list Z) :=
  let? payload :=
    match message.(pm_action) with
    | AssignJob job_id (SECP256k1 pk) =>
        Ok (AssignJobProcessorV1 job_id (public_key_to_address_bytes pk))
    | AssignJob _ _ => Err UnexpectedPublicKey
    | FinalizeProxyJob job_id refund_amount => Ok (FinalizeIncomingV1 job_id refund_amount)
    | ProxyNoop => Ok IncomingNoopV1
    end in
  Ok (scale_encode_incoming message.(pm_id) payload).
End codec.

(** * Sending to a proxy *)
Section send.
Context {B : BridgeExternals} {C : BridgeConfig} {MS : MessageSender}.

(** The TTL of messages to the proxies, in blocks *)
Definition PROXY_TTL : BlockNumber := 30.

Definition proxy_recipient (chain : SubstrateChain) : MB Subject :=
  match chain with
  | ChainAlephZero => gets (fun s => SAlephZero (Contract s.(aleph_zero_contract)))
  | ChainVara => gets (fun s => SVara (Contract (mkContractCall s.(vara_contract) None)))
  end.

Definition send_to_proxy (chain : SubstrateChain) (action : ProxyAction) (payer : AccountId)
  : MB unit :=
  let* number := gets next_message_number in
  modify (set_next_message_number (wrapping_add u64_max number 1));;
  let* encoded :=
    match encode_message {| pm_id := number; pm_action := action |} with
    | Ok l => ret l
    | Err e => throw (HyperdriveErr (EncoderError e))
    | Panic => panic
    end in
  let* recipient := proxy_recipient chain in
  let message_nonce := hash_of_u64 number in
  let* _ := send_message AcurastPalletAccount payer message_nonce recipient encoded PROXY_TTL MessageFee in
  bridge_event (SentToProxyV2 message_nonce).

(** * Calls *)
Definition update_aleph_zero_contract (origin : RuntimeOrigin) (c : ContractCall) : MB unit :=
  ensure (IbcUpdateOrigin origin) BridgeBadOrigin;;
  modify (set_aleph_zero_contract c);;
  bridge_event (AlephZeroContractUpdated c).
Definition update_vara_contract (origin : RuntimeOrigin) (c : AccountId) : MB unit :=
  ensure (IbcUpdateOrigin origin) BridgeBadOrigin;;
  modify (set_vara_contract c);;
  bridge_event (VaraContractUpdated c).
End send.

(** * Messages from a proxy *)
Class ActionExecutor (W : Type) := {
  execute : ParsedAction -> M W BridgeError unit;
}.

Section process.
Context {B : BridgeExternals} {C : BridgeConfig} {JC : JobConfig}.
Context {W : Type} {L : BridgeIn W} {AE : ActionExecutor W}.

Definition execute_decoded (payload : list Z) (chain : SubstrateChain) : M W BridgeError unit :=
  match decode_message payload chain with
  | Ok action => execute action
  | Err e => throw (HyperdriveErr (DecoderError e))
  | Panic => panic
  end.

(** [MessageProcessor::process] *)
Definition process_proxy_message (message : MessageBody) : M W BridgeError unit :=
  match message.(mb_sender) with
  | SAlephZero (Contract c) =>
      let* known := on_bridge (gets aleph_zero_contract) in
      ensure (bool_decide (c = known)) (HyperdriveErr InvalidSender);;
      execute_decoded message.(mb_payload) ChainAlephZero
  | SVara (Contract c) =>
      let* known := on_bridge (gets vara_contract) in
      ensure (bool_decide (c = mkContractCall known None)) (HyperdriveErr InvalidSender);;
      execute_decoded message.(mb_payload) ChainVara
  | _ => throw (HyperdriveErr InvalidSender)
  end.
End process.
