(* ===== verification/Bridge.v ===== *)
(** The bridge composed with the job pallets: the configuration of
    [runtime/acurast-mainnet/src/pallets/pallet_acurast_hyperdrive_config.rs] and
    the hooks of [pallet_acurast_marketplace_config.rs].

    The job pallets send messages through their hooks, the bridge registers and
    removes jobs: [bridge_market] implements the interface [JobExternals] of the job
    pallets over the storage of the bridge, so that the state of the job pallets
    ends with the storage of the bridge, and [World] is the whole. *)
From S2P Require Import Prelude Schedules Attestations JobTypes Reputation Jobs Payments.
From S2P Require Import Reporting Matching Marketplace BridgeTypes Ibc HyperdriveToken Hyperdrive.

Section hooks.
Context {B : BridgeExternals} {C : BridgeConfig}.

(** * [HyperdriveOutgoingMarketplaceHooks] *)
Definition proxy_of_job (job_id : JobId) : option SubstrateChain :=
  match job_id.1 with
  | AlephZero _ => Some ChainAlephZero
  | Vara _ => Some ChainVara
  | _ => None
  end.

Definition is_secp256k1 (key : PubKey) : bool :=
  match key with SECP256k1 _ => true | _ => false end.

Definition assign_job (job_id : JobId) (pub_keys : list PubKey) : MB unit :=
  match proxy_of_job job_id with
  | Some chain =>
      let* key := ok_or (List.find is_secp256k1 pub_keys) OtherProcessorError in
      send_to_proxy chain (AssignJob job_id.2 key) HyperdriveIbcFeePalletAccount
  | None => ret tt
  end.

Definition finalize_proxy_job (job_id : JobId) (refund : Balance) : MB unit :=
  match proxy_of_job job_id with
  | Some chain => send_to_proxy chain (FinalizeProxyJob job_id.2 refund) HyperdriveIbcFeePalletAccount
  | None => ret tt
  end.

(** * The interface of the job pallets *)

(** The state after a success; after an error the caller fails too and its
    transaction is undone. *)
Definition success {A} (m : MB A) (s : BridgeState) : option BridgeState :=
  match m s with (Ok _, s') => Some s' | _ => None end.

Definition lift_ext (f : BExt -> option BExt) (s : BridgeState) : option BridgeState :=
  x ← f s.(bext); Some (set_bext x s).

#[export] Instance bridge_market : JobExternals := {|
  JExt := BridgeState;
  currency_transfer from to n := lift_ext (bx_transfer from to n);
  currency_withdraw from n s := '(c, x) ← bx_withdraw from n s.(bext); Some (c, set_bext x s);
  ou_on_unbalanced credit s := set_bext (bx_on_unbalanced credit s.(bext)) s;
  unix_now_millis s := bx_now_millis s.(bext);
  processor_version_of s := bx_processor_version s.(bext);
  last_processor_metric s := bx_last_metric s.(bext);
  price_per_millisecond_for s := bx_price s.(bext);
  hook_assign_job job_id keys := success (assign_job job_id keys);
  hook_finalize_job job_id refund := success (finalize_proxy_job job_id refund);
  deployment_hash_of := bx_deployment_hash;
  key_id_hash_of := bx_key_id_hash;
  from_base58 := bx_from_base58;
  job_key := bx_job_key;
  account_key := bx_account_key;
  clear_prefix_keys := bx_clear_prefix_keys;
|}.

Notation World := JobTypes.State.

#[export] Instance bridge_in_world : BridgeIn World := {|
  bridge_of := jext;
  put_bridge b w := set_jext b w;
|}.
End hooks.
Notation World := (JobTypes.State (X := bridge_market)) (only parsing).

Section bridge.
Context {B : BridgeExternals} {C : BridgeConfig} {JC : JobConfig} {A : AllowedApps} {F : FixedOps}.

Notation MW := (M World BridgeError).

Definition on_jobs {T} (m : MJ T) : MW T :=
  fun w => match m w with
           | (Ok a, w') => (Ok a, w')
           | (Err e, w') => (Err (JobErr e), w')
           | (Panic, w') => (Panic, w')
           end.

(** * [AcurastActionExecutor] *)

(** What an action asks of the registry of jobs *)
Definition job_message_of (action : ParsedAction) : option JobMessage :=
  match action with
  | RegisterJob job_id registration => Some (RegisterFor job_id registration None)
  | DeregisterJob job_id => Some (DeregisterFor job_id)
  | FinalizeJobAction _ => None
  | SetJobEnvironment job_id environments => Some (SetEnvironmentFor job_id environments)
  | ParsedNoop => None
  end.

Definition execute_parsed (action : ParsedAction) : MW unit :=
  match job_message_of action with
  | Some m => on_jobs (run_message m)
  | None => ret tt
  end.
#[export] Instance AcurastActionExecutor : ActionExecutor World := {| execute := execute_parsed |}.

(** * [HyperdriveMessageProcessor] *)
Definition route_message (message : MessageBody) : MW unit :=
  if bool_decide (message.(mb_recipient) = SAcurast (Extrinsic AcurastPalletAccount)) then
    process_proxy_message message
  else if bool_decide (message.(mb_recipient) = SAcurast (Extrinsic PalletAccount)) then
    on_bridge (process_token_message message)
  else if bool_decide (message.(mb_recipient) = SAcurast (Extrinsic TokenConversionAccount)) then
    on_bridge (currency (token_conversion_process message) BridgeCurrencyError)
  else ret tt.
#[export] Instance HyperdriveMessageProcessor : MessageProcessor World :=
  {| process_body := route_message |}.

(** * The calls of the three pallets *)
Inductive BridgeCall :=
| UpdateOracles (updates : list OracleUpdate)
| SendTestMessage (recipient : Subject) (ttl : BlockNumber) (fee : Balance)
| ConfirmMessageDelivery (id : MessageId) (signatures : list (Signature * Public))
| RemoveMessage (id : MessageId)
| ReceiveMessage (sender : Subject) (nonce : MessageNonce) (recipient : Subject)
    (payload : Payload) (relayer : MultiOrigin) (signatures : list (Signature * Public))
| CleanIncoming (ids : list MessageId)
| TransferNative (dest : MultiOrigin) (amount fee : Balance)
| RetryTransferNative (proxy : ProxyChain) (transfer_nonce : TransferNonce) (fee : Balance)
| UpdateEthereumContract (c : Z)
| UpdateSolanaContract (c : Z)
| SetPalletEnabled (on : bool)
| EnableProxyChain (proxy_chain : ProxyChain) (on : bool) (fee : Balance)
| UpdateOutgoingTransferTTL (proxy_chain : ProxyChain) (ttl : option BlockNumber)
| UpdateAlephZeroContract (c : ContractCall)
| UpdateVaraContract (c : AccountId).

(** The calls that touch the storage of the bridge only *)
Definition run_local_call (origin : RuntimeOrigin) (c : BridgeCall) : MB unit :=
  match c with
  | UpdateOracles l => update_oracles origin l
  | SendTestMessage r t f => send_test_message origin r t f
  | ConfirmMessageDelivery i l => confirm_message_delivery origin i l
  | RemoveMessage i => remove_message origin i
  | ReceiveMessage _ _ _ _ _ _ => ret tt
  | CleanIncoming l => clean_incoming origin l
  | TransferNative d a f => transfer_native origin d a f
  | RetryTransferNative p n f => retry_transfer_native origin p n f
  | UpdateEthereumContract a => update_ethereum_contract origin a
  | UpdateSolanaContract a => update_solana_contract origin a
  | SetPalletEnabled b => set_pallet_enabled origin b
  | EnableProxyChain p b f => enable_proxy_chain origin p b f
  | UpdateOutgoingTransferTTL p t => update_outgoing_transfer_ttl origin p t
  | UpdateAlephZeroContract a => update_aleph_zero_contract origin a
  | UpdateVaraContract a => update_vara_contract origin a
  end.

Definition run_bridge_call (origin : RuntimeOrigin) (c : BridgeCall) : MW unit :=
  match c with
  | ReceiveMessage sender nonce recipient payload relayer signatures =>
      receive_message origin sender nonce recipient payload relayer signatures
  | _ => on_bridge (run_local_call origin c)
  end.

Definition dispatch_bridge (origin : RuntimeOrigin) (c : BridgeCall) : MW unit :=
  with_transaction (run_bridge_call origin c).

(** * A step of the chain

    A call of the job pallets, a call of the bridge, the next block, or what these
    pallets do not control: the attestations, and the state of the pallets they
    call, as far as [outside] allows. *)
Inductive world_step (outside : BExt -> BExt -> Prop) : World -> World -> Prop :=
| world_job origin c w : world_step outside w (exec (Marketplace.dispatch origin c) w)
| world_bridge origin c w : world_step outside w (exec (dispatch_bridge origin c) w)
| world_block w :
    world_step outside w (set_jext (set_block_number (w.(jext).(block_number) + 1) w.(jext)) w)
| world_outside x att w :
    outside w.(jext).(bext) x ->
    world_step outside w (set_jext (set_bext x w.(jext)) (set_stored_attestation att w)).
End bridge.
