(* ===== verification/BridgeReference.v ===== *)
(** A concrete instance of the parameters of the bridge, and a run of it.

    [reference_bridge] is a currency with balances and holds, a SCALE decoder of the
    messages of the proxies, and stand-ins for hashing and signatures;
    [bridge_constants] are the constants of [runtime/acurast-mainnet].  The states of
    the run (oracles, a transfer to Ethereum and back, a job from Aleph Zero) are the
    inputs at which the theorems on the bridge are instantiated. *)
From S2P Require Import Prelude Schedules Attestations JobTypes Reputation Jobs Payments.
From S2P Require Import Marketplace JobReference BridgeTypes Ibc HyperdriveToken Hyperdrive Bridge.

(** * The currency *)
Record BridgeExt := mkBridgeExt {
  be_balances : gmap Z Z;
  be_holds : gmap Z Z;
  be_clock : Z;
}.
Definition be_balance (x : BridgeExt) (who : Z) : Z := default 0 (x.(be_balances) !! who).
Definition be_held (x : BridgeExt) (who : Z) : Z := default 0 (x.(be_holds) !! who).
Definition be_set (who n : Z) (x : BridgeExt) : BridgeExt :=
  mkBridgeExt (<[who := n]> x.(be_balances)) x.(be_holds) x.(be_clock).
Definition be_set_held (who n : Z) (x : BridgeExt) : BridgeExt :=
  mkBridgeExt x.(be_balances) (<[who := n]> x.(be_holds)) x.(be_clock).
Definition be_withdraw (from n : Z) (x : BridgeExt) : option BridgeExt :=
  if (0 <=? n) && (n <=? be_balance x from) then Some (be_set from (be_balance x from - n) x)
  else None.
Definition be_transfer (from to n : Z) (x : BridgeExt) : option BridgeExt :=
  x' ← be_withdraw from n x; Some (be_set to (be_balance x' to + n) x').
Definition be_hold (who n : Z) (x : BridgeExt) : option BridgeExt :=
  x' ← be_withdraw who n x; Some (be_set_held who (be_held x' who + n) x').
(** From the hold of [from] to the balance of [to] *)
Definition be_unhold (from to n : Z) (x : BridgeExt) : option BridgeExt :=
  if (0 <=? n) && (n <=? be_held x from) then
    Some (be_set to (be_balance x to + n) (be_set_held from (be_held x from - n) x))
  else None.
Definition be_release (exact_ : bool) (who n : Z) (x : BridgeExt) : option BridgeExt :=
  be_unhold who who (if exact_ then n else Z.max 0 (Z.min n (be_held x who))) x.

(** * SCALE *)
Definition Parser (A : Type) : Type := list Z -> option (A * list Z).
Definition p_ret {A} (a : A) : Parser A := fun l => Some (a, l).
Definition p_bind {A B} (p : Parser A) (f : A -> Parser B) : Parser B :=
  fun l => '(a, l') ← p l; f a l'.
Definition p_map {A B} (f : A -> B) (p : Parser A) : Parser B := p_bind p (fun a => p_ret (f a)).
Definition p_byte : Parser Z :=
  fun l => match l with
           | b :: l' => if (0 <=? b) && (b <? 256) then Some (b, l') else None
           | [] => None
           end.
Fixpoint p_repeat {A} (n : nat) (p : Parser A) : Parser (list A) :=
  match n with
  | O => p_ret []
  | S n' => p_bind p (fun a => p_map (cons a) (p_repeat n' p))
  end.
(** little-endian integers of a fixed width *)
Fixpoint p_uint (width : nat) : Parser Z :=
  match width with
  | O => p_ret 0
  | S w => p_bind p_byte (fun b => p_map (fun n => b + 256 * n) (p_uint w))
  end.
(** compact lengths below 2^30 *)
Definition p_compact : Parser Z :=
  p_bind p_byte (fun b =>
    match b mod 4 with
    | 0 => p_ret (b / 4)
    | 1 => p_map (fun c => (b + 256 * c) / 4) p_byte
    | 2 => p_map (fun c => (b + 256 * c) / 4) (p_uint 3)
    | _ => fun _ => None
    end).
Definition p_vec {A} (p : Parser A) : Parser (list A) :=
  p_bind p_compact (fun n => p_repeat (Z.to_nat n) p).
Definition p_option {A} (p : Parser A) : Parser (option A) :=
  p_bind p_byte (fun b => match b with 0 => p_ret None | 1 => p_map Some p | _ => fun _ => None end).
Definition p_bool : Parser bool :=
  p_bind p_byte (fun b => match b with 0 => p_ret false | 1 => p_ret true | _ => fun _ => None end).

Definition p_schedule : Parser ScheduleV1 :=
  p_bind (p_uint 8) (fun d => p_bind (p_uint 8) (fun s => p_bind (p_uint 8) (fun e =>
  p_bind (p_uint 8) (fun i => p_map (Build_ScheduleV1 d s e i) (p_uint 8))))).
Definition p_strategy : Parser AssignmentStrategyV1 :=
  p_bind p_byte (fun b =>
    match b with
    | 0 => p_map SingleV1 (p_option (p_vec
             (p_bind (p_repeat 32 p_byte) (fun a => p_map (Build_PlannedExecutionV1 a) (p_uint 8)))))
    | 1 => p_ret CompetingV1
    | _ => fun _ => None
    end).
Definition p_requirements : Parser JobRequirementsV1 :=
  p_bind p_strategy (fun st => p_bind (p_uint 1) (fun sl => p_bind (p_uint 16) (fun r =>
  p_map (Build_JobRequirementsV1 st sl r) (p_option (p_uint 16))))).
Definition p_registration : Parser JobRegistrationV1 :=
  p_bind (p_vec p_byte) (fun sc => p_bind (p_option (p_vec (p_repeat 32 p_byte))) (fun al =>
  p_bind p_bool (fun v => p_bind p_schedule (fun sch => p_bind (p_uint 4) (fun m =>
  p_bind (p_uint 4) (fun nr => p_bind (p_uint 4) (fun st => p_bind (p_vec (p_uint 2)) (fun md =>
  p_map (Build_JobRegistrationV1 sc al v sch m nr st md) p_requirements)))))))).
Definition p_payload : Parser OutgoingActionPayloadV1 :=
  p_bind p_byte (fun b =>
    match b with
    | 0 => p_bind (p_uint 16) (fun id =>
             p_map (fun r => RegisterJobV1 (Build_RegisterJobPayloadV1 id r)) p_registration)
    | 1 => p_map DeregisterJobV1 (p_uint 16)
    | 2 => p_map FinalizeJobV1 (p_vec (p_uint 16))
    | 3 => p_bind (p_uint 16) (fun id => p_bind (p_vec p_byte) (fun k =>
             p_map (fun l => SetJobEnvironmentV1 (Build_SetJobEnvironmentPayloadV1 id k l))
               (p_vec (p_bind (p_repeat 32 p_byte) (fun a => p_map (Build_SetProcessorJobEnvironmentV1 a)
                 (p_vec (p_bind (p_vec p_byte) (fun x => p_map (pair x) (p_vec p_byte)))))))))
    | 4 => p_ret NoopV1
    | _ => fun _ => None
    end).
Definition p_raw : Parser RawOutgoingAction :=
  p_bind (p_uint 8) (fun id => p_bind (p_repeat 32 p_byte) (fun o => p_bind (p_uint 2) (fun v =>
  p_map (Build_RawOutgoingAction id o v) (p_vec p_byte)))).

Definition le_bytes (width : nat) (n : Z) : list Z := rev (to_be_bytes width n).
Definition encode_incoming (id : Z) (p : IncomingActionPayloadV1) : list Z :=
  le_bytes 8 id ++ [0] ++
  match p with
  | AssignJobProcessorV1 j a => [0] ++ le_bytes 16 j ++ a
  | FinalizeIncomingV1 j r => [1] ++ le_bytes 16 j ++ le_bytes 16 r
  | IncomingNoopV1 => [2]
  end.

(** * The instance *)
Definition digest (m : Message) (relayer : option Z) : Z :=
  m.(msg_nonce) + foldr Z.add 0 m.(msg_payload) + default 0 relayer.
Definition fold_bytes (l : list Z) : Z := fold_left (fun h b => 256 * h + b) l 1.

#[export] Instance reference_bridge : BridgeExternals := {|
  BExt := BridgeExt;
  bx_transfer := be_transfer;
  bx_transfer_protect := be_transfer;
  bx_hold := be_hold;
  bx_release := be_release;
  bx_transfer_on_hold := be_unhold;
  bx_mint_into who n x := Some (be_set who (be_balance x who + n) x);
  message_id_of s n := Zpos (encode (s, n));
  hash_of_bytes := fold_bytes;
  hash_of_u64 n := n;
  verify_signature m r sg pk := sg =? pk + digest m r;
  account_bytes := to_be_bytes 32;
  parse_account_id l := if (length l =? 32)%nat then Some (from_be_bytes l) else None;
  account20_bytes := to_be_bytes 20;
  blake2_256 l := to_be_bytes 32 (fold_bytes l);
  scale_decode_raw_outgoing l := fst <$> p_raw l;
  scale_decode_payload_v1 l := fst <$> p_payload l;
  scale_encode_incoming := encode_incoming;
  token_conversion_process m x := Some x;
  bx_withdraw from n x := x' ← be_withdraw from n x; Some (n, x');
  bx_on_unbalanced c x := x;
  bx_now_millis := be_clock;
  bx_processor_version x who := None;
  bx_last_metric x who pool := None;
  bx_price x who := None;
  bx_deployment_hash o script := fold_left (fun h b => 256 * h + b) script (account_of_origin o);
  bx_key_id_hash job_id := 2 ^ 64 * account_of_origin job_id.1 + job_id.2;
  bx_from_base58 := base58_decode;
  bx_job_key job_id := 2 ^ 64 * account_of_origin job_id.1 + job_id.2;
  bx_account_key who := who;
  bx_clear_prefix_keys limit keys := take (Z.to_nat limit) keys;
|}.

Definition UNIT : Z := 10 ^ 12.
#[export] Instance bridge_constants : BridgeConfig := {|
  MinTTL := 15;
  IncomingTTL := 50;
  MinDeliveryConfirmationSignatures := 3;
  MinReceiptConfirmationSignatures := 3;
  MinFee := 20 * UNIT;
  SelfChain := SelfAcurast;
  IbcUpdateOrigin o := match o with Root => true | Signed _ => false end;
  PalletAccount := 1010;
  EthereumVault := 1011;
  EthereumFeeVault := 1012;
  SolanaVault := 1013;
  OperationalFeeAccount := 1010;
  MinTransferAmount := UNIT;
  DefaultOutgoingTransferTTL := 50;
  TokenOperatorOrigin o := match o with Root => true | Signed _ => false end;
  AcurastPalletAccount := 1000;
  MessageFee := 20 * UNIT;
  HyperdriveIbcFeePalletAccount := 1003;
  AlephZeroContract := 88;
  AlephZeroContractSelector := [0x7c; 0xd9; 0x9c; 0x82];
  VaraContract := 89;
  TokenConversionAccount := 1014;
  EnvKeyMaxSize := 32;
  EnvValueMaxSize := 1024;
  MaxEnvVars := 10;
|}.

(** * A run *)
Notation RWorld := (JobTypes.State (X := bridge_market (B := reference_bridge))) (only parsing).

Definition b_ext : BridgeExt :=
  mkBridgeExt (<[5 := 1000 * UNIT]> (<[1001 := 1000]> (<[1003 := 100 * UNIT]> ∅))) ∅ 0.
Definition b_genesis : RWorld := genesis (X := bridge_market) (bridge_genesis b_ext).
Definition act (o : RuntimeOrigin) (c : BridgeCall) (w : RWorld) : RWorld :=
  exec (dispatch_bridge o c) w.
Definition next_block (w : RWorld) : RWorld :=
  set_jext (X := bridge_market) (set_block_number (w.(jext).(block_number) + 1) w.(jext)) w.

Definition forever : ActivityWindow := mkActivityWindow 0 None.
Definition b_oracles : RWorld :=
  act Root (UpdateOracles [OracleAdd 11 forever; OracleAdd 12 forever; OracleAdd 13 forever]) b_genesis.
Definition b_enabled : RWorld :=
  act Root (UpdateEthereumContract 77) (act Root (SetPalletEnabled true) b_oracles).
(** The account 5 sends 3 units to Ethereum, for a fee of 20 units. *)
Definition b_sent : RWorld := act (Signed 5) (TransferNative (Ethereum20 99) (3 * UNIT) (20 * UNIT)) b_enabled.
Definition b_expired : RWorld := Nat.iter 51 next_block b_sent.
Definition b_removed : RWorld :=
  act (Signed 8) (RemoveMessage (default 0 (fst <$> map_to_list b_sent.(jext).(outgoing_messages) !! 0%nat)))
    b_expired.

(** The oracles sign. *)
Definition sign (sd : Subject) (n : Z) (rc : Subject) (p : list Z) : list (Z * Z) :=
  let m := mkMessage 0 sd n rc p in
  [(11 + digest m None, 11); (12 + digest m None, 12); (13 + digest m None, 13)].
Definition b_receive (sd : Subject) (n : Z) (rc : Subject) (p : list Z) : BridgeCall :=
  ReceiveMessage sd n rc p (Acurast 8) (sign sd n rc p).

(** Two units come back from Ethereum, for the account 6. *)
Definition b_back : BridgeCall :=
  b_receive (SEthereum (Contract (mkContractCall 77 None))) 1 (SAcurast (Extrinsic 1010))
    (to_be_bytes 4 0 ++ to_be_bytes 16 (2 * UNIT) ++ to_be_bytes 4 0 ++ to_be_bytes 8 0 ++ to_be_bytes 32 6).
Definition b_paid : RWorld := act (Signed 8) b_back b_sent.

(** A job of the account 4 of Aleph Zero: one execution slot, reward 5 *)
Definition b_job_payload : list Z :=
  [0] ++ le_bytes 16 1 ++ [4 * 53] ++ a_script ++ [0; 0] ++ le_bytes 8 5 ++ le_bytes 8 100000 ++
  le_bytes 8 160000 ++ le_bytes 8 20000 ++ le_bytes 8 0 ++ le_bytes 4 1 ++ le_bytes 4 0 ++
  le_bytes 4 1 ++ [0] ++ [0; 0] ++ [1] ++ le_bytes 16 5 ++ [0].
Definition b_action (payload : list Z) : list Z :=
  le_bytes 8 0 ++ to_be_bytes 32 4 ++ le_bytes 2 1 ++
  le_bytes 2 (4 * Z.of_nat (length payload) + 1) ++ payload.
Definition b_register : BridgeCall :=
  b_receive (SAlephZero (Contract (mkContractCall 88 (Some [0x7c; 0xd9; 0x9c; 0x82])))) 2
    (SAcurast (Extrinsic 1000)) (b_action b_job_payload).
Definition b_job : JobId := (AlephZero 4, 1).
Definition b_registered : RWorld := act (Signed 8) b_register b_sent.

Example bridge_run :
  (fun w : RWorld =>
     let x := w.(jext).(bext) in
     ((be_balance x 5, be_balance x 1011, be_balance x 1012, be_held x 1012, be_balance x 6),
      (be_balance x 1001, be_balance x 1000, bool_decide (is_Some (w.(stored_job_registration) !! b_job)))))
    <$> [b_enabled; b_sent; b_removed; b_paid; b_registered]
  = [((1000 * UNIT, 0, 0, 0, 0), (1000, 0, false));
     ((977 * UNIT, 3 * UNIT, 0, 20 * UNIT, 0), (1000, 0, false));
     ((977 * UNIT, 3 * UNIT, 20 * UNIT, 0, 0), (1000, 0, false));
     ((977 * UNIT, 1 * UNIT, 0, 20 * UNIT, 2 * UNIT), (1000, 0, false));
     ((977 * UNIT, 3 * UNIT, 0, 20 * UNIT, 0), (985, 15, true))].
Proof. vm_compute. reflexivity. Qed.

(** * The run is made of steps of the chain. *)
Definition quiet (x y : BridgeExt) : Prop :=
  y.(be_balances) = x.(be_balances) /\ y.(be_holds) = x.(be_holds).

Lemma act_step o c (w : RWorld) : world_step quiet w (act o c w).
Proof. exact (world_bridge quiet o c w). Qed.
Lemma next_block_step (w : RWorld) : world_step quiet w (next_block w).
Proof. exact (world_block quiet w). Qed.
Lemma blocks_reach n (w : RWorld) : rtc (world_step quiet) w (Nat.iter n next_block w).
Proof.
  induction n as [|n IH]; [done|]. eapply rtc_r; [exact IH|]. apply next_block_step.
Qed.
Lemma reach_oracles : rtc (world_step quiet) b_genesis b_oracles.
Proof. unfold b_oracles. eapply rtc_r; [done|apply act_step]. Qed.
Lemma reach_enabled : rtc (world_step quiet) b_genesis b_enabled.
Proof.
  unfold b_enabled. eapply rtc_r; [|apply act_step]. eapply rtc_r; [|apply act_step].
  apply reach_oracles.
Qed.
Lemma reach_sent : rtc (world_step quiet) b_genesis b_sent.
Proof. unfold b_sent. eapply rtc_r; [apply reach_enabled|apply act_step]. Qed.
Lemma reach_expired : rtc (world_step quiet) b_genesis b_expired.
Proof. unfold b_expired. etrans; [apply reach_sent|apply blocks_reach]. Qed.
Lemma reach_paid : rtc (world_step quiet) b_sent b_paid.
Proof. unfold b_paid. eapply rtc_r; [done|apply act_step]. Qed.

(** The message of the transfer *)
Definition b_id : Z := default 0 (fst <$> map_to_list b_sent.(jext).(outgoing_messages) !! 0%nat).
Definition b_message : OutgoingMessageWithMeta :=
  default (mkOutgoing (mkMessage 0 (SVara (Extrinsic 0)) 0 (SVara (Extrinsic 0)) []) 0 0 0 0)
    (b_sent.(jext).(outgoing_messages) !! b_id).
