(* ===== verification/SignatureSpecs.v ===== *)
(** The signature check of the bridge against its specification: enough distinct
    active oracles, and no wrong signature among those that count. *)
From S2P Require Import Prelude JobTypes BridgeTypes Ibc.

Section signatures.
Context {B : BridgeExternals} {C : BridgeConfig}.

(** An oracle that is registered and in its activity window *)
Definition active_oracle (s : BridgeState) (public : Public) : bool :=
  match s.(oracle_public_keys) !! public with
  | Some w => is_active w s.(block_number)
  | None => false
  end.

(** The signature at position [i] counts: its key is an active oracle that has not
    signed at an earlier position. *)
Definition counts (s : BridgeState) (signatures : list (Signature * Public)) (i : nat)
  (signature : Signature) (public : Public) : Prop :=
  signatures !! i = Some (signature, public) /\ active_oracle s public = true /\
  public ∉ (take i signatures).*2.

(** The active oracles among the keys *)
Definition signers (s : BridgeState) (signatures : list (Signature * Public)) : gset Public :=
  list_to_set (List.filter (active_oracle s) signatures.*2).

(** [all_valid ch l]: what the loop tests when the keys in [ch] have been seen. *)
Fixpoint all_valid (s : BridgeState) (message : Message) (relayer : option AccountId)
  (ch : gset Public) (l : list (Signature * Public)) : bool :=
  match l with
  | [] => true
  | (sg, pk) :: l' =>
      if active_oracle s pk && negb (bool_decide (pk ∈ ch)) then
        verify_signature message relayer sg pk && all_valid s message relayer ({[pk]} ∪ ch) l'
      else all_valid s message relayer ch l'
  end.

Lemma check_signature_run message relayer s v ch sg pk :
  check_signature message relayer (v, ch) (sg, pk) s =
  if active_oracle s pk && negb (bool_decide (pk ∈ ch)) then
    if verify_signature message relayer sg pk then (Ok (v + 1, {[pk]} ∪ ch), s)
    else (Err (IbcErr SignatureInvalid), s)
  else (Ok (v, ch), s).
Proof.
  unfold check_signature, active_oracle, bind, gets, ensure, ret, throw.
  destruct (oracle_public_keys s !! pk) as [w|]; [|done].
  case_bool_decide; simpl; [by rewrite andb_false_r|]. rewrite andb_true_r.
  destruct (is_active w (block_number s)); [|done]. by destruct (verify_signature _ _ _ _).
Qed.

Lemma signers_cons s sg pk l :
  signers s ((sg, pk) :: l) =
  (if active_oracle s pk then {[pk]} else ∅) ∪ signers s l.
Proof. unfold signers. simpl. destruct (active_oracle s pk); simpl; set_solver. Qed.

Lemma sets_again_1 (pk : Public) (ch l : gset Public) : pk ∈ ch -> ({[pk]} ∪ l) ∖ ch = l ∖ ch.
Proof. set_solver. Qed.
Lemma sets_again_2 (pk : Public) (ch l : gset Public) : pk ∈ ch -> ch ∪ ({[pk]} ∪ l) = ch ∪ l.
Proof. set_solver. Qed.
Lemma size_new_signer (pk : Public) (ch l : gset Public) :
  pk ∉ ch -> size (({[pk]} ∪ l) ∖ ch) = S (size (l ∖ ({[pk]} ∪ ch))).
Proof.
  intros Hn. replace (({[pk]} ∪ l) ∖ ch) with ({[pk]} ∪ (l ∖ ({[pk]} ∪ ch))).
  - rewrite size_union by set_solver. by rewrite size_singleton.
  - apply set_eq. intros x. destruct (decide (x = pk)); set_solver.
Qed.

(** The whole loop *)
Lemma check_signatures_loop message relayer s l v ch :
  mfold l (v, ch) (check_signature message relayer) s =
  if all_valid s message relayer ch l then
    (Ok (v + Z.of_nat (size (signers s l ∖ ch)), ch ∪ signers s l), s)
  else (Err (IbcErr SignatureInvalid), s).
Proof.
  revert v ch. induction l as [|[sg pk] l IH]; intros v ch; cbn [mfold all_valid].
  - unfold ret, signers. simpl.
    replace (∅ ∖ ch) with (∅ : gset Public) by set_solver. rewrite size_empty.
    replace (ch ∪ ∅) with ch by set_solver. do 3 f_equal. lia.
  - unfold bind. rewrite check_signature_run, signers_cons.
    destruct (active_oracle s pk) eqn:Ea; simpl.
    + case_bool_decide as Hin; simpl.
      * rewrite IH. by rewrite sets_again_1, sets_again_2.
      * destruct (verify_signature message relayer sg pk); simpl; [|done]. rewrite IH.
        destruct (all_valid _ _ _ _ _); [|done].
        rewrite (size_new_signer pk) by done.
        replace (ch ∪ ({[pk]} ∪ signers s l)) with ({[pk]} ∪ ch ∪ signers s l) by (clear; set_solver).
        do 3 f_equal. lia.
    + rewrite IH. by rewrite (left_id_L ∅ (∪) (signers s l)).
Qed.

(** The recursive test is the test of the signatures that count. *)
Lemma all_valid_iff message relayer s l ch :
  all_valid s message relayer ch l = true <->
  forall i sg pk, counts s l i sg pk -> pk ∉ ch -> verify_signature message relayer sg pk = true.
Proof.
  revert ch. induction l as [|[sg0 pk0] l IH]; intros ch; simpl.
  - split; [|done]. by intros _ [|i] sg pk [? _].
  - assert (forall i sg pk, pk <> pk0 ->
      counts s ((sg0, pk0) :: l) (S i) sg pk <-> counts s l i sg pk) as Hs.
    { intros i sg pk Hne. unfold counts. simpl. rewrite not_elem_of_cons. naive_solver. }
    destruct (active_oracle s pk0) eqn:Ea; simpl.
    + case_bool_decide as Hin; simpl.
      * rewrite IH. split; intros Hall i sg pk Hc Hnin.
        -- destruct i as [|i]; [by destruct Hc as ([= -> ->] & _)|].
           eapply Hall; [apply Hs; [by intros ->|exact Hc]|done].
        -- eapply Hall; [apply Hs; [by intros ->|exact Hc]|done].
      * rewrite andb_true_iff, IH. split.
        -- intros [Hv Hall] [|i] sg pk Hc Hnin.
           ++ by destruct Hc as ([= -> ->] & _).
           ++ assert (pk <> pk0) as Hne
                by (destruct Hc as (_ & _ & Hx); simpl in Hx; set_solver).
              apply (Hall i); [by apply Hs|set_solver].
        -- intros Hall. split.
           ++ apply (Hall 0%nat); [|done]. repeat split; [done|]. simpl. set_solver.
           ++ intros i sg pk Hc Hnin. apply (Hall (S i)); [apply Hs; [set_solver|done]|set_solver].
    + rewrite IH. split; intros Hall i sg pk Hc Hnin.
      * destruct i as [|i]; [destruct Hc as ([= -> ->] & ? & _); congruence|].
        eapply Hall; [apply Hs; [|exact Hc]|done].
        destruct Hc as (_ & ? & _). congruence.
      * eapply Hall; [apply Hs; [|exact Hc]|done]. destruct Hc as (_ & ? & _). congruence.
Qed.

(** What an accepted list of signatures has, and why another one is rejected *)
Lemma check_signatures_run message relayer l n s :
  check_signatures message relayer l n s =
  (if Z.of_nat (length l) <? n then Err (IbcErr NotEnoughSignaturesProvided)
   else if negb (all_valid s message relayer ∅ l) then Err (IbcErr SignatureInvalid)
   else if Z.of_nat (size (signers s l)) <? n then Err (IbcErr NotEnoughSignaturesValid)
   else Ok tt, s).
Proof.
  unfold check_signatures, bind, ensure.
  destruct (Z.leb_spec n (Z.of_nat (length l))); destruct (Z.ltb_spec (Z.of_nat (length l)) n);
    try lia; simpl; [|done].
  unfold ret at 1. rewrite check_signatures_loop.
  destruct (all_valid s message relayer ∅ l); simpl; [|done].
  replace (signers s l ∖ ∅) with (signers s l) by set_solver.
  destruct (Z.leb_spec n (0 + Z.of_nat (size (signers s l))));
    destruct (Z.ltb_spec (Z.of_nat (size (signers s l))) n); try lia; done.
Qed.

(** At least [n] different oracles, each registered and in its activity window, have
    signed the message: each has a signature in the list that verifies. *)
Definition oracles_signed (s : BridgeState) (message : Message) (relayer : option AccountId)
  (l : list (Signature * Public)) (n : Z) : Prop :=
  exists keys : gset Public, n <= Z.of_nat (size keys) /\
    forall pk, pk ∈ keys ->
      active_oracle s pk = true /\
      exists sg, (sg, pk) ∈ l /\ verify_signature message relayer sg pk = true.

Lemma all_valid_signed s message relayer l ch pk :
  all_valid s message relayer ch l = true -> pk ∈ signers s l -> pk ∉ ch ->
  active_oracle s pk = true /\ exists sg, (sg, pk) ∈ l /\ verify_signature message relayer sg pk = true.
Proof.
  revert ch. induction l as [|[sg0 pk0] l IH]; intros ch Hv Hpk Hch; [by apply elem_of_empty in Hpk|].
  rewrite signers_cons in Hpk. simpl in Hv.
  destruct (decide (active_oracle s pk0 && negb (bool_decide (pk0 ∈ ch)) = true)) as [Hb|Hb].
  - rewrite Hb in Hv. apply andb_true_iff in Hv as [Hv Hrest]. apply andb_true_iff in Hb as [Ha _].
    destruct (decide (pk = pk0)) as [->|Hne].
    + split; [done|]. exists sg0. split; [by left|done].
    + destruct (IH ({[pk0]} ∪ ch)) as [? (sg & ? & ?)]; [done| |set_solver|].
      * rewrite Ha in Hpk. set_solver.
      * split; [done|]. exists sg. split; [by right|done].
  - rewrite (proj1 (not_true_iff_false _) Hb) in Hv.
    destruct (IH ch) as [? (sg & ? & ?)]; [done| |done|].
    + destruct (active_oracle s pk0) eqn:Ha; [|set_solver]. simpl in Hb.
      apply elem_of_union in Hpk as [Hpk%elem_of_singleton|]; [subst pk|done].
      by rewrite bool_decide_false in Hb.
    + split; [done|]. exists sg. split; [by right|done].
Qed.

Lemma check_signatures_signed message relayer l n s s' :
  check_signatures message relayer l n s = (Ok tt, s') -> oracles_signed s message relayer l n.
Proof.
  rewrite check_signatures_run. intros Hc. exists (signers s l).
  destruct (_ <? n); [done|]. destruct (all_valid s message relayer ∅ l) eqn:Hv; [|done]. simpl in Hc.
  destruct (Z.ltb_spec (Z.of_nat (size (signers s l))) n); [done|]. split; [done|].
  intros pk Hpk. destruct (all_valid_signed _ _ _ _ _ _ Hv Hpk) as [Ha Hs]; [set_solver|done].
Qed.
End signatures.

(** C15: The signature check accepts exactly the lists in which enough distinct
    registered oracles, each within its activity window, have signed, and in which
    every signature that counts is right: the first one of each such oracle.
    Signatures of unknown or inactive keys and repeated ones are ignored.  The check
    changes nothing. *)
Theorem check_signatures_exact {B : BridgeExternals} (message : Message)
  (relayer : option AccountId) (l : list (Signature * Public)) (n : Z) (s : BridgeState) :
  (check_signatures message relayer l n s).2 = s /\
  ((check_signatures message relayer l n s).1 = Ok tt <->
   n <= Z.of_nat (length l) /\
   (forall i sg pk, counts s l i sg pk -> verify_signature message relayer sg pk = true) /\
   n <= Z.of_nat (size (signers s l))).
Proof.
  rewrite check_signatures_run. simpl. split; [done|].
  pose proof (all_valid_iff message relayer s l ∅) as Hv.
  destruct (Z.ltb_spec (Z.of_nat (length l)) n); [split; [done|lia]|].
  destruct (all_valid s message relayer ∅ l); simpl.
  - assert (forall i sg pk, counts s l i sg pk -> verify_signature message relayer sg pk = true).
    { intros i sg pk Hc. apply (proj1 Hv eq_refl i sg pk Hc). set_solver. }
    destruct (Z.ltb_spec (Z.of_nat (size (signers s l))) n); split; try done; lia.
  - split; [done|]. intros (_ & Hall & _). cut (false = true); [done|]. apply Hv. eauto.
Qed.
