(* ===== verification/WorldSteps.v ===== *)
(** Invariants along the steps of the whole chain.

    The calls of the bridge touch the jobs only through messages for the job
    pallets; [world_kept] lists what an invariant of the whole state has to keep, and
    then every call of the bridge keeps it.  For an invariant of the storage of the
    bridge alone, [bridge_kept] lists it, and every step of the chain keeps it:
    the job pallets reach that storage only through [JobExternals].  The first two
    parts are the rules for this: what the job pallets do to the foreign state, and
    what the operations of the bridge leave alone. *)
From S2P Require Import Prelude Schedules Attestations JobTypes Reputation Jobs Payments.
From S2P Require Import Reporting Matching Marketplace BridgeTypes Ibc HyperdriveToken Hyperdrive.
From S2P Require Import Bridge.

Lemma pres_framed {S E A : Type} (I : S -> Prop) (f : S -> S) (m : M S E A) :
  framed f m -> (forall s s', f s' = f s -> I s -> I s') -> pres I (fun _ => True) m.
Proof. intros Hf Hi s r s' Hs Hm. split; [eauto|by destruct r]. Qed.

Section rules.
Context {S E : Type} (I : S -> Prop).
Notation keeps := (pres I (fun _ => True)).

Lemma keeps_return {A} (a : A) : keeps (ret (E:=E) a).
Proof. by apply pres_ret. Qed.
Lemma keeps_throw {A} (e : E) : keeps (throw (A:=A) e).
Proof. intros s r s' Hs Hm. unfold throw in Hm. by simplify_eq. Qed.
Lemma keeps_panic {A} : keeps (panic (E:=E) (A:=A)).
Proof. intros s r s' Hs Hm. unfold panic in Hm. by simplify_eq. Qed.
Lemma keeps_gets {A} (g : S -> A) : keeps (gets (E:=E) g).
Proof. by apply pres_gets. Qed.
Lemma keeps_ensure b (e : E) : keeps (ensure b e).
Proof. unfold ensure. destruct b; auto using keeps_return, keeps_throw. Qed.
Lemma keeps_ok_or {A} (o : option A) (e : E) : keeps (ok_or o e).
Proof. destruct o; simpl; auto using keeps_return, keeps_throw. Qed.
Lemma keeps_or_panic {A} (o : option A) : keeps (or_panic (E:=E) o).
Proof. destruct o; simpl; auto using keeps_return, keeps_panic. Qed.
Lemma keeps_map_err {A} (e : E) (m : M S E A) : keeps m -> keeps (map_err e m).
Proof.
  intros Hk s r s' Hs Hm. unfold map_err in Hm. destruct (m s) as [o s1] eqn:E1.
  destruct (Hk _ _ _ Hs E1) as [H1 _]. destruct o; simplify_eq; done.
Qed.
Lemma keeps_transaction {A} (m : M S E A) : keeps m -> keeps (with_transaction m).
Proof.
  intros Hk s r s' Hs Hm. unfold with_transaction in Hm. destruct (m s) as [o s1] eqn:E1.
  destruct (Hk _ _ _ Hs E1) as [H1 _]. destruct o; simplify_eq; done.
Qed.
Lemma keeps_mfold {A T} (l : list A) (b : T) (k : T -> A -> M S E T) :
  (forall b a, keeps (k b a)) -> keeps (mfold l b k).
Proof.
  intros Hk. revert b. induction l as [|a l IH]; intros b; simpl; [by apply keeps_return|].
  eapply pres_bind; [apply Hk|]. auto.
Qed.
End rules.

Create HintDb keeps.
#[export] Hint Resolve keeps_return keeps_throw keeps_panic keeps_gets keeps_ensure keeps_ok_or
  keeps_or_panic : keeps.

(** One step through the code; [unfold_head] opens the next function. *)
Ltac keeps_step :=
  match goal with
  | |- pres _ _ (bind _ _) => apply (pres_bind _ (fun _ => True)); [|intros ? _]
  | |- pres _ _ (mfor _ _) => apply pres_mfor; intros ?
  | |- pres _ _ (mfold _ _ _) => apply keeps_mfold; intros ? ?
  | |- pres _ _ (map_err _ _) => apply keeps_map_err
  | |- pres _ _ (with_transaction _) => apply keeps_transaction
  | |- pres _ _ (modify _) => apply pres_modify; [intros ? Hkept; repeat case_match; exact Hkept|exact Logic.I]
  | |- pres _ _ (match ?x with _ => _ end) => destruct x
  | |- pres _ _ (let _ := _ in _) => cbv zeta
  end.
Ltac head_of t := match t with ?f _ => head_of f | _ => t end.
Ltac unfold_head :=
  match goal with |- pres _ _ ?m => let h := head_of m in unfold h end.
Ltac solve_keeps := repeat first [solve [auto 2 with keeps nocore] | keeps_step | unfold_head].

Section keeps.
Context {X : JobExternals} {C : JobConfig} {A : AllowedApps} {F : FixedOps}.

(** The operations of [JobExternals] keep [I]. *)
Record ext_closed (I : JExt -> Prop) : Prop := {
  ec_transfer from to n x x' : currency_transfer from to n x = Some x' -> I x -> I x';
  ec_withdraw from n x c x' : currency_withdraw from n x = Some (c, x') -> I x -> I x';
  ec_unbalanced c x : I x -> I (ou_on_unbalanced c x);
  ec_assign j k x x' : hook_assign_job j k x = Some x' -> I x -> I x';
  ec_finalize j n x x' : hook_finalize_job j n x = Some x' -> I x -> I x';
}.

Context (I : JExt -> Prop) (closed : ext_closed I).
Notation keeps := (pres (fun s : State => I s.(jext)) (fun _ => True)).

Lemma keeps_jext_try f e : (forall x x', f x = Some x' -> I x -> I x') -> keeps (jext_try f e).
Proof.
  intros Hf s r s' Hs Hm. unfold jext_try, bind, gets, ok_or in Hm.
  destruct (f (jext s)) as [x|] eqn:Ex.
  - unfold ret, modify in Hm. simplify_eq. simpl. eauto.
  - unfold throw in Hm. by simplify_eq.
Qed.
Lemma keeps_transfer from to n e : keeps (jext_try (currency_transfer from to n) e).
Proof. apply keeps_jext_try. intros x x'. by apply ec_transfer. Qed.
Lemma keeps_assign j k e : keeps (jext_try (hook_assign_job j k) e).
Proof. apply keeps_jext_try. intros x x'. by apply ec_assign. Qed.
Lemma keeps_finalize j n e : keeps (jext_try (hook_finalize_job j n) e).
Proof. apply keeps_jext_try. intros x x'. by apply ec_finalize. Qed.
Lemma keeps_unbalanced c : keeps (jext_modify (ou_on_unbalanced c)).
Proof. apply pres_modify; [|done]. intros s. simpl. by apply ec_unbalanced. Qed.
Local Hint Resolve keeps_transfer keeps_assign keeps_finalize keeps_unbalanced : keeps.

(** Payments *)
Lemma keeps_lock_reward j n : keeps (lock_reward j n).
Proof. change (keeps (arm_lock_reward j n)). solve_keeps. Qed.
Lemma keeps_handle_reward j n : keeps (handle_reward j n).
Proof.
  change (keeps (arm_handle_reward j n)). unfold arm_handle_reward.
  apply (pres_bind _ (fun _ => True)); [solve_keeps|intros _ _].
  eapply pres_bind; [apply (pres_gets _ I); auto|intros x Hx].
  eapply (pres_bind _ (fun y => I y.2)).
  - apply pres_ok_or. destruct (currency_withdraw _ _ _) as [[c x']|] eqn:Ew; [|done]. simpl.
    by apply (ec_withdraw _ closed _ _ _ _ _ Ew).
  - intros [c x'] Hx'. eapply pres_bind; [by apply (pres_modify _ (fun _ => True))|intros _ _].
    apply keeps_unbalanced.
Qed.
Lemma keeps_pay_matcher j n m : keeps (pay_matcher_reward j n m).
Proof. change (keeps (arm_pay_matcher_reward j n m)). solve_keeps. Qed.
Lemma keeps_refund j : keeps (refund j).
Proof. change (keeps (arm_refund j)). solve_keeps. Qed.
Local Hint Resolve keeps_lock_reward keeps_handle_reward keeps_pay_matcher keeps_refund : keeps.

(** Hooks *)
Lemma keeps_process_matching l m : keeps (process_matching l m).
Proof. solve_keeps. Qed.
Local Hint Resolve keeps_process_matching : keeps.
Lemma keeps_register_hook j r : keeps (register_hook j r).
Proof. change (keeps (market_register_hook j r)). solve_keeps. Qed.
Lemma keeps_deregister_hook j : keeps (deregister_hook j).
Proof. change (keeps (market_deregister_hook j)). solve_keeps. Qed.
Lemma keeps_update_hook w j u : keeps (update_allowed_sources_hook w j u).
Proof. change (keeps (market_update_allowed_sources_hook w j u)). solve_keeps. Qed.
Local Hint Resolve keeps_register_hook keeps_deregister_hook keeps_update_hook : keeps.
Lemma keeps_register_for j r m : keeps (register_for j r m).
Proof. solve_keeps. Qed.
Lemma keeps_deregister_for j : keeps (deregister_for j).
Proof. solve_keeps. Qed.
Local Hint Resolve keeps_register_for keeps_deregister_for : keeps.

(** Every call and every message *)
Lemma keeps_call origin c : keeps (dispatch origin c).
Proof. unfold dispatch. apply keeps_transaction. destruct c; simpl; solve_keeps. Qed.
Lemma keeps_message m : keeps (run_message m).
Proof. destruct m; simpl; solve_keeps. Qed.
End keeps.

Section bridge.
Context {B : BridgeExternals} {C : BridgeConfig}.

(** An operation of the currency that keeps the property *)
Lemma kept_currency (I : BridgeState -> Prop) f e :
  (forall s x, I s -> f s.(bext) = Some x -> I (set_bext x s)) -> kept I (currency f e).
Proof.
  intros Hf s u s' Hs (x & s1 & [<- <-]%gets_ok & Hm)%bind_ok.
  apply bind_ok in Hm as (x' & s2 & [Hx <-]%ok_or_ok & <-%modify_ok). eauto.
Qed.

Lemma currency_ok f e s u s' :
  currency f e s = (Ok u, s') <-> exists x, f s.(bext) = Some x /\ s' = set_bext x s.
Proof.
  unfold currency. split.
  - intros (x & s1 & [<- <-]%gets_ok & (x' & s2 & [Hx <-]%ok_or_ok & <-%modify_ok)%bind_ok)%bind_ok.
    eauto.
  - intros (x & Hx & ->). unfold bind, gets, ok_or, modify, ret. rewrite Hx. by destruct u.
Qed.

(** What [check_signatures] leaves alone, stated for any property *)
Lemma check_signatures_keeps m r l n s u s' : check_signatures m r l n s = (Ok u, s') -> s' = s.
Proof.
  assert (framed id (check_signatures m r l n)) as Hf.
  { unfold check_signatures, check_signature. solve_framed. }
  intros Hm. exact (Hf _ _ _ Hm).
Qed.
Lemma kept_check_signatures I m r l n : kept I (check_signatures m r l n).
Proof. by intros s u s' Hs ->%check_signatures_keeps. Qed.
Lemma success_kept {A} (I : BridgeState -> Prop) (m : MB A) s s' :
  kept I m -> success m s = Some s' -> I s -> I s'.
Proof.
  unfold success. intros Hk Hm Hs. destruct (m s) as [[a|e|] s1] eqn:E1; simplify_eq. by eapply Hk.
Qed.
Lemma lift_ext_view f s s' :
  lift_ext f s = Some s' -> exists x, f s.(bext) = Some x /\ s' = set_bext x s.
Proof. unfold lift_ext. destruct (f (bext s)); simpl; naive_solver. Qed.
End bridge.
#[export] Hint Resolve kept_check_signatures : kept.

Section world.
Context {B : BridgeExternals} {C : BridgeConfig} {JC : JobConfig} {A : AllowedApps} {F : FixedOps}.

Lemma kept_on_bridge (I : BridgeState -> Prop) {T} (m : MB T) :
  kept I m -> kept (fun w : World => I w.(jext)) (on_bridge m).
Proof.
  intros Hm w a w' Hw Hr. unfold on_bridge, zoom in Hr. simpl in Hr.
  destruct (m (jext w)) as [o b] eqn:E1. simplify_eq. simpl. by eapply Hm.
Qed.
Lemma kept_on_jobs (I : World -> Prop) {T} (m : MJ T) : kept I m -> kept I (on_jobs m).
Proof.
  intros Hm w a w' Hw Hr. unfold on_jobs in Hr. destruct (m w) as [[?|?|] ?] eqn:E1; simplify_eq.
  by eapply Hm.
Qed.

(** * Calls of the bridge *)

(** What the messages of a chain ask of the registry of jobs *)
Definition decoded_message (chain : SubstrateChain) (m : JobMessage) : Prop :=
  exists payload action, decode_message payload chain = Ok action /\ job_message_of action = Some m.

Record world_kept (ok : RuntimeOrigin -> BridgeCall -> Prop) (I : World -> Prop) : Prop := {
  wk_local o c : ok o c -> kept I (on_bridge (run_local_call o c));
  wk_accept o sd n r p rl l : kept I (on_bridge (accept_message o sd n r p rl l));
  wk_token m : kept I (on_bridge (process_token_message m));
  wk_conversion m :
    kept I (on_bridge (currency (token_conversion_process m) BridgeCurrencyError));
  wk_message chain m : decoded_message chain m -> kept I (run_message m);
  wk_event e : kept I (on_bridge (bridge_event e));
  wk_read {T} (g : BridgeState -> T) : kept I (on_bridge (gets g));
}.

Section calls.
Context (ok : RuntimeOrigin -> BridgeCall -> Prop) (I : World -> Prop) (HI : world_kept ok I).

Lemma kept_execute payload chain : kept I (execute_decoded payload chain).
Proof.
  unfold execute_decoded.
  destruct (decode_message payload chain) as [action|e|] eqn:Hd; [|apply kept_throw|apply kept_panic].
  simpl. unfold execute_parsed. destruct (job_message_of action) as [m|] eqn:Hm; [|apply kept_ret].
  apply kept_on_jobs, (wk_message _ _ HI chain). by exists payload, action.
Qed.

Lemma kept_process message : kept I (process_body message).
Proof.
  simpl. unfold route_message. repeat case_bool_decide.
  - unfold process_proxy_message.
    destruct (mb_sender message) as [l|[|]|[|]|l|l|l]; try apply kept_throw.
    all: apply kept_bind; [apply (wk_read _ _ HI)|intros known].
    all: apply kept_bind; [apply kept_ensure|intros _]; apply kept_execute.
  - apply (wk_token _ _ HI).
  - apply (wk_conversion _ _ HI).
  - apply kept_ret.
Qed.

Lemma kept_receive o sd n r p rl l : kept I (receive_message o sd n r p rl l).
Proof.
  unfold receive_message. apply kept_bind; [apply (wk_accept _ _ HI)|intros m].
  apply kept_bind.
  - intros w b w' Hw Hm. unfold attempt in Hm.
    destruct (with_transaction _ w) as [r0 w1] eqn:E1.
    destruct (kept_pres _ _ (kept_process _) _ _ _ Hw E1) as [H1 _]. destruct r0; by simplify_eq.
  - intros b. destruct b; apply (wk_event _ _ HI).
Qed.

Lemma kept_bridge_call o c : ok o c -> kept I (run_bridge_call o c).
Proof.
  intros Ho. destruct c; first [exact (wk_local _ _ HI _ _ Ho) | apply kept_receive].
Qed.

Lemma bridge_call_kept o c w : ok o c -> I w -> I (exec (dispatch_bridge o c) w).
Proof.
  intros Ho Hw. unfold exec. destruct (dispatch_bridge o c w) as [r w'] eqn:E1.
  by apply (kept_pres _ _ (kept_bridge_call o c Ho) w _ _ Hw E1).
Qed.
End calls.

(** * The receipt of a message *)
Definition log_bridge (e : BridgeEvent) (w : World) : World :=
  set_jext (set_bridge_events (w.(jext).(bridge_events) ++ [e]) w.(jext)) w.

(** The signatures of an accepted message *)
Lemma accept_ok o sd n rc p rl l s m b :
  accept_message o sd n rc p rl l s = (Ok m, b) ->
  body_of m.(im_message) = mkMessageBody sd rc p /\
  b.(aleph_zero_contract) = s.(aleph_zero_contract) /\ b.(vara_contract) = s.(vara_contract) /\
  b.(bext) = s.(bext) /\ b.(incoming_transfer_nonces) = s.(incoming_transfer_nonces) /\
  b.(ethereum_contract) = s.(ethereum_contract) /\
  s.(incoming_messages) !! message_id_of sd n = None /\
  check_signatures (mkMessage (message_id_of sd n) sd n rc p) None l MinReceiptConfirmationSignatures s
    = (Ok tt, s).
Proof.
  intros Hm. unfold accept_message in Hm. apply bind_ok in Hm as (who & s1 & Hw & Hm).
  assert (s1 = s) as -> by (destruct o; [by apply ret_ok in Hw as [_ <-]|by apply throw_ok in Hw]).
  apply bind_ok in Hm as ([] & s1 & [_ <-]%ensure_ok & Hm).
  apply bind_ok in Hm as (known & s1 & [Hk <-]%gets_ok & Hm).
  apply bind_ok in Hm as ([] & s1 & [Hn <-]%ensure_ok & Hm).
  apply bind_ok in Hm as (bl & s1 & [_ <-]%gets_ok & Hm).
  apply bind_ok in Hm as ([] & s1 & Hc & Hm). pose proof (check_signatures_keeps _ _ _ _ _ _ _ Hc) as ->.
  do 2 apply bind_ok in Hm as ([] & ? & <-%modify_ok & Hm). apply ret_ok in Hm as [<- <-].
  simpl. split_and!; try done. rewrite Hk. by destruct known.
Qed.

(** A received message changes nothing (it was rejected), or leaves a trace only in
    the storage of the bridge (its processing failed), or is processed. *)
Lemma receive_cases o sd n rc p rl l r (w w' : World) :
  dispatch_bridge o (ReceiveMessage sd n rc p rl l) w = (r, w') ->
  w' = w \/
  exists m b e, accept_message o sd n rc p rl l w.(jext) = (Ok m, b) /\
    (w' = log_bridge e (set_jext (X := bridge_market) b w) \/
     exists w1, route_message (mkMessageBody sd rc p) (set_jext (X := bridge_market) b w) = (Ok tt, w1) /\
       w' = log_bridge e w1).
Proof.
  intros Hm. unfold dispatch_bridge, with_transaction in Hm. cbn [run_bridge_call] in Hm.
  destruct (receive_message _ _ _ _ _ _ _ w) as [o1 w1] eqn:E1.
  destruct o1 as [u|e|]; simplify_eq; [|by left..]. right.
  apply bind_ok in E1 as (m & w2 & Ha & E1). apply bind_ok in E1 as (ok & w3 & Hat & Hev).
  unfold on_bridge, zoom in Ha. simpl in Ha.
  destruct (accept_message _ _ _ _ _ _ _ _) as [o2 b] eqn:Hb. simplify_eq.
  pose proof (accept_ok _ _ _ _ _ _ _ _ _ _ Hb) as [Hbody _].
  assert (exists e, w' = log_bridge e w3) as [e He].
  { unfold on_bridge, zoom in Hev. simpl in Hev. destruct ok; unfold bridge_event, modify in Hev;
      simplify_eq; by eexists. }
  exists m, b, e. split; [done|].
  unfold attempt, with_transaction, process_message in Hat. rewrite Hbody in Hat.
  cbn [process_body HyperdriveMessageProcessor] in Hat.
  destruct (route_message _ _) as [o3 w4] eqn:Hp.
  destruct o3 as [[]|e'|]; simplify_eq; [right; by exists w3|by left].
Qed.

(** * Invariants of the storage of the bridge *)
Record bridge_kept (outside : BExt -> BExt -> Prop) (I : BridgeState -> Prop) : Prop := {
  bk_local origin c : kept I (run_local_call origin c);
  bk_accept origin sd n r p rl l : kept I (accept_message origin sd n r p rl l);
  bk_token m : kept I (process_token_message m);
  bk_conversion m : kept I (currency (token_conversion_process m) BridgeCurrencyError);
  bk_jobs : ext_closed I;
  bk_event e s : I s -> I (set_bridge_events (s.(bridge_events) ++ [e]) s);
  bk_block s : I s -> I (set_block_number (s.(block_number) + 1) s);
  bk_outside s x : outside s.(bext) x -> I s -> I (set_bext x s);
}.

Context (outside : BExt -> BExt -> Prop) (I : BridgeState -> Prop) (HI : bridge_kept outside I).
Notation IW := (fun w : World => I w.(jext)).

Lemma bridge_world_kept : world_kept (fun _ _ => True) IW.
Proof.
  split; intros; [apply kept_on_bridge..| |apply kept_on_bridge|apply kept_on_bridge].
  - apply (bk_local _ _ HI).
  - apply (bk_accept _ _ HI).
  - apply (bk_token _ _ HI).
  - apply (bk_conversion _ _ HI).
  - intros w a w' Hw Hm. by apply (keeps_message _ (bk_jobs _ _ HI) _ _ _ _ Hw Hm).
  - apply kept_modify. apply (bk_event _ _ HI).
  - apply kept_gets.
Qed.

Lemma world_step_kept w w' : world_step outside w w' -> I w.(jext) -> I w'.(jext).
Proof.
  intros [origin c t|origin c t|t|x att t Hx] Hw.
  - destruct (dispatch origin c t) as [o t'] eqn:E1. unfold exec. rewrite E1.
    by apply (keeps_call _ (bk_jobs _ _ HI) origin c t _ _ Hw E1).
  - by apply (bridge_call_kept _ _ bridge_world_kept).
  - by apply (bk_block _ _ HI).
  - by apply (bk_outside _ _ HI).
Qed.

Lemma world_reach_kept w w' : rtc (world_step outside) w w' -> I w.(jext) -> I w'.(jext).
Proof. induction 1; eauto using world_step_kept. Qed.
End world.
