(* ===== verification/FeeSpecs.v ===== *)
(** The fees of outgoing messages: what is on hold is exactly what the pending
    messages have promised, in every state of the chain, and a fee leaves the hold
    with the confirmed delivery of its message or, when that is overdue, its removal. *)
From S2P Require Import Prelude JobTypes Jobs Payments Marketplace WorldSteps BridgeTypes.
From S2P Require Import Ibc HyperdriveToken Hyperdrive Bridge Attestations Reputation JobReference.
From S2P Require Import BridgeReference SignatureSpecs.

(** What is assumed of the holds of the currency: holding, releasing and
    transferring on hold change the hold they name by the amount, if it is there;
    nothing else touches the holds for messages. *)
Record hold_laws {B : BridgeExternals} (held : BExt -> AccountId -> Balance) : Prop := {
  hl_transfer from to n x x' a : bx_transfer from to n x = Some x' -> held x' a = held x a;
  hl_protect from to n x x' a : bx_transfer_protect from to n x = Some x' -> held x' a = held x a;
  hl_withdraw from n x c x' a : bx_withdraw from n x = Some (c, x') -> held x' a = held x a;
  hl_unbalanced c x a : held (bx_on_unbalanced c x) a = held x a;
  hl_conversion m x x' a : token_conversion_process m x = Some x' -> held x' a = held x a;
  hl_hold who n x x' a :
    bx_hold who n x = Some x' -> held x' a = held x a + (if bool_decide (who = a) then n else 0);
  hl_release exact_ who n x x' a :
    0 <= n <= held x who -> bx_release exact_ who n x = Some x' ->
    held x' a = held x a - (if bool_decide (who = a) then n else 0);
  hl_pay from to n x x' a :
    0 <= n <= held x from -> bx_transfer_on_hold from to n x = Some x' ->
    held x' a = held x a - (if bool_decide (from = a) then n else 0);
}.

Section fees.
Context {B : BridgeExternals} {C : BridgeConfig}.
Context (held : BExt -> AccountId -> Balance) (laws : hold_laws held) (fee_min : 0 <= MinFee).

(** The fees that an account has promised for the pending messages *)
Definition promised (who : AccountId) (_ : MessageId) (m : OutgoingMessageWithMeta) : Balance :=
  if bool_decide (m.(om_payer) = who) then m.(om_fee) else 0.
Definition fees_promised (s : BridgeState) (who : AccountId) : Balance :=
  gsum (promised who) s.(outgoing_messages).

Definition fees_inv (s : BridgeState) : Prop :=
  (forall who, held s.(bext) who = fees_promised s who) /\
  (forall id m, s.(outgoing_messages) !! id = Some m -> 0 <= m.(om_fee)).

Lemma promised_covered s id m :
  fees_inv s -> s.(outgoing_messages) !! id = Some m ->
  0 <= m.(om_fee) <= held s.(bext) m.(om_payer).
Proof.
  intros [Hh Hn] Hm. split; [by eapply Hn|]. rewrite Hh. unfold fees_promised.
  assert (m.(om_fee) = promised m.(om_payer) id m) as ->
    by (unfold promised; by rewrite bool_decide_eq_true_2).
  apply (gsum_elem_le (promised (om_payer m))); [|done].
  intros i x Hx. unfold promised. case_bool_decide; [by eapply Hn|done].
Qed.

(** Changes that concern neither the messages nor the holds *)
Lemma fees_inv_view s s' :
  s'.(outgoing_messages) = s.(outgoing_messages) ->
  (forall who, held s'.(bext) who = held s.(bext) who) -> fees_inv s -> fees_inv s'.
Proof.
  unfold fees_inv, fees_promised. intros -> Hh [Hi Hn]. split; [|done]. intros who. by rewrite Hh.
Qed.
Lemma kept_fees_currency f e :
  (forall x x' who, f x = Some x' -> held x' who = held x who) -> kept fees_inv (currency f e).
Proof.
  intros Hf. apply kept_currency. intros s x Hs Hx. apply (fees_inv_view s); [done| |exact Hs].
  intros who. by apply Hf.
Qed.
Lemma kept_fees_modify g :
  (forall s, (g s).(outgoing_messages) = s.(outgoing_messages) /\ (g s).(bext) = s.(bext)) ->
  kept fees_inv (modify (E := BridgeError) g).
Proof.
  intros Hg. apply kept_modify. intros s. destruct (Hg s) as [H1 H2].
  apply fees_inv_view; [done|]. by rewrite H2.
Qed.
Local Hint Extern 2 (kept fees_inv (modify _)) => (apply kept_fees_modify; intros ?; repeat case_match; done) : kept.
Lemma kept_fees_transfer from to n e : kept fees_inv (currency (bx_transfer from to n) e).
Proof. apply kept_fees_currency. intros x x' who. by apply hl_transfer. Qed.
Lemma kept_fees_protect from to n e : kept fees_inv (currency (bx_transfer_protect from to n) e).
Proof. apply kept_fees_currency. intros x x' who. by apply hl_protect. Qed.
Lemma kept_fees_conversion m e : kept fees_inv (currency (token_conversion_process m) e).
Proof. apply kept_fees_currency. intros x x' who. by apply hl_conversion. Qed.
Local Hint Resolve kept_fees_transfer kept_fees_protect kept_fees_conversion : kept.

(** A message leaves the table, its fee the hold. *)
Lemma fees_inv_remove s id m x :
  fees_inv s -> s.(outgoing_messages) !! id = Some m ->
  (forall a, held x a = held s.(bext) a - (if bool_decide (m.(om_payer) = a) then m.(om_fee) else 0)) ->
  fees_inv (set_outgoing_messages (delete id s.(outgoing_messages)) (set_bext x s)).
Proof.
  intros [Hh Hn] Hm Hx. split; simpl.
  - intros who. unfold fees_promised. simpl. rewrite Hx, Hh, gsum_delete, Hm. done.
  - intros i y [_ Hy]%lookup_delete_Some. by eapply Hn.
Qed.

(** A message enters, or replaces one whose fee is released. *)
Lemma fees_inv_insert s id m x :
  fees_inv s -> 0 <= m.(om_fee) ->
  (forall a, held x a =
     held s.(bext) a - from_option (promised a id) 0 (s.(outgoing_messages) !! id)
     + (if bool_decide (m.(om_payer) = a) then m.(om_fee) else 0)) ->
  fees_inv (set_outgoing_messages (<[id := m]> s.(outgoing_messages)) (set_bext x s)).
Proof.
  intros [Hh Hn] Hm Hx. split; simpl.
  - intros who. unfold fees_promised. simpl. rewrite Hx, Hh, gsum_insert. done.
  - intros i y [[<- <-]|[_ Hy]]%lookup_insert_Some; [done|]. by eapply Hn.
Qed.

Lemma release_replaced_ok s id o s' :
  fees_inv s -> release_replaced id s = (Ok o, s') ->
  o = s.(outgoing_messages) !! id /\
  exists x, s' = set_bext x s /\
    forall a, held x a = held s.(bext) a - from_option (promised a id) 0 (s.(outgoing_messages) !! id).
Proof.
  intros Hi (m & s1 & [Hm <-]%gets_ok & Hr)%bind_ok. rewrite Hm.
  destruct m as [m|].
  - apply bind_ok in Hr as (b & s1 & [_ <-]%gets_ok & Hr).
    apply bind_ok in Hr as ([] & s1 & [_ <-]%ensure_ok & Hr).
    apply bind_ok in Hr as ([] & s1 & (x & Hx & ->)%currency_ok & [<- <-]%ret_ok).
    split; [done|]. exists x. split; [done|]. intros a. simpl. unfold promised.
    eapply hl_release; [done| |exact Hx]. by eapply promised_covered.
  - apply ret_ok in Hr as [<- <-]. split; [done|]. exists (bext s). split; [by destruct s|].
    intros a. simpl. lia.
Qed.

Lemma kept_send sender payer nonce recipient payload ttl fee :
  kept fees_inv (do_send_message sender payer nonce recipient payload ttl fee).
Proof.
  intros s r s' Hi Hm. unfold do_send_message in Hm.
  apply bind_ok in Hm as ([] & s1 & [Hf%Z.leb_le <-]%ensure_ok & Hm).
  apply bind_ok in Hm as (b & s1 & [_ <-]%gets_ok & Hm).
  apply bind_ok in Hm as ([] & s1 & [_ <-]%ensure_ok & Hm).
  apply bind_ok in Hm as (o & s1 & (-> & x & -> & Hx)%release_replaced_ok & Hm); [|done].
  do 2 apply bind_ok in Hm as ([] & ? & [_ <-]%ensure_ok & Hm).
  do 2 apply bind_ok in Hm as ([] & ? & <-%modify_ok & Hm).
  apply bind_ok in Hm as ([] & s2 & (x' & Hx' & ->)%currency_ok & Hm).
  apply bind_ok in Hm as ([] & s3 & <-%modify_ok & [_ <-]%ret_ok). simpl in *.
  set (id := message_id_of _ _) in *. set (m := mkOutgoing _ _ _ _ _) in *.
  apply (fees_inv_view (set_outgoing_messages (<[id := m]> s.(outgoing_messages)) (set_bext x' s)));
    [done..|].
  apply fees_inv_insert; [done|simpl; lia|]. intros a.
  rewrite (hl_hold _ laws _ _ _ _ a Hx'). rewrite Hx. done.
Qed.
Local Hint Resolve kept_send : kept.

Lemma kept_send_message sender payer nonce recipient payload ttl fee :
  kept fees_inv (send_message sender payer nonce recipient payload ttl fee).
Proof. exact (kept_send sender payer nonce recipient payload ttl fee). Qed.
Local Hint Resolve kept_send_message : kept.

(** The end of a message: a delivery that is paid, or a removal. *)
Lemma clear_outgoing_ok id m s u s' :
  clear_outgoing id m s = (Ok u, s') ->
  s'.(outgoing_messages) = delete id s.(outgoing_messages) /\ s'.(bext) = s.(bext).
Proof. by intros (? & s1 & <-%modify_ok & <-%modify_ok)%bind_ok. Qed.

Lemma finish_message f e ev id m s u s' :
  fees_inv s -> s.(outgoing_messages) !! id = Some m ->
  (forall x a, f s.(bext) = Some x ->
     held x a = held s.(bext) a - (if bool_decide (m.(om_payer) = a) then m.(om_fee) else 0)) ->
  (currency f e;; bridge_event ev;; clear_outgoing id m) s = (Ok u, s') -> fees_inv s'.
Proof.
  intros Hi Hm Hf (? & s1 & (x & Hx & ->)%currency_ok & Hr)%bind_ok.
  apply bind_ok in Hr as (? & s2 & <-%modify_ok & [H1 H2]%clear_outgoing_ok).
  apply (fees_inv_view (set_outgoing_messages (delete id s.(outgoing_messages)) (set_bext x s))).
  - by rewrite H1.
  - by rewrite H2.
  - apply fees_inv_remove with m; [done..|]. intros a. by apply Hf.
Qed.

Lemma kept_confirm origin id l : kept fees_inv (confirm_message_delivery origin id l).
Proof.
  intros s r s' Hi Hm. unfold confirm_message_delivery in Hm.
  apply bind_ok in Hm as (who & s1 & Hw & Hm).
  assert (s1 = s) as -> by (destruct origin; [by apply ret_ok in Hw as [_ <-]|by apply throw_ok in Hw]).
  apply bind_ok in Hm as (o & s1 & [Ho <-]%gets_ok & Hm).
  apply bind_ok in Hm as (m & s1 & [-> <-]%ok_or_ok & Hm).
  apply bind_ok in Hm as (b & s1 & [_ <-]%gets_ok & Hm).
  apply bind_ok in Hm as ([] & s1 & [_ <-]%ensure_ok & Hm).
  apply bind_ok in Hm as ([] & s1 & ->%check_signatures_keeps & Hm).
  eapply finish_message; [exact Hi|exact Ho| |exact Hm]. intros x a Hx.
  eapply hl_pay; [done| |exact Hx]. by eapply promised_covered.
Qed.

Lemma kept_remove origin id : kept fees_inv (remove_message origin id).
Proof.
  intros s r s' Hi Hm. unfold remove_message in Hm.
  apply bind_ok in Hm as (who & s1 & Hw & Hm).
  assert (s1 = s) as -> by (destruct origin; [by apply ret_ok in Hw as [_ <-]|by apply throw_ok in Hw]).
  apply bind_ok in Hm as (o & s1 & [Ho <-]%gets_ok & Hm).
  apply bind_ok in Hm as (m & s1 & [-> <-]%ok_or_ok & Hm).
  apply bind_ok in Hm as (b & s1 & [_ <-]%gets_ok & Hm).
  apply bind_ok in Hm as ([] & s1 & [_ <-]%ensure_ok & Hm).
  eapply finish_message; [exact Hi|exact Ho| |exact Hm]. intros x a Hx.
  eapply hl_release; [done| |exact Hx]. by eapply promised_covered.
Qed.
Local Hint Resolve kept_confirm kept_remove : kept.

(** Every call of the bridge, and the hooks *)
Lemma kept_local origin c : kept fees_inv (run_local_call origin c).
Proof. destruct c; simpl; solve_kept. Qed.
Lemma kept_accept origin sd n r p rl l : kept fees_inv (accept_message origin sd n r p rl l).
Proof. solve_kept. Qed.
Lemma kept_token m : kept fees_inv (process_token_message m).
Proof. solve_kept. Qed.
Lemma kept_hooks j k n :
  kept fees_inv (assign_job j k) /\ kept fees_inv (finalize_proxy_job j n).
Proof. split; solve_kept. Qed.

(** The job pallets keep the invariant. *)
Lemma fees_closed : ext_closed (X := bridge_market) fees_inv.
Proof.
  split.
  - intros from to n s s' (x & Hx & ->)%lift_ext_view. apply fees_inv_view; [done|]. intros who.
    by eapply hl_transfer.
  - intros from n s c s'. simpl. destruct (bx_withdraw from n (bext s)) as [[c' x]|] eqn:Ex; simpl; [|done].
    intros [= <- <-]. apply fees_inv_view; [done|]. intros who. by eapply hl_withdraw.
  - intros c s. apply fees_inv_view; [done|]. intros who. by eapply hl_unbalanced.
  - intros j k s s'. apply success_kept, (kept_hooks j k 0).
  - intros j n s s'. apply success_kept, (kept_hooks j [] n).
Qed.

Context {JC : JobConfig} {A : AllowedApps} {F : FixedOps} (outside : BExt -> BExt -> Prop).
Context (outside_held : forall x x' who, outside x x' -> held x' who = held x who).

Lemma fees_bridge_kept : bridge_kept outside fees_inv.
Proof.
  split; intros.
  - apply kept_local.
  - apply kept_accept.
  - apply kept_token.
  - apply kept_fees_conversion.
  - apply fees_closed.
  - by apply (fees_inv_view s).
  - by apply (fees_inv_view s).
  - apply (fees_inv_view s); [done| |done]. intros who. by apply outside_held.
Qed.

Lemma fees_inv_genesis x : (forall who, held x who = 0) -> fees_inv (bridge_genesis x).
Proof.
  intros Hx. split; simpl; [by intros who; rewrite Hx|]. intros id m Hm. by apply lookup_empty_Some in Hm.
Qed.

Lemma fees_inv_reach x w :
  (forall who, held x who = 0) ->
  rtc (world_step outside) (genesis (X := bridge_market) (bridge_genesis x)) w -> fees_inv w.(jext).
Proof.
  intros Hx Hr. apply (world_reach_kept outside fees_inv fees_bridge_kept _ _ Hr).
  by apply fees_inv_genesis.
Qed.
End fees.

(** C6: In every state of the chain, what an account has on hold for messages is
    the sum of the fees of its messages that are neither confirmed nor removed,
    whatever calls of the bridge and of the job pallets, incoming messages and
    failures came before. *)
Theorem fees_on_hold {B : BridgeExternals} {C : BridgeConfig} {JC : JobConfig} {A : AllowedApps}
  {F : FixedOps} (held : BExt -> AccountId -> Balance) (laws : hold_laws held)
  (outside : BExt -> BExt -> Prop) (x : BExt) (w : World) (who : AccountId) :
  0 <= MinFee ->
  (forall a, held x a = 0) ->
  (forall y y' a, outside y y' -> held y' a = held y a) ->
  rtc (world_step outside) (genesis (X := bridge_market) (bridge_genesis x)) w ->
  held w.(jext).(bext) who = fees_promised w.(jext) who.
Proof.
  intros Hmin Hx Ho Hr.
  exact (proj1 (fees_inv_reach held laws Hmin outside Ho x w Hx Hr) who).
Qed.

(** A pending message of the bridge, and its two ends *)
Lemma remove_early {B : BridgeExternals} a id m s :
  s.(outgoing_messages) !! id = Some m -> s.(block_number) <= m.(om_ttl_block) ->
  remove_message (Signed a) id s = (Err (IbcErr CannotRemovePendingMessage), s).
Proof.
  intros Hm Hb. unfold remove_message, bind, gets, ok_or, ensure, ret, throw. simpl. rewrite Hm.
  destruct (Z.ltb_spec (om_ttl_block m) (block_number s)); [lia|done].
Qed.

Lemma confirm_late {B : BridgeExternals} {C : BridgeConfig} a id l m s :
  s.(outgoing_messages) !! id = Some m -> m.(om_ttl_block) < s.(block_number) ->
  confirm_message_delivery (Signed a) id l s = (Err (IbcErr DeliveryConfirmationOverdue), s).
Proof.
  intros Hm Hb. unfold confirm_message_delivery, bind, gets, ok_or, ensure, ret, throw. simpl.
  rewrite Hm. destruct (Z.leb_spec (block_number s) (om_ttl_block m)); [lia|done].
Qed.

Lemma remove_late {B : BridgeExternals} a id m s x :
  s.(outgoing_messages) !! id = Some m -> m.(om_ttl_block) < s.(block_number) ->
  bx_release false m.(om_payer) m.(om_fee) s.(bext) = Some x ->
  exists s', remove_message (Signed a) id s = (Ok tt, s') /\ s'.(bext) = x /\
    s'.(outgoing_messages) = delete id s.(outgoing_messages).
Proof.
  intros Hm Hb Hx. eexists. split; [|split].
  - unfold remove_message, currency, clear_outgoing, bridge_event, bind, gets, ok_or, ensure, ret, modify.
    cbn [ensure_signed_by]. unfold ret. rewrite Hm.
    destruct (Z.ltb_spec (om_ttl_block m) (block_number s)); [|lia]. rewrite Hx. reflexivity.
  - done.
  - done.
Qed.

Lemma on_bridge_run {B : BridgeExternals} {C : BridgeConfig} {T} (m : MB T) r b (w : World) :
  m w.(jext) = (r, b) -> on_bridge m w = (r, set_jext (X := bridge_market) b w).
Proof. unfold on_bridge, zoom. simpl. by intros ->. Qed.

(** ** A pending message stays *)
Section pending.
Context {B : BridgeExternals} {C : BridgeConfig} (id : MessageId) (m : OutgoingMessageWithMeta).

(** The message is stored, and its last block has not passed. *)
Definition pending (s : BridgeState) : Prop :=
  s.(outgoing_messages) !! id = Some m /\ s.(block_number) <= m.(om_ttl_block).

Lemma pending_currency f e : kept pending (currency f e).
Proof. by apply kept_currency. Qed.
Local Hint Resolve pending_currency : kept.

(** A message of the same id is not sent before that. *)
Lemma pending_send sender payer nonce recipient payload ttl fee :
  kept pending (do_send_message sender payer nonce recipient payload ttl fee).
Proof.
  intros s r s' [Hm Hb] Hr. unfold do_send_message in Hr.
  apply bind_ok in Hr as ([] & s1 & [_ <-]%ensure_ok & Hr).
  apply bind_ok in Hr as (b & s1 & [_ <-]%gets_ok & Hr).
  apply bind_ok in Hr as ([] & s1 & [_ <-]%ensure_ok & Hr).
  apply bind_ok in Hr as (o & s1 & Hrel & Hr).
  set (id' := message_id_of _ _) in *.
  assert (id' <> id /\ pending s1) as [Hne Hs1].
  { unfold release_replaced in Hrel.
    apply bind_ok in Hrel as (m' & s2 & [Hm' <-]%gets_ok & Hrel). destruct m' as [m'|].
    - apply bind_ok in Hrel as (b' & s2 & [<- <-]%gets_ok & Hrel).
      apply bind_ok in Hrel as ([] & s2 & [Hlt%Z.ltb_lt <-]%ensure_ok & Hrel).
      apply bind_ok in Hrel as ([] & s2 & (x & _ & ->)%currency_ok & [_ <-]%ret_ok).
      split; [|by split]. intros ->. rewrite Hm in Hm'. simplify_eq. lia.
    - apply ret_ok in Hrel as [_ <-]. split; [|by split]. intros ->. by rewrite Hm in Hm'. }
  do 2 apply bind_ok in Hr as ([] & ? & [_ <-]%ensure_ok & Hr).
  do 2 apply bind_ok in Hr as ([] & ? & <-%modify_ok & Hr).
  apply bind_ok in Hr as ([] & s2 & (x' & _ & ->)%currency_ok & Hr).
  apply bind_ok in Hr as ([] & s3 & <-%modify_ok & [_ <-]%ret_ok).
  destruct Hs1 as [H1 H2]. split; simpl; [|done]. by rewrite lookup_insert_ne.
Qed.
Lemma pending_send_message sender payer nonce recipient payload ttl fee :
  kept pending (send_message sender payer nonce recipient payload ttl fee).
Proof. exact (pending_send sender payer nonce recipient payload ttl fee). Qed.
Local Hint Resolve pending_send pending_send_message : kept.

(** ... nor removed. *)
Lemma pending_remove origin id' : kept pending (remove_message origin id').
Proof.
  intros s r s' [Hm Hb] Hr. unfold remove_message in Hr.
  apply bind_ok in Hr as (who & s1 & Hw & Hr).
  assert (s1 = s) as -> by (destruct origin; [by apply ret_ok in Hw as [_ <-]|by apply throw_ok in Hw]).
  apply bind_ok in Hr as (o & s1 & [Ho <-]%gets_ok & Hr).
  apply bind_ok in Hr as (m' & s1 & [-> <-]%ok_or_ok & Hr).
  apply bind_ok in Hr as (b & s1 & [<- <-]%gets_ok & Hr).
  apply bind_ok in Hr as ([] & s1 & [Hlt%Z.ltb_lt <-]%ensure_ok & Hr).
  apply bind_ok in Hr as ([] & s1 & (x & _ & ->)%currency_ok & Hr).
  apply bind_ok in Hr as ([] & s1 & <-%modify_ok & Hr).
  apply bind_ok in Hr as ([] & s1 & <-%modify_ok & <-%modify_ok). split; simpl; [|done].
  rewrite lookup_delete_ne; [done|]. intros ->. rewrite Hm in Ho. simplify_eq. lia.
Qed.
Local Hint Resolve pending_remove : kept.

Definition confirms (c : BridgeCall) : bool :=
  match c with ConfirmMessageDelivery _ _ => true | _ => false end.
Lemma pending_local origin c : confirms c = false -> kept pending (run_local_call origin c).
Proof. intros Hc. destruct c; try discriminate; simpl; solve_kept. Qed.
Lemma pending_accept origin sd n r p rl l : kept pending (accept_message origin sd n r p rl l).
Proof. solve_kept. Qed.
Lemma pending_token tm : kept pending (process_token_message tm).
Proof. solve_kept. Qed.
Lemma pending_hooks j k n : kept pending (assign_job j k) /\ kept pending (finalize_proxy_job j n).
Proof. split; solve_kept. Qed.
Lemma pending_closed : ext_closed (X := bridge_market) pending.
Proof.
  split.
  - intros from to n s s' (x & Hx & ->)%lift_ext_view. done.
  - intros from n s c s'. simpl. destruct (bx_withdraw from n (bext s)) as [[c' x]|]; simpl; [|done].
    by intros [= <- <-].
  - done.
  - intros j k s s'. apply success_kept, (pending_hooks j k 0).
  - intros j n s s'. apply success_kept, (pending_hooks j [] n).
Qed.

Context {JC : JobConfig} {A : AllowedApps} {F : FixedOps}.
Lemma pending_world :
  world_kept (fun _ c => confirms c = false) (fun w : World => pending w.(jext)).
Proof.
  split; intros; [apply kept_on_bridge..| |apply kept_on_bridge|apply kept_on_bridge].
  - by apply pending_local.
  - apply pending_accept.
  - apply pending_token.
  - apply pending_currency.
  - intros w a w' Hw Hm. by apply (keeps_message _ pending_closed _ _ _ _ Hw Hm).
  - by apply kept_modify.
  - apply kept_gets.
Qed.

(** Who confirms a delivery, and what happens then *)
Lemma confirm_ok origin id' l s u s' :
  confirm_message_delivery origin id' l s = (Ok u, s') ->
  exists who m' x, origin = Signed who /\ s.(outgoing_messages) !! id' = Some m' /\
    oracles_signed s m'.(om_message) (Some who) l MinDeliveryConfirmationSignatures /\
    bx_transfer_on_hold m'.(om_payer) who m'.(om_fee) s.(bext) = Some x /\
    s'.(bext) = x /\ s'.(outgoing_messages) = delete id' s.(outgoing_messages).
Proof.
  intros Hr. unfold confirm_message_delivery in Hr.
  apply bind_ok in Hr as (who & s1 & Hw & Hr).
  assert (origin = Signed who /\ s1 = s) as [-> ->]
    by (destruct origin; [by apply ret_ok in Hw as [-> <-]|by apply throw_ok in Hw]).
  apply bind_ok in Hr as (o & s1 & [Ho <-]%gets_ok & Hr).
  apply bind_ok in Hr as (m' & s1 & [-> <-]%ok_or_ok & Hr).
  apply bind_ok in Hr as (b & s1 & [_ <-]%gets_ok & Hr).
  apply bind_ok in Hr as ([] & s1 & [_ <-]%ensure_ok & Hr).
  apply bind_ok in Hr as ([] & s1 & Hs & Hr).
  pose proof (check_signatures_keeps _ _ _ _ _ _ _ Hs) as ->. apply check_signatures_signed in Hs.
  apply bind_ok in Hr as ([] & s1 & (x & Hx & ->)%currency_ok & Hr).
  apply bind_ok in Hr as ([] & s1 & <-%modify_ok & [H1 H2]%clear_outgoing_ok).
  exists who, m', x. rewrite H1, H2. done.
Qed.

(** The delivery of the message [m] was confirmed by a relayer, who got its fee. *)
Definition delivered (w w' : World) : Prop :=
  exists relayer l,
    dispatch_bridge (Signed relayer) (ConfirmMessageDelivery id l) w = (Ok tt, w') /\
    oracles_signed w.(jext) m.(om_message) (Some relayer) l MinDeliveryConfirmationSignatures /\
    bx_transfer_on_hold m.(om_payer) relayer m.(om_fee) w.(jext).(bext) = Some w'.(jext).(bext) /\
    w'.(jext).(outgoing_messages) !! id = None.

Lemma pending_step outside w w' :
  world_step outside w w' -> pending w.(jext) ->
  w'.(jext).(outgoing_messages) !! id = Some m \/ delivered w w'.
Proof.
  intros Hs Hp. destruct Hs as [origin c t|origin c t|t|x att t Hx]; [| |left; apply Hp..].
  - left. destruct (Marketplace.dispatch origin c t) as [o t'] eqn:E1. unfold exec. rewrite E1.
    by apply (keeps_call _ pending_closed origin c t _ _ Hp E1).
  - destruct (confirms c) eqn:Hc; [|left; by apply (bridge_call_kept _ _ pending_world)].
    destruct c as [| |id' l| | | | | | | | | | | |]; try discriminate.
    unfold exec. destruct (dispatch_bridge origin (ConfirmMessageDelivery id' l) t) as [r w'] eqn:E1. simpl.
    pose proof E1 as Hd. unfold dispatch_bridge, with_transaction in Hd. cbn [run_bridge_call run_local_call] in Hd.
    destruct (on_bridge _ t) as [r1 w1] eqn:E2.
    destruct r1 as [[]|e|]; simplify_eq; [|left; apply Hp..].
    unfold on_bridge, zoom in E2. simpl in E2.
    destruct (confirm_message_delivery origin id' l (jext t)) as [r2 b] eqn:E3. simplify_eq. simpl.
    apply confirm_ok in E3 as (who & m' & x & -> & Hm' & Hsig & Hpay & Hx & Hout).
    destruct (decide (id' = id)) as [->|Hne].
    + right. rewrite (proj1 Hp) in Hm'. simplify_eq. exists who, l. split; [done|]. simpl.
      by rewrite Hout, lookup_delete_eq.
    + left. rewrite Hout, lookup_delete_ne by done. apply Hp.
Qed.
End pending.

(** C22: The fee of a pending message is never stuck, and has one way out at a time.
    Up to the last block of the message, whatever step the chain takes, the message stays
    and its fee stays on hold - nobody can remove or replace it - unless a relayer confirms
    the delivery with the signatures of enough active oracles over the message and his
    account, and is paid the fee from the hold.  Afterwards nobody is paid for a delivery
    any more, and anyone can remove the message, which gives the fee back to the payer. *)
Theorem pending_fee_has_one_way_out {B : BridgeExternals} {C : BridgeConfig} {JC : JobConfig}
  {A : AllowedApps} {F : FixedOps} (held : BExt -> AccountId -> Balance) (laws : hold_laws held)
  (outside : BExt -> BExt -> Prop) (x : BExt) (w : World) (id : MessageId)
  (m : OutgoingMessageWithMeta) (who : AccountId) :
  0 <= MinFee ->
  (forall a, held x a = 0) ->
  (forall y y' a, outside y y' -> held y' a = held y a) ->
  (forall y a n, 0 <= n <= held y a -> is_Some (bx_release false a n y)) ->
  rtc (world_step outside) (genesis (X := bridge_market) (bridge_genesis x)) w ->
  w.(jext).(outgoing_messages) !! id = Some m ->
  if w.(jext).(block_number) <=? m.(om_ttl_block) then
    dispatch_bridge (Signed who) (RemoveMessage id) w
      = (Err (IbcErr CannotRemovePendingMessage), w) /\
    forall w', world_step outside w w' ->
      (w'.(jext).(outgoing_messages) !! id = Some m /\
       m.(om_fee) <= held w'.(jext).(bext) m.(om_payer)) \/
      (delivered id m w w' /\
       held w'.(jext).(bext) m.(om_payer) = held w.(jext).(bext) m.(om_payer) - m.(om_fee))
  else
    (forall l, dispatch_bridge (Signed who) (ConfirmMessageDelivery id l) w
      = (Err (IbcErr DeliveryConfirmationOverdue), w)) /\
    exists w', dispatch_bridge (Signed who) (RemoveMessage id) w = (Ok tt, w') /\
      w'.(jext).(outgoing_messages) !! id = None /\
      held w'.(jext).(bext) m.(om_payer) = held w.(jext).(bext) m.(om_payer) - m.(om_fee).
Proof.
  intros Hmin Hx Ho Hrel Hr Hm.
  assert (forall t, rtc (world_step outside) (genesis (X := bridge_market) (bridge_genesis x)) t ->
    fees_inv held t.(jext)) as Hinv by (intros; by eapply fees_inv_reach).
  pose proof (promised_covered held _ _ _ (Hinv w Hr) Hm) as Hc.
  destruct (Z.leb_spec (block_number (jext w)) (om_ttl_block m)) as [Hb|Hb].
  - split.
    { unfold dispatch_bridge, with_transaction. cbn [run_bridge_call run_local_call].
      by rewrite (on_bridge_run _ _ _ _ (remove_early who id m _ Hm Hb)). }
    intros w' Hs. destruct (pending_step id m outside w w' Hs) as [Hm'|Hd]; [by split|left|right].
    + split; [done|]. eapply promised_covered; [|exact Hm']. apply Hinv. by eapply rtc_r.
    + split; [done|]. destruct Hd as (relayer & l & _ & _ & Hpay & _).
      rewrite (hl_pay _ laws _ _ _ _ _ m.(om_payer) Hc Hpay). by rewrite bool_decide_eq_true_2.
  - unfold dispatch_bridge, with_transaction. cbn [run_bridge_call run_local_call].
    split; [intros l; by rewrite (on_bridge_run _ _ _ _ (confirm_late who id l m _ Hm Hb))|].
    destruct (Hrel _ _ _ Hc) as [y Hy].
    destruct (remove_late who id m _ y Hm Hb Hy) as (s' & Hs & He & Ht).
    exists (set_jext (X := bridge_market) s' w). rewrite (on_bridge_run _ _ _ _ Hs). split; [done|]. simpl.
    rewrite Ht, He. split; [apply lookup_delete_eq|].
    rewrite (hl_release _ laws _ _ _ _ _ m.(om_payer) Hc Hy).
    by rewrite bool_decide_eq_true_2.
Qed.

(** ** At the run of [BridgeReference.v] *)
Lemma be_unhold_held from to n x x' a :
  be_unhold from to n x = Some x' -> be_held x' a = be_held x a - (if bool_decide (from = a) then n else 0).
Proof.
  unfold be_unhold. destruct (_ && _); [|done]. intros [= <-]. unfold be_held, be_set, be_set_held. simpl.
  case_bool_decide as Ha; [subst; rewrite lookup_insert_eq|rewrite lookup_insert_ne by done]; simpl; lia.
Qed.
Lemma be_withdraw_held from n x x' a : be_withdraw from n x = Some x' -> be_held x' a = be_held x a.
Proof. unfold be_withdraw. destruct (_ && _); [|done]. by intros [= <-]. Qed.
Lemma be_transfer_held from to n x x' a : be_transfer from to n x = Some x' -> be_held x' a = be_held x a.
Proof.
  unfold be_transfer. destruct (be_withdraw from n x) as [y|] eqn:E; [|done]. simpl. intros [= <-].
  rewrite <-(be_withdraw_held _ _ _ _ a E). done.
Qed.
Lemma reference_hold_laws : hold_laws (B := reference_bridge) be_held.
Proof.
  split; simpl; try done.
  - apply be_transfer_held.
  - apply be_transfer_held.
  - intros from n x c x' a Hw. destruct (be_withdraw from n x) as [y|] eqn:E; [|done]. simpl in Hw.
    injection Hw as <- <-. by apply (be_withdraw_held _ _ _ _ a E).
  - intros m x x' a. by intros [= <-].
  - intros who n x x' a Hh. unfold be_hold in Hh. destruct (be_withdraw who n x) as [y|] eqn:E; [|done].
    simpl in Hh. injection Hh as <-. rewrite <-(be_withdraw_held _ _ _ _ a E).
    unfold be_held, be_set_held. simpl.
    case_bool_decide as Ha; [subst; rewrite lookup_insert_eq|rewrite lookup_insert_ne by done]; simpl; lia.
  - intros e who n x x' a Hn Hr. unfold be_release in Hr.
    replace (if e then n else Z.max 0 (Z.min n (be_held x who))) with n in Hr by (destruct e; lia).
    exact (be_unhold_held _ _ _ _ _ a Hr).
  - intros from to n x x' a _ Hr. exact (be_unhold_held _ _ _ _ _ a Hr).
Qed.
Lemma quiet_held y y' a : quiet y y' -> be_held y' a = be_held y a.
Proof. intros [_ Hq]. unfold be_held. by rewrite Hq. Qed.
Lemma b_ext_held a : be_held b_ext a = 0.
Proof. done. Qed.

Lemma fees_on_hold_witness :
  be_held b_expired.(jext).(bext) 1012 = fees_promised b_expired.(jext) 1012 /\
  fees_promised b_expired.(jext) 1012 = 20 * UNIT.
Proof.
  assert (0 <= 20 * UNIT) as Hmin by by_compute.
  split; [|by_compute].
  exact (fees_on_hold be_held reference_hold_laws quiet b_ext b_expired 1012 Hmin b_ext_held
           quiet_held reach_expired).
Defined.

Lemma be_release_total y a n : 0 <= n <= be_held y a -> is_Some (be_release false a n y).
Proof.
  intros Hn. unfold be_release, be_unhold.
  rewrite (proj2 (Z.leb_le _ _)), (proj2 (Z.leb_le _ _)) by lia. by eexists.
Qed.
Lemma pending_fee_has_one_way_out_witness :
  dispatch_bridge (Signed 8) (RemoveMessage b_id) b_sent
    = (Err (IbcErr CannotRemovePendingMessage), b_sent) /\
  exists w', dispatch_bridge (Signed 8) (RemoveMessage b_id) b_expired = (Ok tt, w') /\
    be_held w'.(jext).(bext) 1012 = 0.
Proof.
  assert (0 <= 20 * UNIT) as Hmin by by_compute.
  assert (b_sent.(jext).(outgoing_messages) !! b_id = Some b_message) as H1 by by_compute.
  assert (b_expired.(jext).(outgoing_messages) !! b_id = Some b_message) as H2 by by_compute.
  assert ((b_sent.(jext).(block_number) <=? b_message.(om_ttl_block)) = true) as H3 by by_compute.
  assert ((b_expired.(jext).(block_number) <=? b_message.(om_ttl_block)) = false) as H4 by by_compute.
  assert (be_held b_expired.(jext).(bext) b_message.(om_payer) - b_message.(om_fee) = 0) as H5 by by_compute.
  assert (b_message.(om_payer) = 1012) as H6 by by_compute.
  pose proof (pending_fee_has_one_way_out be_held reference_hold_laws quiet b_ext b_sent b_id b_message 8
    Hmin b_ext_held quiet_held be_release_total reach_sent H1) as Hs. rewrite H3 in Hs.
  pose proof (pending_fee_has_one_way_out be_held reference_hold_laws quiet b_ext b_expired b_id b_message 8
    Hmin b_ext_held quiet_held be_release_total reach_expired H2) as He. rewrite H4 in He.
  split; [exact (proj1 Hs)|]. destruct He as (_ & w' & Hw & _ & Hh). exists w'. split; [exact Hw|].
  rewrite H5, H6 in Hh. exact Hh.
Defined.
