(* ===== verification/TransferSpecs.v ===== *)
(** Transfers from other chains: a transfer is paid at most once, however often and
    in whatever messages it arrives. *)
From S2P Require Import Prelude JobTypes Reputation Attestations Jobs Payments Marketplace.
From S2P Require Import WorldSteps BridgeTypes Ibc HyperdriveToken Hyperdrive Bridge JobReference.
From S2P Require Import BridgeReference.

Section nonces.
Context {B : BridgeExternals} {C : BridgeConfig} {JC : JobConfig} {A : AllowedApps} {F : FixedOps}.

(** The transfer number [n] of a chain has been received. *)
Definition transfer_seen (p : ProxyChain) (n : TransferNonce) (s : BridgeState) : Prop :=
  s.(incoming_transfer_nonces) !! (p, n) = Some tt.

Section seen.
Context (p : ProxyChain) (n : TransferNonce).
Notation seen := (transfer_seen p n).

Lemma kept_seen_currency f e : kept seen (currency f e).
Proof. by apply kept_currency. Qed.
Local Hint Resolve kept_seen_currency : kept.
Lemma kept_seen_action p' a : kept seen (execute_action p' a).
Proof.
  unfold execute_action. destruct a; [|by eauto with kept..].
  do 2 (apply kept_bind; [solve_kept|intros ?]). apply kept_bind; [solve_kept|intros ?].
  apply kept_bind; [|intros ?; solve_kept].
  apply kept_modify. intros s Hs. unfold transfer_seen in *. simpl.
  destruct (decide ((p', transfer_nonce) = (p, n))) as [->|]; [by rewrite lookup_insert_eq|].
  by rewrite lookup_insert_ne.
Qed.
Local Hint Resolve kept_seen_action : kept.
Lemma kept_seen_send sender payer nonce recipient payload ttl fee :
  kept seen (send_message sender payer nonce recipient payload ttl fee).
Proof.
  change (kept seen (do_send_message sender payer nonce recipient payload ttl fee)). solve_kept.
Qed.
Local Hint Resolve kept_seen_send : kept.

Lemma seen_hooks j k r : kept seen (assign_job j k) /\ kept seen (finalize_proxy_job j r).
Proof. split; solve_kept. Qed.

Lemma seen_kept outside : bridge_kept outside seen.
Proof.
  split; try done.
  - intros o c. destruct c; simpl; solve_kept.
  - intros. solve_kept.
  - intros m. solve_kept.
  - intros m. apply kept_seen_currency.
  - split.
    + intros f t k s s' (x & _ & ->)%lift_ext_view. done.
    + intros f k s c s'. simpl. destruct (bx_withdraw f k (bext s)) as [[c' x]|]; simpl; [|done].
      by intros [= _ <-].
    + done.
    + intros j k s s'. apply success_kept, (seen_hooks j k 0).
    + intros j r s s'. apply success_kept, (seen_hooks j [] r).
Qed.
End seen.
End nonces.

(** What the receipt of a message may change by itself is none of this. *)
Definition money_view {B : BridgeExternals} (s : BridgeState) :=
  (s.(bext), s.(incoming_transfer_nonces), s.(ethereum_contract)).

Section receipt.
Context {B : BridgeExternals} {C : BridgeConfig} {JC : JobConfig} {A : AllowedApps} {F : FixedOps}.

Lemma execute_transfer_ok p a asset n d s u s' :
  execute_action p (TransferToken a asset n d) s = (Ok u, s') ->
  asset = None /\ s.(incoming_transfer_nonces) !! (p, n) = None /\ transfer_seen p n s' /\
  exists who, d = Acurast who /\
    (if a =? 0 then s'.(bext) = s.(bext)
     else bx_transfer_protect EthereumVault who a s.(bext) = Some s'.(bext)).
Proof.
  intros ([] & s1 & [Ha <-]%ensure_ok & Hm)%bind_ok.
  apply bind_ok in Hm as (o & s1 & [Ho <-]%gets_ok & Hm).
  apply bind_ok in Hm as ([] & s1 & [Hn <-]%ensure_ok & Hm).
  apply bind_ok in Hm as ([] & s1 & <-%modify_ok & Hm).
  split; [by destruct asset|]. rewrite Ho. split; [by destruct o|].
  destruct d as [who| | | | | | |]; try by apply throw_ok in Hm.
  apply bind_ok in Hm as ([] & s1 & Hp & <-%modify_ok). unfold transfer_seen. simpl.
  destruct (a =? 0).
  - apply ret_ok in Hp as [_ <-]. simpl. split; [apply lookup_insert_eq|eauto].
  - apply currency_ok in Hp as (x & Hx & ->). simpl in *. split; [apply lookup_insert_eq|eauto].
Qed.

Lemma process_token_ok m s u s' :
  process_token_message m s = (Ok u, s') ->
  exists c action, m.(mb_sender) = SEthereum (Contract c) /\
    s.(ethereum_contract) = Some c.(contract) /\ decode_action m.(mb_payload) = Ok action /\
    execute_action PEthereum action s = (Ok u, s').
Proof.
  intros (pa & s1 & Hp & Hm)%bind_ok.
  destruct (mb_sender m) as [l|l|l|[|c]|[|c]|l] eqn:Hs; try by apply throw_ok in Hp.
  - apply bind_ok in Hp as (o & s2 & [Ho <-]%gets_ok & Hp).
    apply bind_ok in Hp as (known & s2 & [-> <-]%ok_or_ok & Hp).
    apply bind_ok in Hp as ([] & s2 & [Hc%Z.eqb_eq <-]%ensure_ok & Hp).
    destruct (decode_action (mb_payload m)) as [a|e|] eqn:Hd; [|by apply throw_ok in Hp|done].
    apply ret_ok in Hp as [<- <-]. exists c, a. by rewrite Hc.
  - apply bind_ok in Hp as (o & s2 & [Ho <-]%gets_ok & Hp).
    apply bind_ok in Hp as (known & s2 & [-> <-]%ok_or_ok & Hp).
    apply bind_ok in Hp as ([] & s2 & [Hc%Z.eqb_eq <-]%ensure_ok & Hp). by apply throw_ok in Hp.
Qed.

(** A message for the token pallet moves no money, or is processed in the state that
    received it. *)
Lemma receive_token o sd n p rl l r (w w' : World) :
  AcurastPalletAccount <> PalletAccount ->
  dispatch_bridge o (ReceiveMessage sd n (SAcurast (Extrinsic PalletAccount)) p rl l) w = (r, w') ->
  w'.(jext).(bext) = w.(jext).(bext) \/
  exists s s', money_view s = money_view w.(jext) /\ money_view w'.(jext) = money_view s' /\
    process_token_message (mkMessageBody sd (SAcurast (Extrinsic PalletAccount)) p) s = (Ok tt, s').
Proof.
  intros Hne [->|(m & b & e & Ha & Hp)]%receive_cases; [by left|].
  apply accept_ok in Ha as (_ & _ & _ & Hb & Hn & Hc & _).
  destruct Hp as [->|(w1 & Hp & ->)]; [by left|]. right. unfold route_message in Hp. simpl in Hp.
  rewrite bool_decide_eq_false_2 in Hp by (intros [= ?]; congruence).
  rewrite bool_decide_eq_true_2 in Hp by done. unfold on_bridge, zoom in Hp. simpl in Hp.
  destruct (process_token_message _ b) as [o4 b'] eqn:Ht. simplify_eq.
  exists b, b'. unfold money_view. by rewrite Hb, Hn, Hc.
Qed.
End receipt.

(** C4: A transfer that arrives from Ethereum is paid at most once.  When a message
    for the token pallet with the transfer number [n] moves money, it was sent by the
    registered contract, names no asset, has a recipient on this chain, the number
    was new, and the amount is paid from the vault; the number is then taken, and
    in every later state a message with the same number moves no money, whoever
    submits it, with whatever signatures, amount, recipient and message number. *)
Theorem incoming_transfer_paid_once {B : BridgeExternals} {C : BridgeConfig} {JC : JobConfig}
  {A : AllowedApps} {F : FixedOps} (outside : BExt -> BExt -> Prop) (o : RuntimeOrigin)
  (sd : Subject) (nonce : MessageNonce) (p : Payload) (rl : MultiOrigin)
  (l : list (Signature * Public)) (r : outcome BridgeError unit) (w w1 : World)
  (a : Balance) (asset : option Z) (n : TransferNonce) (d : MultiOrigin) :
  AcurastPalletAccount <> PalletAccount ->
  decode_action p = Ok (TransferToken a asset n d) ->
  dispatch_bridge o (ReceiveMessage sd nonce (SAcurast (Extrinsic PalletAccount)) p rl l) w = (r, w1) ->
  w1.(jext).(bext) <> w.(jext).(bext) ->
  (exists c who, sd = SEthereum (Contract c) /\ w.(jext).(ethereum_contract) = Some c.(contract) /\
     asset = None /\ d = Acurast who /\
     w.(jext).(incoming_transfer_nonces) !! (PEthereum, n) = None /\
     bx_transfer_protect EthereumVault who a w.(jext).(bext) = Some w1.(jext).(bext)) /\
  forall w2, rtc (world_step outside) w1 w2 ->
  forall o' sd' nonce' p' rl' l' a' asset' d',
    decode_action p' = Ok (TransferToken a' asset' n d') ->
    (exec (dispatch_bridge o'
       (ReceiveMessage sd' nonce' (SAcurast (Extrinsic PalletAccount)) p' rl' l')) w2).(jext).(bext)
    = w2.(jext).(bext).
Proof.
  intros Hne Hd Hm Hpaid.
  destruct (receive_token _ _ _ _ _ _ _ _ _ Hne Hm) as [?|(s & s' & Hv & Hw1 & Hp)]; [done|].
  apply process_token_ok in Hp as (c & act & Hs & Hc & Hda & He). simpl in Hs, Hda.
  rewrite Hd in Hda. injection Hda as <-.
  apply execute_transfer_ok in He as (-> & Hn & Hseen & who & -> & Hpay).
  unfold money_view in Hv, Hw1. injection Hv as Hv1 Hv2 Hv3. injection Hw1 as Hx1 Hx2 Hx3. split.
  - exists c, who. rewrite <-Hv2, <-Hv3, <-Hv1, Hx1. split_and!; try done.
    destruct (a =? 0); [congruence|done].
  - intros w2 Hr o' sd' nonce' p' rl' l' a' asset' d' Hd'.
    assert (transfer_seen PEthereum n w2.(jext)) as H2.
    { apply (world_reach_kept outside _ (seen_kept PEthereum n outside) _ _ Hr).
      unfold transfer_seen in *. by rewrite Hx2. }
    unfold exec. destruct (dispatch_bridge o' _ w2) as [r' w3] eqn:E3. simpl.
    destruct (receive_token _ _ _ _ _ _ _ _ _ Hne E3) as [?|(t & t' & Ht & _ & Hp)]; [done|].
    apply process_token_ok in Hp as (c' & act & _ & _ & Hda & He). simpl in Hda.
    rewrite Hd' in Hda. injection Hda as <-.
    apply execute_transfer_ok in He as (_ & Hn' & _). unfold money_view in Ht.
    injection Ht as _ Ht _. unfold transfer_seen in H2. congruence.
Qed.

(** ** At the run of [BridgeReference.v]: the transfer 0 comes back, and arrives
    again in another message, for another account. *)
Definition b_payload : list Z :=
  to_be_bytes 4 0 ++ to_be_bytes 16 (2 * UNIT) ++ to_be_bytes 4 0 ++ to_be_bytes 8 0 ++ to_be_bytes 32 6.
Definition b_again : list Z :=
  to_be_bytes 4 0 ++ to_be_bytes 16 UNIT ++ to_be_bytes 4 0 ++ to_be_bytes 8 0 ++ to_be_bytes 32 7.
Definition b_from : Subject := SEthereum (Contract (mkContractCall 77 None)).
Definition b_vault : Subject := SAcurast (Extrinsic 1010).

Lemma incoming_transfer_paid_once_witness :
  be_balance b_paid.(jext).(bext) 6 = 2 * UNIT /\
  (exec (dispatch_bridge (Signed 8) (b_receive b_from 9 b_vault b_again)) b_paid).(jext).(bext)
    = b_paid.(jext).(bext).
Proof.
  split; [by_compute|].
  assert (decode_action b_payload = Ok (TransferToken (2 * UNIT) None 0 (Acurast 6))) as H1 by by_compute.
  assert (decode_action b_again = Ok (TransferToken UNIT None 0 (Acurast 7))) as H2 by by_compute.
  assert (result (dispatch_bridge (Signed 8) (b_receive b_from 1 b_vault b_payload)) b_sent = Ok tt)
    as H3 by by_compute.
  assert (be_balance b_paid.(jext).(bext) 6 <> be_balance b_sent.(jext).(bext) 6) as H4 by by_compute.
  assert (b_paid.(jext).(bext) <> b_sent.(jext).(bext)) as H5.
  { intros E. apply H4. by rewrite E. }
  assert (1000 <> 1010) as Hne by done.
  pose proof (incoming_transfer_paid_once quiet (Signed 8) b_from 1 b_payload (Acurast 8)
    (sign b_from 1 b_vault b_payload) (Ok tt) b_sent b_paid (2 * UNIT) None 0 (Acurast 6)
    Hne H1 (result_exec _ _ _ H3) H5) as [_ Hagain].
  exact (Hagain b_paid (rtc_refl _ _) (Signed 8) b_from 9 b_again (Acurast 8)
    (sign b_from 9 b_vault b_again) UNIT None (Acurast 7) H2).
Defined.
