(* ===== verification/CodecSpecs.v ===== *)
(** The codec of token transfers: big-endian integers, and the agreement of the
    encoder of outgoing transfers with the decoder of incoming ones. *)
From S2P Require Import Prelude JobTypes BridgeTypes HyperdriveToken BridgeReference.

(** * Big-endian integers *)
Definition is_byte (b : Z) : Prop := 0 <= b < 256.

Lemma length_to_be w n : length (to_be_bytes w n) = w.
Proof. induction w; simpl; auto. Qed.

Lemma from_be_app l l' : from_be_bytes (l ++ l') = from_be_bytes l * 256 ^ Z.of_nat (length l') + from_be_bytes l'.
Proof.
  unfold from_be_bytes. rewrite fold_left_app. generalize (fold_left (fun n b => 256 * n + b) l 0).
  induction l' as [|b l' IH] using rev_ind; intros n; simpl; [lia|].
  rewrite !fold_left_app, length_app, IH. simpl.
  replace (Z.of_nat (length l' + 1)) with (1 + Z.of_nat (length l')) by lia.
  rewrite Z.pow_add_r by lia. lia.
Qed.
Lemma from_be_cons b l : from_be_bytes (b :: l) = b * 256 ^ Z.of_nat (length l) + from_be_bytes l.
Proof. apply (from_be_app [b]). Qed.

Lemma from_to_be w n : from_be_bytes (to_be_bytes w n) = n mod 256 ^ Z.of_nat w.
Proof.
  induction w as [|w IH]; [by rewrite Z.mod_1_r|]. cbn [to_be_bytes].
  rewrite from_be_cons, IH, length_to_be.
  replace (Z.of_nat (S w)) with (Z.of_nat w + 1) by lia. rewrite Z.pow_add_r, Z.pow_1_r by lia.
  rewrite Z.rem_mul_r by lia. lia.
Qed.

Lemma from_be_range l : Forall is_byte l -> 0 <= from_be_bytes l < 256 ^ Z.of_nat (length l).
Proof.
  induction 1 as [|b l Hb Hl IH]; [by unfold from_be_bytes|].
  rewrite from_be_cons. cbn [length]. rewrite Nat2Z.inj_succ, Z.pow_succ_r by lia.
  unfold is_byte in Hb. nia.
Qed.

Lemma to_from_be l : Forall is_byte l -> to_be_bytes (length l) (from_be_bytes l) = l.
Proof.
  assert (forall w a n, to_be_bytes w (a * 256 ^ Z.of_nat w + n) = to_be_bytes w n) as Hadd.
  { induction w as [|w IH]; intros a n; [done|]. cbn [to_be_bytes].
    replace (Z.of_nat (S w)) with (Z.of_nat w + 1) by lia. rewrite Z.pow_add_r, Z.pow_1_r by lia.
    replace (a * (256 ^ Z.of_nat w * 256) + n) with (a * 256 * 256 ^ Z.of_nat w + n) by lia.
    rewrite IH, Z.div_add_l by lia. rewrite Z.add_comm, Z_mod_plus_full. done. }
  induction 1 as [|b l Hb Hl IH]; [done|]. cbn [length to_be_bytes].
  pose proof (from_be_range l Hl). rewrite from_be_cons, Z.div_add_l by lia.
  rewrite Z.div_small, Z.add_0_r, Z.mod_small by (unfold is_byte in *; lia). f_equal. by rewrite Hadd.
Qed.

(** * Writing into and reading from a buffer *)
Lemma write_slice_mid a b src l1 l2 l3 :
  length l1 = a -> length (l1 ++ l2) = b ->
  write_slice (a, b) src (l1 ++ l2 ++ l3) = l1 ++ src ++ l3.
Proof.
  intros Ha Hb. unfold write_slice. cbn [fst snd]. rewrite take_app_length' by done.
  rewrite (assoc_L (++) l1 l2 l3). by rewrite drop_app_length'.
Qed.
Lemma slice_mid a b l1 l2 l3 :
  length l1 = a -> length (l1 ++ l2) = b -> slice (a, b) (l1 ++ l2 ++ l3) = l2.
Proof.
  intros Ha Hb. unfold slice. cbn [fst snd]. rewrite drop_app_length' by done.
  rewrite take_app_length'; [done|]. rewrite length_app in Hb. lia.
Qed.

(** The part of a transfer that both directions share *)
Definition transfer_header (amount asset_id transfer_nonce : Z) : list Z :=
  to_be_bytes 4 0 ++ to_be_bytes 16 amount ++ to_be_bytes 4 asset_id ++ to_be_bytes 8 transfer_nonce.

Lemma length_header a i n : length (transfer_header a i n) = 32%nat.
Proof. unfold transfer_header. by rewrite !length_app, !length_to_be. Qed.

Section codec.
Context {B : BridgeExternals}.

Lemma encode_transfer amount asset n c :
  length (account20_bytes c) = 20%nat ->
  encode_action (TransferToken amount asset n (Ethereum20 c)) =
    Ok (transfer_header amount (default 0 asset) n ++ account20_bytes c).
Proof.
  intros Hc. unfold encode_action, transfer_header. do 2 f_equal.
  assert (exists b0 b1 b2 b3 b4, repeat 0 52 = b0 ++ b1 ++ b2 ++ b3 ++ b4 /\
            length b0 = 4%nat /\ length b1 = 16%nat /\ length b2 = 4%nat /\ length b3 = 8%nat /\
            length b4 = 20%nat)
    as (b0 & b1 & b2 & b3 & b4 & -> & H0 & H1 & H2 & H3 & H4).
  { by exists (repeat 0 4), (repeat 0 16), (repeat 0 4), (repeat 0 8), (repeat 0 20). }
  cbn [raw_of_action raw_action_index].
  pose proof (length_to_be 4 0). pose proof (length_to_be 16 amount).
  pose proof (length_to_be 4 (default 0 asset)). pose proof (length_to_be 8 n).
  generalize dependent (to_be_bytes 4 0). generalize dependent (to_be_bytes 16 amount).
  generalize dependent (to_be_bytes 4 (default 0 asset)). generalize dependent (to_be_bytes 8 n).
  intros t3 Ht3 t2 Ht2 t1 Ht1 t0 Ht0.
  unfold action_id_range, amount_range, asset_id_range, transfer_nonce_range, ethereum_dest_range.
  rewrite <-(app_nil_l (b0 ++ _)), (write_slice_mid 0 4 t0 [] b0), app_nil_l by done.
  rewrite (write_slice_mid 4 20 t1 t0 b1) by (rewrite ?length_app; lia).
  rewrite (assoc_L (++) t0 t1).
  rewrite (write_slice_mid 20 24 t2 (t0 ++ t1) b2) by (rewrite ?length_app; lia).
  rewrite (assoc_L (++) (t0 ++ t1) t2).
  rewrite (write_slice_mid 24 32 t3 ((t0 ++ t1) ++ t2) b3) by (rewrite ?length_app; lia).
  rewrite (assoc_L (++) _ t3). rewrite <-(app_nil_r b4).
  rewrite (write_slice_mid 32 52 _ (((t0 ++ t1) ++ t2) ++ t3) b4) by (rewrite ?length_app; lia).
  rewrite app_nil_r. by rewrite <-!(assoc_L (++)).
Qed.

(** What the decoder reads from the concatenation of the fields *)
Lemma decode_fields t0 t1 t2 t3 db :
  length t0 = 4%nat -> length t1 = 16%nat -> length t2 = 4%nat -> length t3 = 8%nat ->
  length db = 32%nat ->
  decode_action ((t0 ++ t1 ++ t2 ++ t3) ++ db) =
  if from_be_bytes t0 =? 0 then
    match parse_account_id db with
    | None => Err CouldNotConvertActionAccountId
    | Some dest =>
        Ok (TransferToken (from_be_bytes t1)
              (if negb (from_be_bytes t2 =? 0) then Some (from_be_bytes t2) else None)
              (from_be_bytes t3) (Acurast dest))
    end
  else Err UnsupportedRawAction.
Proof.
  intros H0 H1 H2 H3 H4. unfold decode_action.
  set (e := (t0 ++ t1 ++ t2 ++ t3) ++ db).
  assert (length e = 64%nat) as He by (unfold e; rewrite !length_app; lia). rewrite He.
  assert (slice action_id_range e = t0) as ->.
  { unfold e. rewrite <-(assoc_L (++)). by apply (slice_mid 0 4 []). }
  assert (slice amount_range e = t1) as ->.
  { unfold e. rewrite <-!(assoc_L (++)). apply (slice_mid 4 20 t0); rewrite ?length_app; lia. }
  assert (slice asset_id_range e = t2) as ->.
  { unfold e. rewrite <-!(assoc_L (++)), (assoc_L (++) t0).
    apply (slice_mid 20 24 (t0 ++ t1)); rewrite ?length_app; lia. }
  assert (slice transfer_nonce_range e = t3) as ->.
  { unfold e. rewrite <-!(assoc_L (++)), (assoc_L (++) t0), (assoc_L (++) (t0 ++ t1)).
    apply (slice_mid 24 32 ((t0 ++ t1) ++ t2)); rewrite ?length_app; lia. }
  assert (slice acurast_dest_range e = db) as ->.
  { unfold e. rewrite <-(app_nil_r (_ ++ db)), <-(assoc_L (++) _ db).
    apply (slice_mid 32 64 (t0 ++ t1 ++ t2 ++ t3)); rewrite ?length_app; lia. }
  unfold raw_action_try_from, raw_action_index. simpl. destruct (from_be_bytes t0 =? 0); [|done].
  by destruct (parse_account_id db).
Qed.
End codec.

(** A buffer splits into fields of given lengths. *)
Lemma split_at_length {A} (l : list A) (a b : nat) :
  length l = (a + b)%nat -> exists l1 l2, l = l1 ++ l2 /\ length l1 = a /\ length l2 = b.
Proof.
  intros Hl. exists (take a l), (drop a l). rewrite take_drop, length_take, length_drop.
  split_and!; [done|lia|lia].
Qed.

Lemma split_transfer (e : list Z) :
  length e = 64%nat -> exists t0 t1 t2 t3 db, e = (t0 ++ t1 ++ t2 ++ t3) ++ db /\
    length t0 = 4%nat /\ length t1 = 16%nat /\ length t2 = 4%nat /\ length t3 = 8%nat /\
    length db = 32%nat.
Proof.
  intros H. destruct (split_at_length e 32 32 H) as (h & db & -> & Hh & Hdb).
  destruct (split_at_length h 4 28 Hh) as (t0 & h1 & -> & H0 & H1).
  destruct (split_at_length h1 16 12 H1) as (t1 & h2 & -> & H2 & H3).
  destruct (split_at_length h2 4 8 H3) as (t2 & t3 & -> & H4 & H5).
  by exists t0, t1, t2, t3, db.
Qed.

Lemma from_be_zero (l : list Z) :
  Forall is_byte l -> length l = 4%nat -> from_be_bytes l = 0 -> l = to_be_bytes 4 0.
Proof. intros Hb Hl Hz. rewrite <-Hz, <-Hl. by rewrite to_from_be. Qed.

(** C23: The encoder of outgoing transfers and the decoder of incoming ones agree on
    the format.  A transfer whose numbers fit their types is encoded into a header
    of 32 bytes followed by the destination, and the same header with a destination
    on this chain is decoded to the same transfer.  In the other direction, every
    byte string that is decoded to a transfer has the header that the encoder would
    write, so that two different messages never stand for the same transfer unless
    their destinations are spelled differently. *)
Theorem ethereum_transfer_roundtrip {B : BridgeExternals} (amount n c d : Z) (asset : option Z)
  (db : list Z) :
  length (account20_bytes c) = 20%nat ->
  0 <= amount <= u128_max -> 0 <= n <= u64_max ->
  match asset with Some i => 0 < i <= u32_max | None => True end ->
  length db = 32%nat -> parse_account_id db = Some d ->
  exists header, length header = 32%nat /\
    encode_action (TransferToken amount asset n (Ethereum20 c)) = Ok (header ++ account20_bytes c) /\
    decode_action (header ++ db) = Ok (TransferToken amount asset n (Acurast d)) /\
    forall e amount' asset' n' d', Forall is_byte e ->
      decode_action e = Ok (TransferToken amount' asset' n' d') ->
      encode_action (TransferToken amount' asset' n' (Ethereum20 c))
        = Ok (take 32 e ++ account20_bytes c) /\
      (forall k, d' = Acurast k <-> parse_account_id (drop 32 e) = Some k).
Proof.
  intros Hc Ha Hn Has Hdb Hd. exists (transfer_header amount (default 0 asset) n).
  unfold u128_max, u64_max, u32_max in *.
  split_and!; [apply length_header|by apply encode_transfer| |].
  - unfold transfer_header. rewrite decode_fields by (rewrite ?length_to_be; done).
    rewrite !from_to_be, Hd. rewrite (Z.mod_small 0), (Z.mod_small amount), (Z.mod_small n),
      (Z.mod_small (default 0 asset)) by (destruct asset; simpl; lia).
    destruct asset as [i|]; simpl; [|done]. by rewrite (proj2 (Z.eqb_neq i 0)) by lia.
  - intros e a' i' n' d' Hb He.
    assert (length e = 64%nat) as Hlen.
    { unfold decode_action in He. destruct (length e <? 4)%nat; [done|].
      destruct (raw_action_try_from _) as [[| |]|] eqn:Hr; [|by case_match|done..].
      destruct (Nat.eqb_spec (length e) 64); [done|done]. }
    destruct (split_transfer e Hlen) as (t0 & t1 & t2 & t3 & db' & -> & H0 & H1 & H2 & H3 & H4).
    rewrite decode_fields in He by done.
    apply Forall_app in Hb as [[B0 [B1 [B2 B3]%Forall_app]%Forall_app]%Forall_app _].
    destruct (Z.eqb_spec (from_be_bytes t0) 0) as [Hz|]; [|done].
    assert (length (t0 ++ t1 ++ t2 ++ t3) = 32%nat) as Hh by (rewrite !length_app; lia).
    rewrite take_app_length', drop_app_length' by done.
    destruct (parse_account_id db') as [k|] eqn:Hk; [|done]. injection He as <- <- <- <-.
    split; [|by intros k'; split; [intros [= ->]|intros [= ->]]].
    rewrite encode_transfer by done. do 2 f_equal. unfold transfer_header.
    pose proof (to_from_be t1 B1) as E1. pose proof (to_from_be t2 B2) as E2.
    pose proof (to_from_be t3 B3) as E3. rewrite H1 in E1. rewrite H2 in E2. rewrite H3 in E3.
    rewrite E1, E3, <-(from_be_zero t0) by done.
    replace (default 0 (if negb (from_be_bytes t2 =? 0) then Some (from_be_bytes t2) else None))
      with (from_be_bytes t2) by (destruct (Z.eqb_spec (from_be_bytes t2) 0); simpl; done).
    by rewrite E2.
Qed.

(** What the decoder does not know: the two other actions of the encoder *)
Lemma enabled_is_not_decoded {B : BridgeExternals} (on : bool) :
  exists l, encode_action (SetEnabled on) = Ok l /\ decode_action l = Err UnsupportedRawAction.
Proof. eexists. split; [reflexivity|]. by destruct on. Qed.
Lemma noop_is_not_decoded {B : BridgeExternals} :
  encode_action Noop = Ok [] /\ decode_action [] = Err InvalidAction /\
  decode_action (to_be_bytes 4 (raw_action_index RawNoop)) = Err UnsupportedRawAction.
Proof. done. Qed.

Lemma ethereum_transfer_roundtrip_witness :
  exists header, length header = 32%nat /\
    encode_action (TransferToken (3 * UNIT) None 7 (Ethereum20 99)) = Ok (header ++ to_be_bytes 20 99) /\
    decode_action (header ++ to_be_bytes 32 6) = Ok (TransferToken (3 * UNIT) None 7 (Acurast 6)).
Proof.
  destruct (ethereum_transfer_roundtrip (B := reference_bridge) (3 * UNIT) 7 99 6 None (to_be_bytes 32 6))
    as (header & H1 & H2 & H3 & _); [by_compute..|done|by_compute|by_compute|].
  by exists header.
Defined.
