(* ===== verification/IsolationSpecs.v ===== *)
(** What another chain can do to the jobs: only its registered proxy contract,
    through messages that enough oracles have signed, and only to the jobs of that
    chain. *)
From S2P Require Import Prelude JobTypes Reputation Attestations Jobs Payments Marketplace.
From S2P Require Import JobFrames WorldSteps MarketSpecs BridgeTypes Ibc HyperdriveToken Hyperdrive.
From S2P Require Import Bridge SignatureSpecs JobReference BridgeReference.

Section isolation.
Context {B : BridgeExternals} {C : BridgeConfig} {JC : JobConfig} {A : AllowedApps} {F : FixedOps}.

(** The origin of the jobs of a proxy chain *)
Definition of_chain (chain : SubstrateChain) (j : JobId) : Prop :=
  match chain with
  | ChainAlephZero => exists a, j.1 = AlephZero a
  | ChainVara => exists a, j.1 = Vara a
  end.
Definition message_job (m : JobMessage) : JobId :=
  match m with RegisterFor j _ _ | DeregisterFor j | SetEnvironmentFor j _ => j end.

(** Decoded messages name jobs of their chain. *)
Lemma decoded_of_chain chain m : decoded_message chain m -> of_chain chain (message_job m).
Proof.
  intros (payload & action & Hd & Hm). unfold decode_message, ok_or_else, convert_account_id in Hd.
  destruct (decode_outgoing payload) as [o|]; [|done]. simpl in Hd.
  destruct (parse_account_id (oa_origin o)) as [acc|]; [|done]. simpl in Hd.
  destruct (oa_payload o); simpl in Hd.
  - destruct (decode_registration _); [|done..]. simpl in Hd. simplify_eq. simpl in Hm. simplify_eq.
    destruct chain; simpl; eauto.
  - simplify_eq. simpl in Hm. simplify_eq. destruct chain; simpl; eauto.
  - by simplify_eq.
  - destruct (collect_results _ _); [|done..]. simpl in Hd. simplify_eq. simpl in Hm. simplify_eq.
    destruct chain; simpl; eauto.
  - by simplify_eq.
Qed.

(** A message changes the registration of the job it names at most. *)
Lemma message_registration m (w w' : World) u j :
  run_message m w = (Ok u, w') ->
  w'.(stored_job_registration) !! j <> w.(stored_job_registration) !! j -> j = message_job m.
Proof.
  intros Hm Hj. destruct (decide (j = message_job m)) as [|Hne]; [done|]. exfalso. apply Hj.
  destruct m as [k r l|k|k l]; simpl in *.
  - apply register_for_registers in Hm as [-> _]. by rewrite lookup_insert_ne.
  - apply deregister_for_removes in Hm as [-> _]. by rewrite lookup_delete_ne.
  - apply regview_eq in Hm as [-> _]; [done|apply rv_set_environment_for].
Qed.

Lemma execute_decoded_registration payload chain (w w' : World) u j :
  execute_decoded payload chain w = (Ok u, w') ->
  w'.(stored_job_registration) !! j <> w.(stored_job_registration) !! j -> of_chain chain j.
Proof.
  unfold execute_decoded. intros Hm Hj.
  destruct (decode_message payload chain) as [action|e|] eqn:Hd; [|by apply throw_ok in Hm|done].
  simpl in Hm. unfold execute_parsed in Hm.
  destruct (job_message_of action) as [m|] eqn:Ha; [|by apply ret_ok in Hm as [_ <-]].
  unfold on_jobs in Hm. destruct (run_message m w) as [[v|e|] w1] eqn:Hr; simplify_eq.
  rewrite (message_registration _ _ _ _ _ Hr Hj). apply decoded_of_chain. by exists payload, action.
Qed.

(** The storage of the jobs is out of reach of the other parts of the bridge. *)
Lemma on_bridge_registration {T} (m : MB T) (w w' : World) r :
  on_bridge m w = (r, w') -> w'.(stored_job_registration) = w.(stored_job_registration).
Proof. unfold on_bridge, zoom. destruct (m _). intros [= _ <-]. done. Qed.

Lemma on_bridge_gets_ok {T} (g : BridgeState -> T) a (w w' : World) :
  on_bridge (gets g) w = (Ok a, w') -> g w.(jext) = a /\ w = w'.
Proof. unfold on_bridge, zoom, gets. simpl. intros [= <- <-]. split; [done|by destruct w]. Qed.

Lemma route_registration msg (w w' : World) j :
  route_message msg w = (Ok tt, w') ->
  w'.(stored_job_registration) !! j <> w.(stored_job_registration) !! j ->
  msg.(mb_recipient) = SAcurast (Extrinsic AcurastPalletAccount) /\
  ((msg.(mb_sender) = SAlephZero (Contract w.(jext).(aleph_zero_contract)) /\ of_chain ChainAlephZero j)
   \/ (msg.(mb_sender) = SVara (Contract (mkContractCall w.(jext).(vara_contract) None)) /\
       of_chain ChainVara j)).
Proof.
  intros Hm Hj. unfold route_message in Hm. case_bool_decide as Hrec.
  - split; [done|]. unfold process_proxy_message in Hm.
    destruct (mb_sender msg) as [l|[|c]|[|c]|l|l|l]; try by apply throw_ok in Hm.
    all: apply bind_ok in Hm as (known & w1 & [<- <-]%on_bridge_gets_ok & Hm).
    all: apply bind_ok in Hm as ([] & w1 & [->%bool_decide_eq_true <-]%ensure_ok & Hm).
    + left. split; [done|]. by eapply execute_decoded_registration.
    + right. split; [done|]. by eapply execute_decoded_registration.
  - exfalso. repeat case_bool_decide.
    1,2: by apply on_bridge_registration in Hm as Hm; rewrite Hm in Hj.
    by apply ret_ok in Hm as [_ <-].
Qed.
End isolation.

(** C7: Another chain cannot touch the jobs of this chain, or of a third one.  When
    a call of the bridge adds, changes or removes the registration of a job, it is
    the receipt of a message for the proxy pallet, sent by the contract that is
    registered for a chain, and the job belongs to that chain; and enough different
    oracles, each registered and in its activity window, have signed this very message,
    by signatures of the call that verify. *)
Theorem only_own_jobs_of_a_chain {B : BridgeExternals} {C : BridgeConfig} {JC : JobConfig}
  {A : AllowedApps} {F : FixedOps} (o : RuntimeOrigin) (c : BridgeCall) (w : World) (j : JobId) :
  (exec (dispatch_bridge o c) w).(stored_job_registration) !! j
    <> w.(stored_job_registration) !! j ->
  exists sd n p rl l,
    let proxy := SAcurast (Extrinsic AcurastPalletAccount) in
    c = ReceiveMessage sd n proxy p rl l /\
    oracles_signed w.(jext) (mkMessage (message_id_of sd n) sd n proxy p) None l
      MinReceiptConfirmationSignatures /\
    ((sd = SAlephZero (Contract w.(jext).(aleph_zero_contract)) /\ exists a, j.1 = AlephZero a) \/
     (sd = SVara (Contract (mkContractCall w.(jext).(vara_contract) None)) /\
      exists a, j.1 = Vara a)).
Proof.
  intros Hj. unfold exec in Hj.
  destruct (dispatch_bridge o c w) as [r w'] eqn:Hm. simpl in Hj.
  assert (forall o c, run_bridge_call o c = on_bridge (run_local_call o c) ->
            dispatch_bridge o c w = (r, w') -> False) as Hlocal.
  { intros o' c' E Hm'. unfold dispatch_bridge, with_transaction in Hm'. rewrite E in Hm'.
    destruct (on_bridge _ w) as [r1 w1] eqn:E1. apply on_bridge_registration in E1.
    destruct r1; simplify_eq; congruence. }
  destruct c as [| | | |sd n rc p rl l| | | | | | | | | |]; try by eapply Hlocal in Hm.
  apply receive_cases in Hm as [->|(m & b & e & Ha & Hp)]; [done|].
  apply accept_ok in Ha as (_ & Haz & Hva & _ & _ & _ & _ & Hsig).
  destruct Hp as [->|(w1 & Hp & ->)]; [done|]. unfold log_bridge in Hj. simpl in Hj.
  apply (route_registration _ _ _ j) in Hp as [Hrec Hp]; [|done]. simpl in Hrec, Hp.
  rewrite Haz, Hva in Hp. subst rc. exists sd, n, p, rl, l. split; [done|]. split; [|done].
  by eapply check_signatures_signed.
Qed.

Lemma only_own_jobs_of_a_chain_witness :
  (exec (dispatch_bridge (Signed 8) b_register) b_sent).(stored_job_registration) !! b_job
    <> b_sent.(stored_job_registration) !! b_job /\
  exists sd n p rl l, let proxy := SAcurast (Extrinsic 1000) in
    b_register = ReceiveMessage sd n proxy p rl l /\
    oracles_signed b_sent.(jext) (mkMessage (message_id_of sd n) sd n proxy p) None l 3.
Proof.
  assert (bool_decide (is_Some
    ((exec (dispatch_bridge (Signed 8) b_register) b_sent).(stored_job_registration) !! b_job)) = true)
    as H1 by by_compute.
  apply bool_decide_eq_true in H1 as [r Hr].
  assert (b_sent.(stored_job_registration) !! b_job = None) as H2 by by_compute.
  assert ((exec (dispatch_bridge (Signed 8) b_register) b_sent).(stored_job_registration) !! b_job
    <> b_sent.(stored_job_registration) !! b_job) as Hne by (rewrite Hr, H2; discriminate).
  split; [exact Hne|]. clear Hr H2.
  destruct (only_own_jobs_of_a_chain (Signed 8) b_register b_sent b_job Hne)
    as (sd & n & p & rl & l & Hc & Hs & _). exists sd, n, p, rl, l. split; [exact Hc|exact Hs].
Defined.
