(* ===== verification/WorldSolvency.v ===== *)
(** The job pallets on top of the bridge: the currency of the bridge satisfies what
    the solvency of the job pallets assumes, and the account of the marketplace
    covers its budgets in the composed system. *)
From S2P Require Import Prelude Schedules JobTypes Reputation Attestations Jobs Payments.
From S2P Require Import Marketplace JobFrames JobInvariant JobSolvency WorldSteps BridgeTypes Ibc.
From S2P Require Import HyperdriveToken Hyperdrive Bridge MarketSpecs JobReference BridgeReference.

(** What is assumed of the currency: transfers and withdrawals change exactly the
    balances they name, and nothing but an operation that names an account takes
    from it. *)
Record bridge_currency_laws {B : BridgeExternals} (bal : BExt -> AccountId -> Balance) : Prop := {
  bc_transfer from to n x x' who :
    0 <= n -> bx_transfer from to n x = Some x' ->
    bal x' who = bal x who - (if bool_decide (who = from) then n else 0)
                           + (if bool_decide (who = to) then n else 0);
  bc_withdraw from n x c x' who :
    0 <= n -> bx_withdraw from n x = Some (c, x') ->
    bal x' who = bal x who - (if bool_decide (who = from) then n else 0);
  bc_transfer_other from to n x x' who :
    who <> from -> bx_transfer from to n x = Some x' -> bal x who <= bal x' who;
  bc_protect_other from to n x x' who :
    who <> from -> bx_transfer_protect from to n x = Some x' -> bal x who <= bal x' who;
  bc_hold_other a n x x' who : who <> a -> bx_hold a n x = Some x' -> bal x who <= bal x' who;
  bc_release e a n x x' who : bx_release e a n x = Some x' -> bal x who <= bal x' who;
  bc_on_hold from to n x x' who : bx_transfer_on_hold from to n x = Some x' -> bal x who <= bal x' who;
  bc_unbalanced c x who : bal x who <= bal (bx_on_unbalanced c x) who;
}.

(** The accounts of the pallets are different, and the pallet of token conversions
    does not take from the account of the marketplace. *)
Record bridge_accounts_ok {B : BridgeExternals} {C : BridgeConfig} {JC : JobConfig}
  (bal : BExt -> AccountId -> Balance) : Prop := {
  ba_ibc : pallet_account <> HyperdriveIbcFeePalletAccount;
  ba_vault : pallet_account <> EthereumVault;
  ba_fee_vault : pallet_account <> EthereumFeeVault;
  ba_operational : pallet_account <> OperationalFeeAccount;
  ba_conversion m x x' :
    token_conversion_process m x = Some x' -> bal x pallet_account <= bal x' pallet_account;
}.

(** The numbers that the SCALE codec decodes fit their types. *)
Definition codec_typed {B : BridgeExternals} : Prop :=
  forall l p, scale_decode_payload_v1 l = Some (RegisterJobV1 p) ->
    let j := p.(v1_job_registration) in
    0 <= j.(v1_schedule).(v1_start_time) /\ j.(v1_schedule).(v1_end_time) <= u64_max /\
    j.(v1_schedule).(v1_interval) <= u64_max /\ 0 <= j.(v1_schedule).(v1_max_start_delay) /\
    0 <= j.(v1_extra).(v1_reward) <= u128_max.

Section solvency.
Context {B : BridgeExternals} {C : BridgeConfig} {JC : JobConfig} {A : AllowedApps}.
Context {F : FixedOps} {FL : FixedLaws F}.
Context (bal : BExt -> AccountId -> Balance) (laws : bridge_currency_laws bal).
Context (accounts : bridge_accounts_ok bal) (cfg : config_ok JC) (typed : codec_typed).

Definition world_bal (s : BridgeState) : AccountId -> Balance := bal s.(bext).

(** The marketplace has at least [n]. *)
Notation at_least := (fun (n : Balance) (s : BridgeState) => n <= bal s.(bext) pallet_account).

Lemma not_ibc : pallet_account <> HyperdriveIbcFeePalletAccount.
Proof. apply (ba_ibc _ accounts). Qed.
Lemma not_vault : pallet_account <> EthereumVault.
Proof. apply (ba_vault _ accounts). Qed.
Lemma not_fee_vault : pallet_account <> EthereumFeeVault.
Proof. apply (ba_fee_vault _ accounts). Qed.
Lemma not_operational : pallet_account <> OperationalFeeAccount.
Proof. apply (ba_operational _ accounts). Qed.

Section at_least.
Context (n : Balance).
Notation I := (at_least n).

Lemma kept_bal_currency f e :
  (forall x x', f x = Some x' -> bal x pallet_account <= bal x' pallet_account) ->
  kept I (currency f e).
Proof. intros Hf. apply kept_currency. intros s x Hs Hx. simpl. specialize (Hf _ _ Hx). lia. Qed.
Lemma kept_bal_transfer from to k e :
  pallet_account <> from -> kept I (currency (bx_transfer from to k) e).
Proof. intros Hne. apply kept_bal_currency. intros x x'. by apply bc_transfer_other. Qed.
Lemma kept_bal_protect from to k e :
  pallet_account <> from -> kept I (currency (bx_transfer_protect from to k) e).
Proof. intros Hne. apply kept_bal_currency. intros x x'. by apply bc_protect_other. Qed.
Lemma kept_bal_hold a k e : pallet_account <> a -> kept I (currency (bx_hold a k) e).
Proof. intros Hne. apply kept_bal_currency. intros x x'. by apply bc_hold_other. Qed.
Lemma kept_bal_release b a k e : kept I (currency (bx_release b a k) e).
Proof. apply kept_bal_currency. intros x x'. by apply bc_release. Qed.
Lemma kept_bal_on_hold f t k e : kept I (currency (bx_transfer_on_hold f t k) e).
Proof. apply kept_bal_currency. intros x x'. by apply bc_on_hold. Qed.
Lemma kept_bal_conversion m e : kept I (currency (token_conversion_process m) e).
Proof. apply kept_bal_currency. intros x x'. by apply ba_conversion. Qed.
Local Hint Resolve kept_bal_transfer kept_bal_protect kept_bal_hold kept_bal_release
  kept_bal_on_hold kept_bal_conversion not_ibc not_vault not_fee_vault not_operational : kept.

Lemma kept_bal_send sender payer nonce recipient payload ttl fee :
  pallet_account <> payer ->
  kept I (send_message sender payer nonce recipient payload ttl fee).
Proof.
  intros Hne. change (kept I (do_send_message sender payer nonce recipient payload ttl fee)).
  solve_kept.
Qed.
Local Hint Resolve kept_bal_send : kept.

Lemma proxy_params_fee_vault p s a s' :
  proxy_params p s = (Ok a, s') -> a.2 = EthereumFeeVault.
Proof.
  unfold proxy_params. destruct p; try by intros []%throw_ok.
  intros (c & s1 & _ & (k & s2 & _ & [<- _]%ret_ok)%bind_ok)%bind_ok. done.
Qed.
Lemma signer_ok o s a s' :
  origin_ok o -> ensure_signed_by o s = (Ok a, s') -> pallet_account <> a.
Proof.
  intros Ho. destruct o; simpl; [|by intros []%throw_ok]. intros [<- _]%ret_ok Heq. apply Ho. by rewrite Heq.
Qed.

Lemma kept_bal_transfer_nonzero from to k e :
  pallet_account <> from -> kept I (transfer_nonzero from to k e).
Proof. intros Hne. unfold transfer_nonzero. solve_kept. Qed.
Local Hint Resolve kept_bal_transfer_nonzero : kept.

Lemma kept_bal_do_transfer source dest amount fee nonce :
  pallet_account <> source -> kept I (do_transfer_native source dest amount fee nonce).
Proof.
  intros Hs. unfold do_transfer_native. apply kept_bind; [solve_kept|intros _]. cbv zeta.
  apply (kept_bind_res _ (fun a => a.2 = EthereumFeeVault));
    [solve_kept|apply proxy_params_fee_vault|intros [rv fv] Hfv].
  simpl in Hfv. subst fv. unfold refund_replaced. solve_kept.
Qed.
Lemma kept_bal_do_enable source p on fee :
  pallet_account <> source -> kept I (do_enable source p on fee).
Proof.
  intros Hs. unfold do_enable.
  apply (kept_bind_res _ (fun a => a.2 = EthereumFeeVault));
    [solve_kept|apply proxy_params_fee_vault|intros [rv fv] Hfv].
  simpl in Hfv. subst fv. unfold refund_replaced. solve_kept.
Qed.
Local Hint Resolve kept_bal_do_transfer kept_bal_do_enable : kept.

Lemma kept_bal_local o c : origin_ok o -> kept I (run_local_call o c).
Proof.
  intros Ho. destruct c; simpl; try solve [solve_kept].
  - unfold send_test_message. apply (kept_bind_res _ (fun a => pallet_account <> a));
      [solve_kept|intros s a s'; by apply signer_ok|intros who Hw]. solve_kept.
  - unfold transfer_native. apply kept_bind; [solve_kept|intros _].
    apply (kept_bind_res _ (fun a => pallet_account <> a));
      [solve_kept|intros s a s'; by apply signer_ok|intros who Hw]. solve_kept.
  - unfold retry_transfer_native. apply kept_bind; [solve_kept|intros _].
    apply (kept_bind_res _ (fun a => pallet_account <> a));
      [solve_kept|intros s a s'; by apply signer_ok|intros who Hw]. solve_kept.
Qed.
Lemma kept_bal_accept o sd k r p rl l : kept I (accept_message o sd k r p rl l).
Proof. solve_kept. Qed.
Lemma kept_bal_token m : kept I (process_token_message m).
Proof. solve_kept. Qed.
Lemma kept_bal_hooks j k r : kept I (assign_job j k) /\ kept I (finalize_proxy_job j r).
Proof. split; solve_kept. Qed.
End at_least.

(** The interface of the job pallets, discharged *)
Lemma bridge_market_laws : currency_laws (X := bridge_market) world_bal.
Proof.
  split; unfold world_bal; simpl.
  - intros from to n x x' who Hn (y & Hy & ->)%lift_ext_view. simpl. by apply bc_transfer.
  - intros from n x c x' who Hn Hw. destruct (bx_withdraw from n (bext x)) as [[c' y]|] eqn:E; [|done].
    simpl in Hw. injection Hw as <- <-. simpl. by eapply bc_withdraw.
  - intros c x. by apply bc_unbalanced.
  - intros j k x x' Hx. 
    apply (success_kept (at_least (bal (bext x) pallet_account)) _ _ _
             (proj1 (kept_bal_hooks _ j k 0)) Hx). simpl. lia.
  - intros j n x x' Hx. 
    apply (success_kept (at_least (bal (bext x) pallet_account)) _ _ _
             (proj2 (kept_bal_hooks _ j [] n)) Hx). simpl. lia.
Qed.

(** Decoded registrations fit their types. *)
Lemma decoded_typed chain m : decoded_message chain m -> message_typed m /\ payer_ok m.
Proof.
  intros (payload & action & Hd & Hm). unfold decode_message, ok_or_else, convert_account_id in Hd.
  destruct (decode_outgoing payload) as [o|] eqn:Ho; [|done]. simpl in Hd.
  destruct (parse_account_id (oa_origin o)) as [acc|]; [|done]. simpl in Hd.
  destruct (oa_payload o) as [p|k|l|p|] eqn:Hp; simpl in Hd.
  - destruct (decode_registration _) as [r|e|] eqn:Hr; [|done..]. simpl in Hd. simplify_eq.
    simpl in Hm. simplify_eq. simpl. split; [|by destruct chain].
    assert (exists l, scale_decode_payload_v1 l = Some (RegisterJobV1 p)) as [l Hl].
    { unfold decode_outgoing in Ho. destruct (scale_decode_raw_outgoing payload) as [raw|]; [|done].
      simpl in Ho. case_match; [|done].
      destruct (scale_decode_payload_v1 _) as [q|] eqn:Hq; [|done]. simpl in Ho. simplify_eq.
      simpl in Hp. simplify_eq. by eexists. }
    destruct (typed _ _ Hl) as (H1 & H2 & H3 & H4 & H5).
    unfold decode_registration in Hr.
    destruct (decode_strategy _); [|done..]. simpl in Hr.
    destruct (decode_sources _); [|done..]. simpl in Hr.
    destruct (decode_modules _); [|done..]. simpl in Hr. simplify_eq. by split.
  - simplify_eq. simpl in Hm. by simplify_eq.
  - by simplify_eq.
  - destruct (collect_results _ _); [|done..]. simpl in Hd. simplify_eq. simpl in Hm. by simplify_eq.
  - by simplify_eq.
Qed.

(** * The invariant of the composed system *)
Definition world_ok (w : World) : Prop := jobs_inv None w /\ covered (X := bridge_market) world_bal w.

Lemma world_ok_bridge (b : BridgeState) (w : World) :
  bal w.(jext).(bext) pallet_account <= bal b.(bext) pallet_account ->
  world_ok w -> world_ok (set_jext (X := bridge_market) b w).
Proof.
  intros Hb [Hi [Ht Hr]]. split; [by apply (jobs_inv_view None w)|].
  split; [|done]. unfold budgets_total, world_bal in *. simpl in *. lia.
Qed.
Lemma kept_world_bridge {T} (m : MB T) : (forall n, kept (at_least n) m) -> kept world_ok (on_bridge m).
Proof.
  intros Hm w a w' Hw Hr. unfold on_bridge, zoom in Hr. simpl in Hr.
  destruct (m (jext w)) as [r b] eqn:E1. simplify_eq. apply world_ok_bridge; [|done].
  eapply (Hm (bal (bext (jext w)) pallet_account)); [|exact E1]. simpl. lia.
Qed.

Lemma world_ok_kept : world_kept (fun o _ => origin_ok o) world_ok.
Proof.
  split.
  - intros o c Ho. apply kept_world_bridge. intros k. by apply kept_bal_local.
  - intros. apply kept_world_bridge. intros k. apply kept_bal_accept.
  - intros m. apply kept_world_bridge. intros k. apply kept_bal_token.
  - intros m. apply kept_world_bridge. intros k. apply kept_bal_conversion.
  - intros chain m [Ht Hp]%decoded_typed w u w' [Hi Hc] Hm. split.
    + exact (run_message_inv (co_min_price _ cfg) _ _ _ _ Ht Hi Hm).
    + exact (run_message_covered (X := bridge_market) world_bal bridge_market_laws cfg _ _ _ _ Ht Hp Hi Hc Hm).
  - intros e. apply kept_world_bridge. intros k. by apply kept_modify.
  - intros T g. apply kept_world_bridge. intros k. apply kept_gets.
Qed.

(** A step of the chain, of accounts that people have the keys of *)
Inductive solvent_world_step : World -> World -> Prop :=
| sw_job o c (w : World) : call_typed c -> origin_ok o -> solvent_world_step w (exec (Marketplace.dispatch o c) w)
| sw_bridge o c (w : World) : origin_ok o -> solvent_world_step w (exec (dispatch_bridge o c) w)
| sw_block (w : World) :
    solvent_world_step w (set_jext (X := bridge_market)
      (set_block_number (w.(jext).(block_number) + 1) w.(jext)) w)
| sw_outside x att (w : World) :
    bal w.(jext).(bext) pallet_account <= bal x pallet_account ->
    solvent_world_step w (set_jext (X := bridge_market) (set_bext x w.(jext))
      (set_stored_attestation att w)).

Lemma world_ok_step w w' : solvent_world_step w w' -> world_ok w -> world_ok w'.
Proof.
  intros [o c t Ht Ho|o c t Ho|t|x att t Hx] Hw.
  - apply (solvent_step_inv (X := bridge_market) world_bal bridge_market_laws cfg t); [by constructor|exact Hw].
  - by apply (bridge_call_kept _ _ world_ok_kept).
  - by apply world_ok_bridge.
  - apply (world_ok_bridge (set_bext x (jext t)) (set_stored_attestation att t)); [done|].
    destruct Hw as [Hi Hc]. split; [by apply (jobs_inv_view None t)|by apply (covered_view _ t)].
Qed.
Lemma world_ok_reach w w' : rtc solvent_world_step w w' -> world_ok w -> world_ok w'.
Proof. induction 1; eauto using world_ok_step. Qed.
Lemma world_ok_genesis x :
  0 <= bal x pallet_account -> world_ok (genesis (X := bridge_market) (bridge_genesis x)).
Proof. intros Hx. split; [apply jobs_inv_genesis|by apply covered_genesis]. Qed.
End solvency.

(** C5: The composition of the job pallets with the bridge is safe: with the bridge
    as the implementation of the hooks, and with jobs that arrive in messages from
    other chains, the account of the marketplace covers the budgets of all jobs, and
    the tables of the marketplace agree, in every state of the chain.  The currency
    of the bridge implements what the job pallets assume of theirs. *)
Theorem bridged_jobs_are_covered {B : BridgeExternals} {C : BridgeConfig} {JC : JobConfig}
  {A : AllowedApps} {F : FixedOps} {FL : FixedLaws F} (bal : BExt -> AccountId -> Balance)
  (x : BExt) (w : World) :
  bridge_currency_laws bal -> bridge_accounts_ok bal -> config_ok JC -> codec_typed ->
  0 <= bal x pallet_account ->
  rtc (solvent_world_step bal) (genesis (X := bridge_market) (bridge_genesis x)) w ->
  budgets_total w <= bal w.(jext).(bext) pallet_account /\ jobs_inv None w /\
  currency_laws (X := bridge_market) (fun s => bal s.(bext)).
Proof.
  intros Hl Ha Hc Ht Hx Hr.
  destruct (world_ok_reach bal Hl Ha Hc Ht _ _ Hr) as [Hi [Hb _]]; [by apply world_ok_genesis|].
  split; [exact Hb|]. split; [exact Hi|]. exact (bridge_market_laws bal Hl Ha).
Qed.

(** ** At the run of [BridgeReference.v] *)
Lemma be_balance_set who n x a : be_balance (be_set who n x) a = if bool_decide (a = who) then n else be_balance x a.
Proof.
  unfold be_balance, be_set. simpl. case_bool_decide as Ha.
  - subst. by rewrite lookup_insert_eq.
  - by rewrite lookup_insert_ne.
Qed.
Lemma be_withdraw_some from n x y :
  be_withdraw from n x = Some y -> 0 <= n /\ y = be_set from (be_balance x from - n) x.
Proof.
  unfold be_withdraw. destruct (Z.leb_spec 0 n); [|done]. destruct (n <=? _); [|done].
  simpl. by intros [= <-].
Qed.
Lemma be_transfer_balance from to n x x' who :
  be_transfer from to n x = Some x' ->
  0 <= n /\ be_balance x' who = be_balance x who - (if bool_decide (who = from) then n else 0)
                                                 + (if bool_decide (who = to) then n else 0).
Proof.
  unfold be_transfer. destruct (be_withdraw from n x) as [y|] eqn:E; [|done].
  apply be_withdraw_some in E as [Hn ->]. simpl. intros [= <-]. split; [done|].
  rewrite !be_balance_set. repeat case_bool_decide; subst; try done; lia.
Qed.
Lemma be_unhold_balance from to n x x' who :
  be_unhold from to n x = Some x' -> be_balance x who <= be_balance x' who.
Proof.
  unfold be_unhold. destruct (Z.leb_spec 0 n); [|done]. destruct (n <=? _); [|done].
  simpl. intros [= <-]. rewrite be_balance_set. case_bool_decide; subst; [lia|]. unfold be_balance. simpl. lia.
Qed.

Lemma reference_bridge_laws : bridge_currency_laws (B := reference_bridge) be_balance.
Proof.
  split; simpl.
  - intros from to n x x' who _ Ht. by apply be_transfer_balance.
  - intros from n x c x' who _ Hw. destruct (be_withdraw from n x) as [y|] eqn:E; [|done].
    simpl in Hw. injection Hw as <- <-. apply be_withdraw_some in E as [_ ->].
    rewrite be_balance_set. case_bool_decide; subst; lia.
  - intros from to n x x' who Hne Ht. destruct (be_transfer_balance _ _ _ _ _ who Ht) as [Hn ->].
    rewrite bool_decide_eq_false_2 by done. case_bool_decide; lia.
  - intros from to n x x' who Hne Ht. destruct (be_transfer_balance _ _ _ _ _ who Ht) as [Hn ->].
    rewrite bool_decide_eq_false_2 by done. case_bool_decide; lia.
  - intros a n x x' who Hne Hh. unfold be_hold in Hh. destruct (be_withdraw a n x) as [y|] eqn:E; [|done].
    simpl in Hh. injection Hh as <-. apply be_withdraw_some in E as [_ ->].
    change (be_balance x who <= be_balance (be_set a (be_balance x a - n) x) who).
    rewrite be_balance_set, bool_decide_eq_false_2 by done. lia.
  - intros e a n x x' who. apply be_unhold_balance.
  - intros from to n x x' who. apply be_unhold_balance.
  - intros c x who. lia.
Qed.
Lemma reference_accounts : bridge_accounts_ok (B := reference_bridge) (JC := market_constants) be_balance.
Proof. split; try done. simpl. intros m x x' [= <-]. lia. Qed.

(** The decoder yields numbers of their width. *)
Lemma p_bind_some {A B} (p : Parser A) (f : A -> Parser B) l b l' :
  p_bind p f l = Some (b, l') -> exists a l1, p l = Some (a, l1) /\ f a l1 = Some (b, l').
Proof. unfold p_bind. destruct (p l) as [[a l1]|]; [|done]. simpl. eauto. Qed.
Lemma p_map_some {A B} (f : A -> B) (p : Parser A) l b l' :
  p_map f p l = Some (b, l') -> exists a, p l = Some (a, l') /\ b = f a.
Proof. intros (a & l1 & Ha & [= <- <-])%p_bind_some. eauto. Qed.
Lemma p_byte_range l b l' : p_byte l = Some (b, l') -> 0 <= b < 256.
Proof.
  destruct l as [|c l]; [done|]. simpl. destruct (Z.leb_spec 0 c), (Z.ltb_spec c 256); simpl; try done.
  intros [= <- <-]. lia.
Qed.
Lemma p_uint_range w l n l' : p_uint w l = Some (n, l') -> 0 <= n < 256 ^ Z.of_nat w.
Proof.
  revert l n. induction w as [|w IH]; intros l n; [by intros [= <- <-]|].
  intros (b & l1 & Hb & (m & Hm & ->)%p_map_some)%p_bind_some.
  apply p_byte_range in Hb. apply IH in Hm. rewrite Nat2Z.inj_succ, Z.pow_succ_r by lia. lia.
Qed.
Lemma p_schedule_range l s l' :
  p_schedule l = Some (s, l') ->
  0 <= s.(v1_start_time) /\ s.(v1_end_time) <= u64_max /\ s.(v1_interval) <= u64_max /\
  0 <= s.(v1_max_start_delay).
Proof.
  intros (d & l1 & _ & (st & l2 & H1 & (e & l3 & H2 & (i & l4 & H3 & (m & H4 & ->)%p_map_some)%p_bind_some)%p_bind_some)%p_bind_some)%p_bind_some.
  apply p_uint_range in H1, H2, H3, H4. unfold u64_max. simpl in *. lia.
Qed.
Lemma p_requirements_range l r l' : p_requirements l = Some (r, l') -> 0 <= r.(v1_reward) <= u128_max.
Proof.
  intros (st & l1 & _ & (sl & l2 & _ & (rw & l3 & H1 & (m & _ & ->)%p_map_some)%p_bind_some)%p_bind_some)%p_bind_some.
  apply p_uint_range in H1. unfold u128_max. simpl in *. lia.
Qed.
Lemma reference_codec_typed : codec_typed (B := reference_bridge).
Proof.
  intros l p Hl. simpl in Hl. destruct (p_payload l) as [[q l']|] eqn:E; [|done].
  simpl in Hl. injection Hl as ->. unfold p_payload in E.
  apply p_bind_some in E as (b & l1 & _ & E).
  repeat case_match; simplify_eq; try done.
  all: try (apply p_map_some in E as (? & _ & ?); done).
  all: try (do 2 apply p_bind_some in E as (? & ? & _ & E); apply p_map_some in E as (? & _ & ?); done).
  apply p_bind_some in E as (id & l2 & _ & E). apply p_map_some in E as (r & Hr & [= ->]).
  unfold p_registration in Hr. do 3 apply p_bind_some in Hr as (? & ? & _ & Hr).
  apply p_bind_some in Hr as (sch & l3 & Hs & Hr). do 4 apply p_bind_some in Hr as (? & ? & _ & Hr).
  apply p_map_some in Hr as (rq & Hq & ->). apply p_schedule_range in Hs. apply p_requirements_range in Hq.
  simpl. naive_solver.
Qed.

Lemma solvent_act o c (w : RWorld) :
  origin_ok (C := market_constants) o -> solvent_world_step (JC := market_constants) be_balance w (act o c w).
Proof. apply sw_bridge. Qed.
Lemma reach_registered :
  rtc (solvent_world_step (JC := market_constants) be_balance) b_genesis b_registered.
Proof.
  unfold b_registered, b_sent, b_enabled, b_oracles.
  repeat (eapply rtc_r; [|by apply solvent_act]). done.
Qed.

Lemma bridged_jobs_are_covered_witness :
  budgets_total b_registered <= be_balance b_registered.(jext).(bext) 1000 /\
  budgets_total b_registered = 15.
Proof.
  assert (0 <= be_balance b_ext 1000) as Hx by by_compute.
  split; [|by_compute].
  exact (proj1 (bridged_jobs_are_covered be_balance b_ext b_registered reference_bridge_laws
    reference_accounts market_constants_ok reference_codec_typed Hx reach_registered)).
Defined.
