(* ===== verification/Balances.v ===== *)
(** What the pallets of FRAME offer to the pallets of the chain: the currency with
    its locks, holds and imbalances ([pallet_balances]), the register of unique
    items ([pallet_uniques]), the accounts and nonces of [frame_system], the clock
    and the author of the block.

    [Balances] is a class over the state [Bal] of whatever carries all this, so that
    a pallet is defined, and verified, over any such state.  [lift_balances] carries
    an instance over to a larger state, as [ManagerSpecs.v] does. *)
From S2P Require Import Prelude JobTypes.

Notation BlockNumber := Z (only parsing).
Notation CollectionId := Z (only parsing).
Notation ItemId := Z (only parsing).

(** [HoldReason] of the pallets that put funds on hold *)
Inductive HoldReason :=
| OutgoingMessageFee
| ConversionHold
| OnboardingHold.
#[export] Instance HoldReason_eq_dec : EqDecision HoldReason.
Proof. solve_decision. Defined.
#[export] Instance HoldReason_countable : Countable HoldReason.
Proof.
  refine (inj_countable'
    (fun r => match r with OutgoingMessageFee => 0 | ConversionHold => 1 | OnboardingHold => 2 end)
    (fun i => match i with 0 => OutgoingMessageFee | 1 => ConversionHold | _ => OnboardingHold end) _).
  by intros [].
Defined.

(** [frame_support::traits::tokens] *)
Inductive Preservation := Expendable | Protect | Preserve.
Inductive Precision := Exact | BestEffort.
Inductive Fortitude := Polite | Force.

(** [frame_system::AccountInfo] without the balances *)
Record AccountInfo := mkAccountInfo {
  ai_nonce : Z;
  ai_providers : Z;
  ai_sufficients : Z;
}.

Class Balances := {
  Bal : Type;
  (** [Inspect], [InspectHold] and [Currency] *)
  b_total_issuance : Bal -> Balance;
  b_minimum_balance : Balance;
  b_total_balance : Bal -> AccountId -> Balance;
  b_balance : Bal -> AccountId -> Balance;
  b_reducible_balance : Preservation -> Fortitude -> Bal -> AccountId -> Balance;
  b_on_hold : HoldReason -> Bal -> AccountId -> Balance;
  (** [can_withdraw(who, amount)] is [WithdrawConsequence::Success] *)
  b_can_withdraw : AccountId -> Balance -> Bal -> bool;
  (** the lock of the compute pallet *)
  b_locked : Bal -> AccountId -> Balance;
  b_set_lock : AccountId -> Balance -> Bal -> Bal;
  b_remove_lock : AccountId -> Bal -> Bal;
  (** [Currency::transfer]; the flag is [KeepAlive] *)
  b_currency_transfer : bool -> AccountId -> AccountId -> Balance -> Bal -> option Bal;
  (** [Mutate]: the amounts that were moved, burnt *)
  b_transfer : Preservation -> AccountId -> AccountId -> Balance -> Bal -> option (Balance * Bal);
  b_burn_from : Preservation -> Precision -> Fortitude -> AccountId -> Balance -> Bal ->
    option (Balance * Bal);
  b_mint_into : AccountId -> Balance -> Bal -> option Bal;
  (** [Balanced]: credits, and the debt of a deposit *)
  b_withdraw : Precision -> Preservation -> Fortitude -> AccountId -> Balance -> Bal ->
    option (Balance * Bal);
  b_deposit : Precision -> AccountId -> Balance -> Bal -> option (Balance * Bal);
  b_issue : Balance -> Bal -> Balance * Bal;
  b_resolve : AccountId -> Balance -> Bal -> option Bal;
  b_drop_credit : Balance -> Bal -> Bal;
  (** [MutateHold], [BalancedHold]; [slash] returns the credit and what it could not take *)
  b_hold : HoldReason -> AccountId -> Balance -> Bal -> option Bal;
  b_release : HoldReason -> Precision -> AccountId -> Balance -> Bal -> option Bal;
  b_release_all : HoldReason -> Precision -> AccountId -> Bal -> option Bal;
  b_transfer_on_hold : HoldReason -> AccountId -> AccountId -> Balance -> Bal -> option Bal;
  b_slash_held : HoldReason -> AccountId -> Balance -> Bal -> Balance * Balance * Bal;
  (** [pallet_uniques] *)
  u_collection_owner : CollectionId -> Bal -> option AccountId;
  u_create_collection : CollectionId -> AccountId -> AccountId -> Bal -> option Bal;
  u_do_mint : CollectionId -> ItemId -> AccountId -> Bal -> option Bal;
  u_owned_in_collection : CollectionId -> AccountId -> Bal -> list ItemId;
  u_owner : CollectionId -> ItemId -> Bal -> option AccountId;
  (** [frame_system::Account], the author of the block, the clock in milliseconds *)
  sys_account : Bal -> AccountId -> AccountInfo;
  sys_set_nonce : AccountId -> Z -> Bal -> Bal;
  sys_author : Bal -> option AccountId;
  sys_now_millis : Bal -> Z;
}.

(** * A larger state that holds the balances *)
Section lift.
Context {L : Balances} {T : Type} (get : T -> Bal) (put : Bal -> T -> T).

Definition lift_opt (f : Bal -> option Bal) (t : T) : option T :=
  x ← f (get t); Some (put x t).
Definition lift_val {A} (f : Bal -> option (A * Bal)) (t : T) : option (A * T) :=
  '(a, x) ← f (get t); Some (a, put x t).
Definition lift_fun (f : Bal -> Bal) (t : T) : T := put (f (get t)) t.
Definition lift_pair {A} (f : Bal -> A * Bal) (t : T) : A * T :=
  let '(a, x) := f (get t) in (a, put x t).

Definition lift_balances : Balances := {|
  Bal := T;
  b_total_issuance t := b_total_issuance (get t);
  b_minimum_balance := b_minimum_balance;
  b_total_balance t := b_total_balance (get t);
  b_balance t := b_balance (get t);
  b_reducible_balance p f t := b_reducible_balance p f (get t);
  b_on_hold r t := b_on_hold r (get t);
  b_can_withdraw who n t := b_can_withdraw who n (get t);
  b_locked t := b_locked (get t);
  b_set_lock who n := lift_fun (b_set_lock who n);
  b_remove_lock who := lift_fun (b_remove_lock who);
  b_currency_transfer k from to n := lift_opt (b_currency_transfer k from to n);
  b_transfer p from to n := lift_val (b_transfer p from to n);
  b_burn_from p e f who n := lift_val (b_burn_from p e f who n);
  b_mint_into who n := lift_opt (b_mint_into who n);
  b_withdraw e p f who n := lift_val (b_withdraw e p f who n);
  b_deposit e who n := lift_val (b_deposit e who n);
  b_issue n := lift_pair (b_issue n);
  b_resolve who c := lift_opt (b_resolve who c);
  b_drop_credit c := lift_fun (b_drop_credit c);
  b_hold r who n := lift_opt (b_hold r who n);
  b_release r e who n := lift_opt (b_release r e who n);
  b_release_all r e who := lift_opt (b_release_all r e who);
  b_transfer_on_hold r from to n := lift_opt (b_transfer_on_hold r from to n);
  b_slash_held r who n := lift_pair (b_slash_held r who n);
  u_collection_owner c t := u_collection_owner c (get t);
  u_create_collection c o a := lift_opt (u_create_collection c o a);
  u_do_mint c i o := lift_opt (u_do_mint c i o);
  u_owned_in_collection c o t := u_owned_in_collection c o (get t);
  u_owner c i t := u_owner c i (get t);
  sys_account t := sys_account (get t);
  sys_set_nonce who n := lift_fun (sys_set_nonce who n);
  sys_author t := sys_author (get t);
  sys_now_millis t := sys_now_millis (get t);
|}.
End lift.

(** * Frame's handlers *)

(** [ResolveTo<A, F>]: a credit goes to an account, or is dropped *)
Definition resolve_to {L : Balances} (account : AccountId) (credit : Balance) (x : Bal) : Bal :=
  match b_resolve account credit x with
  | Some x' => x'
  | None => b_drop_credit credit x
  end.

(** [T::Lookup]: an address that names an account, or does not *)
Inductive MultiAddress :=
| AddressId (who : AccountId)
| AddressOther (bytes : list Z).
(** [AccountIdLookup]: only [MultiAddress::Id] is resolved *)
Definition lookup_address (a : MultiAddress) : option AccountId :=
  match a with AddressId who => Some who | AddressOther _ => None end.

(** * SCALE: integers of a fixed width, little endian *)
Fixpoint scale_uint (width : nat) (n : Z) : list Z :=
  match width with
  | O => []
  | S w => n mod 256 :: scale_uint w (n / 256)
  end.

Lemma length_scale_uint w n : length (scale_uint w n) = w.
Proof. revert n. induction w as [|w IH]; intros n; simpl; [done|]. by rewrite IH. Qed.

Lemma scale_uint_inj w n m :
  0 <= n < 256 ^ Z.of_nat w -> 0 <= m < 256 ^ Z.of_nat w ->
  scale_uint w n = scale_uint w m -> n = m.
Proof.
  revert n m. induction w as [|w IH]; intros n m Hn Hm Heq; [simpl in *; lia|].
  rewrite Nat2Z.inj_succ, Z.pow_succ_r in Hn, Hm by lia.
  simplify_eq/=. assert (n / 256 = m / 256) as Hd.
  { apply IH; [..|done]; split; try (apply Z.div_pos; lia); apply Z.div_lt_upper_bound; lia. }
  rewrite (Z.div_mod n 256), (Z.div_mod m 256) by lia. congruence.
Qed.
