(* ===== verification/TokenClaim.v ===== *)
(** Claims of tokens that vest: [pallets/token-claim/src/lib.rs] and [types.rs].

    An account claims, with a proof that the signer of the claims has signed, an
    amount that is paid out block by block from the account of the funder; the
    calls [vest] and [multi_vest] pay what has become due.  Claims of the second
    kind belong to a claim type with a funder and a duration of its own. *)
From S2P Require Import Prelude JobTypes Balances.

Notation Signature := Z (only parsing).
Notation ClaimTypeId := Z (only parsing).

(** * Types *)

(** Verification of signatures, and the 32 bytes of an account *)
Class Signatures := {
  verify : Signature -> list Z -> AccountId -> bool;
  account_encode : AccountId -> list Z;
}.

(** [b"<Bytes>"] and [b"</Bytes>"] *)
Definition BYTES_OPEN : list Z := [60; 66; 121; 116; 101; 115; 62].
Definition BYTES_CLOSE : list Z := [60; 47; 66; 121; 116; 101; 115; 62].

Record ClaimProof := mkClaimProof {
  cp_amount : Balance;
  cp_signature : Signature;
}.

Record ProcesssedClaim := mkProcessedClaim {
  pc_proof : ClaimProof;
  pc_destination : AccountId;
}.

Record ClaimTypeConfig := mkClaimTypeConfig {
  ct_funder : AccountId;
  ct_vesting_duration : BlockNumber;
}.

Record VestingInfo := mkVestingInfo {
  vi_claimer : AccountId;
  vi_per_block : Balance;
  vi_starting_block : BlockNumber;
  vi_latest_vest : BlockNumber;
  vi_remaining : Balance;
}.

Section proofs.
Context {G : Signatures}.

Definition claim_message (account_id : AccountId) (amount : Balance) : list Z :=
  BYTES_OPEN ++ account_encode account_id ++ scale_uint 16 amount ++ BYTES_CLOSE.
Definition validate (self : ClaimProof) (account_id signer : AccountId) : bool :=
  verify self.(cp_signature) (claim_message account_id self.(cp_amount)) signer.

Definition multi_claim_message (account_id : AccountId) (amount : Balance)
  (claim_type_id : ClaimTypeId) : list Z :=
  BYTES_OPEN ++ account_encode account_id ++ scale_uint 16 amount ++
    scale_uint 4 claim_type_id ++ BYTES_CLOSE.
Definition validate_with_claim_type (self : ClaimProof) (account_id signer : AccountId)
  (claim_type_id : ClaimTypeId) : bool :=
  verify self.(cp_signature) (multi_claim_message account_id self.(cp_amount) claim_type_id) signer.
End proofs.

(** [VestingInfo::vestable]; [BlockNumberToBalance] is [ConvertInto] in the runtimes *)
Definition vestable (self : VestingInfo) (block_number : BlockNumber) : Balance :=
  let vested_block_count := saturating_sub block_number self.(vi_latest_vest) in
  let vested := saturating_mul u128_max vested_block_count self.(vi_per_block) in
  if self.(vi_remaining) <? vested then self.(vi_remaining) else vested.

Inductive ClaimError :=
| AlreadyClaimed
| InvalidClaim
| NotVesting
| VestAmountTooLow
| VestingAlreadyExists
| InternalError
| ClaimTypeNotFound
| ClaimBadOrigin
| ClaimLookupError
| ClaimCurrencyError.

Inductive ClaimEvent :=
| ClaimedV2 (claimer destination : AccountId) (amount : Balance)
| Vested (claimer destination : AccountId) (remaining : Balance)
| MultiClaimed (claim_type_id : ClaimTypeId) (claimer destination : AccountId) (amount : Balance)
| MultiVested (claim_type_id : ClaimTypeId) (claimer destination : AccountId) (remaining : Balance)
| ClaimTypeCreated (claim_type_id : ClaimTypeId) (config : ClaimTypeConfig)
| ClaimTypeUpdated (claim_type_id : ClaimTypeId) (config : ClaimTypeConfig)
| ClaimTypeRemoved (claim_type_id : ClaimTypeId).

Class ClaimConfig := {
  Signer : AccountId;
  Funder : AccountId;
  VestingDuration : BlockNumber;
  ClaimUpdateOrigin : RuntimeOrigin -> bool;
}.

Section claims.
Context {L : Balances} {G : Signatures} {C : ClaimConfig}.

(** * The storage *)
Record ClaimState := mkClaimState {
  claimed : gmap AccountId ProcesssedClaim;
  (** by destination and claimer *)
  vesting : gmap (AccountId * AccountId) VestingInfo;
  next_claim_type_id : ClaimTypeId;
  claim_type_configs : gmap ClaimTypeId ClaimTypeConfig;
  (** by type and claimer *)
  multi_claimed : gmap (ClaimTypeId * AccountId) ProcesssedClaim;
  (** by type, destination and claimer *)
  multi_vesting : gmap (ClaimTypeId * AccountId * AccountId) VestingInfo;
  (** the block number, the events and the state of the pallets that are called *)
  cl_block : BlockNumber;
  claim_events : list ClaimEvent;
  cl_ext : Bal;
}.
Definition set_claimed (v : gmap AccountId ProcesssedClaim) (x : ClaimState) : ClaimState :=
  mkClaimState v x.(vesting) x.(next_claim_type_id) x.(claim_type_configs) x.(multi_claimed) x.(multi_vesting) x.(cl_block) x.(claim_events) x.(cl_ext).
Definition set_vesting (v : gmap (AccountId * AccountId) VestingInfo) (x : ClaimState) : ClaimState :=
  mkClaimState x.(claimed) v x.(next_claim_type_id) x.(claim_type_configs) x.(multi_claimed) x.(multi_vesting) x.(cl_block) x.(claim_events) x.(cl_ext).
Definition set_next_claim_type_id (v : ClaimTypeId) (x : ClaimState) : ClaimState :=
  mkClaimState x.(claimed) x.(vesting) v x.(claim_type_configs) x.(multi_claimed) x.(multi_vesting) x.(cl_block) x.(claim_events) x.(cl_ext).
Definition set_claim_type_configs (v : gmap ClaimTypeId ClaimTypeConfig) (x : ClaimState) : ClaimState :=
  mkClaimState x.(claimed) x.(vesting) x.(next_claim_type_id) v x.(multi_claimed) x.(multi_vesting) x.(cl_block) x.(claim_events) x.(cl_ext).
Definition set_multi_claimed (v : gmap (ClaimTypeId * AccountId) ProcesssedClaim) (x : ClaimState) : ClaimState :=
  mkClaimState x.(claimed) x.(vesting) x.(next_claim_type_id) x.(claim_type_configs) v x.(multi_vesting) x.(cl_block) x.(claim_events) x.(cl_ext).
Definition set_multi_vesting (v : gmap (ClaimTypeId * AccountId * AccountId) VestingInfo) (x : ClaimState) : ClaimState :=
  mkClaimState x.(claimed) x.(vesting) x.(next_claim_type_id) x.(claim_type_configs) x.(multi_claimed) v x.(cl_block) x.(claim_events) x.(cl_ext).
Definition set_cl_block (v : BlockNumber) (x : ClaimState) : ClaimState :=
  mkClaimState x.(claimed) x.(vesting) x.(next_claim_type_id) x.(claim_type_configs) x.(multi_claimed) x.(multi_vesting) v x.(claim_events) x.(cl_ext).
Definition set_claim_events (v : list ClaimEvent) (x : ClaimState) : ClaimState :=
  mkClaimState x.(claimed) x.(vesting) x.(next_claim_type_id) x.(claim_type_configs) x.(multi_claimed) x.(multi_vesting) x.(cl_block) v x.(cl_ext).
Definition set_cl_ext (v : Bal) (x : ClaimState) : ClaimState :=
  mkClaimState x.(claimed) x.(vesting) x.(next_claim_type_id) x.(claim_type_configs) x.(multi_claimed) x.(multi_vesting) x.(cl_block) x.(claim_events) v.

Definition claim_genesis (x : Bal) : ClaimState := mkClaimState ∅ ∅ 0 ∅ ∅ ∅ 0 [] x.

Definition MT (A : Type) : Type := M ClaimState ClaimError A.

Definition claim_event (e : ClaimEvent) : MT unit :=
  modify (fun s => set_claim_events (s.(claim_events) ++ [e]) s).
Definition claim_signed (origin : RuntimeOrigin) : MT AccountId :=
  match origin with Signed who => ret who | Root => throw ClaimBadOrigin end.
Definition claim_lookup (a : MultiAddress) : MT AccountId := ok_or (lookup_address a) ClaimLookupError.

(** * Claims *)

(** The schedule of a new claim *)
Definition new_schedule (claimer : AccountId) (amount : Balance) (duration current_block : BlockNumber)
  : VestingInfo :=
  let per_block := amount / Z.max duration 1 in
  mkVestingInfo claimer per_block current_block current_block amount.

Definition claim (origin : RuntimeOrigin) (proof : ClaimProof) (destination : MultiAddress) : MT unit :=
  let* who := claim_signed origin in
  let* c := gets (fun s => s.(claimed) !! who) in
  ensure (negb (bool_decide (is_Some c))) AlreadyClaimed;;
  ensure (validate proof who Signer) InvalidClaim;;
  let amount := proof.(cp_amount) in
  let* destination := claim_lookup destination in
  let* current_block := gets cl_block in
  let* v := gets (fun s => s.(vesting) !! (destination, who)) in
  ensure (negb (bool_decide (is_Some v))) VestingAlreadyExists;;
  modify (fun s => set_vesting
    (<[(destination, who) := new_schedule who amount VestingDuration current_block]> s.(vesting)) s);;
  modify (fun s => set_claimed (<[who := mkProcessedClaim proof destination]> s.(claimed)) s);;
  claim_event (ClaimedV2 who destination amount).

Definition multi_claim (origin : RuntimeOrigin) (claim_type_id : ClaimTypeId) (proof : ClaimProof)
  (destination : MultiAddress) : MT unit :=
  let* who := claim_signed origin in
  let* o := gets (fun s => s.(claim_type_configs) !! claim_type_id) in
  let* config := ok_or o ClaimTypeNotFound in
  let* c := gets (fun s => s.(multi_claimed) !! (claim_type_id, who)) in
  ensure (negb (bool_decide (is_Some c))) AlreadyClaimed;;
  ensure (validate_with_claim_type proof who config.(ct_funder) claim_type_id) InvalidClaim;;
  let amount := proof.(cp_amount) in
  let* destination := claim_lookup destination in
  let* current_block := gets cl_block in
  let* v := gets (fun s => s.(multi_vesting) !! (claim_type_id, destination, who)) in
  ensure (negb (bool_decide (is_Some v))) VestingAlreadyExists;;
  modify (fun s => set_multi_vesting
    (<[(claim_type_id, destination, who) :=
         new_schedule who amount config.(ct_vesting_duration) current_block]> s.(multi_vesting)) s);;
  modify (fun s => set_multi_claimed
    (<[(claim_type_id, who) := mkProcessedClaim proof destination]> s.(multi_claimed)) s);;
  claim_event (MultiClaimed claim_type_id who destination amount).

(** * Vesting *)

(** What both kinds of vesting do to a schedule: the amount to transfer, what is
    left, and the schedule that is stored *)
Definition vest_schedule (now : BlockNumber) (maybe_schedule : option VestingInfo)
  : outcome ClaimError (Balance * Balance * option VestingInfo) :=
  match maybe_schedule with
  | None => Err NotVesting
  | Some schedule =>
      let to_transfer := vestable schedule now in
      match checked_sub schedule.(vi_remaining) to_transfer with
      | None => Err InternalError
      | Some remaining =>
          Ok (to_transfer, remaining,
              if remaining =? 0 then None
              else Some (mkVestingInfo schedule.(vi_claimer) schedule.(vi_per_block)
                           schedule.(vi_starting_block) now remaining))
      end
  end.

Definition from_outcome {A} (o : outcome ClaimError A) : MT A := fun s => (o, s).

(** The transfer of the vested portion from the funder *)
Definition pay_vested (funder destination : AccountId) (to_transfer : Balance) : MT unit :=
  ensure (b_minimum_balance <=? to_transfer) VestAmountTooLow;;
  let* x := gets cl_ext in
  let* x' := ok_or (b_currency_transfer false funder destination to_transfer x)
               ClaimCurrencyError in
  modify (set_cl_ext x').

Definition do_vest (destination claimer : AccountId) : MT unit :=
  let* now := gets cl_block in
  let* v := gets (fun s => s.(vesting) !! (destination, claimer)) in
  let* r := from_outcome (vest_schedule now v) in
  let '(to_transfer, remaining, v') := r in
  modify (fun s => set_vesting (put_opt (destination, claimer) v' s.(vesting)) s);;
  pay_vested Funder destination to_transfer;;
  claim_event (Vested claimer destination remaining).

Definition do_multi_vest (claim_type_id : ClaimTypeId) (destination claimer : AccountId) : MT unit :=
  let* o := gets (fun s => s.(claim_type_configs) !! claim_type_id) in
  let* config := ok_or o ClaimTypeNotFound in
  let* now := gets cl_block in
  let* v := gets (fun s => s.(multi_vesting) !! (claim_type_id, destination, claimer)) in
  let* r := from_outcome (vest_schedule now v) in
  let '(to_transfer, remaining, v') := r in
  modify (fun s => set_multi_vesting
    (put_opt (claim_type_id, destination, claimer) v' s.(multi_vesting)) s);;
  pay_vested config.(ct_funder) destination to_transfer;;
  claim_event (MultiVested claim_type_id claimer destination remaining).

(** An optional address, for the sender if there is none *)
Definition address_or (who : AccountId) (a : option MultiAddress) : MT AccountId :=
  match a with Some a => claim_lookup a | None => ret who end.

Definition vest (origin : RuntimeOrigin) (destination claimer : option MultiAddress) : MT unit :=
  let* who := claim_signed origin in
  let* dest := address_or who destination in
  let* claim := address_or who claimer in
  do_vest dest claim.

Definition multi_vest (origin : RuntimeOrigin) (claim_type_id : ClaimTypeId)
  (destination claimer : option MultiAddress) : MT unit :=
  let* who := claim_signed origin in
  let* dest := address_or who destination in
  let* claim := address_or who claimer in
  do_multi_vest claim_type_id dest claim.

(** * Claim types *)
Definition create_claim_type (origin : RuntimeOrigin) (config : ClaimTypeConfig) : MT unit :=
  ensure (ClaimUpdateOrigin origin) ClaimBadOrigin;;
  let* id := gets next_claim_type_id in
  modify (set_next_claim_type_id (saturating_add u32_max id 1));;
  modify (fun s => set_claim_type_configs (<[id := config]> s.(claim_type_configs)) s);;
  claim_event (ClaimTypeCreated id config).

Definition update_claim_type (origin : RuntimeOrigin) (id : ClaimTypeId) (config : ClaimTypeConfig)
  : MT unit :=
  ensure (ClaimUpdateOrigin origin) ClaimBadOrigin;;
  let* o := gets (fun s => s.(claim_type_configs) !! id) in
  ensure (bool_decide (is_Some o)) ClaimTypeNotFound;;
  modify (fun s => set_claim_type_configs (<[id := config]> s.(claim_type_configs)) s);;
  claim_event (ClaimTypeUpdated id config).

Definition remove_claim_type (origin : RuntimeOrigin) (id : ClaimTypeId) : MT unit :=
  ensure (ClaimUpdateOrigin origin) ClaimBadOrigin;;
  let* o := gets (fun s => s.(claim_type_configs) !! id) in
  ensure (bool_decide (is_Some o)) ClaimTypeNotFound;;
  modify (fun s => set_claim_type_configs (delete id s.(claim_type_configs)) s);;
  claim_event (ClaimTypeRemoved id).

(** * The calls *)
Inductive ClaimCall :=
| Claim_ (proof : ClaimProof) (destination : MultiAddress)
| Vest_ (destination claimer : option MultiAddress)
| CreateClaimType (config : ClaimTypeConfig)
| UpdateClaimType (id : ClaimTypeId) (config : ClaimTypeConfig)
| RemoveClaimType (id : ClaimTypeId)
| MultiClaim_ (claim_type_id : ClaimTypeId) (proof : ClaimProof) (destination : MultiAddress)
| MultiVest_ (claim_type_id : ClaimTypeId) (destination claimer : option MultiAddress).

Definition run_claim_call (origin : RuntimeOrigin) (c : ClaimCall) : MT unit :=
  match c with
  | Claim_ proof destination => claim origin proof destination
  | Vest_ destination claimer => vest origin destination claimer
  | CreateClaimType config => create_claim_type origin config
  | UpdateClaimType id config => update_claim_type origin id config
  | RemoveClaimType id => remove_claim_type origin id
  | MultiClaim_ id proof destination => multi_claim origin id proof destination
  | MultiVest_ id destination claimer => multi_vest origin id destination claimer
  end.

Definition dispatch_claim (origin : RuntimeOrigin) (c : ClaimCall) : MT unit :=
  with_transaction (run_claim_call origin c).
End claims.
