(* ===== verification/BalancesReference.v ===== *)
(** A concrete instance of [Balances]: free and held balances with the existential
    deposit, locks, a register of items, nonces and a clock, as the documentation of
    [pallet_balances], [pallet_uniques] and [frame_system] describes them.  The
    theorems on the pallets above are instantiated with it. *)
From S2P Require Import Prelude JobTypes Balances TokenClaim.

Record RefBal := mkRefBal {
  rb_free : gmap Z Z;
  rb_holds : gmap (HoldReason * Z) Z;
  rb_locks : gmap Z Z;
  rb_issuance : Z;
  rb_collections : gmap Z Z;
  rb_items : gmap (Z * Z) Z;
  rb_nonces : gmap Z Z;
  rb_clock : Z;
  rb_author : option Z;
}.
Definition set_rb_free v x := mkRefBal v x.(rb_holds) x.(rb_locks) x.(rb_issuance) x.(rb_collections)
  x.(rb_items) x.(rb_nonces) x.(rb_clock) x.(rb_author).
Definition set_rb_holds v x := mkRefBal x.(rb_free) v x.(rb_locks) x.(rb_issuance) x.(rb_collections)
  x.(rb_items) x.(rb_nonces) x.(rb_clock) x.(rb_author).
Definition set_rb_locks v x := mkRefBal x.(rb_free) x.(rb_holds) v x.(rb_issuance) x.(rb_collections)
  x.(rb_items) x.(rb_nonces) x.(rb_clock) x.(rb_author).
Definition set_rb_issuance v x := mkRefBal x.(rb_free) x.(rb_holds) x.(rb_locks) v x.(rb_collections)
  x.(rb_items) x.(rb_nonces) x.(rb_clock) x.(rb_author).
Definition set_rb_collections v x := mkRefBal x.(rb_free) x.(rb_holds) x.(rb_locks) x.(rb_issuance) v
  x.(rb_items) x.(rb_nonces) x.(rb_clock) x.(rb_author).
Definition set_rb_items v x := mkRefBal x.(rb_free) x.(rb_holds) x.(rb_locks) x.(rb_issuance)
  x.(rb_collections) v x.(rb_nonces) x.(rb_clock) x.(rb_author).
Definition set_rb_nonces v x := mkRefBal x.(rb_free) x.(rb_holds) x.(rb_locks) x.(rb_issuance)
  x.(rb_collections) x.(rb_items) v x.(rb_clock) x.(rb_author).
Definition set_rb_clock v x := mkRefBal x.(rb_free) x.(rb_holds) x.(rb_locks) x.(rb_issuance)
  x.(rb_collections) x.(rb_items) x.(rb_nonces) v x.(rb_author).

(** * Reading *)
Definition MILLIUNIT : Z := 10 ^ 9.
Definition EXISTENTIAL_DEPOSIT : Z := MILLIUNIT.
Definition rb_balance (x : RefBal) (who : Z) : Z := default 0 (x.(rb_free) !! who).
Definition rb_held (r : HoldReason) (x : RefBal) (who : Z) : Z := default 0 (x.(rb_holds) !! (r, who)).
Definition rb_reserved (x : RefBal) (who : Z) : Z :=
  rb_held OutgoingMessageFee x who + rb_held ConversionHold x who + rb_held OnboardingHold x who.
Definition rb_lock (x : RefBal) (who : Z) : Z := default 0 (x.(rb_locks) !! who).
Definition rb_reducible (p : Preservation) (f : Fortitude) (x : RefBal) (who : Z) : Z :=
  let untouchable :=
    match f with Polite => Z.max 0 (rb_lock x who - rb_reserved x who) | Force => 0 end in
  let untouchable :=
    match p with Expendable => untouchable | _ => Z.max untouchable EXISTENTIAL_DEPOSIT end in
  Z.max 0 (rb_balance x who - untouchable).

(** * Writing *)

(** A balance below the deposit is dust, and burnt. *)
Definition rb_set (who n : Z) (x : RefBal) : RefBal :=
  if n <? EXISTENTIAL_DEPOSIT then
    set_rb_issuance (x.(rb_issuance) - n) (set_rb_free (delete who x.(rb_free)) x)
  else set_rb_free (<[who := n]> x.(rb_free)) x.
Definition rb_increase (who n : Z) (x : RefBal) : option RefBal :=
  if n =? 0 then Some x
  else if EXISTENTIAL_DEPOSIT <=? rb_balance x who + n then
    Some (rb_set who (rb_balance x who + n) x)
  else None.
Definition rb_decrease (e : Precision) (p : Preservation) (f : Fortitude) (who n : Z) (x : RefBal)
  : option (Z * RefBal) :=
  let n' := match e with Exact => n | BestEffort => Z.min n (rb_reducible p f x who) end in
  if (0 <=? n') && (n' <=? rb_reducible p f x who) then
    Some (n', if n' =? 0 then x else rb_set who (rb_balance x who - n') x)
  else None.
Definition rb_move (p : Preservation) (from to n : Z) (x : RefBal) : option (Z * RefBal) :=
  if n =? 0 then Some (0, x) else
  '(m, x) ← rb_decrease Exact p Polite from n x; x ← rb_increase to m x; Some (m, x).
Definition rb_set_held (r : HoldReason) (who n : Z) (x : RefBal) : RefBal :=
  set_rb_holds (<[(r, who) := n]> x.(rb_holds)) x.
Definition rb_hold (r : HoldReason) (who n : Z) (x : RefBal) : option RefBal :=
  if n =? 0 then Some x else
  if (0 <=? n) && (n <=? rb_reducible Protect Force x who) then
    Some (rb_set_held r who (rb_held r x who + n) (rb_set who (rb_balance x who - n) x))
  else None.
Definition rb_unhold (r : HoldReason) (e : Precision) (from to n : Z) (x : RefBal) : option RefBal :=
  let n' := match e with Exact => n | BestEffort => Z.min n (rb_held r x from) end in
  if (0 <=? n') && (n' <=? rb_held r x from) then
    rb_increase to n' (rb_set_held r from (rb_held r x from - n') x)
  else None.
Definition rb_mint (who n : Z) (x : RefBal) : option RefBal :=
  rb_increase who n (set_rb_issuance (x.(rb_issuance) + n) x).

#[export] Instance reference_balances : Balances := {|
  Bal := RefBal;
  b_total_issuance := rb_issuance;
  b_minimum_balance := EXISTENTIAL_DEPOSIT;
  b_total_balance x who := rb_balance x who + rb_reserved x who;
  b_balance := rb_balance;
  b_reducible_balance := rb_reducible;
  b_on_hold := rb_held;
  b_can_withdraw who n x := n <=? rb_reducible Expendable Polite x who;
  b_locked := rb_lock;
  b_set_lock who n x := set_rb_locks (<[who := n]> x.(rb_locks)) x;
  b_remove_lock who x := set_rb_locks (delete who x.(rb_locks)) x;
  b_currency_transfer keep from to n x :=
    '(_, x) ← rb_move (if keep : bool then Preserve else Expendable) from to n x; Some x;
  b_transfer := rb_move;
  b_burn_from p e f who n x :=
    '(m, x) ← rb_decrease e p f who n x; Some (m, set_rb_issuance (x.(rb_issuance) - m) x);
  b_mint_into := rb_mint;
  b_withdraw e p f who n x := rb_decrease e p f who n x;
  b_deposit e who n x := x ← rb_increase who n x; Some (n, x);
  b_issue n x := (n, set_rb_issuance (x.(rb_issuance) + n) x);
  b_resolve who c x := rb_increase who c x;
  b_drop_credit c x := set_rb_issuance (x.(rb_issuance) - c) x;
  b_hold := rb_hold;
  b_release r e who n x := rb_unhold r e who who n x;
  b_release_all r e who x := rb_unhold r e who who (rb_held r x who) x;
  b_transfer_on_hold r from to n x := rb_unhold r Exact from to n x;
  b_slash_held r who n x :=
    let taken := Z.min n (rb_held r x who) in
    (taken, n - taken, rb_set_held r who (rb_held r x who - taken) x);
  u_collection_owner c x := x.(rb_collections) !! c;
  u_create_collection c o a x := Some (set_rb_collections (<[c := o]> x.(rb_collections)) x);
  u_do_mint c i o x :=
    match x.(rb_items) !! (c, i) with
    | Some _ => None
    | None => Some (set_rb_items (<[(c, i) := o]> x.(rb_items)) x)
    end;
  u_owned_in_collection c o x :=
    omap (fun '((c', i), o') => if bool_decide (c' = c /\ o' = o) then Some i else None)
      (map_to_list x.(rb_items));
  u_owner c i x := x.(rb_items) !! (c, i);
  sys_account x who :=
    mkAccountInfo (default 0 (x.(rb_nonces) !! who))
      (if 0 <? rb_balance x who + rb_reserved x who then 1 else 0) 0;
  sys_set_nonce who n x := set_rb_nonces (<[who := n]> x.(rb_nonces)) x;
  sys_author := rb_author;
  sys_now_millis := rb_clock;
|}.

(** * What the operations do to the balances *)

Lemma rb_balance_set who n x a :
  rb_balance (rb_set who n x) a =
  if bool_decide (who = a) then (if n <? EXISTENTIAL_DEPOSIT then 0 else n) else rb_balance x a.
Proof.
  unfold rb_balance, rb_set. case_bool_decide as Ha; [subst a|]; destruct (n <? EXISTENTIAL_DEPOSIT); simpl;
    by rewrite ?lookup_insert_eq, ?lookup_delete_eq, ?(lookup_insert_ne _ _ _ _ Ha), ?(lookup_delete_ne _ _ _ Ha).
Qed.
Lemma rb_decrease_exact p f who n x m x' a :
  rb_decrease Exact p f who n x = Some (m, x') ->
  m = n /\ rb_balance x' a <= rb_balance x a /\
  (p <> Expendable -> rb_balance x' a = rb_balance x a - (if bool_decide (who = a) then n else 0)).
Proof.
  unfold rb_decrease. destruct (_ && _) eqn:E; [|done]. intros [= <- <-].
  apply andb_true_iff in E as [E0%Z.leb_le E%Z.leb_le]. split; [done|].
  destruct (Z.eqb_spec n 0) as [->|Hn]; [by case_bool_decide; lia|]. rewrite rb_balance_set.
  unfold rb_reducible in E.
  destruct (Z.ltb_spec (rb_balance x who - n) EXISTENTIAL_DEPOSIT); case_bool_decide; subst;
    (split; [destruct p, f; lia|]); intros Hp; destruct p, f; try done; lia.
Qed.
Lemma rb_increase_exact who n x x' a :
  0 <= n -> rb_increase who n x = Some x' ->
  rb_balance x' a = rb_balance x a + (if bool_decide (who = a) then n else 0).
Proof.
  intros Hn. unfold rb_increase. destruct (Z.eqb_spec n 0) as [->|Hz].
  { intros [= <-]. case_bool_decide; lia. }
  destruct (Z.leb_spec EXISTENTIAL_DEPOSIT (rb_balance x who + n)); [|done]. intros [= <-].
  rewrite rb_balance_set, (proj2 (Z.ltb_ge _ _)) by done. case_bool_decide; subst; lia.
Qed.
Lemma rb_move_le p from to n x m x' a :
  0 <= n -> rb_move p from to n x = Some (m, x') ->
  m = n /\ rb_balance x' a <= rb_balance x a + (if bool_decide (to = a) then n else 0).
Proof.
  intros Hn. unfold rb_move. destruct (Z.eqb_spec n 0) as [->|Hne].
  - intros [= <- <-]. split; [done|]. case_bool_decide; lia.
  - intros ([m1 x1] & H1 & (x2 & H2 & [= <- <-])%bind_Some)%bind_Some.
    destruct (rb_decrease_exact _ _ _ _ _ _ _ a H1) as (-> & ? & _). split; [done|].
    rewrite (rb_increase_exact _ _ _ _ a Hn H2). lia.
Qed.

(** ** What they do to the held balances *)
Lemma rb_held_set_held r who n x r' a :
  rb_held r' (rb_set_held r who n x) a = if bool_decide (r = r' /\ who = a) then n else rb_held r' x a.
Proof.
  unfold rb_held, rb_set_held. simpl. case_bool_decide as Hb.
  - destruct Hb as [-> ->]. by rewrite lookup_insert_eq.
  - rewrite lookup_insert_ne; [done|]. intros [= -> ->]. by apply Hb.
Qed.
Lemma rb_held_set r who n x a : rb_held r (rb_set who n x) a = rb_held r x a.
Proof. unfold rb_set. by destruct (n <? _). Qed.
Lemma rb_held_increase r who n x x' a : rb_increase who n x = Some x' -> rb_held r x' a = rb_held r x a.
Proof.
  unfold rb_increase. destruct (_ =? _); [by intros [= <-]|]. destruct (_ <=? _); intros [= <-]. apply rb_held_set.
Qed.
Lemma rb_held_decrease r e p f who n x m x' a :
  rb_decrease e p f who n x = Some (m, x') -> rb_held r x' a = rb_held r x a.
Proof.
  unfold rb_decrease. destruct (_ && _); intros [= _ <-]. destruct (_ =? 0); [done|apply rb_held_set].
Qed.
Lemma rb_held_move r p from to n x m x' a :
  rb_move p from to n x = Some (m, x') -> m = n /\ rb_held r x' a = rb_held r x a.
Proof.
  unfold rb_move. destruct (Z.eqb_spec n 0) as [->|Hn]; [by intros [= <- <-]|].
  intros ([k y] & H1 & (z & H2 & [= <- <-])%bind_Some)%bind_Some.
  rewrite (rb_held_increase _ _ _ _ _ _ H2), (rb_held_decrease _ _ _ _ _ _ _ _ _ _ H1).
  unfold rb_decrease in H1. destruct (_ && _); [|done]. by injection H1 as <- _.
Qed.

Lemma rb_balance_set_held r who n x a : rb_balance (rb_set_held r who n x) a = rb_balance x a.
Proof. done. Qed.

(** ** What they do to the books of an account: the free and the held balance, the
    issuance, the nonces and the items *)
Definition rb_total (x : RefBal) (a : Z) : Z := rb_balance x a + rb_reserved x a.
Record rb_moves (d : Z -> Z) (x x' : RefBal) : Prop := {
  rm_total a : rb_total x' a = rb_total x a + d a;
  rm_issuance : x'.(rb_issuance) = x.(rb_issuance);
  rm_nonces : x'.(rb_nonces) = x.(rb_nonces);
  rm_items : x'.(rb_items) = x.(rb_items);
}.
Definition rb_delta (who n a : Z) : Z := if bool_decide (who = a) then n else 0.

Lemma rb_reserved_set who n x a : rb_reserved (rb_set who n x) a = rb_reserved x a.
Proof. unfold rb_reserved. by rewrite !rb_held_set. Qed.
Lemma rb_set_kept who n x :
  (rb_set who n x).(rb_nonces) = x.(rb_nonces) /\ (rb_set who n x).(rb_items) = x.(rb_items).
Proof. unfold rb_set. by destruct (n <? _). Qed.
Lemma rb_set_moves who n x :
  EXISTENTIAL_DEPOSIT <= n -> rb_moves (rb_delta who (n - rb_balance x who)) x (rb_set who n x).
Proof.
  intros Hn. destruct (rb_set_kept who n x) as [Hk1 Hk2]. split; [|..|exact Hk1|exact Hk2].
  - intros a. unfold rb_total, rb_delta. rewrite rb_reserved_set, rb_balance_set.
    destruct (Z.ltb_spec n EXISTENTIAL_DEPOSIT); [lia|]. case_bool_decide; subst; lia.
  - unfold rb_set. by destruct (Z.ltb_spec n EXISTENTIAL_DEPOSIT); [lia|].
Qed.
Lemma rb_moves_ext d e x x' : (forall a, d a = e a) -> rb_moves d x x' -> rb_moves e x x'.
Proof. intros He [T I N It]. split; [intros a; by rewrite T, He|done..]. Qed.
Lemma rb_moves_refl x : rb_moves (fun _ => 0) x x.
Proof. split; [intros a; lia|done..]. Qed.
Lemma rb_moves_trans d e x y z : rb_moves d x y -> rb_moves e y z -> rb_moves (fun a => d a + e a) x z.
Proof. intros [T1 I1 N1 L1] [T2 I2 N2 L2]. split; [intros a; rewrite T2, T1; lia|congruence..]. Qed.

Lemma rb_increase_moves who n x x' : rb_increase who n x = Some x' -> rb_moves (rb_delta who n) x x'.
Proof.
  unfold rb_increase. destruct (Z.eqb_spec n 0) as [->|Hn].
  { intros [= <-]. apply (rb_moves_ext (fun _ => 0)); [|apply rb_moves_refl].
    intros a. unfold rb_delta. by case_bool_decide. }
  destruct (Z.leb_spec EXISTENTIAL_DEPOSIT (rb_balance x who + n)) as [Hd|]; [|done]. intros [= <-].
  refine (rb_moves_ext _ _ _ _ _ (rb_set_moves who (rb_balance x who + n) x Hd)).
  intros a. unfold rb_delta. case_bool_decide; lia.
Qed.
Lemma rb_decrease_moves p f who n x m x' :
  p <> Expendable -> rb_decrease Exact p f who n x = Some (m, x') ->
  m = n /\ rb_moves (fun a => - rb_delta who n a) x x'.
Proof.
  intros Hp. unfold rb_decrease. destruct (_ && _) eqn:E; [|done]. intros [= <- <-].
  apply andb_true_iff in E as [E0%Z.leb_le E%Z.leb_le]. split; [done|].
  destruct (Z.eqb_spec n 0) as [->|Hn].
  { apply (rb_moves_ext (fun _ => 0)); [|apply rb_moves_refl]. intros a. unfold rb_delta. by case_bool_decide. }
  assert (EXISTENTIAL_DEPOSIT <= rb_balance x who - n) as Hd by (unfold rb_reducible in E; destruct p, f; try done; lia).
  refine (rb_moves_ext _ _ _ _ _ (rb_set_moves who (rb_balance x who - n) x Hd)).
  intros a. unfold rb_delta. case_bool_decide; lia.
Qed.
Lemma rb_set_held_moves r who n x : rb_moves (rb_delta who (n - rb_held r x who)) x (rb_set_held r who n x).
Proof.
  split; [|done..]. intros a. unfold rb_total, rb_reserved, rb_delta. rewrite rb_balance_set_held, !rb_held_set_held.
  destruct r; repeat case_bool_decide; naive_solver lia.
Qed.
Lemma rb_hold_moves r who n x x' : rb_hold r who n x = Some x' -> rb_moves (fun _ => 0) x x'.
Proof.
  unfold rb_hold. destruct (Z.eqb_spec n 0) as [->|Hn]; [intros [= <-]; apply rb_moves_refl|].
  destruct (_ && _) eqn:E; [|done]. intros [= <-]. apply andb_true_iff in E as [E0%Z.leb_le E%Z.leb_le].
  assert (EXISTENTIAL_DEPOSIT <= rb_balance x who - n) as Hd by (unfold rb_reducible in E; lia).
  refine (rb_moves_ext _ _ _ _ _ (rb_moves_trans _ _ _ _ _ (rb_set_moves who (rb_balance x who - n) x Hd)
    (rb_set_held_moves r who (rb_held r x who + n) _))).
  intros a. rewrite rb_held_set. unfold rb_delta. case_bool_decide; lia.
Qed.
Lemma rb_unhold_moves r e who n x x' : rb_unhold r e who who n x = Some x' -> rb_moves (fun _ => 0) x x'.
Proof.
  unfold rb_unhold. destruct (_ && _) eqn:E; [|done]. intros Hi.
  refine (rb_moves_ext _ _ _ _ _ (rb_moves_trans _ _ _ _ _ (rb_set_held_moves _ _ _ _) (rb_increase_moves _ _ _ _ Hi))).
  intros a. unfold rb_delta. case_bool_decide; lia.
Qed.

(** A stand-in for signatures: the signature is the sum of the bytes and the key. *)
Definition byte_sum (l : list Z) : Z := foldr Z.add 0 l.
#[export] Instance reference_signatures : Signatures := {|
  verify sg m who := sg =? byte_sum m + who;
  account_encode := scale_uint 32;
|}.

Definition UNIT : Z := 10 ^ 12.
Definition rb_genesis (balances : gmap Z Z) : RefBal :=
  mkRefBal balances ∅ ∅ (gsum (fun _ n => n) balances) ∅ ∅ ∅ 0 None.
