(* ===== verification/TokenClaimSpecs.v ===== *)
(** Claims of tokens: every stored schedule is the straight line that was promised,
    a claim is granted once, and the funders pay no more than what has vested. *)
From S2P Require Import Prelude JobTypes Balances TokenClaim BalancesReference.

Section specs.
Context {L : Balances} {G : Signatures} {C : ClaimConfig}.

(** The types of the arguments: [u128] amounts, [u32] durations *)
Definition u128_typed (n : Z) : Prop := 0 <= n <= u128_max.
Definition u32_typed (n : Z) : Prop := 0 <= n <= u32_max.
Definition claim_call_typed (c : ClaimCall) : Prop :=
  match c with
  | Claim_ proof _ | MultiClaim_ _ proof _ => u128_typed proof.(cp_amount)
  | CreateClaimType config | UpdateClaimType _ config => u32_typed config.(ct_vesting_duration)
  | _ => True
  end.

(** A step of the chain, as the pallet sees it: a call, a new block, or a change of
    the currency by others. *)
Inductive claim_step (outside : Bal -> Bal -> Prop) : ClaimState -> ClaimState -> Prop :=
| step_claim_call o c s :
    claim_call_typed c -> claim_step outside s (exec (dispatch_claim o c) s)
| step_claim_block n s : s.(cl_block) <= n -> claim_step outside s (set_cl_block n s)
| step_claim_outside x s : outside s.(cl_ext) x -> claim_step outside s (set_cl_ext x s).

(** * The line of a schedule *)

(** What has vested of [amount] at the block [t] *)
Definition vested_at (amount : Balance) (v : VestingInfo) (t : BlockNumber) : Balance :=
  Z.min amount (v.(vi_per_block) * (t - v.(vi_starting_block))).

Record schedule_ok (now amount duration : Z) (v : VestingInfo) : Prop := {
  sk_amount : u128_typed amount;
  sk_per_block : v.(vi_per_block) = amount / Z.max duration 1;
  sk_blocks : 0 <= v.(vi_starting_block) <= v.(vi_latest_vest) /\ v.(vi_latest_vest) <= now;
  sk_remaining : v.(vi_remaining) = amount - v.(vi_per_block) * (v.(vi_latest_vest) - v.(vi_starting_block));
  sk_nonneg : u128_typed v.(vi_remaining);
}.

Lemma per_block_nonneg now amount duration v : schedule_ok now amount duration v -> 0 <= v.(vi_per_block).
Proof. intros [[] -> _ _ _]. apply Z.div_pos; lia. Qed.

Lemma vestable_line now now' amount duration v :
  schedule_ok now amount duration v -> now <= now' ->
  vestable v now' = vested_at amount v now' - vested_at amount v v.(vi_latest_vest).
Proof.
  intros Hok Hle. pose proof (per_block_nonneg _ _ _ _ Hok) as Hp.
  destruct Hok as [Ha _ [Hs Hl] Hr Hn].
  assert (vestable v now' = Z.min v.(vi_remaining) ((now' - v.(vi_latest_vest)) * v.(vi_per_block))) as ->.
  { unfold vestable, saturating_sub, saturating_mul, u128_typed in *.
    rewrite Z.max_r by lia. case_match eqn:E; lia. }
  unfold vested_at, u128_typed in *. nia.
Qed.

(** What a vesting stores *)
Lemma vest_schedule_ok now amount duration v :
  schedule_ok now amount duration v ->
  exists paid rest o,
    vest_schedule now (Some v) = Ok (paid, rest, o) /\
    paid = vested_at amount v now - vested_at amount v v.(vi_latest_vest) /\
    rest = amount - vested_at amount v now /\ rest = v.(vi_remaining) - paid /\ 0 <= paid /\
    match o with
    | None => rest = 0
    | Some v' => v'.(vi_remaining) = rest /\ v'.(vi_claimer) = v.(vi_claimer) /\ schedule_ok now amount duration v'
    end.
Proof.
  intros Hok. pose proof (vestable_line now now _ _ _ Hok (Z.le_refl _)) as Hv.
  pose proof (per_block_nonneg _ _ _ _ Hok) as Hp.
  destruct Hok as [Ha Hpb [Hs Hl] Hr Hn].
  assert (vested_at amount v v.(vi_latest_vest) = amount - v.(vi_remaining)) as Hlast
    by (unfold vested_at, u128_typed in *; lia).
  assert (amount - v.(vi_remaining) <= vested_at amount v now <= amount) as Hb
    by (unfold vested_at, u128_typed in *; nia).
  simpl. rewrite Hv, Hlast.
  destruct (checked_sub _ _) as [rest|] eqn:E.
  2: { exfalso. unfold checked_sub in E. case_match eqn:E'; [done|]. lia. }
  apply checked_sub_Some in E as [-> _]. eexists _, _, _. split; [done|].
  do 4 (split; [lia|]). destruct (Z.eqb_spec (vi_remaining v - (vested_at amount v now - (amount - vi_remaining v))) 0); [done|].
  split; [done|]. split; [done|]. split; simpl; try done; unfold u128_typed, vested_at in *; lia.
Qed.

Lemma new_schedule_ok who amount duration now :
  u128_typed amount -> 0 <= now -> schedule_ok now amount duration (new_schedule who amount duration now).
Proof. intros Ha Hn. split; simpl; try done; lia. Qed.

Lemma schedule_ok_later now now' amount duration v :
  now <= now' -> schedule_ok now amount duration v -> schedule_ok now' amount duration v.
Proof. intros Hle [? ? [? ?] ? ?]. split; try done. split; lia. Qed.

(** * The invariant *)

(** A schedule that belongs to a processed claim *)
Definition belongs (now duration : Z) (p : option ProcesssedClaim) (d c : AccountId) (v : VestingInfo) : Prop :=
  exists claim, p = Some claim /\ claim.(pc_destination) = d /\ v.(vi_claimer) = c /\
    schedule_ok now claim.(pc_proof).(cp_amount) duration v.

Record claims_inv (s : ClaimState) : Prop := {
  ci_block : 0 <= s.(cl_block);
  ci_plain d c v : s.(vesting) !! (d, c) = Some v ->
    belongs s.(cl_block) VestingDuration (s.(claimed) !! c) d c v;
  ci_multi i d c v : s.(multi_vesting) !! (i, d, c) = Some v ->
    exists duration, belongs s.(cl_block) duration (s.(multi_claimed) !! (i, c)) d c v;
}.

Lemma claims_inv_view s s' :
  s.(cl_block) <= s'.(cl_block) -> s'.(vesting) = s.(vesting) -> s'.(multi_vesting) = s.(multi_vesting) ->
  s'.(claimed) = s.(claimed) -> s'.(multi_claimed) = s.(multi_claimed) ->
  claims_inv s -> claims_inv s'.
Proof.
  intros Hb Hv Hm Hc Hmc [Hi Hp Hq]. split; [lia|..]; rewrite ?Hv, ?Hm, ?Hc, ?Hmc.
  - intros d c v (cl & ? & ? & ? & Hok)%Hp. exists cl. split_and!; try done. by eapply schedule_ok_later.
  - intros i d c v (du & cl & ? & ? & ? & Hok)%Hq. exists du, cl. split_and!; try done.
    by eapply schedule_ok_later.
Qed.

(** ** Runs of the parts *)
Lemma claim_signed_ok o who s s' : claim_signed o s = (Ok who, s') <-> o = Signed who /\ s' = s.
Proof. destruct o; unfold claim_signed, ret, throw; naive_solver. Qed.
Lemma claim_lookup_ok a who s s' : claim_lookup a s = (Ok who, s') <-> lookup_address a = Some who /\ s' = s.
Proof. unfold claim_lookup. rewrite ok_or_ok. naive_solver. Qed.
Lemma address_or_ok who a r s s' : address_or who a s = (Ok r, s') -> s' = s.
Proof. destruct a; simpl; [by intros [_ ->]%claim_lookup_ok|by intros [_ <-]%ret_ok]. Qed.
Lemma from_outcome_ok {A} (o : outcome ClaimError A) a s s' :
  from_outcome o s = (Ok a, s') <-> o = Ok a /\ s' = s.
Proof. unfold from_outcome. naive_solver. Qed.
Lemma pay_vested_ok f d n s s' :
  pay_vested f d n s = (Ok tt, s') <->
  b_minimum_balance <= n /\ exists x, b_currency_transfer false f d n s.(cl_ext) = Some x /\ s' = set_cl_ext x s.
Proof.
  unfold pay_vested. split.
  - intros ([] & s1 & [Hn <-]%ensure_ok & Hr)%bind_ok. split; [lia|].
    apply bind_ok in Hr as (x & s1 & [<- <-]%gets_ok & Hr).
    apply bind_ok in Hr as (x & s1 & [Hx <-]%ok_or_ok & Hm). exists x. split; [done|].
    by apply modify_ok in Hm.
  - intros [Hn (x & Hx & ->)]. unfold bind, ensure, gets, ok_or, modify, ret.
    rewrite (proj2 (Z.leb_le _ _) Hn). simpl. by rewrite Hx.
Qed.

(** ** The two ways in which the tables change *)

(** A new claim *)
Lemma claims_inv_claim s who p d :
  claims_inv s -> u128_typed p.(cp_amount) -> s.(claimed) !! who = None ->
  claims_inv
    (set_claimed (<[who := mkProcessedClaim p d]> s.(claimed))
       (set_vesting (<[(d, who) := new_schedule who p.(cp_amount) VestingDuration s.(cl_block)]> s.(vesting)) s)).
Proof.
  intros [Hi Hp Hq] Ht Hn. split; simpl; [done| |done].
  intros d' c' v [[Heq <-]|[Hne Hv]]%lookup_insert_Some.
  - injection Heq as <- <-. exists (mkProcessedClaim p d). rewrite lookup_insert_eq.
    split_and!; [done..|]. by apply new_schedule_ok.
  - destruct (Hp _ _ _ Hv) as (cl & Hc & Hrest). exists cl. split; [|done].
    rewrite lookup_insert_ne; [done|]. intros <-. congruence.
Qed.
Lemma claims_inv_multi_claim s i who p d du :
  claims_inv s -> u128_typed p.(cp_amount) -> s.(multi_claimed) !! (i, who) = None ->
  claims_inv
    (set_multi_claimed (<[(i, who) := mkProcessedClaim p d]> s.(multi_claimed))
       (set_multi_vesting (<[(i, d, who) := new_schedule who p.(cp_amount) du s.(cl_block)]>
          s.(multi_vesting)) s)).
Proof.
  intros [Hi Hp Hq] Ht Hn. split; simpl; [done..|].
  intros i' d' c' v [[Heq <-]|[Hne Hv]]%lookup_insert_Some.
  - injection Heq as <- <- <-. exists du, (mkProcessedClaim p d). rewrite lookup_insert_eq.
    split_and!; [done..|]. by apply new_schedule_ok.
  - destruct (Hq _ _ _ _ Hv) as (du' & cl & Hc & Hrest). exists du', cl. split; [|done].
    rewrite lookup_insert_ne; [done|]. intros [= <- <-]. congruence.
Qed.

(** A vesting *)
Lemma put_opt_Some {K A} `{Countable K} (k i : K) (o : option A) (m : gmap K A) a :
  put_opt k o m !! i = Some a -> (i = k /\ o = Some a) \/ m !! i = Some a.
Proof.
  destruct o; simpl.
  - intros [[<- <-]|[_ ?]]%lookup_insert_Some; naive_solver.
  - intros [_ ?]%lookup_delete_Some. by right.
Qed.

Lemma claims_inv_vest s d c v paid rest o :
  claims_inv s -> s.(vesting) !! (d, c) = Some v ->
  vest_schedule s.(cl_block) (Some v) = Ok (paid, rest, o) ->
  claims_inv (set_vesting (put_opt (d, c) o s.(vesting)) s).
Proof.
  intros [Hi Hp Hq] Hv Hs. split; simpl; [done| |done].
  intros d' c' v' [[[= -> ->] ->]|?]%put_opt_Some; [|by apply Hp].
  destruct (Hp _ _ _ Hv) as (cl & Hc & Hd & Hcl & Hok). exists cl. split; [done|]. split; [done|].
  destruct (vest_schedule_ok _ _ _ _ Hok) as (? & ? & ? & Hs' & _ & _ & _ & _ & Ho).
  rewrite Hs in Hs'. simplify_eq. destruct Ho as (_ & -> & ?). done.
Qed.
Lemma claims_inv_multi_vest s i d c v paid rest o :
  claims_inv s -> s.(multi_vesting) !! (i, d, c) = Some v ->
  vest_schedule s.(cl_block) (Some v) = Ok (paid, rest, o) ->
  claims_inv (set_multi_vesting (put_opt (i, d, c) o s.(multi_vesting)) s).
Proof.
  intros [Hi Hp Hq] Hv Hs. split; simpl; [done..|].
  intros i' d' c' v' [[[= -> -> ->] ->]|?]%put_opt_Some; [|by apply Hq].
  destruct (Hq _ _ _ _ Hv) as (du & cl & Hc & Hd & Hcl & Hok). exists du, cl. split; [done|]. split; [done|].
  destruct (vest_schedule_ok _ _ _ _ Hok) as (? & ? & ? & Hs' & _ & _ & _ & _ & Ho).
  rewrite Hs in Hs'. simplify_eq. destruct Ho as (_ & -> & ?). done.
Qed.

(** * What a successful call does *)

(** The successful calls, by what they write *)
Inductive claim_change (s : ClaimState) : ClaimState -> Prop :=
| change_claim who p d e :
    u128_typed p.(cp_amount) -> s.(claimed) !! who = None -> s.(vesting) !! (d, who) = None ->
    validate p who Signer = true ->
    claim_change s (set_claim_events e (set_claimed (<[who := mkProcessedClaim p d]> s.(claimed))
       (set_vesting (<[(d, who) := new_schedule who p.(cp_amount) VestingDuration s.(cl_block)]> s.(vesting)) s)))
| change_multi_claim i who p d config e :
    u128_typed p.(cp_amount) -> s.(multi_claimed) !! (i, who) = None ->
    s.(multi_vesting) !! (i, d, who) = None -> s.(claim_type_configs) !! i = Some config ->
    validate_with_claim_type p who config.(ct_funder) i = true ->
    claim_change s (set_claim_events e (set_multi_claimed (<[(i, who) := mkProcessedClaim p d]> s.(multi_claimed))
       (set_multi_vesting (<[(i, d, who) := new_schedule who p.(cp_amount) config.(ct_vesting_duration) s.(cl_block)]>
          s.(multi_vesting)) s)))
| change_vest d c v paid rest o x e :
    s.(vesting) !! (d, c) = Some v -> vest_schedule s.(cl_block) (Some v) = Ok (paid, rest, o) ->
    b_minimum_balance <= paid -> b_currency_transfer false Funder d paid s.(cl_ext) = Some x ->
    claim_change s (set_claim_events e (set_cl_ext x (set_vesting (put_opt (d, c) o s.(vesting)) s)))
| change_multi_vest i d c v paid rest o config x e :
    s.(multi_vesting) !! (i, d, c) = Some v -> vest_schedule s.(cl_block) (Some v) = Ok (paid, rest, o) ->
    b_minimum_balance <= paid -> s.(claim_type_configs) !! i = Some config ->
    b_currency_transfer false config.(ct_funder) d paid s.(cl_ext) = Some x ->
    claim_change s (set_claim_events e (set_cl_ext x (set_multi_vesting (put_opt (i, d, c) o s.(multi_vesting)) s)))
| change_types n m e :
    claim_change s (set_claim_events e (set_claim_type_configs m (set_next_claim_type_id n s))).

Lemma do_vest_change d c s s' : do_vest d c s = (Ok tt, s') -> claim_change s s'.
Proof.
  intros (? & ? & [<- <-]%gets_ok & Hr)%bind_ok. apply bind_ok in Hr as (o & ? & [Ho <-]%gets_ok & Hr).
  apply bind_ok in Hr as ([[paid rest] o'] & ? & [Hs ->]%from_outcome_ok & Hr). simpl in Hr.
  apply bind_ok in Hr as ([] & ? & <-%modify_ok & Hr).
  apply bind_ok in Hr as ([] & ? & (Hm & x & Hx & ->)%pay_vested_ok & Hr).
  apply modify_ok in Hr as <-. destruct o as [v|]; [|done].
  exact (change_vest s d c v paid rest o' x _ Ho Hs Hm Hx).
Qed.
Lemma do_multi_vest_change i d c s s' : do_multi_vest i d c s = (Ok tt, s') -> claim_change s s'.
Proof.
  intros (oc & ? & [Hoc <-]%gets_ok & Hr)%bind_ok. apply bind_ok in Hr as (config & ? & [-> <-]%ok_or_ok & Hr).
  apply bind_ok in Hr as (? & ? & [<- <-]%gets_ok & Hr). apply bind_ok in Hr as (o & ? & [Ho <-]%gets_ok & Hr).
  apply bind_ok in Hr as ([[paid rest] o'] & ? & [Hs ->]%from_outcome_ok & Hr). simpl in Hr.
  apply bind_ok in Hr as ([] & ? & <-%modify_ok & Hr).
  apply bind_ok in Hr as ([] & ? & (Hm & x & Hx & ->)%pay_vested_ok & Hr).
  apply modify_ok in Hr as <-. destruct o as [v|]; [|done].
  exact (change_multi_vest s i d c v paid rest o' config x _ Ho Hs Hm Hoc Hx).
Qed.

Lemma not_is_Some {A} (o : option A) : negb (bool_decide (is_Some o)) = true -> o = None.
Proof. intros Hb. apply eq_None_not_Some. by case_bool_decide. Qed.

Lemma claim_change_ok o p a s s' :
  u128_typed p.(cp_amount) -> claim o p a s = (Ok tt, s') -> claim_change s s'.
Proof.
  intros Ht (who & ? & [-> ->]%claim_signed_ok & Hr)%bind_ok.
  apply bind_ok in Hr as (c & ? & [<- <-]%gets_ok & Hr).
  apply bind_ok in Hr as ([] & ? & [Hc%not_is_Some <-]%ensure_ok & Hr).
  apply bind_ok in Hr as ([] & ? & [Hv <-]%ensure_ok & Hr).
  apply bind_ok in Hr as (d & ? & [Ha ->]%claim_lookup_ok & Hr).
  apply bind_ok in Hr as (? & ? & [<- <-]%gets_ok & Hr).
  apply bind_ok in Hr as (v & ? & [<- <-]%gets_ok & Hr).
  apply bind_ok in Hr as ([] & ? & [Hn%not_is_Some <-]%ensure_ok & Hr).
  apply bind_ok in Hr as ([] & ? & <-%modify_ok & Hr).
  apply bind_ok in Hr as ([] & ? & <-%modify_ok & <-%modify_ok).
  exact (change_claim s who p d _ Ht Hc Hn Hv).
Qed.
Lemma multi_claim_change_ok o i p a s s' :
  u128_typed p.(cp_amount) -> multi_claim o i p a s = (Ok tt, s') -> claim_change s s'.
Proof.
  intros Ht (who & ? & [-> ->]%claim_signed_ok & Hr)%bind_ok.
  apply bind_ok in Hr as (oc & ? & [Hoc <-]%gets_ok & Hr).
  apply bind_ok in Hr as (config & ? & [-> <-]%ok_or_ok & Hr).
  apply bind_ok in Hr as (c & ? & [<- <-]%gets_ok & Hr).
  apply bind_ok in Hr as ([] & ? & [Hc%not_is_Some <-]%ensure_ok & Hr).
  apply bind_ok in Hr as ([] & ? & [Hv <-]%ensure_ok & Hr).
  apply bind_ok in Hr as (d & ? & [Ha ->]%claim_lookup_ok & Hr).
  apply bind_ok in Hr as (? & ? & [<- <-]%gets_ok & Hr).
  apply bind_ok in Hr as (v & ? & [<- <-]%gets_ok & Hr).
  apply bind_ok in Hr as ([] & ? & [Hn%not_is_Some <-]%ensure_ok & Hr).
  apply bind_ok in Hr as ([] & ? & <-%modify_ok & Hr).
  apply bind_ok in Hr as ([] & ? & <-%modify_ok & <-%modify_ok).
  exact (change_multi_claim s i who p d config _ Ht Hc Hn Hoc Hv).
Qed.

Lemma dispatch_claim_change o c s r s' :
  claim_call_typed c -> dispatch_claim o c s = (r, s') -> s' = s \/ claim_change s s'.
Proof.
  intros Ht Hd. destruct (with_transaction_rollback _ _ _ _ Hd) as [[[] ->]|]; [|by left].
  right. unfold dispatch_claim in Hd. rewrite with_transaction_ok in Hd. destruct c; simpl in Hd.
  - by apply (claim_change_ok _ _ _ _ _ Ht Hd).
  - apply bind_ok in Hd as (who & ? & [-> ->]%claim_signed_ok & Hr).
    apply bind_ok in Hr as (d & ? & ->%address_or_ok & Hr).
    apply bind_ok in Hr as (a & ? & ->%address_or_ok & Hr). by eapply do_vest_change.
  - apply bind_ok in Hd as ([] & ? & [_ <-]%ensure_ok & Hr).
    apply bind_ok in Hr as (id & ? & [<- <-]%gets_ok & Hr).
    apply bind_ok in Hr as ([] & ? & <-%modify_ok & Hr).
    apply bind_ok in Hr as ([] & ? & <-%modify_ok & <-%modify_ok). exact (change_types s _ _ _).
  - apply bind_ok in Hd as ([] & ? & [_ <-]%ensure_ok & Hr).
    apply bind_ok in Hr as (oc & ? & [<- <-]%gets_ok & Hr).
    apply bind_ok in Hr as ([] & ? & [_ <-]%ensure_ok & Hr).
    apply bind_ok in Hr as ([] & ? & <-%modify_ok & <-%modify_ok).
    exact (change_types s s.(next_claim_type_id) _ _).
  - apply bind_ok in Hd as ([] & ? & [_ <-]%ensure_ok & Hr).
    apply bind_ok in Hr as (oc & ? & [<- <-]%gets_ok & Hr).
    apply bind_ok in Hr as ([] & ? & [_ <-]%ensure_ok & Hr).
    apply bind_ok in Hr as ([] & ? & <-%modify_ok & <-%modify_ok).
    exact (change_types s s.(next_claim_type_id) _ _).
  - by apply (multi_claim_change_ok _ _ _ _ _ _ Ht Hd).
  - apply bind_ok in Hd as (who & ? & [-> ->]%claim_signed_ok & Hr).
    apply bind_ok in Hr as (d & ? & ->%address_or_ok & Hr).
    apply bind_ok in Hr as (a & ? & ->%address_or_ok & Hr). by eapply do_multi_vest_change.
Qed.

Lemma claims_inv_events s e : claims_inv s -> claims_inv (set_claim_events e s).
Proof. by apply (claims_inv_view s). Qed.
Lemma claims_inv_ext s x : claims_inv s -> claims_inv (set_cl_ext x s).
Proof. by apply (claims_inv_view s). Qed.
Lemma claims_inv_change s s' : claims_inv s -> claim_change s s' -> claims_inv s'.
Proof.
  intros Hi [who p d e Ht Hc _ _|i who p d config e Ht Hc _ _ _|d c v paid rest o x e Hv Hs _ _
            |i d c v paid rest o config x e Hv Hs _ _ _|n m e].
  - exact (claims_inv_events _ _ (claims_inv_claim s who p d Hi Ht Hc)).
  - exact (claims_inv_events _ _ (claims_inv_multi_claim s i who p d _ Hi Ht Hc)).
  - apply claims_inv_events, claims_inv_ext. by eapply claims_inv_vest.
  - apply claims_inv_events, claims_inv_ext. by eapply claims_inv_multi_vest.
  - by apply (claims_inv_view s).
Qed.

Lemma claims_inv_step outside s s' : claim_step outside s s' -> claims_inv s -> claims_inv s'.
Proof.
  intros [o c s0 Ht|n s0 Hn|x s0 _] Hi.
  - destruct (dispatch_claim o c s0) as [r s1] eqn:E. unfold exec. rewrite E. simpl.
    destruct (dispatch_claim_change _ _ _ _ _ Ht E) as [->|Hc]; [done|]. by eapply claims_inv_change.
  - by apply (claims_inv_view s0).
  - by apply (claims_inv_view s0).
Qed.
Lemma claims_inv_genesis x : claims_inv (claim_genesis x).
Proof. by split. Qed.
Lemma claims_inv_reach outside s s' : rtc (claim_step outside) s s' -> claims_inv s -> claims_inv s'.
Proof. induction 1 as [|s s1 s2 Hs _ IH]; [done|]. intros Hi. apply IH. by eapply claims_inv_step. Qed.

(** In every state of the chain each stored vesting schedule is well formed: it
    belongs to a processed claim of its claimer and destination, its amounts are in
    [u128], its blocks are in order, it releases [amount / duration] per block, and
    what remains is the claimed amount less exactly what has vested up to the last
    vesting. *)
Theorem claims_follow_schedule outside x s :
  rtc (claim_step outside) (claim_genesis x) s ->
  (forall d c v, s.(vesting) !! (d, c) = Some v ->
     belongs s.(cl_block) VestingDuration (s.(claimed) !! c) d c v) /\
  (forall i d c v, s.(multi_vesting) !! (i, d, c) = Some v ->
     exists duration, belongs s.(cl_block) duration (s.(multi_claimed) !! (i, c)) d c v).
Proof.
  intros Hr. destruct (claims_inv_reach _ _ _ Hr (claims_inv_genesis x)) as [_ Hp Hq]. by split.
Qed.

(** A claim is granted once, and never forgotten. *)
Lemma claimed_change s s' who pc :
  claim_change s s' -> s.(claimed) !! who = Some pc -> s'.(claimed) !! who = Some pc.
Proof.
  intros [w p d e _ Hc _ _| | | | ]; simpl; try done.
  intros Hw. rewrite lookup_insert_ne; [done|]. intros <-. congruence.
Qed.
Theorem claim_is_granted_once outside s s' who pc o p a :
  s.(claimed) !! who = Some pc -> rtc (claim_step outside) s s' ->
  s'.(claimed) !! who = Some pc /\
  (o = Signed who -> dispatch_claim o (Claim_ p a) s' = (Err AlreadyClaimed, s')).
Proof.
  intros Hw Hr. assert (s'.(claimed) !! who = Some pc) as Hw'.
  { revert Hw. induction Hr as [|s s1 s2 Hs _ IH]; [done|]. intros Hw. apply IH.
    destruct Hs as [o' c s0 Ht|n s0 _|x s0 _]; try done.
    destruct (dispatch_claim o' c s0) as [r s2'] eqn:E. unfold exec. rewrite E. simpl.
    destruct (dispatch_claim_change _ _ _ _ _ Ht E) as [->|?]; [done|]. by eapply claimed_change. }
  split; [done|]. intros ->. unfold dispatch_claim, with_transaction. simpl.
  unfold claim, bind, claim_signed, gets, ensure, ret, throw. rewrite Hw'.
  by rewrite (bool_decide_eq_true_2 (is_Some (Some pc))).
Qed.

(** C24: Vesting pays exactly what has become due since the last vesting on the line
    from the start of the schedule, so that the total does not depend on when and how
    often it is called; it fails, without effect, if this is below the minimum balance
    or the funder cannot pay, and it removes the schedule with the last payment. *)
Theorem vest_pays_what_is_due outside x0 s who d c v claim_ :
  rtc (claim_step outside) (claim_genesis x0) s ->
  s.(vesting) !! (d, c) = Some v -> s.(claimed) !! c = Some claim_ ->
  let amount := claim_.(pc_proof).(cp_amount) in
  let now := s.(cl_block) in
  let due := vested_at amount v now - vested_at amount v v.(vi_latest_vest) in
  let rest := amount - vested_at amount v now in
  dispatch_claim (Signed who) (Vest_ (Some (AddressId d)) (Some (AddressId c))) s =
  if due <? b_minimum_balance then (Err VestAmountTooLow, s)
  else match b_currency_transfer false Funder d due s.(cl_ext) with
       | None => (Err ClaimCurrencyError, s)
       | Some x =>
           (Ok tt, set_claim_events (s.(claim_events) ++ [Vested c d rest]) (set_cl_ext x (set_vesting
              (if rest =? 0 then delete (d, c) s.(vesting)
               else <[(d, c) := mkVestingInfo c v.(vi_per_block) v.(vi_starting_block) now rest]> s.(vesting)) s)))
       end.
Proof.
  intros Hr Hv Hc. destruct (claims_inv_reach _ _ _ Hr (claims_inv_genesis x0)) as [_ Hp _].
  destruct (Hp _ _ _ Hv) as (cl & Hcl & _ & Hvc & Hok). assert (cl = claim_) as -> by congruence.
  destruct (vest_schedule_ok _ _ _ _ Hok) as (paid & rest & o & Hs & Hpaid & Hrest & Hrp & _ & _).
  simpl. rewrite <-Hrest, <-Hpaid.
  assert (o = if rest =? 0 then None
              else Some (mkVestingInfo c v.(vi_per_block) v.(vi_starting_block) s.(cl_block) rest)) as Ho.
  { unfold vest_schedule in Hs. destruct (checked_sub _ _) eqn:E; [|done].
    injection Hs as _ <- <-. by rewrite Hvc. }
  unfold dispatch_claim, with_transaction. simpl. unfold vest, bind at 1, claim_signed, ret at 1. simpl.
  unfold do_vest, bind, gets, from_outcome. simpl. rewrite Hv, Hs. unfold modify, pay_vested, bind, ensure.
  simpl. rewrite Z.leb_antisym. destruct (paid <? b_minimum_balance); simpl; [done|].
  destruct (b_currency_transfer _ _ _ _ _) as [x|] eqn:Ex; simpl; [|done].
  rewrite Ho. by destruct (rest =? 0).
Qed.

(** * What the destinations are paid *)

Definition to_dest (D d : AccountId) (n : Balance) : Balance := if bool_decide (d = D) then n else 0.
(** What has been granted to a destination, and what of it is still to be paid *)
Definition granted_to (D : AccountId) (s : ClaimState) : Balance :=
  gsum (fun _ p => to_dest D p.(pc_destination) p.(pc_proof).(cp_amount)) s.(claimed) +
  gsum (fun _ p => to_dest D p.(pc_destination) p.(pc_proof).(cp_amount)) s.(multi_claimed).
Definition owed_to (D : AccountId) (s : ClaimState) : Balance :=
  gsum (fun k v => to_dest D k.1 v.(vi_remaining)) s.(vesting) +
  gsum (fun k v => to_dest D k.1.2 v.(vi_remaining)) s.(multi_vesting).

(** A transfer gives to its recipient, and to nobody else, at most the amount. *)
Definition transfer_law (bal : Bal -> AccountId -> Balance) : Prop :=
  forall keep from to n x x' a, 0 <= n -> b_currency_transfer keep from to n x = Some x' ->
    bal x' a <= bal x a + to_dest a to n.

Section paid.
Context (bal : Bal -> AccountId -> Balance) (law : transfer_law bal).

Lemma put_opt_gsum {K A} `{Countable K} (f : K -> A -> Z) (m : gmap K A) k o :
  gsum f (put_opt k o m) = gsum f m - from_option (f k) 0 (m !! k) + from_option (f k) 0 o.
Proof. destruct o; simpl; [rewrite gsum_insert; lia|rewrite gsum_delete; lia]. Qed.

Lemma owed_nonneg D s : claims_inv s -> 0 <= owed_to D s.
Proof.
  intros [_ Hp Hq]. apply Z.add_nonneg_nonneg; apply gsum_nonneg; unfold to_dest.
  - intros [d c] v (? & _ & _ & _ & [_ _ _ _ [? _]])%Hp. case_bool_decide; lia.
  - intros [[i d] c] v (? & ? & _ & _ & _ & [_ _ _ _ [? _]])%Hq. case_bool_decide; lia.
Qed.

(** The remaining amounts before and after a vesting *)
Lemma vest_remaining D d now v paid rest o :
  vest_schedule now (Some v) = Ok (paid, rest, o) ->
  to_dest D d v.(vi_remaining) = from_option (fun v' => to_dest D d v'.(vi_remaining)) 0 o + to_dest D d paid.
Proof.
  unfold vest_schedule. destruct (checked_sub _ _) as [r|] eqn:E; [|done].
  apply checked_sub_Some in E as [-> _]. intros [= <- <- <-]. unfold to_dest.
  destruct (Z.eqb_spec (vi_remaining v - vestable v now) 0); simpl; case_bool_decide; lia.
Qed.
Lemma vest_paid_nonneg now duration p d c v paid rest o :
  belongs now duration p d c v -> vest_schedule now (Some v) = Ok (paid, rest, o) -> 0 <= paid.
Proof.
  intros (? & _ & _ & _ & Hok) Hs. destruct (vest_schedule_ok _ _ _ _ Hok) as (? & ? & ? & Hs' & _ & _ & _ & ? & _).
  rewrite Hs in Hs'. by simplify_eq.
Qed.

Notation margin D := (fun s => bal s.(cl_ext) D + owed_to D s - granted_to D s).

Lemma margin_change D s s' : claims_inv s -> claim_change s s' -> margin D s' <= margin D s.
Proof.
  intros Hi Hc. destruct Hc as [who p d e Ht Hc Hn _|i who p d config e Ht Hc Hn _ _|d c v paid rest o x e Hv Hs _ Hx
            |i d c v paid rest o config x e Hv Hs _ _ Hx|n m e]; unfold owed_to, granted_to; simpl.
  - rewrite !gsum_insert, Hc, Hn. simpl. lia.
  - rewrite !gsum_insert, Hc, Hn. simpl. lia.
  - destruct Hi as [_ Hp _]. pose proof (vest_paid_nonneg _ _ _ _ _ _ _ _ _ (Hp _ _ _ Hv) Hs).
    apply (law _ _ _ _ _ _ D) in Hx; [|done]. apply (vest_remaining D d) in Hs.
    rewrite put_opt_gsum, Hv. simpl. lia.
  - destruct Hi as [_ _ Hq]. destruct (Hq _ _ _ _ Hv) as (du & Hb).
    pose proof (vest_paid_nonneg _ _ _ _ _ _ _ _ _ Hb Hs).
    apply (law _ _ _ _ _ _ D) in Hx; [|done]. apply (vest_remaining D d) in Hs.
    rewrite put_opt_gsum, Hv. simpl. lia.
  - lia.
Qed.

(** No destination is ever paid more than what has vested for it: whatever calls
    are made, and however often, the balance of an account exceeds the one it had at
    genesis by at most the amounts granted to it in claims, each claimer counted once
    per kind of claim, less what is still to be paid. *)
Theorem destinations_get_only_what_vested outside x s D :
  (forall y z, outside y z -> bal z D <= bal y D) ->
  rtc (claim_step outside) (claim_genesis x) s ->
  bal s.(cl_ext) D <= bal x D + granted_to D s - owed_to D s /\ 0 <= owed_to D s.
Proof.
  intros Ho Hr. pose proof (claims_inv_reach _ _ _ Hr (claims_inv_genesis x)) as Hi.
  split; [|by apply owed_nonneg].
  assert (margin D s <= margin D (claim_genesis x)) as Hm.
  { pose proof (claims_inv_genesis x) as Hg. revert Hg. clear Hi. induction Hr as [|s s1 s2 Hs _ IH]; [done|].
    intros Hi. etrans; [apply IH; by eapply claims_inv_step|].
    destruct Hs as [o c s0 Ht|n s0 _|y s0 Hy]; simpl.
    - destruct (dispatch_claim o c s0) as [r s1] eqn:E. unfold exec. rewrite E. simpl.
      destruct (dispatch_claim_change _ _ _ _ _ Ht E) as [->|Hc]; [done|]. by apply margin_change.
    - done.
    - apply Ho in Hy. unfold owed_to, granted_to. simpl. lia. }
  assert (margin D (claim_genesis x) = bal x D) as Hg0
    by (unfold owed_to, granted_to; simpl; rewrite !gsum_empty; lia).
  simpl in *. lia.
Qed.
End paid.
End specs.

(** * A run: the constants of the mainnet, the claimer 5 with 1036.8 units *)
#[export] Instance claim_constants : ClaimConfig := {|
  Signer := 40;
  Funder := 41;
  VestingDuration := 24 * 30 * 14400;
  ClaimUpdateOrigin o := match o with Root => true | Signed _ => false end;
|}.

Definition claim_amount : Z := 10368 * 10 ^ 11.
Definition claim_start : ClaimState := claim_genesis (rb_genesis {[41 := 10 ^ 4 * UNIT]}).
Definition a_proof : ClaimProof :=
  mkClaimProof claim_amount (byte_sum (claim_message 5 claim_amount) + 40).
Definition c_claimed : ClaimState := exec (dispatch_claim (Signed 5) (Claim_ a_proof (AddressId 6))) claim_start.
Definition c_later : ClaimState := set_cl_block 1000 c_claimed.
Definition c_vested : ClaimState :=
  exec (dispatch_claim (Signed 9) (Vest_ (Some (AddressId 6)) (Some (AddressId 5)))) c_later.

Example claim_run :
  (fun s => (rb_balance s.(cl_ext) 6, rb_balance s.(cl_ext) 41, owed_to 6 s))
    <$> [claim_start; c_claimed; c_vested]
  = [(0, 10 ^ 4 * UNIT, 0); (0, 10 ^ 4 * UNIT, claim_amount);
     (10 ^ 11, 10 ^ 4 * UNIT - 10 ^ 11, claim_amount - 10 ^ 11)].
Proof. vm_compute. reflexivity. Qed.

Definition claim_quiet (x y : RefBal) : Prop := y.(rb_free) = x.(rb_free).
Lemma claim_reach_claimed : rtc (claim_step (L := reference_balances) claim_quiet) claim_start c_claimed.
Proof. apply rtc_once. unfold c_claimed. apply step_claim_call. vm_compute. split; congruence. Qed.
Lemma claim_reach_later : rtc (claim_step (L := reference_balances) claim_quiet) claim_start c_later.
Proof. eapply rtc_r; [apply claim_reach_claimed|]. apply step_claim_block. by_compute. Qed.
Lemma claim_reach_vested : rtc (claim_step (L := reference_balances) claim_quiet) claim_start c_vested.
Proof. eapply rtc_r; [apply claim_reach_later|]. unfold c_vested. by apply step_claim_call. Qed.

(** The reference currency follows the law of transfers. *)
Lemma reference_transfers : transfer_law rb_balance.
Proof.
  intros keep from to n x x' a Hn Hx. simpl in Hx. apply bind_Some in Hx as ([m y] & Hm & [= <-]).
  destruct (rb_move_le _ _ _ _ _ _ _ a Hn Hm) as [-> Hle]. exact Hle.
Qed.

Lemma claims_follow_schedule_witness :
  belongs 1000 VestingDuration (c_vested.(claimed) !! 5) 6 5
    (mkVestingInfo 5 (10 ^ 8) 0 1000 (claim_amount - 10 ^ 11)).
Proof.
  destruct (claims_follow_schedule (L := reference_balances) claim_quiet _ c_vested claim_reach_vested) as [Hp _].
  refine (Hp 6 5 _ _). by_compute.
Defined.

Lemma vest_pays_what_is_due_witness :
  result (dispatch_claim (Signed 9) (Vest_ (Some (AddressId 6)) (Some (AddressId 5)))) c_later = Ok tt.
Proof.
  assert (c_later.(vesting) !! (6, 5) = Some (mkVestingInfo 5 (10 ^ 8) 0 0 claim_amount)) as H1 by by_compute.
  assert (c_later.(claimed) !! 5 = Some (mkProcessedClaim a_proof 6)) as H2 by by_compute.
  pose proof (vest_pays_what_is_due (L := reference_balances) claim_quiet _ c_later 9 6 5 _ _ claim_reach_later H1 H2) as Hv.
  unfold result. rewrite Hv. by_compute.
Defined.

Lemma destinations_get_only_what_vested_witness :
  rb_balance c_vested.(cl_ext) 6 <= 0 + granted_to 6 c_vested - owed_to 6 c_vested.
Proof.
  refine (proj1 (destinations_get_only_what_vested (L := reference_balances) rb_balance reference_transfers claim_quiet _ c_vested 6 _
    claim_reach_vested)).
  intros y z Hq. unfold rb_balance. rewrite Hq. apply Z.le_refl.
Defined.
