(* ===== verification/TokenConversion.v ===== *)
(** Conversion of tokens between the two networks of the project:
    [pallets/token-conversion/src/lib.rs] and [types.rs].

    On the sending network an account converts its balance: the tokens are burnt and
    a message is sent.  On the receiving network the message is processed: the pallet
    pays from its own account, leaves some of the amount liquid and holds the rest,
    which the account unlocks later, at a loss if it is early.  The compute pallet
    slashes the held amount through the trait [Slashable].

    [ConvState] is the storage of the pallet on top of the currency.  The calls that
    send messages need the bridge as well; they are defined for any state [W] that
    holds a [ConvState] and can send ([ConversionSender]). *)
From S2P Require Import Prelude Perthings JobTypes Balances TokenClaim BridgeTypes.

(** * Types *)
Record InitiatedConversionMessage := mkInitiated {
  im_burned : Balance;
  im_fee_payer : AccountId;
  im_started_at : BlockNumber;
}.

Record Conversion := mkConversion {
  cv_amount : Balance;
  cv_lock_start : BlockNumber;
}.

Record ConversionMessage := mkConversionMessage {
  cm_account : AccountId;
  cm_amount : Balance;
}.

(** The derived codec of [ConversionMessage]: the bytes of the account and a [u128];
    [decode] reads a prefix. *)
Class AccountCodec := {
  account_decode : list Z -> option AccountId;
}.
Fixpoint scale_uint_decode (width : nat) (l : list Z) : option Z :=
  match width, l with
  | O, _ => Some 0
  | S w, b :: l' => n ← scale_uint_decode w l'; Some (b + 256 * n)
  | S _, [] => None
  end.

Section codec.
Context {G : Signatures} {K : AccountCodec}.
Definition conversion_encode (m : ConversionMessage) : list Z :=
  account_encode m.(cm_account) ++ scale_uint 16 m.(cm_amount).
Definition conversion_decode (l : list Z) : option ConversionMessage :=
  if (length l <? 48)%nat then None else
  account ← account_decode (take 32 l);
  amount ← scale_uint_decode 16 (drop 32 l);
  Some (mkConversionMessage account amount).
End codec.

Inductive ConversionError :=
| CannotPayFee
| BalanceTooLow
| AlreadyConverted
| ConvertToNotEnabled
| ConvertFromNotEnabled
| InvalidSender
| DecodingFailure
| ConversionLockNotFound
| InvalidDuration
| ConversionLockUpdateDeadlinePassed
| ConversionLockAlreadyUpdated
| CannotUnlock
| InitiatedConversionNotFound
| NotEnabled
| LockedBalance
| CannotUnlockYet
| ConversionDenied
| ConversionBadOrigin
| ConversionCurrencyError
| ConversionSendError (e : BridgeError).

Inductive ConversionEvent :=
| ConversionInitiated (account : AccountId) (amount : Balance)
| ConversionProcessed (account : AccountId) (amount : Balance)
| ConversionNotProcessed (account : AccountId) (amount : Balance)
| ConversionLockDurationUpdate (account : AccountId)
| ConversionUnlocked (account : AccountId)
| ConversionRetried (account : AccountId).

Class ConversionConfig {L : Balances} := {
  conversion_account : AccountId;
  SendTo : option Subject;
  ReceiveFrom : option Subject;
  Liquidity : Balance;
  MinConversionAmount : Balance;
  MinLockDuration : BlockNumber;
  MaxLockDuration : BlockNumber;
  ConvertTTL : BlockNumber;
  EnableOrigin : RuntimeOrigin -> bool;
  (** [T::OnSlash] *)
  on_slash : Balance -> Bal -> Bal;
}.

Section conversion.
Context {L : Balances} {G : Signatures} {K : AccountCodec} {P : Perthings}.
Context {C : ConversionConfig (L := L)}.

(** * The storage *)
Record ConvState := mkConvState {
  initiated_conversion : gmap AccountId InitiatedConversionMessage;
  locked_conversion : gmap AccountId Conversion;
  unprocessed_conversion : gmap AccountId ConversionMessage;
  conversion_enabled : bool;
  denied_source : gmap AccountId bool;
  (** the block number, the events and the state of the currency *)
  conv_block : BlockNumber;
  conversion_events : list ConversionEvent;
  conv_ext : Bal;
}.
Definition set_initiated_conversion (v : gmap AccountId InitiatedConversionMessage) (x : ConvState) : ConvState :=
  mkConvState v x.(locked_conversion) x.(unprocessed_conversion) x.(conversion_enabled) x.(denied_source) x.(conv_block) x.(conversion_events) x.(conv_ext).
Definition set_locked_conversion (v : gmap AccountId Conversion) (x : ConvState) : ConvState :=
  mkConvState x.(initiated_conversion) v x.(unprocessed_conversion) x.(conversion_enabled) x.(denied_source) x.(conv_block) x.(conversion_events) x.(conv_ext).
Definition set_unprocessed_conversion (v : gmap AccountId ConversionMessage) (x : ConvState) : ConvState :=
  mkConvState x.(initiated_conversion) x.(locked_conversion) v x.(conversion_enabled) x.(denied_source) x.(conv_block) x.(conversion_events) x.(conv_ext).
Definition set_conversion_enabled (v : bool) (x : ConvState) : ConvState :=
  mkConvState x.(initiated_conversion) x.(locked_conversion) x.(unprocessed_conversion) v x.(denied_source) x.(conv_block) x.(conversion_events) x.(conv_ext).
Definition set_denied_source (v : gmap AccountId bool) (x : ConvState) : ConvState :=
  mkConvState x.(initiated_conversion) x.(locked_conversion) x.(unprocessed_conversion) x.(conversion_enabled) v x.(conv_block) x.(conversion_events) x.(conv_ext).
Definition set_conv_block (v : BlockNumber) (x : ConvState) : ConvState :=
  mkConvState x.(initiated_conversion) x.(locked_conversion) x.(unprocessed_conversion) x.(conversion_enabled) x.(denied_source) v x.(conversion_events) x.(conv_ext).
Definition set_conversion_events (v : list ConversionEvent) (x : ConvState) : ConvState :=
  mkConvState x.(initiated_conversion) x.(locked_conversion) x.(unprocessed_conversion) x.(conversion_enabled) x.(denied_source) x.(conv_block) v x.(conv_ext).
Definition set_conv_ext (v : Bal) (x : ConvState) : ConvState :=
  mkConvState x.(initiated_conversion) x.(locked_conversion) x.(unprocessed_conversion) x.(conversion_enabled) x.(denied_source) x.(conv_block) x.(conversion_events) v.

Definition conversion_genesis (x : Bal) : ConvState := mkConvState ∅ ∅ ∅ false ∅ 0 [] x.

Definition MV (A : Type) : Type := M ConvState ConversionError A.

Definition conversion_event (e : ConversionEvent) : MV unit :=
  modify (fun s => set_conversion_events (s.(conversion_events) ++ [e]) s).
Definition conversion_signed (origin : RuntimeOrigin) : MV AccountId :=
  match origin with Signed who => ret who | Root => throw ConversionBadOrigin end.
(** Operations of the currency *)
Definition conv_currency (f : Bal -> option Bal) : MV unit :=
  let* x := gets conv_ext in
  let* x' := ok_or (f x) ConversionCurrencyError in
  modify (set_conv_ext x').
Definition conv_currency_val {A} (f : Bal -> option (A * Bal)) : MV A :=
  let* x := gets conv_ext in
  let* r := ok_or (f x) ConversionCurrencyError in
  modify (set_conv_ext r.2);;
  ret r.1.

(** * Processing *)
Definition fund (m : ConversionMessage) : MV Balance :=
  conv_currency_val (b_transfer Protect conversion_account m.(cm_account) m.(cm_amount)).
Definition undo_fund (m : ConversionMessage) : MV Balance :=
  conv_currency_val (b_transfer Expendable m.(cm_account) conversion_account m.(cm_amount)).

Definition hold (transferred_balance : Balance) (m : ConversionMessage) : MV unit :=
  let hold_amount := saturating_sub transferred_balance Liquidity in
  let* x := gets conv_ext in
  let hold_amount :=
    if hold_amount =? 0 then
      Z.min transferred_balance (b_reducible_balance Protect Polite x m.(cm_account))
    else hold_amount in
  conv_currency (b_hold ConversionHold m.(cm_account) hold_amount);;
  let* current_block_number := gets conv_block in
  modify (fun s => set_locked_conversion
    (<[m.(cm_account) := mkConversion hold_amount current_block_number]> s.(locked_conversion)) s).

(** [match result { Ok(a) => .., Err(_) => .. }]: an error keeps what was written *)
Definition try_catch {A B} (m : MV A) (ok : A -> MV B) (err : MV B) : MV B :=
  fun s => match m s with
           | (Ok a, s') => ok a s'
           | (Err _, s') => err s'
           | (Panic, s') => (Panic, s')
           end.

Definition keep_unprocessed (m : ConversionMessage) : MV unit :=
  modify (fun s => set_unprocessed_conversion (<[m.(cm_account) := m]> s.(unprocessed_conversion)) s);;
  conversion_event (ConversionNotProcessed m.(cm_account) m.(cm_amount)).

Definition process_conversion (conversion_message : ConversionMessage) : MV unit :=
  let* locked := gets (fun s => s.(locked_conversion) !! conversion_message.(cm_account)) in
  match locked with
  | Some _ => ret tt
  | None =>
      let* first := gets (fun s => s.(unprocessed_conversion) !! conversion_message.(cm_account)) in
      modify (fun s => set_unprocessed_conversion
        (delete conversion_message.(cm_account) s.(unprocessed_conversion)) s);;
      let m := default conversion_message first in
      try_catch (fund m)
        (fun balance =>
           try_catch (hold balance m)
             (fun _ => conversion_event (ConversionProcessed m.(cm_account) m.(cm_amount)))
             (try_catch (undo_fund m) (fun _ => ret tt) (ret tt);; keep_unprocessed m))
        (keep_unprocessed m)
  end.

(** [MessageProcessor::process] *)
Definition process_conversion_message (message : MessageBody) : MV unit :=
  let* expected_sender := ok_or ReceiveFrom ConvertFromNotEnabled in
  ensure (bool_decide (expected_sender = message.(mb_sender))) InvalidSender;;
  let* decoded_message := ok_or (conversion_decode message.(mb_payload)) DecodingFailure in
  process_conversion decoded_message.

(** [Slashable::slash]: the credit, [None] if there is no conversion *)
Definition slash_conversion (account : AccountId) (amount : Balance) (s : ConvState)
  : option (Balance * ConvState) :=
  match s.(locked_conversion) !! account with
  | None => None
  | Some conversion =>
      let '(credit, not_slashed, x) := b_slash_held ConversionHold account amount s.(conv_ext) in
      let new_amount := saturating_sub conversion.(cv_amount) (saturating_sub amount not_slashed) in
      Some (credit, set_locked_conversion
        (put_opt account
           (if new_amount =? 0 then None
            else Some (mkConversion new_amount conversion.(cv_lock_start)))
           s.(locked_conversion)) (set_conv_ext x s))
  end.

(** * Calls on the receiving network *)

(** What is kept of an amount that is unlocked after [lock_progress] blocks *)
Definition amount_unlocked (lock_progress : BlockNumber) (amount : Balance) : Balance :=
  pq_mul_floor (pq_from_rational lock_progress MaxLockDuration) amount.

Definition take_penalty (who : AccountId) (slash : Balance) : MV unit :=
  if slash =? 0 then ret tt else
  let* x := gets conv_ext in
  ensure (slash <=? b_reducible_balance Preserve Polite x who) CannotUnlock;;
  let* imbalance := conv_currency_val (b_withdraw Exact Preserve Polite who slash) in
  modify (fun s => set_conv_ext (on_slash imbalance s.(conv_ext)) s).

Definition unlock (origin : RuntimeOrigin) : MV unit :=
  let* who := conversion_signed origin in
  let* maybe_locked_conversion := gets (fun s => s.(locked_conversion) !! who) in
  match maybe_locked_conversion with
  | None => ret tt
  | Some locked_conversion_ =>
      let* current_block_number := gets conv_block in
      let lock_progress :=
        Z.min (saturating_sub current_block_number locked_conversion_.(cv_lock_start)) MaxLockDuration in
      ensure (MinLockDuration <=? lock_progress) CannotUnlockYet;;
      let unlocked := amount_unlocked lock_progress locked_conversion_.(cv_amount) in
      let slash := saturating_sub locked_conversion_.(cv_amount) unlocked in
      conv_currency (b_release_all ConversionHold Exact who);;
      take_penalty who slash;;
      modify (fun s => set_locked_conversion (delete who s.(locked_conversion)) s)
  end;;
  conversion_event (ConversionUnlocked who).

Definition retry_process (account : AccountId) : MV unit :=
  let* _ := ok_or ReceiveFrom ConvertFromNotEnabled in
  let* m := gets (fun s => s.(unprocessed_conversion) !! account) in
  modify (fun s => set_unprocessed_conversion (delete account s.(unprocessed_conversion)) s);;
  let* conversion_message := ok_or m ConversionLockNotFound in
  process_conversion conversion_message.

Definition retry_process_conversion (origin : RuntimeOrigin) : MV unit :=
  let* who := conversion_signed origin in
  retry_process who.
Definition retry_process_conversion_for (origin : RuntimeOrigin) (account : AccountId) : MV unit :=
  let* _ := conversion_signed origin in
  retry_process account.

Definition set_enabled (origin : RuntimeOrigin) (enable : bool) : MV unit :=
  ensure (EnableOrigin origin) ConversionBadOrigin;;
  modify (set_conversion_enabled enable).
Definition deny_source (origin : RuntimeOrigin) (account : AccountId) (denied : bool) : MV unit :=
  ensure (EnableOrigin origin) ConversionBadOrigin;;
  modify (fun s => set_denied_source (<[account := denied]> s.(denied_source)) s).

(** * Calls on the sending network *)

Definition ensure_enabled : MV unit :=
  let* e := gets conversion_enabled in
  ensure e NotEnabled.
Definition ensure_not_denied (account : AccountId) : MV unit :=
  let* d := gets (fun s => s.(denied_source) !! account) in
  ensure (negb (default false d)) ConversionDenied.

(** The part of [convert] before the message is sent: what is burnt *)
Definition burn_converted (who : AccountId) (fee : Balance) : MV Balance :=
  let* o := gets (fun s => s.(initiated_conversion) !! who) in
  ensure (negb (bool_decide (is_Some o))) AlreadyConverted;;
  let* x := gets conv_ext in
  let total_balance := b_balance x who in
  let reducible_balance := b_reducible_balance Preserve Polite x who in
  let frozen_balance :=
    saturating_sub total_balance (saturating_add u128_max reducible_balance b_minimum_balance) in
  ensure (frozen_balance =? 0) LockedBalance;;
  ensure (fee <=? reducible_balance) CannotPayFee;;
  ensure (MinConversionAmount <=? reducible_balance - fee) BalanceTooLow;;
  let burnable_balance := wrap_as u128_max (reducible_balance - fee - Liquidity) in
  let* burned := conv_currency_val (b_burn_from Preserve Exact Polite who burnable_balance) in
  ensure (burnable_balance =? burned) BalanceTooLow;;
  let* current_block_number := gets conv_block in
  modify (fun s => set_initiated_conversion
    (<[who := mkInitiated burned who current_block_number]> s.(initiated_conversion)) s);;
  ret burned.

Definition update_initiated_conversion (account new_fee_payer : AccountId)
  : MV (option (Balance * AccountId)) :=
  let* o := gets (fun s => s.(initiated_conversion) !! account) in
  match o with
  | None => ret None
  | Some i =>
      modify (fun s => set_initiated_conversion
        (<[account := mkInitiated i.(im_burned) new_fee_payer i.(im_started_at)]>
           s.(initiated_conversion)) s);;
      ret (Some (i.(im_burned), i.(im_fee_payer)))
  end.

(** The state that the calls run in: it holds the storage of this pallet, and sends
    messages ([MessageSender], which returns the fee of a replaced message). *)
Class ConversionSender (W : Type) := {
  conv_of : W -> ConvState;
  put_conv : ConvState -> W -> W;
  conversion_hash : list Z -> MessageNonce;
  send_conversion : AccountId -> AccountId -> MessageNonce -> Subject -> list Z -> BlockNumber ->
    Balance -> M W ConversionError (option Balance);
}.

Section sending.
Context {W : Type} {S : ConversionSender W}.

Definition on_conv {A} (m : MV A) : M W ConversionError A := zoom conv_of put_conv m.

Definition send_convert_message (account : AccountId) (fee_payer prev_fee_payer : option AccountId)
  (amount fee : Balance) (destination : Subject) : M W ConversionError unit :=
  let pallet_account := conversion_account in
  let payer := default account fee_payer in
  let prev_payer := default account prev_fee_payer in
  (if fee =? 0 then ret tt else
     let* transferred := on_conv (conv_currency_val (b_transfer Preserve payer pallet_account fee)) in
     ensure (transferred =? fee) CannotPayFee);;
  let nonce := account_encode pallet_account ++ account_encode account in
  let payload := conversion_encode (mkConversionMessage account amount) in
  let* maybe_replaced_message :=
    send_conversion pallet_account pallet_account (conversion_hash nonce) destination payload
      ConvertTTL fee in
  match maybe_replaced_message with
  | None => ret tt
  | Some fee =>
      if fee =? 0 then ret tt else
      let* _ := on_conv (conv_currency_val (b_transfer Preserve pallet_account prev_payer fee)) in
      ret tt
  end.

Definition convert (origin : RuntimeOrigin) (fee : Balance) : M W ConversionError unit :=
  on_conv ensure_enabled;;
  let* who := on_conv (conversion_signed origin) in
  on_conv (ensure_not_denied who);;
  let* destination := ok_or SendTo ConvertToNotEnabled in
  let* burned := on_conv (burn_converted who fee) in
  send_convert_message who None None burned fee destination;;
  on_conv (conversion_event (ConversionInitiated who burned)).

Definition retry_convert (origin : RuntimeOrigin) (fee : Balance) : M W ConversionError unit :=
  let* who := on_conv (conversion_signed origin) in
  let* destination := ok_or SendTo ConvertToNotEnabled in
  let* o := on_conv (update_initiated_conversion who who) in
  let* p := ok_or o ConversionLockNotFound in
  send_convert_message who None (Some p.2) p.1 fee destination;;
  on_conv (conversion_event (ConversionRetried who)).

Definition retry_convert_for (origin : RuntimeOrigin) (account : AccountId) (fee : Balance)
  : M W ConversionError unit :=
  let* who := on_conv (conversion_signed origin) in
  let* destination := ok_or SendTo ConvertToNotEnabled in
  let* o := on_conv (update_initiated_conversion account who) in
  let* p := ok_or o ConversionLockNotFound in
  send_convert_message account (Some who) (Some p.2) p.1 fee destination;;
  on_conv (conversion_event (ConversionRetried account)).

(** * The calls *)
Inductive ConversionCall :=
| Convert (fee : Balance)
| Unlock
| RetryConvert (fee : Balance)
| RetryConvertFor (account : AccountId) (fee : Balance)
| RetryProcessConversion
| RetryProcessConversionFor (account : AccountId)
| SetConversionEnabled (enable : bool)
| DenySource (account : AccountId) (denied : bool).

Definition run_conversion_call (origin : RuntimeOrigin) (c : ConversionCall) : M W ConversionError unit :=
  match c with
  | Convert fee => convert origin fee
  | Unlock => on_conv (unlock origin)
  | RetryConvert fee => retry_convert origin fee
  | RetryConvertFor account fee => retry_convert_for origin account fee
  | RetryProcessConversion => on_conv (retry_process_conversion origin)
  | RetryProcessConversionFor account => on_conv (retry_process_conversion_for origin account)
  | SetConversionEnabled enable => on_conv (set_enabled origin enable)
  | DenySource account denied => on_conv (deny_source origin account denied)
  end.

Definition dispatch_conversion (origin : RuntimeOrigin) (c : ConversionCall) : M W ConversionError unit :=
  with_transaction (run_conversion_call origin c).
End sending.
End conversion.
