(* ===== verification/TokenConversionSpecs.v ===== *)
(** Conversions of tokens: what the pallet remembers as locked is what the currency
    holds, an early unlock keeps no more than the share of the time that has passed,
    and the codec of the messages is a round trip. *)
From S2P Require Import Prelude Perthings JobTypes Balances TokenClaim BridgeTypes.
From S2P Require Import TokenConversion BalancesReference.

Section specs.
Context {L : Balances} {G : Signatures} {K : AccountCodec} {P : Perthings} {PL : PerthingsLaws P}.
Context {C : ConversionConfig (L := L)}.

Notation held := (b_on_hold ConversionHold).

(** [n], if it concerns the account [a] *)
Definition to_account (a who : AccountId) (n : Balance) : Balance := if bool_decide (who = a) then n else 0.

(** What is assumed of the currency: holding, releasing and slashing change the hold
    they name by the amount; nothing else touches the holds for conversions. *)
Record conversion_laws : Prop := {
  vl_transfer p from to n x m x' a :
    b_transfer p from to n x = Some (m, x') -> m = n /\ held x' a = held x a;
  vl_reducible p f x a : 0 <= b_reducible_balance p f x a;
  vl_burn p e f who n x m x' a : b_burn_from p e f who n x = Some (m, x') -> held x' a = held x a;
  vl_withdraw e p f who n x m x' a : b_withdraw e p f who n x = Some (m, x') -> held x' a = held x a;
  vl_hold who n x x' a :
    b_hold ConversionHold who n x = Some x' -> held x' a = held x a + to_account a who n;
  vl_release_all e who x x' a :
    b_release_all ConversionHold e who x = Some x' -> held x' a = if bool_decide (who = a) then 0 else held x a;
  vl_slash who n x c m x' a :
    0 <= n -> 0 <= held x who -> b_slash_held ConversionHold who n x = (c, m, x') ->
    0 <= n - m <= held x who /\ 0 <= m /\ held x' a = held x a - to_account a who (n - m);
  vl_on_slash c x a : held (on_slash c x) a = held x a;
}.
Context (laws : conversion_laws).

(** * Runs of the parts *)
Lemma conv_currency_run f s :
  conv_currency f s =
  match f s.(conv_ext) with Some x => (Ok tt, set_conv_ext x s) | None => (Err ConversionCurrencyError, s) end.
Proof. unfold conv_currency, bind, gets, ok_or, modify, ret, throw. by destruct (f _). Qed.
Lemma conv_currency_val_run {A} (f : Bal -> option (A * Bal)) s :
  conv_currency_val f s =
  match f s.(conv_ext) with Some (a, x) => (Ok a, set_conv_ext x s) | None => (Err ConversionCurrencyError, s) end.
Proof. unfold conv_currency_val, bind, gets, ok_or, modify, ret, throw. by destruct (f _) as [[]|]. Qed.

(** * The invariant *)
Definition locked_amount (s : ConvState) (who : AccountId) : Balance :=
  from_option cv_amount 0 (s.(locked_conversion) !! who).

Record conversion_inv (s : ConvState) : Prop := {
  vi_held who : held s.(conv_ext) who = locked_amount s who;
  vi_locked who c : s.(locked_conversion) !! who = Some c ->
    0 <= c.(cv_amount) /\ 0 <= c.(cv_lock_start) <= s.(conv_block);
  vi_block : 0 <= s.(conv_block);
  vi_unprocessed who m : s.(unprocessed_conversion) !! who = Some m -> m.(cm_account) = who /\ 0 <= m.(cm_amount);
}.

(** Changes that concern neither the holds nor the locks *)
Lemma conversion_inv_ext s x :
  (forall a, held x a = held s.(conv_ext) a) -> conversion_inv s -> conversion_inv (set_conv_ext x s).
Proof. intros Hx [Hh Hl Hb Hu]. split; try done. intros who. simpl. by rewrite Hx, Hh. Qed.
Lemma conversion_inv_view s s' :
  s'.(conv_ext) = s.(conv_ext) -> s'.(locked_conversion) = s.(locked_conversion) ->
  s'.(unprocessed_conversion) = s.(unprocessed_conversion) -> s.(conv_block) <= s'.(conv_block) ->
  conversion_inv s -> conversion_inv s'.
Proof.
  intros He Hl Hu Hb [Hh Hk Hn Hm]. unfold locked_amount in *.
  split; unfold locked_amount; rewrite ?He, ?Hl, ?Hu; try done; [|lia].
  intros who c Hc. specialize (Hk who c Hc). lia.
Qed.
Lemma conversion_inv_unprocessed s u :
  (forall who m, u !! who = Some m -> m.(cm_account) = who /\ 0 <= m.(cm_amount)) ->
  conversion_inv s -> conversion_inv (set_unprocessed_conversion u s).
Proof. intros Hu [Hh Hk Hn Hm]. by split. Qed.

Lemma kept_conv_currency_val {A} (f : Bal -> option (A * Bal)) :
  (forall x a x' who, f x = Some (a, x') -> held x' who = held x who) ->
  kept conversion_inv (conv_currency_val f).
Proof.
  intros Hf s a s' Hi Hr. rewrite conv_currency_val_run in Hr.
  destruct (f _) as [[b x]|] eqn:E; [|done]. injection Hr as <- <-.
  apply conversion_inv_ext; [|done]. intros who. by eapply Hf.
Qed.
Lemma kept_conversion_event e : kept conversion_inv (conversion_event e).
Proof. apply kept_modify. intros s. by apply conversion_inv_view. Qed.
Lemma kept_conversion_signed o : kept conversion_inv (conversion_signed o).
Proof. destruct o; [apply kept_ret|apply kept_throw]. Qed.
Local Hint Resolve kept_conversion_event kept_conversion_signed : kept.

Lemma kept_keep_unprocessed m : 0 <= m.(cm_amount) -> kept conversion_inv (keep_unprocessed m).
Proof.
  intros Hm. apply kept_bind; [|intros []; apply kept_conversion_event].
  apply kept_modify. intros s Hi. apply conversion_inv_unprocessed; [|done].
  intros who m' [[<- <-]|[_ ?]]%lookup_insert_Some; [done|]. by apply (vi_unprocessed _ Hi).
Qed.

(** The hold of a conversion of an account that has none *)
Lemma hold_run s n m r s' :
  conversion_inv s -> 0 <= n -> s.(locked_conversion) !! m.(cm_account) = None ->
  hold n m s = (r, s') ->
  (r = Ok tt /\ conversion_inv s') \/ (r = Err ConversionCurrencyError /\ s' = s).
Proof.
  intros Hi Hn Hl. unfold hold, bind at 1, gets at 1. cbv zeta.
  set (k := if _ =? 0 then _ else _). assert (0 <= k) as Hk.
  { pose proof (vl_reducible laws Protect Polite (conv_ext s) (cm_account m)).
    unfold k, saturating_sub. destruct (_ =? 0); lia. }
  unfold bind at 1. rewrite conv_currency_run.
  destruct (b_hold _ _ _ _) as [x|] eqn:Ex; intros [= <- <-]; [left|by right]. split; [done|].
  pose proof (fun a => vl_hold laws _ _ _ _ a Ex) as Hx. destruct Hi as [Hh Hc Hb Hu].
  split; simpl; try done.
  - intros who. rewrite Hx, Hh. unfold locked_amount, to_account. simpl.
    case_bool_decide as Hw; [subst who|].
    + rewrite Hl, lookup_insert_eq. simpl. lia.
    + rewrite lookup_insert_ne by done. lia.
  - intros who c [[<- <-]|[_ Hw]]%lookup_insert_Some; [simpl; lia|]. by eapply Hc.
Qed.

Lemma process_conversion_kept m : 0 <= m.(cm_amount) -> kept conversion_inv (process_conversion m).
Proof.
  intros Hm s u s' Hi (l & s1 & [Hl <-]%gets_ok & Hr)%bind_ok. destruct l as [c|].
  { by apply ret_ok in Hr as [_ <-]. }
  apply bind_ok in Hr as (f & s1 & [Hf <-]%gets_ok & Hr).
  apply bind_ok in Hr as ([] & s1 & <-%modify_ok & Hr). revert Hr.
  set (s1 := set_unprocessed_conversion _ s). set (m' := default m f). intros Hr.
  assert (m'.(cm_account) = m.(cm_account) /\ 0 <= m'.(cm_amount)) as [Ha Hm'].
  { destruct f as [f|]; [|done]. exact (vi_unprocessed _ Hi _ _ Hf). }
  assert (conversion_inv s1) as Hi1.
  { apply conversion_inv_unprocessed; [|done]. intros who y [_ Hy]%lookup_delete_Some.
    by apply (vi_unprocessed _ Hi). }
  assert (s1.(locked_conversion) !! m'.(cm_account) = None) as Hl1 by by rewrite Ha.
  clearbody s1 m'. unfold try_catch at 1, fund in Hr. rewrite conv_currency_val_run in Hr.
  destruct (b_transfer _ _ _ _ _) as [[n x]|] eqn:Ex; [|by eapply (kept_keep_unprocessed m')].
  assert (conversion_inv (set_conv_ext x s1)) as Hi2.
  { apply conversion_inv_ext; [|done]. intros a. by eapply (vl_transfer laws). }
  assert (n = m'.(cm_amount)) as -> by by eapply (vl_transfer laws).
  unfold try_catch at 1 in Hr. destruct (hold _ _ _) as [r s2] eqn:Eh.
  destruct (hold_run _ _ _ _ _ Hi2 Hm' Hl1 Eh) as [[-> Hi3]|[-> ->]].
  - by eapply kept_conversion_event.
  - apply bind_ok in Hr as ([] & s3 & Hun & Hr). eapply (kept_keep_unprocessed m'); [done| |exact Hr].
    unfold try_catch, undo_fund in Hun. rewrite conv_currency_val_run in Hun. simpl in Hun.
    destruct (b_transfer _ _ _ _ x) as [[k y]|] eqn:Ey; injection Hun as <-; [|done].
    apply conversion_inv_ext; [|done]. intros a. by eapply (vl_transfer laws).
Qed.

(** ** The other operations *)
Lemma slash_conversion_inv s who n c s' :
  conversion_inv s -> 0 <= n -> slash_conversion who n s = Some (c, s') -> conversion_inv s'.
Proof.
  intros Hi Hn. unfold slash_conversion. destruct (locked_conversion s !! who) as [v|] eqn:Ev; [|done].
  destruct (b_slash_held _ _ _ _) as [[cr m] x] eqn:Ex. intros [= _ <-].
  destruct Hi as [Hh Hc Hb Hu]. destruct (Hc _ _ Ev) as [Ha Hs].
  assert (held (conv_ext s) who = cv_amount v) as Hv by (rewrite Hh; unfold locked_amount; by rewrite Ev).
  assert (forall a, 0 <= n - m <= cv_amount v /\ 0 <= m /\
    held x a = held (conv_ext s) a - to_account a who (n - m)) as Hx.
  { intros a. rewrite <-Hv. apply (vl_slash laws _ _ _ _ _ _ a) in Ex; [done|done|]. lia. }
  destruct (Hx who) as (Hr & Hm & _).
  assert (saturating_sub (cv_amount v) (saturating_sub n m) = cv_amount v - (n - m)) as ->
    by (unfold saturating_sub; lia).
  split; simpl; try done.
  - intros a. destruct (Hx a) as (_ & _ & ->). rewrite Hh. unfold locked_amount, to_account. simpl.
    case_bool_decide as Hw; [subst a|].
    + rewrite Ev. destruct (Z.eqb_spec (cv_amount v - (n - m)) 0); simpl;
        rewrite ?lookup_delete_eq, ?lookup_insert_eq; simpl; lia.
    + destruct (_ =? 0); simpl; [rewrite lookup_delete_ne by done|rewrite lookup_insert_ne by done]; lia.
  - intros a c'. destruct (_ =? 0); simpl.
    + intros [_ Hw]%lookup_delete_Some. by eapply Hc.
    + intros [[<- <-]|[_ Hw]]%lookup_insert_Some; [simpl; lia|by eapply Hc].
Qed.

Lemma take_penalty_ok who n s s' :
  take_penalty who n s = (Ok tt, s') ->
  (n = 0 /\ s' = s) \/
  exists z credit, b_withdraw Exact Preserve Polite who n s.(conv_ext) = Some (credit, z) /\
    s' = set_conv_ext (on_slash credit z) s.
Proof.
  unfold take_penalty. destruct (Z.eqb_spec n 0) as [Hz|Hz]; intros Hp.
  { apply ret_ok in Hp as [_ <-]. by left. }
  right. apply bind_ok in Hp as (x' & s2 & [<- <-]%gets_ok & Hp).
  apply bind_ok in Hp as ([] & s2 & [_ <-]%ensure_ok & Hp).
  apply bind_ok in Hp as (credit & s2 & Hw & <-%modify_ok). rewrite conv_currency_val_run in Hw.
  destruct (b_withdraw _ _ _ _ _ _) as [[cr z]|] eqn:Ez; [|done]. injection Hw as <- <-.
  by exists z, cr.
Qed.

(** What a successful unlock of a conversion does *)
Lemma unlock_ok s who c s' :
  s.(locked_conversion) !! who = Some c -> unlock (Signed who) s = (Ok tt, s') ->
  let progress := Z.min (saturating_sub s.(conv_block) c.(cv_lock_start)) MaxLockDuration in
  let penalty := saturating_sub c.(cv_amount) (amount_unlocked progress c.(cv_amount)) in
  MinLockDuration <= progress /\
  exists x y e,
    b_release_all ConversionHold Exact who s.(conv_ext) = Some x /\
    ((penalty = 0 /\ y = x) \/
     (exists z credit, b_withdraw Exact Preserve Polite who penalty x = Some (credit, z) /\ y = on_slash credit z)) /\
    s' = set_conversion_events e (set_locked_conversion (delete who s.(locked_conversion)) (set_conv_ext y s)).
Proof.
  intros Hc (w & s1 & [<- <-]%ret_ok & Hr)%bind_ok. cbv zeta.
  apply bind_ok in Hr as (l & s2 & [Hl <-]%gets_ok & Hr). apply bind_ok in Hr as ([] & s1 & Hr & He).
  rewrite Hc in Hl. subst l. apply bind_ok in Hr as (now & s2 & [<- <-]%gets_ok & Hr). cbv zeta in Hr.
  apply bind_ok in Hr as ([] & s2 & [Hm%Z.leb_le <-]%ensure_ok & Hr). split; [exact Hm|].
  apply bind_ok in Hr as ([] & s2 & Hrel & Hr). rewrite conv_currency_run in Hrel.
  destruct (b_release_all _ _ _ _) as [x|] eqn:Ex; [|done]. injection Hrel as <-.
  apply bind_ok in Hr as ([] & s3 & Hp & <-%modify_ok). apply modify_ok in He as <-.
  exists x. apply take_penalty_ok in Hp as [[Hz ->]|(z & cr & Hw & ->)].
  - exists x. eexists. split; [done|]. split; [by left|]. by destruct s.
  - exists (on_slash cr z). eexists. split; [done|]. split; [right; by exists z, cr|]. by destruct s.
Qed.

Lemma unlock_kept o : kept conversion_inv (unlock o).
Proof.
  intros s [] s' Hi Hr. destruct o as [who|]; [|by apply bind_ok in Hr as (? & ? & []%throw_ok & _)].
  destruct (locked_conversion s !! who) as [c|] eqn:Ec.
  - destruct (unlock_ok _ _ _ _ Ec Hr) as (_ & x & y & e & Hx & Hy & ->).
    pose proof (fun a => vl_release_all laws _ _ _ _ a Hx) as Hrel.
    assert (forall a, held y a = held x a) as Hyx.
    { intros a. destruct Hy as [[_ ->]|(z & cr & Hz & ->)]; [done|].
      rewrite (vl_on_slash laws). by eapply (vl_withdraw laws). }
    destruct Hi as [Hh Hc Hb Hu]. split; simpl; try done.
    + intros a. rewrite Hyx, Hrel. unfold locked_amount. simpl. case_bool_decide as Hw; [subst a|].
      * by rewrite lookup_delete_eq.
      * rewrite lookup_delete_ne by done. by rewrite Hh.
    + intros a v [_ Hv]%lookup_delete_Some. by eapply Hc.
  - apply bind_ok in Hr as (w & s1 & [<- <-]%ret_ok & Hr).
    apply bind_ok in Hr as (l & s2 & [Hl <-]%gets_ok & Hr). apply bind_ok in Hr as ([] & s1 & Hr & He).
    rewrite Ec in Hl. subst l. apply ret_ok in Hr as [_ <-]. by eapply kept_conversion_event.
Qed.

Lemma retry_process_kept a : kept conversion_inv (retry_process a).
Proof.
  intros s u s' Hi (r & s1 & [_ <-]%ok_or_ok & Hr)%bind_ok.
  apply bind_ok in Hr as (m & s1 & [Hm <-]%gets_ok & Hr).
  apply bind_ok in Hr as ([] & s1 & <-%modify_ok & Hr). apply bind_ok in Hr as (y & s1 & [-> <-]%ok_or_ok & Hr).
  eapply process_conversion_kept; [by eapply (vi_unprocessed _ Hi)| |exact Hr].
  apply conversion_inv_unprocessed; [|done]. intros who z [_ Hz]%lookup_delete_Some.
  by apply (vi_unprocessed _ Hi).
Qed.

(** The numbers of a message are not negative. *)
Definition bytes_typed (l : list Z) : Prop := Forall (fun b => 0 <= b < 256) l.
Lemma scale_uint_decode_nonneg w l n : bytes_typed l -> scale_uint_decode w l = Some n -> 0 <= n.
Proof.
  revert l n. induction w as [|w IH]; intros l n Hl; simpl; [by intros [= <-]|].
  destruct l as [|b l]; [done|]. intros (m & Hm & [= <-])%bind_Some.
  inversion Hl; subst. apply IH in Hm; [lia|done].
Qed.
Lemma process_conversion_message_kept m :
  bytes_typed m.(mb_payload) -> kept conversion_inv (process_conversion_message m).
Proof.
  intros Hb s u s' Hi (r & s1 & [_ <-]%ok_or_ok & Hr)%bind_ok.
  apply bind_ok in Hr as ([] & s1 & [_ <-]%ensure_ok & Hr).
  apply bind_ok in Hr as (y & s1 & [Hy <-]%ok_or_ok & Hr).
  eapply process_conversion_kept; [|exact Hi|exact Hr].
  unfold conversion_decode in Hy. destruct (_ <? _)%nat; [done|].
  apply bind_Some in Hy as (a & _ & (n & Hn & [= <-])%bind_Some). simpl.
  eapply scale_uint_decode_nonneg; [|exact Hn]. by apply Forall_drop.
Qed.

(** ** The sending network *)
Lemma kept_initiated g : kept conversion_inv (modify (E := ConversionError) (fun s => set_initiated_conversion (g s) s)).
Proof. apply kept_modify. intros s. by apply conversion_inv_view. Qed.
Lemma kept_burn p e f who n : kept conversion_inv (conv_currency_val (b_burn_from p e f who n)).
Proof. apply kept_conv_currency_val. intros. by eapply (vl_burn laws). Qed.
Lemma kept_conv_transfer p from to n : kept conversion_inv (conv_currency_val (b_transfer p from to n)).
Proof. apply kept_conv_currency_val. intros. by eapply (vl_transfer laws). Qed.
Local Hint Resolve kept_initiated kept_burn kept_conv_transfer unlock_kept retry_process_kept : kept.

Lemma burn_converted_kept who fee : kept conversion_inv (burn_converted who fee).
Proof. solve_kept. Qed.
Lemma update_initiated_kept a p : kept conversion_inv (update_initiated_conversion a p).
Proof. solve_kept. Qed.
Lemma set_enabled_kept o b : kept conversion_inv (set_enabled o b).
Proof. apply kept_bind; [apply kept_ensure|]. intros []. apply kept_modify. intros s. by apply conversion_inv_view. Qed.
Lemma deny_source_kept o a b : kept conversion_inv (deny_source o a b).
Proof. apply kept_bind; [apply kept_ensure|]. intros []. apply kept_modify. intros s. by apply conversion_inv_view. Qed.
Local Hint Resolve burn_converted_kept update_initiated_kept set_enabled_kept deny_source_kept : kept.

(** * The state of the chain around the pallet *)
Section sender.
Context {W : Type} {S : ConversionSender W}.

(** Sending a message leaves the storage of the pallet and its holds alone. *)
Record sender_laws : Prop := {
  se_get s w : conv_of (put_conv s w) = s;
  se_send a p n sd l t fee w r w' :
    send_conversion a p n sd l t fee w = (r, w') ->
    exists x, conv_of w' = set_conv_ext x (conv_of w) /\ forall who, held x who = held (conv_of w).(conv_ext) who;
}.
Context (slaws : sender_laws).

Notation inv_of := (fun w => conversion_inv (conv_of w)).

Lemma kept_on_conv {A} (m : MV A) : kept conversion_inv m -> kept inv_of (on_conv m).
Proof.
  intros Hm w a w' Hi Hr. unfold on_conv, zoom in Hr. destruct (m (conv_of w)) as [r s'] eqn:E.
  injection Hr as -> <-. rewrite (se_get slaws). by eapply Hm.
Qed.
Lemma kept_send_conversion a p n sd l t fee : kept inv_of (send_conversion a p n sd l t fee).
Proof.
  intros w o w' Hi Hr. destruct (se_send slaws _ _ _ _ _ _ _ _ _ _ Hr) as (x & -> & Hx).
  by apply conversion_inv_ext.
Qed.
Local Hint Extern 1 (kept _ (on_conv _)) => (apply kept_on_conv; solve_kept) : kept.
Local Hint Resolve kept_send_conversion : kept.

Lemma run_conversion_call_kept o c : kept inv_of (run_conversion_call o c).
Proof. solve_kept. Qed.

(** A step of the chain, as the pallet sees it: a call, a message that is processed,
    a slash by the compute pallet, a block, or a change of the currency by others
    that leaves the holds for conversions alone. *)
Inductive conversion_step : W -> W -> Prop :=
| step_conversion_call o c w : conversion_step w (exec (dispatch_conversion o c) w)
| step_conversion_message m w :
    bytes_typed m.(mb_payload) ->
    conversion_step w (exec (with_transaction (on_conv (process_conversion_message m))) w)
| step_conversion_slash who n c s' w :
    0 <= n -> slash_conversion who n (conv_of w) = Some (c, s') -> conversion_step w (put_conv s' w)
| step_conversion_block n w :
    (conv_of w).(conv_block) <= n -> conversion_step w (put_conv (set_conv_block n (conv_of w)) w)
| step_conversion_outside w w' x :
    conv_of w' = set_conv_ext x (conv_of w) ->
    (forall who, held x who = held (conv_of w).(conv_ext) who) -> conversion_step w w'.

Lemma kept_exec {A} (I : W -> Prop) (m : M W ConversionError A) w :
  kept I m -> I w -> I (exec (with_transaction m) w).
Proof.
  intros Hm Hi. destruct (with_transaction m w) as [r w'] eqn:E. unfold exec. rewrite E.
  by destruct (kept_pres I m Hm w r w' Hi E).
Qed.

Lemma conversion_step_inv w w' : conversion_step w w' -> conversion_inv (conv_of w) -> conversion_inv (conv_of w').
Proof.
  intros Hs Hi. destruct Hs as [o c w|m w Hm|who n c s' w Hn Hs|n w Hn|w w' x Hx Hh].
  - apply (kept_exec inv_of); [|done]. apply run_conversion_call_kept.
  - apply (kept_exec inv_of); [|done]. by apply kept_on_conv, process_conversion_message_kept.
  - rewrite (se_get slaws). by eapply slash_conversion_inv.
  - rewrite (se_get slaws). by apply (conversion_inv_view (conv_of w)).
  - rewrite Hx. by apply conversion_inv_ext.
Qed.
Lemma conversion_reach_inv w w' :
  rtc conversion_step w w' -> conversion_inv (conv_of w) -> conversion_inv (conv_of w').
Proof. induction 1 as [|w w1 w2 Hs _ IH]; [done|]. intros Hi. apply IH. by eapply conversion_step_inv. Qed.
Lemma conversion_inv_genesis x :
  (forall who, held x who = 0) -> conversion_inv (conversion_genesis x).
Proof. by intros Hx; split. Qed.

(** C19: What the pallet has recorded as the locked conversion of an account is, in
    every state of the chain, exactly what the currency has on hold for it: after
    conversions that fail half way and are undone, retries, slashes by the compute
    pallet down to nothing, and unlocks. *)
Theorem locked_conversions_are_on_hold w w' x :
  conv_of w = conversion_genesis x -> (forall who, held x who = 0) ->
  rtc conversion_step w w' ->
  forall who, held (conv_of w').(conv_ext) who = locked_amount (conv_of w') who.
Proof.
  intros Hw Hx Hr. apply vi_held. eapply conversion_reach_inv; [done|]. rewrite Hw.
  by apply conversion_inv_genesis.
Qed.
End sender.

(** * Unlocking *)

(** What is assumed of the balances: an unlock moves the held amount to the free
    balance, a withdrawal takes the amount from it, and the handler of penalties
    changes only the balance of its beneficiary. *)
Record unlock_laws (bal : Bal -> AccountId -> Balance) (beneficiary : AccountId) : Prop := {
  ul_release e who x x' a : 0 <= held x who ->
    b_release_all ConversionHold e who x = Some x' -> bal x' a = bal x a + to_account a who (held x who);
  ul_withdraw f who n x m x' a :
    b_withdraw Exact Preserve f who n x = Some (m, x') -> m = n /\ bal x' a = bal x a - to_account a who n;
  ul_on_slash c x a : a <> beneficiary -> bal (on_slash c x) a = bal x a;
}.

Lemma amount_unlocked_share progress amount :
  0 < MaxLockDuration -> 0 <= progress -> 0 <= amount ->
  0 <= amount_unlocked progress amount <= amount /\
  amount_unlocked progress amount * MaxLockDuration <= amount * progress /\
  amount_unlocked MaxLockDuration amount = amount.
Proof.
  intros Hm Hp Ha. unfold amount_unlocked.
  pose proof (pq_from_rational_range progress MaxLockDuration Hp Hm) as Hr.
  pose proof (pq_from_rational_floor progress MaxLockDuration Hp Hm) as Hf.
  rewrite (pq_from_rational_one MaxLockDuration Hm).
  rewrite (pq_mul_floor_spec _ amount Hr Ha), (pq_mul_floor_spec _ amount) by (unfold is_perquintill, PERQUINTILL; lia).
  set (q := pq_from_rational progress MaxLockDuration) in *. unfold is_perquintill in Hr.
  assert (0 < PERQUINTILL) as Hq by done.
  pose proof (div_mul_le (q * amount) PERQUINTILL Hq).
  assert (0 <= q * amount / PERQUINTILL) by (apply Z.div_pos; nia).
  split; [split; [done|]|split].
  - apply Z.div_le_upper_bound; nia.
  - assert (q * amount / PERQUINTILL * MaxLockDuration * PERQUINTILL <= amount * progress * PERQUINTILL) by nia.
    nia.
  - rewrite Z.mul_comm. by apply Z.div_mul.
Qed.

(** Unlocking a conversion before the minimum lock has passed fails and changes
    nothing.  After it the account gets the held amount back less a penalty: no more
    than the share of the maximal lock that has passed, and all of it once the maximal
    lock has passed; afterwards nothing is locked and nothing on hold. *)
Theorem unlock_keeps_the_share bal beneficiary s who c :
  unlock_laws bal beneficiary -> conversion_inv s ->
  0 < MinLockDuration <= MaxLockDuration -> who <> beneficiary ->
  s.(locked_conversion) !! who = Some c ->
  let elapsed := s.(conv_block) - c.(cv_lock_start) in
  let kept_amount := amount_unlocked (Z.min elapsed MaxLockDuration) c.(cv_amount) in
  (elapsed < MinLockDuration -> with_transaction (unlock (Signed who)) s = (Err CannotUnlockYet, s)) /\
  0 <= kept_amount <= c.(cv_amount) /\
  kept_amount * MaxLockDuration <= c.(cv_amount) * elapsed /\
  (MaxLockDuration <= elapsed -> kept_amount = c.(cv_amount)) /\
  forall s', unlock (Signed who) s = (Ok tt, s') ->
    MinLockDuration <= elapsed /\
    bal s'.(conv_ext) who = bal s.(conv_ext) who + kept_amount /\
    s'.(locked_conversion) !! who = None /\ held s'.(conv_ext) who = 0.
Proof.
  intros ul Hi Hmm Hb Hc elapsed kept_amount. destruct (vi_locked _ Hi _ _ Hc) as [Ha Hs].
  assert (0 <= elapsed) as He by (unfold elapsed; lia).
  assert (saturating_sub s.(conv_block) c.(cv_lock_start) = elapsed) as Hel
    by (unfold saturating_sub, elapsed; lia).
  destruct (amount_unlocked_share (Z.min elapsed MaxLockDuration) c.(cv_amount)) as (Hk & Hsh & Hfull); [lia..|].
  split.
  { intros Hlt. unfold with_transaction, unlock, conversion_signed, bind, gets, ret. rewrite Hc, Hel.
    unfold ensure. rewrite (proj2 (Z.leb_gt _ _)); [done|lia]. }
  split; [exact Hk|]. split; [fold kept_amount in Hsh; nia|].
  split; [intros Hge; unfold kept_amount; by rewrite Z.min_r|].
  intros s' Hr. pose proof (vi_held _ (unlock_kept _ _ _ _ Hi Hr) who) as Hheld.
  unfold locked_amount in Hheld. destruct (unlock_ok _ _ _ _ Hc Hr) as (Hmin & x & y & e & Hx & Hy & ->).
  rewrite Hel in Hmin, Hy. split; [lia|]. simpl.
  assert (bal x who = bal s.(conv_ext) who + c.(cv_amount)) as Hbx.
  { rewrite (ul_release _ _ ul _ _ _ _ who ltac:(rewrite (vi_held _ Hi); unfold locked_amount; by rewrite Hc) Hx). unfold to_account. rewrite bool_decide_eq_true_2 by done.
    rewrite (vi_held _ Hi). unfold locked_amount. by rewrite Hc. }
  assert (bal y who = bal x who - (c.(cv_amount) - kept_amount)) as Hby.
  { fold kept_amount in Hk, Hy. unfold saturating_sub in Hy. rewrite Z.max_r in Hy by lia.
    destruct Hy as [[Hz ->]|(z & cr & Hz & ->)]; [lia|]. rewrite (ul_on_slash _ _ ul) by done.
    destruct (ul_withdraw _ _ ul _ _ _ _ _ _ who Hz) as [_ ->]. unfold to_account.
    by rewrite bool_decide_eq_true_2. }
  simpl in Hheld. rewrite lookup_delete_eq in Hheld |- *. split; [lia|]. by split.
Qed.
End specs.

(** * The codec *)
Lemma scale_uint_round_trip w n l :
  0 <= n < 256 ^ Z.of_nat w -> scale_uint_decode w (scale_uint w n ++ l) = Some n.
Proof.
  revert n. induction w as [|w IH]; intros n Hn; simpl; [simpl in Hn; f_equal; lia|].
  rewrite Nat2Z.inj_succ, Z.pow_succ_r in Hn by lia. rewrite IH.
  - simpl. f_equal. pose proof (Z.div_mod n 256). lia.
  - split; [apply Z.div_pos; lia|apply Z.div_lt_upper_bound; lia].
Qed.

Lemma mbind_Some {A B} (f : A -> option B) (a : A) : Some a ≫= f = f a.
Proof. done. Qed.
(** A message is read back as it was sent, whatever follows it. *)
Theorem conversion_message_round_trip {G : Signatures} {K : AccountCodec} m l :
  length (account_encode m.(cm_account)) = 32%nat ->
  account_decode (account_encode m.(cm_account)) = Some m.(cm_account) ->
  0 <= m.(cm_amount) <= u128_max -> conversion_decode (conversion_encode m ++ l) = Some m.
Proof.
  intros Hl Hd Ha. unfold conversion_decode, conversion_encode.
  rewrite !length_app, Hl, length_scale_uint, <-app_assoc.
  rewrite (proj2 (Nat.ltb_ge _ _)) by lia.
  rewrite take_app_le, take_ge, Hd by lia. rewrite drop_app_le, drop_ge by lia.
  rewrite mbind_Some, app_nil_l, scale_uint_round_trip, mbind_Some; [by destruct m|].
  unfold u128_max in Ha. change (Z.of_nat 16) with 16. lia.
Qed.

(** * A run on the mainnet: the account 5 has burnt 300 units on the canary network *)
#[export] Instance conversion_constants : ConversionConfig (L := reference_balances) := {|
  conversion_account := 1014;
  SendTo := None;
  ReceiveFrom := Some (SAcurastCanary (Extrinsic 2014));
  Liquidity := UNIT;
  MinConversionAmount := 200 * UNIT;
  MinLockDuration := 3 * 28 * 14400;
  MaxLockDuration := 48 * 28 * 14400;
  ConvertTTL := 50;
  EnableOrigin o := match o with Root => true | Signed _ => false end;
  on_slash := resolve_to (L := reference_balances) 1020;
|}.
#[export] Instance reference_account_codec : AccountCodec := {| account_decode := scale_uint_decode 32 |}.

(** The storage alone, with a sender that always succeeds *)
#[export] Instance conversion_alone : ConversionSender ConvState := {|
  conv_of s := s;
  put_conv s' s := s';
  conversion_hash l := byte_sum l;
  send_conversion a p n sd l t fee := ret None;
|}.

Definition v_start : ConvState :=
  conversion_genesis (L := reference_balances)
    (rb_genesis {[1014 := 10 ^ 6 * UNIT; 1020 := 100 * UNIT; 5 := 10 * UNIT]}).
Definition v_message : MessageBody := {|
  mb_sender := SAcurastCanary (Extrinsic 2014);
  mb_recipient := SAcurast (Extrinsic 1014);
  mb_payload := conversion_encode (mkConversionMessage 5 (300 * UNIT));
|}.
Definition v_process (s : ConvState) : ConvState :=
  exec (with_transaction (on_conv (W := ConvState) (process_conversion_message v_message))) s.
Definition v_unlock (s : ConvState) : ConvState := exec (dispatch_conversion (Signed 5) Unlock) s.
Definition v_processed : ConvState := v_process v_start.
Definition v_slashed : ConvState :=
  default v_processed (snd <$> slash_conversion 5 (9 * UNIT) v_processed).
Definition v_later : ConvState :=
  put_conv (set_conv_block (24 * 28 * 14400) (conv_of v_slashed)) v_slashed.
Definition v_unlocked : ConvState := v_unlock v_later.

Example conversion_run :
  (fun s : ConvState => (rb_balance s.(conv_ext) 5, rb_held ConversionHold s.(conv_ext) 5,
      rb_balance s.(conv_ext) 1020, locked_amount s 5))
    <$> [v_start; v_processed; v_slashed; v_unlocked]
  = [(10 * UNIT, 0, 100 * UNIT, 0);
     (11 * UNIT, 299 * UNIT, 100 * UNIT, 299 * UNIT);
     (11 * UNIT, 290 * UNIT, 100 * UNIT, 290 * UNIT);
     (156 * UNIT, 0, 245 * UNIT, 0)].
Proof. vm_compute. reflexivity. Qed.

(** The pallet does not remember a conversion that has been unlocked: if its message
    is sent and received a second time ([retry_convert] sends it again for as long as
    the burn is recorded on the sending network, which is forever), it is paid again. *)
Example unlocked_conversion_is_paid_again :
  let again := v_process v_unlocked in
  (locked_amount again 5, rb_balance again.(conv_ext) 1014) =
  (299 * UNIT, rb_balance v_unlocked.(conv_ext) 1014 - 300 * UNIT).
Proof. vm_compute. reflexivity. Qed.

(** Unlocking when nothing is locked succeeds and says that it has unlocked. *)
Example unlocking_nothing :
  let '(r, s) := unlock (L := reference_balances) (Signed 5) v_start in
  (r, locked_amount v_start 5, skipn (length v_start.(conversion_events)) s.(conversion_events))
  = (Ok tt, 0, [ConversionUnlocked 5]).
Proof. vm_compute. reflexivity. Qed.

(** The reference currency follows the laws. *)
Lemma reference_conversion_laws : conversion_laws (L := reference_balances).
Proof.
  split; simpl.
  - intros p from to n x m x' a. apply rb_held_move.
  - intros p f x a. unfold rb_reducible. lia.
  - intros p e f who n x m x' a ([k y] & Hy & [= <- <-])%bind_Some. exact (rb_held_decrease _ _ _ _ _ _ _ _ _ _ Hy).
  - intros e p f who n x m x' a. apply rb_held_decrease.
  - intros who n x x' a. unfold rb_hold. destruct (Z.eqb_spec n 0) as [->|_].
    { intros [= <-]. unfold to_account. case_bool_decide; lia. }
    destruct (_ && _); intros [= <-]. unfold to_account.
    rewrite rb_held_set_held, rb_held_set. do 2 case_bool_decide; naive_solver lia.
  - intros e who x x' a. unfold rb_unhold. destruct (_ && _); [|done].
    intros Hi. rewrite (rb_held_increase _ _ _ _ _ _ Hi), rb_held_set_held.
    do 2 case_bool_decide; destruct e; naive_solver lia.
  - intros who n x c m x' a Hn Hh [= <- <- <-]. unfold to_account. rewrite rb_held_set_held.
    split; [lia|]. split; [lia|]. do 2 case_bool_decide; naive_solver lia.
  - intros c x a. unfold resolve_to. simpl. destruct (rb_increase _ _ _) eqn:E; [|done].
    by eapply rb_held_increase.
Qed.
Lemma alone_laws : sender_laws (L := reference_balances) (W := ConvState).
Proof.
  split; [done|]. intros a p n sd l t fee w r w' [= _ <-]. exists (conv_ext w). split; [by destruct w|done].
Qed.
Lemma v_reach_later : rtc (conversion_step (L := reference_balances) (W := ConvState)) v_start v_later.
Proof.
  apply rtc_l with v_processed.
  { unfold v_processed, v_process. apply step_conversion_message. unfold bytes_typed. apply (bool_decide_unpack _). by_compute. }
  apply rtc_l with v_slashed.
  { assert (exists c, slash_conversion 5 (9 * UNIT) v_processed = Some (c, v_slashed)) as [c Hs].
    { assert (bool_decide (is_Some (slash_conversion 5 (9 * UNIT) v_processed)) = true) as Hb by by_compute.
      unfold v_slashed. destruct (slash_conversion 5 (9 * UNIT) v_processed) as [[c s]|]; [by exists c|done]. }
    change (conversion_step v_processed (put_conv (L := reference_balances) v_slashed v_processed)).
    by apply (step_conversion_slash 5 (9 * UNIT) c). }
  apply rtc_once. unfold v_later. apply step_conversion_block. by_compute.
Qed.
Lemma v_reach_unlocked : rtc (conversion_step (L := reference_balances) (W := ConvState)) v_start v_unlocked.
Proof. eapply rtc_r; [apply v_reach_later|]. unfold v_unlocked, v_unlock. apply step_conversion_call. Qed.

Lemma reference_unlock_laws : unlock_laws (L := reference_balances) rb_balance 1020.
Proof.
  split; simpl.
  - intros e who x x' a Hh. unfold rb_unhold. destruct (_ && _); [|done]. intros Hi.
    apply (rb_increase_exact _ _ _ _ a) in Hi; [|destruct e; lia]. rewrite Hi. unfold to_account.
    rewrite rb_balance_set_held. case_bool_decide; destruct e; lia.
  - intros f who n x m x' a Hd. destruct (rb_decrease_exact _ _ _ _ _ _ _ a Hd) as (-> & _ & Hb).
    split; [done|]. by rewrite Hb.
  - intros c x a Ha. unfold resolve_to. simpl. destruct (rb_increase _ _ _) as [y|] eqn:E; [|done].
    unfold rb_increase in E. destruct (_ =? _); [by simplify_eq|]. destruct (_ <=? _); [|done].
    injection E as <-. rewrite rb_balance_set. case_bool_decide; [by subst|done].
Qed.

Lemma locked_conversions_are_on_hold_witness :
  rb_held ConversionHold v_unlocked.(conv_ext) 5 = locked_amount (L := reference_balances) v_unlocked 5.
Proof.
  refine (locked_conversions_are_on_hold (L := reference_balances) reference_conversion_laws
    (W := ConvState) alone_laws v_start v_unlocked _ eq_refl _ v_reach_unlocked 5).
  intros who. reflexivity.
Defined.

Lemma v_inv : conversion_inv (L := reference_balances) v_later.
Proof.
  refine (conversion_reach_inv (L := reference_balances) reference_conversion_laws (W := ConvState) alone_laws
    v_start v_later v_reach_later _). by split.
Qed.

Lemma unlock_keeps_the_share_witness :
  rb_balance (exec (unlock (Signed 5)) v_later).(conv_ext) 5 = rb_balance v_later.(conv_ext) 5 + 145 * UNIT.
Proof.
  assert (v_later.(locked_conversion) !! 5 = Some (mkConversion (290 * UNIT) 0)) as H1 by by_compute.
  assert (result (unlock (Signed 5)) v_later = Ok tt) as H2 by by_compute.
  assert (0 < MinLockDuration <= MaxLockDuration) as H3 by by_compute.
  assert (5 <> 1020) as H4 by done.
  destruct (unlock_keeps_the_share (L := reference_balances) reference_conversion_laws rb_balance 1020 v_later 5 _
    reference_unlock_laws v_inv H3 H4 H1) as (_ & _ & _ & _ & Hok).
  destruct (Hok _ (result_exec _ _ _ H2)) as (_ & Hb & _).
  rewrite Hb. by_compute.
Defined.
