(* ===== verification/ManagerTypes.v ===== *)
(** The data of the processor manager: [pallets/processor-manager/src/types.rs] and
    the storage, errors and events of [lib.rs].

    The pallet calls other pallets of the chain, which call it back: the compute
    pallet, the registry of attestations and the marketplace.  Its functions
    ([Managers.v]) run in the state [Bal] of the class [Balances], of which the
    storage of the pallet is a part ([ManagerWorld]); what it calls is the class
    [ProcessorHandlers]. *)
From S2P Require Import Prelude Attestations JobTypes Balances TokenClaim.

Notation ManagerId := Z (only parsing).
Notation Counter := Z (only parsing).
Notation Endpoint := (list Z) (only parsing).

(** * Types *)
Record PairingProof := mkPairingProof {
  pf_timestamp : Z;
  pf_signature : Signature;
}.

Record ProcessorPairing := mkPairing {
  pg_account : AccountId;
  pg_proof : option PairingProof;
}.

Record UpdateInfo := mkUpdateInfo {
  ui_version : Version;
  ui_binary_location : list Z;
}.

Record RewardDistributionSettings := mkRewardSettings {
  rs_window_length : Z;
  rs_tollerance : Z;
  rs_min_heartbeats : Z;
  rs_reward_per_distribution : Balance;
  rs_distributor_account : AccountId;
}.

Record RewardDistributionWindow := mkRewardWindow {
  rw_start : Z;
  rw_heartbeats : Z;
  rw_window_length : Z;
  rw_tollerance : Z;
  rw_min_heartbeats : Z;
}.
(** [RewardDistributionWindow::new] and [next] *)
Definition reward_window_new (start : Z) (settings : RewardDistributionSettings) : RewardDistributionWindow :=
  mkRewardWindow start 0 settings.(rs_window_length) settings.(rs_tollerance)
    settings.(rs_min_heartbeats).
Definition reward_window_next (self : RewardDistributionWindow) : RewardDistributionWindow :=
  mkRewardWindow self.(rw_start) (wrapping_add u32_max self.(rw_heartbeats) 1)
    self.(rw_window_length) self.(rw_tollerance) self.(rw_min_heartbeats).

Record OnboardingSettings := mkOnboarding {
  ob_funds : Balance;
  ob_max_funds : Balance;
  ob_funds_account : AccountId;
}.

(** [AttestationChain]: the certificates, from the root to the attestation *)
Record AttestationChain := mkAttestationChain {
  certificate_chain : list Bytes;
}.

#[export] Instance Version_eq_dec : EqDecision Version.
Proof. solve_decision. Defined.
#[export] Instance Version_countable : Countable Version.
Proof.
  refine (inj_countable' (fun v => (v.(platform), v.(build_number)))
            (fun p => Build_Version p.1 p.2) _).
  by intros [].
Defined.

Inductive ManagerError :=
| FailedToCreateManagerId
| ProcessorAlreadyPaired
| ProcessorPairedWithAnotherManager
| InvalidPairingProof
| ProcessorHasNoManager
| CounterOverflow
| PairingProofExpired
| UnknownProcessorVersion
| OnboardingSettingsNotSet
| ManagerBadOrigin
| ManagerLookupError
| ManagerCurrencyError
| ManagerUniquesError
| OwnerNotFound
| ManagerJobError (e : DispatchError).

Inductive ManagerEvent :=
| ManagerCreated (manager : AccountId) (id : ManagerId)
| ProcessorPairingsUpdated (manager : AccountId) (updates : list (ListUpdate ProcessorPairing))
| ProcessorFundsRecovered (processor destination : AccountId)
| ProcessorPaired (processor : AccountId) (pairing : ProcessorPairing)
| ProcessorHeartbeat (processor : AccountId)
| ProcessorAdvertisement (manager processor : AccountId) (advertisement : Advertisement)
| ProcessorHeartbeatWithVersion (processor : AccountId) (version : Version)
| BinaryHashUpdated (version : Version) (hash : option H256)
| ProcessorUpdateInfoSet (manager : AccountId) (info : UpdateInfo)
| ApiVersionUpdated (api_version : Z)
| ProcessorRewardSent (processor : AccountId) (amount : Balance)
| MinProcessorVersionForRewardUpdated (version : Version)
| OnboardingSettingsUpdated
| ProcessorPairedV2 (processor manager : AccountId)
| ProcessorMigrationDataSet (who : AccountId)
| ProcessorAdvertisementV2 (processor : AccountId).

(** * The storage *)
Record ManagerState := mkManagerState {
  last_manager_id : option ManagerId;
  managed_processors : gmap (ManagerId * AccountId) unit;
  processor_to_manager_id_index : gmap AccountId ManagerId;
  manager_counter : gmap AccountId Counter;
  processor_heartbeat : gmap AccountId Z;
  processor_version_map : gmap AccountId Version;
  api_version : Z;
  known_binary_hash : gmap Version H256;
  processor_update_info : gmap AccountId UpdateInfo;
  processor_reward_distribution_settings : option RewardDistributionSettings;
  processor_reward_distribution_window : gmap AccountId RewardDistributionWindow;
  processor_min_version_for_reward : gmap Z Z;
  management_endpoint : gmap ManagerId Endpoint;
  processor_onboarding_settings : option OnboardingSettings;
  processor_migration_data : gmap AccountId PairingProof;
  manager_events : list ManagerEvent;
}.
Definition set_last_manager_id (v : option ManagerId) (x : ManagerState) : ManagerState :=
  mkManagerState v x.(managed_processors) x.(processor_to_manager_id_index) x.(manager_counter) x.(processor_heartbeat) x.(processor_version_map) x.(api_version) x.(known_binary_hash) x.(processor_update_info) x.(processor_reward_distribution_settings) x.(processor_reward_distribution_window) x.(processor_min_version_for_reward) x.(management_endpoint) x.(processor_onboarding_settings) x.(processor_migration_data) x.(manager_events).
Definition set_managed_processors (v : gmap (ManagerId * AccountId) unit) (x : ManagerState) : ManagerState :=
  mkManagerState x.(last_manager_id) v x.(processor_to_manager_id_index) x.(manager_counter) x.(processor_heartbeat) x.(processor_version_map) x.(api_version) x.(known_binary_hash) x.(processor_update_info) x.(processor_reward_distribution_settings) x.(processor_reward_distribution_window) x.(processor_min_version_for_reward) x.(management_endpoint) x.(processor_onboarding_settings) x.(processor_migration_data) x.(manager_events).
Definition set_processor_to_manager_id_index (v : gmap AccountId ManagerId) (x : ManagerState) : ManagerState :=
  mkManagerState x.(last_manager_id) x.(managed_processors) v x.(manager_counter) x.(processor_heartbeat) x.(processor_version_map) x.(api_version) x.(known_binary_hash) x.(processor_update_info) x.(processor_reward_distribution_settings) x.(processor_reward_distribution_window) x.(processor_min_version_for_reward) x.(management_endpoint) x.(processor_onboarding_settings) x.(processor_migration_data) x.(manager_events).
Definition set_manager_counter (v : gmap AccountId Counter) (x : ManagerState) : ManagerState :=
  mkManagerState x.(last_manager_id) x.(managed_processors) x.(processor_to_manager_id_index) v x.(processor_heartbeat) x.(processor_version_map) x.(api_version) x.(known_binary_hash) x.(processor_update_info) x.(processor_reward_distribution_settings) x.(processor_reward_distribution_window) x.(processor_min_version_for_reward) x.(management_endpoint) x.(processor_onboarding_settings) x.(processor_migration_data) x.(manager_events).
Definition set_processor_heartbeat (v : gmap AccountId Z) (x : ManagerState) : ManagerState :=
  mkManagerState x.(last_manager_id) x.(managed_processors) x.(processor_to_manager_id_index) x.(manager_counter) v x.(processor_version_map) x.(api_version) x.(known_binary_hash) x.(processor_update_info) x.(processor_reward_distribution_settings) x.(processor_reward_distribution_window) x.(processor_min_version_for_reward) x.(management_endpoint) x.(processor_onboarding_settings) x.(processor_migration_data) x.(manager_events).
Definition set_processor_version_map (v : gmap AccountId Version) (x : ManagerState) : ManagerState :=
  mkManagerState x.(last_manager_id) x.(managed_processors) x.(processor_to_manager_id_index) x.(manager_counter) x.(processor_heartbeat) v x.(api_version) x.(known_binary_hash) x.(processor_update_info) x.(processor_reward_distribution_settings) x.(processor_reward_distribution_window) x.(processor_min_version_for_reward) x.(management_endpoint) x.(processor_onboarding_settings) x.(processor_migration_data) x.(manager_events).
Definition set_api_version (v : Z) (x : ManagerState) : ManagerState :=
  mkManagerState x.(last_manager_id) x.(managed_processors) x.(processor_to_manager_id_index) x.(manager_counter) x.(processor_heartbeat) x.(processor_version_map) v x.(known_binary_hash) x.(processor_update_info) x.(processor_reward_distribution_settings) x.(processor_reward_distribution_window) x.(processor_min_version_for_reward) x.(management_endpoint) x.(processor_onboarding_settings) x.(processor_migration_data) x.(manager_events).
Definition set_known_binary_hash (v : gmap Version H256) (x : ManagerState) : ManagerState :=
  mkManagerState x.(last_manager_id) x.(managed_processors) x.(processor_to_manager_id_index) x.(manager_counter) x.(processor_heartbeat) x.(processor_version_map) x.(api_version) v x.(processor_update_info) x.(processor_reward_distribution_settings) x.(processor_reward_distribution_window) x.(processor_min_version_for_reward) x.(management_endpoint) x.(processor_onboarding_settings) x.(processor_migration_data) x.(manager_events).
Definition set_processor_update_info (v : gmap AccountId UpdateInfo) (x : ManagerState) : ManagerState :=
  mkManagerState x.(last_manager_id) x.(managed_processors) x.(processor_to_manager_id_index) x.(manager_counter) x.(processor_heartbeat) x.(processor_version_map) x.(api_version) x.(known_binary_hash) v x.(processor_reward_distribution_settings) x.(processor_reward_distribution_window) x.(processor_min_version_for_reward) x.(management_endpoint) x.(processor_onboarding_settings) x.(processor_migration_data) x.(manager_events).
Definition set_processor_reward_distribution_settings (v : option RewardDistributionSettings) (x : ManagerState) : ManagerState :=
  mkManagerState x.(last_manager_id) x.(managed_processors) x.(processor_to_manager_id_index) x.(manager_counter) x.(processor_heartbeat) x.(processor_version_map) x.(api_version) x.(known_binary_hash) x.(processor_update_info) v x.(processor_reward_distribution_window) x.(processor_min_version_for_reward) x.(management_endpoint) x.(processor_onboarding_settings) x.(processor_migration_data) x.(manager_events).
Definition set_processor_reward_distribution_window (v : gmap AccountId RewardDistributionWindow) (x : ManagerState) : ManagerState :=
  mkManagerState x.(last_manager_id) x.(managed_processors) x.(processor_to_manager_id_index) x.(manager_counter) x.(processor_heartbeat) x.(processor_version_map) x.(api_version) x.(known_binary_hash) x.(processor_update_info) x.(processor_reward_distribution_settings) v x.(processor_min_version_for_reward) x.(management_endpoint) x.(processor_onboarding_settings) x.(processor_migration_data) x.(manager_events).
Definition set_processor_min_version_for_reward (v : gmap Z Z) (x : ManagerState) : ManagerState :=
  mkManagerState x.(last_manager_id) x.(managed_processors) x.(processor_to_manager_id_index) x.(manager_counter) x.(processor_heartbeat) x.(processor_version_map) x.(api_version) x.(known_binary_hash) x.(processor_update_info) x.(processor_reward_distribution_settings) x.(processor_reward_distribution_window) v x.(management_endpoint) x.(processor_onboarding_settings) x.(processor_migration_data) x.(manager_events).
Definition set_management_endpoint (v : gmap ManagerId Endpoint) (x : ManagerState) : ManagerState :=
  mkManagerState x.(last_manager_id) x.(managed_processors) x.(processor_to_manager_id_index) x.(manager_counter) x.(processor_heartbeat) x.(processor_version_map) x.(api_version) x.(known_binary_hash) x.(processor_update_info) x.(processor_reward_distribution_settings) x.(processor_reward_distribution_window) x.(processor_min_version_for_reward) v x.(processor_onboarding_settings) x.(processor_migration_data) x.(manager_events).
Definition set_processor_onboarding_settings (v : option OnboardingSettings) (x : ManagerState) : ManagerState :=
  mkManagerState x.(last_manager_id) x.(managed_processors) x.(processor_to_manager_id_index) x.(manager_counter) x.(processor_heartbeat) x.(processor_version_map) x.(api_version) x.(known_binary_hash) x.(processor_update_info) x.(processor_reward_distribution_settings) x.(processor_reward_distribution_window) x.(processor_min_version_for_reward) x.(management_endpoint) v x.(processor_migration_data) x.(manager_events).
Definition set_processor_migration_data (v : gmap AccountId PairingProof) (x : ManagerState) : ManagerState :=
  mkManagerState x.(last_manager_id) x.(managed_processors) x.(processor_to_manager_id_index) x.(manager_counter) x.(processor_heartbeat) x.(processor_version_map) x.(api_version) x.(known_binary_hash) x.(processor_update_info) x.(processor_reward_distribution_settings) x.(processor_reward_distribution_window) x.(processor_min_version_for_reward) x.(management_endpoint) x.(processor_onboarding_settings) v x.(manager_events).
Definition set_manager_events (v : list ManagerEvent) (x : ManagerState) : ManagerState :=
  mkManagerState x.(last_manager_id) x.(managed_processors) x.(processor_to_manager_id_index) x.(manager_counter) x.(processor_heartbeat) x.(processor_version_map) x.(api_version) x.(known_binary_hash) x.(processor_update_info) x.(processor_reward_distribution_settings) x.(processor_reward_distribution_window) x.(processor_min_version_for_reward) x.(management_endpoint) x.(processor_onboarding_settings) x.(processor_migration_data) v.

(** [GenesisConfig::build] *)
Definition manager_genesis (api : Z) (settings : option OnboardingSettings) : ManagerState :=
  mkManagerState None ∅ ∅ ∅ ∅ ∅ api ∅ ∅ None ∅ ∅ ∅ settings ∅ [].

Class ManagerConfig := {
  PairingProofExpirationTime : Z;
  ManagerCollectionId : CollectionId;
  RootAccountId : AccountId;
  ManagerUpdateOrigin : RuntimeOrigin -> bool;
}.

(** * The state around the pallet *)
Section world.
Context {L : Balances}.

Class ManagerWorld := {
  managers_of : Bal -> ManagerState;
  put_managers : ManagerState -> Bal -> Bal;
}.

Definition MM (A : Type) : Type := M Bal ManagerError A.

(** The traits that other pallets implement: [ComputeHooks], [AdvertisementHandler],
    [AttestationValidator] and [EnsureAttested] *)
Class ProcessorHandlers := {
  compute_commit : AccountId -> AccountId * ManagerId -> list MetricInput -> MM (Balance * bool * bool);
  handle_advertisement : AccountId -> Advertisement -> MM unit;
  validate_attestation : AttestationChain -> AccountId -> Bal -> outcome ManagerError Attestation;
  validate_and_store : AttestationChain -> AccountId -> MM unit;
  is_attested : AccountId -> Bal -> bool;
}.
End world.
