(* ===== verification/Managers.v ===== *)
(** The processor manager: [pallets/processor-manager/src/lib.rs], [functions.rs] and
    [types.rs], with the providers of the runtimes
    ([pallet_acurast_processor_manager_config.rs]) and
    [ManagerProviderForEligibleProcessor] of [acurast/common/src/types.rs].

    A manager is known by an id, an item of the register of unique items; processors
    are paired with an id by a signature of the manager that covers a counter.  Paired
    processors send heartbeats, which commit their metrics to the compute pallet. *)
From S2P Require Import Prelude Attestations JobTypes Balances TokenClaim ManagerTypes.

Section managers.
Context {L : Balances} {G : Signatures} {C : ManagerConfig}.
Context {MW : ManagerWorld} {H : ProcessorHandlers}.

Notation MM := (M Bal ManagerError).

(** * Access to the storage of the pallet *)
Definition pm_gets {A} (f : ManagerState -> A) : MM A := gets (fun w => f (managers_of w)).
Definition pm_modify (f : ManagerState -> ManagerState) : MM unit :=
  modify (fun w => put_managers (f (managers_of w)) w).
Definition manager_event (e : ManagerEvent) : MM unit :=
  pm_modify (fun s => set_manager_events (s.(manager_events) ++ [e]) s).
Definition manager_signed (origin : RuntimeOrigin) : MM AccountId :=
  match origin with Signed who => ret who | Root => throw ManagerBadOrigin end.
Definition manager_lookup (a : MultiAddress) : MM AccountId := ok_or (lookup_address a) ManagerLookupError.
(** [UnixTime::now().as_millis()] *)
Definition manager_now : MM Z := gets sys_now_millis.
(** Operations of the currency and of the register of items *)
Definition world_try (f : Bal -> option Bal) (e : ManagerError) : MM unit :=
  let* w := gets id in
  let* w' := ok_or (f w) e in
  modify (fun _ => w').
Definition world_try_val {A} (f : Bal -> option (A * Bal)) (e : ManagerError) : MM A :=
  let* w := gets id in
  let* r := ok_or (f w) e in
  modify (fun _ => r.2);;
  ret r.1.

(** * [AcurastManagerIdProvider] *)
Definition create_manager_id (id : ManagerId) (owner : AccountId) : MM unit :=
  let* o := gets (u_collection_owner ManagerCollectionId) in
  match o with
  | None =>
      world_try (u_create_collection ManagerCollectionId RootAccountId RootAccountId) ManagerUniquesError
  | Some _ => ret tt
  end;;
  world_try (u_do_mint ManagerCollectionId id owner) ManagerUniquesError.
Definition manager_id_for (owner : AccountId) (w : Bal) : option ManagerId :=
  head (u_owned_in_collection ManagerCollectionId owner w).
Definition owner_for (manager_id : ManagerId) (w : Bal) : option AccountId :=
  u_owner ManagerCollectionId manager_id w.

(** * Signatures of pairings ([types.rs]) *)
Definition pairing_message (account_id : AccountId) (timestamp : Z) (counter : Counter) : list Z :=
  BYTES_OPEN ++ account_encode account_id ++ scale_uint 16 timestamp ++ scale_uint 8 counter ++ BYTES_CLOSE.
Definition multi_pairing_message (account_id : AccountId) (timestamp : Z) : list Z :=
  BYTES_OPEN ++ account_encode account_id ++ scale_uint 16 timestamp ++ BYTES_CLOSE.

Definition validate_timestamp (self : ProcessorPairing) (now : Z) : bool :=
  match self.(pg_proof) with
  | Some proof =>
      match checked_sub now proof.(pf_timestamp) with
      | Some diff => (proof.(pf_timestamp) <=? now) && (diff <? PairingProofExpirationTime)
      | None => false
      end
  | None => false
  end.
Definition validate_signature (self : ProcessorPairing) (account_id : AccountId) (counter : Counter) : bool :=
  match self.(pg_proof) with
  | Some proof =>
      verify proof.(pf_signature) (pairing_message account_id proof.(pf_timestamp) counter)
        self.(pg_account)
  | None => false
  end.
Definition multi_validate_signature (self : ProcessorPairing) (account_id : AccountId) : bool :=
  match self.(pg_proof) with
  | Some proof =>
      verify proof.(pf_signature) (multi_pairing_message account_id proof.(pf_timestamp))
        self.(pg_account)
  | None => false
  end.

(** * [functions.rs] *)

Definition do_get_or_create_manager_id (manager : AccountId) : MM (ManagerId * bool) :=
  let* o := gets (manager_id_for manager) in
  match o with
  | Some id => ret (id, false)
  | None =>
      let* last := pm_gets last_manager_id in
      let* id := ok_or (checked_add u128_max (default 0 last) 1) FailedToCreateManagerId in
      create_manager_id id manager;;
      pm_modify (set_last_manager_id (Some id));;
      ret (id, true)
  end.

Definition do_add_processor_manager_pairing (processor_account : AccountId) (manager_id : ManagerId) : MM unit :=
  let* o := pm_gets (fun s => s.(processor_to_manager_id_index) !! processor_account) in
  match o with
  | Some id => if id =? manager_id then throw ProcessorAlreadyPaired else throw ProcessorPairedWithAnotherManager
  | None =>
      pm_modify (fun s => set_managed_processors
        (<[(manager_id, processor_account) := tt]> s.(managed_processors)) s);;
      pm_modify (fun s => set_processor_to_manager_id_index
        (<[processor_account := manager_id]> s.(processor_to_manager_id_index)) s)
  end.

Definition ensure_managed (manager processor : AccountId) : MM ManagerId :=
  let* o := pm_gets (fun s => s.(processor_to_manager_id_index) !! processor) in
  let* processor_manager_id := ok_or o ProcessorHasNoManager in
  let* w := gets (owner_for processor_manager_id) in
  let* processor_manager := ok_or w OwnerNotFound in
  ensure (manager =? processor_manager) ProcessorPairedWithAnotherManager;;
  ret processor_manager_id.

Definition do_remove_processor_manager_pairing (processor_account manager : AccountId) : MM unit :=
  let* id := ensure_managed manager processor_account in
  pm_modify (fun s => set_managed_processors (delete (id, processor_account) s.(managed_processors)) s);;
  pm_modify (fun s => set_processor_to_manager_id_index
    (delete processor_account s.(processor_to_manager_id_index)) s).

(** [counter_for_manager(account).unwrap_or(0).checked_add(1)] *)
Definition next_counter (account : AccountId) (s : ManagerState) : option Counter :=
  checked_add u64_max (default 0 (s.(manager_counter) !! account)) 1.
Definition insert_counter (account : AccountId) (counter : Counter) : MM unit :=
  pm_modify (fun s => set_manager_counter (<[account := counter]> s.(manager_counter)) s).

Definition do_validate_pairing (pairing : ProcessorPairing) (is_multi : bool) : MM (option Counter) :=
  let* now := manager_now in
  ensure (validate_timestamp pairing now) PairingProofExpired;;
  if is_multi then
    ensure (multi_validate_signature pairing pairing.(pg_account)) InvalidPairingProof;;
    ret None
  else
    let* c := pm_gets (next_counter pairing.(pg_account)) in
    let* counter := ok_or c CounterOverflow in
    ensure (validate_signature pairing pairing.(pg_account) counter) InvalidPairingProof;;
    ret (Some counter).

(** * Who manages a processor *)

(** [ManagerLookup for Pallet<T>] *)
Definition lookup_manager_id (processor : AccountId) (w : Bal) : option ManagerId :=
  (managers_of w).(processor_to_manager_id_index) !! processor.
Definition lookup_manager (processor : AccountId) (w : Bal) : option (AccountId * ManagerId) :=
  manager_id ← lookup_manager_id processor w;
  account_id ← owner_for manager_id w;
  Some (account_id, manager_id).

(** [ProcessorVersionProvider for Pallet<T>] *)
Definition version_of_processor (processor : AccountId) (w : Bal) : option Version :=
  (managers_of w).(processor_version_map) !! processor.
Definition min_version_for_reward (platform_ : Z) (w : Bal) : option Version :=
  build_number_ ← (managers_of w).(processor_min_version_for_reward) !! platform_;
  Some {| platform := platform_; build_number := build_number_ |}.

(** [ManagerProviderForEligibleProcessor] *)
Definition is_eligible (processor : AccountId) (w : Bal) : bool :=
  is_attested processor w &&
  match version_of_processor processor w with
  | None => false
  | Some version =>
      match min_version_for_reward version.(platform) w with
      | Some min_version => version_ge version min_version
      | None => true
      end
  end.
Definition lookup_eligible (processor : AccountId) (w : Bal) : option (AccountId * ManagerId) :=
  if is_eligible processor w then lookup_manager processor w else None.

(** * Calls *)

(** The id of a manager, with an event if it is new *)
Definition manager_id_with_event (manager : AccountId) : MM ManagerId :=
  let* r := do_get_or_create_manager_id manager in
  let '(manager_id, created) := r in
  (if (created : bool) then manager_event (ManagerCreated manager manager_id) else ret tt);;
  ret manager_id.

Definition update_pairing (who : AccountId) (manager_id : ManagerId) (update : ListUpdate ProcessorPairing)
  : MM unit :=
  match update.(lu_operation) with
  | AddItem =>
      let* now := manager_now in
      ensure (validate_timestamp update.(lu_item) now) PairingProofExpired;;
      let* c := pm_gets (next_counter who) in
      let* counter := ok_or c CounterOverflow in
      ensure (validate_signature update.(lu_item) who counter) InvalidPairingProof;;
      do_add_processor_manager_pairing update.(lu_item).(pg_account) manager_id;;
      insert_counter who counter
  | RemoveItem => do_remove_processor_manager_pairing update.(lu_item).(pg_account) who
  end.

Definition update_processor_pairings (origin : RuntimeOrigin)
  (pairing_updates : list (ListUpdate ProcessorPairing)) : MM unit :=
  let* who := manager_signed origin in
  let* manager_id := manager_id_with_event who in
  mfor pairing_updates (update_pairing who manager_id);;
  manager_event (ProcessorPairingsUpdated who pairing_updates).

(** The part that the three calls that pair the sender have in common *)
Definition pair_sender (who : AccountId) (pairing : ProcessorPairing) (maybe_new_counter : option Counter)
  : MM unit :=
  match maybe_new_counter with
  | Some counter => insert_counter pairing.(pg_account) counter
  | None => ret tt
  end;;
  let* manager_id := manager_id_with_event pairing.(pg_account) in
  do_add_processor_manager_pairing who manager_id.

Definition pair_with_manager (origin : RuntimeOrigin) (pairing : ProcessorPairing) : MM unit :=
  let* who := manager_signed origin in
  let* maybe_new_counter := do_validate_pairing pairing false in
  pair_sender who pairing maybe_new_counter;;
  manager_event (ProcessorPairedV2 who pairing.(pg_account)).

Definition multi_pair_with_manager (origin : RuntimeOrigin) (pairing : ProcessorPairing) : MM unit :=
  let* who := manager_signed origin in
  let* _ := do_validate_pairing pairing true in
  pair_sender who pairing None;;
  manager_event (ProcessorPairedV2 who pairing.(pg_account)).

Definition onboard (origin : RuntimeOrigin) (pairing : ProcessorPairing) (multi : bool)
  (attestation_chain : AttestationChain) : MM unit :=
  let* who := manager_signed origin in
  validate_and_store attestation_chain who;;
  let* maybe_new_counter := do_validate_pairing pairing multi in
  pair_sender who pairing maybe_new_counter;;
  manager_event (ProcessorPaired who pairing).

(** [AcurastProcessorRecovery] *)
Definition recover_assets (processor destination_account : AccountId) : MM unit :=
  let* w := gets id in
  let usable_balance := b_reducible_balance Preserve Polite w processor in
  if 0 <? usable_balance then
    let* burned := world_try_val (b_burn_from Preserve BestEffort Polite processor usable_balance)
                     ManagerCurrencyError in
    world_try (b_mint_into destination_account burned) ManagerCurrencyError
  else ret tt.

Definition recover_funds (origin : RuntimeOrigin) (processor destination : MultiAddress) : MM unit :=
  let* who := manager_signed origin in
  let* processor_account_id := manager_lookup processor in
  let* _ := ensure_managed who processor_account_id in
  let* destination_account_id := manager_lookup destination in
  recover_assets processor_account_id destination_account_id;;
  manager_event (ProcessorFundsRecovered processor_account_id destination_account_id).

Definition ensure_paired (who : AccountId) : MM unit :=
  let* o := pm_gets (fun s => s.(processor_to_manager_id_index) !! who) in
  let* _ := ok_or o ProcessorHasNoManager in
  ret tt.
Definition insert_heartbeat (who : AccountId) : MM unit :=
  let* now := manager_now in
  pm_modify (fun s => set_processor_heartbeat (<[who := now]> s.(processor_heartbeat)) s).

Definition heartbeat (origin : RuntimeOrigin) : MM unit :=
  let* who := manager_signed origin in
  ensure_paired who;;
  insert_heartbeat who;;
  manager_event (ProcessorHeartbeat who).

Definition heartbeat_with_metrics (origin : RuntimeOrigin) (version : Version)
  (metrics : list MetricInput) : MM unit :=
  let* who := manager_signed origin in
  ensure_paired who;;
  insert_heartbeat who;;
  pm_modify (fun s => set_processor_version_map (<[who := version]> s.(processor_version_map)) s);;
  manager_event (ProcessorHeartbeatWithVersion who version);;
  let* o := gets (lookup_eligible who) in
  match o with
  | None => ret tt
  | Some manager =>
      let* _ := compute_commit who manager metrics in
      ret tt
  end.

(** The same with no metrics; only the weights differ *)
Definition heartbeat_with_version (origin : RuntimeOrigin) (version : Version) : MM unit :=
  heartbeat_with_metrics origin version [].

Definition advertise_for (origin : RuntimeOrigin) (processor : MultiAddress)
  (advertisement : Advertisement) : MM unit :=
  let* who := manager_signed origin in
  let* processor_account_id := manager_lookup processor in
  let* _ := ensure_managed who processor_account_id in
  handle_advertisement processor_account_id advertisement;;
  manager_event (ProcessorAdvertisementV2 processor_account_id).

Definition set_processor_update_info (origin : RuntimeOrigin) (update_info : UpdateInfo)
  (processors : list AccountId) : MM unit :=
  let* who := manager_signed origin in
  let* h := pm_gets (fun s => s.(known_binary_hash) !! update_info.(ui_version)) in
  let* _ := ok_or h UnknownProcessorVersion in
  mfor processors (fun processor =>
    let* _ := ensure_managed who processor in
    pm_modify (fun s => ManagerTypes.set_processor_update_info
      (<[processor := update_info]> s.(processor_update_info)) s));;
  manager_event (ProcessorUpdateInfoSet who update_info).

Definition set_management_endpoint (origin : RuntimeOrigin) (endpoint : option Endpoint) : MM unit :=
  let* who := manager_signed origin in
  let* r := do_get_or_create_manager_id who in
  pm_modify (fun s => ManagerTypes.set_management_endpoint
    (put_opt r.1 endpoint s.(management_endpoint)) s).

Definition set_migration_data (origin : RuntimeOrigin) (data : PairingProof) : MM unit :=
  let* who := manager_signed origin in
  pm_modify (fun s => set_processor_migration_data (<[who := data]> s.(processor_migration_data)) s);;
  manager_event (ProcessorMigrationDataSet who).

(** ** Calls of the operators *)
Definition update_binary_hash (origin : RuntimeOrigin) (version : Version) (hash : option H256) : MM unit :=
  ensure (ManagerUpdateOrigin origin) ManagerBadOrigin;;
  pm_modify (fun s => set_known_binary_hash (put_opt version hash s.(known_binary_hash)) s);;
  manager_event (BinaryHashUpdated version hash).
Definition update_api_version (origin : RuntimeOrigin) (version : Z) : MM unit :=
  ensure (ManagerUpdateOrigin origin) ManagerBadOrigin;;
  pm_modify (set_api_version version);;
  manager_event (ApiVersionUpdated version).
Definition update_reward_distribution_settings (origin : RuntimeOrigin)
  (new_settings : option RewardDistributionSettings) : MM unit :=
  ensure (ManagerUpdateOrigin origin) ManagerBadOrigin;;
  pm_modify (set_processor_reward_distribution_settings new_settings).
Definition update_min_processor_version_for_reward (origin : RuntimeOrigin) (version : Version) : MM unit :=
  ensure (ManagerUpdateOrigin origin) ManagerBadOrigin;;
  pm_modify (fun s => set_processor_min_version_for_reward
    (<[version.(platform) := version.(build_number)]> s.(processor_min_version_for_reward)) s);;
  manager_event (MinProcessorVersionForRewardUpdated version).
Definition update_onboarding_settings (origin : RuntimeOrigin) (new_settings : option OnboardingSettings)
  : MM unit :=
  ensure (ManagerUpdateOrigin origin) ManagerBadOrigin;;
  pm_modify (set_processor_onboarding_settings new_settings);;
  manager_event OnboardingSettingsUpdated.

(** * The dispatcher *)
Inductive ManagerCall :=
| UpdateProcessorPairings (updates : list (ListUpdate ProcessorPairing))
| PairWithManager (pairing : ProcessorPairing)
| MultiPairWithManager (pairing : ProcessorPairing)
| RecoverFunds (processor destination : MultiAddress)
| Heartbeat
| AdvertiseFor (processor : MultiAddress) (advertisement : Advertisement)
| HeartbeatWithVersion (version : Version)
| HeartbeatWithMetrics (version : Version) (metrics : list MetricInput)
| UpdateBinaryHash (version : Version) (hash : option H256)
| UpdateApiVersion (version : Z)
| SetProcessorUpdateInfo (info : UpdateInfo) (processors : list AccountId)
| UpdateRewardDistributionSettings (settings : option RewardDistributionSettings)
| UpdateMinProcessorVersion (version : Version)
| SetManagementEndpoint (endpoint : option Endpoint)
| Onboard (pairing : ProcessorPairing) (multi : bool) (chain : AttestationChain)
| UpdateOnboardingSettings (settings : option OnboardingSettings)
| SetMigrationData (data : PairingProof).

Definition run_manager_call (origin : RuntimeOrigin) (c : ManagerCall) : MM unit :=
  match c with
  | UpdateProcessorPairings updates => update_processor_pairings origin updates
  | PairWithManager pairing => pair_with_manager origin pairing
  | MultiPairWithManager pairing => multi_pair_with_manager origin pairing
  | RecoverFunds processor destination => recover_funds origin processor destination
  | Heartbeat => heartbeat origin
  | AdvertiseFor processor advertisement => advertise_for origin processor advertisement
  | HeartbeatWithVersion version => heartbeat_with_version origin version
  | HeartbeatWithMetrics version metrics => heartbeat_with_metrics origin version metrics
  | UpdateBinaryHash version hash => update_binary_hash origin version hash
  | UpdateApiVersion version => update_api_version origin version
  | SetProcessorUpdateInfo info processors => set_processor_update_info origin info processors
  | UpdateRewardDistributionSettings settings => update_reward_distribution_settings origin settings
  | UpdateMinProcessorVersion version => update_min_processor_version_for_reward origin version
  | SetManagementEndpoint endpoint => set_management_endpoint origin endpoint
  | Onboard pairing multi chain => onboard origin pairing multi chain
  | UpdateOnboardingSettings settings => update_onboarding_settings origin settings
  | SetMigrationData data => set_migration_data origin data
  end.

Definition dispatch_manager (origin : RuntimeOrigin) (c : ManagerCall) : MM unit :=
  with_transaction (run_manager_call origin c).

(** * [OnboardingProvider for Pallet<T>] *)
Definition can_fund_processor_onboarding (processor manager : AccountId) (w : Bal)
  : option (AccountId * Balance) :=
  settings ← (managers_of w).(processor_onboarding_settings);
  if settings.(ob_funds) =? 0 then None else
  if bool_decide (is_Some ((managers_of w).(processor_to_manager_id_index) !! processor)) then None else
  let manager_hold_balance := b_on_hold OnboardingHold w manager in
  if settings.(ob_max_funds) <=? manager_hold_balance then None else
  let amount := Z.min settings.(ob_funds) (saturating_sub settings.(ob_max_funds) manager_hold_balance) in
  if b_can_withdraw settings.(ob_funds_account) amount w then Some (settings.(ob_funds_account), amount)
  else None.

Definition fund (from_account to_account : AccountId) (amount : Balance) : MM unit :=
  world_try (b_currency_transfer true from_account to_account amount) ManagerCurrencyError;;
  let* w := gets id in
  let amount_to_hold := Z.min amount (b_reducible_balance Protect Polite w to_account) in
  world_try (b_hold OnboardingHold to_account amount_to_hold) ManagerCurrencyError.

Definition can_cover_fee (account : AccountId) (fee : Balance) (w : Bal) : bool * Balance :=
  let available := b_on_hold OnboardingHold w account in
  (available >=? fee, saturating_sub fee available).

(** [_ = T::Currency::release(..)]: an error is ignored *)
Definition release_fee_funds (account : AccountId) (fee : Balance) (w : Bal) : Bal :=
  default w (b_release OnboardingHold BestEffort account fee w).

Definition pairing_for_call (call : ManagerCall) : option (ProcessorPairing * bool * option AttestationChain) :=
  match call with
  | PairWithManager pairing => Some (pairing, false, None)
  | MultiPairWithManager pairing => Some (pairing, true, None)
  | Onboard pairing multi attestation_chain => Some (pairing, multi, Some attestation_chain)
  | _ => None
  end.
Definition is_funding_call (call : ManagerCall) : bool :=
  match call with Onboard _ _ _ => true | _ => false end.
Definition is_fundable_manager_call (call : ManagerCall) : bool :=
  match call with
  | HeartbeatWithMetrics _ _ | HeartbeatWithVersion _ | Onboard _ _ _ | MultiPairWithManager _
  | PairWithManager _ => true
  | _ => false
  end.
End managers.
