(* ===== verification/ManagerSpecs.v ===== *)
(** The processor manager: the two tables of pairings agree, only the owner of a
    manager id takes a processor from it, and a signature pairs at most once.  The
    first part is a concrete chain with the pallet. *)
From S2P Require Import Prelude Attestations JobTypes Balances TokenClaim BalancesReference ManagerTypes.
From S2P Require Import Managers.

Record RefManagers := mkRefManagers {
  rm_bal : RefBal;
  rm_managers : ManagerState;
}.
Definition set_rm_bal (x : RefBal) (s : RefManagers) : RefManagers := mkRefManagers x s.(rm_managers).
Definition set_rm_managers (x : ManagerState) (s : RefManagers) : RefManagers := mkRefManagers s.(rm_bal) x.

#[export] Instance manager_balances : Balances :=
  lift_balances (L := reference_balances) rm_bal set_rm_bal.
#[export] Instance reference_managers : ManagerWorld (L := manager_balances) := {|
  managers_of := rm_managers;
  put_managers := set_rm_managers;
|}.
#[export] Instance reference_manager_config : ManagerConfig := {|
  PairingProofExpirationTime := 600000;
  ManagerCollectionId := 0;
  RootAccountId := 1000;
  ManagerUpdateOrigin o := match o with Root => true | Signed who => who =? 1000 end;
|}.

Definition device_attestation : Attestation := {|
  cert_ids := [];
  content := DeviceAttestation {|
    key_usage_properties := {|
      t4 := None; t1200 := None; t1201 := None; t1202 := None; t1203 := None; t1204 := None;
      t5 := None; t1206 := None; t1207 := None; t1209 := None; t1210 := None; t1211 := None |};
    device_os_information := {|
      t1400 := None; t1104 := None; t1403 := None; t1420 := None; t1026 := None; t1029 := None |};
    da_nonce := {| dn_nonce := None |} |};
  validity := {| not_before := 0; not_after := u64_max |};
|}.

#[export] Instance reference_handlers : ProcessorHandlers (L := manager_balances) := {|
  compute_commit _ _ _ := ret (0, false, false);
  handle_advertisement _ _ := ret tt;
  validate_attestation _ _ _ := Ok device_attestation;
  validate_and_store _ _ := ret tt;
  is_attested _ _ := true;
|}.

(** Manager [1] pairs processor [7]; the signature is that of [reference_signatures]. *)
Definition pairing_of (manager timestamp counter : Z) : ProcessorPairing :=
  mkPairing manager (Some (mkPairingProof timestamp
    (byte_sum (pairing_message manager timestamp counter) + manager))).
Definition rm_genesis : RefManagers :=
  mkRefManagers (set_rb_clock 5000 (rb_genesis {[ 1 := 100 * UNIT; 2 := 50 * UNIT; 7 := 0 ]}))
    (manager_genesis 3 (Some (mkOnboarding (2 * UNIT) (5 * UNIT) 2))).
Definition rm_paired : RefManagers :=
  exec (dispatch_manager (Signed 7) (PairWithManager (pairing_of 1 4000 1))) rm_genesis.

Example processor_pairs :
  result (dispatch_manager (Signed 7) (PairWithManager (pairing_of 1 4000 1))) rm_genesis = Ok tt /\
  lookup_manager 7 rm_paired = Some (1, 1) /\
  (* the same signature again *)
  result (dispatch_manager (Signed 8) (PairWithManager (pairing_of 1 4000 1))) rm_paired
    = Err InvalidPairingProof /\
  (* the next one *)
  result (dispatch_manager (Signed 8) (PairWithManager (pairing_of 1 4000 2))) rm_paired = Ok tt /\
  (* a processor that is paired *)
  result (dispatch_manager (Signed 7) (PairWithManager (pairing_of 1 4000 2))) rm_paired
    = Err ProcessorAlreadyPaired.
Proof. by_compute. Qed.

Section specs.
Context {L : Balances} {G : Signatures} {C : ManagerConfig}.
Context {MW : ManagerWorld} {H : ProcessorHandlers}.

Notation MM := (M Bal ManagerError).

(** What is assumed of the state around the pallet: its storage is read as it was
    written, and is changed by nobody else; neither are the owners of manager ids by
    a write to it. *)
Record manager_world_laws : Prop := {
  wl_get s w : managers_of (put_managers s w) = s;
  wl_owner s w id : owner_for id (put_managers s w) = owner_for id w;
  wl_collection c o a w w' : u_create_collection c o a w = Some w' -> managers_of w' = managers_of w;
  wl_mint c i o w w' : u_do_mint c i o w = Some w' -> managers_of w' = managers_of w;
  wl_burn p e f who n w m w' : b_burn_from p e f who n w = Some (m, w') -> managers_of w' = managers_of w;
  wl_mint_into who n w w' : b_mint_into who n w = Some w' -> managers_of w' = managers_of w;
  wl_commit p m l w r w' : compute_commit p m l w = (r, w') -> managers_of w' = managers_of w;
  wl_advertise p a w r w' : handle_advertisement p a w = (r, w') -> managers_of w' = managers_of w;
  wl_attest a who w r w' : validate_and_store a who w = (r, w') -> managers_of w' = managers_of w;
}.
Context (laws : manager_world_laws).

(** * What keeps a property of the storage *)
Section kept_rules.
Context (I : ManagerState -> Prop).
Notation kept_pm := (kept (fun w => I (managers_of w))).

Lemma kept_same {A} (m : MM A) :
  (forall w r w', m w = (r, w') -> managers_of w' = managers_of w) -> kept_pm m.
Proof. intros Hm w a w' Hi Hr. by rewrite (Hm _ _ _ Hr). Qed.
Lemma kept_pm_modify f : (forall s, I s -> I (f s)) -> kept_pm (pm_modify f).
Proof. intros Hf. apply kept_modify. intros w Hi. rewrite (wl_get laws). by apply Hf. Qed.
Lemma kept_world_try f e :
  (forall w w', f w = Some w' -> managers_of w' = managers_of w) -> kept_pm (world_try f e).
Proof.
  intros Hf w a w' Hi (w1 & w2 & [<- <-]%gets_ok & Hr)%bind_ok.
  apply bind_ok in Hr as (w3 & w4 & [Hw <-]%ok_or_ok & <-%modify_ok). by rewrite (Hf _ _ Hw).
Qed.
Lemma kept_world_try_val {A} (f : Bal -> option (A * Bal)) e :
  (forall w a w', f w = Some (a, w') -> managers_of w' = managers_of w) -> kept_pm (world_try_val f e).
Proof.
  intros Hf w a w' Hi (w1 & w2 & [<- <-]%gets_ok & Hr)%bind_ok.
  apply bind_ok in Hr as ([b w3] & w4 & [Hw <-]%ok_or_ok & Hr).
  apply bind_ok in Hr as ([] & w5 & <-%modify_ok & [_ <-]%ret_ok). simpl. by rewrite (Hf _ _ _ Hw).
Qed.
Lemma kept_signed o : kept_pm (manager_signed o).
Proof. destruct o; [apply kept_ret|apply kept_throw]. Qed.
Lemma kept_create_manager_id id owner : kept_pm (create_manager_id id owner).
Proof.
  apply kept_bind; [apply kept_gets|]. intros o. apply kept_bind; [|intros []].
  - destruct o; [apply kept_ret|]. apply kept_world_try. intros w w'. apply (wl_collection laws).
  - apply kept_world_try. intros w w'. apply (wl_mint laws).
Qed.
Lemma kept_recover p d : kept_pm (recover_assets p d).
Proof.
  apply kept_bind; [apply kept_gets|]. intros w. cbv zeta. destruct (0 <? _); [|apply kept_ret].
  apply kept_bind; [|intros n].
  - apply kept_world_try_val. intros x m x'. apply (wl_burn laws).
  - apply kept_world_try. intros x x'. apply (wl_mint_into laws).
Qed.
Lemma kept_commit p m l : kept_pm (compute_commit p m l).
Proof. apply kept_same. intros w r w'. apply (wl_commit laws). Qed.
Lemma kept_advertisement p a : kept_pm (handle_advertisement p a).
Proof. apply kept_same. intros w r w'. apply (wl_advertise laws). Qed.
Lemma kept_attestation a who : kept_pm (validate_and_store a who).
Proof. apply kept_same. intros w r w'. apply (wl_attest laws). Qed.
End kept_rules.

Hint Resolve kept_signed kept_create_manager_id kept_recover kept_commit kept_advertisement kept_attestation : kept.
(** writes to other tables *)
Hint Extern 2 (kept _ (pm_modify _)) => (apply kept_pm_modify; intros ? Hkept; exact Hkept) : kept.

(** A step of the chain, as the pallet sees it *)
Inductive manager_step : Bal -> Bal -> Prop :=
| step_manager_call o c w : manager_step w (exec (dispatch_manager o c) w)
| step_manager_outside w w' : managers_of w' = managers_of w -> manager_step w w'.

Lemma manager_step_kept (I : ManagerState -> Prop) w w' :
  (forall o c, kept (fun w => I (managers_of w)) (run_manager_call o c)) ->
  manager_step w w' -> I (managers_of w) -> I (managers_of w').
Proof.
  intros Hk [o c x|x x' Hx] Hi; [|by rewrite Hx].
  destruct (dispatch_manager o c x) as [r x'] eqn:E. unfold exec. rewrite E. simpl.
  exact (proj1 (kept_pres _ _ (Hk o c) _ _ _ Hi E)).
Qed.
Lemma manager_reach_kept (I : ManagerState -> Prop) w w' :
  (forall o c, kept (fun w => I (managers_of w)) (run_manager_call o c)) ->
  rtc manager_step w w' -> I (managers_of w) -> I (managers_of w').
Proof.
  intros Hk. induction 1 as [|w w1 w2 Hs _ IH]; [done|]. intros Hi. apply IH. by eapply manager_step_kept.
Qed.

(** * The tables of pairings *)
Definition pairings_agree (s : ManagerState) : Prop :=
  forall id p, s.(managed_processors) !! (id, p) = Some tt <-> s.(processor_to_manager_id_index) !! p = Some id.

Lemma ensure_managed_ok manager p id w w' :
  ensure_managed manager p w = (Ok id, w') ->
  w' = w /\ lookup_manager_id p w = Some id /\ owner_for id w = Some manager.
Proof.
  intros (o & w1 & [<- <-]%gets_ok & Hr)%bind_ok.
  apply bind_ok in Hr as (i & w1 & [Hi <-]%ok_or_ok & Hr). apply bind_ok in Hr as (x & w1 & [<- <-]%gets_ok & Hr).
  apply bind_ok in Hr as (y & w1 & [Hy <-]%ok_or_ok & Hr).
  apply bind_ok in Hr as ([] & w1 & [->%Z.eqb_eq <-]%ensure_ok & [<- <-]%ret_ok). done.
Qed.

Lemma do_add_ok p id w w' :
  do_add_processor_manager_pairing p id w = (Ok tt, w') ->
  lookup_manager_id p w = None /\
  exists s, managers_of w' = s /\ w' = put_managers s (put_managers
      (set_managed_processors (<[(id, p) := tt]> (managers_of w).(managed_processors)) (managers_of w)) w) /\
    s = set_processor_to_manager_id_index (<[p := id]> (managers_of w).(processor_to_manager_id_index))
          (set_managed_processors (<[(id, p) := tt]> (managers_of w).(managed_processors)) (managers_of w)).
Proof.
  intros (o & w1 & [Ho <-]%gets_ok & Hr)%bind_ok. destruct o as [i|].
  { destruct (_ =? _); by apply throw_ok in Hr. }
  split; [done|]. apply bind_ok in Hr as ([] & w1 & <-%modify_ok & <-%modify_ok).
  rewrite !(wl_get laws). eauto.
Qed.
Lemma do_remove_ok p manager w w' :
  do_remove_processor_manager_pairing p manager w = (Ok tt, w') ->
  exists id, lookup_manager_id p w = Some id /\ owner_for id w = Some manager /\
    exists s1 s2, w' = put_managers s2 (put_managers s1 w) /\
      s2 = set_processor_to_manager_id_index (delete p (managers_of w).(processor_to_manager_id_index))
             (set_managed_processors (delete (id, p) (managers_of w).(managed_processors)) (managers_of w)).
Proof.
  intros (id & w1 & (-> & Hid & Ho)%ensure_managed_ok & Hr)%bind_ok. exists id. split; [done|]. split; [done|].
  apply bind_ok in Hr as ([] & w1 & <-%modify_ok & <-%modify_ok). rewrite !(wl_get laws). eauto.
Qed.

Lemma kept_do_add p id : kept (fun w => pairings_agree (managers_of w)) (do_add_processor_manager_pairing p id).
Proof.
  intros w [] w' Hi Hr. apply do_add_ok in Hr as (Hn & s & -> & _ & ->). intros i q. simpl.
  unfold lookup_manager_id in Hn. specialize (Hi i q). destruct (decide (q = p)) as [->|Hq].
  - rewrite lookup_insert_eq. destruct (decide (i = id)) as [->|Hne].
    + rewrite lookup_insert_eq. naive_solver.
    + rewrite lookup_insert_ne by congruence. rewrite Hi, Hn. naive_solver.
  - rewrite !lookup_insert_ne by congruence. exact Hi.
Qed.
Lemma kept_do_remove p m : kept (fun w => pairings_agree (managers_of w)) (do_remove_processor_manager_pairing p m).
Proof.
  intros w [] w' Hi Hr. apply do_remove_ok in Hr as (id & Hid & _ & s1 & s2 & -> & ->).
  rewrite (wl_get laws). intros i q. simpl. unfold lookup_manager_id in Hid. specialize (Hi i q).
  destruct (decide (q = p)) as [->|Hq].
  - rewrite lookup_delete_eq. destruct (decide (i = id)) as [->|Hne].
    + rewrite lookup_delete_eq. naive_solver.
    + rewrite lookup_delete_ne by congruence. rewrite Hi, Hid. naive_solver.
  - rewrite !lookup_delete_ne by congruence. exact Hi.
Qed.
Hint Resolve kept_do_add kept_do_remove : kept.

Lemma kept_pairings o c : kept (fun w => pairings_agree (managers_of w)) (run_manager_call o c).
Proof. solve_kept. Qed.

(** C20: In every state of the chain the table of the processors of each manager and
    the index from processors to managers say the same: a processor is listed under
    exactly the manager id it is paired with, and under no other. *)
Theorem pairings_stay_consistent api settings w w' :
  managers_of w = manager_genesis api settings -> rtc manager_step w w' ->
  forall id p, (managers_of w').(managed_processors) !! (id, p) = Some tt <-> lookup_manager_id p w' = Some id.
Proof.
  intros Hw Hr. apply (manager_reach_kept pairings_agree _ _ kept_pairings Hr). by rewrite Hw.
Qed.

(** * Who ends a pairing *)
Section unpair.
Context (p : AccountId) (id : ManagerId).

Definition paired (s : ManagerState) : Prop := s.(processor_to_manager_id_index) !! p = Some id.

Lemma kept_add_paired q i : kept (fun w => paired (managers_of w)) (do_add_processor_manager_pairing q i).
Proof.
  intros w [] w' Hi Hr. apply do_add_ok in Hr as (Hn & s & -> & _ & ->). unfold paired. simpl.
  rewrite lookup_insert_ne; [done|]. intros ->. unfold lookup_manager_id, paired in *. congruence.
Qed.
Hint Resolve kept_add_paired : kept.

Lemma kept_id_with_event who : kept (fun w => paired (managers_of w)) (manager_id_with_event who).
Proof. solve_kept. Qed.
Lemma kept_paired o c :
  (forall updates, c <> UpdateProcessorPairings updates) ->
  kept (fun w => paired (managers_of w)) (run_manager_call o c).
Proof. intros Hc. destruct c; simpl; [by destruct (Hc updates)|..]; solve_kept. Qed.

(** The removal of the pairing, asked for in the updates of the owner of the id *)
Definition removed_by (who : AccountId) (updates : list (ListUpdate ProcessorPairing)) (w : Bal) : Prop :=
  owner_for id w = Some who /\
  exists u, u ∈ updates /\ u.(lu_operation) = RemoveItem /\ u.(lu_item).(pg_account) = p.

Lemma update_pairing_paired who mid updates u w w' :
  u ∈ updates -> update_pairing who mid u w = (Ok tt, w') ->
  paired (managers_of w) \/ removed_by who updates w -> paired (managers_of w') \/ removed_by who updates w'.
Proof.
  intros Hu. unfold update_pairing. destruct (lu_operation u) eqn:Eop; intros Hr Hi.
  - apply bind_ok in Hr as (now & w1 & [_ <-]%gets_ok & Hr).
    apply bind_ok in Hr as ([] & w1 & [_ <-]%ensure_ok & Hr).
    apply bind_ok in Hr as (o & w1 & [_ <-]%gets_ok & Hr).
    apply bind_ok in Hr as (n & w1 & [_ <-]%ok_or_ok & Hr).
    apply bind_ok in Hr as ([] & w1 & [_ <-]%ensure_ok & Hr).
    apply bind_ok in Hr as ([] & w1 & Ha & <-%modify_ok). rewrite (wl_get laws).
    destruct Hi as [Hi|[Ho Hex]].
    + left. exact (kept_add_paired _ _ _ _ _ Hi Ha).
    + right. split; [|done]. apply do_add_ok in Ha as (_ & s & _ & -> & _). by rewrite !(wl_owner laws).
  - apply do_remove_ok in Hr as (i & Hl & Ho & s1 & s2 & -> & ->). rewrite (wl_get laws).
    destruct Hi as [Hi|[Hw Hex]]; [|right; split; [by rewrite !(wl_owner laws)|done]].
    destruct (decide (pg_account (lu_item u) = p)) as [Hp|Hp].
    + right. rewrite Hp in Hl. assert (i = id) as -> by (unfold lookup_manager_id, paired in *; congruence).
      split; [by rewrite !(wl_owner laws)|]. by exists u.
    + left. unfold paired. simpl. by rewrite lookup_delete_ne.
Qed.
End unpair.

(** C25: A pairing ends only at the wish of its manager: if a call makes a processor
    lose the manager id it is paired with, it is an update of pairings that names the
    processor, signed by the account that owns the id. *)
Theorem only_the_owner_unpairs o c w r w1 p id :
  dispatch_manager o c w = (r, w1) ->
  lookup_manager_id p w = Some id -> lookup_manager_id p w1 <> Some id ->
  exists who updates, o = Signed who /\ c = UpdateProcessorPairings updates /\ removed_by p id who updates w1.
Proof.
  intros Hd Hp Hn. destruct (with_transaction_rollback _ _ _ _ Hd) as [[[] ->]|]; [|by subst].
  unfold dispatch_manager in Hd. rewrite with_transaction_ok in Hd.
  assert ((exists updates, c = UpdateProcessorPairings updates) \/
          forall updates, c <> UpdateProcessorPairings updates) as [[updates ->]|Hc]
    by (destruct c; eauto; right; discriminate).
  2: { exfalso. apply Hn. exact (kept_paired p id o c Hc w tt w1 Hp Hd). }
  apply bind_ok in Hd as (who & w2 & Ho & Hr). destruct o as [who'|]; [|done].
  apply ret_ok in Ho as [<- <-]. exists who', updates. split; [done|]. split; [done|].
  apply bind_ok in Hr as (mid & w2 & Hm & Hr). apply bind_ok in Hr as ([] & w3 & Hl & <-%modify_ok).
  pose proof (kept_id_with_event p id who' _ _ _ Hp Hm) as H2.
  assert (paired p id (managers_of w3) \/ removed_by p id who' updates w3) as [H3|[H3 H4]].
  { refine (mfor_ok (fun w => paired p id (managers_of w) \/ removed_by p id who' updates w) updates
      (update_pairing who' mid) _ w2 tt w3 (or_introl H2) Hl).
    intros u x [] x' Hu Hi Hx. by eapply update_pairing_paired. }
  - exfalso. apply Hn. unfold lookup_manager_id. by rewrite (wl_get laws).
  - split; [|done]. by rewrite (wl_owner laws).
Qed.

(** * Signatures of pairings *)

Definition counter_of (a : AccountId) (s : ManagerState) : Counter := default 0 (s.(manager_counter) !! a).
(** Counters are [u64]s, and the one of [m] has reached [n]. *)
Definition counters_reach (m : AccountId) (n : Counter) (s : ManagerState) : Prop :=
  n <= counter_of m s /\ forall a, 0 <= counter_of a s <= u64_max.

Lemma counters_insert m n a c s :
  counters_reach m n s -> next_counter a s = Some c ->
  counters_reach m n (set_manager_counter (<[a := c]> s.(manager_counter)) s) /\
  c = counter_of a s + 1 /\ c <= u64_max.
Proof.
  intros [Hn Ht] Hc. apply checked_add_Some in Hc as [-> Hle]. split; [|done].
  change (default 0 (manager_counter s !! a)) with (counter_of a s) in *. split.
  - unfold counter_of. simpl. destruct (decide (m = a)) as [->|Hne].
    + rewrite lookup_insert_eq. simpl. fold (counter_of a s). lia.
    + rewrite lookup_insert_ne by done. exact Hn.
  - intros b. unfold counter_of. simpl. destruct (decide (b = a)) as [->|Hne].
    + rewrite lookup_insert_eq. simpl. specialize (Ht a). fold (counter_of a s). lia.
    + rewrite lookup_insert_ne by done. apply Ht.
Qed.

Lemma do_add_counters p id w w' :
  do_add_processor_manager_pairing p id w = (Ok tt, w') ->
  (managers_of w').(manager_counter) = (managers_of w).(manager_counter).
Proof. intros Hr. apply do_add_ok in Hr as (_ & s & -> & _ & ->). done. Qed.
Lemma next_counter_view a s s' :
  s'.(manager_counter) = s.(manager_counter) -> next_counter a s' = next_counter a s.
Proof. unfold next_counter. by intros ->. Qed.

Lemma do_validate_pairing_ok p multi w oc w' :
  do_validate_pairing p multi w = (Ok oc, w') ->
  w' = w /\
  if multi then oc = None
  else exists proof c, p.(pg_proof) = Some proof /\ oc = Some c /\
    next_counter p.(pg_account) (managers_of w) = Some c /\
    verify proof.(pf_signature) (pairing_message p.(pg_account) proof.(pf_timestamp) c) p.(pg_account) = true.
Proof.
  intros (now & w1 & [_ <-]%gets_ok & Hr)%bind_ok. apply bind_ok in Hr as ([] & w1 & [_ <-]%ensure_ok & Hr).
  destruct multi.
  - by apply bind_ok in Hr as ([] & w1 & [_ <-]%ensure_ok & [<- <-]%ret_ok).
  - apply bind_ok in Hr as (o & w1 & [<- <-]%gets_ok & Hr). apply bind_ok in Hr as (c & w1 & [Hc <-]%ok_or_ok & Hr).
    apply bind_ok in Hr as ([] & w1 & [Hv <-]%ensure_ok & [<- <-]%ret_ok). split; [done|].
    unfold validate_signature in Hv. destruct (pg_proof p) as [proof|]; [|done]. by exists proof, c.
Qed.

Section counters.
Context (m : AccountId) (n : Counter).
Notation reach := (fun w => counters_reach m n (managers_of w)).

Lemma kept_id_counters who : kept reach (manager_id_with_event who).
Proof. solve_kept. Qed.
Lemma kept_add_counters q i : kept reach (do_add_processor_manager_pairing q i).
Proof. solve_kept. Qed.
Lemma kept_remove_counters q i : kept reach (do_remove_processor_manager_pairing q i).
Proof. solve_kept. Qed.
Hint Resolve kept_id_counters kept_add_counters kept_remove_counters : kept.

Lemma kept_insert_next a c w w' :
  reach w -> next_counter a (managers_of w) = Some c -> insert_counter a c w = (Ok tt, w') -> reach w'.
Proof. intros Hi Hc <-%modify_ok. rewrite (wl_get laws). by apply counters_insert. Qed.

Lemma kept_update_counters who mid u : kept reach (update_pairing who mid u).
Proof.
  intros w [] w' Hi Hr. unfold update_pairing in Hr. destruct (lu_operation u).
  - apply bind_ok in Hr as (now & w1 & [_ <-]%gets_ok & Hr).
    apply bind_ok in Hr as ([] & w1 & [_ <-]%ensure_ok & Hr).
    apply bind_ok in Hr as (o & w1 & [<- <-]%gets_ok & Hr).
    apply bind_ok in Hr as (c & w1 & [Hc <-]%ok_or_ok & Hr).
    apply bind_ok in Hr as ([] & w1 & [_ <-]%ensure_ok & Hr).
    apply bind_ok in Hr as ([] & w1 & Ha & Hr).
    assert (next_counter who (managers_of w1) = Some c) as Hc1.
    { etrans; [|exact Hc]. by apply next_counter_view, (do_add_counters _ _ _ _ Ha). }
    exact (kept_insert_next _ _ _ _ (kept_add_counters _ _ _ _ _ Hi Ha) Hc1 Hr).
  - by eapply kept_remove_counters.
Qed.
Lemma kept_pair_sender who p multi w oc w1 w2 :
  reach w -> do_validate_pairing p multi w = (Ok oc, w1) -> pair_sender who p oc w1 = (Ok tt, w2) -> reach w2.
Proof.
  intros Hi (-> & Hoc)%do_validate_pairing_ok Hr. apply bind_ok in Hr as ([] & w3 & Hc & Hr).
  assert (reach w3) as H3.
  { destruct multi; [subst oc; by apply ret_ok in Hc as [_ <-]|].
    destruct Hoc as (proof & c & _ & -> & Hn & _). exact (kept_insert_next _ _ _ _ Hi Hn Hc). }
  apply bind_ok in Hr as (i & w4 & Hid & Ha).
  exact (kept_add_counters _ _ _ _ _ (kept_id_counters _ _ _ _ H3 Hid) Ha).
Qed.
End counters.

Lemma kept_counters m n o c : kept (fun w => counters_reach m n (managers_of w)) (run_manager_call o c).
Proof.
  destruct c; simpl; try solve [solve_kept].
  - apply kept_bind; [apply kept_signed|]. intros who. apply kept_bind; [apply kept_id_counters|].
    intros id. apply kept_bind; [|intros []; solve_kept]. apply kept_mfor. intros u. apply kept_update_counters.
  - intros w [] w' Hi (who & w1 & Ho & Hr)%bind_ok.
    pose proof (kept_signed (counters_reach m n) _ _ _ _ Hi Ho) as H1.
    apply bind_ok in Hr as (oc & w2 & Hv & Hr). apply bind_ok in Hr as ([] & w3 & Hp & <-%modify_ok).
    rewrite (wl_get laws). exact (kept_pair_sender _ _ _ _ _ _ _ _ _ H1 Hv Hp).
  - intros w [] w' Hi (who & w1 & Ho & Hr)%bind_ok.
    pose proof (kept_signed (counters_reach m n) _ _ _ _ Hi Ho) as H1.
    apply bind_ok in Hr as ([] & w2 & Ha & Hr). pose proof (kept_attestation _ _ _ _ _ _ H1 Ha) as H2.
    apply bind_ok in Hr as (oc & w3 & Hv & Hr). apply bind_ok in Hr as ([] & w4 & Hp & <-%modify_ok).
    rewrite (wl_get laws). exact (kept_pair_sender _ _ _ _ _ _ _ _ _ H2 Hv Hp).
Qed.

(** The message whose signature by the manager a call asks for, if it is one that is
    counted: the manager and the message *)
Definition counted_message (c : ManagerCall) (w : Bal) : option (AccountId * list Z) :=
  let go p :=
    proof ← p.(pg_proof); counter ← next_counter p.(pg_account) (managers_of w);
    Some (p.(pg_account), pairing_message p.(pg_account) proof.(pf_timestamp) counter) in
  match c with
  | PairWithManager p => go p
  | Onboard p false _ => go p
  | _ => None
  end.

(** A successful counted pairing: the signature was verified, and the counter is used. *)
Lemma counted_pairing o c w w1 m msg :
  (forall a, 0 <= counter_of a (managers_of w) <= u64_max) ->
  dispatch_manager o c w = (Ok tt, w1) -> counted_message c w = Some (m, msg) ->
  exists ts n sg, msg = pairing_message m ts n /\ next_counter m (managers_of w) = Some n /\
    verify sg msg m = true /\ counters_reach m n (managers_of w1).
Proof.
  intros Ht Hd Hm. unfold dispatch_manager in Hd. rewrite with_transaction_ok in Hd.
  assert (exists p who w0, counted_message (PairWithManager p) w = Some (m, msg) /\
    managers_of w0 = managers_of w /\ exists oc w2 w3, do_validate_pairing p false w0 = (Ok oc, w2) /\
      pair_sender who p oc w2 = (Ok tt, w3) /\ (managers_of w1).(manager_counter) = (managers_of w3).(manager_counter))
    as (p & who & w0 & Hc & H0 & oc & w2 & w3 & Hv & Hp & H1).
  { destruct c as [|p| | | | | | | | | | | | |p mu ch| |]; try done.
    - apply bind_ok in Hd as (who' & w2 & Ho & Hr). destruct o as [who|]; [|done]. apply ret_ok in Ho as [<- <-].
      apply bind_ok in Hr as (oc & w2 & Hv & Hr). apply bind_ok in Hr as ([] & w3 & Hp & <-%modify_ok).
      exists p, who, w. split; [done|]. split; [done|]. exists oc, w2, w3. by rewrite (wl_get laws).
    - destruct mu; [done|]. apply bind_ok in Hd as (who' & w2 & Ho & Hr). destruct o as [who|]; [|done].
      apply ret_ok in Ho as [<- <-]. apply bind_ok in Hr as ([] & w2 & Ha & Hr).
      apply bind_ok in Hr as (oc & w4 & Hv & Hr). apply bind_ok in Hr as ([] & w5 & Hp & <-%modify_ok).
      exists p, who, w2. split; [done|]. split; [by eapply (wl_attest laws)|]. exists oc, w4, w5.
      by rewrite (wl_get laws). }
  apply do_validate_pairing_ok in Hv as (-> & proof & n & Hpr & -> & Hn & Hver). rewrite H0 in Hn.
  simpl in Hc. rewrite Hpr, Hn in Hc. injection Hc as <- <-.
  exists (pf_timestamp proof), n, (pf_signature proof). split; [done|]. split; [done|]. split; [done|].
  apply bind_ok in Hp as ([] & w4 & <-%modify_ok & Hp). rewrite H0 in Hp.
  assert (counters_reach (pg_account p) n (managers_of w3)) as H3.
  { apply bind_ok in Hp as (i & w5 & Hid & Ha).
    refine (kept_add_counters _ _ _ _ _ _ _ (kept_id_counters _ _ _ _ _ _ _ Hid) Ha).
    rewrite (wl_get laws). destruct (counters_insert (pg_account p) 0 (pg_account p) n (managers_of w)) as ([_ H4] & _).
    - split; [apply Ht|exact Ht].
    - exact Hn.
    - split; [|exact H4]. unfold counter_of. simpl. by rewrite lookup_insert_eq. }
  unfold counters_reach, counter_of in *. by rewrite H1.
Qed.

(** What is known of the encoding of accounts, which are 32 bytes *)
Definition account_id_ok (a : AccountId) : Prop := 0 <= a < 2 ^ 256.
Definition account_codec_laws : Prop :=
  (forall a, length (account_encode a) = 32%nat) /\
  (forall a b, account_id_ok a -> account_id_ok b -> account_encode a = account_encode b -> a = b).

Lemma pairing_message_inj a b ts ts' n n' :
  account_codec_laws -> account_id_ok a -> account_id_ok b ->
  0 <= n <= u64_max -> 0 <= n' <= u64_max ->
  pairing_message a ts n = pairing_message b ts' n' -> a = b /\ n = n'.
Proof.
  intros [Hl Hi] Ha0 Hb0 Hn Hn' Heq. unfold pairing_message in Heq. apply app_inv_head in Heq.
  apply app_inj_1 in Heq as [Ha Heq]; [|by rewrite !Hl]. apply app_inj_1 in Heq as [_ Heq]; [|by rewrite !length_scale_uint].
  apply app_inv_tail in Heq. split; [by apply Hi|].
  apply (scale_uint_inj 8); [..|done]; change (256 ^ Z.of_nat 8) with (u64_max + 1); lia.
Qed.

Lemma counted_message_inv c w m msg :
  counted_message c w = Some (m, msg) ->
  exists ts n, msg = pairing_message m ts n /\ next_counter m (managers_of w) = Some n.
Proof.
  assert (forall p, (proof ← pg_proof p; counter ← next_counter (pg_account p) (managers_of w);
      Some (pg_account p, pairing_message (pg_account p) (pf_timestamp proof) counter)) = Some (m, msg) ->
    exists ts n, msg = pairing_message m ts n /\ next_counter m (managers_of w) = Some n) as Hgo.
  { intros p (proof & _ & (n & Hn & [= <- <-])%bind_Some)%bind_Some. eauto. }
  destruct c as [|p| | | | | | | | | | | | |p [] ch| |]; try done; apply Hgo.
Qed.

(** C17: A signature of a manager pairs at most once.  A call that pairs its sender
    with a counted signature checks the manager's signature on a message with the next
    counter, and from then on, through whatever the chain does, the message that such
    a call asks for is never the same again. *)
Theorem pairing_signature_counts_once api settings w0 w w1 w2 o c c' m m' msg msg' :
  account_codec_laws -> managers_of w0 = manager_genesis api settings -> rtc manager_step w0 w ->
  dispatch_manager o c w = (Ok tt, w1) -> counted_message c w = Some (m, msg) ->
  rtc manager_step w1 w2 -> counted_message c' w2 = Some (m', msg') ->
  account_id_ok m -> account_id_ok m' ->
  (exists sg, verify sg msg m = true) /\ msg' <> msg.
Proof.
  intros Hcodec H0 Hr Hd Hm Hr2 Hm' Hid Hid'.
  assert (counters_reach m 0 (managers_of w)) as [_ Ht].
  { apply (manager_reach_kept _ _ _ (kept_counters m 0) Hr). rewrite H0.
    split; [done|]. intros a. unfold counter_of. simpl. by rewrite lookup_empty. }
  destruct (counted_pairing _ _ _ _ _ _ Ht Hd Hm) as (ts & n & sg & -> & Hn & Hv & Hreach).
  split; [by exists sg|]. apply (manager_reach_kept _ _ _ (kept_counters m n) Hr2) in Hreach as [Hge Ht2].
  destruct (counted_message_inv _ _ _ _ Hm') as (ts' & n' & -> & Hn').
  apply checked_add_Some in Hn as [Hn Hnle], Hn' as [Hn' Hnle'].
  change (default 0 (manager_counter ?s !! ?a)) with (counter_of a s) in *.
  pose proof (Ht m). pose proof (Ht2 m'). intros Heq.
  apply pairing_message_inj in Heq as [-> ->]; [|done..|lia|lia]. lia.
Qed.
End specs.

(** * The theorems at the concrete chain *)
Lemma rm_laws : manager_world_laws (L := manager_balances).
Proof.
  assert (forall f w w', lift_opt (L := reference_balances) rm_bal set_rm_bal f w = Some w' ->
    rm_managers w' = rm_managers w) as Hopt by (by intros f w w' (x & _ & [= <-])%bind_Some).
  assert (forall f (a : Z) w w', lift_val (L := reference_balances) rm_bal set_rm_bal f w = Some (a, w') ->
    rm_managers w' = rm_managers w) as Hval by (by intros f a w w' ([b x] & _ & [= _ <-])%bind_Some).
  split; try done; intros;
    lazymatch goal with
    | Hr : (_, _) = (_, _) |- _ => by injection Hr as _ <-
    | Hr : u_create_collection _ _ _ _ = _ |- _ => exact (Hopt _ _ _ Hr)
    | Hr : u_do_mint _ _ _ _ = _ |- _ => exact (Hopt _ _ _ Hr)
    | Hr : b_mint_into _ _ _ = _ |- _ => exact (Hopt _ _ _ Hr)
    | Hr : b_burn_from _ _ _ _ _ _ = _ |- _ => exact (Hval _ _ _ _ Hr)
    | Hr : _ = (_, _) |- _ => by injection Hr as _ <-
    end.
Qed.
Lemma reference_codec_laws : account_codec_laws.
Proof.
  split; [intros a; apply length_scale_uint|]. intros a b Ha Hb. apply scale_uint_inj; [exact Ha|exact Hb].
Qed.

Lemma rm_paired_reach : rtc manager_step rm_genesis rm_paired.
Proof. apply rtc_once, step_manager_call. Qed.

Lemma pairings_stay_consistent_witness :
  (rm_genesis.(rm_managers) = manager_genesis 3 (Some (mkOnboarding (2 * UNIT) (5 * UNIT) 2))) /\
  rtc manager_step rm_genesis rm_paired /\
  rm_paired.(rm_managers).(managed_processors) !! (1, 7) = Some tt.
Proof.
  split; [reflexivity|]. split; [exact rm_paired_reach|].
  apply (pairings_stay_consistent (L := manager_balances) rm_laws 3 (Some (mkOnboarding (2 * UNIT) (5 * UNIT) 2))
    rm_genesis rm_paired eq_refl rm_paired_reach 1 7).
  by_compute.
Defined.

Definition unpair_7 : ManagerCall :=
  UpdateProcessorPairings [{| lu_operation := RemoveItem; lu_item := mkPairing 7 None |}].

Definition rm_last : RefManagers :=
  exec (dispatch_manager (Signed 1) unpair_7) rm_paired.

Lemma only_the_owner_unpairs_witness :
  exists who updates, Signed 1 = Signed who /\ unpair_7 = UpdateProcessorPairings updates /\
    removed_by (L := manager_balances) 7 1 who updates rm_last.
Proof.
  apply (only_the_owner_unpairs (L := manager_balances) rm_laws (Signed 1) unpair_7 rm_paired (Ok tt)
    rm_last 7 1); by_compute.
Defined.

Lemma pairing_signature_counts_once_witness :
  counted_message (PairWithManager (pairing_of 1 4000 1)) rm_genesis
    = Some (1, pairing_message 1 4000 1) /\
  pairing_message 1 4000 2 <> pairing_message 1 4000 1.
Proof.
  split; [by_compute|].
  refine (proj2 (pairing_signature_counts_once (L := manager_balances) rm_laws 3 (Some (mkOnboarding (2 * UNIT) (5 * UNIT) 2))
    rm_genesis rm_genesis rm_paired rm_last (Signed 7)
    (PairWithManager (pairing_of 1 4000 1)) (PairWithManager (pairing_of 1 4000 2))
    1 1 (pairing_message 1 4000 1) (pairing_message 1 4000 2)
    reference_codec_laws eq_refl (rtc_refl _ _) _ _ (rtc_once _ _ (step_manager_call _ _ _)) _ _ _)).
  all: by_compute.
Defined.
