(* ===== verification/Transactions.v ===== *)
(** What happens to a transaction around its call: the extension [Onboarding]
    ([pallets/processor-manager/src/onboarding.rs]), the check of nonces
    ([runtime/common/src/check_nonce.rs]) and the payment of fees
    ([runtime/common/src/types/transaction_charger.rs]).

    A transaction is validated and prepared by the extensions in their order; then its
    call is dispatched; then the fee is corrected.  Managers pay the fees of their
    processors, first from the funds that were put on hold for onboarding. *)
From S2P Require Import Prelude Attestations JobTypes Balances TokenClaim ManagerTypes Managers.

(** [InvalidTransaction] *)
Inductive InvalidTransaction :=
| Payment
| Stale
| Future
| Custom (code : Z).

Definition PAIRING_VALIDATION_ERROR : Z := 1.
Definition ATTESTATION_VALIDATION_ERROR : Z := 2.
Definition FUNDING_ERROR : Z := 3.

(** [onboarding::Val] and [check_nonce::Val], whose weights are not modelled *)
Inductive OnboardingVal :=
| Fund (from_account to_account : AccountId) (amount : Balance)
| NoFund.
Inductive NonceVal :=
| NonceFor (who : AccountId) (nonce : Z)
| NonceRefund.

(** [ValidTransaction]: the tags, which are encoded pairs of an account and a nonce *)
Record ValidTransaction := mkValid {
  vt_requires : list (AccountId * Z);
  vt_provides : list (AccountId * Z);
}.

Record LiquidityInfo := mkLiquidity {
  lq_imbalance : option Balance;
  lq_fee_payer : option AccountId;
}.

(** The calls of the runtime: which of them are calls of the processor manager, and
    which are calls of the marketplace whose fee may be paid from the funds on hold *)
Class RuntimeCalls {L : Balances} := {
  RuntimeCall : Type;
  as_manager_call : RuntimeCall -> option ManagerCall;
  is_fundable_market_call : RuntimeCall -> bool;
  (** the state after the call, which keeps what a failed call must keep *)
  dispatch_runtime : RuntimeOrigin -> RuntimeCall -> Bal -> Bal;
}.

Section transactions.
Context {L : Balances} {G : Signatures} {C : ManagerConfig}.
Context {MW : ManagerWorld} {H : ProcessorHandlers} {R : RuntimeCalls}.

Definition MX (A : Type) : Type := M Bal InvalidTransaction A.

(** [IsFundable<T, A, B>] *)
Definition is_fundable_call (call : RuntimeCall) : bool :=
  match as_manager_call call with Some c => is_fundable_manager_call c | None => false end
  || is_fundable_market_call call.
Definition is_funding (call : RuntimeCall) : bool :=
  match as_manager_call call with Some c => is_funding_call c | None => false end.
Definition pairing_of_call (call : RuntimeCall)
  : option (ProcessorPairing * bool * option AttestationChain) :=
  c ← as_manager_call call; pairing_for_call c.

(** [OnboardingProvider::fee_payer] *)
Definition fee_payer (account : AccountId) (call : RuntimeCall) (w : Bal) : AccountId :=
  match lookup_manager account w with
  | Some (manager, _) => manager
  | None =>
      match pairing_of_call call with
      | Some (pairing, _, _) => pairing.(pg_account)
      | None => account
      end
  end.

(** Runs a computation of the processor manager; its error becomes the given one. *)
Definition or_invalid {A} (e : InvalidTransaction) (m : M Bal ManagerError A) : MX A :=
  fun w => match m w with
           | (Ok a, w') => (Ok a, w')
           | (Err _, w') => (Err e, w')
           | (Panic, w') => (Panic, w')
           end.

(** * [Onboarding] *)
Definition onboarding_validate (origin : option AccountId) (call : RuntimeCall) : MX OnboardingVal :=
  match origin, pairing_of_call call with
  | Some who, Some (pairing, is_multi, attestation_chain) =>
      let* _ := or_invalid (Custom PAIRING_VALIDATION_ERROR) (do_validate_pairing pairing is_multi) in
      match attestation_chain with
      | None => ret NoFund
      | Some attestation_chain =>
          let* _ := or_invalid (Custom ATTESTATION_VALIDATION_ERROR)
                      (fun w => (validate_attestation attestation_chain who w, w)) in
          let* o := gets (can_fund_processor_onboarding who pairing.(pg_account)) in
          match o with
          | None => ret NoFund
          | Some (from_account, amount) => ret (Fund from_account pairing.(pg_account) amount)
          end
      end
  | _, _ => ret NoFund
  end.

Definition onboarding_prepare (val : OnboardingVal) : MX unit :=
  match val with
  | NoFund => ret tt
  | Fund from_account to_account amount =>
      or_invalid (Custom FUNDING_ERROR) (fund from_account to_account amount)
  end.

(** * [CheckNonce] *)
Definition nonce_validate (nonce : Z) (origin : option AccountId) (call : RuntimeCall)
  : MX (ValidTransaction * NonceVal) :=
  match origin with
  | None => ret (mkValid [] [], NonceRefund)
  | Some who =>
      let* w := gets id in
      let payer := fee_payer who call w in
      let fee_payer_account := sys_account w payer in
      ensure (negb ((negb (is_funding call)
                     || negb (bool_decide (is_Some (can_fund_processor_onboarding who payer w))))
                    && (fee_payer_account.(ai_providers) =? 0)
                    && (fee_payer_account.(ai_sufficients) =? 0))) Payment;;
      let account := if negb (payer =? who) then sys_account w who else fee_payer_account in
      ensure (negb (nonce <? account.(ai_nonce))) Stale;;
      let provides := [(who, nonce)] in
      let requires :=
        if account.(ai_nonce) <? nonce then [(who, saturating_sub nonce 1)] else [] in
      ret (mkValid requires provides, NonceFor who account.(ai_nonce))
  end.

Definition nonce_prepare (self_nonce : Z) (val : NonceVal) : MX unit :=
  match val with
  | NonceRefund => ret tt
  | NonceFor who nonce =>
      ensure (negb (nonce <? self_nonce)) Future;;
      modify (sys_set_nonce who (wrapping_add u32_max nonce 1))
  end.

(** * [TransactionCharger] *)
Definition can_withdraw_fee (who : AccountId) (call : RuntimeCall) (fee : Balance) : MX unit :=
  let* w := gets id in
  let payer := fee_payer who call w in
  if (fee =? 0)
     || (is_funding call && bool_decide (is_Some (can_fund_processor_onboarding who payer w)))
  then ret tt
  else
    let fundable := negb (payer =? who) && is_fundable_call call in
    let '(can_cover, missing) := can_cover_fee payer fee w in
    if fundable && can_cover then ret tt
    else
      let fee := if fundable then missing else fee in
      ensure (b_can_withdraw payer fee w) Payment.

Definition withdraw_fee (who : AccountId) (call : RuntimeCall) (fee : Balance)
  : MX (option LiquidityInfo) :=
  if fee =? 0 then ret None
  else
    let* w := gets id in
    let payer := fee_payer who call w in
    (if negb (payer =? who) && is_fundable_call call then modify (release_fee_funds payer fee) else ret tt);;
    let* w := gets id in
    match b_withdraw Exact Preserve Polite payer fee w with
    | Some (imbalance, w') =>
        modify (fun _ => w');;
        ret (Some (mkLiquidity (Some imbalance) (Some payer)))
    | None => throw Payment
    end.

(** [paid.offset(refund).same()], and [split(tip)] *)
Definition offset_same (paid refund : Balance) : option Balance :=
  if refund <=? paid then Some (paid - refund) else None.
Definition split_credit (credit amount : Balance) : Balance * Balance :=
  let first := Z.min credit amount in (first, credit - first).

(** [OU] is [()] in the runtimes: the credits for fee and tip are dropped. *)
Definition correct_and_deposit_fee (who : AccountId) (corrected_fee tip : Balance)
  (info : option LiquidityInfo) : MX unit :=
  match info with
  | None => ret tt
  | Some info =>
      match info.(lq_imbalance) with
      | None => ret tt
      | Some paid =>
          let payer := default who info.(lq_fee_payer) in
          let refund_amount := saturating_sub paid corrected_fee in
          let* w := gets id in
          let* refund_imbalance :=
            if 0 <? b_total_balance w payer then
              match b_deposit BestEffort payer refund_amount w with
              | Some (debt, w') => modify (fun _ => w');; ret debt
              | None => ret 0
              end
            else ret 0 in
          let* adjusted_paid := ok_or (offset_same paid refund_imbalance) Payment in
          let '(tip, fee) := split_credit adjusted_paid tip in
          modify (b_drop_credit fee);;
          modify (b_drop_credit tip)
      end
  end.

(** * A transaction

    The signer, its nonce, the call, the fee that is computed from weight and length
    before the call and the one computed after it, and the tip that both include *)
Record Transaction := mkTransaction {
  tx_origin : option AccountId;
  tx_nonce : Z;
  tx_call : RuntimeCall;
  tx_fee : Balance;
  tx_corrected_fee : Balance;
  tx_tip : Balance;
}.

Definition tx_validate (t : Transaction) : MX (OnboardingVal * NonceVal) :=
  let* onboarding := onboarding_validate t.(tx_origin) t.(tx_call) in
  let* v := nonce_validate t.(tx_nonce) t.(tx_origin) t.(tx_call) in
  match t.(tx_origin) with
  | Some who => can_withdraw_fee who t.(tx_call) t.(tx_fee)
  | None => ret tt
  end;;
  ret (onboarding, v.2).

Definition tx_prepare (t : Transaction) (v : OnboardingVal * NonceVal) : MX (option LiquidityInfo) :=
  onboarding_prepare v.1;;
  nonce_prepare t.(tx_nonce) v.2;;
  match t.(tx_origin) with
  | Some who => withdraw_fee who t.(tx_call) t.(tx_fee)
  | None => ret None
  end.

(** [apply_extrinsic]: an invalid transaction is not part of a block. *)
Definition apply_signed (who : AccountId) (t : Transaction) : MX unit :=
  let* v := tx_validate t in
  let* info := tx_prepare t v in
  modify (dispatch_runtime (Signed who) t.(tx_call));;
  correct_and_deposit_fee who t.(tx_corrected_fee) t.(tx_tip) info.
Definition apply_extrinsic (who : AccountId) (t : Transaction) : MX unit :=
  with_transaction (apply_signed who t).
End transactions.
