(* ===== verification/TransactionSpecs.v ===== *)
(** Transactions: a nonce is used once, fees are paid by an account that agreed to
    pay them, the fee that is kept leaves the payer and the issuance, and the funds
    that onboarding puts on hold are bounded. *)
From S2P Require Import Prelude Attestations JobTypes Balances TokenClaim ManagerTypes Managers.
From S2P Require Import Transactions BalancesReference ManagerSpecs.

Section specs.
Context {L : Balances} {G : Signatures} {C : ManagerConfig}.
Context {MW : ManagerWorld} {H : ProcessorHandlers} {R : RuntimeCalls}.

Notation MX := (M Bal InvalidTransaction).

Definition delta (who : AccountId) (n : Balance) (a : AccountId) : Balance :=
  if bool_decide (who = a) then n else 0.
Definition nonce_of (w : Bal) (a : AccountId) : Z := (sys_account w a).(ai_nonce).

(** The operation moves balances as [d] says, and leaves the rest as it is. *)
Record moves (d : AccountId -> Balance) (w w' : Bal) : Prop := {
  mv_total a : b_total_balance w' a = b_total_balance w a + d a;
  mv_issuance : b_total_issuance w' = b_total_issuance w;
  mv_nonce a : nonce_of w' a = nonce_of w a;
  mv_manager a : lookup_manager a w' = lookup_manager a w;
}.

(** What is assumed of the currency and of the accounts: what their documentation
    says of the operations that the extensions use.  A deposit takes what it can of
    the refund. *)
Record fee_laws : Prop := {
  fl_transfer from to n w w' : b_currency_transfer true from to n w = Some w' ->
    moves (fun a => delta to n a - delta from n a) w w' /\
    forall a, b_on_hold OnboardingHold w' a = b_on_hold OnboardingHold w a;
  fl_hold who n w w' : b_hold OnboardingHold who n w = Some w' ->
    moves (fun _ => 0) w w' /\
    forall a, b_on_hold OnboardingHold w' a = b_on_hold OnboardingHold w a + delta who n a;
  fl_reducible w a : 0 <= b_reducible_balance Protect Polite w a;
  fl_release who n w w' : 0 <= n -> b_release OnboardingHold BestEffort who n w = Some w' ->
    moves (fun _ => 0) w w' /\
    forall a, b_on_hold OnboardingHold w' a <= b_on_hold OnboardingHold w a;
  fl_withdraw who n w m w' : b_withdraw Exact Preserve Polite who n w = Some (m, w') ->
    m = n /\ moves (fun a => - delta who n a) w w' /\
    forall a, b_on_hold OnboardingHold w' a = b_on_hold OnboardingHold w a;
  fl_deposit who n w m w' : 0 <= n -> b_deposit BestEffort who n w = Some (m, w') ->
    0 <= m <= n /\ moves (delta who m) w w';
  fl_drop c w a : b_total_balance (b_drop_credit c w) a = b_total_balance w a /\
    nonce_of (b_drop_credit c w) a = nonce_of w a;
  fl_drop_issuance c w : b_total_issuance (b_drop_credit c w) = b_total_issuance w - c;
  fl_nonce who n w a : b_total_balance (sys_set_nonce who n w) a = b_total_balance w a /\
    nonce_of (sys_set_nonce who n w) a = (if bool_decide (who = a) then n else nonce_of w a) /\
    b_on_hold OnboardingHold (sys_set_nonce who n w) a = b_on_hold OnboardingHold w a /\
    lookup_manager a (sys_set_nonce who n w) = lookup_manager a w;
  fl_nonce_issuance who n w : b_total_issuance (sys_set_nonce who n w) = b_total_issuance w;
}.

(** * Validation changes nothing *)
Lemma or_invalid_ok {A} e (m : M Bal ManagerError A) a w w' :
  or_invalid e m w = (Ok a, w') <-> m w = (Ok a, w').
Proof. unfold or_invalid. destruct (m w) as [[] ?]; naive_solver. Qed.

(** A transfer of onboarding funds that validation grants *)
Definition grants (who : AccountId) (call : RuntimeCall) (w : Bal) (v : OnboardingVal) : Prop :=
  match v with
  | NoFund => True
  | Fund from to n =>
      exists pairing multi chain, pairing_of_call call = Some (pairing, multi, Some chain) /\
        to = pairing.(pg_account) /\ can_fund_processor_onboarding who to w = Some (from, n)
  end.

(** The manager has signed a pairing that the call carries. *)
Definition signed_by_manager (call : RuntimeCall) (w : Bal) (manager : AccountId) : Prop :=
  exists pairing multi chain, pairing_of_call call = Some (pairing, multi, chain) /\
    pairing.(pg_account) = manager /\
    if (multi : bool) then multi_validate_signature pairing manager = true
    else exists counter, next_counter manager (managers_of w) = Some counter /\
           validate_signature pairing manager counter = true.

Lemma pairing_is_signed pairing multi oc w w' :
  do_validate_pairing pairing multi w = (Ok oc, w') ->
  w' = w /\
  if multi then multi_validate_signature pairing pairing.(pg_account) = true
  else exists counter, next_counter pairing.(pg_account) (managers_of w) = Some counter /\
         validate_signature pairing pairing.(pg_account) counter = true.
Proof.
  intros (now & w1 & [_ <-]%gets_ok & Hr)%bind_ok. apply bind_ok in Hr as ([] & w1 & [_ <-]%ensure_ok & Hr).
  destruct multi.
  - apply bind_ok in Hr as ([] & w1 & [Hs <-]%ensure_ok & [_ <-]%ret_ok). by split.
  - apply bind_ok in Hr as (o & w1 & [<- <-]%gets_ok & Hr). apply bind_ok in Hr as (c & w1 & [Hc <-]%ok_or_ok & Hr).
    apply bind_ok in Hr as ([] & w1 & [Hv <-]%ensure_ok & [_ <-]%ret_ok). split; [done|]. by exists c.
Qed.

Lemma onboarding_validate_ok who call w v w' :
  onboarding_validate (Some who) call w = (Ok v, w') ->
  w' = w /\ grants who call w v /\
  forall pairing multi chain, pairing_of_call call = Some (pairing, multi, chain) ->
    signed_by_manager call w pairing.(pg_account).
Proof.
  unfold onboarding_validate. destruct (pairing_of_call call) as [[[pairing multi] chain]|] eqn:Ep.
  2: { intros [<- <-]%ret_ok. naive_solver. }
  intros (oc & w1 & (-> & Hs)%or_invalid_ok%pairing_is_signed & Hr)%bind_ok.
  assert (signed_by_manager call w (pg_account pairing)) as Hsig by (exists pairing, multi, chain; naive_solver).
  assert (forall pairing' multi' chain', Some (pairing, multi, chain) = Some (pairing', multi', chain') ->
    signed_by_manager call w pairing'.(pg_account)) as Hall by naive_solver.
  destruct chain as [chain|]; [|apply ret_ok in Hr as [<- <-]; done].
  apply bind_ok in Hr as (at_ & w1 & Ha%or_invalid_ok & Hr). injection Ha as _ <-.
  apply bind_ok in Hr as (o & w1 & [Ho <-]%gets_ok & Hr).
  destruct o as [[from n]|]; apply ret_ok in Hr as [<- <-]; split; [done| |done|]; split; try done.
  exists pairing, multi, chain. done.
Qed.

Lemma nonce_validate_ok nonce who call w v w' :
  nonce_validate nonce (Some who) call w = (Ok v, w') ->
  w' = w /\ v.2 = NonceFor who (nonce_of w who) /\ nonce_of w who <= nonce.
Proof.
  intros (x & w1 & [<- <-]%gets_ok & Hr)%bind_ok. cbv zeta in Hr.
  apply bind_ok in Hr as ([] & w1 & [_ <-]%ensure_ok & Hr).
  apply bind_ok in Hr as ([] & w1 & [Hn <-]%ensure_ok & [<- <-]%ret_ok).
  assert (forall b, (if negb (fee_payer who call w =? who) then sys_account w who
      else sys_account w (fee_payer who call w)) = b -> b = sys_account w who) as Hacc.
  { intros b <-. by destruct (Z.eqb_spec (fee_payer who call w) who) as [->|]. }
  unfold id in *. rewrite (Hacc _ eq_refl) in Hn |- *.
  apply negb_true_iff, Z.ltb_ge in Hn. done.
Qed.

Lemma can_withdraw_fee_state who call fee w a w' :
  can_withdraw_fee who call fee w = (Ok a, w') -> w' = w.
Proof.
  intros (x & w1 & [<- <-]%gets_ok & Hr)%bind_ok. cbv zeta in Hr.
  destruct (_ || _); [by apply ret_ok in Hr as [_ <-]|].
  destruct (can_cover_fee _ _ _) as [can_cover missing].
  destruct (_ && _); [by apply ret_ok in Hr as [_ <-]|].
  by destruct (_ && _); apply ensure_ok in Hr as [_ <-].
Qed.

Lemma tx_validate_ok who t v w w' :
  t.(tx_origin) = Some who -> tx_validate t w = (Ok v, w') ->
  w' = w /\ grants who t.(tx_call) w v.1 /\
  v.2 = NonceFor who (nonce_of w who) /\ nonce_of w who <= t.(tx_nonce) /\
  forall pairing multi chain, pairing_of_call t.(tx_call) = Some (pairing, multi, chain) ->
    signed_by_manager t.(tx_call) w pairing.(pg_account).
Proof.
  intros Ho (o & w1 & Hon & Hr)%bind_ok. rewrite Ho in Hon, Hr.
  apply onboarding_validate_ok in Hon as (-> & Hg & Hs).
  apply bind_ok in Hr as (n & w1 & (-> & Hv & Hle)%nonce_validate_ok & Hr).
  apply bind_ok in Hr as ([] & w1 & ->%can_withdraw_fee_state & [<- <-]%ret_ok). done.
Qed.

(** * Preparation: funding, the nonce, the fee *)
Context (laws : fee_laws).

Lemma moves_trans d e w w1 w2 :
  moves d w w1 -> moves e w1 w2 -> moves (fun a => d a + e a) w w2.
Proof.
  intros [T1 I1 N1 L1] [T2 I2 N2 L2]. split.
  - intros a. rewrite T2, T1. lia.
  - by rewrite I2.
  - intros a. by rewrite N2.
  - intros a. by rewrite L2.
Qed.
Lemma moves_refl w : moves (fun _ => 0) w w.
Proof. split; [intros a; lia|done..]. Qed.
Lemma moves_ext d e w w' : (forall a, d a = e a) -> moves d w w' -> moves e w w'.
Proof. intros He [T I N Lk]. split; [intros a; by rewrite T, He|done..]. Qed.

(** What a grant moves, and what it may put on hold *)
Definition funding (v : OnboardingVal) (a : AccountId) : Balance :=
  match v with NoFund => 0 | Fund from to n => delta to n a - delta from n a end.
Definition granted (v : OnboardingVal) (a : AccountId) : Balance :=
  match v with NoFund => 0 | Fund _ to n => delta to n a end.

Lemma world_try_ok f e w w' : world_try f e w = (Ok tt, w') <-> f w = Some w'.
Proof.
  unfold world_try. rewrite bind_ok. split.
  - intros (x & w1 & [<- <-]%gets_ok & (y & w2 & [Hf <-]%ok_or_ok & <-%modify_ok)%bind_ok). done.
  - intros Hf. exists w, w. split; [done|]. apply bind_ok. exists w', w. unfold id. by rewrite Hf.
Qed.

Lemma onboarding_prepare_ok v w w' :
  onboarding_prepare v w = (Ok tt, w') ->
  moves (funding v) w w' /\
  forall a, b_on_hold OnboardingHold w' a <= b_on_hold OnboardingHold w a + granted v a.
Proof.
  destruct v as [from to n|]; simpl; intros Hr.
  2: { apply ret_ok in Hr as [_ <-]. split; [apply moves_refl|intros a; lia]. }
  apply or_invalid_ok, bind_ok in Hr as ([] & w1 & (Hm & Hh)%world_try_ok%(fl_transfer laws) & Hr).
  apply bind_ok in Hr as (x & w2 & [<- <-]%gets_ok & (Hm2 & Hh2)%world_try_ok%(fl_hold laws)).
  split.
  - eapply moves_ext; [|exact (moves_trans _ _ _ _ _ Hm Hm2)]. intros a. simpl. lia.
  - intros a. rewrite Hh2, Hh. unfold delta. case_bool_decide; lia.
Qed.

Lemma nonce_prepare_ok nonce who n w w' :
  nonce_prepare nonce (NonceFor who n) w = (Ok tt, w') ->
  nonce <= n /\ w' = sys_set_nonce who (wrapping_add u32_max n 1) w.
Proof.
  intros ([] & w1 & [Hn <-]%ensure_ok & <-%modify_ok)%bind_ok.
  by apply negb_true_iff, Z.ltb_ge in Hn.
Qed.

Lemma release_fee_funds_moves who fee w :
  0 <= fee -> moves (fun _ => 0) w (release_fee_funds who fee w) /\
  forall a, b_on_hold OnboardingHold (release_fee_funds who fee w) a <= b_on_hold OnboardingHold w a.
Proof.
  intros Hf. unfold release_fee_funds. destruct (b_release _ _ _ _ _) as [w'|] eqn:E; simpl.
  - by apply (fl_release laws) in E.
  - split; [apply moves_refl|done].
Qed.

Lemma withdraw_fee_ok who call fee info w w' :
  0 <= fee -> withdraw_fee who call fee w = (Ok info, w') ->
  let payer := fee_payer who call w in
  moves (fun a => - delta payer fee a) w w' /\
  (forall a, b_on_hold OnboardingHold w' a <= b_on_hold OnboardingHold w a) /\
  info = if fee =? 0 then None else Some (mkLiquidity (Some fee) (Some payer)).
Proof.
  intros Hf Hr. unfold withdraw_fee in Hr. destruct (Z.eqb_spec fee 0) as [->|Hz].
  { apply ret_ok in Hr as [<- <-]. split; [|done]. apply (moves_ext (fun _ => 0)); [|apply moves_refl].
    intros a. unfold delta. case_bool_decide; lia. }
  apply bind_ok in Hr as (x & w1 & [<- <-]%gets_ok & Hr). unfold id in *. cbv zeta in *.
  set (payer := fee_payer who call w) in *.
  apply bind_ok in Hr as ([] & w1 & H1 & Hr).
  assert (moves (fun _ => 0) w w1 /\
    forall a, b_on_hold OnboardingHold w1 a <= b_on_hold OnboardingHold w a) as [Hm Hh].
  { destruct (_ && _); [apply modify_ok in H1 as <-; by apply release_fee_funds_moves|].
    apply ret_ok in H1 as [_ <-]. split; [apply moves_refl|done]. }
  apply bind_ok in Hr as (x & w2 & [<- <-]%gets_ok & Hr).
  destruct (b_withdraw _ _ _ _ _ _) as [[m w2]|] eqn:E; [|by apply throw_ok in Hr].
  apply bind_ok in Hr as ([] & w3 & <-%modify_ok & [<- <-]%ret_ok).
  apply (fl_withdraw laws) in E as (-> & Hm2 & Hh2). split; [|split; [intros a; by rewrite Hh2|done]].
  eapply moves_ext; [|exact (moves_trans _ _ _ _ _ Hm Hm2)]. intros a. simpl. lia.
Qed.

(** The payer is found by the manager of the sender, or by the call. *)
Lemma fee_payer_view who call w w' :
  (forall a, lookup_manager a w' = lookup_manager a w) -> fee_payer who call w' = fee_payer who call w.
Proof. intros Hl. unfold fee_payer. by rewrite Hl. Qed.

Lemma tx_prepare_ok who t v info w w' :
  t.(tx_origin) = Some who -> v.2 = NonceFor who (nonce_of w who) -> 0 <= t.(tx_fee) ->
  tx_prepare t v w = (Ok info, w') ->
  let payer := fee_payer who t.(tx_call) w in
  t.(tx_nonce) <= nonce_of w who /\
  nonce_of w' who = wrapping_add u32_max (nonce_of w who) 1 /\
  (forall a, b_total_balance w' a = b_total_balance w a + funding v.1 a - delta payer t.(tx_fee) a) /\
  b_total_issuance w' = b_total_issuance w /\
  (forall a, b_on_hold OnboardingHold w' a <= b_on_hold OnboardingHold w a + granted v.1 a) /\
  info = (if t.(tx_fee) =? 0 then None else Some (mkLiquidity (Some t.(tx_fee)) (Some payer))).
Proof.
  intros Ho Hv Hf Hr. simpl. unfold tx_prepare in Hr. rewrite Ho, Hv in Hr.
  apply bind_ok in Hr as ([] & w1 & [Hm1 Hh1]%onboarding_prepare_ok & Hr).
  apply bind_ok in Hr as ([] & w2 & [Hn ->]%nonce_prepare_ok & Hr).
  apply withdraw_fee_ok in Hr as (Hm3 & Hh3 & ->); [|done].
  set (w2 := sys_set_nonce who (wrapping_add u32_max (nonce_of w who) 1) w1) in *.
  assert (fee_payer who (tx_call t) w2 = fee_payer who (tx_call t) w) as Hp.
  { apply fee_payer_view. intros a. unfold w2.
    rewrite (proj2 (proj2 (proj2 (fl_nonce laws _ _ _ _)))). apply (mv_manager _ _ _ Hm1). }
  rewrite Hp in *. split; [done|]. split; [|split; [|split; [|split]]].
  - rewrite (mv_nonce _ _ _ Hm3). unfold w2. rewrite (proj1 (proj2 (fl_nonce laws _ _ _ _))).
    by rewrite bool_decide_true.
  - intros a. rewrite (mv_total _ _ _ Hm3). unfold w2.
    rewrite (proj1 (fl_nonce laws _ _ _ _)), (mv_total _ _ _ Hm1). lia.
  - rewrite (mv_issuance _ _ _ Hm3). unfold w2. rewrite (fl_nonce_issuance laws). apply (mv_issuance _ _ _ Hm1).
  - intros a. etrans; [apply Hh3|]. unfold w2. rewrite (proj1 (proj2 (proj2 (fl_nonce laws _ _ _ _)))). apply Hh1.
  - done.
Qed.

(** * The fee that is kept *)
Lemma correct_fee_ok who corrected tip fee payer w w' :
  0 <= corrected <= fee ->
  correct_and_deposit_fee who corrected tip (Some (mkLiquidity (Some fee) (Some payer))) w = (Ok tt, w') ->
  exists refund, 0 <= refund <= fee - corrected /\
    (forall a, b_total_balance w' a = b_total_balance w a + delta payer refund a) /\
    (forall a, nonce_of w' a = nonce_of w a) /\
    b_total_issuance w' = b_total_issuance w - (fee - refund) /\
    (forall x, 0 < b_total_balance w payer ->
       b_deposit BestEffort payer (fee - corrected) w = Some (fee - corrected, x) -> refund = fee - corrected).
Proof.
  intros Hc Hr. simpl in Hr.
  assert (saturating_sub fee corrected = fee - corrected) as Hs by (unfold saturating_sub; lia).
  rewrite Hs in Hr. apply bind_ok in Hr as (x & w1 & [<- <-]%gets_ok & Hr). unfold id in *.
  apply bind_ok in Hr as (refund & w1 & Hd & Hr).
  apply bind_ok in Hr as (adj & w2 & [Ha <-]%ok_or_ok & Hr).
  unfold offset_same in Ha. destruct (Z.leb_spec refund fee) as [_|]; [|done]. injection Ha as <-.
  unfold split_credit in Hr. apply bind_ok in Hr as ([] & w2 & <-%modify_ok & <-%modify_ok).
  assert (0 <= refund <= fee - corrected /\ moves (delta payer refund) w w1 /\
    (forall x, 0 < b_total_balance w payer ->
       b_deposit BestEffort payer (fee - corrected) w = Some (fee - corrected, x) -> refund = fee - corrected))
    as (Hb & Hm & Hfull).
  { assert (moves (delta payer 0) w w) as Hz.
    { apply (moves_ext (fun _ => 0)); [|apply moves_refl]. intros a. unfold delta. by case_bool_decide. }
    destruct (Z.ltb_spec 0 (b_total_balance w payer)) as [Hp|Hp].
    2: { apply ret_ok in Hd as [<- <-]. split; [lia|]. split; [done|]. intros x Hx. lia. }
    destruct (b_deposit _ _ _ _) as [[m w2]|] eqn:E.
    2: { apply ret_ok in Hd as [<- <-]. split; [lia|]. done. }
    apply bind_ok in Hd as ([] & w3 & <-%modify_ok & [<- <-]%ret_ok).
    apply (fl_deposit laws) in E as [Hb Hm]; [|lia]. split; [done|]. split; [done|]. intros x _ [= -> _]. done. }
  exists refund. split; [done|]. split; [|split; [|split; [|exact Hfull]]].
  - intros a. rewrite !(proj1 (fl_drop laws _ _ _)). apply (mv_total _ _ _ Hm).
  - intros a. rewrite !(proj2 (fl_drop laws _ _ _)). apply (mv_nonce _ _ _ Hm).
  - rewrite !(fl_drop_issuance laws), (mv_issuance _ _ _ Hm). lia.
Qed.

(** A transaction that is part of a block: the states before and after its call *)
Lemma apply_extrinsic_ok who t w w' :
  t.(tx_origin) = Some who -> 0 <= t.(tx_fee) -> apply_extrinsic who t w = (Ok tt, w') ->
  exists v w1, tx_validate t w = (Ok v, w) /\
    tx_prepare t v w = (Ok (if t.(tx_fee) =? 0 then None
      else Some (mkLiquidity (Some t.(tx_fee)) (Some (fee_payer who t.(tx_call) w)))), w1) /\
    correct_and_deposit_fee who t.(tx_corrected_fee) t.(tx_tip)
      (if t.(tx_fee) =? 0 then None
       else Some (mkLiquidity (Some t.(tx_fee)) (Some (fee_payer who t.(tx_call) w))))
      (dispatch_runtime (Signed who) t.(tx_call) w1) = (Ok tt, w').
Proof.
  intros Ho Hf Ha. unfold apply_extrinsic in Ha. rewrite with_transaction_ok in Ha.
  apply bind_ok in Ha as (v & w0 & Hv & Ha). destruct (tx_validate_ok _ _ _ _ _ Ho Hv) as (-> & _ & Hn & _).
  apply bind_ok in Ha as (info & w1 & Hp & Ha). apply bind_ok in Ha as ([] & w2 & <-%modify_ok & Hc).
  destruct (tx_prepare_ok _ _ _ _ _ _ Ho Hn Hf Hp) as (_ & _ & _ & _ & _ & ->). eauto.
Qed.

(** C18: A transaction is applied once.  It is part of a block only if it carries the
    nonce that is stored for its signer; afterwards the next nonce is stored; and as
    long as the stored nonce does not fall, the transaction, or any other one of the
    signer with the same nonce, is refused and changes nothing. *)
Theorem transactions_apply_once who t w w' :
  t.(tx_origin) = Some who -> 0 <= t.(tx_fee) -> 0 <= t.(tx_corrected_fee) <= t.(tx_fee) ->
  0 <= t.(tx_nonce) < u32_max ->
  (forall x, nonce_of (dispatch_runtime (Signed who) t.(tx_call) x) who = nonce_of x who) ->
  apply_extrinsic who t w = (Ok tt, w') ->
  nonce_of w who = t.(tx_nonce) /\ nonce_of w' who = t.(tx_nonce) + 1 /\
  forall t' w2 r w3, t'.(tx_origin) = Some who -> t'.(tx_nonce) = t.(tx_nonce) ->
    nonce_of w' who <= nonce_of w2 who ->
    apply_extrinsic who t' w2 = (r, w3) -> r <> Ok tt /\ w3 = w2.
Proof.
  intros Ho Hf Hc Hn Hkeep Ha.
  destruct (apply_extrinsic_ok _ _ _ _ Ho Hf Ha) as (v & w1 & Hv & Hp & Hfee).
  destruct (tx_validate_ok _ _ _ _ _ Ho Hv) as (_ & _ & Hnv & Hle & _).
  destruct (tx_prepare_ok _ _ _ _ _ _ Ho Hnv Hf Hp) as (Hge & Hn1 & _).
  assert (nonce_of w who = t.(tx_nonce)) as Heq by lia.
  assert (nonce_of w' who = t.(tx_nonce) + 1) as Hn'.
  { assert (nonce_of w' who = nonce_of w1 who) as ->.
    { rewrite <-(Hkeep w1). destruct (tx_fee t =? 0); [by apply ret_ok in Hfee as [_ <-]|].
      destruct (correct_fee_ok _ _ _ _ _ _ _ Hc Hfee) as (_ & _ & _ & Hk & _). apply Hk. }
    rewrite Hn1, Heq. unfold wrapping_add. apply Z.mod_small. lia. }
  split; [done|]. split; [done|]. intros t' w2 r w3 Ho' Hnn Hge2 Hr.
  assert (r <> Ok tt) as Hno.
  { intros ->. unfold apply_extrinsic in Hr. rewrite with_transaction_ok in Hr.
    apply bind_ok in Hr as (v' & w4 & Hv' & _).
    destruct (tx_validate_ok _ _ _ _ _ Ho' Hv') as (_ & _ & _ & Hle' & _). lia. }
  split; [done|]. destruct (with_transaction_rollback _ _ _ _ Hr) as [[[] ->]|]; [by destruct Hno|done].
Qed.

(** C21: Fees are settled exactly.  Before the call the account that pays has lost the
    fee, and nobody else has lost or gained anything but for a grant of onboarding
    funds; after the call it gets back what the currency takes of the difference to
    the corrected fee; the issuance falls by what was kept, no more and no less. *)
Theorem fees_are_settled who t w w' :
  t.(tx_origin) = Some who -> 0 <= t.(tx_corrected_fee) <= t.(tx_fee) ->
  apply_extrinsic who t w = (Ok tt, w') ->
  let payer := fee_payer who t.(tx_call) w in
  exists v w1 kept_fee, tx_validate t w = (Ok v, w) /\
    (forall a, b_total_balance w1 a
       = b_total_balance w a + funding v.1 a - delta payer t.(tx_fee) a) /\
    b_total_issuance w1 = b_total_issuance w /\
    let w2 := dispatch_runtime (Signed who) t.(tx_call) w1 in
    (forall a, b_total_balance w' a = b_total_balance w2 a + delta payer (t.(tx_fee) - kept_fee) a) /\
    b_total_issuance w' = b_total_issuance w2 - kept_fee /\
    t.(tx_corrected_fee) <= kept_fee <= t.(tx_fee) /\
    (forall x, 0 < b_total_balance w2 payer ->
       b_deposit BestEffort payer (t.(tx_fee) - t.(tx_corrected_fee)) w2
         = Some (t.(tx_fee) - t.(tx_corrected_fee), x) ->
       kept_fee = t.(tx_corrected_fee)).
Proof.
  intros Ho Hc Ha. assert (0 <= t.(tx_fee)) as Hf by lia. simpl.
  destruct (apply_extrinsic_ok _ _ _ _ Ho Hf Ha) as (v & w1 & Hv & Hp & Hfee).
  destruct (tx_validate_ok _ _ _ _ _ Ho Hv) as (_ & _ & Hnv & _ & _).
  destruct (tx_prepare_ok _ _ _ _ _ _ Ho Hnv Hf Hp) as (_ & _ & Ht & Hi & _).
  destruct (Z.eqb_spec (tx_fee t) 0) as [Hz|Hz].
  - apply ret_ok in Hfee as [_ <-]. exists v, w1, 0. split; [done|]. split; [exact Ht|]. split; [done|].
    split; [intros a; unfold delta; case_bool_decide; lia|]. split; [lia|]. split; [lia|]. intros x _ _. lia.
  - destruct (correct_fee_ok _ _ _ _ _ _ _ Hc Hfee) as (refund & Hb & Htot & _ & Hiss & Hfull).
    exists v, w1, (tx_fee t - refund). split; [done|]. split; [exact Ht|]. split; [done|].
    split; [intros a; rewrite Htot; unfold delta; case_bool_decide; lia|]. split; [exact Hiss|]. split; [lia|].
    intros x Hx Hd. rewrite (Hfull x Hx Hd). lia.
Qed.

(** C27: Nobody pays the fee of another account without having agreed to it: the payer
    is the signer, or the manager that the signer is paired with, or a manager that
    has signed the pairing that the call carries. *)
Theorem fees_are_paid_by_consent who t v w w' :
  t.(tx_origin) = Some who -> tx_validate t w = (Ok v, w') ->
  let payer := fee_payer who t.(tx_call) w in
  payer = who \/ (exists id, lookup_manager who w = Some (payer, id)) \/
  signed_by_manager t.(tx_call) w payer.
Proof.
  intros Ho Hv. destruct (tx_validate_ok _ _ _ _ _ Ho Hv) as (_ & _ & _ & _ & Hs).
  unfold fee_payer. destruct (lookup_manager who w) as [[m id]|]; [right; left; by exists id|].
  destruct (pairing_of_call (tx_call t)) as [[[pairing multi] chain]|]; [|by left].
  right. right. by eapply Hs.
Qed.

(** C26: The funds that onboarding gives away are bounded.  Funds are granted only for
    an onboarding call of a processor that is not paired, from the account of the
    settings and at most the amount of the settings; and after the grant the manager
    has at most the maximum of the settings on hold, or what it had before. *)
Theorem onboarding_funds_are_capped who t v info w w1 settings :
  t.(tx_origin) = Some who -> 0 <= t.(tx_fee) ->
  (managers_of w).(processor_onboarding_settings) = Some settings ->
  tx_validate t w = (Ok v, w) -> tx_prepare t v w = (Ok info, w1) ->
  (forall a, b_on_hold OnboardingHold w1 a
     <= Z.max (b_on_hold OnboardingHold w a) settings.(ob_max_funds)) /\
  forall from to n, v.1 = Fund from to n ->
    from = settings.(ob_funds_account) /\ n <= settings.(ob_funds) /\
    lookup_manager_id who w = None /\
    b_on_hold OnboardingHold w to + n <= settings.(ob_max_funds) /\
    exists pairing multi chain,
      as_manager_call t.(tx_call) = Some (Onboard pairing multi chain) /\ to = pairing.(pg_account).
Proof.
  intros Ho Hf Hs Hv Hp. destruct (tx_validate_ok _ _ _ _ _ Ho Hv) as (_ & Hg & Hnv & _).
  destruct (tx_prepare_ok _ _ _ _ _ _ Ho Hnv Hf Hp) as (_ & _ & _ & _ & Hh & _).
  assert (forall from to n, v.1 = Fund from to n ->
    from = ob_funds_account settings /\ n <= ob_funds settings /\ lookup_manager_id who w = None /\
    b_on_hold OnboardingHold w to + n <= ob_max_funds settings /\
    exists pairing multi chain,
      as_manager_call (tx_call t) = Some (Onboard pairing multi chain) /\ to = pg_account pairing) as Hfund.
  { intros from to n Hv1. rewrite Hv1 in Hg. destruct Hg as (pairing & multi & chain & Hpc & -> & Hcan).
    unfold can_fund_processor_onboarding in Hcan. rewrite Hs in Hcan. simpl in Hcan.
    destruct (_ =? 0); [done|]. case_bool_decide as Hpaired; [done|].
    destruct (Z.leb_spec (ob_max_funds settings) (b_on_hold OnboardingHold w (pg_account pairing))); [done|].
    destruct (b_can_withdraw _ _ _); [|done]. injection Hcan as <- <-. unfold saturating_sub.
    split; [done|]. split; [lia|]. split; [by apply eq_None_not_Some|]. split; [lia|].
    unfold pairing_of_call in Hpc. destruct (as_manager_call (tx_call t)) as [c|]; [|done].
    exists pairing, multi, chain. split; [|done]. simpl in Hpc. destruct c; naive_solver. }
  split; [|exact Hfund]. intros a. etrans; [apply Hh|]. destruct (v.1) as [from to n|] eqn:E; simpl; [|lia].
  destruct (Hfund _ _ _ eq_refl) as (_ & _ & _ & Hmax & _). unfold delta. case_bool_decide; subst; lia.
Qed.
End specs.

(** * The theorems at the concrete chain

    The calls of the concrete runtime are those of the processor manager, and one that
    does nothing; the marketplace's are left out. *)
#[export] Instance reference_calls : RuntimeCalls (L := manager_balances) := {|
  RuntimeCall := option ManagerCall;
  as_manager_call := id;
  is_fundable_market_call _ := false;
  dispatch_runtime o c w := match c with Some c => exec (dispatch_manager o c) w | None => w end;
|}.

Lemma lifted_moves d f w w' :
  (forall x', f w.(rm_bal) = Some x' -> rb_moves d w.(rm_bal) x') ->
  lift_opt (L := reference_balances) rm_bal set_rm_bal f w = Some w' -> moves d w w'.
Proof.
  intros Hf (x & [T I N It]%Hf & [= <-])%bind_Some. split; simpl; [exact T|exact I| |].
  - intros a. unfold nonce_of. simpl. by rewrite N.
  - intros a. unfold lookup_manager, owner_for. simpl. by rewrite It.
Qed.
Lemma lifted_val_moves d (f : RefBal -> option (Z * RefBal)) w m w' :
  (forall x', f w.(rm_bal) = Some (m, x') -> rb_moves d w.(rm_bal) x') ->
  lift_val (L := reference_balances) rm_bal set_rm_bal f w = Some (m, w') -> moves d w w'.
Proof.
  intros Hf ([k x] & Hx & [= <- <-])%bind_Some. apply (lifted_moves d (fun b => '(_, x) ← f b; Some x)).
  - intros x' ([k' y] & Hy & [= <-])%bind_Some. apply Hf. congruence.
  - unfold lift_opt. by rewrite Hx.
Qed.

Lemma reference_fee_laws : fee_laws (L := manager_balances).
Proof.
  split.
  - intros from to n w w' Ht. pose proof Ht as Hh.
    apply (lifted_moves (fun a => delta to n a - delta from n a)) in Ht.
    + split; [exact Ht|]. intros a. apply bind_Some in Hh as (x & ([k y] & Hm & [= <-])%bind_Some & [= <-]).
      exact (proj2 (rb_held_move OnboardingHold _ _ _ _ _ _ _ a Hm)).
    + intros x' ([k y] & Hm & [= <-])%bind_Some. unfold rb_move in Hm.
      destruct (Z.eqb_spec n 0) as [->|Hn].
      { injection Hm as _ <-. apply (rb_moves_ext (fun _ => 0)); [|apply rb_moves_refl].
        intros a. unfold delta. by do 2 case_bool_decide. }
      apply bind_Some in Hm as ([k' z] & (-> & H1)%rb_decrease_moves & (u & H2%rb_increase_moves & [= _ <-])%bind_Some);
        [|done].
      refine (rb_moves_ext _ _ _ _ _ (rb_moves_trans _ _ _ _ _ H1 H2)). intros a. unfold rb_delta, delta. lia.
  - intros who n w w' Ht. pose proof Ht as Hh. split.
    + revert Ht. apply lifted_moves. intros x'. apply rb_hold_moves.
    + intros a. apply bind_Some in Hh as (x & Hx & [= <-]). simpl in *. unfold rb_hold in Hx. unfold delta.
      destruct (Z.eqb_spec n 0) as [->|_]; [injection Hx as <-; case_bool_decide; lia|].
      destruct (_ && _); [|done]. injection Hx as <-. rewrite rb_held_set_held, rb_held_set.
      do 2 case_bool_decide; naive_solver lia.
  - intros w a. simpl. unfold rb_reducible. lia.
  - intros who n w w' Hn Ht. pose proof Ht as Hh. split.
    + revert Ht. apply lifted_moves. intros x'. apply rb_unhold_moves.
    + intros a. apply bind_Some in Hh as (x & Hx & [= <-]). simpl in *. unfold rb_unhold in Hx.
      destruct (_ && _) eqn:E; [|done]. apply andb_true_iff in E as [E0%Z.leb_le _].
      rewrite (rb_held_increase _ _ _ _ _ _ Hx), rb_held_set_held. case_bool_decide; [|done].
      destruct_and!; subst. lia.
  - intros who n w m w' Ht. pose proof Ht as Hh.
    apply bind_Some in Hh as ([k x] & Hx & [= <- <-]). simpl in Hx. pose proof Hx as Hx2.
    apply rb_decrease_moves in Hx as [-> Hm]; [|done]. split; [done|]. split.
    + revert Ht. apply lifted_val_moves. intros x' Hx'. simpl in Hx'. rewrite Hx2 in Hx'. by injection Hx' as <-.
    + intros a. simpl. exact (rb_held_decrease _ _ _ _ _ _ _ _ _ _ Hx2).
  - intros who n w m w' Hn Ht. pose proof Ht as Hh.
    apply bind_Some in Hh as ([k x] & (y & Hy & [= <- <-])%bind_Some & [= <- <-]). split; [lia|].
    revert Ht. apply lifted_val_moves. intros x' (z & Hz%rb_increase_moves & [= <-])%bind_Some. exact Hz.
  - done.
  - done.
  - intros who n w a. split; [done|]. split; [|done]. unfold nonce_of. simpl. case_bool_decide as Ha.
    + subst. by rewrite lookup_insert_eq.
    + by rewrite lookup_insert_ne.
  - done.
Qed.

(** Processor [7] is onboarded by manager [1], which pays with the funds of [2]. *)
Definition tx_of (who nonce : Z) (c : option ManagerCall) : Transaction (L := manager_balances) :=
  mkTransaction (R := reference_calls) (Some who) nonce c (3 * MILLIUNIT) (2 * MILLIUNIT) MILLIUNIT.
Definition tx_onboard : Transaction (L := manager_balances) :=
  tx_of 7 0 (Some (Onboard (pairing_of 1 4000 1) false {| certificate_chain := [] |})).
Definition tx_world : RefManagers := exec (apply_extrinsic 7 tx_onboard) rm_genesis.

Example onboarding_run :
  result (apply_extrinsic 7 tx_onboard) rm_genesis = Ok tt /\
  lookup_manager 7 tx_world = Some (1, 1) /\
  (rb_balance tx_world.(rm_bal) 2, rb_held OnboardingHold tx_world.(rm_bal) 1, rb_balance tx_world.(rm_bal) 1)
    = (48 * UNIT, 2 * UNIT - 3 * MILLIUNIT, 100 * UNIT + MILLIUNIT) /\
  result (apply_extrinsic 7 tx_onboard) tx_world = Err (Custom PAIRING_VALIDATION_ERROR) /\
  (* a heartbeat with a version is paid from what is on hold, one without is not *)
  let v := Build_Version 0 17 in
  let w := exec (apply_extrinsic 7 (tx_of 7 1 (Some (HeartbeatWithVersion v)))) tx_world in
  (rb_held OnboardingHold w.(rm_bal) 1, rb_balance w.(rm_bal) 1)
    = (2 * UNIT - 6 * MILLIUNIT, 100 * UNIT + 2 * MILLIUNIT) /\
  let w := exec (apply_extrinsic 7 (tx_of 7 1 (Some Heartbeat))) tx_world in
  (rb_held OnboardingHold w.(rm_bal) 1, rb_balance w.(rm_bal) 1)
    = (2 * UNIT - 3 * MILLIUNIT, 100 * UNIT + MILLIUNIT - 2 * MILLIUNIT).
Proof. by_compute. Qed.

(** Account [1] sends a transaction that does nothing. *)
Definition tx_plain : Transaction (L := manager_balances) := tx_of 1 0 None.
Notation after_plain := (exec (apply_extrinsic 1 tx_plain) rm_genesis).

Lemma transactions_apply_once_witness :
  nonce_of (L := manager_balances) after_plain 1 = 1 /\
  exec (apply_extrinsic 1 tx_plain) after_plain = after_plain.
Proof.
  assert (result (apply_extrinsic 1 tx_plain) rm_genesis = Ok tt) as Hok by by_compute.
  destruct (transactions_apply_once (L := manager_balances) reference_fee_laws 1 tx_plain rm_genesis
    after_plain eq_refl) as (_ & Hn & Hagain); [by_compute..|done|exact (result_exec _ _ _ Hok)|].
  split; [exact Hn|].
  exact (proj2 (Hagain tx_plain after_plain _ _ eq_refl eq_refl (Z.le_refl _) (surjective_pairing _))).
Defined.

(** Account [1] pays the corrected fee, and it leaves the issuance. *)
Lemma fees_are_settled_witness :
  exists kept_fee, 2 * MILLIUNIT <= kept_fee <= 3 * MILLIUNIT /\
    after_plain.(rm_bal).(rb_issuance) = rm_genesis.(rm_bal).(rb_issuance) - kept_fee.
Proof.
  assert (result (apply_extrinsic 1 tx_plain) rm_genesis = Ok tt) as Hok by by_compute.
  destruct (fees_are_settled (L := manager_balances) reference_fee_laws 1 tx_plain rm_genesis
    after_plain eq_refl ltac:(by_compute) (result_exec _ _ _ Hok))
    as (v & w1 & kept_fee & _ & _ & Hi & _ & Hi2 & Hk & _).
  exists kept_fee. split; [exact Hk|]. exact (eq_trans Hi2 (f_equal (fun i => i - kept_fee) Hi)).
Defined.

Lemma fees_are_paid_by_consent_witness :
  signed_by_manager (L := manager_balances) (tx_call tx_onboard) rm_genesis 1.
Proof.
  assert (result (tx_validate tx_onboard) rm_genesis
    = Ok (Fund 2 1 (2 * UNIT), NonceFor 7 0)) as Hok by by_compute.
  destruct (fees_are_paid_by_consent (L := manager_balances) 7 tx_onboard _ rm_genesis _ eq_refl
    (result_exec _ _ _ Hok)) as [Hp|[[id Hp]|Hp]].
  - exfalso. revert Hp. by_compute.
  - exfalso. revert Hp. by_compute.
  - exact Hp.
Defined.

Lemma onboarding_funds_are_capped_witness :
  b_on_hold (Balances := manager_balances) OnboardingHold rm_genesis 1 + 2 * UNIT <= 5 * UNIT.
Proof.
  assert (result (tx_validate tx_onboard) rm_genesis
    = Ok (Fund 2 1 (2 * UNIT), NonceFor 7 0)) as Hok by by_compute.
  assert (result (tx_prepare tx_onboard (Fund 2 1 (2 * UNIT), NonceFor 7 0)) rm_genesis
    = Ok (Some (mkLiquidity (Some (3 * MILLIUNIT)) (Some 1)))) as Hp by by_compute.
  apply result_exec in Hok, Hp.
  rewrite (proj1 (tx_validate_ok (L := manager_balances) 7 tx_onboard _ _ _ eq_refl Hok)) in Hok.
  destruct (onboarding_funds_are_capped (L := manager_balances) reference_fee_laws 7 tx_onboard _ _
    rm_genesis _ (mkOnboarding (2 * UNIT) (5 * UNIT) 2) eq_refl ltac:(by_compute) eq_refl Hok Hp) as [_ Hf].
  destruct (Hf 2 1 (2 * UNIT) eq_refl) as (_ & _ & _ & Hb & _). exact Hb.
Defined.
