(* ===== verification/AttestationParsing.v ===== *)
(** The parsed form of attestations ([pallets/acurast/common/src/attestation/asn.rs])
    and its conversion to the stored form ([types/bounded_attestation.rs]).

    The DER parser is the crate [asn1], which the class [Asn1] stands for: the types of
    this file are what it produces from the declarations of [asn.rs].  An [Enumerated]
    is its value, a [SET OF] the list of its elements. *)
From S2P Require Import Prelude Attestations.

Module Asn.
(** * Certificates *)
Notation ObjectIdentifier := (list Z) (only parsing).

(** The calendar time of a [UTCTime] or [GeneralizedTime] *)
Record DateTime := mkDateTime {
  dt_year : Z; dt_month : Z; dt_day : Z; dt_hour : Z; dt_minute : Z; dt_second : Z;
}.
Inductive Time :=
| UTCTime (t : DateTime)
| GeneralizedTime (t : DateTime).
Record Validity := mkValidity {
  vd_not_before : Time;
  vd_not_after : Time;
}.
(** An element: its tag, as a number, and its contents *)
Record Tlv := mkTlv {
  tlv_tag : Z;
  tlv_data : Bytes;
}.
Record AlgorithmIdentifier := mkAlgorithm {
  ai_algorithm : ObjectIdentifier;
  ai_parameters : option Tlv;
}.
Record SubjectPublicKeyInfo := mkSubjectKey {
  sk_algorithm : AlgorithmIdentifier;
  sk_subject_public_key : Bytes;
}.
Record Extension := mkExtension {
  ex_extn_id : ObjectIdentifier;
  ex_critical : bool;
  ex_extn_value : Bytes;
}.
(** [TBSCertificate]; a [Name] is a type of the library.  The fields that no code reads
    (version, subject and the unique ids) are left out *)
Record TBSCertificate (Name : Type) := mkTBS {
  tbs_serial_number : Bytes;
  tbs_signature : AlgorithmIdentifier;
  tbs_issuer : Name;
  tbs_validity : Validity;
  tbs_subject_public_key_info : SubjectPublicKeyInfo;
  tbs_extensions : option (list Extension);
}.
Record Certificate (Name : Type) := mkCertificate {
  ce_tbs_certificate : TBSCertificate Name;
  ce_signature_algorithm : AlgorithmIdentifier;
  ce_signature_value : Bytes;
}.
#[global] Arguments tbs_serial_number {_} _.
#[global] Arguments tbs_signature {_} _.
#[global] Arguments tbs_issuer {_} _.
#[global] Arguments tbs_validity {_} _.
#[global] Arguments tbs_subject_public_key_info {_} _.
#[global] Arguments tbs_extensions {_} _.
#[global] Arguments ce_tbs_certificate {_} _.
#[global] Arguments ce_signature_algorithm {_} _.
#[global] Arguments ce_signature_value {_} _.

(** * Key descriptions of Android *)
Record RootOfTrustV1V2 := mkRootV1V2 {
  r1_verified_boot_key : Bytes;
  r1_device_locked : bool;
  r1_verified_boot_state : Z;
}.
Record RootOfTrust := mkRoot {
  rt_verified_boot_key : Bytes;
  rt_device_locked : bool;
  rt_verified_boot_state : Z;
  rt_verified_boot_hash : Bytes;
}.
Record AttestationPackageInfo := mkPackageInfo {
  pi_package_name : Bytes;
  pi_version : Z;
}.
Record AttestationApplicationId := mkApplicationId {
  id_package_infos : list AttestationPackageInfo;
  id_signature_digests : list Bytes;
}.

Record AuthorizationListV1 := mkListV1 {
  v1_purpose : option (list Z);
  v1_algorithm : option Z;
  v1_key_size : option Z;
  v1_digest : option (list Z);
  v1_padding : option (list Z);
  v1_ec_curve : option Z;
  v1_rsa_public_exponent : option Z;
  v1_rollback_resistance : option unit;
  v1_active_date_time : option Z;
  v1_origination_expire_date_time : option Z;
  v1_usage_expire_date_time : option Z;
  v1_no_auth_required : option unit;
  v1_user_auth_type : option Z;
  v1_auth_timeout : option Z;
  v1_allow_while_on_body : option unit;
  v1_trusted_user_presence_required : option unit;
  v1_trusted_confirmation_required : option unit;
  v1_unlocked_device_required : option unit;
  v1_all_applications : option unit;
  v1_application_id : option Bytes;
  v1_creation_date_time : option Z;
  v1_origin : option Z;
  v1_root_of_trust : option RootOfTrustV1V2;
  v1_os_version : option Z;
  v1_os_patch_level : option Z;
}.

Record AuthorizationListV2 := mkListV2 {
  v2_purpose : option (list Z);
  v2_algorithm : option Z;
  v2_key_size : option Z;
  v2_digest : option (list Z);
  v2_padding : option (list Z);
  v2_ec_curve : option Z;
  v2_rsa_public_exponent : option Z;
  v2_rollback_resistance : option unit;
  v2_active_date_time : option Z;
  v2_origination_expire_date_time : option Z;
  v2_usage_expire_date_time : option Z;
  v2_no_auth_required : option unit;
  v2_user_auth_type : option Z;
  v2_auth_timeout : option Z;
  v2_allow_while_on_body : option unit;
  v2_trusted_user_presence_required : option unit;
  v2_trusted_confirmation_required : option unit;
  v2_unlocked_device_required : option unit;
  v2_all_applications : option unit;
  v2_application_id : option Bytes;
  v2_creation_date_time : option Z;
  v2_origin : option Z;
  v2_root_of_trust : option RootOfTrustV1V2;
  v2_os_version : option Z;
  v2_os_patch_level : option Z;
  v2_attestation_application_id : option Bytes;
  v2_attestation_id_brand : option Bytes;
  v2_attestation_id_device : option Bytes;
  v2_attestation_id_product : option Bytes;
  v2_attestation_id_serial : option Bytes;
  v2_attestation_id_imei : option Bytes;
  v2_attestation_id_meid : option Bytes;
  v2_attestation_id_manufacturer : option Bytes;
  v2_attestation_id_model : option Bytes;
}.

Record AuthorizationListV3 := mkListV3 {
  v3_purpose : option (list Z);
  v3_algorithm : option Z;
  v3_key_size : option Z;
  v3_digest : option (list Z);
  v3_padding : option (list Z);
  v3_ec_curve : option Z;
  v3_rsa_public_exponent : option Z;
  v3_rollback_resistance : option unit;
  v3_active_date_time : option Z;
  v3_origination_expire_date_time : option Z;
  v3_usage_expire_date_time : option Z;
  v3_no_auth_required : option unit;
  v3_user_auth_type : option Z;
  v3_auth_timeout : option Z;
  v3_allow_while_on_body : option unit;
  v3_all_applications : option unit;
  v3_application_id : option Bytes;
  v3_creation_date_time : option Z;
  v3_origin : option Z;
  v3_root_of_trust : option RootOfTrust;
  v3_os_version : option Z;
  v3_os_patch_level : option Z;
  v3_attestation_application_id : option Bytes;
  v3_attestation_id_brand : option Bytes;
  v3_attestation_id_device : option Bytes;
  v3_attestation_id_product : option Bytes;
  v3_attestation_id_serial : option Bytes;
  v3_attestation_id_imei : option Bytes;
  v3_attestation_id_meid : option Bytes;
  v3_attestation_id_manufacturer : option Bytes;
  v3_attestation_id_model : option Bytes;
  v3_vendor_patch_level : option Z;
  v3_boot_patch_level : option Z;
}.

Record AuthorizationListV4 := mkListV4 {
  v4_purpose : option (list Z);
  v4_algorithm : option Z;
  v4_key_size : option Z;
  v4_digest : option (list Z);
  v4_padding : option (list Z);
  v4_ec_curve : option Z;
  v4_rsa_public_exponent : option Z;
  v4_rollback_resistance : option unit;
  v4_early_boot_only : option unit;
  v4_active_date_time : option Z;
  v4_origination_expire_date_time : option Z;
  v4_usage_expire_date_time : option Z;
  v4_no_auth_required : option unit;
  v4_user_auth_type : option Z;
  v4_auth_timeout : option Z;
  v4_allow_while_on_body : option unit;
  v4_trusted_user_presence_required : option unit;
  v4_trusted_confirmation_required : option unit;
  v4_unlocked_device_required : option unit;
  v4_all_applications : option unit;
  v4_application_id : option Bytes;
  v4_creation_date_time : option Z;
  v4_origin : option Z;
  v4_root_of_trust : option RootOfTrust;
  v4_os_version : option Z;
  v4_os_patch_level : option Z;
  v4_attestation_application_id : option Bytes;
  v4_attestation_id_brand : option Bytes;
  v4_attestation_id_device : option Bytes;
  v4_attestation_id_product : option Bytes;
  v4_attestation_id_serial : option Bytes;
  v4_attestation_id_imei : option Bytes;
  v4_attestation_id_meid : option Bytes;
  v4_attestation_id_manufacturer : option Bytes;
  v4_attestation_id_model : option Bytes;
  v4_vendor_patch_level : option Z;
  v4_boot_patch_level : option Z;
  v4_device_unique_attestation : option unit;
}.

Record AuthorizationListKeyMint := mkListKeyMint {
  km_purpose : option (list Z);
  km_algorithm : option Z;
  km_key_size : option Z;
  km_digest : option (list Z);
  km_padding : option (list Z);
  km_ec_curve : option Z;
  km_rsa_public_exponent : option Z;
  km_mgf_digest : option (list Z);
  km_rollback_resistance : option unit;
  km_early_boot_only : option unit;
  km_active_date_time : option Z;
  km_origination_expire_date_time : option Z;
  km_usage_expire_date_time : option Z;
  km_usage_count_limit : option Z;
  km_no_auth_required : option unit;
  km_user_auth_type : option Z;
  km_auth_timeout : option Z;
  km_allow_while_on_body : option unit;
  km_trusted_user_presence_required : option unit;
  km_trusted_confirmation_required : option unit;
  km_unlocked_device_required : option unit;
  km_creation_date_time : option Z;
  km_origin : option Z;
  km_root_of_trust : option RootOfTrust;
  km_os_version : option Z;
  km_os_patch_level : option Z;
  km_attestation_application_id : option Bytes;
  km_attestation_id_brand : option Bytes;
  km_attestation_id_device : option Bytes;
  km_attestation_id_product : option Bytes;
  km_attestation_id_serial : option Bytes;
  km_attestation_id_imei : option Bytes;
  km_attestation_id_meid : option Bytes;
  km_attestation_id_manufacturer : option Bytes;
  km_attestation_id_model : option Bytes;
  km_vendor_patch_level : option Z;
  km_boot_patch_level : option Z;
  km_device_unique_attestation : option unit;
}.

Record KeyDescriptionV1 := mkKeyV1 {
  kv1_attestation_version : Z;
  kv1_attestation_security_level : Z;
  kv1_key_mint_version : Z;
  kv1_key_mint_security_level : Z;
  kv1_attestation_challenge : Bytes;
  kv1_unique_id : Bytes;
  kv1_software_enforced : AuthorizationListV1;
  kv1_tee_enforced : AuthorizationListV1;
}.

Record KeyDescriptionV2 := mkKeyV2 {
  kv2_attestation_version : Z;
  kv2_attestation_security_level : Z;
  kv2_key_mint_version : Z;
  kv2_key_mint_security_level : Z;
  kv2_attestation_challenge : Bytes;
  kv2_unique_id : Bytes;
  kv2_software_enforced : AuthorizationListV2;
  kv2_tee_enforced : AuthorizationListV2;
}.

Record KeyDescriptionV3 := mkKeyV3 {
  kv3_attestation_version : Z;
  kv3_attestation_security_level : Z;
  kv3_key_mint_version : Z;
  kv3_key_mint_security_level : Z;
  kv3_attestation_challenge : Bytes;
  kv3_unique_id : Bytes;
  kv3_software_enforced : AuthorizationListV3;
  kv3_tee_enforced : AuthorizationListV3;
}.

Record KeyDescriptionV4 := mkKeyV4 {
  kv4_attestation_version : Z;
  kv4_attestation_security_level : Z;
  kv4_key_mint_version : Z;
  kv4_key_mint_security_level : Z;
  kv4_attestation_challenge : Bytes;
  kv4_unique_id : Bytes;
  kv4_software_enforced : AuthorizationListV4;
  kv4_tee_enforced : AuthorizationListV4;
}.

Record KeyDescriptionKeyMint := mkKeyKeyMint {
  kkm_attestation_version : Z;
  kkm_attestation_security_level : Z;
  kkm_key_mint_version : Z;
  kkm_key_mint_security_level : Z;
  kkm_attestation_challenge : Bytes;
  kkm_unique_id : Bytes;
  kkm_software_enforced : AuthorizationListKeyMint;
  kkm_tee_enforced : AuthorizationListKeyMint;
}.

Inductive KeyDescription :=
| V1 (kd : KeyDescriptionV1)
| V2 (kd : KeyDescriptionV2)
| V3 (kd : KeyDescriptionV3)
| V4 (kd : KeyDescriptionV4)
| V100 (kd : KeyDescriptionKeyMint)
| V200 (kd : KeyDescriptionKeyMint)
| V300 (kd : KeyDescriptionKeyMint).

(** * Device attestations of Apple *)
Record DeviceAttestationKeyUsageProperties := mkUsage {
  ku_t4 : option Z;
  ku_t1200 : option Z;
  ku_t1201 : option Z;
  ku_t1202 : option Z;
  ku_t1203 : option Z;
  ku_t1204 : option Bytes;
  ku_t5 : option Bytes;
  ku_t1206 : option Z;
  ku_t1207 : option Z;
  ku_t1209 : option Z;
  ku_t1210 : option Z;
  ku_t1211 : option Z;
}.

Record DeviceAttestationDeviceOSInformation := mkOsInfo {
  os_t1400 : option Bytes;
  os_t1104 : option Z;
  os_t1403 : option Bytes;
  os_t1420 : option Bytes;
  os_t1026 : option Bytes;
  os_t1029 : option Bytes;
}.

Record DeviceAttestationNonce := mkNonce {
  nc_nonce : option Bytes;
}.

Record DeviceAttestation := mkDevice {
  da_key_usage_properties : DeviceAttestationKeyUsageProperties;
  da_device_os_information : DeviceAttestationDeviceOSInformation;
  da_nonce : DeviceAttestationNonce;
}.
Inductive ParsedAttestation :=
| ParsedKeyDescription (key_description : KeyDescription)
| ParsedDeviceAttestation (device_attestation : DeviceAttestation).
End Asn.

(** * The DER parser *)
Class Asn1 := {
  Name : Type;
  (** [parse_single::<Certificate>], which parses the contents of an extension with the
      given function; the encoding of the [tbsCertificate] that a
      [CertificateRawPayload] keeps *)
  asn1_certificate : (Bytes -> option Asn.Extension) -> Bytes -> option (Asn.Certificate Name);
  asn1_raw_payload : Bytes -> option Bytes;
  asn1_write_name : Name -> option Bytes;
  asn1_subject_key : Bytes -> option Asn.SubjectPublicKeyInfo;
  asn1_oid : Asn.Tlv -> option (list Z);
  (** modulus and exponent of an [RSAPublicKey] *)
  asn1_rsa_key : Bytes -> option (Bytes * Bytes);
  (** the contents of data that is one SEQUENCE; a first element that is an [i64] *)
  asn1_sequence : Bytes -> option Bytes;
  asn1_head_i64 : Bytes -> option Z;
  asn1_key_description_v1 : Bytes -> option Asn.KeyDescriptionV1;
  asn1_key_description_v2 : Bytes -> option Asn.KeyDescriptionV2;
  asn1_key_description_v3 : Bytes -> option Asn.KeyDescriptionV3;
  asn1_key_description_v4 : Bytes -> option Asn.KeyDescriptionV4;
  asn1_key_description_mint : Bytes -> option Asn.KeyDescriptionKeyMint;
  asn1_application_id : Bytes -> option Asn.AttestationApplicationId;
  (** the elements of data up to its end, a tag from its bytes, the tags of BOOLEAN and
      OCTET STRING, and [Tlv::parse::<Explicit<_, n>>] *)
  asn1_elements : Bytes -> option (list Asn.Tlv);
  asn1_tag : list Z -> option Z;
  asn1_boolean_tag : Z;
  asn1_octet_string_tag : Z;
  asn1_explicit_i64 : Z -> Asn.Tlv -> option Z;
  asn1_explicit_bytes : Z -> Asn.Tlv -> option Bytes;
}.

(** * Conversion to the stored form

    A conversion that fails says no more than that it failed. *)
Definition PURPOSE_MAX_LENGTH : Z := 50.
Definition DIGEST_MAX_LENGTH : Z := 32.
Definition PADDING_MAX_LENGTH : Z := 32.
Definition MGF_DIGEST_MAX_LENGTH : Z := 32.
Definition VERIFIED_BOOT_KEY_MAX_LENGTH : Z := 32.
Definition VERIFIED_BOOT_HASH_MAX_LENGTH : Z := 32.
Definition ATTESTATION_ID_MAX_LENGTH : Z := 256.
Definition PACKAGE_NAME_MAX_LENGTH : Z := 128.
Definition SIGNATURE_DIGEST_SET_MAX_LENGTH : Z := 16.
Definition PACKAGE_INFO_SET_MAX_LENGTH : Z := 16.

Definition u8_max : Z := 255.
Definition u16_max : Z := 65535.

(** [u8::try_from] and the like on an [i64]; [BoundedVec::try_from] *)
Definition int_try_from (mx x : Z) : option Z := if (0 <=? x) && (x <=? mx) then Some x else None.
Definition vec_try_from {A} (mx : Z) (l : list A) : option (list A) :=
  if Z.of_nat (length l) <=? mx then Some l else None.
(** [map(f).map_or(Ok(None), |r| r.map(Some))] *)
Definition try_map {A B} (f : A -> option B) (v : option A) : option (option B) :=
  match v with None => Some None | Some x => y ← f x; Some (Some y) end.
(** the macros [try_bound] and [try_bound_set] *)
Definition try_bound (mx : Z) : option Z -> option (option Z) := try_map (int_try_from mx).
Definition try_bound_set (mx_len mx : Z) : option (list Z) -> option (option (list Z)) :=
  try_map (fun v => l ← mapM (int_try_from mx) v; vec_try_from mx_len l).
Definition is_some {A} (o : option A) : bool := match o with Some _ => true | None => false end.

Definition root_of_trust_v1v2 (data : Asn.RootOfTrustV1V2) : option BoundedRootOfTrust :=
  key ← vec_try_from VERIFIED_BOOT_KEY_MAX_LENGTH data.(Asn.r1_verified_boot_key);
  Some {| verified_boot_key := key;
          device_locked := data.(Asn.r1_device_locked);
          verified_boot_state := verified_boot_state_from data.(Asn.r1_verified_boot_state);
          verified_boot_hash := None |}.
Definition root_of_trust (data : Asn.RootOfTrust) : option BoundedRootOfTrust :=
  key ← vec_try_from VERIFIED_BOOT_KEY_MAX_LENGTH data.(Asn.rt_verified_boot_key);
  hash ← vec_try_from VERIFIED_BOOT_HASH_MAX_LENGTH data.(Asn.rt_verified_boot_hash);
  Some {| verified_boot_key := key;
          device_locked := data.(Asn.rt_device_locked);
          verified_boot_state := verified_boot_state_from data.(Asn.rt_verified_boot_state);
          verified_boot_hash := Some hash |}.
Definition package_info (value : Asn.AttestationPackageInfo) : option BoundedAttestationPackageInfo :=
  name ← vec_try_from PACKAGE_NAME_MAX_LENGTH value.(Asn.pi_package_name);
  Some {| package_name := name; pkg_version := value.(Asn.pi_version) |}.
Definition application_id (value : Asn.AttestationApplicationId) : option BoundedAttestationApplicationId :=
  infos ← mapM package_info value.(Asn.id_package_infos);
  infos ← vec_try_from PACKAGE_INFO_SET_MAX_LENGTH infos;
  digests ← mapM (vec_try_from DIGEST_MAX_LENGTH) value.(Asn.id_signature_digests);
  digests ← vec_try_from SIGNATURE_DIGEST_SET_MAX_LENGTH digests;
  Some {| package_infos := infos; signature_digests := digests |}.

Section conversions.
Context {D : Asn1}.

Definition parsed_application_id (bytes : Bytes) : option BoundedAttestationApplicationId :=
  value ← asn1_application_id bytes; application_id value.
Definition attestation_id : option Bytes -> option (option Bytes) :=
  try_map (vec_try_from ATTESTATION_ID_MAX_LENGTH).

(** [TryFrom<asn::AuthorizationListV1>] *)
Definition authorization_list_v1 (data : Asn.AuthorizationListV1) : option BoundedAuthorizationList :=
  purpose_ ← try_bound_set PURPOSE_MAX_LENGTH u8_max data.(Asn.v1_purpose);
  algorithm_ ← try_bound u8_max data.(Asn.v1_algorithm);
  key_size_ ← try_bound u16_max data.(Asn.v1_key_size);
  digest_ ← try_bound_set DIGEST_MAX_LENGTH u8_max data.(Asn.v1_digest);
  padding_ ← try_bound_set PADDING_MAX_LENGTH u8_max data.(Asn.v1_padding);
  ec_curve_ ← try_bound u8_max data.(Asn.v1_ec_curve);
  rsa_public_exponent_ ← try_bound u64_max data.(Asn.v1_rsa_public_exponent);
  active_date_time_ ← try_bound u64_max data.(Asn.v1_active_date_time);
  origination_expire_date_time_ ← try_bound u64_max data.(Asn.v1_origination_expire_date_time);
  usage_expire_date_time_ ← try_bound u64_max data.(Asn.v1_usage_expire_date_time);
  user_auth_type_ ← try_bound u8_max data.(Asn.v1_user_auth_type);
  auth_timeout_ ← try_bound u32_max data.(Asn.v1_user_auth_type);
  application_id_ ← attestation_id data.(Asn.v1_application_id);
  creation_date_time_ ← try_bound u64_max data.(Asn.v1_creation_date_time);
  origin_ ← try_bound u8_max data.(Asn.v1_origin);
  root_of_trust_ ← try_map root_of_trust_v1v2 data.(Asn.v1_root_of_trust);
  os_version_ ← try_bound u32_max data.(Asn.v1_os_version);
  os_patch_level_ ← try_bound u32_max data.(Asn.v1_os_patch_level);
  Some {|
    al_purpose := purpose_;
    al_algorithm := algorithm_;
    al_key_size := key_size_;
    al_digest := digest_;
    al_padding := padding_;
    al_ec_curve := ec_curve_;
    al_rsa_public_exponent := rsa_public_exponent_;
    al_mgf_digest := None;
    al_rollback_resistance := Some (is_some data.(Asn.v1_rollback_resistance));
    al_early_boot_only := None;
    al_active_date_time := active_date_time_;
    al_origination_expire_date_time := origination_expire_date_time_;
    al_usage_expire_date_time := usage_expire_date_time_;
    al_usage_count_limit := None;
    al_no_auth_required := is_some data.(Asn.v1_no_auth_required);
    al_user_auth_type := user_auth_type_;
    al_auth_timeout := auth_timeout_;
    al_allow_while_on_body := is_some data.(Asn.v1_allow_while_on_body);
    al_trusted_user_presence_required := None;
    al_trusted_confirmation_required := None;
    al_unlocked_device_required := None;
    al_all_applications := Some (is_some data.(Asn.v1_all_applications));
    al_application_id := application_id_;
    al_creation_date_time := creation_date_time_;
    al_origin := origin_;
    al_root_of_trust := root_of_trust_;
    al_os_version := os_version_;
    al_os_patch_level := os_patch_level_;
    al_attestation_application_id := None;
    al_attestation_id_brand := None;
    al_attestation_id_device := None;
    al_attestation_id_product := None;
    al_attestation_id_serial := None;
    al_attestation_id_imei := None;
    al_attestation_id_meid := None;
    al_attestation_id_manufacturer := None;
    al_attestation_id_model := None;
    al_vendor_patch_level := None;
    al_boot_patch_level := None;
    al_device_unique_attestation := None
  |}.

(** [TryFrom<asn::AuthorizationListV2>] *)
Definition authorization_list_v2 (data : Asn.AuthorizationListV2) : option BoundedAuthorizationList :=
  purpose_ ← try_bound_set PURPOSE_MAX_LENGTH u8_max data.(Asn.v2_purpose);
  algorithm_ ← try_bound u8_max data.(Asn.v2_algorithm);
  key_size_ ← try_bound u16_max data.(Asn.v2_key_size);
  digest_ ← try_bound_set DIGEST_MAX_LENGTH u8_max data.(Asn.v2_digest);
  padding_ ← try_bound_set PADDING_MAX_LENGTH u8_max data.(Asn.v2_padding);
  ec_curve_ ← try_bound u8_max data.(Asn.v2_ec_curve);
  rsa_public_exponent_ ← try_bound u64_max data.(Asn.v2_rsa_public_exponent);
  active_date_time_ ← try_bound u64_max data.(Asn.v2_active_date_time);
  origination_expire_date_time_ ← try_bound u64_max data.(Asn.v2_origination_expire_date_time);
  usage_expire_date_time_ ← try_bound u64_max data.(Asn.v2_usage_expire_date_time);
  user_auth_type_ ← try_bound u8_max data.(Asn.v2_user_auth_type);
  auth_timeout_ ← try_bound u32_max data.(Asn.v2_user_auth_type);
  application_id_ ← attestation_id data.(Asn.v2_application_id);
  creation_date_time_ ← try_bound u64_max data.(Asn.v2_creation_date_time);
  origin_ ← try_bound u8_max data.(Asn.v2_origin);
  root_of_trust_ ← try_map root_of_trust_v1v2 data.(Asn.v2_root_of_trust);
  os_version_ ← try_bound u32_max data.(Asn.v2_os_version);
  os_patch_level_ ← try_bound u32_max data.(Asn.v2_os_patch_level);
  attestation_application_id_ ← try_map parsed_application_id data.(Asn.v2_attestation_application_id);
  attestation_id_brand_ ← attestation_id data.(Asn.v2_attestation_id_brand);
  attestation_id_device_ ← attestation_id data.(Asn.v2_attestation_id_device);
  attestation_id_product_ ← attestation_id data.(Asn.v2_attestation_id_product);
  attestation_id_serial_ ← attestation_id data.(Asn.v2_attestation_id_serial);
  attestation_id_imei_ ← attestation_id data.(Asn.v2_attestation_id_imei);
  attestation_id_meid_ ← attestation_id data.(Asn.v2_attestation_id_meid);
  attestation_id_manufacturer_ ← attestation_id data.(Asn.v2_attestation_id_manufacturer);
  attestation_id_model_ ← attestation_id data.(Asn.v2_attestation_id_model);
  Some {|
    al_purpose := purpose_;
    al_algorithm := algorithm_;
    al_key_size := key_size_;
    al_digest := digest_;
    al_padding := padding_;
    al_ec_curve := ec_curve_;
    al_rsa_public_exponent := rsa_public_exponent_;
    al_mgf_digest := None;
    al_rollback_resistance := Some (is_some data.(Asn.v2_rollback_resistance));
    al_early_boot_only := None;
    al_active_date_time := active_date_time_;
    al_origination_expire_date_time := origination_expire_date_time_;
    al_usage_expire_date_time := usage_expire_date_time_;
    al_usage_count_limit := None;
    al_no_auth_required := is_some data.(Asn.v2_no_auth_required);
    al_user_auth_type := user_auth_type_;
    al_auth_timeout := auth_timeout_;
    al_allow_while_on_body := is_some data.(Asn.v2_allow_while_on_body);
    al_trusted_user_presence_required := None;
    al_trusted_confirmation_required := None;
    al_unlocked_device_required := None;
    al_all_applications := Some (is_some data.(Asn.v2_all_applications));
    al_application_id := application_id_;
    al_creation_date_time := creation_date_time_;
    al_origin := origin_;
    al_root_of_trust := root_of_trust_;
    al_os_version := os_version_;
    al_os_patch_level := os_patch_level_;
    al_attestation_application_id := attestation_application_id_;
    al_attestation_id_brand := attestation_id_brand_;
    al_attestation_id_device := attestation_id_device_;
    al_attestation_id_product := attestation_id_product_;
    al_attestation_id_serial := attestation_id_serial_;
    al_attestation_id_imei := attestation_id_imei_;
    al_attestation_id_meid := attestation_id_meid_;
    al_attestation_id_manufacturer := attestation_id_manufacturer_;
    al_attestation_id_model := attestation_id_model_;
    al_vendor_patch_level := None;
    al_boot_patch_level := None;
    al_device_unique_attestation := None
  |}.

(** [TryFrom<asn::AuthorizationListV3>] *)
Definition authorization_list_v3 (data : Asn.AuthorizationListV3) : option BoundedAuthorizationList :=
  purpose_ ← try_bound_set PURPOSE_MAX_LENGTH u8_max data.(Asn.v3_purpose);
  algorithm_ ← try_bound u8_max data.(Asn.v3_algorithm);
  key_size_ ← try_bound u16_max data.(Asn.v3_key_size);
  digest_ ← try_bound_set DIGEST_MAX_LENGTH u8_max data.(Asn.v3_digest);
  padding_ ← try_bound_set PADDING_MAX_LENGTH u8_max data.(Asn.v3_padding);
  ec_curve_ ← try_bound u8_max data.(Asn.v3_ec_curve);
  rsa_public_exponent_ ← try_bound u64_max data.(Asn.v3_rsa_public_exponent);
  active_date_time_ ← try_bound u64_max data.(Asn.v3_active_date_time);
  origination_expire_date_time_ ← try_bound u64_max data.(Asn.v3_origination_expire_date_time);
  usage_expire_date_time_ ← try_bound u64_max data.(Asn.v3_usage_expire_date_time);
  user_auth_type_ ← try_bound u8_max data.(Asn.v3_user_auth_type);
  auth_timeout_ ← try_bound u32_max data.(Asn.v3_user_auth_type);
  application_id_ ← attestation_id data.(Asn.v3_application_id);
  creation_date_time_ ← try_bound u64_max data.(Asn.v3_creation_date_time);
  origin_ ← try_bound u8_max data.(Asn.v3_origin);
  root_of_trust_ ← try_map root_of_trust data.(Asn.v3_root_of_trust);
  os_version_ ← try_bound u32_max data.(Asn.v3_os_version);
  os_patch_level_ ← try_bound u32_max data.(Asn.v3_os_patch_level);
  attestation_application_id_ ← try_map parsed_application_id data.(Asn.v3_attestation_application_id);
  attestation_id_brand_ ← attestation_id data.(Asn.v3_attestation_id_brand);
  attestation_id_device_ ← attestation_id data.(Asn.v3_attestation_id_device);
  attestation_id_product_ ← attestation_id data.(Asn.v3_attestation_id_product);
  attestation_id_serial_ ← attestation_id data.(Asn.v3_attestation_id_serial);
  attestation_id_imei_ ← attestation_id data.(Asn.v3_attestation_id_imei);
  attestation_id_meid_ ← attestation_id data.(Asn.v3_attestation_id_meid);
  attestation_id_manufacturer_ ← attestation_id data.(Asn.v3_attestation_id_manufacturer);
  attestation_id_model_ ← attestation_id data.(Asn.v3_attestation_id_model);
  vendor_patch_level_ ← try_bound u32_max data.(Asn.v3_vendor_patch_level);
  boot_patch_level_ ← try_bound u32_max data.(Asn.v3_boot_patch_level);
  Some {|
    al_purpose := purpose_;
    al_algorithm := algorithm_;
    al_key_size := key_size_;
    al_digest := digest_;
    al_padding := padding_;
    al_ec_curve := ec_curve_;
    al_rsa_public_exponent := rsa_public_exponent_;
    al_mgf_digest := None;
    al_rollback_resistance := Some (is_some data.(Asn.v3_rollback_resistance));
    al_early_boot_only := None;
    al_active_date_time := active_date_time_;
    al_origination_expire_date_time := origination_expire_date_time_;
    al_usage_expire_date_time := usage_expire_date_time_;
    al_usage_count_limit := None;
    al_no_auth_required := is_some data.(Asn.v3_no_auth_required);
    al_user_auth_type := user_auth_type_;
    al_auth_timeout := auth_timeout_;
    al_allow_while_on_body := is_some data.(Asn.v3_allow_while_on_body);
    al_trusted_user_presence_required := None;
    al_trusted_confirmation_required := None;
    al_unlocked_device_required := None;
    al_all_applications := Some (is_some data.(Asn.v3_all_applications));
    al_application_id := application_id_;
    al_creation_date_time := creation_date_time_;
    al_origin := origin_;
    al_root_of_trust := root_of_trust_;
    al_os_version := os_version_;
    al_os_patch_level := os_patch_level_;
    al_attestation_application_id := attestation_application_id_;
    al_attestation_id_brand := attestation_id_brand_;
    al_attestation_id_device := attestation_id_device_;
    al_attestation_id_product := attestation_id_product_;
    al_attestation_id_serial := attestation_id_serial_;
    al_attestation_id_imei := attestation_id_imei_;
    al_attestation_id_meid := attestation_id_meid_;
    al_attestation_id_manufacturer := attestation_id_manufacturer_;
    al_attestation_id_model := attestation_id_model_;
    al_vendor_patch_level := vendor_patch_level_;
    al_boot_patch_level := boot_patch_level_;
    al_device_unique_attestation := None
  |}.

(** [TryFrom<asn::AuthorizationListV4>] *)
Definition authorization_list_v4 (data : Asn.AuthorizationListV4) : option BoundedAuthorizationList :=
  purpose_ ← try_bound_set PURPOSE_MAX_LENGTH u8_max data.(Asn.v4_purpose);
  algorithm_ ← try_bound u8_max data.(Asn.v4_algorithm);
  key_size_ ← try_bound u16_max data.(Asn.v4_key_size);
  digest_ ← try_bound_set DIGEST_MAX_LENGTH u8_max data.(Asn.v4_digest);
  padding_ ← try_bound_set PADDING_MAX_LENGTH u8_max data.(Asn.v4_padding);
  ec_curve_ ← try_bound u8_max data.(Asn.v4_ec_curve);
  rsa_public_exponent_ ← try_bound u64_max data.(Asn.v4_rsa_public_exponent);
  active_date_time_ ← try_bound u64_max data.(Asn.v4_active_date_time);
  origination_expire_date_time_ ← try_bound u64_max data.(Asn.v4_origination_expire_date_time);
  usage_expire_date_time_ ← try_bound u64_max data.(Asn.v4_usage_expire_date_time);
  user_auth_type_ ← try_bound u8_max data.(Asn.v4_user_auth_type);
  auth_timeout_ ← try_bound u32_max data.(Asn.v4_user_auth_type);
  application_id_ ← attestation_id data.(Asn.v4_application_id);
  creation_date_time_ ← try_bound u64_max data.(Asn.v4_creation_date_time);
  origin_ ← try_bound u8_max data.(Asn.v4_origin);
  root_of_trust_ ← try_map root_of_trust data.(Asn.v4_root_of_trust);
  os_version_ ← try_bound u32_max data.(Asn.v4_os_version);
  os_patch_level_ ← try_bound u32_max data.(Asn.v4_os_patch_level);
  attestation_application_id_ ← try_map parsed_application_id data.(Asn.v4_attestation_application_id);
  attestation_id_brand_ ← attestation_id data.(Asn.v4_attestation_id_brand);
  attestation_id_device_ ← attestation_id data.(Asn.v4_attestation_id_device);
  attestation_id_product_ ← attestation_id data.(Asn.v4_attestation_id_product);
  attestation_id_serial_ ← attestation_id data.(Asn.v4_attestation_id_serial);
  attestation_id_imei_ ← attestation_id data.(Asn.v4_attestation_id_imei);
  attestation_id_meid_ ← attestation_id data.(Asn.v4_attestation_id_meid);
  attestation_id_manufacturer_ ← attestation_id data.(Asn.v4_attestation_id_manufacturer);
  attestation_id_model_ ← attestation_id data.(Asn.v4_attestation_id_model);
  vendor_patch_level_ ← try_bound u32_max data.(Asn.v4_vendor_patch_level);
  boot_patch_level_ ← try_bound u32_max data.(Asn.v4_boot_patch_level);
  Some {|
    al_purpose := purpose_;
    al_algorithm := algorithm_;
    al_key_size := key_size_;
    al_digest := digest_;
    al_padding := padding_;
    al_ec_curve := ec_curve_;
    al_rsa_public_exponent := rsa_public_exponent_;
    al_mgf_digest := None;
    al_rollback_resistance := Some (is_some data.(Asn.v4_rollback_resistance));
    al_early_boot_only := Some (is_some data.(Asn.v4_early_boot_only));
    al_active_date_time := active_date_time_;
    al_origination_expire_date_time := origination_expire_date_time_;
    al_usage_expire_date_time := usage_expire_date_time_;
    al_usage_count_limit := None;
    al_no_auth_required := is_some data.(Asn.v4_no_auth_required);
    al_user_auth_type := user_auth_type_;
    al_auth_timeout := auth_timeout_;
    al_allow_while_on_body := is_some data.(Asn.v4_allow_while_on_body);
    al_trusted_user_presence_required := Some (is_some data.(Asn.v4_trusted_user_presence_required));
    al_trusted_confirmation_required := Some (is_some data.(Asn.v4_trusted_confirmation_required));
    al_unlocked_device_required := Some (is_some data.(Asn.v4_unlocked_device_required));
    al_all_applications := Some (is_some data.(Asn.v4_all_applications));
    al_application_id := application_id_;
    al_creation_date_time := creation_date_time_;
    al_origin := origin_;
    al_root_of_trust := root_of_trust_;
    al_os_version := os_version_;
    al_os_patch_level := os_patch_level_;
    al_attestation_application_id := attestation_application_id_;
    al_attestation_id_brand := attestation_id_brand_;
    al_attestation_id_device := attestation_id_device_;
    al_attestation_id_product := attestation_id_product_;
    al_attestation_id_serial := attestation_id_serial_;
    al_attestation_id_imei := attestation_id_imei_;
    al_attestation_id_meid := attestation_id_meid_;
    al_attestation_id_manufacturer := attestation_id_manufacturer_;
    al_attestation_id_model := attestation_id_model_;
    al_vendor_patch_level := vendor_patch_level_;
    al_boot_patch_level := boot_patch_level_;
    al_device_unique_attestation := Some (is_some data.(Asn.v4_device_unique_attestation))
  |}.

(** [TryFrom<asn::AuthorizationListKeyMint>] *)
Definition authorization_list_keymint (data : Asn.AuthorizationListKeyMint) : option BoundedAuthorizationList :=
  purpose_ ← try_bound_set PURPOSE_MAX_LENGTH u8_max data.(Asn.km_purpose);
  algorithm_ ← try_bound u8_max data.(Asn.km_algorithm);
  key_size_ ← try_bound u16_max data.(Asn.km_key_size);
  digest_ ← try_bound_set DIGEST_MAX_LENGTH u8_max data.(Asn.km_digest);
  padding_ ← try_bound_set PADDING_MAX_LENGTH u8_max data.(Asn.km_padding);
  ec_curve_ ← try_bound u8_max data.(Asn.km_ec_curve);
  rsa_public_exponent_ ← try_bound u64_max data.(Asn.km_rsa_public_exponent);
  mgf_digest_ ← try_bound_set MGF_DIGEST_MAX_LENGTH u8_max data.(Asn.km_mgf_digest);
  active_date_time_ ← try_bound u64_max data.(Asn.km_active_date_time);
  origination_expire_date_time_ ← try_bound u64_max data.(Asn.km_origination_expire_date_time);
  usage_expire_date_time_ ← try_bound u64_max data.(Asn.km_usage_expire_date_time);
  usage_count_limit_ ← try_bound u64_max data.(Asn.km_usage_count_limit);
  user_auth_type_ ← try_bound u8_max data.(Asn.km_user_auth_type);
  auth_timeout_ ← try_bound u32_max data.(Asn.km_user_auth_type);
  creation_date_time_ ← try_bound u64_max data.(Asn.km_creation_date_time);
  origin_ ← try_bound u8_max data.(Asn.km_origin);
  root_of_trust_ ← try_map root_of_trust data.(Asn.km_root_of_trust);
  os_version_ ← try_bound u32_max data.(Asn.km_os_version);
  os_patch_level_ ← try_bound u32_max data.(Asn.km_os_patch_level);
  attestation_application_id_ ← try_map parsed_application_id data.(Asn.km_attestation_application_id);
  attestation_id_brand_ ← attestation_id data.(Asn.km_attestation_id_brand);
  attestation_id_device_ ← attestation_id data.(Asn.km_attestation_id_device);
  attestation_id_product_ ← attestation_id data.(Asn.km_attestation_id_product);
  attestation_id_serial_ ← attestation_id data.(Asn.km_attestation_id_serial);
  attestation_id_imei_ ← attestation_id data.(Asn.km_attestation_id_imei);
  attestation_id_meid_ ← attestation_id data.(Asn.km_attestation_id_meid);
  attestation_id_manufacturer_ ← attestation_id data.(Asn.km_attestation_id_manufacturer);
  attestation_id_model_ ← attestation_id data.(Asn.km_attestation_id_model);
  vendor_patch_level_ ← try_bound u32_max data.(Asn.km_vendor_patch_level);
  boot_patch_level_ ← try_bound u32_max data.(Asn.km_boot_patch_level);
  Some {|
    al_purpose := purpose_;
    al_algorithm := algorithm_;
    al_key_size := key_size_;
    al_digest := digest_;
    al_padding := padding_;
    al_ec_curve := ec_curve_;
    al_rsa_public_exponent := rsa_public_exponent_;
    al_mgf_digest := mgf_digest_;
    al_rollback_resistance := Some (is_some data.(Asn.km_rollback_resistance));
    al_early_boot_only := Some (is_some data.(Asn.km_early_boot_only));
    al_active_date_time := active_date_time_;
    al_origination_expire_date_time := origination_expire_date_time_;
    al_usage_expire_date_time := usage_expire_date_time_;
    al_usage_count_limit := usage_count_limit_;
    al_no_auth_required := is_some data.(Asn.km_no_auth_required);
    al_user_auth_type := user_auth_type_;
    al_auth_timeout := auth_timeout_;
    al_allow_while_on_body := is_some data.(Asn.km_allow_while_on_body);
    al_trusted_user_presence_required := Some (is_some data.(Asn.km_trusted_user_presence_required));
    al_trusted_confirmation_required := Some (is_some data.(Asn.km_trusted_confirmation_required));
    al_unlocked_device_required := Some (is_some data.(Asn.km_unlocked_device_required));
    al_all_applications := None;
    al_application_id := None;
    al_creation_date_time := creation_date_time_;
    al_origin := origin_;
    al_root_of_trust := root_of_trust_;
    al_os_version := os_version_;
    al_os_patch_level := os_patch_level_;
    al_attestation_application_id := attestation_application_id_;
    al_attestation_id_brand := attestation_id_brand_;
    al_attestation_id_device := attestation_id_device_;
    al_attestation_id_product := attestation_id_product_;
    al_attestation_id_serial := attestation_id_serial_;
    al_attestation_id_imei := attestation_id_imei_;
    al_attestation_id_meid := attestation_id_meid_;
    al_attestation_id_manufacturer := attestation_id_manufacturer_;
    al_attestation_id_model := attestation_id_model_;
    al_vendor_patch_level := vendor_patch_level_;
    al_boot_patch_level := boot_patch_level_;
    al_device_unique_attestation := Some (is_some data.(Asn.km_device_unique_attestation))
  |}.

Definition key_description_v1 (data : Asn.KeyDescriptionV1) : option BoundedKeyDescription :=
  software ← authorization_list_v1 data.(Asn.kv1_software_enforced);
  tee ← authorization_list_v1 data.(Asn.kv1_tee_enforced);
  Some {| attestation_security_level := security_level_from data.(Asn.kv1_attestation_security_level);
          key_mint_security_level := security_level_from data.(Asn.kv1_key_mint_security_level);
          software_enforced := software; tee_enforced := tee |}.
Definition key_description_v2 (data : Asn.KeyDescriptionV2) : option BoundedKeyDescription :=
  software ← authorization_list_v2 data.(Asn.kv2_software_enforced);
  tee ← authorization_list_v2 data.(Asn.kv2_tee_enforced);
  Some {| attestation_security_level := security_level_from data.(Asn.kv2_attestation_security_level);
          key_mint_security_level := security_level_from data.(Asn.kv2_key_mint_security_level);
          software_enforced := software; tee_enforced := tee |}.
Definition key_description_v3 (data : Asn.KeyDescriptionV3) : option BoundedKeyDescription :=
  software ← authorization_list_v3 data.(Asn.kv3_software_enforced);
  tee ← authorization_list_v3 data.(Asn.kv3_tee_enforced);
  Some {| attestation_security_level := security_level_from data.(Asn.kv3_attestation_security_level);
          key_mint_security_level := security_level_from data.(Asn.kv3_key_mint_security_level);
          software_enforced := software; tee_enforced := tee |}.
Definition key_description_v4 (data : Asn.KeyDescriptionV4) : option BoundedKeyDescription :=
  software ← authorization_list_v4 data.(Asn.kv4_software_enforced);
  tee ← authorization_list_v4 data.(Asn.kv4_tee_enforced);
  Some {| attestation_security_level := security_level_from data.(Asn.kv4_attestation_security_level);
          key_mint_security_level := security_level_from data.(Asn.kv4_key_mint_security_level);
          software_enforced := software; tee_enforced := tee |}.
Definition key_description_keymint (data : Asn.KeyDescriptionKeyMint) : option BoundedKeyDescription :=
  software ← authorization_list_keymint data.(Asn.kkm_software_enforced);
  tee ← authorization_list_keymint data.(Asn.kkm_tee_enforced);
  Some {| attestation_security_level := security_level_from data.(Asn.kkm_attestation_security_level);
          key_mint_security_level := security_level_from data.(Asn.kkm_key_mint_security_level);
          software_enforced := software; tee_enforced := tee |}.

(** [TryFrom<KeyDescription>] *)
Definition key_description_try_from (value : Asn.KeyDescription) : option BoundedKeyDescription :=
  match value with
  | Asn.V1 kd => key_description_v1 kd
  | Asn.V2 kd => key_description_v2 kd
  | Asn.V3 kd => key_description_v3 kd
  | Asn.V4 kd => key_description_v4 kd
  | Asn.V100 kd => key_description_keymint kd
  | Asn.V200 kd => key_description_keymint kd
  | Asn.V300 kd => key_description_keymint kd
  end.

Definition usage_properties (value : Asn.DeviceAttestationKeyUsageProperties)
  : option BoundedDeviceAttestationKeyUsageProperties :=
  t1204_ ← try_map (vec_try_from 64) value.(Asn.ku_t1204);
  t5_ ← try_map (vec_try_from 16) value.(Asn.ku_t5);
  Some {| t4 := value.(Asn.ku_t4); t1200 := value.(Asn.ku_t1200); t1201 := value.(Asn.ku_t1201);
          t1202 := value.(Asn.ku_t1202); t1203 := value.(Asn.ku_t1203); t1204 := t1204_;
          t5 := t5_; t1206 := value.(Asn.ku_t1206); t1207 := value.(Asn.ku_t1207);
          t1209 := value.(Asn.ku_t1209); t1210 := value.(Asn.ku_t1210);
          t1211 := value.(Asn.ku_t1211) |}.
Definition os_information (value : Asn.DeviceAttestationDeviceOSInformation)
  : option BoundedDeviceAttestationDeviceOSInformation :=
  t1400_ ← try_map (vec_try_from 16) value.(Asn.os_t1400);
  t1403_ ← try_map (vec_try_from 16) value.(Asn.os_t1403);
  t1420_ ← try_map (vec_try_from 32) value.(Asn.os_t1420);
  t1026_ ← try_map (vec_try_from 32) value.(Asn.os_t1026);
  t1029_ ← try_map (vec_try_from 16) value.(Asn.os_t1029);
  Some {| t1400 := t1400_; t1104 := value.(Asn.os_t1104); t1403 := t1403_; t1420 := t1420_;
          t1026 := t1026_; t1029 := t1029_ |}.
Definition device_nonce (value : Asn.DeviceAttestationNonce) : option BoundedDeviceAttestationNonce :=
  nonce_ ← try_map (vec_try_from 32) value.(Asn.nc_nonce);
  Some {| dn_nonce := nonce_ |}.
Definition device_attestation_try_from (value : Asn.DeviceAttestation) : option BoundedDeviceAttestation :=
  usage ← usage_properties value.(Asn.da_key_usage_properties);
  os ← os_information value.(Asn.da_device_os_information);
  nonce_ ← device_nonce value.(Asn.da_nonce);
  Some {| key_usage_properties := usage; device_os_information := os; da_nonce := nonce_ |}.

(** [TryFrom<ParsedAttestation> for BoundedAttestationContent] *)
Definition content_try_from (value : Asn.ParsedAttestation) : option BoundedAttestationContent :=
  match value with
  | Asn.ParsedKeyDescription key_description =>
      kd ← key_description_try_from key_description; Some (KeyDescription kd)
  | Asn.ParsedDeviceAttestation device_attestation =>
      da ← device_attestation_try_from device_attestation; Some (DeviceAttestation da)
  end.

(** * Parsing of extensions ([SimpleAsn1Readable]) *)

(** Any byte but zero is accepted for [true]. *)
Definition read_lenient_boolean (tlv : Asn.Tlv) : option bool :=
  match tlv.(Asn.tlv_data) with [b] => Some (negb (b =? 0)) | _ => None end.

(** [Extension::parse_data] *)
Definition extension_value (extn_id : list Z) (critical : bool) (tlv : Asn.Tlv) : option Asn.Extension :=
  if tlv.(Asn.tlv_tag) =? asn1_octet_string_tag
  then Some (Asn.mkExtension extn_id critical tlv.(Asn.tlv_data)) else None.
Definition extension_parse_data (data : Bytes) : option Asn.Extension :=
  tlvs ← asn1_elements data;
  match tlvs with
  | oid :: tlv :: rest =>
      extn_id ← asn1_oid oid;
      if tlv.(Asn.tlv_tag) =? asn1_boolean_tag then
        critical ← read_lenient_boolean tlv;
        match rest with [tlv] => extension_value extn_id critical tlv | _ => None end
      else match rest with [] => extension_value extn_id false tlv | _ => None end
  | _ => None
  end.

(** [try_parse_tags]: the elements with one of the tags *)
Definition try_parse_tags (data : Bytes) (tags : list Z) : option (list Asn.Tlv) :=
  tlvs ← asn1_elements data;
  Some (filter (fun tlv => tlv.(Asn.tlv_tag) ∈ tags) tlvs).
Definition find_tag (tag : Z) (tlvs : list Asn.Tlv) : option Asn.Tlv :=
  find (fun tlv => tlv.(Asn.tlv_tag) =? tag) tlvs.
Definition explicit_i64 (tlvs : list Asn.Tlv) (tag n : Z) : option (option Z) :=
  try_map (asn1_explicit_i64 n) (find_tag tag tlvs).
Definition explicit_bytes (tlvs : list Asn.Tlv) (tag n : Z) : option (option Bytes) :=
  try_map (asn1_explicit_bytes n) (find_tag tag tlvs).

Definition parse_usage_properties (data : Bytes) : option Asn.DeviceAttestationKeyUsageProperties :=
  t4_ ← asn1_tag [0xA4; 0x03];
  t1200_ ← asn1_tag [0xBF; 0x89; 0x30; 0x03];
  t1201_ ← asn1_tag [0xBF; 0x89; 0x31; 0x03];
  t1202_ ← asn1_tag [0xBF; 0x89; 0x32; 0x03];
  t1203_ ← asn1_tag [0xBF; 0x89; 0x33; 0x03];
  t1204_ ← asn1_tag [0xBF; 0x89; 0x34; 0x21];
  t5_ ← asn1_tag [0xA5; 0x06];
  t1206_ ← asn1_tag [0xBF; 0x89; 0x36; 0x03];
  t1207_ ← asn1_tag [0xBF; 0x89; 0x37; 0x03];
  t1209_ ← asn1_tag [0xBF; 0x89; 0x39; 0x03];
  t1210_ ← asn1_tag [0xBF; 0x89; 0x3A; 0x03];
  t1211_ ← asn1_tag [0xBF; 0x89; 0x3B; 0x03];
  tlvs ← try_parse_tags data [t4_; t1200_; t1201_; t1202_; t1203_; t1204_; t5_; t1206_; t1207_;
    t1209_; t1210_; t1211_];
  t4 ← explicit_i64 tlvs t4_ 4;
  t1200 ← explicit_i64 tlvs t1200_ 1200;
  t1201 ← explicit_i64 tlvs t1201_ 1201;
  t1202 ← explicit_i64 tlvs t1202_ 1202;
  t1203 ← explicit_i64 tlvs t1203_ 1203;
  t1204 ← explicit_bytes tlvs t1204_ 1204;
  t5 ← explicit_bytes tlvs t5_ 5;
  t1206 ← explicit_i64 tlvs t1206_ 1206;
  t1207 ← explicit_i64 tlvs t1207_ 1207;
  t1209 ← explicit_i64 tlvs t1209_ 1209;
  t1210 ← explicit_i64 tlvs t1210_ 1210;
  t1211 ← explicit_i64 tlvs t1211_ 1211;
  Some (Asn.mkUsage t4 t1200 t1201 t1202 t1203 t1204 t5 t1206 t1207 t1209 t1210 t1211).
Definition parse_os_information (data : Bytes) : option Asn.DeviceAttestationDeviceOSInformation :=
  t1400_ ← asn1_tag [0xBF; 0x8A; 0x78; 0x08];
  t1104_ ← asn1_tag [0xBF; 0x88; 0x50; 0x03];
  t1403_ ← asn1_tag [0xBF; 0x8A; 0x7B; 0x09];
  t1420_ ← asn1_tag [0xBF; 0x8B; 0x0C; 0x10];
  t1026_ ← asn1_tag [0xBF; 0x88; 0x02; 0x0A];
  t1029_ ← asn1_tag [0xBF; 0x88; 0x05; 0x06];
  tlvs ← try_parse_tags data [t1400_; t1104_; t1403_; t1420_; t1026_; t1029_];
  t1400 ← explicit_bytes tlvs t1400_ 1400;
  t1104 ← explicit_i64 tlvs t1104_ 1104;
  t1403 ← explicit_bytes tlvs t1403_ 1403;
  t1420 ← explicit_bytes tlvs t1420_ 1420;
  t1026 ← explicit_bytes tlvs t1026_ 1026;
  t1029 ← explicit_bytes tlvs t1029_ 1029;
  Some (Asn.mkOsInfo t1400 t1104 t1403 t1420 t1026 t1029).
Definition parse_nonce (data : Bytes) : option Asn.DeviceAttestationNonce :=
  nonce ← asn1_tag [0xA1; 0x22];
  tlvs ← try_parse_tags data [nonce];
  v ← explicit_bytes tlvs nonce 1;
  Some (Asn.mkNonce v).
End conversions.
