(* ===== verification/Certificates.v ===== *)
(** Certificate chains and the attestation of a key:
    [pallets/acurast/common/src/attestation.rs] and [Time] of [attestation/asn.rs].

    A chain of certificates leads from a trusted root, which may be left out, to the
    certificate whose extension is the attestation.  The cryptography is the class
    [Crypto], the parser the class [Asn1], and the dates of the crate [chrono] the
    class [Chrono].  The second part is the submission of an attestation to the
    registry: [pallets/acurast/src/lib.rs], [functions.rs] and [utils.rs]. *)
From S2P Require Import Prelude Attestations JobTypes Jobs Balances TokenClaim ManagerTypes.
From S2P Require Import AttestationParsing.

Definition CHAIN_MAX_LENGTH : Z := 5.
Definition CERT_MAX_LENGTH : Z := 3000.
Notation CertificateId := (Bytes * Bytes)%type (only parsing).

(** [attestation/error.rs] *)
Inductive ValidationError :=
| ParseKeyDescription
| ChainTooShort
| ChainTooLong
| DecodeError
| ParseError
| UntrustedRoot
| ExtensionMissing
| ParseExtension
| UnsupportedAttestationVersion (version : Z)
| ParseP256PublicKey
| ParseP384PublicKey
| MissingECDSAAlgorithmTyp
| MissingPublicKey
| InvalidSignatureEncoding
| InvalidSignature
| UnsupportedSignatureAlgorithm
| UnsupportedPublicKeyAlgorithm
| InvalidIssuer
| SignatureMismatch.

(** * Object identifiers *)
Definition KEY_ATTESTATION_OID : list Z := [1; 3; 6; 1; 4; 1; 11129; 2; 1; 17].
Definition APPLE_DEVICE_ATTESTATION_KEY_USAGE_PROPERTIES : list Z := [1; 2; 840; 113635; 100; 8; 5].
Definition APPLE_DEVICE_ATTESTATION_DEVICE_OS_INFORMATION : list Z := [1; 2; 840; 113635; 100; 8; 7].
Definition APPLE_DEVICE_ATTESTATION_NONCE : list Z := [1; 2; 840; 113635; 100; 8; 2].
Definition RSA_ALGORITHM : list Z := [1; 2; 840; 113549; 1; 1; 11].
Definition ECDSA_WITH_SHA256_ALGORITHM : list Z := [1; 2; 840; 10045; 4; 3; 2].
Definition ECDSA_WITH_SHA384_ALGORITHM : list Z := [1; 2; 840; 10045; 4; 3; 3].
Definition RSA_PBK : list Z := [1; 2; 840; 113549; 1; 1; 1].
Definition ECDSA_PBK : list Z := [1; 2; 840; 10045; 2; 1].
Definition CURVE_P256 : list Z := [1; 2; 840; 10045; 3; 1; 7].
Definition CURVE_P384 : list Z := [1; 3; 132; 0; 34].
Definition oid_eqb (a b : list Z) : bool := bool_decide (a = b).

(** * Cryptography *)
Class Crypto := {
  P256Key : Type;
  P384Field : Type;
  #[global] P256Key_eq_dec :: EqDecision P256Key;
  #[global] P384Field_eq_dec :: EqDecision P384Field;
  p256_from_sec1_bytes : Bytes -> option P256Key;
  p256_to_bytes : P256Key -> Bytes;
  p384_from_be_slice : Bytes -> option P384Field;
  sha256 : Bytes -> Bytes;
  sha384 : Bytes -> Bytes;
  blake2_256 : Bytes -> Bytes;
  (** PKCS#1 v1.5 with SHA-256: modulus, exponent, payload, signature *)
  rsa_verify : Z -> Z -> Bytes -> Bytes -> bool;
  (** signatures decoded from DER, and their verification *)
  EcdsaSignature : Type;
  p256_signature_from_der : Bytes -> option EcdsaSignature;
  p256_verify : P256Key -> Bytes -> EcdsaSignature -> bool;
  p384_signature_from_der : Bytes -> option EcdsaSignature;
  p384_verify_prehashed : P384Field -> P384Field -> Bytes -> EcdsaSignature -> bool;
}.

(** The files of [__root_key__] *)
Class TrustedKeys := {
  GOOGLE_ROOT_PUB_KEY : Bytes;
  GOOGLE_P384_ROOT_PUB_KEY : Bytes;
  APPLE_ROOT_PUB_KEY : Bytes;
}.

(** [chrono::NaiveDateTime]; the timestamp is in milliseconds, in UTC *)
Class Chrono := {
  NaiveDateTime : Type;
  naive_default : NaiveDateTime;
  with_second : Z -> NaiveDateTime -> option NaiveDateTime;
  with_minute : Z -> NaiveDateTime -> option NaiveDateTime;
  with_hour : Z -> NaiveDateTime -> option NaiveDateTime;
  with_day : Z -> NaiveDateTime -> option NaiveDateTime;
  with_month : Z -> NaiveDateTime -> option NaiveDateTime;
  with_year : Z -> NaiveDateTime -> option NaiveDateTime;
  naive_timestamp_millis : NaiveDateTime -> Z;
}.

(** [Time::timestamp_millis]: the fields are set one after the other on 1 January 1970;
    a negative timestamp panics *)
Definition date_time (self : Asn.Time) : Asn.DateTime :=
  match self with Asn.UTCTime t => t | Asn.GeneralizedTime t => t end.
Definition timestamp_millis {K : Chrono} {E} (self : Asn.Time) : outcome E Z :=
  let t := date_time self in
  let moment :=
    x ← with_second t.(Asn.dt_second) naive_default;
    x ← with_minute t.(Asn.dt_minute) x;
    x ← with_hour t.(Asn.dt_hour) x;
    x ← with_day t.(Asn.dt_day) x;
    x ← with_month t.(Asn.dt_month) x;
    with_year t.(Asn.dt_year) x in
  let milliseconds := match moment with Some x => naive_timestamp_millis x | None => 0 end in
  if (0 <=? milliseconds) && (milliseconds <=? u64_max) then Ok milliseconds else Panic.

Section certificates.
Context {D : Asn1} {K : Crypto} {T : TrustedKeys}.

(** What a computation that only fails has to say *)
Definition ok_of {E A} (o : option A) (e : E) : outcome E A :=
  match o with Some a => Ok a | None => Err e end.
Definition and_then {E A B} (o : outcome E A) (f : A -> outcome E B) : outcome E B :=
  match o with Ok a => f a | Err e => Err e | Panic => Panic end.

(** * Public keys *)
Inductive ECDSACurve :=
| CurveP256 (key : P256Key)
| CurveP384 (x y : P384Field).
Inductive PublicKey :=
| RSA (modulus exponent : Z)
| ECDSA (curve : ECDSACurve).
#[export] Instance ECDSACurve_eq_dec : EqDecision ECDSACurve.
Proof. solve_decision. Defined.
#[export] Instance PublicKey_eq_dec : EqDecision PublicKey.
Proof. solve_decision. Defined.

(** [BigUint::from_bytes_be] *)
Definition be_uint (l : Bytes) : Z := foldl (fun n b => 256 * n + b) 0 l.

(** The coordinates of a point; the first byte is ignored, and the code panics if
    there is none *)
Definition p384_point (bytes : Bytes) : outcome ValidationError ECDSACurve :=
  match bytes with
  | [] => Panic
  | _ :: encoded =>
      let middle := Z.to_nat (Z.of_nat (length encoded) / 2) in
      and_then (ok_of (p384_from_be_slice (take middle encoded)) ParseP384PublicKey) (fun x =>
      and_then (ok_of (p384_from_be_slice (drop middle encoded)) ParseP384PublicKey) (fun y =>
      Ok (CurveP384 x y)))
  end.

(** [PublicKey::parse]; an error of the parser is turned into [ParseExtension] *)
Definition public_key_parse (info : Asn.SubjectPublicKeyInfo) : outcome ValidationError PublicKey :=
  let algorithm := info.(Asn.sk_algorithm).(Asn.ai_algorithm) in
  let bytes := info.(Asn.sk_subject_public_key) in
  if oid_eqb algorithm RSA_PBK then
    and_then (ok_of (asn1_rsa_key bytes) ParseExtension) (fun pbk =>
    Ok (RSA (be_uint pbk.1) (be_uint pbk.2)))
  else if oid_eqb algorithm ECDSA_PBK then
    and_then (ok_of info.(Asn.sk_algorithm).(Asn.ai_parameters) MissingECDSAAlgorithmTyp) (fun pbk_param =>
    and_then (ok_of (asn1_oid pbk_param) ParseExtension) (fun typ =>
    if oid_eqb typ CURVE_P256 then
      and_then (ok_of (p256_from_sec1_bytes bytes) ParseP256PublicKey) (fun key =>
      Ok (ECDSA (CurveP256 key)))
    else if oid_eqb typ CURVE_P384 then
      and_then (p384_point bytes) (fun point => Ok (ECDSA point))
    else Err UnsupportedSignatureAlgorithm))
  else Err UnsupportedPublicKeyAlgorithm.

(** * Signatures *)
Definition ensure_or {E} (b : bool) (e : E) : outcome E unit := if b then Ok tt else Err e.

Definition validate_rsa (payload signature : Bytes) (modulus exponent : Z) : outcome ValidationError unit :=
  ensure_or (rsa_verify modulus exponent payload signature) InvalidSignature.

(** The digest in 48 bytes; [copy_from_slice] panics if the lengths differ *)
Definition padded (hashed : Bytes) : outcome ValidationError Bytes :=
  if (length hashed =? 32)%nat then Ok (repeat 0 16 ++ hashed)
  else if (length hashed =? 48)%nat then Ok hashed else Panic.

Definition validate_ecdsa (digest : Bytes -> Bytes) (payload signature : Bytes) (curve : ECDSACurve)
  : outcome ValidationError unit :=
  match curve with
  | CurveP256 verifying_key =>
      and_then (ok_of (p256_signature_from_der signature) InvalidSignatureEncoding) (fun signature =>
      ensure_or (p256_verify verifying_key payload signature) InvalidSignature)
  | CurveP384 x y =>
      and_then (ok_of (p384_signature_from_der signature) InvalidSignatureEncoding) (fun signature =>
      and_then (padded (digest payload)) (fun payload =>
      ensure_or (p384_verify_prehashed x y payload signature) InvalidSignature))
  end.

Definition validate_certificate (cert : Asn.Certificate Name) (payload : Bytes) (pbk : PublicKey)
  : outcome ValidationError unit :=
  let algorithm := cert.(Asn.ce_signature_algorithm).(Asn.ai_algorithm) in
  let signature := cert.(Asn.ce_signature_value) in
  if negb (oid_eqb algorithm cert.(Asn.ce_tbs_certificate).(Asn.tbs_signature).(Asn.ai_algorithm))
  then Err SignatureMismatch
  else if oid_eqb algorithm RSA_ALGORITHM then
    match pbk with
    | RSA modulus exponent => validate_rsa payload signature modulus exponent
    | ECDSA _ => Err UnsupportedPublicKeyAlgorithm
    end
  else if oid_eqb algorithm ECDSA_WITH_SHA256_ALGORITHM then
    match pbk with
    | ECDSA pbk => validate_ecdsa sha256 payload signature pbk
    | RSA _ _ => Err UnsupportedPublicKeyAlgorithm
    end
  else if oid_eqb algorithm ECDSA_WITH_SHA384_ALGORITHM then
    match pbk with
    | ECDSA pbk => validate_ecdsa sha384 payload signature pbk
    | RSA _ _ => Err UnsupportedPublicKeyAlgorithm
    end
  else Err UnsupportedSignatureAlgorithm.

(** * Chains *)
Definition parse_cert (serialized : Bytes) : option (Asn.Certificate Name) :=
  asn1_certificate extension_parse_data serialized.
Definition parse_cert_payload (serialized : Bytes) : option Bytes := asn1_raw_payload serialized.

(** [unique_id] *)
Definition unique_id (issuer : Name) (serial_number : Bytes) : outcome ValidationError CertificateId :=
  and_then (ok_of (asn1_write_name issuer) InvalidIssuer) (fun issuer_encoded =>
  Ok (issuer_encoded, serial_number)).

(** One of the trusted roots has signed the certificate: the first error that is not
    about the signature or the key ends the search *)
Fixpoint signed_by_root (cert : Asn.Certificate Name) (payload : Bytes) (roots : list PublicKey)
  : outcome ValidationError unit :=
  match roots with
  | [] => Err InvalidSignature
  | root :: roots =>
      match validate_certificate cert payload root with
      | Ok _ => Ok tt
      | Err InvalidSignature => signed_by_root cert payload roots
      | Err UnsupportedPublicKeyAlgorithm => signed_by_root cert payload roots
      | Err e => Err e
      | Panic => Panic
      end
  end.

Definition parse_root (key : Bytes) : outcome ValidationError PublicKey :=
  and_then (ok_of (asn1_subject_key key) ParseExtension) public_key_parse.
Definition trusted_roots : outcome ValidationError (list PublicKey) :=
  and_then (parse_root GOOGLE_ROOT_PUB_KEY) (fun google =>
  and_then (parse_root GOOGLE_P384_ROOT_PUB_KEY) (fun google_p384 =>
  and_then (parse_root APPLE_ROOT_PUB_KEY) (fun apple =>
  Ok [google; google_p384; apple]))).

(** The state of the fold over the chain: the ids so far, and the key and certificate
    of the step before *)
Record ChainState := mkChain {
  cs_cert_ids : list CertificateId;
  cs_prev_pbk : option PublicKey;
  cs_prev_cert : option (Asn.Certificate Name);
}.

(** The closure of the fold *)
Definition chain_step (roots : list PublicKey) (s : ChainState) (cert_data : Bytes)
  : outcome ValidationError ChainState :=
  and_then (ok_of (parse_cert cert_data) ParseExtension) (fun cert =>
  and_then (ok_of (parse_cert_payload cert_data) ParseExtension) (fun payload =>
  and_then (public_key_parse cert.(Asn.ce_tbs_certificate).(Asn.tbs_subject_public_key_info)) (fun current_pbk =>
  let validating_pbk :=
    match s.(cs_prev_pbk) with
    | Some prev_pbk => Some prev_pbk
    | None => if contains roots current_pbk then Some current_pbk else None
    end in
  and_then
    match validating_pbk with
    | Some validating_pbk => validate_certificate cert payload validating_pbk
    | None => signed_by_root cert payload roots
    end (fun _ =>
  and_then (unique_id cert.(Asn.ce_tbs_certificate).(Asn.tbs_issuer)
              cert.(Asn.ce_tbs_certificate).(Asn.tbs_serial_number)) (fun id =>
  Ok (mkChain (s.(cs_cert_ids) ++ [id]) (Some current_pbk) (Some cert))))))).

Fixpoint chain_fold (roots : list PublicKey) (s : ChainState) (chain : list Bytes)
  : outcome ValidationError ChainState :=
  match chain with
  | [] => Ok s
  | cert_data :: chain => and_then (chain_step roots s cert_data) (fun s => chain_fold roots s chain)
  end.

Definition validate_certificate_chain (chain : list Bytes)
  : outcome ValidationError (list CertificateId * Asn.TBSCertificate Name * PublicKey) :=
  and_then trusted_roots (fun roots =>
  and_then (chain_fold roots (mkChain [] None None) chain) (fun s =>
  and_then (ok_of s.(cs_prev_cert) ChainTooShort) (fun last_cert =>
  and_then (ok_of s.(cs_prev_pbk) MissingPublicKey) (fun last_cert_pbk =>
  Ok (s.(cs_cert_ids), last_cert.(Asn.ce_tbs_certificate), last_cert_pbk))))).

(** * The attestation in the extensions of a certificate *)

(** [peek_attestation_version]: zero if the sequence does not begin with an integer *)
Definition peek_attestation_version (data : Bytes) : option Z :=
  contents ← asn1_sequence data; Some (default 0 (asn1_head_i64 contents)).

Definition parse_key_description (extension : Asn.Extension)
  : outcome ValidationError Asn.KeyDescription :=
  let value := extension.(Asn.ex_extn_value) in
  and_then (ok_of (peek_attestation_version value) ParseExtension) (fun version =>
  let parsed {A} (o : option A) (f : A -> Asn.KeyDescription) :=
    and_then (ok_of o ParseExtension) (fun kd => Ok (f kd)) in
  match version with
  | 1 => parsed (asn1_key_description_v1 value) Asn.V1
  | 2 => parsed (asn1_key_description_v2 value) Asn.V2
  | 3 => parsed (asn1_key_description_v3 value) Asn.V3
  | 4 => parsed (asn1_key_description_v4 value) Asn.V4
  | 100 => parsed (asn1_key_description_mint value) Asn.V100
  | 200 => parsed (asn1_key_description_mint value) Asn.V200
  | 300 => parsed (asn1_key_description_mint value) Asn.V300
  | _ => Err (UnsupportedAttestationVersion version)
  end).

Definition find_extension (oid : list Z) (extensions : list Asn.Extension) : option Asn.Extension :=
  find (fun e => oid_eqb e.(Asn.ex_extn_id) oid) extensions.
Definition parse_sequence {A} (f : Bytes -> option A) (extension : Asn.Extension) : outcome ValidationError A :=
  ok_of (contents ← asn1_sequence extension.(Asn.ex_extn_value); f contents) ParseExtension.

Definition parse_apple_attestation (extensions : list Asn.Extension)
  : outcome ValidationError Asn.DeviceAttestation :=
  match find_extension APPLE_DEVICE_ATTESTATION_KEY_USAGE_PROPERTIES extensions with
  | Some key_usage_properties =>
      and_then (parse_sequence parse_usage_properties key_usage_properties) (fun key_usage_properties =>
      match find_extension APPLE_DEVICE_ATTESTATION_DEVICE_OS_INFORMATION extensions with
      | Some device_os_information =>
          and_then (parse_sequence parse_os_information device_os_information) (fun device_os_information =>
          match find_extension APPLE_DEVICE_ATTESTATION_NONCE extensions with
          | Some nonce =>
              and_then (parse_sequence parse_nonce nonce) (fun nonce =>
              Ok (Asn.mkDevice key_usage_properties device_os_information nonce))
          | None => Err ExtensionMissing
          end)
      | None => Err ExtensionMissing
      end)
  | None => Err ExtensionMissing
  end.

Definition extract_attestation (extensions : option (list Asn.Extension))
  : outcome ValidationError Asn.ParsedAttestation :=
  and_then (ok_of extensions ExtensionMissing) (fun extensions =>
  match find_extension KEY_ATTESTATION_OID extensions with
  | Some extension =>
      and_then (parse_key_description extension) (fun kd => Ok (Asn.ParsedKeyDescription kd))
  | None =>
      and_then (parse_apple_attestation extensions) (fun da => Ok (Asn.ParsedDeviceAttestation da))
  end).
End certificates.

Definition ISSUER_NAME_MAX_LENGTH : Z := 128.
Definition SERIAL_NUMBER_MAX_LENGTH : Z := 20.

Section submission.
Context {X : JobExternals} {C : JobConfig} {A : AllowedApps}.
Context {G : Signatures} {D : Asn1} {K : Crypto} {T : TrustedKeys} {H : Chrono}.

(** [ensure_valid_public_key_for_source]: the account is the hash of the attested key *)
Definition ensure_valid_public_key_for_source (source : AccountId) (public_key : PublicKey)
  : outcome AcurastError unit :=
  match public_key with
  | RSA _ _ => Err UnsupportedAttestationPublicKeyType
  | ECDSA (CurveP256 public_key) =>
      ensure_or (bool_decide (account_encode source = blake2_256 (p256_to_bytes public_key)))
        AttestationPublicKeyDoesNotMatchSource
  | ECDSA (CurveP384 _ _) => Err UnsupportedAttestationPublicKeyType
  end.

(** [map_err]: every error becomes the given one *)
Definition or_error {E B} (e : AcurastError) (o : outcome E B) : outcome AcurastError B :=
  match o with Ok b => Ok b | Err _ => Err e | Panic => Panic end.

Definition bound_cert_id (cert_id : Bytes * Bytes) : outcome AcurastError (IssuerName * SerialNumber) :=
  and_then (ok_of (vec_try_from ISSUER_NAME_MAX_LENGTH cert_id.1) CannotGetAttestationIssuerName) (fun iss =>
  and_then (ok_of (vec_try_from SERIAL_NUMBER_MAX_LENGTH cert_id.2) CannotGetAttestationSerialNumber) (fun sn =>
  Ok (iss, sn))).
(** [map(f).collect::<Result<Vec<_>, _>>()] *)
Fixpoint collect {E B B'} (f : B -> outcome E B') (l : list B) : outcome E (list B') :=
  match l with
  | [] => Ok []
  | b :: l => and_then (f b) (fun b => and_then (collect f l) (fun l => Ok (b :: l)))
  end.

Definition validate_and_extract_attestation (source : AccountId) (attestation_chain : AttestationChain)
  : outcome AcurastError Attestation :=
  and_then (or_error CertificateChainValidationFailed
              (validate_certificate_chain attestation_chain.(certificate_chain)))
    (fun '(cert_ids_, cert, public_key) =>
  and_then (ensure_valid_public_key_for_source source public_key) (fun _ =>
  and_then (timestamp_millis cert.(Asn.tbs_validity).(Asn.vd_not_before)) (fun not_before_ =>
  and_then (timestamp_millis cert.(Asn.tbs_validity).(Asn.vd_not_after)) (fun not_after_ =>
  and_then (or_error AttestationExtractionFailed (extract_attestation cert.(Asn.tbs_extensions)))
    (fun parsed_attestation =>
  and_then (collect bound_cert_id cert_ids_) (fun cert_ids_bounded =>
  and_then (ok_of (vec_try_from CHAIN_MAX_LENGTH cert_ids_bounded) CannotGetCertificateId)
    (fun cert_ids_bounded_vec =>
  and_then (ok_of (content_try_from parsed_attestation) AttestationToBoundedTypeConversionFailed)
    (fun content_ =>
  Ok {| cert_ids := cert_ids_bounded_vec;
        content := content_;
        validity := {| not_before := not_before_; not_after := not_after_ |} |})))))))).

(** [ensure_not_expired]; the clock is a [u128] *)
Definition usage_expire_date_time (attestation : Attestation) : option Z :=
  match attestation.(content) with
  | KeyDescription key_description =>
      match key_description.(tee_enforced).(al_usage_expire_date_time) with
      | Some t => Some t
      | None => key_description.(software_enforced).(al_usage_expire_date_time)
      end
  | DeviceAttestation _ => None
  end.
Definition ensure_not_expired (s : State) (attestation : Attestation) : outcome AcurastError unit :=
  and_then (ok_of (int_try_from u64_max (unix_now_millis s.(jext))) FailedTimestampConversion) (fun now =>
  if (now >=? attestation.(validity).(not_after)) || (now <? attestation.(validity).(not_before))
  then Err AttestationCertificateNotValid
  else
    match usage_expire_date_time attestation with
    | Some expire_date_time =>
        if now >=? expire_date_time then Err AttestationUsageExpired else Ok tt
    | None => Ok tt
    end).

(** [AttestationValidator::validate] *)
Definition validate_attestation_chain (attestation_chain : AttestationChain) (account : AccountId) (s : State)
  : outcome AcurastError Attestation :=
  and_then (ensure_or (2 <=? Z.of_nat (length attestation_chain.(certificate_chain)))
              CertificateChainTooShort) (fun _ =>
  and_then (validate_and_extract_attestation account attestation_chain) (fun attestation =>
  and_then (ensure_or (accept_attestation_for_origin attestation) AttestationRejected) (fun _ =>
  and_then (ensure_not_expired s attestation) (fun _ =>
  and_then (ensure_not_revoked s attestation) (fun _ =>
  Ok attestation))))).

(** An [Err] of a check ends the call with the error of the pallet. *)
Definition checked {B} (f : State -> outcome AcurastError B) : MJ B := fun s =>
  match f s with
  | Ok b => (Ok b, s)
  | Err e => (Err (AcurastErr e), s)
  | Panic => (Panic, s)
  end.

(** [AttestationValidator::validate_and_store] *)
Definition store_attestation (attestation_chain : AttestationChain) (account : AccountId) : MJ unit :=
  let* attestation := checked (validate_attestation_chain attestation_chain account) in
  modify (fun s => set_stored_attestation (<[account := attestation]> s.(stored_attestation)) s);;
  deposit_event (AttestationStoredV2 account).

Definition submit_attestation (origin : RuntimeOrigin) (attestation_chain : AttestationChain) : MJ unit :=
  let* who := ensure_signed origin in
  store_attestation attestation_chain who.

Definition dispatch_attestation (origin : RuntimeOrigin) (attestation_chain : AttestationChain) : MJ unit :=
  with_transaction (submit_attestation origin attestation_chain).
End submission.
