(* ===== verification/AttestationSpecs.v ===== *)
(** Attestations: which chains of certificates are accepted, what a stored attestation
    says of the account, and that it is, field by field, what the certificate says.  The first part is a concrete
    instance of the parameters, with a calendar, a toy cryptography and a chain of
    certificates that the theorems are applied to. *)
From S2P Require Import Prelude Attestations JobTypes Jobs JobReference Balances TokenClaim.
From S2P Require Import BalancesReference ManagerTypes AttestationParsing Certificates.

(** * The calendar *)
Definition leap_year (y : Z) : bool := (y mod 4 =? 0) && (negb (y mod 100 =? 0) || (y mod 400 =? 0)).
Definition days_in_month (y m : Z) : Z :=
  match m with
  | 2 => if leap_year y then 29 else 28
  | 4 | 6 | 9 | 11 => 30
  | _ => 31
  end.
(** Days since 1 January 1970 *)
Definition days_from_civil (y m d : Z) : Z :=
  let y := if m <=? 2 then y - 1 else y in
  let era := y / 400 in
  let yoe := y - era * 400 in
  let doy := (153 * (m + (if 2 <? m then -3 else 9)) + 2) / 5 + d - 1 in
  era * 146097 + (yoe * 365 + yoe / 4 - yoe / 100 + doy) - 719468.

Definition valid_date (t : Asn.DateTime) : bool :=
  (1 <=? t.(Asn.dt_month)) && (t.(Asn.dt_month) <=? 12) && (1 <=? t.(Asn.dt_day))
  && (t.(Asn.dt_day) <=? days_in_month t.(Asn.dt_year) t.(Asn.dt_month)).
Definition if_valid (t : Asn.DateTime) : option Asn.DateTime := if valid_date t then Some t else None.

#[export] Instance civil_calendar : Chrono := {|
  NaiveDateTime := Asn.DateTime;
  naive_default := Asn.mkDateTime 1970 1 1 0 0 0;
  with_second n t :=
    if (0 <=? n) && (n <? 60) then
      Some (Asn.mkDateTime t.(Asn.dt_year) t.(Asn.dt_month) t.(Asn.dt_day) t.(Asn.dt_hour) t.(Asn.dt_minute) n)
    else None;
  with_minute n t :=
    if (0 <=? n) && (n <? 60) then
      Some (Asn.mkDateTime t.(Asn.dt_year) t.(Asn.dt_month) t.(Asn.dt_day) t.(Asn.dt_hour) n t.(Asn.dt_second))
    else None;
  with_hour n t :=
    if (0 <=? n) && (n <? 24) then
      Some (Asn.mkDateTime t.(Asn.dt_year) t.(Asn.dt_month) t.(Asn.dt_day) n t.(Asn.dt_minute) t.(Asn.dt_second))
    else None;
  with_day n t :=
    if_valid (Asn.mkDateTime t.(Asn.dt_year) t.(Asn.dt_month) n t.(Asn.dt_hour) t.(Asn.dt_minute) t.(Asn.dt_second));
  with_month n t :=
    if_valid (Asn.mkDateTime t.(Asn.dt_year) n t.(Asn.dt_day) t.(Asn.dt_hour) t.(Asn.dt_minute) t.(Asn.dt_second));
  with_year n t :=
    if_valid (Asn.mkDateTime n t.(Asn.dt_month) t.(Asn.dt_day) t.(Asn.dt_hour) t.(Asn.dt_minute) t.(Asn.dt_second));
  naive_timestamp_millis t :=
    1000 * (86400 * days_from_civil t.(Asn.dt_year) t.(Asn.dt_month) t.(Asn.dt_day)
            + 3600 * t.(Asn.dt_hour) + 60 * t.(Asn.dt_minute) + t.(Asn.dt_second));
|}.

(** The timestamp of most dates is right; the 29th of February is taken for 1970, since
    the month is set while the year is still 1970; and a date before 1970 panics. *)
Example timestamps :
  (fun t => @timestamp_millis _ unit (Asn.GeneralizedTime t)) <$>
    [Asn.mkDateTime 2024 9 12 13 3 8; Asn.mkDateTime 2028 2 28 0 0 0; Asn.mkDateTime 2028 2 29 0 0 0;
     Asn.mkDateTime 1969 12 31 0 0 0]
  = [Ok 1726146188000; Ok 1835308800000; Ok 0; Panic].
Proof. vm_compute. reflexivity. Qed.

(** * Certificates of a toy

    A certificate is a list: the key, the signature (the key of the signer and the sum
    of the payload), the year in which it expires and a serial number, then the
    extension.  The payload is all but the signature. *)
Definition toy_payload (data : list Z) : list Z :=
  match data with key :: _ :: rest => key :: rest | _ => [] end.
Definition toy_algorithm : Asn.AlgorithmIdentifier :=
  Asn.mkAlgorithm ECDSA_PBK (Some (Asn.mkTlv 6 [256])).
Definition toy_signing : Asn.AlgorithmIdentifier := Asn.mkAlgorithm ECDSA_WITH_SHA256_ALGORITHM None.
Definition toy_certificate (parse : list Z -> option Asn.Extension) (data : list Z)
  : option (Asn.Certificate unit) :=
  match data with
  | key :: signature :: year :: serial :: rest =>
      extension ← parse rest;
      Some (Asn.mkCertificate _
        (Asn.mkTBS _ [serial] toy_signing tt
           (Asn.mkValidity (Asn.UTCTime (Asn.mkDateTime 2020 1 1 0 0 0))
                           (Asn.UTCTime (Asn.mkDateTime year 1 1 0 0 0)))
           (Asn.mkSubjectKey toy_algorithm [key]) (Some [extension]))
        toy_signing [signature])
  | _ => None
  end.

(** A key in a trusted environment, with a verified boot state, of the app [[app]] *)
Definition toy_list (app : Z) : Asn.AuthorizationListV3 :=
  Asn.mkListV3 None (Some 3) (Some 256) None None (Some 1) None None None None None None (Some 2) (Some 60)
    None None None None None (Some (Asn.mkRoot [1] true 0 [1])) None None (Some [app])
    None None None None None None None None None None.
Definition toy_description (data : list Z) : option Asn.KeyDescriptionV3 :=
  match data with
  | [_; app] => Some (Asn.mkKeyV3 3 1 3 1 [] [] (toy_list app) (toy_list app))
  | _ => None
  end.

#[export] Instance toy_asn1 : Asn1 := {|
  Name := unit;
  asn1_certificate := toy_certificate;
  asn1_raw_payload data := Some (toy_payload data);
  asn1_write_name _ := Some [1];
  asn1_subject_key data := Some (Asn.mkSubjectKey toy_algorithm data);
  asn1_oid tlv :=
    match tlv.(Asn.tlv_data) with
    | [256] => Some CURVE_P256
    | [1] => Some KEY_ATTESTATION_OID
    | _ => None
    end;
  asn1_rsa_key _ := None;
  asn1_sequence data := Some data;
  asn1_head_i64 data := head data;
  asn1_key_description_v1 _ := None;
  asn1_key_description_v2 _ := None;
  asn1_key_description_v3 := toy_description;
  asn1_key_description_v4 _ := None;
  asn1_key_description_mint _ := None;
  asn1_application_id data :=
    Some (Asn.mkApplicationId [Asn.mkPackageInfo data 1] [data]);
  asn1_elements data := Some [Asn.mkTlv 6 [1]; Asn.mkTlv 4 data];
  asn1_tag data := head data;
  asn1_boolean_tag := 1;
  asn1_octet_string_tag := 4;
  asn1_explicit_i64 _ tlv := head tlv.(Asn.tlv_data);
  asn1_explicit_bytes _ tlv := Some tlv.(Asn.tlv_data);
|}.

#[export] Instance toy_crypto : Crypto := {|
  P256Key := Z;
  P384Field := Z;
  P256Key_eq_dec := Z.eq_dec;
  P384Field_eq_dec := Z.eq_dec;
  p256_from_sec1_bytes := head;
  p256_to_bytes key := [key];
  p384_from_be_slice _ := None;
  sha256 _ := repeat 0 32;
  sha384 _ := repeat 0 48;
  blake2_256 data := scale_uint 32 (byte_sum data);
  rsa_verify _ _ _ _ := false;
  EcdsaSignature := Z;
  p256_signature_from_der := head;
  p256_verify key payload signature := signature =? key + byte_sum payload;
  p384_signature_from_der _ := None;
  p384_verify_prehashed _ _ _ _ := false;
|}.
#[export] Instance toy_roots : TrustedKeys := {|
  GOOGLE_ROOT_PUB_KEY := [11];
  GOOGLE_P384_ROOT_PUB_KEY := [12];
  APPLE_ROOT_PUB_KEY := [13];
|}.
Definition toy_apps : AllowedApps := {|
  PackageNames := [[77]]; SignatureDigests := [[77]]; CorePackageNames := [[77]];
  LitePackageNames := []; CoreSignatureDigests := [[77]]; LiteSignatureDigests := []; BundleIds := [];
|}.

Definition toy_cert (signer key year serial version app : Z) : list Z :=
  key :: signer + byte_sum [key; year; serial; version; app] :: [year; serial; version; app].
(** The root [12] signs the key [20] of a vendor, which signs the key [7] of a device. *)
Definition toy_chain : AttestationChain :=
  {| certificate_chain := [toy_cert 12 20 2030 1 0 0; toy_cert 20 7 2030 2 3 77] |}.
(** The 12th of September 2024 *)
Definition toy_market : State (X := reference_market) := at_time 1726146188000 market_genesis.
Notation toy_submit o c := (dispatch_attestation (X := reference_market) (A := toy_apps) (Signed o) c).

Example submissions :
  result (toy_submit 7 toy_chain) toy_market = Ok tt /\
  (* another account *)
  result (toy_submit 8 toy_chain) toy_market = Err (AcurastErr AttestationPublicKeyDoesNotMatchSource) /\
  (* no root *)
  result (toy_submit 7 {| certificate_chain := [toy_cert 20 20 2030 1 0 0; toy_cert 20 7 2030 2 3 77] |}) toy_market
    = Err (AcurastErr CertificateChainValidationFailed) /\
  (* too late *)
  result (toy_submit 7 toy_chain) (at_time 1900000000000 market_genesis)
    = Err (AcurastErr AttestationCertificateNotValid) /\
  (* another app *)
  result (toy_submit 7 {| certificate_chain := [toy_cert 12 20 2030 1 0 0; toy_cert 20 7 2030 2 3 78] |}) toy_market
    = Err (AcurastErr AttestationRejected).
Proof. by_compute. Qed.

Lemma and_then_ok {E A B} (o : outcome E A) (f : A -> outcome E B) b :
  and_then o f = Ok b <-> exists a, o = Ok a /\ f a = Ok b.
Proof. destruct o; simpl; naive_solver. Qed.
Lemma ok_of_ok {E A} (o : option A) (e : E) a : ok_of o e = Ok a <-> o = Some a.
Proof. destruct o; simpl; naive_solver. Qed.
Lemma ensure_or_ok {E} b (e : E) u : ensure_or b e = Ok u <-> b = true.
Proof. destruct b, u; simpl; naive_solver. Qed.
Lemma or_error_ok {E B} e (o : outcome E B) b : or_error e o = Ok b <-> o = Ok b.
Proof. destruct o; simpl; naive_solver. Qed.

(** * Chains *)
Section chains.
Context {D : Asn1} {K : Crypto} {T : TrustedKeys}.

(** What the bytes of a certificate are parsed to: the certificate, the part that is
    signed, its public key and its id *)
Record parsed (data : Bytes) (cert : Asn.Certificate Name) (payload : Bytes) (key : PublicKey)
  (id : Bytes * Bytes) : Prop := {
  pd_cert : parse_cert data = Some cert;
  pd_payload : parse_cert_payload data = Some payload;
  pd_key : public_key_parse cert.(Asn.ce_tbs_certificate).(Asn.tbs_subject_public_key_info) = Ok key;
  pd_id : unique_id cert.(Asn.ce_tbs_certificate).(Asn.tbs_issuer)
            cert.(Asn.ce_tbs_certificate).(Asn.tbs_serial_number) = Ok id;
}.

(** A chain of certificates, the first of which is signed with the key [signer] and
    each other one with the key of the one before it; its ids, its last certificate
    and the key of that *)
Inductive signed_chain (signer : PublicKey) :
  list Bytes -> list (Bytes * Bytes) -> Asn.Certificate Name -> PublicKey -> Prop :=
| signed_last data cert payload key id :
    parsed data cert payload key id -> validate_certificate cert payload signer = Ok tt ->
    signed_chain signer [data] [id] cert key
| signed_next data chain cert payload key id ids c last :
    parsed data cert payload key id -> validate_certificate cert payload signer = Ok tt ->
    signed_chain key chain ids c last ->
    signed_chain signer (data :: chain) (id :: ids) c last.

Lemma signed_by_root_ok cert payload roots :
  signed_by_root cert payload roots = Ok tt ->
  exists root, root ∈ roots /\ validate_certificate cert payload root = Ok tt.
Proof.
  induction roots as [|root roots IH]; simpl; [done|]. intros Hs.
  destruct (validate_certificate cert payload root) as [[]|[]|] eqn:E; try done.
  - exists root. split; [apply list_elem_of_here|done].
  - destruct (IH Hs) as (r & Hr & Hv). exists r. split; [by apply list_elem_of_further|done].
  - destruct (IH Hs) as (r & Hr & Hv). exists r. split; [by apply list_elem_of_further|done].
Qed.

(** A step of the fold *)
Lemma chain_step_ok roots s data s' :
  chain_step roots s data = Ok s' <->
  exists cert payload key id, parsed data cert payload key id /\
    s' = mkChain (s.(cs_cert_ids) ++ [id]) (Some key) (Some cert) /\
    match match s.(cs_prev_pbk) with
          | Some prev_pbk => Some prev_pbk
          | None => if contains roots key then Some key else None
          end with
    | Some signer => validate_certificate cert payload signer = Ok tt
    | None => signed_by_root cert payload roots = Ok tt
    end.
Proof.
  unfold chain_step. split.
  - intros (cert & Hc%ok_of_ok & Hr)%and_then_ok.
    apply and_then_ok in Hr as (payload & Hp%ok_of_ok & Hr).
    apply and_then_ok in Hr as (key & Hk & Hr). apply and_then_ok in Hr as ([] & Hv & Hr).
    apply and_then_ok in Hr as (id & Hi & [= <-]). exists cert, payload, key, id.
    split; [by constructor|]. split; [done|]. by destruct (match cs_prev_pbk s with Some _ => _ | None => _ end).
  - intros (cert & payload & key & id & [Hc Hp Hk Hi] & -> & Hv).
    apply and_then_ok. exists cert. split; [by apply ok_of_ok|].
    apply and_then_ok. exists payload. split; [by apply ok_of_ok|].
    apply and_then_ok. exists key. split; [done|].
    apply and_then_ok. exists tt. split; [by destruct (match cs_prev_pbk s with Some _ => _ | None => _ end)|].
    apply and_then_ok. by exists id.
Qed.

(** The fold, once there is a key *)
Lemma chain_fold_signed roots chain ids signer cert s' :
  chain <> [] ->
  chain_fold roots (mkChain ids (Some signer) cert) chain = Ok s' ->
  exists ids2 key c, s' = mkChain (ids ++ ids2) (Some key) (Some c) /\ signed_chain signer chain ids2 c key.
Proof.
  revert ids signer cert. induction chain as [|data chain IH]; [done|]. intros ids signer cert _ Hf.
  simpl in Hf. apply and_then_ok in Hf as (s1 & (c & payload & key & id & Hp & -> & Hv)%chain_step_ok & Hf).
  simpl in *. destruct chain as [|data2 chain].
  - injection Hf as <-. exists [id], key, c. split; [done|]. by econstructor.
  - apply IH in Hf as (ids2 & last & c2 & -> & Hs); [|done]. exists (id :: ids2), last, c2.
    split; [by rewrite <-app_assoc|]. by econstructor.
Qed.
Lemma chain_fold_app roots s c1 c2 :
  chain_fold roots s (c1 ++ c2) = and_then (chain_fold roots s c1) (fun s => chain_fold roots s c2).
Proof.
  revert s. induction c1 as [|data c1 IH]; intros s; simpl; [done|].
  destruct (chain_step roots s data); simpl; [apply IH|done|done].
Qed.

(** What an accepted chain is, step by step *)
Lemma validate_chain_inv chain ids tbs key :
  validate_certificate_chain chain = Ok (ids, tbs, key) <->
  exists roots cert, trusted_roots = Ok roots /\ tbs = cert.(Asn.ce_tbs_certificate) /\
    chain_fold roots (mkChain [] None None) chain = Ok (mkChain ids (Some key) (Some cert)).
Proof.
  unfold validate_certificate_chain. split.
  - intros (roots & Hr & (s & Hs & (cert & Hc%ok_of_ok & (pbk & Hp%ok_of_ok & [= <- <- <-])%and_then_ok)%and_then_ok)%and_then_ok)%and_then_ok.
    exists roots, cert. destruct s as [ids' k c]. simpl in *. by subst.
  - intros (roots & cert & Hr & -> & Hs). apply and_then_ok. exists roots. split; [done|].
    apply and_then_ok. exists (mkChain ids (Some key) (Some cert)). split; [done|].
    apply and_then_ok. exists cert. split; [done|]. apply and_then_ok. by exists key.
Qed.
Lemma validate_chain_signed chain ids tbs key :
  validate_certificate_chain chain = Ok (ids, tbs, key) ->
  exists roots root cert, trusted_roots = Ok roots /\ root ∈ roots /\
    tbs = cert.(Asn.ce_tbs_certificate) /\ signed_chain root chain ids cert key.
Proof.
  intros (roots & cert & Hr & -> & Hf)%validate_chain_inv. exists roots.
  destruct chain as [|data chain]; [done|]. simpl in Hf.
  apply and_then_ok in Hf as (s1 & (c & payload & k & id & Hp & -> & Hv)%chain_step_ok & Hf). simpl in *.
  assert (exists root, root ∈ roots /\ validate_certificate c payload root = Ok tt) as (root & Hin & Hroot).
  { destruct (contains roots k) eqn:E; [|by apply signed_by_root_ok].
    exists k. split; [by apply bool_decide_eq_true in E|done]. }
  exists root, cert. split; [done|]. split; [done|]. split; [done|]. destruct chain as [|data2 chain].
  - injection Hf as <- <- <-. by econstructor.
  - apply chain_fold_signed in Hf as (ids2 & last & c2 & [= -> -> ->] & Hs); [|done]. by econstructor.
Qed.
End chains.

(** A chain of certificates that is accepted leads to a trusted root.  Its first
    certificate is signed with the key of one of the roots in the repository, each
    other certificate with the key of the certificate before it, and what the caller
    is given is the last certificate, its key and the ids of all. *)
Theorem accepted_chains_are_signed {D : Asn1} {K : Crypto} {T : TrustedKeys} chain ids tbs key :
  validate_certificate_chain chain = Ok (ids, tbs, key) ->
  exists roots root cert, trusted_roots = Ok roots /\ root ∈ roots /\
    tbs = cert.(Asn.ce_tbs_certificate) /\ signed_chain root chain ids cert key.
Proof. apply validate_chain_signed. Qed.

(** Whoever holds the private key of the last certificate of an accepted chain
    can lengthen it: the chain with one more certificate, signed with that key and
    with whatever extensions, is accepted as well, and the attestation is read from
    the certificate that was added.  Nothing in a chain says which certificates may
    sign others. *)
Theorem accepted_chains_can_be_extended {D : Asn1} {K : Crypto} {T : TrustedKeys} chain ids tbs key
  data cert payload key' id :
  validate_certificate_chain chain = Ok (ids, tbs, key) ->
  parsed data cert payload key' id -> validate_certificate cert payload key = Ok tt ->
  validate_certificate_chain (chain ++ [data]) = Ok (ids ++ [id], cert.(Asn.ce_tbs_certificate), key').
Proof.
  intros (roots & c & Hr & -> & Hf)%validate_chain_inv Hp Hv. apply validate_chain_inv.
  exists roots, cert. split; [done|]. split; [done|]. rewrite chain_fold_app, Hf. simpl.
  apply and_then_ok. exists (mkChain (ids ++ [id]) (Some key') (Some cert)). split; [|done].
  apply chain_step_ok. by exists cert, payload, key', id.
Qed.

(** * Stored attestations *)
Section submission.
Context {X : JobExternals} {C : JobConfig} {A : AllowedApps}.
Context {G : Signatures} {D : Asn1} {K : Crypto} {T : TrustedKeys} {H : Chrono}.

(** The attestation of a chain: what a genuine one of the account is *)
Record genuine (who : AccountId) (chain : list Bytes) (a : Attestation) : Prop := {
  gn_signed : exists roots root ids cert key parsed_attestation,
    trusted_roots = Ok roots /\ root ∈ roots /\
    signed_chain root chain ids cert (ECDSA (CurveP256 key)) /\
    account_encode who = blake2_256 (p256_to_bytes key) /\
    a.(cert_ids) = ids /\
    extract_attestation cert.(Asn.ce_tbs_certificate).(Asn.tbs_extensions) = Ok parsed_attestation /\
    content_try_from parsed_attestation = Some a.(content) /\
    timestamp_millis (E := AcurastError) cert.(Asn.ce_tbs_certificate).(Asn.tbs_validity).(Asn.vd_not_before)
      = Ok a.(validity).(not_before) /\
    timestamp_millis (E := AcurastError) cert.(Asn.ce_tbs_certificate).(Asn.tbs_validity).(Asn.vd_not_after)
      = Ok a.(validity).(not_after);
  gn_length : (length chain <= Z.to_nat CHAIN_MAX_LENGTH)%nat;
}.

Lemma vec_try_from_ok {B} mx (l l' : list B) :
  vec_try_from mx l = Some l' <-> l' = l /\ Z.of_nat (length l) <= mx.
Proof. unfold vec_try_from. destruct (Z.leb_spec (Z.of_nat (length l)) mx); naive_solver lia. Qed.
Lemma bound_cert_id_ok p q : bound_cert_id p = Ok q -> q = p.
Proof.
  intros (iss & [-> _]%ok_of_ok%vec_try_from_ok & (sn & [-> _]%ok_of_ok%vec_try_from_ok & [= <-])%and_then_ok)%and_then_ok.
  by destruct p.
Qed.
Lemma collect_bound_ok l l' : collect bound_cert_id l = Ok l' -> l' = l.
Proof.
  revert l'. induction l as [|p l IH]; simpl; intros l' Hc; [by injection Hc as <-|].
  apply and_then_ok in Hc as (q & ->%bound_cert_id_ok & (r & ->%IH & [= <-])%and_then_ok). done.
Qed.
Lemma signed_chain_length signer chain ids c key :
  signed_chain signer chain ids c key -> length ids = length chain.
Proof. induction 1; simpl; auto. Qed.

Lemma validate_and_extract_genuine who chain a :
  validate_and_extract_attestation who chain = Ok a -> genuine who chain.(certificate_chain) a.
Proof.
  intros ([[ids tbs] key] & Hv%or_error_ok%validate_chain_signed & Hr)%and_then_ok.
  destruct Hv as (roots & root & cert & Hroots & Hin & -> & Hs).
  apply and_then_ok in Hr as ([] & Hk & Hr). apply and_then_ok in Hr as (nb & Hnb & Hr).
  apply and_then_ok in Hr as (na & Hna & Hr). apply and_then_ok in Hr as (pa & Hpa%or_error_ok & Hr).
  apply and_then_ok in Hr as (l & ->%collect_bound_ok & Hr).
  apply and_then_ok in Hr as (l & [-> Hlen]%ok_of_ok%vec_try_from_ok & Hr).
  apply and_then_ok in Hr as (c & Hc%ok_of_ok & [= <-]).
  destruct key as [|[key|]]; try done. apply ensure_or_ok, bool_decide_eq_true in Hk. constructor; simpl.
  - exists roots, root, ids, cert, key, pa. done.
  - rewrite <-(signed_chain_length _ _ _ _ _ Hs). unfold CHAIN_MAX_LENGTH in *. lia.
Qed.

(** What is checked when the attestation is submitted *)
Record fresh (s : State) (a : Attestation) : Prop := {
  fr_accepted : accept_attestation_for_origin a = true;
  fr_period : a.(validity).(not_before) <= unix_now_millis s.(jext) < a.(validity).(not_after);
  fr_usage t : usage_expire_date_time a = Some t -> unix_now_millis s.(jext) < t;
  fr_revoked id : id ∈ a.(cert_ids) -> id.2 ∉ s.(stored_revoked_certificate);
}.

Lemma validate_attestation_ok chain who s a :
  validate_attestation_chain chain who s = Ok a ->
  genuine who chain.(certificate_chain) a /\ fresh s a /\ (2 <= length chain.(certificate_chain))%nat.
Proof.
  intros ([] & Hl%ensure_or_ok & Hr)%and_then_ok. apply Z.leb_le in Hl.
  apply and_then_ok in Hr as (b & Hg%validate_and_extract_genuine & Hr).
  apply and_then_ok in Hr as ([] & Ha%ensure_or_ok & Hr). apply and_then_ok in Hr as ([] & He & Hr).
  apply and_then_ok in Hr as ([] & Hrev & [= <-]). split; [done|]. split; [|lia].
  apply and_then_ok in He as (now & Hnow%ok_of_ok & He). unfold int_try_from in Hnow.
  destruct (_ && _) in Hnow; [|done]. injection Hnow as <-.
  destruct (_ || _) eqn:Ep in He; [done|]. apply orb_false_iff in Ep as [Ep1 Ep2].
  rewrite Z.geb_leb in Ep1. apply Z.leb_gt in Ep1. apply Z.ltb_ge in Ep2. constructor; [done|lia| |].
  - intros t Ht. rewrite Ht in He. rewrite Z.geb_leb in He. by destruct (Z.leb_spec t (unix_now_millis (jext s))).
  - intros id Hid Hin. unfold ensure_not_revoked in Hrev. destruct (existsb _ _) eqn:Ex; [done|].
    apply not_true_iff_false in Ex. apply Ex, existsb_exists. exists id. split; [by apply list_elem_of_In|].
    by apply bool_decide_eq_true.
Qed.
End submission.

(** C16: An attestation is stored only for the account whose key it attests, and only
    if it is genuine and fresh: the chain, of two to five certificates, is signed from
    a trusted root on; the account is the hash of the key of the last certificate,
    and what is stored is what that certificate says; the app is one of those allowed,
    the certificate and the key have not expired, and no certificate of the chain is
    revoked.  A submission that fails changes nothing. *)
Theorem stored_attestations_are_genuine {X : JobExternals} {C : JobConfig} {A : AllowedApps}
  {G : Signatures} {D : Asn1} {K : Crypto} {T : TrustedKeys} {H : Chrono} o chain s r s' :
  dispatch_attestation o chain s = (r, s') ->
  (r = Ok tt /\ exists who a, o = Signed who /\
     s' = set_events (s.(events) ++ [AttestationStoredV2 who])
            (set_stored_attestation (<[who := a]> s.(stored_attestation)) s) /\
     genuine who chain.(certificate_chain) a /\ fresh s a /\
     (2 <= length chain.(certificate_chain) <= 5)%nat) \/
  (r <> Ok tt /\ s' = s).
Proof.
  intros Hd. destruct r as [[]|e|].
  2,3: right; split; [done|]; by destruct (with_transaction_rollback _ _ _ _ Hd) as [[? [=]]|].
  left. split; [done|]. unfold dispatch_attestation in Hd. rewrite with_transaction_ok in Hd.
  apply bind_ok in Hd as (who & s1 & Ho & Hr). destruct o as [who'|]; [|done]. apply ret_ok in Ho as [<- <-].
  apply bind_ok in Hr as (a & s1 & Ha & Hr). unfold checked in Ha.
  destruct (validate_attestation_chain chain who' s) as [b| |] eqn:E; try done. injection Ha as <- <-.
  apply bind_ok in Hr as ([] & s2 & <-%modify_ok & <-%modify_ok).
  apply validate_attestation_ok in E as (Hg & Hf & Hl). exists who', b. split; [done|]. split; [done|].
  split; [done|]. split; [done|]. split; [done|]. apply (gn_length _ _ _ Hg).
Qed.

(** * The numbers of an attestation *)
Definition opt_ok {B} (P : B -> Prop) (o : option B) : Prop := forall b, o = Some b -> P b.
Definition int_ok (mx : Z) : option Z -> Prop := opt_ok (fun x => 0 <= x <= mx).
Definition len_ok {B} (mx : Z) : option (list B) -> Prop := opt_ok (fun l => Z.of_nat (length l) <= mx).
Definition bytes_ok (mx : Z) : option (list Z) -> Prop :=
  opt_ok (fun l => Z.of_nat (length l) <= mx /\ Forall (fun b => 0 <= b <= u8_max) l).
Definition root_ok : option BoundedRootOfTrust -> Prop :=
  opt_ok (fun r => Z.of_nat (length r.(verified_boot_key)) <= VERIFIED_BOOT_KEY_MAX_LENGTH /\
                   len_ok VERIFIED_BOOT_HASH_MAX_LENGTH r.(verified_boot_hash)).
Definition app_ok : option BoundedAttestationApplicationId -> Prop :=
  opt_ok (fun i => Z.of_nat (length i.(package_infos)) <= PACKAGE_INFO_SET_MAX_LENGTH /\
                   Forall (fun p => Z.of_nat (length p.(package_name)) <= PACKAGE_NAME_MAX_LENGTH) i.(package_infos) /\
                   Z.of_nat (length i.(signature_digests)) <= SIGNATURE_DIGEST_SET_MAX_LENGTH /\
                   Forall (fun d => Z.of_nat (length d) <= DIGEST_MAX_LENGTH) i.(signature_digests)).

(** Every number fits in its type, every vector in its bound. *)
Record list_typed (l : BoundedAuthorizationList) : Prop := {
  lt_sets : bytes_ok PURPOSE_MAX_LENGTH l.(al_purpose) /\ bytes_ok DIGEST_MAX_LENGTH l.(al_digest) /\
            bytes_ok PADDING_MAX_LENGTH l.(al_padding) /\ bytes_ok MGF_DIGEST_MAX_LENGTH l.(al_mgf_digest);
  lt_u8 : Forall (int_ok u8_max) [l.(al_algorithm); l.(al_ec_curve); l.(al_user_auth_type); l.(al_origin)];
  lt_u16 : int_ok u16_max l.(al_key_size);
  lt_u32 : Forall (int_ok u32_max) [l.(al_auth_timeout); l.(al_os_version); l.(al_os_patch_level);
             l.(al_vendor_patch_level); l.(al_boot_patch_level)];
  lt_u64 : Forall (int_ok u64_max) [l.(al_rsa_public_exponent); l.(al_active_date_time);
             l.(al_origination_expire_date_time); l.(al_usage_expire_date_time); l.(al_usage_count_limit);
             l.(al_creation_date_time)];
  lt_ids : Forall (len_ok ATTESTATION_ID_MAX_LENGTH) [l.(al_application_id); l.(al_attestation_id_brand);
             l.(al_attestation_id_device); l.(al_attestation_id_product); l.(al_attestation_id_serial);
             l.(al_attestation_id_imei); l.(al_attestation_id_meid); l.(al_attestation_id_manufacturer);
             l.(al_attestation_id_model)];
  lt_root : root_ok l.(al_root_of_trust);
  lt_app : app_ok l.(al_attestation_application_id);
}.

(** * What a stored key description says

    [said_v1] and so on are the lists of a certificate field by field; the root of trust
    and the application id, which have parts, are related to the stored ones. *)
Definition boot_state_said (n : Z) (st : VerifiedBootState) : Prop :=
  match st with Verified => n = 0 | SelfSigned => n = 1 | Unverified => n = 2 | FailedBoot => n <> 0 /\ n <> 1 /\ n <> 2 end.
Definition level_said (n : Z) (l : AttestationSecurityLevel) : Prop :=
  match l with Software => n = 0 | TrustedEnvironemnt => n = 1 | StrongBox => n = 2 | UnknownLevel => n <> 0 /\ n <> 1 /\ n <> 2 end.
Definition root_v1v2_said (d : Asn.RootOfTrustV1V2) (r : BoundedRootOfTrust) : Prop :=
  r.(verified_boot_key) = d.(Asn.r1_verified_boot_key) /\ r.(device_locked) = d.(Asn.r1_device_locked) /\
  boot_state_said d.(Asn.r1_verified_boot_state) r.(verified_boot_state) /\ r.(verified_boot_hash) = None.
Definition root_said (d : Asn.RootOfTrust) (r : BoundedRootOfTrust) : Prop :=
  r.(verified_boot_key) = d.(Asn.rt_verified_boot_key) /\ r.(device_locked) = d.(Asn.rt_device_locked) /\
  boot_state_said d.(Asn.rt_verified_boot_state) r.(verified_boot_state) /\
  r.(verified_boot_hash) = Some d.(Asn.rt_verified_boot_hash).
Definition package_said (p : Asn.AttestationPackageInfo) (q : BoundedAttestationPackageInfo) : Prop :=
  q.(package_name) = p.(Asn.pi_package_name) /\ q.(pkg_version) = p.(Asn.pi_version).
Definition app_said {D : Asn1} (bytes : Bytes) (a : BoundedAttestationApplicationId) : Prop :=
  exists v, asn1_application_id bytes = Some v /\
    Forall2 package_said v.(Asn.id_package_infos) a.(package_infos) /\
    a.(signature_digests) = v.(Asn.id_signature_digests).

Definition said_v1 (data : Asn.AuthorizationListV1) (root : option BoundedRootOfTrust)
  : BoundedAuthorizationList :=
  {| al_purpose := data.(Asn.v1_purpose); al_algorithm := data.(Asn.v1_algorithm);
     al_key_size := data.(Asn.v1_key_size); al_digest := data.(Asn.v1_digest);
     al_padding := data.(Asn.v1_padding); al_ec_curve := data.(Asn.v1_ec_curve);
     al_rsa_public_exponent := data.(Asn.v1_rsa_public_exponent); al_mgf_digest := None;
     al_rollback_resistance := Some (is_some data.(Asn.v1_rollback_resistance));
     al_early_boot_only := None; al_active_date_time := data.(Asn.v1_active_date_time);
     al_origination_expire_date_time := data.(Asn.v1_origination_expire_date_time);
     al_usage_expire_date_time := data.(Asn.v1_usage_expire_date_time);
     al_usage_count_limit := None; al_no_auth_required := is_some data.(Asn.v1_no_auth_required);
     al_user_auth_type := data.(Asn.v1_user_auth_type);
     al_auth_timeout := data.(Asn.v1_user_auth_type);
     al_allow_while_on_body := is_some data.(Asn.v1_allow_while_on_body);
     al_trusted_user_presence_required := None; al_trusted_confirmation_required := None;
     al_unlocked_device_required := None;
     al_all_applications := Some (is_some data.(Asn.v1_all_applications));
     al_application_id := data.(Asn.v1_application_id);
     al_creation_date_time := data.(Asn.v1_creation_date_time);
     al_origin := data.(Asn.v1_origin); al_root_of_trust := root;
     al_os_version := data.(Asn.v1_os_version);
     al_os_patch_level := data.(Asn.v1_os_patch_level); al_attestation_application_id := None;
     al_attestation_id_brand := None; al_attestation_id_device := None;
     al_attestation_id_product := None; al_attestation_id_serial := None;
     al_attestation_id_imei := None; al_attestation_id_meid := None;
     al_attestation_id_manufacturer := None; al_attestation_id_model := None;
     al_vendor_patch_level := None; al_boot_patch_level := None;
     al_device_unique_attestation := None |}.

Definition said_v2 (data : Asn.AuthorizationListV2) (root : option BoundedRootOfTrust)
    (app : option BoundedAttestationApplicationId)
  : BoundedAuthorizationList :=
  {| al_purpose := data.(Asn.v2_purpose); al_algorithm := data.(Asn.v2_algorithm);
     al_key_size := data.(Asn.v2_key_size); al_digest := data.(Asn.v2_digest);
     al_padding := data.(Asn.v2_padding); al_ec_curve := data.(Asn.v2_ec_curve);
     al_rsa_public_exponent := data.(Asn.v2_rsa_public_exponent); al_mgf_digest := None;
     al_rollback_resistance := Some (is_some data.(Asn.v2_rollback_resistance));
     al_early_boot_only := None; al_active_date_time := data.(Asn.v2_active_date_time);
     al_origination_expire_date_time := data.(Asn.v2_origination_expire_date_time);
     al_usage_expire_date_time := data.(Asn.v2_usage_expire_date_time);
     al_usage_count_limit := None; al_no_auth_required := is_some data.(Asn.v2_no_auth_required);
     al_user_auth_type := data.(Asn.v2_user_auth_type);
     al_auth_timeout := data.(Asn.v2_user_auth_type);
     al_allow_while_on_body := is_some data.(Asn.v2_allow_while_on_body);
     al_trusted_user_presence_required := None; al_trusted_confirmation_required := None;
     al_unlocked_device_required := None;
     al_all_applications := Some (is_some data.(Asn.v2_all_applications));
     al_application_id := data.(Asn.v2_application_id);
     al_creation_date_time := data.(Asn.v2_creation_date_time);
     al_origin := data.(Asn.v2_origin); al_root_of_trust := root;
     al_os_version := data.(Asn.v2_os_version);
     al_os_patch_level := data.(Asn.v2_os_patch_level); al_attestation_application_id := app;
     al_attestation_id_brand := data.(Asn.v2_attestation_id_brand);
     al_attestation_id_device := data.(Asn.v2_attestation_id_device);
     al_attestation_id_product := data.(Asn.v2_attestation_id_product);
     al_attestation_id_serial := data.(Asn.v2_attestation_id_serial);
     al_attestation_id_imei := data.(Asn.v2_attestation_id_imei);
     al_attestation_id_meid := data.(Asn.v2_attestation_id_meid);
     al_attestation_id_manufacturer := data.(Asn.v2_attestation_id_manufacturer);
     al_attestation_id_model := data.(Asn.v2_attestation_id_model);
     al_vendor_patch_level := None; al_boot_patch_level := None;
     al_device_unique_attestation := None |}.

Definition said_v3 (data : Asn.AuthorizationListV3) (root : option BoundedRootOfTrust)
    (app : option BoundedAttestationApplicationId)
  : BoundedAuthorizationList :=
  {| al_purpose := data.(Asn.v3_purpose); al_algorithm := data.(Asn.v3_algorithm);
     al_key_size := data.(Asn.v3_key_size); al_digest := data.(Asn.v3_digest);
     al_padding := data.(Asn.v3_padding); al_ec_curve := data.(Asn.v3_ec_curve);
     al_rsa_public_exponent := data.(Asn.v3_rsa_public_exponent); al_mgf_digest := None;
     al_rollback_resistance := Some (is_some data.(Asn.v3_rollback_resistance));
     al_early_boot_only := None; al_active_date_time := data.(Asn.v3_active_date_time);
     al_origination_expire_date_time := data.(Asn.v3_origination_expire_date_time);
     al_usage_expire_date_time := data.(Asn.v3_usage_expire_date_time);
     al_usage_count_limit := None; al_no_auth_required := is_some data.(Asn.v3_no_auth_required);
     al_user_auth_type := data.(Asn.v3_user_auth_type);
     al_auth_timeout := data.(Asn.v3_user_auth_type);
     al_allow_while_on_body := is_some data.(Asn.v3_allow_while_on_body);
     al_trusted_user_presence_required := None; al_trusted_confirmation_required := None;
     al_unlocked_device_required := None;
     al_all_applications := Some (is_some data.(Asn.v3_all_applications));
     al_application_id := data.(Asn.v3_application_id);
     al_creation_date_time := data.(Asn.v3_creation_date_time);
     al_origin := data.(Asn.v3_origin); al_root_of_trust := root;
     al_os_version := data.(Asn.v3_os_version);
     al_os_patch_level := data.(Asn.v3_os_patch_level); al_attestation_application_id := app;
     al_attestation_id_brand := data.(Asn.v3_attestation_id_brand);
     al_attestation_id_device := data.(Asn.v3_attestation_id_device);
     al_attestation_id_product := data.(Asn.v3_attestation_id_product);
     al_attestation_id_serial := data.(Asn.v3_attestation_id_serial);
     al_attestation_id_imei := data.(Asn.v3_attestation_id_imei);
     al_attestation_id_meid := data.(Asn.v3_attestation_id_meid);
     al_attestation_id_manufacturer := data.(Asn.v3_attestation_id_manufacturer);
     al_attestation_id_model := data.(Asn.v3_attestation_id_model);
     al_vendor_patch_level := data.(Asn.v3_vendor_patch_level);
     al_boot_patch_level := data.(Asn.v3_boot_patch_level);
     al_device_unique_attestation := None |}.

Definition said_v4 (data : Asn.AuthorizationListV4) (root : option BoundedRootOfTrust)
    (app : option BoundedAttestationApplicationId)
  : BoundedAuthorizationList :=
  {| al_purpose := data.(Asn.v4_purpose); al_algorithm := data.(Asn.v4_algorithm);
     al_key_size := data.(Asn.v4_key_size); al_digest := data.(Asn.v4_digest);
     al_padding := data.(Asn.v4_padding); al_ec_curve := data.(Asn.v4_ec_curve);
     al_rsa_public_exponent := data.(Asn.v4_rsa_public_exponent); al_mgf_digest := None;
     al_rollback_resistance := Some (is_some data.(Asn.v4_rollback_resistance));
     al_early_boot_only := Some (is_some data.(Asn.v4_early_boot_only));
     al_active_date_time := data.(Asn.v4_active_date_time);
     al_origination_expire_date_time := data.(Asn.v4_origination_expire_date_time);
     al_usage_expire_date_time := data.(Asn.v4_usage_expire_date_time);
     al_usage_count_limit := None; al_no_auth_required := is_some data.(Asn.v4_no_auth_required);
     al_user_auth_type := data.(Asn.v4_user_auth_type);
     al_auth_timeout := data.(Asn.v4_user_auth_type);
     al_allow_while_on_body := is_some data.(Asn.v4_allow_while_on_body);
     al_trusted_user_presence_required := Some (is_some data.(Asn.v4_trusted_user_presence_required));
     al_trusted_confirmation_required := Some (is_some data.(Asn.v4_trusted_confirmation_required));
     al_unlocked_device_required := Some (is_some data.(Asn.v4_unlocked_device_required));
     al_all_applications := Some (is_some data.(Asn.v4_all_applications));
     al_application_id := data.(Asn.v4_application_id);
     al_creation_date_time := data.(Asn.v4_creation_date_time);
     al_origin := data.(Asn.v4_origin); al_root_of_trust := root;
     al_os_version := data.(Asn.v4_os_version);
     al_os_patch_level := data.(Asn.v4_os_patch_level); al_attestation_application_id := app;
     al_attestation_id_brand := data.(Asn.v4_attestation_id_brand);
     al_attestation_id_device := data.(Asn.v4_attestation_id_device);
     al_attestation_id_product := data.(Asn.v4_attestation_id_product);
     al_attestation_id_serial := data.(Asn.v4_attestation_id_serial);
     al_attestation_id_imei := data.(Asn.v4_attestation_id_imei);
     al_attestation_id_meid := data.(Asn.v4_attestation_id_meid);
     al_attestation_id_manufacturer := data.(Asn.v4_attestation_id_manufacturer);
     al_attestation_id_model := data.(Asn.v4_attestation_id_model);
     al_vendor_patch_level := data.(Asn.v4_vendor_patch_level);
     al_boot_patch_level := data.(Asn.v4_boot_patch_level);
     al_device_unique_attestation := Some (is_some data.(Asn.v4_device_unique_attestation)) |}.

Definition said_keymint (data : Asn.AuthorizationListKeyMint) (root : option BoundedRootOfTrust)
    (app : option BoundedAttestationApplicationId)
  : BoundedAuthorizationList :=
  {| al_purpose := data.(Asn.km_purpose); al_algorithm := data.(Asn.km_algorithm);
     al_key_size := data.(Asn.km_key_size); al_digest := data.(Asn.km_digest);
     al_padding := data.(Asn.km_padding); al_ec_curve := data.(Asn.km_ec_curve);
     al_rsa_public_exponent := data.(Asn.km_rsa_public_exponent);
     al_mgf_digest := data.(Asn.km_mgf_digest);
     al_rollback_resistance := Some (is_some data.(Asn.km_rollback_resistance));
     al_early_boot_only := Some (is_some data.(Asn.km_early_boot_only));
     al_active_date_time := data.(Asn.km_active_date_time);
     al_origination_expire_date_time := data.(Asn.km_origination_expire_date_time);
     al_usage_expire_date_time := data.(Asn.km_usage_expire_date_time);
     al_usage_count_limit := data.(Asn.km_usage_count_limit);
     al_no_auth_required := is_some data.(Asn.km_no_auth_required);
     al_user_auth_type := data.(Asn.km_user_auth_type);
     al_auth_timeout := data.(Asn.km_user_auth_type);
     al_allow_while_on_body := is_some data.(Asn.km_allow_while_on_body);
     al_trusted_user_presence_required := Some (is_some data.(Asn.km_trusted_user_presence_required));
     al_trusted_confirmation_required := Some (is_some data.(Asn.km_trusted_confirmation_required));
     al_unlocked_device_required := Some (is_some data.(Asn.km_unlocked_device_required));
     al_all_applications := None; al_application_id := None;
     al_creation_date_time := data.(Asn.km_creation_date_time);
     al_origin := data.(Asn.km_origin); al_root_of_trust := root;
     al_os_version := data.(Asn.km_os_version);
     al_os_patch_level := data.(Asn.km_os_patch_level); al_attestation_application_id := app;
     al_attestation_id_brand := data.(Asn.km_attestation_id_brand);
     al_attestation_id_device := data.(Asn.km_attestation_id_device);
     al_attestation_id_product := data.(Asn.km_attestation_id_product);
     al_attestation_id_serial := data.(Asn.km_attestation_id_serial);
     al_attestation_id_imei := data.(Asn.km_attestation_id_imei);
     al_attestation_id_meid := data.(Asn.km_attestation_id_meid);
     al_attestation_id_manufacturer := data.(Asn.km_attestation_id_manufacturer);
     al_attestation_id_model := data.(Asn.km_attestation_id_model);
     al_vendor_patch_level := data.(Asn.km_vendor_patch_level);
     al_boot_patch_level := data.(Asn.km_boot_patch_level);
     al_device_unique_attestation := Some (is_some data.(Asn.km_device_unique_attestation)) |}.

(** * The conversions, exactly *)
Lemma opt_ok_None {B} (P : B -> Prop) : opt_ok P None.
Proof. by intros b. Qed.
Lemma opt_ok_Some {B} (P : B -> Prop) b : opt_ok P (Some b) <-> P b.
Proof. split; [by intros H; apply H|by intros H b' [= <-]]. Qed.

Lemma try_map_iff {B B'} (f : B -> option B') (R : B -> B' -> Prop) v o :
  (forall b b', f b = Some b' <-> R b b') -> try_map f v = Some o <-> option_Forall2 R v o.
Proof.
  intros Hf. destruct v as [b|]; simpl.
  - rewrite bind_Some. split.
    + intros (b' & Hb & [= <-]). constructor. by apply Hf.
    + inversion_clear 1 as [? b' Hb|]. exists b'. split; [by apply Hf|done].
  - split; [intros [= <-]; constructor|by inversion_clear 1].
Qed.
Lemma option_same {B} (P : B -> Prop) v o :
  option_Forall2 (fun b b' => b' = b /\ P b) v o <-> o = v /\ opt_ok P v.
Proof.
  split.
  - destruct 1 as [b b' [-> Hp]|]; [by rewrite opt_ok_Some|]. split; [done|apply opt_ok_None].
  - intros [-> Hp]. destruct v as [b|]; constructor. split; [done|]. by apply Hp.
Qed.
Lemma option_said {B B'} (Q : B -> B' -> Prop) (P : B' -> Prop) v o :
  option_Forall2 (fun b b' => Q b b' /\ P b') v o <-> option_Forall2 Q v o /\ opt_ok P o.
Proof.
  split.
  - destruct 1 as [b b' [Hq Hp]|]; [rewrite opt_ok_Some; split; [by constructor|done]|].
    split; [constructor|apply opt_ok_None].
  - intros [Hq Hp]. destruct Hq as [b b' Hq|]; constructor. split; [done|]. by apply Hp.
Qed.

Lemma int_try_from_iff mx x y : int_try_from mx x = Some y <-> y = x /\ 0 <= x <= mx.
Proof.
  unfold int_try_from. destruct (Z.leb_spec 0 x), (Z.leb_spec x mx); simpl; naive_solver lia.
Qed.
Lemma vec_try_from_iff {B} mx (l l' : list B) :
  vec_try_from mx l = Some l' <-> l' = l /\ Z.of_nat (length l) <= mx.
Proof. unfold vec_try_from. destruct (Z.leb_spec (Z.of_nat (length l)) mx); naive_solver lia. Qed.
Lemma mapM_same {B} (f : B -> option B) (P : B -> Prop) l l' :
  (forall b b', f b = Some b' <-> b' = b /\ P b) -> mapM f l = Some l' <-> l' = l /\ Forall P l.
Proof.
  intros Hf. rewrite mapM_Some. split.
  - induction 1 as [|b b' l1 l2 Hb _ [-> IH]]; [by split|]. apply Hf in Hb as [-> ?]. by split; [|constructor].
  - intros [-> Hp]. induction Hp; constructor; [by apply Hf|done].
Qed.

Lemma try_bound_iff mx v o : try_bound mx v = Some o <-> o = v /\ int_ok mx v.
Proof. unfold try_bound. rewrite (try_map_iff _ _ _ _ (int_try_from_iff mx)). apply option_same. Qed.
Lemma try_bound_set_iff n v o : try_bound_set n u8_max v = Some o <-> o = v /\ bytes_ok n v.
Proof.
  unfold try_bound_set. rewrite (try_map_iff _ (fun b b' => b' = b /\
    (Z.of_nat (length b) <= n /\ Forall (fun x => 0 <= x <= u8_max) b))); [apply option_same|].
  intros b b'. rewrite bind_Some. setoid_rewrite vec_try_from_iff.
  setoid_rewrite (mapM_same _ (fun x => 0 <= x <= u8_max)); [|apply int_try_from_iff]. naive_solver.
Qed.
Lemma vec_map_iff {B} n (v : option (list B)) o : try_map (vec_try_from n) v = Some o <-> o = v /\ len_ok n v.
Proof. rewrite (try_map_iff _ _ _ _ (vec_try_from_iff n)). apply option_same. Qed.

Lemma boot_state_iff n st : verified_boot_state_from n = st <-> boot_state_said n st.
Proof. destruct n as [|[?|[?|?|]|]|?]; destruct st; simpl; split; try done; try lia; by intros []. Qed.
Lemma level_iff n l : security_level_from n = l <-> level_said n l.
Proof. destruct n as [|[?|[?|?|]|]|?]; destruct l; simpl; split; try done; try lia; by intros []. Qed.

Definition root_bounds (r : BoundedRootOfTrust) : Prop :=
  Z.of_nat (length r.(verified_boot_key)) <= VERIFIED_BOOT_KEY_MAX_LENGTH /\
  len_ok VERIFIED_BOOT_HASH_MAX_LENGTH r.(verified_boot_hash).
Lemma root_v1v2_iff v o :
  try_map root_of_trust_v1v2 v = Some o <-> option_Forall2 root_v1v2_said v o /\ root_ok o.
Proof.
  rewrite (try_map_iff _ (fun b b' => root_v1v2_said b b' /\ root_bounds b')); [apply option_said|].
  intros b [k lck st h]. unfold root_of_trust_v1v2, root_v1v2_said, root_bounds, len_ok. rewrite bind_Some.
  setoid_rewrite vec_try_from_iff. simpl. rewrite <-boot_state_iff. split.
  - intros (k' & [-> Hk] & [= <- <- <- <-]). by split_and!.
  - intros [(-> & -> & Hst & ->) [Hk _]]. eexists. split; [by split|]. by rewrite Hst.
Qed.
Lemma root_iff v o : try_map root_of_trust v = Some o <-> option_Forall2 root_said v o /\ root_ok o.
Proof.
  rewrite (try_map_iff _ (fun b b' => root_said b b' /\ root_bounds b')); [apply option_said|].
  intros b [k lck st h]. unfold root_of_trust, root_said, root_bounds, len_ok. rewrite bind_Some.
  setoid_rewrite bind_Some. setoid_rewrite vec_try_from_iff. simpl. rewrite <-boot_state_iff. split.
  - intros (k' & [-> Hk] & h' & [-> Hh] & [= <- <- <- <-]). rewrite opt_ok_Some. tauto.
  - intros [(-> & -> & Hst & ->) [Hk Hh]]. specialize (Hh _ eq_refl).
    exists b.(Asn.rt_verified_boot_key).
    split; [done|]. eexists. split; [by split|]. by rewrite Hst.
Qed.

Definition app_bounds (i : BoundedAttestationApplicationId) : Prop :=
  Z.of_nat (length i.(package_infos)) <= PACKAGE_INFO_SET_MAX_LENGTH /\
  Forall (fun p => Z.of_nat (length p.(package_name)) <= PACKAGE_NAME_MAX_LENGTH) i.(package_infos) /\
  Z.of_nat (length i.(signature_digests)) <= SIGNATURE_DIGEST_SET_MAX_LENGTH /\
  Forall (fun d => Z.of_nat (length d) <= DIGEST_MAX_LENGTH) i.(signature_digests).
Lemma package_infos_iff l l' : mapM package_info l = Some l' <->
  Forall2 package_said l l' /\ Forall (fun p => Z.of_nat (length p.(package_name)) <= PACKAGE_NAME_MAX_LENGTH) l'.
Proof.
  assert (forall p q, package_info p = Some q <-> package_said p q /\
            Z.of_nat (length q.(package_name)) <= PACKAGE_NAME_MAX_LENGTH) as Hp.
  { intros p [n v]. unfold package_info, package_said. rewrite bind_Some. setoid_rewrite vec_try_from_iff.
    simpl. split; [by intros (n' & [-> ?] & [= <- <-])|]. intros [[-> ->] ?]. by eexists. }
  rewrite mapM_Some. split.
  - induction 1 as [|p q l1 l2 [H1 H2]%Hp _ [IH1 IH2]]; [by split; constructor|by split; constructor].
  - intros [Hf Hb]. induction Hf as [|p q l1 l2 Hq _ IH]; [constructor|].
    apply Forall_cons in Hb as [? ?]. constructor; [by apply Hp|auto].
Qed.
Lemma app_iff {D : Asn1} v o :
  try_map parsed_application_id v = Some o <-> option_Forall2 app_said v o /\ app_ok o.
Proof.
  rewrite (try_map_iff _ (fun b b' => app_said b b' /\ app_bounds b')); [apply option_said|].
  intros b [ps ds]. unfold parsed_application_id, application_id, app_said, app_bounds. simpl.
  rewrite bind_Some. split.
  - intros (a & Ha & (i & [Hi Hil]%package_infos_iff & Hr)%bind_Some).
    apply bind_Some in Hr as (i' & [-> Hl]%vec_try_from_iff & Hr).
    apply bind_Some in Hr as (d & Hd & (d' & [-> Hdl]%vec_try_from_iff & [= <- <-])%bind_Some).
    apply (mapM_same _ (fun d => Z.of_nat (length d) <= DIGEST_MAX_LENGTH)) in Hd as [-> Hd];
      [|apply vec_try_from_iff].
    split; [by exists a|done].
  - intros [(a & Ha & Hi & ->) (H1 & H2 & H3 & H4)]. exists a. split; [done|].
    apply bind_Some. exists ps. split; [by apply package_infos_iff|].
    apply bind_Some. exists ps. split; [by apply vec_try_from_iff|].
    apply bind_Some. exists a.(Asn.id_signature_digests). split.
    { apply (mapM_same _ (fun d => Z.of_nat (length d) <= DIGEST_MAX_LENGTH)); [apply vec_try_from_iff|done]. }
    apply bind_Some. eexists. split; [by apply vec_try_from_iff|done].
Qed.

(** A list is converted field by field, and back: every step that can fail succeeds. *)
Ltac field_facts :=
  repeat match goal with
  | H : try_bound _ _ = Some _ |- _ => apply try_bound_iff in H as [-> H]
  | H : try_bound_set _ _ _ = Some _ |- _ => apply try_bound_set_iff in H as [-> H]
  | H : attestation_id _ = Some _ |- _ => apply vec_map_iff in H as [-> H]
  | H : try_map root_of_trust_v1v2 _ = Some _ |- _ => apply root_v1v2_iff in H as [? H]
  | H : try_map root_of_trust _ = Some _ |- _ => apply root_iff in H as [? H]
  | H : try_map parsed_application_id _ = Some _ |- _ => apply app_iff in H as [? H]
  end.
Ltac typed_fields :=
  constructor; simpl;
  repeat lazymatch goal with
         | |- _ /\ _ => split
         | |- Forall _ (_ :: _) => apply Forall_cons_2
         | |- Forall _ [] => apply Forall_nil_2
         end; first [exact (opt_ok_None _) | eassumption].
Ltac forwards Hl :=
  repeat (let x := fresh "x" in let Hx := fresh "Hx" in apply bind_Some in Hl as (x & Hx & Hl));
  injection Hl as <-; field_facts.
Ltac backwards :=
  repeat (apply bind_Some; eexists; split;
    [first [ apply try_bound_iff; split; [reflexivity|assumption]
           | apply try_bound_set_iff; split; [reflexivity|assumption]
           | apply vec_map_iff; split; [reflexivity|assumption]
           | apply root_v1v2_iff; split; eassumption
           | apply root_iff; split; eassumption
           | apply app_iff; split; eassumption ]|]); reflexivity.
Ltac facts_of Ht :=
  destruct Ht as [(?&?&?&?) Hu8 Hu16 Hu32 Hu64 Hids Hroot Happ]; simpl in *;
  repeat match goal with H : Forall _ (_ :: _) |- _ => apply Forall_cons in H as [? H] end.

Section lists.
Context {D : Asn1}.
Lemma list_v1_iff data l : authorization_list_v1 data = Some l <->
  list_typed l /\ exists root, option_Forall2 root_v1v2_said data.(Asn.v1_root_of_trust) root /\
    l = said_v1 data root.
Proof.
  split.
  - intros Hl. unfold authorization_list_v1 in Hl. forwards Hl. split; [typed_fields|by eexists].
  - intros (Ht & root & Hr & ->). facts_of Ht. unfold authorization_list_v1. backwards.
Qed.
Lemma list_v2_iff data l : authorization_list_v2 data = Some l <->
  list_typed l /\ exists root app, option_Forall2 root_v1v2_said data.(Asn.v2_root_of_trust) root /\
    option_Forall2 app_said data.(Asn.v2_attestation_application_id) app /\ l = said_v2 data root app.
Proof.
  split.
  - intros Hl. unfold authorization_list_v2 in Hl. forwards Hl. split; [typed_fields|by eexists _, _].
  - intros (Ht & root & app & Hr & Ha & ->). facts_of Ht. unfold authorization_list_v2. backwards.
Qed.
Lemma list_v3_iff data l : authorization_list_v3 data = Some l <->
  list_typed l /\ exists root app, option_Forall2 root_said data.(Asn.v3_root_of_trust) root /\
    option_Forall2 app_said data.(Asn.v3_attestation_application_id) app /\ l = said_v3 data root app.
Proof.
  split.
  - intros Hl. unfold authorization_list_v3 in Hl. forwards Hl. split; [typed_fields|by eexists _, _].
  - intros (Ht & root & app & Hr & Ha & ->). facts_of Ht. unfold authorization_list_v3. backwards.
Qed.
Lemma list_v4_iff data l : authorization_list_v4 data = Some l <->
  list_typed l /\ exists root app, option_Forall2 root_said data.(Asn.v4_root_of_trust) root /\
    option_Forall2 app_said data.(Asn.v4_attestation_application_id) app /\ l = said_v4 data root app.
Proof.
  split.
  - intros Hl. unfold authorization_list_v4 in Hl. forwards Hl. split; [typed_fields|by eexists _, _].
  - intros (Ht & root & app & Hr & Ha & ->). facts_of Ht. unfold authorization_list_v4. backwards.
Qed.
Lemma list_keymint_iff data l : authorization_list_keymint data = Some l <->
  list_typed l /\ exists root app, option_Forall2 root_said data.(Asn.km_root_of_trust) root /\
    option_Forall2 app_said data.(Asn.km_attestation_application_id) app /\ l = said_keymint data root app.
Proof.
  split.
  - intros Hl. unfold authorization_list_keymint in Hl. forwards Hl. split; [typed_fields|by eexists _, _].
  - intros (Ht & root & app & Hr & Ha & ->). facts_of Ht. unfold authorization_list_keymint. backwards.
Qed.

(** Both lists of a certificate in the words of its version, and the security levels *)
Definition said_list_v1 data l := exists root,
  option_Forall2 root_v1v2_said data.(Asn.v1_root_of_trust) root /\ l = said_v1 data root.
Definition said_list_v2 data l := exists root app,
  option_Forall2 root_v1v2_said data.(Asn.v2_root_of_trust) root /\
  option_Forall2 app_said data.(Asn.v2_attestation_application_id) app /\ l = said_v2 data root app.
Definition said_list_v3 data l := exists root app,
  option_Forall2 root_said data.(Asn.v3_root_of_trust) root /\
  option_Forall2 app_said data.(Asn.v3_attestation_application_id) app /\ l = said_v3 data root app.
Definition said_list_v4 data l := exists root app,
  option_Forall2 root_said data.(Asn.v4_root_of_trust) root /\
  option_Forall2 app_said data.(Asn.v4_attestation_application_id) app /\ l = said_v4 data root app.
Definition said_list_keymint data l := exists root app,
  option_Forall2 root_said data.(Asn.km_root_of_trust) root /\
  option_Forall2 app_said data.(Asn.km_attestation_application_id) app /\ l = said_keymint data root app.

Definition levels_said (attestation key_mint : Z) (b : BoundedKeyDescription) : Prop :=
  level_said attestation b.(attestation_security_level) /\ level_said key_mint b.(key_mint_security_level).
Definition said (value : Asn.KeyDescription) (b : BoundedKeyDescription) : Prop :=
  match value with
  | Asn.V1 kd => levels_said kd.(Asn.kv1_attestation_security_level) kd.(Asn.kv1_key_mint_security_level) b /\
      said_list_v1 kd.(Asn.kv1_software_enforced) b.(software_enforced) /\
      said_list_v1 kd.(Asn.kv1_tee_enforced) b.(tee_enforced)
  | Asn.V2 kd => levels_said kd.(Asn.kv2_attestation_security_level) kd.(Asn.kv2_key_mint_security_level) b /\
      said_list_v2 kd.(Asn.kv2_software_enforced) b.(software_enforced) /\
      said_list_v2 kd.(Asn.kv2_tee_enforced) b.(tee_enforced)
  | Asn.V3 kd => levels_said kd.(Asn.kv3_attestation_security_level) kd.(Asn.kv3_key_mint_security_level) b /\
      said_list_v3 kd.(Asn.kv3_software_enforced) b.(software_enforced) /\
      said_list_v3 kd.(Asn.kv3_tee_enforced) b.(tee_enforced)
  | Asn.V4 kd => levels_said kd.(Asn.kv4_attestation_security_level) kd.(Asn.kv4_key_mint_security_level) b /\
      said_list_v4 kd.(Asn.kv4_software_enforced) b.(software_enforced) /\
      said_list_v4 kd.(Asn.kv4_tee_enforced) b.(tee_enforced)
  | Asn.V100 kd | Asn.V200 kd | Asn.V300 kd =>
      levels_said kd.(Asn.kkm_attestation_security_level) kd.(Asn.kkm_key_mint_security_level) b /\
      said_list_keymint kd.(Asn.kkm_software_enforced) b.(software_enforced) /\
      said_list_keymint kd.(Asn.kkm_tee_enforced) b.(tee_enforced)
  end.

Lemma converted_iff {L} (f : L -> option BoundedAuthorizationList) (R : L -> BoundedAuthorizationList -> Prop)
  la lk sw tee (b : BoundedKeyDescription) :
  (forall data l, f data = Some l <-> list_typed l /\ R data l) ->
  (software ← f sw; tee ← f tee;
   Some {| attestation_security_level := security_level_from la;
           key_mint_security_level := security_level_from lk;
           software_enforced := software; tee_enforced := tee |}) = Some b <->
  (list_typed b.(software_enforced) /\ list_typed b.(tee_enforced)) /\
  levels_said la lk b /\ R sw b.(software_enforced) /\ R tee b.(tee_enforced).
Proof.
  intros Hf. unfold levels_said. rewrite <-!level_iff, bind_Some. setoid_rewrite bind_Some.
  setoid_rewrite Hf. destruct b as [a k s t]. simpl. split.
  - intros (s' & [? ?] & t' & [? ?] & [= <- <- <- <-]). done.
  - intros ([? ?] & [<- <-] & ? & ?). by exists s; split; [|exists t].
Qed.
End lists.

(** C39: A key description is stored exactly if all its values fit - every number in the
    range of its unsigned type, every vector in its bound, the application id readable -
    and what is stored is, field by field, what the certificate says: the two security
    levels, the root of trust with its boot state, the application id and both lists, in
    every version; a flag counts as set if it is there, and what a version does not have
    stays empty.  Two things are not what their names say: the timeout is a copy of the
    type of user authentication, and the flags for presence, confirmation and the unlocked
    device are lost in the versions 1 and 2, which have them. *)
Theorem key_descriptions_are_kept {D : Asn1} value b :
  key_description_try_from value = Some b <->
  (list_typed b.(software_enforced) /\ list_typed b.(tee_enforced)) /\ said value b.
Proof.
  destruct value as [kd|kd|kd|kd|kd|kd|kd]; apply converted_iff; intros data l;
    first [apply list_v1_iff | apply list_v2_iff | apply list_v3_iff | apply list_v4_iff | apply list_keymint_iff].
Qed.

(** ** What is checked later

    Whether a stored attestation counts does not depend on the time. *)
Lemma verified_at_any_time {X : JobExternals} {A : AllowedApps} s x source :
  ensure_source_verified (set_jext x s) source = ensure_source_verified s source.
Proof. done. Qed.

(** * The theorems at the concrete chain *)
Definition toy_links : list Bytes := toy_chain.(certificate_chain).
Definition toy_tbs (key year serial version app : Z) : Asn.TBSCertificate unit :=
  Asn.mkTBS _ [serial] toy_signing tt
    (Asn.mkValidity (Asn.UTCTime (Asn.mkDateTime 2020 1 1 0 0 0)) (Asn.UTCTime (Asn.mkDateTime year 1 1 0 0 0)))
    (Asn.mkSubjectKey toy_algorithm [key])
    (Some [Asn.mkExtension KEY_ATTESTATION_OID false [version; app]]).
Notation P256 := (fun key : Z => ECDSA (K := toy_crypto) (CurveP256 (K := toy_crypto) key)).

Lemma toy_links_accepted :
  validate_certificate_chain (D := toy_asn1) (K := toy_crypto) toy_links
    = Ok ([([1], [1]); ([1], [2])], toy_tbs 7 2030 2 3 77, P256 7).
Proof. reflexivity. Qed.

Lemma accepted_chains_are_signed_witness :
  exists roots root cert, trusted_roots (D := toy_asn1) (K := toy_crypto) = Ok roots /\ root ∈ roots /\
    toy_tbs 7 2030 2 3 77 = cert.(Asn.ce_tbs_certificate) /\
    signed_chain root toy_links [([1], [1]); ([1], [2])] cert (P256 7).
Proof. exact (accepted_chains_are_signed toy_links _ _ _ toy_links_accepted). Defined.

(** The holder of the key [7] signs a certificate of its own for the key [9] of a
    device it does not have, and is believed. *)
Lemma accepted_chains_can_be_extended_witness :
  validate_certificate_chain (D := toy_asn1) (K := toy_crypto) (toy_links ++ [toy_cert 7 9 2099 3 3 77])
    = Ok ([([1], [1]); ([1], [2])] ++ [([1], [3])], toy_tbs 9 2099 3 3 77, P256 9).
Proof.
  refine (accepted_chains_can_be_extended toy_links _ _ _ (toy_cert 7 9 2099 3 3 77)
    (Asn.mkCertificate _ (toy_tbs 9 2099 3 3 77) toy_signing [7 + byte_sum [9; 2099; 3; 3; 77]])
    (toy_payload (toy_cert 7 9 2099 3 3 77)) (P256 9) ([1], [3]) toy_links_accepted _ _).
  - constructor; reflexivity.
  - reflexivity.
Defined.
Example forged_attestation :
  result (toy_submit 9 {| certificate_chain := toy_links ++ [toy_cert 7 9 2099 3 3 77] |}) toy_market = Ok tt.
Proof. by_compute. Qed.

Lemma stored_attestations_are_genuine_witness :
  exists a, (exec (toy_submit 7 toy_chain) toy_market).(stored_attestation) !! 7 = Some a /\
    genuine 7 toy_links a /\ fresh (X := reference_market) (A := toy_apps) toy_market a.
Proof.
  assert (result (toy_submit 7 toy_chain) toy_market = Ok tt) as Hok by by_compute.
  destruct (stored_attestations_are_genuine (X := reference_market) (A := toy_apps) (Signed 7) toy_chain
    toy_market _ _ (result_exec _ _ _ Hok)) as [[_ (who & a & [= <-] & -> & Hg & Hf & _)]|[Hno _]].
  - exists a. split; [|by split]. simpl. apply lookup_insert_eq.
  - by destruct Hno.
Defined.

Lemma key_descriptions_are_kept_witness :
  let value := Asn.V3 (Asn.mkKeyV3 3 1 3 1 [] [] (toy_list 77) (toy_list 77)) in
  exists b, key_description_try_from (D := toy_asn1) value = Some b /\
    b.(software_enforced).(al_key_size) = Some 256 /\
    b.(tee_enforced).(al_user_auth_type) = Some 2 /\ b.(tee_enforced).(al_auth_timeout) = Some 2 /\
    list_typed b.(software_enforced) /\ said (D := toy_asn1) value b.
Proof.
  intros value. eexists. split; [reflexivity|].
  destruct (proj1 (key_descriptions_are_kept (D := toy_asn1) value _) eq_refl) as [[Hs _] Hsaid].
  by split_and!.
Defined.
