(* ===== verification/Treasury.v ===== *)
(** Two small pallets: [pallets/rewards-treasury/src/lib.rs], which burns the balance of
    an account with a delay of one epoch, and
    [pallets/candidate-preselection/src/lib.rs], a list of accounts that may become
    collators. *)
From S2P Require Import Prelude JobTypes Balances.

(** * The treasury *)
Class TreasuryConfig := {
  Epoch : BlockNumber;
  treasury_account : AccountId;
}.

Section treasury.
Context {L : Balances} {C : TreasuryConfig}.

Inductive TreasuryEvent :=
| BurntFromTreasuryAtEndOfEpoch (amount_burnt : Balance).

Record TreasuryState := mkTreasury {
  penultimate_balance : Balance;
  latest_burn : BlockNumber;
  treasury_events : list TreasuryEvent;
  treasury_ext : Bal;
}.

Definition treasury_reducible (x : Bal) : Balance :=
  b_reducible_balance Preserve Polite x treasury_account.

(** The closure of [try_mutate]: without success nothing is written *)
Definition burn_penultimate (current_block : BlockNumber) (s : TreasuryState) : TreasuryState :=
  match b_burn_from Preserve BestEffort Polite treasury_account s.(penultimate_balance) s.(treasury_ext) with
  | Some (actual_burnt, x) =>
      mkTreasury (treasury_reducible x) current_block
        (s.(treasury_events) ++ [BurntFromTreasuryAtEndOfEpoch actual_burnt]) x
  | None => s
  end.

(** The sum of block numbers is a [u32] that wraps in a release build. *)
Definition burn_is_due (current_block : BlockNumber) (s : TreasuryState) : bool :=
  wrapping_add u32_max s.(latest_burn) Epoch <=? current_block.
Definition treasury_on_initialize (current_block : BlockNumber) (s : TreasuryState) : TreasuryState :=
  if burn_is_due current_block s then burn_penultimate current_block s else s.

(** * Properties *)

(** What the documentation of [burn_from] says of a best effort *)
Definition burn_law : Prop := forall n x m x',
  b_burn_from Preserve BestEffort Polite treasury_account n x = Some (m, x') ->
  m = Z.min n (treasury_reducible x) /\ treasury_reducible x' = treasury_reducible x - m.

(** A block of the chain: the hook, then whatever moves balances *)
Inductive treasury_step : Z * TreasuryState -> Z * TreasuryState -> Prop :=
| step_block n s : n < u32_max -> treasury_step (n, s) (n + 1, treasury_on_initialize (n + 1) s)
| step_move n s x :
    treasury_step (n, s) (n, mkTreasury s.(penultimate_balance) s.(latest_burn) s.(treasury_events) x).

Lemma burn_penultimate_ok n s :
  burn_law -> burn_penultimate n s = s \/
  exists m, (burn_penultimate n s).(latest_burn) = n /\
    (burn_penultimate n s).(treasury_events) = s.(treasury_events) ++ [BurntFromTreasuryAtEndOfEpoch m] /\
    m = Z.min s.(penultimate_balance) (treasury_reducible s.(treasury_ext)) /\
    treasury_reducible (burn_penultimate n s).(treasury_ext) = treasury_reducible s.(treasury_ext) - m /\
    (burn_penultimate n s).(penultimate_balance)
      = treasury_reducible (burn_penultimate n s).(treasury_ext).
Proof.
  intros Hl. unfold burn_penultimate. destruct (b_burn_from _ _ _ _ _ _) as [[m x]|] eqn:E; [|by left].
  apply Hl in E as [-> Hx]. right. eexists. by repeat split.
Qed.

(** Nothing happens to the record of the treasury until an epoch after the last burn. *)
Lemma treasury_waits n s n' s' :
  burn_law -> 0 <= n -> 0 <= s.(latest_burn) -> 0 <= Epoch -> s.(latest_burn) + Epoch <= u32_max ->
  rtc treasury_step (n, s) (n', s') -> n' < s.(latest_burn) + Epoch ->
  s'.(penultimate_balance) = s.(penultimate_balance) /\ s'.(latest_burn) = s.(latest_burn) /\
  s'.(treasury_events) = s.(treasury_events).
Proof.
  intros Hl Hn Hb He Hmax Hr. remember (n, s) as p eqn:Ep. remember (n', s') as q eqn:Eq.
  revert n s Ep Hn Hb Hmax. induction Hr as [p|p q' r Hs Hr IH]; intros n s -> Hn Hb Hmax Hlt.
  - injection Eq as -> ->. done.
  - assert (forall a b c d, rtc treasury_step (a, b) (c, d) -> a <= c) as Hmono.
    { intros a b c d Hrtc. remember (a, b) as u. remember (c, d) as v. revert a b Hequ.
      induction Hrtc as [u|u w v Hs' _ IH2]; intros a b ->; [simplify_eq; lia|].
      inversion Hs'; subst; specialize (IH2 eq_refl _ _ eq_refl); lia. }
    inversion Hs as [n0 s0 Hn0|n0 s0 x]; subst.
    + assert (n + 1 <= n') as Hle by (by eapply Hmono).
      assert (treasury_on_initialize (n + 1) s = s) as Hsame.
      { unfold treasury_on_initialize, burn_is_due, wrapping_add. rewrite Z.mod_small by lia.
        by rewrite (proj2 (Z.leb_gt _ _)) by lia. }
      rewrite Hsame in *. eapply IH; eauto. lia.
    + destruct (IH eq_refl n (mkTreasury s.(penultimate_balance) s.(latest_burn) s.(treasury_events) x)
        eq_refl Hn Hb Hmax Hlt) as (? & ? & ?). done.
Qed.

(** What came in during an epoch is not burnt at its end: a burn takes at most what was
    there right after the burn before. *)
Lemma recent_income_is_kept n s n' s' :
  burn_law -> 0 <= n -> 0 <= s.(latest_burn) -> 0 <= Epoch -> s.(latest_burn) + Epoch <= u32_max ->
  s.(penultimate_balance) = treasury_reducible s.(treasury_ext) -> 0 <= s.(penultimate_balance) ->
  rtc treasury_step (n, s) (n', s') -> n' < s.(latest_burn) + Epoch ->
  treasury_reducible s'.(treasury_ext) - treasury_reducible s.(treasury_ext)
    <= treasury_reducible (treasury_on_initialize (n' + 1) s').(treasury_ext).
Proof.
  intros Hl Hn Hb He Hmax Hp H0 Hr Hlt.
  destruct (treasury_waits n s n' s' Hl Hn Hb He Hmax Hr Hlt) as (Hpen & _ & _).
  unfold treasury_on_initialize. destruct (burn_is_due _ _); [|lia].
  destruct (burn_penultimate_ok (n' + 1) s' Hl) as [->|(m & _ & _ & -> & -> & _)]; lia.
Qed.
End treasury.

(** * Preselected candidates *)
Section candidates.
Context (update_origin : RuntimeOrigin -> bool) (registered : AccountId -> bool).

Inductive CandidateEvent :=
| CandidateAdded (candidate : AccountId)
| CandidateRemoved (candidate : AccountId).
Record CandidateState := mkCandidates {
  candidate_preselection_list : gmap AccountId unit;
  candidate_events : list CandidateEvent;
}.

Definition add_candidate (origin : RuntimeOrigin) (candidate : AccountId) : M CandidateState DispatchError unit :=
  ensure (update_origin origin) BadOrigin;;
  modify (fun s => mkCandidates (<[candidate := tt]> s.(candidate_preselection_list))
                     (s.(candidate_events) ++ [CandidateAdded candidate])).
Definition remove_candidate (origin : RuntimeOrigin) (candidate : AccountId) : M CandidateState DispatchError unit :=
  ensure (update_origin origin) BadOrigin;;
  modify (fun s => mkCandidates (delete candidate s.(candidate_preselection_list))
                     (s.(candidate_events) ++ [CandidateRemoved candidate])).
(** [ValidatorRegistration::is_registered] *)
Definition is_registered (s : CandidateState) (candidate : AccountId) : bool :=
  bool_decide (is_Some (s.(candidate_preselection_list) !! candidate)) && registered candidate.

(** Only preselected accounts are registered, and only the operators preselect. *)
Lemma preselection_is_required o c s r s' a :
  add_candidate o c s = (r, s') \/ remove_candidate o c s = (r, s') ->
  is_registered s' a <> is_registered s a -> update_origin o = true /\ a = c /\ registered a = true.
Proof.
  intros [Hr|Hr]; unfold add_candidate, remove_candidate, bind, ensure, modify, ret, throw in Hr;
    destruct (update_origin o); injection Hr as <- <-; try done; unfold is_registered; simpl;
    destruct (decide (a = c)) as [->|Hne];
    rewrite ?lookup_insert_eq, ?lookup_delete_eq, ?(lookup_insert_ne _ _ _ _ (not_eq_sym Hne)),
      ?(lookup_delete_ne _ _ _ (not_eq_sym Hne)); try done;
    destruct (registered c); try done; rewrite !andb_false_r; done.
Qed.
End candidates.
