(* ===== verification/MultiSignatures.v ===== *)
(** The signatures of accounts: [src/p256-crypto/src/multi_signature.rs] and, from
    [core.rs], the keys of the curve P-256.

    Beside the signatures of Substrate there are those of phones: over P-256, with what
    an authenticator adds to the message, and with a prefix and a marker that wallets
    show to their users.  The curves, the hashes and the alphabets of Base64 are
    parameters; which bytes are signed for a message is not, and the theorems are about
    them: which message they stand for. *)
From S2P Require Import Prelude JobTypes.

Module P256Crypto.
Notation Bytes := (list Z) (only parsing).

(** [BoundedVec]s of at most 37, 500, 500 and 100 bytes *)
Notation AuthenticatorData := (list Z) (only parsing).
Notation ClientDataContext := (list Z * list Z)%type (only parsing).
Notation MessagePrefix := (list Z) (only parsing).

(** [b"ACURAST TRANSACTION:\n"] *)
Definition ACURAST_SIGNATURE_PREFIX : Bytes :=
  [65; 67; 85; 82; 65; 83; 84; 32; 84; 82; 65; 78; 83; 65; 67; 84; 73; 79; 78; 58; 10].
Arguments ACURAST_SIGNATURE_PREFIX : simpl never.

(** The signatures of the curves are bytes. *)
Inductive MultiSignature :=
| Ed25519 (sig : Bytes)
| Sr25519 (sig : Bytes)
| Ecdsa (sig : Bytes)
| P256 (sig : Bytes)
| P256WithAuthData (sig : Bytes) (auth_data : AuthenticatorData) (client_context : option ClientDataContext)
| Ed25519WithPrefix (sig : Bytes) (prefix : MessagePrefix)
| K256WithPrefix (sig : Bytes) (prefix : MessagePrefix)
| Ed25519WithBase64 (sig : Bytes) (prefix : MessagePrefix).

Inductive MultiSigner :=
| Ed25519Signer (who : Bytes)
| Sr25519Signer (who : Bytes)
| EcdsaSigner (who : Bytes)
| P256Signer (who : Bytes).

Class Primitives := {
  (** [MultiSignature::verify] of [sp_runtime] for its three kinds *)
  sp_verify_ed25519 : Bytes -> Bytes -> AccountId -> bool;
  sp_verify_sr25519 : Bytes -> Bytes -> AccountId -> bool;
  sp_verify_ecdsa : Bytes -> Bytes -> AccountId -> bool;
  (** [MultiSigner::into_account] of [sp_runtime] *)
  sp_account_of_ed25519 : Bytes -> AccountId;
  sp_account_of_sr25519 : Bytes -> AccountId;
  sp_account_of_ecdsa : Bytes -> AccountId;
  (** [recoverable::Signature::try_from(sig)], then [recover_verifying_key(msg)]: the
      compressed key *)
  p256_recover : Bytes -> Bytes -> option Bytes;
  (** [PublicKey::from_sec1_bytes], compressed *)
  p256_public_key : Bytes -> option Bytes;
  (** [secp256k1_ecdsa_recover_compressed(sig, hash)] *)
  k256_recover : Bytes -> Bytes -> option Bytes;
  blake2_256 : Bytes -> Bytes;
  keccak_256 : Bytes -> Bytes;
  sha2_256 : Bytes -> Bytes;
  (** [BASE64_STANDARD], and the alphabet for URLs without padding *)
  base64_standard : Bytes -> Bytes;
  base64_url : Bytes -> Bytes;
  (** the 32 bytes of an account, and back *)
  account_bytes : AccountId -> Bytes;
  account_of_bytes : Bytes -> AccountId;
}.

Section verification.
Context {R : Primitives}.

(** [into_account] *)
Definition into_account (self : MultiSigner) : AccountId :=
  match self with
  | Ed25519Signer who => sp_account_of_ed25519 who
  | Sr25519Signer who => sp_account_of_sr25519 who
  | EcdsaSigner who => sp_account_of_ecdsa who
  | P256Signer who => account_of_bytes (blake2_256 who)
  end.

Definition construct_full_message (message : Bytes) (auth_data : AuthenticatorData)
  (client_context : option ClientDataContext) : Bytes :=
  let msg := if (length message =? 32)%nat then message else sha2_256 message in
  match client_context with
  | Some (before, after) =>
      let client_data := before ++ base64_url msg ++ after in
      auth_data ++ sha2_256 client_data
  | None => sha2_256 (auth_data ++ msg)
  end.

(** The account belongs to the key that was recovered. *)
Definition owns (who : AccountId) (key : option Bytes) : bool :=
  match key with Some k => bool_decide (blake2_256 k = account_bytes who) | None => false end.

(** [Verify::verify] of [MultiSignature] *)
Definition verify (self : MultiSignature) (msg : Bytes) (signer : AccountId) : bool :=
  match self with
  | Ed25519 sig => sp_verify_ed25519 sig msg signer
  | Sr25519 sig => sp_verify_sr25519 sig msg signer
  | Ecdsa sig => sp_verify_ecdsa sig msg signer
  | P256 sig => owns signer (p256_recover sig msg)
  | P256WithAuthData sig auth_data client_context =>
      owns signer (p256_recover sig (construct_full_message msg auth_data client_context))
  | Ed25519WithPrefix sig prefix =>
      sp_verify_ed25519 sig (blake2_256 (prefix ++ ACURAST_SIGNATURE_PREFIX ++ msg)) signer
  | K256WithPrefix sig prefix =>
      owns signer (k256_recover sig (keccak_256 (prefix ++ ACURAST_SIGNATURE_PREFIX ++ msg)))
  | Ed25519WithBase64 sig prefix =>
      let encoded := base64_standard msg in
      sp_verify_ed25519 sig (prefix ++ ACURAST_SIGNATURE_PREFIX ++ encoded) signer
  end.

(** [Verify::verify] of [Signature] in [core.rs], against a key *)
Definition verify_p256 (sig msg : Bytes) (signer : Bytes) : bool :=
  match p256_public_key signer with
  | Some key => match p256_recover sig msg with Some k => bool_decide (key = k) | None => false end
  | None => false
  end.

(** * Which message a signature is for *)

(** What is known of the encodings *)
Record base64_laws : Prop := {
  standard_inj : forall m m', base64_standard m = base64_standard m' -> m = m';
  url_inj : forall m m', base64_url m = base64_url m' -> m = m';
  (** no line feed *)
  standard_chars : forall m, 10 ∉ base64_standard m;
}.

(** Two different texts with one hash, and two different texts that a curve accepts one
    signature for: each is a break of the hash or of the curve at these very texts. *)
Definition same_hash (hash : Bytes -> Bytes) (t t' : Bytes) : Prop := t <> t' /\ hash t = hash t'.
Definition accepted_twice (curve : Bytes -> bool) (t t' : Bytes) : Prop :=
  t <> t' /\ curve t = true /\ curve t' = true.

Lemma accepted_eq (curve : Bytes -> bool) t t' :
  curve t = true -> curve t' = true -> t = t' \/ accepted_twice curve t t'.
Proof. destruct (decide (t = t')); [by left|by right]. Qed.
Lemma hash_eq (hash : Bytes -> Bytes) t t' : hash t = hash t' -> t = t' \/ same_hash hash t t'.
Proof. destruct (decide (t = t')); [by left|by right]. Qed.

(** The 32 bytes that an authenticator gets to sign *)
Definition challenge (m : Bytes) : Bytes := if (length m =? 32)%nat then m else sha2_256 m.
(** What an authenticator hashes: the data of its client, or its own data with the challenge *)
Definition hashed_data (auth : AuthenticatorData) (ctx : option ClientDataContext) (m : Bytes) : Bytes :=
  match ctx with
  | Some (before, after) => before ++ base64_url (challenge m) ++ after
  | None => auth ++ challenge m
  end.

Lemma challenge_eq m m' : challenge m = challenge m' ->
  m = m' \/ same_hash sha2_256 m m' \/
  (length m <> 32%nat /\ m' = sha2_256 m) \/ (length m' <> 32%nat /\ m = sha2_256 m').
Proof.
  unfold challenge. destruct (Nat.eqb_spec (length m) 32), (Nat.eqb_spec (length m') 32); intros Heq.
  - by left.
  - do 3 right. done.
  - do 2 right. left. done.
  - destruct (hash_eq _ _ _ Heq); auto.
Qed.
Lemma full_message_eq auth ctx m m' : base64_laws ->
  construct_full_message m auth ctx = construct_full_message m' auth ctx ->
  challenge m = challenge m' \/ same_hash sha2_256 (hashed_data auth ctx m) (hashed_data auth ctx m').
Proof.
  intros laws Heq. assert (sha2_256 (hashed_data auth ctx m) = sha2_256 (hashed_data auth ctx m')) as Hh.
  { destruct ctx as [[before after]|]; [by apply app_inv_head in Heq|done]. }
  destruct (hash_eq _ _ _ Hh) as [Hd|]; [left|by right].
  destruct ctx as [[before after]|]; simpl in Hd; [|by apply app_inv_head in Hd].
  apply app_inv_head, app_inv_tail in Hd. by apply (url_inj laws).
Qed.

Lemma marked_inj (p m m' : Bytes) :
  p ++ ACURAST_SIGNATURE_PREFIX ++ m = p ++ ACURAST_SIGNATURE_PREFIX ++ m' -> m = m'.
Proof. rewrite !(assoc_L (++)). apply app_inv_head. Qed.

(** What it takes that a signature is accepted for two messages, kind by kind *)
Definition ambiguous (s : MultiSignature) (m m' : Bytes) (who : AccountId) : Prop :=
  match s with
  | Ed25519 sig => accepted_twice (fun t => sp_verify_ed25519 sig t who) m m'
  | Sr25519 sig => accepted_twice (fun t => sp_verify_sr25519 sig t who) m m'
  | Ecdsa sig => accepted_twice (fun t => sp_verify_ecdsa sig t who) m m'
  | P256 sig => accepted_twice (fun t => owns who (p256_recover sig t)) m m'
  | P256WithAuthData sig auth ctx =>
      (length m <> 32%nat /\ m' = sha2_256 m) \/ (length m' <> 32%nat /\ m = sha2_256 m') \/
      same_hash sha2_256 m m' \/
      same_hash sha2_256 (hashed_data auth ctx m) (hashed_data auth ctx m') \/
      accepted_twice (fun t => owns who (p256_recover sig t))
        (construct_full_message m auth ctx) (construct_full_message m' auth ctx)
  | Ed25519WithPrefix sig prefix =>
      let t := prefix ++ ACURAST_SIGNATURE_PREFIX ++ m in
      let t' := prefix ++ ACURAST_SIGNATURE_PREFIX ++ m' in
      same_hash blake2_256 t t' \/
      accepted_twice (fun t => sp_verify_ed25519 sig t who) (blake2_256 t) (blake2_256 t')
  | K256WithPrefix sig prefix =>
      let t := prefix ++ ACURAST_SIGNATURE_PREFIX ++ m in
      let t' := prefix ++ ACURAST_SIGNATURE_PREFIX ++ m' in
      same_hash keccak_256 t t' \/
      accepted_twice (fun t => owns who (k256_recover sig t)) (keccak_256 t) (keccak_256 t')
  | Ed25519WithBase64 sig prefix =>
      accepted_twice (fun t => sp_verify_ed25519 sig t who)
        (prefix ++ ACURAST_SIGNATURE_PREFIX ++ base64_standard m)
        (prefix ++ ACURAST_SIGNATURE_PREFIX ++ base64_standard m')
  end.

(** C28: A signature that is accepted for an account counts for one message only.  If the
    check accepts it for two, then either its curve accepts it for two different texts, or
    a hash is the same for two different texts - which texts these are is known from the
    messages - or it is the signature of an authenticator, and one message, not 32 bytes
    long, has the other one as its SHA-256 hash: these two always share their
    signatures. *)
Theorem signatures_are_of_one_message s m m' who :
  base64_laws -> m <> m' -> verify s m who = true -> verify s m' who = true ->
  ambiguous s m m' who.
Proof.
  intros laws Hne Hv Hv'.
  destruct s as [sig|sig|sig|sig|sig auth ctx|sig prefix|sig prefix|sig prefix]; simpl in Hv, Hv' |- *;
    try done.
  - destruct (accepted_eq (fun t => owns who (p256_recover sig t)) _ _ Hv Hv') as [Heq|]; [|by do 4 right].
    apply (full_message_eq _ _ _ _ laws) in Heq as [Heq|]; [|by do 3 right; left].
    apply challenge_eq in Heq. naive_solver.
  - destruct (accepted_eq (fun t => sp_verify_ed25519 sig t who) _ _ Hv Hv') as [Heq|]; [left|by right].
    apply hash_eq in Heq as [?%marked_inj|]; done.
  - destruct (accepted_eq (fun t => owns who (k256_recover sig t)) _ _ Hv Hv') as [Heq|]; [left|by right].
    apply hash_eq in Heq as [?%marked_inj|]; done.
  - destruct (accepted_eq (fun t => sp_verify_ed25519 sig t who) _ _ Hv Hv') as [Heq|]; [|done].
    destruct Hne. by apply marked_inj, (standard_inj laws) in Heq.
Qed.

(** Where a separator ends is clear if what follows does not contain its last byte. *)
Lemma last_separator (l l' r r' : list Z) c :
  c ∉ r -> c ∉ r' -> l ++ c :: r = l' ++ c :: r' -> l = l' /\ r = r'.
Proof.
  revert l'. induction l as [|x l IH]; intros [|x' l'] Hr Hr' Heq; simpl in *; simplify_eq.
  - done.
  - destruct Hr. apply elem_of_app. right. by left.
  - destruct Hr'. apply elem_of_app. right. by left.
  - destruct (IH l') as [-> ->]; done.
Qed.

Lemma marker_ends (q r : Bytes) :
  q ++ ACURAST_SIGNATURE_PREFIX ++ r = (q ++ removelast ACURAST_SIGNATURE_PREFIX) ++ 10 :: r.
Proof. by rewrite <- (assoc_L (++)). Qed.

(** The marker does not overlap itself: where two of them are in one text, they are apart. *)
Lemma marker_apart (k m m' : Bytes) :
  ACURAST_SIGNATURE_PREFIX ++ m = k ++ ACURAST_SIGNATURE_PREFIX ++ m' ->
  k = [] \/ exists q, k = ACURAST_SIGNATURE_PREFIX ++ q /\ m = q ++ ACURAST_SIGNATURE_PREFIX ++ m'.
Proof.
  intros Heq. apply app_eq_inv in Heq as [(j & Hk & Hm)|(q & Hk & Hm)]; [|by right; exists q].
  unfold ACURAST_SIGNATURE_PREFIX in *.
  destruct k as [|? k]; [by left|right]. simplify_eq/=.
  do 20 (destruct k as [|? k]; simplify_eq/=).
  exists k. by destruct k; simplify_eq/=.
Qed.

(** A prefix that ends with a part of the message *)
Definition hides (p m p' m' : Bytes) : Prop :=
  exists q, p' = p ++ ACURAST_SIGNATURE_PREFIX ++ q /\ m = q ++ ACURAST_SIGNATURE_PREFIX ++ m'.

Lemma hides_marked p m p' m' : hides p m p' m' ->
  p ++ ACURAST_SIGNATURE_PREFIX ++ m = p' ++ ACURAST_SIGNATURE_PREFIX ++ m'.
Proof. intros (q & -> & ->). by rewrite <- !(assoc_L (++)). Qed.

Lemma marked_eq (p m p' m' : Bytes) :
  p ++ ACURAST_SIGNATURE_PREFIX ++ m = p' ++ ACURAST_SIGNATURE_PREFIX ++ m' ->
  (p = p' /\ m = m') \/ hides p m p' m' \/ hides p' m' p m.
Proof.
  intros Heq. apply app_eq_inv in Heq as [(k & -> & Heq)|(k & -> & Heq)].
  - pose proof Heq as Hk. apply marker_apart in Hk as [->|(q & -> & ->)].
    + left. rewrite (right_id_L [] (++)). rewrite app_nil_l in Heq. by apply app_inv_head in Heq as ->.
    + do 2 right. by exists q.
  - pose proof Heq as Hk. apply marker_apart in Hk as [->|(q & -> & ->)].
    + left. rewrite (right_id_L [] (++)). rewrite app_nil_l in Heq. by apply app_inv_head in Heq as ->.
    + right. left. by exists q.
Qed.
(** C29: The prefix that a wallet adds can hide a part of the message: for the two kinds
    that sign the message as it is, a signature of a message that contains the marker is
    also accepted for what follows the marker, with a longer prefix (as long as that fits
    its 100 bytes).  Nothing else goes wrong with these kinds: when one signature is
    accepted for two pairs of a prefix and a message, one of the prefixes hides a part of
    the other message in this way, unless the hash is the same for the two texts or the
    curve accepts the signature for both hashes.  The kind that signs the message in
    Base64 is free of this: two pairs that share a signature make the curve accept it for
    two different texts. *)
Theorem prefixes_can_hide_a_message sig p m p' m' who :
  let text p m := p ++ ACURAST_SIGNATURE_PREFIX ++ m in
  let text64 p m := p ++ ACURAST_SIGNATURE_PREFIX ++ base64_standard m in
  let ed t := sp_verify_ed25519 sig t who in
  let k256 t := owns who (k256_recover sig t) in
  (hides p m p' m' ->
     verify (Ed25519WithPrefix sig p) m who = verify (Ed25519WithPrefix sig p') m' who /\
     verify (K256WithPrefix sig p) m who = verify (K256WithPrefix sig p') m' who) /\
  ((p, m) <> (p', m') ->
   (verify (Ed25519WithPrefix sig p) m who = true -> verify (Ed25519WithPrefix sig p') m' who = true ->
      hides p m p' m' \/ hides p' m' p m \/ same_hash blake2_256 (text p m) (text p' m') \/
      accepted_twice ed (blake2_256 (text p m)) (blake2_256 (text p' m'))) /\
   (verify (K256WithPrefix sig p) m who = true -> verify (K256WithPrefix sig p') m' who = true ->
      hides p m p' m' \/ hides p' m' p m \/ same_hash keccak_256 (text p m) (text p' m') \/
      accepted_twice k256 (keccak_256 (text p m)) (keccak_256 (text p' m'))) /\
   (base64_laws ->
    verify (Ed25519WithBase64 sig p) m who = true -> verify (Ed25519WithBase64 sig p') m' who = true ->
      accepted_twice ed (text64 p m) (text64 p' m'))).
Proof.
  intros text text64 ed k256. split.
  - intros Hh%hides_marked. cbn [verify]. by rewrite Hh.
  - intros Hne. assert (text p m = text p' m' -> hides p m p' m' \/ hides p' m' p m) as Htext.
    { intros [[-> ->]|]%marked_eq; done. }
    split; [|split].
    + intros Hv Hv'. destruct (accepted_eq ed _ _ Hv Hv') as [[Ht|]%hash_eq|]; [|by do 2 right; left|by do 3 right].
      apply Htext in Ht. naive_solver.
    + intros Hv Hv'. destruct (accepted_eq k256 _ _ Hv Hv') as [[Ht|]%hash_eq|]; [|by do 2 right; left|by do 3 right].
      apply Htext in Ht. naive_solver.
    + intros laws Hv Hv'. destruct (accepted_eq ed _ _ Hv Hv') as [Ht|]; [|done].
      rewrite !marker_ends in Ht. apply last_separator in Ht as [Hp Hm]; [|apply (standard_chars laws)..].
      apply app_inv_tail in Hp. apply (standard_inj laws) in Hm. by subst.
Qed.
End verification.

(** * A concrete instance, with toy hashes and an encoding that skips the line feed *)
Definition toy_hash (l : Bytes) : Bytes := replicate 32 (foldr Z.add 0 l).
Definition skip_feed (l : Bytes) : Bytes := (fun z => if z <? 10 then z else z + 1) <$> l.
#[export] Instance toy_primitives : Primitives := {|
  sp_verify_ed25519 sig m who := bool_decide (sig = who :: m);
  sp_verify_sr25519 sig m who := bool_decide (sig = who :: m);
  sp_verify_ecdsa sig m who := bool_decide (sig = who :: m);
  sp_account_of_ed25519 := foldr Z.add 0;
  sp_account_of_sr25519 := foldr Z.add 0;
  sp_account_of_ecdsa := foldr Z.add 0;
  p256_recover sig m := match sig with k :: m' => if decide (m' = m) then Some [k] else None | [] => None end;
  p256_public_key := Some;
  k256_recover sig m := match sig with k :: m' => if decide (m' = m) then Some [k] else None | [] => None end;
  blake2_256 := toy_hash;
  keccak_256 := toy_hash;
  sha2_256 := toy_hash;
  base64_standard := skip_feed;
  base64_url := skip_feed;
  account_bytes := replicate 32;
  account_of_bytes l := default 0 (head l);
|}.
Lemma skip_feed_inj m m' : skip_feed m = skip_feed m' -> m = m'.
Proof.
  assert (Inj (=) (=) (fun z => if z <? 10 then z else z + 1)).
  { intros x y. destruct (Z.ltb_spec x 10), (Z.ltb_spec y 10); lia. }
  apply (inj (fmap (fun z => if z <? 10 then z else z + 1))).
Qed.
Lemma toy_base64_laws : base64_laws.
Proof.
  split; [apply skip_feed_inj..|]. intros m. simpl. unfold skip_feed.
  intros (z & Hz & _)%list_elem_of_fmap. destruct (Z.ltb_spec z 10); lia.
Qed.

(** A signature of an authenticator for the message [1; 2], and for its hash *)
Lemma signatures_are_of_one_message_witness :
  let m := [1; 2] in let m' := toy_hash m in let ctx := Some ([5], [6]) in
  let s := P256WithAuthData (7 :: construct_full_message m [1] ctx) [1] ctx in
  verify s m 7 = true /\ verify s m' 7 = true /\ ambiguous s m m' 7.
Proof.
  split; [by_compute|]. split; [by_compute|].
  apply (signatures_are_of_one_message _ _ _ _ toy_base64_laws); [discriminate|by_compute|by_compute].
Defined.

(** A wallet shows the prefix [1; marker; 2] to a user whose signature is for [2; marker; 3]. *)
Lemma prefixes_can_hide_a_message_witness :
  let m := 2 :: ACURAST_SIGNATURE_PREFIX ++ [3] in let p' := 1 :: ACURAST_SIGNATURE_PREFIX ++ [2] in
  let sig := 7 :: blake2_256 ([1] ++ ACURAST_SIGNATURE_PREFIX ++ m) in
  verify (Ed25519WithPrefix sig [1]) m 7 = true /\ verify (Ed25519WithPrefix sig p') [3] 7 = true.
Proof.
  intros m p' sig.
  assert (verify (Ed25519WithPrefix sig [1]) m 7 = true) as Hv by by_compute. split; [exact Hv|].
  rewrite <-Hv. symmetry.
  apply (proj1 (prefixes_can_hide_a_message sig [1] m p' [3] 7)). exists [2]. split; reflexivity.
Defined.
End P256Crypto.
