(* ===== verification/Contracts.v ===== *)
(** What the contracts on other chains ([src/hyperdrive/ink/], [src/hyperdrive/vara/])
    get from the chain they run on.

    A contract is called with a caller, its own account and an amount of the chain's
    token; it sees the block number and the time, pays, and calls other contracts.
    A state type [W] of such a chain is an instance of [Host]; the contracts are
    defined over any [W] that holds their storage. *)
From S2P Require Import Prelude JobTypes BridgeTypes.
From stdpp Require Import strings.
#[global] Open Scope Z_scope.
#[global] Open Scope monad_scope.

(** What a contract sees of the message it handles: [env().caller()],
    [env().account_id()] and [env().transferred_value()] of ink,
    [msg::source()], [exec::program_id()] and [msg::value()] of gear *)
Record CallEnv := mkCallEnv {
  caller : AccountId;
  account_id : AccountId;
  transferred_value : Balance;
}.

Class Host (W : Type) := {
  host_block_number : W -> BlockNumber;
  (** in milliseconds *)
  host_timestamp : W -> Z;
  (** a transfer of the chain's token; [None] is an error *)
  host_transfer : AccountId -> AccountId -> Balance -> W -> option W;
}.

(** [msg::send] of gear: the sender, the receiver, the payload and the amount; an error
    is known by its text. *)
Class MsgSend (W : Type) := {
  msg_send : AccountId -> AccountId -> list Z -> Balance -> W -> string + W;
}.

(** What a call of another contract comes to, the [Result<Result<A, LangError>, Error>]
    of [try_invoke]: an error of the chain (the contract has trapped, or its answer
    cannot be decoded), an error of the language (an unknown message), or what the
    contract has answered.  The errors are known by their texts. *)
Inductive CallResult (A : Type) :=
| EnvFailed (text : string)
| LangFailed (text : string)
| Returned (a : A).
Arguments EnvFailed {A} text.
Arguments LangFailed {A} text.
Arguments Returned {A} a.

Section host.
Context {W : Type} {H : Host W} {E : Type}.

(** The amount sent along is transferred before the message runs; a message that is
    not payable traps on it. *)
Definition accept_value (c : CallEnv) (payable : bool) : M W E unit :=
  if c.(transferred_value) =? 0 then ret tt
  else if payable then
    let* w := gets id in
    let* w' := or_panic (host_transfer c.(caller) c.(account_id) c.(transferred_value) w) in
    modify (fun _ => w')
  else panic.

(** [if env().transfer(to, amount).is_err() { panic!(..) }] *)
Definition transfer_or_panic (c : CallEnv) (to : AccountId) (amount : Balance) : M W E unit :=
  let* w := gets id in
  let* w' := or_panic (host_transfer c.(account_id) to amount w) in
  modify (fun _ => w').

(** [msg::send(to, payload, amount)] with [expect] or in [panicking] *)
Definition send_or_panic {S : MsgSend W} (c : CallEnv) (to : AccountId) (payload : list Z)
  (amount : Balance) : M W E unit :=
  let* w := gets id in
  match msg_send c.(account_id) to payload amount w with
  | inl _ => panic
  | inr w' => modify (fun _ => w')
  end.
End host.

(** [list::retain] of an index is [filter]; an index is a list of message ids, in
    which an id can occur more than once. *)
Notation MessageIndex := (list MessageId) (only parsing).
