(* ===== verification/InkIbc.v ===== *)
(** The contract that sends and receives messages on Aleph Zero:
    [src/hyperdrive/ink/ibc-ink/lib.rs].

    It is the counterpart of [hyperdrive-ibc] on a chain with contracts.  A message
    of the contract that ends with an error or a trap leaves no trace; the release
    profile of the contracts has no overflow checks. *)
From S2P Require Import Prelude JobTypes BridgeTypes Contracts.

Module Ink.
Notation Public := (list Z) (only parsing).
Notation Signature := (list Z) (only parsing).

(** [Layer] and [ContractCall] are those of the pallet. *)
Inductive Subject :=
| Acurast (l : Layer)
| AlephZero (l : Layer).
#[export] Instance Subject_eq_dec : EqDecision Subject.
Proof. solve_decision. Defined.

Record Message := mkMessage {
  msg_id : MessageId;
  msg_sender : Subject;
  msg_nonce : MessageNonce;
  msg_recipient : Subject;
  msg_payload : Payload;
}.

Record OutgoingMessageWithMeta := mkOutgoing {
  om_message : Message;
  om_current_block : BlockNumber;
  om_ttl_block : BlockNumber;
  om_fee : Balance;
  om_payer : AccountId;
}.

Record IncomingMessageWithMeta := mkIncoming {
  im_message : Message;
  im_current_block : BlockNumber;
  im_relayer : AccountId;
}.

Inductive OracleUpdate :=
| Add (public : Public)
| Remove (public : Public).

Inductive Error :=
| ContractPaused
| NotOwner
| IncorrectRecipient
| MessageAlreadyReceived
| PublicKeyUnknown
| DuplicateSignature
| SignatureInvalid
| NotEnoughSignaturesValid
| MessageWithSameNoncePending
| TTLSmallerThanMinimum
| MessageNotFound
| DeliveryConfirmationOverdue.

Inductive Event :=
| OraclesUpdated (added removed : list Public)
| MessageReadyToSend (message : OutgoingMessageWithMeta)
| MessageDelivered (id : MessageId)
| MessageRemoved (id : MessageId)
| MessageStored (id : MessageId)
| MessageProcessed (id : MessageId)
| MessageProcessedWithErrors (id : MessageId).

Record Config := mkConfig {
  owner : AccountId;
  paused : bool;
  min_delivery_signatures : Z;
  min_receipt_signatures : Z;
  min_ttl : BlockNumber;
  (** after which an incoming message can be removed from the index *)
  incoming_ttl : BlockNumber;
}.
Definition set_owner (v : AccountId) (x : Config) : Config :=
  mkConfig v x.(paused) x.(min_delivery_signatures) x.(min_receipt_signatures) x.(min_ttl) x.(incoming_ttl).
Definition set_paused (v : bool) (x : Config) : Config :=
  mkConfig x.(owner) v x.(min_delivery_signatures) x.(min_receipt_signatures) x.(min_ttl) x.(incoming_ttl).
Definition set_min_delivery_signatures (v : Z) (x : Config) : Config :=
  mkConfig x.(owner) x.(paused) v x.(min_receipt_signatures) x.(min_ttl) x.(incoming_ttl).
Definition set_min_receipt_signatures (v : Z) (x : Config) : Config :=
  mkConfig x.(owner) x.(paused) x.(min_delivery_signatures) v x.(min_ttl) x.(incoming_ttl).
Definition set_min_ttl (v : BlockNumber) (x : Config) : Config :=
  mkConfig x.(owner) x.(paused) x.(min_delivery_signatures) x.(min_receipt_signatures) v x.(incoming_ttl).
Definition set_incoming_ttl (v : BlockNumber) (x : Config) : Config :=
  mkConfig x.(owner) x.(paused) x.(min_delivery_signatures) x.(min_receipt_signatures) x.(min_ttl) v.

Inductive ConfigureArgument :=
| Owner (address : AccountId)
| Paused (paused : bool)
| Code (code_hash : Z)
| OraclePublicKeys (updates : list OracleUpdate)
| MinDeliverySignatures (n : Z)
| MinReceiptSignatures (n : Z)
| MinTTL (ttl : BlockNumber)
| IncomingTTL (ttl : BlockNumber).

(** * Storage *)
Record Ibc := mkIbc {
  config : Config;
  outgoing : gmap MessageId OutgoingMessageWithMeta;
  (** what relayers read to find the messages *)
  outgoing_index : MessageIndex;
  incoming : gmap MessageId IncomingMessageWithMeta;
  incoming_index : MessageIndex;
  message_counter : Z;
  (** a [Mapping] to the unit *)
  oracle_public_keys : gset Public;
  events : list Event;
}.
Definition set_config (v : Config) (x : Ibc) : Ibc :=
  mkIbc v x.(outgoing) x.(outgoing_index) x.(incoming) x.(incoming_index) x.(message_counter) x.(oracle_public_keys) x.(events).
Definition set_outgoing (v : gmap MessageId OutgoingMessageWithMeta) (x : Ibc) : Ibc :=
  mkIbc x.(config) v x.(outgoing_index) x.(incoming) x.(incoming_index) x.(message_counter) x.(oracle_public_keys) x.(events).
Definition set_outgoing_index (v : MessageIndex) (x : Ibc) : Ibc :=
  mkIbc x.(config) x.(outgoing) v x.(incoming) x.(incoming_index) x.(message_counter) x.(oracle_public_keys) x.(events).
Definition set_incoming (v : gmap MessageId IncomingMessageWithMeta) (x : Ibc) : Ibc :=
  mkIbc x.(config) x.(outgoing) x.(outgoing_index) v x.(incoming_index) x.(message_counter) x.(oracle_public_keys) x.(events).
Definition set_incoming_index (v : MessageIndex) (x : Ibc) : Ibc :=
  mkIbc x.(config) x.(outgoing) x.(outgoing_index) x.(incoming) v x.(message_counter) x.(oracle_public_keys) x.(events).
Definition set_message_counter (v : Z) (x : Ibc) : Ibc :=
  mkIbc x.(config) x.(outgoing) x.(outgoing_index) x.(incoming) x.(incoming_index) v x.(oracle_public_keys) x.(events).
Definition set_oracle_public_keys (v : gset Public) (x : Ibc) : Ibc :=
  mkIbc x.(config) x.(outgoing) x.(outgoing_index) x.(incoming) x.(incoming_index) x.(message_counter) v x.(events).
Definition set_events (v : list Event) (x : Ibc) : Ibc :=
  mkIbc x.(config) x.(outgoing) x.(outgoing_index) x.(incoming) x.(incoming_index) x.(message_counter) x.(oracle_public_keys) v.

(** The hash, the encodings that are hashed and the recovery of keys, which ink
    offers, and the selectors it derives from the names of messages *)
Class Crypto := {
  (** [hash_encoded::<Blake2x256>(&(sender, nonce))], [&message_counter] *)
  hash_sender_nonce : Subject -> MessageNonce -> MessageId;
  hash_counter : Z -> MessageNonce;
  (** [hash_bytes::<Blake2x256>(&message.encode())], [&(message, relayer).encode()] *)
  hash_message : Message -> option AccountId -> Z;
  ecdsa_recover : Signature -> Z -> option Public;
  encode_account : AccountId -> list Z;
  (** [selector_bytes!("send_message")] *)
  send_message_selector : list Z;
}.

(** Where the storage of the contract is in the state of the chain *)
Class IbcIn (W : Type) := {
  ibc_of : W -> Ibc;
  put_ibc : Ibc -> W -> W;
}.

(** [build_call().call(callee).exec_input(selector, payload).try_invoke()] of a
    message that answers nothing: the first account is the caller. *)
Class Invoke (W : Type) := {
  invoke : AccountId -> AccountId -> list Z -> list Z -> W -> CallResult unit * W;
}.

(** [set_code_hash]; [None] if there is no such code.  The code that runs after it is
    another program. *)
Class Upgrade (W : Type) := {
  set_code_hash : AccountId -> Z -> W -> option W;
}.

(** [Ibc::default()] *)
Definition default_owner : list Z :=
  [24; 90; 139; 95; 146; 236; 211; 72; 237; 155; 18; 160; 71; 202; 43; 40; 72;
   139; 19; 152; 6; 90; 141; 255; 141; 207; 136; 98; 69; 249; 40; 11].
Definition default_oracle : Public :=
  [3; 165; 118; 76; 57; 181; 62; 211; 167; 24; 6; 116; 158; 212; 202; 14; 15; 197;
   104; 143; 109; 3; 235; 177; 22; 180; 132; 216; 84; 109; 107; 213; 199].
Definition default (account_from : list Z -> AccountId) : Ibc :=
  mkIbc (mkConfig (account_from default_owner) false 1 1 20 30) ∅ [] ∅ [] 0 {[default_oracle]} [].

Section contract.
Context {W : Type} {H : Host W} {L : IbcIn W} {K : Crypto} {I : Invoke W} {U : Upgrade W}.

Notation MI := (M W Error).
Definition read {A} (f : Ibc -> A) : MI A := gets (fun w => f (ibc_of w)).
Definition write (f : Ibc -> Ibc) : MI unit := modify (fun w => put_ibc (f (ibc_of w)) w).
Definition write_config (f : Config -> Config) : MI unit :=
  write (fun s => set_config (f s.(config)) s).
Definition emit_event (e : Event) : MI unit := write (fun s => set_events (s.(events) ++ [e]) s).
Definition current : MI BlockNumber := gets host_block_number.

Definition ensure_owner (c : CallEnv) : MI unit :=
  let* cfg := read config in
  ensure (cfg.(owner) =? c.(caller)) NotOwner.
Definition ensure_unpaused : MI unit :=
  let* cfg := read config in
  ensure (negb cfg.(paused)) ContractPaused.

(** * Configuration *)
Definition update_oracle (acc : list Public * list Public) (action : OracleUpdate)
  : MI (list Public * list Public) :=
  let '(added, removed) := acc in
  match action with
  | Add public =>
      write (fun s => set_oracle_public_keys ({[public]} ∪ s.(oracle_public_keys)) s);;
      ret (added ++ [public], removed)
  | Remove public =>
      write (fun s => set_oracle_public_keys (s.(oracle_public_keys) ∖ {[public]}) s);;
      ret (added, removed ++ [public])
  end.
Definition update_oracles (updates : list OracleUpdate) : MI unit :=
  let* (added, removed) := mfold updates ([], []) update_oracle in
  emit_event (OraclesUpdated added removed).

Definition set_code (c : CallEnv) (code_hash : Z) : MI unit :=
  let* w := gets id in
  let* w' := or_panic (set_code_hash c.(account_id) code_hash w) in
  modify (fun _ => w').

(** The loop body of [configure] *)
Definition configure_one (c : CallEnv) (action : ConfigureArgument) : MI unit :=
  match action with
  | Owner address => write_config (set_owner address)
  | Paused b => write_config (set_paused b)
  | Code code_hash => set_code c code_hash
  | OraclePublicKeys oracle_updates => update_oracles oracle_updates
  | MinDeliverySignatures n => write_config (set_min_delivery_signatures n)
  | MinReceiptSignatures n => write_config (set_min_receipt_signatures n)
  | MinTTL ttl => write_config (set_min_ttl ttl)
  | IncomingTTL ttl => write_config (set_incoming_ttl ttl)
  end.
Definition configure (c : CallEnv) (actions : list ConfigureArgument) : MI unit :=
  ensure_owner c;;
  mfor actions (configure_one c).

Definition oracles (public : Public) (w : W) : bool :=
  bool_decide (public ∈ (ibc_of w).(oracle_public_keys)).

(** * Signatures *)
Definition check_signature (message : Message) (relayer : option AccountId) (seen : gset Public)
  (signature : Signature) : MI (gset Public) :=
  let message_hash := hash_message message relayer in
  let* public := ok_or (ecdsa_recover signature message_hash) SignatureInvalid in
  let* keys := read oracle_public_keys in
  ensure (bool_decide (public ∈ keys)) PublicKeyUnknown;;
  ensure (negb (bool_decide (public ∈ seen))) DuplicateSignature;;
  ret ({[public]} ∪ seen).
Definition check_signatures (message : Message) (relayer : option AccountId)
  (signatures : list Signature) (min_signatures : Z) : MI unit :=
  ensure (negb (Z.of_nat (length signatures) <? min_signatures)) NotEnoughSignaturesValid;;
  let* _ := mfold signatures ∅ (check_signature message relayer) in
  ret tt.

(** * Sending *)
Definition message_id (sender : Subject) (nonce : MessageNonce) : MessageId :=
  hash_sender_nonce sender nonce.

(** The sender of every message: the contract itself *)
Definition self_subject (c : CallEnv) : Subject :=
  AlephZero (Contract (mkContractCall c.(account_id) (Some send_message_selector))).

Definition do_send_message (sender : Subject) (payer : AccountId) (nonce : MessageNonce)
  (recipient : Subject) (payload : Payload) (ttl : BlockNumber) (fee : Balance)
  : MI OutgoingMessageWithMeta :=
  ensure_unpaused;;
  let* current_block := current in
  let id := message_id sender nonce in
  let* pending := read (fun s => s.(outgoing) !! id) in
  match pending with
  | Some message => ensure (negb (current_block <=? message.(om_ttl_block))) MessageWithSameNoncePending
  | None => ret tt
  end;;
  let* cfg := read config in
  ensure (negb (ttl <? cfg.(min_ttl))) TTLSmallerThanMinimum;;
  let message := mkMessage id sender nonce recipient payload in
  let message_with_meta :=
    mkOutgoing message current_block (saturating_add u32_max current_block ttl) fee payer in
  write (fun s => set_outgoing (<[id := message_with_meta]> s.(outgoing)) s);;
  write (fun s => set_outgoing_index (s.(outgoing_index) ++ [id]) s);;
  write (fun s => set_message_counter (saturating_add u128_max s.(message_counter) 1) s);;
  emit_event (MessageReadyToSend message_with_meta);;
  ret message_with_meta.

Definition send_message (c : CallEnv) (nonce : MessageNonce) (recipient : Subject)
  (payload : Payload) (ttl : BlockNumber) : MI unit :=
  ensure_unpaused;;
  let fee := c.(transferred_value) in
  let* _ := do_send_message (self_subject c) c.(caller) nonce recipient payload ttl fee in
  ret tt.

Definition send_test_message (c : CallEnv) (recipient : Subject) (ttl : BlockNumber) : MI unit :=
  ensure_unpaused;;
  let fee := c.(transferred_value) in
  let* counter := read message_counter in
  let* _ := do_send_message (self_subject c) c.(caller) (hash_counter counter) recipient
              (encode_account c.(caller)) ttl fee in
  ret tt.

Definition confirm_message_delivery (c : CallEnv) (id : MessageId) (signatures : list Signature)
  : MI unit :=
  ensure_unpaused;;
  let* o := read (fun s => s.(outgoing) !! id) in
  let* message := ok_or o MessageNotFound in
  let* current_block := current in
  ensure (negb (message.(om_ttl_block) <? current_block)) DeliveryConfirmationOverdue;;
  let relayer := c.(caller) in
  let* cfg := read config in
  check_signatures message.(om_message) (Some relayer) signatures cfg.(min_delivery_signatures);;
  transfer_or_panic c message.(om_payer) message.(om_fee);;
  write (fun s => set_outgoing (delete id s.(outgoing)) s);;
  write (fun s => set_outgoing_index (filter (fun i => i <> id) s.(outgoing_index)) s);;
  emit_event (MessageDelivered id).

(** * Receiving *)

(** The part of [receive_message] that may reject the message *)
Definition accept_message (c : CallEnv) (sender : Subject) (nonce : MessageNonce)
  (recipient : Subject) (payload : Payload) (signatures : list Signature)
  : MI (ContractCall * IncomingMessageWithMeta) :=
  ensure_unpaused;;
  let* contract_call :=
    match recipient with
    | AlephZero (Contract contract_call) => ret contract_call
    | _ => throw IncorrectRecipient
    end in
  let id := message_id sender nonce in
  let* known := read (fun s => s.(incoming) !! id) in
  ensure (match known with Some _ => false | None => true end) MessageAlreadyReceived;;
  let* current_block := current in
  let relayer := c.(caller) in
  let message := mkMessage id sender nonce recipient payload in
  let* cfg := read config in
  check_signatures message None signatures cfg.(min_receipt_signatures);;
  let message_with_meta := mkIncoming message current_block relayer in
  write (fun s => set_incoming (<[id := message_with_meta]> s.(incoming)) s);;
  write (fun s => set_incoming_index (s.(incoming_index) ++ [id]) s);;
  ret (contract_call, message_with_meta).

(** The call of the recipient: an error of the call is swallowed, so that the message
    stays stored.  [Ok(_)] also covers an error of the language. *)
Definition process_message (c : CallEnv) (contract_call : ContractCall) (message : Message)
  : MI unit :=
  match contract_call.(selector) with
  | Some sel =>
      let* w := gets id in
      let '(r, w') := invoke c.(account_id) contract_call.(contract) sel message.(msg_payload) w in
      modify (fun _ => w');;
      match r with
      | EnvFailed _ => emit_event (MessageProcessedWithErrors message.(msg_id))
      | _ => emit_event (MessageProcessed message.(msg_id))
      end
  | None => emit_event (MessageProcessed message.(msg_id))
  end.

Definition receive_message (c : CallEnv) (sender : Subject) (nonce : MessageNonce)
  (recipient : Subject) (payload : Payload) (signatures : list Signature) : MI unit :=
  let* (contract_call, message_with_meta) :=
    accept_message c sender nonce recipient payload signatures in
  process_message c contract_call message_with_meta.(im_message).

(** * The indexes *)
Definition retain_outgoing (current_block : BlockNumber) (s : Ibc) (i : MessageId) : bool :=
  match s.(outgoing) !! i with
  | Some message => current_block <? message.(om_ttl_block)
  | None => false
  end.
Definition clean_outgoing_index : MI unit :=
  ensure_unpaused;;
  let* current_block := current in
  write (fun s => set_outgoing_index (filter (retain_outgoing current_block s) s.(outgoing_index)) s).

Definition retain_incoming (current_block : BlockNumber) (s : Ibc) (i : MessageId) : bool :=
  match s.(incoming) !! i with
  | Some message =>
      saturating_sub current_block s.(config).(incoming_ttl) <? message.(im_current_block)
  | None => false
  end.
Definition clean_incoming_index : MI unit :=
  ensure_unpaused;;
  let* current_block := current in
  write (fun s => set_incoming_index (filter (retain_incoming current_block s) s.(incoming_index)) s).

(** * The messages of the contract *)
Inductive Call :=
| Configure (actions : list ConfigureArgument)
| SendMessage (nonce : MessageNonce) (recipient : Subject) (payload : Payload) (ttl : BlockNumber)
| SendTestMessage (recipient : Subject) (ttl : BlockNumber)
| ConfirmMessageDelivery (id : MessageId) (signatures : list Signature)
| ReceiveMessage (sender : Subject) (nonce : MessageNonce) (recipient : Subject)
    (payload : Payload) (signatures : list Signature)
| CleanOutgoingIndex
| CleanIncomingIndex.

Definition payable (call : Call) : bool :=
  match call with SendMessage _ _ _ _ | SendTestMessage _ _ => true | _ => false end.

Definition run_call (c : CallEnv) (call : Call) : MI unit :=
  match call with
  | Configure actions => configure c actions
  | SendMessage nonce recipient payload ttl => send_message c nonce recipient payload ttl
  | SendTestMessage recipient ttl => send_test_message c recipient ttl
  | ConfirmMessageDelivery id signatures => confirm_message_delivery c id signatures
  | ReceiveMessage sender nonce recipient payload signatures =>
      receive_message c sender nonce recipient payload signatures
  | CleanOutgoingIndex => clean_outgoing_index
  | CleanIncomingIndex => clean_incoming_index
  end.

Definition dispatch (c : CallEnv) (call : Call) : MI unit :=
  with_transaction (accept_value c (payable call);; run_call c call).
End contract.
End Ink.
