(* ===== verification/InkProxy.v ===== *)
(** The proxy of Acurast on Aleph Zero: [src/hyperdrive/ink/proxy/lib.rs].

    Users of Aleph Zero register jobs with the proxy and pay for them; the proxy sends
    their actions to Acurast through the contract of [InkIbc.v], is told who is
    assigned to a job and when it ends, pays the fees of the processors and passes
    their results on to the contract that the job names.

    The release profile of the contracts has no overflow checks: arithmetic wraps. *)
From S2P Require Import Prelude JobTypes BridgeTypes Contracts InkIbc.
From stdpp Require Import strings.
#[local] Open Scope Z_scope.
#[local] Open Scope monad_scope.

Module Proxy.
Record SetJobEnvironmentProcessor := mkSetJobEnvironmentProcessor {
  sp_address : AccountId;
  sp_variables : list (list Z * list Z);
}.
Record SetJobEnvironmentUserInput := mkSetJobEnvironmentUserInput {
  se_job_id : Z;
  se_public_key : list Z;
  se_processors : list SetJobEnvironmentProcessor;
}.
Record RegisterJobUserInput := mkRegisterJobUserInput {
  ru_job_registration : JobRegistrationV1;
  ru_destination : AccountId;
  ru_expected_fulfillment_fee : Balance;
}.
Inductive UserAction :=
| RegisterJob (payload : RegisterJobUserInput)
| DeregisterJob (job_id : Z)
| FinalizeJob (ids : list Z)
| SetJobEnvironment (payload : SetJobEnvironmentUserInput)
| Noop.

Record RawOutgoingAction := mkRawOutgoingAction {
  ra_id : Z;
  ra_origin : AccountId;
  ra_payload_version : Z;
  ra_payload : list Z;
}.

(** [IncomingAction] of [substrate-core/types.rs], with the one version there is *)
Record IncomingAction := mkIncomingAction {
  ia_id : Z;
  ia_payload : IncomingActionPayloadV1;
}.

Inductive JobStatus :=
| Open
| Matched
| Assigned
| FinalizedOrCancelled.
#[export] Instance JobStatus_eq_dec : EqDecision JobStatus.
Proof. solve_decision. Defined.

Record JobInformationV1 := mkJobInformation {
  ji_schedule : ScheduleV1;
  ji_creator : AccountId;
  ji_destination : AccountId;
  ji_processors : list AccountId;
  ji_expected_fulfillment_fee : Balance;
  ji_remaining_fee : Balance;
  ji_maximum_reward : Balance;
  ji_status : JobStatus;
  ji_slots : Z;
}.
Definition set_ji_schedule (v : ScheduleV1) (x : JobInformationV1) : JobInformationV1 :=
  mkJobInformation v x.(ji_creator) x.(ji_destination) x.(ji_processors) x.(ji_expected_fulfillment_fee) x.(ji_remaining_fee) x.(ji_maximum_reward) x.(ji_status) x.(ji_slots).
Definition set_ji_creator (v : AccountId) (x : JobInformationV1) : JobInformationV1 :=
  mkJobInformation x.(ji_schedule) v x.(ji_destination) x.(ji_processors) x.(ji_expected_fulfillment_fee) x.(ji_remaining_fee) x.(ji_maximum_reward) x.(ji_status) x.(ji_slots).
Definition set_ji_destination (v : AccountId) (x : JobInformationV1) : JobInformationV1 :=
  mkJobInformation x.(ji_schedule) x.(ji_creator) v x.(ji_processors) x.(ji_expected_fulfillment_fee) x.(ji_remaining_fee) x.(ji_maximum_reward) x.(ji_status) x.(ji_slots).
Definition set_ji_processors (v : list AccountId) (x : JobInformationV1) : JobInformationV1 :=
  mkJobInformation x.(ji_schedule) x.(ji_creator) x.(ji_destination) v x.(ji_expected_fulfillment_fee) x.(ji_remaining_fee) x.(ji_maximum_reward) x.(ji_status) x.(ji_slots).
Definition set_ji_expected_fulfillment_fee (v : Balance) (x : JobInformationV1) : JobInformationV1 :=
  mkJobInformation x.(ji_schedule) x.(ji_creator) x.(ji_destination) x.(ji_processors) v x.(ji_remaining_fee) x.(ji_maximum_reward) x.(ji_status) x.(ji_slots).
Definition set_ji_remaining_fee (v : Balance) (x : JobInformationV1) : JobInformationV1 :=
  mkJobInformation x.(ji_schedule) x.(ji_creator) x.(ji_destination) x.(ji_processors) x.(ji_expected_fulfillment_fee) v x.(ji_maximum_reward) x.(ji_status) x.(ji_slots).
Definition set_ji_maximum_reward (v : Balance) (x : JobInformationV1) : JobInformationV1 :=
  mkJobInformation x.(ji_schedule) x.(ji_creator) x.(ji_destination) x.(ji_processors) x.(ji_expected_fulfillment_fee) x.(ji_remaining_fee) v x.(ji_status) x.(ji_slots).
Definition set_ji_status (v : JobStatus) (x : JobInformationV1) : JobInformationV1 :=
  mkJobInformation x.(ji_schedule) x.(ji_creator) x.(ji_destination) x.(ji_processors) x.(ji_expected_fulfillment_fee) x.(ji_remaining_fee) x.(ji_maximum_reward) v x.(ji_slots).
Definition set_ji_slots (v : Z) (x : JobInformationV1) : JobInformationV1 :=
  mkJobInformation x.(ji_schedule) x.(ji_creator) x.(ji_destination) x.(ji_processors) x.(ji_expected_fulfillment_fee) x.(ji_remaining_fee) x.(ji_maximum_reward) x.(ji_status) v.

Record ExchangeRatio := mkExchangeRatio {
  numerator : Z;
  denominator : Z;
}.

Inductive ConfigureArgument :=
| Owner (address : AccountId)
| IBCContract (address : AccountId)
| AcurastPalletAccountArg (address : AccountId)
| Paused (paused : bool)
| PayloadVersion (version : Z)
| MaxMessageBytes (max_size : Z)
| ExchangeRatioArg (ratio : ExchangeRatio)
| Code (code_hash : Z).

Inductive Error :=
| UnknownJobVersion (v : Z)
| JobAlreadyFinished
| NotJobProcessor
| UnknownJob
| ContractPaused
| NotOwner
| NotJobCreator
| CannotFinalizeJob
| OutgoingActionTooBig
| Verbose (msg : string)
| InvalidIncomingAction (msg : string)
| IBCError (e : Ink.Error)
| ConsumerError (msg : string)
| LangError (msg : string).

Inductive Event :=
| IncomingActionProcessed (action_id : Z).

(** * Storage *)
Record Config := mkConfig {
  owner : AccountId;
  (** the contract of [InkIbc.v] *)
  ibc : AccountId;
  (** the recipient of the messages on Acurast *)
  acurast_pallet_account : AccountId;
  paused : bool;
  payload_version : Z;
  max_message_bytes : Z;
  exchange_ratio : ExchangeRatio;
}.
Definition set_owner (v : AccountId) (x : Config) : Config :=
  mkConfig v x.(ibc) x.(acurast_pallet_account) x.(paused) x.(payload_version) x.(max_message_bytes) x.(exchange_ratio).
Definition set_ibc (v : AccountId) (x : Config) : Config :=
  mkConfig x.(owner) v x.(acurast_pallet_account) x.(paused) x.(payload_version) x.(max_message_bytes) x.(exchange_ratio).
Definition set_acurast_pallet_account (v : AccountId) (x : Config) : Config :=
  mkConfig x.(owner) x.(ibc) v x.(paused) x.(payload_version) x.(max_message_bytes) x.(exchange_ratio).
Definition set_paused (v : bool) (x : Config) : Config :=
  mkConfig x.(owner) x.(ibc) x.(acurast_pallet_account) v x.(payload_version) x.(max_message_bytes) x.(exchange_ratio).
Definition set_payload_version (v : Z) (x : Config) : Config :=
  mkConfig x.(owner) x.(ibc) x.(acurast_pallet_account) x.(paused) v x.(max_message_bytes) x.(exchange_ratio).
Definition set_max_message_bytes (v : Z) (x : Config) : Config :=
  mkConfig x.(owner) x.(ibc) x.(acurast_pallet_account) x.(paused) x.(payload_version) v x.(exchange_ratio).
Definition set_exchange_ratio (v : ExchangeRatio) (x : Config) : Config :=
  mkConfig x.(owner) x.(ibc) x.(acurast_pallet_account) x.(paused) x.(payload_version) x.(max_message_bytes) v.
Record Proxy := mkProxy {
  config : Config;
  next_outgoing_action_id : Z;
  next_job_id : Z;
  (** the version of the record of a job, and its bytes *)
  job_info : gmap Z (Z * list Z);
  events : list Event;
}.
Definition set_config (v : Config) (x : Proxy) : Proxy :=
  mkProxy v x.(next_outgoing_action_id) x.(next_job_id) x.(job_info) x.(events).
Definition set_next_outgoing_action_id (v : Z) (x : Proxy) : Proxy :=
  mkProxy x.(config) v x.(next_job_id) x.(job_info) x.(events).
Definition set_next_job_id (v : Z) (x : Proxy) : Proxy :=
  mkProxy x.(config) x.(next_outgoing_action_id) v x.(job_info) x.(events).
Definition set_job_info (v : gmap Z (Z * list Z)) (x : Proxy) : Proxy :=
  mkProxy x.(config) x.(next_outgoing_action_id) x.(next_job_id) v x.(events).
Definition set_events (v : list Event) (x : Proxy) : Proxy :=
  mkProxy x.(config) x.(next_outgoing_action_id) x.(next_job_id) x.(job_info) v.

(** The derived SCALE codecs of the contract, and the accounts as bytes; a decoder
    that fails answers with a text. *)
Class Codec := {
  encode_job : JobInformationV1 -> list Z;
  decode_job : list Z -> string + JobInformationV1;
  decode_incoming : list Z -> string + IncomingAction;
  encode_payload : OutgoingActionPayloadV1 -> list Z;
  encode_raw_action : RawOutgoingAction -> list Z;
  account_to_bytes : AccountId -> list Z;
  account_from_bytes : list Z -> AccountId;
  (** [hash_encoded::<Blake2x256>(&id.to_ne_bytes().to_vec())] *)
  hash_action_id : Z -> MessageNonce;
}.

Class ProxyIn (W : Type) := {
  proxy_of : W -> Proxy;
  put_proxy : Proxy -> W -> W;
}.

(** [send_message] of the contract at an address, called by the proxy *)
Class SendMessage (W : Type) := {
  call_send_message : AccountId -> AccountId -> MessageNonce -> Ink.Subject -> Payload ->
    BlockNumber -> W -> CallResult (outcome Ink.Error unit) * W;
}.
(** [fulfill] of the consumer at an address, called by the proxy *)
Class Consumer (W : Type) := {
  call_fulfill : AccountId -> AccountId -> Z -> list Z -> W ->
    CallResult (outcome string unit) * W;
}.

(** [ExchangeRatio::exchange_price]; the division panics if the denominator is 0. *)
Definition exchange_price (self : ExchangeRatio) (expected_acurast_amount : Balance) : option Balance :=
  let n := wrap_as u128_max (self.(numerator) * expected_acurast_amount) in
  let d := self.(denominator) in
  if d =? 0 then None
  else Some (if n mod d =? 0 then n / d else wrapping_add u128_max (n / d) 1).

(** [Version::V1 as u16] *)
Definition V1 : Z := 1.

(** [Proxy::new] and [Proxy::default] *)
Definition default_owner : list Z :=
  [24; 90; 139; 95; 146; 236; 211; 72; 237; 155; 18; 160; 71; 202; 43; 40; 72;
   139; 19; 152; 6; 90; 141; 255; 141; 207; 136; 98; 69; 249; 40; 11].
Definition default_ibc : list Z :=
  [146; 15; 1; 125; 16; 39; 253; 47; 52; 101; 2; 241; 255; 64; 21; 83; 68;
   237; 21; 89; 222; 247; 41; 10; 166; 15; 9; 128; 31; 76; 228; 26].
Definition default_pallet_account : list Z :=
  [109; 111; 100; 108; 97; 99; 114; 115; 116; 112; 105; 100; 0; 0; 0; 0; 0; 0;
   0; 0; 0; 0; 0; 0; 0; 0; 0; 0; 0; 0; 0; 0].
Definition default {X : Codec} : Proxy :=
  mkProxy
    (mkConfig (account_from_bytes default_owner) (account_from_bytes default_ibc)
       (account_from_bytes default_pallet_account) false 1 2048 (mkExchangeRatio 1 10))
    1 1 ∅ [].
Definition new {X : Codec} (owner ibc : AccountId) : Proxy :=
  let contract := default in
  set_config (set_ibc ibc (set_owner owner contract.(config))) contract.

Section contract.
Context {W : Type} {H : Host W} {L : ProxyIn W} {X : Codec} {U : Ink.Upgrade W}.
Context {SM : SendMessage W} {CF : Consumer W}.

Notation MX := (M W Error).
Definition read {A} (f : Proxy -> A) : MX A := gets (fun w => f (proxy_of w)).
Definition write (f : Proxy -> Proxy) : MX unit := modify (fun w => put_proxy (f (proxy_of w)) w).
Definition write_config (f : Config -> Config) : MX unit :=
  write (fun s => set_config (f s.(config)) s).
Definition or_text {A} (wrap : string -> Error) (r : string + A) : MX A :=
  match r with inl msg => throw (wrap msg) | inr a => ret a end.

Definition fail_if_not_owner (c : CallEnv) : MX unit :=
  let* cfg := read config in
  ensure (cfg.(owner) =? c.(caller)) NotOwner.
Definition ensure_unpaused : MX unit :=
  let* cfg := read config in
  ensure (negb cfg.(paused)) ContractPaused.

Definition get_job (job_id : Z) : MX (list Z) :=
  let* o := read (fun s => s.(job_info) !! job_id) in
  match o with
  | Some (version, job_bytes) =>
      if version =? V1 then ret job_bytes else throw (UnknownJobVersion version)
  | None => throw UnknownJob
  end.
(** [JobInformation::decode] *)
Definition job_information (job_id : Z) : MX JobInformationV1 :=
  let* job_bytes := get_job job_id in
  or_text (fun err => Verbose (String.append "Cannot decode job information V1 " err)) (decode_job job_bytes).
Definition save_job (job_id : Z) (job : JobInformationV1) : MX unit :=
  write (fun s => set_job_info (<[job_id := (V1, encode_job job)]> s.(job_info)) s).

Definition set_code (c : CallEnv) (code_hash : Z) : MX unit :=
  let* w := gets id in
  let* w' := or_panic (Ink.set_code_hash c.(account_id) code_hash w) in
  modify (fun _ => w').
(** The loop body of [configure] *)
Definition configure_one (c : CallEnv) (action : ConfigureArgument) : MX unit :=
  match action with
  | Owner address => write_config (set_owner address)
  | IBCContract address => write_config (set_ibc address)
  | AcurastPalletAccountArg address => write_config (set_acurast_pallet_account address)
  | Paused b => write_config (set_paused b)
  | PayloadVersion version => write_config (set_payload_version version)
  | MaxMessageBytes max_size => write_config (set_max_message_bytes max_size)
  | ExchangeRatioArg ratio => write_config (set_exchange_ratio ratio)
  | Code code_hash => set_code c code_hash
  end.
Definition configure (c : CallEnv) (actions : list ConfigureArgument) : MX unit :=
  fail_if_not_owner c;;
  mfor actions (configure_one c).

(** * Sending actions *)

(** How many executions fit in the schedule: [((end - start - 1) / interval) + 1] *)
Definition execution_count (s : ScheduleV1) : Z :=
  wrapping_add u64_max
    (wrap_as u64_max (s.(v1_end_time) - s.(v1_start_time) - 1) / s.(v1_interval)) 1.
Definition total_of (slots count amount : Z) : Balance := wrap_as u128_max (slots * count * amount).

(** The arm of [send_actions] for [RegisterJob] *)
Definition register_job (c : CallEnv) (payload : RegisterJobUserInput) : MX OutgoingActionPayloadV1 :=
  let registration := payload.(ru_job_registration) in
  let* job_id := read next_job_id in
  write (fun s => set_next_job_id (wrapping_add u128_max s.(next_job_id) 1) s);;
  let sched := registration.(v1_schedule) in
  ensure (negb (sched.(v1_interval) =? 0)) (Verbose "INTERVAL_CANNNOT_BE_ZERO");;
  let count := execution_count sched in
  let slots := registration.(v1_extra).(v1_slots) in
  let expected_fulfillment_fee := payload.(ru_expected_fulfillment_fee) in
  let expected_fee := total_of slots count expected_fulfillment_fee in
  let maximum_reward := total_of slots count registration.(v1_extra).(v1_reward) in
  let* cfg := read config in
  let* cost := or_panic (exchange_price cfg.(exchange_ratio) maximum_reward) in
  ensure (negb (c.(transferred_value) <? wrapping_add u128_max expected_fee cost))
    (Verbose "AMOUNT_CANNOT_COVER_JOB_COSTS");;
  save_job job_id
    (mkJobInformation sched c.(caller) payload.(ru_destination) [] expected_fulfillment_fee
       expected_fee maximum_reward Open slots);;
  ret (RegisterJobV1 {| v1_job_id := job_id; v1_job_registration := registration |}).

Definition ensure_creator (c : CallEnv) (job : JobInformationV1) : MX unit :=
  ensure (job.(ji_creator) =? c.(caller)) NotJobCreator.
(** The loop body of the arm for [FinalizeJob] *)
Definition check_finalize (c : CallEnv) (id : Z) : MX unit :=
  let* job := job_information id in
  ensure_creator c job;;
  let* now := gets host_timestamp in
  ensure (job.(ji_schedule).(v1_end_time) / 1000 <? now) CannotFinalizeJob.

Definition environment_of (p : SetJobEnvironmentProcessor) : SetProcessorJobEnvironmentV1 :=
  {| v1_address := account_to_bytes p.(sp_address); v1_variables := p.(sp_variables) |}.

Definition outgoing_action (c : CallEnv) (action : UserAction) : MX OutgoingActionPayloadV1 :=
  match action with
  | RegisterJob payload => register_job c payload
  | DeregisterJob job_id =>
      let* job := job_information job_id in
      ensure_creator c job;;
      ret (DeregisterJobV1 job_id)
  | FinalizeJob ids =>
      mfor ids (check_finalize c);;
      ret (FinalizeJobV1 ids)
  | SetJobEnvironment payload =>
      let* job := job_information payload.(se_job_id) in
      ensure_creator c job;;
      ret (SetJobEnvironmentV1
             {| v1_env_job_id := payload.(se_job_id);
                v1_public_key := payload.(se_public_key);
                v1_processors := environment_of <$> payload.(se_processors) |})
  | Noop => ret NoopV1
  end.

(** [match call_result] *)
Definition call_answer {A} (wrap : A -> Error) (r : CallResult (outcome A unit)) : MX unit :=
  match r with
  | EnvFailed text => throw (Verbose text)
  | LangFailed text => throw (LangError text)
  | Returned (Err e) => throw (wrap e)
  | Returned (Ok _) => ret tt
  | Returned Panic => panic
  end.

(** The TTL of the messages, in blocks *)
Definition MESSAGE_TTL : BlockNumber := 100.

(** The loop body of [send_actions] *)
Definition send_action (c : CallEnv) (action : UserAction) : MX unit :=
  let* payload := outgoing_action c action in
  let* cfg := read config in
  let* action_id := read next_outgoing_action_id in
  let encoded_action :=
    encode_raw_action (mkRawOutgoingAction action_id c.(caller) cfg.(payload_version)
                         (encode_payload payload)) in
  ensure (Z.of_nat (length encoded_action) <? cfg.(max_message_bytes)) OutgoingActionTooBig;;
  let* w := gets id in
  let '(r, w') :=
    call_send_message c.(account_id) cfg.(ibc) (hash_action_id action_id)
      (Ink.Acurast (Extrinsic cfg.(acurast_pallet_account))) encoded_action MESSAGE_TTL w in
  modify (fun _ => w');;
  call_answer IBCError r;;
  write (fun s => set_next_outgoing_action_id (wrapping_add u64_max s.(next_outgoing_action_id) 1) s).

Definition send_actions (c : CallEnv) (actions : list UserAction) : MX unit :=
  ensure_unpaused;;
  mfor actions (send_action c).

(** * Receiving actions *)
Definition decode_incoming_action (payload : list Z) : MX IncomingAction :=
  or_text InvalidIncomingAction (decode_incoming payload).

Definition assign_job_processor (c : CallEnv) (job_id : Z) (processor : list Z) : MX unit :=
  let* job := job_information job_id in
  let processor_address := account_from_bytes processor in
  let initial_fee := job.(ji_expected_fulfillment_fee) in
  transfer_or_panic c processor_address initial_fee;;
  save_job job_id
    (set_ji_status Assigned
       (set_ji_remaining_fee (wrap_as u128_max (job.(ji_remaining_fee) - initial_fee))
          (set_ji_processors (job.(ji_processors) ++ [processor_address]) job))).

Definition finalize_job (c : CallEnv) (job_id unused_reward : Z) : MX unit :=
  let* job := job_information job_id in
  (if unused_reward <=? job.(ji_maximum_reward) then ret tt else panic);;
  let refund := wrapping_add u128_max job.(ji_remaining_fee) unused_reward in
  (if 0 <? refund then transfer_or_panic c job.(ji_creator) refund else ret tt);;
  save_job job_id (set_ji_status FinalizedOrCancelled job).

Definition receive_action (c : CallEnv) (payload : list Z) : MX unit :=
  ensure_unpaused;;
  let* action := decode_incoming_action payload in
  match action.(ia_payload) with
  | AssignJobProcessorV1 job_id processor => assign_job_processor c job_id processor
  | FinalizeIncomingV1 job_id unused_reward => finalize_job c job_id unused_reward
  | IncomingNoopV1 => ret tt
  end;;
  write (fun s => set_events (s.(events) ++ [IncomingActionProcessed action.(ia_id)]) s).

(** * Fulfilling a job *)

(** The fee of the next execution, as long as there is enough left *)
Definition refill_fee (c : CallEnv) (job_id : Z) (job : JobInformationV1) : MX JobInformationV1 :=
  let has_funds := job.(ji_expected_fulfillment_fee) <=? job.(ji_remaining_fee) in
  if has_funds && (0 <? job.(ji_expected_fulfillment_fee)) then
    let job := set_ji_remaining_fee
                 (job.(ji_remaining_fee) - job.(ji_expected_fulfillment_fee)) job in
    transfer_or_panic c c.(caller) job.(ji_expected_fulfillment_fee);;
    save_job job_id job;;
    ret job
  else ret job.

Definition fulfill (c : CallEnv) (job_id : Z) (payload : list Z) : MX unit :=
  ensure_unpaused;;
  let* job := job_information job_id in
  ensure (bool_decide (c.(caller) ∈ job.(ji_processors))) NotJobProcessor;;
  ensure (bool_decide (job.(ji_status) = Assigned)) JobAlreadyFinished;;
  let* job := refill_fee c job_id job in
  let* w := gets id in
  let '(r, w') := call_fulfill c.(account_id) job.(ji_destination) (wrap_as u64_max job_id) payload w in
  modify (fun _ => w');;
  call_answer ConsumerError r;;
  save_job job_id job.

(** * The messages of the contract *)
Inductive Call :=
| Configure (actions : list ConfigureArgument)
| SendActions (actions : list UserAction)
| ReceiveAction (payload : list Z)
| Fulfill (job_id : Z) (payload : list Z).

Definition payable (call : Call) : bool :=
  match call with SendActions _ => true | _ => false end.

Definition run_call (c : CallEnv) (call : Call) : MX unit :=
  match call with
  | Configure actions => configure c actions
  | SendActions actions => send_actions c actions
  | ReceiveAction payload => receive_action c payload
  | Fulfill job_id payload => fulfill c job_id payload
  end.

Definition dispatch (c : CallEnv) (call : Call) : MX unit :=
  with_transaction (accept_value c (payable call);; run_call c call).
End contract.
End Proxy.
