(* ===== verification/InkChain.v ===== *)
(** Aleph Zero: the two contracts of [InkIbc.v] and [InkProxy.v] on one chain.

    The proxy calls [send_message] of the contract for messages; that contract calls
    the recipients of the messages it has received, the proxy among them.  A contract
    that is being executed cannot be called again (the chain denies it), so that the
    proxy cannot send while it receives.  What other contracts do is a parameter. *)
From S2P Require Import Prelude JobTypes BridgeTypes Contracts InkIbc InkProxy.
From stdpp Require Import strings.
#[local] Open Scope Z_scope.
#[local] Open Scope monad_scope.

Record InkWorld (X : Type) := mkInkWorld {
  wi_ibc : Ink.Ibc;
  wi_proxy : Proxy.Proxy;
  (** the balances, the block and the other contracts *)
  wi_chain : X;
}.
Arguments mkInkWorld {X} _ _ _.
Arguments wi_ibc {X} _.
Arguments wi_proxy {X} _.
Arguments wi_chain {X} _.

(** The rest of the chain *)
Class InkChain (X : Type) := {
  ink_host :: Host X;
  ibc_address : AccountId;
  proxy_address : AccountId;
  chain_set_code : AccountId -> Z -> X -> option X;
  (** the message of the proxy that a selector and an argument of bytes stand for *)
  decode_proxy_call : list Z -> list Z -> option Proxy.Call;
  (** what [try_invoke] of a caller that expects the unit makes of an answer *)
  unit_answer : outcome Proxy.Error unit -> CallResult unit;
  (** the messages of other contracts, which call further ones; the contracts that are
      being executed come first *)
  other_invoke : list AccountId -> AccountId -> AccountId -> list Z -> list Z -> InkWorld X ->
    CallResult unit * InkWorld X;
  other_send_message : list AccountId -> AccountId -> AccountId -> MessageNonce -> Ink.Subject ->
    Payload -> BlockNumber -> InkWorld X -> CallResult (outcome Ink.Error unit) * InkWorld X;
  other_fulfill : list AccountId -> AccountId -> AccountId -> Z -> list Z -> InkWorld X ->
    CallResult (outcome string unit) * InkWorld X;
}.

Section chain.
Context {X : Type} {C : InkChain X} {K : Ink.Crypto} {D : Proxy.Codec}.
Notation W := (InkWorld X).

Definition set_chain (x : X) (w : W) : W := mkInkWorld w.(wi_ibc) w.(wi_proxy) x.
#[export] Instance world_host : Host W := {|
  host_block_number w := host_block_number w.(wi_chain);
  host_timestamp w := host_timestamp w.(wi_chain);
  host_transfer from to n w := (fun x => set_chain x w) <$> host_transfer from to n w.(wi_chain);
|}.
#[export] Instance world_ibc : Ink.IbcIn W := {|
  Ink.ibc_of := wi_ibc;
  Ink.put_ibc s w := mkInkWorld s w.(wi_proxy) w.(wi_chain);
|}.
#[export] Instance world_proxy : Proxy.ProxyIn W := {|
  Proxy.proxy_of := wi_proxy;
  Proxy.put_proxy s w := mkInkWorld w.(wi_ibc) s w.(wi_chain);
|}.
#[export] Instance world_upgrade : Ink.Upgrade W := {|
  Ink.set_code_hash a h w := (fun x => set_chain x w) <$> chain_set_code a h w.(wi_chain);
|}.
Definition REENTRANCE_DENIED : string := "ReentranceDenied".
Definition CONTRACT_TRAPPED : string := "ContractTrapped".
Definition COULD_NOT_READ_INPUT : string := "CouldNotReadInput".

#[export] Instance world_consumer : Proxy.Consumer W := {|
  Proxy.call_fulfill from callee job_id payload w :=
    if callee =? proxy_address then (EnvFailed REENTRANCE_DENIED, w)
    else other_fulfill [proxy_address] from callee job_id payload w;
|}.

(** The proxy while the contract for messages is being executed *)
Definition reentrant_consumer : Proxy.Consumer W := {|
  Proxy.call_fulfill from callee job_id payload w :=
    if bool_decide (callee ∈ [ibc_address; proxy_address]) then (EnvFailed REENTRANCE_DENIED, w)
    else other_fulfill [ibc_address; proxy_address] from callee job_id payload w;
|}.
Definition reentrant_send : Proxy.SendMessage W := {|
  Proxy.call_send_message from callee nonce recipient payload ttl w :=
    if bool_decide (callee ∈ [ibc_address; proxy_address]) then (EnvFailed REENTRANCE_DENIED, w)
    else other_send_message [ibc_address; proxy_address] from callee nonce recipient payload ttl w;
|}.

#[export] Instance world_invoke : Ink.Invoke W := {|
  Ink.invoke from callee sel payload w :=
    if callee =? ibc_address then (EnvFailed REENTRANCE_DENIED, w)
    else if callee =? proxy_address then
      match decode_proxy_call sel payload with
      | None => (LangFailed COULD_NOT_READ_INPUT, w)
      | Some call =>
          match Proxy.dispatch (SM := reentrant_send) (CF := reentrant_consumer) (mkCallEnv from proxy_address 0) call w with
          | (Panic, w') => (EnvFailed CONTRACT_TRAPPED, w')
          | (r, w') => (unit_answer r, w')
          end
      end
    else other_invoke [ibc_address] from callee sel payload w;
|}.

#[export] Instance world_send : Proxy.SendMessage W := {|
  Proxy.call_send_message from callee nonce recipient payload ttl w :=
    if callee =? ibc_address then
      match Ink.dispatch (mkCallEnv from ibc_address 0)
              (Ink.SendMessage nonce recipient payload ttl) w with
      | (Panic, w') => (EnvFailed CONTRACT_TRAPPED, w')
      | (r, w') => (Returned r, w')
      end
    else if callee =? proxy_address then (EnvFailed REENTRANCE_DENIED, w)
    else other_send_message [proxy_address] from callee nonce recipient payload ttl w;
|}.

(** * Steps of the chain *)
Inductive InkCall :=
| CallIbc (who : AccountId) (value : Balance) (call : Ink.Call)
| CallProxy (who : AccountId) (value : Balance) (call : Proxy.Call).

(** The calls that replace the code of a contract, after which it is another program *)
Definition keeps_code (call : InkCall) : bool :=
  match call with
  | CallIbc _ _ (Ink.Configure actions) =>
      forallb (fun a => match a with Ink.Code _ => false | _ => true end) actions
  | CallProxy _ _ (Proxy.Configure actions) =>
      forallb (fun a => match a with Proxy.Code _ => false | _ => true end) actions
  | _ => true
  end.

Definition run_ink_call (call : InkCall) (w : W) : W :=
  match call with
  | CallIbc who value call => exec (Ink.dispatch (mkCallEnv who ibc_address value) call) w
  | CallProxy who value call => exec (Proxy.dispatch (mkCallEnv who proxy_address value) call) w
  end.

(** A message is executed, or the rest of the chain moves on: blocks pass, accounts
    pay each other. *)
Inductive ink_step : W -> W -> Prop :=
| ink_step_call call w : keeps_code call = true -> ink_step w (run_ink_call call w)
| ink_step_chain x w :
    host_block_number w.(wi_chain) <= host_block_number x -> ink_step w (set_chain x w).
End chain.
