(* ===== verification/InkSpecs.v ===== *)
(** The contract for messages on Aleph Zero: which signatures it accepts, that it
    receives a message once, that relayers find what it sends, and in whose name it
    speaks.

    The theorems hold on any chain [W] that keeps the rules of [ibc_laws]: the storage
    of the contract belongs to the contract, which is not called again while it is
    being executed.  The second part shows this of the chain of [InkChain.v]. *)
From S2P Require Import Prelude Schedules JobTypes BridgeTypes Ibc Hyperdrive Contracts.
From S2P Require Import InkIbc InkProxy InkChain.
From stdpp Require Import strings.
#[local] Open Scope Z_scope.
#[local] Open Scope monad_scope.

Section ibc.
Context {W : Type} {H : Host W} {L : Ink.IbcIn W} {K : Ink.Crypto} {I : Ink.Invoke W} {U : Ink.Upgrade W}.
Notation block w := (host_block_number w).
Notation ibc w := (Ink.ibc_of w).

(** The chain and the contract leave each other alone. *)
Record ibc_laws : Prop := {
  il_get : forall s w, ibc (Ink.put_ibc s w) = s;
  il_put : forall s s' w, Ink.put_ibc s (Ink.put_ibc s' w) = Ink.put_ibc s w;
  il_block : forall s w, block (Ink.put_ibc s w) = block w;
  il_transfer : forall a b n w w', host_transfer a b n w = Some w' ->
    ibc w' = ibc w /\ block w' = block w;
  il_invoke : forall a b sel p w r w', Ink.invoke a b sel p w = (r, w') ->
    ibc w' = ibc w /\ block w' = block w;
  il_set_code : forall a h w w', Ink.set_code_hash a h w = Some w' ->
    ibc w' = ibc w /\ block w' = block w;
}.
(** * What a step is

    A message of the contract is executed, or something else happens: blocks pass,
    other contracts are called. *)
Context (me : AccountId).
Inductive ibc_moves : W -> W -> Prop :=
| moves_call who value call w :
    ibc_moves w (exec (Ink.dispatch (mkCallEnv who me value) call) w)
| moves_outside w w' : ibc w' = ibc w -> block w <= block w' -> ibc_moves w w'.

(** * Signatures *)
Definition recovers (message : Ink.Message) (relayer : option AccountId) (sg : list Z) (key : list Z) : Prop :=
  Ink.ecdsa_recover sg (Ink.hash_message message relayer) = Some key.

Lemma ink_check_signature_run message relayer seen sg w :
  Ink.check_signature message relayer seen sg w =
  match Ink.ecdsa_recover sg (Ink.hash_message message relayer) with
  | None => (Err Ink.SignatureInvalid, w)
  | Some k =>
      if bool_decide (k ∈ (ibc w).(Ink.oracle_public_keys)) then
        if bool_decide (k ∈ seen) then (Err Ink.DuplicateSignature, w) else (Ok ({[k]} ∪ seen), w)
      else (Err Ink.PublicKeyUnknown, w)
  end.
Proof.
  unfold Ink.check_signature, ok_or, Ink.read, gets, ensure, throw, ret, bind.
  destruct (Ink.ecdsa_recover _ _) as [k|]; [|done]. simpl. do 2 (case_bool_decide; simpl; try done).
Qed.

Lemma check_loop_ok message relayer l seen w r w' :
  mfold l seen (Ink.check_signature message relayer) w = (Ok r, w') <->
  w' = w /\ exists keys, Forall2 (recovers message relayer) l keys /\ NoDup keys /\
    (forall k, k ∈ keys -> k ∈ (ibc w).(Ink.oracle_public_keys) /\ k ∉ seen) /\
    r = list_to_set keys ∪ seen.
Proof.
  revert seen. induction l as [|sg l IH]; intros seen; cbn [mfold].
  - rewrite ret_ok. split.
    + intros [-> ->]. split; [done|]. exists []. repeat split; [constructor|constructor|set_solver..].
    + intros (-> & keys & Hk & _ & _ & ->). inversion Hk; subst. split; [set_solver|done].
  - rewrite bind_ok. setoid_rewrite ink_check_signature_run. split.
    + intros (seen1 & w1 & H1 & H2).
      destruct (Ink.ecdsa_recover sg _) as [k|] eqn:Ek; [|done].
      do 2 (case_bool_decide; [|done] || (case_bool_decide; [done|])). simplify_eq.
      apply IH in H2 as (-> & keys & Hk & Hd & Hin & ->). split; [done|].
      exists (k :: keys). split; [by constructor|]. split.
      { constructor; [|done]. intros Hc. apply Hin in Hc as [_ Hc]. set_solver. }
      split; [|set_solver]. intros k' [->|Hk']%elem_of_cons; [done|].
      destruct (Hin k' Hk'). split; [done|set_solver].
    + intros (-> & keys & Hk & Hd & Hin & ->). inversion Hk as [|? k ? keys' Hr Hk']; subst.
      apply NoDup_cons in Hd as [Hn Hd]. unfold recovers in Hr.
      exists ({[k]} ∪ seen), w. rewrite Hr.
      destruct (Hin k) as [Ho Hs]; [set_solver|].
      rewrite bool_decide_true, bool_decide_false by done. split; [done|].
      apply IH. split; [done|]. exists keys'. split; [done|]. split; [done|]. split; [|set_solver].
      intros k' Hk''. destruct (Hin k') as [Ho' Hs']; [set_solver|]. split; [done|]. set_solver.
Qed.

(** What the check promises: enough signatures, each of a different oracle *)
Definition signed_by_oracles (message : Ink.Message) (relayer : option AccountId)
  (signatures : list (list Z)) (min : Z) (w : W) : Prop :=
  min <= Z.of_nat (length signatures) /\
  exists keys, Forall2 (recovers message relayer) signatures keys /\ NoDup keys /\
    forall k, k ∈ keys -> k ∈ (ibc w).(Ink.oracle_public_keys).

Lemma check_signatures_ok message relayer signatures min w u w' :
  Ink.check_signatures message relayer signatures min w = (Ok u, w') <->
  w' = w /\ signed_by_oracles message relayer signatures min w.
Proof.
  unfold Ink.check_signatures, signed_by_oracles. rewrite bind_ok. setoid_rewrite ensure_ok.
  setoid_rewrite negb_true_iff. setoid_rewrite Z.ltb_ge.
  setoid_rewrite bind_ok. setoid_rewrite check_loop_ok. setoid_rewrite ret_ok. destruct u. split.
  - intros (_ & w1 & [Hm <-] & r & w2 & (-> & keys & ? & ? & Hin & ->) & _ & <-).
    split; [done|]. split; [done|]. exists keys. naive_solver.
  - intros (-> & Hm & keys & Hf & Hd & Hin). exists tt, w. split; [done|].
    exists (list_to_set keys ∪ ∅), w. split; [|done]. split; [done|]. exists keys.
    split; [done|]. split; [done|]. split; [|done]. intros k Hk. split; [auto|set_solver].
Qed.

(** The contract accepts signatures exactly if there are as many as asked for and
    they are, one by one, signatures of the message by different registered oracles;
    one that is not, or that repeats a key, rejects them all, and the check changes
    nothing. *)
Theorem signatures_are_accepted_exactly message relayer signatures min w r w' :
  Ink.check_signatures message relayer signatures min w = (r, w') ->
  w' = w /\ r <> Panic /\ (r = Ok tt <-> signed_by_oracles message relayer signatures min w).
Proof.
  intros Hc.
  assert (w' = w /\ r <> Panic) as [-> Hp].
  { revert Hc. unfold Ink.check_signatures, bind, ensure. destruct (_ <? _); simpl; [by intros [= <- <-]|].
    unfold ret, throw. simpl. generalize (∅ : gset (list Z)). induction signatures as [|sg l IH]; intros seen; simpl.
    { unfold ret. by intros [= <- <-]. }
    unfold bind. rewrite ink_check_signature_run. destruct (Ink.ecdsa_recover _ _); [|by intros [= <- <-]].
    do 2 (case_bool_decide; [|by intros [= <- <-]] || (case_bool_decide; [by intros [= <- <-]|])). apply IH. }
  split; [done|]. split; [done|]. split.
  - intros ->. by apply check_signatures_ok in Hc as [_ Hs].
  - intros Hs. assert (Ink.check_signatures message relayer signatures min w = (Ok tt, w)) as Hc'
      by (by apply check_signatures_ok). congruence.
Qed.

Context (laws : ibc_laws).

(** * Runs of the contract

    What happens to the storage of the contract and to the block, for the steps of a
    message and for whole messages *)
Definition ibc_kept {A} (P : BlockNumber -> Ink.Ibc -> Prop) (m : M W Ink.Error A) : Prop :=
  kept (fun w => P (block w) (ibc w)) m.

Section kept.
Context (P : BlockNumber -> Ink.Ibc -> Prop).
Lemma kept_read {A} (f : Ink.Ibc -> A) : ibc_kept P (Ink.read f).
Proof. apply kept_gets. Qed.
Lemma kept_write f : (forall n s, P n s -> P n (f s)) -> ibc_kept P (Ink.write f).
Proof. intros Hf. apply kept_modify. intros w. rewrite (il_get laws), (il_block laws). apply Hf. Qed.
Lemma kept_put (o : W -> option W) :
  (forall w w', o w = Some w' -> ibc w' = ibc w /\ block w' = block w) ->
  ibc_kept P (let* w := gets id in let* w' := or_panic (o w) in modify (fun _ => w')).
Proof.
  intros Ho w r w' Hw (w1 & w2 & [<- <-]%gets_ok & (w3 & w4 & [Hp <-]%or_panic_ok & <-%modify_ok)%bind_ok)%bind_ok.
  destruct (Ho _ _ Hp) as [-> ->]. exact Hw.
Qed.
Lemma kept_transfer_or_panic c to n : ibc_kept P (transfer_or_panic c to n).
Proof. apply (kept_put (fun w => host_transfer (account_id c) to n w)). apply (il_transfer laws). Qed.
Lemma kept_accept_value c b : ibc_kept P (accept_value c b).
Proof.
  unfold accept_value. destruct (_ =? 0); [apply kept_ret|]. destruct b; [|apply kept_panic].
  apply (kept_put (fun w => host_transfer (caller c) (account_id c) (transferred_value c) w)).
  apply (il_transfer laws).
Qed.
Lemma kept_set_code c h : ibc_kept P (Ink.set_code c h).
Proof. apply (kept_put (fun w => Ink.set_code_hash (account_id c) h w)). apply (il_set_code laws). Qed.
Lemma kept_unpaused : ibc_kept P Ink.ensure_unpaused.
Proof. unfold Ink.ensure_unpaused. apply kept_bind; [apply kept_read|]. intros cfg. apply kept_ensure. Qed.
Lemma kept_check message relayer signatures min :
  ibc_kept P (Ink.check_signatures message relayer signatures min).
Proof. by intros w [] w' Hw [-> _]%check_signatures_ok. Qed.
Lemma ink_kept_process c cc message :
  (forall n s e, P n s -> P n (Ink.set_events (s.(Ink.events) ++ [e]) s)) ->
  ibc_kept P (Ink.process_message c cc message).
Proof.
  intros He. unfold Ink.process_message. destruct (selector cc) as [sel|]; [|by apply kept_write; intros; apply He].
  intros w r w' Hw (w1 & w2 & [<- <-]%gets_ok & Hr)%bind_ok.
  unfold id in Hr. destruct (Ink.invoke _ _ _ _ w) as [a w3] eqn:Ei.
  apply (il_invoke laws) in Ei as [Hi Hb].
  apply bind_ok in Hr as (u & w4 & <-%modify_ok & Hr).
  assert (P (block w3) (ibc w3)) as Hw3 by (rewrite Hi, Hb; exact Hw).
  destruct a; (eapply kept_write; [|exact Hw3|exact Hr]); intros; by apply He.
Qed.
End kept.

(** Sending, as one change of the storage *)
Definition sent (m : Ink.OutgoingMessageWithMeta) (s : Ink.Ibc) : Ink.Ibc :=
  let i := m.(Ink.om_message).(Ink.msg_id) in
  Ink.set_events (s.(Ink.events) ++ [Ink.MessageReadyToSend m])
    (Ink.set_message_counter (saturating_add u128_max s.(Ink.message_counter) 1)
       (Ink.set_outgoing_index (s.(Ink.outgoing_index) ++ [i])
          (Ink.set_outgoing (<[i := m]> s.(Ink.outgoing)) s))).

Lemma do_send_ok sender payer nonce recipient payload ttl fee w m w' :
  Ink.do_send_message sender payer nonce recipient payload ttl fee w = (Ok m, w') <->
  (ibc w).(Ink.config).(Ink.paused) = false /\
  (forall m0, (ibc w).(Ink.outgoing) !! Ink.message_id sender nonce = Some m0 ->
     m0.(Ink.om_ttl_block) < block w) /\
  (ibc w).(Ink.config).(Ink.min_ttl) <= ttl /\
  m = Ink.mkOutgoing (Ink.mkMessage (Ink.message_id sender nonce) sender nonce recipient payload)
        (block w) (saturating_add u32_max (block w) ttl) fee payer /\
  w' = Ink.put_ibc (sent m (ibc w)) w.
Proof.
  unfold Ink.do_send_message, Ink.ensure_unpaused, Ink.current, Ink.read, Ink.write, Ink.emit_event.
  unfold bind, gets, ensure, modify, ret, throw.
  destruct (Ink.paused _); simpl; [naive_solver|].
  destruct (Ink.outgoing _ !! _) as [m0|] eqn:Eo.
  - destruct (Z.leb_spec (block w) (Ink.om_ttl_block m0)); simpl.
    { split; [done|]. intros (_ & Hm & _). specialize (Hm m0 eq_refl). lia. }
    destruct (Z.ltb_spec ttl (Ink.min_ttl (Ink.config (ibc w)))); simpl; [naive_solver lia|].
    rewrite !(il_get laws), !(il_put laws). split.
    + intros [= <- <-]. repeat split; [|lia]. intros m1 [= <-]. lia.
    + intros (_ & _ & _ & -> & ->). done.
  - destruct (Z.ltb_spec ttl (Ink.min_ttl (Ink.config (ibc w)))); simpl; [naive_solver lia|].
    rewrite !(il_get laws), !(il_put laws). split.
    + intros [= <- <-]. repeat split; [done|lia].
    + intros (_ & _ & _ & -> & ->). done.
Qed.

(** A property of what the contract has received or sent, kept by all its messages if
    it is kept by sending, receiving, a delivery and a cleaning of the index *)
Record ibc_stable (P : BlockNumber -> Ink.Ibc -> Prop) : Prop := {
  st_config : forall n s cfg, P n s -> P n (Ink.set_config cfg s);
  st_oracles : forall n s k, P n s -> P n (Ink.set_oracle_public_keys k s);
  st_events : forall n s e, P n s -> P n (Ink.set_events e s);
  st_sent : forall n s payer nonce recipient payload ttl fee,
    let sender := Ink.self_subject (mkCallEnv payer me fee) in
    let message := Ink.mkMessage (Ink.message_id sender nonce) sender nonce recipient payload in
    P n s ->
    P n (sent (Ink.mkOutgoing message n (saturating_add u32_max n ttl) fee payer) s);
  st_delivered : forall n s i, P n s ->
    P n (Ink.set_outgoing_index (filter (fun j => j <> i) s.(Ink.outgoing_index))
           (Ink.set_outgoing (delete i s.(Ink.outgoing)) s));
  st_received : forall n s m, s.(Ink.incoming) !! m.(Ink.im_message).(Ink.msg_id) = None -> P n s ->
    P n (Ink.set_incoming_index (s.(Ink.incoming_index) ++ [m.(Ink.im_message).(Ink.msg_id)])
           (Ink.set_incoming (<[m.(Ink.im_message).(Ink.msg_id) := m]> s.(Ink.incoming)) s));
  st_clean_out : forall n s, P n s ->
    P n (Ink.set_outgoing_index (filter (Ink.retain_outgoing n s) s.(Ink.outgoing_index)) s);
  st_clean_in : forall n s l, P n s -> P n (Ink.set_incoming_index l s);
  st_block : forall n n' s, n <= n' -> P n s -> P n' s;
}.

Lemma ink_accept_ok c sender nonce recipient payload signatures w r w' :
  Ink.accept_message c sender nonce recipient payload signatures w = (Ok r, w') ->
  let i := Ink.message_id sender nonce in
  let message := Ink.mkMessage i sender nonce recipient payload in
  let s := ibc w in
  s.(Ink.incoming) !! i = None /\
  recipient = Ink.AlephZero (Contract r.1) /\
  r.2 = Ink.mkIncoming message (block w) c.(caller) /\
  signed_by_oracles message None signatures s.(Ink.config).(Ink.min_receipt_signatures) w /\
  w' = Ink.put_ibc (Ink.set_incoming_index (s.(Ink.incoming_index) ++ [i])
                      (Ink.set_incoming (<[i := r.2]> s.(Ink.incoming)) s)) w.
Proof.
  intros Ha. unfold Ink.accept_message, Ink.ensure_unpaused, Ink.current, Ink.read in Ha.
  apply bind_ok in Ha as (u & w1 & (cfg & w2 & [<- <-]%gets_ok & [_ <-]%ensure_ok)%bind_ok & Ha).
  apply bind_ok in Ha as (cc & w2 & Hr & Ha).
  destruct recipient as [|[|cc']]; [done..|]. apply ret_ok in Hr as [-> <-].
  apply bind_ok in Ha as (known & w2 & [<- <-]%gets_ok & Ha).
  apply bind_ok in Ha as (u2 & w2 & [Hk <-]%ensure_ok & Ha).
  apply bind_ok in Ha as (b & w2 & [<- <-]%gets_ok & Ha).
  apply bind_ok in Ha as (cfg & w2 & [<- <-]%gets_ok & Ha).
  apply bind_ok in Ha as (u3 & w2 & [-> Hs]%check_signatures_ok & Ha).
  apply bind_ok in Ha as (u4 & w2 & <-%modify_ok & Ha).
  apply bind_ok in Ha as (u5 & w2 & <-%modify_ok & [<- <-]%ret_ok). simpl.
  rewrite (il_get laws), (il_put laws).
  by destruct (Ink.incoming (ibc w) !! _); [done|].
Qed.

Section stable.
Context (P : BlockNumber -> Ink.Ibc -> Prop) (st : ibc_stable P).

Lemma kept_emit e : ibc_kept P (Ink.emit_event e).
Proof. apply kept_write. intros n s. apply (st_events _ st). Qed.
Lemma ink_kept_send payer nonce recipient payload ttl fee :
  ibc_kept P (Ink.do_send_message (Ink.self_subject (mkCallEnv payer me fee)) payer nonce recipient
                payload ttl fee).
Proof.
  intros w m w' Hw (_ & _ & _ & -> & ->)%do_send_ok. rewrite (il_get laws), (il_block laws).
  by apply (st_sent _ st).
Qed.
Lemma ink_kept_receive c sender nonce recipient payload signatures :
  ibc_kept P (Ink.receive_message c sender nonce recipient payload signatures).
Proof.
  apply kept_bind.
  - intros w r w' Hw (Hn & _ & Hm & _ & ->)%ink_accept_ok. rewrite (il_get laws), (il_block laws).
    pose proof (st_received _ st (block w) (ibc w) r.2) as Hs. rewrite Hm in Hs |- *. exact (Hs Hn Hw).
  - intros [cc m]. apply ink_kept_process. intros. by apply (st_events _ st).
Qed.
Lemma ink_kept_confirm c i signatures : ibc_kept P (Ink.confirm_message_delivery c i signatures).
Proof.
  unfold Ink.confirm_message_delivery.
  apply kept_bind; [apply kept_unpaused|intros _]. apply kept_bind; [apply kept_read|intros o].
  apply kept_bind; [apply kept_ok_or|intros m]. apply kept_bind; [apply kept_gets|intros b].
  cbv zeta. apply kept_bind; [apply kept_ensure|intros _]. apply kept_bind; [apply kept_read|intros cfg].
  apply kept_bind; [apply kept_check|intros _]. apply kept_bind; [apply kept_transfer_or_panic|intros _].
  intros w u w' Hw Hr.
  apply bind_ok in Hr as (u1 & w1 & <-%modify_ok & (u2 & w2 & <-%modify_ok & Hr)%bind_ok).
  rewrite (il_get laws), (il_put laws) in Hr. eapply kept_emit; [|exact Hr]. simpl.
  rewrite (il_get laws), (il_block laws). by apply (st_delivered _ st).
Qed.
Lemma kept_configure c actions : ibc_kept P (Ink.configure c actions).
Proof.
  apply kept_bind.
  { unfold Ink.ensure_owner. apply kept_bind; [apply kept_read|]. intros cfg. apply kept_ensure. }
  intros _. apply kept_mfor. intros a.
  destruct a; try (apply kept_write; intros; by apply (st_config _ st)); [apply kept_set_code|].
  apply kept_bind; [|intros [added removed]; apply kept_emit].
  apply kept_mfold. intros [added removed] [k|k];
    (apply kept_bind; [apply kept_write; intros; by apply (st_oracles _ st)|intros _; apply kept_ret]).
Qed.

Lemma kept_run_call who value call : ibc_kept P (Ink.run_call (mkCallEnv who me value) call).
Proof.
  destruct call; [apply kept_configure| | |apply ink_kept_confirm|apply ink_kept_receive| |];
    (apply kept_bind; [apply kept_unpaused|intros _]).
  - cbv zeta. apply kept_bind; [apply ink_kept_send|intros m; apply kept_ret].
  - cbv zeta. apply kept_bind; [apply kept_read|intros n].
    apply kept_bind; [apply ink_kept_send|intros m; apply kept_ret].
  - intros w u w' Hw (b & w1 & [<- <-]%gets_ok & <-%modify_ok)%bind_ok.
    rewrite (il_get laws), (il_block laws). by apply (st_clean_out _ st).
  - intros w u w' Hw (b & w1 & [<- <-]%gets_ok & <-%modify_ok)%bind_ok.
    rewrite (il_get laws), (il_block laws). by apply (st_clean_in _ st).
Qed.

Lemma stable_moves w w' : rtc ibc_moves w w' -> P (block w) (ibc w) -> P (block w') (ibc w').
Proof.
  induction 1 as [|w w1 w2 Hm _ IH]; [done|]. intros Hw. apply IH. clear IH.
  destruct Hm as [who value call w|w w1 Hi Hb].
  - unfold exec. destruct (Ink.dispatch _ call w) as [r w1] eqn:Ed. simpl. unfold Ink.dispatch in Ed.
    eapply (kept_pres (fun w => P (block w) (ibc w))); [|exact Hw|exact Ed].
    apply kept_bind; [apply kept_accept_value|intros _]. apply kept_run_call.
  - rewrite Hi. by eapply (st_block _ st).
Qed.
End stable.

(** * What is sent *)
Definition own_subject : Ink.Subject :=
  Ink.AlephZero (Contract (mkContractCall me (Some Ink.send_message_selector))).

(** Every message that is stored is the contract's own, under its id, and as long as it
    can be delivered relayers find it in the index. *)
Definition outgoing_ok (n : BlockNumber) (s : Ink.Ibc) : Prop := forall i m,
  s.(Ink.outgoing) !! i = Some m ->
  let message := m.(Ink.om_message) in
  message.(Ink.msg_id) = i /\ message.(Ink.msg_sender) = own_subject /\
  i = Ink.hash_sender_nonce own_subject message.(Ink.msg_nonce) /\
  (n < m.(Ink.om_ttl_block) -> i ∈ s.(Ink.outgoing_index)).

Lemma outgoing_stable : ibc_stable outgoing_ok.
Proof.
  split; unfold outgoing_ok; simpl; try done.
  - intros n s payer nonce recipient payload ttl fee Hs i m.
    destruct (decide (Ink.message_id (Ink.self_subject (mkCallEnv payer me fee)) nonce = i)) as [Hi|Hi].
    + rewrite Hi, lookup_insert_eq. intros [= <-]. simpl.
      repeat split; [done|]. intros _. apply elem_of_app. right. by apply list_elem_of_singleton.
    + rewrite lookup_insert_ne by done. intros Hm. destruct (Hs i m Hm) as (? & ? & ? & Hx).
      repeat split; [done..|]. intros Hn. apply elem_of_app. left. auto.
  - intros n s j Hs i m [Hj Hm]%lookup_delete_Some. destruct (Hs i m Hm) as (? & ? & ? & Hx).
    repeat split; [done..|]. intros Hn. apply list_elem_of_filter. split; [congruence|auto].
  - intros n s Hs i m Hm. destruct (Hs i m Hm) as (? & ? & ? & Hx).
    repeat split; [done..|]. intros Hn. apply list_elem_of_filter. split; [|auto].
    unfold Ink.retain_outgoing. rewrite Hm. by apply Is_true_true, Z.ltb_lt.
  - intros n n' s Hn Hs i m Hm. destruct (Hs i m Hm) as (? & ? & ? & Hx).
    repeat split; [done..|]. intros Hn'. apply Hx. lia.
Qed.

(** Relayers find every message that the contract has sent and that can still be
    delivered: in every state of the chain its id is in the index, whatever has been
    cleaned, replaced or confirmed; it is stored under the hash of its sender and
    nonce, and the sender it names is the contract itself, never the caller. *)
Theorem pending_messages_are_listed w0 w i m :
  (ibc w0).(Ink.outgoing) = ∅ -> rtc ibc_moves w0 w ->
  (ibc w).(Ink.outgoing) !! i = Some m ->
  m.(Ink.om_message).(Ink.msg_id) = i /\ m.(Ink.om_message).(Ink.msg_sender) = own_subject /\
  i = Ink.hash_sender_nonce own_subject m.(Ink.om_message).(Ink.msg_nonce) /\
  (block w < m.(Ink.om_ttl_block) -> i ∈ (ibc w).(Ink.outgoing_index)).
Proof.
  intros H0 Hr. apply (stable_moves _ outgoing_stable _ _ Hr). intros j m'. by rewrite H0, lookup_empty.
Qed.

(** A delivery that is confirmed gives the fee back to the account that has paid it, not
    to the relayer, which the contract does not pay. *)
Lemma delivery_returns_the_fee c i signatures w w' :
  Ink.confirm_message_delivery c i signatures w = (Ok tt, w') ->
  exists m wt, (ibc w).(Ink.outgoing) !! i = Some m /\ block w <= m.(Ink.om_ttl_block) /\
    signed_by_oracles m.(Ink.om_message) (Some c.(caller)) signatures
      (ibc w).(Ink.config).(Ink.min_delivery_signatures) w /\
    host_transfer c.(account_id) m.(Ink.om_payer) m.(Ink.om_fee) w = Some wt /\
    (ibc w').(Ink.outgoing) = delete i (ibc w).(Ink.outgoing) /\ block w' = block w.
Proof.
  unfold Ink.confirm_message_delivery, Ink.ensure_unpaused, Ink.read, Ink.current, transfer_or_panic.
  intros Hd. apply bind_ok in Hd as (u & w1 & (cfg & w2 & [<- <-]%gets_ok & [_ <-]%ensure_ok)%bind_ok & Hd).
  apply bind_ok in Hd as (o & w1 & [<- <-]%gets_ok & Hd).
  apply bind_ok in Hd as (m & w1 & [Hm <-]%ok_or_ok & Hd).
  apply bind_ok in Hd as (b & w1 & [<- <-]%gets_ok & Hd).
  apply bind_ok in Hd as (u1 & w1 & [Hb <-]%ensure_ok & Hd). cbv zeta in Hd.
  apply bind_ok in Hd as (cfg1 & w1 & [<- <-]%gets_ok & Hd).
  apply bind_ok in Hd as (u2 & w1 & [-> Hs]%check_signatures_ok & Hd).
  apply bind_ok in Hd as (u3 & w1 & (w2 & w3 & [<- <-]%gets_ok & (wt & w4 & [Ht <-]%or_panic_ok & <-%modify_ok)%bind_ok)%bind_ok & Hd).
  destruct (il_transfer laws _ _ _ _ _ Ht) as [Hi Hbt].
  apply bind_ok in Hd as (u4 & w5 & <-%modify_ok & Hd).
  apply bind_ok in Hd as (u5 & w5 & <-%modify_ok & <-%modify_ok).
  exists m, wt. split; [done|]. split; [by apply negb_true_iff, Z.ltb_ge in Hb|]. split; [done|].
  split; [exact Ht|]. rewrite !(il_get laws), !(il_block laws). simpl. by rewrite Hi.
Qed.

(** * What is received *)
Lemma received_stable i : ibc_stable (fun _ s => is_Some (s.(Ink.incoming) !! i)).
Proof.
  split; simpl; try done. intros n s m _ Hs.
  destruct (decide (Ink.msg_id (Ink.im_message m) = i)) as [->|Hi].
  - rewrite lookup_insert_eq. by eexists.
  - by rewrite lookup_insert_ne.
Qed.
Lemma accept_unpaid c w u w' :
  accept_value (E := Ink.Error) c false w = (Ok u, w') -> w' = w /\ c.(transferred_value) = 0.
Proof.
  unfold accept_value. destruct (Z.eqb_spec (transferred_value c) 0) as [Hz|]; [|by intros []%panic_ok].
  by intros [_ <-]%ret_ok.
Qed.

Lemma receive_ok c sender nonce recipient payload signatures w w' :
  Ink.dispatch c (Ink.ReceiveMessage sender nonce recipient payload signatures) w = (Ok tt, w') ->
  let i := Ink.message_id sender nonce in
  let s := ibc w in
  s.(Ink.incoming) !! i = None /\
  signed_by_oracles (Ink.mkMessage i sender nonce recipient payload) None signatures
    s.(Ink.config).(Ink.min_receipt_signatures) w /\
  is_Some ((ibc w').(Ink.incoming) !! i).
Proof.
  intros Hd. unfold Ink.dispatch in Hd. rewrite with_transaction_ok in Hd.
  apply bind_ok in Hd as (u & w1 & [-> _]%accept_unpaid & Hd).
  apply bind_ok in Hd as ([cc m] & w2 & Ha & Hp). apply ink_accept_ok in Ha as (Hn & _ & _ & Hs & ->).
  split; [done|]. split; [done|].
  eapply (ink_kept_process (fun _ s => is_Some (s.(Ink.incoming) !! _))); [|cbn beta|exact Hp]; [by simpl|].
  rewrite (il_get laws). simpl. rewrite lookup_insert_eq. by eexists.
Qed.

(** C9: A message is received at most once, for good: the signatures that let it in
    are of as many different oracles as the contract asks for, and from then on,
    through whatever happens on the chain, no message with the same sender and nonce
    is accepted, with whatever content and signatures. *)
Theorem messages_are_received_once who sender nonce recipient payload signatures w w1 w2 :
  Ink.dispatch (mkCallEnv who me 0)
    (Ink.ReceiveMessage sender nonce recipient payload signatures) w = (Ok tt, w1) ->
  rtc ibc_moves w1 w2 ->
  signed_by_oracles (Ink.mkMessage (Ink.message_id sender nonce) sender nonce recipient payload) None
    signatures (ibc w).(Ink.config).(Ink.min_receipt_signatures) w /\
  forall c recipient' payload' signatures' r w3,
    Ink.dispatch c (Ink.ReceiveMessage sender nonce recipient' payload' signatures') w2 = (r, w3) ->
    r <> Ok tt /\ w3 = w2.
Proof.
  intros Hd Hr. apply receive_ok in Hd as (_ & Hs & Hi). split; [done|].
  apply (stable_moves _ (received_stable _) _ _ Hr) in Hi.
  intros c recipient' payload' signatures' r w3 Hd3.
  assert (r <> Ok tt) as Hne.
  { intros ->. apply receive_ok in Hd3 as (Hn & _). rewrite Hn in Hi. by destruct Hi. }
  split; [done|]. apply with_transaction_rollback in Hd3 as [[[] ->]|]; done.
Qed.

End ibc.

(** * The chain keeps the rules *)
Section chain.
Context {X : Type} {C : InkChain X} {K : Ink.Crypto} {D : Proxy.Codec}.
Notation W := (InkWorld X).
Notation block w := (host_block_number w).

(** What a call of other contracts may do: contracts that are being executed are not
    called again, and the one for messages changes by its messages only. *)
Definition outside (stack : list AccountId) (w w' : W) : Prop :=
  block w' = block w /\ (ibc_address ∈ stack -> w'.(wi_ibc) = w.(wi_ibc)) /\
  (proxy_address ∈ stack -> w'.(wi_proxy) = w.(wi_proxy)) /\
  rtc (ibc_moves ibc_address) w w'.

Record chain_laws : Prop := {
  cl_transfer : forall a b n (x x' : X), host_transfer a b n x = Some x' ->
    host_block_number x' = host_block_number x;
  cl_set_code : forall a h x x', chain_set_code a h x = Some x' ->
    host_block_number x' = host_block_number x;
  cl_invoke : forall stack a b sel p w, outside stack w (other_invoke stack a b sel p w).2;
  cl_send : forall stack a b n r p ttl w, outside stack w (other_send_message stack a b n r p ttl w).2;
  cl_fulfill : forall stack a b j p w, outside stack w (other_fulfill stack a b j p w).2;
}.
Context (cl : chain_laws).

Lemma world_transfer a b n (w w' : W) : host_transfer a b n w = Some w' ->
  w'.(wi_ibc) = w.(wi_ibc) /\ w'.(wi_proxy) = w.(wi_proxy) /\ block w' = block w.
Proof. intros (x & Hx & ->)%fmap_Some. by apply (cl_transfer cl) in Hx. Qed.
Lemma world_set_code a h (w w' : W) : Ink.set_code_hash a h w = Some w' ->
  w'.(wi_ibc) = w.(wi_ibc) /\ w'.(wi_proxy) = w.(wi_proxy) /\ block w' = block w.
Proof. intros (x & Hx & ->)%fmap_Some. by apply (cl_set_code cl) in Hx. Qed.

(** * The proxy, as seen by the contract for messages

    A property of the storage of that contract and of the block which calls of other
    contracts keep is kept by every message of the proxy. *)
Section proxy.
Context {SM : Proxy.SendMessage W} {CF : Proxy.Consumer W} (Q : W -> Prop).
Hypothesis Q_proxy : forall s w, Q w -> Q (Proxy.put_proxy s w).
Hypothesis Q_same : forall w w', w'.(wi_ibc) = w.(wi_ibc) -> block w' = block w -> Q w -> Q w'.
Hypothesis Q_send : forall a b n r p ttl w, Q w -> Q (Proxy.call_send_message a b n r p ttl w).2.
Hypothesis Q_fulfill : forall a b j p w, Q w -> Q (Proxy.call_fulfill a b j p w).2.
Notation proxy_kept m := (kept (E := Proxy.Error) Q m).

Lemma proxy_read {A} (f : Proxy.Proxy -> A) : proxy_kept (Proxy.read f).
Proof. apply kept_gets. Qed.
Lemma proxy_write f : proxy_kept (Proxy.write f).
Proof. apply kept_modify. intros w. apply Q_proxy. Qed.
Lemma proxy_put (o : W -> option W) :
  (forall w w', o w = Some w' -> w'.(wi_ibc) = w.(wi_ibc) /\ w'.(wi_proxy) = w.(wi_proxy) /\ block w' = block w) ->
  proxy_kept (let* w := gets id in let* w' := or_panic (o w) in modify (fun _ => w')).
Proof.
  intros Ho w r w' Hw (w1 & w2 & [<- <-]%gets_ok & (w3 & w4 & [Hp <-]%or_panic_ok & <-%modify_ok)%bind_ok)%bind_ok.
  destruct (Ho _ _ Hp) as (? & _ & ?). by eapply Q_same.
Qed.
Lemma proxy_transfer c to n : proxy_kept (transfer_or_panic c to n).
Proof. apply (proxy_put (fun w => host_transfer (account_id c) to n w)). apply world_transfer. Qed.
Lemma proxy_accept_value c b : proxy_kept (accept_value c b).
Proof.
  unfold accept_value. destruct (_ =? 0); [apply kept_ret|]. destruct b; [|apply kept_panic].
  apply (proxy_put (fun w => host_transfer (caller c) (account_id c) (transferred_value c) w)).
  apply world_transfer.
Qed.
Lemma proxy_set_code c h : proxy_kept (Proxy.set_code c h).
Proof. apply (proxy_put (fun w => Ink.set_code_hash (account_id c) h w)). apply world_set_code. Qed.
Lemma proxy_unpaused : proxy_kept Proxy.ensure_unpaused.
Proof. apply kept_bind; [apply proxy_read|]. intros cfg. apply kept_ensure. Qed.
Lemma proxy_job i : proxy_kept (Proxy.job_information i).
Proof.
  apply kept_bind.
  - apply kept_bind; [apply proxy_read|]. intros [[v b]|]; [|apply kept_throw].
    destruct (v =? Proxy.V1); [apply kept_ret|apply kept_throw].
  - intros b. unfold Proxy.or_text. destruct (Proxy.decode_job b); [apply kept_throw|apply kept_ret].
Qed.
Lemma proxy_answer {A} (wrap : A -> Proxy.Error) r : proxy_kept (Proxy.call_answer wrap r).
Proof.
  destruct r as [t|t|[[]|e|]]; simpl;
    first [apply (kept_ret Q) | apply (kept_throw Q) | apply (kept_panic Q)].
Qed.
(** A call of another contract, whose answer is then looked at *)
Lemma proxy_call {A} (f : W -> CallResult (outcome A unit) * W) (wrap : A -> Proxy.Error)
  (k : M W Proxy.Error unit) :
  (forall w, Q w -> Q (f w).2) -> proxy_kept k ->
  proxy_kept (let* w := gets id in let '(r, w') := f w in
              modify (fun _ => w');; Proxy.call_answer wrap r;; k).
Proof.
  intros Hf Hk w u w' Hw (w1 & w2 & [<- <-]%gets_ok & Hr)%bind_ok. unfold id in Hr.
  specialize (Hf w Hw). destruct (f w) as [r w1]. simpl in Hf.
  apply bind_ok in Hr as (u1 & w2 & <-%modify_ok & Hr).
  eapply (kept_bind Q (Proxy.call_answer wrap r) (fun _ => k)); [apply proxy_answer|by intros _|exact Hf|exact Hr].
Qed.

Lemma proxy_outgoing c a : proxy_kept (Proxy.outgoing_action c a).
Proof.
  destruct a as [p|i|ids|p|]; [| | | |apply kept_ret].
  - unfold Proxy.outgoing_action, Proxy.register_job. cbv zeta.
    apply kept_bind; [apply proxy_read|intros i]. apply kept_bind; [apply proxy_write|intros _].
    apply kept_bind; [apply kept_ensure|intros _]. apply kept_bind; [apply proxy_read|intros cfg].
    apply kept_bind; [destruct (Proxy.exchange_price _ _); [apply kept_ret|apply kept_panic]|intros cost].
    apply kept_bind; [apply kept_ensure|intros _]. apply kept_bind; [apply proxy_write|intros _]. apply kept_ret.
  - apply kept_bind; [apply proxy_job|intros job]. apply kept_bind; [apply kept_ensure|intros _]. apply kept_ret.
  - apply kept_bind; [|intros _; apply kept_ret]. apply kept_mfor. intros i.
    apply kept_bind; [apply proxy_job|intros job]. apply kept_bind; [apply kept_ensure|intros _].
    apply kept_bind; [apply kept_gets|intros n]. apply kept_ensure.
  - apply kept_bind; [apply proxy_job|intros job]. apply kept_bind; [apply kept_ensure|intros _]. apply kept_ret.
Qed.
Lemma proxy_send_action c a : proxy_kept (Proxy.send_action c a).
Proof.
  unfold Proxy.send_action.
  apply kept_bind; [apply proxy_outgoing|intros p]. apply kept_bind; [apply proxy_read|intros cfg].
  apply kept_bind; [apply proxy_read|intros i]. cbv zeta. apply kept_bind; [apply kept_ensure|intros _].
  apply proxy_call; [|apply proxy_write]. intros w. apply Q_send.
Qed.
Lemma proxy_receive c p : proxy_kept (Proxy.receive_action c p).
Proof.
  unfold Proxy.receive_action. apply kept_bind; [apply proxy_unpaused|intros _].
  apply kept_bind.
  { unfold Proxy.decode_incoming_action, Proxy.or_text.
    destruct (Proxy.decode_incoming p); [apply kept_throw|apply kept_ret]. }
  intros a. apply kept_bind; [|intros _; apply proxy_write].
  destruct (Proxy.ia_payload a) as [j q|j q|]; [| |apply kept_ret].
  - apply kept_bind; [apply proxy_job|intros job]. cbv zeta.
    apply kept_bind; [apply proxy_transfer|intros _; apply proxy_write].
  - apply kept_bind; [apply proxy_job|intros job].
    apply kept_bind; [destruct (_ <=? _); [apply kept_ret|apply kept_panic]|intros _]. cbv zeta.
    apply kept_bind; [destruct (0 <? _); [apply proxy_transfer|apply kept_ret]|intros _; apply proxy_write].
Qed.
Lemma proxy_fulfill c j p : proxy_kept (Proxy.fulfill c j p).
Proof.
  unfold Proxy.fulfill. apply kept_bind; [apply proxy_unpaused|intros _].
  apply kept_bind; [apply proxy_job|intros job]. apply kept_bind; [apply kept_ensure|intros _].
  apply kept_bind; [apply kept_ensure|intros _].
  apply kept_bind.
  { unfold Proxy.refill_fee. cbv zeta. destruct (_ && _); [|apply kept_ret].
    apply kept_bind; [apply proxy_transfer|intros _]. apply kept_bind; [apply proxy_write|intros _]. apply kept_ret. }
  intros job'. apply proxy_call; [|apply proxy_write]. intros w. apply Q_fulfill.
Qed.
Lemma proxy_dispatch c call w : Q w -> Q (exec (Proxy.dispatch c call) w).
Proof.
  intros Hw. unfold exec. destruct (Proxy.dispatch c call w) as [r w'] eqn:E. simpl.
  eapply (kept_pres Q); [|exact Hw|exact E]. apply kept_bind; [apply proxy_accept_value|intros _].
  destruct call as [actions|actions|p|j p]; [| |apply proxy_receive|apply proxy_fulfill].
  - apply kept_bind.
    { apply kept_bind; [apply proxy_read|]. intros cfg. apply kept_ensure. }
    intros _. apply kept_mfor. intros []; try apply proxy_write. apply proxy_set_code.
  - apply kept_bind; [apply proxy_unpaused|intros _]. apply kept_mfor. apply proxy_send_action.
Qed.
End proxy.

(** While a message is being delivered, the proxy leaves the contract for messages
    alone: it cannot send. *)
Lemma reentrant_dispatch c call (w : W) :
  let w' := exec (Proxy.dispatch (SM := reentrant_send) (CF := reentrant_consumer) c call) w in
  w'.(wi_ibc) = w.(wi_ibc) /\ block w' = block w.
Proof.
  cbv zeta. apply (proxy_dispatch (SM := reentrant_send) (CF := reentrant_consumer) (fun w' => w'.(wi_ibc) = w.(wi_ibc) /\ block w' = block w)); try done.
  - intros w1 w2 -> ->. done.
  - intros a b n r p ttl w1 [Hi Hb]. simpl. case_bool_decide; [done|].
    destruct (cl_send cl [ibc_address; proxy_address] a b n r p ttl w1) as (Eb & Ei & _).
    split; [rewrite Ei; [done|set_solver]|etrans; [exact Eb|exact Hb]].
  - intros a b j p w1 [Hi Hb]. simpl. case_bool_decide; [done|].
    destruct (cl_fulfill cl [ibc_address; proxy_address] a b j p w1) as (Eb & Ei & _).
    split; [rewrite Ei; [done|set_solver]|etrans; [exact Eb|exact Hb]].
Qed.

Lemma world_ibc_laws : ibc_laws (W := W).
Proof.
  split; try done.
  - intros a b n w w' Hw. apply world_transfer in Hw. naive_solver.
  - intros a b sel p w r w' Hi. simpl in Hi.
    destruct (b =? ibc_address); [by injection Hi as <- <-|]. destruct (b =? proxy_address).
    + destruct (decode_proxy_call sel p) as [call|]; [|by injection Hi as <- <-].
      pose proof (reentrant_dispatch (mkCallEnv a proxy_address 0) call w) as Hd.
      unfold exec in Hd. destruct (Proxy.dispatch _ call w) as [[] w1]; by injection Hi as <- <-.
    + pose proof (cl_invoke cl [ibc_address] a b sel p w) as (Hb & Hs & _).
      rewrite Hi in Hb, Hs. split; [|done]. apply Hs. set_solver.
  - intros a h w w' Hw. apply world_set_code in Hw. naive_solver.
Qed.

(** Every step of the chain is, for the contract for messages, a sequence of its own
    messages. *)
Lemma ink_step_moves (w w' : W) : ink_step w w' -> rtc (ibc_moves ibc_address) w w'.
Proof.
  intros [[who value call|who value call] w1 _|x w1 Hb].
  - apply rtc_once, moves_call.
  - unfold run_ink_call. apply (proxy_dispatch (fun w2 => rtc (ibc_moves ibc_address) w1 w2)); [| | | |done].
    + intros s w2 Hr. etrans; [exact Hr|]. by apply rtc_once, moves_outside.
    + intros w2 w3 Hi Hb Hr. etrans; [exact Hr|]. apply rtc_once, moves_outside; [done|lia].
    + intros a b n r p ttl w2 Hr. etrans; [exact Hr|]. simpl.
      destruct (b =? ibc_address).
      * pose proof (moves_call ibc_address a 0 (Ink.SendMessage n r p ttl) w2) as Hm. unfold exec in Hm.
        destruct (Ink.dispatch _ _ w2) as [[] w3]; by apply rtc_once.
      * destruct (b =? proxy_address); [done|].
        destruct (cl_send cl [proxy_address] a b n r p ttl w2) as (_ & _ & _ & Hm). exact Hm.
    + intros a b j p w2 Hr. etrans; [exact Hr|]. simpl. destruct (b =? proxy_address); [done|].
      destruct (cl_fulfill cl [proxy_address] a b j p w2) as (_ & _ & _ & Hm). exact Hm.
  - apply rtc_once, moves_outside; [done|exact Hb].
Qed.
Lemma ink_steps_moves (w w' : W) : rtc ink_step w w' -> rtc (ibc_moves ibc_address) w w'.
Proof. induction 1 as [|w w1 w2 Hs _ IH]; [done|]. etrans; [by apply ink_step_moves|exact IH]. Qed.
End chain.
