(* ===== verification/InkJobs.v ===== *)
(** What the users of the proxy on Aleph Zero ask for and what arrives on Acurast: the
    proxy, the contract for messages and the decoder of [Hyperdrive.v] in a row, and
    the one contract address in which the two ends do not agree. *)
From S2P Require Import Prelude Schedules JobTypes BridgeTypes Ibc Hyperdrive Attestations.
From S2P Require Import Reputation Jobs Matching Contracts InkIbc InkProxy InkChain.
From S2P Require Import InkSpecs.
From stdpp Require Import strings.
#[local] Open Scope Z_scope.
#[local] Open Scope monad_scope.

(** * Values of the types of the wire *)
Definition uint (width : Z) (n : Z) : Prop := 0 <= n < 256 ^ width.
Definition bytes_ok (l : list Z) : Prop := Forall (uint 1) l /\ Z.of_nat (length l) < 2 ^ 30.
Definition address_ok (l : list Z) : Prop := Forall (uint 1) l /\ length l = 32%nat.
Definition option_ok {A} (P : A -> Prop) (o : option A) : Prop := from_option P True o.
Definition list_ok {A} (P : A -> Prop) (l : list A) : Prop := Forall P l /\ Z.of_nat (length l) < 2 ^ 30.

Definition schedule_ok (s : ScheduleV1) : Prop :=
  uint 8 s.(v1_duration) /\ uint 8 s.(v1_start_time) /\ uint 8 s.(v1_end_time) /\
  uint 8 s.(v1_interval) /\ uint 8 s.(v1_max_start_delay).
Definition strategy_ok (s : AssignmentStrategyV1) : Prop :=
  match s with
  | SingleV1 o => option_ok (list_ok (fun e => address_ok e.(v1_source) /\ uint 8 e.(v1_start_delay))) o
  | CompetingV1 => True
  end.
Definition requirements_ok (r : JobRequirementsV1) : Prop :=
  strategy_ok r.(v1_assignment_strategy) /\ uint 1 r.(v1_slots) /\ uint 16 r.(v1_reward) /\
  option_ok (uint 16) r.(v1_min_reputation).
Definition registration_ok (r : JobRegistrationV1) : Prop :=
  bytes_ok r.(v1_script) /\ option_ok (list_ok address_ok) r.(v1_allowed_sources) /\
  schedule_ok r.(v1_schedule) /\ uint 4 r.(v1_memory) /\ uint 4 r.(v1_network_requests) /\
  uint 4 r.(v1_storage) /\ list_ok (uint 2) r.(v1_required_modules) /\ requirements_ok r.(v1_extra).
Definition variables_ok (l : list (list Z * list Z)) : Prop :=
  list_ok (fun kv => bytes_ok kv.1 /\ bytes_ok kv.2) l.
Definition payload_ok (p : OutgoingActionPayloadV1) : Prop :=
  match p with
  | RegisterJobV1 r => uint 16 r.(v1_job_id) /\ registration_ok r.(v1_job_registration)
  | DeregisterJobV1 i => uint 16 i
  | FinalizeJobV1 l => list_ok (uint 16) l
  | SetJobEnvironmentV1 e =>
      uint 16 e.(v1_env_job_id) /\ bytes_ok e.(v1_public_key) /\
      list_ok (fun q => address_ok q.(v1_address) /\ variables_ok q.(v1_variables)) e.(v1_processors)
  | NoopV1 => True
  end.
(** and of the arguments of the proxy *)
Definition action_ok (a : Proxy.UserAction) : Prop :=
  match a with
  | Proxy.RegisterJob r => registration_ok r.(Proxy.ru_job_registration)
  | Proxy.DeregisterJob i => uint 16 i
  | Proxy.FinalizeJob l => list_ok (uint 16) l
  | Proxy.SetJobEnvironment e =>
      uint 16 e.(Proxy.se_job_id) /\ bytes_ok e.(Proxy.se_public_key) /\
      list_ok (fun q => uint 32 q.(Proxy.sp_address) /\ variables_ok q.(Proxy.sp_variables))
        e.(Proxy.se_processors)
  | Proxy.Noop => True
  end.

Section jobs.
Context {X : Type} {C : InkChain X} {K : Ink.Crypto} {D : Proxy.Codec}.
Context {B : BridgeExternals} {BC : BridgeConfig} {JC : JobConfig}.
Notation W := (InkWorld X).
Notation block w := (host_block_number w).

(** What the derived codecs of the two ends owe each other *)
Record wire_laws : Prop := {
  wl_payload : forall p, payload_ok p ->
    scale_decode_payload_v1 (Proxy.encode_payload p) = Some p /\ Forall (uint 1) (Proxy.encode_payload p);
  wl_raw : forall id origin version payload,
    uint 8 id -> uint 32 origin -> uint 2 version -> Forall (uint 1) payload ->
    let encoded := Proxy.encode_raw_action (Proxy.mkRawOutgoingAction id origin version payload) in
    Z.of_nat (length encoded) < 2 ^ 30 ->
    scale_decode_raw_outgoing encoded =
      Some {| raw_id := id; raw_origin := Proxy.account_to_bytes origin;
              raw_payload_version := version; raw_payload := payload |};
  wl_account : forall a, uint 32 a ->
    address_ok (Proxy.account_to_bytes a) /\ parse_account_id (Proxy.account_to_bytes a) = Some a;
  wl_parse : forall l, address_ok l -> is_Some (parse_account_id l);
}.

(** * What the proxy makes of an action *)
Definition creator_of (s : Proxy.Proxy) (i : Z) (who : AccountId) : Prop :=
  exists job_bytes job, s.(Proxy.job_info) !! i = Some (Proxy.V1, job_bytes) /\
    Proxy.decode_job job_bytes = inr job /\ job.(Proxy.ji_creator) = who.

Lemma job_information_ok i (w : W) job w' :
  Proxy.job_information i w = (Ok job, w') ->
  w' = w /\ exists job_bytes, w.(wi_proxy).(Proxy.job_info) !! i = Some (Proxy.V1, job_bytes) /\
    Proxy.decode_job job_bytes = inr job.
Proof.
  intros (jb & w1 & (o & w2 & [<- <-]%gets_ok & Hg)%bind_ok & Hd)%bind_ok.
  destruct (Proxy.job_info _ !! i) as [[v jb']|] eqn:Ej; [|by apply throw_ok in Hg].
  destruct (Z.eqb_spec v Proxy.V1) as [->|]; [|by apply throw_ok in Hg].
  apply ret_ok in Hg as [-> <-]. unfold Proxy.or_text in Hd.
  destruct (Proxy.decode_job jb) as [|job'] eqn:Ed; [by apply throw_ok in Hd|].
  apply ret_ok in Hd as [-> <-]. split; [done|]. by exists jb.
Qed.
Lemma created_by c i (w : W) {A} (k : Proxy.JobInformationV1 -> M W Proxy.Error A) a w' :
  (let* job := Proxy.job_information i in Proxy.ensure_creator c job;; k job) w = (Ok a, w') ->
  creator_of w.(wi_proxy) i c.(caller) /\ exists job, k job w = (Ok a, w').
Proof.
  intros (job & w1 & [-> (jb & Hj & Hd)]%job_information_ok & (u & w2 & [Hc <-]%ensure_ok & Hk)%bind_ok)%bind_ok.
  split; [|by exists job]. exists jb, job. apply Z.eqb_eq in Hc. by repeat split.
Qed.

(** The payload of an action, and who may ask for it *)
Definition asks (s : Proxy.Proxy) (who : AccountId) (a : Proxy.UserAction)
  (p : OutgoingActionPayloadV1) : Prop :=
  match a with
  | Proxy.RegisterJob r =>
      p = RegisterJobV1 {| v1_job_id := s.(Proxy.next_job_id);
                           v1_job_registration := r.(Proxy.ru_job_registration) |}
  | Proxy.DeregisterJob i => p = DeregisterJobV1 i /\ creator_of s i who
  | Proxy.FinalizeJob l => p = FinalizeJobV1 l /\ forall i, i ∈ l -> creator_of s i who
  | Proxy.SetJobEnvironment e =>
      p = SetJobEnvironmentV1 {| v1_env_job_id := e.(Proxy.se_job_id);
                                 v1_public_key := e.(Proxy.se_public_key);
                                 v1_processors := Proxy.environment_of <$> e.(Proxy.se_processors) |} /\
      creator_of s e.(Proxy.se_job_id) who
  | Proxy.Noop => p = NoopV1
  end.

Lemma finalize_checked c l (w w' : W) u :
  mfor l (Proxy.check_finalize c) w = (Ok u, w') ->
  w' = w /\ forall i, i ∈ l -> creator_of w.(wi_proxy) i c.(caller).
Proof.
  revert w. induction l as [|i l IH]; intros w; simpl.
  - intros [_ <-]%ret_ok. split; [done|]. by intros i ?%elem_of_nil.
  - intros (u1 & w1 & H1 & H2)%bind_ok. apply created_by in H1 as [Hc (job & H1)].
    apply bind_ok in H1 as (n & w2 & [<- <-]%gets_ok & [_ <-]%ensure_ok).
    apply IH in H2 as [-> Hl]. split; [done|]. intros j [->|Hj]%elem_of_cons; auto.
Qed.

Lemma outgoing_action_ok c a (w : W) p w1 :
  Proxy.outgoing_action c a w = (Ok p, w1) ->
  asks w.(wi_proxy) c.(caller) a p /\ w1.(wi_ibc) = w.(wi_ibc) /\ w1.(wi_chain) = w.(wi_chain) /\
  w1.(wi_proxy).(Proxy.config) = w.(wi_proxy).(Proxy.config) /\
  w1.(wi_proxy).(Proxy.next_outgoing_action_id) = w.(wi_proxy).(Proxy.next_outgoing_action_id).
Proof.
  destruct a as [r|i|l|e|]; simpl.
  - intros (j & w2 & [<- <-]%gets_ok & Hr)%bind_ok. apply bind_ok in Hr as (u & w2 & <-%modify_ok & Hr). simpl in Hr.
    apply bind_ok in Hr as (u1 & w2 & [_ <-]%ensure_ok & Hr).
    apply bind_ok in Hr as (cfg & w2 & [<- <-]%gets_ok & Hr).
    apply bind_ok in Hr as (cost & w2 & [_ <-]%or_panic_ok & Hr).
    apply bind_ok in Hr as (u2 & w2 & [_ <-]%ensure_ok & Hr).
    apply bind_ok in Hr as (u3 & w2 & <-%modify_ok & [<- <-]%ret_ok). simpl. done.
  - intros [Hc (job & [<- <-]%ret_ok)]%created_by. done.
  - intros (u & w2 & [-> Hl]%finalize_checked & [<- <-]%ret_ok)%bind_ok. done.
  - intros [Hc (job & [<- <-]%ret_ok)]%created_by. done.
  - intros [<- <-]%ret_ok. done.
Qed.

(** * Sending an action *)
Notation own := (own_subject ibc_address).
Context (cl : chain_laws (X := X)).
Notation il := (world_ibc_laws cl).

Lemma call_ibc_ok nonce recipient payload ttl (w w' : W) :
  Proxy.call_send_message proxy_address ibc_address nonce recipient payload ttl w = (Returned (Ok tt), w') ->
  exists m, m.(Ink.om_message) = Ink.mkMessage (Ink.hash_sender_nonce own nonce) own nonce recipient payload /\
    m.(Ink.om_payer) = proxy_address /\ m.(Ink.om_fee) = 0 /\
    w' = Ink.put_ibc (sent m w.(wi_ibc)) w.
Proof.
  simpl. rewrite Z.eqb_refl. destruct (Ink.dispatch _ _ w) as [[[]|e|] w1] eqn:Ed; [|done..].
  intros [= <-]. unfold Ink.dispatch in Ed. rewrite with_transaction_ok in Ed.
  apply bind_ok in Ed as (u & w2 & [_ <-]%ret_ok & Ed).
  apply bind_ok in Ed as (u1 & w2 & (cfg & w3 & [<- <-]%gets_ok & [_ <-]%ensure_ok)%bind_ok & Ed).
  apply bind_ok in Ed as (m & w2 & (_ & _ & _ & Hm & ->)%(do_send_ok il) & [_ <-]%ret_ok).
  exists m. subst m. done.
Qed.

Lemma send_action_ok c a (w w' : W) u :
  c.(account_id) = proxy_address -> w.(wi_proxy).(Proxy.config).(Proxy.ibc) = ibc_address ->
  Proxy.send_action c a w = (Ok u, w') ->
  let s := w.(wi_proxy) in
  let nonce := Proxy.hash_action_id s.(Proxy.next_outgoing_action_id) in
  exists p m, asks s c.(caller) a p /\
    let encoded := Proxy.encode_raw_action
      (Proxy.mkRawOutgoingAction s.(Proxy.next_outgoing_action_id) c.(caller)
         s.(Proxy.config).(Proxy.payload_version) (Proxy.encode_payload p)) in
    Z.of_nat (length encoded) < s.(Proxy.config).(Proxy.max_message_bytes) /\
    m.(Ink.om_message) = Ink.mkMessage (Ink.hash_sender_nonce own nonce) own nonce
      (Ink.Acurast (Extrinsic s.(Proxy.config).(Proxy.acurast_pallet_account))) encoded /\
    w'.(wi_ibc).(Ink.outgoing) = <[m.(Ink.om_message).(Ink.msg_id) := m]> w.(wi_ibc).(Ink.outgoing) /\
    w'.(wi_proxy).(Proxy.next_outgoing_action_id)
      = wrapping_add u64_max s.(Proxy.next_outgoing_action_id) 1.
Proof.
  intros Hme Hibc Hs. unfold Proxy.send_action in Hs.
  apply bind_ok in Hs as (p & w1 & (Ha & Hi & Hx & Hcfg & Hid)%outgoing_action_ok & Hs).
  apply bind_ok in Hs as (cfg & w2 & [<- <-]%gets_ok & Hs).
  apply bind_ok in Hs as (k & w2 & [<- <-]%gets_ok & Hs).
  apply bind_ok in Hs as (u1 & w2 & [Hlen%Z.ltb_lt <-]%ensure_ok & Hs).
  apply bind_ok in Hs as (w2 & w3 & [<- <-]%gets_ok & Hs). cbv beta zeta in Hs.
  change (Proxy.proxy_of w1) with (wi_proxy w1) in *. rewrite Hcfg, Hid, Hme, Hibc in Hs.
  rewrite Hcfg, Hid in Hlen. unfold id in Hs.
  destruct (Proxy.call_send_message _ _ _ _ _ _ w1) as [r w2] eqn:Ec.
  apply bind_ok in Hs as (u2 & w3 & <-%modify_ok & Hs).
  apply bind_ok in Hs as (u3 & w3 & Hr & <-%modify_ok).
  destruct r as [t|t|[[]|e|]]; simpl in Hr; [by apply throw_ok in Hr..| |by apply throw_ok in Hr|by apply panic_ok in Hr].
  apply ret_ok in Hr as [_ <-]. apply call_ibc_ok in Ec as (m & Hm & _ & _ & ->).
  exists p, m. split; [done|]. split; [done|]. split; [done|]. simpl. rewrite Hi, Hid. done.
Qed.

Context (wl : wire_laws).

(** * What arrives on Acurast *)

(** ** A registration on the wire and one of the pallet that say the same *)
Definition planned_meant (e : PlannedExecutionV1) (p : PlannedExecution) : Prop :=
  parse_account_id e.(v1_source) = Some p.(pe_source) /\ p.(pe_start_delay) = e.(v1_start_delay).
Definition strategy_meant (s : AssignmentStrategyV1) (s' : AssignmentStrategy) : Prop :=
  match s, s' with
  | SingleV1 o, Single o' => option_Forall2 (Forall2 planned_meant) o o'
  | CompetingV1, Competing => True
  | _, _ => False
  end.
Definition module_number (m : JobModule) : Z :=
  match m with DataEncryption => 0 | LLM => 1 | ShellModule => 2 end.

Record registration_meant (j : JobRegistrationV1) (r : JobRegistration) : Prop := {
  rm_script : r.(script) = take (Z.to_nat SCRIPT_MAX_LENGTH) j.(v1_script);
  rm_sources : option_Forall2 (Forall2 (fun b a => parse_account_id b = Some a))
                 j.(v1_allowed_sources) r.(allowed_sources);
  rm_verified : r.(allow_only_verified_sources) = j.(v1_allow_only_verified_sources);
  rm_duration : r.(schedule).(duration) = j.(v1_schedule).(v1_duration);
  rm_start : r.(schedule).(start_time) = j.(v1_schedule).(v1_start_time);
  rm_end : r.(schedule).(end_time) = j.(v1_schedule).(v1_end_time);
  rm_interval : r.(schedule).(interval) = j.(v1_schedule).(v1_interval);
  rm_delay : r.(schedule).(max_start_delay) = j.(v1_schedule).(v1_max_start_delay);
  rm_memory : r.(memory) = j.(v1_memory);
  rm_requests : r.(network_requests) = j.(v1_network_requests);
  rm_storage : r.(storage) = j.(v1_storage);
  rm_modules : module_number <$> r.(required_modules) = j.(v1_required_modules);
  rm_strategy : strategy_meant j.(v1_extra).(v1_assignment_strategy) r.(extra).(assignment_strategy);
  rm_slots : r.(extra).(slots) = j.(v1_extra).(v1_slots);
  rm_reward : r.(extra).(reward) = j.(v1_extra).(v1_reward);
  rm_reputation : r.(extra).(min_reputation) = j.(v1_extra).(v1_min_reputation);
  rm_version : r.(extra).(processor_version) = None;
  rm_runtime : r.(extra).(runtime) = NodeJS;
}.

(** The bounds of the pallet that a registration on the wire may exceed *)
Definition at_most {A} (n : Z) (l : list A) : Prop := Z.of_nat (length l) <= n.
Definition strategy_fits (s : AssignmentStrategyV1) : Prop :=
  match s with SingleV1 (Some l) => at_most MaxSlots l | _ => True end.
Definition modules_fit (l : list Z) : Prop :=
  Forall (fun n => n = 0 \/ n = 1 \/ n = 2) l /\ at_most MAX_JOB_MODULES l.
Definition fits (j : JobRegistrationV1) : Prop :=
  strategy_fits j.(v1_extra).(v1_assignment_strategy) /\
  from_option (at_most MaxAllowedSources) True j.(v1_allowed_sources) /\
  modules_fit j.(v1_required_modules).

Definition fails {E A} (o : outcome E A) : Prop := exists e, o = Err e.

Lemma collect_meant {E U V} (f : U -> outcome E V) (Q : U -> V -> Prop) l :
  Forall (fun x => exists y, f x = Ok y /\ Q x y) l ->
  exists ys, collect_results f l = Ok ys /\ Forall2 Q l ys /\ length ys = length l.
Proof.
  induction 1 as [|x l (y & Hy & Hq) _ (ys & Hys & Hf & Hl)]; [by exists []|].
  exists (y :: ys). cbn [collect_results]. rewrite Hy. cbn [and_then]. rewrite Hys. simpl.
  rewrite Hl. split; [done|]. split; [by constructor|done].
Qed.
Lemma convert_meant l : address_ok l -> exists a, convert_account_id l = Ok a /\ parse_account_id l = Some a.
Proof. intros [a Ha]%(wl_parse wl). exists a. unfold convert_account_id, ok_or_else. by rewrite Ha. Qed.

Lemma strategy_decoded s : strategy_ok s ->
  (strategy_fits s /\ exists s', decode_strategy s = Ok s' /\ strategy_meant s s') \/
  (~ strategy_fits s /\ fails (decode_strategy s)).
Proof.
  destruct s as [[l|]|]; simpl; intros Hok.
  - destruct Hok as [Hok _].
    destruct (collect_meant decode_execution planned_meant l) as (ys & Hys & Hf & Hl).
    { eapply Forall_impl; [exact Hok|]. intros e [(a & Ha & Hp)%convert_meant _].
      unfold decode_execution. rewrite Ha. simpl. by eexists. }
    rewrite Hys. cbn [and_then]. unfold check, at_most. rewrite Hl.
    destruct (Z.leb_spec (Z.of_nat (length l)) MaxSlots); simpl.
    + left. split; [done|]. exists (Single (Some ys)). split; [done|]. by constructor.
    + right. split; [lia|by eexists].
  - left. split; [done|]. exists (Single None). split; [done|]. constructor.
  - left. split; [done|]. by exists Competing.
Qed.

Lemma sources_decoded o : option_ok (list_ok address_ok) o ->
  (from_option (at_most MaxAllowedSources) True o /\ exists o', decode_sources o = Ok o' /\
     option_Forall2 (Forall2 (fun b a => parse_account_id b = Some a)) o o') \/
  (~ from_option (at_most MaxAllowedSources) True o /\ fails (decode_sources o)).
Proof.
  destruct o as [l|]; simpl; intros Hok.
  - destruct Hok as [Hok _].
    destruct (collect_meant convert_account_id (fun b a => parse_account_id b = Some a) l)
      as (ys & Hys & Hf & Hl).
    { eapply Forall_impl; [exact Hok|]. intros b Hb. by apply convert_meant. }
    rewrite Hys. cbn [and_then]. unfold check, at_most. rewrite Hl.
    destruct (Z.leb_spec (Z.of_nat (length l)) MaxAllowedSources); simpl.
    + left. split; [done|]. exists (Some ys). split; [done|]. by constructor.
    + right. split; [lia|by eexists].
  - left. split; [done|]. exists None. split; [done|]. constructor.
Qed.

Lemma collect_modules l :
  let m := collect_results (E := SubstrateMessageDecoderError)
             (fun item => ok_or_else (job_module_try_from item) InvalidJobModule) l in
  (Forall (fun n => n = 0 \/ n = 1 \/ n = 2) l /\ exists ms, m = Ok ms /\ module_number <$> ms = l) \/
  (~ Forall (fun n => n = 0 \/ n = 1 \/ n = 2) l /\ fails m).
Proof.
  induction l as [|n l IH]; [left; split; [constructor|by exists []]|]. cbn [collect_results].
  assert ((exists md, job_module_try_from n = Some md /\ module_number md = n) \/
          (job_module_try_from n = None /\ ~ (n = 0 \/ n = 1 \/ n = 2))) as [(md & Hmd & Hn)|[Hmd Hn]].
  { destruct n as [|[[?|?|]|[?|?|]|]|?]; simpl; try (right; split; [done|lia]); left;
      [by exists DataEncryption|by exists ShellModule|by exists LLM]. }
  - rewrite Hmd. cbn [ok_or_else and_then]. destruct IH as [[Hl (ms & -> & Hms)]|[Hl [e ->]]]; cbn [and_then].
    + left. split; [constructor; [subst n; destruct md; simpl; lia|done]|]. exists (md :: ms).
      split; [done|]. rewrite fmap_cons. by rewrite Hn, Hms.
    + right. split; [by intros [_ ?]%Forall_cons|by eexists].
  - right. rewrite Hmd. split; [by intros [? _]%Forall_cons|by eexists].
Qed.
Lemma modules_decoded l :
  (modules_fit l /\ exists ms, decode_modules l = Ok ms /\ module_number <$> ms = l) \/
  (~ modules_fit l /\ fails (decode_modules l)).
Proof.
  unfold decode_modules, modules_fit, at_most.
  destruct (collect_modules l) as [[Hl (ms & -> & Hms)]|[Hl [e ->]]]; cbn [and_then].
  - assert (length ms = length l) as -> by (rewrite <-Hms; by rewrite length_fmap).
    unfold check. destruct (Z.leb_spec (Z.of_nat (length l)) MAX_JOB_MODULES); simpl.
    + left. split; [done|by exists ms].
    + right. split; [intros [_ ?]; lia|by eexists].
  - right. split; [by intros [? _]|by eexists].
Qed.

Lemma registration_decoded j : registration_ok j ->
  (fits j /\ exists r, decode_registration j = Ok r /\ registration_meant j r) \/
  (~ fits j /\ fails (decode_registration j)).
Proof.
  intros (_ & Hsrc & _ & _ & _ & _ & _ & Hst & _). unfold decode_registration, fits.
  destruct (strategy_decoded _ Hst) as [[? (st & -> & ?)]|[? [e ->]]]; cbn [and_then];
    [|right; split; [tauto|by eexists]].
  destruct (sources_decoded _ Hsrc) as [[? (so & -> & ?)]|[? [e ->]]]; cbn [and_then];
    [|right; split; [tauto|by eexists]].
  destruct (modules_decoded (v1_required_modules j)) as [[? (ms & -> & ?)]|[? [e ->]]]; cbn [and_then];
    [|right; split; [tauto|by eexists]].
  left. split; [done|]. eexists. split; [done|]. by constructor.
Qed.

(** ** The actions *)
Definition environment_arrives (key : list Z) (e : Proxy.SetJobEnvironmentProcessor)
  : AccountId * Environment :=
  (e.(Proxy.sp_address),
   {| public_key := take (Z.to_nat PUB_KEYS_MAX_LENGTH) key;
      variables := take (Z.to_nat MaxEnvVars)
        ((fun '(k, v) => (take (Z.to_nat EnvKeyMaxSize) k, take (Z.to_nat EnvValueMaxSize) v))
           <$> e.(Proxy.sp_variables)) |}).

(** What becomes of an action of [who]: the action it is decoded to, or an error *)
Definition arrives (s : Proxy.Proxy) (who : AccountId) (a : Proxy.UserAction)
  (decoded : outcome SubstrateMessageDecoderError ParsedAction) : Prop :=
  let origin := AlephZero who in
  match a with
  | Proxy.RegisterJob r =>
      (fits r.(Proxy.ru_job_registration) /\ exists registration,
         decoded = Ok (RegisterJob (origin, s.(Proxy.next_job_id)) registration) /\
         registration_meant r.(Proxy.ru_job_registration) registration) \/
      (~ fits r.(Proxy.ru_job_registration) /\ fails decoded)
  | Proxy.DeregisterJob i => decoded = Ok (DeregisterJob (origin, i))
  | Proxy.FinalizeJob l => decoded = Ok (FinalizeJobAction (pair origin <$> l))
  | Proxy.SetJobEnvironment e =>
      decoded = Ok (SetJobEnvironment (origin, e.(Proxy.se_job_id))
        (take (Z.to_nat MaxSlots)
           (environment_arrives e.(Proxy.se_public_key) <$> e.(Proxy.se_processors))))
  | Proxy.Noop => decoded = Ok ParsedNoop
  end.


Lemma environments_arrive key l :
  Forall (fun q => uint 32 q.(Proxy.sp_address) /\ variables_ok q.(Proxy.sp_variables)) l ->
  collect_results (decode_environment key) (Proxy.environment_of <$> l)
  = Ok (environment_arrives key <$> l).
Proof.
  induction 1 as [|e l [He _] _ IH]; [done|]. rewrite !fmap_cons. cbn [collect_results].
  assert (decode_environment key (Proxy.environment_of e) = Ok (environment_arrives key e)) as ->.
  { unfold decode_environment, convert_account_id, ok_or_else. simpl.
    by rewrite (proj2 (wl_account wl _ He)). }
  cbn [and_then]. by rewrite IH.
Qed.

Lemma asks_payload_ok s who a p :
  asks s who a p -> action_ok a -> uint 16 s.(Proxy.next_job_id) -> payload_ok p.
Proof.
  destruct a as [r|i|l|e|]; simpl; [intros -> ? ?; done|by intros [-> _]|by intros [-> _]| |by intros ->].
  intros [-> _] (Hi & Hk & Hl & Hn) _. simpl. split; [done|]. split; [done|].
  split; [|by rewrite length_fmap]. apply Forall_fmap. eapply Forall_impl; [exact Hl|].
  intros q [Hq Hv]. simpl. split; [|done]. exact (proj1 (wl_account wl _ Hq)).
Qed.

Lemma decode_arrives s who a p encoded :
  asks s who a p -> action_ok a -> uint 16 s.(Proxy.next_job_id) -> uint 32 who ->
  uint 8 s.(Proxy.next_outgoing_action_id) ->
  encoded = Proxy.encode_raw_action
    (Proxy.mkRawOutgoingAction s.(Proxy.next_outgoing_action_id) who VERSION_V1 (Proxy.encode_payload p)) ->
  Z.of_nat (length encoded) < 2 ^ 30 ->
  arrives s who a (decode_message encoded ChainAlephZero).
Proof.
  intros Ha Hok Hj Hw Hn -> Hlen. pose proof (asks_payload_ok _ _ _ _ Ha Hok Hj) as Hp.
  destruct (wl_payload wl _ Hp) as [Hd Hb].
  assert (decode_outgoing (Proxy.encode_raw_action (Proxy.mkRawOutgoingAction
    s.(Proxy.next_outgoing_action_id) who VERSION_V1 (Proxy.encode_payload p)))
    = Some {| oa_id := s.(Proxy.next_outgoing_action_id); oa_origin := Proxy.account_to_bytes who;
              oa_payload := p |}) as Ho.
  { unfold decode_outgoing. rewrite (wl_raw wl); [|done|done|by vm_compute|done|done]. simpl. by rewrite Hd. }
  unfold decode_message. rewrite Ho. simpl. unfold convert_account_id.
  rewrite (proj2 (wl_account wl _ Hw)). simpl.
  destruct a as [r|i|l|e|]; simpl in Ha.
  - subst p. simpl. destruct (registration_decoded _ Hok) as [[Hf (r' & -> & Hr')]|[Hf [e ->]]]; simpl.
    + left. split; [done|]. by exists r'.
    + right. split; [done|by exists e].
  - destruct Ha as [-> _]. done.
  - destruct Ha as [-> _]. done.
  - destruct Ha as [-> _]. simpl. destruct Hok as (_ & _ & Hl & _).
    by rewrite (environments_arrive _ _ Hl).
  - subst p. done.
Qed.


(** * The addresses that the two ends expect *)

(** A message of the contract as the oracles and relayers present it to Acurast: the
    variants of [Subject] have the same position in both programs. *)
Definition pallet_subject (s : Ink.Subject) : Subject :=
  match s with Ink.Acurast l => SAcurast l | Ink.AlephZero l => SAlephZero l end.
Definition pallet_body (m : Ink.Message) : MessageBody :=
  {| mb_sender := pallet_subject m.(Ink.msg_sender);
     mb_recipient := pallet_subject m.(Ink.msg_recipient);
     mb_payload := m.(Ink.msg_payload) |}.

(** C14: There is no value of [AlephZeroContract] with which messages can go both ways.
    Every message that leaves Aleph Zero names the contract for messages and its
    message [send_message] as the sender, whoever has called it; the pallet executes
    it only if that is what it has stored.  But then the messages of the pallet to
    the proxy, which go to the stored contract, call the contract for messages while
    it is receiving, which the chain denies: they are recorded as failed, and nothing
    else happens. *)
Theorem no_address_serves_both_ways {V : Type} {L : BridgeIn V} {AE : ActionExecutor V}
  (w0 w : W) i m (v v' : V) r :
  w0.(wi_ibc).(Ink.outgoing) = ∅ -> rtc ink_step w0 w ->
  w.(wi_ibc).(Ink.outgoing) !! i = Some m ->
  process_proxy_message (pallet_body m.(Ink.om_message)) v = (r, v') ->
  (r = Err (HyperdriveErr InvalidSender) /\ v' = put_bridge (bridge_of v) v) \/
  ((bridge_of v).(aleph_zero_contract) = mkContractCall ibc_address (Some Ink.send_message_selector) /\
   forall who value message (w1 : W),
     Ink.process_message (mkCallEnv who ibc_address value) (bridge_of v).(aleph_zero_contract) message w1
     = Ink.emit_event (Ink.MessageProcessedWithErrors message.(Ink.msg_id)) w1).
Proof.
  intros H0 Hr Hm Hp. apply (ink_steps_moves cl) in Hr.
  destruct (stable_moves _ il _ (outgoing_stable _) _ _ Hr) with (i := i) (m := m) as (_ & Hs & _).
  { intros j m'. simpl. by rewrite H0, lookup_empty. }
  { exact Hm. }
  unfold process_proxy_message, pallet_body in Hp. simpl in Hp. rewrite Hs in Hp. simpl in Hp.
  unfold bind, on_bridge, zoom, gets, ensure in Hp. simpl in Hp.
  case_bool_decide as Hc; simpl in Hp; [right|left; by injection Hp as <- <-].
  split; [by rewrite <-Hc|]. intros who value message w1. rewrite <-Hc.
  unfold Ink.process_message. simpl. unfold bind, gets, id. simpl. by rewrite Z.eqb_refl.
Qed.

(** * What a job costs *)
Lemma execution_count_same (t : ScheduleV1) (sched : Schedule) :
  sched = {| duration := t.(v1_duration); start_time := t.(v1_start_time); end_time := t.(v1_end_time);
             interval := t.(v1_interval); max_start_delay := t.(v1_max_start_delay) |} ->
  schedule_ok t -> t.(v1_interval) <> 0 -> t.(v1_start_time) < t.(v1_end_time) ->
  Proxy.execution_count t = execution_count sched /\ 0 < execution_count sched.
Proof.
  intros -> (_ & Hs & He & Hi & _) Hz Hlt. unfold uint in *.
  assert (0 <= (v1_end_time t - v1_start_time t - 1) / v1_interval t <= v1_end_time t - v1_start_time t - 1) as Hq.
  { split; [apply Z.div_pos; lia|]. apply Z.div_le_upper_bound; [lia|]. nia. }
  unfold Proxy.execution_count, execution_count, wrapping_add, wrap_as. simpl.
  change (256 ^ 8) with (u64_max + 1) in *.
  rewrite (Z.mod_small (_ - _ - 1)) by lia. rewrite Z.mod_small by lia.
  unfold checked_sub, checked_div, checked_add.
  destruct (Z.leb_spec (v1_start_time t) (v1_end_time t)); [simpl|lia].
  destruct (Z.leb_spec 1 (v1_end_time t - v1_start_time t)); [simpl|lia].
  destruct (Z.eqb_spec (v1_interval t) 0); [done|simpl].
  destruct (Z.leb_spec ((v1_end_time t - v1_start_time t - 1) / v1_interval t + 1) u64_max); simpl; lia.
Qed.

Lemma exchange_price_covers (ratio : Proxy.ExchangeRatio) n cost :
  0 <= n -> 0 <= ratio.(Proxy.numerator) -> 0 <= ratio.(Proxy.denominator) ->
  ratio.(Proxy.numerator) * n <= u128_max ->
  Proxy.exchange_price ratio n = Some cost ->
  0 <= cost /\ ratio.(Proxy.numerator) * n <= ratio.(Proxy.denominator) * cost
    < ratio.(Proxy.numerator) * n + ratio.(Proxy.denominator).
Proof.
  intros Hn Hnum Hden Hmax. unfold Proxy.exchange_price, wrap_as. rewrite (Z.mod_small (_ * n) (u128_max + 1)) by (split; [by apply Z.mul_nonneg_nonneg|lia]).
  set (a := Proxy.numerator ratio * n) in *. set (d := Proxy.denominator ratio) in *.
  destruct (Z.eqb_spec d 0) as [|Hd]; [done|]. assert (0 <= a) by (unfold a; nia).
  pose proof (Z.div_mod a d ltac:(lia)) as Hdm. pose proof (Z.mod_pos_bound a d ltac:(lia)) as Hmod.
  assert (0 <= a / d) by (apply Z.div_pos; lia).
  destruct (Z.eqb_spec (a mod d) 0) as [Hz|Hz]; intros [= <-]; [nia|].
  assert (0 < a) by (destruct (Z.eq_dec a 0) as [Ha|]; [by rewrite Ha, Z.mod_0_l in Hz|lia]).
  assert (a / d < a) by (apply Z.div_lt; lia).
  unfold wrapping_add. rewrite Z.mod_small by lia. nia.
Qed.

Lemma decode_registration_keeps reg registration :
  decode_registration reg = Ok registration ->
  registration.(JobTypes.schedule) =
    {| duration := reg.(v1_schedule).(v1_duration); start_time := reg.(v1_schedule).(v1_start_time);
       end_time := reg.(v1_schedule).(v1_end_time); interval := reg.(v1_schedule).(v1_interval);
       max_start_delay := reg.(v1_schedule).(v1_max_start_delay) |} /\
  registration.(extra).(slots) = reg.(v1_extra).(v1_slots) /\
  registration.(extra).(reward) = reg.(v1_extra).(v1_reward).
Proof.
  unfold decode_registration. destruct (decode_strategy _); [|done..]. simpl.
  destruct (decode_sources _); [|done..]. simpl. destruct (decode_modules _); [|done..]. simpl.
  by intros [= <-].
Qed.
Lemma total_of_exact slots count amount :
  0 <= slots -> 0 <= count -> 0 <= amount -> slots * count * amount <= u128_max ->
  Proxy.total_of slots count amount = slots * count * amount.
Proof. intros ? ? ? ?. unfold Proxy.total_of, wrap_as. apply Z.mod_small. nia. Qed.

Lemma register_job_ok c r (w w' : W) p :
  Proxy.register_job c r w = (Ok p, w') ->
  let s := w.(wi_proxy) in
  let reg := r.(Proxy.ru_job_registration) in
  let count := Proxy.execution_count reg.(v1_schedule) in
  let slots := reg.(v1_extra).(v1_slots) in
  let fees := Proxy.total_of slots count r.(Proxy.ru_expected_fulfillment_fee) in
  let rewards := Proxy.total_of slots count reg.(v1_extra).(v1_reward) in
  reg.(v1_schedule).(v1_interval) <> 0 /\
  (exists cost, Proxy.exchange_price s.(Proxy.config).(Proxy.exchange_ratio) rewards = Some cost /\
     wrapping_add u128_max fees cost <= c.(transferred_value)) /\
  w'.(wi_proxy).(Proxy.job_info) !! s.(Proxy.next_job_id) =
    Some (Proxy.V1, Proxy.encode_job
      (Proxy.mkJobInformation reg.(v1_schedule) c.(caller) r.(Proxy.ru_destination) []
         r.(Proxy.ru_expected_fulfillment_fee) fees rewards Proxy.Open slots)).
Proof.
  intros (j & w2 & [<- <-]%gets_ok & Hr)%bind_ok. cbv zeta in Hr.
  apply bind_ok in Hr as (u & w2 & <-%modify_ok & Hr).
  apply bind_ok in Hr as (u1 & w2 & [Hi <-]%ensure_ok & Hr).
  apply bind_ok in Hr as (cfg & w2 & [<- <-]%gets_ok & Hr).
  apply bind_ok in Hr as (cost & w2 & [Hcost <-]%or_panic_ok & Hr).
  apply bind_ok in Hr as (u2 & w2 & [Hv <-]%ensure_ok & Hr).
  apply bind_ok in Hr as (u3 & w2 & <-%modify_ok & [_ <-]%ret_ok).
  cbv zeta. split; [by apply negb_true_iff, Z.eqb_neq in Hi|].
  split; [exists cost; split; [exact Hcost|by apply negb_true_iff, Z.ltb_ge in Hv]|].
  simpl. by rewrite lookup_insert_eq.
Qed.

(** C13: A job that the proxy registers is paid for on both chains, as far as the
    numbers fit their types: what is sent along covers the fees of all executions in
    all slots and the reward of the job at the exchange rate, rounded up; and the
    reward that the proxy records is, to the unit, the one that the marketplace of
    Acurast computes for the job and takes from the budget of the proxy. *)
Theorem registered_jobs_are_paid_for {JE : JobExternals} c r (w w' : W) p registration (js : State) :
  let s := w.(wi_proxy) in
  let reg := r.(Proxy.ru_job_registration) in
  let ratio := s.(Proxy.config).(Proxy.exchange_ratio) in
  let fee := r.(Proxy.ru_expected_fulfillment_fee) in
  let slots := reg.(v1_extra).(v1_slots) in
  let reward := reg.(v1_extra).(v1_reward) in
  registration_ok reg -> 0 <= fee ->
  0 <= ratio.(Proxy.numerator) -> 0 <= ratio.(Proxy.denominator) ->
  reg.(v1_schedule).(v1_start_time) < reg.(v1_schedule).(v1_end_time) ->
  decode_registration reg = Ok registration ->
  let count := execution_count registration.(JobTypes.schedule) in
  let rewards := slots * count * reward in
  (forall cost, ratio.(Proxy.denominator) * cost < ratio.(Proxy.numerator) * rewards + ratio.(Proxy.denominator) ->
     slots * count * fee + cost <= u128_max) ->
  ratio.(Proxy.numerator) * rewards <= u128_max -> rewards <= u128_max ->
  Proxy.register_job c r w = (Ok p, w') ->
  (exists cost, ratio.(Proxy.numerator) * rewards <= ratio.(Proxy.denominator) * cost /\
     slots * count * fee + cost <= c.(transferred_value)) /\
  (exists job, w'.(wi_proxy).(Proxy.job_info) !! s.(Proxy.next_job_id) = Some (Proxy.V1, Proxy.encode_job job) /\
     job.(Proxy.ji_remaining_fee) = slots * count * fee /\ job.(Proxy.ji_maximum_reward) = rewards /\
     job.(Proxy.ji_creator) = c.(caller)) /\
  total_reward_amount registration js = (Ok rewards, js).
Proof.
  intros s reg ratio fee slots reward Hreg Hfee Hnum Hden Hlt Hdec count rewards Hfit Hr1 Hr2 Hr.
  apply register_job_ok in Hr as (Hi & (cost & Hcost & Hv) & Hj). fold reg in Hi, Hcost, Hv, Hj.
  pose proof Hreg as (_ & _ & Hsch & _ & _ & _ & _ & (_ & Hsl & Hrw & _)). unfold uint in Hsl, Hrw.
  fold slots in Hsl, Hcost, Hv, Hj. fold reward in Hrw, Hcost, Hj. fold fee in Hv, Hj. fold s ratio in Hcost.
  destruct (decode_registration_keeps _ _ Hdec) as (Hsched & Hslots & Hreward).
  destruct (execution_count_same _ _ Hsched Hsch Hi Hlt) as [Hcount Hpos].
  rewrite Hcount in Hcost, Hv, Hj. fold count in Hcost, Hv, Hj, Hpos.
  assert (0 <= rewards) as Hr0 by (unfold rewards; nia).
  rewrite (total_of_exact slots count reward) in Hcost, Hj by (try lia; exact Hr2). fold rewards in Hcost, Hj.
  destruct (exchange_price_covers _ _ _ Hr0 Hnum Hden Hr1 Hcost) as [Hc0 [Hc1 Hc2]].
  assert (0 <= slots * count * fee) as Hf0 by nia.
  rewrite (total_of_exact slots count fee) in Hv, Hj by (try lia; specialize (Hfit cost Hc2); lia).
  unfold wrapping_add in Hv. rewrite Z.mod_small in Hv by (specialize (Hfit cost Hc2); lia).
  split; [by exists cost|]. split; [by eexists|].
  unfold total_reward_amount, overflow, bind, ok_or, checked_mul. rewrite Hslots, Hreward.
  fold reg slots reward count. assert (reward * slots <= rewards) by (unfold rewards; nia).
  destruct (Z.leb_spec (reward * slots) u128_max); [simpl|lia].
  replace (reward * slots * count) with rewards by (unfold rewards; lia).
  by destruct (Z.leb_spec rewards u128_max); [|lia].
Qed.
End jobs.
