(* ===== verification/InkReference.v ===== *)
(** A concrete chain for the contracts of Aleph Zero, and a run of it: a job that is
    registered through the proxy, its message on the way to Acurast, the assignment of
    a processor coming back, and what the proxy pays to whoever asks.  The first part
    is an encoder for SCALE and the proof that the parser of [BridgeReference.v] reads
    back what it writes. *)
From S2P Require Import Prelude Schedules Attestations JobTypes Reputation Jobs Payments.
From S2P Require Import Matching Marketplace JobReference BridgeTypes Ibc HyperdriveToken Hyperdrive.
From S2P Require Import Bridge BridgeReference CodecSpecs Contracts InkIbc InkProxy InkChain.
From S2P Require Import InkSpecs InkJobs.
From stdpp Require Import strings.
#[local] Open Scope Z_scope.
#[local] Open Scope monad_scope.

(** * Encoders *)
Definition e_compact (n : Z) : list Z :=
  if n <? 64 then [4 * n]
  else if n <? 2 ^ 14 then [(4 * n + 1) mod 256; (4 * n + 1) / 256]
  else le_bytes 4 (4 * n + 2).
Definition e_vec {A} (e : A -> list Z) (l : list A) : list Z :=
  e_compact (Z.of_nat (length l)) ++ mjoin (e <$> l).
Definition e_byte (b : Z) : list Z := [b].
Definition e_bytes (l : list Z) : list Z := e_vec e_byte l.
Definition e_option {A} (e : A -> list Z) (o : option A) : list Z :=
  match o with None => [0] | Some a => 1 :: e a end.
Definition e_bool (b : bool) : list Z := [if b then 1 else 0].
Definition e_schedule (s : ScheduleV1) : list Z :=
  le_bytes 8 s.(v1_duration) ++ le_bytes 8 s.(v1_start_time) ++ le_bytes 8 s.(v1_end_time) ++
  le_bytes 8 s.(v1_interval) ++ le_bytes 8 s.(v1_max_start_delay).
Definition e_planned (p : PlannedExecutionV1) : list Z := p.(v1_source) ++ le_bytes 8 p.(v1_start_delay).
Definition e_strategy (s : AssignmentStrategyV1) : list Z :=
  match s with SingleV1 o => 0 :: e_option (e_vec e_planned) o | CompetingV1 => [1] end.
Definition e_requirements (r : JobRequirementsV1) : list Z :=
  e_strategy r.(v1_assignment_strategy) ++ le_bytes 1 r.(v1_slots) ++ le_bytes 16 r.(v1_reward) ++
  e_option (le_bytes 16) r.(v1_min_reputation).
Definition e_registration (r : JobRegistrationV1) : list Z :=
  e_bytes r.(v1_script) ++ e_option (e_vec (fun a => a)) r.(v1_allowed_sources) ++
  e_bool r.(v1_allow_only_verified_sources) ++ e_schedule r.(v1_schedule) ++ le_bytes 4 r.(v1_memory) ++
  le_bytes 4 r.(v1_network_requests) ++ le_bytes 4 r.(v1_storage) ++
  e_vec (le_bytes 2) r.(v1_required_modules) ++ e_requirements r.(v1_extra).
Definition e_variable (kv : list Z * list Z) : list Z := e_bytes kv.1 ++ e_bytes kv.2.
Definition e_environment (p : SetProcessorJobEnvironmentV1) : list Z :=
  p.(v1_address) ++ e_vec e_variable p.(v1_variables).
Definition e_payload (p : OutgoingActionPayloadV1) : list Z :=
  match p with
  | RegisterJobV1 r => 0 :: le_bytes 16 r.(v1_job_id) ++ e_registration r.(v1_job_registration)
  | DeregisterJobV1 i => 1 :: le_bytes 16 i
  | FinalizeJobV1 l => 2 :: e_vec (le_bytes 16) l
  | SetJobEnvironmentV1 e =>
      3 :: le_bytes 16 e.(v1_env_job_id) ++ e_bytes e.(v1_public_key) ++ e_vec e_environment e.(v1_processors)
  | NoopV1 => [4]
  end.
Definition e_raw (a : Proxy.RawOutgoingAction) : list Z :=
  le_bytes 8 a.(Proxy.ra_id) ++ to_be_bytes 32 a.(Proxy.ra_origin) ++
  le_bytes 2 a.(Proxy.ra_payload_version) ++ e_bytes a.(Proxy.ra_payload).

(** * Reading back what was written *)
Definition reads {A} (p : Parser A) (e : A -> list Z) (P : A -> Prop) : Prop :=
  forall a l, P a -> p (e a ++ l) = Some (a, l).

#[local] Arguments p_byte : simpl never.
#[local] Arguments p_uint : simpl never.
#[local] Arguments le_bytes : simpl never.

Lemma le_bytes_S w n : le_bytes (S w) n = (n mod 256) :: le_bytes w (n / 256).
Proof.
  revert n. unfold le_bytes. induction w as [|w IH]; intros n; [simpl; by rewrite ?Z.div_1_r|].
  specialize (IH n). cbn [to_be_bytes rev] in IH |- *. rewrite IH. cbn [app].
  rewrite Z.div_div by lia.
  replace (256 * 256 ^ Z.of_nat w) with (256 ^ Z.of_nat (S w)); [done|].
  rewrite Nat2Z.inj_succ, Z.pow_succ_r by lia. done.
Qed.
Lemma p_byte_cons b l : uint 1 b -> p_byte (b :: l) = Some (b, l).
Proof.
  intros [Hb Hb']. unfold p_byte. destruct (Z.leb_spec 0 b); [|lia].
  by destruct (Z.ltb_spec b 256); [|simpl in Hb'; lia].
Qed.
Lemma reads_uint w : reads (p_uint w) (le_bytes w) (uint (Z.of_nat w)).
Proof.
  induction w as [|w IH]; intros n l [Hn Hn'].
  - simpl in Hn'. assert (n = 0) as -> by lia. done.
  - rewrite le_bytes_S.
    change (p_uint (S w)) with (p_bind p_byte (fun b => p_map (fun n => b + 256 * n) (p_uint w))).
    unfold p_bind at 1. rewrite <-app_comm_cons.
    rewrite p_byte_cons by (split; [apply Z.mod_pos_bound; lia|simpl; apply Z.mod_pos_bound; lia]). simpl.
    unfold p_map, p_bind, p_ret. rewrite IH.
    + simpl. do 2 f_equal. pose proof (Z.div_mod n 256). lia.
    + rewrite Nat2Z.inj_succ, Z.pow_succ_r in Hn' by lia. split; [apply Z.div_pos; lia|].
      apply Z.div_lt_upper_bound; lia.
Qed.
Lemma reads_byte : reads p_byte e_byte (uint 1).
Proof. intros b l Hb. by apply p_byte_cons. Qed.

Lemma reads_compact : reads p_compact e_compact (fun n => 0 <= n < 2 ^ 30).
Proof.
  intros n l Hn. unfold e_compact, p_compact, p_bind.
  destruct (Z.ltb_spec n 64).
  { simpl. rewrite p_byte_cons by (split; simpl; lia). simpl.
    replace ((4 * n) mod 4) with 0 by (Z.div_mod_to_equations; lia).
    unfold p_ret. do 2 f_equal. rewrite Z.mul_comm. by apply Z.div_mul. }
  destruct (Z.ltb_spec n (2 ^ 14)).
  - simpl. rewrite p_byte_cons by (split; simpl; apply Z.mod_pos_bound; lia). simpl.
    rewrite Z.mod_mod_divide by (by exists 64).
    replace ((4 * n + 1) mod 4) with 1 by (Z.div_mod_to_equations; lia).
    unfold p_map, p_bind. rewrite p_byte_cons.
    + simpl. unfold p_ret. do 2 f_equal. pose proof (Z.div_mod (4 * n + 1) 256 ltac:(lia)) as Hd.
      replace ((4 * n + 1) mod 256 + 256 * ((4 * n + 1) / 256)) with (1 + n * 4) by lia.
      rewrite Z.div_add by lia. done.
    + split; [apply Z.div_pos; lia|]. apply Z.div_lt_upper_bound; simpl; lia.
  - rewrite le_bytes_S, <-app_comm_cons.
    rewrite p_byte_cons by (split; simpl; apply Z.mod_pos_bound; lia). cbn [mbind option_bind].
    rewrite Z.mod_mod_divide by (by exists 64).
    replace ((4 * n + 2) mod 4) with 2 by (Z.div_mod_to_equations; lia).
    unfold p_map at 1, p_bind at 1. rewrite (reads_uint 3).
    + simpl. unfold p_ret. do 2 f_equal. pose proof (Z.div_mod (4 * n + 2) 256 ltac:(lia)) as Hd.
      replace ((4 * n + 2) mod 256 + 256 * ((4 * n + 2) / 256)) with (2 + n * 4) by lia.
      rewrite Z.div_add by lia. done.
    + split; [apply Z.div_pos; lia|]. apply Z.div_lt_upper_bound; [lia|]. simpl. lia.
Qed.

Lemma reads_repeat {A} (p : Parser A) e P l r :
  reads p e P -> Forall P l -> p_repeat (length l) p (mjoin (e <$> l) ++ r) = Some (l, r).
Proof.
  intros Hp Hl. induction Hl as [|a l Ha Hl IH]; [done|].
  change (mjoin (e <$> a :: l)) with (e a ++ mjoin (e <$> l)). cbn [length p_repeat]. rewrite <-app_assoc.
  unfold p_bind. rewrite Hp by done. cbn [mbind option_bind]. unfold p_map, p_bind. by rewrite IH.
Qed.
Lemma reads_vec {A} (p : Parser A) e P : reads p e P -> reads (p_vec p) (e_vec e) (list_ok P).
Proof.
  intros Hp l r [Hl Hn]. unfold p_vec, e_vec, p_bind. rewrite <-app_assoc.
  rewrite reads_compact by (split; [lia|done]). cbn [mbind option_bind]. rewrite Nat2Z.id. by eapply reads_repeat.
Qed.
Lemma reads_bytes : reads (p_vec p_byte) e_bytes bytes_ok.
Proof. apply reads_vec, reads_byte. Qed.
Lemma reads_address : reads (p_repeat 32 p_byte) (fun a => a) address_ok.
Proof.
  intros l r [Hl Hn]. rewrite <-Hn.
  pose proof (reads_repeat _ _ _ l r reads_byte Hl) as Hr.
  replace (mjoin (e_byte <$> l)) with l in Hr; [done|].
  clear. induction l as [|b l IH]; [done|].
  change (b :: l = b :: mjoin (e_byte <$> l)). by rewrite <-IH.
Qed.
Lemma reads_bool : reads p_bool e_bool (fun _ => True).
Proof. by intros [] l _. Qed.

(** ** What is written are bytes *)
Notation bytes := (Forall (uint 1)).
Lemma mod_byte n : uint 1 (n mod 256).
Proof. unfold uint. apply (Z.mod_pos_bound n 256). lia. Qed.
Lemma to_be_byte w n : bytes (to_be_bytes w n).
Proof. induction w as [|w IH]; simpl; constructor; [apply mod_byte|done]. Qed.
Lemma le_bytes_byte w n : bytes (le_bytes w n).
Proof. apply Forall_rev, to_be_byte. Qed.
Lemma e_compact_byte n : 0 <= n < 2 ^ 30 -> bytes (e_compact n).
Proof.
  intros Hn. unfold e_compact. destruct (Z.ltb_spec n 64); [|destruct (Z.ltb_spec n (2 ^ 14))].
  - repeat constructor; unfold uint; lia.
  - constructor; [apply mod_byte|]. constructor; [|constructor]. unfold uint.
    split; [apply Z.div_pos; lia|]. apply Z.div_lt_upper_bound; lia.
  - apply le_bytes_byte.
Qed.
Lemma e_vec_byte {A} (e : A -> list Z) P l :
  (forall a, P a -> bytes (e a)) -> list_ok P l -> bytes (e_vec e l).
Proof.
  intros He [Hl Hn]. apply Forall_app. split; [apply e_compact_byte; lia|]. clear Hn.
  induction Hl as [|a l Ha Hl IH]; [constructor|].
  change (mjoin (e <$> a :: l)) with (e a ++ mjoin (e <$> l)). apply Forall_app. auto.
Qed.
Lemma e_bytes_byte l : bytes_ok l -> bytes (e_bytes l).
Proof. apply e_vec_byte. intros b Hb. constructor; [done|constructor]. Qed.
Lemma e_option_byte {A} (e : A -> list Z) P o :
  (forall a, P a -> bytes (e a)) -> option_ok P o -> bytes (e_option e o).
Proof. intros He Ho. destruct o as [a|]; constructor; [done| |done|constructor]. by apply He. Qed.
Lemma e_bool_byte b : bytes (e_bool b).
Proof. destruct b; (constructor; [done|constructor]). Qed.
Lemma app_byte l l' : bytes l -> bytes l' -> bytes (l ++ l').
Proof. intros. by apply Forall_app. Qed.
Lemma cons_byte b l : uint 1 b -> bytes l -> bytes (b :: l).
Proof. by constructor. Qed.
Lemma e_variables_byte l : variables_ok l -> bytes (e_vec e_variable l).
Proof. apply e_vec_byte. intros [k v] [Hk Hv]. by apply app_byte; apply e_bytes_byte. Qed.
Lemma length_e_bytes l : (length l <= length (e_bytes l))%nat.
Proof.
  unfold e_bytes, e_vec. rewrite length_app. enough (length (mjoin (e_byte <$> l)) = length l) by lia.
  induction l as [|b l IH]; [done|]. change (mjoin (e_byte <$> b :: l)) with (b :: mjoin (e_byte <$> l)).
  simpl. by rewrite IH.
Qed.

#[local] Opaque le_bytes e_compact e_vec e_bytes e_bool.

Lemma e_registration_byte r : registration_ok r -> bytes (e_registration r).
Proof.
  intros (? & ? & ? & ? & ? & ? & ? & (Hs & _ & _ & ?)).
  repeat apply app_byte; try apply le_bytes_byte; try apply e_bool_byte.
  - by apply e_bytes_byte.
  - apply (e_option_byte _ (list_ok address_ok)); [|done]. intros a. apply e_vec_byte. by intros b [Hb _].
  - apply (e_vec_byte _ (uint 2)); [|done]. intros a _. apply le_bytes_byte.
  - destruct (v1_assignment_strategy (v1_extra r)) as [o|]; (apply cons_byte; [done|]); [|constructor].
    eapply e_option_byte; [|exact Hs]. intros l. apply e_vec_byte. intros a [[Ha _] _].
    apply app_byte; [done|apply le_bytes_byte].
  - apply (e_option_byte _ (uint 16)); [|done]. intros a _. apply le_bytes_byte.
Qed.
Lemma e_payload_byte p : payload_ok p -> bytes (e_payload p).
Proof.
  destruct p as [r|i|l|e|]; simpl; intros Hp; (apply cons_byte; [done|]); [| | | |constructor].
  - apply app_byte; [apply le_bytes_byte|]. apply e_registration_byte, Hp.
  - apply le_bytes_byte.
  - apply (e_vec_byte _ (uint 16)); [|done]. intros a _. apply le_bytes_byte.
  - destruct Hp as (_ & Hk & Hl). apply app_byte; [apply le_bytes_byte|]. apply app_byte; [by apply e_bytes_byte|].
    eapply e_vec_byte; [|exact Hl]. intros q [[Hq _] Hv]. apply app_byte; [done|by apply e_variables_byte].
Qed.
(** ** Records and variants

    The parser of the first field leaves the encoding of the others. *)
Lemma reads_bind {A B} (p : Parser A) (e : A -> list Z) P (f : A -> Parser B) a l r :
  reads p e P -> P a -> f a l = r -> p_bind p f (e a ++ l) = r.
Proof. intros Hp Ha <-. unfold p_bind. by rewrite Hp. Qed.
Lemma reads_map {A B} (p : Parser A) (e : A -> list Z) P (f : A -> B) a l :
  reads p e P -> P a -> p_map f p (e a ++ l) = Some (f a, l).
Proof. intros Hp Ha. unfold p_map, p_bind. by rewrite Hp. Qed.
Lemma reads_tag {B} (f : Z -> Parser B) b l r :
  uint 1 b -> f b l = r -> p_bind p_byte f (b :: l) = r.
Proof. intros Hb <-. unfold p_bind. by rewrite p_byte_cons. Qed.

Lemma reads_option {A} (p : Parser A) e P : reads p e P -> reads (p_option p) (e_option e) (option_ok P).
Proof.
  intros Hp [a|] l Ha; unfold p_option, e_option; (apply reads_tag; [by vm_compute|]); [|done].
  by apply (reads_map _ _ _ _ _ _ Hp).
Qed.

Lemma reads_schedule : reads p_schedule e_schedule schedule_ok.
Proof.
  intros [d s e i m] l (? & ? & ? & ? & ?). unfold p_schedule, e_schedule. simpl in *.
  do 4 (rewrite <-app_assoc; eapply reads_bind; [apply reads_uint|done|]).
  by apply (reads_map _ _ _ _ _ _ (reads_uint 8)).
Qed.
Lemma reads_planned :
  reads (p_bind (p_repeat 32 p_byte) (fun a => p_map (Build_PlannedExecutionV1 a) (p_uint 8))) e_planned
    (fun e => address_ok e.(v1_source) /\ uint 8 e.(v1_start_delay)).
Proof.
  intros [a d] l [Ha Hd]. unfold e_planned. rewrite <-app_assoc.
  eapply (reads_bind (p_repeat 32 p_byte) (fun a => a)); [apply reads_address|done|].
  by apply (reads_map _ _ _ _ _ _ (reads_uint 8)).
Qed.
Lemma reads_strategy : reads p_strategy e_strategy strategy_ok.
Proof.
  intros [o|] l Ho; unfold p_strategy, e_strategy.
  - rewrite <-app_comm_cons. apply reads_tag; [by vm_compute|].
    eapply (reads_map _ (e_option (e_vec e_planned))); [|exact Ho].
    apply reads_option, reads_vec, reads_planned.
  - apply reads_tag; [by vm_compute|done].
Qed.
Lemma reads_requirements : reads p_requirements e_requirements requirements_ok.
Proof.
  intros [st sl rw mr] l (? & ? & ? & ?). unfold p_requirements, e_requirements. simpl in *.
  rewrite <-app_assoc. eapply reads_bind; [apply reads_strategy|done|].
  do 2 (rewrite <-app_assoc; eapply reads_bind; [apply reads_uint|done|]).
  by apply (reads_map _ _ _ _ _ _ (reads_option _ _ _ (reads_uint 16))).
Qed.
Lemma reads_registration : reads p_registration e_registration registration_ok.
Proof.
  intros [sc al v sch m nr st md ex] l (? & ? & ? & ? & ? & ? & ? & ?).
  unfold p_registration, e_registration. simpl in *.
  rewrite <-app_assoc. eapply reads_bind; [apply reads_bytes|done|].
  rewrite <-app_assoc. eapply (reads_bind _ (e_option (e_vec (fun a => a)))); [apply reads_option, reads_vec, reads_address|done|].
  rewrite <-app_assoc. eapply reads_bind; [apply reads_bool|done|].
  rewrite <-app_assoc. eapply reads_bind; [apply reads_schedule|done|].
  do 3 (rewrite <-app_assoc; eapply reads_bind; [apply reads_uint|done|]).
  rewrite <-app_assoc. eapply reads_bind; [apply reads_vec, reads_uint|done|].
  by apply (reads_map _ _ _ _ _ _ reads_requirements).
Qed.
Lemma reads_variable :
  reads (p_bind (p_vec p_byte) (fun x => p_map (pair x) (p_vec p_byte))) e_variable
    (fun kv => bytes_ok kv.1 /\ bytes_ok kv.2).
Proof.
  intros [k v] l [Hk Hv]. unfold e_variable. simpl in *. rewrite <-app_assoc.
  eapply reads_bind; [apply reads_bytes|done|]. by apply (reads_map _ _ _ _ _ _ reads_bytes).
Qed.
Lemma reads_environment :
  reads (p_bind (p_repeat 32 p_byte) (fun a => p_map (Build_SetProcessorJobEnvironmentV1 a)
           (p_vec (p_bind (p_vec p_byte) (fun x => p_map (pair x) (p_vec p_byte)))))) e_environment
    (fun q => address_ok q.(v1_address) /\ variables_ok q.(v1_variables)).
Proof.
  intros [a v] l [Ha Hv]. unfold e_environment. simpl in *. rewrite <-app_assoc.
  eapply (reads_bind (p_repeat 32 p_byte) (fun a => a)); [apply reads_address|done|].
  by apply (reads_map _ _ _ _ _ _ (reads_vec _ _ _ reads_variable)).
Qed.
Lemma reads_payload : reads p_payload e_payload payload_ok.
Proof.
  intros [[i r]|i|ids|[i k ps]|] l Hp; unfold p_payload, e_payload; rewrite <-?app_comm_cons;
    (apply reads_tag; [by vm_compute|]); cbv iota.
  - destruct Hp as [Hi Hr]. simpl in *. rewrite <-app_assoc. eapply reads_bind; [apply reads_uint|done|].
    exact (reads_map _ _ _ (fun r => RegisterJobV1 (Build_RegisterJobPayloadV1 i r)) r l reads_registration Hr).
  - by apply (reads_map _ _ _ _ _ _ (reads_uint 16)).
  - by apply (reads_map _ _ _ _ _ _ (reads_vec _ _ _ (reads_uint 16))).
  - destruct Hp as (Hi & Hk & Hl). simpl in *. rewrite <-app_assoc. eapply reads_bind; [apply reads_uint|done|].
    rewrite <-app_assoc. eapply reads_bind; [apply reads_bytes|done|].
    exact (reads_map _ _ _ (fun ps => SetJobEnvironmentV1 (Build_SetJobEnvironmentPayloadV1 i k ps)) ps l
             (reads_vec _ _ _ reads_environment) Hl).
  - done.
Qed.

Lemma read_raw a : forall (l : list Z),
  uint 8 a.(Proxy.ra_id) -> uint 32 a.(Proxy.ra_origin) -> uint 2 a.(Proxy.ra_payload_version) ->
  bytes_ok a.(Proxy.ra_payload) ->
  p_raw (e_raw a ++ l) =
    Some ({| raw_id := a.(Proxy.ra_id); raw_origin := to_be_bytes 32 a.(Proxy.ra_origin);
             raw_payload_version := a.(Proxy.ra_payload_version); raw_payload := a.(Proxy.ra_payload) |}, l).
Proof.
  destruct a as [i o v p]. intros l Hi Ho Hv Hp. unfold p_raw, e_raw. cbn [Proxy.ra_id Proxy.ra_origin Proxy.ra_payload_version Proxy.ra_payload] in *.
  rewrite <-app_assoc. eapply reads_bind; [apply reads_uint|done|].
  rewrite <-app_assoc. eapply (reads_bind (p_repeat 32 p_byte) (fun a => a)); [apply reads_address| |].
  { split; [|apply length_to_be]. apply to_be_byte. }
  rewrite <-app_assoc. eapply reads_bind; [apply reads_uint|done|].
  exact (reads_map _ _ _ (Build_RawOutgoingAction i (to_be_bytes 32 o) v) p l reads_bytes Hp).
Qed.

Lemma length_e_raw i o v p : (length p <= length (e_raw (Proxy.mkRawOutgoingAction i o v p)))%nat.
Proof. pose proof (length_e_bytes p). unfold e_raw. rewrite !length_app. cbn [Proxy.ra_payload]. lia. Qed.

(** * The chain *)
Record InkExt := mkInkExt {
  ix_balances : gmap Z Z;
  ix_block : Z;
  ix_time : Z;
}.
Definition ix_balance (x : InkExt) (who : Z) : Z := default 0 (x.(ix_balances) !! who).
Definition ix_transfer (from to n : Z) (x : InkExt) : option InkExt :=
  if (0 <=? n) && (n <=? ix_balance x from) then
    let b := <[from := ix_balance x from - n]> x.(ix_balances) in
    Some (mkInkExt (<[to := default 0 (b !! to) + n]> b) x.(ix_block) x.(ix_time))
  else None.
#[export] Instance ext_host : Host InkExt := {|
  host_block_number := ix_block; host_timestamp := ix_time; host_transfer := ix_transfer |}.

Definition receive_action_selector : list Z := [0x7c; 0xd9; 0x9c; 0x82].
Definition NOT_CALLABLE : string := "NotCallable".
#[export] Instance reference_ink : InkChain InkExt := {|
  ink_host := ext_host;
  ibc_address := 501;
  proxy_address := 502;
  chain_set_code a h x := None;
  decode_proxy_call sel payload :=
    if bool_decide (sel = receive_action_selector) then Some (Proxy.ReceiveAction payload) else None;
  unit_answer r := match r with Ok _ => Returned tt | _ => EnvFailed NOT_CALLABLE end;
  other_invoke _ _ _ _ _ w := (EnvFailed NOT_CALLABLE, w);
  other_send_message _ _ _ _ _ _ _ w := (EnvFailed NOT_CALLABLE, w);
  other_fulfill _ _ _ _ _ w := (Returned (Ok tt), w);
|}.

Definition subject_tag (s : Ink.Subject) : Z :=
  match s with
  | Ink.Acurast (Extrinsic a) => 4 * a
  | Ink.Acurast (Contract c) => 4 * c.(contract) + 1
  | Ink.AlephZero (Extrinsic a) => 4 * a + 2
  | Ink.AlephZero (Contract c) => 4 * c.(contract) + 3
  end.
Definition ink_digest (m : Ink.Message) (relayer : option Z) : Z :=
  m.(Ink.msg_nonce) + foldr Z.add 0 m.(Ink.msg_payload) + default 0 relayer.
#[export] Instance reference_ink_crypto : Ink.Crypto := {|
  Ink.hash_sender_nonce s n := 2 ^ 64 * subject_tag s + n;
  Ink.hash_counter n := n;
  Ink.hash_message := ink_digest;
  Ink.ecdsa_recover sg h := match sg with [k; x] => if x =? h then Some [k] else None | _ => None end;
  Ink.encode_account := to_be_bytes 32;
  Ink.send_message_selector := [0xaf; 0xdc; 0x40; 0x3f];
|}.

(** * Codecs *)
Definition status_index (s : Proxy.JobStatus) : Z :=
  match s with
  | Proxy.Open => 0 | Proxy.Matched => 1 | Proxy.Assigned => 2 | Proxy.FinalizedOrCancelled => 3
  end.
Definition job_to_list (j : Proxy.JobInformationV1) : list Z :=
  let t := j.(Proxy.ji_schedule) in
  [t.(v1_duration); t.(v1_start_time); t.(v1_end_time); t.(v1_interval); t.(v1_max_start_delay);
   j.(Proxy.ji_creator); j.(Proxy.ji_destination); j.(Proxy.ji_expected_fulfillment_fee);
   j.(Proxy.ji_remaining_fee); j.(Proxy.ji_maximum_reward); status_index j.(Proxy.ji_status);
   j.(Proxy.ji_slots)] ++ j.(Proxy.ji_processors).
Definition NOT_ENOUGH_DATA : string := "Not enough data".
Definition job_of_list (l : list Z) : string + Proxy.JobInformationV1 :=
  match l with
  | d :: s :: e :: i :: m :: creator :: destination :: fee :: remaining :: reward :: status :: slots :: ps =>
      inr (Proxy.mkJobInformation (Build_ScheduleV1 d s e i m) creator destination ps fee remaining reward
             (match status with 0 => Proxy.Open | 1 => Proxy.Matched | 2 => Proxy.Assigned
                              | _ => Proxy.FinalizedOrCancelled end) slots)
  | _ => inl NOT_ENOUGH_DATA
  end.
Lemma job_of_to_list j : job_of_list (job_to_list j) = inr j.
Proof. by destruct j as [[] ? ? ? ? ? ? [] ?]. Qed.

Definition p_incoming : Parser Proxy.IncomingAction :=
  p_bind (p_uint 8) (fun i => p_bind (p_uint 1) (fun v =>
    match v with
    | 0 => p_map (Proxy.mkIncomingAction i) (p_bind p_byte (fun b =>
        match b with
        | 0 => p_bind (p_uint 16) (fun j => p_map (AssignJobProcessorV1 j) (p_repeat 32 p_byte))
        | 1 => p_bind (p_uint 16) (fun j => p_map (FinalizeIncomingV1 j) (p_uint 16))
        | 2 => p_ret IncomingNoopV1
        | _ => fun _ => None
        end))
    | _ => fun _ => None
    end)).
#[export] Instance reference_proxy_codec : Proxy.Codec := {|
  Proxy.encode_job := job_to_list;
  Proxy.decode_job := job_of_list;
  Proxy.decode_incoming l := match p_incoming l with Some (a, _) => inr a | None => inl NOT_ENOUGH_DATA end;
  Proxy.encode_payload := e_payload;
  Proxy.encode_raw_action := e_raw;
  Proxy.account_to_bytes := to_be_bytes 32;
  Proxy.account_from_bytes := from_be_bytes;
  Proxy.hash_action_id n := n;
|}.

(** * The laws *)
Lemma outside_nothing stack (w : InkWorld InkExt) : outside stack w w.
Proof. by repeat split. Qed.
Lemma reference_chain_laws : chain_laws (X := InkExt).
Proof.
  split; try by intros; apply outside_nothing.
  - intros a b n x x'. simpl. unfold ix_transfer. destruct (_ && _); [|done]. by intros [= <-].
  - done.
Qed.
Lemma reference_wire_laws : wire_laws (B := reference_bridge).
Proof.
  split.
  - intros p Hp. split; [|by apply e_payload_byte]. simpl.
    pose proof (reads_payload p [] Hp) as Hr. rewrite app_nil_r in Hr. by rewrite Hr.
  - intros i o v p Hi Ho Hv Hp encoded Hlen. 
    pose proof (read_raw (Proxy.mkRawOutgoingAction i o v p) [] Hi Ho Hv) as Hr.
    rewrite app_nil_r in Hr. unfold encoded. simpl scale_decode_raw_outgoing. simpl Proxy.encode_raw_action.
    rewrite Hr; [done|]. split; [done|]. cbn [Proxy.ra_payload].
    pose proof (length_e_raw i o v p) as Hl. unfold encoded in Hlen. simpl Proxy.encode_raw_action in Hlen. lia.
  - intros a [Ha Ha']. split.
    + split; [apply to_be_byte|apply length_to_be].
    + change (parse_account_id (Proxy.account_to_bytes a)) with
        (if (length (to_be_bytes 32 a) =? 32)%nat then Some (from_be_bytes (to_be_bytes 32 a)) else None).
      rewrite length_to_be, from_to_be, Z.mod_small by done. done.
  - intros l [_ Hl]. change (parse_account_id l) with
      (if (length l =? 32)%nat then Some (from_be_bytes l) else None).
    rewrite Hl. by eexists.
Qed.

(** * A run *)
Notation IWorld := (InkWorld InkExt) (only parsing).
Definition i_owner : Z := from_be_bytes Ink.default_owner.
Definition i_genesis : IWorld :=
  mkInkWorld (Ink.default from_be_bytes) (Proxy.new 9 501)
    (mkInkExt (<[7 := 1000]> (<[8 := 1000]> (<[66 := 0]> ∅))) 10 0).
(** Two oracles; the first job is for the account 8. *)
Definition i_oracles : InkCall :=
  CallIbc i_owner 0
    (Ink.Configure [Ink.OraclePublicKeys [Ink.Add [1]; Ink.Add [2]]; Ink.MinReceiptSignatures 2]).
(** Three executions in one slot, with a reward of 5 and a fee of 10 each *)
Definition i_registration : JobRegistrationV1 :=
  Build_JobRegistrationV1 a_script None false (Build_ScheduleV1 5 100000 160000 20000 0) 1 0 1 []
    (Build_JobRequirementsV1 CompetingV1 1 5 None).
Definition i_action : Proxy.UserAction :=
  Proxy.RegisterJob (Proxy.mkRegisterJobUserInput i_registration 700 10).
Definition i_register (who value : Z) (n : nat) : InkCall :=
  CallProxy who value (Proxy.SendActions (replicate n i_action)).
Notation i_ready := (run_ink_call i_oracles i_genesis).
Notation i_job := (run_ink_call (i_register 8 32 1) i_ready).

(** A processor is assigned: a message of the pallet, signed by the two oracles *)
Definition i_assign : list Z := encode_incoming 0 (AssignJobProcessorV1 1 (to_be_bytes 32 55)).
Definition i_sender : Ink.Subject := Ink.Acurast (Extrinsic 1000).
Definition i_recipient : Ink.Subject :=
  Ink.AlephZero (Contract (mkContractCall 502 (Some receive_action_selector))).
Definition i_signatures (nonce : Z) (payload : list Z) : list (list Z) :=
  let d := ink_digest (Ink.mkMessage 0 i_sender nonce i_recipient payload) None in [[1; d]; [2; d]].
Definition i_receive (nonce : Z) (payload : list Z) : InkCall :=
  CallIbc 66 0 (Ink.ReceiveMessage i_sender nonce i_recipient payload (i_signatures nonce payload)).
Notation i_assigned := (run_ink_call (i_receive 3 i_assign) i_job).
Notation i_fulfilled := (run_ink_call (CallProxy 55 0 (Proxy.Fulfill 1 [1; 2])) i_assigned).

(** The balances of the proxy, of the creator and of the processor, and what is left
    of the fees *)
Definition i_view (w : IWorld) : Z * Z * Z * option Z :=
  (ix_balance w.(wi_chain) 502, ix_balance w.(wi_chain) 8, ix_balance w.(wi_chain) 55,
   match w.(wi_proxy).(Proxy.job_info) !! 1 with
   | Some (_, l) => match job_of_list l with inr j => Some j.(Proxy.ji_remaining_fee) | inl _ => None end
   | None => None
   end).
Example ink_run :
  i_view <$> [i_ready; i_job; i_assigned; i_fulfilled]
  = [(0, 1000, 0, None); (32, 968, 0, Some 30); (22, 968, 10, Some 20); (12, 968, 20, Some 10)].
Proof. vm_compute. reflexivity. Qed.

(** ** What the proxy does not check

    One payment registers any number of jobs: every action of a call is compared with
    the whole amount that was sent along. *)
Notation i_two_jobs := (run_ink_call (i_register 7 32 2) i_job).
Example one_payment_for_two_jobs :
  (ix_balance i_two_jobs.(wi_chain) 7, i_two_jobs.(wi_proxy).(Proxy.next_job_id),
   ix_balance i_two_jobs.(wi_chain) 502)
  = (968, 4, 64).
Proof. vm_compute. reflexivity. Qed.

(** Whoever calls [receive_action] is believed: the proxy does not look at its caller.
    The account 66, which is nobody, finalizes the job of the account 7, which gets 45
    for the 32 it has paid (the unused reward of 15 is an amount of the other chain,
    for which only 2 were charged); the account of the job can be paid again and
    again, from what others have paid. *)
Definition i_finalize (job_id unused : Z) : InkCall :=
  CallProxy 66 0 (Proxy.ReceiveAction (encode_incoming 0 (FinalizeIncomingV1 job_id unused))).
Example anyone_can_finalize :
  let once := run_ink_call (i_finalize 2 15) i_two_jobs in
  (ix_balance once.(wi_chain) 7, ix_balance once.(wi_chain) 502) = (1013, 19).
Proof. vm_compute. reflexivity. Qed.
Lemma receive_action_ignores_its_caller {X} {C : InkChain X} {K : Ink.Crypto} {D : Proxy.Codec}
  who who' payload (w : InkWorld X) :
  run_ink_call (CallProxy who 0 (Proxy.ReceiveAction payload)) w
  = run_ink_call (CallProxy who' 0 (Proxy.ReceiveAction payload)) w.
Proof. reflexivity. Qed.

(** * The theorems on this chain *)
Notation il := (world_ibc_laws reference_chain_laws).
Lemma i_steps_ready : rtc ink_step i_genesis i_ready.
Proof. apply rtc_once. by apply (ink_step_call i_oracles). Qed.
Lemma i_steps_job : rtc ink_step i_genesis i_job.
Proof. eapply rtc_r; [apply i_steps_ready|]. by apply (ink_step_call (i_register 8 32 1)). Qed.

(** The message of the first job *)
Definition i_own : Ink.Subject := own_subject (K := reference_ink_crypto) 501.
Definition i_id : Z := Ink.hash_sender_nonce i_own 1.
Definition i_message : Ink.OutgoingMessageWithMeta :=
  Ink.mkOutgoing
    (Ink.mkMessage i_id i_own 1 (Ink.Acurast (Extrinsic (from_be_bytes Proxy.default_pallet_account)))
       (e_raw (Proxy.mkRawOutgoingAction 1 8 1
                 (e_payload (RegisterJobV1 (Build_RegisterJobPayloadV1 1 i_registration))))))
    10 110 0 502.
Lemma i_job_sent : i_job.(wi_ibc).(Ink.outgoing) !! i_id = Some i_message.
Proof. vm_compute. reflexivity. Qed.

Lemma pending_messages_are_listed_witness :
  i_id ∈ i_job.(wi_ibc).(Ink.outgoing_index).
Proof.
  apply (pending_messages_are_listed (W := InkWorld InkExt) 501 il i_genesis i_job i_id i_message).
  - reflexivity.
  - apply (ink_steps_moves reference_chain_laws), i_steps_job.
  - apply i_job_sent.
  - by_compute.
Defined.

Lemma messages_are_received_once_witness :
  exists w1, Ink.dispatch (mkCallEnv 66 501 0)
    (Ink.ReceiveMessage i_sender 3 i_recipient i_assign (i_signatures 3 i_assign)) i_job = (Ok tt, w1) /\
  forall c recipient payload signatures r w3,
    Ink.dispatch c (Ink.ReceiveMessage i_sender 3 recipient payload signatures) w1 = (r, w3) ->
    r <> Ok tt /\ w3 = w1.
Proof.
  exists (exec (Ink.dispatch (mkCallEnv 66 501 0)
    (Ink.ReceiveMessage i_sender 3 i_recipient i_assign (i_signatures 3 i_assign))) i_job).
  split; [apply result_exec; by_compute|].
  refine (proj2 (messages_are_received_once (W := InkWorld InkExt) 501 il 66 i_sender 3 i_recipient
    i_assign (i_signatures 3 i_assign) i_job _ _ _ (rtc_refl _ _))).
  apply result_exec. by_compute.
Defined.

Lemma signatures_are_accepted_exactly_witness :
  let m := Ink.mkMessage 0 i_sender 3 i_recipient i_assign in
  signed_by_oracles m None (i_signatures 3 i_assign) 2 i_ready /\
  ~ signed_by_oracles m None (replicate 2 [1; ink_digest m None]) 2 i_ready.
Proof.
  split.
  - apply (signatures_are_accepted_exactly (W := InkWorld InkExt) _ None (i_signatures 3 i_assign) 2 i_ready
             (Ok tt) i_ready); [|reflexivity]. by_compute.
  - intros Hs.
    apply (signatures_are_accepted_exactly (W := InkWorld InkExt) _ None _ 2 i_ready
             (Err Ink.DuplicateSignature) i_ready) in Hs; [discriminate|]. by_compute.
Defined.

Lemma bytes_by_test l : forallb (fun b => (0 <=? b) && (b <? 256)) l = true -> Forall (uint 1) l.
Proof.
  intros Hl. apply List.Forall_forall. intros b Hb.
  apply (proj1 (forallb_forall _ _) Hl), andb_true_iff in Hb as [?%Z.leb_le ?%Z.ltb_lt].
  split; [done|]. by change (256 ^ 1) with 256.
Qed.
Lemma i_registration_ok : registration_ok i_registration.
Proof.
  split; [split; [apply bytes_by_test; reflexivity|by_compute]|].
  split; [exact I|]. split; [by repeat split; by_compute|]. split; [by_compute|]. split; [by_compute|].
  split; [by_compute|]. split; [by split; [constructor|by_compute]|].
  split; [exact I|]. split; [by_compute|]. split; [by_compute|exact I].
Qed.


(** The constants of the mainnet name the proxy and its message [receive_action], so
    that the first job never starts. *)
Lemma no_address_serves_both_ways_witness :
  exists v', process_proxy_message (B := reference_bridge) (pallet_body i_message.(Ink.om_message)) b_enabled
             = (Err (HyperdriveErr InvalidSender), v').
Proof.
  destruct (process_proxy_message (pallet_body i_message.(Ink.om_message)) b_enabled) as [r v'] eqn:E.
  exists v'.
  destruct (no_address_serves_both_ways reference_chain_laws i_genesis i_job i_id i_message
              b_enabled v' r) as [[-> _]|[Hc _]].
  - reflexivity.
  - apply i_steps_job.
  - apply i_job_sent.
  - exact E.
  - reflexivity.
  - exfalso. revert Hc. clear. vm_compute. discriminate.
Defined.

Lemma registered_jobs_are_paid_for_witness :
  exists registration, decode_registration (B := reference_bridge) i_registration = Ok registration /\
    total_reward_amount registration b_enabled = (Ok 15, b_enabled).
Proof.
  destruct (decode_registration (B := reference_bridge) i_registration) as [registration|e|] eqn:E;
    [|exfalso; revert E; clear; vm_compute; discriminate..].
  exists registration. split; [reflexivity|].
  assert (execution_count registration.(JobTypes.schedule) = 3) as Hc.
  { destruct (decode_registration_keeps _ _ E) as (-> & _). by_compute. }
  destruct (registered_jobs_are_paid_for (B := reference_bridge) (mkCallEnv 8 502 32)
              (Proxy.mkRegisterJobUserInput i_registration 700 10) i_ready
              (exec (Proxy.register_job (mkCallEnv 8 502 32)
                       (Proxy.mkRegisterJobUserInput i_registration 700 10)) i_ready)
              (RegisterJobV1 (Build_RegisterJobPayloadV1 1 i_registration)) registration b_enabled) as (_ & _ & Ht).
  - apply i_registration_ok.
  - by_compute.
  - by_compute.
  - by_compute.
  - by_compute.
  - exact E.
  - rewrite Hc. intros cost Hcost. change (10 * cost < 25) in Hcost. change (30 + cost <= u128_max).
    assert (cost <= 2) by lia. assert (32 <= u128_max) by by_compute. lia.
  - rewrite Hc. by_compute.
  - rewrite Hc. by_compute.
  - apply result_exec. by_compute.
  - rewrite Hc in Ht. exact Ht.
Defined.
