(* ===== verification/Gear.v ===== *)
(** Programs of the gear runtime, on which [src/hyperdrive/vara/] runs.

    A program handles messages one at a time, but not to their end: where its code
    awaits the reply to a message of its own, what it has done so far is kept, other
    messages are handled, and the rest runs when the reply is there (or has not come
    in time).  A run from the start of a message, or from a reply, up to the next
    await or the end is a slice; a slice that ends with a panic is undone, the slices
    before it are not.

    [async] are the computations of such a program, [run_slice] runs one up to its next
    await, and [Net] is the state of a network of programs over one state [W], with
    every interleaving of their slices ([net_step]). *)
From S2P Require Import Prelude.

(** What an await is answered with: a reply, or any kind of failure (the other program
    has panicked, does not exist, or has not replied in time) *)
Inductive Reply := Replied | ReplyFailed.

(** * Computations with awaits

    [W] is the state, [E] the errors, [Q] the messages that replies are awaited to. *)
Inductive async (W E Q A : Type) : Type :=
| Finish (o : outcome E A)
| Run (m : W -> async W E Q A * W)
| Await (q : Q) (k : Reply -> async W E Q A).
Arguments Finish {W E Q A} o.
Arguments Run {W E Q A} m.
Arguments Await {W E Q A} q k.

Inductive SliceEnd (W E Q A : Type) : Type :=
| Ended (o : outcome E A)
| Waiting (q : Q) (k : Reply -> async W E Q A).
Arguments Ended {W E Q A} o.
Arguments Waiting {W E Q A} q k.

Declare Scope async_scope.
Delimit Scope async_scope with async.

Section async.
Context {W E Q : Type}.
Notation async := (async W E Q).

(** Code without an await *)
Definition lift {A} (m : M W E A) : async A := Run (fun w => let '(o, w') := m w in (Finish o, w')).
(** [program.call(..).send(address).await] *)
Definition await (q : Q) : async Reply := Await q (fun r => Finish (Ok r)).

Fixpoint abind {A B} (x : async A) (f : A -> async B) : async B :=
  match x with
  | Finish (Ok a) => f a
  | Finish (Err e) => Finish (Err e)
  | Finish Panic => Finish Panic
  | Run m => Run (fun w => let '(x', w') := m w in (abind x' f, w'))
  | Await q k => Await q (fun r => abind (k r) f)
  end.
Fixpoint afor {A} (l : list A) (f : A -> async unit) : async unit :=
  match l with
  | [] => Finish (Ok tt)
  | a :: l => abind (f a) (fun _ => afor l f)
  end.

Fixpoint run_slice {A} (x : async A) (w : W) : SliceEnd W E Q A * W :=
  match x with
  | Finish o => (Ended o, w)
  | Run m => let '(x', w') := m w in run_slice x' w'
  | Await q k => (Waiting q k, w)
  end.
End async.
Notation "'let&' x := m 'in' k" := (abind m (fun x => k))
  (at level 200, x pattern, m at level 100, k at level 200, right associativity) : async_scope.

(** [panicking(..)] of both programs: an error ends the message with a panic *)
Fixpoint panicking {W E E' Q A} (x : async W E Q A) : async W E' Q A :=
  match x with
  | Finish (Ok a) => Finish (Ok a)
  | Finish _ => Finish Panic
  | Run m => Run (fun w => let '(x', w') := m w in (panicking x', w'))
  | Await q k => Await q (fun r => panicking (k r))
  end.

(** * A network of programs *)
Section network.
Context {W Q : Type}.
(** [None]: a message to a program that is not modelled *)
Context (handle : Q -> option (async W Empty_set Q unit)).
(** What the rest of the network may do to the state *)
Context (outside : W -> W -> Prop).

(** A message that waits: the number of the await it has to be answered to, if it was
    sent by one of the programs, and the rest of its code *)
Record Suspended := mkSuspended {
  su_requester : option Z;
  su_next : Reply -> async W Empty_set Q unit;
}.

Record Net := mkNet {
  world : W;
  (** by the number of the await *)
  suspended : gmap Z Suspended;
  requests : gmap Z Q;
  replies : gmap Z Reply;
  next_await : Z;
  (** every message that a reply was awaited to, in order *)
  sent : list Q;
}.

Definition set_world (w : W) (n : Net) : Net :=
  mkNet w n.(suspended) n.(requests) n.(replies) n.(next_await) n.(sent).
Definition drop_request (i : Z) (n : Net) : Net :=
  mkNet n.(world) n.(suspended) (delete i n.(requests)) n.(replies) n.(next_await) n.(sent).
Definition drop_suspended (i : Z) (n : Net) : Net :=
  mkNet n.(world) (delete i n.(suspended)) n.(requests) n.(replies) n.(next_await) n.(sent).
Definition answer (requester : option Z) (r : Reply) (n : Net) : Net :=
  match requester with
  | None => n
  | Some i =>
      mkNet n.(world) n.(suspended) n.(requests) (<[i := r]> n.(replies)) n.(next_await) n.(sent)
  end.
Definition suspend (requester : option Z) (q : Q) (k : Reply -> async W Empty_set Q unit) (n : Net) : Net :=
  mkNet n.(world) (<[n.(next_await) := mkSuspended requester k]> n.(suspended))
    (<[n.(next_await) := q]> n.(requests)) n.(replies) (n.(next_await) + 1) (n.(sent) ++ [q]).

(** One slice *)
Definition settle (requester : option Z) (x : async W Empty_set Q unit) (n : Net) : Net :=
  match run_slice x n.(world) with
  | (Ended (Ok _), w) => answer requester Replied (set_world w n)
  | (Ended _, _) => answer requester ReplyFailed n
  | (Waiting q k, w) => suspend requester q k (set_world w n)
  end.

(** What happens next: a message of an account, or of a program that is not modelled,
    is handled; a request is; an await ends, with its reply or because its time is up;
    the program that a request was sent to has replied; blocks pass. *)
Inductive NetEvent :=
| Start (q : Q)
| Deliver (i : Z)
| Resume (i : Z)
| TimeOut (i : Z)
| Elsewhere (i : Z) (r : Reply) (w : W)
| Outside (w : W).

Definition net_run (e : NetEvent) (n : Net) : Net :=
  match e with
  | Start q => match handle q with Some x => settle None x n | None => n end
  | Deliver i =>
      match n.(requests) !! i with
      | Some q => match handle q with Some x => settle (Some i) x (drop_request i n) | None => n end
      | None => n
      end
  | Resume i =>
      match n.(suspended) !! i, n.(replies) !! i with
      | Some t, Some r => settle t.(su_requester) (t.(su_next) r) (drop_suspended i n)
      | _, _ => n
      end
  | TimeOut i =>
      match n.(suspended) !! i with
      | Some t => settle t.(su_requester) (t.(su_next) ReplyFailed) (drop_suspended i n)
      | None => n
      end
  | Elsewhere i r w =>
      match n.(requests) !! i with
      | Some q => match handle q with Some _ => n | None => answer (Some i) r (drop_request i (set_world w n)) end
      | None => n
      end
  | Outside w => set_world w n
  end.

Definition event_ok (e : NetEvent) (n : Net) : Prop :=
  match e with Elsewhere _ _ w | Outside w => outside n.(world) w | _ => True end.
Inductive net_step : Net -> Net -> Prop :=
| net_step_event e n : event_ok e n -> net_step n (net_run e n).
End network.
Arguments Suspended : clear implicits.
Arguments Net : clear implicits.
Arguments NetEvent : clear implicits.

(** * Running a slice *)
Section slices.
Context {W E Q : Type}.

Lemma async_induction {E' A} (T : async W E' Q A -> Prop) :
  (forall o, T (Finish o)) -> (forall m, (forall w, T (m w).1) -> T (Run m)) ->
  (forall q k, (forall r, T (k r)) -> T (Await q k)) -> forall x, T x.
Proof.
  intros HF HR HA. fix IH 1. intros [o|m|q k]; [apply HF|apply HR|apply HA; intros r; apply IH].
  intros w. destruct (m w) as [x' w']. apply IH.
Qed.

Lemma slice_lift {A} (m : M W E A) (w : W) :
  run_slice (lift (Q := Q) m) w = let '(o, w') := m w in (Ended o, w').
Proof. unfold lift. simpl. by destruct (m w). Qed.
Lemma slice_bind {A B} (x : async W E Q A) (f : A -> async W E Q B) (w : W) :
  run_slice (abind x f) w =
  match run_slice x w with
  | (Ended (Ok a), w') => run_slice (f a) w'
  | (Ended (Err e), w') => (Ended (Err e), w')
  | (Ended Panic, w') => (Ended Panic, w')
  | (Waiting q k, w') => (Waiting q (fun r => abind (k r) f), w')
  end.
Proof.
  revert w. induction x as [o|m IH|q k IH] using async_induction; intros w; simpl; [by destruct o|..|done].
  specialize (IH w). destruct (m w) as [x' w']. apply IH.
Qed.
Lemma slice_panicking {E' A} (x : async W E Q A) (w : W) :
  run_slice (panicking (E' := E') x) w =
  match run_slice x w with
  | (Ended (Ok a), w') => (Ended (Ok a), w')
  | (Ended _, w') => (Ended Panic, w')
  | (Waiting q k, w') => (Waiting q (fun r => panicking (k r)), w')
  end.
Proof.
  revert w. induction x as [o|m IH|q k IH] using async_induction; intros w; simpl; [by destruct o|..|done].
  specialize (IH w). destruct (m w) as [x' w']. apply IH.
Qed.

(** * What holds of every slice of a computation

    [R] relates the states around every piece of its code, whichever replies it gets,
    and every message it awaits the reply to is in [P]. *)
Context (R : W -> W -> Prop) (P : Q -> Prop).
Fixpoint runs_in {E' A} (x : async W E' Q A) : Prop :=
  match x with
  | Finish _ => True
  | Run m => forall w, R w (m w).2 /\ runs_in (m w).1
  | Await q k => P q /\ forall r, runs_in (k r)
  end.

Lemma runs_in_lift {A} (m : M W E A) : (forall w, R w (m w).2) -> runs_in (lift m).
Proof. intros Hm w. specialize (Hm w). simpl. by destruct (m w). Qed.
Lemma runs_in_await (q : Q) : P q -> runs_in (E' := E) (await q).
Proof. done. Qed.
Lemma runs_in_bind {A B} (x : async W E Q A) (f : A -> async W E Q B) :
  runs_in x -> (forall a, runs_in (f a)) -> runs_in (abind x f).
Proof.
  intros Hx Hf. induction x as [o|m IH|q k IH] using async_induction; simpl in *.
  - by destruct o.
  - intros w. destruct (Hx w) as [HR Hm]. specialize (IH w). destruct (m w) as [x' w']. auto.
  - destruct Hx. auto.
Qed.
Lemma runs_in_lift_bind {A B} (m : M W E A) (f : A -> async W E Q B) :
  (forall w o w', m w = (o, w') -> R w w' /\ match o with Ok a => runs_in (f a) | _ => True end) ->
  runs_in (abind (lift m) f).
Proof.
  intros Hm w. specialize (Hm w). simpl. destruct (m w) as [o w']. destruct (Hm o w' eq_refl).
  split; [done|]. by destruct o.
Qed.
Lemma runs_in_for {A} (l : list A) (f : A -> async W E Q unit) :
  (forall a, runs_in (f a)) -> runs_in (afor l f).
Proof. intros Hf. induction l; simpl; [done|by apply runs_in_bind]. Qed.
Lemma runs_in_panicking {E' A} (x : async W E Q A) : runs_in x -> runs_in (panicking (E' := E') x).
Proof.
  induction x as [o|m IH|q k IH] using async_induction; simpl; [by destruct o|..].
  - intros Hx w. destruct (Hx w) as [HR Hm]. specialize (IH w). destruct (m w). auto.
  - intros [Hq Hk]. auto.
Qed.

Lemma slice_runs_in {PR : PreOrder R} {A} (x : async W E Q A) w end_ w' :
  runs_in x -> run_slice x w = (end_, w') ->
  R w w' /\ match end_ with Ended _ => True | Waiting q k => P q /\ forall r, runs_in (k r) end.
Proof.
  revert w. induction x as [o|m IH|q k IH] using async_induction; intros w Hx Hs; simpl in *.
  - by simplify_eq.
  - destruct (Hx w) as [HR Hm]. specialize (IH w). destruct (m w) as [x' w1]. simpl in *.
    destruct (IH _ Hm Hs) as [HR' He]. split; [|done]. by transitivity w1.
  - by simplify_eq.
Qed.
End slices.
Create HintDb runs_in.
#[global] Hint Resolve runs_in_bind runs_in_for runs_in_panicking runs_in_await : runs_in.

(** * What holds of a network *)
Section net.
Context {W Q : Type} (handle : Q -> option (async W Empty_set Q unit)) (outside : W -> W -> Prop).
Notation step := (net_step handle outside).
Notation Net := (Net W Q).

(** Every suspended message goes on in [R] and [P]. *)
Definition all_in (R : W -> W -> Prop) (P : Q -> Prop) (n : Net) : Prop :=
  forall i t, n.(suspended) !! i = Some t -> forall r, runs_in R P (t.(su_next) r).

(** What a step comes to: nothing but the state and the bookkeeping changes, or one
    slice runs, of a message that starts or of one that was suspended. *)
Inductive came_from (n : Net) (x : async W Empty_set Q unit) : Prop :=
| from_handler q : handle q = Some x -> came_from n x
| from_suspended i t r : n.(suspended) !! i = Some t -> x = t.(su_next) r -> came_from n x.
Inductive net_moves (n n' : Net) : Prop :=
| moves_rest : (n'.(world) = n.(world) \/ outside n.(world) n'.(world)) ->
    n'.(suspended) = n.(suspended) -> n'.(sent) = n.(sent) -> net_moves n n'
| moves_slice requester x n1 : came_from n x ->
    n1.(world) = n.(world) -> n1.(suspended) ⊆ n.(suspended) -> n1.(sent) = n.(sent) ->
    n' = settle requester x n1 -> net_moves n n'.

Lemma answer_same requester r (n : Net) :
  (answer requester r n).(world) = n.(world) /\ (answer requester r n).(suspended) = n.(suspended) /\
  (answer requester r n).(sent) = n.(sent).
Proof. by destruct requester. Qed.

Lemma step_moves n n' : step n n' -> net_moves n n'.
Proof.
  intros [e n0 He]. destruct e as [q|i|i|i|i r w|w]; simpl in *.
  - destruct (handle q) as [x|] eqn:Eh; [|by apply moves_rest; auto].
    by eapply moves_slice; [eapply from_handler|..].
  - destruct (requests n0 !! i) as [q|]; [|by apply moves_rest; auto].
    destruct (handle q) as [x|] eqn:Eh; [|by apply moves_rest; auto].
    by eapply (moves_slice _ _ _ _ (drop_request i n0)); [eapply from_handler|..].
  - destruct (suspended n0 !! i) as [t|] eqn:Et; [|by apply moves_rest; auto].
    destruct (replies n0 !! i) as [r|]; [|by apply moves_rest; auto].
    eapply (moves_slice _ _ _ _ (drop_suspended i n0)); [by eapply from_suspended|done| |done..].
    apply delete_subseteq.
  - destruct (suspended n0 !! i) as [t|] eqn:Et; [|by apply moves_rest; auto].
    eapply (moves_slice _ _ _ _ (drop_suspended i n0)); [by eapply from_suspended|done| |done..].
    apply delete_subseteq.
  - destruct (requests n0 !! i) as [q|]; [|by apply moves_rest; auto].
    destruct (handle q); by apply moves_rest; simpl; auto.
  - by apply moves_rest; auto.
Qed.

(** A slice that is settled *)
Lemma settle_cases requester x (n : Net) :
  let n' := settle requester x n in
  (n'.(world) = n.(world) /\ n'.(suspended) = n.(suspended) /\ n'.(sent) = n.(sent)) \/
  (exists u w, run_slice x n.(world) = (Ended (Ok u), w) /\
     n'.(world) = w /\ n'.(suspended) = n.(suspended) /\ n'.(sent) = n.(sent)) \/
  (exists q k w, run_slice x n.(world) = (Waiting q k, w) /\ n' = suspend requester q k (set_world w n)).
Proof.
  simpl. unfold settle. destruct (run_slice x (world n)) as [[[u| |]|q k] w].
  - right. left. exists u, w. split; [done|]. apply (answer_same requester Replied (set_world w n)).
  - left. apply answer_same.
  - left. apply answer_same.
  - right. right. by exists q, k, w.
Qed.

(** Every step is in [R], if all handlers and the outside are. *)
Lemma step_in (R : W -> W -> Prop) {PR : PreOrder R} (P : Q -> Prop) :
  (forall q x, handle q = Some x -> runs_in R P x) -> (forall w w', outside w w' -> R w w') ->
  forall n n', all_in R P n -> step n n' -> R n.(world) n'.(world) /\ all_in R P n'.
Proof.
  intros Hh Ho n n' Hn Hs. apply step_moves in Hs as [Hw Ht _|rq x n1 Hx Hw Ht _ ->].
  - split; [|by intros i t; rewrite Ht; apply Hn]. destruct Hw as [->|Hw]; [done|auto].
  - assert (all_in R P n1) as Hn1 by (intros i t Hi; eapply Hn, lookup_weaken; eauto).
    assert (runs_in R P x) as Hin by (destruct Hx as [q Hq|i t r Hi ->]; eauto).
    destruct (settle_cases rq x n1) as [(-> & Hs & _)|[(u & w & Hr & -> & Hs & _)|(q & k & w & Hr & ->)]];
      rewrite Hw in *.
    + split; [done|]. intros i t. rewrite Hs. apply Hn1.
    + destruct (slice_runs_in _ _ _ _ _ _ Hin Hr) as [HR _]. split; [done|]. intros i t. rewrite Hs. apply Hn1.
    + destruct (slice_runs_in _ _ _ _ _ _ Hin Hr) as [HR [_ Hk]]. split; [done|].
      intros i t. simpl. intros [[<- <-]|[_ Hi]]%lookup_insert_Some; [done|]. by eapply Hn1.
Qed.
Lemma steps_in (R : W -> W -> Prop) {PR : PreOrder R} (P : Q -> Prop) :
  (forall q x, handle q = Some x -> runs_in R P x) -> (forall w w', outside w w' -> R w w') ->
  forall n n', all_in R P n -> rtc step n n' -> R n.(world) n'.(world) /\ all_in R P n'.
Proof.
  intros Hh Ho n n' Hn Hr. induction Hr as [n|n n1 n2 Hs _ IH]; [done|].
  apply (step_in R P Hh Ho) in Hs as [HR Hn1]; [|done]. destruct (IH Hn1) as [HR' Hn2].
  split; [by transitivity (world n1)|done].
Qed.
End net.
