(* ===== verification/VaraIbc.v ===== *)
(** The program that sends and receives messages on Vara:
    [src/hyperdrive/vara/vara-ibc/src/].

    It does what the contract of [InkIbc.v] does, whose configuration it shares, with
    these differences: an error is a panic; a received message is passed on to the
    program it names by a request that is awaited; there is no cleaning of the
    indexes; and the keys are recovered by the program itself. *)
From S2P Require Import Prelude JobTypes BridgeTypes Contracts Gear InkIbc.
From stdpp Require Import strings.
#[local] Open Scope Z_scope.
#[local] Open Scope monad_scope.

Module VIbc.
Notation Public := (list Z) (only parsing).
Notation Signature := (list Z) (only parsing).

(** * [types.rs] *)
Inductive Subject :=
| Acurast (l : Layer)
| AlephZero (l : Layer)
| Vara (l : Layer).
#[export] Instance Subject_eq_dec : EqDecision Subject.
Proof. solve_decision. Defined.

Record Message := mkMessage {
  msg_id : MessageId;
  msg_sender : Subject;
  msg_nonce : MessageNonce;
  msg_recipient : Subject;
  msg_payload : Payload;
}.

Record OutgoingMessageWithMeta := mkOutgoing {
  om_message : Message;
  om_current_block : BlockNumber;
  om_ttl_block : BlockNumber;
  om_fee : Balance;
  om_payer : AccountId;
}.

Record IncomingMessageWithMeta := mkIncoming {
  im_message : Message;
  im_current_block : BlockNumber;
  im_relayer : AccountId;
}.

Inductive Event :=
| OraclesUpdated
| MessageReadyToSend (message : OutgoingMessageWithMeta)
| MessageDelivered (id : MessageId)
| MessageRemoved (id : MessageId)
| MessageStored (id : MessageId)
| MessageProcessed (id : MessageId)
| MessageProcessedWithErrors (id : MessageId).

(** There is no code to replace. *)
Inductive ConfigureArgument :=
| Owner (address : AccountId)
| Paused (paused : bool)
| OraclePublicKeys (updates : list Ink.OracleUpdate)
| MinDeliverySignatures (n : Z)
| MinReceiptSignatures (n : Z)
| MinTTL (ttl : BlockNumber)
| IncomingTTL (ttl : BlockNumber).

(** * [storage.rs] *)
Record Storage := mkStorage {
  config : Ink.Config;
  outgoing : gmap MessageId OutgoingMessageWithMeta;
  outgoing_index : MessageIndex;
  incoming : gmap MessageId IncomingMessageWithMeta;
  incoming_index : MessageIndex;
  message_counter : Z;
  (** a [HashMap] to the unit *)
  oracle_public_keys : gset Public;
  (** what [notify_on] has sent *)
  events : list Event;
}.
Definition set_config (v : Ink.Config) (x : Storage) : Storage :=
  mkStorage v x.(outgoing) x.(outgoing_index) x.(incoming) x.(incoming_index) x.(message_counter) x.(oracle_public_keys) x.(events).
Definition set_outgoing (v : gmap MessageId OutgoingMessageWithMeta) (x : Storage) : Storage :=
  mkStorage x.(config) v x.(outgoing_index) x.(incoming) x.(incoming_index) x.(message_counter) x.(oracle_public_keys) x.(events).
Definition set_outgoing_index (v : MessageIndex) (x : Storage) : Storage :=
  mkStorage x.(config) x.(outgoing) v x.(incoming) x.(incoming_index) x.(message_counter) x.(oracle_public_keys) x.(events).
Definition set_incoming (v : gmap MessageId IncomingMessageWithMeta) (x : Storage) : Storage :=
  mkStorage x.(config) x.(outgoing) x.(outgoing_index) v x.(incoming_index) x.(message_counter) x.(oracle_public_keys) x.(events).
Definition set_incoming_index (v : MessageIndex) (x : Storage) : Storage :=
  mkStorage x.(config) x.(outgoing) x.(outgoing_index) x.(incoming) v x.(message_counter) x.(oracle_public_keys) x.(events).
Definition set_message_counter (v : Z) (x : Storage) : Storage :=
  mkStorage x.(config) x.(outgoing) x.(outgoing_index) x.(incoming) x.(incoming_index) v x.(oracle_public_keys) x.(events).
Definition set_oracle_public_keys (v : gset Public) (x : Storage) : Storage :=
  mkStorage x.(config) x.(outgoing) x.(outgoing_index) x.(incoming) x.(incoming_index) x.(message_counter) v x.(events).
Definition set_events (v : list Event) (x : Storage) : Storage :=
  mkStorage x.(config) x.(outgoing) x.(outgoing_index) x.(incoming) x.(incoming_index) x.(message_counter) x.(oracle_public_keys) v.

(** * [utils.rs] *)
Inductive IbcError :=
| ContractPaused
| NotOwner
| IncorrectRecipient
| MessageAlreadyReceived
| PublicKeyUnknown
| DuplicateSignature
| SignatureInvalid
| SignatureInvalidRecoveryId
| SignatureInvalidRecoveredPubKeyLength
| NotEnoughSignaturesValid
| MessageWithSameNoncePending
| TTLSmallerThanMinimum
| MessageNotFound
| DeliveryConfirmationOverdue.

(** The crates [k256] and [blake2b_simd], on what the derived encoders write *)
Class Crypto := {
  K256Signature : Type;
  RecoveryId : Type;
  (** [Signature::from_slice], [RecoveryId::try_from] *)
  signature_from_slice : list Z -> option K256Signature;
  recovery_id_try_from : Z -> option RecoveryId;
  (** [VerifyingKey::recover_from_prehash] and [to_sec1_bytes] of its answer *)
  recover_from_prehash : Z -> K256Signature -> RecoveryId -> option Public;
  (** [blake2_256] of the encoded arguments *)
  hash_sender_nonce : Subject -> MessageNonce -> MessageId;
  hash_counter : Z -> MessageNonce;
  hash_message : Message -> option AccountId -> Z;
  encode_account : AccountId -> list Z;
}.

(** A signature has 65 bytes. *)
Definition secp256k1_ecdsa_recover_compressed {K : Crypto} (sig : Signature) (msg : Z)
  : outcome IbcError Public :=
  match signature_from_slice (take 64 sig) with
  | None => Err SignatureInvalid
  | Some signature =>
      let v := nth 64 sig 0 in
      match recovery_id_try_from (if 26 <? v then v - 27 else v) with
      | None => Err SignatureInvalidRecoveryId
      | Some recid =>
          match recover_from_prehash msg signature recid with
          | None => Err SignatureInvalid
          | Some key =>
              if (length key =? 33)%nat then Ok key else Err SignatureInvalidRecoveredPubKeyLength
          end
      end
  end.

(** Where the storage of the program is in the state of the network *)
Class IbcIn (W : Type) := {
  ibc_of : W -> Storage;
  put_ibc : Storage -> W -> W;
}.

(** [vara_proxy_client::VaraProxy::receive_action(payload).send(contract)] of a program *)
Class Requests (Q : Type) := {
  request_receive_action : AccountId -> AccountId -> list Z -> Q;
}.

(** * [service.rs] *)

(** [VaraIbcService::init] on the default storage *)
Definition init (source : AccountId) (owner : option AccountId) : Storage :=
  mkStorage (Ink.mkConfig (default source owner) false 1 1 20 30) ∅ [] ∅ [] 0 ∅ [].

Section program.
Context {W Q : Type} {H : Host W} {S : MsgSend W} {L : IbcIn W} {K : Crypto} {R : Requests Q}.

Notation MI := (M W IbcError).
Definition read {A} (f : Storage -> A) : MI A := gets (fun w => f (ibc_of w)).
Definition write (f : Storage -> Storage) : MI unit := modify (fun w => put_ibc (f (ibc_of w)) w).
Definition write_config (f : Ink.Config -> Ink.Config) : MI unit :=
  write (fun s => set_config (f s.(config)) s).
Definition notify_on (e : Event) : MI unit := write (fun s => set_events (s.(events) ++ [e]) s).
Definition block_height : MI BlockNumber := gets host_block_number.

Definition ensure_owner (c : CallEnv) : MI unit :=
  let* cfg := read config in
  ensure (cfg.(Ink.owner) =? c.(caller)) NotOwner.
Definition ensure_unpaused : MI unit :=
  let* cfg := read config in
  ensure (negb cfg.(Ink.paused)) ContractPaused.

Definition update_oracle (update : Ink.OracleUpdate) : MI unit :=
  match update with
  | Ink.Add public => write (fun s => set_oracle_public_keys ({[public]} ∪ s.(oracle_public_keys)) s)
  | Ink.Remove public => write (fun s => set_oracle_public_keys (s.(oracle_public_keys) ∖ {[public]}) s)
  end.
Definition update_oracles (updates : list Ink.OracleUpdate) : MI unit := mfor updates update_oracle.

(** The loop body of [configure] *)
Definition configure_one (action : ConfigureArgument) : MI unit :=
  match action with
  | Owner address => write_config (Ink.set_owner address)
  | Paused b => write_config (Ink.set_paused b)
  | OraclePublicKeys oracle_updates => update_oracles oracle_updates;; notify_on OraclesUpdated
  | MinDeliverySignatures n => write_config (Ink.set_min_delivery_signatures n)
  | MinReceiptSignatures n => write_config (Ink.set_min_receipt_signatures n)
  | MinTTL ttl => write_config (Ink.set_min_ttl ttl)
  | IncomingTTL ttl => write_config (Ink.set_incoming_ttl ttl)
  end.
Definition configure (c : CallEnv) (actions : list ConfigureArgument) : MI unit :=
  ensure_owner c;;
  mfor actions configure_one.

(** ** Signatures *)
Definition check_signature (message : Message) (relayer : option AccountId) (seen : gset Public)
  (signature : Signature) : MI (gset Public) :=
  let message_hash := hash_message message relayer in
  let* public := (fun w => (secp256k1_ecdsa_recover_compressed signature message_hash, w)) in
  let* keys := read oracle_public_keys in
  ensure (bool_decide (public ∈ keys)) PublicKeyUnknown;;
  ensure (negb (bool_decide (public ∈ seen))) DuplicateSignature;;
  ret ({[public]} ∪ seen).
Definition check_signatures (message : Message) (relayer : option AccountId)
  (signatures : list Signature) (min_signatures : Z) : MI unit :=
  ensure (negb (Z.of_nat (length signatures) <? min_signatures)) NotEnoughSignaturesValid;;
  let* _ := mfold signatures ∅ (check_signature message relayer) in
  ret tt.

(** ** Sending *)
Definition self_subject (c : CallEnv) : Subject :=
  Vara (Contract (mkContractCall c.(account_id) None)).

Definition do_send_message (sender : Subject) (payer : AccountId) (nonce : MessageNonce)
  (recipient : Subject) (payload : Payload) (ttl : BlockNumber) (fee : Balance)
  : MI OutgoingMessageWithMeta :=
  let* current_block := block_height in
  let id := hash_sender_nonce sender nonce in
  let* pending := read (fun s => s.(outgoing) !! id) in
  match pending with
  | Some message => ensure (negb (current_block <=? message.(om_ttl_block))) MessageWithSameNoncePending
  | None => ret tt
  end;;
  let* cfg := read config in
  ensure (negb (ttl <? cfg.(Ink.min_ttl))) TTLSmallerThanMinimum;;
  let message := mkMessage id sender nonce recipient payload in
  let message_with_meta :=
    mkOutgoing message current_block (saturating_add u32_max current_block ttl) fee payer in
  write (fun s => set_outgoing (<[id := message_with_meta]> s.(outgoing)) s);;
  write (fun s => set_outgoing_index (s.(outgoing_index) ++ [id]) s);;
  write (fun s => set_message_counter (saturating_add u128_max s.(message_counter) 1) s);;
  ret message_with_meta.

Definition send_message (c : CallEnv) (nonce : MessageNonce) (recipient : Subject)
  (payload : Payload) (ttl : BlockNumber) : MI unit :=
  ensure_unpaused;;
  let fee := c.(transferred_value) in
  let* message := do_send_message (self_subject c) c.(caller) nonce recipient payload ttl fee in
  notify_on (MessageReadyToSend message).

Definition send_test_message (c : CallEnv) (recipient : Subject) (ttl : BlockNumber) : MI unit :=
  ensure_unpaused;;
  let fee := c.(transferred_value) in
  let* counter := read message_counter in
  let* message := do_send_message (self_subject c) c.(caller) (hash_counter counter) recipient
                    (encode_account c.(caller)) ttl fee in
  notify_on (MessageReadyToSend message).

Definition do_confirm_message_delivery (c : CallEnv) (id : MessageId) (signatures : list Signature)
  : MI unit :=
  let* o := read (fun s => s.(outgoing) !! id) in
  let* message := ok_or o MessageNotFound in
  let* current_block := block_height in
  ensure (negb (message.(om_ttl_block) <? current_block)) DeliveryConfirmationOverdue;;
  let relayer := c.(caller) in
  let* cfg := read config in
  check_signatures message.(om_message) (Some relayer) signatures cfg.(Ink.min_delivery_signatures);;
  send_or_panic c message.(om_payer) [] message.(om_fee);;
  write (fun s => set_outgoing (delete id s.(outgoing)) s);;
  write (fun s => set_outgoing_index (filter (fun i => i <> id) s.(outgoing_index)) s).
Definition confirm_message_delivery (c : CallEnv) (id : MessageId) (signatures : list Signature)
  : MI unit :=
  ensure_unpaused;;
  do_confirm_message_delivery c id signatures;;
  notify_on (MessageDelivered id).

(** ** Receiving *)

(** [do_receive_message] up to its await: the program that the message is for *)
Definition accept_message (c : CallEnv) (sender : Subject) (nonce : MessageNonce)
  (recipient : Subject) (payload : Payload) (signatures : list Signature) : MI AccountId :=
  let* contract :=
    match recipient with
    | Vara (Contract contract_call) => ret contract_call.(contract)
    | _ => throw IncorrectRecipient
    end in
  let id := hash_sender_nonce sender nonce in
  let* known := read (fun s => s.(incoming) !! id) in
  ensure (match known with Some _ => false | None => true end) MessageAlreadyReceived;;
  let* current_block := block_height in
  let relayer := c.(caller) in
  let message := mkMessage id sender nonce recipient payload in
  let* cfg := read config in
  check_signatures message None signatures cfg.(Ink.min_receipt_signatures);;
  let message_with_meta := mkIncoming message current_block relayer in
  write (fun s => set_incoming (<[id := message_with_meta]> s.(incoming)) s);;
  write (fun s => set_incoming_index (s.(incoming_index) ++ [id]) s);;
  ret contract.

Notation AI := (async W IbcError Q).
Definition do_receive_message (c : CallEnv) (sender : Subject) (nonce : MessageNonce)
  (recipient : Subject) (payload : Payload) (signatures : list Signature) : AI unit :=
  (let& contract := lift (accept_message c sender nonce recipient payload signatures) in
   let& reply := await (request_receive_action c.(account_id) contract payload) in
   lift (notify_on (match reply with
                    | Replied => MessageProcessed (hash_sender_nonce sender nonce)
                    | ReplyFailed => MessageProcessedWithErrors (hash_sender_nonce sender nonce)
                    end)))%async.
Definition receive_message (c : CallEnv) (sender : Subject) (nonce : MessageNonce)
  (recipient : Subject) (payload : Payload) (signatures : list Signature) : AI unit :=
  (let& _ := lift ensure_unpaused in
   do_receive_message c sender nonce recipient payload signatures)%async.

(** * The messages of the program that change something *)
Inductive Call :=
| Configure (actions : list ConfigureArgument)
| ReceiveMessage (sender : Subject) (nonce : MessageNonce) (recipient : Subject)
    (payload : Payload) (signatures : list Signature)
| SendMessage (nonce : MessageNonce) (recipient : Subject) (payload : Payload) (ttl : BlockNumber)
| SendTestMessage (recipient : Subject) (ttl : BlockNumber)
| ConfirmMessageDelivery (id : MessageId) (signatures : list Signature).

Definition run_call (c : CallEnv) (call : Call) : AI unit :=
  match call with
  | Configure actions => lift (configure c actions)
  | ReceiveMessage sender nonce recipient payload signatures =>
      receive_message c sender nonce recipient payload signatures
  | SendMessage nonce recipient payload ttl => lift (send_message c nonce recipient payload ttl)
  | SendTestMessage recipient ttl => lift (send_test_message c recipient ttl)
  | ConfirmMessageDelivery id signatures => lift (confirm_message_delivery c id signatures)
  end.
Definition handle (c : CallEnv) (call : Call) : async W Empty_set Q unit :=
  panicking (let& _ := lift (accept_value c true) in run_call c call)%async.
End program.
End VIbc.
