(* ===== verification/VaraProxy.v ===== *)
(** The proxy of Acurast on Vara: [src/hyperdrive/vara/vara-proxy/src/].

    It does what the contract of [InkProxy.v] does and shares its data; what users ask
    for is sent by requests to the program of [VaraIbc.v] that are awaited, one by
    one.  While a call waits, other calls are handled, on the same storage.

    The numbers of jobs and actions wrap, as the release profile has no overflow
    checks. *)
From S2P Require Import Prelude JobTypes BridgeTypes Contracts Gear InkProxy VaraIbc.
From stdpp Require Import strings.
#[local] Open Scope Z_scope.
#[local] Open Scope monad_scope.

Module VProxy.
(** [types.rs] has the data of the contract on Aleph Zero once more. *)
Import Proxy (JobInformationV1(..), JobStatus(..), ExchangeRatio(..), UserAction(..),
  RegisterJobUserInput(..), SetJobEnvironmentUserInput(..), SetJobEnvironmentProcessor(..)).

#[local] Existing Instance Proxy.JobStatus_eq_dec.

Inductive ConfigureArgument :=
| Owner (address : AccountId)
| IBCContract (address : AccountId)
| AcurastPalletAccountArg (address : AccountId)
| Paused (paused : bool)
| PayloadVersion (version : Z)
| MaxMessageBytes (max_size : Z)
| ExchangeRatioArg (ratio : ExchangeRatio).

(** * [utils.rs] *)
Inductive ProxyError :=
| UnknownJobVersion (v : Z)
| JobAlreadyFinished
| NotJobProcessor
| UnknownJob
| ContractPaused
| NotOwner
| NotJobCreator
| CannotFinalizeJob
| OutgoingActionTooBig
| Verbose (msg : string)
| InvalidIncomingAction (msg : string)
| ConsumerError (msg : string)
| LangError (msg : string)
| IbcFailed.

(** * [storage.rs] *)
Record Storage := mkStorage {
  config : Proxy.Config;
  next_outgoing_action_id : Z;
  next_job_id : Z;
  job_info : gmap Z (Z * list Z);
}.
Definition set_config (v : Proxy.Config) (x : Storage) : Storage :=
  mkStorage v x.(next_outgoing_action_id) x.(next_job_id) x.(job_info).
Definition set_next_outgoing_action_id (v : Z) (x : Storage) : Storage :=
  mkStorage x.(config) v x.(next_job_id) x.(job_info).
Definition set_next_job_id (v : Z) (x : Storage) : Storage :=
  mkStorage x.(config) x.(next_outgoing_action_id) v x.(job_info).
Definition set_job_info (v : gmap Z (Z * list Z)) (x : Storage) : Storage :=
  mkStorage x.(config) x.(next_outgoing_action_id) x.(next_job_id) v.

(** What is hashed and encoded beside the codecs of [InkProxy.v] *)
Class Encoding := {
  (** [blake2_256(id.to_ne_bytes())] *)
  blake2_256_of_id : Z -> MessageNonce;
  (** the encoding of a [Vec<u8>] *)
  encode_bytes : list Z -> list Z;
}.

Class ProxyIn (W : Type) := {
  proxy_of : W -> Storage;
  put_proxy : Storage -> W -> W;
}.

(** [vara_ibc_client::VaraIbc::send_message(nonce, recipient, payload, ttl).send(ibc)] of
    a program *)
Class Requests (Q : Type) := {
  request_send_message : AccountId -> AccountId -> MessageNonce -> VIbc.Subject -> Payload ->
    BlockNumber -> Q;
}.

(** * [service.rs] *)
Definition default_ibc : list Z :=
  [49; 130; 234; 130; 139; 9; 29; 1; 29; 40; 243; 244; 238; 82; 31; 213; 26; 151; 177;
   111; 7; 25; 158; 39; 63; 198; 44; 23; 16; 134; 21; 84].
(** [VaraProxyService::init] on the default storage *)
Definition init {X : Proxy.Codec} (source : AccountId) (owner ibc : option AccountId) : Storage :=
  mkStorage
    (Proxy.mkConfig (default source owner) (default (Proxy.account_from_bytes default_ibc) ibc)
       (Proxy.account_from_bytes Proxy.default_pallet_account) false 1 2048
       (Proxy.mkExchangeRatio 1 10))
    0 0 ∅.

Section program.
Context {W Q : Type} {H : Host W} {S : MsgSend W} {L : ProxyIn W} {X : Proxy.Codec} {N : Encoding}.
Context {R : Requests Q}.

Notation MX := (M W ProxyError).
Definition read {A} (f : Storage -> A) : MX A := gets (fun w => f (proxy_of w)).
Definition write (f : Storage -> Storage) : MX unit := modify (fun w => put_proxy (f (proxy_of w)) w).
Definition write_config (f : Proxy.Config -> Proxy.Config) : MX unit :=
  write (fun s => set_config (f s.(config)) s).
Definition or_text {A} (wrap : string -> ProxyError) (r : string + A) : MX A :=
  match r with inl msg => throw (wrap msg) | inr a => ret a end.

Definition ensure_owner (c : CallEnv) : MX unit :=
  let* cfg := read config in
  ensure (cfg.(Proxy.owner) =? c.(caller)) NotOwner.
Definition ensure_unpaused : MX unit :=
  let* cfg := read config in
  ensure (negb cfg.(Proxy.paused)) ContractPaused.

Definition get_and_increase_next_outgoing_action_id : MX Z :=
  let* result := read next_outgoing_action_id in
  write (fun s => set_next_outgoing_action_id (wrapping_add u64_max s.(next_outgoing_action_id) 1) s);;
  ret result.
Definition get_and_increase_next_job_id : MX Z :=
  let* result := read next_job_id in
  write (fun s => set_next_job_id (wrapping_add u128_max s.(next_job_id) 1) s);;
  ret result.
Definition get_job (job_id : Z) : MX (list Z) :=
  let* o := read (fun s => s.(job_info) !! job_id) in
  match o with
  | Some (version, job_bytes) =>
      if version =? Proxy.V1 then ret job_bytes else throw (UnknownJobVersion version)
  | None => throw UnknownJob
  end.
(** [JobInformation::from_id] *)
Definition from_id (job_id : Z) : MX JobInformationV1 :=
  let* job_bytes := get_job job_id in
  or_text (fun err => Verbose (String.append "Cannot decode job information V1 " err))
    (Proxy.decode_job job_bytes).
Definition save_job (job_id : Z) (job : JobInformationV1) : MX unit :=
  write (fun s => set_job_info (<[job_id := (Proxy.V1, Proxy.encode_job job)]> s.(job_info)) s).

(** The loop body of [configure] *)
Definition configure_one (action : ConfigureArgument) : MX unit :=
  match action with
  | Owner address => write_config (Proxy.set_owner address)
  | IBCContract address => write_config (Proxy.set_ibc address)
  | AcurastPalletAccountArg address => write_config (Proxy.set_acurast_pallet_account address)
  | Paused b => write_config (Proxy.set_paused b)
  | PayloadVersion version => write_config (Proxy.set_payload_version version)
  | MaxMessageBytes max_size => write_config (Proxy.set_max_message_bytes max_size)
  | ExchangeRatioArg ratio => write_config (Proxy.set_exchange_ratio ratio)
  end.
Definition configure (c : CallEnv) (actions : list ConfigureArgument) : MX unit :=
  ensure_owner c;;
  mfor actions configure_one.

(** ** Sending actions *)

(** The arm of [do_send_actions] for [RegisterJob] *)
Definition register_job (c : CallEnv) (payload : RegisterJobUserInput) : MX OutgoingActionPayloadV1 :=
  let registration := payload.(Proxy.ru_job_registration) in
  let* job_id := get_and_increase_next_job_id in
  let sched := registration.(v1_schedule) in
  ensure (negb (sched.(v1_interval) =? 0)) (Verbose "INTERVAL_CANNNOT_BE_ZERO");;
  let count := Proxy.execution_count sched in
  let slots := registration.(v1_extra).(v1_slots) in
  let expected_fulfillment_fee := payload.(Proxy.ru_expected_fulfillment_fee) in
  let expected_fee := Proxy.total_of slots count expected_fulfillment_fee in
  let maximum_reward := Proxy.total_of slots count registration.(v1_extra).(v1_reward) in
  let* cfg := read config in
  let* cost := or_panic (Proxy.exchange_price cfg.(Proxy.exchange_ratio) maximum_reward) in
  ensure (negb (c.(transferred_value) <? wrapping_add u128_max expected_fee cost))
    (Verbose "AMOUNT_CANNOT_COVER_JOB_COSTS");;
  save_job job_id
    (Proxy.mkJobInformation sched c.(caller) payload.(Proxy.ru_destination) [] expected_fulfillment_fee
       expected_fee maximum_reward Open slots);;
  ret (RegisterJobV1 {| v1_job_id := job_id; v1_job_registration := registration |}).

Definition ensure_creator (c : CallEnv) (job : JobInformationV1) : MX unit :=
  ensure (job.(Proxy.ji_creator) =? c.(caller)) NotJobCreator.
(** The loop body of the arm for [FinalizeJob] *)
Definition check_finalize (c : CallEnv) (id : Z) : MX unit :=
  let* job := from_id id in
  ensure_creator c job;;
  let* now := gets host_timestamp in
  ensure (job.(Proxy.ji_schedule).(v1_end_time) / 1000 <? now) CannotFinalizeJob.

Definition outgoing_action (c : CallEnv) (action : UserAction) : MX OutgoingActionPayloadV1 :=
  match action with
  | RegisterJob payload => register_job c payload
  | DeregisterJob job_id =>
      let* job := from_id job_id in
      ensure_creator c job;;
      ret (DeregisterJobV1 job_id)
  | FinalizeJob ids =>
      mfor ids (check_finalize c);;
      ret (FinalizeJobV1 ids)
  | SetJobEnvironment payload =>
      let* job := from_id payload.(Proxy.se_job_id) in
      ensure_creator c job;;
      ret (SetJobEnvironmentV1
             {| v1_env_job_id := payload.(Proxy.se_job_id);
                v1_public_key := payload.(Proxy.se_public_key);
                v1_processors := Proxy.environment_of <$> payload.(Proxy.se_processors) |})
  | Noop => ret NoopV1
  end.

(** The loop body of [do_send_actions] up to its await: the request *)
Definition send_request (c : CallEnv) (action : UserAction) : MX Q :=
  let* payload := outgoing_action c action in
  let* action_id := read next_outgoing_action_id in
  let* cfg := read config in
  let encoded_action :=
    Proxy.encode_raw_action
      (Proxy.mkRawOutgoingAction action_id c.(caller) cfg.(Proxy.payload_version)
         (Proxy.encode_payload payload)) in
  ensure (Z.of_nat (length encoded_action) <? cfg.(Proxy.max_message_bytes)) OutgoingActionTooBig;;
  ret (request_send_message c.(account_id) cfg.(Proxy.ibc) (blake2_256_of_id action_id)
         (VIbc.Acurast (Extrinsic cfg.(Proxy.acurast_pallet_account))) encoded_action
         Proxy.MESSAGE_TTL).

Notation AX := (async W ProxyError Q).
Definition send_action (c : CallEnv) (action : UserAction) : AX unit :=
  (let& request := lift (send_request c action) in
   let& reply := await request in
   match reply with
   | ReplyFailed => Finish (Err IbcFailed)
   | Replied => lift (get_and_increase_next_outgoing_action_id;; ret tt)
   end)%async.
Definition do_send_actions (c : CallEnv) (actions : list UserAction) : AX unit :=
  afor actions (send_action c).
Definition send_actions (c : CallEnv) (actions : list UserAction) : AX unit :=
  (let& _ := lift ensure_unpaused in do_send_actions c actions)%async.

(** ** Receiving actions *)
Definition decode_incoming_action (payload : list Z) : MX Proxy.IncomingAction :=
  or_text InvalidIncomingAction (Proxy.decode_incoming payload).

Definition assign_job_processor (c : CallEnv) (job_id : Z) (processor : list Z) : MX unit :=
  let* job := from_id job_id in
  let processor_address := Proxy.account_from_bytes processor in
  let initial_fee := job.(Proxy.ji_expected_fulfillment_fee) in
  send_or_panic c processor_address [] initial_fee;;
  save_job job_id
    (Proxy.set_ji_status Assigned
       (Proxy.set_ji_remaining_fee (wrap_as u128_max (job.(Proxy.ji_remaining_fee) - initial_fee))
          (Proxy.set_ji_processors (job.(Proxy.ji_processors) ++ [processor_address]) job))).

Definition finalize_job (c : CallEnv) (job_id unused_reward : Z) : MX unit :=
  let* job := from_id job_id in
  (if unused_reward <=? job.(Proxy.ji_maximum_reward) then ret tt else panic);;
  let refund := wrapping_add u128_max job.(Proxy.ji_remaining_fee) unused_reward in
  (if 0 <? refund then send_or_panic c job.(Proxy.ji_creator) [] refund else ret tt);;
  save_job job_id (Proxy.set_ji_status FinalizedOrCancelled job).

Definition do_receive_action (c : CallEnv) (payload : list Z) : MX unit :=
  let* action := decode_incoming_action payload in
  match action.(Proxy.ia_payload) with
  | AssignJobProcessorV1 job_id processor => assign_job_processor c job_id processor
  | FinalizeIncomingV1 job_id unused_reward => finalize_job c job_id unused_reward
  | IncomingNoopV1 => ret tt
  end.
Definition receive_action (c : CallEnv) (payload : list Z) : MX unit :=
  ensure_unpaused;; do_receive_action c payload.

(** ** Fulfilling a job *)
Definition refill_fee (c : CallEnv) (job_id : Z) (job : JobInformationV1) : MX unit :=
  let has_funds := job.(Proxy.ji_expected_fulfillment_fee) <=? job.(Proxy.ji_remaining_fee) in
  if has_funds && (0 <? job.(Proxy.ji_expected_fulfillment_fee)) then
    let job := Proxy.set_ji_remaining_fee
                 (job.(Proxy.ji_remaining_fee) - job.(Proxy.ji_expected_fulfillment_fee)) job in
    send_or_panic c c.(caller) [] job.(Proxy.ji_expected_fulfillment_fee);;
    save_job job_id job
  else ret tt.
(** [msg::send(job.destination, payload, 0).map_err(..)] *)
Definition pass_on (c : CallEnv) (destination : AccountId) (payload : list Z) : MX unit :=
  let* w := gets id in
  let* w' := or_text ConsumerError (msg_send c.(account_id) destination (encode_bytes payload) 0 w) in
  modify (fun _ => w').
Definition do_fulfill (c : CallEnv) (job_id : Z) (payload : list Z) : MX unit :=
  let* job := from_id job_id in
  ensure (bool_decide (c.(caller) ∈ job.(Proxy.ji_processors))) NotJobProcessor;;
  ensure (bool_decide (job.(Proxy.ji_status) = Assigned)) JobAlreadyFinished;;
  refill_fee c job_id job;;
  pass_on c job.(Proxy.ji_destination) payload.
Definition fulfill (c : CallEnv) (job_id : Z) (payload : list Z) : MX unit :=
  ensure_unpaused;; do_fulfill c job_id payload.

(** * The messages of the program that change something *)
Inductive Call :=
| Configure (actions : list ConfigureArgument)
| SendActions (actions : list UserAction)
| ReceiveAction (payload : list Z)
| Fulfill (job_id : Z) (payload : list Z).

Definition run_call (c : CallEnv) (call : Call) : AX unit :=
  match call with
  | Configure actions => lift (configure c actions)
  | SendActions actions => send_actions c actions
  | ReceiveAction payload => lift (receive_action c payload)
  | Fulfill job_id payload => lift (fulfill c job_id payload)
  end.
Definition handle (c : CallEnv) (call : Call) : async W Empty_set Q unit :=
  panicking (let& _ := lift (accept_value c true) in run_call c call)%async.
End program.
End VProxy.
