(* ===== verification/VaraSpecs.v ===== *)
(** Vara: the two programs of [VaraIbc.v] and [VaraProxy.v] in one network, and what
    holds however their messages are interleaved.

    The program for messages asks the proxy to process what it has received, the proxy
    asks it to send; each waits for the other's reply while further messages are
    handled.  A received message is passed on exactly once and in order; but two users
    whose calls wait at the same time get in each other's way. *)
From S2P Require Import Prelude JobTypes BridgeTypes Contracts Gear InkIbc InkProxy.
From S2P Require Import HyperdriveToken BridgeReference InkReference VaraIbc VaraProxy.
From stdpp Require Import strings.
#[local] Open Scope Z_scope.
#[local] Open Scope monad_scope.

(** * The network *)
Record VaraWorld (X : Type) := mkVaraWorld {
  vw_ibc : VIbc.Storage;
  vw_proxy : VProxy.Storage;
  (** the balances, the block and the other programs *)
  vw_chain : X;
}.
Arguments mkVaraWorld {X} _ _ _.
Arguments vw_ibc {X} _.
Arguments vw_proxy {X} _.
Arguments vw_chain {X} _.

(** The rest of the chain *)
Class VaraChain (X : Type) := {
  vara_host :: Host X;
  vara_send :: MsgSend X;
  ibc_program : AccountId;
  proxy_program : AccountId;
}.

Inductive GearCall :=
| IbcCall (call : VIbc.Call)
| ProxyCall (call : VProxy.Call).
Record GearMessage := mkGearMessage {
  gm_source : AccountId;
  gm_destination : AccountId;
  gm_value : Balance;
  gm_call : GearCall;
}.

(** Requests of the programs carry no value. *)
#[export] Instance gear_ibc_requests : VIbc.Requests GearMessage := {|
  VIbc.request_receive_action from to payload :=
    mkGearMessage from to 0 (ProxyCall (VProxy.ReceiveAction payload));
|}.
#[export] Instance gear_proxy_requests : VProxy.Requests GearMessage := {|
  VProxy.request_send_message from to nonce recipient payload ttl :=
    mkGearMessage from to 0 (IbcCall (VIbc.SendMessage nonce recipient payload ttl));
|}.

Section network.
Context {X : Type} {C : VaraChain X} {K : VIbc.Crypto} {D : Proxy.Codec} {N : VProxy.Encoding}.
Notation W := (VaraWorld X).

Definition set_vara_chain (x : X) (w : W) : W := mkVaraWorld w.(vw_ibc) w.(vw_proxy) x.
#[export] Instance vara_world_host : Host W := {|
  host_block_number w := host_block_number w.(vw_chain);
  host_timestamp w := host_timestamp w.(vw_chain);
  host_transfer from to n w :=
    (fun x => set_vara_chain x w) <$> host_transfer from to n w.(vw_chain);
|}.
#[export] Instance vara_world_send : MsgSend W := {|
  msg_send from to payload n w :=
    match msg_send from to payload n w.(vw_chain) with
    | inl text => inl text
    | inr x => inr (set_vara_chain x w)
    end;
|}.
#[export] Instance vara_world_ibc : VIbc.IbcIn W := {|
  VIbc.ibc_of := vw_ibc;
  VIbc.put_ibc s w := mkVaraWorld s w.(vw_proxy) w.(vw_chain);
|}.
#[export] Instance vara_world_proxy : VProxy.ProxyIn W := {|
  VProxy.proxy_of := vw_proxy;
  VProxy.put_proxy s w := mkVaraWorld w.(vw_ibc) s w.(vw_chain);
|}.

(** A program panics on a message of another interface. *)
Definition gear_handle (m : GearMessage) : option (async W Empty_set GearMessage unit) :=
  let c := mkCallEnv m.(gm_source) m.(gm_destination) m.(gm_value) in
  if m.(gm_destination) =? ibc_program then
    Some (match m.(gm_call) with IbcCall call => VIbc.handle c call | ProxyCall _ => Finish Panic end)
  else if m.(gm_destination) =? proxy_program then
    Some (match m.(gm_call) with ProxyCall call => VProxy.handle c call | IbcCall _ => Finish Panic end)
  else None.
(** Blocks pass, accounts and other programs act; the storage of a program is its own. *)
Definition gear_outside (w w' : W) : Prop :=
  w'.(vw_ibc) = w.(vw_ibc) /\ w'.(vw_proxy) = w.(vw_proxy) /\
  host_block_number w <= host_block_number w'.

Notation vara_run := (net_run gear_handle).
Notation vara_step := (net_step gear_handle gear_outside).
Notation Net := (Net W GearMessage).
Notation ibc w := (VIbc.ibc_of w).
Notation AW E := (async W E GearMessage).

(** * What the functions leave alone *)
Section frames.
Context {T : Type} (f : W -> T) (Hf : forall x w, f (set_vara_chain x w) = f w).
Lemma framed_vara_send {E} c to payload n : framed (E := E) f (send_or_panic c to payload n).
Proof using Hf.
  intros s r s' Hr. unfold send_or_panic, bind, gets in Hr. simpl in Hr.
  destruct (msg_send _ to payload n (vw_chain s)); cbv in Hr; simplify_eq; [done|apply Hf].
Qed.
Lemma framed_vara_value {E} c b : framed (E := E) f (accept_value c b).
Proof using Hf.
  unfold accept_value. destruct (_ =? 0); [apply framed_ret|]. destruct b; [|apply framed_panic].
  intros s r s' Hr. unfold bind, gets, or_panic in Hr. simpl in Hr.
  destruct (host_transfer _ _ _ (vw_chain s)); cbv in Hr; simplify_eq; [apply Hf|done].
Qed.
End frames.
#[local] Hint Resolve framed_vara_send framed_vara_value : framed.

(** ** The program for messages *)

(** What it has received *)
Definition received (w : W) := ((ibc w).(VIbc.incoming), (ibc w).(VIbc.incoming_index)).

(** Everything but the receipt of a message leaves alone what depends on neither the
    rest of the chain nor the other fields of the storage. *)
Section ibc_frames.
Context {T : Type} (f : W -> T) (Hf : forall x w, f (set_vara_chain x w) = f w).
Context (Hwrite : forall g, (forall s, (VIbc.incoming (g s), VIbc.incoming_index (g s)) =
  (VIbc.incoming s, VIbc.incoming_index s)) -> framed f (VIbc.write g)).

Lemma ibc_write_config g : framed f (VIbc.write_config g).
Proof using Hwrite. by apply Hwrite. Qed.
Lemma ibc_notify e : framed f (VIbc.notify_on e).
Proof using Hwrite. by apply Hwrite. Qed.
Lemma ibc_unpaused : framed f VIbc.ensure_unpaused.
Proof using. unfold VIbc.ensure_unpaused, VIbc.read. solve_framed. Qed.
Hint Resolve ibc_write_config ibc_notify ibc_unpaused : framed.
Lemma ibc_configure c actions : framed f (VIbc.configure c actions).
Proof using Hwrite.
  unfold VIbc.configure, VIbc.ensure_owner, VIbc.read, VIbc.configure_one,
    VIbc.update_oracles, VIbc.update_oracle. solve_framed; by apply Hwrite.
Qed.
Lemma check_reads message relayer signatures min :
  framed (fun w : W => w) (VIbc.check_signatures message relayer signatures min).
Proof using.
  unfold VIbc.check_signatures, VIbc.check_signature, VIbc.read. solve_framed.
  intros s r s' Hr. by simplify_eq.
Qed.
Lemma ibc_check message relayer signatures min :
  framed f (VIbc.check_signatures message relayer signatures min).
Proof using. apply (framed_weaken (fun w : W => w)), check_reads. Qed.
Lemma ibc_do_send sender payer nonce recipient payload ttl fee :
  framed f (VIbc.do_send_message sender payer nonce recipient payload ttl fee).
Proof using Hwrite.
  unfold VIbc.do_send_message, VIbc.read, VIbc.block_height. solve_framed; by apply Hwrite.
Qed.
Hint Resolve ibc_check ibc_do_send : framed.
Lemma ibc_send c nonce recipient payload ttl : framed f (VIbc.send_message c nonce recipient payload ttl).
Proof using Hwrite. unfold VIbc.send_message. solve_framed. Qed.
Lemma ibc_send_test c recipient ttl : framed f (VIbc.send_test_message c recipient ttl).
Proof using Hwrite. unfold VIbc.send_test_message, VIbc.read. solve_framed. Qed.
Lemma ibc_confirm c i signatures : framed f (VIbc.confirm_message_delivery c i signatures).
Proof using Hf Hwrite.
  unfold VIbc.confirm_message_delivery, VIbc.do_confirm_message_delivery, VIbc.read,
    VIbc.block_height. solve_framed; (by apply Hwrite) || by apply framed_vara_send.
Qed.
(** The calls that run in one slice *)
Lemma ibc_run c call :
  (forall sender nonce recipient payload signatures,
     call <> VIbc.ReceiveMessage sender nonce recipient payload signatures) ->
  exists m, VIbc.run_call (Q := GearMessage) c call = lift m /\ framed f m.
Proof using Hf Hwrite.
  intros Hc. destruct call as [actions|s n r p sg|n r p ttl|r ttl|i sg];
    [|by destruct (Hc _ _ _ _ _ eq_refl)|..]; (eexists; split; [reflexivity|]).
  - apply ibc_configure.
  - apply ibc_send.
  - apply ibc_send_test.
  - apply ibc_confirm.
Qed.
End ibc_frames.

Lemma received_write g : (forall s, (VIbc.incoming (g s), VIbc.incoming_index (g s)) =
    (VIbc.incoming s, VIbc.incoming_index s)) -> framed received (VIbc.write g).
Proof. intros Hg. apply framed_modify. intros w. apply Hg. Qed.
Lemma ibc_apart g : framed vw_proxy (VIbc.write g).
Proof. by apply framed_modify. Qed.

(** ** The proxy *)
Lemma apart_write g : framed vw_ibc (VProxy.write g).
Proof. by apply framed_modify. Qed.
Lemma apart_from_id i : framed vw_ibc (VProxy.from_id i).
Proof. unfold VProxy.from_id, VProxy.get_job, VProxy.read, VProxy.or_text. solve_framed. Qed.
Lemma apart_save i job : framed vw_ibc (VProxy.save_job i job).
Proof. apply apart_write. Qed.
Lemma apart_unpaused : framed vw_ibc VProxy.ensure_unpaused.
Proof. unfold VProxy.ensure_unpaused, VProxy.read. solve_framed. Qed.
Hint Resolve apart_write apart_from_id apart_save apart_unpaused : framed.
Lemma apart_configure c actions : framed vw_ibc (VProxy.configure c actions).
Proof.
  unfold VProxy.configure, VProxy.ensure_owner, VProxy.read, VProxy.configure_one,
    VProxy.write_config. solve_framed.
Qed.
Lemma apart_request c action : framed vw_ibc (VProxy.send_request c action).
Proof.
  unfold VProxy.send_request, VProxy.outgoing_action, VProxy.register_job,
    VProxy.get_and_increase_next_job_id, VProxy.check_finalize, VProxy.ensure_creator,
    VProxy.read. solve_framed.
Qed.
Lemma apart_receive c payload : framed vw_ibc (VProxy.receive_action c payload).
Proof.
  unfold VProxy.receive_action, VProxy.do_receive_action, VProxy.decode_incoming_action,
    VProxy.or_text, VProxy.assign_job_processor, VProxy.finalize_job.
  solve_framed; by apply framed_vara_send.
Qed.
Lemma framed_pass_on {T} (f : W -> T) c to payload :
  (forall x w, f (set_vara_chain x w) = f w) -> framed f (VProxy.pass_on c to payload).
Proof.
  intros Hf s r s' Hr. unfold VProxy.pass_on, bind, gets in Hr. simpl in Hr.
  destruct (msg_send _ _ _ _ (vw_chain s)); cbv in Hr; simplify_eq; [done|apply Hf].
Qed.
Lemma apart_fulfill c i payload : framed vw_ibc (VProxy.fulfill c i payload).
Proof.
  unfold VProxy.fulfill, VProxy.do_fulfill, VProxy.refill_fee.
  solve_framed; by apply framed_vara_send || by apply framed_pass_on.
Qed.

(** * Messages that are passed on

    Every slice but the one in which a message is received leaves what was received
    alone, and asks for nothing but sending. *)
Definition is_send (q : GearMessage) : Prop := exists call, q.(gm_call) = IbcCall call.
Notation quiet := (runs_in (fun w w' => received w' = received w) is_send).

Lemma quiet_lift {E A} (m : M W E A) : framed received m -> quiet (lift m).
Proof. intros Hm. apply runs_in_lift. intros w. apply (Hm w (m w).1). by destruct (m w). Qed.
Lemma quiet_apart {E A} (m : M W E A) : framed vw_ibc m -> quiet (lift m).
Proof.
  intros Hm. apply quiet_lift.
  exact (framed_weaken vw_ibc (fun s => (VIbc.incoming s, VIbc.incoming_index s)) m Hm).
Qed.
(** The configuration of the proxy and the number of the next action *)
Definition addressing (w : W) :=
  (VProxy.config (VProxy.proxy_of w), VProxy.next_outgoing_action_id (VProxy.proxy_of w)).
Lemma addressing_outgoing c action : framed addressing (VProxy.outgoing_action c action).
Proof.
  unfold VProxy.outgoing_action, VProxy.register_job, VProxy.get_and_increase_next_job_id,
    VProxy.check_finalize, VProxy.ensure_creator, VProxy.from_id, VProxy.get_job,
    VProxy.save_job, VProxy.or_text, VProxy.write, VProxy.read. solve_framed.
Qed.
(** What the proxy asks the program for messages *)
Lemma send_request_ok c action w q w' :
  VProxy.send_request (Q := GearMessage) c action w = (Ok q, w') ->
  addressing w' = addressing w /\
  exists recipient payload, let s := VProxy.proxy_of w in
    q = mkGearMessage c.(account_id) s.(VProxy.config).(Proxy.ibc) 0
          (IbcCall (VIbc.SendMessage (VProxy.blake2_256_of_id s.(VProxy.next_outgoing_action_id))
             recipient payload Proxy.MESSAGE_TTL)).
Proof.
  unfold VProxy.send_request, VProxy.read. intros Hr.
  apply bind_ok in Hr as (p & w1 & Ho & Hr). apply addressing_outgoing in Ho.
  apply bind_ok in Hr as (i & w2 & [<- <-]%gets_ok & Hr).
  apply bind_ok in Hr as (cfg & w2 & [<- <-]%gets_ok & Hr). cbv zeta in Hr.
  apply bind_ok in Hr as (u & w2 & [_ <-]%ensure_ok & [<- <-]%ret_ok).
  split; [done|]. unfold addressing in Ho. simplify_eq. eexists _, _. cbv zeta.
  match goal with H : VProxy.config _ = _, H' : VProxy.next_outgoing_action_id _ = _ |- _ =>
    rewrite H, H' end. reflexivity.
Qed.
Lemma quiet_proxy c call : quiet (VProxy.handle (W := W) c call).
Proof.
  unfold VProxy.handle. apply runs_in_panicking, runs_in_bind.
  { by apply quiet_lift, framed_vara_value. }
  intros _. destruct call as [actions|actions|payload|i payload]; cbn [VProxy.run_call].
  - apply quiet_apart, apart_configure.
  - unfold VProxy.send_actions. apply runs_in_bind; [apply quiet_apart, apart_unpaused|]. intros _.
    apply runs_in_for. intros a. unfold VProxy.send_action.
    apply runs_in_lift_bind. intros w o w' Hr.
    split; [unfold received; simpl; by rewrite (apart_request _ _ _ _ _ Hr)|].
    destruct o as [q| |]; [|done..]. apply send_request_ok in Hr as (_ & recipient & payload & ->).
    apply runs_in_bind; [by apply runs_in_await; eexists|].
    intros []; [|done]. apply quiet_apart. unfold VProxy.get_and_increase_next_outgoing_action_id.
    solve_framed.
  - apply quiet_apart, apart_receive.
  - apply quiet_apart, apart_fulfill.
Qed.

Lemma quiet_ibc c call : 
  (forall sender nonce recipient payload signatures,
     call <> VIbc.ReceiveMessage sender nonce recipient payload signatures) ->
  quiet (VIbc.handle (W := W) c call).
Proof.
  intros Hc. unfold VIbc.handle. apply runs_in_panicking, runs_in_bind.
  { by apply quiet_lift, framed_vara_value. }
  intros _. destruct (ibc_run received ltac:(done) received_write c call Hc) as (m & -> & Hm).
  by apply quiet_lift.
Qed.

(** What is stored of a message that is received *)
Definition with_received (m : VIbc.IncomingMessageWithMeta) (s : VIbc.Storage) : VIbc.Storage :=
  let i := VIbc.msg_id (VIbc.im_message m) in
  VIbc.set_incoming_index (s.(VIbc.incoming_index) ++ [i])
    (VIbc.set_incoming (<[i := m]> s.(VIbc.incoming)) s).
(** The request that passes it on *)
Definition forward_of (m : VIbc.IncomingMessageWithMeta) : option GearMessage :=
  match (VIbc.im_message m).(VIbc.msg_recipient) with
  | VIbc.Vara (Contract cc) =>
      Some (VIbc.request_receive_action ibc_program cc.(contract)
              (VIbc.im_message m).(VIbc.msg_payload))
  | _ => None
  end.
Definition is_forward (q : GearMessage) : bool :=
  match q.(gm_call) with ProxyCall _ => true | IbcCall _ => false end.

Lemma accept_stores c sender nonce recipient payload signatures w a w' :
  VIbc.accept_message c sender nonce recipient payload signatures w = (Ok a, w') ->
  exists m cc, (VIbc.im_message m).(VIbc.msg_payload) = payload /\
    (VIbc.im_message m).(VIbc.msg_recipient) = VIbc.Vara (Contract cc) /\ a = cc.(contract) /\
    (ibc w).(VIbc.incoming) !! VIbc.msg_id (VIbc.im_message m) = None /\
    ibc w' = with_received m (ibc w).
Proof.
  unfold VIbc.accept_message, VIbc.read, VIbc.block_height. intros Ha.
  apply bind_ok in Ha as (to & w1 & Hr & Ha).
  destruct recipient as [|?|[|cc]]; [done..|]. apply ret_ok in Hr as [<- <-].
  apply bind_ok in Ha as (known & w2 & [<- <-]%gets_ok & Ha).
  apply bind_ok in Ha as (u & w2 & [Hk <-]%ensure_ok & Ha).
  apply bind_ok in Ha as (b & w2 & [<- <-]%gets_ok & Ha). cbv zeta in Ha.
  apply bind_ok in Ha as (cfg & w2 & [<- <-]%gets_ok & Ha).
  apply bind_ok in Ha as (u1 & w2 & ->%check_reads & Ha).
  apply bind_ok in Ha as (u2 & w3 & <-%modify_ok & Ha).
  apply bind_ok in Ha as (u3 & w4 & <-%modify_ok & [<- <-]%ret_ok).
  eexists (VIbc.mkIncoming (VIbc.mkMessage _ _ _ _ _) _ _), cc. simpl.
  split; [done|]. split; [done|]. split; [done|]. split; [|done].
  by destruct (VIbc.incoming _ !! _).
Qed.

(** The slice in which a message is received *)
Lemma receive_slice c sender nonce recipient payload signatures w e w' :
  c.(account_id) = ibc_program ->
  run_slice (VIbc.handle c (VIbc.ReceiveMessage sender nonce recipient payload signatures)) w = (e, w') ->
  match e with
  | Ended (Ok _) => False
  | Ended _ => True
  | Waiting q k => exists m, forward_of m = Some q /\
      (ibc w).(VIbc.incoming) !! VIbc.msg_id (VIbc.im_message m) = None /\
      ibc w' = with_received m (ibc w) /\ forall r, quiet (k r)
  end.
Proof.
  intros Hme. unfold VIbc.handle. rewrite slice_panicking, slice_bind, slice_lift.
  destruct (accept_value c true w) as [[u| |] w1] eqn:Ev; [|by intros [= <- <-]..].
  apply (framed_vara_value vw_ibc) in Ev; [|done].
  cbn [VIbc.run_call]. unfold VIbc.receive_message. rewrite slice_bind, slice_lift.
  destruct (VIbc.ensure_unpaused w1) as [[u1| |] w2] eqn:Eu; [|by intros [= <- <-]..].
  assert (w2 = w1) as ->.
  { unfold VIbc.ensure_unpaused, VIbc.read in Eu.
    by apply bind_ok in Eu as (cfg & w3 & [_ <-]%gets_ok & [_ <-]%ensure_ok). }
  unfold VIbc.do_receive_message. rewrite slice_bind, slice_lift.
  destruct (VIbc.accept_message c sender nonce recipient payload signatures w1) as [[to| |] w2] eqn:Ea;
    [|by intros [= <- <-]..].
  apply accept_stores in Ea as (m & cc & Hp & Hr & -> & Hn & Hs). simpl in Hn, Hs. rewrite Ev in Hn, Hs.
  simpl. intros [= <- <-]. exists m. split; [|split; [done|split; [done|]]].
  - unfold forward_of. by rewrite Hr, Hp, Hme.
  - intros r w0. by split.
Qed.

(** ** Every interleaving *)

(** Each message that was received is in the list of requests once, and they are in
    the order of the index. *)
Definition forwarded (n : Net) : Prop :=
  let s := ibc n.(world) in
  NoDup s.(VIbc.incoming_index) /\
  (forall i, i ∈ s.(VIbc.incoming_index) <-> is_Some (s.(VIbc.incoming) !! i)) /\
  Some <$> filter is_forward n.(sent) =
    (fun i => s.(VIbc.incoming) !! i ≫= forward_of) <$> s.(VIbc.incoming_index).

Lemma forwarded_same n n' :
  received n'.(world) = received n.(world) -> filter is_forward n'.(sent) = filter is_forward n.(sent) ->
  forwarded n -> forwarded n'.
Proof. unfold received, forwarded. simpl. intros [= Hi Hx] Hf. by rewrite Hi, Hx, Hf. Qed.

Lemma forwarded_receipt n q m :
  (ibc n.(world)).(VIbc.incoming) !! VIbc.msg_id (VIbc.im_message m) = None ->
  forward_of m = Some q ->
  forall n', ibc n'.(world) = with_received m (ibc n.(world)) -> n'.(sent) = n.(sent) ++ [q] ->
  forwarded n -> forwarded n'.
Proof.
  intros Hi Hq n' Hw Hs (Hd & Hx & Hf). unfold forwarded. rewrite Hw, Hs.
  set (s := ibc n.(world)) in *. set (i := VIbc.msg_id (VIbc.im_message m)) in *. simpl.
  assert (i ∉ s.(VIbc.incoming_index)) as Hni by (rewrite Hx, Hi; by intros []).
  split; [|split].
  - apply NoDup_app. split; [done|]. split; [|apply NoDup_singleton].
    intros j Hj ->%list_elem_of_singleton. done.
  - intros j. rewrite elem_of_app, list_elem_of_singleton, Hx. destruct (decide (j = i)) as [->|Hj].
    + rewrite lookup_insert_eq. naive_solver.
    + rewrite lookup_insert_ne by done. naive_solver.
  - assert (is_forward q = true) as Hqf.
    { unfold forward_of in Hq. destruct (VIbc.msg_recipient _) as [?|?|[|cc]]; by simplify_eq. }
    rewrite filter_app, filter_cons_True, !fmap_app, Hf by (by rewrite Hqf). simpl.
    rewrite lookup_insert_eq. simpl. rewrite Hq. f_equal.
    apply list_fmap_ext. intros k j Hj%list_elem_of_lookup_2. rewrite lookup_insert_ne; [done|].
    by intros <-.
Qed.

(** What holds in every state of the network *)
Definition passes_on (n : Net) : Prop :=
  forwarded n /\ all_in (fun w w' => received w' = received w) is_send n.

Lemma is_send_filter l q : is_send q -> filter is_forward (l ++ [q]) = filter is_forward l.
Proof.
  intros [call Hq]. rewrite filter_app, filter_cons_False, app_nil_r; [done|].
  unfold is_forward. rewrite Hq. by intros [].
Qed.
Lemma settle_quiet rq x n n1 :
  quiet x -> passes_on n -> n1.(world) = n.(world) -> n1.(suspended) ⊆ n.(suspended) ->
  n1.(sent) = n.(sent) ->
  received (settle rq x n1).(world) = received n.(world) /\ passes_on (settle rq x n1).
Proof.
  intros Hx [Hf Ha] Hw Ht Hs.
  assert (all_in (fun w w' => received w' = received w) is_send n1) as Ha1
    by (intros i t Hi; eapply Ha, lookup_weaken; eauto).
  assert (PreOrder (fun w w' : W => received w' = received w)) as HP
    by (split; [done|intros ? ? ? -> ->; done]).
  destruct (settle_cases rq x n1) as [(Hw' & Ht' & Hs')|[(u & w & Hr & Hw' & Ht' & Hs')|(q & k & w & Hr & ->)]].
  - split; [congruence|]. split; [|intros i t; rewrite Ht'; apply Ha1].
    apply (forwarded_same n); [by rewrite Hw', Hw|by rewrite Hs', Hs|done].
  - destruct (slice_runs_in _ _ _ _ _ _ Hx Hr) as [HR _]. rewrite Hw in HR.
    split; [by rewrite Hw'|]. split; [|intros i t; rewrite Ht'; apply Ha1].
    apply (forwarded_same n); [by rewrite Hw'|by rewrite Hs', Hs|done].
  - destruct (slice_runs_in _ _ _ _ _ _ Hx Hr) as [HR [Hq Hk]]. rewrite Hw in HR.
    split; [done|]. split.
    + apply (forwarded_same n); [done| |done]. simpl. by rewrite is_send_filter, Hs.
    + intros i t. simpl. intros [[<- <-]|[_ Hi]]%lookup_insert_Some; [done|]. by eapply Ha1.
Qed.

(** A computation that a handler starts is quiet, or receives a message. *)
Lemma handler_cases q x : gear_handle q = Some x ->
  quiet x \/
  exists c sender nonce recipient payload signatures, c.(account_id) = ibc_program /\
    x = VIbc.handle c (VIbc.ReceiveMessage sender nonce recipient payload signatures).
Proof.
  unfold gear_handle. destruct (Z.eqb_spec (gm_destination q) ibc_program) as [Hd|_].
  - destruct (gm_call q) as [call|call]; intros [= <-]; [|by left].
    destruct call; try (left; by apply quiet_ibc). right. by repeat eexists.
  - destruct (_ =? _); [|done]. destruct (gm_call q) as [call|call]; intros [= <-]; left; [done|].
    apply quiet_proxy.
Qed.

Lemma settle_receive rq c sender nonce recipient payload signatures n n1 :
  let n' := settle rq (VIbc.handle c (VIbc.ReceiveMessage sender nonce recipient payload signatures)) n1 in
  c.(account_id) = ibc_program -> passes_on n -> n1.(world) = n.(world) ->
  n1.(suspended) ⊆ n.(suspended) -> n1.(sent) = n.(sent) ->
  (ibc n.(world)).(VIbc.incoming) ⊆ (ibc n'.(world)).(VIbc.incoming) /\ passes_on n'.
Proof.
  intros n' Hme [Hf Ha] Hw Ht Hs.
  assert (all_in (fun w w' => received w' = received w) is_send n1) as Ha1
    by (intros i t Hi; eapply Ha, lookup_weaken; eauto).
  destruct (settle_cases rq (VIbc.handle c (VIbc.ReceiveMessage sender nonce recipient payload
    signatures)) n1) as [(Hw' & Ht' & Hs')|[(u & w & Hr & _)|(q & k & w & Hr & Hn)]].
  - fold n' in Hw', Ht', Hs'. rewrite Hw', Hw. split; [done|]. split; [|intros i t; rewrite Ht'; apply Ha1].
    apply (forwarded_same n); [by rewrite Hw', Hw|by rewrite Hs', Hs|done].
  - by apply receive_slice in Hr.
  - apply receive_slice in Hr as (m & Hq & Hi & Hst & Hk); [|done]. rewrite Hw in Hi, Hst.
    fold n' in Hn. rewrite Hn. simpl. split; [|split].
    + simpl in Hst. rewrite Hst. simpl. by apply insert_subseteq.
    + eapply (forwarded_receipt n q m); [done..| |exact Hf]. simpl. by rewrite Hs.
    + intros i t. simpl. intros [[<- <-]|[_ Hj]]%lookup_insert_Some; [done|]. by eapply Ha1.
Qed.

Lemma received_incoming w w' : received w' = received w ->
  (ibc w').(VIbc.incoming) = (ibc w).(VIbc.incoming).
Proof. by intros [= Hi _]. Qed.

Lemma passes_on_step n n' : vara_step n n' -> passes_on n ->
  (ibc n.(world)).(VIbc.incoming) ⊆ (ibc n'.(world)).(VIbc.incoming) /\ passes_on n'.
Proof.
  intros Hs Hp. apply step_moves in Hs as [Hw Ht Hsn|rq x n1 Hx Hw Ht Hsn ->].
  - assert (received n'.(world) = received n.(world)) as Hr.
    { destruct Hw as [->|(Hi & _)]; [done|]. unfold received. simpl. by rewrite Hi. }
    split; [by rewrite (received_incoming _ _ Hr)|]. destruct Hp as [Hf Ha].
    split; [apply (forwarded_same n); [done|by rewrite Hsn|done]|]. intros i t. rewrite Ht. apply Ha.
  - assert (quiet x \/ exists c sender nonce recipient payload signatures, c.(account_id) = ibc_program /\
      x = VIbc.handle c (VIbc.ReceiveMessage sender nonce recipient payload signatures))
      as [Hq|(c & sender & nonce & recipient & payload & signatures & Hme & ->)].
    { destruct Hx as [q Hq|i t r Hi ->]; [by eapply handler_cases|]. left. by eapply (proj2 Hp). }
    + destruct (settle_quiet rq x n n1 Hq Hp Hw Ht Hsn) as [Hr Hp']. split; [|done].
      by rewrite (received_incoming _ _ Hr).
    + by apply (settle_receive _ _ _ _ _ _ _ n).
Qed.

(** C10: However the messages of the network are interleaved, and whatever fails or
    comes late: a message that the program has received stays stored as it is, its id
    is in the index once, and the proxy that it names has been asked to process it
    exactly once, in the order of the index, and was asked nothing else. *)
Theorem received_messages_are_passed_on_once n0 n n' :
  (ibc n0.(world)).(VIbc.incoming) = ∅ -> (ibc n0.(world)).(VIbc.incoming_index) = [] ->
  n0.(suspended) = ∅ -> n0.(sent) = [] ->
  rtc vara_step n0 n -> rtc vara_step n n' ->
  let s := ibc n'.(world) in
  (ibc n.(world)).(VIbc.incoming) ⊆ s.(VIbc.incoming) /\
  NoDup s.(VIbc.incoming_index) /\
  (forall i, i ∈ s.(VIbc.incoming_index) <-> is_Some (s.(VIbc.incoming) !! i)) /\
  Some <$> filter is_forward n'.(sent) =
    (fun i => s.(VIbc.incoming) !! i ≫= forward_of) <$> s.(VIbc.incoming_index).
Proof.
  intros Hi Hx Ht Hs H0 H1.
  assert (passes_on n0) as Hp.
  { split; [|intros i t; rewrite Ht, lookup_empty; done]. unfold forwarded. rewrite Hi, Hx, Hs.
    split; [constructor|]. split; [|done]. intros i. rewrite lookup_empty.
    split; [by intros ?%elem_of_nil|by intros []]. }
  assert (forall a b, rtc vara_step a b -> passes_on a ->
    (ibc a.(world)).(VIbc.incoming) ⊆ (ibc b.(world)).(VIbc.incoming) /\ passes_on b) as Hrun.
  { intros a b Hr. induction Hr as [a|a b c Hs1 _ IH]; [done|]. intros Ha.
    apply passes_on_step in Hs1 as [Hin Hb]; [|done]. destruct (IH Hb) as [Hin' Hc].
    split; [by etrans|done]. }
  destruct (Hrun _ _ H0 Hp) as [_ Hn]. destruct (Hrun _ _ H1 Hn) as [Hin [Hf _]].
  cbv zeta. split; [exact Hin|exact Hf].
Qed.

(** * Calls that wait at the same time *)
Notation send_to_ibc from to nonce recipient payload :=
  (mkGearMessage from to 0 (IbcCall (VIbc.SendMessage nonce recipient payload Proxy.MESSAGE_TTL))).

Lemma addressing_unpaused : framed (fun w : W => w) VProxy.ensure_unpaused.
Proof. unfold VProxy.ensure_unpaused, VProxy.read. solve_framed. Qed.

(** The first slice of a call of a user: it waits for its first action to be sent, and
    gives up if that fails. *)
Lemma send_slice c l w q k w' :
  run_slice (VProxy.handle c (VProxy.SendActions l)) w = (Waiting q k, w') ->
  addressing w' = addressing w /\ ibc w' = ibc w /\
  (exists recipient payload, let s := VProxy.proxy_of w in
     q = send_to_ibc c.(account_id) s.(VProxy.config).(Proxy.ibc)
           (VProxy.blake2_256_of_id s.(VProxy.next_outgoing_action_id)) recipient payload) /\
  forall v, run_slice (k ReplyFailed) v = (Ended Panic, v).
Proof.
  unfold VProxy.handle. rewrite slice_panicking, slice_bind, slice_lift.
  destruct (accept_value c true w) as [[u| |] w1] eqn:Ev; [|done..].
  pose proof (framed_vara_value vw_ibc ltac:(done) _ _ _ _ _ Ev) as Hi.
  apply (framed_vara_value vw_proxy) in Ev; [|done].
  cbn [VProxy.run_call]. unfold VProxy.send_actions. rewrite slice_bind, slice_lift.
  destruct (VProxy.ensure_unpaused w1) as [[u1| |] w2] eqn:Eu; [|done..].
  apply addressing_unpaused in Eu as ->.
  destruct l as [|a l]; [done|]. cbn [VProxy.do_send_actions afor].
  unfold VProxy.do_send_actions, VProxy.send_action. cbn [afor].
  rewrite slice_bind, slice_bind, slice_lift.
  destruct (VProxy.send_request c a w1) as [[q1| |] w2] eqn:Eq; [|done..].
  pose proof (apart_request _ _ _ _ _ Eq) as Hi2.
  apply send_request_ok in Eq as (Had & recipient & payload & ->).
  simpl. intros [= <- <- <-]. unfold addressing in *. simpl in *. rewrite Ev in *.
  split; [done|]. split; [congruence|]. split; [by eexists _, _|]. done.
Qed.

(** Sending is refused as long as a message with the same nonce can be delivered. *)
Lemma vara_do_send_ok sender payer nonce recipient payload ttl fee w m w' :
  VIbc.do_send_message sender payer nonce recipient payload ttl fee w = (Ok m, w') ->
  let i := VIbc.hash_sender_nonce sender nonce in
  (forall m', (ibc w).(VIbc.outgoing) !! i = Some m' -> VIbc.om_ttl_block m' < host_block_number w) /\
  m = VIbc.mkOutgoing (VIbc.mkMessage i sender nonce recipient payload) (host_block_number w)
        (saturating_add u32_max (host_block_number w) ttl) fee payer /\
  (ibc w').(VIbc.outgoing) = <[i := m]> (ibc w).(VIbc.outgoing) /\
  w'.(vw_proxy) = w.(vw_proxy) /\ w'.(vw_chain) = w.(vw_chain).
Proof.
  unfold VIbc.do_send_message, VIbc.read, VIbc.block_height. intros Hs.
  apply bind_ok in Hs as (b & w1 & [<- <-]%gets_ok & Hs). cbv zeta in Hs.
  apply bind_ok in Hs as (o & w1 & [<- <-]%gets_ok & Hs).
  apply bind_ok in Hs as (u & w1 & Ho & Hs).
  assert (w1 = w /\ forall m', (ibc w).(VIbc.outgoing) !! VIbc.hash_sender_nonce sender nonce = Some m' ->
    VIbc.om_ttl_block m' < host_block_number w) as [-> Hp].
  { destruct (VIbc.outgoing (ibc w) !! VIbc.hash_sender_nonce sender nonce) as [m'|].
    - apply ensure_ok in Ho as [Hb%negb_true_iff <-]. split; [done|]. intros ? [= <-].
      by apply Z.leb_gt in Hb.
    - by apply ret_ok in Ho as [_ <-]. }
  apply bind_ok in Hs as (cfg & w1 & [<- <-]%gets_ok & Hs).
  apply bind_ok in Hs as (u1 & w1 & [_ <-]%ensure_ok & Hs).
  apply bind_ok in Hs as (u2 & w2 & <-%modify_ok & Hs).
  apply bind_ok in Hs as (u3 & w3 & <-%modify_ok & Hs).
  apply bind_ok in Hs as (u4 & w4 & <-%modify_ok & [<- <-]%ret_ok).
  cbv zeta. split; [exact Hp|]. done.
Qed.

(** The slice of a request to send, which carries no value *)
Lemma request_slice c nonce recipient payload ttl w e w' :
  c.(transferred_value) = 0 ->
  run_slice (VIbc.handle c (VIbc.SendMessage nonce recipient payload ttl)) w = (e, w') ->
  (e = Ended (Panic) \/ exists u, e = Ended (Ok u)) /\
  forall u, e = Ended (Ok u) ->
    let i := VIbc.hash_sender_nonce (VIbc.self_subject c) nonce in
    (forall m', (ibc w).(VIbc.outgoing) !! i = Some m' -> VIbc.om_ttl_block m' < host_block_number w) /\
    exists m, (VIbc.om_message m).(VIbc.msg_payload) = payload /\
      VIbc.om_ttl_block m = saturating_add u32_max (host_block_number w) ttl /\
      (ibc w').(VIbc.outgoing) = <[i := m]> (ibc w).(VIbc.outgoing) /\
      w'.(vw_proxy) = w.(vw_proxy) /\ w'.(vw_chain) = w.(vw_chain).
Proof.
  intros Hv. unfold VIbc.handle. rewrite slice_panicking, slice_bind, slice_lift.
  assert (accept_value (E := VIbc.IbcError) c true w = (Ok tt, w)) as ->
    by (unfold accept_value; by rewrite Hv).
  cbn [VIbc.run_call]. rewrite slice_lift.
  destruct (VIbc.send_message c nonce recipient payload ttl w) as [[u| |] w1] eqn:Es;
    intros [= <- <-]; (split; [eauto|]); [|done..].
  intros _ _. unfold VIbc.send_message, VIbc.ensure_unpaused, VIbc.read in Es.
  apply bind_ok in Es as (u0 & w2 & (cfg & w3 & [<- <-]%gets_ok & [_ <-]%ensure_ok)%bind_ok & Es).
  apply bind_ok in Es as (m & w2 & Hm & <-%modify_ok).
  apply vara_do_send_ok in Hm as (Hp & -> & Ho & Hpr & Hch). cbv zeta. split; [exact Hp|].
  eexists. split; [|split; [|split; [exact Ho|done]]]; done.
Qed.

Lemma handle_proxy q call : proxy_program <> ibc_program ->
  q.(gm_destination) = proxy_program -> q.(gm_call) = ProxyCall call ->
  gear_handle q = Some (VProxy.handle (mkCallEnv q.(gm_source) proxy_program q.(gm_value)) call).
Proof.
  intros Hne Hd Hc. unfold gear_handle. rewrite Hd, Hc.
  destruct (Z.eqb_spec proxy_program ibc_program); [done|]. by rewrite Z.eqb_refl.
Qed.
Lemma handle_ibc q call : q.(gm_destination) = ibc_program -> q.(gm_call) = IbcCall call ->
  gear_handle q = Some (VIbc.handle (mkCallEnv q.(gm_source) ibc_program q.(gm_value)) call).
Proof. intros Hd Hc. unfold gear_handle. by rewrite Hd, Hc, Z.eqb_refl. Qed.

(** A user's call that waits: its request *)
Lemma start_waits n q l : let n' := vara_run (Start q) n in
  proxy_program <> ibc_program ->
  q.(gm_destination) = proxy_program -> q.(gm_call) = ProxyCall (VProxy.SendActions l) ->
  n'.(next_await) = n.(next_await) + 1 ->
  addressing n'.(world) = addressing n.(world) /\ ibc n'.(world) = ibc n.(world) /\
  exists recipient payload k, let s := VProxy.proxy_of n.(world) in
    n'.(requests) = <[n.(next_await) := send_to_ibc proxy_program s.(VProxy.config).(Proxy.ibc)
      (VProxy.blake2_256_of_id s.(VProxy.next_outgoing_action_id)) recipient payload]> n.(requests) /\
    n'.(suspended) = <[n.(next_await) := mkSuspended None k]> n.(suspended) /\
    forall v, run_slice (k ReplyFailed) v = (Ended Panic, v).
Proof.
  intros n' Hne Hd Hc. subst n'. unfold net_run. rewrite (handle_proxy _ _ Hne Hd Hc). unfold settle.
  destruct (run_slice _ (world n)) as [[[u| |]|r k] w] eqn:Er; simpl; [lia..|].
  apply send_slice in Er as (Had & Hi & (recipient & payload & ->) & Hk). intros _.
  split; [done|]. split; [done|]. by exists recipient, payload, k.
Qed.

(** A request to send that is delivered *)
Lemma deliver_send i from nonce recipient payload n : let n' := vara_run (Deliver i) n in
  n.(requests) !! i = Some (send_to_ibc from ibc_program nonce recipient payload) ->
  n'.(requests) = delete i n.(requests) /\ n'.(suspended) = n.(suspended) /\
  let id := VIbc.hash_sender_nonce (VIbc.self_subject (mkCallEnv from ibc_program 0)) nonce in
  ((n'.(replies) = <[i := ReplyFailed]> n.(replies) /\ n'.(world) = n.(world)) \/
   (n'.(replies) = <[i := Replied]> n.(replies) /\
    (forall m', (ibc n.(world)).(VIbc.outgoing) !! id = Some m' ->
       VIbc.om_ttl_block m' < host_block_number n.(world)) /\
    exists m, (VIbc.om_message m).(VIbc.msg_payload) = payload /\
      VIbc.om_ttl_block m = saturating_add u32_max (host_block_number n.(world)) Proxy.MESSAGE_TTL /\
      (ibc n'.(world)).(VIbc.outgoing) = <[id := m]> (ibc n.(world)).(VIbc.outgoing) /\
      vw_proxy n'.(world) = vw_proxy n.(world) /\ vw_chain n'.(world) = vw_chain n.(world))).
Proof.
  intros n' Hr. subst n'. unfold net_run. rewrite Hr.
  erewrite handle_ibc by reflexivity. unfold settle.
  destruct (run_slice _ (world (drop_request i n))) as [e w] eqn:Es.
  apply request_slice in Es as [[->|[u ->]] Hok]; [| |done]; simpl.
  - split; [done|]. split; [done|]. by left.
  - split; [done|]. split; [done|]. right. split; [done|]. apply (Hok u eq_refl).
Qed.

(** C12: Two calls of users that wait at the same time get in each other's way.  The
    requests of both carry the same nonce, which is counted on only when the reply has
    come; once the first is sent, the second is refused, and its call ends with a panic
    - but what it had done before it waited is kept: a job that it has registered stays
    in the storage, while the only message that was sent is that of the first call. *)
Theorem waiting_calls_collide n qa qb la lb :
  let na := vara_run (Start qa) n in
  let nb := vara_run (Start qb) na in
  let n1 := vara_run (Deliver n.(next_await)) nb in
  let n2 := vara_run (Deliver na.(next_await)) n1 in
  let n3 := vara_run (Resume na.(next_await)) n2 in
  proxy_program <> ibc_program ->
  (vw_proxy n.(world)).(VProxy.config).(Proxy.ibc) = ibc_program ->
  qa.(gm_destination) = proxy_program -> qa.(gm_call) = ProxyCall (VProxy.SendActions la) ->
  qb.(gm_destination) = proxy_program -> qb.(gm_call) = ProxyCall (VProxy.SendActions lb) ->
  na.(next_await) = n.(next_await) + 1 -> nb.(next_await) = na.(next_await) + 1 ->
  host_block_number nb.(world) <= u32_max ->
  n1.(replies) !! n.(next_await) = Some Replied ->
  n2.(replies) !! na.(next_await) = Some ReplyFailed /\
  vw_proxy n3.(world) = vw_proxy nb.(world) /\
  exists i m recipient nonce, (ibc n3.(world)).(VIbc.outgoing) = <[i := m]> (ibc n.(world)).(VIbc.outgoing) /\
    nb.(requests) !! n.(next_await) =
      Some (send_to_ibc proxy_program ibc_program nonce recipient (VIbc.om_message m).(VIbc.msg_payload)).
Proof.
  intros na nb n1 n2 n3 Hne Hibc Hda Hca Hdb Hcb Hna Hnb Hblock Hr1.
  destruct (start_waits n qa la Hne Hda Hca Hna) as (Had & Hia & ra & pa & ka & Hqa & Hsa & Hka).
  destruct (start_waits na qb lb Hne Hdb Hcb Hnb) as (Hbd & Hib & rb & pb & kb & Hqb & Hsb & Hkb).
  fold na in Had, Hia, Hqa, Hsa. fold nb in Hbd, Hib, Hqb, Hsb.
  assert (VProxy.config (vw_proxy (world na)) = VProxy.config (vw_proxy (world n)) /\
    VProxy.next_outgoing_action_id (vw_proxy (world na)) =
    VProxy.next_outgoing_action_id (vw_proxy (world n))) as [Hcfg Hid] by (by injection Had).
  simpl in Hqa, Hqb. rewrite Hcfg, Hid, Hibc in Hqb. rewrite Hibc in Hqa.
  set (nonce := VProxy.blake2_256_of_id _) in Hqa, Hqb.
  (* the first request is delivered *)
  assert (requests nb !! next_await n = Some (send_to_ibc proxy_program ibc_program nonce ra pa)) as Hreq.
  { rewrite Hqb, lookup_insert_ne, Hqa, lookup_insert_eq by lia. done. }
  destruct (deliver_send _ _ _ _ _ nb Hreq) as (Hq1 & Hs1 & [[Hrep _]|(Hrep & _ & m & Hm & Httl & Hout & Hp1 & Hc1)]);
    fold n1 in Hq1, Hs1, Hrep.
  { rewrite Hrep, lookup_insert_eq in Hr1. done. }
  fold n1 in Hout, Hp1, Hc1.
  (* the second is refused *)
  assert (requests n1 !! next_await na = Some (send_to_ibc proxy_program ibc_program nonce rb pb)) as Hreq2.
  { rewrite Hq1, lookup_delete_ne, Hqb, lookup_insert_eq by lia. done. }
  destruct (deliver_send _ _ _ _ _ n1 Hreq2) as (_ & Hs2 & [[Hrep2 Hw2]|(_ & Hpend & _)]); fold n2 in Hs2.
  2: { specialize (Hpend m). rewrite Hout, lookup_insert_eq in Hpend. specialize (Hpend eq_refl).
       rewrite Httl in Hpend. unfold saturating_add, Proxy.MESSAGE_TTL in Hpend. simpl in Hpend, Hblock.
       rewrite Hc1 in Hpend. lia. }
  fold n2 in Hrep2, Hw2. split; [by rewrite Hrep2, lookup_insert_eq|].
  (* and its call gives up *)
  assert (world n3 = world n1) as Hw3.
  { subst n3. unfold net_run. rewrite Hrep2, lookup_insert_eq, Hs2, Hs1, Hsb, lookup_insert_eq.
    unfold settle. simpl. rewrite Hkb. simpl. by rewrite Hw2. }
  rewrite Hw3. split; [done|]. eexists _, m, ra, nonce. rewrite Hm. split; [|exact Hreq].
  rewrite Hout. by rewrite Hib, Hia.
Qed.

(** * Jobs

    Between two awaits, a call of the proxy registers at most one job, and asks for a
    message about it; everything else keeps what was agreed on of every job. *)
Definition stored (w : W) (i : Z) (j : Proxy.JobInformationV1) : Prop := exists b,
  (VProxy.proxy_of w).(VProxy.job_info) !! i = Some (Proxy.V1, b) /\ Proxy.decode_job b = inr j.
Definition terms (j : Proxy.JobInformationV1) :=
  (j.(Proxy.ji_schedule), j.(Proxy.ji_creator), j.(Proxy.ji_destination),
   j.(Proxy.ji_expected_fulfillment_fee), j.(Proxy.ji_maximum_reward), j.(Proxy.ji_slots)).
Notation next w := (VProxy.next_job_id (VProxy.proxy_of w)).
Notation info w := (VProxy.job_info (VProxy.proxy_of w)).

Record terms_kept (w w' : W) : Prop := {
  tk_next : next w' = next w;
  tk_new : forall i, is_Some (info w' !! i) -> is_Some (info w !! i);
  tk_terms : forall i j, stored w i j -> exists j', stored w' i j' /\ terms j' = terms j;
}.
#[local] Instance terms_kept_preorder : PreOrder terms_kept.
Proof.
  split; [split; eauto|]. intros a b c [H1 H2 H3] [H4 H5 H6].
  split; [congruence|auto|]. intros i j Hj. destruct (H3 i j Hj) as (j1 & Hj1 & Ht1).
  destruct (H6 i j1 Hj1) as (j2 & Hj2 & Ht2). exists j2. split; [done|congruence].
Qed.
Lemma terms_kept_same w w' : vw_proxy w' = vw_proxy w -> terms_kept w w'.
Proof. intros Hp. split; unfold stored; simpl; rewrite Hp; eauto. Qed.
Lemma terms_kept_jobs w w' : next w' = next w -> info w' = info w -> terms_kept w w'.
Proof. intros Hn Hi. split; [done|..]; unfold stored; rewrite Hi; eauto. Qed.

(** A new job under the next number *)
Definition registers (w w' : W) : Prop := exists b,
  next w' = wrapping_add u128_max (next w) 1 /\ info w' = <[next w := (Proxy.V1, b)]> (info w).

Definition failed {E A} (x : AW E A) : Prop :=
  match x with Finish (Ok _) => False | Finish _ => True | _ => False end.

(** [jobs_in b x post]: in every slice of [x] either the terms are kept, or one job is
    registered, which [b] still allows, and then the slice does not end before it
    waits; or it fails, and is undone.  A result leaves [post] of whether a job may be
    registered. *)
Fixpoint jobs_in {E A} (b : bool) (x : AW E A) (post : bool -> Prop) : Prop :=
  match x with
  | Finish (Ok _) => post b
  | Finish _ => True
  | Run m => forall w,
      (terms_kept w (m w).2 /\ jobs_in b (m w).1 post) \/
      (b = true /\ registers w (m w).2 /\ jobs_in false (m w).1 post) \/
      failed (m w).1
  | Await _ k => forall r, jobs_in true (k r) post
  end.

Lemma jobs_in_bind {E A B} (x : AW E A) (f : A -> AW E B) b (mid post : bool -> Prop) :
  jobs_in b x mid -> (forall a b, mid b -> jobs_in b (f a) post) -> jobs_in b (abind x f) post.
Proof.
  intros Hx Hf. revert b Hx.
  induction x as [o|m IH|q k IH] using async_induction; intros b; simpl.
  - destruct o; auto.
  - intros Hm w. specialize (Hm w). specialize (IH w). destruct (m w) as [x' w']. simpl in *.
    destruct Hm as [[Hk Hm]|[(Hb & Hr & Hm)|Hm]]; [left|right; left|right; right]; auto.
    by destruct x' as [[]| |].
  - auto.
Qed.
Lemma jobs_in_panicking {E A} (x : AW E A) b post :
  jobs_in b x post -> jobs_in (E := Empty_set) b (panicking x) post.
Proof.
  revert b. induction x as [o|m IH|q k IH] using async_induction; intros b; simpl.
  - by destruct o.
  - intros Hm w. specialize (Hm w). specialize (IH w). destruct (m w) as [x' w']. simpl in *.
    destruct Hm as [[Hk Hm]|[(Hb & Hr & Hm)|Hm]]; [left|right; left|right; right]; auto.
    by destruct x' as [[]| |].
  - auto.
Qed.
Lemma jobs_in_for {E A} (l : list A) (f : A -> AW E unit) :
  (forall a, jobs_in true (f a) (fun b => b = true)) -> jobs_in true (afor l f) (fun b => b = true).
Proof.
  intros Hf. induction l as [|a l IH]; simpl; [done|]. eapply jobs_in_bind; [apply Hf|].
  by intros _ b ->.
Qed.
Lemma jobs_in_lift {E A} (m : M W E A) b (post : bool -> Prop) :
  (forall w o w', m w = (o, w') -> terms_kept w w') -> post b -> jobs_in b (lift m) post.
Proof.
  intros Hm Hp w. specialize (Hm w). destruct (m w) as [o w'] eqn:E1. left. simpl.
  split; [by eapply Hm|by destruct o].
Qed.

Lemma slice_jobs {A} (x : AW Empty_set A) b w e w' :
  jobs_in b x (fun b => b = true) -> run_slice x w = (e, w') ->
  match e with
  | Ended (Ok _) => b = true /\ terms_kept w w'
  | Ended _ => True
  | Waiting q k => (forall r, jobs_in true (k r) (fun b => b = true)) /\
      (terms_kept w w' \/
       b = true /\ exists w1 w2, terms_kept w w1 /\ registers w1 w2 /\ terms_kept w2 w')
  end.
Proof.
  revert b w. induction x as [o|m IH|q k IH] using async_induction; intros b w; simpl.
  - intros Ho [= <- <-]. by destruct o.
  - intros Hm Hr. specialize (Hm w). specialize (IH w). destruct (m w) as [x' w1]. simpl in *.
    destruct Hm as [[Hk Hm]|[(-> & Hreg & Hm)|Hm]].
    3: { destruct x' as [[]| |]; try done; simpl in Hr; by simplify_eq. }
    all: specialize (IH _ _ Hm Hr).
    + destruct e as [[u| |]|q k]; [|done..|].
      * destruct IH. split; [done|]. by transitivity w1.
      * destruct IH as [Hq [Hk'|(-> & w2 & w3 & H1 & H2 & H3)]]; (split; [done|]).
        { left. by transitivity w1. }
        right. split; [done|]. exists w2, w3. split; [by transitivity w1|done].
    + destruct e as [[u| |]|q k]; [|done..|]; [by destruct IH|].
      destruct IH as [Hq [Hk'|[? _]]]; [|done]. split; [done|]. right. split; [done|]. by exists w, w1.
  - intros Hk [= <- <-]. split; [done|]. by left.
Qed.

(** ** The functions of the proxy *)
Definition keeps_terms {E A} (m : M W E A) : Prop := forall w o w', m w = (o, w') -> terms_kept w w'.
Lemma keeps_terms_bind {E A B} (m : M W E A) (f : A -> M W E B) :
  keeps_terms m -> (forall a, keeps_terms (f a)) -> keeps_terms (bind m f).
Proof.
  intros Hm Hf w o w' Hr. unfold bind in Hr. destruct (m w) as [[a|e|] w1] eqn:E1.
  - transitivity w1; [by eapply Hm|by eapply Hf].
  - simplify_eq. by eapply Hm.
  - simplify_eq. by eapply Hm.
Qed.
Lemma keeps_apart {E A} (m : M W E A) : framed vw_proxy m -> keeps_terms m.
Proof. intros Hm w o w' Hr. by eapply terms_kept_same, Hm. Qed.
Lemma keeps_jobs {E A} (m : M W E A) : framed (fun w => (next w, info w)) m -> keeps_terms m.
Proof. intros Hm w o w' Hr. apply Hm in Hr. injection Hr as Hn Hi. by apply terms_kept_jobs. Qed.

Lemma from_id_run i w o w' : VProxy.from_id i w = (o, w') ->
  w' = w /\ forall j, o = Ok j -> stored w i j.
Proof.
  unfold VProxy.from_id, VProxy.get_job, VProxy.read, VProxy.or_text, bind, gets. simpl.
  unfold stored. simpl.
  destruct (VProxy.job_info (vw_proxy w) !! i) as [[v b]|]; [|unfold throw; by intros [= <- <-]].
  destruct (Z.eqb_spec v Proxy.V1) as [->|]; [|unfold throw; by intros [= <- <-]].
  unfold ret. destruct (Proxy.decode_job b) as [t|j] eqn:Ed; unfold throw; intros [= <- <-]; [done|].
  split; [done|]. intros ? [= <-]. by exists b.
Qed.

Section codec.
Context (codec : forall j, Proxy.decode_job (Proxy.encode_job j) = inr j).

Lemma save_terms i j j' w o w' : stored w i j -> terms j' = terms j ->
  VProxy.save_job i j' w = (o, w') -> terms_kept w w'.
Proof using codec.
  intros (b & Hb & Hd) Ht [= _ <-]. simpl in Hb. split; simpl; [done|..].
  - intros k. destruct (decide (k = i)) as [->|Hk]; [rewrite Hb; by eexists|by rewrite lookup_insert_ne].
  - intros k j0 (b0 & Hb0 & Hd0). simpl in Hb0. unfold stored. simpl. destruct (decide (k = i)) as [->|Hk].
    + exists j'. split; [exists (Proxy.encode_job j'); by rewrite lookup_insert_eq, codec|].
      rewrite Hb in Hb0. injection Hb0 as <-. rewrite Hd in Hd0. by injection Hd0 as <-.
    + exists j0. split; [|done]. exists b0. by rewrite lookup_insert_ne.
Qed.
(** Something is paid, and the job is saved with the same terms. *)
Lemma pay_then_save {T} i j j' (pay : M W VProxy.ProxyError T) w o w' :
  framed vw_proxy pay -> stored w i j -> terms j' = terms j ->
  (pay;; VProxy.save_job i j') w = (o, w') -> terms_kept w w'.
Proof using codec.
  intros Hpay Hj Ht Hr. unfold bind in Hr. destruct (pay w) as [[a|e|] w1] eqn:E1.
  - pose proof (Hpay _ _ _ E1) as Hp. transitivity w1; [by apply terms_kept_same|].
    eapply save_terms; [|exact Ht|exact Hr]. unfold stored in *. simpl in *. by rewrite Hp.
  - simplify_eq. by eapply terms_kept_same, Hpay.
  - simplify_eq. by eapply terms_kept_same, Hpay.
Qed.
Lemma keeps_with_job {A} i (f : Proxy.JobInformationV1 -> M W VProxy.ProxyError A) :
  (forall j w o w', stored w i j -> f j w = (o, w') -> terms_kept w w') ->
  keeps_terms (bind (VProxy.from_id i) f).
Proof using.
  intros Hf w o w' Hr. unfold bind in Hr. destruct (VProxy.from_id i w) as [[j|e|] w1] eqn:Ej;
    apply from_id_run in Ej as [-> Hj].
  - eapply Hf; [by apply Hj|done].
  - by simplify_eq.
  - by simplify_eq.
Qed.

Lemma apart_pay {E} c to p n : framed (E := E) vw_proxy (send_or_panic c to p n).
Proof using. by apply framed_vara_send. Qed.

Lemma keeps_receive c payload : keeps_terms (VProxy.receive_action c payload).
Proof using codec.
  unfold VProxy.receive_action. apply keeps_terms_bind; [apply keeps_apart, (framed_weaken (fun w => w)), addressing_unpaused|].
  intros _. unfold VProxy.do_receive_action. apply keeps_terms_bind.
  { apply keeps_apart. unfold VProxy.decode_incoming_action, VProxy.or_text. solve_framed. }
  intros action. destruct (Proxy.ia_payload action) as [i processor|i unused|].
  - apply keeps_with_job. intros j w o w' Hj. cbv zeta. by eapply pay_then_save; [apply apart_pay|exact Hj|].
  - apply keeps_with_job. intros j w o w' Hj Hr. unfold bind at 1 in Hr.
    destruct (unused <=? _); [|unfold panic in Hr; by simplify_eq]. simpl in Hr.
    eapply pay_then_save; [|exact Hj| |exact Hr]; [|done].
    destruct (0 <? _); [apply apart_pay|apply framed_ret].
  - apply keeps_apart. solve_framed.
Qed.
Lemma keeps_fulfill c i payload : keeps_terms (VProxy.fulfill c i payload).
Proof using codec.
  unfold VProxy.fulfill. apply keeps_terms_bind; [apply keeps_apart, (framed_weaken (fun w => w)), addressing_unpaused|].
  intros _. unfold VProxy.do_fulfill. apply keeps_with_job. intros j w o w' Hj Hr.
  unfold bind at 1, ensure in Hr. destruct (bool_decide _); [|unfold throw in Hr; by simplify_eq].
  unfold ret in Hr. unfold bind at 1, ensure in Hr.
  destruct (bool_decide _); [|unfold throw in Hr; by simplify_eq]. unfold ret in Hr.
  assert (keeps_terms (VProxy.pass_on c (Proxy.ji_destination j) payload)) as Hpass
    by (apply keeps_apart; by apply framed_pass_on).
  unfold bind at 1 in Hr.
  destruct (VProxy.refill_fee c i j w) as [r w1] eqn:Ef.
  assert (terms_kept w w1) as Hk.
  { unfold VProxy.refill_fee in Ef. destruct (_ && _); [|unfold ret in Ef; by simplify_eq].
    eapply pay_then_save; [apply apart_pay|exact Hj| |exact Ef]. done. }
  destruct r as [u|e|]; [|by simplify_eq..]. transitivity w1; [done|]. by eapply Hpass.
Qed.
End codec.

(** ** The calls that send *)
Lemma creator_reads {A} c j (m : M W VProxy.ProxyError A) :
  framed (fun w : W => w) m -> framed (fun w : W => w) (VProxy.ensure_creator c j;; m).
Proof. intros Hm. apply framed_bind; [apply framed_ensure|done]. Qed.
Lemma send_request_jobs c action w q w' :
  VProxy.send_request (Q := GearMessage) c action w = (Ok q, w') -> terms_kept w w' \/ registers w w'.
Proof.
  unfold VProxy.send_request, VProxy.read. intros Hr.
  apply bind_ok in Hr as (p & w1 & Ho & Hr).
  apply bind_ok in Hr as (i & w2 & [_ <-]%gets_ok & Hr).
  apply bind_ok in Hr as (cfg & w2 & [_ <-]%gets_ok & Hr). cbv zeta in Hr.
  apply bind_ok in Hr as (u & w2 & [_ <-]%ensure_ok & [_ <-]%ret_ok).
  destruct action as [r|i1|ids|r|]; simpl in Ho.
  - right. unfold VProxy.register_job, VProxy.get_and_increase_next_job_id, VProxy.read in Ho.
    apply bind_ok in Ho as (j & w2 & Hj & Ho).
    apply bind_ok in Hj as (j1 & w3 & [Hn <-]%gets_ok & (u1 & w4 & <-%modify_ok & [Hj <-]%ret_ok)%bind_ok).
    apply bind_ok in Ho as (u2 & w2 & [_ <-]%ensure_ok & Ho). cbv zeta in Ho.
    apply bind_ok in Ho as (cfg1 & w2 & [_ <-]%gets_ok & Ho).
    apply bind_ok in Ho as (cost & w2 & [_ <-]%or_panic_ok & Ho).
    apply bind_ok in Ho as (u3 & w2 & [_ <-]%ensure_ok & Ho).
    apply bind_ok in Ho as (u4 & w2 & <-%modify_ok & [_ <-]%ret_ok).
    subst j j1. by eexists.
  - left. revert Ho. apply keeps_with_job. intros j v o v' _ Hb.
    apply creator_reads in Hb as ->; [done|apply framed_ret].
  - left. assert (framed (fun w : W => w) (mfor ids (VProxy.check_finalize c))) as Hf.
    { apply framed_mfor. intros i2 v o v' Hb. unfold VProxy.check_finalize, bind at 1 in Hb.
      destruct (VProxy.from_id i2 v) as [[j| |] v1] eqn:Ej; apply from_id_run in Ej as [-> _];
        [|by simplify_eq..].
      apply creator_reads in Hb; [done|]. apply framed_bind; [apply framed_gets|intros ?; apply framed_ensure]. }
    apply bind_ok in Ho as (u1 & w2 & ->%Hf & [_ <-]%ret_ok). done.
  - left. revert Ho. apply keeps_with_job. intros j v o v' _ Hb.
    apply creator_reads in Hb as ->; [done|apply framed_ret].
  - left. by apply ret_ok in Ho as [_ <-].
Qed.

Lemma jobs_in_send c action : jobs_in true (VProxy.send_action c action) (fun b => b = true).
Proof.
  unfold VProxy.send_action. intros w. unfold lift. simpl.
  destruct (VProxy.send_request c action w) as [[q|e|] w1] eqn:Eq; simpl; [|by right; right..].
  assert (forall r : Reply, jobs_in true
    (match r with
     | ReplyFailed => Finish (Err VProxy.IbcFailed)
     | Replied => lift (VProxy.get_and_increase_next_outgoing_action_id;; ret tt)
     end : AW _ unit) (fun b => b = true)) as Hr.
  { intros []; [|done]. apply jobs_in_lift; [|done]. apply keeps_jobs.
    unfold VProxy.get_and_increase_next_outgoing_action_id, VProxy.read, VProxy.write. solve_framed. }
  destruct (send_request_jobs _ _ _ _ _ Eq) as [Hk|Hk]; [left|right; left]; auto.
Qed.

Section jobs.
Context (codec : forall j, Proxy.decode_job (Proxy.encode_job j) = inr j).

Lemma jobs_in_handler q x : gear_handle q = Some x -> jobs_in true x (fun b => b = true).
Proof using codec.
  assert (forall E c, keeps_terms (E := E) (accept_value c true)) as Hv
    by (intros E c; apply keeps_apart; by apply framed_vara_value).
  unfold gear_handle. destruct (_ =? ibc_program).
  - destruct (gm_call q) as [call|call]; intros [= <-]; [|done].
    unfold VIbc.handle. apply jobs_in_panicking.
    eapply (jobs_in_bind _ _ _ (fun b => b = true)); [by apply jobs_in_lift; [apply Hv|]|].
    intros _ b ->. destruct call as [actions|s n r p sg|n r p ttl|r ttl|i sg].
    2: { cbn [VIbc.run_call]. unfold VIbc.receive_message, VIbc.do_receive_message.
         eapply (jobs_in_bind _ _ _ (fun b => b = true)).
         { apply jobs_in_lift; [|done]. apply keeps_apart, ibc_unpaused. }
         intros _ b ->. eapply (jobs_in_bind _ _ _ (fun b => b = true)).
         { apply jobs_in_lift; [|done]. apply keeps_apart. unfold VIbc.accept_message, VIbc.read,
             VIbc.block_height. solve_framed; by apply ibc_apart || apply ibc_check. }
         intros to b -> rep. apply jobs_in_lift; [|done]. apply keeps_apart, ibc_apart. }
    all: match goal with |- jobs_in _ (VIbc.run_call ?c ?call) _ =>
      destruct (ibc_run vw_proxy ltac:(done) (fun g _ => ibc_apart g) c call ltac:(done)) as (m & -> & Hm) end.
    all: by apply jobs_in_lift; [apply keeps_apart|].
  - destruct (_ =? proxy_program); [|done]. destruct (gm_call q) as [call|call]; intros [= <-]; [done|].
    unfold VProxy.handle. apply jobs_in_panicking.
    eapply (jobs_in_bind _ _ _ (fun b => b = true)); [by apply jobs_in_lift; [apply Hv|]|].
    intros _ b ->. destruct call as [actions|actions|payload|i payload]; cbn [VProxy.run_call].
    + apply jobs_in_lift; [|done]. apply keeps_jobs. unfold VProxy.configure, VProxy.ensure_owner,
        VProxy.read, VProxy.configure_one, VProxy.write_config, VProxy.write. solve_framed.
    + unfold VProxy.send_actions. eapply (jobs_in_bind _ _ _ (fun b => b = true)).
      { apply jobs_in_lift; [|done]. apply keeps_apart, (framed_weaken (fun w => w)), addressing_unpaused. }
      intros _ b ->. apply jobs_in_for. intros a. apply jobs_in_send.
    + apply jobs_in_lift; [|done]. by apply keeps_receive.
    + apply jobs_in_lift; [|done]. by apply keeps_fulfill.
Qed.

(** ** Every interleaving *)
Definition jobs_below (k : Z) (w : W) : Prop :=
  0 <= next w <= k /\ forall i, is_Some (info w !! i) -> 0 <= i < next w.
Definition jobs_ok (n : Net) : Prop :=
  jobs_below (Z.of_nat (length n.(sent))) n.(world) /\
  forall i t, n.(suspended) !! i = Some t -> forall r, jobs_in true (t.(su_next) r) (fun b => b = true).
Definition terms_stay (w w' : W) : Prop :=
  next w <= next w' /\ forall i j, stored w i j -> exists j', stored w' i j' /\ terms j' = terms j.
#[local] Instance terms_stay_preorder : PreOrder terms_stay.
Proof using.
  split; [split; eauto; lia|]. intros a b c [H1 H2] [H3 H4]. split; [lia|]. intros i j Hj.
  destruct (H2 i j Hj) as (j1 & Hj1 & E1). destruct (H4 i j1 Hj1) as (j2 & Hj2 & E2).
  exists j2. split; [done|congruence].
Qed.
Lemma kept_stay w w' : terms_kept w w' -> terms_stay w w'.
Proof using. intros [Hn _ Ht]. split; [by rewrite Hn|exact Ht]. Qed.

Lemma below_kept k w w' : terms_kept w w' -> jobs_below k w -> jobs_below k w'.
Proof using. intros [Hn Hi _] [Hk Hb]. split; [by rewrite Hn|]. intros i Hs. rewrite Hn. auto. Qed.
Lemma below_registers k w w' : registers w w' -> jobs_below k w -> k < u128_max ->
  jobs_below (k + 1) w' /\ terms_stay w w'.
Proof using.
  intros (b & Hn & Hi) [Hk Hb] Hmax. unfold wrapping_add in Hn. rewrite Z.mod_small in Hn by lia.
  split; [split; [lia|]|split; [lia|]].
  - intros i. rewrite Hi, Hn. destruct (decide (i = next w)) as [->|Hne]; [lia|].
    rewrite lookup_insert_ne by done. intros Hs. specialize (Hb i Hs). lia.
  - intros i j (b' & Hb' & Hd). exists j. split; [|done]. exists b'. split; [|done].
    rewrite Hi, lookup_insert_ne; [done|]. intros <-. specialize (Hb (next w)). rewrite Hb' in Hb.
    specialize (Hb ltac:(by eexists)). lia.
Qed.

Lemma jobs_ok_step n n' : vara_step n n' -> jobs_ok n -> Z.of_nat (length n'.(sent)) <= u128_max ->
  terms_stay n.(world) n'.(world) /\ jobs_ok n'.
Proof using codec.
  intros Hs [Hb Ha] Hmax.
  apply step_moves in Hs as [Hw Ht Hsn|rq x n1 Hx Hw Ht Hsn ->].
  - assert (vw_proxy n'.(world) = vw_proxy n.(world)) as Hp by (by destruct Hw as [->|(_ & Hp & _)]).
    pose proof (terms_kept_same _ _ Hp) as Hk. split; [by apply kept_stay|]. split; [|by rewrite Ht].
    rewrite Hsn. by eapply below_kept.
  - assert (jobs_in true x (fun b => b = true)) as Hin
      by (destruct Hx as [q Hq|i t r Hi ->]; [by eapply jobs_in_handler|by eapply Ha]).
    assert (forall i t, n1.(suspended) !! i = Some t -> forall r, jobs_in true (t.(su_next) r) (fun b => b = true))
      as Ha1 by (intros i t Hi; eapply Ha, lookup_weaken; eauto).
    destruct (settle_cases rq x n1) as [(Hw' & Ht' & Hs')|[(u & w & Hr & Hw' & Ht' & Hs')|(q & k & w & Hr & Hn)]].
    + rewrite Hw', Hw. split; [done|]. split; [by rewrite Hw', Hw, Hs', Hsn|by rewrite Ht'].
    + apply (slice_jobs _ _ _ _ _ Hin) in Hr as [_ Hk]. rewrite Hw in Hk. rewrite Hw'.
      split; [by apply kept_stay|]. split; [|by rewrite Ht']. rewrite Hw', Hs', Hsn. by eapply below_kept.
    + apply (slice_jobs _ _ _ _ _ Hin) in Hr as [Hk Hc]. rewrite Hw in Hc. rewrite Hn in Hmax |- *.
      simpl in Hmax. rewrite Hsn, length_app in Hmax. simpl in Hmax. rewrite Nat2Z.inj_add in Hmax.
      assert (terms_stay n.(world) w /\ jobs_below (Z.of_nat (length (sent n)) + 1) w) as [Hst Hb'].
      { destruct Hc as [Hk1|(_ & w1 & w2 & H1 & H2 & H3)].
        - split; [by apply kept_stay|]. eapply below_kept; [done|]. destruct Hb. split; [lia|done].
        - destruct (below_registers _ _ _ H2 (below_kept _ _ _ H1 Hb)) as [Hb2 Ht2]; [lia|].
          split; [|by eapply below_kept]. transitivity w1; [by apply kept_stay|].
          transitivity w2; [done|by apply kept_stay]. }
      split; [exact Hst|]. split.
      * simpl. rewrite Hsn, length_app, Nat2Z.inj_add. exact Hb'.
      * intros i t. simpl. intros [[<- <-]|[_ Hi]]%lookup_insert_Some; [done|]. by eapply Ha1.
Qed.

Lemma sent_grows n n' : rtc vara_step n n' -> (length n.(sent) <= length n'.(sent))%nat.
Proof using.
  induction 1 as [n|n n1 n2 Hs _ IH]; [done|]. etrans; [|exact IH].
  apply step_moves in Hs as [_ _ ->|rq x n0 _ _ _ <- ->]; [done|].
  destruct (settle_cases rq x n0) as [(_ & _ & ->)|[(u & w & _ & _ & _ & ->)|(q & k & w & _ & ->)]]; [done..|].
  simpl. rewrite length_app. lia.
Qed.

(** C11: However the calls of the proxy are interleaved, what was agreed on of a job
    stays: its schedule, its creator, the program that gets its results, the fee of an
    execution, the most that it can cost and its slots; and no number is given to two
    jobs - as long as fewer than 2^128 messages have been sent. *)
Theorem jobs_keep_their_terms n0 n n' i j :
  next n0.(world) = 0 -> info n0.(world) = ∅ -> n0.(suspended) = ∅ ->
  rtc vara_step n0 n -> rtc vara_step n n' -> Z.of_nat (length n'.(sent)) <= u128_max ->
  stored n.(world) i j ->
  0 <= i < next n.(world) /\ next n.(world) <= next n'.(world) /\
  exists j', stored n'.(world) i j' /\ terms j' = terms j.
Proof using codec.
  intros Hn Hi Ht H0 H1 Hmax Hj.
  assert (jobs_ok n0) as Hok.
  { split; [|intros k t; by rewrite Ht, lookup_empty]. split; [rewrite Hn; lia|].
    intros k. rewrite Hi, lookup_empty. by intros []. }
  assert (forall a b, rtc vara_step a b -> jobs_ok a -> Z.of_nat (length b.(sent)) <= u128_max ->
    terms_stay a.(world) b.(world) /\ jobs_ok b) as Hrun.
  { intros a b Hr. induction Hr as [a|a b c Hs Hr IH]; [by intros ? ?|]. intros Ha Hc.
    pose proof (sent_grows _ _ Hr). apply jobs_ok_step in Hs as [Hab Hb]; [|done|lia].
    destruct (IH Hb Hc) as [Hbc Hcok]. split; [by transitivity (world b)|done]. }
  pose proof (sent_grows _ _ H1) as Hlen.
  destruct (Hrun _ _ H0 Hok) as [_ Hnok]; [lia|]. destruct (Hrun _ _ H1 Hnok Hmax) as [[Hle Hst] _].
  split; [|split; [done|by apply Hst]]. destruct Hnok as [[_ Hb] _]. apply Hb.
  destruct Hj as (b & Hb' & _). rewrite Hb'. by eexists.
Qed.
End jobs.
End network.

(** * A concrete network *)
Definition NOT_ENOUGH_BALANCE : string := "NotEnoughBalance".
#[export] Instance ext_send : MsgSend InkExt := {|
  msg_send from to payload n x :=
    match ix_transfer from to n x with Some x' => inr x' | None => inl NOT_ENOUGH_BALANCE end;
|}.
#[export] Instance reference_vara : VaraChain InkExt :=
  {| vara_host := ext_host; vara_send := ext_send; ibc_program := 601; proxy_program := 602 |}.

Definition vara_tag (s : VIbc.Subject) : Z :=
  match s with
  | VIbc.Acurast (Extrinsic a) => 6 * a
  | VIbc.Acurast (Contract c) => 6 * c.(contract) + 1
  | VIbc.AlephZero (Extrinsic a) => 6 * a + 2
  | VIbc.AlephZero (Contract c) => 6 * c.(contract) + 3
  | VIbc.Vara (Extrinsic a) => 6 * a + 4
  | VIbc.Vara (Contract c) => 6 * c.(contract) + 5
  end.
Definition vara_digest (m : VIbc.Message) (relayer : option Z) : Z :=
  m.(VIbc.msg_nonce) + foldr Z.add 0 m.(VIbc.msg_payload) + default 0 relayer.
(** A signature is a key, the hash and a recovery id. *)
#[export] Instance reference_vara_crypto : VIbc.Crypto := {|
  VIbc.K256Signature := list Z * list Z;
  VIbc.RecoveryId := Z;
  VIbc.signature_from_slice l :=
    if (length l =? 64)%nat then Some (take 32 l, drop 32 l) else None;
  VIbc.recovery_id_try_from v := if v <? 4 then Some v else None;
  VIbc.recover_from_prehash h sg _ := if from_be_bytes sg.2 =? h then Some (2 :: sg.1) else None;
  VIbc.hash_sender_nonce s n := 2 ^ 64 * vara_tag s + n;
  VIbc.hash_counter n := n;
  VIbc.hash_message := vara_digest;
  VIbc.encode_account := to_be_bytes 32;
|}.
Definition v_key (k : Z) : list Z := 2 :: to_be_bytes 32 k.
Definition v_sign (k h : Z) : list Z := to_be_bytes 32 k ++ to_be_bytes 32 h ++ [27].
#[export] Instance reference_encoding : VProxy.Encoding :=
  {| VProxy.blake2_256_of_id n := n; VProxy.encode_bytes := e_bytes |}.

Notation VNet := (Net (VaraWorld InkExt) GearMessage) (only parsing).
Notation VEvent := (NetEvent (VaraWorld InkExt) GearMessage) (only parsing).
Definition v_genesis : VNet :=
  mkNet (mkVaraWorld (VIbc.init 9 None) (VProxy.init 9 None (Some 601))
           (mkInkExt (<[7 := 1000]> (<[8 := 1000]> ∅)) 10 0)) ∅ ∅ ∅ 0 [].
Definition v_runs (es : list VEvent) (n : VNet) : VNet :=
  fold_left (fun n e => net_run gear_handle e n) es n.
(** Nothing happens outside the two programs. *)
Definition inside (e : VEvent) : bool :=
  match e with Elsewhere _ _ _ | Outside _ => false | _ => true end.
Lemma v_runs_steps es n : forallb inside es = true -> rtc (net_step gear_handle gear_outside) n (v_runs es n).
Proof.
  revert n. induction es as [|e es IH]; intros n; [done|]. intros [He Hes]%andb_true_iff.
  eapply rtc_l; [|by apply IH]. constructor. by destruct e.
Qed.

(** Two oracles; registrations of one job, and the assignment of a processor to job 0 *)
Definition v_oracles : VEvent :=
  Start (mkGearMessage 9 601 0 (IbcCall (VIbc.Configure
    [VIbc.OraclePublicKeys [Ink.Add (v_key 1); Ink.Add (v_key 2)]; VIbc.MinReceiptSignatures 2]))).
Definition v_register (who : Z) : GearMessage :=
  mkGearMessage who 602 32 (ProxyCall (VProxy.SendActions [i_action])).
Definition v_assign : list Z := encode_incoming 0 (AssignJobProcessorV1 0 (to_be_bytes 32 55)).
Definition v_sender : VIbc.Subject := VIbc.Acurast (Extrinsic 1000).
Definition v_recipient : VIbc.Subject := VIbc.Vara (Contract (mkContractCall 602 None)).
Definition v_receive : VEvent :=
  let h := vara_digest (VIbc.mkMessage 0 v_sender 3 v_recipient v_assign) None in
  Start (mkGearMessage 66 601 0
    (IbcCall (VIbc.ReceiveMessage v_sender 3 v_recipient v_assign [v_sign 1 h; v_sign 2 h]))).

Notation v_ready := (v_runs [v_oracles] v_genesis).
(** The first job is registered and sent. *)
Notation v_job := (v_runs [Start (v_register 8); Deliver 0; Resume 0] v_ready).
(** Its processor is assigned, twice if the signatures are used again. *)
Notation v_assigned := (v_runs [v_receive; v_receive; Deliver 1; Resume 1] v_job).

(** The jobs and the next number of an action, what was received, the balances of the
    proxy and of the processor *)
Definition v_view (n : VNet) : Z * Z * nat * Z * Z :=
  let w := n.(world) in
  (w.(vw_proxy).(VProxy.next_job_id), w.(vw_proxy).(VProxy.next_outgoing_action_id),
   length w.(vw_ibc).(VIbc.incoming_index),
   ix_balance w.(vw_chain) 602, ix_balance w.(vw_chain) 55).
Example vara_run_of_a_job :
  v_view <$> [v_ready; v_job; v_assigned]
  = [(0, 0, 0%nat, 0, 0); (1, 1, 0%nat, 32, 0); (1, 1, 1%nat, 22, 10)].
Proof. vm_compute. reflexivity. Qed.

(** Two users register at the same time: both pay and both jobs are stored, but only
    one message is sent. *)
Notation v_two := (v_runs [Start (v_register 7); Start (v_register 8); Deliver 0; Deliver 1; Resume 1; Resume 0]
  v_ready).
Example one_of_two_jobs_is_sent :
  let w := v_two.(world) in
  (w.(vw_proxy).(VProxy.next_job_id), size w.(vw_proxy).(VProxy.job_info),
   ix_balance w.(vw_chain) 602, size w.(vw_ibc).(VIbc.outgoing)) = (2, 2%nat, 64, 1%nat).
Proof. vm_compute. reflexivity. Qed.

(** ** The theorems on this network *)
Lemma received_messages_are_passed_on_once_witness :
  let s := VIbc.ibc_of v_assigned.(world) in
  length s.(VIbc.incoming_index) = 1%nat /\
  Some <$> filter is_forward v_assigned.(sent) =
    (fun i => s.(VIbc.incoming) !! i ≫= forward_of) <$> s.(VIbc.incoming_index).
Proof.
  destruct (received_messages_are_passed_on_once (X := InkExt) v_genesis v_job v_assigned)
    as (_ & _ & _ & Hf); [reflexivity|reflexivity|reflexivity|reflexivity| | |].
  - etrans; [by apply (v_runs_steps [v_oracles])|]. by apply v_runs_steps.
  - by apply v_runs_steps.
  - split; [by_compute|exact Hf].
Defined.

Lemma waiting_calls_collide_witness :
  let na := net_run gear_handle (Start (v_register 7)) v_ready in
  let nb := net_run gear_handle (Start (v_register 8)) na in
  let n2 := net_run gear_handle (Deliver 1) (net_run gear_handle (Deliver 0) nb) in
  n2.(replies) !! 1 = Some ReplyFailed /\
  vw_proxy (world (net_run gear_handle (Resume 1) n2)) = vw_proxy nb.(world).
Proof.
  destruct (waiting_calls_collide (X := InkExt) v_ready (v_register 7) (v_register 8) [i_action] [i_action])
    as (H1 & H2 & _).
  1-10: by_compute.
  split; [exact H1|exact H2].
Defined.

Lemma jobs_keep_their_terms_witness :
  exists j j', stored v_job.(world) 0 j /\ stored v_assigned.(world) 0 j' /\ terms j' = terms j.
Proof.
  assert (exists j, stored v_job.(world) 0 j) as (j & Hj)
    by (eexists; unfold stored; eexists; split; vm_compute; reflexivity).
  destruct (jobs_keep_their_terms (X := InkExt) (D := reference_proxy_codec) job_of_to_list
              v_genesis v_job v_assigned 0 j) as (_ & _ & j' & Hj' & Ht).
  - reflexivity.
  - reflexivity.
  - reflexivity.
  - etrans; [by apply (v_runs_steps [v_oracles])|]. by apply v_runs_steps.
  - by apply v_runs_steps.
  - by_compute.
  - exact Hj.
  - exists j, j'. split; [exact Hj|]. split; [exact Hj'|exact Ht].
Defined.
